(* ===== verification/_CoqProject ===== *)
-Q . S2P
Prelude.v
Float64.v
FloatRound.v
FloatLaws.v
Price.v
PropFirm.v
Sizing.v
TradingControls.v
Regime.v
StopLoss.v
Fills.v
Gates.v
SignalGate.v
Enforcer.v
CapitalPool.v
PoolSim.v
Pipeline.v
RingBuffer.v
KillSwitch.v
Bars.v
Breaker.v
History.v
WalkForward.v
Timeline.v
Calendar.v
Trade.v
Engine.v
EngineLaws.v
Metrics.v
MultiRun.v
Adversarial.v
Hmm.v
Live.v
LiveLaws.v
BrokerAdapter.v
Driver.v
Accounts.v
Paper.v
Indicators.v
Runner.v
TrendRunners.v
FadeRunners.v
RunnerLaws.v
MeanReversion.v
Grid.v
Pairs.v
Strategies.v
Params.v
Results.v
SearchSpace.v
Ivs.v
MonteCarlo.v
OptimizedWalk.v
Jobs.v
Correlation.v
Rebalance.v
Orchestrator.v
Retention.v
Dates.v
LightOpt.v
Reoptimize.v
Progress.v
Matrix.v
RateLimiter.v
Universe.v
CandleCache.v
Performance.v
Analytics.v
DataPipeline.v
EventBus.v
Reevaluate.v
Studies.v
TaskQueue.v
EnhancedHmm.v
Book.v
OrchMatrix.v
