(* ===== verification/Prelude.v ===== *)
(** * OrcaAlgo: a verification library for the Go trading core

    OrcaAlgo is a trading platform: market data arrives as ticks, is rolled into
    bars, strategies turn bars into signals, a risk pipeline sizes, caps or
    refuses each signal, a broker (live or simulated) fills it, and the fill
    updates the capital pool and the prop-firm account.  This library models the
    deterministic core of that path, in Go under [internal/], as Rocq functions
    on explicit states, and proves what its parts promise to each other.

    ** Conventions

    - [int64], [int32] and [uint64] are [Z] with the wrap-around of [GoInt]; an
      [int8] regime is a [Z] that the code range-checks before indexing.
    - [float64] is Rocq's primitive binary64 float.  The code is taken to be
      compiled for amd64, where Go rounds after every operation and fuses
      nothing.  Float64.v relates the primitive operations to exact integers
      (every finite float is an integer multiple [fv] of 2^-1074), FloatRound.v
      proves that each operation returns a float nearest to the exact result, and
      FloatLaws.v derives the order and sign laws the other files use, together
      with the [math] functions of Go.  All bounds on floats below are bounds on
      the rounded results; where NaN or infinity matter the hypotheses say so.
    - A Go map is a [gmap]; reading an absent key gives the zero value ([mget]).
      A loop over a map that sums or updates entries does not depend on the order
      ([map_sum], [map_imap]); where it does ([EvaluateAll], the open trades of the
      engine) the order is an argument, and theorems that hold for every order say so.
    - A nil pointer or interface is [None]; a panic is [None] of the operation.
    - Most objects carry a mutex and every method is one critical section, so a
      method is a function from state to state.  Two components are concurrent by
      design and are cut at their shared accesses: RingBuffer.v, KillSwitch.v.
    - [time.Now()] is an argument, in nanoseconds.  Log output and the counters
      of [internal/monitor] are not part of the state.

    ** Files

    - Prelude.v: integers, Go maps, list lemmas, the [orca] hint databases.
    - Float64.v, FloatRound.v, FloatLaws.v: floating-point arithmetic.
    - Price.v ([internal/types/price.go]): fixed-point prices.
    - PropFirm.v ([internal/propfirm]): the rules (drawdown, daily loss,
      consistency), Module [Pool] (pool_base.go: balance, high-water mark, halts)
      and Module [Manager] (profile.go: the live account's phases, limits and
      violations).
    - Sizing.v ([internal/risk/position_sizer.go], constants.go): [PositionSizer].
    - TradingControls.v ([internal/risk/trading_controls.go]): Modules
      [OrderRateLimiter], [VolatilityHalt], [ExposureTracker].
    - Regime.v ([internal/risk/regime_activation.go]): which strategies trade in
      which regime, at what weight.
    - StopLoss.v ([internal/backtest/stop_loss.go]): brackets, exits, trailing
      stops, ATR; it also holds the [Candle] of [internal/strategy/types.go].
    - Fills.v ([internal/backtest/slippage.go], [internal/broker/fee.go]):
      slippage models, simulated fills, fees.
    - Gates.v ([internal/risk/interfaces.go]): the interfaces [CapitalGate],
      [PropFirmGate] and [SignalGate] as type classes, and one class of laws each
      ([CapitalGateLaws], ...): a pool never grants more than it is asked for, a
      halted gate stays halted, a sizer never amplifies.
    - SignalGate.v, Enforcer.v, CapitalPool.v, PoolSim.v: the implementations
      ([SignalGateImpl]; [PropFirmEnforcer] and the live [Manager];
      [CapitalPoolManager], [CapitalPoolMath] and [MultiAccountCapitalPool];
      [CapitalPoolSim]), each with its gate instance and the proof of its laws.
    - Pipeline.v ([internal/risk/pipeline.go]): [RiskPipeline], written against
      the gate classes only, so that its theorems hold for the live and for the
      backtest gates; its numbered steps are one definition each
      ([regimeWeight], [sizeSignal], [capNotional], [capAggregate], [finish],
      [authorise]) and [ProcessSignal] composes them.
    - RingBuffer.v ([internal/ingest/ring_buffer.go]): the tick queue between the
      feed and the engine.
    - KillSwitch.v ([internal/risk/kill_switch.go]): the emergency stop.
    - Bars.v ([internal/strategy/bar_aggregator.go]): ticks to bars.
    - Breaker.v ([internal/breaker/circuit_breaker.go]): the circuit breaker.
    - History.v ([internal/strategy/history.go]): the circular price history.
    - Timeline.v, Calendar.v, Trade.v, Engine.v, EngineLaws.v
      ([internal/backtest/engine.go], seasonality.go, engine_builder.go,
      [internal/market/earnings.go]): the backtest engine.  Timeline.v merges the
      candles and looks the market state up; Calendar.v is the holiday and seasonal
      multiplier; Trade.v the arithmetic of a trade; Engine.v the engine's state
      ([State]: the fields of [Engine] and the locals of [Run]) and one definition
      per step of the loop, composed by [step], [runBars] and [Run]; EngineLaws.v the
      invariant of the books ([books_ok]) and the theorems.  The engine calls
      [ProcessSignal] of Pipeline.v through gates that share its own sizer,
      volatility halt and exposure tracker ([wired], [unwired]).
    - Metrics.v ([internal/backtest/metrics.go] and engine.go): the reported metrics.
    - MultiRun.v (engine.go): [EngineMulti.RunMulti] over the pool of PoolSim.v.
    - WalkForward.v ([internal/backtest/walk_forward.go]): the window generator.
    - Adversarial.v, Hmm.v ([internal/risk/adversarial.go], hmm.go): the guard on
      the live engine's orders and its hidden Markov regime tracker.
    - Live.v, LiveLaws.v ([internal/engine/live_engine.go], runner.go,
      [internal/strategy/registry.go], [SetLiveEngine] of [internal/api/router.go]):
      the live engine.  A tick ([ProcessTickForAccount]) is [prepareTick] (tracker, bars,
      daily reset, gate setters), then [warmTick] or [evaluateTick] (registry, [screen],
      [sizeSignals], [CheckOpenStops]); [runOp] and [runLive] are its operations and runs.
    - Indicators.v, Runner.v ([internal/strategy/indicators.go], base_runner.go,
      session.go, stop_model.go, stop_profit.go, regime.go): the indicators a runner
      computes, and [BaseRunner], its price buffers, position and daily counter.
      The class [PositionRunner] states the law of the runners built on it: the signals
      follow the position ([position_law]).
    - TrendRunners.v, FadeRunners.v, MeanReversion.v, Grid.v, Pairs.v: the eighteen
      strategy runners of [internal/strategy], a Module or a file each, with state,
      constructor, [Reset], [SetParams] and [Evaluate]; RunnerLaws.v: what some of them do
      over runs of bars.
    - Strategies.v ([internal/strategy/registry.go]): [Strategy], the sum of the runners, an
      instance of the classes [StrategyRunner] and [LiveRunner] through which the two
      engines call a strategy; the factory table of [GlobalRegistry]; the engine's choice
      of a runner.  Params.v (param_def.go, param_registry.go, param_validation.go and the
      [Params] and [ParamDefs] of the runners): the parameters and their validation.
    - BrokerAdapter.v, Driver.v, Accounts.v, Paper.v ([internal/broker]): the adapter
      interface as classes over a world, and the dispatch check; the driver registry
      with its store of entries; the account manager, a client of the interface and of
      the database's; and the paper broker, an instance of the interface.
    - Results.v, SearchSpace.v, Ivs.v, MonteCarlo.v, OptimizedWalk.v, Jobs.v
      ([internal/backtest]: multi_metric_gate.go, optimizer.go, walk_forward.go,
      optimized_walk_forward.go, monte_carlo.go, job_runner.go): the gates of a run;
      parameter spaces and their enumeration; the plateau search; the simulation of equity
      paths; the class [Backtests], through which everything from here on runs an engine,
      and the optimised walk-forward; the validation jobs, a worker's writes interleaved
      with cancellations.
    - Correlation.v, Rebalance.v, Orchestrator.v (correlation_tracker.go,
      rebalance_scheduler.go, vix_detector.go, orchestrator.go): several engines on one
      account, bar by bar.
    - Retention.v, LightOpt.v, Matrix.v (retention.go, plausibility.go,
      light_optimizer.go, batch_runner.go, execution_config.go): matrix runs, what is kept
      of them, and the optimiser that precedes them, with its cache.  The workers of a
      matrix are a step relation, [dispatch].
    - Progress.v, CandleCache.v ([internal/api]: progress_store.go, the handlers' calls of
      router.go, candle_cache.go): the store a client polls while a matrix runs, fed with
      the events of Matrix.v; a cache of candles.
    - Dates.v, Reoptimize.v ([internal/scheduler/reoptimization.go],
      [internal/db/parameter_version_repo.go]): the scheduled re-optimisation and the table
      of parameter versions.
    - RateLimiter.v ([internal/risk/rate_limiter.go]): the limiter over Redis.
    - Universe.v ([internal/universe], statements of [internal/db]): which symbols are
      traded.
    - Performance.v ([internal/metrics]): the statistics of a finished run.
    - Analytics.v, DataPipeline.v ([internal/analytics], [internal/monitor/datapipeline.go]):
      order flow and volume profiles, and the consumer that feeds them from RingBuffer.v.
    - EventBus.v ([internal/reactive/event_bus.go]): the bus of signals.
    - Reevaluate.v, Studies.v, TaskQueue.v, OrchMatrix.v ([internal/backtest]:
      reevaluation.go; start_timing.go, stage_screen.go, parallel_runner.go,
      live_comparison.go, regime_filter.go; dispatcher.go; orchestrator_matrix.go): promotion
      and demotion of strategies, studies around a run, the queue of tasks, orchestrations in
      a batch.
    - EnhancedHmm.v ([internal/risk]: hmm_enhanced.go, hmm_validation.go): the filter of Hmm.v
      on five observations, and the validation of its parameters.
    - Book.v ([internal/market/orderbook.go], [internal/model]): the order book, the fill and
      fee models, the life cycle of a strategy.

    ** What is shown

    - Sizes only shrink.  [attenuated base s] (Sizing.v) says that [s] is finite
      and between 0 and [base].  The sizer, every lawful gate and the whole of
      [ProcessSignal] attenuate; the notional caps hold up to the one rounded
      multiplication and division by the price the code makes.
    - Limits hold on every run.  Invariants by induction on runs: open positions
      of the live and of the simulated pool, the drawdown limit of the enforcer,
      the high-water mark, the latch of a violation, the order limiter's sliding
      window, isolation of accounts, well-formed regime weights.
    - Halts stop.  A halted pool or prop-firm gate refuses every entry and lets
      every exit through; the emergency stop reaches every account.
    - Rules are monotone: a breach at some balance is a breach at every lower one.
    - Prices, exits and fills: the float view of a price is faithful up to 2^50
      units, a bracket straddles its entry, a bar's exit is decided on the integer
      prices, a simulated fill is never better than the market, fees are never
      negative.
    - Refinements: the ring buffer is a bounded FIFO queue, also for every
      interleaving of one producer and one consumer; the circuit breaker is its
      three-state specification; the bars are the open, high, low, close, volume
      and count of the maximal runs of ticks of one period; the firings of the
      kill switch are serial under every schedule.
    - Progress: neither side of the tick queue waits for the other; every run of the
      backtest engine and every loop over its windows returns.
    - The backtest engine: its account stays bounded, every approved signal becomes
      one trade that is opened and closed once, an entry is decided on an earlier bar
      and priced without its own bar's high, low and close, a halted account is
      frozen, a run returns, the market state of a bar comes from its past only.
      The metrics of a run are percentages where they should be, and the drawdown
      duration is the longest spell under water.
    - The live engine: no order is larger than what its strategy asked for, a halt
      latches and freezes it, the regime tracker stays a belief; and, of the engine as the
      API server wires it, that it emits no order at all and that the kill switch
      does not reach it.
    - The strategies: whatever a runner other than the grid is fed, its signals take turns,
      an entry and then an exit on the other side; the opening-range runner enters once a
      day; the grid's counter is the size of its book; until a buffer wraps, the ATR is the
      mean true range of the last bars; a runner takes back the parameters it reports, and
      the validation accepts exactly what lies in the declared bounds.  And, of what the
      runners do against their intent: the trend runner enters against the crossing, the
      crossover runner's stop never fires, a larger look-back stops the mean-reversion
      runner for good, four runners hold a position behind their entry gate, and a live
      account gets one strategy per runner name, by the map's order.
    - The brokers: routing picks the best healthy adapter and calls an operation at most
      three times, the emergency calls reach every account, the default account does
      not depend on the map order, the paper broker is long-only.
    - Searches: the enumeration of a space is its filtered product, the plateau search
      returns the best set on a plateau, the light optimiser never returns what scored
      below the defaults, the Monte Carlo report is made of percentages.
    - Concurrency of the runners: the parallel search, the simulation and the matrix give
      the same answer for every schedule; the matrix dispatcher never exceeds its workers
      and always finishes; a polling client misses and repeats no result; a batch of
      orchestrations gives the same entries for every order; the queue of tasks hands out
      no task twice.
    - Statistics: the drawdown of a curve is the largest one and is attained; the months do
      not depend on the map's order; no tick is lost between the bars; the value area holds
      its share; a verdict on a strategy does not depend on the others; a start-date sweep
      covers its span; the signed slippage stays within the absolute one.
    - Market and models: the order book stays in its bounds, its middle between its sides; a
      fill is priced near the middle; what is live has been backtested.
    - Books of the orchestrator: every position is closed in its bar and the capital is
      the initial one plus the PnL; weights are shares, a brake lasts its duration.
    - The retention keeps the Pareto front and the best; saving a version activates it
      alone.
    - Where the code does something else than its comments, its tests or its
      callers expect, the behaviour the code has is the theorem: the enforcer's
      inverted [CheckDailyLimits] and its effect through the pipeline, the dead
      daily-loss limit of the live pool, losses booked as zero, notional consumed
      by rejected orders, the trailing stop that exits on a new high, the kill
      switch that fires twice, the frozen ATR of the live engine, and others that
      their files mark.

    ** Parameters

    The engines and [CapitalPoolSim] are written against the class [StrategyRunner] (a
    runner may panic, and may or may not receive VIX, ATR and secondary prices), which
    Strategies.v implements; their theorems hold for every instance.
    The optimisers, jobs, orchestration and matrices are written against the class
    [Backtests]: an engine that runs a configuration, may fail, and is copied per
    goroutine.  A statement of the database or of Redis is a function of its documented
    behaviour, with an argument that says which statements fail; the class [Redis] states
    the laws of one pipeline.  The generators of Monte Carlo and of the candidates are the
    classes [Rand] and [PCG].
    The random generator, [math.Exp] of the fill simulator and of the regime tracker, [math.Pow] of the
    growth rate, the logarithms of Go (class [Logarithm]), the series of the indicator
    library github.com/cinar/indicator (class [Indicator]), the expense ratios of the universe file, the
    orders of Go's map ranges, and the reading and decoding of profile files are
    arguments or Section variables; no law is assumed of them except where a theorem
    names it (a range visits every entry once; [sort.Slice] returns a sorted
    permutation; [math.Exp] maps numbers that are not positive into [0, 1]).  The ML
    subsystems of both engines are nil, as their constructors leave them.

    ** Bounds and recursion

    Seven loops take fuel: the bisection of [regimeAt] has one unit more than the
    number of logs and is proved never to run out ([searchAfter_total]); the
    walk-forward generator is proved to give the same windows for every fuel from
    [rounds] on, and to have none when the code's loop does not end.  The enumeration of a
    parameter space takes one unit per combination, and its theorem gives the number; a
    grid or enumeration that does not end in the given fuel is [Endless], never a result.
    The start-date sweep ends within the number of its windows plus one.  The eviction loop of the candle cache has
    the length of its list, the chunks of a batch the number of its parameter sets.  Every other
    recursion is structural (over ticks, candles, operations, schedules or list
    entries).  Array sizes are the code's (16384 ticks, 256,
    128 and 64 bars); theorems about counters that could wrap say how long the
    run may be.

    ** Not modelled

    The replay engine, the ML models and their store, and everything that is input and output: HTTP, SQL other than the
    statements named above, websockets, file formats, notifications; it is either outside
    the trading core or has no behaviour without its device.  Of the components modelled,
    the JSON forms, the persistence of a job's progress, environment overrides and log
    output are left out.  Of [internal/strategy]: the indicator wrappers no runner calls,
    trend_filter.go, which nothing calls, and the version strings of the two runners that
    are not built on [BaseRunner]. *)
From Stdlib Require Import ZArith Lia Bool.
From stdpp Require Export base tactics option list gmap strings fin_maps numbers.
From stdpp Require Import sorting.

(** ** Machine integers

    Go's fixed-width integers are kept as [Z] with the two's complement
    wrap-around written out. *)
Module GoInt.
Local Open Scope Z_scope.

(** Signed value of the low [w] bits of [z]. *)
Definition swrap (w : Z) (z : Z) : Z :=
  (z + 2 ^ (w - 1)) mod 2 ^ w - 2 ^ (w - 1).

(** Unsigned value of the low [w] bits of [z]. *)
Definition uwrap (w : Z) (z : Z) : Z := z mod 2 ^ w.

Definition i64 (z : Z) : Z := swrap 64 z.
Definition i32 (z : Z) : Z := swrap 32 z.
Definition u64 (z : Z) : Z := uwrap 64 z.
Definition u32 (z : Z) : Z := uwrap 32 z.

Definition in_i64 (z : Z) : Prop := - 2 ^ 63 <= z < 2 ^ 63.
Definition in_i32 (z : Z) : Prop := - 2 ^ 31 <= z < 2 ^ 31.
Definition in_u64 (z : Z) : Prop := 0 <= z < 2 ^ 64.

Lemma swrap_range w z : 0 < w -> - 2 ^ (w - 1) <= swrap w z < 2 ^ (w - 1).
Proof.
  intros Hw. unfold swrap.
  assert (H2 : 2 ^ w = 2 * 2 ^ (w - 1)).
  { replace w with (Z.succ (w - 1)) at 1 by lia. apply Z.pow_succ_r. lia. }
  assert (0 < 2 ^ (w - 1)) by (apply Z.pow_pos_nonneg; lia).
  pose proof (Z.mod_pos_bound (z + 2 ^ (w - 1)) (2 ^ w) ltac:(lia)). lia.
Qed.

Lemma swrap_id w z : 0 < w -> - 2 ^ (w - 1) <= z < 2 ^ (w - 1) -> swrap w z = z.
Proof.
  intros Hw Hz. unfold swrap.
  assert (H2 : 2 ^ w = 2 * 2 ^ (w - 1)).
  { replace w with (Z.succ (w - 1)) at 1 by lia. apply Z.pow_succ_r. lia. }
  rewrite Z.mod_small; lia.
Qed.

Lemma i64_id z : in_i64 z -> i64 z = z.
Proof. intros H. apply swrap_id; [lia | exact H]. Qed.

Lemma i64_range z : in_i64 (i64 z).
Proof. apply (swrap_range 64). lia. Qed.

Lemma i32_id z : in_i32 z -> i32 z = z.
Proof. intros H. apply swrap_id; [lia | exact H]. Qed.

Lemma u64_id z : in_u64 z -> u64 z = z.
Proof. intros H. apply Z.mod_small. exact H. Qed.

Lemma u64_range z : in_u64 (u64 z).
Proof. apply Z.mod_pos_bound. lia. Qed.

(** Wrapping commutes with addition: the order of partial wraps does not
    matter for a sum. *)
Lemma i64_add_l a b : i64 (i64 a + b) = i64 (a + b).
Proof.
  unfold i64, swrap. f_equal.
  replace ((a + 2 ^ (64 - 1)) mod 2 ^ 64 - 2 ^ (64 - 1) + b + 2 ^ (64 - 1))
    with ((a + 2 ^ (64 - 1)) mod 2 ^ 64 + b) by lia.
  rewrite Zplus_mod_idemp_l. f_equal. lia.
Qed.

Lemma i64_add_r a b : i64 (a + i64 b) = i64 (a + b).
Proof. rewrite Z.add_comm, i64_add_l. f_equal. lia. Qed.
End GoInt.

(** ** Go maps with a zero value

    Reading an absent key of a [map[string]T] gives [T]'s zero value. *)
Definition mget {A} (zero : A) (m : gmap string A) (k : string) : A :=
  default zero (m !! k).

Lemma mget_insert_eq {A} (z : A) m k v : mget z (<[k := v]> m) k = v.
Proof. unfold mget. by rewrite lookup_insert_eq. Qed.

Lemma mget_insert_ne {A} (z : A) m k k' v :
  k <> k' -> mget z (<[k := v]> m) k' = mget z m k'.
Proof. intros H. unfold mget. by rewrite lookup_insert_ne. Qed.

Lemma mget_delete_eq {A} (z : A) m k : mget z (delete k m) k = z.
Proof. unfold mget. by rewrite lookup_delete_eq. Qed.

Lemma mget_delete_ne {A} (z : A) m k k' :
  k <> k' -> mget z (delete k m) k' = mget z m k'.
Proof. intros H. unfold mget. by rewrite lookup_delete_ne. Qed.

Lemma mget_empty {A} (z : A) k : mget z ∅ k = z.
Proof. unfold mget. by rewrite lookup_empty. Qed.

(** ** Counting over a Go map

    A loop that adds a count per entry gives the same total in every order. *)
Definition map_sum {A} (f : A -> nat) (m : gmap string A) : nat :=
  map_fold (fun _ x n => f x + n)%nat 0%nat m.

Lemma map_sum_empty {A} (f : A -> nat) : map_sum f ∅ = 0%nat.
Proof. unfold map_sum. by rewrite map_fold_empty. Qed.

Lemma map_sum_insert {A} (f : A -> nat) (m : gmap string A) k x :
  (map_sum f (<[k := x]> m) + default 0 (f <$> m !! k) = f x + map_sum f m)%nat.
Proof.
  assert (I : forall m k x, m !! k = None -> map_sum f (<[k := x]> m) = (f x + map_sum f m)%nat).
  { intros m' k' x' H. unfold map_sum. by rewrite map_fold_insert_L by (lia || done). }
  destruct (m !! k) as [x0|] eqn:E; cbn.
  - rewrite <- (insert_delete_id m k x0 E) at 2. rewrite <- (insert_delete_eq m k x).
    rewrite !I by apply lookup_delete_eq. lia.
  - rewrite I by done. lia.
Qed.

(** Replacing an entry by one that counts at most [d] more. *)
Lemma map_sum_replace {A} (f : A -> nat) (m : gmap string A) k x d :
  (f x <= d + default 0 (f <$> m !! k))%nat ->
  (map_sum f (<[k := x]> m) <= d + map_sum f m)%nat.
Proof. intros H. pose proof (map_sum_insert f m k x). lia. Qed.

(** A map of sizes gains at most one entry by an insertion. *)
Lemma size_insert_le {A} (m : gmap string A) k v : (size (<[k := v]> m) <= 1 + size m)%nat.
Proof. rewrite map_size_insert. destruct (m !! k); cbn; lia. Qed.

(** Removing a present entry. *)
Lemma size_delete {A} (m : gmap string A) k x : m !! k = Some x -> size m = S (size (delete k m)).
Proof.
  intros H. rewrite <- (insert_delete_id m k x H) at 1.
  by rewrite map_size_insert_None by apply lookup_delete_eq.
Qed.

Lemma elem_of_snoc {A} (l : list A) x y : x ∈ l ++ [y] -> x ∈ l \/ x = y.
Proof. rewrite elem_of_app. intros [H|H]; [by left|]. right. by apply list_elem_of_singleton in H. Qed.

(** ** The last elements of a list *)
Definition lastn {A} (n : nat) (l : list A) : list A := drop (length l - n) l.

Lemma lastn_length {A} n (l : list A) : (length (lastn n l) <= n)%nat.
Proof. unfold lastn. rewrite length_drop. lia. Qed.

Lemma lastn_snoc {A} n (l : list A) x : lastn n (lastn n l ++ [x]) = lastn n (l ++ [x]).
Proof.
  unfold lastn. rewrite !length_app, length_drop. cbn [length].
  destruct (Nat.le_gt_cases n (length l)) as [H|H].
  - replace (length l - (length l - n) + 1 - n)%nat with 1%nat by lia.
    replace (length l + 1 - n)%nat with (length l - n + 1)%nat by lia.
    destruct (Nat.eq_dec n 0%nat) as [->|Hn].
    + by rewrite !drop_ge by (rewrite ?length_app, ?length_drop; cbn; lia).
    + rewrite drop_app_le by (rewrite length_drop; lia).
      rewrite drop_app_le by lia. by rewrite drop_drop.
  - replace (length l - n)%nat with 0%nat by lia. rewrite drop_0. f_equal. lia.
Qed.

Lemma lastn_snoc_drop {A} n (l : list A) x :
  (0 < n)%nat -> lastn n (l ++ [x]) = drop (S (length l) - n - (length l - n)) (lastn n l) ++ [x].
Proof.
  intros Hn. unfold lastn. rewrite length_app, drop_drop. cbn [length].
  rewrite drop_app_le by lia. f_equal. f_equal. lia.
Qed.

(** ** [sort.Slice]

    The standard library only promises a sorted permutation: [sort.Slice] is not
    stable.  Definitions that sort take the sort as an instance of this class. *)
Definition sorted_by {A} (less : A -> A -> bool) : list A -> Prop :=
  StronglySorted (fun x y => less y x = false).

(** [less] orders like a number: what [sort.Slice] asks of it. *)
Record weak_order {A} (less : A -> A -> bool) : Prop := {
  wo_asym : forall x y, less x y = true -> less y x = false;
  wo_trans : forall x y z, less y x = false -> less z y = false -> less z x = false
}.

Class SortSlice := {
  sortSlice : forall A, (A -> A -> bool) -> list A -> list A;
  sortSlice_perm : forall A less l, sortSlice A less l ≡ₚ l;
  sortSlice_sorted : forall A less l, weak_order less -> sorted_by less (sortSlice A less l)
}.
Arguments sortSlice {_ _} _ _.

#[export] Instance not_greater_dec {A} (less : A -> A -> bool) :
  RelDecision (fun x y => less y x = false) := fun x y => decide (less y x = false).

#[export] Instance merge_slice : SortSlice.
Proof.
  refine {| sortSlice := fun A less => merge_sort (fun x y => less y x = false) |}.
  - intros A less l. apply merge_sort_Permutation.
  - intros A less l [Ha Ht]. apply StronglySorted_merge_sort.
    + intros x y z H1 H2. by apply (Ht x y z).
    + intros x y. destruct (less y x) eqn:E; [right; by apply Ha|by left].
Defined.

Lemma sorted_lookup {A} (R : A -> A -> Prop) l i j a b :
  StronglySorted R l -> (i < j)%nat -> l !! i = Some a -> l !! j = Some b -> R a b.
Proof.
  intros Hs. revert i j. induction Hs as [|x l Hs IH F]; intros i j Hij Ha Hb; [done|].
  destruct i as [|i], j as [|j]; cbn in Ha, Hb; [lia| |lia|apply (IH i j); [lia|done..]].
  injection Ha as ->. rewrite list.Forall_forall in F. apply F. by eapply list_elem_of_lookup_2.
Qed.

(** Comparing by an integer key is a weak order. *)
Lemma weak_order_key {A} (f : A -> Z) : weak_order (fun x y => (f x <? f y)%Z).
Proof. split; intros *; rewrite ?Z.ltb_lt, ?Z.ltb_ge; lia. Qed.

(** ** [sort.SliceStable]

    The stable sort is determined by its order; insertion sort computes it. *)
Fixpoint stable_insert {A} (less : A -> A -> bool) (x : A) (l : list A) : list A :=
  match l with
  | [] => [x]
  | y :: l => if less y x then y :: stable_insert less x l else x :: y :: l
  end.

Definition sliceStable {A} (less : A -> A -> bool) (l : list A) : list A :=
  foldr (stable_insert less) [] l.

Lemma stable_insert_perm {A} (less : A -> A -> bool) x l : stable_insert less x l ≡ₚ x :: l.
Proof. induction l as [|y l IH]; cbn; [done|]. case_match; [|done]. rewrite IH. apply Permutation_swap. Qed.

Lemma sliceStable_perm {A} (less : A -> A -> bool) l : sliceStable less l ≡ₚ l.
Proof. induction l as [|x l IH]; [done|]. cbn. by rewrite stable_insert_perm, IH. Qed.

(** Sorted by key, and equal keys in the order [Q] they came in. *)
Definition stably {A} (less : A -> A -> bool) (Q : A -> A -> Prop) (x y : A) : Prop :=
  less y x = false /\ (less x y = false -> Q x y).

Lemma sliceStable_sorted {A} (less : A -> A -> bool) (Q : A -> A -> Prop) l :
  weak_order less -> StronglySorted (fun x y => less x y = false -> less y x = false -> Q x y) l ->
  StronglySorted (stably less Q) (sliceStable less l).
Proof.
  intros W S. induction S as [|x l S IH F]; [constructor|]. cbn. fold (sliceStable less l).
  rewrite <- (sliceStable_perm less l) in F. revert IH F. generalize (sliceStable less l) as t.
  intros t IH F. induction IH as [|y t IH J G]; [by repeat constructor|]. cbn.
  apply Forall_cons in F as [Fy Ft]. destruct (less y x) eqn:E.
  - constructor; [by apply J|]. rewrite (stable_insert_perm less x t). constructor; [|done].
    split; [by apply W|]. intros N. congruence.
  - assert (D : stably less Q x y) by (split; [done|]; intros; by apply Fy).
    constructor; [by constructor|]. constructor; [done|].
    rewrite list.Forall_forall in G, Ft |- *. intros z Hz. destruct (G z Hz) as [G1 G2].
    assert (N : less z x = false) by (by apply (wo_trans _ W x y z)).
    split; [done|]. intros. by apply Ft.
Qed.

(** A concrete run and a value computed from it. *)
Lemma fmap_witness {A B} (f : A -> B) (o : option A) (b : B) :
  f <$> o = Some b -> exists a, o = Some a /\ f a = b.
Proof. destruct o as [a|]; [|done]. intros [= <-]. by exists a. Qed.

Lemma bind_witness {A B C} (f : A -> B -> C) (o : option A) (k : A -> option B) c :
  (o ≫= fun a => f a <$> k a) = Some c -> exists a b, o = Some a /\ k a = Some b /\ f a b = c.
Proof.
  destruct o as [a|]; [|done]. cbn. destruct (k a) as [b|] eqn:E; [|done]. intros [= <-]. by exists a, b.
Qed.

Create HintDb orca.
Create Rewrite HintDb orca.
#[export] Hint Rewrite @mget_insert_eq @mget_delete_eq @mget_empty : orca.
