(* ===== verification/Float64.v ===== *)
(** * Go's float64

    [float64] is the kernel's binary64 ([PrimFloat]), so every definition of
    the development computes bit for bit what the Go code computes.  Reasoning
    goes through [fv], the value of a float as an integer multiple of
    2^-1074 (infinities count as 2^1024): comparisons of floats become
    comparisons of integers, where [lia] applies. *)
From Stdlib Require Import ZArith Lia Bool Floats.
From S2P Require Import Prelude.

Abbreviation float64 := PrimFloat.float.

Declare Scope go_scope.
Delimit Scope go_scope with go.
Notation "x >? y" := (PrimFloat.ltb y x) : go_scope.
Notation "x >=? y" := (PrimFloat.leb y x) : go_scope.
Notation "x <? y" := (PrimFloat.ltb x y) : go_scope.
Notation "x <=? y" := (PrimFloat.leb x y) : go_scope.
Notation "x =? y" := (PrimFloat.eqb x y) : go_scope.
Notation "x + y" := (PrimFloat.add x y) : go_scope.
Notation "x - y" := (PrimFloat.sub x y) : go_scope.
Notation "x * y" := (PrimFloat.mul x y) : go_scope.
Notation "x / y" := (PrimFloat.div x y) : go_scope.
Notation "- x" := (PrimFloat.opp x) : go_scope.
Bind Scope float_scope with float64.

(** ** Values as scaled integers *)

Definition sf_nan (f : spec_float) : bool :=
  match f with S754_nan => true | _ => false end.

(** 2^1024 in units of 2^-1074: the value given to infinity. *)
Definition fmaxv : Z := (2 ^ 2098)%Z.

Lemma fmaxv_pos : (0 < fmaxv)%Z.
Proof. by apply Z.pow_pos_nonneg. Qed.

Definition sf_val (f : spec_float) : Z :=
  (match f with
   | S754_finite s m e => cond_Zopp s (Zpos m * 2 ^ (e + 1074))
   | S754_infinity s => cond_Zopp s fmaxv
   | _ => 0
   end)%Z.

Definition fnan (x : float64) : bool := sf_nan (Prim2SF x).
Definition finf (x : float64) : bool :=
  match Prim2SF x with S754_infinity _ => true | _ => false end.
Definition ffin (x : float64) : bool := negb (fnan x) && negb (finf x).
Definition fv (x : float64) : Z := sf_val (Prim2SF x).

Section Compare.
Local Open Scope Z_scope.

Lemma digits2_pos_bounds m :
  2 ^ (Zpos (digits2_pos m) - 1) <= Zpos m < 2 ^ Zpos (digits2_pos m).
Proof.
  induction m as [p IH|p IH|]; simpl digits2_pos; [| |simpl; lia].
  all: rewrite Pos2Z.inj_succ.
  all: replace (Z.succ (Zpos (digits2_pos p)) - 1) with (Z.succ (Zpos (digits2_pos p) - 1)) by lia.
  all: rewrite !Z.pow_succ_r by lia.
  all: revert IH; generalize (2 ^ (Zpos (digits2_pos p) - 1)) (2 ^ Zpos (digits2_pos p)); lia.
Qed.

Lemma bounded_fexp m e :
  bounded prec emax m e = true ->
  e = Z.max (Zpos (digits2_pos m) + e - 53) (-1074) /\ e <= 971.
Proof.
  unfold bounded, canonical_mantissa, fexp, emin, prec, emax.
  rewrite andb_true_iff, Z.eqb_eq, Z.leb_le. lia.
Qed.

Lemma bounded_mag m e :
  bounded prec emax m e = true ->
  0 < Zpos m < 2 ^ 53 /\ -1074 <= e <= 971 /\ (-1074 < e -> 2 ^ 52 <= Zpos m).
Proof.
  intros H%bounded_fexp. pose proof (digits2_pos_bounds m) as [Hl Hu].
  assert (Hd : Zpos (digits2_pos m) <= 53) by lia.
  pose proof (Z.pow_le_mono_r 2 _ _ ltac:(lia) Hd).
  split; [lia|]. split; [lia|]. intros He.
  assert (Zpos (digits2_pos m) = 53) as Heq by lia. rewrite Heq in Hl. exact Hl.
Qed.

Lemma bounded_lt m1 e1 m2 e2 :
  bounded prec emax m1 e1 = true -> bounded prec emax m2 e2 = true -> e1 < e2 ->
  Zpos m1 * 2 ^ (e1 + 1074) < Zpos m2 * 2 ^ (e2 + 1074).
Proof.
  intros H1%bounded_mag H2%bounded_mag He.
  replace (e2 + 1074) with ((e2 - e1) + (e1 + 1074)) by lia.
  rewrite (Z.pow_add_r 2 (e2 - e1)) by lia.
  assert (0 < 2 ^ (e1 + 1074)) by (apply Z.pow_pos_nonneg; lia).
  assert (2 ^ 1 <= 2 ^ (e2 - e1)) by (apply Z.pow_le_mono_r; lia).
  assert (Zpos m1 < Zpos m2 * 2 ^ (e2 - e1)) by nia.
  nia.
Qed.

Lemma bounded_val_range m e :
  bounded prec emax m e = true -> 0 < Zpos m * 2 ^ (e + 1074) < fmaxv.
Proof.
  intros H%bounded_mag. pose proof fmaxv_pos.
  assert (0 < 2 ^ (e + 1074)) by (apply Z.pow_pos_nonneg; lia).
  assert (2 ^ (e + 1074) <= 2 ^ 2045) by (apply Z.pow_le_mono_r; lia).
  change fmaxv with (2 ^ 53 * 2 ^ 2045).
  generalize dependent (2 ^ 2045). intros. nia.
Qed.

Lemma compare_cond m1 m2 k :
  0 < k -> (Zpos m1 * k ?= Zpos m2 * k) = Pos.compare m1 m2.
Proof.
  intros Hk. change (Pos.compare m1 m2) with (Zpos m1 ?= Zpos m2).
  symmetry. apply Zmult_compare_compat_r. lia.
Qed.

Lemma pos_side_compare m1 e1 m2 e2 :
  bounded prec emax m1 e1 = true -> bounded prec emax m2 e2 = true ->
  match e1 ?= e2 with Lt => Lt | Gt => Gt | Eq => Pos.compare_cont Eq m1 m2 end
  = (Zpos m1 * 2 ^ (e1 + 1074) ?= Zpos m2 * 2 ^ (e2 + 1074)).
Proof.
  intros H1 H2. destruct (Z.compare_spec e1 e2) as [->|Hlt|Hgt].
  - rewrite compare_cond; [reflexivity|].
    apply bounded_mag in H2. apply Z.pow_pos_nonneg; lia.
  - symmetry. apply Z.compare_lt_iff. by apply bounded_lt.
  - symmetry. apply Z.compare_gt_iff. by apply bounded_lt.
Qed.

(** The order of binary64 is the order of the scaled values. *)
Lemma SFcompare_val f g :
  valid_binary f = true -> valid_binary g = true ->
  sf_nan f = false -> sf_nan g = false ->
  SFcompare f g = Some (sf_val f ?= sf_val g).
Proof.
  intros Hf Hg Nf Ng.
  pose proof fmaxv_pos.
  destruct f as [s|s| |s m e], g as [s'|s'| |s' m' e']; try discriminate; simpl in Hf, Hg;
    try (pose proof (bounded_val_range _ _ Hf) as Vf);
    try (pose proof (bounded_val_range _ _ Hg) as Vg);
    try destruct s; try destruct s'; cbn [SFcompare sf_val cond_Zopp]; f_equal;
    try reflexivity;
    try (symmetry; first [apply Z.compare_lt_iff | apply Z.compare_gt_iff
                         | apply Z.compare_eq_iff]; lia).
  - pose proof (pos_side_compare _ _ _ _ Hf Hg) as E.
    rewrite Z.compare_opp, (Z.compare_antisym (Zpos m * _)), <- E.
    destruct (e ?= e'); reflexivity.
  - by apply pos_side_compare.
Qed.
End Compare.

(** ** Comparisons as integer comparisons *)
Section Order.
Local Open Scope Z_scope.

Lemma ltb_fv x y :
  (x <? y)%float = negb (fnan x) && negb (fnan y) && (fv x <? fv y).
Proof.
  rewrite FloatAxioms.ltb_spec. unfold SFltb, fnan, fv.
  destruct (sf_nan (Prim2SF x)) eqn:Nx; [by destruct (Prim2SF x)|].
  destruct (sf_nan (Prim2SF y)) eqn:Ny.
  { destruct (Prim2SF y); try discriminate. by destruct (Prim2SF x). }
  rewrite SFcompare_val by auto using Prim2SF_valid.
  unfold Z.ltb. by destruct (_ ?= _).
Qed.

Lemma leb_fv x y :
  (x <=? y)%float = negb (fnan x) && negb (fnan y) && (fv x <=? fv y).
Proof.
  rewrite FloatAxioms.leb_spec. unfold SFleb, fnan, fv.
  destruct (sf_nan (Prim2SF x)) eqn:Nx; [by destruct (Prim2SF x)|].
  destruct (sf_nan (Prim2SF y)) eqn:Ny.
  { destruct (Prim2SF y); try discriminate. by destruct (Prim2SF x). }
  rewrite SFcompare_val by auto using Prim2SF_valid.
  unfold Z.leb. by destruct (_ ?= _).
Qed.

Lemma eqb_fv x y :
  (x =? y)%float = negb (fnan x) && negb (fnan y) && (fv x =? fv y).
Proof.
  rewrite FloatAxioms.eqb_spec. unfold SFeqb, fnan, fv.
  destruct (sf_nan (Prim2SF x)) eqn:Nx; [by destruct (Prim2SF x)|].
  destruct (sf_nan (Prim2SF y)) eqn:Ny.
  { destruct (Prim2SF y); try discriminate. by destruct (Prim2SF x). }
  rewrite SFcompare_val by auto using Prim2SF_valid.
  rewrite Z.eqb_compare. by destruct (_ ?= _).
Qed.

Lemma fv_range x : - fmaxv <= fv x <= fmaxv.
Proof.
  pose proof fmaxv_pos. unfold fv. pose proof (Prim2SF_valid x) as V.
  destruct (Prim2SF x) as [s|s| |s m e]; cbn [sf_val]; try lia.
  - destruct s; cbn [cond_Zopp]; lia.
  - apply bounded_val_range in V. destruct s; cbn [cond_Zopp]; lia.
Qed.

(** Only zeros have value zero, and the two zeros compare equal. *)
Lemma fv_zero x : fnan x = false -> fv x = 0 -> exists s, Prim2SF x = S754_zero s.
Proof.
  pose proof fmaxv_pos. unfold fnan, fv. pose proof (Prim2SF_valid x) as V.
  destruct (Prim2SF x) as [s|s| |s m e]; cbn [sf_val]; intros Hn Hv; try discriminate.
  - by exists s.
  - destruct s; cbn [cond_Zopp] in Hv; lia.
  - apply bounded_val_range in V. destruct s; cbn [cond_Zopp] in Hv; lia.
Qed.

(** Away from zero, the value determines the float. *)
Lemma fv_inj x y :
  fnan x = false -> fnan y = false -> fv x = fv y -> fv x <> 0 -> x = y.
Proof.
  unfold fnan, fv. intros Nx Ny E H0. apply Prim2SF_inj.
  pose proof (Prim2SF_valid x) as Vx. pose proof (Prim2SF_valid y) as Vy.
  pose proof (SFcompare_val _ _ Vx Vy Nx Ny) as C.
  rewrite E, Z.compare_refl in C.
  destruct (Prim2SF x) as [s|s| |s m e], (Prim2SF y) as [s'|s'| |s' m' e'];
    try discriminate; try (cbn [sf_val] in H0; congruence);
    try (destruct s, s'; discriminate || reflexivity);
    try (destruct s; discriminate); try (destruct s'; discriminate).
  cbn in Vx, Vy.
  destruct s, s'; cbn in C; injection C as C; try discriminate;
    destruct (Z.compare_spec e e') as [->|?|?]; try discriminate; f_equal.
  - change (CompOpp (m ?= m')%positive = Eq) in C. apply Pos.compare_eq.
    by destruct (m ?= m')%positive.
  - by apply Pos.compare_eq.
Qed.

Lemma ffin_spec x : ffin x = true <-> fnan x = false /\ finf x = false.
Proof. unfold ffin. destruct (fnan x), (finf x); simpl; intuition congruence. Qed.

Lemma ffin_nan x : ffin x = true -> fnan x = false.
Proof. rewrite ffin_spec. tauto. Qed.

(** A finite float is strictly inside the range. *)
Lemma ffin_range x : ffin x = true -> - fmaxv < fv x < fmaxv.
Proof.
  pose proof fmaxv_pos. unfold ffin, fnan, finf, fv. pose proof (Prim2SF_valid x) as V.
  destruct (Prim2SF x) as [s|s| |s m e]; cbn [sf_val]; try discriminate; intros _; try lia.
  apply bounded_val_range in V. destruct s; cbn [cond_Zopp]; lia.
Qed.

Lemma ffin_of_range x :
  fnan x = false -> - fmaxv < fv x < fmaxv -> ffin x = true.
Proof.
  pose proof fmaxv_pos. unfold ffin, fnan, finf, fv. destruct (Prim2SF x) as [s|s| |s m e]; try done.
  destruct s; cbn [sf_val cond_Zopp]; lia.
Qed.

(** A float bracketed by finite floats is finite. *)
Lemma ffin_between a x b :
  ffin a = true -> ffin b = true -> fnan x = false -> fv a <= fv x <= fv b -> ffin x = true.
Proof.
  intros Ha%ffin_range Hb%ffin_range Hx H. apply ffin_of_range; [done|lia].
Qed.
End Order.
