(* ===== verification/FloatRound.v ===== *)
(** * Rounding to nearest

    Every arithmetic operation on [float64] returns the representable number
    nearest to the exact result.  The file proves that from the executable
    IEEE 754 specification of the standard library ([SpecFloat]) and exports it
    as [nearest]: a statement about integers from which monotonicity, sign and
    error bounds of Go's float arithmetic follow by [lia]/[nia]. *)
From Stdlib Require Import ZArith Lia Bool Floats.
From S2P Require Import Prelude Float64.
Local Open Scope Z_scope.

(** ** Locations

    [inloc l m N D]: the exact value [N / D] lies at location [l] above its
    integer part [m]. *)
Definition inloc (l : location) (m N D : Z) : Prop :=
  match l with
  | loc_Exact => N = m * D
  | loc_Inexact Lt => m * D < N /\ 2 * (N - m * D) < D
  | loc_Inexact Eq => 2 * (N - m * D) = D
  | loc_Inexact Gt => D < 2 * (N - m * D) /\ N < (m + 1) * D
  end.

Lemma inloc_floor l m N D : 0 < D -> inloc l m N D -> m * D <= N < (m + 1) * D.
Proof. intros HD. destruct l as [|[]]; simpl; nia. Qed.

Lemma shr_1_inloc mrs N D :
  0 < D -> 0 <= shr_m mrs -> inloc (loc_of_shr_record mrs) (shr_m mrs) N D ->
  0 <= shr_m (shr_1 mrs) /\
  inloc (loc_of_shr_record (shr_1 mrs)) (shr_m (shr_1 mrs)) N (2 * D).
Proof.
  intros HD. destruct mrs as [[|[p|p|]|p] r s]; simpl shr_m; intros Hm; try lia.
  all: destruct r, s; simpl; lia.
Qed.

Lemma iter_shr_1_inloc n : forall mrs N D,
  0 < D -> 0 <= shr_m mrs -> inloc (loc_of_shr_record mrs) (shr_m mrs) N D ->
  0 <= shr_m (SpecFloat.iter_pos shr_1 n mrs) /\
  inloc (loc_of_shr_record (SpecFloat.iter_pos shr_1 n mrs)) (shr_m (SpecFloat.iter_pos shr_1 n mrs))
    N (D * 2 ^ Zpos n).
Proof.
  induction n as [n IH|n IH|]; intros mrs N D HD Hm HL; cbn [SpecFloat.iter_pos].
  - destruct (shr_1_inloc mrs N D HD Hm HL) as [H1 L1].
    destruct (IH (shr_1 mrs) N (2 * D)) as [H2 L2]; [lia|done|done|].
    destruct (IH (SpecFloat.iter_pos shr_1 n (shr_1 mrs)) N (2 * D * 2 ^ Zpos n)) as [H3 L3]; [|exact H2|exact L2|].
    { apply Z.mul_pos_pos; [lia|]. by apply Z.pow_pos_nonneg. }
    split; [exact H3|].
    replace (D * 2 ^ Zpos n~1) with (2 * D * 2 ^ Zpos n * 2 ^ Zpos n); [exact L3|].
    rewrite Pos2Z.inj_xI, (Z.pow_add_r 2 (2 * Zpos n) 1), Z.pow_twice_r by lia. lia.
  - destruct (IH mrs N D HD Hm HL) as [H2 L2].
    destruct (IH (SpecFloat.iter_pos shr_1 n mrs) N (D * 2 ^ Zpos n)) as [H3 L3]; [|exact H2|exact L2|].
    { apply Z.mul_pos_pos; [lia|]. by apply Z.pow_pos_nonneg. }
    split; [exact H3|].
    replace (D * 2 ^ Zpos n~0) with (D * 2 ^ Zpos n * 2 ^ Zpos n); [exact L3|].
    replace (Zpos n~0) with (Zpos n + Zpos n) by lia.
    rewrite Z.pow_add_r by lia. lia.
  - destruct (shr_1_inloc mrs N D HD Hm HL) as [H1 L1]. split; [exact H1|].
    replace (D * 2 ^ 1) with (2 * D) by lia. exact L1.
Qed.

Lemma shr_inloc mrs e n N D :
  0 < D -> 0 <= shr_m mrs -> inloc (loc_of_shr_record mrs) (shr_m mrs) N D ->
  exists mrs', shr mrs e n = (mrs', e + Z.max 0 n) /\ 0 <= shr_m mrs' /\
    inloc (loc_of_shr_record mrs') (shr_m mrs') N (D * 2 ^ Z.max 0 n).
Proof.
  intros HD Hm HL. destruct n as [|p|p]; cbn [shr].
  - exists mrs. rewrite Z.add_0_r, Z.mul_1_r. done.
  - destruct (iter_shr_1_inloc p mrs N D HD Hm HL). exists (SpecFloat.iter_pos shr_1 p mrs).
    rewrite Z.max_r by lia. done.
  - exists mrs. rewrite Z.max_l, Z.add_0_r, Z.mul_1_r by lia. done.
Qed.

Lemma shr_fexp_inloc m e l N D :
  0 < D -> 0 <= m -> inloc l m N D ->
  let k := Z.max 0 (fexp prec emax (Zdigits2 m + e) - e) in
  exists mrs', shr_fexp prec emax m e l = (mrs', e + k) /\ 0 <= shr_m mrs' /\
    inloc (loc_of_shr_record mrs') (shr_m mrs') N (D * 2 ^ k).
Proof.
  intros HD Hm HL. apply shr_inloc; [done| |]; destruct l as [|[]]; done.
Qed.

(** Round half to even stays within half a unit. *)
Lemma rne_inloc l m N D :
  0 < D -> inloc l m N D ->
  2 * Z.abs (N - round_nearest_even m l * D) <= D /\
  (round_nearest_even m l = m \/ round_nearest_even m l = m + 1).
Proof.
  intros HD. destruct l as [|[]]; simpl; intros H; [lia| |lia|lia].
  destruct (Z.even m); lia.
Qed.

Lemma Zdigits2_bounds m : 0 < m -> 2 ^ (Zdigits2 m - 1) <= m < 2 ^ Zdigits2 m.
Proof. destruct m; try lia. intros _. apply digits2_pos_bounds. Qed.

Lemma Zdigits2_pos m : 0 < m -> 0 < Zdigits2 m.
Proof. destruct m; simpl; lia. Qed.

Lemma fexp_eq d : fexp prec emax d = Z.max (d - 53) (-1074).
Proof. reflexivity. Qed.

Lemma Zdigits2_le m k : 0 <= m < 2 ^ k -> 0 <= k -> Zdigits2 m <= k.
Proof.
  intros Hm Hk. destruct (Z.eq_dec m 0) as [->|H0]; [done|].
  pose proof (Zdigits2_bounds m ltac:(lia)) as [Hl _].
  destruct (Z.le_gt_cases (Zdigits2 m) k) as [|Hgt]; [done|].
  assert (2 ^ k <= 2 ^ (Zdigits2 m - 1)) by (apply Z.pow_le_mono_r; lia). lia.
Qed.

Lemma floor_scale m m' N D K :
  0 < D -> 0 < K -> m * D <= N < (m + 1) * D -> m' * (D * K) <= N < (m' + 1) * (D * K) ->
  m' * K <= m /\ m < (m' + 1) * K.
Proof.
  intros HD HK H1 H2. split.
  - assert (m' * K * D < (m + 1) * D) by lia. nia.
  - assert (m * D < (m' + 1) * K * D) by lia. nia.
Qed.

(** First pass: bring the mantissa to the target exponent. *)
Lemma round_first_pass m e l N D :
  0 < D -> 0 <= m -> inloc l m N D -> e <= fexp prec emax (Zdigits2 m + e) ->
  let e1 := fexp prec emax (Zdigits2 m + e) in
  exists mrs, shr_fexp prec emax m e l = (mrs, e1) /\
    0 <= shr_m mrs < 2 ^ 53 /\ -1074 <= e1 /\
    (-1074 < e1 -> 2 ^ 52 <= shr_m mrs) /\
    inloc (loc_of_shr_record mrs) (shr_m mrs) N (D * 2 ^ (e1 - e)).
Proof.
  intros HD Hm HL He e1.
  destruct (shr_fexp_inloc m e l N D HD ltac:(lia) HL) as (mrs & E & H0 & HL').
  fold e1 in E, HL', He. rewrite Z.max_r in E, HL' by lia.
  exists mrs. rewrite E. replace (e + (e1 - e)) with e1 by lia. split; [done|].
  assert (He1 : e1 = Z.max (Zdigits2 m + e - 53) (-1074)) by apply fexp_eq.
  clearbody e1. clear E.
  assert (Hk : 0 < 2 ^ (e1 - e)) by (apply Z.pow_pos_nonneg; lia).
  pose proof (inloc_floor _ _ _ _ HD HL) as F0.
  pose proof (inloc_floor _ _ _ _ (Z.mul_pos_pos _ _ HD Hk) HL') as F1.
  destruct (floor_scale m (shr_m mrs) N D _ HD Hk F0 F1) as [M1 M2].
  destruct (Z.eq_dec m 0) as [->|Hm0].
  { simpl Zdigits2 in He1. split; [nia|]. split; [lia|]. split; [lia|exact HL']. }
  pose proof (Zdigits2_bounds m ltac:(lia)) as [Hl Hu].
  pose proof (Zdigits2_pos m ltac:(lia)) as Hd.
  assert (P53 : 2 ^ Zdigits2 m <= 2 ^ 53 * 2 ^ (e1 - e)).
  { rewrite <- Z.pow_add_r by lia. apply Z.pow_le_mono_r; lia. }
  split; [nia|]. split; [lia|]. split; [|exact HL'].
  intros Hn. assert (Zdigits2 m - 1 = 52 + (e1 - e)) as Hdd by lia.
  rewrite Hdd, (Z.pow_add_r 2 52) in Hl by lia.
  assert (2 ^ 52 * 2 ^ (e1 - e) < (shr_m mrs + 1) * 2 ^ (e1 - e)) by lia. nia.
Qed.

(** Second pass: renormalise after a carry; it loses nothing. *)
Lemma round_second_pass r e1 :
  0 <= r <= 2 ^ 53 -> -1074 <= e1 ->
  exists mrs e2, shr_fexp prec emax r e1 loc_Exact = (mrs, e2) /\
    0 <= shr_m mrs /\ shr_m mrs * 2 ^ (e2 - e1) = r /\
    (e2 = e1 \/ e2 = e1 + 1 /\ r = 2 ^ 53).
Proof.
  intros Hr He.
  destruct (shr_fexp_inloc r e1 loc_Exact r 1 ltac:(lia) ltac:(lia)) as (mrs & E & H0 & HL);
    [simpl; lia|].
  destruct (Z.eq_dec r (2 ^ 53)) as [->|Hne].
  - rewrite fexp_eq in E, HL. change (Zdigits2 (2 ^ 53)) with 54 in *.
    replace (Z.max 0 _) with 1 in E, HL by lia.
    exists mrs, (e1 + 1). split; [exact E|]. split; [done|]. split; [|by right].
    apply inloc_floor in HL; [|lia]. replace (e1 + 1 - e1) with 1 by lia. lia.
  - assert (Zdigits2 r <= 53) by (apply Zdigits2_le; lia).
    rewrite fexp_eq in E, HL. replace (Z.max 0 _) with 0 in E, HL by lia.
    exists mrs, e1. rewrite E. replace (e1 + 0) with e1 by lia. split; [done|].
    split; [done|]. split; [|by left].
    apply inloc_floor in HL; [|lia]. replace (e1 - e1) with 0 by lia. lia.
Qed.

(** No representable magnitude lies strictly between two consecutive multiples
    of the rounding unit. *)
Lemma no_between w m1 e1 :
  valid_binary w = true -> -1074 <= e1 <= 971 -> 0 <= m1 ->
  (-1074 < e1 -> 2 ^ 52 <= m1) ->
  Z.abs (sf_val w) <= m1 * 2 ^ (e1 + 1074) \/
  (m1 + 1) * 2 ^ (e1 + 1074) <= Z.abs (sf_val w).
Proof.
  intros Hw He Hm Hn. assert (Hp : 0 < 2 ^ (e1 + 1074)) by (apply Z.pow_pos_nonneg; lia).
  assert (Hmul : forall n x, x = n * 2 ^ (e1 + 1074) ->
    x <= m1 * 2 ^ (e1 + 1074) \/ (m1 + 1) * 2 ^ (e1 + 1074) <= x).
  { intros n x ->. destruct (Z.le_gt_cases n m1); [left|right]; apply Z.mul_le_mono_nonneg_r; lia. }
  destruct w as [s|s| |s m e]; cbn [sf_val]; try (left; simpl; nia).
  - apply (Hmul (2 ^ (1024 - e1))). rewrite <- Z.pow_add_r by lia.
    replace (1024 - e1 + (e1 + 1074)) with 2098 by lia. by destruct s.
  - apply bounded_mag in Hw as (Hm' & He' & Hn').
    assert (0 < 2 ^ (e + 1074)) by (apply Z.pow_pos_nonneg; lia).
    replace (Z.abs _) with (Zpos m * 2 ^ (e + 1074)) by (destruct s; cbn [cond_Zopp]; lia).
    destruct (Z.le_gt_cases e1 e) as [Hle|Hgt].
    + apply (Hmul (Zpos m * 2 ^ (e - e1))). rewrite <- Z.mul_assoc, <- Z.pow_add_r by lia.
      f_equal. f_equal. lia.
    + left. specialize (Hn ltac:(lia)).
      replace (e1 + 1074) with ((e1 - e) + (e + 1074)) by lia.
      rewrite (Z.pow_add_r 2 (e1 - e)) by lia.
      assert (2 ^ 1 <= 2 ^ (e1 - e)) by (apply Z.pow_le_mono_r; lia).
      rewrite Z.mul_assoc. apply Z.mul_le_mono_nonneg_r; [lia|]. nia.
Qed.

(** ** The rounding theorem

    [a] is the magnitude of the result; [N / D] is the exact magnitude in units
    of [2^e], rescaled to the units of [sf_val] with a common exponent [K]. *)
Definition magnitude (N D a : Z) : Prop :=
  0 <= a /\
  (forall w, valid_binary w = true -> Z.abs (N - a * D) <= Z.abs (N - Z.abs (sf_val w) * D)) /\
  (a = fmaxv \/ 2 * Z.abs (N - a * D) <= D \/ 2 ^ 53 * Z.abs (N - a * D) <= N).

Lemma magnitude_scale N D a c : 0 < c -> magnitude N D a <-> magnitude (N * c) (D * c) a.
Proof.
  intros Hc. unfold magnitude.
  assert (E : forall x, Z.abs (N * c - x * (D * c)) = Z.abs (N - x * D) * c).
  { intros x. replace (N * c - x * (D * c)) with ((N - x * D) * c) by lia.
    rewrite Z.abs_mul. f_equal. lia. }
  rewrite !E. split; intros (H0 & H1 & H2); (split; [done|]; split).
  - intros w Hw. rewrite E. apply Z.mul_le_mono_nonneg_r; [lia|]. auto.
  - destruct H2 as [H2|[H2|H2]]; [by left|right; left; nia|right; right; nia].
  - intros w Hw. specialize (H1 w Hw). rewrite E in H1. nia.
  - destruct H2 as [H2|[H2|H2]]; [by left|right; left; nia|right; right; nia].
Qed.

(** Nearest among multiples of the unit is nearest among all floats. *)
Lemma magnitude_of_unit m1 r e1 N D :
  0 < D -> -1074 <= e1 <= 971 -> 0 <= m1 -> (-1074 < e1 -> 2 ^ 52 <= m1) ->
  m1 * D <= N < (m1 + 1) * D -> (r = m1 \/ r = m1 + 1) -> 2 * Z.abs (N - r * D) <= D ->
  magnitude (N * 2 ^ (e1 + 1074)) D (r * 2 ^ (e1 + 1074)).
Proof.
  intros HD He Hm Hn HF Hr HE. set (P := 2 ^ (e1 + 1074)).
  assert (HP : 0 < P) by (apply Z.pow_pos_nonneg; lia).
  assert (E : Z.abs (N * P - r * P * D) = Z.abs (N - r * D) * P).
  { replace (N * P - r * P * D) with ((N - r * D) * P) by lia.
    rewrite Z.abs_mul. f_equal. lia. }
  split; [nia|]. rewrite E. split.
  - intros w Hw.
    destruct (no_between w m1 e1 Hw He Hm Hn) as [Hlo|Hhi]; fold P in Hlo || fold P in Hhi.
    + assert ((N - m1 * D) * P <= N * P - Z.abs (sf_val w) * D) by nia.
      assert (Z.abs (N - r * D) <= N - m1 * D) by lia. nia.
    + assert (((m1 + 1) * D - N) * P <= Z.abs (sf_val w) * D - N * P) by nia.
      assert (Z.abs (N - r * D) <= (m1 + 1) * D - N) by lia. nia.
  - right. destruct (Z.eq_dec e1 (-1074)) as [->|Hne].
    + left. subst P. change (2 ^ (-1074 + 1074)) with 1. lia.
    + right. specialize (Hn ltac:(lia)).
      assert (2 ^ 53 * Z.abs (N - r * D) <= N) by nia. nia.
Qed.

(** Overflow: past 2^1024 the infinity is the nearest value. *)
Lemma sf_val_abs_le w : valid_binary w = true -> Z.abs (sf_val w) <= fmaxv.
Proof.
  pose proof fmaxv_pos.
  destruct w as [s|s| |s m e]; cbn [sf_val]; intros Hw; try (simpl Z.abs; lia).
  - destruct s; cbn [cond_Zopp]; lia.
  - apply bounded_val_range in Hw. destruct s; cbn [cond_Zopp]; lia.
Qed.

Lemma magnitude_overflow N D : 0 < D -> fmaxv * D <= N -> magnitude N D fmaxv.
Proof.
  intros HD HN. pose proof fmaxv_pos. split; [lia|]. split; [|by left].
  intros w Hw%sf_val_abs_le. pose proof (Z.abs_nonneg (sf_val w)).
  generalize dependent fmaxv. intros B ??. nia.
Qed.

Lemma binary_round_aux_spec s m e l N D :
  0 < D -> 0 <= m -> inloc l m N D -> e <= fexp prec emax (Zdigits2 m + e) ->
  exists a e1, sf_nan (binary_round_aux prec emax s m e l) = false /\
    sf_val (binary_round_aux prec emax s m e l) = cond_Zopp s a /\
    -1074 <= e1 /\ e <= e1 /\
    magnitude (N * 2 ^ (e1 + 1074)) (D * 2 ^ (e1 - e)) a.
Proof.
  intros HD Hm HL He.
  destruct (round_first_pass m e l N D HD Hm HL He) as (mrs & E1 & M1 & G1 & M2 & L1).
  set (e1 := fexp prec emax (Zdigits2 m + e)) in *. set (D1 := D * 2 ^ (e1 - e)) in *.
  assert (HD1 : 0 < D1) by (apply Z.mul_pos_pos; [done|apply Z.pow_pos_nonneg; lia]).
  pose proof (inloc_floor _ _ _ _ HD1 L1) as F1.
  destruct (rne_inloc _ _ _ _ HD1 L1) as [R1 R2].
  set (r := round_nearest_even (shr_m mrs) (loc_of_shr_record mrs)) in *.
  destruct (round_second_pass r e1 ltac:(lia) G1) as (mrs2 & e2 & E2 & P0 & P1 & P2).
  unfold binary_round_aux. rewrite E1. fold r. rewrite E2. clear E1 E2.
  destruct (Z.le_gt_cases e1 971) as [Hle|Hgt].
  - exists (r * 2 ^ (e1 + 1074)), e1.
    assert (Hmag : magnitude (N * 2 ^ (e1 + 1074)) D1 (r * 2 ^ (e1 + 1074)))
      by (apply (magnitude_of_unit (shr_m mrs)); auto; lia).
    change (emax - prec) with 971.
    assert (V : shr_m mrs2 * 2 ^ (e2 + 1074) = r * 2 ^ (e1 + 1074)).
    { rewrite <- P1, <- Z.mul_assoc, <- Z.pow_add_r by lia. f_equal. f_equal. lia. }
    destruct (shr_m mrs2) as [|p|p] eqn:Hp; [| |lia].
    + split_and!; [done| |lia|lia|exact Hmag]. rewrite <- V. by destruct s.
    + destruct (Z.leb_spec e2 971).
      * split_and!; [done| |lia|lia|exact Hmag]. cbn [sf_val]. by rewrite V.
      * destruct P2 as [->|[-> ->]]; [lia|]. assert (e1 = 971) as -> by lia.
        split_and!; [done| |lia|lia|exact Hmag]. by destruct s.
  - exists fmaxv, e1. change (emax - prec) with 971.
    specialize (M2 ltac:(lia)).
    assert (Hr : 2 ^ 52 <= r) by lia.
    destruct (shr_m mrs2) as [|p|p] eqn:Hp; [lia| |lia].
    destruct (Z.leb_spec e2 971); [lia|].
    split_and!; [done|done|lia|lia|].
    apply magnitude_overflow; [done|].
    assert (2 ^ 2046 <= 2 ^ (e1 + 1074)) by (apply Z.pow_le_mono_r; lia).
    change fmaxv with (2 ^ 52 * 2 ^ 2046).
    assert (2 ^ 52 * D1 <= N) by nia. fold D1.
    replace (2 ^ 52 * 2 ^ 2046 * D1) with (2 ^ 52 * D1 * 2 ^ 2046) by lia.
    apply Z.mul_le_mono_nonneg; [lia|assumption|by apply Z.pow_nonneg|assumption].
Qed.

(** ** Operations on floats *)

(** [nearest N D r]: [r] is the float nearest to [N / D] (in units of 2^-1074),
    with half-unit-in-the-last-place error. *)
Definition nearest (N D : Z) (r : float64) : Prop :=
  fnan r = false /\
  (forall w, fnan w = false -> Z.abs (N - fv r * D) <= Z.abs (N - fv w * D)) /\
  (Z.abs (fv r) = fmaxv \/ 2 * Z.abs (N - fv r * D) <= D \/
   2 ^ 53 * Z.abs (N - fv r * D) <= Z.abs N).

Lemma nearest_scale N D c r : 0 < c -> nearest N D r <-> nearest (N * c) (D * c) r.
Proof.
  intros Hc. unfold nearest.
  assert (E : forall x, Z.abs (N * c - x * (D * c)) = Z.abs (N - x * D) * c).
  { intros x. replace (N * c - x * (D * c)) with ((N - x * D) * c) by lia.
    rewrite Z.abs_mul. f_equal. lia. }
  assert (EN : Z.abs (N * c) = Z.abs N * c) by (rewrite Z.abs_mul; f_equal; lia).
  rewrite !E, EN. split; intros (H0 & H1 & H2); (split; [done|]; split).
  - intros w Hw. rewrite E. apply Z.mul_le_mono_nonneg_r; [lia|]. auto.
  - destruct H2 as [H2|[H2|H2]]; [by left|right; left; nia|right; right; nia].
  - intros w Hw. specialize (H1 w Hw). rewrite E in H1. nia.
  - destruct H2 as [H2|[H2|H2]]; [by left|right; left; nia|right; right; nia].
Qed.

Lemma nearest_of_magnitude s N D a r :
  0 < D -> 0 <= N -> sf_nan (Prim2SF r) = false -> sf_val (Prim2SF r) = cond_Zopp s a ->
  magnitude N D a -> nearest (cond_Zopp s N) D r.
Proof.
  intros HD HN Hn Hv (H0 & H1 & H2). unfold nearest, fnan, fv. rewrite Hv, Hn.
  assert (E : Z.abs (cond_Zopp s N - cond_Zopp s a * D) = Z.abs (N - a * D))
    by (destruct s; cbn [cond_Zopp]; lia).
  assert (EN : Z.abs (cond_Zopp s N) = N) by (destruct s; cbn [cond_Zopp]; lia).
  rewrite E, EN. split; [done|]. split.
  - intros w Hw. specialize (H1 (Prim2SF w) (Prim2SF_valid w)).
    etrans; [exact H1|]. generalize (sf_val (Prim2SF w)). intros x.
    assert (Ex : Z.abs x * D = Z.abs (x * D)) by (rewrite Z.abs_mul; f_equal; lia).
    rewrite Ex. generalize (x * D). intros y. destruct s; cbn [cond_Zopp]; lia.
  - replace (Z.abs (cond_Zopp s a)) with a by (destruct s; cbn [cond_Zopp]; lia). done.
Qed.

(** An exactly representable result is returned exactly. *)
Lemma nearest_exact N D r w :
  0 < D -> nearest N D r -> fnan w = false -> N = fv w * D -> fv r = fv w.
Proof. intros HD (_ & H & _) Hw E. specialize (H w Hw). nia. Qed.

(** Rounding is monotone with respect to representable bounds. *)
Lemma nearest_le N D r w :
  0 < D -> nearest N D r -> fnan w = false -> N <= fv w * D -> fv r <= fv w.
Proof. intros HD (_ & H & _) Hw E. specialize (H w Hw). nia. Qed.

Lemma nearest_ge N D r w :
  0 < D -> nearest N D r -> fnan w = false -> fv w * D <= N -> fv w <= fv r.
Proof. intros HD (_ & H & _) Hw E. specialize (H w Hw). nia. Qed.

(** Rounding is monotone. *)
Lemma nearest_mono N1 N2 D r1 r2 :
  0 < D -> nearest N1 D r1 -> nearest N2 D r2 -> N1 < N2 -> fv r1 <= fv r2.
Proof.
  intros HD (F1 & H1 & _) (F2 & H2 & _) Hlt.
  specialize (H1 r2 F2). specialize (H2 r1 F1). nia.
Qed.

Lemma Zdigits2_unique m d : 0 < m -> 2 ^ (d - 1) <= m < 2 ^ d -> Zdigits2 m = d.
Proof.
  intros Hm [Hl Hu]. pose proof (Zdigits2_bounds m Hm) as [Hl' Hu'].
  pose proof (Zdigits2_pos m Hm).
  assert (d - 1 < Zdigits2 m) by (apply (Z.pow_lt_mono_r_iff 2); lia).
  assert (0 <= d) by (destruct (Z.le_gt_cases 0 d); [done|rewrite Z.pow_neg_r in Hu by lia; lia]).
  assert (Zdigits2 m - 1 < d) by (apply (Z.pow_lt_mono_r_iff 2); lia). lia.
Qed.

Lemma Zdigits2_mul_pow m k : 0 < m -> 0 <= k -> Zdigits2 (m * 2 ^ k) = Zdigits2 m + k.
Proof.
  intros Hm Hk. pose proof (Zdigits2_bounds m Hm) as [Hl Hu].
  pose proof (Zdigits2_pos m Hm).
  assert (0 < 2 ^ k) by (apply Z.pow_pos_nonneg; lia).
  apply Zdigits2_unique; [nia|].
  replace (Zdigits2 m + k - 1) with (Zdigits2 m - 1 + k) by lia.
  rewrite !Z.pow_add_r by lia. nia.
Qed.

Lemma shl_align_spec mx ex ex' :
  Zpos (fst (shl_align mx ex ex')) = Zpos mx * 2 ^ (ex - Z.min ex ex') /\
  snd (shl_align mx ex ex') = Z.min ex ex'.
Proof.
  assert (Hit : forall d, Zpos (Pos.iter xO mx d) = Zpos mx * 2 ^ Zpos d).
  { intros d. induction d as [|d IH] using Pos.peano_ind; [simpl; lia|].
    rewrite Pos.iter_succ, Pos2Z.inj_succ, Z.pow_succ_r by lia. lia. }
  unfold shl_align. destruct (ex' - ex) as [|p|p] eqn:E; cbn [fst snd].
  - rewrite Z.min_l, Z.sub_diag by lia. lia.
  - rewrite Z.min_l, Z.sub_diag by lia. lia.
  - rewrite Z.min_r, Hit by lia. replace (ex - ex') with (Zpos p) by lia. done.
Qed.

(** Rounding of an integer [z] in units of [2^e]. *)
Lemma binary_round_nearest s p e r :
  -1074 <= e -> Prim2SF r = binary_round prec emax s p e ->
  nearest (cond_Zopp s (Zpos p * 2 ^ (e + 1074))) 1 r.
Proof.
  intros He Hr. unfold binary_round in Hr.
  set (e0 := fexp prec emax (Zpos (digits2_pos p) + e)) in Hr.
  destruct (shl_align_spec p e e0) as [S1 S2].
  destruct (shl_align p e e0) as [mz ez]. cbn [fst snd] in S1, S2. subst ez.
  set (ez := Z.min e e0) in *.
  assert (G0 : -1074 <= e0) by (unfold e0; rewrite fexp_eq; lia).
  assert (Hd : Zdigits2 (Zpos mz) = Zpos (digits2_pos p) + (e - ez)).
  { rewrite S1, Zdigits2_mul_pow by lia. done. }
  destruct (binary_round_aux_spec s (Zpos mz) ez loc_Exact (Zpos mz) 1)
    as (a & e1 & N1 & V1 & G1 & G2 & M1); [lia|lia|simpl; lia| |].
  { rewrite Hd. replace (Zpos (digits2_pos p) + (e - ez) + ez) with
      (Zpos (digits2_pos p) + e) by lia. fold e0. lia. }
  rewrite <- Hr in N1, V1.
  assert (0 < 2 ^ (e1 - ez)) by (apply Z.pow_pos_nonneg; lia).
  assert (HN : 0 <= Zpos mz * 2 ^ (e1 + 1074))
    by (apply Z.mul_nonneg_nonneg; [lia|by apply Z.pow_nonneg]).
  rewrite Z.mul_1_l in M1.
  pose proof (nearest_of_magnitude s _ _ _ r ltac:(eassumption) HN N1 V1 M1) as M2.
  apply (nearest_scale _ _ (2 ^ (e1 - ez))); [done|].
  replace (cond_Zopp s (Zpos p * 2 ^ (e + 1074)) * 2 ^ (e1 - ez))
    with (cond_Zopp s (Zpos mz * 2 ^ (e1 + 1074))); [rewrite Z.mul_1_l; exact M2|].
  assert (E : Zpos mz * 2 ^ (e1 + 1074) = Zpos p * 2 ^ (e + 1074) * 2 ^ (e1 - ez)).
  { rewrite S1, <- !Z.mul_assoc, <- !Z.pow_add_r by lia. f_equal. f_equal. lia. }
  rewrite E. destruct s; cbn [cond_Zopp]; lia.
Qed.

Lemma nearest_zero_of r D : 0 < D -> fnan r = false -> fv r = 0 -> nearest 0 D r.
Proof.
  intros HD Hn Hv. split; [done|]. rewrite Hv. split; [intros; lia|]. right. left. lia.
Qed.

Lemma binary_normalize_nearest z e b r :
  -1074 <= e -> Prim2SF r = binary_normalize prec emax z e b ->
  nearest (z * 2 ^ (e + 1074)) 1 r.
Proof.
  intros He Hr. destruct z as [|p|p]; cbn [binary_normalize] in Hr.
  - apply nearest_zero_of; [lia| |]; unfold fnan, fv; by rewrite Hr.
  - by apply (binary_round_nearest false).
  - apply (binary_round_nearest true) in Hr; [|done].
    cbn [cond_Zopp] in Hr. by rewrite <- Z.mul_opp_l in Hr.
Qed.

(** Exact magnitude of a finite float. *)
Lemma ffin_cases x :
  ffin x = true ->
  (exists s, Prim2SF x = S754_zero s /\ fv x = 0) \/
  (exists s m e, Prim2SF x = S754_finite s m e /\ bounded prec emax m e = true /\
     fv x = cond_Zopp s (Zpos m * 2 ^ (e + 1074))).
Proof.
  unfold ffin, fnan, finf, fv. pose proof (Prim2SF_valid x) as V.
  destruct (Prim2SF x) as [s|s| |s m e]; simpl; intros H; try done.
  - left. by exists s.
  - right. by exists s, m, e.
Qed.

Lemma fin_of_SF s m e : sf_nan (S754_finite s m e) = false. Proof. done. Qed.

(** ** Multiplication *)
Lemma mul_nearest x y :
  ffin x = true -> ffin y = true -> nearest (fv x * fv y) (2 ^ 1074) (x * y)%float.
Proof.
  intros Hx Hy. assert (HD : 0 < 2 ^ 1074) by done.
  destruct (ffin_cases x Hx) as [(s & Ex & Vx)|(s & m & e & Ex & Bx & Vx)];
  destruct (ffin_cases y Hy) as [(s' & Ey & Vy)|(s' & m' & e' & Ey & By & Vy)];
  pose proof (mul_spec x y) as Em; rewrite Ex, Ey in Em; cbn [SF64mul SFmul] in Em.
  1-3: rewrite ?Vx, ?Vy, ?Z.mul_0_l, ?Z.mul_0_r;
    apply nearest_zero_of; [done| |]; unfold fnan, fv; by rewrite Em.
  unfold SF64mul, SFmul in Em.
  assert (Hd : e + e' <= fexp prec emax (Zdigits2 (Zpos (m * m')) + (e + e'))).
  { apply bounded_fexp in Bx as [Fx _], By as [Fy _]. rewrite fexp_eq.
    pose proof (Zdigits2_bounds (Zpos m) ltac:(lia)) as [Lx _].
    pose proof (Zdigits2_bounds (Zpos m') ltac:(lia)) as [Ly _].
    cbn [Zdigits2] in Lx, Ly.
    assert (L : 2 ^ (Zpos (digits2_pos m) - 1 + (Zpos (digits2_pos m') - 1)) <= Zpos (m * m')).
    { rewrite Z.pow_add_r by lia. rewrite Pos2Z.inj_mul.
      apply Z.mul_le_mono_nonneg; auto; by apply Z.pow_nonneg. }
    pose proof (Zdigits2_bounds (Zpos (m * m')) ltac:(lia)) as [_ Up].
    assert (Zpos (digits2_pos m) - 1 + (Zpos (digits2_pos m') - 1) < Zdigits2 (Zpos (m * m')))
      by (apply (Z.pow_lt_mono_r_iff 2); [done|done|eapply Z.le_lt_trans; [exact L|exact Up]]).
    lia. }
  destruct (binary_round_aux_spec (xorb s s') (Zpos (m * m')) (e + e') loc_Exact (Zpos (m * m')) 1)
    as (a & e1 & N1 & V1 & G1 & G2 & M1); [lia|lia|simpl; lia|exact Hd|].
  rewrite <- Em in N1, V1. rewrite Z.mul_1_l in M1.
  assert (HK : 0 < 2 ^ (e1 - (e + e'))) by (apply Z.pow_pos_nonneg; lia).
  assert (HN : 0 <= Zpos (m * m') * 2 ^ (e1 + 1074))
    by (apply Z.mul_nonneg_nonneg; [lia|by apply Z.pow_nonneg]).
  pose proof (nearest_of_magnitude _ _ _ _ _ HK HN N1 V1 M1) as M2.
  apply (nearest_scale _ _ (2 ^ (e1 - (e + e')))); [done|].
  apply (nearest_scale _ _ (2 ^ 1074)) in M2; [|done].
  replace (2 ^ 1074 * 2 ^ (e1 - (e + e'))) with (2 ^ (e1 - (e + e')) * 2 ^ 1074) by lia.
  replace (fv x * fv y * 2 ^ (e1 - (e + e')))
    with (cond_Zopp (xorb s s') (Zpos (m * m') * 2 ^ (e1 + 1074)) * 2 ^ 1074); [exact M2|].
  apply bounded_mag in Bx, By.
  assert (E : 2 ^ (e1 + 1074) * 2 ^ 1074 =
    2 ^ (e + 1074) * 2 ^ (e' + 1074) * 2 ^ (e1 - (e + e'))).
  { rewrite <- !Z.pow_add_r by lia. f_equal. lia. }
  rewrite Vx, Vy, Pos2Z.inj_mul. revert E.
  generalize (2 ^ 1074) (2 ^ (e1 + 1074)) (2 ^ (e + 1074)) (2 ^ (e' + 1074)) (2 ^ (e1 - (e + e'))).
  intros A B C D F E. destruct s, s'; cbn [cond_Zopp xorb]; nia.
Qed.

Lemma nearest_self r : fnan r = false -> nearest (fv r) 1 r.
Proof.
  intros Hn. split; [done|].
  assert (E : Z.abs (fv r - fv r * 1) = 0) by lia. rewrite E.
  split; [intros; lia|]. right. left. lia.
Qed.

(** ** Addition and subtraction *)
Definition signed_sum (neg : bool) (a b : Z) : Z := if neg then a - b else a + b.

Lemma aligned_sum neg s m e s' m' e' :
  -1074 <= e -> -1074 <= e' ->
  signed_sum neg (cond_Zopp s (Zpos (fst (shl_align m e (Z.min e e')))))
                 (cond_Zopp s' (Zpos (fst (shl_align m' e' (Z.min e e'))))) * 2 ^ (Z.min e e' + 1074)
  = signed_sum neg (cond_Zopp s (Zpos m * 2 ^ (e + 1074))) (cond_Zopp s' (Zpos m' * 2 ^ (e' + 1074))).
Proof.
  intros He He'.
  destruct (shl_align_spec m e (Z.min e e')) as [-> _].
  destruct (shl_align_spec m' e' (Z.min e e')) as [-> _].
  assert (E1 : Zpos m * 2 ^ (e + 1074) =
    Zpos m * 2 ^ (e - Z.min e (Z.min e e')) * 2 ^ (Z.min e e' + 1074)).
  { rewrite <- Z.mul_assoc, <- Z.pow_add_r by lia. f_equal. f_equal. lia. }
  assert (E2 : Zpos m' * 2 ^ (e' + 1074) =
    Zpos m' * 2 ^ (e' - Z.min e' (Z.min e e')) * 2 ^ (Z.min e e' + 1074)).
  { rewrite <- Z.mul_assoc, <- Z.pow_add_r by lia. f_equal. f_equal. lia. }
  rewrite E1, E2. destruct neg, s, s'; cbn [signed_sum cond_Zopp]; lia.
Qed.

Lemma add_nearest x y :
  ffin x = true -> ffin y = true -> nearest (fv x + fv y) 1 (x + y)%float.
Proof.
  intros Hx Hy. pose proof (add_spec x y) as Em. unfold SF64add, SFadd in Em.
  destruct (ffin_cases x Hx) as [(s & Ex & Vx)|(s & m & e & Ex & Bx & Vx)];
  destruct (ffin_cases y Hy) as [(s' & Ey & Vy)|(s' & m' & e' & Ey & By & Vy)];
  rewrite Ex, Ey in Em.
  - rewrite Vx, Vy. apply nearest_zero_of; [done| |]; unfold fnan, fv; rewrite Em;
      destruct s, s'; done.
  - rewrite <- Ey in Em. apply Prim2SF_inj in Em. rewrite Vx, Em.
    by apply nearest_self, ffin_nan.
  - rewrite <- Ex in Em. apply Prim2SF_inj in Em. rewrite Vy, Em, Z.add_0_r.
    by apply nearest_self, ffin_nan.
  - apply bounded_mag in Bx, By.
    apply binary_normalize_nearest in Em; [|lia].
    pose proof (aligned_sum false s m e s' m' e' ltac:(lia) ltac:(lia)) as A.
    cbn [signed_sum] in A. rewrite A in Em. by rewrite Vx, Vy.
Qed.

Lemma sub_nearest x y :
  ffin x = true -> ffin y = true -> nearest (fv x - fv y) 1 (x - y)%float.
Proof.
  intros Hx Hy. pose proof (sub_spec x y) as Em. unfold SF64sub, SFsub in Em.
  destruct (ffin_cases x Hx) as [(s & Ex & Vx)|(s & m & e & Ex & Bx & Vx)];
  destruct (ffin_cases y Hy) as [(s' & Ey & Vy)|(s' & m' & e' & Ey & By & Vy)];
  rewrite Ex, Ey in Em.
  - rewrite Vx, Vy. apply nearest_zero_of; [done| |]; unfold fnan, fv; rewrite Em;
      destruct s, s'; done.
  - assert (Hn : fnan (x - y)%float = false) by (unfold fnan; by rewrite Em).
    assert (Hv : fv (x - y)%float = fv x - fv y).
    { rewrite Vx, Vy. unfold fv. rewrite Em. destruct s'; cbn [negb cond_Zopp sf_val]; lia. }
    rewrite <- Hv. by apply nearest_self.
  - rewrite <- Ex in Em. apply Prim2SF_inj in Em. rewrite Vy, Em, Z.sub_0_r.
    by apply nearest_self, ffin_nan.
  - apply bounded_mag in Bx, By.
    apply binary_normalize_nearest in Em; [|lia].
    pose proof (aligned_sum true s m e s' m' e' ltac:(lia) ltac:(lia)) as A.
    cbn [signed_sum] in A. rewrite A in Em. by rewrite Vx, Vy.
Qed.

(** ** Division *)
Lemma new_location_inloc q r n :
  0 < n -> 0 <= r < n -> inloc (new_location n r) q (n * q + r) n.
Proof.
  intros H0 Hr. unfold new_location, new_location_even, new_location_odd.
  change (IntDef.Z.eqb r 0) with (Z.eqb r 0).
  destruct (Z.even n) eqn:Ev; destruct (Z.eqb_spec r 0) as [->|Hr0];
    try (cbn [inloc]; lia).
  - destruct (Z.compare_spec (2 * r) n); cbn [inloc]; lia.
  - assert (Od : Z.odd n = true) by (rewrite <- Z.negb_even, Ev; done).
    apply Z.odd_spec in Od as [k Hk].
    destruct (Z.compare_spec (2 * r + 1) n); cbn [inloc]; lia.
Qed.

Lemma Zdigits2_mono a b : 0 <= a < b -> Zdigits2 a <= Zdigits2 b.
Proof.
  intros H. pose proof (Zdigits2_bounds b ltac:(lia)) as [_ U].
  apply Zdigits2_le; [lia|]. pose proof (Zdigits2_pos b ltac:(lia)). lia.
Qed.

Lemma Zdigits2_quot_bounds a b q r :
  0 < a -> 0 < b -> a = b * q + r -> 0 <= r < b -> 0 < q ->
  Zdigits2 a - Zdigits2 b <= Zdigits2 q.
Proof.
  intros Ha Hb E Hr Hq.
  pose proof (Zdigits2_bounds a Ha) as [La _]. pose proof (Zdigits2_bounds b Hb) as [_ Ub].
  pose proof (Zdigits2_bounds q Hq) as [_ Uq].
  pose proof (Zdigits2_pos a Ha). pose proof (Zdigits2_pos b Hb). pose proof (Zdigits2_pos q Hq).
  assert (a < 2 ^ (Zdigits2 b + Zdigits2 q)) by (rewrite Z.pow_add_r by lia; nia).
  assert (Zdigits2 a - 1 < Zdigits2 b + Zdigits2 q)
    by (apply (Z.pow_lt_mono_r_iff 2); [done|lia|lia]). lia.
Qed.

(** The quotient core of the division specification. *)
Lemma div_core_spec m e m' e' :
  exists q ez lz, SFdiv_core_binary prec emax (Zpos m) e (Zpos m') e' = (q, ez, lz) /\
    ez <= e - e' /\ 0 <= q /\ inloc lz q (Zpos m * 2 ^ (e - e' - ez)) (Zpos m') /\
    ez <= fexp prec emax (Zdigits2 q + ez).
Proof.
  unfold SFdiv_core_binary.
  set (x := Zdigits2 (Zpos m) + e - (Zdigits2 (Zpos m') + e')).
  set (ez := Z.min (fexp prec emax x) (e - e')). set (D := Zpos m * 2 ^ (e - e' - ez)).
  assert (Hez : ez <= e - e' /\ ez <= Z.max (x - 53) (-1074))
    by (unfold ez; rewrite fexp_eq; lia).
  assert (HM : match e - e' - ez with Zpos _ => Z.shiftl (Zpos m) (e - e' - ez)
                | Z0 => Zpos m | Zneg _ => 0 end = D).
  { unfold D. destruct (e - e' - ez) as [|p|p] eqn:E; [lia| |lia].
    by rewrite Z.shiftl_mul_pow2. }
  rewrite HM. pose proof (Z_div_mod D (Zpos m') ltac:(lia)) as HDM.
  destruct (Z.div_eucl D (Zpos m')) as [q r]. destruct HDM as [HE Hr].
  clearbody ez.
  assert (HK : 0 < 2 ^ (e - e' - ez)) by (apply Z.pow_pos_nonneg; lia).
  assert (HDd : Zdigits2 D = Zdigits2 (Zpos m) + (e - e' - ez)) by (apply Zdigits2_mul_pow; lia).
  assert (HD0 : 0 < D) by (unfold D; nia).
  exists q, ez, (new_location (Zpos m') r).
  assert (Hq : 0 <= q) by nia.
  split; [done|]. split; [lia|]. split; [done|]. split.
  - fold D. rewrite HE. apply new_location_inloc; lia.
  - rewrite fexp_eq. destruct (Z.eq_dec q 0) as [->|Hq0].
    + simpl Zdigits2. pose proof (Zdigits2_mono D (Zpos m') ltac:(lia)). lia.
    + pose proof (Zdigits2_quot_bounds D (Zpos m') q r HD0 ltac:(lia) HE Hr ltac:(lia)). lia.
Qed.

(** The quotient of finite floats by a non-zero finite float. *)
Lemma div_nearest x y :
  ffin x = true -> ffin y = true -> fv y <> 0 ->
  nearest (fv x * 2 ^ 1074 * Z.sgn (fv y)) (Z.abs (fv y)) (x / y)%float.
Proof.
  intros Hx Hy Hy0. pose proof (div_spec x y) as Em. unfold SF64div, SFdiv in Em.
  destruct (ffin_cases y Hy) as [(s' & Ey & Vy)|(s' & m' & e' & Ey & By & Vy)]; [lia|].
  pose proof (bounded_val_range _ _ By) as Ry.
  destruct (ffin_cases x Hx) as [(s & Ex & Vx)|(s & m & e & Ex & Bx & Vx)];
  rewrite Ex, Ey in Em.
  { rewrite Vx, !Z.mul_0_l. apply nearest_zero_of; [lia| |]; unfold fnan, fv; by rewrite Em. }
  destruct (div_core_spec m e m' e') as (q & ez & lz & Ec & G0 & Hq & HL & Hd).
  rewrite Ec in Em. set (N := Zpos m * 2 ^ (e - e' - ez)) in *.
  destruct (binary_round_aux_spec (xorb s s') q ez lz N (Zpos m'))
    as (a & e1 & N1 & V1 & G1 & G2 & M1); [lia|done|done|done|].
  rewrite <- Em in N1, V1.
  assert (HK : 0 < Zpos m' * 2 ^ (e1 - ez)) by (apply Z.mul_pos_pos; [lia|apply Z.pow_pos_nonneg; lia]).
  assert (HN : 0 <= N * 2 ^ (e1 + 1074)).
  { apply Z.mul_nonneg_nonneg; [apply Z.mul_nonneg_nonneg; [lia|]|]; by apply Z.pow_nonneg. }
  pose proof (nearest_of_magnitude _ _ _ _ _ HK HN N1 V1 M1) as M2.
  apply bounded_mag in Bx, By.
  set (P := 2 ^ (e1 - ez)) in *. assert (HP : 0 < P) by (apply Z.pow_pos_nonneg; lia).
  set (Q := 2 ^ (e' + 1074)) in *. assert (HQ : 0 < Q) by (apply Z.pow_pos_nonneg; lia).
  apply (nearest_scale _ _ P); [done|]. apply (nearest_scale _ _ Q) in M2; [|done].
  assert (E : N * 2 ^ (e1 + 1074) * Q = Zpos m * 2 ^ (e + 1074) * 2 ^ 1074 * P).
  { unfold N, P, Q. rewrite <- !Z.mul_assoc, <- !Z.pow_add_r by lia. f_equal. f_equal. lia. }
  assert (EV : Z.abs (fv y) = Zpos m' * Q) by (rewrite Vy; destruct s'; cbn [cond_Zopp]; lia).
  assert (ES : Z.sgn (fv y) = cond_Zopp s' 1) by (rewrite Vy; destruct s'; cbn [cond_Zopp]; lia).
  rewrite EV, ES, Vx. replace (Zpos m' * Q * P) with (Zpos m' * P * Q) by lia.
  replace (cond_Zopp s (Zpos m * 2 ^ (e + 1074)) * 2 ^ 1074 * cond_Zopp s' 1 * P)
    with (cond_Zopp (xorb s s') (N * 2 ^ (e1 + 1074)) * Q); [exact M2|].
  revert E. generalize (2 ^ 1074) (2 ^ (e + 1074)) (2 ^ (e1 + 1074)). clearbody N P Q.
  intros A B C E. destruct s, s'; cbn [cond_Zopp xorb]; lia.
Qed.

(** ** Conversion of integers *)

(** Go's [float64(z)] for an integer [z]. *)
Definition of_Z (z : Z) : float64 := SF2Prim (binary_normalize prec emax z 0 false).

Lemma binary_round_aux_valid s m e l N D :
  0 < D -> 0 <= m -> inloc l m N D -> e <= fexp prec emax (Zdigits2 m + e) ->
  valid_binary (binary_round_aux prec emax s m e l) = true.
Proof.
  intros HD Hm HL He.
  destruct (round_first_pass m e l N D HD Hm HL He) as (mrs & E1 & M1 & G1 & M2 & L1).
  set (e1 := fexp prec emax (Zdigits2 m + e)) in *.
  assert (HD1 : 0 < D * 2 ^ (e1 - e)) by (apply Z.mul_pos_pos; [done|apply Z.pow_pos_nonneg; lia]).
  destruct (rne_inloc _ _ _ _ HD1 L1) as [_ R2].
  set (r := round_nearest_even (shr_m mrs) (loc_of_shr_record mrs)) in *.
  destruct (round_second_pass r e1 ltac:(lia) G1) as (mrs2 & e2 & E2 & P0 & P1 & P2).
  unfold binary_round_aux. rewrite E1. fold r. rewrite E2.
  destruct (shr_m mrs2) as [|p|p] eqn:Hp; [done| |lia].
  change (emax - prec) with 971. destruct (Z.leb_spec e2 971); [|done].
  cbn. unfold bounded, canonical_mantissa. rewrite fexp_eq.
  change (emax - prec) with 971. apply andb_true_iff. rewrite Z.eqb_eq, Z.leb_le.
  split; [|done]. change (Zpos (digits2_pos p)) with (Zdigits2 (Zpos p)).
  pose proof (Zdigits2_pos (Zpos p) ltac:(lia)) as Hpos.
  destruct P2 as [->|[-> Hr]].
  - rewrite Z.sub_diag, Z.mul_1_r in P1.
    destruct (Z.eq_dec (Zpos p) (2 ^ 53)) as [Hc|Hc].
    { exfalso. unfold shr_fexp in E2. rewrite <- P1, Hc in E2.
      rewrite fexp_eq in E2. change (Zdigits2 (2 ^ 53)) with 54 in E2.
      replace (Z.max (54 + e1 - 53) (-1074) - e1) with 1 in E2 by lia.
      injection E2 as E2 E3. lia. }
    assert (Zdigits2 (Zpos p) <= 53) by (apply Zdigits2_le; lia).
    destruct (Z.eq_dec e1 (-1074)) as [->|Hne]; [lia|].
    specialize (M2 ltac:(lia)).
    assert (Zdigits2 (Zpos p) = 53) by (apply Zdigits2_unique; [lia|]; change (53 - 1) with 52; lia). lia.
  - replace (e1 + 1 - e1) with 1 in P1 by lia. rewrite Hr in P1.
    assert (Zpos p = 2 ^ 52) as -> by lia. change (Zdigits2 (2 ^ 52)) with 53. lia.
Qed.

Lemma of_Z_SF z : Prim2SF (of_Z z) = binary_normalize prec emax z 0 false.
Proof.
  apply Prim2SF_SF2Prim. destruct z as [|p|p]; [done| |]; cbn [binary_normalize];
    unfold binary_round;
    pose proof (shl_align_spec p 0 (fexp prec emax (Zpos (digits2_pos p) + 0))) as [S1 S2];
    destruct (shl_align _ _ _) as [mz ez]; cbn [fst snd] in S1, S2;
    (apply (binary_round_aux_valid _ _ _ _ (Zpos mz) 1); [lia|lia|simpl; lia|]);
    rewrite S1, S2, Zdigits2_mul_pow, !fexp_eq by lia; cbn [Zdigits2]; lia.
Qed.

Lemma of_Z_nearest z : nearest (z * 2 ^ 1074) 1 (of_Z z).
Proof. apply (binary_normalize_nearest z 0 false); [lia|]. apply of_Z_SF. Qed.
