(* ===== verification/FloatLaws.v ===== *)
(** * Laws of float64 arithmetic and the parts of Go's math package in use

    Derived from [FloatRound.nearest]: sign, monotonicity and contraction laws
    of the four operations, exactness of small integers, and the [math]
    functions the trading core calls ([Max], [Min], [Abs], [Round], [IsNaN],
    [IsInf], conversion to [int64]). *)
From Stdlib Require Import ZArith Lia Bool Floats.
From S2P Require Import Prelude Float64 FloatRound.
Local Open Scope Z_scope.

(** One, in units of 2^-1074. *)
Definition onev : Z := 2 ^ 1074.

Lemma onev_pos : 0 < onev. Proof. done. Qed.

Lemma fv_one : fv 1 = onev. Proof. vm_compute. reflexivity. Qed.
Lemma fv_zero_lit : fv 0 = 0. Proof. reflexivity. Qed.

(** Finite and non-negative; finite, non-negative and at most one. *)
Definition pos0 (x : float64) : Prop := ffin x = true /\ 0 <= fv x.
Definition unit0 (x : float64) : Prop := ffin x = true /\ 0 <= fv x <= onev.

Lemma pos0_fin x : pos0 x -> ffin x = true. Proof. by intros []. Qed.
Lemma pos0_nan x : pos0 x -> fnan x = false. Proof. intros []. by apply ffin_nan. Qed.
Lemma unit0_pos0 x : unit0 x -> pos0 x. Proof. intros (? & ? & ?). done. Qed.

Lemma pos0_zero : pos0 0. Proof. done. Qed.
Lemma pos0_one : pos0 1. Proof. split; [done|]. rewrite fv_one. done. Qed.

(** Multiplying a non-negative quantity by a factor in [0,1] never raises it:
    the fact behind every attenuator of the risk pipeline. *)
Lemma mul_unit_le x m :
  pos0 x -> unit0 m -> pos0 (x * m)%float /\ fv (x * m)%float <= fv x.
Proof.
  intros [Fx Hx] (Fm & Hm). pose proof (mul_nearest x m Fx Fm) as N.
  fold onev in N. pose proof onev_pos as O. pose proof (ffin_nan x Fx) as Nx.
  assert (U : fv (x * m)%float <= fv x) by (apply (nearest_le _ _ _ x O N Nx); nia).
  assert (L : fv 0 <= fv (x * m)%float)
    by (apply (nearest_ge _ _ _ 0%float O N eq_refl); rewrite fv_zero_lit; nia).
  rewrite fv_zero_lit in L. split; [|exact U]. split; [|exact L].
  apply (ffin_between 0 _ x); [done|done|apply N|rewrite fv_zero_lit; lia].
Qed.

Lemma mul_pos0 x y :
  pos0 x -> pos0 y -> fnan (x * y)%float = false /\ 0 <= fv (x * y)%float.
Proof.
  intros [Fx Hx] [Fy Hy]. pose proof (mul_nearest x y Fx Fy) as N.
  fold onev in N. pose proof onev_pos as O. split; [apply N|].
  rewrite <- fv_zero_lit. apply (nearest_ge _ _ _ 0%float O N eq_refl). rewrite fv_zero_lit. nia.
Qed.

(** A sum of non-negatives is at least each term (it may overflow). *)
Lemma add_pos0 x y :
  pos0 x -> pos0 y -> fnan (x + y)%float = false /\
  fv x <= fv (x + y)%float /\ fv y <= fv (x + y)%float.
Proof.
  intros [Fx Hx] [Fy Hy]. pose proof (add_nearest x y Fx Fy) as N. split; [apply N|].
  split; [apply (nearest_ge _ _ _ x Z.lt_0_1 N (ffin_nan _ Fx))
         |apply (nearest_ge _ _ _ y Z.lt_0_1 N (ffin_nan _ Fy))]; lia.
Qed.

Lemma sub_sign x y :
  ffin x = true -> ffin y = true ->
  fnan (x - y)%float = false /\
  (fv y <= fv x -> 0 <= fv (x - y)%float) /\ (fv x <= fv y -> fv (x - y)%float <= 0) /\
  (fv x = fv y -> fv (x - y)%float = 0).
Proof.
  intros Fx Fy. pose proof (sub_nearest x y Fx Fy) as N. split; [apply N|].
  assert (G : fv y <= fv x -> 0 <= fv (x - y)%float).
  { intros H. rewrite <- fv_zero_lit.
    apply (nearest_ge _ _ _ 0%float Z.lt_0_1 N eq_refl). rewrite fv_zero_lit. lia. }
  assert (L : fv x <= fv y -> fv (x - y)%float <= 0).
  { intros H. rewrite <- fv_zero_lit.
    apply (nearest_le _ _ _ 0%float Z.lt_0_1 N eq_refl). rewrite fv_zero_lit. lia. }
  split; [done|]. split; [done|]. intros E. specialize (G ltac:(lia)). specialize (L ltac:(lia)). lia.
Qed.

(** Subtracting a non-negative amount never raises. *)
Lemma sub_pos0_le x y :
  ffin x = true -> pos0 y -> fnan (x - y)%float = false /\ fv (x - y)%float <= fv x.
Proof.
  intros Fx [Fy Hy]. pose proof (sub_nearest x y Fx Fy) as N. split; [apply N|].
  apply (nearest_le _ _ _ x Z.lt_0_1 N (ffin_nan _ Fx)). lia.
Qed.

Lemma div_sign x y :
  ffin x = true -> ffin y = true -> 0 < fv y ->
  fnan (x / y)%float = false /\ (0 <= fv x -> 0 <= fv (x / y)%float) /\
  (fv x <= 0 -> fv (x / y)%float <= 0).
Proof.
  intros Fx Fy Hy. assert (HA : 0 < Z.abs (fv y)) by (pose proof onev_pos; lia).
  pose proof (div_nearest x y Fx Fy ltac:(lia)) as N.
  rewrite Z.sgn_pos, Z.mul_1_r in N by lia. fold onev in N. pose proof onev_pos.
  split; [apply N|]. split; intros H'; rewrite <- fv_zero_lit.
  - apply (nearest_ge _ _ _ 0%float HA N eq_refl). rewrite fv_zero_lit. nia.
  - apply (nearest_le _ _ _ 0%float HA N eq_refl). rewrite fv_zero_lit. nia.
Qed.

(** Dividing a non-negative number by one at least 1 never raises it. *)
Lemma div_ge1_le x y :
  pos0 x -> ffin y = true -> onev <= fv y ->
  pos0 (x / y)%float /\ fv (x / y)%float <= fv x.
Proof.
  intros [Fx Hx] Fy Hy. pose proof onev_pos as O.
  assert (HA : 0 < Z.abs (fv y)) by (pose proof onev_pos; lia).
  pose proof (div_nearest x y Fx Fy ltac:(lia)) as N.
  rewrite Z.sgn_pos, Z.mul_1_r in N by lia. fold onev in N.
  destruct (div_sign x y Fx Fy ltac:(lia)) as (_ & G & _). specialize (G Hx).
  assert (U : fv (x / y)%float <= fv x)
    by (apply (nearest_le _ _ _ x HA N (ffin_nan _ Fx)); nia).
  split; [|exact U]. split; [|exact G].
  apply (ffin_between 0 _ x); [done|done|apply N|rewrite fv_zero_lit; lia].
Qed.

(** Dividing by itself-or-more gives at most one. *)
Lemma div_le_one x y :
  pos0 x -> ffin y = true -> 0 < fv y -> fv x <= fv y -> unit0 (x / y)%float.
Proof.
  intros [Fx Hx] Fy Hy Hle. pose proof onev_pos as O.
  assert (HA : 0 < Z.abs (fv y)) by (pose proof onev_pos; lia).
  pose proof (div_nearest x y Fx Fy ltac:(lia)) as N.
  rewrite Z.sgn_pos, Z.mul_1_r in N by lia. fold onev in N.
  destruct (div_sign x y Fx Fy ltac:(lia)) as (_ & G & _). specialize (G Hx).
  assert (U : fv (x / y)%float <= fv 1)
    by (apply (nearest_le _ _ _ 1%float HA N eq_refl); rewrite fv_one; nia).
  rewrite fv_one in U. split; [|lia].
  apply (ffin_between 0 _ 1); [done|done|apply N|rewrite fv_zero_lit, fv_one; lia].
Qed.

(** ** Comparisons in hypotheses and goals *)

(** Rewrites every float comparison of the context into the integer order and
    splits the boolean conjunctions. *)
Ltac fcmp :=
  repeat match goal with
  | H : context [PrimFloat.ltb ?a ?b] |- _ => rewrite (ltb_fv a b) in H
  | H : context [PrimFloat.leb ?a ?b] |- _ => rewrite (leb_fv a b) in H
  | |- context [PrimFloat.ltb ?a ?b] => rewrite (ltb_fv a b)
  | |- context [PrimFloat.leb ?a ?b] => rewrite (leb_fv a b)
  end.

Lemma ltb_true x y : (x <? y)%float = true <-> fnan x = false /\ fnan y = false /\ fv x < fv y.
Proof. rewrite ltb_fv. destruct (fnan x), (fnan y); cbn; rewrite ?Z.ltb_lt; intuition (done || lia). Qed.

Lemma leb_true x y : (x <=? y)%float = true <-> fnan x = false /\ fnan y = false /\ fv x <= fv y.
Proof. rewrite leb_fv. destruct (fnan x), (fnan y); cbn; rewrite ?Z.leb_le; intuition (done || lia). Qed.

Lemma ltb_false x y :
  fnan x = false -> fnan y = false -> (x <? y)%float = false -> fv y <= fv x.
Proof. intros Hx Hy. rewrite ltb_fv, Hx, Hy. cbn. apply Z.ltb_ge. Qed.

Lemma leb_false x y :
  fnan x = false -> fnan y = false -> (x <=? y)%float = false -> fv y < fv x.
Proof. intros Hx Hy. rewrite leb_fv, Hx, Hy. cbn. apply Z.leb_gt. Qed.

Lemma ltb_fv_nn x y :
  fnan x = false -> fnan y = false -> (x <? y)%float = (fv x <? fv y).
Proof. intros Hx Hy. by rewrite ltb_fv, Hx, Hy. Qed.

Lemma leb_fv_nn x y :
  fnan x = false -> fnan y = false -> (x <=? y)%float = (fv x <=? fv y).
Proof. intros Hx Hy. by rewrite leb_fv, Hx, Hy. Qed.

Lemma ltb_irrefl x : (x <? x)%float = false.
Proof. rewrite ltb_fv, Z.ltb_irrefl. by rewrite andb_false_r. Qed.

Lemma ltb_asym x y : (x <? y)%float = true -> (y <? x)%float = false.
Proof.
  intros (Hx & Hy & H)%ltb_true. rewrite ltb_fv_nn by done. apply Z.ltb_ge. lia.
Qed.

Lemma ltb_not_leb x y : (x <? y)%float = true -> (y <=? x)%float = false.
Proof.
  intros (Hx & Hy & H)%ltb_true. rewrite leb_fv_nn by done. apply Z.leb_gt. lia.
Qed.

Lemma leb_not_ltb x y : (x <=? y)%float = true -> (y <? x)%float = false.
Proof.
  intros (Hx & Hy & H)%leb_true. rewrite ltb_fv_nn by done. apply Z.ltb_ge. lia.
Qed.

Lemma leb_ltb_trans x y z :
  (x <=? y)%float = true -> (y <? z)%float = true -> (x <? z)%float = true.
Proof. rewrite leb_true, !ltb_true. intros (? & ? & ?) (? & ? & ?). repeat split; auto; lia. Qed.

Lemma ltb_leb_trans x y z :
  (x <? y)%float = true -> (y <=? z)%float = true -> (x <? z)%float = true.
Proof. rewrite leb_true, !ltb_true. intros (? & ? & ?) (? & ? & ?). repeat split; auto; lia. Qed.

Lemma leb_trans x y z :
  (x <=? y)%float = true -> (y <=? z)%float = true -> (x <=? z)%float = true.
Proof. rewrite !leb_true. intros (? & ? & ?) (? & ? & ?). repeat split; auto; lia. Qed.

Lemma leb_refl x : fnan x = false -> (x <=? x)%float = true.
Proof. intros H. rewrite leb_true. repeat split; auto; lia. Qed.

(** ** Go's math package *)
Module math.
Definition IsNaN (x : float64) : bool := negb (x =? x)%float.
(** [sign > 0]: +Inf only; [sign < 0]: -Inf only; [0]: either. *)
Definition IsInf (x : float64) (sign : Z) : bool :=
  ((0 <=? sign) && (x =? infinity)%float) || ((sign <=? 0) && (x =? neg_infinity)%float).
Definition Signbit (x : float64) : bool := get_sign x.
Definition Abs (x : float64) : float64 := PrimFloat.abs x.
Definition Sqrt (x : float64) : float64 := PrimFloat.sqrt x.

Definition Max (x y : float64) : float64 :=
  if IsInf x 1 || IsInf y 1 then infinity
  else if IsNaN x || IsNaN y then nan
  else if (x =? 0)%float && (x =? y)%float then (if Signbit x then y else x)
  else if (y <? x)%float then x else y.

Definition Min (x y : float64) : float64 :=
  if IsInf x (-1) || IsInf y (-1) then neg_infinity
  else if IsNaN x || IsNaN y then nan
  else if (x =? 0)%float && (x =? y)%float then (if Signbit x then x else y)
  else if (x <? y)%float then x else y.

(** The integer nearest to a finite float, halves away from zero. *)
Definition round_Z (x : float64) : Z :=
  Z.sgn (fv x) * ((2 * Z.abs (fv x) + onev) / (2 * onev)).

Definition Round (x : float64) : float64 :=
  if ffin x then
    if round_Z x =? 0 then (if get_sign x then neg_zero else zero) else of_Z (round_Z x)
  else x.

(** Go's [int64(x)]: truncation; out of range the result is
    implementation-defined, and this is the amd64 one. *)
Definition int64 (x : float64) : Z :=
  let z := Z.quot (fv x) onev in
  if ffin x && (- 2 ^ 63 <=? z) && (z <? 2 ^ 63) then z else - 2 ^ 63.
End math.

Lemma IsNaN_fnan x : math.IsNaN x = fnan x.
Proof.
  unfold math.IsNaN. rewrite eqb_fv, Z.eqb_refl. by destruct (fnan x).
Qed.

Lemma fv_abs x : fv (PrimFloat.abs x) = Z.abs (fv x).
Proof.
  unfold fv. rewrite abs_spec. destruct (Prim2SF x) as [s|s| |s m e]; try done.
  - pose proof fmaxv_pos. destruct s; cbn [SFabs sf_val cond_Zopp]; lia.
  - cbn [SFabs sf_val cond_Zopp].
    destruct (Z.le_gt_cases 0 (e + 1074)).
    + pose proof (Z.pow_nonneg 2 (e + 1074) ltac:(lia)). destruct s; cbn [cond_Zopp]; lia.
    + rewrite Z.pow_neg_r, Z.mul_0_r by lia. by destruct s.
Qed.

Lemma fnan_abs x : fnan (PrimFloat.abs x) = fnan x.
Proof. unfold fnan. rewrite abs_spec. by destruct (Prim2SF x). Qed.

Lemma ffin_abs x : ffin (PrimFloat.abs x) = ffin x.
Proof. unfold ffin, fnan, finf. rewrite abs_spec. by destruct (Prim2SF x). Qed.

Lemma pos0_abs x : ffin x = true -> pos0 (math.Abs x).
Proof. intros H. split; [by rewrite <- ffin_abs in H|]. unfold math.Abs. rewrite fv_abs. lia. Qed.

Lemma Max_fv x y :
  fnan x = false -> fnan y = false ->
  fnan (math.Max x y) = false /\ fv (math.Max x y) = Z.max (fv x) (fv y).
Proof.
  intros Hx Hy. unfold math.Max, math.IsInf. rewrite !IsNaN_fnan, Hx, Hy. cbn [orb andb Z.leb Z.compare].
  pose proof (fv_range x). pose proof (fv_range y).
  assert (Fi : fv infinity = fmaxv) by (vm_compute; reflexivity).
  rewrite !orb_false_r, !eqb_fv, Hx, Hy. change (fnan infinity) with false.
  change (fnan 0%float) with false. rewrite Fi, fv_zero_lit. cbn [negb andb].
  destruct (Z.eqb_spec (fv x) fmaxv) as [Ex|Ex]; cbn [orb].
  { split; [done|]. rewrite Fi. lia. }
  destruct (Z.eqb_spec (fv y) fmaxv) as [Ey|Ey]; cbn [orb].
  { split; [done|]. rewrite Fi. lia. }
  rewrite ltb_fv_nn by done.
  destruct (Z.eqb_spec (fv x) 0) as [E0|E0]; destruct (Z.eqb_spec (fv x) (fv y)) as [E1|E1]; cbn [andb];
    try (destruct (math.Signbit x); split; [assumption|lia|assumption|lia]);
    destruct (Z.ltb_spec (fv y) (fv x)); split; assumption || lia.
Qed.

Lemma Min_fv x y :
  fnan x = false -> fnan y = false ->
  fnan (math.Min x y) = false /\ fv (math.Min x y) = Z.min (fv x) (fv y).
Proof.
  intros Hx Hy. unfold math.Min, math.IsInf. rewrite !IsNaN_fnan, Hx, Hy. cbn [orb andb Z.leb Z.compare].
  pose proof (fv_range x). pose proof (fv_range y).
  assert (Fi : fv neg_infinity = - fmaxv) by (vm_compute; reflexivity).
  rewrite !eqb_fv, Hx, Hy. change (fnan neg_infinity) with false.
  change (fnan 0%float) with false. rewrite Fi, fv_zero_lit. cbn [negb andb orb].
  destruct (Z.eqb_spec (fv x) (- fmaxv)) as [Ex|Ex]; cbn [orb].
  { split; [done|]. rewrite Fi. lia. }
  destruct (Z.eqb_spec (fv y) (- fmaxv)) as [Ey|Ey]; cbn [orb].
  { split; [done|]. rewrite Fi. lia. }
  rewrite ltb_fv_nn by done.
  destruct (Z.eqb_spec (fv x) 0) as [E0|E0]; destruct (Z.eqb_spec (fv x) (fv y)) as [E1|E1]; cbn [andb];
    try (destruct (math.Signbit x); split; [assumption|lia|assumption|lia]);
    destruct (Z.ltb_spec (fv x) (fv y)); split; assumption || lia.
Qed.

(** ** Small integers are exact *)

(** Every integer of at most 53 bits is a float. *)
Lemma repr_int z : Z.abs z <= 2 ^ 53 -> exists w, ffin w = true /\ fv w = z * onev.
Proof.
  intros Hz. destruct (Z.eq_dec z 0) as [->|Hz0]; [by exists 0%float|].
  destruct (Z.eq_dec (Z.abs z) (2 ^ 53)) as [He|He].
  { destruct (Z.abs_eq_cases z (2 ^ 53) He) as [->| ->];
      [exists 9007199254740992%float|exists (-9007199254740992)%float]; by vm_compute. }
  set (d := Zdigits2 (Z.abs z)). set (m := Z.abs z * 2 ^ (53 - d)).
  assert (Hd : 0 < d <= 53) by (split; [apply Zdigits2_pos; lia|apply Zdigits2_le; lia]).
  assert (Hp : 0 < 2 ^ (53 - d)) by (apply Z.pow_pos_nonneg; lia).
  assert (Hm : 0 < m) by (unfold m; lia).
  assert (Hdm : Zdigits2 m = 53) by (unfold m; rewrite Zdigits2_mul_pow by lia; fold d; lia).
  destruct m as [|p|p] eqn:Em; try lia.
  set (f := S754_finite (z <? 0) p (d - 53)).
  assert (Hf : valid_binary f = true).
  { cbn. unfold bounded, canonical_mantissa. rewrite fexp_eq.
    cbn [Zdigits2] in Hdm. rewrite Hdm. change (emax - prec) with 971.
    rewrite andb_true_iff, Z.eqb_eq, Z.leb_le. lia. }
  exists (SF2Prim f). pose proof (Prim2SF_SF2Prim f Hf) as E.
  unfold ffin, fnan, finf, fv. rewrite E. split; [done|]. cbn [sf_val f].
  assert (V : Zpos p * 2 ^ (d - 53 + 1074) = Z.abs z * onev).
  { rewrite <- Em. unfold m, onev. rewrite <- Z.mul_assoc, <- Z.pow_add_r by lia.
    f_equal. f_equal. lia. }
  rewrite V. destruct (Z.ltb_spec z 0); cbn [cond_Zopp]; lia.
Qed.

Lemma of_Z_repr z w : ffin w = true -> fv w = z * onev -> ffin (of_Z z) = true /\ fv (of_Z z) = z * onev.
Proof.
  intros Fw E. pose proof (of_Z_nearest z) as N. fold onev in N.
  assert (Ev : fv (of_Z z) = fv w).
  { apply (nearest_exact _ _ _ w Z.lt_0_1 N (ffin_nan _ Fw)). lia. }
  split; [|lia]. apply ffin_of_range; [apply N|]. rewrite Ev. by apply ffin_range.
Qed.

Lemma of_Z_exact z :
  Z.abs z <= 2 ^ 53 -> ffin (of_Z z) = true /\ fv (of_Z z) = z * onev.
Proof. intros (w & Fw & E)%repr_int. by apply (of_Z_repr z w). Qed.

(** Large floats are integers. *)
Lemma large_integer x :
  ffin x = true -> 2 ^ 53 * onev <= Z.abs (fv x) -> exists z, fv x = z * onev.
Proof.
  intros Fx H. destruct (ffin_cases x Fx) as [(s & E & V)|(s & m & e & E & B & V)].
  - exists 0. lia.
  - apply bounded_mag in B as (Hm & He & _). rewrite V in *.
    assert (0 <= e).
    { destruct (Z.le_gt_cases 0 e); [done|]. exfalso.
      assert (2 ^ (e + 1074) <= onev) by (unfold onev; apply Z.pow_le_mono_r; lia).
      assert (0 < 2 ^ (e + 1074)) by (apply Z.pow_pos_nonneg; lia).
      assert (Zpos m * 2 ^ (e + 1074) < 2 ^ 53 * onev)
        by (apply Z.lt_le_trans with (2 ^ 53 * 2 ^ (e + 1074));
            [apply Z.mul_lt_mono_pos_r|apply Z.mul_le_mono_nonneg_l]; lia).
      destruct s; cbn [cond_Zopp] in H; lia. }
    rewrite Z.pow_add_r by lia. fold onev.
    exists (cond_Zopp s (Zpos m * 2 ^ e)). destruct s; cbn [cond_Zopp]; lia.
Qed.

Lemma round_Z_spec x : 2 * Z.abs (math.round_Z x * onev - fv x) <= onev.
Proof.
  unfold math.round_Z. pose proof onev_pos as O.
  pose proof (Z.div_mod (2 * Z.abs (fv x) + onev) (2 * onev) ltac:(lia)) as D.
  pose proof (Z.mod_pos_bound (2 * Z.abs (fv x) + onev) (2 * onev) ltac:(lia)) as B.
  set (q := (2 * Z.abs (fv x) + onev) / (2 * onev)) in *.
  destruct (Z.sgn_spec (fv x)) as [[H ->]|[[H ->]|[H ->]]]; rewrite <- ?H; lia.
Qed.

Lemma round_Z_int x z : fv x = z * onev -> math.round_Z x = z.
Proof.
  intros E. pose proof (round_Z_spec x) as H. rewrite E in H. pose proof onev_pos.
  assert (Z.abs (math.round_Z x - z) * onev = Z.abs (math.round_Z x * onev - z * onev)).
  { rewrite <- Z.mul_sub_distr_r, Z.abs_mul. f_equal. }
  nia.
Qed.

(** [math.Round] returns the rounded integer exactly. *)
Lemma Round_spec x :
  ffin x = true ->
  ffin (math.Round x) = true /\ fv (math.Round x) = math.round_Z x * onev.
Proof.
  intros Fx. unfold math.Round. rewrite Fx.
  destruct (Z.eqb_spec (math.round_Z x) 0) as [E|E].
  { rewrite E. by destruct (get_sign x). }
  destruct (Z.le_gt_cases (2 ^ 53 * onev) (Z.abs (fv x))) as [Hl|Hs].
  - destruct (large_integer x Fx Hl) as [z Hz]. rewrite (round_Z_int x z Hz).
    by apply (of_Z_repr z x).
  - apply of_Z_exact. pose proof (round_Z_spec x). pose proof onev_pos.
    assert (Z.abs (math.round_Z x * onev) = Z.abs (math.round_Z x) * onev)
      by (rewrite Z.abs_mul; f_equal). nia.
Qed.

Lemma int64_int x z :
  ffin x = true -> fv x = z * onev -> - 2 ^ 63 <= z < 2 ^ 63 -> math.int64 x = z.
Proof.
  intros Fx E Hz. unfold math.int64. rewrite Fx, E, Z.quot_mul by done.
  destruct (Z.leb_spec (- 2 ^ 63) z), (Z.ltb_spec z (2 ^ 63)); cbn [andb]; lia.
Qed.

(** Relative error of a rounding whose result is not subnormal. *)
Lemma nearest_rel N D r :
  0 < D -> nearest N D r -> Z.abs (fv r) < fmaxv ->
  2 ^ 53 * Z.abs (N - fv r * D) <= Z.max (Z.abs N) (2 ^ 52 * D).
Proof. intros HD (_ & _ & [H|[H|H]]) Hr; lia. Qed.

Lemma fv_opp x : fv (- x)%float = - fv x.
Proof.
  unfold fv. rewrite opp_spec. destruct (Prim2SF x) as [s|s| |s m e]; try done;
  cbn [SFopp sf_val]; destruct s; cbn [negb cond_Zopp]; lia.
Qed.

Lemma ffin_opp x : ffin (- x)%float = ffin x.
Proof. unfold ffin, fnan, finf. rewrite opp_spec. by destruct (Prim2SF x). Qed.

Lemma nearest_fin N D r w :
  0 < D -> nearest N D r -> ffin w = true -> Z.abs N <= fv w * D -> ffin r = true.
Proof.
  intros HD HN Fw H.
  assert (U : fv r <= fv w) by (apply (nearest_le _ _ _ w HD HN (ffin_nan _ Fw)); lia).
  assert (Fo : ffin (- w)%float = true) by (by rewrite ffin_opp).
  assert (L : fv (- w)%float <= fv r).
  { apply (nearest_ge _ _ _ _ HD HN (ffin_nan _ Fo)). rewrite fv_opp. lia. }
  apply (ffin_between (- w)%float r w); auto. apply HN.
Qed.

(** ** Monotonicity *)
Lemma nearest_zero D r : 0 < D -> nearest 0 D r -> fv r = 0.
Proof.
  intros HD N. pose proof (nearest_exact _ _ _ 0%float HD N eq_refl) as E.
  rewrite fv_zero_lit in E. lia.
Qed.

Lemma same_or_zero a b :
  ffin a = true -> ffin b = true -> fv a = fv b -> a = b \/ (fv a = 0 /\ fv b = 0).
Proof.
  intros Fa Fb E. destruct (Z.eq_dec (fv a) 0) as [Z0|Z0]; [right; lia|left].
  apply fv_inj; auto using ffin_nan.
Qed.

Lemma sub_mono_r p a b :
  ffin p = true -> ffin a = true -> ffin b = true -> fv a <= fv b ->
  fv (p - b)%float <= fv (p - a)%float.
Proof.
  intros Fp Fa Fb H. pose proof (sub_nearest p a Fp Fa) as Na.
  pose proof (sub_nearest p b Fp Fb) as Nb.
  destruct (Z.eq_dec (fv a) (fv b)) as [E|E].
  - rewrite <- E in Nb. rewrite E in Na.
    destruct (same_or_zero a b Fa Fb E) as [->|[Ea Eb]]; [lia|].
    rewrite Eb, Z.sub_0_r in Na. rewrite Ea, Z.sub_0_r in Nb.
    pose proof (nearest_exact _ _ _ p Z.lt_0_1 Na (ffin_nan _ Fp)).
    pose proof (nearest_exact _ _ _ p Z.lt_0_1 Nb (ffin_nan _ Fp)). lia.
  - apply (nearest_mono _ _ 1 _ _ Z.lt_0_1 Nb Na). lia.
Qed.

Lemma sub_mono_l a b p :
  ffin p = true -> ffin a = true -> ffin b = true -> fv a <= fv b ->
  fv (a - p)%float <= fv (b - p)%float.
Proof.
  intros Fp Fa Fb H. pose proof (sub_nearest a p Fa Fp) as Na.
  pose proof (sub_nearest b p Fb Fp) as Nb.
  destruct (Z.eq_dec (fv a) (fv b)) as [E|E].
  - destruct (same_or_zero a b Fa Fb E) as [->|[Ea Eb]]; [lia|].
    rewrite Ea in Na. rewrite Eb in Nb.
    assert (Fo : ffin (- p)%float = true) by (by rewrite ffin_opp).
    pose proof (nearest_exact _ _ _ (- p)%float Z.lt_0_1 Na (ffin_nan _ Fo)) as X.
    pose proof (nearest_exact _ _ _ (- p)%float Z.lt_0_1 Nb (ffin_nan _ Fo)) as Y.
    rewrite fv_opp in X, Y. lia.
  - apply (nearest_mono _ _ 1 _ _ Z.lt_0_1 Na Nb). lia.
Qed.

Lemma div_mono_l a b y :
  ffin a = true -> ffin b = true -> ffin y = true -> 0 < fv y -> fv a <= fv b ->
  fv (a / y)%float <= fv (b / y)%float.
Proof.
  intros Fa Fb Fy Hy H. pose proof (div_nearest a y Fa Fy ltac:(lia)) as Na.
  pose proof (div_nearest b y Fb Fy ltac:(lia)) as Nb.
  assert (HA : 0 < Z.abs (fv y)) by lia.
  rewrite Z.sgn_pos, Z.mul_1_r in Na, Nb by lia. fold onev in Na, Nb. pose proof onev_pos.
  destruct (Z.eq_dec (fv a) (fv b)) as [E|E].
  - destruct (same_or_zero a b Fa Fb E) as [->|[Ea Eb]]; [lia|].
    rewrite Ea in Na. rewrite Eb in Nb. rewrite Z.mul_0_l in Na, Nb.
    rewrite (nearest_zero _ _ HA Na), (nearest_zero _ _ HA Nb). lia.
  - apply (nearest_mono _ _ _ _ _ HA Na Nb). nia.
Qed.

Lemma mul_mono_l a b y :
  ffin a = true -> ffin b = true -> pos0 y -> fv a <= fv b ->
  fv (a * y)%float <= fv (b * y)%float.
Proof.
  intros Fa Fb [Fy Hy] H. pose proof (mul_nearest a y Fa Fy) as Na.
  pose proof (mul_nearest b y Fb Fy) as Nb. fold onev in Na, Nb. pose proof onev_pos as O.
  destruct (Z.eq_dec (fv y) 0) as [Ey|Ey].
  { rewrite Ey, Z.mul_0_r in Na, Nb. rewrite (nearest_zero _ _ O Na), (nearest_zero _ _ O Nb). lia. }
  destruct (Z.eq_dec (fv a) (fv b)) as [E|E].
  - destruct (same_or_zero a b Fa Fb E) as [->|[Ea Eb]]; [lia|].
    rewrite Ea in Na. rewrite Eb in Nb. rewrite Z.mul_0_l in Na, Nb.
    rewrite (nearest_zero _ _ O Na), (nearest_zero _ _ O Nb). lia.
  - apply (nearest_mono _ _ _ _ _ O Na Nb). nia.
Qed.

(** ** Amounts of money

    Finite and below 2^926 in magnitude: sums, percentages and ratios of such
    amounts stay finite. *)
Definition moneyv : Z := 2 ^ 2000.
Definition money (x : float64) : Prop := ffin x = true /\ Z.abs (fv x) <= moneyv.

Lemma money_fin x : money x -> ffin x = true. Proof. by intros []. Qed.
Lemma money_nan x : money x -> fnan x = false. Proof. intros []. by apply ffin_nan. Qed.

(** 2^927 and 2^934, witnesses of the bounds below. *)
Definition big1 : float64 := 0x1p927%float.
Definition big2 : float64 := 0x1p935%float.

Lemma fv_big1 : fv big1 = 2 * moneyv. Proof. vm_compute. reflexivity. Qed.
Lemma fv_big2 : fv big2 = 512 * moneyv. Proof. vm_compute. reflexivity. Qed.

Lemma sub_money x y :
  money x -> money y -> ffin (x - y)%float = true /\ Z.abs (fv (x - y)%float) <= 2 * moneyv.
Proof.
  intros [Fx Hx] [Fy Hy]. pose proof (sub_nearest x y Fx Fy) as N.
  assert (Fb : fnan (- big1)%float = false) by done.
  pose proof (nearest_le _ _ _ big1 Z.lt_0_1 N eq_refl) as U.
  pose proof (nearest_ge _ _ _ (- big1)%float Z.lt_0_1 N Fb) as L.
  rewrite fv_opp in L. rewrite fv_big1 in U, L. split; [|lia].
  apply (nearest_fin _ _ _ big1 Z.lt_0_1 N eq_refl). rewrite fv_big1. lia.
Qed.

(** [x / y * 100] for [y >= 1]. *)
Lemma div_bounded x y :
  ffin x = true -> Z.abs (fv x) <= 2 * moneyv -> ffin y = true -> onev <= fv y ->
  ffin (x / y)%float = true /\ Z.abs (fv (x / y)%float) <= 2 * moneyv.
Proof.
  intros Fx Hx Fy Hy. pose proof onev_pos as O.
  pose proof (div_nearest x y Fx Fy ltac:(lia)) as N.
  assert (HA : 0 < Z.abs (fv y)) by lia.
  rewrite Z.sgn_pos, Z.mul_1_r in N by lia. fold onev in N.
  assert (Fb : fnan (- big1)%float = false) by done.
  pose proof (nearest_le _ _ _ big1 HA N eq_refl) as U.
  pose proof (nearest_ge _ _ _ (- big1)%float HA N Fb) as L.
  rewrite fv_opp in L. rewrite fv_big1 in U, L.
  assert (E : Z.abs (fv x * onev) <= 2 * moneyv * Z.abs (fv y)).
  { rewrite Z.abs_mul, (Z.abs_eq onev) by lia. apply Z.mul_le_mono_nonneg; lia. }
  split; [|lia]. apply (nearest_fin _ _ _ big1 HA N eq_refl). rewrite fv_big1. lia.
Qed.

Lemma mul_hundred_bounded x :
  ffin x = true -> Z.abs (fv x) <= 2 * moneyv -> ffin (x * 100)%float = true.
Proof.
  intros Fx Hx. pose proof (mul_nearest x 100%float Fx eq_refl) as N. fold onev in N.
  replace (fv 100) with (100 * onev) in N by (vm_compute; reflexivity).
  pose proof onev_pos as O.
  apply (nearest_fin _ _ _ big2 O N eq_refl). rewrite fv_big2, Z.abs_mul, (Z.abs_eq (100 * onev)) by lia.
  nia.
Qed.

Lemma pos0_hundred : pos0 100. Proof. split; [done|]. vm_compute. discriminate. Qed.

(** The only non-negative float that is neither NaN nor finite. *)
Lemma nonfin_pos x : fnan x = false -> ffin x = false -> 0 <= fv x -> x = infinity.
Proof.
  intros Nx Fx Hx. assert (E : fv x = fmaxv).
  { destruct (Z.eq_dec (Z.abs (fv x)) fmaxv) as [E|E]; [lia|].
    exfalso. apply not_true_iff_false in Fx. apply Fx, ffin_of_range; [done|].
    pose proof (fv_range x). lia. }
  apply fv_inj; [done|done| |].
  - rewrite E. vm_compute. reflexivity.
  - pose proof fmaxv_pos. lia.
Qed.

(** Infinities in sums, and negation. *)
Lemma sub_inf x : ffin x = true -> (x - infinity)%float = neg_infinity.
Proof.
  intros Fx. apply Prim2SF_inj. rewrite sub_spec.
  destruct (ffin_cases x Fx) as [(s & -> & _)|(s & m & e & -> & _)]; reflexivity.
Qed.

Lemma add_inf x : ffin x = true -> (x + infinity)%float = infinity.
Proof.
  intros Fx. apply Prim2SF_inj. rewrite add_spec.
  destruct (ffin_cases x Fx) as [(s & -> & _)|(s & m & e & -> & _)]; reflexivity.
Qed.

Lemma add_neginf x : ffin x = true -> (neg_infinity + x)%float = neg_infinity.
Proof.
  intros Fx. apply Prim2SF_inj. rewrite add_spec.
  destruct (ffin_cases x Fx) as [(s & -> & _)|(s & m & e & -> & _)]; reflexivity.
Qed.

Lemma fnan_opp x : fnan (- x)%float = fnan x.
Proof. unfold fnan. rewrite opp_spec. by destruct (Prim2SF x). Qed.

Lemma opp_opp x : (- - x)%float = x.
Proof.
  apply Prim2SF_inj. rewrite !opp_spec. destruct (Prim2SF x) as [s|s| |s m e]; cbn;
    rewrite ?negb_involutive; done.
Qed.
