(* ===== verification/Price.v ===== *)
(** * Fixed-point prices ([internal/types/price.go])

    [Price] is an int64 counting 1/100000 of a currency unit.  The operations
    are the code's, with int64 wrap-around and float64 conversions; the
    theorems say when they are exact. *)
From Stdlib Require Import ZArith Lia Bool Floats.
From S2P Require Import Prelude Float64 FloatRound FloatLaws.
Import GoInt.
Local Open Scope Z_scope.

Definition Price := Z.
Bind Scope Z_scope with Price.

Definition PriceScaleFactor : Z := 100000.
Definition PriceScaleFactorF : float64 := 100000%float.

Definition FromFloat64 (f : float64) : Price :=
  math.int64 (math.Round (f * PriceScaleFactorF)%float).
Definition PriceFromFloat (f : float64) : Price := FromFloat64 f.
Definition PriceFromInt64 (raw : Z) : Price := raw.

Definition ToFloat64 (p : Price) : float64 := (of_Z p / PriceScaleFactorF)%float.
Definition Float64 (p : Price) : float64 := ToFloat64 p.
Definition Int64 (p : Price) : Z := p.

Definition IsZero (p : Price) : bool := p =? 0.
Definition Add (p other : Price) : Price := i64 (p + other).
Definition Sub (p other : Price) : Price := i64 (p - other).

Definition MulRational (p num den : Z) : Price :=
  if den =? 0 then 0 else i64 (Z.quot (i64 (p * num)) den).

Definition MulFloat (p : Price) (factor : float64) : Price :=
  math.int64 (math.Round (of_Z p * factor)%float).

Definition DivFloat (p : Price) (factor : float64) : Price :=
  if (factor =? 0)%float then 0 else math.int64 (math.Round (of_Z p / factor)%float).

Definition Mul (p : Price) (factor : float64) : Price :=
  math.int64 (math.Round (of_Z p * factor)%float).

Definition Div (p : Price) (factor : float64) : Price :=
  if (factor =? 0)%float then 0 else math.int64 (math.Round (of_Z p / factor)%float).

Definition MinPrice (a b : Price) : Price := if a <? b then a else b.
Definition MaxPrice (a b : Price) : Price := if b <? a then a else b.

Definition Compare (p other : Price) : Z :=
  if p <? other then -1 else if other <? p then 1 else 0.

Definition MulInt (p qty : Z) : Price := Z.quot (i64 (p * qty)) PriceScaleFactor.

Definition SpreadBps (p : Price) (bps : float64) : Price :=
  PriceFromFloat (Float64 p * (1 + bps / 10000))%float.

(** Realized PnL of a round trip. *)
Definition PnLFromPrices (entry exit : Price) (qty : float64) (side : string) : float64 :=
  if bool_decide (side = "BUY"%string) then ((Float64 exit - Float64 entry) * qty)%float
  else ((Float64 entry - Float64 exit) * qty)%float.

Definition Notional (price : Price) (qty : float64) : float64 := (Float64 price * qty)%float.

(** ** Exactness of the conversions *)

(** Prices up to 2^50 units (about 11 billion currency units). *)
Definition sane (p : Price) : Prop := Z.abs p <= 2 ^ 50.

Lemma fv_scale : fv PriceScaleFactorF = 100000 * onev.
Proof. vm_compute. reflexivity. Qed.

Lemma onev_big : 2 ^ 70 <= onev.
Proof. unfold onev. apply Z.pow_le_mono_r; lia. Qed.

Lemma ToFloat64_bound p :
  sane p ->
  ffin (ToFloat64 p) = true /\
  2 ^ 53 * Z.abs (p * onev - fv (ToFloat64 p) * 100000) <= Z.abs p * onev.
Proof.
  unfold sane, ToFloat64. intros Hp. destruct (of_Z_exact p ltac:(lia)) as [Fp Vp].
  pose proof onev_pos as O. pose proof onev_big as OB.
  pose proof (div_nearest (of_Z p) PriceScaleFactorF Fp eq_refl) as N.
  rewrite fv_scale, Vp in N. specialize (N ltac:(lia)).
  rewrite Z.sgn_pos, Z.mul_1_r, Z.abs_eq in N by lia. fold onev in N.
  set (x := (of_Z p / PriceScaleFactorF)%float) in *.
  apply <- (nearest_scale (p * onev) 100000 onev) in N; [|done].
  assert (HD : 0 < 100000) by done.
  destruct (of_Z_exact (2 ^ 53) ltac:(lia)) as [Fw Vw].
  assert (Fx : ffin x = true).
  { apply (nearest_fin _ _ _ (of_Z (2 ^ 53)) HD N Fw).
    rewrite Vw, Z.abs_mul, (Z.abs_eq onev) by lia. nia. }
  split; [done|]. destruct (Z.eq_dec p 0) as [->|Hp0].
  { pose proof (nearest_exact _ _ _ 0%float HD N eq_refl) as E.
    rewrite fv_zero_lit in E. rewrite E by lia. lia. }
  pose proof (nearest_rel _ _ _ HD N) as R.
  pose proof (ffin_range x Fx). specialize (R ltac:(lia)).
  rewrite Z.abs_mul, (Z.abs_eq onev) in R by lia. nia.
Qed.

Lemma ToFloat64_fin p : sane p -> ffin (ToFloat64 p) = true.
Proof. intros H. by apply ToFloat64_bound. Qed.

(** ** Order

    On sane prices the float view is an order embedding: the code's
    comparisons through [Float64] are comparisons of the integers. *)
Lemma ToFloat64_lt p q : sane p -> sane q -> p < q -> fv (ToFloat64 p) < fv (ToFloat64 q).
Proof.
  intros Hp Hq Hlt. destruct (ToFloat64_bound p Hp) as [_ Bp].
  destruct (ToFloat64_bound q Hq) as [_ Bq]. unfold sane in *. pose proof onev_big.
  assert (Z.abs p * onev <= 2 ^ 50 * onev) by (apply Z.mul_le_mono_nonneg_r; lia).
  assert (Z.abs q * onev <= 2 ^ 50 * onev) by (apply Z.mul_le_mono_nonneg_r; lia).
  assert ((p + 1) * onev <= q * onev) by (apply Z.mul_le_mono_nonneg_r; lia). lia.
Qed.

Lemma ToFloat64_le_iff p q : sane p -> sane q -> fv (ToFloat64 p) <= fv (ToFloat64 q) <-> p <= q.
Proof.
  intros Hp Hq. split; intros H.
  - destruct (Z.le_gt_cases p q) as [|Hg]; [done|]. pose proof (ToFloat64_lt q p Hq Hp Hg). lia.
  - destruct (Z.eq_dec p q) as [->|]; [lia|]. pose proof (ToFloat64_lt p q Hp Hq ltac:(lia)). lia.
Qed.

Lemma Float64_ltb p q : sane p -> sane q -> (Float64 p <? Float64 q)%float = (p <? q).
Proof.
  intros Hp Hq. unfold Float64.
  rewrite ltb_fv_nn by (apply ffin_nan, ToFloat64_fin; done).
  pose proof (ToFloat64_le_iff q p Hq Hp).
  destruct (Z.ltb_spec p q), (Z.ltb_spec (fv (ToFloat64 p)) (fv (ToFloat64 q))); lia || done.
Qed.

Lemma Float64_leb p q : sane p -> sane q -> (Float64 p <=? Float64 q)%float = (p <=? q).
Proof.
  intros Hp Hq. unfold Float64.
  rewrite leb_fv_nn by (apply ffin_nan, ToFloat64_fin; done).
  pose proof (ToFloat64_le_iff p q Hp Hq).
  destruct (Z.leb_spec p q), (Z.leb_spec (fv (ToFloat64 p)) (fv (ToFloat64 q))); lia || done.
Qed.

Lemma Float64_zero : Float64 0 = 0%float.
Proof. vm_compute. reflexivity. Qed.

Lemma Float64_pos p : sane p -> (0 <? Float64 p)%float = (0 <? p).
Proof. intros Hp. rewrite <- Float64_zero. by apply Float64_ltb. Qed.

Lemma Float64_nonpos p : sane p -> (Float64 p <=? 0)%float = (p <=? 0).
Proof. intros Hp. rewrite <- Float64_zero. by apply Float64_leb. Qed.

(** ** Round trip *)

(** Rounding the product back: the accumulated error stays below one half. *)
Lemma scale_back p x y :
  sane p -> ffin x = true -> 2 ^ 53 * Z.abs (p * onev - fv x * 100000) <= Z.abs p * onev ->
  nearest (fv x * 100000) 1 y -> ffin y = true -> math.round_Z y = p.
Proof.
  intros Hp Fx HX HY Fy. unfold sane in Hp. pose proof onev_big as OB.
  pose proof (nearest_rel _ _ _ Z.lt_0_1 HY) as R. pose proof (ffin_range y Fy).
  specialize (R ltac:(lia)). pose proof (round_Z_spec y) as G.
  assert (PO : Z.abs p * onev <= 2 ^ 50 * onev) by (apply Z.mul_le_mono_nonneg_r; lia).
  assert (A1 : Z.abs (p * onev) = Z.abs p * onev) by (rewrite Z.abs_mul; f_equal; lia).
  assert (Hlt : Z.abs (math.round_Z y - p) * onev < onev).
  { replace (Z.abs (math.round_Z y - p) * onev) with (Z.abs ((math.round_Z y - p) * onev))
      by (rewrite Z.abs_mul; f_equal; lia).
    rewrite Z.mul_sub_distr_r. lia. }
  nia.
Qed.

Lemma FromFloat64_ToFloat64 p : sane p -> FromFloat64 (ToFloat64 p) = p.
Proof.
  intros Hp. destruct (ToFloat64_bound p Hp) as [Fx Bx]. unfold FromFloat64.
  set (x := ToFloat64 p) in *. pose proof onev_pos as O. pose proof onev_big as OB.
  pose proof (mul_nearest x PriceScaleFactorF Fx eq_refl) as N.
  rewrite fv_scale in N. fold onev in N.
  replace (fv x * (100000 * onev)) with (fv x * 100000 * onev) in N by lia.
  replace onev with (1 * onev) in N at 2 by lia.
  apply <- (nearest_scale (fv x * 100000) 1 onev) in N; [|done].
  destruct (of_Z_exact (2 ^ 53) ltac:(lia)) as [Fw Vw].
  assert (PO : Z.abs p * onev <= 2 ^ 50 * onev)
    by (apply Z.mul_le_mono_nonneg_r; unfold sane in Hp; lia).
  assert (A1 : Z.abs (p * onev) = Z.abs p * onev) by (rewrite Z.abs_mul; f_equal; lia).
  assert (Fy : ffin (x * PriceScaleFactorF)%float = true).
  { apply (nearest_fin _ _ _ (of_Z (2 ^ 53)) Z.lt_0_1 N Fw). rewrite Vw. lia. }
  pose proof (scale_back p x _ Hp Fx Bx N Fy) as E.
  destruct (Round_spec _ Fy) as [Fr Vr]. rewrite E in Vr.
  apply (int64_int _ _ Fr Vr). unfold sane in Hp. lia.
Qed.

(** Integer price arithmetic is arithmetic modulo 2^64. *)
Lemma i64_mod_eq a b : i64 a = i64 b <-> a mod 2 ^ 64 = b mod 2 ^ 64.
Proof.
  unfold i64, swrap. split; intros H.
  - assert (H' : (a + 2 ^ (64 - 1)) mod 2 ^ 64 = (b + 2 ^ (64 - 1)) mod 2 ^ 64) by lia.
    replace a with ((a + 2 ^ (64 - 1)) - 2 ^ (64 - 1)) by lia.
    replace b with ((b + 2 ^ (64 - 1)) - 2 ^ (64 - 1)) by lia.
    rewrite Zminus_mod, H', <- Zminus_mod. done.
  - rewrite Zplus_mod, H, <- Zplus_mod. done.
Qed.

Lemma i64_sub_l a b : i64 (i64 a - b) = i64 (a - b).
Proof. apply (i64_add_l a (- b)). Qed.

(** ** Conversion from float64 is monotone *)

Lemma round_Z_mono a b : fv a <= fv b -> math.round_Z a <= math.round_Z b.
Proof.
  pose proof onev_pos as O. unfold math.round_Z. intros H.
  set (q v := (2 * v + onev) / (2 * onev)).
  assert (Qm : forall v w, v <= w -> q v <= q w)
    by (intros v w Hvw; apply Z.div_le_mono; lia).
  assert (Q0 : q 0 = 0) by (apply Z.div_small; lia).
  assert (P : forall v, 0 <= v -> Z.sgn v * q (Z.abs v) = q v).
  { intros v Hv. destruct (Z.eq_dec v 0) as [->|]; [by rewrite Q0|].
    rewrite Z.sgn_pos, Z.abs_eq by lia. lia. }
  assert (N : forall v, v <= 0 -> Z.sgn v * q (Z.abs v) = - q (- v)).
  { intros v Hv. destruct (Z.eq_dec v 0) as [->|]; [change (Z.abs 0) with 0; change (- 0) with 0; rewrite Q0; lia|].
    rewrite Z.sgn_neg, Z.abs_neq by lia. lia. }
  fold (q (Z.abs (fv a))) (q (Z.abs (fv b))).
  destruct (Z.le_gt_cases 0 (fv a)), (Z.le_gt_cases 0 (fv b)).
  - rewrite !P by lia. by apply Qm.
  - lia.
  - rewrite (P (fv b)), (N (fv a)) by lia.
    pose proof (Qm 0 (- fv a) ltac:(lia)). pose proof (Qm 0 (fv b) ltac:(lia)). lia.
  - rewrite !N by lia. pose proof (Qm (- fv b) (- fv a) ltac:(lia)). lia.
Qed.

(** 2^62, above every scaled price of the range considered. *)
Definition scaleTop : float64 := 0x1p62%float.

Lemma fv_scaleTop : fv scaleTop = 2 ^ 62 * onev.
Proof. vm_compute. reflexivity. Qed.

Lemma FromFloat64_round x :
  ffin x = true -> Z.abs (fv x) <= 2 ^ 45 * onev ->
  ffin (x * PriceScaleFactorF)%float = true /\
  FromFloat64 x = math.round_Z (x * PriceScaleFactorF)%float.
Proof.
  intros Fx Bx. pose proof onev_pos as O.
  pose proof (mul_nearest x PriceScaleFactorF Fx eq_refl) as N.
  rewrite fv_scale in N. fold onev in N. set (y := (x * PriceScaleFactorF)%float) in *.
  assert (Ft : ffin scaleTop = true) by done.
  assert (A : Z.abs (fv x * (100000 * onev)) <= fv scaleTop * onev).
  { rewrite fv_scaleTop, Z.abs_mul, (Z.abs_eq (100000 * onev)) by lia.
    replace (Z.abs (fv x) * (100000 * onev)) with (Z.abs (fv x) * 100000 * onev) by lia.
    apply Z.mul_le_mono_nonneg_r; lia. }
  assert (Fy : ffin y = true) by (by apply (nearest_fin _ _ _ scaleTop O N Ft)).
  split; [done|].
  assert (U : fv y <= fv scaleTop)
    by (apply (nearest_le _ _ _ _ O N (ffin_nan _ Ft)); lia).
  assert (L : fv (- scaleTop)%float <= fv y).
  { apply (nearest_ge _ _ _ (- scaleTop)%float O N); [done|]. rewrite fv_opp. lia. }
  rewrite fv_opp, fv_scaleTop in *. destruct (Round_spec _ Fy) as [Fr Vr].
  unfold FromFloat64. fold y. apply (int64_int _ _ Fr Vr).
  pose proof (round_Z_spec y). nia.
Qed.

Lemma FromFloat64_mono x y :
  ffin x = true -> ffin y = true ->
  Z.abs (fv x) <= 2 ^ 45 * onev -> Z.abs (fv y) <= 2 ^ 45 * onev ->
  fv x <= fv y -> FromFloat64 x <= FromFloat64 y.
Proof.
  intros Fx Fy Bx By H.
  destruct (FromFloat64_round x Fx Bx) as [Fx' ->], (FromFloat64_round y Fy By) as [Fy' ->].
  apply round_Z_mono, mul_mono_l; auto. split; [done|]. rewrite fv_scale. pose proof onev_pos. lia.
Qed.

(** ** Claims *)

(** On prices up to 2^50 units the float64 view loses nothing: converting
    to float64 and back is the identity, the float comparisons the code makes
    through [Float64] are the integer comparisons, and [Compare] is their sign. *)
Theorem price_float_faithful p q :
  sane p -> sane q ->
  FromFloat64 (ToFloat64 p) = p /\
  (Float64 p <? Float64 q)%float = (p <? q) /\
  (Float64 p <=? Float64 q)%float = (p <=? q) /\
  (Compare p q < 0 <-> (Float64 p <? Float64 q)%float = true) /\
  (Compare p q = 0 <-> p = q).
Proof.
  intros Hp Hq. rewrite Float64_ltb, Float64_leb, FromFloat64_ToFloat64 by done.
  repeat (split; [done|]). unfold Compare.
  destruct (Z.ltb_spec p q), (Z.ltb_spec q p); lia.
Qed.

Lemma price_float_faithful_witness :
  FromFloat64 (ToFloat64 1999999) = 1999999 /\ (Float64 1999999%Z <? Float64 2000000%Z)%float = true.
Proof.
  destruct (price_float_faithful 1999999 2000000) as (A & B & _);
    [unfold sane; lia | unfold sane; lia |]. split; [exact A|]. rewrite B. reflexivity.
Defined.

(** integer price arithmetic wraps like int64 and [Sub] undoes [Add] even
    when the sum overflows; sums of several prices do not depend on the order;
    [MulRational] by a positive rational truncates towards zero with an error
    below one unit when the product fits. *)
Theorem price_integer_arithmetic p q r num den :
  in_i64 p -> in_i64 (p * num) -> 0 < den -> in_i64 den ->
  Sub (Add p q) q = p /\ Add (Sub p q) q = p /\
  Add (Add p q) r = Add p (Add q r) /\ Add p q = Add q p /\
  in_i64 (Add p q) /\
  Z.abs (MulRational p num den) * den <= Z.abs (p * num) < (Z.abs (MulRational p num den) + 1) * den.
Proof.
  intros Hp Hn Hd Hd'. unfold Sub, Add, MulRational.
  rewrite i64_sub_l, !i64_add_l, i64_add_r.
  replace (p + q - q) with p by lia. replace (p - q + q) with p by lia.
  rewrite (i64_id p Hp), (i64_id _ Hn).
  destruct (Z.eqb_spec den 0) as [|_]; [lia|].
  pose proof (Z.quot_rem' (p * num) den) as D.
  pose proof (Z.rem_bound_abs (p * num) den ltac:(lia)) as B.
  pose proof (Z.rem_sign_mul (p * num) den ltac:(lia)) as S.
  assert (A : Z.abs (Z.quot (p * num) den) * den <= Z.abs (p * num) <
              (Z.abs (Z.quot (p * num) den) + 1) * den).
  { rewrite <- Z.quot_abs by lia. rewrite (Z.abs_eq den) by lia.
    pose proof (Z.abs_nonneg (p * num)). rewrite Z.quot_div_nonneg by lia.
    pose proof (Z.div_mod (Z.abs (p * num)) den ltac:(lia)).
    pose proof (Z.mod_pos_bound (Z.abs (p * num)) den ltac:(lia)).
    lia. }
  assert (I : in_i64 (Z.quot (p * num) den)).
  { unfold in_i64 in *. set (k := Z.quot (p * num) den) in *.
    assert (Hk : Z.abs k <= Z.abs (p * num)) by nia.
    destruct (Z.le_gt_cases k 0); [lia|].
    assert (den <= den * k) by nia. lia. }
  rewrite (i64_id _ I). split; [done|]. split; [done|].
  split; [f_equal; lia|]. split; [f_equal; lia|]. split; [apply i64_range|exact A].
Qed.

Lemma price_integer_arithmetic_witness :
  Sub (Add (2 ^ 63 - 1) 5) 5 = 2 ^ 63 - 1 /\ MulRational (-700000) 1 3 = -233333.
Proof.
  destruct (price_integer_arithmetic (2 ^ 63 - 1) 5 0 1 1) as (A & _); [split; lia.. |].
  split; [exact A|]. vm_compute. reflexivity.
Defined.
