(* ===== verification/PropFirm.v ===== *)
(** * Prop-firm rules ([internal/propfirm]): rules.go, pool_base.go, profile.go

    The pure rule formulas, the shared [PoolState] bookkeeping and the live
    [Manager].  Every mutex-protected method is one atomic state transformer. *)
From Stdlib Require Import ZArith Lia Bool Floats.
From S2P Require Import Prelude Float64 FloatRound FloatLaws.
Import GoInt.
Local Open Scope float_scope.
Local Open Scope go_scope.

(** ** rules.go *)

Definition DrawdownPct (peakBalance currentBalance : float64) : float64 :=
  if peakBalance <=? 0 then 0
  else (peakBalance - currentBalance) / peakBalance * 100.

Definition DailyLossPct (startingBalance currentBalance : float64) : float64 :=
  if startingBalance <=? 0 then 0
  else (currentBalance - startingBalance) / startingBalance * 100.

Definition DailyLossExceeded (startingBalance currentBalance maxDailyLossPct : float64) : bool :=
  DailyLossPct startingBalance currentBalance <=? - maxDailyLossPct.

Definition DrawdownExceeded (peakBalance currentBalance maxDrawdownPct : float64) : bool :=
  DrawdownPct peakBalance currentBalance >? maxDrawdownPct.

Definition ConsistencyBreached (dailyPnLPct thresholdPct : float64) : bool :=
  dailyPnLPct >? thresholdPct.

(** ** profile.go: data *)

Record Profile := mkProfile {
  ID : string;
  Name : string;
  MaxDailyLossPct : float64;
  MaxDrawdownPct : float64;
  DrawdownType : string;
  MaxPositionPct : float64;
  MaxOpenPositions : Z;
  MaxTradesPerDay : Z;
  ConsistencyEnabled : bool;
  ConsistencyThresholdPct : float64;
  ConsistencyPenalty : float64;
  ProfitTargetPctPhase1 : float64;
  ProfitTargetPctPhase2 : float64;
  MinTradingDays : Z;
  WeekendHoldingAllowed : bool;
  NewsTradingAllowed : bool;
  RegimeMultipliers : list float64;   (* [4]float64 *)
  SoftHaltThresholdPct : float64;
  HardHaltThresholdPct : float64
}.

Definition DefaultFTMOProfile : Profile := {|
  ID := "ftmo"; Name := "FTMO";
  MaxDailyLossPct := 5.0; MaxDrawdownPct := 10.0; DrawdownType := "static_hwm";
  MaxPositionPct := 2.0; MaxOpenPositions := 5; MaxTradesPerDay := 10;
  ConsistencyEnabled := true; ConsistencyThresholdPct := 30.0; ConsistencyPenalty := 0.5;
  ProfitTargetPctPhase1 := 10.0; ProfitTargetPctPhase2 := 5.0; MinTradingDays := 4;
  WeekendHoldingAllowed := true; NewsTradingAllowed := true;
  RegimeMultipliers := [1.0; 0.85; 0.75; 0.5];
  SoftHaltThresholdPct := 4.5; HardHaltThresholdPct := 5.0
|}.

Definition DefaultProfile : Profile := DefaultFTMOProfile.

(** ** pool_base.go *)
Module Pool.
Record PoolState := mkPool {
  TotalBalance : float64;
  TotalPeakBalance : float64;
  DailyPnL : float64;
  DailyPnLPct : float64;
  Halted : bool;
  HaltReason : string;
  TradingDays : Z
}.

(** The zero value of the struct. *)
Definition zero : PoolState := mkPool 0 0 0 0 false "" 0.

Definition InitPoolState (s : PoolState) (startingBalance : float64) : PoolState :=
  mkPool startingBalance startingBalance (DailyPnL s) (DailyPnLPct s) false "" 0.

Definition CountTotalOpen (strats : list (Z * Z)) : Z :=
  fold_left (fun total s => i64 (total + i64 (s.1 + s.2))) strats 0%Z.

Definition halt (s : PoolState) (reason : string) : PoolState :=
  mkPool (TotalBalance s) (TotalPeakBalance s) (DailyPnL s) (DailyPnLPct s)
    true reason (TradingDays s).

Definition CheckDailyLossHalt (s : PoolState) (startingBalance : float64)
    (profile : option Profile) : PoolState * (bool * string) :=
  match profile with
  | None => (s, (Halted s, HaltReason s))
  | Some p =>
      if Halted s then (s, (Halted s, HaltReason s))
      else if DailyLossExceeded startingBalance (startingBalance + DailyPnL s) (MaxDailyLossPct p)
      then (halt s "daily_loss_limit", (true, "daily_loss_limit"%string))
      else (s, (false, ""%string))
  end.

Definition CheckDrawdownHalt (s : PoolState) (profile : option Profile)
    : PoolState * (bool * string) :=
  match profile with
  | None => (s, (Halted s, HaltReason s))
  | Some p =>
      if Halted s then (s, (Halted s, HaltReason s))
      else if MaxDrawdownPct p <=? 0 then (s, (false, ""%string))
      else if DrawdownPct (TotalPeakBalance s) (TotalBalance s) >? MaxDrawdownPct p
      then (halt s "max_drawdown", (true, "max_drawdown"%string))
      else (s, (false, ""%string))
  end.

Definition UpdatePeakBalance (s : PoolState) : PoolState :=
  if TotalBalance s >? TotalPeakBalance s
  then mkPool (TotalBalance s) (TotalBalance s) (DailyPnL s) (DailyPnLPct s)
         (Halted s) (HaltReason s) (TradingDays s)
  else s.

Definition RecordPoolPnL (s : PoolState) (pnl startingBalance : float64) : PoolState :=
  let s1 := UpdatePeakBalance
    (mkPool (TotalBalance s + pnl) (TotalPeakBalance s) (DailyPnL s + pnl) (DailyPnLPct s)
      (Halted s) (HaltReason s) (TradingDays s)) in
  if startingBalance >? 0
  then mkPool (TotalBalance s1) (TotalPeakBalance s1) (DailyPnL s1)
         (DailyPnL s1 / startingBalance * 100.0) (Halted s1) (HaltReason s1) (TradingDays s1)
  else s1.

Definition ResetPoolDaily (s : PoolState) : PoolState :=
  mkPool (TotalBalance s) (TotalPeakBalance s) 0 0 (Halted s) (HaltReason s)
    (i64 (TradingDays s + 1)).

Definition PerStratDrawdownCheck (stratPeakBalance totalBalance : float64)
    (profile : option Profile) : bool :=
  match profile with
  | None => false
  | Some p =>
      let maxStratDD := MaxDrawdownPct p * 0.5 in
      if maxStratDD <=? 0 then false
      else DrawdownPct stratPeakBalance totalBalance >? maxStratDD
  end.

Definition CorrelationMultiplier (side symbol : string)
    (openLong openShort : gmap string float64) : float64 :=
  if bool_decide (side = "BUY"%string) && (mget 0 openShort symbol >? 0) then 0.5
  else if bool_decide (side = "SELL"%string) && (mget 0 openLong symbol >? 0) then 0.5
  else 1.0.
End Pool.

(** ** profile.go: the live Manager *)
Module Manager.
Record State := mkState {
  ProfileID : string;
  StartingBalance : float64;
  PeakBalance : float64;
  DailyPnL : float64;
  DailyPnLPct : float64;
  CumulativePnL : float64;
  ConsistencyMult : float64;
  TradingDays : Z;
  CurrentPhase : Z;
  PhaseTargetMet : bool;
  Violated : bool;
  ViolationReason : string;
  SoftHalted : bool
}.

Record t := mk {
  profiles : gmap string Profile;
  active : string;
  state : State
}.

Definition NewManager : t :=
  mk ∅ "" (mkState "" 0 0 0 0 0 1.0 0 1 false false "" false).

(** The file system and the two decoders are outside the repository: each
    decoder fills the profile it is given and reports whether it failed. *)
Definition LoadProfile (readFile : string -> option string)
    (yamlUnmarshal jsonUnmarshal : string -> Profile -> Profile * bool)
    (zeroProfile : Profile) (m : t) (path : string) : t * bool :=
  match readFile path with
  | None => (m, false)
  | Some data =>
      let '(p1, yamlOk) := yamlUnmarshal data zeroProfile in
      if yamlOk then (mk (<[ID p1 := p1]> (profiles m)) (active m) (state m), true)
      else
        let '(p2, jsonOk) := jsonUnmarshal data p1 in
        if jsonOk then (mk (<[ID p2 := p2]> (profiles m)) (active m) (state m), true)
        else (m, false)
  end.

(** Returns [false] for [os.ErrNotExist]. *)
Definition ActivateProfile (m : t) (id : string) : t * bool :=
  match profiles m !! id with
  | None => (m, false)
  | Some _ =>
      (mk (profiles m) id
         (mkState id 100000.0 100000.0 0 0 0 1.0 0 1 false false "" false), true)
  end.

Definition ActiveProfile (m : t) : option Profile := profiles m !! active m.
Definition ActiveID (m : t) : string := active m.
Definition GetState (m : t) : State := state m.

Definition RecordFill (m : t) (pnl balance : float64) : t :=
  let s := state m in
  let daily := DailyPnL s + pnl in
  mk (profiles m) (active m)
    (mkState (ProfileID s) (StartingBalance s)
       (if balance >? PeakBalance s then balance else PeakBalance s)
       daily
       (if StartingBalance s >? 0 then daily / StartingBalance s * 100.0 else DailyPnLPct s)
       (CumulativePnL s + pnl) (ConsistencyMult s) (TradingDays s) (CurrentPhase s)
       (PhaseTargetMet s) (Violated s) (ViolationReason s) (SoftHalted s)).

Definition CheckDailyLimits (m : t) : bool * string :=
  match profiles m !! active m with
  | None => (true, ""%string)
  | Some p =>
      let s := state m in
      let currentBalance := StartingBalance s + DailyPnL s in
      if (MaxDailyLossPct p >? 0) &&
         DailyLossExceeded (StartingBalance s) currentBalance (MaxDailyLossPct p)
      then (false, "daily_loss_limit"%string)
      else if (MaxDrawdownPct p >? 0) &&
         DrawdownExceeded (PeakBalance s) currentBalance (MaxDrawdownPct p)
      then (false, "max_drawdown"%string)
      else if ConsistencyEnabled p && (ConsistencyThresholdPct p >? 0) &&
         ConsistencyBreached (DailyPnLPct s) (ConsistencyThresholdPct p)
      then (false, "consistency_outlier"%string)
      else (true, ""%string)
  end.

Definition DailyReset (m : t) : t :=
  let p := profiles m !! active m in
  let s := state m in
  let mult :=
    match p with
    | Some p =>
        if ConsistencyEnabled p && (DailyPnLPct s >? ConsistencyThresholdPct p)
        then ConsistencyPenalty p else 1.0
    | None => 1.0
    end in
  let days := i64 (TradingDays s + 1) in
  let met :=
    match p with
    | Some p =>
        let target := if Z.eqb (CurrentPhase s) 2
                      then ProfitTargetPctPhase2 p else ProfitTargetPctPhase1 p in
        let totalReturn := CumulativePnL s / StartingBalance s * 100.0 in
        if (totalReturn >=? target) && Z.leb (MinTradingDays p) days
        then true else PhaseTargetMet s
    | None => PhaseTargetMet s
    end in
  mk (profiles m) (active m)
    (mkState (ProfileID s) (StartingBalance s) (PeakBalance s) 0 0 (CumulativePnL s) mult
       days (CurrentPhase s) met (Violated s) (ViolationReason s) (SoftHalted s)).

Definition AdvancePhase (m : t) : t :=
  let s := state m in
  mk (profiles m) (active m)
    (mkState (ProfileID s) (StartingBalance s) (StartingBalance s) 0 0 0 1.0
       (TradingDays s) (i64 (CurrentPhase s + 1)) false (Violated s) (ViolationReason s)
       (SoftHalted s)).

Definition MarkViolated (m : t) (reason : string) : t :=
  let s := state m in
  mk (profiles m) (active m)
    (mkState (ProfileID s) (StartingBalance s) (PeakBalance s) (DailyPnL s) (DailyPnLPct s)
       (CumulativePnL s) (ConsistencyMult s) (TradingDays s) (CurrentPhase s)
       (PhaseTargetMet s) true reason (SoftHalted s)).

Definition IsHalted (m : t) : bool := Violated (state m).
Definition AllProfiles (m : t) : gmap string Profile := profiles m.

(** Adapter methods of the [PropFirmGate] interface. *)
Definition OnFill (m : t) (pnl balance : float64) : t := RecordFill m pnl balance.
Definition OnNewDay (m : t) : t := DailyReset m.
Definition HaltReason (m : t) : string := ViolationReason (state m).
Definition GetCurrentPhase (m : t) : Z := CurrentPhase (state m).
Definition ProfitTargetMet (m : t) : bool := PhaseTargetMet (state m).

Definition GetPositionSize (m : t) (baseQuantity : float64) : float64 :=
  match profiles m !! active m with
  | None => baseQuantity
  | Some p =>
      if MaxPositionPct p <=? 0 then baseQuantity
      else
        let capPct := MaxPositionPct p / 100.0 in
        let s := state m in
        let maxSize := StartingBalance s * capPct * ConsistencyMult s in
        if baseQuantity <=? 0 then 0
        else if baseQuantity >? maxSize then maxSize
        else baseQuantity
  end.
End Manager.

(** ** The rule formulas *)
Section Rules.
Local Open Scope Z_scope.

Lemma DrawdownPct_pos_peak peak cur :
  ffin peak = true -> 0 < fv peak ->
  DrawdownPct peak cur = ((peak - cur) / peak * 100)%float.
Proof.
  intros Fp Hp. unfold DrawdownPct.
  rewrite leb_fv_nn, fv_zero_lit by (done || by apply ffin_nan).
  destruct (Z.leb_spec (fv peak) 0); [lia|done].
Qed.

Lemma DailyLossPct_pos_start start cur :
  ffin start = true -> 0 < fv start ->
  DailyLossPct start cur = ((cur - start) / start * 100)%float.
Proof.
  intros Fp Hp. unfold DailyLossPct.
  rewrite leb_fv_nn, fv_zero_lit by (done || by apply ffin_nan).
  destruct (Z.leb_spec (fv start) 0); [lia|done].
Qed.

(** A percentage of money over a base of at least one unit is finite. *)
Lemma pct_fin x y base :
  money x -> money y -> ffin base = true -> onev <= fv base ->
  ffin ((x - y) / base)%float = true /\ ffin ((x - y) / base * 100)%float = true.
Proof.
  intros Mx My Fb Hb. destruct (sub_money x y Mx My) as [Fs Bs].
  destruct (div_bounded _ base Fs Bs Fb Hb) as [Fd Bd].
  split; [done|]. by apply mul_hundred_bounded.
Qed.

Lemma DrawdownPct_antitone peak b b' :
  money peak -> onev <= fv peak -> money b -> money b' -> fv b' <= fv b ->
  ffin (DrawdownPct peak b') = true /\ ffin (DrawdownPct peak b) = true /\
  fv (DrawdownPct peak b) <= fv (DrawdownPct peak b').
Proof.
  intros Mp Hp Mb Mb' Hle. pose proof onev_pos.
  rewrite !DrawdownPct_pos_peak by (apply Mp || lia).
  destruct (pct_fin peak b peak Mp Mb (money_fin _ Mp) Hp) as [Fd Fm].
  destruct (pct_fin peak b' peak Mp Mb' (money_fin _ Mp) Hp) as [Fd' Fm'].
  destruct (sub_money peak b Mp Mb) as [Fs _]. destruct (sub_money peak b' Mp Mb') as [Fs' _].
  split; [done|]. split; [done|]. apply mul_mono_l; auto using pos0_hundred.
  apply div_mono_l; auto using money_fin; [lia|]. apply sub_mono_r; auto using money_fin.
Qed.

Lemma DailyLossPct_monotone start b b' :
  money start -> onev <= fv start -> money b -> money b' -> fv b' <= fv b ->
  ffin (DailyLossPct start b') = true /\ ffin (DailyLossPct start b) = true /\
  fv (DailyLossPct start b') <= fv (DailyLossPct start b).
Proof.
  intros Mp Hp Mb Mb' Hle. pose proof onev_pos.
  rewrite !DailyLossPct_pos_start by (apply Mp || lia).
  destruct (pct_fin b start start Mb Mp (money_fin _ Mp) Hp) as [Fd Fm].
  destruct (pct_fin b' start start Mb' Mp (money_fin _ Mp) Hp) as [Fd' Fm'].
  destruct (sub_money b start Mb Mp) as [Fs _]. destruct (sub_money b' start Mb' Mp) as [Fs' _].
  split; [done|]. split; [done|]. apply mul_mono_l; auto using pos0_hundred.
  apply div_mono_l; auto using money_fin; [lia|]. apply sub_mono_l; auto using money_fin.
Qed.

Lemma pct_self x base :
  money x -> ffin base = true -> onev <= fv base -> fv ((x - x) / base * 100)%float = 0.
Proof.
  intros Mx Fb Hb. pose proof onev_pos. destruct (pct_fin x x base Mx Mx Fb Hb) as [Fd Fm].
  destruct (sub_sign x x (money_fin _ Mx) (money_fin _ Mx)) as (_ & _ & _ & E).
  specialize (E eq_refl). destruct (sub_money x x Mx Mx) as [Fs _].
  destruct (div_sign _ base Fs Fb ltac:(lia)) as (_ & G & L).
  assert (E2 : fv ((x - x) / base)%float = 0) by (specialize (G ltac:(lia)); specialize (L ltac:(lia)); lia).
  pose proof (mul_nearest _ 100%float Fd eq_refl) as N. rewrite E2, Z.mul_0_l in N.
  by apply (nearest_zero (2 ^ 1074)).
Qed.

(** No drawdown at or above the peak, no loss at or above the start. *)
Lemma DrawdownPct_above_peak peak b :
  money peak -> onev <= fv peak -> money b -> fv peak <= fv b ->
  ffin (DrawdownPct peak b) = true /\ fv (DrawdownPct peak b) <= 0.
Proof.
  intros Mp Hp Mb Hle. pose proof onev_pos.
  destruct (DrawdownPct_antitone peak b peak Mp Hp Mb Mp Hle) as (_ & F & L).
  split; [done|]. rewrite (DrawdownPct_pos_peak peak peak) in L by (apply Mp || lia).
  rewrite pct_self in L; auto using money_fin.
Qed.

Lemma DailyLossPct_above_start start b :
  money start -> onev <= fv start -> money b -> fv start <= fv b ->
  ffin (DailyLossPct start b) = true /\ 0 <= fv (DailyLossPct start b).
Proof.
  intros Mp Hp Mb Hle. pose proof onev_pos.
  destruct (DailyLossPct_monotone start b start Mp Hp Mb Mp Hle) as (_ & F & L).
  split; [done|]. rewrite (DailyLossPct_pos_start start start) in L by (apply Mp || lia).
  rewrite pct_self in L; auto using money_fin.
Qed.

(** [0 < lim] as the code tests it, and the negated limit. *)
Lemma neg_limit lim : (0 <? lim)%float = true -> fnan (- lim)%float = false /\ fv (- lim)%float < 0.
Proof.
  intros (_ & N & H)%ltb_true. rewrite fv_zero_lit in H. rewrite fv_opp.
  split; [|lia]. unfold fnan in *. rewrite opp_spec. by destruct (Prim2SF lim).
Qed.

Lemma DrawdownExceeded_above_peak peak b lim :
  money peak -> onev <= fv peak -> money b -> fv peak <= fv b -> (0 <=? lim)%float = true ->
  DrawdownExceeded peak b lim = false.
Proof.
  intros Mp Hp Mb Hle (_ & Nl & Hl)%leb_true. rewrite fv_zero_lit in Hl.
  destruct (DrawdownPct_above_peak peak b Mp Hp Mb Hle) as [F L].
  unfold DrawdownExceeded. rewrite ltb_fv_nn by (done || by apply ffin_nan).
  apply Z.ltb_ge. lia.
Qed.

Lemma DailyLossExceeded_above_start start b lim :
  money start -> onev <= fv start -> money b -> fv start <= fv b -> (0 <? lim)%float = true ->
  DailyLossExceeded start b lim = false.
Proof.
  intros Mp Hp Mb Hle (Nl & Hl)%neg_limit.
  destruct (DailyLossPct_above_start start b Mp Hp Mb Hle) as [F L].
  unfold DailyLossExceeded. rewrite leb_fv_nn by (done || by apply ffin_nan).
  apply Z.leb_gt. lia.
Qed.
End Rules.

(** ** Properties of the rules *)

Definition k100 : float64 := 100000.
Definition k94 : float64 := 94000.
Definition k88 : float64 := 88000.

(** Decides [money] on a concrete amount. *)
Ltac money_lit := split; [reflexivity | apply Z.leb_le; vm_compute; reflexivity].
Ltac fv_lit := apply Z.leb_le; vm_compute; reflexivity.

(** the drawdown rule is monotone in the loss: a breach at some balance is
    a breach at every lower balance (float rounding included). *)
Theorem DrawdownExceeded_monotone peak b b' lim :
  money peak -> (onev <= fv peak)%Z -> money b -> money b' -> (b' <=? b)%float = true ->
  DrawdownExceeded peak b lim = true -> DrawdownExceeded peak b' lim = true.
Proof.
  intros Mp Hp Mb Mb' (_ & _ & Hle)%leb_true HE.
  destruct (DrawdownPct_antitone peak b b' Mp Hp Mb Mb' Hle) as (F' & F & L).
  unfold DrawdownExceeded in *. apply ltb_true in HE as (Nl & _ & HE).
  apply ltb_true. repeat split; [done|by apply ffin_nan|lia].
Qed.

Lemma DrawdownExceeded_monotone_witness : DrawdownExceeded k100 k88 10 = true.
Proof.
  apply (DrawdownExceeded_monotone k100 89000 k88 10);
    first [money_lit | fv_lit | reflexivity].
Defined.

(** The daily-loss rule is monotone in the loss, and never fires at or above
    the day's starting balance. *)
Theorem DailyLossExceeded_monotone start b b' lim :
  money start -> (onev <= fv start)%Z -> money b -> money b' -> (b' <=? b)%float = true ->
  (DailyLossExceeded start b lim = true -> DailyLossExceeded start b' lim = true) /\
  ((start <=? b)%float = true -> (0 <? lim)%float = true -> DailyLossExceeded start b lim = false).
Proof.
  intros Mp Hp Mb Mb' (_ & _ & Hle)%leb_true. split.
  - intros HE. destruct (DailyLossPct_monotone start b b' Mp Hp Mb Mb' Hle) as (F' & F & L).
    unfold DailyLossExceeded in *. apply leb_true in HE as (_ & Nl & HE).
    apply leb_true. repeat split; [by apply ffin_nan|done|lia].
  - intros (_ & _ & Hs)%leb_true Hl. by apply DailyLossExceeded_above_start.
Qed.

Lemma DailyLossExceeded_monotone_witness : DailyLossExceeded k100 k88 5 = true.
Proof.
  apply (DailyLossExceeded_monotone k100 k94 k88 5); first [money_lit | fv_lit | reflexivity].
Defined.

(** ** The shared pool bookkeeping *)
Section PoolInvariant.
Import Pool.

(** One bookkeeping call; the arguments are the caller's. *)
Inductive pool_step : PoolState -> PoolState -> Prop :=
| step_record s pnl start : pool_step s (RecordPoolPnL s pnl start)
| step_peak s : pool_step s (UpdatePeakBalance s)
| step_reset s : pool_step s (ResetPoolDaily s)
| step_daily s start p : pool_step s (CheckDailyLossHalt s start p).1
| step_dd s p : pool_step s (CheckDrawdownHalt s p).1.

(** The peak dominates the balance. *)
Definition hwm (s : PoolState) : Prop := (TotalBalance s >? TotalPeakBalance s) = false.

(** The mark only moves up. *)
Definition peak_up (s s' : PoolState) : Prop :=
  TotalPeakBalance s' = TotalPeakBalance s \/ TotalPeakBalance s <? TotalPeakBalance s' = true.

(** What one call may do to a state. *)
Definition evolves (s s' : PoolState) : Prop :=
  peak_up s s' /\ (Halted s = true -> Halted s' = true /\ Pool.HaltReason s' = Pool.HaltReason s).

#[local] Instance evolves_preorder : PreOrder evolves.
Proof.
  split.
  - intros s. split; [by left|done].
  - intros s1 s2 s3 [P1 H1] [P2 H2]. split.
    + destruct P1 as [E1|L1], P2 as [E2|L2].
      * left. congruence.
      * right. rewrite <- E1. exact L2.
      * right. rewrite E2. exact L1.
      * right. apply ltb_true in L1 as (? & ? & ?), L2 as (? & ? & ?).
        apply ltb_true. repeat split; [done|done|lia].
    + intros H. destruct (H1 H) as [Ha Hr]. destruct (H2 Ha). split; congruence.
Qed.

Lemma update_evolves s : evolves s (UpdatePeakBalance s) /\ hwm (UpdatePeakBalance s).
Proof.
  unfold evolves, peak_up, hwm, UpdatePeakBalance.
  destruct (TotalBalance s >? TotalPeakBalance s) eqn:E; cbn; rewrite ?ltb_irrefl; tauto.
Qed.

Lemma record_evolves s pnl start :
  evolves s (RecordPoolPnL s pnl start) /\ hwm (RecordPoolPnL s pnl start).
Proof.
  set (s1 := mkPool (TotalBalance s + pnl) (TotalPeakBalance s) (DailyPnL s + pnl)
               (DailyPnLPct s) (Halted s) (Pool.HaltReason s) (TradingDays s)).
  destruct (update_evolves s1) as [E H]. unfold RecordPoolPnL. fold s1.
  destruct (start >? 0); split; [exact E|exact H|exact E|exact H].
Qed.

Lemma halt_evolves s r : Halted s = false -> evolves s (halt s r).
Proof. intros H. split; [by left|]. rewrite H. discriminate. Qed.

Lemma pool_step_evolves s s' : pool_step s s' -> evolves s s' /\ (hwm s -> hwm s').
Proof.
  destruct 1 as [s pnl start|s|s|s start p|s p].
  - destruct (record_evolves s pnl start). done.
  - destruct (update_evolves s). done.
  - split; [split; [by left|done]|done].
  - unfold CheckDailyLossHalt. destruct p as [p|]; [|done].
    destruct (Halted s) eqn:E; [done|]. destruct (DailyLossExceeded _ _ _); [|done].
    split; [by apply halt_evolves|done].
  - unfold CheckDrawdownHalt. destruct p as [p|]; [|done].
    destruct (Halted s) eqn:E; [done|]. destruct (_ <=? 0); [done|].
    destruct (_ >? _); [|done]. split; [by apply halt_evolves|done].
Qed.

Lemma pool_steps_evolve s s' : rtc pool_step s s' -> evolves s s' /\ (hwm s -> hwm s').
Proof.
  induction 1 as [s|s1 s2 s3 H1 _ [E2 W2]]; [done|].
  apply pool_step_evolves in H1 as [E1 W1]. split; [by transitivity s2|auto].
Qed.

(** In every reachable pool state the high-water mark dominates the balance;
    along any run the mark only rises, and a halt with its reason is never
    undone by the bookkeeping calls. *)
Theorem pool_invariant start s s' :
  rtc pool_step (InitPoolState Pool.zero start) s -> rtc pool_step s s' ->
  hwm s' /\ peak_up s s' /\
  (Halted s = true -> Halted s' = true /\ Pool.HaltReason s' = Pool.HaltReason s).
Proof.
  intros H0 H1. destruct (pool_steps_evolve _ _ H0) as [_ W0].
  destruct (pool_steps_evolve _ _ H1) as [[P L] W1].
  split; [|done]. apply W1, W0. apply ltb_irrefl.
Qed.
End PoolInvariant.

(** Two losing fills, the second past the 10% drawdown of the FTMO profile. *)
Definition pool_run : Pool.PoolState :=
  let s := Pool.RecordPoolPnL (Pool.InitPoolState Pool.zero k100) (-6000) k100 in
  (Pool.CheckDrawdownHalt (Pool.RecordPoolPnL s (-6000) k100) (Some DefaultFTMOProfile)).1.

Lemma pool_invariant_witness :
  Pool.Halted pool_run = true /\ Pool.Halted (Pool.ResetPoolDaily pool_run) = true /\
  hwm (Pool.ResetPoolDaily pool_run).
Proof.
  assert (R : rtc pool_step (Pool.InitPoolState Pool.zero k100) pool_run).
  { unfold pool_run. eapply rtc_l; [apply step_record|]. eapply rtc_l; [apply step_record|].
    apply rtc_once. apply step_dd. }
  assert (H : Pool.Halted pool_run = true) by (vm_compute; reflexivity).
  destruct (pool_invariant k100 pool_run (Pool.ResetPoolDaily pool_run) R
              (rtc_once _ _ (step_reset pool_run))) as (W & _ & L).
  destruct (L H). done.
Defined.

(** ** The live manager *)
Section ManagerProps.
Import Manager.

(** The operations a running account performs between activations. *)
Inductive manager_step : Manager.t -> Manager.t -> Prop :=
| mstep_fill m pnl bal : manager_step m (OnFill m pnl bal)
| mstep_day m : manager_step m (OnNewDay m)
| mstep_phase m : manager_step m (AdvancePhase m)
| mstep_violate m r : manager_step m (MarkViolated m r).

(** a violation is permanent: no fill, day roll, phase advance or further
    violation clears it, and none changes the profile in force or the starting
    balance; only [ActivateProfile] of a known profile clears it, and it
    resets the account to a fresh phase-1 state. *)
Theorem manager_violation_latched m m' id :
  rtc manager_step m m' ->
  (IsHalted m = true -> IsHalted m' = true) /\
  ActiveProfile m' = ActiveProfile m /\
  StartingBalance (state m') = StartingBalance (state m) /\
  (is_Some (profiles m !! id) <-> (ActivateProfile m' id).2 = true) /\
  ((ActivateProfile m' id).2 = true ->
     IsHalted (ActivateProfile m' id).1 = false /\
     GetCurrentPhase (ActivateProfile m' id).1 = 1%Z).
Proof.
  intros H.
  assert (I : (IsHalted m = true -> IsHalted m' = true) /\ profiles m' = profiles m /\
              active m' = active m /\ StartingBalance (state m') = StartingBalance (state m)).
  { induction H as [m|m1 m2 m3 H1 _ IH]; [done|].
    destruct H1; cbn in IH; destruct IH as (I1 & I2 & I3 & I4); rewrite I2, I3, I4; auto. }
  destruct I as (I1 & I2 & I3 & I4). unfold ActiveProfile, ActivateProfile.
  rewrite I2, I3, I4. split; [done|]. split; [done|]. split; [done|].
  destruct (profiles m !! id) eqn:E; cbn; rewrite ?is_Some_alt; split; try done.
Qed.

(** The drawdown limit cannot see losses of previous days.  Whatever was
    lost before, right after a day roll an account that never rose above its
    starting balance passes [CheckDailyLimits]. *)
Theorem manager_daily_reset_forgets_losses m p :
  ActiveProfile m = Some p ->
  money (StartingBalance (state m)) -> (onev <= fv (StartingBalance (state m)))%Z ->
  PeakBalance (state m) = StartingBalance (state m) ->
  CheckDailyLimits (OnNewDay m) = (true, ""%string).
Proof.
  intros Hp Ms Hs Hpk. unfold CheckDailyLimits, OnNewDay, DailyReset. cbn [profiles active].
  unfold ActiveProfile in Hp. rewrite Hp. cbn [state StartingBalance DailyPnL PeakBalance DailyPnLPct].
  rewrite Hpk. set (S := StartingBalance (state m)) in *.
  assert (HS : money (S + 0)%float /\ fv (S + 0)%float = fv S).
  { pose proof (add_nearest S 0 (money_fin _ Ms) eq_refl) as N.
    rewrite fv_zero_lit, Z.add_0_r in N.
    pose proof (nearest_exact _ _ _ S Z.lt_0_1 N (money_nan _ Ms) ltac:(lia)) as E.
    destruct Ms as [Fs Bs]. split; [|done]. split; [|by rewrite E].
    apply ffin_of_range; [apply N|]. rewrite E. by apply ffin_range. }
  destruct HS as [Mc Ec].
  assert (G : forall x, ((x >? 0) && DailyLossExceeded S (S + 0) x)%bool = false).
  { intros x. destruct (x >? 0) eqn:Ex; [|done]. cbn.
    apply DailyLossExceeded_above_start; auto. lia. }
  assert (G' : forall x, ((x >? 0) && DrawdownExceeded S (S + 0) x)%bool = false).
  { intros x. destruct (x >? 0) eqn:Ex; [|done]. cbn.
    apply DrawdownExceeded_above_peak; auto; [lia|].
    apply ltb_true in Ex as (? & ? & ?). apply leb_true. repeat split; auto. lia. }
  rewrite G, G'.
  assert (G2 : ((ConsistencyThresholdPct p >? 0) && ConsistencyBreached 0 (ConsistencyThresholdPct p))%bool = false).
  { unfold ConsistencyBreached. destruct (_ >? 0) eqn:Ex; [|done]. cbn. by apply ltb_asym. }
  by rewrite <- andb_assoc, G2, andb_false_r.
Qed.
End ManagerProps.

(** An FTMO account after three days that lose 4000 each. *)
Definition ftmo_manager : Manager.t :=
  (Manager.ActivateProfile
     (Manager.mk {["ftmo"%string := DefaultFTMOProfile]} "" (Manager.state Manager.NewManager))
     "ftmo").1.

Definition three_losing_days : Manager.t :=
  let d1 := Manager.OnNewDay (Manager.OnFill ftmo_manager (-4000) 96000) in
  let d2 := Manager.OnNewDay (Manager.OnFill d1 (-4000) 92000) in
  Manager.OnFill d2 (-4000) 88000.

Lemma manager_violation_latched_witness :
  Manager.IsHalted (Manager.OnNewDay (Manager.MarkViolated ftmo_manager "kill")) = true.
Proof.
  assert (R : rtc manager_step (Manager.MarkViolated ftmo_manager "kill")
                (Manager.OnNewDay (Manager.MarkViolated ftmo_manager "kill")))
    by apply rtc_once, mstep_day.
  destruct (manager_violation_latched _ _ "ftmo" R) as [L _]. by apply L.
Defined.

(** The account is 12% below its peak, over the 10% limit, and is let through. *)
Lemma manager_daily_reset_forgets_losses_witness :
  DrawdownExceeded k100 k88 (MaxDrawdownPct DefaultFTMOProfile) = true /\
  Manager.CumulativePnL (Manager.state three_losing_days) = (-12000)%float /\
  Manager.CheckDailyLimits (Manager.OnNewDay three_losing_days) = (true, ""%string).
Proof.
  split; [vm_compute; reflexivity|]. split; [vm_compute; reflexivity|].
  apply (manager_daily_reset_forgets_losses three_losing_days DefaultFTMOProfile);
    first [vm_compute; reflexivity | idtac].
  - assert (E : Manager.StartingBalance (Manager.state three_losing_days) = k100)
      by (vm_compute; reflexivity). rewrite E. money_lit.
  - fv_lit.
Defined.

