(* ===== verification/Sizing.v ===== *)
(** * Position sizing ([internal/risk/position_sizer.go], constants.go)

    The [PositionSizer] and its chain of attenuators.  The theorems bound the
    float64 result of the chain, rounding included. *)
From Stdlib Require Import ZArith Lia Bool Floats.
From S2P Require Import Prelude Float64 FloatRound FloatLaws PropFirm.
Local Open Scope float_scope.
Local Open Scope go_scope.

(** ** constants.go *)
Definition DefaultBufferPct : float64 := 0.002.
Definition DefaultCorrelationMult : float64 := 0.5.
Definition DefaultAdverseSelectPct : float64 := 0.05.
Definition DefaultKellyMultiplier : float64 := 0.25.
Definition DefaultPerTradeCap : float64 := 0.02.
Definition DefaultTotalExpCap : float64 := 0.30.
Definition DefaultMaxPositionPct : float64 := 0.03.
Definition DefaultVolatilityHalt : float64 := 3.0.
Definition DefaultOrderRateLimit : float64 := 10.
Definition DefaultStratDrawdownFrac : float64 := 0.5.
Definition DefaultVIXHigh : float64 := 35.0.
Definition DefaultVIXMid : float64 := 28.0.
Definition DefaultVIXLow : float64 := 20.0.
Definition VIXHighMult : float64 := 0.50.
Definition VIXMidMult : float64 := 0.75.
Definition VIXLowMult : float64 := 0.90.
Definition SentimentExtremeLow : Z := 10.
Definition SentimentExtremeHigh : Z := 90.
Definition SentimentModerateLow : Z := 20.
Definition SentimentModerateHigh : Z := 80.
Definition SentimentExtremeMult : float64 := 0.50.
Definition SentimentModerateMult : float64 := 0.75.
Definition RegimeModerateMult : float64 := 0.75.
Definition RegimeCrisisMult : float64 := 0.50.
Definition RegimeMLScale : float64 := 1.5.

(** ** position_sizer.go *)
Record PositionSizer := mkSizer {
  profile : option Profile;
  vix : float64;
  sentiment : Z;
  regime : Z;
  regimeScore : float64;
  kellyMult : float64;
  perTradeCap : float64;
  totalExpCap : float64;
  useMLRegime : bool;
  lotSize : float64
}.

Definition NewPositionSizer (p : option Profile) : PositionSizer :=
  mkSizer p 0 0 0 0 DefaultKellyMultiplier DefaultPerTradeCap DefaultTotalExpCap false 0.

Definition SetProfile (ps : PositionSizer) (p : option Profile) : PositionSizer :=
  mkSizer p (vix ps) (sentiment ps) (regime ps) (regimeScore ps) (kellyMult ps)
    (perTradeCap ps) (totalExpCap ps) (useMLRegime ps) (lotSize ps).

Definition UpdateMarketState (ps : PositionSizer) (v : float64) (sent reg : Z) : PositionSizer :=
  mkSizer (profile ps) v sent reg (regimeScore ps) (kellyMult ps)
    (perTradeCap ps) (totalExpCap ps) (useMLRegime ps) (lotSize ps).

Definition SetRegimeScore (ps : PositionSizer) (score : float64) : PositionSizer :=
  mkSizer (profile ps) (vix ps) (sentiment ps) (regime ps) score (kellyMult ps)
    (perTradeCap ps) (totalExpCap ps) true (lotSize ps).

Definition SetKellyMultiplier (ps : PositionSizer) (mult : float64) : PositionSizer :=
  mkSizer (profile ps) (vix ps) (sentiment ps) (regime ps) (regimeScore ps) mult
    (perTradeCap ps) (totalExpCap ps) (useMLRegime ps) (lotSize ps).

Definition SetLotSize (ps : PositionSizer) (l : float64) : PositionSizer :=
  mkSizer (profile ps) (vix ps) (sentiment ps) (regime ps) (regimeScore ps) (kellyMult ps)
    (perTradeCap ps) (totalExpCap ps) (useMLRegime ps) l.

Definition RoundToLotSize (size lot : float64) : float64 :=
  if (size <=? 0) || (lot <=? 0) then math.Max 0 size
  else math.Round (size / lot) * lot.

(** The factors [applyMultipliers] multiplies in, in the order of the code;
    [1] where the code leaves the size alone. *)
Definition regimeMultiplier (ps : PositionSizer) : float64 :=
  if useMLRegime ps then math.Max (regimeScore ps * RegimeMLScale) 0.0
  else if Z.eqb (regime ps) 0 || Z.eqb (regime ps) 1 then 1.0
  else if Z.eqb (regime ps) 2 then RegimeModerateMult
  else RegimeCrisisMult.

Definition applyMultipliers (ps : PositionSizer)
    (confidence baseSize existingPosition : float64) : float64 :=
  if baseSize <=? 0 then 0
  else
    let p := default DefaultFTMOProfile (profile ps) in
    let size := baseSize * math.Min confidence 1.0 in
    let size := if ConsistencyEnabled p then size * regimeMultiplier ps else size in
    let size :=
      if vix ps >? DefaultVIXHigh then size * VIXHighMult
      else if vix ps >? DefaultVIXMid then size * VIXMidMult
      else if vix ps >? DefaultVIXLow then size * VIXLowMult
      else size in
    let size :=
      if Z.ltb (sentiment ps) SentimentExtremeLow || Z.ltb SentimentExtremeHigh (sentiment ps)
      then size * SentimentExtremeMult
      else if Z.ltb (sentiment ps) SentimentModerateLow || Z.ltb SentimentModerateHigh (sentiment ps)
      then size * SentimentModerateMult
      else size in
    if existingPosition >? 0
    then size * (1.0 / (1.0 + existingPosition / baseSize))
    else size.

Definition ComputeSize (ps : PositionSizer)
    (confidence baseSize : float64) (symbol : string)
    (currentAllocation existingPosition : float64) : float64 :=
  let size := applyMultipliers ps confidence baseSize existingPosition in
  if size <=? 0 then 0
  else
    let size :=
      if currentAllocation + size >? baseSize * totalExpCap ps
      then let capped := baseSize * totalExpCap ps - currentAllocation in
           if capped <? 0 then 0 else capped
      else size in
    RoundToLotSize (math.Max 0 size) (lotSize ps).

Definition ComputeSizeUncapped (ps : PositionSizer)
    (confidence baseSize existingPosition : float64) : float64 :=
  RoundToLotSize (math.Max 0 (applyMultipliers ps confidence baseSize existingPosition))
    (lotSize ps).

(** ** Attenuation *)
Section Attenuation.
Local Open Scope Z_scope.

(** [s] is a size attenuated from [base]. *)
Definition attenuated (base s : float64) : Prop := pos0 s /\ fv s <= fv base.

Lemma attenuated_mul base s m : unit0 m -> attenuated base s -> attenuated base (s * m)%float.
Proof.
  intros Hm [Ps Ls]. destruct (mul_unit_le s m Ps Hm) as [P L]. split; [done|lia].
Qed.

(** A literal of the chain lies in [0,1]. *)
Lemma unit0_lit m :
  (ffin m && (0 <=? fv m) && (fv m <=? onev))%bool = true -> unit0 m.
Proof. intros [[F L]%andb_true_iff U%Z.leb_le]%andb_true_iff. split; [done|lia]. Qed.

Ltac attenuate :=
  first [assumption
        |apply attenuated_mul; [apply unit0_lit; vm_compute; reflexivity|assumption]].


(** The correlation factor of the code lies in [0,1] whatever the position. *)
Lemma correlation_unit x : fnan x = false -> 0 <= fv x -> unit0 (1 / (1 + x))%float.
Proof.
  intros Nx Hx. assert (P1 : pos0 1%float) by apply pos0_one.
  assert (Inf : unit0 (1 / infinity)%float) by (apply unit0_lit; vm_compute; reflexivity).
  destruct (ffin x) eqn:Fx.
  - destruct (add_pos0 1 x P1 (conj Fx Hx)) as (Ny & L1 & _). rewrite fv_one in L1.
    pose proof onev_pos. destruct (ffin (1 + x)%float) eqn:Fy.
    + apply div_le_one; auto; rewrite ?fv_one; lia.
    + rewrite (nonfin_pos (1 + x)%float) by (done || lia). exact Inf.
  - rewrite (nonfin_pos x) by done. exact Inf.
Qed.

Lemma inf_div y : ffin y = true -> 0 < fv y -> (infinity / y)%float = infinity.
Proof.
  intros Fy Hy. apply Prim2SF_inj. rewrite div_spec.
  destruct (ffin_cases y Fy) as [(s & _ & V)|(s & m & e & -> & _ & V)]; [lia|].
  destruct s; [|reflexivity]. cbn [cond_Zopp] in V.
  pose proof (Z.pow_nonneg 2 (e + 1074) ltac:(lia)). lia.
Qed.

Lemma min_confidence_unit c : (0 <=? c)%float = true -> unit0 (math.Min c 1).
Proof.
  intros (_ & Nc & Hc)%leb_true. rewrite fv_zero_lit in Hc.
  destruct (Min_fv c 1 Nc eq_refl) as [Nm Vm]. rewrite fv_one in Vm.
  pose proof onev_pos. pose proof (fv_range (math.Min c 1)).
  assert (R : 0 <= fv (math.Min c 1) <= onev) by lia. split; [|done].
  apply (ffin_between 0%float _ 1%float); rewrite ?fv_zero_lit, ?fv_one; try done; lia.
Qed.

(** The regime factor is an attenuator unless an ML score above 2/3 is in use. *)
Definition regime_attenuates (ps : PositionSizer) : Prop :=
  useMLRegime ps = true -> fnan (regimeScore ps * RegimeMLScale)%float = false /\
                           (regimeScore ps * RegimeMLScale <=? 1)%float = true.

Lemma regimeMultiplier_unit ps : regime_attenuates ps -> unit0 (regimeMultiplier ps).
Proof.
  intros H. unfold regimeMultiplier. destruct (useMLRegime ps) eqn:E.
  - destruct (H E) as [Nr (_ & _ & Hr)%leb_true]. rewrite fv_one in Hr.
    destruct (Max_fv (regimeScore ps * RegimeMLScale)%float 0 Nr eq_refl) as [Nm Vm].
    rewrite fv_zero_lit in Vm. pose proof onev_pos.
    split; [|lia]. apply (ffin_between 0%float _ 1%float); rewrite ?fv_zero_lit, ?fv_one; try done; lia.
  - repeat case_match; apply unit0_lit; vm_compute; reflexivity.
Qed.

Lemma applyMultipliers_attenuated ps confidence base existing :
  pos0 base -> regime_attenuates ps -> (0 <=? confidence)%float = true ->
  attenuated base (applyMultipliers ps confidence base existing).
Proof.
  intros Pb Hr Hc. unfold applyMultipliers.
  destruct (base <=? 0)%float eqn:Eb; [split; [apply pos0_zero|apply Pb]|].
  assert (Hb : 0 < fv base)
    by (apply leb_false in Eb; [by rewrite fv_zero_lit in Eb|by apply pos0_nan|done]).
  cbv zeta.
  assert (A0 : attenuated base (base * math.Min confidence 1.0)%float)
    by (apply attenuated_mul; [by apply min_confidence_unit|split; [done|lia]]).
  revert A0. generalize (base * math.Min confidence 1.0)%float. intros s A0.
  set (s1 := if ConsistencyEnabled _ then _ else s).
  assert (A1 : attenuated base s1).
  { unfold s1. case_match; [apply attenuated_mul; [by apply regimeMultiplier_unit|done]|done]. }
  clearbody s1. clear s A0.
  set (s2 := if (_ <? vix ps)%float then _ else _).
  assert (A2 : attenuated base s2).
  { unfold s2. repeat case_match; attenuate. }
  clearbody s2. clear s1 A1.
  set (s3 := if (_ || _)%bool then _ else _).
  assert (A3 : attenuated base s3).
  { unfold s3. repeat case_match; attenuate. }
  clearbody s3. clear s2 A2.
  destruct (0 <? existing)%float eqn:Ee; [|done].
  apply attenuated_mul; [|done].
  apply ltb_true in Ee as (_ & Ne & He). rewrite fv_zero_lit in He.
  destruct (ffin existing) eqn:Fe.
  - destruct (div_sign existing base Fe (pos0_fin _ Pb) Hb) as (Nd & Gd & _).
    apply correlation_unit; [done|]. apply Gd. lia.
  - rewrite (nonfin_pos existing Ne Fe), inf_div by (lia || by apply Pb).
    apply correlation_unit; [done|]. vm_compute. discriminate.
Qed.

Lemma Max0_pos0 s : pos0 s -> pos0 (math.Max 0 s) /\ fv (math.Max 0 s) = fv s.
Proof.
  intros [Fs Hs]. destruct (Max_fv 0 s eq_refl (ffin_nan _ Fs)) as [Nm Vm].
  rewrite fv_zero_lit in Vm. assert (E : fv (math.Max 0 s) = fv s) by lia.
  split; [|done]. split; [|lia]. apply ffin_of_range; [done|]. rewrite E. by apply ffin_range.
Qed.

(** Without a lot size, rounding to lots changes nothing but the sign of zero. *)
Lemma RoundToLotSize_off s lot :
  pos0 s -> (lot <=? 0)%float = true ->
  pos0 (RoundToLotSize s lot) /\ fv (RoundToLotSize s lot) = fv s.
Proof.
  intros Ps Hl. unfold RoundToLotSize. rewrite Hl, orb_true_r. by apply Max0_pos0.
Qed.

(** When the float sum of an allocation and a size passes the cap, the room
    left is at most the size: the cap never raises it, whatever the allocation. *)
Lemma headroom_le cap alloc a :
  ffin cap = true -> pos0 a -> (alloc + a >? cap)%float%go = true ->
  attenuated a (if cap - alloc <? 0 then 0 else cap - alloc)%float.
Proof.
  intros Fc Pa (_ & Ns & H)%ltb_true. assert (Z0 : attenuated a 0%float)
    by (split; [apply pos0_zero|rewrite fv_zero_lit; apply Pa]).
  destruct (cap - alloc <? 0)%float eqn:E; [done|].
  destruct (ffin alloc) eqn:Fa.
  - pose proof (add_nearest alloc a Fa (pos0_fin _ Pa)) as N1.
    pose proof (sub_nearest cap alloc Fc Fa) as N2.
    assert (Hr : fv cap < fv alloc + fv a).
    { destruct (Z.lt_ge_cases (fv cap) (fv alloc + fv a)) as [|G]; [done|].
      pose proof (nearest_le _ _ _ cap Z.lt_0_1 N1 (ffin_nan _ Fc) ltac:(lia)). lia. }
    assert (U : fv (cap - alloc)%float <= fv a)
      by (apply (nearest_le _ _ _ a Z.lt_0_1 N2 (pos0_nan _ Pa)); lia).
    apply ltb_false in E; [|apply N2|done]. rewrite fv_zero_lit in E.
    split; [|done]. split; [|done].
    apply (ffin_between 0%float _ a); [done|apply Pa|apply N2|rewrite fv_zero_lit; lia].
  - exfalso. destruct (fnan alloc) eqn:Na.
    + assert (A : (alloc + a)%float = nan).
      { apply Prim2SF_inj. rewrite add_spec. unfold fnan in Na.
        by destruct (Prim2SF alloc). }
      by rewrite A in Ns.
    + destruct (Z.le_gt_cases 0 (fv alloc)) as [Hp|Hn].
      * rewrite (nonfin_pos alloc Na Fa Hp) in E.
        rewrite sub_inf in E by done. vm_compute in E. discriminate E.
      * assert (Ia : alloc = neg_infinity).
        { rewrite <- (opp_opp alloc). rewrite (nonfin_pos (- alloc)%float); [done|..].
          - by rewrite fnan_opp.
          - by rewrite ffin_opp.
          - rewrite fv_opp. lia. }
        rewrite Ia, add_neginf in H by apply Pa.
        pose proof (ffin_range _ Fc) as R. replace (fv neg_infinity) with (- fmaxv) in H
          by (vm_compute; reflexivity). lia.
Qed.

(** The capped size never exceeds the attenuated one, hence the base. *)
Lemma ComputeSize_attenuated ps confidence base symbol alloc existing :
  pos0 base -> regime_attenuates ps -> (0 <=? confidence)%float = true ->
  (lotSize ps <=? 0)%float = true -> unit0 (totalExpCap ps) ->
  attenuated base (ComputeSize ps confidence base symbol alloc existing).
Proof.
  intros Pb Hr Hc Hl Hu.
  destruct (applyMultipliers_attenuated ps confidence base existing Pb Hr Hc) as [Pa La].
  unfold ComputeSize. set (a := applyMultipliers ps confidence base existing) in *.
  destruct (a <=? 0)%float; [split; [apply pos0_zero|rewrite fv_zero_lit; apply Pb]|].
  destruct (mul_unit_le base (totalExpCap ps) Pb Hu) as [[Fc _] _].
  set (s := if (_ <? _)%float then _ else a).
  assert (As : attenuated a s).
  { unfold s. destruct (_ <? _)%float eqn:E; [by apply headroom_le|split; [done|lia]]. }
  destruct As as [Ps Ls]. destruct (Max0_pos0 s Ps) as [Pm Vm].
  destruct (RoundToLotSize_off _ (lotSize ps) Pm Hl) as [Pl Vl]. split; [done|lia].
Qed.
End Attenuation.

(** ** Claims *)

(** without a lot size, and unless an ML regime score above 2/3 is in use,
    the uncapped size is a finite quantity between 0 and the base size: no
    combination of confidence, regime, VIX, sentiment and existing position
    amplifies an order. *)
Theorem ComputeSizeUncapped_bounded ps confidence base existing :
  pos0 base -> regime_attenuates ps -> (0 <=? confidence) = true ->
  (lotSize ps <=? 0) = true ->
  pos0 (ComputeSizeUncapped ps confidence base existing) /\
  (ComputeSizeUncapped ps confidence base existing <=? base) = true.
Proof.
  intros Pb Hr Hc Hl.
  destruct (applyMultipliers_attenuated ps confidence base existing Pb Hr Hc) as [Pa La].
  unfold ComputeSizeUncapped. destruct (Max0_pos0 _ Pa) as [Pm Vm].
  destruct (RoundToLotSize_off _ (lotSize ps) Pm Hl) as [Pl Vl]. split; [done|].
  rewrite leb_fv_nn by (by apply pos0_nan). apply Z.leb_le. lia.
Qed.

Lemma ComputeSizeUncapped_bounded_witness :
  (ComputeSizeUncapped (UpdateMarketState (NewPositionSizer None) 40 5 3) 0.8 1000 250 <=? 1000) = true.
Proof.
  apply (ComputeSizeUncapped_bounded (UpdateMarketState (NewPositionSizer None) 40 5 3) 0.8 1000 250).
  - split; [reflexivity|]. apply Z.leb_le. vm_compute. reflexivity.
  - intros H. discriminate H.
  - reflexivity.
  - reflexivity.
Defined.

(** The exposure cap: without a lot size, a positive capped size never takes
    the float sum of allocation and size above [totalExpCap] of the base,
    except when it is the exact remaining head-room [cap - allocation] as the
    code computes it; and an allocation at or above the cap gets nothing. *)
Theorem ComputeSize_exposure_capped ps confidence base symbol alloc existing :
  pos0 base -> regime_attenuates ps -> (0 <=? confidence) = true ->
  (lotSize ps <=? 0) = true -> ffin alloc = true -> ffin (base * totalExpCap ps) = true ->
  ffin (base * totalExpCap ps - alloc) = true ->
  let size := ComputeSize ps confidence base symbol alloc existing in
  let cap := base * totalExpCap ps in
  pos0 size /\
  ((alloc + size <=? cap) = true \/ fv size = 0%Z \/ fv size = fv (cap - alloc)) /\
  ((cap <=? alloc) = true -> (0 < fv size)%Z -> (alloc + size <=? cap) = true).
Proof.
  intros Pb Hr Hc Hl Fa Fc Fd size cap.
  destruct (applyMultipliers_attenuated ps confidence base existing Pb Hr Hc) as [Pa _].
  subst size. unfold ComputeSize. set (a := applyMultipliers ps confidence base existing) in *.
  destruct (a <=? 0) eqn:Ea.
  { split; [apply pos0_zero|]. rewrite fv_zero_lit. split; [by right; left|lia]. }
  fold cap. set (s := if alloc + a >? cap then _ else _).
  assert (Hs : pos0 s /\ ((alloc + a >? cap) = false /\ s = a \/
                 (alloc + a >? cap) = true /\ (fv s = 0%Z \/ s = cap - alloc /\ (0 < fv s)%Z))).
  { unfold s. destruct (alloc + a >? cap); [|tauto].
    destruct (cap - alloc <? 0) eqn:E.
    - split; [apply pos0_zero|]. right. split; [done|]. left. apply fv_zero_lit.
    - apply ltb_false in E; [|by apply ffin_nan|done]. rewrite fv_zero_lit in E.
      split; [by split|]. right. split; [done|].
      destruct (Z.eq_dec (fv (cap - alloc)) 0%Z); [by left|right; split; [done|lia]]. }
  clearbody s. destruct Hs as [Ps Hs].
  destruct (Max0_pos0 s Ps) as [Pm Vm].
  destruct (RoundToLotSize_off _ (lotSize ps) Pm Hl) as [Pl Vl].
  set (r := RoundToLotSize (math.Max 0 s) (lotSize ps)) in *. split; [done|].
  assert (Er : fv r = fv s) by lia.
  assert (Sum : fv (alloc + r) = fv (alloc + s) /\ fnan (alloc + r) = false /\ fnan (alloc + s) = false).
  { pose proof (add_nearest alloc r Fa (pos0_fin _ Pl)) as N1.
    pose proof (add_nearest alloc s Fa (pos0_fin _ Ps)) as N2. rewrite Er in N1.
    destruct (same_or_zero r s (pos0_fin _ Pl) (pos0_fin _ Ps) Er) as [->|[_ Z2]].
    - split; [done|]. split; [apply N1|apply N2].
    - rewrite Z2, Z.add_0_r in N1, N2.
      rewrite (nearest_exact _ _ _ alloc Z.lt_0_1 N1), (nearest_exact _ _ _ alloc Z.lt_0_1 N2)
        by (by apply ffin_nan || lia). split; [done|]. split; [apply N1|apply N2]. }
  destruct Sum as (Sv & Sn1 & Sn2).
  assert (NC : fnan cap = false) by (by apply ffin_nan).
  assert (Lc : (alloc + a >? cap) = false -> s = a -> (alloc + r <=? cap) = true).
  { intros E ->. rewrite leb_fv_nn, Sv by done.
    rewrite ltb_fv_nn in E by done. apply Z.ltb_ge in E. by apply Z.leb_le. }
  destruct Hs as [[E Es]|[E [Es|[Es Ps']]]].
  - split; [by left; apply Lc|]. intros _ _. by apply Lc.
  - split; [right; left; lia|]. rewrite Er, Es. lia.
  - split; [right; right; by rewrite Er, Es|]. intros (_ & _ & Hle)%leb_true _.
    destruct (sub_sign cap alloc Fc Fa) as (_ & _ & Z & _). rewrite Es in Ps'.
    specialize (Z Hle). lia.
Qed.

Lemma ComputeSize_exposure_capped_witness :
  let size := ComputeSize (NewPositionSizer None) 1 1000 "EURUSD" 250 0 in
  pos0 size /\ fv size = fv (1000 * 0.30 - 250).
Proof.
  pose proof (ComputeSize_exposure_capped (NewPositionSizer None) 1 1000 "EURUSD" 250 0) as H.
  destruct H as (P & _ & _);
    [split; [reflexivity|apply Z.leb_le; vm_compute; reflexivity]
    |intros H; discriminate H|reflexivity..|].
  split; [exact P|]. vm_compute. reflexivity.
Defined.
