(* ===== verification/TradingControls.v ===== *)
(** * Trading controls ([internal/risk/trading_controls.go])

    [OrderRateLimiter], [VolatilityHalt] and [ExposureTracker], one Module
    each.  [time.Now()] is an argument of the operation that reads it; times
    and durations are nanoseconds. *)
From Stdlib Require Import ZArith Lia Bool Floats Sorting.Sorted.
From S2P Require Import Prelude Float64 FloatRound FloatLaws Price.
Local Open Scope float_scope.
Local Open Scope go_scope.

(** ** Sliding-window order limiter *)
Module OrderRateLimiter.
Record t := mk {
  maxPerSec : float64;
  windowSize : Z;
  orders : gmap string (list Z)
}.

Definition NewOrderRateLimiter (maxPerSec : float64) : t := mk maxPerSec 1000000000 ∅.

Definition Allow (now : Z) (l : t) (key : string) : t * bool :=
  let cutoff := (now - windowSize l)%Z in
  let keep := List.filter (fun t => Z.ltb cutoff t) (mget [] (orders l) key) in
  let l1 := mk (maxPerSec l) (windowSize l) (<[key := keep]> (orders l)) in
  if of_Z (Z.of_nat (length keep)) >=? maxPerSec l then (l1, false)
  else (mk (maxPerSec l) (windowSize l) (<[key := keep ++ [now]]> (orders l1)), true).

Definition Reset (l : t) : t := mk (maxPerSec l) (windowSize l) ∅.
End OrderRateLimiter.

(** ** Volatility halt *)
Module VolatilityHalt.
Record t := mk {
  returns : list float64;
  maxHistory : nat;
  zThreshold : float64;
  isHalted : bool;
  haltReason : string
}.

Definition NewVolatilityHalt (zThreshold : float64) : t := mk [] 252 zThreshold false "".

(** [Some z] when at least ten returns are held and their deviation is
    positive: the z-score of the latest return. *)
Definition zscore (rs : list float64) : option float64 :=
  if Nat.leb 10 (length rs) then
    let n := Z.of_nat (length rs) in
    let mean := fold_left (fun m r => m + r) rs 0.0 / of_Z n in
    let variance :=
      fold_left (fun v r => v + (r - mean) * (r - mean)) rs 0.0 / of_Z (n - 1) in
    let std := math.Sqrt variance in
    if std >? 0 then Some ((List.last rs 0 - mean) / std) else None
  else None.

Definition trim (v : t) (rs : list float64) : list float64 :=
  if Nat.ltb (maxHistory v) (length rs) then lastn (maxHistory v) rs else rs.

(** The previous price [Update] reconstructs from the latest non-zero return. *)
Definition prevPriceOf (priceF : float64) (rs : list float64) : float64 :=
  match List.find (fun r => negb (r =? 0)) (rev rs) with
  | Some r => priceF / (1 + r)
  | None => 0.0
  end.

Definition Update (v : t) (price : Price) : t :=
  let priceF := Float64 price in
  let rs :=
    if Nat.leb 2 (length (returns v)) then
      let prevPrice := prevPriceOf priceF (returns v) in
      if prevPrice >? 0 then returns v ++ [(priceF - prevPrice) / prevPrice]
      else returns v
    else returns v in
  let rs := trim v rs in
  match zscore rs with
  | Some z =>
      if math.Abs z >? zThreshold v
      then mk rs (maxHistory v) (zThreshold v) true "volatility_z"
      else mk rs (maxHistory v) (zThreshold v) (isHalted v) (haltReason v)
  | None => mk rs (maxHistory v) (zThreshold v) (isHalted v) (haltReason v)
  end.

Definition UpdateReturn (v : t) (ret : float64) : t :=
  let rs := trim v (returns v ++ [ret]) in
  match zscore rs with
  | Some z =>
      if math.Abs z >? zThreshold v
      then mk rs (maxHistory v) (zThreshold v) true "volatility_z"
      else mk rs (maxHistory v) (zThreshold v) false ""
  | None => mk rs (maxHistory v) (zThreshold v) (isHalted v) (haltReason v)
  end.

Definition IsHalted (v : t) : bool := isHalted v.
Definition HaltReason (v : t) : string := haltReason v.
Definition Reset (v : t) : t := mk [] (maxHistory v) (zThreshold v) false "".
End VolatilityHalt.

(** ** Exposure tracker *)
Module ExposureTracker.
Record t := mk {
  totalLong : float64;
  totalShort : float64;
  symbolLong : gmap string float64;
  symbolShort : gmap string float64;
  maxLeverage : float64;
  maxSymbolGross : float64;
  equity : float64
}.

Definition NewExposureTracker (maxLeverage maxSymbolGross : float64) : t :=
  mk 0 0 ∅ ∅ maxLeverage maxSymbolGross 0.

Definition SetEquity (e : t) (eq : float64) : t :=
  mk (totalLong e) (totalShort e) (symbolLong e) (symbolShort e)
    (maxLeverage e) (maxSymbolGross e) eq.

Definition CheckOrder (e : t) (symbol side : string) (notional : float64) : bool * string :=
  if equity e <=? 0 then (false, "equity_negative"%string)
  else
    let buy := bool_decide (side = "BUY"%string) in
    let currentLong := if buy then totalLong e + notional else totalLong e in
    let symLong := if buy then mget 0 (symbolLong e) symbol + notional
                   else mget 0 (symbolLong e) symbol in
    let currentShort := if buy then totalShort e else totalShort e + notional in
    let symShort := if buy then mget 0 (symbolShort e) symbol
                    else mget 0 (symbolShort e) symbol + notional in
    let grossExposure := currentLong + currentShort in
    if (maxLeverage e >? 0) && (grossExposure / equity e >? maxLeverage e)
    then (false, "max_leverage"%string)
    else if (maxSymbolGross e >? 0) && ((symLong + symShort) / equity e >? maxSymbolGross e)
    then (false, "max_symbol_gross_exposure"%string)
    else (true, ""%string).

Definition AddPosition (e : t) (symbol side : string) (notional : float64) : t :=
  if bool_decide (side = "BUY"%string)
  then mk (totalLong e + notional) (totalShort e)
         (<[symbol := mget 0 (symbolLong e) symbol + notional]> (symbolLong e)) (symbolShort e)
         (maxLeverage e) (maxSymbolGross e) (equity e)
  else mk (totalLong e) (totalShort e + notional)
         (symbolLong e) (<[symbol := mget 0 (symbolShort e) symbol + notional]> (symbolShort e))
         (maxLeverage e) (maxSymbolGross e) (equity e).

Definition clamp0 (x : float64) : float64 := if x <? 0 then 0 else x.

Definition RemovePosition (e : t) (symbol side : string) (notional : float64) : t :=
  if bool_decide (side = "BUY"%string)
  then mk (totalLong e - notional) (totalShort e)
         (<[symbol := clamp0 (mget 0 (symbolLong e) symbol - notional)]> (symbolLong e))
         (symbolShort e) (maxLeverage e) (maxSymbolGross e) (equity e)
  else mk (totalLong e) (totalShort e - notional) (symbolLong e)
         (<[symbol := clamp0 (mget 0 (symbolShort e) symbol - notional)]> (symbolShort e))
         (maxLeverage e) (maxSymbolGross e) (equity e).

Definition GrossExposure (e : t) : float64 := totalLong e + totalShort e.

(** Gross exposure on one symbol, the quantity [CheckOrder] bounds. *)
Definition symbolGross (e : t) (symbol : string) : float64 :=
  mget 0 (symbolLong e) symbol + mget 0 (symbolShort e) symbol.
End ExposureTracker.

(** ** The limiter bounds every window *)
Section Limiter.
Import OrderRateLimiter.
Local Open Scope Z_scope.

(** A run of calls, each with its time and key: the calls that were granted. *)
Fixpoint granted (l : t) (calls : list (Z * string)) : list (Z * string) :=
  match calls with
  | [] => []
  | (now, key) :: rest =>
      let '(l', ok) := Allow now l key in
      if ok then (now, key) :: granted l' rest else granted l' rest
  end.

(** The times granted to one key, and how many fall in [(x, x + w]]. *)
Definition times (key : string) (g : list (Z * string)) : list Z :=
  map fst (List.filter (fun c => bool_decide (c.2 = key)) g).

Definition inWindow (w x : Z) (ts : list Z) : nat :=
  length (List.filter (fun t => (x <? t) && (t <=? x + w)) ts).

Lemma inWindow_app w x a b : inWindow w x (a ++ b) = (inWindow w x a + inWindow w x b)%nat.
Proof. unfold inWindow. by rewrite List.filter_app, length_app. Qed.

Lemma filter_filter_later c c' ts :
  c <= c' ->
  List.filter (fun t => c' <? t) (List.filter (fun t => c <? t) ts) =
  List.filter (fun t => c' <? t) ts.
Proof.
  intros Hc. induction ts as [|t ts IH]; [done|]. cbn.
  destruct (Z.ltb_spec c t); cbn; destruct (Z.ltb_spec c' t); rewrite ?IH; done || lia.
Qed.

(** With every element at most [now], "later than [now - w]" is "in the window". *)
Lemma filter_inWindow w now ts :
  Forall (fun t => t <= now) ts ->
  length (List.filter (fun t => now - w <? t) ts) = inWindow w (now - w) ts.
Proof.
  unfold inWindow. induction 1 as [|t ts Ht _ IH]; [done|]. cbn.
  replace (t <=? now - w + w) with true by (symmetry; apply Z.leb_le; lia).
  rewrite andb_true_r. destruct (now - w <? t); cbn; lia.
Qed.

(** Windows that end at or before the newest call are inside its window. *)
Lemma inWindow_le_filter w x c ts :
  c <= x -> (inWindow w x ts <= length (List.filter (fun t => (c <? t)%Z) ts))%nat.
Proof.
  intros Hx. unfold inWindow. induction ts as [|t ts IH]; [done|]. cbn.
  destruct (Z.ltb_spec x t), (Z.ltb_spec c t); cbn; try lia.
  destruct (t <=? x + w); cbn; lia.
Qed.

Variable K : Z.
Hypothesis HK : 0 <= K <= 2 ^ 53.

(** The limiter's history for [key] after granting [acc], last touched at or
    before [now]. *)
Definition history (key : string) (l : t) (now : Z) (acc : list Z) : Prop :=
  maxPerSec l = of_Z K /\ 0 < windowSize l /\ Forall (fun t => t <= now) acc /\
  (exists c, c <= now - windowSize l /\
     mget [] (orders l) key = List.filter (fun t => c <? t) acc) /\
  forall x, (Z.of_nat (inWindow (windowSize l) x acc) <= K).

Lemma of_Z_leb a b :
  Z.abs a <= 2 ^ 53 -> Z.abs b <= 2 ^ 53 -> (of_Z a <=? of_Z b)%float = (a <=? b).
Proof.
  intros Ha Hb. destruct (of_Z_exact a Ha) as [Fa Va], (of_Z_exact b Hb) as [Fb Vb].
  rewrite leb_fv_nn, Va, Vb by (by apply ffin_nan). pose proof onev_pos.
  destruct (Z.leb_spec a b), (Z.leb_spec (a * onev) (b * onev)); try done; nia.
Qed.

Lemma Forall_le_trans now now' (ts : list Z) :
  now <= now' -> Forall (fun t => t <= now) ts -> Forall (fun t => t <= now') ts.
Proof. intros H. apply Forall_impl. intros; lia. Qed.

Lemma Allow_history key l now acc now' k l' ok :
  history key l now acc -> now <= now' -> Allow now' l k = (l', ok) ->
  windowSize l' = windowSize l /\
  history key l' now' (acc ++ (if ok && bool_decide (k = key) then [now'] else [])).
Proof.
  intros (HM & HW & HF & (c & Hc & HO) & HB) Hn HA.
  unfold Allow in HA.
  set (keep := List.filter _ _) in HA. rewrite HM in HA.
  destruct (decide (k = key)) as [->|Hk].
  - rewrite bool_decide_true, andb_true_r by done.
    assert (EK : keep = List.filter (fun t => now' - windowSize l <? t) acc).
    { unfold keep. rewrite HO. apply filter_filter_later. lia. }
    clearbody keep. subst keep.
    assert (HL : Z.of_nat (length (List.filter (fun t => now' - windowSize l <? t) acc)) <= K).
    { rewrite (filter_inWindow (windowSize l) now' acc (Forall_le_trans _ _ _ Hn HF)). apply HB. }
    rewrite of_Z_leb in HA by lia.
    destruct (Z.leb_spec K (Z.of_nat (length (List.filter (fun t => now' - windowSize l <? t) acc)))) as [E|E];
      inversion HA; subst l' ok; cbn; (split; [done|]).
    + rewrite app_nil_r. repeat split; try done; [by apply (Forall_le_trans now)|].
      exists (now' - windowSize l). split; [cbn; lia|]. cbn. by rewrite mget_insert_eq.
    + repeat split; try done.
      * apply Forall_app. split; [by apply (Forall_le_trans now)|]. by repeat constructor.
      * exists (now' - windowSize l). split; [cbn; lia|]. cbn. rewrite mget_insert_eq.
        rewrite List.filter_app. cbn.
        by replace (now' - windowSize l <? now') with true by (symmetry; apply Z.ltb_lt; lia).
      * intros x. cbn. rewrite inWindow_app. unfold inWindow at 2. cbn.
        destruct (Z.ltb_spec x now'), (Z.leb_spec now' (x + windowSize l)); cbn;
          try (rewrite Nat.add_0_r; apply HB).
        pose proof (inWindow_le_filter (windowSize l) x (now' - windowSize l) acc ltac:(lia)). lia.
  - rewrite bool_decide_false, andb_false_r, app_nil_r by done.
    destruct (of_Z K <=? _)%float; inversion HA; subst l' ok; cbn; (split; [done|]);
      (repeat split; try done; [by apply (Forall_le_trans now)|]);
      exists c; (split; [cbn; lia|]); cbn; by rewrite !mget_insert_ne.
Qed.

Lemma granted_bounded key calls :
  forall l now acc, history key l now acc ->
  StronglySorted Z.le (now :: map fst calls) ->
  forall x, Z.of_nat (inWindow (windowSize l) x (acc ++ times key (granted l calls))) <= K.
Proof.
  induction calls as [|[now' k] calls IH]; intros l now acc HI HS x.
  - cbn. rewrite app_nil_r. apply HI.
  - cbn in HS. inversion HS as [|? ? HS' HF]; subst. cbn [granted].
    destruct (Allow now' l k) as [l' ok] eqn:HA.
    assert (Hn : now <= now') by (inversion HF; done).
    destruct (Allow_history key l now acc now' k l' ok HI Hn HA) as [EW HI'].
    specialize (IH l' now' _ HI' HS' x). rewrite EW in IH.
    destruct ok; cbn [andb] in IH; [|by rewrite app_nil_r in IH].
    unfold times in *. cbn. destruct (bool_decide (k = key)); cbn; [|by rewrite app_nil_r in IH].
    by rewrite <- app_assoc in IH.
Qed.
End Limiter.

(** C4: the order limiter is a true sliding window: with a limit of [K] and
    calls at non-decreasing times, no window of one second ever holds more than
    [K] granted orders of one key, however calls of other keys interleave. *)
Theorem rate_limit_every_window K key calls x :
  (0 <= K <= 2 ^ 53)%Z -> StronglySorted Z.le (map fst calls) ->
  (Z.of_nat (inWindow 1000000000 x
     (times key (granted (OrderRateLimiter.NewOrderRateLimiter (of_Z K)) calls))) <= K)%Z.
Proof.
  intros HK HS. destruct calls as [|[now k] calls]; [cbn; lia|].
  apply (granted_bounded K HK key ((now, k) :: calls)
           (OrderRateLimiter.NewOrderRateLimiter (of_Z K)) now []).
  - repeat split; try done; [|cbn; lia].
    exists (now - 1000000000)%Z. split; [cbn; lia|]. cbn. by rewrite mget_empty.
  - cbn in *. constructor; [done|]. constructor; [lia|].
    by inversion HS.
Qed.

Lemma rate_limit_every_window_witness :
  (Z.of_nat (inWindow 1000000000 0 (times "A" (granted
     (OrderRateLimiter.NewOrderRateLimiter (of_Z 2))
     [(1, "A"); (1, "B"); (2, "A"); (3, "A"); (1000000002, "A")]%Z))) <= 2)%Z.
Proof.
  apply rate_limit_every_window; [lia|]. cbn.
  repeat (constructor; [|repeat (constructor; [lia|]); constructor]). constructor.
Defined.

(** ** The volatility halt *)
Section Volatility.
Import VolatilityHalt.

Lemma trim_lastn v rs : trim v rs = lastn (maxHistory v) rs.
Proof.
  unfold trim, lastn. destruct (Nat.ltb_spec (maxHistory v) (length rs)); [done|].
  by replace (length rs - maxHistory v)%nat with 0%nat by lia.
Qed.

Definition feed (z : float64) (rs : list float64) : t :=
  fold_left UpdateReturn rs (NewVolatilityHalt z).

Lemma UpdateReturn_returns v r :
  returns (UpdateReturn v r) = lastn (maxHistory v) (returns v ++ [r]) /\
  maxHistory (UpdateReturn v r) = maxHistory v /\ zThreshold (UpdateReturn v r) = zThreshold v.
Proof.
  unfold UpdateReturn. rewrite trim_lastn. destruct (zscore _); [destruct (_ <? _)|]; done.
Qed.

Lemma feed_returns z rs :
  returns (feed z rs) = lastn 252 rs /\ maxHistory (feed z rs) = 252%nat /\
  zThreshold (feed z rs) = z.
Proof.
  induction rs as [|r rs (I1 & I2 & I3)] using rev_ind; [done|].
  unfold feed in *. rewrite fold_left_app. cbn.
  destruct (UpdateReturn_returns (fold_left UpdateReturn rs (NewVolatilityHalt z)) r) as (E1 & E2 & E3).
  rewrite E1, E2, E3, I1, I2, I3. by rewrite lastn_snoc.
Qed.

(** fed by returns, the halt depends on nothing but the last 252 returns:
    with at least ten of them and a positive deviation it is halted exactly when
    the latest return's z-score exceeds the threshold, and a calm return clears
    an earlier halt. *)
Theorem volatility_window_decides z rs r :
  returns (feed z (rs ++ [r])) = lastn 252 (rs ++ [r]) /\
  match zscore (lastn 252 (rs ++ [r])) with
  | Some s => IsHalted (feed z (rs ++ [r])) = (math.Abs s >? z) /\
              (HaltReason (feed z (rs ++ [r])) = "volatility_z"%string <->
               IsHalted (feed z (rs ++ [r])) = true)
  | None => IsHalted (feed z (rs ++ [r])) = IsHalted (feed z rs) /\
            HaltReason (feed z (rs ++ [r])) = HaltReason (feed z rs)
  end.
Proof.
  split; [apply feed_returns|].
  destruct (feed_returns z rs) as (I1 & I2 & I3).
  unfold feed in *. rewrite fold_left_app. cbn [fold_left].
  set (v := fold_left UpdateReturn rs (NewVolatilityHalt z)) in *.
  unfold UpdateReturn at 1 2 3 4 5. rewrite trim_lastn, I1, I2, lastn_snoc, I3.
  destruct (zscore _) as [s|]; [|done]. unfold IsHalted, HaltReason.
  by destruct (z <? math.Abs s).
Qed.

(** Fed by prices, the halt never fires: [Update] appends a return only
    when two returns are already held, so from the initial state (or after a
    [Reset]) no sequence of prices changes anything. *)
Theorem volatility_price_feed_inert z v ps :
  fold_left Update ps (NewVolatilityHalt z) = NewVolatilityHalt z /\
  fold_left Update ps (Reset v) = Reset v.
Proof.
  assert (S : forall w p, returns w = [] -> Update w p = w).
  { intros w p E. unfold Update. rewrite E. cbn [length Nat.leb].
    unfold trim. rewrite (proj2 (Nat.ltb_ge _ _)) by (cbn; lia). cbn.
    destruct w; cbn in *. by subst. }
  assert (G : forall ps w, returns w = [] -> fold_left Update ps w = w).
  { clear ps. induction ps as [|p ps IH]; intros w E; [done|]. cbn. rewrite S by done. by apply IH. }
  split; by apply G.
Qed.
End Volatility.

(** ** The exposure tracker *)
Section Exposure.
Import ExposureTracker.

(** an order that [CheckOrder] accepts keeps the book inside its limits:
    after [AddPosition] the gross exposure over equity is not above
    [maxLeverage], the symbol's gross over equity not above [maxSymbolGross],
    and every other symbol is untouched; equity was positive. *)
Theorem exposure_check_sound e symbol side notional :
  CheckOrder e symbol side notional = (true, ""%string) ->
  let e' := AddPosition e symbol side notional in
  (equity e <=? 0) = false /\ equity e' = equity e /\
  ((maxLeverage e >? 0) = true -> (GrossExposure e' / equity e' >? maxLeverage e) = false) /\
  ((maxSymbolGross e >? 0) = true ->
     (symbolGross e' symbol / equity e' >? maxSymbolGross e) = false) /\
  (forall s, s <> symbol -> symbolGross e' s = symbolGross e s).
Proof.
  unfold CheckOrder, AddPosition, GrossExposure, symbolGross.
  destruct (equity e <=? 0); [done|].
  destruct (bool_decide (side = "BUY"%string));
    cbn [totalLong totalShort symbolLong symbolShort maxLeverage maxSymbolGross equity];
    destruct (0 <? maxLeverage e), (0 <? maxSymbolGross e); cbn [andb];
    repeat (split_and || intros ?); rewrite ?mget_insert_eq, ?mget_insert_ne by done; try done;
    repeat case_match; done.
Qed.

(** Closing more than a symbol holds clamps the symbol at zero but takes the
    full notional off the total, so the leverage check then counts the other
    symbols' exposure short by the difference. *)
Theorem exposure_remove_overshoot e symbol notional :
  (mget 0 (symbolLong e) symbol - notional <? 0) = true ->
  let e' := RemovePosition e symbol "BUY" notional in
  mget 0 (symbolLong e') symbol = 0 /\
  GrossExposure e' = (totalLong e - notional) + totalShort e.
Proof.
  intros H. unfold RemovePosition. rewrite bool_decide_true by done. cbn. rewrite mget_insert_eq.
  unfold clamp0. by rewrite H.
Qed.
End Exposure.

Definition levered : ExposureTracker.t :=
  let e := ExposureTracker.SetEquity (ExposureTracker.NewExposureTracker 4 2) 1000 in
  ExposureTracker.AddPosition (ExposureTracker.AddPosition e "EURUSD" "BUY" 1900) "USDJPY" "BUY" 1900.

Lemma exposure_check_sound_witness :
  ExposureTracker.CheckOrder levered "GBPUSD" "SELL" 150 = (true, ""%string) /\
  (ExposureTracker.GrossExposure (ExposureTracker.AddPosition levered "GBPUSD" "SELL" 150) / 1000
     >? 4) = false.
Proof.
  assert (H : ExposureTracker.CheckOrder levered "GBPUSD" "SELL" 150 = (true, ""%string))
    by (vm_compute; reflexivity).
  split; [exact H|]. destruct (exposure_check_sound levered "GBPUSD" "SELL" 150 H) as (_ & _ & L & _).
  apply L. vm_compute. reflexivity.
Defined.

(** The limit of 4 is then missed: USDJPY and GBPUSD hold 4.1 times the equity. *)
Lemma exposure_remove_overshoot_witness :
  mget 0 (ExposureTracker.symbolLong
            (ExposureTracker.RemovePosition levered "EURUSD" "BUY" 2200)) "EURUSD" = 0 /\
  ExposureTracker.CheckOrder levered "GBPUSD" "SELL" 300 = (false, "max_leverage"%string) /\
  ExposureTracker.CheckOrder
    (ExposureTracker.AddPosition (ExposureTracker.RemovePosition levered "EURUSD" "BUY" 2200)
       "AUDUSD" "BUY" 1900) "NZDUSD" "SELL" 600 = (false, "max_leverage"%string) /\
  ExposureTracker.CheckOrder
    (ExposureTracker.AddPosition (ExposureTracker.RemovePosition levered "EURUSD" "BUY" 2200)
       "AUDUSD" "BUY" 1900) "NZDUSD" "SELL" 400 = (true, ""%string).
Proof.
  split; [|vm_compute; repeat split; reflexivity].
  apply (exposure_remove_overshoot levered "EURUSD" 2200). vm_compute. reflexivity.
Defined.
