(* ===== verification/Regime.v ===== *)
(** * Regime activation ([internal/risk/regime_activation.go])

    Which strategies trade in which HMM regime, at what participation weight
    and with which Kelly override.  A [[4]T] array is a list of four elements;
    the code indexes it only after the range check. *)
From Stdlib Require Import ZArith Lia Bool Floats.
From S2P Require Import Prelude Float64 FloatRound FloatLaws.
Local Open Scope float_scope.
Local Open Scope go_scope.

Record RegimeEntry := mkEntry {
  StrategyID : string;
  Allowed : list bool;
  Participation : list float64;
  KellyMultiplier : list float64
}.

Abbreviation RegimeActivationMatrix := (gmap string RegimeEntry).

Definition entry (id : string) (allowed : list bool) (part kelly : list float64)
    : string * RegimeEntry := (id, mkEntry id allowed part kelly).

Definition defaultEntries : list (string * RegimeEntry) :=
  [entry "grid_trading" [true; false; false; false] [0; 0; 0; 0] [0.25; 0; 0; 0];
   entry "trend_following" [false; true; false; false] [0; 0; 0; 0] [0; 0.25; 0; 0];
   entry "session_scalp" [true; true; true; false] [1.0; 1.0; 0.5; 0] [0.25; 0.25; 0.15; 0];
   entry "mean_reversion" [true; false; false; false] [0; 0; 0; 0] [0.25; 0; 0; 0];
   entry "intraday_mr" [true; false; false; false] [0; 0; 0; 0] [0.25; 0; 0; 0];
   entry "opening_range_breakout" [true; true; true; false] [0; 0; 0; 0] [0.10; 0.25; 0.15; 0];
   entry "pairs_trading" [true; false; true; false] [0; 0; 0; 0] [0.25; 0; 0.15; 0];
   entry "stat_arb" [true; false; true; false] [0; 0; 0; 0] [0.25; 0; 0.15; 0];
   entry "volatility_harvesting" [false; false; true; false] [0; 0; 0; 0] [0; 0; 0.15; 0];
   entry "dragon_trend" [false; true; true; false] [0; 0; 0; 0] [0; 0.25; 0.15; 0];
   entry "vwap_mr" [true; false; false; false] [0; 0; 0; 0] [0.25; 0; 0; 0];
   entry "volume_scalp" [true; true; false; false] [0; 0; 0; 0] [0.25; 0.25; 0; 0];
   entry "orb_15m" [true; true; true; false] [0; 0; 0; 0] [0.10; 0.25; 0.15; 0];
   entry "vix_futures_carry" [false; false; true; false] [0; 0; 0; 0] [0; 0; 0.15; 0];
   entry "momentum_12_1" [true; true; false; false] [0; 0; 0; 0] [0.25; 0.25; 0; 0];
   entry "fx_carry" [true; false; true; false] [0; 0; 0; 0] [0.25; 0; 0.15; 0];
   entry "session_momentum" [true; true; true; false] [0; 0; 0; 0] [0.25; 0.25; 0.15; 0];
   entry "donchian_breakout" [true; true; true; false] [0; 0; 0; 0] [0.25; 0.25; 0.15; 0];
   entry "keltner_macd" [true; true; false; false] [0; 0; 0; 0] [0.25; 0.25; 0; 0];
   entry "vol_grid" [true; false; false; false] [0; 0; 0; 0] [0.15; 0; 0; 0];
   entry "multi_asset_statarb" [true; false; true; false] [0; 0; 0; 0] [0.25; 0; 0.15; 0];
   entry "rsi2_reversion" [true; true; false; false] [0; 0; 0; 0] [0.25; 0.25; 0; 0]].

Definition NewRegimeActivationMatrix : RegimeActivationMatrix := list_to_map defaultEntries.

Definition defaultEntry : RegimeEntry :=
  mkEntry "default" [true; true; true; true] [0; 0; 0; 0] [0.25; 0.25; 0.25; 0.25].

Definition Get (m : RegimeActivationMatrix) (strategyID : string) : RegimeEntry :=
  default defaultEntry (m !! strategyID).

(** [Set] stores the entry under its own id. *)
Definition SetEntry (m : RegimeActivationMatrix) (e : RegimeEntry) : RegimeActivationMatrix :=
  <[StrategyID e := e]> m.

Definition regimeParams : list string :=
  ["regime_w_calm"; "regime_w_trending"; "regime_w_highvol"; "regime_w_crisis"]%string.

(** The loop over the four names: the weights and whether one was given. *)
Definition overrideWeights (params : gmap string float64) (part : list float64)
    : list float64 * bool :=
  fold_left (fun acc i =>
    match params !! nth i regimeParams ""%string with
    | Some v => (<[i := v]> acc.1, true)
    | None => acc
    end) [0; 1; 2; 3]%nat (part, false).

(** The entry is copied before it is changed, so [defaultEntry], shared by the
    unmapped strategies, is never written.  A nil matrix is [None]. *)
Definition ApplyRegimeParticipation (m : option RegimeActivationMatrix) (strategyID : string)
    (params : gmap string float64) : option RegimeActivationMatrix :=
  match m with
  | None => None
  | Some m =>
      if bool_decide (strategyID = ""%string) || bool_decide (params = ∅) then Some m
      else
        let e := Get m strategyID in
        let '(part, changed) := overrideWeights params (Participation e) in
        if changed
        then Some (SetEntry m (mkEntry strategyID (Allowed e) part (KellyMultiplier e)))
        else Some m
  end.

Definition outOfRange (regime : Z) : bool := Z.ltb regime 0 || Z.ltb 3 regime.

Definition IsAllowed (m : RegimeActivationMatrix) (strategyID : string) (regime : Z) : bool :=
  if outOfRange regime then false
  else nth (Z.to_nat regime) (Allowed (Get m strategyID)) false.

Definition ParticipationForRegime (m : RegimeActivationMatrix) (strategyID : string)
    (regime : Z) : float64 :=
  if outOfRange regime then 0
  else
    let e := Get m strategyID in
    if nth (Z.to_nat regime) (Participation e) 0 >? 0
    then nth (Z.to_nat regime) (Participation e) 0
    else if nth (Z.to_nat regime) (Allowed e) false then 1.0 else 0.0.

Definition KellyForRegime (m : RegimeActivationMatrix) (strategyID : string) (regime : Z) : float64 :=
  if outOfRange regime then 0
  else nth (Z.to_nat regime) (KellyMultiplier (Get m strategyID)) 0.

(** Go iterates maps in an unspecified order: this is one of them. *)
Definition AllStrategies (m : RegimeActivationMatrix) : list string := (map_to_list m).*1.

(** ** Laws *)

(** Four flags, four weights in [0,1], four Kelly multipliers. *)
Definition unitb (x : float64) : bool := (0 <=? x) && (x <=? 1).

Definition wf_entry (e : RegimeEntry) : Prop :=
  length (Allowed e) = 4%nat /\ length (Participation e) = 4%nat /\
  length (KellyMultiplier e) = 4%nat /\ forallb unitb (Participation e) = true.

#[export] Instance wf_entry_dec e : Decision (wf_entry e).
Proof. unfold wf_entry. apply _. Defined.

Definition wf_matrix (m : RegimeActivationMatrix) : Prop := map_Forall (fun _ e => wf_entry e) m.

Lemma Get_wf m id : wf_matrix m -> wf_entry (Get m id).
Proof.
  intros H. unfold Get. destruct (m !! id) as [e|] eqn:E; [by apply (H id)|].
  cbn. repeat split.
Qed.

Lemma Get_SetEntry m e : Get (SetEntry m e) (StrategyID e) = e.
Proof. unfold Get, SetEntry. by rewrite lookup_insert_eq. Qed.

Lemma default_entries_wf : Forall (fun p => wf_entry p.2) defaultEntries.
Proof. repeat (constructor; [by repeat split|]). constructor. Qed.

Lemma default_matrix_wf : wf_matrix NewRegimeActivationMatrix.
Proof.
  intros id e H. apply elem_of_list_to_map_2 in H.
  by apply (proj1 (list.Forall_forall _ _) default_entries_wf (id, e)).
Qed.

Lemma forallb_insert {A} (f : A -> bool) (i : nat) v l :
  f v = true -> forallb f l = true -> forallb f (<[i := v]> l) = true.
Proof.
  intros Hv. revert i. induction l as [|x l IH]; intros i; [done|]. cbn.
  intros [Hx Hl]%andb_true_iff. destruct i; cbn; rewrite ?Hv, ?Hx, ?Hl; [done|]. cbn. by apply IH.
Qed.

(** The weights after the loop: a given parameter replaces the weight, the
    others keep theirs; the flag says whether one was given. *)
Lemma overrideWeights_spec params part :
  length part = 4%nat ->
  length (overrideWeights params part).1 = 4%nat /\
  (map_Forall (fun _ v => unitb v = true) params -> forallb unitb part = true ->
     forallb unitb (overrideWeights params part).1 = true) /\
  (forall i, (i < 4)%nat ->
     nth i (overrideWeights params part).1 0 =
     default (nth i part 0) (params !! nth i regimeParams ""%string)) /\
  ((overrideWeights params part).2 = false -> (overrideWeights params part).1 = part).
Proof.
  intros HL. destruct part as [|a [|b [|c [|d [|]]]]]; try done.
  unfold overrideWeights. cbn [fold_left nth regimeParams].
  destruct (params !! "regime_w_calm"%string) eqn:E0, (params !! "regime_w_trending"%string) eqn:E1,
    (params !! "regime_w_highvol"%string) eqn:E2, (params !! "regime_w_crisis"%string) eqn:E3; cbn [fst snd].
  all: split; [done|]; split;
    [intros HP HU;
     try pose proof (HP _ _ E0); try pose proof (HP _ _ E1);
     try pose proof (HP _ _ E2); try pose proof (HP _ _ E3); by repeat apply forallb_insert|].
  all: split; [|done].
  all: intros i Hi; destruct i as [|[|[|[|]]]]; cbn [nth regimeParams];
    rewrite ?E0, ?E1, ?E2, ?E3; done || lia.
Qed.

Lemma ApplyRegimeParticipation_wf m id params :
  map_Forall (fun _ v => unitb v = true) params -> wf_matrix m ->
  exists m', ApplyRegimeParticipation (Some m) id params = Some m' /\ wf_matrix m'.
Proof.
  intros HP HM. unfold ApplyRegimeParticipation. destruct (_ || _)%bool; [by eexists|].
  destruct (Get_wf m id HM) as (W1 & W2 & W3 & W4).
  destruct (overrideWeights_spec params (Participation (Get m id)) W2) as (L & U & _ & _).
  destruct (overrideWeights params (Participation (Get m id))) as [part changed]. cbn in L, U.
  destruct changed; [|by eexists]. eexists. split; [done|].
  apply map_Forall_insert_2; [|done]. repeat split; auto.
Qed.

(** The weight in force is a bounded participation. *)
Lemma participation_unit m id regime :
  wf_matrix m -> unit0 (ParticipationForRegime m id regime).
Proof.
  intros HM. assert (U0 : unit0 0%float) by (split; [done|rewrite fv_zero_lit; pose proof onev_pos; lia]).
  assert (U1 : unit0 1%float) by (split; [done|rewrite fv_one; pose proof onev_pos; lia]).
  unfold ParticipationForRegime. destruct (outOfRange regime); [done|].
  destruct (Get_wf m id HM) as (_ & W2 & _ & W4).
  set (w := nth (Z.to_nat regime) (Participation (Get m id)) 0).
  destruct (0 <? w) eqn:E; [|by destruct (nth _ _ _)].
  assert (Hw : unitb w = true).
  { unfold w. destruct (Nat.lt_ge_cases (Z.to_nat regime) (length (Participation (Get m id)))) as [H|H].
    - apply (proj1 (List.forallb_forall _ _) W4). by apply List.nth_In.
    - unfold w in E. by rewrite (List.nth_overflow _ _ H) in E. }
  apply andb_true_iff in Hw as [(_ & Nw & L)%leb_true (_ & _ & U)%leb_true].
  rewrite fv_zero_lit in L. rewrite fv_one in U.
  split; [|lia]. apply (ffin_between 0%float _ 1%float); rewrite ?fv_zero_lit, ?fv_one; done.
Qed.

(** ** Claims *)

(** the gating matrix stays well-formed under [SetEntry] of well-formed
    entries and any sequence of participation overrides in [0,1]; in every such
    matrix each weight in force lies in [0,1], so it never amplifies a size, and
    nothing is allowed outside the four regimes. *)
Theorem regime_participation_bounded (overrides : list (string * gmap string float64)) id regime :
  Forall (fun o => map_Forall (fun _ v => unitb v = true) o.2) overrides ->
  exists m,
    fold_left (fun m o => ApplyRegimeParticipation m o.1 o.2) overrides
      (Some NewRegimeActivationMatrix) = Some m /\ wf_matrix m /\
    unit0 (ParticipationForRegime m id regime) /\
    ((regime < 0 \/ 3 < regime)%Z ->
       IsAllowed m id regime = false /\ ParticipationForRegime m id regime = 0 /\
       KellyForRegime m id regime = 0).
Proof.
  intros HO.
  assert (G : forall m, wf_matrix m -> exists m',
    fold_left (fun m o => ApplyRegimeParticipation m o.1 o.2) overrides (Some m) = Some m' /\ wf_matrix m').
  { induction HO as [|[i ps] os H _ IH]; intros m Hm; [by exists m|].
    destruct (ApplyRegimeParticipation_wf m i ps H Hm) as (m1 & E1 & W1).
    destruct (IH m1 W1) as (m2 & E2 & W2). exists m2. cbn [fold_left fst snd]. by rewrite E1. }
  destruct (G _ default_matrix_wf) as (m & E & W). exists m.
  split; [done|]. split; [done|]. split; [by apply participation_unit|].
  intros H. assert (outOfRange regime = true) as R.
  { unfold outOfRange. destruct H; [rewrite (proj2 (Z.ltb_lt _ _)) by lia; done|].
    rewrite (proj2 (Z.ltb_lt 3 _)) by lia. apply orb_true_r. }
  unfold IsAllowed, ParticipationForRegime, KellyForRegime. by rewrite R.
Qed.

Lemma regime_participation_bounded_witness :
  unit0 (ParticipationForRegime NewRegimeActivationMatrix "session_scalp" 2) /\
  ParticipationForRegime NewRegimeActivationMatrix "session_scalp" 2 = 0.5.
Proof.
  destruct (regime_participation_bounded [] "session_scalp" 2) as (m & E & _ & U & _); [constructor|].
  assert (Em : NewRegimeActivationMatrix = m)
    by exact (f_equal (default NewRegimeActivationMatrix) E).
  rewrite <- Em in U. split; [exact U|]. vm_compute. reflexivity.
Defined.

(** A weight of zero does not block a strategy: in a regime the entry
    allows, overriding the weight with 0 leaves full participation 1 (the
    fallback to the [Allowed] flag is taken per regime, not only when all four
    weights are zero); a positive weight is taken as given. *)
Theorem zero_weight_means_full_size m id params regime w :
  wf_matrix m -> id <> ""%string -> (0 <= regime <= 3)%Z ->
  params !! nth (Z.to_nat regime) regimeParams ""%string = Some w ->
  exists m', ApplyRegimeParticipation (Some m) id params = Some m' /\
    IsAllowed m' id regime = IsAllowed m id regime /\
    ParticipationForRegime m' id regime =
      if w >? 0 then w else if IsAllowed m id regime then 1.0 else 0.0.
Proof.
  intros HM Hid Hr Hw. unfold ApplyRegimeParticipation.
  rewrite bool_decide_false by done. rewrite bool_decide_false by (intros ->; by rewrite lookup_empty in Hw).
  cbn [orb]. destruct (Get_wf m id HM) as (W1 & W2 & W3 & W4).
  destruct (overrideWeights_spec params (Participation (Get m id)) W2) as (L & _ & N & C).
  assert (R : outOfRange regime = false).
  { unfold outOfRange. rewrite (proj2 (Z.ltb_ge regime 0)), (proj2 (Z.ltb_ge 3 regime)) by lia. done. }
  assert (K : forall part, overrideWeights params (Participation (Get m id)) = (part, false) ->
                part = Participation (Get m id)) by (intros part E; rewrite E in C; by apply C).
  specialize (N (Z.to_nat regime) ltac:(lia)). rewrite Hw in N. cbn [default] in N.
  destruct (overrideWeights params (Participation (Get m id))) as [part changed]. cbn [fst] in N.
  exists (if changed then SetEntry m (mkEntry id (Allowed (Get m id)) part (KellyMultiplier (Get m id))) else m).
  split; [by destruct changed|].
  assert (G : Get (if changed then SetEntry m (mkEntry id (Allowed (Get m id)) part
                 (KellyMultiplier (Get m id))) else m) id =
              mkEntry (if changed then id else StrategyID (Get m id)) (Allowed (Get m id)) part
                 (KellyMultiplier (Get m id))).
  { destruct changed.
    - apply (Get_SetEntry m (mkEntry id _ _ _)).
    - rewrite (K part eq_refl). by destruct (Get m id). }
  unfold IsAllowed, ParticipationForRegime. rewrite R, G. cbn [Participation Allowed].
  split; [done|]. change (default _ (Some w)) with w in N. rewrite N. done.
Qed.

Lemma zero_weight_means_full_size_witness :
  exists m', ApplyRegimeParticipation (Some NewRegimeActivationMatrix) "grid_trading"
     {["regime_w_calm"%string := 0]} = Some m' /\
     ParticipationForRegime m' "grid_trading" 0 = 1.
Proof.
  destruct (zero_weight_means_full_size NewRegimeActivationMatrix "grid_trading"
              {["regime_w_calm"%string := 0]} 0 0) as (m' & E & _ & P);
    [exact default_matrix_wf|done|lia|by vm_compute|].
  exists m'. split; [exact E|]. rewrite P. vm_compute. reflexivity.
Defined.
