(* ===== verification/StopLoss.v ===== *)
(** * Stops and targets ([internal/backtest/stop_loss.go])

    Bracket prices, same-bar exit resolution, the trailing stop and the ATR. *)
From Stdlib Require Import ZArith Lia Bool Floats.
From S2P Require Import Prelude Float64 FloatRound FloatLaws Price.
Local Open Scope float_scope.
Local Open Scope go_scope.

(** [internal/strategy/types.go]; the time is a Unix nanosecond count. *)
Record Candle := mkCandle {
  Time : Z;
  Open : Price;
  High : Price;
  Low : Price;
  Close : Price;
  Volume : float64;
  Symbol : string;
  AdjustmentFactor : float64;
  Source : string;
  GenerationID : string
}.

Inductive StopLossType := StopLossNone | StopLossFixed | StopLossATR | StopLossTrail.
Inductive TakeProfitType := TakeProfitNone | TakeProfitFixed | TakeProfitATR | TakeProfitRR.

Record StopLossConfig := mkSL {
  SLType : StopLossType;
  StopPoints : Price;
  StopPercent : float64;
  ATRPeriod : Z;
  SLATRMultiplier : float64;
  TrailActivation : float64;
  TrailDistance : Price
}.

Record TakeProfitConfig := mkTP {
  TPType : TakeProfitType;
  TakePoints : Price;
  TakePercent : float64;
  TPATRMultiplier : float64;
  RRRatio : float64
}.

Record ActiveStop := mkStop {
  TradeID : Z;
  EntryPrice : Price;
  Side : string;
  StopPrice : Price;
  TakePrice : Price;
  PeakPrice : Price;
  ATRValue : float64;
  StopType : StopLossType;
  TakeType : TakeProfitType
}.

Definition DefaultStopLossConfig : StopLossConfig := mkSL StopLossNone 0 1.0 14 2.0 0 0.
Definition DefaultTakeProfitConfig : TakeProfitConfig := mkTP TakeProfitNone 0 2.0 0 2.0.

(** The offset from the entry, or [None] where the code returns 0 at once. *)
Definition stopOffset (entryPrice : float64) (cfg : StopLossConfig) (atrValue : float64)
    : option float64 :=
  match SLType cfg with
  | StopLossNone => None
  | StopLossFixed =>
      if StopPercent cfg >? 0 then Some (entryPrice * StopPercent cfg / 100.0)
      else if Float64 (StopPoints cfg) >? 0 then Some (Float64 (StopPoints cfg))
      else None
  | StopLossATR =>
      if (SLATRMultiplier cfg >? 0) && (atrValue >? 0)
      then Some (SLATRMultiplier cfg * atrValue) else None
  | StopLossTrail =>
      if Float64 (TrailDistance cfg) >? 0 then Some (Float64 (TrailDistance cfg))
      else if (SLATRMultiplier cfg >? 0) && (atrValue >? 0)
      then Some (SLATRMultiplier cfg * atrValue) else None
  end.

Definition CalculateStopPrice (entryPrice : float64) (side : string)
    (cfg : option StopLossConfig) (atrValue currentHigh : float64) : float64 :=
  match cfg with
  | None => 0
  | Some cfg =>
      match stopOffset entryPrice cfg atrValue with
      | None => 0
      | Some off =>
          if bool_decide (side = "BUY"%string) then entryPrice - off else entryPrice + off
      end
  end.

Definition takeOffset (entryPrice : float64) (cfg : TakeProfitConfig) (stopPrice atrValue : float64)
    : option float64 :=
  match TPType cfg with
  | TakeProfitNone => None
  | TakeProfitFixed =>
      if TakePercent cfg >? 0 then Some (entryPrice * TakePercent cfg / 100.0)
      else if Float64 (TakePoints cfg) >? 0 then Some (Float64 (TakePoints cfg))
      else None
  | TakeProfitATR =>
      if (TPATRMultiplier cfg >? 0) && (atrValue >? 0)
      then Some (TPATRMultiplier cfg * atrValue) else None
  | TakeProfitRR =>
      if (stopPrice >? 0) && (entryPrice >? 0)
      then Some (math.Abs (entryPrice - stopPrice) * RRRatio cfg)
      else if TakePercent cfg >? 0 then Some (entryPrice * TakePercent cfg / 100.0)
      else None
  end.

Definition CalculateTakeProfitPrice (entryPrice : float64) (side : string)
    (cfg : option TakeProfitConfig) (stopPrice atrValue : float64) : float64 :=
  match cfg with
  | None => 0
  | Some cfg =>
      match takeOffset entryPrice cfg stopPrice atrValue with
      | None => 0
      | Some off =>
          if bool_decide (side = "BUY"%string) then entryPrice + off else entryPrice - off
      end
  end.

Definition CheckStopHit (candle : Candle) (stop : option ActiveStop) : bool * float64 :=
  match stop with
  | None => (false, 0)
  | Some stop =>
      let sp := Float64 (StopPrice stop) in
      let op := Float64 (Open candle) in
      if sp <=? 0 then (false, 0)
      else if bool_decide (Side stop = "BUY"%string) then
        if Z.ltb 0 (Low candle) && (Float64 (Low candle) <=? sp)
        then (true, if op <? sp then op else sp)
        else if Z.ltb 0 (Open candle) && (op <=? sp) then (true, op)
        else (false, 0)
      else
        if Z.ltb 0 (High candle) && (Float64 (High candle) >=? sp)
        then (true, if op >? sp then op else sp)
        else if Z.ltb 0 (Open candle) && (op >=? sp) then (true, op)
        else (false, 0)
  end.

Definition CheckTakeProfitHit (candle : Candle) (stop : option ActiveStop) : bool * float64 :=
  match stop with
  | None => (false, 0)
  | Some stop =>
      let tp := Float64 (TakePrice stop) in
      let op := Float64 (Open candle) in
      if tp <=? 0 then (false, 0)
      else if bool_decide (Side stop = "BUY"%string) then
        if Z.ltb 0 (High candle) && (Float64 (High candle) >=? tp)
        then (true, if op >? tp then op else tp)
        else if Z.ltb 0 (Open candle) && (op >=? tp) then (true, op)
        else (false, 0)
      else
        if Z.ltb 0 (Low candle) && (Float64 (Low candle) <=? tp)
        then (true, if op <? tp then op else tp)
        else if Z.ltb 0 (Open candle) && (op <=? tp) then (true, op)
        else (false, 0)
  end.

Definition resolveStopTarget (candle : Candle) (stop : option ActiveStop) : string * float64 :=
  match stop with
  | None => (""%string, 0)
  | Some _ =>
      let '(stopHit, sp) := CheckStopHit candle stop in
      if stopHit then ("stop_loss"%string, sp)
      else
        let '(tpHit, tp) := CheckTakeProfitHit candle stop in
        if tpHit then ("take_profit"%string, tp) else (""%string, 0)
  end.

Definition withStop (s : ActiveStop) (peak stop : Price) : ActiveStop :=
  mkStop (TradeID s) (EntryPrice s) (Side s) stop (TakePrice s) peak (ATRValue s)
    (StopType s) (TakeType s).

Definition isTrail (t : StopLossType) : bool :=
  match t with StopLossTrail => true | _ => false end.

Definition UpdateTrailingStop (stop : ActiveStop) (candle : Candle) : ActiveStop :=
  if negb (isTrail (StopType stop)) || (Float64 (StopPrice stop) <=? 0) then stop
  else if bool_decide (Side stop = "BUY"%string) then
    if Float64 (High candle) >? Float64 (PeakPrice stop) then
      let peak := High candle in
      let delta := Float64 peak - Float64 (EntryPrice stop) in
      if delta >? 0 then
        let sp := PriceFromFloat
                    (Float64 peak - (Float64 (StopPrice stop) - Float64 (EntryPrice stop))) in
        withStop stop peak
          (if Float64 sp <? Float64 (EntryPrice stop) then EntryPrice stop else sp)
      else withStop stop peak (StopPrice stop)
    else stop
  else
    if Z.ltb 0 (Low candle) && (Float64 (Low candle) <? Float64 (PeakPrice stop)) then
      let peak := Low candle in
      let delta := Float64 (EntryPrice stop) - Float64 peak in
      if delta >? 0 then
        let sp := PriceFromFloat
                    (Float64 peak + (Float64 (EntryPrice stop) - Float64 (StopPrice stop))) in
        withStop stop peak
          (if Float64 sp >? Float64 (EntryPrice stop) then EntryPrice stop else sp)
      else withStop stop peak (StopPrice stop)
    else stop.

(** The true range of candle [i]; out-of-range reads do not occur. *)
Definition trueRange (candles : list Candle) (i : nat) : float64 :=
  match candles !! i with
  | None => 0
  | Some c =>
      let high := Float64 (High c) in
      let low := Float64 (Low c) in
      let prevClose := match i with
                       | O => Float64 (Close c)
                       | S j => default 0 ((fun p => Float64 (Close p)) <$> candles !! j)
                       end in
      let tr := high - low in
      if prevClose >? 0 then
        let hc := math.Abs (high - prevClose) in
        let lc := math.Abs (low - prevClose) in
        let tr := if hc >? tr then hc else tr in
        if lc >? tr then lc else tr
      else tr
  end.

(** Go panics on a start beyond the end, i.e. on a negative period; the callers
    pass a positive one. *)
Definition ComputeATR (candles : list Candle) (period : nat) : float64 :=
  if Nat.ltb (length candles) (period + 1) then 0
  else
    let start := (length candles - period)%nat in
    let trSum := fold_left (fun s i => s + trueRange candles i) (seq start period) 0.0 in
    if Nat.eqb period 0 then 0 else trSum / of_Z (Z.of_nat period).

(** ** Bracket geometry *)
Section Brackets.
Local Open Scope Z_scope.

(** Not NaN and not negative; infinity allowed. *)
Definition nneg (x : float64) : Prop := fnan x = false /\ 0 <= fv x.

Lemma gt0_spec x : (0 <? x)%float = true -> fnan x = false /\ 0 < fv x.
Proof. intros (_ & N & H)%ltb_true. by rewrite fv_zero_lit in H. Qed.

Lemma nneg_mul x y : ffin x = true -> ffin y = true -> 0 <= fv x -> 0 <= fv y -> nneg (x * y)%float.
Proof. intros Fx Fy Hx Hy. apply (mul_pos0 x y); by split. Qed.

(** Moving away from a finite entry by a non-negative offset, even an infinite one. *)
Lemma below_entry x off : ffin x = true -> nneg off -> (x - off <=? x)%float = true.
Proof.
  intros Fx [No Ho]. destruct (ffin off) eqn:Fo.
  - destruct (sub_pos0_le x off Fx (conj Fo Ho)) as [Ns L].
    rewrite leb_fv_nn by (done || by apply ffin_nan). by apply Z.leb_le.
  - rewrite (nonfin_pos off), sub_inf by done.
    rewrite leb_fv_nn by (done || by apply ffin_nan). apply Z.leb_le.
    replace (fv neg_infinity) with (- fmaxv) by (vm_compute; reflexivity).
    pose proof (ffin_range x Fx). lia.
Qed.

Lemma above_entry x off : ffin x = true -> nneg off -> (x <=? x + off)%float = true.
Proof.
  intros Fx [No Ho]. destruct (ffin off) eqn:Fo.
  - pose proof (add_nearest x off Fx Fo) as N.
    rewrite leb_fv_nn by (apply N || by apply ffin_nan). apply Z.leb_le.
    apply (nearest_ge _ _ _ x Z.lt_0_1 N (ffin_nan _ Fx)). lia.
  - rewrite (nonfin_pos off), add_inf by done.
    rewrite leb_fv_nn by (done || by apply ffin_nan). apply Z.leb_le.
    replace (fv infinity) with fmaxv by (vm_compute; reflexivity).
    pose proof (ffin_range x Fx). lia.
Qed.

Lemma nneg_pct x p : pos0 x -> pos0 p -> nneg (x * p / 100)%float.
Proof.
  intros Px Pp. destruct (mul_pos0 x p Px Pp) as [N H].
  destruct (ffin (x * p)%float) eqn:F.
  - destruct (div_sign (x * p)%float 100 F eq_refl) as (N' & G & _);
      [vm_compute; reflexivity|]. split; [done|by apply G].
  - rewrite (nonfin_pos _ N F H). split; [done|]. vm_compute. discriminate.
Qed.

(** The numbers of a configuration are finite and, where they scale, not negative. *)
Definition sl_ok (cfg : StopLossConfig) : Prop :=
  ffin (StopPercent cfg) = true /\ ffin (SLATRMultiplier cfg) = true /\
  sane (StopPoints cfg) /\ sane (TrailDistance cfg).

Definition tp_ok (cfg : TakeProfitConfig) : Prop :=
  ffin (TakePercent cfg) = true /\ ffin (TPATRMultiplier cfg) = true /\
  sane (TakePoints cfg) /\ pos0 (RRRatio cfg).

Lemma pos0_gt0 x : ffin x = true -> (0 <? x)%float = true -> pos0 x.
Proof. intros F [_ H]%gt0_spec. split; [done|lia]. Qed.

Lemma nneg_price p : sane p -> (0 <? Float64 p)%float = true -> nneg (Float64 p).
Proof. intros _ [N H]%gt0_spec. split; [done|lia]. Qed.

Lemma nneg_scaled m a : ffin m = true -> ffin a = true ->
  ((0 <? m)%float && (0 <? a)%float)%bool = true -> nneg (m * a)%float.
Proof.
  intros Fm Fa [[_ Hm]%gt0_spec [_ Ha]%gt0_spec]%andb_true_iff. apply nneg_mul; auto; lia.
Qed.

Lemma stopOffset_nneg entry cfg atr off :
  pos0 entry -> sl_ok cfg -> ffin atr = true -> stopOffset entry cfg atr = Some off -> nneg off.
Proof.
  intros Pe (F1 & F2 & S1 & S2) Fa. unfold stopOffset.
  destruct (SLType cfg); repeat case_match; intros [= <-];
    eauto using nneg_pct, pos0_gt0, nneg_price, nneg_scaled.
Qed.

Lemma takeOffset_nneg entry cfg stop atr off :
  pos0 entry -> tp_ok cfg -> ffin atr = true -> ffin (entry - stop)%float = true ->
  takeOffset entry cfg stop atr = Some off -> nneg off.
Proof.
  intros Pe (F1 & F2 & S1 & P2) Fa Fr. unfold takeOffset.
  destruct (TPType cfg); repeat case_match; intros [= <-];
    eauto using nneg_pct, pos0_gt0, nneg_price, nneg_scaled.
  destruct (pos0_abs _ Fr). apply nneg_mul; auto; apply P2.
Qed.
End Brackets.

(** the bracket straddles the entry: for a positive entry and finite
    settings, a long's stop is never above its entry and its target never below
    it, a short's the other way round (or the level is the "none" value 0);
    float rounding and overflow included. *)
Theorem bracket_straddles_entry entry side sl tp atr high :
  pos0 entry -> (entry >? 0) = true -> sl_ok sl -> tp_ok tp -> ffin atr = true ->
  let stop := CalculateStopPrice entry side (Some sl) atr high in
  let take := CalculateTakeProfitPrice entry side (Some tp) stop atr in
  ffin (entry - stop) = true ->
  (stop = 0 \/ if bool_decide (side = "BUY"%string) then (stop <=? entry) = true
               else (entry <=? stop) = true) /\
  (take = 0 \/ if bool_decide (side = "BUY"%string) then (entry <=? take) = true
               else (take <=? entry) = true).
Proof.
  intros Pe He Hs Ht Fa stop take Fr. split.
  - subst stop take. clear Fr. unfold CalculateStopPrice.
    destruct (stopOffset entry sl atr) as [off|] eqn:E; [right|by left].
    apply stopOffset_nneg in E; auto.
    destruct (bool_decide _); [apply below_entry|apply above_entry]; auto; apply Pe.
  - subst take. unfold CalculateTakeProfitPrice.
    destruct (takeOffset entry tp stop atr) as [off|] eqn:E; [right|by left].
    apply takeOffset_nneg in E; auto.
    destruct (bool_decide _); [apply above_entry|apply below_entry]; auto; apply Pe.
Qed.

Definition sl_fixed : StopLossConfig := mkSL StopLossFixed 0 1.0 14 2.0 0 0.
Definition tp_rr : TakeProfitConfig := mkTP TakeProfitRR 0 2.0 0 2.0.

Lemma bracket_straddles_entry_witness :
  let stop := CalculateStopPrice 1.25 "BUY" (Some sl_fixed) 0 0 in
  let take := CalculateTakeProfitPrice 1.25 "BUY" (Some tp_rr) stop 0 in
  (stop <? 1.25) = true /\ (1.25 <? take) = true /\
  (take = 0 \/ (1.25 <=? take) = true).
Proof.
  split; [vm_compute; reflexivity|]. split; [vm_compute; reflexivity|].
  pose proof (bracket_straddles_entry 1.25 "BUY" sl_fixed tp_rr 0 0) as H.
  destruct H as [_ H]; [split; [reflexivity|apply Z.leb_le; vm_compute; reflexivity]|reflexivity| | |reflexivity..|].
  - split; [reflexivity|]. split; [reflexivity|]. split; unfold sane; cbn; lia.
  - split; [reflexivity|]. split; [reflexivity|]. split; [unfold sane; cbn; lia|].
    split; [reflexivity|apply Z.leb_le; vm_compute; reflexivity].
  - rewrite bool_decide_true in H by reflexivity. exact H.
Defined.

(** ** Same-bar resolution *)
Section Resolution.
Local Open Scope Z_scope.

(** A bar of positive prices, with its open inside its range. *)
Definition bar_ok (c : Candle) : Prop :=
  sane (Open c) /\ sane (High c) /\ sane (Low c) /\ 0 < Low c /\ Low c <= Open c <= High c.

Definition stop_ok (s : ActiveStop) : Prop :=
  sane (StopPrice s) /\ sane (TakePrice s) /\ sane (EntryPrice s) /\ sane (PeakPrice s).

(** The float tests of the code, read on the integers. *)
Ltac price_ints := rewrite ?Float64_ltb, ?Float64_leb, ?Float64_pos, ?Float64_nonpos by done.

(** The exit decision of a bar, on the integer prices: for a long with a
    stop set, the stop is hit exactly when the bar trades at or below it, fills
    at the stop or at the worse open after a gap, and wins over a target the
    same bar reaches; the target counts only when the stop was not hit.  A short
    is the mirror image. *)
Theorem exit_resolution c s :
  bar_ok c -> stop_ok s -> 0 < StopPrice s ->
  let long := bool_decide (Side s = "BUY"%string) in
  let stopped := if long then Low c <=? StopPrice s else StopPrice s <=? High c in
  let target := (0 <? TakePrice s) &&
                (if long then TakePrice s <=? High c else Low c <=? TakePrice s) in
  resolveStopTarget c (Some s) =
    if stopped
    then ("stop_loss"%string,
          Float64 (if long then Z.min (Open c) (StopPrice s) else Z.max (Open c) (StopPrice s)))
    else if target
    then ("take_profit"%string,
          Float64 (if long then Z.max (Open c) (TakePrice s) else Z.min (Open c) (TakePrice s)))
    else (""%string, 0%float).
Proof.
  intros (So & Sh & Sl & Hl & Hr) (Ss & St & _ & _) Hs long stopped target.
  assert (PL : 0 <? Low c = true) by (apply Z.ltb_lt; lia).
  assert (PH : 0 <? High c = true) by (apply Z.ltb_lt; lia).
  assert (PO : 0 <? Open c = true) by (apply Z.ltb_lt; lia).
  unfold resolveStopTarget, CheckStopHit, CheckTakeProfitHit, stopped, target.
  fold long. price_ints. rewrite PL, PH, PO. cbn [andb].
  destruct (Z.leb_spec (StopPrice s) 0); [lia|].
  destruct (Z.ltb_spec 0 (TakePrice s)), (Z.leb_spec (TakePrice s) 0); try lia; cbn [andb];
  destruct long;
    repeat match goal with
    | |- context [?a <=? ?b] => destruct (Z.leb_spec a b)
    | |- context [?a <? ?b] => destruct (Z.ltb_spec a b)
    end; try lia; rewrite ?Z.min_l, ?Z.min_r, ?Z.max_l, ?Z.max_r by lia; reflexivity.
Qed.

(** Prices up to 2^48 units, so that twice one is still sane. *)
Definition modest (p : Price) : Prop := Z.abs p <= 2 ^ 48.

Lemma modest_sane p : modest p -> sane p.
Proof. unfold modest, sane. lia. Qed.

Lemma ToFloat64_le p q : sane p -> sane q -> p <= q -> fv (ToFloat64 p) <= fv (ToFloat64 q).
Proof. intros Hp Hq H. by apply ToFloat64_le_iff. Qed.

Lemma fv_top : 0 <= 2 * fv (ToFloat64 (2 ^ 48)) <= fv (ToFloat64 (2 ^ 50)) /\
  fv (ToFloat64 (2 ^ 50)) <= 2 ^ 45 * onev.
Proof. split; [split|]; apply Z.leb_le; vm_compute; reflexivity. Qed.

(** The ratcheted stop of a long: at or above the peak, and still a sane price. *)
Lemma ratchet_above peak stop entry :
  modest peak -> modest entry -> 0 < stop -> stop <= entry -> entry <= peak ->
  let y := (ToFloat64 peak - (ToFloat64 stop - ToFloat64 entry))%float in
  peak <= FromFloat64 y <= 2 ^ 50.
Proof.
  intros Mp Me Hs Hse Hep y. unfold modest in *.
  assert (SP : sane peak) by (unfold sane; lia). assert (SE : sane entry) by (unfold sane; lia).
  assert (SS : sane stop) by (unfold sane; lia).
  assert (ST : sane (2 ^ 48)) by (unfold sane; lia). assert (SZ : sane (2 ^ 50)) by (unfold sane; lia).
  pose proof (ToFloat64_fin _ SP) as FP. pose proof (ToFloat64_fin _ SE) as FE.
  pose proof (ToFloat64_fin _ SS) as FS. pose proof (ToFloat64_fin _ ST) as FT.
  pose proof (ToFloat64_fin _ SZ) as FZ.
  set (x := ToFloat64 peak) in *. set (e := ToFloat64 entry) in *. set (s := ToFloat64 stop) in *.
  pose proof (ToFloat64_le entry (2 ^ 48) SE ST ltac:(lia)) as Le. fold e in Le.
  pose proof (ToFloat64_le peak (2 ^ 48) SP ST ltac:(lia)) as Lp. fold x in Lp.
  pose proof (ToFloat64_le stop entry SS SE ltac:(lia)) as Lse. fold s e in Lse.
  assert (Ps : 0 <= fv s).
  { pose proof (ToFloat64_le 0 stop ltac:(done) SS ltac:(lia)) as L. fold s in L.
    replace (fv (ToFloat64 0)) with 0 in L by (vm_compute; reflexivity). done. }
  assert (Px : 0 <= fv x) by (pose proof (ToFloat64_le entry peak SE SP Hep) as L; fold e x in L; lia).
  destruct fv_top as [[_ T1] T2]. set (top := ToFloat64 (2 ^ 48)) in *.
  set (zz := ToFloat64 (2 ^ 50)) in *.
  pose proof (sub_nearest s e FS FE) as Nd. set (d := (s - e)%float) in *.
  assert (Fnt : ffin (- top)%float = true) by (by rewrite ffin_opp).
  assert (Ld : fv (- top)%float <= fv d)
    by (apply (nearest_ge _ _ _ _ Z.lt_0_1 Nd (ffin_nan _ Fnt)); rewrite fv_opp; lia).
  rewrite fv_opp in Ld.
  assert (Ud : fv d <= 0).
  { rewrite <- fv_zero_lit. apply (nearest_le _ _ _ 0%float Z.lt_0_1 Nd eq_refl). rewrite fv_zero_lit. lia. }
  assert (Fd : ffin d = true).
  { apply (ffin_between (- top)%float _ 0%float); rewrite ?fv_opp, ?fv_zero_lit; try done; apply Nd. }
  pose proof (sub_nearest x d FP Fd) as Ny. fold y in Ny.
  assert (Ly : fv x <= fv y) by (apply (nearest_ge _ _ _ x Z.lt_0_1 Ny (ffin_nan _ FP)); lia).
  assert (Uy : fv y <= fv zz) by (apply (nearest_le _ _ _ zz Z.lt_0_1 Ny (ffin_nan _ FZ)); lia).
  assert (Fy : ffin y = true) by (apply (ffin_between x _ zz); try done; apply Ny).
  split.
  - rewrite <- (FromFloat64_ToFloat64 peak SP) at 1. apply FromFloat64_mono; auto; fold x; lia.
  - rewrite <- (FromFloat64_ToFloat64 (2 ^ 50) SZ). apply FromFloat64_mono; auto; fold zz; lia.
Qed.

(** The trailing stop of a long exits on the first bar that makes a new
    high above the entry: [UpdateTrailingStop] moves the stop to or above that
    high (peak plus the initial distance, not minus), and the engine then
    resolves the same bar against it, which is always a stop-out at the open or
    the new stop, whichever is lower. *)
Theorem trailing_stop_exits_on_new_high c s :
  bar_ok c -> stop_ok s -> Side s = "BUY"%string -> StopType s = StopLossTrail ->
  0 < StopPrice s -> StopPrice s <= EntryPrice s -> modest (EntryPrice s) -> modest (High c) ->
  PeakPrice s < High c -> EntryPrice s < High c ->
  let s' := UpdateTrailingStop s c in
  PeakPrice s' = High c /\ High c <= StopPrice s' /\
  resolveStopTarget c (Some s') = ("stop_loss"%string, Float64 (Z.min (Open c) (StopPrice s'))).
Proof.
  intros Bc Sk Hside Htype Hs Hse Me Mh Hp He s'.
  destruct Bc as (So & Sh & Sl & Hl & Hr), Sk as (Ss & St & Se & Sp).
  destruct (ratchet_above (High c) (StopPrice s) (EntryPrice s) Mh Me Hs Hse ltac:(lia)) as [L U].
  set (y := PriceFromFloat (Float64 (High c) - (Float64 (StopPrice s) - Float64 (EntryPrice s)))).
  change (High c <= y) in L. change (y <= 2 ^ 50) in U.
  assert (Sy : sane y) by (unfold sane, modest in *; lia).
  assert (E : s' = withStop s (High c) y).
  { unfold s', UpdateTrailingStop. rewrite Htype, Hside. cbn [isTrail negb orb].
    rewrite bool_decide_true by done. price_ints.
    destruct (Z.leb_spec (StopPrice s) 0); [lia|].
    destruct (Z.ltb_spec (PeakPrice s) (High c)); [|lia].
    assert (D : (0 <? Float64 (High c) - Float64 (EntryPrice s))%float = true).
    { pose proof (ToFloat64_lt _ _ Se Sh He) as Lt.
      pose proof (sub_nearest _ _ (ToFloat64_fin _ Sh) (ToFloat64_fin _ Se)) as N.
      destruct (sub_sign _ _ (ToFloat64_fin _ Sh) (ToFloat64_fin _ Se)) as (Nn & G & _).
      specialize (G ltac:(lia)). unfold Float64. rewrite ltb_fv_nn, fv_zero_lit by done.
      apply Z.ltb_lt. destruct (Z.eq_dec (fv (ToFloat64 (High c) - ToFloat64 (EntryPrice s))%float) 0) as [Z0|];
        [|lia].
      exfalso. pose proof (nearest_ge _ _ _ 0x1p-1074%float Z.lt_0_1 N eq_refl) as G1.
      replace (fv 0x1p-1074) with 1 in G1 by (vm_compute; reflexivity). lia. }
    cbv zeta. rewrite D. fold y.
    destruct (Z.ltb_spec y (EntryPrice s)); [lia|done]. }
  rewrite E. cbn [withStop PeakPrice StopPrice]. split; [done|]. split; [exact L|].
  assert (Py : 0 < y) by lia.
  unfold resolveStopTarget, CheckStopHit. cbn [withStop Side StopPrice]. rewrite Hside.
  rewrite bool_decide_true by done. price_ints.
  destruct (Z.leb_spec y 0), (Z.ltb_spec 0 (Low c)), (Z.leb_spec (Low c) y); try lia. cbn [andb].
  destruct (Z.ltb_spec (Open c) y); [rewrite Z.min_l by lia|rewrite Z.min_r by lia]; reflexivity.
Qed.
End Resolution.

Definition trail_stop : ActiveStop :=
  mkStop 1 10000000 "BUY" 9900000 0 10000000 0 StopLossTrail TakeProfitNone.

(** Entry 100.00, stop 99.00; a bar up to 101.00 moves the stop to 102.00. *)
Definition up_bar : Candle :=
  mkCandle 0 10020000 10100000 10010000 10090000 1000 "SPY" 1 "test" "g".

Lemma exit_resolution_witness :
  resolveStopTarget (mkCandle 0 9850000 10300000 9800000 9990000 1000 "SPY" 1 "test" "g")
    (Some (mkStop 1 10000000 "BUY" 9900000 10200000 10000000 0 StopLossFixed TakeProfitRR))
  = ("stop_loss"%string, Float64 9850000).
Proof.
  rewrite exit_resolution; [reflexivity| | |]; unfold bar_ok, stop_ok, sane; cbn; lia.
Defined.

Lemma trailing_stop_exits_on_new_high_witness :
  StopPrice (UpdateTrailingStop trail_stop up_bar) = 10200000%Z /\
  resolveStopTarget up_bar (Some (UpdateTrailingStop trail_stop up_bar)) =
    ("stop_loss"%string, Float64 10020000).
Proof.
  assert (E : StopPrice (UpdateTrailingStop trail_stop up_bar) = 10200000%Z)
    by (vm_compute; reflexivity).
  split; [exact E|].
  pose proof (trailing_stop_exits_on_new_high up_bar trail_stop) as R.
  destruct R as (_ & _ & R);
    try (unfold bar_ok, stop_ok, sane, modest; cbn; lia); [reflexivity..|].
  rewrite R, E. reflexivity.
Defined.
