(* ===== verification/Fills.v ===== *)
(** * Execution costs ([internal/backtest/slippage.go], [internal/broker/fee.go])

    The slippage models, the fill simulator and the brokerage fee schedule.
    The pseudo-random generator and [math.Exp] are parameters. *)
From Stdlib Require Import ZArith Lia Bool Floats Ascii.
From S2P Require Import Prelude Float64 FloatRound FloatLaws Price.
Import GoInt.
Local Open Scope float_scope.
Local Open Scope go_scope.

(** ** slippage.go *)
Record SlippageModel := mkSlip {
  SType : string;
  SpreadBps : float64;
  MaxSlippage : float64;
  LatencyMs : float64;
  VolumeImpactFactor : float64;
  AdverseSelectBps : float64
}.

Definition LimitFillProbability (exp : float64 -> float64) (m : SlippageModel)
    (distanceFromMidBps : float64) : float64 :=
  if distanceFromMidBps <=? 0 then 0.98
  else math.Max 0.05 (exp ((- distanceFromMidBps) / (SpreadBps m + 0.01))).

(** The factor [1 + alpha (adjustment - 1)] of the calibration. *)
Definition calibrationFactor (model : SlippageModel) (observed : float64) : float64 :=
  let adjustment := observed / (SpreadBps model + AdverseSelectBps model + MaxSlippage model * 0.4 + 0.001) in
  let adjustment := math.Max 0.7 (math.Min 1.5 adjustment) in
  1.0 + 0.2 * (adjustment - 1.0).

Definition CalibrateSlippageModel (model : SlippageModel) (observedSlippageBps : float64)
    (sampleCount : Z) : SlippageModel :=
  if Z.ltb sampleCount 10 || (observedSlippageBps <? 0) then model
  else
    let k := calibrationFactor model observedSlippageBps in
    let spread := SpreadBps model * k in
    let maxs := MaxSlippage model * k in
    let adv := AdverseSelectBps model * k in
    mkSlip (SType model) (if spread <? 0 then 0 else spread) (if maxs <? 0 then 0 else maxs)
      (LatencyMs model) (VolumeImpactFactor model) adv.

Definition DefaultEquitySlippage := mkSlip "relative" 0.5 2.0 5.0 0.5 0.5.
Definition LowLatencySlippage := mkSlip "relative" 0.1 0.5 0.1 0 0.
Definition RealisticEquitySlippage := mkSlip "relative" 2.0 5.0 10.0 1.0 1.0.
Definition SmallCapSlippage := mkSlip "relative" 8.0 15.0 15.0 2.0 2.0.
Definition ForexSlippage := mkSlip "relative" 0.3 1.0 5.0 0.1 0.2.
Definition CryptoSlippage := mkSlip "relative" 12.0 25.0 20.0 3.0 3.0.
Definition CommoditySlippage := mkSlip "relative" 4.0 8.0 10.0 1.5 1.0.

(** One byte of [normalizeSymbol]: upper-cased, kept, or dropped. *)
Definition normByte (c : ascii) : option ascii :=
  let n := N_of_ascii c in
  if N.leb 97 n && N.leb n 122 then Some (ascii_of_N (n - 32))
  else if (N.leb 65 n && N.leb n 90) || (N.leb 48 n && N.leb n 57) then Some c
  else None.

Fixpoint normalizeSymbol (symbol : string) : string :=
  match symbol with
  | EmptyString => EmptyString
  | String c s => match normByte c with
                  | Some c' => String c' (normalizeSymbol s)
                  | None => normalizeSymbol s
                  end
  end.

Definition oneOf (s : string) (l : list string) : bool := existsb (String.eqb s) l.

Definition SlippageForSymbol (symbol : string) : SlippageModel :=
  let s := normalizeSymbol symbol in
  if oneOf s ["BTCUSD"; "ETHUSD"]%string then CryptoSlippage
  else if oneOf s ["XAUUSD"; "XAGUSD"; "CL"; "USO"]%string then CommoditySlippage
  else if oneOf s ["EURUSD"; "GBPUSD"; "USDJPY"; "USDCHF"; "AUDUSD"; "USDCAD"; "NZDUSD"]%string
  then ForexSlippage
  else if oneOf s ["IWM"; "TSLA"; "NVDA"]%string then SmallCapSlippage
  else if oneOf s ["GLD"; "TLT"]%string then CommoditySlippage
  else RealisticEquitySlippage.

Definition usable (x : float64) : bool := (x >? 0) && negb (math.IsNaN x) && negb (math.IsInf x 0).

Definition ApplyCalibratedCosts (base : SlippageModel) (spreadBps volumeImpactFactor : float64)
    : SlippageModel :=
  mkSlip (SType base)
    (if usable spreadBps then spreadBps else SpreadBps base) (MaxSlippage base) (LatencyMs base)
    (if usable volumeImpactFactor then volumeImpactFactor else VolumeImpactFactor base)
    (AdverseSelectBps base).

Record SimulatedFill := mkFill {
  OrderID : Z;
  FillSymbol : string;
  FillPrice : Price;
  FillQuantity : float64;
  SlippageBps : float64;
  FillLatencyMs : float64;
  Delay : Z;
  SlippageMidBps : float64;
  SlippageLastBps : float64
}.

(** [math.Round(x*10000) / 10000]. *)
Definition round4 (x : float64) : float64 := math.Round (x * 10000) / 10000.

Definition usesDefaults (m : SlippageModel) : bool :=
  bool_decide (SType m = "relative"%string) && (SpreadBps m =? 0.5) && (MaxSlippage m =? 2.0) &&
  (VolumeImpactFactor m =? 0.5) && (AdverseSelectBps m =? 0.5).

(** The model in force: the per-symbol preset replaces the default one. *)
Definition effectiveModel (m : SlippageModel) (symbol : string) : SlippageModel :=
  if usesDefaults m then
    let base := SlippageForSymbol symbol in
    mkSlip (SType m) (SpreadBps base) (MaxSlippage base) (LatencyMs m)
      (VolumeImpactFactor base) (AdverseSelectBps base)
  else m.

Section FillSimulator.
(** [math/rand]: a generator state with its two draws. *)
Context {rand : Type}.
Variable NormFloat64 : rand -> float64 * rand.
Variable RandFloat64 : rand -> float64 * rand.

Record FillSimulator := mkSim { model : SlippageModel; rng : rand }.

(** The slippage in basis points and the generator after its draws. *)
Definition drawSlippage (sm : SlippageModel) (r : rand) (quantity barVolume : float64)
    : float64 * rand :=
  let base := SpreadBps sm + AdverseSelectBps sm in
  let '(bps, r) :=
    if MaxSlippage sm >? 0 then
      let '(n, r) := NormFloat64 r in
      let randomFactor := math.Abs n * MaxSlippage sm * 0.5 in
      let '(u, r) := RandFloat64 r in
      let randomFactor := if u <? 0.05 then - randomFactor * 0.5 else randomFactor in
      (base + randomFactor, r)
    else (base, r) in
  let bps := if (barVolume >? 0) && (VolumeImpactFactor sm >? 0) && (quantity >? 0)
             then bps + VolumeImpactFactor sm * math.Sqrt (quantity / barVolume) else bps in
  (if bps <? 0 then 0 else bps, r).

Definition slippedPrice (side : string) (tickPrice bps : float64) : float64 :=
  if bool_decide (side = "BUY"%string) then tickPrice * (1 + bps / 10000.0)
  else tickPrice * (1 - bps / 10000.0).

(** The filled quantity: capped at 1% of the bar's volume, sometimes partial. *)
Definition drawQuantity (r : rand) (quantity barVolume : float64) : float64 * rand :=
  let q := if barVolume >? 0
           then (let cap := barVolume * 0.01 in if quantity >? cap then cap else quantity)
           else quantity in
  if q >? 0 then
    let '(u, r) := RandFloat64 r in
    if u <? 0.05 then let '(v, r) := RandFloat64 r in (q * (0.5 + v * 0.5), r) else (q, r)
  else (q, r).

Definition relativeBps (side : string) (fill ref : float64) : float64 :=
  if ref >? 0 then
    if bool_decide (side = "BUY"%string) then (fill - ref) / ref * 10000.0
    else (ref - fill) / ref * 10000.0
  else 0.

Definition SimulateFillWithTCA (s : FillSimulator) (orderID : Z) (symbol : string)
    (limitPrice quantity : float64) (side : string) (tickPrice : float64)
    (midPrice lastPrice barVolume : float64) : SimulatedFill * FillSimulator :=
  let delay := i64 (math.int64 (LatencyMs (model s)) * 1000000) in
  let sm := effectiveModel (model s) symbol in
  let '(slippageBps, r) := drawSlippage sm (rng s) quantity barVolume in
  let fillPrice := slippedPrice side tickPrice slippageBps in
  let '(fillQuantity, r) := drawQuantity r quantity barVolume in
  (mkFill orderID symbol (FromFloat64 (round4 fillPrice)) (round4 fillQuantity) slippageBps
     (LatencyMs (model s)) delay (relativeBps side fillPrice midPrice)
     (relativeBps side fillPrice lastPrice),
   mkSim (model s) r).

Definition SimulateFill (s : FillSimulator) (orderID : Z) (symbol : string)
    (limitPrice quantity : float64) (side : string) (tickPrice : float64)
    : SimulatedFill * FillSimulator :=
  SimulateFillWithTCA s orderID symbol limitPrice quantity side tickPrice tickPrice tickPrice 0.
End FillSimulator.

(** ** fee.go *)
Record BrokerageFeeConfig := mkFee {
  PerTradeFixed : float64;
  PerShare : float64;
  MinFee : float64;
  SECTxnFee : float64;
  MakerFeeBps : float64;
  TakerFeeBps : float64;
  Enabled : bool
}.

Definition DefaultBrokerageFee := mkFee 0.35 0.0035 1.00 0.0000229 0.0 0.5 true.

Definition scheduleFee (f : BrokerageFeeConfig) (bps quantity price : float64) : float64 :=
  (PerTradeFixed f + quantity * PerShare f + quantity * price * SECTxnFee f)
  + quantity * price * bps / 10000.0.

Definition CalculateFee (f : BrokerageFeeConfig) (quantity price : float64) : float64 :=
  if negb (Enabled f) then 0
  else
    let fee := scheduleFee f (TakerFeeBps f) quantity price in
    if fee <? MinFee f then MinFee f else fee.

Definition CalculateMakerFee (f : BrokerageFeeConfig) (quantity price : float64) : float64 :=
  if negb (Enabled f) then 0
  else
    let fee := scheduleFee f (MakerFeeBps f) quantity price in
    if fee <? MinFee f then MinFee f else fee.

Definition CalculateFeeForAssetClass (f : BrokerageFeeConfig) (assetClass : string)
    (quantity price : float64) : float64 :=
  if negb (Enabled f) then 0
  else
    let notional := quantity * price in
    if oneOf assetClass ["forex"; "crypto"; "futures"; "commodity"; "index"]%string then
      let fee := PerTradeFixed f + notional * TakerFeeBps f / 10000.0 in
      if fee <? 0 then 0 else fee
    else CalculateFee f quantity price.

Definition isForex (s : string) : bool :=
  oneOf s ["EURUSD"; "GBPUSD"; "USDJPY"; "AUDUSD"; "USDCAD"; "USDCHF"; "NZDUSD";
           "USDEUR"; "US30"; "SPX500"; "NAS100"; "GER40"; "UK100"; "JPN225"; "^_US"; "^DAX"]%string.
Definition isCrypto (s : string) : bool :=
  oneOf s ["BTCUSD"; "ETHUSD"; "BTC-USD"; "ETH-USD"; "SOLUSD"; "XRPUSD"; "ADAUSD"; "DOGEUSD";
           "LTCUSD"; "BCHUSD"; "DOTUSD"; "LINKUSD"; "AVAXUSD"; "MATICUSD"; "TRXUSD"; "UNIUSD"]%string.
Definition isFutures (s : string) : bool :=
  oneOf s ["ES"; "NQ"; "CL"; "YM"; "RTY"; "GC"; "SI"; "HG"; "NG";
           "ZB"; "ZN"; "ZF"; "6E"; "6A"; "6B"; "6J"; "6C"; "6S"; "6N"]%string.
Definition isCommodity (s : string) : bool :=
  oneOf s ["XAUUSD"; "XAGUSD"; "GLD"; "SLV"; "USO"; "UNG"]%string.

Definition AssetClassForSymbol (symbol : string) : string :=
  if isForex symbol then "forex" else if isCrypto symbol then "crypto"
  else if isFutures symbol then "futures" else if isCommodity symbol then "commodity"
  else "equity".

Definition CalculateFeeForSymbol (f : BrokerageFeeConfig) (symbol : string)
    (quantity price : float64) : float64 :=
  CalculateFeeForAssetClass f (AssetClassForSymbol symbol) quantity price.

Definition CalculateHoldingFee (f : BrokerageFeeConfig)
    (notional expenseRatio yearsHeld : float64) : float64 :=
  if negb (Enabled f) || (notional <=? 0) || (expenseRatio <=? 0) || (yearsHeld <=? 0) then 0
  else
    let holding := notional * expenseRatio * yearsHeld in
    if math.IsNaN holding || math.IsInf holding 0 || (holding <? 0) then 0 else holding.

(** ** Symbols *)
Section Symbols.

Definition alnum (c : ascii) : bool :=
  let n := N_of_ascii c in (N.leb 65 n && N.leb n 90) || (N.leb 48 n && N.leb n 57).

Lemma normByte_alnum c c' : normByte c = Some c' -> alnum c' = true.
Proof. destruct c as [[] [] [] [] [] [] [] []]; cbn; intros [= <-]; reflexivity. Qed.

Lemma normByte_idem c : alnum c = true -> normByte c = Some c.
Proof. destruct c as [[] [] [] [] [] [] [] []]; cbn; done. Qed.

Lemma normalizeSymbol_alnum s : forallb alnum (String.list_ascii_of_string (normalizeSymbol s)) = true.
Proof.
  induction s as [|c s IH]; [done|]. cbn. destruct (normByte c) as [c'|] eqn:E; [|done].
  cbn. by rewrite (normByte_alnum c c' E).
Qed.

Lemma normalizeSymbol_fixed s :
  forallb alnum (String.list_ascii_of_string s) = true -> normalizeSymbol s = s.
Proof.
  induction s as [|c s IH]; [done|]. cbn. intros [Hc Hs]%andb_true_iff.
  rewrite (normByte_idem c Hc). by rewrite IH.
Qed.
End Symbols.

(** Symbol normalisation is idempotent with upper-case alphanumeric images,
    so the slippage schedule of a symbol does not depend on the provider's
    separators or case. *)
Theorem normalizeSymbol_canonical s :
  forallb alnum (String.list_ascii_of_string (normalizeSymbol s)) = true /\
  normalizeSymbol (normalizeSymbol s) = normalizeSymbol s /\
  SlippageForSymbol (normalizeSymbol s) = SlippageForSymbol s.
Proof.
  pose proof (normalizeSymbol_alnum s) as A.
  unfold SlippageForSymbol. by rewrite (normalizeSymbol_fixed _ A).
Qed.

(** ** Float helpers *)
Section FloatHelpers.
Local Open Scope Z_scope.

Lemma fmul_comm x y : (x * y)%float = (y * x)%float.
Proof.
  apply Prim2SF_inj. rewrite !mul_spec.
  destruct (Prim2SF x) as [sx|sx| |sx mx ex], (Prim2SF y) as [sy|sy| |sy my ey]; try done;
    cbn; rewrite ?(xorb_comm sy sx), ?(Pos.mul_comm my mx), ?(Z.add_comm ey ex); done.
Qed.

Lemma add_mono_r p a b :
  ffin p = true -> ffin a = true -> ffin b = true -> fv a < fv b ->
  fv (p + a)%float <= fv (p + b)%float.
Proof.
  intros Fp Fa Fb H. pose proof (add_nearest p a Fp Fa) as Na.
  pose proof (add_nearest p b Fp Fb) as Nb.
  apply (nearest_mono _ _ _ _ _ Z.lt_0_1 Na Nb). lia.
Qed.

Lemma unit_fraction bps :
  ffin bps = true -> 0 <= fv bps <= 10000 * onev -> unit0 (bps / 10000)%float.
Proof.
  intros F B. assert (V : fv 10000 = 10000 * onev) by (vm_compute; reflexivity).
  pose proof onev_pos. apply div_le_one; [split; [done|lia]|done|lia|lia].
Qed.

Lemma one_plus_unit y : unit0 y -> ffin (1 + y)%float = true /\ onev <= fv (1 + y)%float.
Proof.
  intros [F B]. pose proof (add_nearest 1 y eq_refl F) as N. rewrite fv_one in N.
  assert (V : fv 2 = 2 * onev) by (vm_compute; reflexivity). pose proof onev_pos.
  split.
  - apply (nearest_fin _ _ _ 2%float Z.lt_0_1 N eq_refl). lia.
  - rewrite <- fv_one. apply (nearest_ge _ _ _ 1%float Z.lt_0_1 N eq_refl). rewrite fv_one. lia.
Qed.

Lemma one_minus_unit y : unit0 y -> unit0 (1 - y)%float.
Proof.
  intros [F B]. pose proof (sub_nearest 1 y eq_refl F) as N. rewrite fv_one in N.
  assert (U : fv (1 - y)%float <= fv 1%float)
    by (apply (nearest_le _ _ _ 1%float Z.lt_0_1 N eq_refl); rewrite fv_one; lia).
  assert (L : fv 0%float <= fv (1 - y)%float)
    by (apply (nearest_ge _ _ _ 0%float Z.lt_0_1 N eq_refl); rewrite fv_zero_lit; lia).
  split; [|by rewrite fv_zero_lit in L; rewrite fv_one in U].
  apply (ffin_between 0%float _ 1%float); try done. apply N.
Qed.

Lemma mul_ge_one x m : pos0 x -> ffin m = true -> onev <= fv m ->
  fnan (x * m)%float = false /\ fv x <= fv (x * m)%float.
Proof.
  intros [Fx Hx] Fm Hm. pose proof (mul_nearest x m Fx Fm) as N. fold onev in N.
  split; [apply N|]. apply (nearest_ge _ _ _ x onev_pos N (ffin_nan _ Fx)). nia.
Qed.

Lemma ltb_zero_false x : (x <? 0)%float = false -> fnan x = false -> 0 <= fv x.
Proof. intros H N. apply ltb_false in H; [by rewrite fv_zero_lit in H|done|done]. Qed.
End FloatHelpers.

(** ** The fill simulator *)
Section FillProps.
Context {rand : Type}.
Variable NormFloat64 : rand -> float64 * rand.
Variable RandFloat64 : rand -> float64 * rand.
(** [rand.Float64] documents a result in [0,1). *)
Hypothesis RandFloat64_range : forall r, unit0 (RandFloat64 r).1.

Lemma slippedPrice_adverse side tick bps :
  pos0 tick -> ffin bps = true -> (0 <= fv bps <= 10000 * onev)%Z ->
  if bool_decide (side = "BUY"%string)
  then (tick <=? slippedPrice side tick bps) = true
  else (slippedPrice side tick bps <=? tick) = true /\ pos0 (slippedPrice side tick bps).
Proof.
  intros Pt Fb Bb. pose proof (unit_fraction bps Fb Bb) as U. unfold slippedPrice.
  destruct (bool_decide _).
  - destruct (one_plus_unit _ U) as [F1 L1]. destruct (mul_ge_one tick _ Pt F1 L1) as [N L].
    rewrite leb_fv_nn by (done || by apply pos0_nan). by apply Z.leb_le.
  - destruct (mul_unit_le tick _ Pt (one_minus_unit _ U)) as [P L]. split; [|done].
    rewrite leb_fv_nn by (by apply pos0_nan). by apply Z.leb_le.
Qed.

Lemma drawSlippage_nonneg sm r q v :
  ((drawSlippage NormFloat64 RandFloat64 sm r q v).1 <? 0) = false.
Proof.
  unfold drawSlippage. repeat (case_match; simplify_eq); cbn; done || (by apply ltb_irrefl) || idtac.
Qed.

(** A fraction [0.5 + v/2] of a partial fill lies in [0,1]. *)
Lemma partial_unit v : unit0 v -> unit0 (0.5 + v * 0.5).
Proof.
  intros Uv. destruct (mul_unit_le 0.5 v) as [P L];
    [split; [done|vm_compute; discriminate]|done|].
  rewrite fmul_comm in P, L. pose proof (add_nearest 0.5 (v * 0.5) eq_refl (pos0_fin _ P)) as N.
  assert (V : (2 * fv 0.5 = onev)%Z) by (vm_compute; reflexivity). destruct P as [Fp Hp].
  assert (U : (fv (0.5 + v * 0.5) <= fv 1)%Z)
    by (apply (nearest_le _ _ _ 1 Z.lt_0_1 N eq_refl); rewrite fv_one; lia).
  assert (G : (fv 0 <= fv (0.5 + v * 0.5))%Z)
    by (apply (nearest_ge _ _ _ 0 Z.lt_0_1 N eq_refl); rewrite fv_zero_lit; pose proof onev_pos; lia).
  split; [|by rewrite fv_zero_lit in G; rewrite fv_one in U].
  apply (ffin_between 0 _ 1); try done. apply N.
Qed.

Lemma drawQuantity_bounded r q v :
  pos0 q -> ffin (v * 0.01) = true ->
  let q' := (drawQuantity RandFloat64 r q v).1 in
  pos0 q' /\ (q' <=? q) = true /\ ((v >? 0) = true -> (q' <=? v * 0.01) = true).
Proof.
  intros Pq Fv. unfold drawQuantity. cbv zeta.
  set (c := if 0 <? v then _ else q).
  assert (Hc : pos0 c /\ (fv c <= fv q)%Z /\ ((v >? 0) = true -> (fv c <= fv (v * 0.01))%Z)).
  { unfold c. destruct (0 <? v) eqn:Ev; [|by repeat split; try apply Pq].
    destruct (v * 0.01 <? q) eqn:Eq.
    - apply ltb_true in Eq as (_ & _ & Eq). split; [|split; [lia|done]].
      split; [done|]. assert (H : (fnan (v * 0.01) = false /\ 0 <= fv (v * 0.01))%Z).
      { apply ltb_true in Ev as (_ & Nv & Hv). rewrite fv_zero_lit in Hv.
        destruct (ffin v) eqn:F; [apply (mul_pos0 v 0.01); split; try done; lia|].
        rewrite (nonfin_pos v Nv F) in Fv by lia. vm_compute in Fv. discriminate Fv. }
      apply H.
    - apply ltb_false in Eq; [|by apply ffin_nan|by apply pos0_nan].
      split; [done|]. split; [lia|done]. }
  clearbody c. destruct Hc as (Pc & Lc & Vc).
  assert (G : forall x, pos0 x -> (fv x <= fv c)%Z ->
    pos0 x /\ (x <=? q) = true /\ ((v >? 0) = true -> (x <=? v * 0.01) = true)).
  { intros x Px Lx. split; [done|]. split.
    - rewrite leb_fv_nn by (by apply pos0_nan). apply Z.leb_le. lia.
    - intros Hv. specialize (Vc Hv). rewrite leb_fv_nn by first [by apply pos0_nan|by apply ffin_nan].
      apply Z.leb_le. lia. }
  destruct (0 <? c); [|by apply G]. destruct (RandFloat64 r) as [u r1].
  destruct (u <? 0.05); [|by apply G].
  pose proof (RandFloat64_range r1) as R. destruct (RandFloat64 r1) as [w r2]. cbn [fst] in *.
  destruct (mul_unit_le c _ Pc (partial_unit w R)) as [P L]. by apply G.
Qed.

(** A simulated fill is never better than the market: the slippage is not
    negative; up to 100% of slippage, the price before the final rounding to
    four decimals is at or above the tick for a buy and between zero and the
    tick for a sell; and the quantity before rounding is between zero and the
    request, and at most 1% of the bar's volume when that is known. *)
Theorem simulated_fill_adverse s id symbol limit q side tick mid last v :
  pos0 tick -> pos0 q -> ffin (v * 0.01) = true ->
  let f := (SimulateFillWithTCA NormFloat64 RandFloat64 s id symbol limit q side tick mid last v).1 in
  (SlippageBps f <? 0) = false /\
  (ffin (SlippageBps f) = true -> (fv (SlippageBps f) <= 10000 * onev)%Z ->
   exists price, FillPrice f = FromFloat64 (round4 price) /\
     if bool_decide (side = "BUY"%string) then (tick <=? price) = true
     else (price <=? tick) = true /\ pos0 price) /\
  exists qty, FillQuantity f = round4 qty /\ pos0 qty /\ (qty <=? q) = true /\
     ((v >? 0) = true -> (qty <=? v * 0.01) = true).
Proof.
  intros Pt Pq Fv f. subst f. unfold SimulateFillWithTCA.
  pose proof (drawSlippage_nonneg (effectiveModel (model s) symbol) (rng s) q v) as D.
  destruct (drawSlippage _ _ _ _ _ _) as [bps r]. cbn [fst] in D.
  pose proof (drawQuantity_bounded r q v Pq Fv) as Q.
  destruct (drawQuantity _ _ _ _) as [qty r']. cbn [fst] in *. cbn.
  split; [done|]. split; [|by exists qty].
  intros Fb Bb. exists (slippedPrice side tick bps). split; [done|].
  apply slippedPrice_adverse; auto. split; [|done]. apply ltb_zero_false; [done|by apply ffin_nan].
Qed.
End FillProps.

(** A generator that always draws 0.5, and a fill on it. *)
Definition halfRand (r : unit) : float64 * unit := (0.5, r).

Lemma simulated_fill_adverse_witness :
  let f := (SimulateFillWithTCA halfRand halfRand (mkSim DefaultEquitySlippage tt) 1 "BTC-USD"
              0 500 "BUY" 100 100 100 10000).1 in
  (SlippageBps f <? 0) = false /\ FillQuantity f = 100 /\ FillPrice f = 10021920%Z.
Proof.
  destruct (simulated_fill_adverse halfRand halfRand) with
    (s := mkSim DefaultEquitySlippage tt) (id := 1%Z) (symbol := "BTC-USD"%string)
    (limit := 0) (q := 500) (side := "BUY"%string) (tick := 100) (mid := 100) (last := 100)
    (v := 10000) as (H & _ & _).
  - intros []. split; [reflexivity|]. split; apply Z.leb_le; vm_compute; reflexivity.
  - split; [reflexivity|apply Z.leb_le; vm_compute; reflexivity].
  - split; [reflexivity|apply Z.leb_le; vm_compute; reflexivity].
  - reflexivity.
  - split; [exact H|]. vm_compute. split; reflexivity.
Defined.

(** ** Calibration *)
Section Calibration.
Local Open Scope Z_scope.

Definition kLow : float64 := Eval vm_compute in (1.0 + 0.2 * (0.7 - 1.0))%float.
Definition kHigh : float64 := Eval vm_compute in (1.0 + 0.2 * (1.5 - 1.0))%float.

Lemma scaled_mono a b :
  ffin a = true -> ffin b = true -> fv a <= fv b ->
  ffin (0.2 * (a - 1))%float = true -> ffin (0.2 * (b - 1))%float = true ->
  ffin (a - 1)%float = true -> ffin (b - 1)%float = true ->
  fv (1 + 0.2 * (a - 1))%float <= fv (1 + 0.2 * (b - 1))%float.
Proof.
  intros Fa Fb H F1 F2 G1 G2.
  pose proof (sub_mono_l a b 1 eq_refl Fa Fb H) as S.
  assert (P2 : pos0 0.2%float) by (split; [done|vm_compute; discriminate]).
  pose proof (mul_mono_l _ _ 0.2%float G1 G2 P2 S) as M.
  rewrite !(fmul_comm _ 0.2%float) in M.
  destruct (Z.eq_dec (fv (0.2 * (a - 1))%float) (fv (0.2 * (b - 1))%float)) as [E|E].
  - destruct (same_or_zero _ _ F1 F2 E) as [->|[Z1 Z2]]; [lia|].
    pose proof (add_nearest 1 _ eq_refl F1) as N1. pose proof (add_nearest 1 _ eq_refl F2) as N2.
    rewrite Z1 in N1. rewrite Z2 in N2.
    rewrite (nearest_exact _ _ _ 1%float Z.lt_0_1 N1), (nearest_exact _ _ _ 1%float Z.lt_0_1 N2)
      by (done || lia). lia.
  - apply add_mono_r; auto. lia.
Qed.

(** A value between two finite floats keeps the arithmetic of the factor finite. *)
Lemma factor_range a :
  ffin a = true -> fv 0.7 <= fv a <= fv 1.5 ->
  ffin (a - 1)%float = true /\ ffin (0.2 * (a - 1))%float = true.
Proof.
  intros Fa B. pose proof (sub_mono_l 0.7 a 1 eq_refl eq_refl Fa ltac:(lia)) as L.
  pose proof (sub_mono_l a 1.5 1 eq_refl Fa eq_refl ltac:(lia)) as U.
  assert (G : ffin (a - 1)%float = true).
  { apply (ffin_between (0.7 - 1)%float _ (1.5 - 1)%float); try reflexivity; [|lia].
    apply (sub_sign a 1 Fa eq_refl). }
  split; [done|].
  assert (P2 : pos0 0.2%float) by (split; [done|vm_compute; discriminate]).
  pose proof (mul_mono_l (0.7 - 1)%float (a - 1)%float 0.2%float eq_refl G P2 L) as ML.
  pose proof (mul_mono_l (a - 1)%float (1.5 - 1)%float 0.2%float G eq_refl P2 U) as MU.
  rewrite !(fmul_comm _ 0.2%float) in ML. rewrite !(fmul_comm _ 0.2%float) in MU.
  apply (ffin_between (0.2 * (0.7 - 1))%float _ (0.2 * (1.5 - 1))%float); try reflexivity; [|lia].
  apply (mul_nearest 0.2 (a - 1)%float eq_refl G).
Qed.

Lemma clamp_range x :
  fnan x = false ->
  let a := math.Max 0.7 (math.Min 1.5 x) in ffin a = true /\ fv 0.7 <= fv a <= fv 1.5.
Proof.
  intros N a. destruct (Min_fv 1.5 x eq_refl N) as [N1 V1].
  destruct (Max_fv 0.7 _ eq_refl N1) as [N2 V2]. fold a in N2, V2.
  assert (C : fv 0.7 <= fv 1.5) by (apply Z.leb_le; vm_compute; reflexivity).
  assert (R : fv 0.7 <= fv a <= fv 1.5) by lia. split; [|done].
  by apply (ffin_between 0.7%float _ 1.5%float).
Qed.

Lemma calibrationFactor_range m obs :
  fnan (obs / (SpreadBps m + AdverseSelectBps m + MaxSlippage m * 0.4 + 0.001))%float = false ->
  ffin (calibrationFactor m obs) = true /\ fv kLow <= fv (calibrationFactor m obs) <= fv kHigh.
Proof.
  intros N. unfold calibrationFactor.
  destruct (clamp_range _ N) as [Fa Ba]. set (a := math.Max 0.7 _) in *.
  destruct (factor_range a Fa Ba) as [G F].
  pose proof (scaled_mono 0.7 a eq_refl Fa ltac:(lia) eq_refl F eq_refl G) as L.
  pose proof (scaled_mono a 1.5 Fa eq_refl ltac:(lia) F eq_refl G eq_refl) as U.
  change (fv (1 + 0.2 * (0.7 - 1))%float) with (fv kLow) in L.
  change (fv (1 + 0.2 * (1.5 - 1))%float) with (fv kHigh) in U.
  split; [|lia]. apply (ffin_between kLow _ kHigh); try reflexivity; [|lia].
  apply (add_nearest 1 (0.2 * (a - 1))%float eq_refl F).
Qed.
End Calibration.

(** One calibration step moves a model by at most -6% / +10%: the common
    factor lies between 0.94 and 1.1 (as floats), the three rescaled costs are
    the products with it, a non-negative cost stays non-negative, and too few
    samples or a negative observation change nothing. *)
Theorem calibration_step_bounded m obs n :
  fnan (obs / (SpreadBps m + AdverseSelectBps m + MaxSlippage m * 0.4 + 0.001)) = false ->
  pos0 (SpreadBps m) -> pos0 (MaxSlippage m) ->
  let m' := CalibrateSlippageModel m obs n in
  ((n < 10)%Z \/ (obs <? 0) = true -> m' = m) /\
  ((10 <= n)%Z -> (obs <? 0) = false ->
   exists k, (0.94 <=? k) = true /\ (k <=? 1.1) = true /\
     SpreadBps m' = SpreadBps m * k /\ MaxSlippage m' = MaxSlippage m * k /\
     AdverseSelectBps m' = AdverseSelectBps m * k /\
     (SpreadBps m' <? 0) = false /\ (MaxSlippage m' <? 0) = false).
Proof.
  intros N Ps Pm m'. subst m'. unfold CalibrateSlippageModel. split.
  - intros [H|H]; [by rewrite (proj2 (Z.ltb_lt _ _) H)|by rewrite H, orb_true_r].
  - intros Hn Ho. rewrite (proj2 (Z.ltb_ge _ _) Hn), Ho. cbn [orb].
    destruct (calibrationFactor_range m obs N) as [Fk Bk]. set (k := calibrationFactor m obs) in *.
    exists k. assert (KL : (0.94 <=? kLow) = true) by reflexivity.
    assert (KH : (kHigh <=? 1.1) = true) by reflexivity.
    apply leb_true in KL as (_ & _ & KL), KH as (_ & _ & KH).
    assert (P94 : (0 < fv 0.94)%Z) by (vm_compute; reflexivity).
    assert (Pk : pos0 k) by (split; [done|lia]).
    assert (G : forall x, pos0 x -> (x * k <? 0) = false).
    { intros x Px. destruct (mul_pos0 x k Px Pk) as [Nx Hx].
      rewrite ltb_fv_nn, fv_zero_lit by done. by apply Z.ltb_ge. }
    cbn [SpreadBps MaxSlippage AdverseSelectBps]. rewrite !G by done.
    split; [|split; [|by rewrite ?G by done]].
    + rewrite leb_fv_nn by (done || by apply ffin_nan). apply Z.leb_le. lia.
    + rewrite leb_fv_nn by (done || by apply ffin_nan). apply Z.leb_le. lia.
Qed.

Lemma calibration_step_bounded_witness :
  (SpreadBps (CalibrateSlippageModel RealisticEquitySlippage 80 25) <? 0) = false /\
  SpreadBps (CalibrateSlippageModel RealisticEquitySlippage 80 25) = 2.2.
Proof.
  destruct (calibration_step_bounded RealisticEquitySlippage 80 25) as (_ & H);
    [reflexivity|split; [reflexivity|apply Z.leb_le; vm_compute; reflexivity]..|].
  destruct H as (k & _ & _ & _ & _ & _ & Hn & _); [lia|reflexivity|].
  split; [exact Hn|]. vm_compute. reflexivity.
Defined.

(** ** Fees *)

(** Fees are never negative and never below the schedule's floor: an
    enabled equity fee is not below [MinFee]; a notional fee is not below zero;
    a disabled schedule charges nothing; and the holding fee is a finite
    non-negative number for every input, NaN and infinities included. *)
Theorem fees_never_negative f cls q p notional ratio years :
  (CalculateFee f q p <? MinFee f) = (negb (Enabled f) && (0 <? MinFee f))%bool /\
  (CalculateMakerFee f q p <? MinFee f) = (negb (Enabled f) && (0 <? MinFee f))%bool /\
  ((0 <=? MinFee f) = true -> (CalculateFeeForAssetClass f cls q p <? 0) = false) /\
  (Enabled f = false -> CalculateFeeForAssetClass f cls q p = 0) /\
  pos0 (CalculateHoldingFee f notional ratio years).
Proof.
  assert (M : forall x, ((if x <? MinFee f then MinFee f else x) <? MinFee f) = false)
    by (intros x; destruct (x <? MinFee f) eqn:E; [apply ltb_irrefl|done]).
  assert (M0 : (0 <=? MinFee f) = true -> forall x, ((if x <? MinFee f then MinFee f else x) <? 0) = false).
  { intros H0 x. destruct (_ <? 0) eqn:E; [|done]. pose proof (ltb_leb_trans _ _ _ E H0) as L.
    by rewrite M in L. }
  split; [unfold CalculateFee; destruct (Enabled f); [apply M|done]|].
  split; [unfold CalculateMakerFee; destruct (Enabled f); [apply M|done]|].
  split; [|split].
  - intros H0. unfold CalculateFeeForAssetClass, CalculateFee.
    destruct (Enabled f); [|done]. destruct (oneOf _ _); [|by apply M0]. cbn [negb].
    case_match; [reflexivity|done].
  - intros H. unfold CalculateFeeForAssetClass. by rewrite H.
  - unfold CalculateHoldingFee. destruct (_ || _)%bool; [apply pos0_zero|].
    set (h := notional * ratio * years). rewrite IsNaN_fnan.
    destruct (fnan h) eqn:N; [apply pos0_zero|]. destruct (math.IsInf h 0) eqn:I; [apply pos0_zero|].
    cbn [orb]. destruct (h <? 0) eqn:S; [apply pos0_zero|].
    pose proof (ltb_zero_false h S N) as H. split; [|done].
    destruct (ffin h) eqn:F; [done|]. rewrite (nonfin_pos h N F H) in I. vm_compute in I. discriminate I.
Qed.

Lemma fees_never_negative_witness :
  (CalculateFeeForAssetClass DefaultBrokerageFee "forex" 3000 1.1 <? 0) = false /\
  CalculateFee DefaultBrokerageFee 10 5 = 1.
Proof.
  destruct (fees_never_negative DefaultBrokerageFee "forex" 3000 1.1 0 0 0) as (_ & _ & H & _).
  split; [apply H; reflexivity|]. vm_compute. reflexivity.
Defined.
