(* ===== verification/Gates.v ===== *)
(** * Gate interfaces ([internal/risk/interfaces.go])

    The three Go interfaces the risk pipeline is built from are operational
    type classes over the state of an implementation; a second class per gate
    states the laws its implementations promise to the pipeline.  The Go code
    discovers some methods with a type assertion: those are [option] fields.
    [time.Now()] is the argument [now]. *)
From Stdlib Require Import ZArith Lia Bool Floats.
From S2P Require Import Prelude Float64 FloatRound FloatLaws Sizing.
Local Open Scope float_scope.
Local Open Scope go_scope.

Record CapitalRequest := mkRequest {
  ReqStrategyID : string;
  ReqConfidence : float64;
  ReqSymbol : string;
  ReqSide : string;
  ReqBaseSize : float64
}.

Record CapitalResult := mkResult { ApprovedSize : float64; ResReason : string }.

Class CapitalGate (C : Type) := {
  RequestCapital : C -> CapitalRequest -> C * CapitalResult;
  RecordFill : C -> string -> string -> string -> float64 -> float64 -> C;
  ResetDaily : C -> C;
  CapHalted : C -> bool;
  CapHaltReason : C -> string;
  TotalBalance : C -> float64;
  HasOpenPosition : option (C -> string -> string -> bool);
  ApplyCorrelationReduction : option (C -> string -> string -> float64 -> float64);
  PerStrategyDrawdown : option (C -> string -> float64)
}.

Class PropFirmGate (P : Type) := {
  CheckDailyLimits : Z -> P -> P * (bool * string);
  OnFill : Z -> P -> float64 -> float64 -> P;
  OnNewDay : P -> P;
  IsHalted : P -> bool;
  PFHaltReason : P -> string;
  MarkViolated : P -> string -> P;
  CurrentPhase : P -> Z;
  ProfitTargetMet : P -> bool;
  GetPositionSize : P -> float64 -> float64;
  SoftHalt : option ((P -> bool) * (P -> float64))
}.

Class SignalGate (S : Type) := {
  ValidateSignal : Z -> S -> float64 -> S * (bool * string);
  ApplySizing : S -> float64 -> float64 -> float64 -> float64;
  CheckExposure : S -> string -> string -> float64 -> bool * string;
  RecordExposure : S -> string -> string -> float64 -> S;
  RemoveExposure : S -> string -> string -> float64 -> S
}.

(** ** What an implementation promises *)

(** A lawful pool never grants more than it was asked for, and nothing once halted. *)
Class CapitalGateLaws (C : Type) `{CapitalGate C} := {
  cap_wf : C -> Prop;
  cap_wf_request c r : cap_wf c -> cap_wf (RequestCapital c r).1;
  cap_wf_fill c id sym side pnl q : cap_wf c -> cap_wf (RecordFill c id sym side pnl q);
  cap_wf_reset c : cap_wf c -> cap_wf (ResetDaily c);
  cap_approved_bounded c r :
    cap_wf c -> pos0 (ReqBaseSize r) -> (0 <=? ReqConfidence r) = true ->
    attenuated (ReqBaseSize r) (ApprovedSize (RequestCapital c r).2);
  cap_halted_blocks c r : CapHalted c = true -> ApprovedSize (RequestCapital c r).2 = 0;
  cap_correlation_bounded f c side sym base :
    ApplyCorrelationReduction = Some f -> pos0 base -> attenuated base (f c side sym base)
}.

(** A lawful prop-firm gate stays halted until reset from outside, halts when
    told to, and never sizes an order up. *)
Class PropFirmGateLaws (P : Type) `{PropFirmGate P} := {
  pf_wf : P -> Prop;
  pf_wf_fill now p pnl bal : pf_wf p -> pf_wf (OnFill now p pnl bal);
  pf_wf_day p : pf_wf p -> pf_wf (OnNewDay p);
  pf_wf_mark p r : pf_wf p -> pf_wf (MarkViolated p r);
  pf_wf_check now p : pf_wf p -> pf_wf (CheckDailyLimits now p).1;
  pf_halt_fill now p pnl bal : IsHalted p = true -> IsHalted (OnFill now p pnl bal) = true;
  pf_halt_day p : IsHalted p = true -> IsHalted (OnNewDay p) = true;
  pf_halt_check now p : IsHalted p = true -> IsHalted (CheckDailyLimits now p).1 = true;
  pf_mark_halts p r : IsHalted (MarkViolated p r) = true /\ PFHaltReason (MarkViolated p r) = r;
  pf_size_bounded p q : pf_wf p -> pos0 q -> attenuated q (GetPositionSize p q);
  pf_soft_unit h m p : SoftHalt = Some (h, m) -> unit0 (m p)
}.

(** A lawful signal gate attenuates, and refuses without capital. *)
Class SignalGateLaws (S : Type) `{SignalGate S} := {
  sg_wf : S -> Prop;
  sg_wf_validate now s c : sg_wf s -> sg_wf (ValidateSignal now s c).1;
  sg_wf_record s sym side n : sg_wf s -> sg_wf (RecordExposure s sym side n);
  sg_wf_remove s sym side n : sg_wf s -> sg_wf (RemoveExposure s sym side n);
  sg_no_capital now s c : (c <=? 0) = true -> (ValidateSignal now s c).2.1 = false;
  sg_sizing_bounded s base c conf :
    sg_wf s -> pos0 base -> (0 <=? conf) = true -> attenuated base (ApplySizing s base c conf)
}.

(** ** Shared facts on attenuation *)
Section Attenuated.
Local Open Scope Z_scope.

Lemma attenuated_refl x : pos0 x -> attenuated x x.
Proof. intros P. split; [done|lia]. Qed.

Lemma attenuated_zero x : pos0 x -> attenuated x 0%float.
Proof. intros [F H]. split; [apply pos0_zero|by rewrite fv_zero_lit]. Qed.

Lemma attenuated_trans x y z : attenuated x y -> attenuated y z -> attenuated x z.
Proof. intros [_ L1] [P L2]. split; [done|lia]. Qed.

Lemma attenuated_half x : pos0 x -> attenuated x (x * 0.5)%float.
Proof.
  intros P. apply attenuated_mul; [|by apply attenuated_refl].
  apply unit0_lit. vm_compute. reflexivity.
Qed.

(** Taking a cap [c] that compares below [x] and is not negative. *)
Lemma attenuated_cap x c :
  pos0 x -> (c <? x)%float = true -> (0 <= fv c) -> attenuated x c.
Proof.
  intros [Fx Hx] (Nc & _ & L)%ltb_true Hc. split; [|lia]. split; [|done].
  apply (ffin_between 0%float _ x); [done|done|done|rewrite fv_zero_lit; lia].
Qed.

(** A product of a non-negative float, possibly infinite, with a finite one is
    not negative unless it is NaN. *)
Lemma mul_nneg x y :
  fnan x = false -> 0 <= fv x -> pos0 y -> fnan (x * y)%float = false -> 0 <= fv (x * y)%float.
Proof.
  intros Nx Hx Py N. destruct (ffin x) eqn:Fx.
  - by apply (mul_pos0 x y (conj Fx Hx) Py).
  - rewrite (nonfin_pos x Nx Fx Hx) in *. destruct Py as [Fy Hy].
    assert (E : (infinity * y)%float = infinity \/ fnan (infinity * y)%float = true).
    { destruct (ffin_cases y Fy) as [(s & E & _)|(s & m & e & E & B & V)].
      - right. unfold fnan. rewrite mul_spec, E. by destruct s.
      - left. apply Prim2SF_inj. rewrite mul_spec, E. destruct s; [|reflexivity].
        rewrite V in Hy. cbn [cond_Zopp] in Hy. apply bounded_mag in B as (_ & He & _).
        pose proof (Z.pow_pos_nonneg 2 (e + 1074)). lia. }
    destruct E as [->|E]; [vm_compute; discriminate|congruence].
Qed.
Lemma div_nan x y : fnan x = true -> fnan (x / y)%float = true.
Proof.
  unfold fnan. rewrite div_spec. destruct (Prim2SF x) eqn:E; try done; by destruct (Prim2SF y).
Qed.

(** A percentage of a positive balance is not negative unless it is NaN. *)
Lemma pct_nneg b p :
  (b <=? 0)%float = false -> fnan b = false -> pos0 p ->
  fnan (b * p / 100)%float = false -> 0 <= fv (b * p / 100)%float.
Proof.
  intros Hb Nb Pp N. apply leb_false in Hb; [|done..]. rewrite fv_zero_lit in Hb.
  destruct (fnan (b * p)%float) eqn:Nx; [by rewrite (div_nan _ _ Nx) in N|].
  pose proof (mul_nneg b p Nb ltac:(lia) Pp Nx) as H.
  destruct (ffin (b * p)%float) eqn:F.
  - destruct (div_sign (b * p)%float 100 F eq_refl) as (_ & G & _); [vm_compute; reflexivity|]. by apply G.
  - rewrite (nonfin_pos _ Nx F H). vm_compute. discriminate.
Qed.


Lemma mul_nan x y : fnan x = true -> fnan (x * y)%float = true.
Proof.
  unfold fnan. rewrite mul_spec. destruct (Prim2SF x) eqn:E; try done; by destruct (Prim2SF y).
Qed.

Lemma nth_unit r l : Forall unit0 l -> unit0 (nth r l 0%float).
Proof.
  intros H. revert r. induction H as [|x l Hx _ IH]; intros [|r]; cbn; auto;
    apply unit0_lit; vm_compute; reflexivity.
Qed.

Lemma unit0_mul a b : unit0 a -> unit0 b -> unit0 (a * b)%float.
Proof.
  intros [Fa Ba] Hb. destruct (mul_unit_le a b (conj Fa (proj1 Ba)) Hb) as [[F L] U].
  split; [done|lia].
Qed.
End Attenuated.

#[export] Hint Resolve attenuated_refl attenuated_zero attenuated_half : orca.
