(* ===== verification/SignalGate.v ===== *)
(** * The shared signal gate ([internal/risk/signal_gate_impl.go])

    [SignalGateImpl] composes the volatility halt, the sizer, the exposure
    tracker and the rate limiter; a nil component is [None].  It implements the
    [SignalGate] interface and satisfies its laws. *)
From Stdlib Require Import ZArith Lia Bool Floats.
From S2P Require Import Prelude Float64 FloatRound FloatLaws PropFirm Sizing TradingControls Gates.
Local Open Scope float_scope.
Local Open Scope go_scope.

Module SignalGateImpl.
Record t := mk {
  volHalt : option VolatilityHalt.t;
  sizer : option PositionSizer;
  exposure : option ExposureTracker.t;
  rateLimit : option OrderRateLimiter.t;
  backtestSkipRateLimit : bool
}.

Definition NewSignalGateImpl (v : option VolatilityHalt.t) (s : option PositionSizer)
    (e : option ExposureTracker.t) (r : option OrderRateLimiter.t) : t := mk v s e r false.

Definition SetBacktestMode (g : t) (b : bool) : t :=
  mk (volHalt g) (sizer g) (exposure g) (rateLimit g) b.

Definition withSizer (g : t) (s : PositionSizer) : t :=
  mk (volHalt g) (Some s) (exposure g) (rateLimit g) (backtestSkipRateLimit g).

(** The setters dereference the component: on a nil one Go panics ([None]). *)
Definition SetVIX (g : t) (v : float64) : option t :=
  s ← sizer g; Some (withSizer g (UpdateMarketState s v 50 (regime s))).

Definition SetRegime (g : t) (r : Z) : option t :=
  s ← sizer g; Some (withSizer g (UpdateMarketState s (vix s) (sentiment s) r)).

Definition SetEquity (g : t) (eq : float64) : option t :=
  e ← exposure g;
  Some (mk (volHalt g) (sizer g) (Some (ExposureTracker.SetEquity e eq)) (rateLimit g)
          (backtestSkipRateLimit g)).

Definition SetKellyMultiplier (g : t) (mult : float64) : option t :=
  s ← sizer g; Some (withSizer g (Sizing.SetKellyMultiplier s mult)).

Definition SetRegimeScore (g : t) (score : float64) : option t :=
  s ← sizer g; Some (withSizer g (Sizing.SetRegimeScore s score)).

Definition ValidateSignal (now : Z) (g : t) (runningCapital : float64) : t * (bool * string) :=
  if runningCapital <=? 0 then (g, (false, "capital_zero"%string))
  else if match volHalt g with Some v => VolatilityHalt.IsHalted v | None => false end
  then (g, (false, "volatility_halt"%string))
  else if backtestSkipRateLimit g then (g, (true, ""%string))
  else match rateLimit g with
       | None => (g, (true, ""%string))
       | Some l =>
           let '(l', ok) := OrderRateLimiter.Allow now l "signal" in
           let g' := mk (volHalt g) (sizer g) (exposure g) (Some l') (backtestSkipRateLimit g) in
           if ok then (g', (true, ""%string)) else (g', (false, "rate_limited"%string))
       end.

Definition ApplySizing (g : t) (baseSize runningCapital confidence : float64) : float64 :=
  if (baseSize <=? 0) || (runningCapital <=? 0) then 0
  else match sizer g with
       | None => baseSize
       | Some s => ComputeSizeUncapped s confidence baseSize 0
       end.

Definition CheckExposure (g : t) (symbol side : string) (notional : float64) : bool * string :=
  match exposure g with
  | None => (true, ""%string)
  | Some e => ExposureTracker.CheckOrder e symbol side notional
  end.

Definition withExposure (g : t) (e : ExposureTracker.t) : t :=
  mk (volHalt g) (sizer g) (Some e) (rateLimit g) (backtestSkipRateLimit g).

Definition RecordExposure (g : t) (symbol side : string) (notional : float64) : t :=
  match exposure g with
  | None => g
  | Some e => withExposure g (ExposureTracker.AddPosition e symbol side notional)
  end.

Definition RemoveExposure (g : t) (symbol side : string) (notional : float64) : t :=
  match exposure g with
  | None => g
  | Some e => withExposure g (ExposureTracker.RemovePosition e symbol side notional)
  end.

Definition clamp (v lo hi : float64) : float64 :=
  if v <? lo then lo else if v >? hi then hi else v.

Definition ApplyPWin (g : t) (baseSize pWin : float64) : float64 :=
  if pWin <=? 0 then 0 else baseSize * clamp (pWin * 1.5) 0 1.0.

(** The sizer, when present, rounds to no lots and uses no amplifying score. *)
Definition wf (g : t) : Prop :=
  forall s, sizer g = Some s -> (lotSize s <=? 0) = true /\ regime_attenuates s.
End SignalGateImpl.

#[export] Instance signal_gate_impl : SignalGate SignalGateImpl.t := {
  ValidateSignal := SignalGateImpl.ValidateSignal;
  ApplySizing := SignalGateImpl.ApplySizing;
  CheckExposure := SignalGateImpl.CheckExposure;
  RecordExposure := SignalGateImpl.RecordExposure;
  RemoveExposure := SignalGateImpl.RemoveExposure
}.

Section Laws.
Import SignalGateImpl.

Lemma ValidateSignal_sizer now g c : sizer (ValidateSignal now g c).1 = sizer g.
Proof.
  unfold ValidateSignal. by repeat (case_match; simplify_eq/=).
Qed.

Lemma RecordExposure_sizer g a b n : sizer (RecordExposure g a b n) = sizer g.
Proof. unfold RecordExposure. by destruct (exposure g). Qed.

Lemma RemoveExposure_sizer g a b n : sizer (RemoveExposure g a b n) = sizer g.
Proof. unfold RemoveExposure. by destruct (exposure g). Qed.

Lemma sizing_attenuated g base c conf :
  wf g -> pos0 base -> (0 <=? conf) = true -> attenuated base (ApplySizing g base c conf).
Proof.
  intros W Pb Hc. unfold ApplySizing. destruct (_ || _)%bool; [by apply attenuated_zero|].
  destruct (sizer g) as [s|] eqn:E; [|by apply attenuated_refl].
  destruct (W s E) as [Hl Hr].
  destruct (applyMultipliers_attenuated s conf base 0 Pb Hr Hc) as [Pa La].
  unfold ComputeSizeUncapped. destruct (Max0_pos0 _ Pa) as [Pm Vm].
  destruct (RoundToLotSize_off _ (lotSize s) Pm Hl) as [Pl Vl]. split; [done|lia].
Qed.

#[export] Instance signal_gate_laws : SignalGateLaws SignalGateImpl.t.
Proof.
  refine {| sg_wf := wf |}; cbn.
  - intros now s c W z. rewrite ValidateSignal_sizer. apply W.
  - intros s a b n W z. rewrite RecordExposure_sizer. apply W.
  - intros s a b n W z. rewrite RemoveExposure_sizer. apply W.
  - intros now s c H. unfold ValidateSignal. by rewrite H.
  - intros. by apply sizing_attenuated.
Defined.
End Laws.

Definition defaultGate : SignalGateImpl.t :=
  SignalGateImpl.NewSignalGateImpl (Some (VolatilityHalt.NewVolatilityHalt 3))
    (Some (NewPositionSizer None))
    (Some (ExposureTracker.SetEquity (ExposureTracker.NewExposureTracker 4 2) 100000))
    (Some (OrderRateLimiter.NewOrderRateLimiter (of_Z 10))).

Lemma defaultGate_wf : SignalGateImpl.wf defaultGate.
Proof. intros s [= <-]. split; [reflexivity|]. intros H. discriminate H. Qed.

(** the gate's verdict, in the order of its checks: capital first, then the
    volatility halt, then the rate limiter, which is charged only when the first
    two pass and never in backtest mode; the probability-of-win sizing stays
    within the base size. *)
Theorem ValidateSignal_order now g c base pWin :
  pos0 base -> fnan (pWin * 1.5) = false ->
  let '(g', (ok, reason)) := SignalGateImpl.ValidateSignal now g c in
  ok = (negb (c <=? 0) &&
        negb (match SignalGateImpl.volHalt g with
              | Some v => VolatilityHalt.IsHalted v | None => false end) &&
        (SignalGateImpl.backtestSkipRateLimit g ||
         match SignalGateImpl.rateLimit g with
         | Some l => (OrderRateLimiter.Allow now l "signal").2 | None => true end))%bool /\
  (SignalGateImpl.backtestSkipRateLimit g = true \/ reason = "capital_zero"%string \/
   reason = "volatility_halt"%string -> g' = g) /\
  attenuated base (SignalGateImpl.ApplyPWin g base pWin).
Proof.
  intros Pb Nw.
  assert (A : attenuated base (SignalGateImpl.ApplyPWin g base pWin)).
  { unfold SignalGateImpl.ApplyPWin, SignalGateImpl.clamp.
    destruct (pWin <=? 0); [by apply attenuated_zero|].
    apply attenuated_mul; [|by apply attenuated_refl].
    destruct (pWin * 1.5 <? 0) eqn:E1; [by apply unit0_lit|].
    destruct (1 <? pWin * 1.5) eqn:E2; [apply unit0_lit; vm_compute; reflexivity|].
    apply ltb_false in E1; [|done..]. apply ltb_false in E2; [|done..].
    rewrite fv_zero_lit in E1. rewrite fv_one in E2. split; [|done].
    by apply (ffin_between 0 _ 1); rewrite ?fv_zero_lit, ?fv_one. }
  destruct (SignalGateImpl.ValidateSignal now g c) as [g' [ok reason]] eqn:V.
  assert (G : (c <=? 0) = true \/ (c <=? 0) = false) by (destruct (c <=? 0); tauto).
  unfold SignalGateImpl.ValidateSignal in V.
  destruct G as [G|G]; rewrite G in *; [by simplify_eq|].
  destruct (match SignalGateImpl.volHalt g with Some v => _ | None => false end); [by simplify_eq|].
  destruct (SignalGateImpl.backtestSkipRateLimit g); [by simplify_eq|].
  destruct (SignalGateImpl.rateLimit g) as [l|]; [|by simplify_eq].
  destruct (OrderRateLimiter.Allow now l "signal") as [l' []]; simplify_eq;
    (split; [done|]); (split; [|done]); intros [H|[H|H]]; discriminate H.
Qed.

Lemma ValidateSignal_order_witness :
  attenuated 100 (SignalGateImpl.ApplyPWin defaultGate 100 0.6) /\
  (SignalGateImpl.ValidateSignal 5 defaultGate 50000).2.1 = true.
Proof.
  assert (P : pos0 100) by (split; [reflexivity|apply Z.leb_le; vm_compute; reflexivity]).
  pose proof (ValidateSignal_order 5 defaultGate 50000 100 0.6 P eq_refl) as H.
  destruct (SignalGateImpl.ValidateSignal 5 defaultGate 50000) as [g' [ok reason]] eqn:E.
  destruct H as (_ & _ & H). split; [exact H|].
  apply (f_equal (fun x => x.2.1)) in E. cbn [fst snd] in E |- *. rewrite <- E.
  vm_compute. reflexivity.
Defined.
