(* ===== verification/Enforcer.v ===== *)
(** * The backtest prop-firm enforcer ([internal/backtest/propfirm_enforcer.go])

    [PropFirmEnforcer], its checks and its [PropFirmGate] adapter; the live
    [Manager] of PropFirm.v gets its instance here too.  [now] is [time.Now()]
    in nanoseconds. *)
From Stdlib Require Import ZArith Lia Bool Floats.
From S2P Require Import Prelude Float64 FloatRound FloatLaws PropFirm Sizing Gates.
Import GoInt.
Local Open Scope float_scope.
Local Open Scope go_scope.

Record RuleBreach := mkBreach {
  Date : Z; Code : string; Value : float64; Limit : float64; Action : string
}.

Module PropFirmEnforcer.
Record t := mk {
  DailyLossLimitPct : float64;
  SoftHaltThresholdPct : float64;
  HardHaltThresholdPct : float64;
  MaxDrawdownPct : float64;
  MaxPositionPct : float64;
  ConsistencyThreshold : float64;
  ConsistencySizeMult : float64;
  StartingBalance : float64;
  CurrentBalance : float64;
  DayStartingBalance : float64;
  PeakBalance : float64;
  DailyPnL : float64;
  DailyPnLPct : float64;
  CumulativePnL : float64;
  halted : bool;
  softHalted : bool;
  haltReason : string;
  ConsistencyMultiplier : float64;
  CurrentRegime : Z;
  RegimeSizeMultipliers : list float64;
  DailyBreaches : list RuleBreach;
  ProfitTargetPct : float64;
  MinTradingDays : Z;
  TradingDays : Z;
  profitTargetMet : bool;
  NewsTradingRestricted : bool;
  currentPhase : Z
}.

Definition NewPropFirmEnforcerFromProfile (p : option Profile) (startingBalance : float64) : t :=
  let p := default DefaultProfile p in
  {| DailyLossLimitPct := MaxDailyLossPct p;
     SoftHaltThresholdPct := PropFirm.SoftHaltThresholdPct p;
     HardHaltThresholdPct := PropFirm.HardHaltThresholdPct p;
     MaxDrawdownPct := PropFirm.MaxDrawdownPct p;
     MaxPositionPct := PropFirm.MaxPositionPct p;
     ConsistencyThreshold := ConsistencyThresholdPct p;
     ConsistencySizeMult := ConsistencyPenalty p;
     StartingBalance := startingBalance; CurrentBalance := startingBalance;
     DayStartingBalance := startingBalance; PeakBalance := startingBalance;
     DailyPnL := 0; DailyPnLPct := 0; CumulativePnL := 0;
     halted := false; softHalted := false; haltReason := "";
     ConsistencyMultiplier := 1.0; CurrentRegime := 0;
     RegimeSizeMultipliers := RegimeMultipliers p; DailyBreaches := [];
     ProfitTargetPct := ProfitTargetPctPhase1 p; MinTradingDays := PropFirm.MinTradingDays p;
     TradingDays := 0; profitTargetMet := false;
     NewsTradingRestricted := negb (NewsTradingAllowed p); currentPhase := 1 |}.

Definition DefaultPropFirmEnforcer (startingBalance : float64) : t :=
  NewPropFirmEnforcerFromProfile (Some DefaultProfile) startingBalance.

(** Field updates, one per group of fields the methods assign together. *)
Definition setHalt (f : t) (h s : bool) (reason : string) : t :=
  mk (DailyLossLimitPct f) (SoftHaltThresholdPct f) (HardHaltThresholdPct f) (MaxDrawdownPct f)
    (MaxPositionPct f) (ConsistencyThreshold f) (ConsistencySizeMult f) (StartingBalance f)
    (CurrentBalance f) (DayStartingBalance f) (PeakBalance f) (DailyPnL f) (DailyPnLPct f)
    (CumulativePnL f) h s reason (ConsistencyMultiplier f) (CurrentRegime f)
    (RegimeSizeMultipliers f) (DailyBreaches f) (ProfitTargetPct f) (MinTradingDays f)
    (TradingDays f) (profitTargetMet f) (NewsTradingRestricted f) (currentPhase f).

Definition setDailyPct (f : t) (pct : float64) : t :=
  mk (DailyLossLimitPct f) (SoftHaltThresholdPct f) (HardHaltThresholdPct f) (MaxDrawdownPct f)
    (MaxPositionPct f) (ConsistencyThreshold f) (ConsistencySizeMult f) (StartingBalance f)
    (CurrentBalance f) (DayStartingBalance f) (PeakBalance f) (DailyPnL f) pct
    (CumulativePnL f) (halted f) (softHalted f) (haltReason f) (ConsistencyMultiplier f)
    (CurrentRegime f) (RegimeSizeMultipliers f) (DailyBreaches f) (ProfitTargetPct f)
    (MinTradingDays f) (TradingDays f) (profitTargetMet f) (NewsTradingRestricted f) (currentPhase f).

Definition setPeak (f : t) (peak : float64) : t :=
  mk (DailyLossLimitPct f) (SoftHaltThresholdPct f) (HardHaltThresholdPct f) (MaxDrawdownPct f)
    (MaxPositionPct f) (ConsistencyThreshold f) (ConsistencySizeMult f) (StartingBalance f)
    (CurrentBalance f) (DayStartingBalance f) peak (DailyPnL f) (DailyPnLPct f)
    (CumulativePnL f) (halted f) (softHalted f) (haltReason f) (ConsistencyMultiplier f)
    (CurrentRegime f) (RegimeSizeMultipliers f) (DailyBreaches f) (ProfitTargetPct f)
    (MinTradingDays f) (TradingDays f) (profitTargetMet f) (NewsTradingRestricted f) (currentPhase f).

Definition addBreach (f : t) (mult : float64) (b : RuleBreach) : t :=
  mk (DailyLossLimitPct f) (SoftHaltThresholdPct f) (HardHaltThresholdPct f) (MaxDrawdownPct f)
    (MaxPositionPct f) (ConsistencyThreshold f) (ConsistencySizeMult f) (StartingBalance f)
    (CurrentBalance f) (DayStartingBalance f) (PeakBalance f) (DailyPnL f) (DailyPnLPct f)
    (CumulativePnL f) (halted f) (softHalted f) (haltReason f) mult
    (CurrentRegime f) (RegimeSizeMultipliers f) (DailyBreaches f ++ [b]) (ProfitTargetPct f)
    (MinTradingDays f) (TradingDays f) (profitTargetMet f) (NewsTradingRestricted f) (currentPhase f).

Definition setTargetMet (f : t) : t :=
  mk (DailyLossLimitPct f) (SoftHaltThresholdPct f) (HardHaltThresholdPct f) (MaxDrawdownPct f)
    (MaxPositionPct f) (ConsistencyThreshold f) (ConsistencySizeMult f) (StartingBalance f)
    (CurrentBalance f) (DayStartingBalance f) (PeakBalance f) (DailyPnL f) (DailyPnLPct f)
    (CumulativePnL f) (halted f) (softHalted f) (haltReason f) (ConsistencyMultiplier f)
    (CurrentRegime f) (RegimeSizeMultipliers f) (DailyBreaches f) (ProfitTargetPct f)
    (MinTradingDays f) (TradingDays f) true (NewsTradingRestricted f) (currentPhase f).

Definition dayStart (f : t) : float64 :=
  if DayStartingBalance f <=? 0 then StartingBalance f else DayStartingBalance f.
Definition hardLimit (f : t) : float64 :=
  if HardHaltThresholdPct f <=? 0 then DailyLossLimitPct f else HardHaltThresholdPct f.
Definition softLimit (f : t) : float64 :=
  if SoftHaltThresholdPct f <=? 0 then hardLimit f * 0.9 else SoftHaltThresholdPct f.

Definition CheckDailyLoss (now : Z) (f : t) : t * bool :=
  if dayStart f <=? 0 then (f, true)
  else
    let dailyChange := DailyLossPct (dayStart f) (CurrentBalance f) in
    let f1 := setDailyPct f dailyChange in
    if DailyLossExceeded (dayStart f) (CurrentBalance f) (hardLimit f)
    then (addBreach (setHalt f1 true true "daily_loss_limit_hard") (ConsistencyMultiplier f)
            (mkBreach now "DAILY_DD_HARD" dailyChange (- hardLimit f) "halted"), false)
    else if DailyLossExceeded (dayStart f) (CurrentBalance f) (softLimit f)
    then (addBreach (setHalt f1 (halted f) true (haltReason f)) (ConsistencyMultiplier f)
            (mkBreach now "DAILY_DD_SOFT" dailyChange (- softLimit f) "size_reduced"), true)
    else (f1, true).

Definition CheckDrawdown (f : t) : t * bool :=
  let f1 := if CurrentBalance f >? PeakBalance f then setPeak f (CurrentBalance f) else f in
  if PeakBalance f1 <=? 0 then (f1, true)
  else if DrawdownExceeded (PeakBalance f1) (CurrentBalance f1) (MaxDrawdownPct f1)
  then (setHalt f1 true (softHalted f1) "max_drawdown", false)
  else (f1, true).

Definition CheckConsistency (now : Z) (f : t) : t * bool :=
  if ConsistencyBreached (DailyPnLPct f) (ConsistencyThreshold f)
  then (addBreach f (ConsistencySizeMult f)
          (mkBreach now "CONSISTENCY" (DailyPnLPct f) (ConsistencyThreshold f) "size_reduced"), false)
  else (f, true).

Definition GetRegimeMultiplier (f : t) : float64 :=
  if Z.ltb (CurrentRegime f) 0 || Z.ltb 3 (CurrentRegime f) then 1.0
  else nth (Z.to_nat (CurrentRegime f)) (RegimeSizeMultipliers f) 0 * ConsistencyMultiplier f.

Definition CheckProfitTarget (f : t) : t * bool :=
  if StartingBalance f <=? 0 then (f, false)
  else
    let totalReturn := CumulativePnL f / StartingBalance f * 100.0 in
    if (totalReturn >=? ProfitTargetPct f) && Z.leb (MinTradingDays f) (TradingDays f)
    then (setTargetMet f, true) else (f, false).

Definition addPnL (f : t) (pnl : float64) : t :=
  mk (DailyLossLimitPct f) (SoftHaltThresholdPct f) (HardHaltThresholdPct f) (MaxDrawdownPct f)
    (MaxPositionPct f) (ConsistencyThreshold f) (ConsistencySizeMult f) (StartingBalance f)
    (CurrentBalance f + pnl) (DayStartingBalance f) (PeakBalance f) (DailyPnL f + pnl)
    (DailyPnLPct f) (CumulativePnL f + pnl) (halted f) (softHalted f) (haltReason f)
    (ConsistencyMultiplier f) (CurrentRegime f) (RegimeSizeMultipliers f) (DailyBreaches f)
    (ProfitTargetPct f) (MinTradingDays f) (TradingDays f) (profitTargetMet f)
    (NewsTradingRestricted f) (currentPhase f).

Definition OnFill (now : Z) (f : t) (pnl balance : float64) : t :=
  let f := addPnL f pnl in
  let f := (CheckDailyLoss now f).1 in
  let f := (CheckDrawdown f).1 in
  let f := (CheckConsistency now f).1 in
  (CheckProfitTarget f).1.

(** The new day: one more trading day, the target re-checked, the day's figures reset. *)
Definition addDay (f : t) : t :=
  mk (DailyLossLimitPct f) (SoftHaltThresholdPct f) (HardHaltThresholdPct f)
    (MaxDrawdownPct f) (MaxPositionPct f) (ConsistencyThreshold f) (ConsistencySizeMult f)
    (StartingBalance f) (CurrentBalance f) (DayStartingBalance f) (PeakBalance f) (DailyPnL f)
    (DailyPnLPct f) (CumulativePnL f) (halted f) (softHalted f) (haltReason f)
    (ConsistencyMultiplier f) (CurrentRegime f) (RegimeSizeMultipliers f) (DailyBreaches f)
    (ProfitTargetPct f) (MinTradingDays f) (i64 (TradingDays f + 1)) (profitTargetMet f)
    (NewsTradingRestricted f) (currentPhase f).

Definition startDay (f : t) : t :=
  mk (DailyLossLimitPct f) (SoftHaltThresholdPct f) (HardHaltThresholdPct f)
    (MaxDrawdownPct f) (MaxPositionPct f) (ConsistencyThreshold f) (ConsistencySizeMult f)
    (StartingBalance f) (CurrentBalance f) (CurrentBalance f) (PeakBalance f) 0
    0 (CumulativePnL f) (halted f) (softHalted f) (haltReason f)
    1.0 (CurrentRegime f) (RegimeSizeMultipliers f) (DailyBreaches f)
    (ProfitTargetPct f) (MinTradingDays f) (TradingDays f) (profitTargetMet f)
    (NewsTradingRestricted f) (currentPhase f).

Definition OnNewDay (f : t) : t := startDay (CheckProfitTarget (addDay f)).1.

Definition GetPositionSize (f : t) (baseQuantity : float64) : float64 :=
  if CurrentBalance f <=? 0 then 0
  else
    let maxSize := CurrentBalance f * MaxPositionPct f / 100.0 in
    let adjusted := baseQuantity * GetRegimeMultiplier f in
    if adjusted >? maxSize then maxSize else adjusted.

(** The wall-clock hour and minute of the timestamp. *)
Definition CheckNewsTrading (f : t) (hour minute : Z) : bool :=
  if negb (NewsTradingRestricted f) then true
  else if Z.eqb hour 8 && Z.leb 30 minute && Z.leb minute 35 then false
  else if Z.eqb hour 10 && Z.leb 0 minute && Z.leb minute 5 then false
  else if Z.eqb hour 14 && Z.leb 0 minute && Z.leb minute 5 then false
  else true.

Definition AdvancePhase (f : t) : t :=
  mk (DailyLossLimitPct f) (SoftHaltThresholdPct f) (HardHaltThresholdPct f)
    (MaxDrawdownPct f) (MaxPositionPct f) (ConsistencyThreshold f) (ConsistencySizeMult f)
    (StartingBalance f) (CurrentBalance f) (DayStartingBalance f) (CurrentBalance f) 0
    0 0 (halted f) (softHalted f) (haltReason f)
    1.0 (CurrentRegime f) (RegimeSizeMultipliers f) (DailyBreaches f)
    (ProfitTargetPct f) (MinTradingDays f) 0 false
    (NewsTradingRestricted f) (i64 (currentPhase f + 1)).

Definition TotalReturnPct (f : t) : float64 :=
  if StartingBalance f <=? 0 then 0 else CumulativePnL f / StartingBalance f * 100.0.

Definition maxDailyLossObserved (f : t) : float64 :=
  fold_left (fun worst b =>
    if bool_decide (Code b = "DAILY_DD"%string) && (Value b <? worst) then Value b else worst)
    (DailyBreaches f) 0.0.

Record ComplianceReport := mkReport {
  Passed : bool; RepHaltReason : string; FinalBalance : float64; RepPeakBalance : float64;
  MaxDailyLoss : float64; NumBreaches : Z; Breaches : list RuleBreach; RepTotalReturn : float64;
  RepTargetMet : bool; RepTradingDays : Z; RepMinTradingDays : Z; RepPhase : Z
}.

Definition Summary (f : t) : ComplianceReport :=
  mkReport (negb (halted f)) (haltReason f) (CurrentBalance f) (PeakBalance f)
    (maxDailyLossObserved f) (Z.of_nat (length (DailyBreaches f))) (DailyBreaches f)
    (TotalReturnPct f) (profitTargetMet f) (TradingDays f) (MinTradingDays f) (currentPhase f).

Definition CheckDailyLimits (now : Z) (f : t) : t * (bool * string) :=
  let '(f, ok) := CheckDailyLoss now f in
  if ok then (f, (false, "daily_loss"%string))
  else
    let '(f, ok) := CheckDrawdown f in
    if ok then (f, (false, "max_drawdown"%string))
    else (f, (true, ""%string)).

Definition MarkViolated (f : t) (reason : string) : t := setHalt f true (softHalted f) reason.
Definition IsHalted (f : t) : bool := halted f.
Definition IsSoftHalted (f : t) : bool := softHalted f && negb (halted f).
Definition SoftHaltMultiplier (f : t) : float64 := if IsSoftHalted f then 0.5 else 1.0.
Definition HaltReason (f : t) : string := haltReason f.
Definition CurrentPhase (f : t) : Z := currentPhase f.
Definition ProfitTargetMet (f : t) : bool := profitTargetMet f.
End PropFirmEnforcer.

#[export] Instance enforcer_gate : PropFirmGate PropFirmEnforcer.t := {
  CheckDailyLimits := PropFirmEnforcer.CheckDailyLimits;
  OnFill := PropFirmEnforcer.OnFill;
  OnNewDay := PropFirmEnforcer.OnNewDay;
  IsHalted := PropFirmEnforcer.IsHalted;
  PFHaltReason := PropFirmEnforcer.HaltReason;
  MarkViolated := PropFirmEnforcer.MarkViolated;
  CurrentPhase := PropFirmEnforcer.CurrentPhase;
  ProfitTargetMet := PropFirmEnforcer.ProfitTargetMet;
  GetPositionSize := PropFirmEnforcer.GetPositionSize;
  SoftHalt := Some (PropFirmEnforcer.IsSoftHalted, PropFirmEnforcer.SoftHaltMultiplier)
}.

(** The live manager reads no clock and has no soft halt. *)
#[export] Instance manager_gate : PropFirmGate Manager.t := {
  CheckDailyLimits _ m := (m, Manager.CheckDailyLimits m);
  OnFill _ m pnl bal := Manager.OnFill m pnl bal;
  OnNewDay := Manager.OnNewDay;
  IsHalted := Manager.IsHalted;
  PFHaltReason := Manager.HaltReason;
  MarkViolated := Manager.MarkViolated;
  CurrentPhase := Manager.GetCurrentPhase;
  ProfitTargetMet := Manager.ProfitTargetMet;
  GetPositionSize := Manager.GetPositionSize;
  SoftHalt := None
}.

(** ** Lawfulness of the two gates *)
Section EnforcerLaws.
Import PropFirmEnforcer.

(** Multipliers in [0,1] and a non-negative position limit; true of the default
    profile and never changed by the methods. *)
Definition enforcer_wf (f : t) : Prop :=
  Forall unit0 (RegimeSizeMultipliers f) /\ unit0 (ConsistencyMultiplier f) /\
  unit0 (ConsistencySizeMult f) /\ pos0 (MaxPositionPct f).

(** What the checks leave alone, and what they may only raise. *)
Definition checked (f f' : t) : Prop :=
  RegimeSizeMultipliers f' = RegimeSizeMultipliers f /\
  (ConsistencyMultiplier f' = ConsistencyMultiplier f \/
   ConsistencyMultiplier f' = ConsistencySizeMult f \/ ConsistencyMultiplier f' = 1) /\
  ConsistencySizeMult f' = ConsistencySizeMult f /\ MaxPositionPct f' = MaxPositionPct f /\
  MaxDrawdownPct f' = MaxDrawdownPct f /\
  (halted f = true -> halted f' = true) /\ (softHalted f = true -> softHalted f' = true) /\
  (forall b, b ∈ DailyBreaches f' -> b ∈ DailyBreaches f \/ Code b <> "DAILY_DD"%string).

#[export] Instance checked_preorder : PreOrder checked.
Proof.
  split.
  - intros f. repeat split; auto.
  - intros f1 f2 f3 (A1&B1&C1&D1&M1&E1&F1&G1) (A2&B2&C2&D2&M2&E2&F2&G2).
    repeat split; try congruence; auto.
    + rewrite C1 in B2. destruct B2 as [->|B2]; [done|tauto].
    + intros b [H|H]%G2; auto.
Qed.

Lemma CheckDailyLoss_checked now f : checked f (CheckDailyLoss now f).1.
Proof.
  unfold CheckDailyLoss. destruct (dayStart f <=? 0); [reflexivity|].
  destruct (DailyLossExceeded _ _ (hardLimit f)); [|destruct (DailyLossExceeded _ _ (softLimit f))];
    repeat split; auto; cbn; intros b [H| ->]%elem_of_snoc; auto; right; discriminate.
Qed.

Lemma CheckDrawdown_checked f : checked f (CheckDrawdown f).1.
Proof.
  unfold CheckDrawdown. destruct (PeakBalance f <? CurrentBalance f);
    (destruct (_ <=? 0); [|destruct (DrawdownExceeded _ _ _)]); repeat split; auto.
Qed.

Lemma CheckConsistency_checked now f : checked f (CheckConsistency now f).1.
Proof.
  unfold CheckConsistency. destruct (ConsistencyBreached _ _); [|reflexivity].
  repeat split; auto. cbn. intros b [H| ->]%elem_of_snoc; auto; right; discriminate.
Qed.

Lemma CheckProfitTarget_checked f : checked f (CheckProfitTarget f).1.
Proof.
  unfold CheckProfitTarget. destruct (_ <=? 0); [reflexivity|].
  destruct (_ && _)%bool; repeat split; auto.
Qed.

Lemma CheckDailyLimits_checked now f : checked f (CheckDailyLimits now f).1.
Proof.
  unfold CheckDailyLimits. pose proof (CheckDailyLoss_checked now f) as H.
  destruct (CheckDailyLoss now f) as [f1 []]; [done|].
  pose proof (CheckDrawdown_checked f1) as H1. destruct (CheckDrawdown f1) as [f2 []];
    cbn in *; by transitivity f1.
Qed.

Lemma OnFill_checked now f pnl bal : checked f (OnFill now f pnl bal).
Proof.
  unfold OnFill. transitivity (addPnL f pnl); [repeat split; auto|].
  etransitivity; [|apply CheckProfitTarget_checked].
  etransitivity; [|apply CheckConsistency_checked].
  etransitivity; [|apply CheckDrawdown_checked]. apply CheckDailyLoss_checked.
Qed.

Lemma OnNewDay_checked f : checked f (OnNewDay f).
Proof.
  unfold OnNewDay. transitivity (addDay f); [repeat split; auto|].
  transitivity ((CheckProfitTarget (addDay f)).1); [apply CheckProfitTarget_checked|].
  generalize ((CheckProfitTarget (addDay f)).1). intros h. repeat split; cbn; auto.
Qed.

Lemma MarkViolated_checked f r : checked f (MarkViolated f r).
Proof. repeat split; auto. Qed.

Lemma checked_wf f f' : checked f f' -> enforcer_wf f -> enforcer_wf f'.
Proof.
  intros (E1 & E2 & E3 & E4 & _) (W1 & W2 & W3 & W4). unfold enforcer_wf.
  rewrite E1, E3, E4. split; [exact W1|]. split; [|split; [exact W3|exact W4]].
  destruct E2 as [->|[->| ->]]; [exact W2|exact W3|].
  apply unit0_lit. vm_compute. reflexivity.
Qed.

Lemma enforcer_size_bounded f q : enforcer_wf f -> pos0 q -> attenuated q (GetPositionSize f q).
Proof.
  intros (W1 & W2 & W3 & W4) Pq. unfold GetPositionSize.
  destruct (CurrentBalance f <=? 0) eqn:Eb; [by apply attenuated_zero|].
  assert (Um : unit0 (GetRegimeMultiplier f)).
  { unfold GetRegimeMultiplier. destruct (_ || _)%bool; [apply unit0_lit; vm_compute; reflexivity|].
    apply unit0_mul; [by apply nth_unit|exact W2]. }
  assert (Aq : attenuated q (q * GetRegimeMultiplier f))
    by (apply attenuated_mul; [done|by apply attenuated_refl]).
  cbv zeta. set (m := CurrentBalance f * MaxPositionPct f / 100).
  destruct (m <? q * GetRegimeMultiplier f) eqn:E; [|done].
  eapply attenuated_trans; [exact Aq|]. apply attenuated_cap; [apply Aq|done|].
  apply ltb_true in E as (Nm & _). apply pct_nneg; try done.
  destruct (fnan (CurrentBalance f)) eqn:Nb; [|done].
  unfold m in Nm. by rewrite (div_nan _ _ (mul_nan _ _ Nb)) in Nm.
Qed.

#[export] Instance enforcer_laws : PropFirmGateLaws PropFirmEnforcer.t.
Proof.
  refine {| pf_wf := enforcer_wf |}.
  - intros. eapply checked_wf; [apply OnFill_checked|done].
  - intros. eapply checked_wf; [apply OnNewDay_checked|done].
  - intros. eapply checked_wf; [apply MarkViolated_checked|done].
  - intros. eapply checked_wf; [apply CheckDailyLimits_checked|done].
  - intros now p pnl bal. apply OnFill_checked.
  - intros p. apply OnNewDay_checked.
  - intros now p. apply CheckDailyLimits_checked.
  - done.
  - intros. by apply enforcer_size_bounded.
  - intros h m p [= <- <-]. unfold SoftHaltMultiplier.
    destruct (IsSoftHalted p); apply unit0_lit; vm_compute; reflexivity.
Defined.

Lemma default_enforcer_wf b : enforcer_wf (DefaultPropFirmEnforcer b).
Proof.
  split; [|split; [|split]]; cbn;
    [repeat constructor; (reflexivity || (apply Z.leb_le; vm_compute; reflexivity))|..];
    try (apply unit0_lit; vm_compute; reflexivity).
  split; [reflexivity|]. apply Z.leb_le. vm_compute. reflexivity.
Qed.
End EnforcerLaws.

Section ManagerLaws.
Import Manager.

(** Non-negative starting balance, multiplier and profile settings. *)
Definition manager_wf (m : Manager.t) : Prop :=
  pos0 (StartingBalance (state m)) /\ pos0 (ConsistencyMult (state m)) /\
  map_Forall (fun _ p => pos0 (ConsistencyPenalty p) /\ ffin (PropFirm.MaxPositionPct p) = true)
    (profiles m).

Lemma DailyReset_wf m : manager_wf m -> manager_wf (DailyReset m).
Proof.
  intros (W1 & W2 & W3). unfold manager_wf, DailyReset. cbn. split; [done|]. split; [|done].
  destruct (profiles m !! active m) as [p|] eqn:E; [|apply pos0_one].
  destruct (_ && _)%bool; [|apply pos0_one]. by apply (W3 _ _ E).
Qed.

Lemma manager_size_bounded m q : manager_wf m -> pos0 q -> attenuated q (GetPositionSize m q).
Proof.
  intros (W1 & W2 & W3) Pq. unfold GetPositionSize.
  destruct (profiles m !! active m) as [p|] eqn:E; [|by apply attenuated_refl].
  destruct (W3 _ _ E) as [_ Fp].
  destruct (PropFirm.MaxPositionPct p <=? 0) eqn:Ep; [by apply attenuated_refl|].
  destruct (q <=? 0) eqn:Eq; [by apply attenuated_zero|].
  set (mx := _ * _ * _). destruct (mx <? q) eqn:Em; [|by apply attenuated_refl].
  apply attenuated_cap; [done|done|].
  apply ltb_true in Em as (Nm & _). apply leb_false in Ep; [|by apply ffin_nan|done].
  rewrite fv_zero_lit in Ep. unfold mx in *.
  destruct (div_sign (PropFirm.MaxPositionPct p) 100 Fp eq_refl) as (Nd & Gd & _); [vm_compute; reflexivity|].
  assert (Pd : pos0 (PropFirm.MaxPositionPct p / 100)).
  { apply (div_ge1_le (PropFirm.MaxPositionPct p) 100); [split; [done|lia]|done|].
    apply Z.leb_le. vm_compute. reflexivity. }
  set (a := StartingBalance (state m) * (PropFirm.MaxPositionPct p / 100)) in *.
  destruct (mul_pos0 _ _ W1 Pd) as [Na Ha]. fold a in Na, Ha.
  apply mul_nneg; [done|done|exact W2|done].
Qed.

#[export] Instance manager_laws : PropFirmGateLaws Manager.t.
Proof.
  refine {| pf_wf := manager_wf |}; cbn.
  - intros now p pnl bal W. exact W.
  - intros p W. by apply DailyReset_wf.
  - intros p r W. exact W.
  - done.
  - done.
  - done.
  - done.
  - done.
  - intros. by apply manager_size_bounded.
  - done.
Defined.
End ManagerLaws.

(** ** Runs of the enforcer *)
Section EnforcerRuns.
Import PropFirmEnforcer.

(** What happens to an enforcer during a backtest. *)
Inductive enforcer_step : t -> t -> Prop :=
| estep_fill now f pnl bal : enforcer_step f (OnFill now f pnl bal)
| estep_day f : enforcer_step f (OnNewDay f)
| estep_check now f : enforcer_step f (CheckDailyLimits now f).1
| estep_mark f r : enforcer_step f (MarkViolated f r).

Lemma step_checked f f' : enforcer_step f f' -> checked f f'.
Proof.
  destruct 1; [apply OnFill_checked|apply OnNewDay_checked|apply CheckDailyLimits_checked
              |apply MarkViolated_checked].
Qed.

Lemma steps_checked f f' : rtc enforcer_step f f' -> checked f f'.
Proof.
  induction 1 as [f|f1 f2 f3 H _ IH]; [reflexivity|]. transitivity f2; [by apply step_checked|done].
Qed.

(** The balance is within the drawdown limit of the peak, or trading is halted. *)
Definition within_drawdown (f : t) : Prop :=
  halted f = true \/ (PeakBalance f <=? 0) = true \/
  DrawdownExceeded (PeakBalance f) (CurrentBalance f) (MaxDrawdownPct f) = false.

(** Updates that keep the figures the drawdown test reads. *)
Definition same_equity (f f' : t) : Prop :=
  PeakBalance f' = PeakBalance f /\ CurrentBalance f' = CurrentBalance f /\
  MaxDrawdownPct f' = MaxDrawdownPct f /\ (halted f = true -> halted f' = true).

Lemma within_same f f' : same_equity f f' -> within_drawdown f -> within_drawdown f'.
Proof. intros (E1 & E2 & E3 & H). unfold within_drawdown. rewrite E1, E2, E3. tauto. Qed.

Lemma CheckDailyLoss_same now f : same_equity f (CheckDailyLoss now f).1.
Proof.
  unfold CheckDailyLoss. destruct (dayStart f <=? 0); [done|].
  destruct (DailyLossExceeded _ _ (hardLimit f)); [|destruct (DailyLossExceeded _ _ (softLimit f))];
    done.
Qed.

Lemma CheckConsistency_same now f : same_equity f (CheckConsistency now f).1.
Proof. unfold CheckConsistency. by destruct (ConsistencyBreached _ _). Qed.

Lemma CheckProfitTarget_same f : same_equity f (CheckProfitTarget f).1.
Proof. unfold CheckProfitTarget. destruct (_ <=? 0); [done|]. by destruct (_ && _)%bool. Qed.

Lemma CheckDrawdown_within f : within_drawdown (CheckDrawdown f).1.
Proof.
  unfold CheckDrawdown, within_drawdown.
  set (f1 := if PeakBalance f <? CurrentBalance f then _ else f).
  destruct (PeakBalance f1 <=? 0) eqn:E; [by right; left|].
  destruct (DrawdownExceeded _ _ _) eqn:D; [by left|by right; right].
Qed.

Lemma OnFill_within now f pnl bal : within_drawdown (OnFill now f pnl bal).
Proof.
  unfold OnFill. eapply within_same; [apply CheckProfitTarget_same|].
  eapply within_same; [apply CheckConsistency_same|]. apply CheckDrawdown_within.
Qed.

Lemma step_within f f' : enforcer_step f f' -> within_drawdown f -> within_drawdown f'.
Proof.
  destruct 1 as [now f pnl bal|f|now f|f r]; intros W.
  - apply OnFill_within.
  - revert W. apply within_same. unfold OnNewDay.
    destruct (CheckProfitTarget_same (addDay f)) as (E1 & E2 & E3 & H). repeat split; cbn; auto.
  - unfold CheckDailyLimits. pose proof (CheckDailyLoss_same now f) as S.
    destruct (CheckDailyLoss now f) as [f1 []]; [by apply (within_same f)|].
    pose proof (CheckDrawdown_within f1) as D. by destruct (CheckDrawdown f1) as [f2 []].
  - by left.
Qed.

(** C3: the backtest enforcer never trades past its drawdown limit: in every
    state reachable from a within-limits one by fills, days, checks and external
    violations it is halted or within the limit of its peak; a halt and a soft
    halt are permanent, and a soft-halted account sizes at one half for good. *)
Theorem enforcer_never_trades_past_drawdown f f' :
  within_drawdown f -> rtc enforcer_step f f' ->
  within_drawdown f' /\
  (halted f = true -> halted f' = true) /\
  (softHalted f = true ->
     softHalted f' = true /\ (halted f' = false -> SoftHaltMultiplier f' = 0.5)).
Proof.
  intros W H. split.
  - induction H as [f|f1 f2 f3 H1 _ IH]; [done|]. apply IH. by apply (step_within f1).
  - destruct (steps_checked _ _ H) as (_ & _ & _ & _ & _ & Hh & Hs & _).
    split; [done|]. intros S. split; [by apply Hs|]. intros N.
    unfold SoftHaltMultiplier, IsSoftHalted. by rewrite (Hs S), N.
Qed.

(** [CheckDailyLimits] answers the wrong way round: it reports "no limit
    hit" exactly when both the hard daily-loss limit and the drawdown limit are
    exceeded, and every healthy account is reported as in breach. *)
Theorem enforcer_daily_limits_inverted now f :
  (dayStart f <=? 0) = false -> (PeakBalance f <=? 0) = false ->
  (PeakBalance f <? CurrentBalance f) = false ->
  (CheckDailyLimits now f).2.1 =
    DailyLossExceeded (dayStart f) (CurrentBalance f) (hardLimit f) &&
    DrawdownExceeded (PeakBalance f) (CurrentBalance f) (MaxDrawdownPct f) /\
  (DailyLossExceeded (dayStart f) (CurrentBalance f) (hardLimit f) = false ->
     (CheckDailyLimits now f).2 = (false, "daily_loss"%string) /\
     IsHalted (CheckDailyLimits now f).1 = IsHalted f).
Proof.
  intros Hd Hp Hc. unfold CheckDailyLimits, CheckDailyLoss. rewrite Hd.
  destruct (DailyLossExceeded _ _ (hardLimit f)).
  - split; [|done]. unfold CheckDrawdown. cbn -[DrawdownExceeded DailyLossPct]. rewrite Hc.
    cbn -[DrawdownExceeded DailyLossPct]. rewrite Hp.
    by destruct (DrawdownExceeded _ _ _).
  - split; [by destruct (DailyLossExceeded _ _ (softLimit f))|]. intros _.
    by destruct (DailyLossExceeded _ _ (softLimit f)).
Qed.

(** The compliance report never shows a daily loss: no operation records a
    breach under the code "DAILY_DD" that [maxDailyLossObserved] looks for, so
    from a fresh enforcer the reported figure is 0 whatever was lost. *)
Theorem compliance_report_hides_daily_loss p b f :
  rtc enforcer_step (NewPropFirmEnforcerFromProfile p b) f ->
  MaxDailyLoss (Summary f) = 0 /\ NumBreaches (Summary f) = Z.of_nat (length (DailyBreaches f)).
Proof.
  intros H. split; [|done].
  destruct (steps_checked _ _ H) as (_ & _ & _ & _ & _ & _ & _ & HB).
  assert (A : forall x, x ∈ DailyBreaches f -> Code x <> "DAILY_DD"%string).
  { intros x Hx. destruct (HB x Hx) as [H0|]; [|done]. by apply elem_of_nil in H0. }
  cbn. unfold maxDailyLossObserved. clear H HB. revert A.
  generalize (DailyBreaches f). intros l. induction l as [|x l IH]; intros A; [done|]. cbn.
  rewrite bool_decide_false by (apply A; set_solver). cbn. apply IH. intros y Hy. apply A. set_solver.
Qed.
End EnforcerRuns.

(** An account that loses 6% in a day: halted, and reported with no daily loss. *)
Definition losing_day : PropFirmEnforcer.t :=
  PropFirmEnforcer.OnFill 7 (PropFirmEnforcer.DefaultPropFirmEnforcer 100000) (-6000) 94000.

Lemma enforcer_never_trades_past_drawdown_witness :
  within_drawdown losing_day /\ PropFirmEnforcer.halted losing_day = true.
Proof.
  assert (W : within_drawdown (PropFirmEnforcer.DefaultPropFirmEnforcer 100000))
    by (right; right; vm_compute; reflexivity).
  destruct (enforcer_never_trades_past_drawdown _ losing_day W) as (R & _);
    [apply rtc_once, estep_fill|].
  split; [exact R|]. vm_compute. reflexivity.
Defined.

Lemma enforcer_daily_limits_inverted_witness :
  (PropFirmEnforcer.CheckDailyLimits 1 (PropFirmEnforcer.DefaultPropFirmEnforcer 100000)).2 =
    (false, "daily_loss"%string).
Proof.
  destruct (enforcer_daily_limits_inverted 1 (PropFirmEnforcer.DefaultPropFirmEnforcer 100000))
    as [_ H]; [vm_compute; reflexivity..|].
  apply H. vm_compute. reflexivity.
Defined.

Lemma compliance_report_hides_daily_loss_witness :
  PropFirmEnforcer.MaxDailyLoss (PropFirmEnforcer.Summary losing_day) = 0 /\
  PropFirmEnforcer.DailyPnLPct losing_day = (-6)%float.
Proof.
  destruct (compliance_report_hides_daily_loss (Some DefaultProfile) 100000 losing_day) as [H _];
    [apply rtc_once, estep_fill|].
  split; [exact H|]. vm_compute. reflexivity.
Defined.
