(* ===== verification/CapitalPool.v ===== *)
(** * The live capital pool ([internal/risk/capital_pool.go], capital_pool_math.go,
    multi_account_capital_pool.go)

    [CapitalPoolManager] authorises sizes against one account's balance;
    [MultiAccountCapitalPool] maps account ids to pool objects.  Pools are
    heap objects in Go, so the multi-account map holds references into a store
    and the same pool may be registered twice. *)
From Stdlib Require Import ZArith Lia Bool Floats.
From S2P Require Import Prelude Float64 FloatRound FloatLaws PropFirm Sizing Gates.
Import GoInt.
Local Open Scope float_scope.
Local Open Scope go_scope.

Record StrategyAllocation := mkAlloc {
  StrategyID : string;
  Allocated : float64;
  Exposure : float64;
  DailyPnL : float64;
  PeakBalance : float64;
  DrawdownPct : float64;
  OpenLong : gmap string float64;
  OpenShort : gmap string float64;
  Suspended : bool
}.

Module CapitalPoolManager.
(** The prop-firm state is the caller's object, handed over by [UpdateState]. *)
Record t := mk {
  poolState : Pool.PoolState;
  accountID : string;
  profile : option Profile;
  state : option Manager.State;
  strategies : gmap string StrategyAllocation;
  positionSizer : PositionSizer
}.

Definition NewCapitalPoolManager (p : option Profile) (s : option Manager.State) : t :=
  let startingBalance := match s with Some s => Manager.StartingBalance s | None => 100000.0 end in
  mk (Pool.InitPoolState Pool.zero startingBalance) "" p s ∅ (NewPositionSizer p).

Definition SetAccountID (c : t) (id : string) : t :=
  mk (poolState c) id (profile c) (state c) (strategies c) (positionSizer c).

Definition NewCapitalPoolManagerWithAccount (id : string) (p : option Profile)
    (s : option Manager.State) : t := SetAccountID (NewCapitalPoolManager p s) id.

Definition AccountID (c : t) : string := accountID c.

Definition SetProfile (c : t) (p : option Profile) : t :=
  mk (poolState c) (accountID c) p (state c) (strategies c) (NewPositionSizer p).

Definition withBalance (s : Pool.PoolState) (b : float64) : Pool.PoolState :=
  Pool.mkPool b (Pool.TotalPeakBalance s) (Pool.DailyPnL s) (Pool.DailyPnLPct s)
    (Pool.Halted s) (Pool.HaltReason s) (Pool.TradingDays s).

Definition UpdateState (c : t) (s : option Manager.State) : t :=
  match s with
  | None => mk (poolState c) (accountID c) (profile c) None (strategies c) (positionSizer c)
  | Some st =>
      let ps := withBalance (poolState c) (Manager.StartingBalance st + Manager.CumulativePnL st) in
      mk (Pool.UpdatePeakBalance ps) (accountID c) (profile c) (Some st)
        (strategies c) (positionSizer c)
  end.

Definition newAlloc (id : string) (balance : float64) : StrategyAllocation :=
  mkAlloc id 0 0 0 balance 0 ∅ ∅ false.

Definition stratOpen (s : StrategyAllocation) : nat := size (OpenLong s) + size (OpenShort s).

(** The number of open entries over all strategies; the order of the Go loop
    does not matter. *)
Definition totalOpen (m : gmap string StrategyAllocation) : nat :=
  map_sum stratOpen m.

Definition withStrategies (c : t) (m : gmap string StrategyAllocation) : t :=
  mk (poolState c) (accountID c) (profile c) (state c) m (positionSizer c).

Definition suspend (s : StrategyAllocation) : StrategyAllocation :=
  mkAlloc (StrategyID s) (Allocated s) (Exposure s) (DailyPnL s) (PeakBalance s) (DrawdownPct s)
    (OpenLong s) (OpenShort s) true.

Definition allocate (s : StrategyAllocation) (symbol side : string) (size : float64)
    : StrategyAllocation :=
  if bool_decide (side = "BUY"%string)
  then mkAlloc (StrategyID s) (Allocated s + size) (Exposure s) (DailyPnL s) (PeakBalance s)
         (DrawdownPct s) (<[symbol := mget 0 (OpenLong s) symbol + size]> (OpenLong s))
         (OpenShort s) (Suspended s)
  else mkAlloc (StrategyID s) (Allocated s + size) (Exposure s) (DailyPnL s) (PeakBalance s)
         (DrawdownPct s) (OpenLong s)
         (<[symbol := mget 0 (OpenShort s) symbol + size]> (OpenShort s)) (Suspended s).

(** The quantity already open on the request's symbol and side, when positive. *)
Definition existingSame (s : StrategyAllocation) (r : CapitalRequest) : option float64 :=
  if bool_decide (ReqSide r = "BUY"%string) && (mget 0 (OpenLong s) (ReqSymbol r) >? 0)
  then Some (mget 0 (OpenLong s) (ReqSymbol r))
  else if bool_decide (ReqSide r = "SELL"%string) && (mget 0 (OpenShort s) (ReqSymbol r) >? 0)
  then Some (mget 0 (OpenShort s) (ReqSymbol r))
  else None.

Definition reject (reason : string) : CapitalResult := mkResult 0 reason.

Definition isViolated (c : t) : bool :=
  match state c with Some s => Manager.Violated s | None => false end.

(** The daily-loss test of [RequestCapital]. *)
Definition dailyLossHit (c : t) (p : Profile) : bool :=
  match state c with
  | None => false
  | Some _ =>
      let dayStart := Pool.TotalBalance (poolState c) - Pool.DailyPnL (poolState c) in
      (dayStart >? 0) &&
      DailyLossExceeded dayStart (Pool.TotalBalance (poolState c)) (MaxDailyLossPct p)
  end.

Definition RequestCapital (c : t) (r : CapitalRequest) : t * CapitalResult :=
  let p := default DefaultFTMOProfile (profile c) in
  let strat := default (newAlloc (ReqStrategyID r) (Pool.TotalBalance (poolState c)))
                       (strategies c !! ReqStrategyID r) in
  let c := withStrategies c (<[ReqStrategyID r := strat]> (strategies c)) in
  let compute existing := ComputeSize (positionSizer c) (ReqConfidence r) (ReqBaseSize r)
                            (ReqSymbol r) (Allocated strat) existing in
  if isViolated c then (c, reject "prop_firm_violated")
  else match existingSame strat r with
  | Some existing =>
      let size := compute existing in
      if size <=? 0 then (c, reject "correlation_limit") else (c, mkResult size "ok")
  | None =>
      if Z.leb (MaxOpenPositions p) (Z.of_nat (totalOpen (strategies c)))
      then (c, reject "max_open_positions")
      else if dailyLossHit c p then (c, reject "daily_loss_limit")
      else if PropFirm.DrawdownPct (PeakBalance strat) (Pool.TotalBalance (poolState c))
                >? MaxDrawdownPct p * 0.5
      then (withStrategies c (<[ReqStrategyID r := suspend strat]> (strategies c)),
            reject "per_strategy_drawdown_suspended")
      else if Suspended strat then (c, reject "strategy_suspended")
      else
        let size := compute 0 in
        if size <=? 0 then (c, reject "size_zero")
        else (withStrategies c
                (<[ReqStrategyID r := allocate strat (ReqSymbol r) (ReqSide r) size]> (strategies c)),
              mkResult size "ok")
  end.

(** [m[k] -= q], dropping the entry when it is not positive. *)
Definition closeOut (m : gmap string float64) (k : string) (q : float64) : gmap string float64 :=
  let v := mget 0 m k - q in
  if v <=? 0 then delete k m else <[k := v]> m.

Definition RecordFill (c : t) (strategyID symbol side : string) (pnl quantity : float64) : t :=
  let s := default (newAlloc strategyID (Pool.TotalBalance (poolState c)))
                   (strategies c !! strategyID) in
  let buy := bool_decide (side = "BUY"%string) in
  let allocated := Allocated s - quantity in
  let balance := Pool.TotalBalance (poolState c) + pnl in
  let peak := if balance >? PeakBalance s then balance else PeakBalance s in
  let s' := mkAlloc (StrategyID s) (if allocated <? 0 then 0 else allocated) (Exposure s)
              (DailyPnL s + pnl) peak
              (if balance >? 0 then PropFirm.DrawdownPct peak balance else DrawdownPct s)
              (if buy then closeOut (OpenLong s) symbol quantity else OpenLong s)
              (if buy then OpenShort s else closeOut (OpenShort s) symbol quantity)
              (Suspended s) in
  mk (Pool.UpdatePeakBalance (withBalance (poolState c) balance)) (accountID c) (profile c)
    (state c) (<[strategyID := s']> (strategies c)) (positionSizer c).

Definition zeroDaily (s : StrategyAllocation) : StrategyAllocation :=
  mkAlloc (StrategyID s) (Allocated s) (Exposure s) 0 (PeakBalance s) (DrawdownPct s)
    (OpenLong s) (OpenShort s) (Suspended s).

Definition ResetDaily (c : t) : t := withStrategies c (zeroDaily <$> strategies c).

Definition StrategyMetrics (c : t) : list StrategyAllocation := (map_to_list (strategies c)).*2.

Definition ResumeStrategy (c : t) (id : string) : t :=
  match strategies c !! id with
  | None => c
  | Some s =>
      withStrategies c
        (<[id := mkAlloc (StrategyID s) (Allocated s) (Exposure s) (DailyPnL s)
                   (Pool.TotalBalance (poolState c)) (DrawdownPct s) (OpenLong s) (OpenShort s) false]>
         (strategies c))
  end.

Definition SuspendedStrategies (c : t) : list string :=
  (List.filter (fun p => Suspended p.2) (map_to_list (strategies c))).*1.

Definition TotalBalance (c : t) : float64 := Pool.TotalBalance (poolState c).

(** The float sum depends on Go's map order, here that of [map_to_list]. *)
Definition TotalExposure (c : t) : float64 :=
  fold_left (fun e p => e + Allocated p.2) (map_to_list (strategies c)) 0.

Definition Halted (c : t) : bool := isViolated c.
Definition HaltReason (c : t) : string :=
  match state c with Some s => Manager.ViolationReason s | None => ""%string end.

Definition HasOpenPosition (c : t) (symbol side : string) : bool :=
  existsb (fun p =>
    (bool_decide (side = "BUY"%string) && (mget 0 (OpenLong p.2) symbol >? 0)) ||
    (bool_decide (side = "SELL"%string) && (mget 0 (OpenShort p.2) symbol >? 0)))
    (map_to_list (strategies c)).
End CapitalPoolManager.

(** capital_pool_math.go *)
Module CapitalPoolMath.
Record t := mk { TotalBalance : float64; TotalPeakBalance : float64; StartingBalance : float64 }.
Definition UpdatePeakBalance (m : t) (balance : float64) : t :=
  if balance >? TotalPeakBalance m then mk (TotalBalance m) balance (StartingBalance m) else m.
Definition DrawdownPct (m : t) (balance : float64) : float64 :=
  PropFirm.DrawdownPct (TotalPeakBalance m) balance.
Definition DailyLossPct (m : t) (balance : float64) : float64 :=
  PropFirm.DailyLossPct (StartingBalance m) balance.
Definition IsDailyLossExceeded (m : t) (balance maxDailyLossPct : float64) : bool :=
  DailyLossExceeded (StartingBalance m) balance maxDailyLossPct.
Definition IsDrawdownExceeded (m : t) (balance maxDrawdownPct : float64) : bool :=
  DrawdownExceeded (TotalPeakBalance m) balance maxDrawdownPct.
End CapitalPoolMath.

#[export] Instance capital_pool_gate : CapitalGate CapitalPoolManager.t := {
  RequestCapital := CapitalPoolManager.RequestCapital;
  RecordFill := CapitalPoolManager.RecordFill;
  ResetDaily := CapitalPoolManager.ResetDaily;
  CapHalted := CapitalPoolManager.Halted;
  CapHaltReason := CapitalPoolManager.HaltReason;
  TotalBalance := CapitalPoolManager.TotalBalance;
  HasOpenPosition := Some CapitalPoolManager.HasOpenPosition;
  ApplyCorrelationReduction := None;
  PerStrategyDrawdown := None
}.

(** ** Several accounts *)
Module MultiAccount.
Import CapitalPoolManager.

(** References are allocated in order; [pools] maps account ids to them. *)
Record t := mk { store : gmap nat CapitalPoolManager.t; next : nat; pools : gmap string nat }.

Definition NewMultiAccountCapitalPool : t := mk ∅ 0 ∅.

Definition RegisterPool (m : t) (id : string) (p : option Profile) (s : option Manager.State) : t :=
  mk (<[next m := NewCapitalPoolManagerWithAccount id p s]> (store m)) (S (next m))
    (<[id := next m]> (pools m)).

(** The caller's pool object [r]; it must exist. *)
Definition RegisterPoolDirect (m : t) (id : string) (r : nat) : t :=
  mk (alter (fun c => SetAccountID c id) r (store m)) (next m) (<[id := r]> (pools m)).

Definition lookupPool (m : t) (id : string) : option (nat * CapitalPoolManager.t) :=
  r ← pools m !! id; c ← store m !! r; Some (r, c).

Definition GetPool (m : t) (id : string) : option CapitalPoolManager.t := snd <$> lookupPool m id.

Definition update (m : t) (r : nat) (c : CapitalPoolManager.t) : t :=
  mk (<[r := c]> (store m)) (next m) (pools m).

(** [None] is the "account not found" error. *)
Definition RequestCapital (m : t) (id : string) (r : CapitalRequest) : t * option CapitalResult :=
  match lookupPool m id with
  | None => (m, None)
  | Some (ref, c) =>
      let '(c', res) := CapitalPoolManager.RequestCapital c r in (update m ref c', Some res)
  end.

Definition RecordFill (m : t) (id strategyID symbol side : string) (pnl quantity : float64)
    : option t :=
  '(ref, c) ← lookupPool m id;
  Some (update m ref (CapitalPoolManager.RecordFill c strategyID symbol side pnl quantity)).

Definition ResetDaily (m : t) (id : string) : option t :=
  '(ref, c) ← lookupPool m id; Some (update m ref (CapitalPoolManager.ResetDaily c)).

(** A loop over the map touches every registered pool object. *)
Definition registered (m : t) (r : nat) : bool :=
  existsb (fun p => Nat.eqb p.2 r) (map_to_list (pools m)).

Definition mapPools (f : CapitalPoolManager.t -> CapitalPoolManager.t) (m : t) : t :=
  mk (map_imap (fun r c => Some (if registered m r then f c else c)) (store m)) (next m) (pools m).

Definition ResetAllDaily (m : t) : t := mapPools CapitalPoolManager.ResetDaily m.

Definition TotalBalance (m : t) (id : string) : option float64 :=
  CapitalPoolManager.TotalBalance <$> GetPool m id.

(** In the map order [ids]. *)
Definition AggregateBalance (m : t) (ids : list string) : float64 :=
  fold_left (fun s id => s + default 0 (TotalBalance m id)) ids 0.

Definition TotalExposure (m : t) (id : string) : option float64 :=
  CapitalPoolManager.TotalExposure <$> GetPool m id.
Definition StrategyMetrics (m : t) (id : string) : option (list StrategyAllocation) :=
  CapitalPoolManager.StrategyMetrics <$> GetPool m id.

Definition SetProfile (m : t) (id : string) (p : option Profile) : option t :=
  '(ref, c) ← lookupPool m id; Some (update m ref (CapitalPoolManager.SetProfile c p)).

Definition UpdateState (m : t) (id : string) (s : option Manager.State) : option t :=
  '(ref, c) ← lookupPool m id; Some (update m ref (CapitalPoolManager.UpdateState c s)).

Definition AccountIDs (m : t) : list string := (map_to_list (pools m)).*1.
Definition PoolCount (m : t) : nat := size (pools m).

Definition violatedState (balance : float64) (reason : string) : Manager.State :=
  Manager.mkState "" balance 0 0 0 0 0 0 0 false true reason false.

Definition MarkAllViolated (m : t) (reason : string) : t :=
  mapPools (fun c => CapitalPoolManager.UpdateState c
                       (Some (violatedState (CapitalPoolManager.TotalBalance c) reason))) m.

Definition Halted (m : t) : bool :=
  existsb (fun id => match GetPool m id with Some c => CapitalPoolManager.Halted c | None => false end)
    (AccountIDs m).

(** The first non-empty reason in the map order [ids]. *)
Definition HaltReason (m : t) (ids : list string) : string :=
  default ""%string (List.find (fun r => negb (String.eqb r ""))
    (map (fun id => match GetPool m id with
                    | Some c => CapitalPoolManager.HaltReason c | None => ""%string end) ids)).
End MultiAccount.

(** ** Lawfulness *)
Section PoolLaws.
Import CapitalPoolManager.

(** The sizer the pool builds for itself: no lots, no ML score, a cap in [0,1]. *)
Definition pool_wf (c : t) : Prop :=
  (lotSize (positionSizer c) <=? 0) = true /\ regime_attenuates (positionSizer c) /\
  unit0 (totalExpCap (positionSizer c)).

Lemma new_sizer_wf p :
  (lotSize (NewPositionSizer p) <=? 0) = true /\ regime_attenuates (NewPositionSizer p) /\
  unit0 (totalExpCap (NewPositionSizer p)).
Proof.
  split; [reflexivity|]. split; [intros H; discriminate H|].
  apply unit0_lit. vm_compute. reflexivity.
Qed.

(** A request changes nothing but the strategies; whatever it approves was
    computed by the sizer, or is nothing. *)
Lemma RequestCapital_shape c r :
  positionSizer (RequestCapital c r).1 = positionSizer c /\
  poolState (RequestCapital c r).1 = poolState c /\ profile (RequestCapital c r).1 = profile c /\
  state (RequestCapital c r).1 = state c /\
  (ApprovedSize (RequestCapital c r).2 = 0 \/
   exists alloc ex, ApprovedSize (RequestCapital c r).2 =
     ComputeSize (positionSizer c) (ReqConfidence r) (ReqBaseSize r) (ReqSymbol r) alloc ex).
Proof.
  unfold RequestCapital. cbv zeta.
  destruct (isViolated _); [by eauto 10|]. destruct (existingSame _ _) as [ex|].
  - destruct (_ <=? 0); cbn; eauto 10.
  - destruct (Z.leb _ _); [by eauto 10|]. destruct (dailyLossHit _ _); [by eauto 10|].
    destruct (_ <? _); [by eauto 10|]. destruct (Suspended _); [by eauto 10|].
    destruct (_ <=? 0); cbn; eauto 10.
Qed.

#[export] Instance capital_pool_laws : CapitalGateLaws CapitalPoolManager.t.
Proof.
  refine {| cap_wf := pool_wf |}; cbn.
  - intros c r W. unfold pool_wf. by rewrite (proj1 (RequestCapital_shape c r)).
  - intros c id sym side pnl q W. exact W.
  - intros c W. exact W.
  - intros c r (W1 & W2 & W3) Pb Hc.
    destruct (RequestCapital_shape c r) as (_ & _ & _ & _ & [->|(a & e & ->)]).
    + by apply attenuated_zero.
    + by apply ComputeSize_attenuated.
  - intros c r H. unfold RequestCapital. cbv zeta. unfold Halted, isViolated in *. cbn.
    by rewrite H.
  - done.
Defined.
End PoolLaws.

(** ** Open positions *)
Section OpenPositions.
Import CapitalPoolManager.

(** Replacing a strategy by one with no more entries. *)
Lemma totalOpen_replace m k s d :
  (stratOpen s <= d + default 0 (stratOpen <$> m !! k))%nat ->
  (totalOpen (<[k := s]> m) <= d + totalOpen m)%nat.
Proof. apply map_sum_replace. Qed.

Lemma stratOpen_new id b : stratOpen (newAlloc id b) = 0%nat.
Proof. unfold stratOpen. cbn. by rewrite !map_size_empty. Qed.

(** Nothing is opened by closing out a non-negative quantity. *)
Definition fillable (q : float64) : Prop := fnan q = false /\ (0 <= fv q)%Z.

Lemma closeOut_size m k q : fillable q -> (size (closeOut m k q) <= size m)%nat.
Proof.
  intros [Nq Hq]. unfold closeOut. destruct (_ <=? 0) eqn:E.
  - rewrite map_size_delete. destruct (m !! k); cbn; lia.
  - rewrite map_size_insert. destruct (m !! k) as [v|] eqn:Em; [cbn; lia|].
    exfalso. unfold mget in E. rewrite Em in E. cbn in E.
    assert (B : (0 - q <=? 0) = true).
    { destruct (ffin q) eqn:F.
      - destruct (sub_pos0_le 0 q eq_refl (conj F Hq)) as [N L].
        rewrite leb_fv_nn by done. by apply Z.leb_le.
      - rewrite (nonfin_pos q Nq F Hq). reflexivity. }
    change (default 0 None) with (0%float) in E. congruence.
Qed.

(** The calls on one pool whose profile is fixed; fills close non-negative quantities. *)
Inductive pool_run : t -> t -> Prop :=
| prun_request c r : pool_run c (RequestCapital c r).1
| prun_fill c id sym side pnl q : fillable q -> pool_run c (RecordFill c id sym side pnl q)
| prun_reset c : pool_run c (ResetDaily c)
| prun_resume c id : pool_run c (ResumeStrategy c id)
| prun_state c s : pool_run c (UpdateState c s).

Definition open_bounded (c : t) : Prop :=
  (Z.of_nat (totalOpen (strategies c)) <=
   Z.max 0 (MaxOpenPositions (default DefaultFTMOProfile (profile c))))%Z.

Lemma allocate_open s sym side size : (stratOpen (allocate s sym side size) <= 1 + stratOpen s)%nat.
Proof.
  unfold allocate, stratOpen. destruct (bool_decide _); cbn.
  - pose proof (size_insert_le (OpenLong s) sym (mget 0 (OpenLong s) sym + size)). lia.
  - pose proof (size_insert_le (OpenShort s) sym (mget 0 (OpenShort s) sym + size)). lia.
Qed.

Lemma request_open c r : open_bounded c -> open_bounded (RequestCapital c r).1.
Proof.
  intros B. unfold open_bounded in *.
  set (strat := default (newAlloc (ReqStrategyID r) (Pool.TotalBalance (poolState c)))
                        (strategies c !! ReqStrategyID r)).
  assert (S0 : (stratOpen strat <= 0 + default 0 (stratOpen <$> strategies c !! ReqStrategyID r))%nat)
    by (unfold strat; destruct (strategies c !! ReqStrategyID r); cbn [default]; rewrite ?stratOpen_new; cbn; lia).
  pose proof (totalOpen_replace _ _ _ _ S0) as L0.
  unfold RequestCapital. cbv zeta. fold strat.
  set (c1 := withStrategies c (<[ReqStrategyID r := strat]> (strategies c))).
  change (strategies c1) with (<[ReqStrategyID r := strat]> (strategies c)).
  assert (Bs : forall c', strategies c' = <[ReqStrategyID r := strat]> (strategies c) -> profile c' = profile c ->
     (Z.of_nat (totalOpen (strategies c')) <= Z.max 0 (MaxOpenPositions (default DefaultFTMOProfile (profile c'))))%Z).
  { intros c' -> ->. lia. }
  destruct (isViolated _); [by apply Bs|]. destruct (existingSame _ _); [destruct (_ <=? 0); by apply Bs|].
  destruct (Z.leb_spec (MaxOpenPositions (default DefaultFTMOProfile (profile c)))
              (Z.of_nat (totalOpen (<[ReqStrategyID r := strat]> (strategies c))))); [by apply Bs|].
  destruct (dailyLossHit _ _); [by apply Bs|].
  assert (Lk : forall s' d, (stratOpen s' <= d + stratOpen strat)%nat ->
     (totalOpen (<[ReqStrategyID r := s']> (<[ReqStrategyID r := strat]> (strategies c))) <=
      d + totalOpen (<[ReqStrategyID r := strat]> (strategies c)))%nat).
  { intros s' d Hs. apply totalOpen_replace. rewrite lookup_insert_eq. exact Hs. }
  destruct (_ <? _).
  { cbn. pose proof (Lk (suspend strat) 0%nat ltac:(done)). lia. }
  destruct (Suspended strat); [by apply Bs|]. destruct (_ <=? 0); [by apply Bs|]. cbn.
  match goal with |- context [allocate strat ?a ?b ?z] =>
    pose proof (Lk (allocate strat a b z) 1%nat (allocate_open strat a b z)) end. lia.
Qed.

Lemma run_open c c' : pool_run c c' -> profile c' = profile c /\ (open_bounded c -> open_bounded c').
Proof.
  destruct 1 as [c r|c id sym side pnl q Hq|c|c id|c s].
  - split; [apply RequestCapital_shape|apply request_open].
  - split; [done|]. unfold open_bounded, RecordFill. cbn. intros B.
    match goal with |- context [<[id := ?s]> (strategies c)] =>
      pose proof (totalOpen_replace (strategies c) id s 0) as L end.
    assert (G : forall m n, (n <= m)%nat -> (Z.of_nat m <= Z.max 0 (MaxOpenPositions (default DefaultFTMOProfile (profile c))))%Z ->
       (Z.of_nat n <= Z.max 0 (MaxOpenPositions (default DefaultFTMOProfile (profile c))))%Z) by (intros; lia).
    eapply G; [apply L|exact B]. unfold stratOpen. cbn.
    destruct (strategies c !! id) as [s|]; cbn;
      destruct (bool_decide _); cbn;
      match goal with |- context [closeOut ?m sym q] => pose proof (closeOut_size m sym q Hq) end;
      try rewrite map_size_empty in *; lia.
  - split; [done|]. unfold open_bounded, ResetDaily. cbn.
    assert (E : totalOpen (zeroDaily <$> strategies c) = totalOpen (strategies c)); [|by rewrite E].
    unfold totalOpen, map_sum. by rewrite map_fold_fmap.
  - unfold ResumeStrategy. destruct (strategies c !! id) as [s|] eqn:E; [|done].
    split; [done|]. unfold open_bounded. cbn. intros B.
    match goal with |- context [<[id := ?z]> (strategies c)] =>
      pose proof (totalOpen_replace (strategies c) id z 0) as L end.
    rewrite E in L. specialize (L ltac:(done)). lia.
  - unfold UpdateState. by destruct s.
Qed.
End OpenPositions.

(** ** Claims on one pool *)
Section PoolClaims.
Import CapitalPoolManager.

Lemma run_sizer c c' : pool_run c c' -> positionSizer c' = positionSizer c.
Proof.
  destruct 1 as [c r|c id sym side pnl q Hq|c|c id|c s]; try done.
  - apply RequestCapital_shape.
  - unfold ResumeStrategy. by destruct (strategies c !! id).
  - by destruct s.
Qed.

Lemma runs_keep c c' : rtc pool_run c c' ->
  profile c' = profile c /\ positionSizer c' = positionSizer c /\ (open_bounded c -> open_bounded c').
Proof.
  induction 1 as [c|c1 c2 c3 H _ (I1 & I2 & I3)]; [done|].
  destruct (run_open c1 c2 H) as [P O]. rewrite I1, I2, P, (run_sizer _ _ H). auto.
Qed.

(** C2: the live pool is safe on every run from its creation: at most
    [MaxOpenPositions] entries are ever open, over all strategies; a request is
    never granted more than it asked for; and a violated account gets nothing. *)
Theorem capital_pool_safe p s c r :
  rtc pool_run (NewCapitalPoolManager p s) c ->
  pos0 (ReqBaseSize r) -> (0 <=? ReqConfidence r) = true ->
  (Z.of_nat (totalOpen (strategies c)) <= Z.max 0 (MaxOpenPositions (default DefaultFTMOProfile p)))%Z /\
  attenuated (ReqBaseSize r) (ApprovedSize (RequestCapital c r).2) /\
  (Halted c = true -> (RequestCapital c r).2 = mkResult 0 "prop_firm_violated").
Proof.
  intros H Pb Hc. destruct (runs_keep _ _ H) as (I1 & I2 & I3). cbn in I1, I2. split; [|split].
  - assert (B : open_bounded c).
    { apply I3. unfold open_bounded. cbn. unfold totalOpen. rewrite map_sum_empty. lia. }
    unfold open_bounded in B. by rewrite I1 in B.
  - assert (W : pool_wf c) by (unfold pool_wf; rewrite I2; apply new_sizer_wf).
    exact (cap_approved_bounded c r W Pb Hc).
  - intros V. unfold RequestCapital. cbv zeta. unfold Halted, isViolated in *. cbn. by rewrite V.
Qed.

(** Subtracting zero leaves a positive balance as it is. *)
Lemma sub_zero_self b : ffin b = true -> (0 < fv b)%Z -> b - 0 = b.
Proof.
  intros F H. pose proof (sub_nearest b 0 F eq_refl) as N. rewrite fv_zero_lit, Z.sub_0_r in N.
  pose proof (nearest_exact _ _ _ b Z.lt_0_1 N (ffin_nan _ F) ltac:(lia)) as E.
  apply fv_inj; [apply N|by apply ffin_nan|done|lia].
Qed.

(** With no profit or loss recorded today the loss is zero, whatever the balance. *)
Lemma no_daily_loss b lim : (0 <? lim) = true -> (b - 0 >? 0) = true -> DailyLossExceeded (b - 0) b lim = false.
Proof.
  intros Hl Hb. destruct (neg_limit lim Hl) as [Nl Ll].
  assert (Nb : fnan b = false).
  { destruct (fnan b) eqn:N; [|done]. apply ltb_true in Hb as (_ & Nb & _).
    assert (E : fnan (b - 0) = true).
    { unfold fnan in *. rewrite sub_spec. by destruct (Prim2SF b). } congruence. }
  assert (Pb : (0 < fv b)%Z).
  { apply ltb_true in Hb as (_ & _ & Hb). rewrite fv_zero_lit in Hb.
    destruct (Z.lt_ge_cases 0 (fv b)) as [|G]; [done|]. exfalso.
    destruct (ffin b) eqn:F.
    - destruct (sub_sign b 0 F eq_refl) as (_ & _ & L & _). rewrite fv_zero_lit in L. specialize (L G). lia.
    - assert (E : b = neg_infinity).
      { rewrite <- (opp_opp b). rewrite (nonfin_pos (- b)); [done|by rewrite fnan_opp|by rewrite ffin_opp|].
        rewrite fv_opp. lia. }
      rewrite E in Hb. vm_compute in Hb. discriminate Hb. }
  unfold DailyLossExceeded, DailyLossPct. destruct (ffin b) eqn:F.
  - rewrite sub_zero_self in * by done.
    destruct (b <=? 0); [rewrite leb_fv_nn, fv_zero_lit by done; apply Z.leb_gt; lia|].
    destruct (sub_sign b b F F) as (_ & _ & _ & E). specialize (E eq_refl).
    pose proof (sub_nearest b b F F) as Ns.
    assert (Fs : ffin (b - b) = true).
    { apply ffin_of_range; [apply Ns|]. rewrite E. pose proof fmaxv_pos. lia. }
    destruct (div_sign (b - b) b Fs F Pb) as (Nd & G & L).
    assert (E2 : fv ((b - b) / b) = 0%Z) by (specialize (G ltac:(lia)); specialize (L ltac:(lia)); lia).
    assert (Fd : ffin ((b - b) / b) = true).
    { apply ffin_of_range; [done|]. rewrite E2. pose proof fmaxv_pos. lia. }
    pose proof (mul_nearest _ 100 Fd eq_refl) as Nm. rewrite E2, Z.mul_0_l in Nm.
    pose proof (nearest_zero (2 ^ 1074) _ ltac:(done) Nm) as E3.
    rewrite leb_fv_nn, E3 by (apply Nm || done). apply Z.leb_gt. lia.
  - rewrite (nonfin_pos b Nb F) by lia.
    destruct (_ <=? - lim) eqn:E; [|done]. apply leb_true in E as (N & _). vm_compute in N. discriminate N.
Qed.

(** Nothing writes the pool's own [DailyPnL]. *)
Lemma run_daily c c' : pool_run c c' -> Pool.DailyPnL (poolState c') = Pool.DailyPnL (poolState c).
Proof.
  assert (U : forall s, Pool.DailyPnL (Pool.UpdatePeakBalance s) = Pool.DailyPnL s)
    by (intros s; unfold Pool.UpdatePeakBalance; by destruct (_ <? _)).
  destruct 1 as [c r|c id sym side pnl q Hq|c|c id|c s]; try done.
  - by rewrite (proj1 (proj2 (RequestCapital_shape c r))).
  - cbn. by rewrite U.
  - unfold ResumeStrategy. by destruct (strategies c !! id).
  - destruct s; [|done]. cbn. by rewrite U.
Qed.

Lemma runs_daily c c' : rtc pool_run c c' -> Pool.DailyPnL (poolState c') = Pool.DailyPnL (poolState c).
Proof. induction 1 as [|c1 c2 c3 H1 _ IH]; [done|]. rewrite IH. by apply run_daily. Qed.

(** The live pool's daily-loss limit is dead: [RecordFill] never updates the
    pool's [DailyPnL], so on every run, whatever was lost, no request is refused
    with "daily_loss_limit". *)
Theorem live_daily_loss_limit_never_fires p s c r :
  rtc pool_run (NewCapitalPoolManager p s) c ->
  (MaxDailyLossPct (default DefaultFTMOProfile p) >? 0) = true ->
  ResReason (RequestCapital c r).2 <> "daily_loss_limit"%string.
Proof.
  intros H Hp.
  assert (D : Pool.DailyPnL (poolState c) = 0) by (by rewrite (runs_daily _ _ H)).
  destruct (runs_keep _ _ H) as (I1 & _). cbn in I1.
  unfold RequestCapital. cbv zeta. rewrite I1.
  destruct (isViolated _); [done|]. destruct (existingSame _ _); [by destruct (_ <=? 0)|].
  destruct (Z.leb _ _); [done|].
  assert (L : forall m, dailyLossHit (withStrategies c m) (default DefaultFTMOProfile p) = false).
  { intros m. unfold dailyLossHit. cbn. destruct (state c); [|done]. rewrite D.
    destruct (0 <? Pool.TotalBalance (poolState c) - 0) eqn:E; [|done]. by apply no_daily_loss. }
  rewrite L. repeat case_match; done.
Qed.

(** Adding to an open position skips the limits and the books: with a
    positive quantity already open on the same symbol and side, an unviolated
    pool answers without looking at the position count, the daily loss, the
    strategy's drawdown or its suspension, and records nothing of what it grants. *)
Theorem topup_bypasses_limits c r st ex :
  isViolated c = false -> strategies c !! ReqStrategyID r = Some st -> existingSame st r = Some ex ->
  let size := ComputeSize (positionSizer c) (ReqConfidence r) (ReqBaseSize r) (ReqSymbol r)
                (Allocated st) ex in
  (RequestCapital c r).2 = (if size <=? 0 then reject "correlation_limit" else mkResult size "ok") /\
  strategies (RequestCapital c r).1 = strategies c.
Proof.
  intros V L E size. unfold RequestCapital. cbv zeta.
  assert (V' : forall m, isViolated (withStrategies c m) = false) by (intros; exact V).
  assert (Es : default (newAlloc (ReqStrategyID r) (Pool.TotalBalance (poolState c)))
                 (strategies c !! ReqStrategyID r) = st) by (by rewrite L).
  rewrite V', Es, E. cbn [positionSizer withStrategies]. fold size. destruct (size <=? 0); cbn; by rewrite insert_id.
Qed.
End PoolClaims.

(** A 2%-sized EURUSD long, then a fill that loses 7% of the account. *)
Definition request (sym side : string) (size : float64) : CapitalRequest := mkRequest "s1" 1 sym side size.

Definition live_pool : CapitalPoolManager.t :=
  let c0 := CapitalPoolManager.NewCapitalPoolManager (Some DefaultFTMOProfile)
              (Some (Manager.state ftmo_manager)) in
  (CapitalPoolManager.RequestCapital c0 (request "EURUSD" "BUY" 100)).1.

Definition losing_pool : CapitalPoolManager.t :=
  CapitalPoolManager.RecordFill live_pool "s2" "GBPUSD" "BUY" (-7000) 50.

Lemma losing_pool_run :
  rtc pool_run (CapitalPoolManager.NewCapitalPoolManager (Some DefaultFTMOProfile)
                  (Some (Manager.state ftmo_manager))) losing_pool.
Proof.
  eapply rtc_l; [apply (prun_request _ (request "EURUSD" "BUY" 100))|].
  apply rtc_once. apply prun_fill. split; [reflexivity|]. apply Z.leb_le. vm_compute. reflexivity.
Qed.

Lemma capital_pool_safe_witness :
  (Z.of_nat (CapitalPoolManager.totalOpen (CapitalPoolManager.strategies losing_pool)) <= 5)%Z /\
  attenuated 200 (ApprovedSize (CapitalPoolManager.RequestCapital losing_pool (request "USDJPY" "BUY" 200)).2).
Proof.
  destruct (capital_pool_safe _ _ losing_pool (request "USDJPY" "BUY" 200) losing_pool_run) as (A & B & _);
    [split; [reflexivity|apply Z.leb_le; vm_compute; reflexivity]|reflexivity|].
  split; [exact A|exact B].
Defined.

(** A 7% loss against a 5% daily limit: a new strategy is granted 60. *)
Lemma live_daily_loss_limit_never_fires_witness :
  ResReason (CapitalPoolManager.RequestCapital losing_pool
               (mkRequest "s3" 1 "USDJPY" "BUY" 200)).2 <> "daily_loss_limit"%string /\
  DailyLossExceeded 100000 (CapitalPoolManager.TotalBalance losing_pool) 5 = true /\
  ApprovedSize (CapitalPoolManager.RequestCapital losing_pool
                  (mkRequest "s3" 1 "USDJPY" "BUY" 200)).2 = 60.
Proof.
  split; [|vm_compute; split; reflexivity].
  apply (live_daily_loss_limit_never_fires _ _ losing_pool _ losing_pool_run). reflexivity.
Defined.

Lemma topup_bypasses_limits_witness :
  ApprovedSize (CapitalPoolManager.RequestCapital live_pool (request "EURUSD" "BUY" 1000)).2 =
    ComputeSize (NewPositionSizer (Some DefaultFTMOProfile)) 1 1000 "EURUSD" 30 30.
Proof.
  destruct (CapitalPoolManager.strategies live_pool !! "s1"%string) as [st|] eqn:L.
  - destruct (topup_bypasses_limits live_pool (request "EURUSD" "BUY" 1000) st 30) as [H _].
    + reflexivity.
    + exact L.
    + vm_compute in L. injection L as <-. vm_compute. reflexivity.
    + rewrite H. vm_compute in L. injection L as <-. vm_compute. reflexivity.
  - vm_compute in L. discriminate L.
Defined.

(** ** Several accounts *)
Section MultiAccountProps.
Import MultiAccount.

(** References are live and each account has its own pool. *)
Definition separate (m : t) : Prop :=
  (forall id r, pools m !! id = Some r -> (r < next m)%nat /\ is_Some (store m !! r)) /\
  (forall i j r, pools m !! i = Some r -> pools m !! j = Some r -> i = j).

(** The operations on a set of accounts created by [RegisterPool]. *)
Inductive multi_step : t -> t -> Prop :=
| mstep_register m id p s : multi_step m (RegisterPool m id p s)
| mstep_request m id r : multi_step m (RequestCapital m id r).1
| mstep_record m id st sym side pnl q m' :
    RecordFill m id st sym side pnl q = Some m' -> multi_step m m'
| mstep_reset m id m' : ResetDaily m id = Some m' -> multi_step m m'
| mstep_profile m id p m' : SetProfile m id p = Some m' -> multi_step m m'
| mstep_state m id s m' : UpdateState m id s = Some m' -> multi_step m m'
| mstep_reset_all m : multi_step m (ResetAllDaily m)
| mstep_kill m reason : multi_step m (MarkAllViolated m reason).

Lemma lookupPool_Some m id r c :
  lookupPool m id = Some (r, c) <-> pools m !! id = Some r /\ store m !! r = Some c.
Proof.
  unfold lookupPool. destruct (pools m !! id) as [r'|]; cbn; [|naive_solver].
  destruct (store m !! r') as [c'|] eqn:E; cbn; naive_solver.
Qed.

Lemma update_separate m r c : separate m -> separate (update m r c).
Proof.
  intros [L I]. split; [|done]. intros id r' H. destruct (L id r' H) as [Lt Is]. split; [done|]. cbn.
  destruct (decide (r = r')) as [->|]; [by rewrite lookup_insert_eq|by rewrite lookup_insert_ne].
Qed.

Lemma mapPools_separate f m : separate m -> separate (mapPools f m).
Proof.
  intros [L I]. split; [|done]. intros id r H. destruct (L id r H) as [Lt [c Hc]]. split; [done|]. cbn.
  rewrite map_lookup_imap, Hc. by eexists.
Qed.

Lemma register_separate m id p s : separate m -> separate (RegisterPool m id p s).
Proof.
  intros [L I]. split; cbn.
  - intros i r H. apply lookup_insert_Some in H as [[-> <-]|[N H]].
    + split; [lia|]. rewrite lookup_insert_eq. by eexists.
    + destruct (L i r H) as [Lt Is]. split; [lia|]. by rewrite lookup_insert_ne by lia.
  - intros i j r Hi Hj. apply lookup_insert_Some in Hi as [[-> <-]|[Ni Hi]];
      apply lookup_insert_Some in Hj as [[-> E]|[Nj Hj]]; try done.
    + apply L in Hj. lia.
    + subst r. apply L in Hi. lia.
    + by apply (I i j r).
Qed.

Lemma on_pool_separate m id (f : CapitalPoolManager.t -> CapitalPoolManager.t) m' :
  ('(r, c) ← lookupPool m id; Some (update m r (f c))) = Some m' -> separate m -> separate m'.
Proof. destruct (lookupPool m id) as [[r c]|]; [|done]. intros [= <-]. apply update_separate. Qed.

Lemma multi_step_separate m m' : multi_step m m' -> separate m -> separate m'.
Proof.
  destruct 1 as [m id p s|m id r|m id st sym side pnl q m' H|m id m' H|m id p m' H|m id s m' H|m|m reason].
  - apply register_separate.
  - unfold RequestCapital. destruct (lookupPool m id) as [[ref c]|]; [|done].
    destruct (CapitalPoolManager.RequestCapital c r). apply update_separate.
  - exact (on_pool_separate m id (fun c => CapitalPoolManager.RecordFill c st sym side pnl q) m' H).
  - exact (on_pool_separate m id CapitalPoolManager.ResetDaily m' H).
  - exact (on_pool_separate m id (fun c => CapitalPoolManager.SetProfile c p) m' H).
  - exact (on_pool_separate m id (fun c => CapitalPoolManager.UpdateState c s) m' H).
  - apply mapPools_separate.
  - apply mapPools_separate.
Qed.

Lemma registered_spec m id r : pools m !! id = Some r -> registered m r = true.
Proof.
  intros H. unfold registered. apply existsb_exists. exists (id, r). split; [|apply Nat.eqb_refl].
  apply list_elem_of_In, elem_of_map_to_list, H.
Qed.

Lemma GetPool_update_ne m a b ra rb ca :
  separate m -> a <> b -> pools m !! a = Some ra -> pools m !! b = Some rb ->
  GetPool (update m ra ca) b = GetPool m b.
Proof.
  intros [_ I] Hab Ha Hb. unfold GetPool, lookupPool. cbn. rewrite Hb. cbn.
  rewrite lookup_insert_ne; [done|]. intros ->. by apply Hab, (I a b rb).
Qed.

(** Accounts created by [RegisterPool] are isolated: on every run, a request
    or a fill on one account leaves the pool of every other account as it was;
    and an emergency stop reaches all of them: after [MarkAllViolated] every
    registered account is halted with the given reason and refuses every
    request. *)
Theorem accounts_isolated_and_stoppable m a b ra rb r st sym side pnl q reason :
  rtc multi_step NewMultiAccountCapitalPool m ->
  a <> b -> pools m !! a = Some ra -> pools m !! b = Some rb ->
  GetPool (RequestCapital m a r).1 b = GetPool m b /\
  (exists m', RecordFill m a st sym side pnl q = Some m' /\ GetPool m' b = GetPool m b) /\
  (exists c, GetPool (MarkAllViolated m reason) a = Some c /\
     CapitalPoolManager.Halted c = true /\ CapitalPoolManager.HaltReason c = reason /\
     (RequestCapital (MarkAllViolated m reason) a r).2 =
       Some (mkResult 0 "prop_firm_violated")).
Proof.
  intros H Hab Ha Hb. assert (S : separate m).
  { clear - H. assert (S0 : separate NewMultiAccountCapitalPool) by (split; intros *; cbn; by rewrite lookup_empty).
    induction H as [|m1 m2 m3 H1 _ IH]; [done|]. by apply IH, (multi_step_separate m1). }
  destruct (proj1 S a ra Ha) as [_ [ca Hca]].
  assert (La : lookupPool m a = Some (ra, ca)) by (by apply lookupPool_Some).
  split; [|split].
  - unfold RequestCapital. rewrite La. destruct (CapitalPoolManager.RequestCapital ca r).
    by apply (GetPool_update_ne m a b ra rb).
  - unfold RecordFill. rewrite La. cbn. eexists. split; [done|]. by apply (GetPool_update_ne m a b ra rb).
  - set (k := fun c => CapitalPoolManager.UpdateState c
                (Some (violatedState (CapitalPoolManager.TotalBalance c) reason))).
    assert (Lk : lookupPool (MarkAllViolated m reason) a = Some (ra, k ca)).
    { apply lookupPool_Some. split; [done|]. cbn. rewrite map_lookup_imap, Hca. cbn.
      by rewrite (registered_spec m a ra Ha). }
    exists (k ca). unfold GetPool. rewrite Lk. split; [done|]. split; [done|]. split; [done|].
    unfold RequestCapital. by rewrite Lk.
Qed.
End MultiAccountProps.

Definition two_accounts : MultiAccount.t :=
  MultiAccount.RegisterPool
    (MultiAccount.RegisterPool MultiAccount.NewMultiAccountCapitalPool "A" None None)
    "B" (Some DefaultFTMOProfile) None.

Lemma accounts_isolated_and_stoppable_witness :
  MultiAccount.GetPool (MultiAccount.RequestCapital two_accounts "A" (request "EURUSD" "BUY" 100)).1 "B"
    = MultiAccount.GetPool two_accounts "B" /\
  (MultiAccount.RequestCapital (MultiAccount.MarkAllViolated two_accounts "stop") "A"
     (request "EURUSD" "BUY" 100)).2 = Some (mkResult 0 "prop_firm_violated").
Proof.
  destruct (accounts_isolated_and_stoppable two_accounts "A" "B" 0 1 (request "EURUSD" "BUY" 100)
              "s" "EURUSD" "BUY" 0 0 "stop") as (I & _ & (c & _ & _ & _ & K)).
  - eapply rtc_l; [apply (mstep_register _ "A" None None)|].
    apply rtc_once. apply mstep_register.
  - discriminate.
  - reflexivity.
  - reflexivity.
  - split; [exact I|exact K].
Defined.
