(* ===== verification/PoolSim.v ===== *)
(** * The backtest capital pool ([internal/backtest/capital_pool_sim.go])

    [CapitalPoolSim] runs the strategies of a bar against one balance and
    implements [CapitalGate].  Go visits the strategy map in an unspecified
    order: [EvaluateAll] takes the order as an argument.  A strategy runner is
    code outside this component: its evaluation is a parameter. *)
From Stdlib Require Import ZArith Lia Bool Floats.
From S2P Require Import Prelude Float64 FloatRound FloatLaws Price PropFirm Sizing Gates StopLoss.
Local Open Scope float_scope.
Local Open Scope go_scope.

(** [internal/strategy/types.go] *)
Inductive SignalAction := SignalNone | SignalEntry | SignalExit.

Record Signal := mkSignal {
  SigSymbol : string;
  SigSide : string;
  SigQuantity : float64;
  SigAction : SignalAction;
  SigPWin : float64;
  SigStrategyID : string;
  SigStopLoss : Price;
  SigTakeProfit : Price
}.

Definition withQuantity (s : Signal) (q : float64) : Signal :=
  mkSignal (SigSymbol s) (SigSide s) q (SigAction s) (SigPWin s) (SigStrategyID s)
    (SigStopLoss s) (SigTakeProfit s).

Section PoolSim.
(** A runner's state and its [Evaluate] method; a nil runner is [None]. *)
Context {Runner : Type}.
Variable Evaluate : Runner -> Candle -> Z -> Runner * option Signal.

Record PoolSimStrategy := mkSimStrat {
  SimID : string;
  SimAllocated : float64;
  SimDailyPnL : float64;
  SimPeakBalance : float64;
  SimDrawdownPct : float64;
  SimOpenLong : gmap string float64;
  SimOpenShort : gmap string float64;
  SimRunner : option Runner
}.

Record CapitalPoolSim := mkPoolSim {
  PoolState : Pool.PoolState;
  SimProfile : option Profile;
  Strategies : gmap string PoolSimStrategy
}.

Definition NewCapitalPoolSim (p : option Profile) (startingBalance : float64) : CapitalPoolSim :=
  mkPoolSim (Pool.InitPoolState Pool.zero startingBalance) p ∅.

Definition AddStrategy (c : CapitalPoolSim) (id : string) (r : option Runner) : CapitalPoolSim :=
  mkPoolSim (PoolState c) (SimProfile c)
    (<[id := mkSimStrat id 0 0 (Pool.TotalBalance (PoolState c)) 0 ∅ ∅ r]> (Strategies c)).

Definition simOpen (s : PoolSimStrategy) : nat := size (SimOpenLong s) + size (SimOpenShort s).
Definition simTotalOpen (m : gmap string PoolSimStrategy) : nat :=
  map_sum simOpen m.

Definition withRunner (s : PoolSimStrategy) (r : Runner) : PoolSimStrategy :=
  mkSimStrat (SimID s) (SimAllocated s) (SimDailyPnL s) (SimPeakBalance s) (SimDrawdownPct s)
    (SimOpenLong s) (SimOpenShort s) (Some r).

(** The entry a signal makes in the strategy's books. *)
Definition bookSignal (s : PoolSimStrategy) (candle : Candle) (g : Signal) : PoolSimStrategy :=
  let q := SigQuantity g in
  let sym := Symbol candle in
  if bool_decide (SigSide g = "BUY"%string)
  then mkSimStrat (SimID s) (SimAllocated s + q * Float64 (Close candle)) (SimDailyPnL s)
         (SimPeakBalance s) (SimDrawdownPct s)
         (<[sym := mget 0 (SimOpenLong s) sym + q]> (SimOpenLong s)) (SimOpenShort s) (SimRunner s)
  else mkSimStrat (SimID s) (SimAllocated s + q * Float64 (Close candle)) (SimDailyPnL s)
         (SimPeakBalance s) (SimDrawdownPct s) (SimOpenLong s)
         (<[sym := mget 0 (SimOpenShort s) sym + q]> (SimOpenShort s)) (SimRunner s).

(** The size test of [EvaluateAll]: at least one unit must be affordable. *)
Definition simQuantity (c : CapitalPoolSim) (p : Profile) (s : PoolSimStrategy) (candle : Candle)
    (regime : Z) (side : string) : float64 :=
  let balance := Pool.TotalBalance (PoolState c) in
  let sym := Symbol candle in
  let corr := if bool_decide (side = "BUY"%string) && (mget 0 (SimOpenShort s) sym >? 0) then 0.5
              else 1.0 in
  let corr := if bool_decide (side = "SELL"%string) && (mget 0 (SimOpenLong s) sym >? 0) then 0.5
              else corr in
  let positionPct := MaxPositionPct p / 100.0 in
  let regimeMult := if Z.leb 0 regime && Z.ltb regime 4
                    then nth (Z.to_nat regime) (RegimeMultipliers p) 0 else 1.0 in
  let close := Float64 (Close candle) in
  let quantity := (balance * positionPct * regimeMult * corr) / close in
  let maxSize := balance * MaxPositionPct p / 100.0 in
  if quantity >? maxSize / close then maxSize / close else quantity.

(** One iteration of the loop of [EvaluateAll]. *)
Definition evaluateOne (candle : Candle) (regime : Z)
    (acc : CapitalPoolSim * gmap string Signal) (id : string)
    : CapitalPoolSim * gmap string Signal :=
  let '(c, signals) := acc in
  match Strategies c !! id with
  | None => acc
  | Some strat =>
      match SimRunner strat with
      | None => acc
      | Some r =>
          let '(r', signal) := Evaluate r candle regime in
          let strat := withRunner strat r' in
          let c := mkPoolSim (PoolState c) (SimProfile c) (<[id := strat]> (Strategies c)) in
          match signal with
          | None => (c, signals)
          | Some signal =>
              let p := default DefaultFTMOProfile (SimProfile c) in
              if Pool.DailyPnLPct (PoolState c) <=? - MaxDailyLossPct p
              then (mkPoolSim (Pool.halt (PoolState c) "daily_loss_limit") (SimProfile c)
                      (Strategies c), signals)
              else if DrawdownPct (SimPeakBalance strat) (Pool.TotalBalance (PoolState c))
                        >? MaxDrawdownPct p * 0.5
              then (c, signals)
              else if Z.leb (MaxOpenPositions p) (Z.of_nat (simTotalOpen (Strategies c)))
              then (c, signals)
              else if simQuantity c p strat candle regime (SigSide signal) <? 1
              then (c, signals)
              else
                let signal := withQuantity signal (SigQuantity signal * (1.0 - 0.002)) in
                (mkPoolSim (PoolState c) (SimProfile c)
                   (<[id := bookSignal strat candle signal]> (Strategies c)),
                 <[id := signal]> signals)
          end
      end
  end.

Definition EvaluateAll (c : CapitalPoolSim) (candle : Candle) (regime : Z) (order : list string)
    : CapitalPoolSim * gmap string Signal :=
  if Pool.Halted (PoolState c) then (c, ∅)
  else fold_left (evaluateOne candle regime) order (c, ∅).

(** [m[k] -= q], dropping the entry when it is not positive. *)
Definition simCloseOut (m : gmap string float64) (k : string) (q : float64) : gmap string float64 :=
  let v := mget 0 m k - q in
  if v <=? 0 then delete k m else <[k := v]> m.

Definition SimRecordFill (c : CapitalPoolSim) (strategyID symbol side : string)
    (pnl quantity : float64) : CapitalPoolSim :=
  match Strategies c !! strategyID with
  | None => c
  | Some s =>
      let buy := bool_decide (side = "BUY"%string) in
      let allocated := SimAllocated s - quantity in
      let ps := Pool.RecordPoolPnL (PoolState c) pnl
                  (Pool.TotalBalance (PoolState c) - Pool.DailyPnL (PoolState c)) in
      let peak := if Pool.TotalBalance ps >? SimPeakBalance s
                  then Pool.TotalBalance ps else SimPeakBalance s in
      let s' := mkSimStrat (SimID s) (if allocated <? 0 then 0 else allocated)
                  (SimDailyPnL s + pnl) peak (SimDrawdownPct s)
                  (if buy then simCloseOut (SimOpenLong s) symbol quantity else SimOpenLong s)
                  (if buy then SimOpenShort s else simCloseOut (SimOpenShort s) symbol quantity)
                  (SimRunner s) in
      mkPoolSim (Pool.CheckDrawdownHalt ps (SimProfile c)).1 (SimProfile c)
        (<[strategyID := s']> (Strategies c))
  end.

Definition SimResetDaily (c : CapitalPoolSim) : CapitalPoolSim :=
  mkPoolSim (Pool.ResetPoolDaily (PoolState c)) (SimProfile c)
    ((fun s => mkSimStrat (SimID s) (SimAllocated s) 0 (SimPeakBalance s) (SimDrawdownPct s)
                 (SimOpenLong s) (SimOpenShort s) (SimRunner s)) <$> Strategies c).

Definition SimRequestCapital (c : CapitalPoolSim) (r : CapitalRequest) : CapitalResult :=
  if Pool.Halted (PoolState c) then mkResult 0 "pool_halted"
  else
    let p := default DefaultFTMOProfile (SimProfile c) in
    match Strategies c !! ReqStrategyID r with
    | None => mkResult (ReqBaseSize r) "ok"
    | Some strat =>
        if bool_decide (ReqSide r = "BUY"%string) && (mget 0 (SimOpenLong strat) (ReqSymbol r) >? 0)
        then mkResult (ReqBaseSize r * 0.5) "correlation_limit"
        else if bool_decide (ReqSide r = "SELL"%string) &&
                (mget 0 (SimOpenShort strat) (ReqSymbol r) >? 0)
        then mkResult (ReqBaseSize r * 0.5) "correlation_limit"
        else if Z.leb (MaxOpenPositions p) (Z.of_nat (simTotalOpen (Strategies c)))
        then mkResult 0 "max_open_positions"
        else if Pool.TotalBalance (PoolState c) <=? 0 then mkResult 0 "no_capital"
        else
          let balance := Pool.TotalBalance (PoolState c) in
          let maxSize := balance * MaxPositionPct p / 100.0 in
          let size := if ReqBaseSize r >? maxSize then maxSize else ReqBaseSize r in
          let size := if size >? balance * 0.25 then balance * 0.25 else size in
          mkResult size "ok"
    end.

Definition SimHalted (c : CapitalPoolSim) : bool := Pool.Halted (PoolState c).
Definition SimHaltReason (c : CapitalPoolSim) : string := Pool.HaltReason (PoolState c).
Definition SimTotalBalance (c : CapitalPoolSim) : float64 := Pool.TotalBalance (PoolState c).

(** Any strategy with an opposite position halves the size, in any map order. *)
Definition SimApplyCorrelationReduction (c : CapitalPoolSim) (side symbol : string)
    (baseSize : float64) : float64 :=
  if existsb (fun p =>
       (bool_decide (side = "BUY"%string) && (mget 0 (SimOpenShort p.2) symbol >? 0)) ||
       (bool_decide (side = "SELL"%string) && (mget 0 (SimOpenLong p.2) symbol >? 0)))
       (map_to_list (Strategies c))
  then baseSize * 0.5 else baseSize.

Definition SimPerStrategyDrawdown (c : CapitalPoolSim) (strategyID : string) : float64 :=
  match Strategies c !! strategyID with
  | None => 0
  | Some strat =>
      if SimPeakBalance strat <=? 0 then 0
      else
        let dd := (SimPeakBalance strat - Pool.TotalBalance (PoolState c)) / SimPeakBalance strat in
        if dd <? 0 then 0 else dd
  end.

#[export] Instance pool_sim_gate : CapitalGate CapitalPoolSim := {
  RequestCapital c r := (c, SimRequestCapital c r);
  RecordFill := SimRecordFill;
  ResetDaily := SimResetDaily;
  CapHalted := SimHalted;
  CapHaltReason := SimHaltReason;
  TotalBalance := SimTotalBalance;
  HasOpenPosition := None;
  ApplyCorrelationReduction := Some SimApplyCorrelationReduction;
  PerStrategyDrawdown := Some SimPerStrategyDrawdown
}.
End PoolSim.
Arguments CapitalPoolSim : clear implicits.
Arguments PoolSimStrategy : clear implicits.

(** ** Lawfulness *)
Section PoolSimLaws.
Context {Runner : Type}.
Variable Evaluate : Runner -> Candle -> Z -> Runner * option Signal.
#[local] Abbreviation sim := (CapitalPoolSim Runner).

(** The position limit of the profile in force is not negative. *)
Definition sim_wf (c : sim) : Prop := pos0 (MaxPositionPct (default DefaultFTMOProfile (SimProfile c))).

Lemma SimRecordFill_profile (c : sim) id sym side pnl q :
  SimProfile (SimRecordFill c id sym side pnl q) = SimProfile c.
Proof. unfold SimRecordFill. by destruct (Strategies c !! id). Qed.

Lemma quarter_nneg b :
  (b <=? 0) = false -> fnan (b * 0.25) = false -> (0 <= fv (b * 0.25))%Z.
Proof.
  intros Hb N. assert (Nb : fnan b = false).
  { destruct (fnan b) eqn:E; [|done]. by rewrite (mul_nan _ _ E) in N. }
  apply leb_false in Hb; [|done..]. rewrite fv_zero_lit in Hb.
  apply mul_nneg; [done|lia| |done]. split; [done|]. vm_compute. discriminate.
Qed.

Lemma sim_approved_bounded (c : sim) r :
  sim_wf c -> pos0 (ReqBaseSize r) ->
  attenuated (ReqBaseSize r) (ApprovedSize (SimRequestCapital c r)).
Proof.
  intros W Pb. unfold SimRequestCapital.
  destruct (Pool.Halted _); [by apply attenuated_zero|].
  destruct (Strategies c !! _) as [strat|]; [|by apply attenuated_refl].
  destruct (_ && _)%bool; [by apply attenuated_half|].
  destruct (_ && _)%bool; [by apply attenuated_half|].
  destruct (Z.leb _ _); [by apply attenuated_zero|].
  set (b := Pool.TotalBalance (PoolState c)).
  destruct (b <=? 0) eqn:Eb; [by apply attenuated_zero|]. cbv zeta.
  set (m := b * _ / 100). set (s := if m <? ReqBaseSize r then m else ReqBaseSize r).
  assert (As : attenuated (ReqBaseSize r) s).
  { unfold s. destruct (m <? ReqBaseSize r) eqn:E; [|by apply attenuated_refl].
    apply attenuated_cap; [done|done|]. apply ltb_true in E as (Nm & _).
    apply pct_nneg; try done. destruct (fnan b) eqn:Nb; [|done].
    unfold m in Nm. by rewrite (div_nan _ _ (mul_nan _ _ Nb)) in Nm. }
  cbn [ApprovedSize]. destruct (b * 0.25 <? s) eqn:E; [|done].
  eapply attenuated_trans; [exact As|]. apply attenuated_cap; [apply As|done|].
  apply ltb_true in E as (Nm & _). by apply quarter_nneg.
Qed.

#[export] Instance pool_sim_laws : CapitalGateLaws sim.
Proof.
  refine {| cap_wf := sim_wf |}; cbn.
  - done.
  - intros c id sym side pnl q W. unfold sim_wf. by rewrite SimRecordFill_profile.
  - done.
  - intros c r W Pb _. by apply sim_approved_bounded.
  - intros c r H. unfold SimRequestCapital. unfold SimHalted in H. by rewrite H.
  - intros f c side sym base [= <-] Pb. unfold SimApplyCorrelationReduction.
    destruct (existsb _ _); [by apply attenuated_half|by apply attenuated_refl].
Defined.

(** ** The bar loop *)

Lemma simOpen_book s candle g : (simOpen (bookSignal (Runner := Runner) s candle g) <= 1 + simOpen s)%nat.
Proof.
  unfold bookSignal, simOpen. destruct (bool_decide _); cbn.
  - pose proof (size_insert_le (SimOpenLong s) (Symbol candle) (mget 0 (SimOpenLong s) (Symbol candle) + SigQuantity g)). lia.
  - pose proof (size_insert_le (SimOpenShort s) (Symbol candle) (mget 0 (SimOpenShort s) (Symbol candle) + SigQuantity g)). lia.
Qed.

Definition maxOpen (c : sim) : Z := Z.max 0 (MaxOpenPositions (default DefaultFTMOProfile (SimProfile c))).

(** Each emitted signal is a runner's signal with 0.2% taken off its quantity. *)
Definition emitted (candle : Candle) (regime : Z) (g : Signal) : Prop :=
  exists r r' raw, Evaluate r candle regime = (r', Some raw) /\
    g = withQuantity raw (SigQuantity raw * (1.0 - 0.002)).

Definition loop_ok (candle : Candle) (regime : Z) (p : option Profile)
    (acc : sim * gmap string Signal) : Prop :=
  SimProfile acc.1 = p /\ (Z.of_nat (simTotalOpen (Strategies acc.1)) <= maxOpen acc.1)%Z /\
  map_Forall (fun _ g => emitted candle regime g) acc.2.

Lemma evaluateOne_ok candle regime p acc id :
  loop_ok candle regime p acc -> loop_ok candle regime p (evaluateOne Evaluate candle regime acc id).
Proof.
  destruct acc as [c signals]. intros (Ep & B & HE). cbn [fst snd] in *. unfold evaluateOne.
  destruct (Strategies c !! id) as [s|] eqn:L; [|done].
  destruct (SimRunner s) as [r|]; [|done].
  destruct (Evaluate r candle regime) as [r' signal] eqn:Ev.
  set (s1 := withRunner s r'). set (c1 := mkPoolSim _ _ (<[id := s1]> (Strategies c))).
  assert (B1 : (simTotalOpen (Strategies c1) <= simTotalOpen (Strategies c))%nat).
  { apply (map_sum_replace simOpen (Strategies c) id s1 0). rewrite L. cbn. done. }
  assert (M1 : forall ps, maxOpen (mkPoolSim ps (SimProfile c) (<[id := s1]> (Strategies c))) = maxOpen c) by done.
  assert (K1 : loop_ok candle regime p (c1, signals)).
  { split; [done|]. split; [|done]. cbn [fst]. unfold c1 at 2. rewrite M1. lia. }
  destruct signal as [g|]; [|done].
  destruct (_ <=? _); [exact K1|]. destruct (_ <? DrawdownPct _ _); [done|].
  destruct (Z.leb_spec (MaxOpenPositions (default DefaultFTMOProfile (SimProfile c1)))
              (Z.of_nat (simTotalOpen (Strategies c1)))) as [|Lt]; [done|].
  destruct (simQuantity _ _ _ _ _ _ <? 1); [done|].
  split; [done|]. split; cbn [fst snd].
  - set (s2 := bookSignal s1 candle _).
    pose proof (map_sum_replace simOpen (Strategies c1) id s2 1) as R.
    assert (L1 : Strategies c1 !! id = Some s1) by (apply lookup_insert_eq). rewrite L1 in R.
    specialize (R (simOpen_book _ _ _)). unfold simTotalOpen in *. cbn [Strategies] in *.
    unfold maxOpen in *. cbn [SimProfile c1] in *. lia.
  - apply map_Forall_insert_2; [|done]. by exists r, r', g.
Qed.

(** One bar of the backtest pool: a halted pool emits nothing; otherwise, in
    whatever order the strategies are visited, the pool ends with at most
    [MaxOpenPositions] open entries if it started so; and the quantity the code
    computes from the balance, the position limit, the regime and the
    correlation only decides whether to trade: what is emitted is the runner's
    own quantity less 0.2%. *)
Theorem evaluate_all_bounded c candle regime order :
  (Z.of_nat (simTotalOpen (Strategies c)) <= maxOpen c)%Z ->
  let '(c', signals) := EvaluateAll Evaluate c candle regime order in
  (Pool.Halted (PoolState c) = true -> c' = c /\ signals = ∅) /\
  (Z.of_nat (simTotalOpen (Strategies c')) <= maxOpen c)%Z /\
  map_Forall (fun _ g => emitted candle regime g) signals.
Proof.
  intros B. unfold EvaluateAll. destruct (Pool.Halted (PoolState c)) eqn:H.
  { split; [done|]. split; [done|]. apply map_Forall_empty. }
  assert (K : forall l acc, loop_ok candle regime (SimProfile c) acc ->
    loop_ok candle regime (SimProfile c) (fold_left (evaluateOne Evaluate candle regime) l acc)).
  { induction l as [|id l IH]; intros acc Ha; [done|]. by apply IH, evaluateOne_ok. }
  specialize (K order (c, ∅)). destruct (fold_left _ order (c, ∅)) as [c' signals].
  destruct K as (Ep & B' & HE).
  - split; [done|]. split; [done|]. apply map_Forall_empty.
  - split; [done|]. split; [|done]. cbn [fst] in *. unfold maxOpen in *. by rewrite <- Ep.
Qed.
End PoolSimLaws.

(** A runner that always buys a million units, on a balance of 100000. *)
Definition greedy (r : unit) (c : Candle) (regime : Z) : unit * option Signal :=
  (r, Some (mkSignal "SPY" "BUY" 1000000 SignalEntry 0 "g" 0 0)).

Definition sim_pool : CapitalPoolSim unit :=
  AddStrategy (NewCapitalPoolSim (Some DefaultFTMOProfile) 100000) "g" (Some tt).

Definition flat_bar : Candle := mkCandle 0 10000000 10000000 10000000 10000000 1 "SPY" 1 "t" "g".

Lemma evaluate_all_bounded_witness :
  (Z.of_nat (simTotalOpen (Strategies (EvaluateAll greedy sim_pool flat_bar 0 ["g"%string]).1)) <= 5)%Z /\
  SigQuantity (default (mkSignal "" "" 0 SignalNone 0 "" 0 0)
     ((EvaluateAll greedy sim_pool flat_bar 0 ["g"%string]).2 !! "g"%string)) = 998000.
Proof.
  split; [|vm_compute; reflexivity].
  pose proof (evaluate_all_bounded greedy sim_pool flat_bar 0 ["g"%string]) as H.
  destruct (EvaluateAll greedy sim_pool flat_bar 0 ["g"%string]) as [c' signals].
  apply H. apply Z.leb_le. vm_compute. reflexivity.
Defined.
