(* ===== verification/Pipeline.v ===== *)
(** * The risk pipeline ([internal/risk/pipeline.go])

    [RiskPipeline] is written against the gate interfaces only; every theorem
    about it holds for all lawful gates, the live ones and the backtest ones.
    Nil gates are [None]; the reject counters of the monitor package are not
    part of the state. *)
From Stdlib Require Import ZArith Lia Bool Floats.
From S2P Require Import Prelude Float64 FloatRound FloatLaws PropFirm Sizing TradingControls Regime Gates.
From S2P Require Import SignalGate Enforcer CapitalPool.
Local Open Scope float_scope.
Local Open Scope go_scope.

Definition maxPositionPct : float64 := 0.02.
Definition maxTotalNotionalPct : float64 := 0.10.

Record ProcessSignalRequest := mkPSReq {
  PSStrategyID : string;
  PSSymbol : string;
  PSSide : string;
  PSPrice : float64;
  PSConfidence : float64;
  PSBaseSize : float64;
  PSExistingPosition : float64;
  PSRunningCapital : float64;
  PSAllowFractional : bool;
  PSIsExit : bool;
  PSDisableRegimeGate : bool
}.

Record ProcessSignalResult := mkPSRes { PSApproved : bool; PSSize : float64; PSReason : string }.

Definition psReject (reason : string) : ProcessSignalResult := mkPSRes false 0 reason.

(** [SanitizeTradePnL]: the PnL to book and whether it was changed. *)
Definition maxTradePnL (quantity entryPrice referenceCapital : float64) : float64 :=
  let maxByNotional := quantity * entryPrice * 0.50 in
  let maxByCapital := referenceCapital * 0.10 in
  let maxPnL := if maxByCapital <? maxByNotional then maxByCapital else maxByNotional in
  if maxPnL <? referenceCapital * 0.02 then referenceCapital * 0.02 else maxPnL.

Definition SanitizeTradePnL (pnl quantity entryPrice referenceCapital : float64) : float64 * bool :=
  if math.IsNaN pnl || math.IsInf pnl 0 then (0, true)
  else if math.Abs pnl >? maxTradePnL quantity entryPrice referenceCapital then (0, true)
  else (pnl, false).

Section Pipeline.
Context {S C P : Type} `{SignalGate S} `{CapitalGate C} `{PropFirmGate P}.

Record RiskPipeline := mkPipeline {
  SignalG : option S;
  Capital : option C;
  PropFirmG : option P;
  KellyMult : float64;
  RegimeMatrix : option RegimeActivationMatrix;
  CurrentRegime : Z;
  symbolNotional : gmap string float64
}.

Definition withSignal (p : RiskPipeline) (s : option S) : RiskPipeline :=
  mkPipeline s (Capital p) (PropFirmG p) (KellyMult p) (RegimeMatrix p) (CurrentRegime p) (symbolNotional p).
Definition withCapital (p : RiskPipeline) (c : option C) : RiskPipeline :=
  mkPipeline (SignalG p) c (PropFirmG p) (KellyMult p) (RegimeMatrix p) (CurrentRegime p) (symbolNotional p).
Definition withPropFirm (p : RiskPipeline) (f : option P) : RiskPipeline :=
  mkPipeline (SignalG p) (Capital p) f (KellyMult p) (RegimeMatrix p) (CurrentRegime p) (symbolNotional p).
Definition withNotional (p : RiskPipeline) (m : gmap string float64) : RiskPipeline :=
  mkPipeline (SignalG p) (Capital p) (PropFirmG p) (KellyMult p) (RegimeMatrix p) (CurrentRegime p) m.

(** Step 3b: the participation weight, [None] when the regime blocks. *)
Definition regimeWeight (p : RiskPipeline) (r : ProcessSignalRequest) : option float64 :=
  match RegimeMatrix p with
  | Some m =>
      if PSDisableRegimeGate r then Some 1.0
      else let w := ParticipationForRegime m (PSStrategyID r) (CurrentRegime p) in
           if w <=? 0 then None else Some w
  | None => Some 1.0
  end.

(** Step 4: the Kelly multiplier with its downward-only regime override. *)
Definition kellyOf (p : RiskPipeline) (r : ProcessSignalRequest) : float64 :=
  match RegimeMatrix p with
  | Some m =>
      if PSDisableRegimeGate r then KellyMult p
      else let k := KellyForRegime m (PSStrategyID r) (CurrentRegime p) in
           if (k >? 0) && (k <? KellyMult p) then k else KellyMult p
  | None => KellyMult p
  end.

(** Steps 4 and 4b: the attenuated size. *)
Definition sizeSignal (p : RiskPipeline) (r : ProcessSignalRequest) (weight : float64) : float64 :=
  let size := PSBaseSize r in
  let size := match SignalG p with
              | Some s => ApplySizing s size (PSRunningCapital r) (PSConfidence r)
              | None => size end in
  let size := size * weight in
  let size := size * kellyOf p r in
  match PropFirmG p, SoftHalt (P := P) with
  | Some f, Some (isSoft, mult) => if isSoft f then size * mult f else size
  | _, _ => size
  end.

(** Step 4c: the single-position notional cap. *)
Definition capNotional (r : ProcessSignalRequest) (size : float64) : float64 :=
  let maxNotional := PSRunningCapital r * maxPositionPct in
  if (size * PSPrice r >? maxNotional) && (maxNotional >? 0) then maxNotional / PSPrice r else size.

(** Step 4d: the per-symbol aggregate cap, [None] when nothing is left. *)
Definition capAggregate (r : ProcessSignalRequest) (existing size : float64) : option float64 :=
  let maxTotal := PSRunningCapital r * maxTotalNotionalPct in
  let total := existing + math.Abs (size * PSPrice r) in
  if (total >? maxTotal) && (maxTotal >? 0) then
    let available := maxTotal - existing in
    if available <=? 0 then None else Some (available / PSPrice r)
  else Some size.

(** Steps 6 to 7 of the capital gate: brake, authorisation, correlation, drawdown. *)
Definition authorise (p : RiskPipeline) (r : ProcessSignalRequest) (size : float64)
    : RiskPipeline * (float64 + ProcessSignalResult) :=
  match Capital p with
  | None => (p, inl size)
  | Some c =>
      let size := match HasOpenPosition (C := C) with
                  | Some has => if has c (PSSymbol r) (PSSide r) then size * 0.5 else size
                  | None => size end in
      let '(c, res) := RequestCapital c
        (mkRequest (PSStrategyID r) (PSConfidence r) (PSSymbol r) (PSSide r) size) in
      let p := withCapital p (Some c) in
      if ApprovedSize res <=? 0 then (p, inr (psReject ("capital:" +:+ ResReason res)))
      else
        let size := ApprovedSize res in
        let '(size, ok) := match ApplyCorrelationReduction (C := C) with
                           | Some f => let s := f c (PSSide r) (PSSymbol r) size in (s, negb (s <=? 0))
                           | None => (size, true) end in
        if negb ok then (p, inr (psReject "correlation_penalty"))
        else
          match PerStrategyDrawdown (C := C) with
          | Some dd => if dd c (PSStrategyID r) >? 0.05
                       then (p, inr (psReject ("per_strategy_drawdown:" +:+ PSStrategyID r)))
                       else (p, inl size)
          | None => (p, inl size)
          end
  end.

(** Steps 5 to 8, from the size left after the caps. *)
Definition finish (p : RiskPipeline) (r : ProcessSignalRequest) (size : float64)
    : RiskPipeline * ProcessSignalResult :=
  let exposureOk :=
    match SignalG p with
    | Some s => CheckExposure s (PSSymbol r) (PSSide r) (math.Abs (size * PSPrice r))
    | None => (true, ""%string) end in
  if negb exposureOk.1 then (p, psReject ("exposure:" +:+ exposureOk.2))
  else
    match authorise p r size with
    | (p, inr res) => (p, res)
    | (p, inl size) =>
        let size := match PropFirmG p with Some f => GetPositionSize f size | None => size end in
        let p := match SignalG p with
                 | Some s => if size >? 0
                             then withSignal p (Some (RecordExposure s (PSSymbol r) (PSSide r)
                                                        (math.Abs (size * PSPrice r))))
                             else p
                 | None => p end in
        (p, mkPSRes true size "ok")
    end.

Definition ProcessSignal (now : Z) (p : RiskPipeline) (r : ProcessSignalRequest)
    : RiskPipeline * ProcessSignalResult :=
  if PSIsExit r then (p, mkPSRes true (PSExistingPosition r) "exit")
  else
    let '(p, verdict) :=
      match SignalG p with
      | Some s => let '(s, v) := ValidateSignal now s (PSRunningCapital r) in (withSignal p (Some s), v)
      | None => (p, (true, ""%string)) end in
    if negb verdict.1 then (p, psReject ("signal:" +:+ verdict.2))
    else if match Capital p with Some c => CapHalted c | None => false end
    then (p, psReject ("pool_halted:" +:+ match Capital p with Some c => CapHaltReason c | None => ""%string end))
    else if match PropFirmG p with Some f => IsHalted f | None => false end
    then (p, psReject ("propfirm_halted:" +:+ match PropFirmG p with Some f => PFHaltReason f | None => ""%string end))
    else match regimeWeight p r with
    | None => (p, psReject "regime_blocked")
    | Some weight =>
        if PSBaseSize r <=? 0 then (p, psReject "size_zero")
        else
          let size := sizeSignal p r weight in
          if size <=? 0 then (p, psReject "size_zero_after_sizing")
          else
            let size := capNotional r size in
            let existing := mget 0 (symbolNotional p) (PSSymbol r) in
            match capAggregate r existing size with
            | None => (p, psReject "aggregate_notional_cap:max_reached")
            | Some size =>
                let p := withNotional p
                  (<[PSSymbol r := existing + math.Abs (size * PSPrice r)]> (symbolNotional p)) in
                finish p r size
            end
    end.

(** *** Fills *)

Definition capitalBalance (p : RiskPipeline) : float64 :=
  match Capital p with Some c => TotalBalance c | None => 0 end.

Definition bookFill (p : RiskPipeline) (strategyID symbol side : string) (pnl quantity : float64)
    : RiskPipeline :=
  match Capital p with
  | Some c => withCapital p (Some (RecordFill c strategyID symbol side pnl quantity))
  | None => p
  end.

(** The last two steps of both reconciliations. *)
Definition releaseExposure (p : RiskPipeline) (symbol side : string) (quantity price : float64)
    : RiskPipeline :=
  let n := mget 0 (symbolNotional p) symbol - math.Abs (quantity * price) in
  let p := withNotional p (<[symbol := if n <? 0 then 0 else n]> (symbolNotional p)) in
  match SignalG p with
  | Some s => withSignal p (Some (RemoveExposure s symbol side (math.Abs (quantity * price))))
  | None => p
  end.

Definition notifyPropFirm (now : Z) (p : RiskPipeline) (pnl : float64) : RiskPipeline :=
  match PropFirmG p, Capital p with
  | Some f, Some c =>
      let f := OnFill now f pnl (TotalBalance c) in
      let '(f, (ok, reason)) := CheckDailyLimits now f in
      withPropFirm p (Some (if ok then f else MarkViolated f reason))
  | _, _ => p
  end.

Definition ReconcileFill (now : Z) (p : RiskPipeline) (strategyID symbol side : string)
    (pnl quantity price : float64) : RiskPipeline :=
  let '(safePnL, _) := SanitizeTradePnL pnl quantity price (capitalBalance p) in
  let p := bookFill p strategyID symbol side safePnL quantity in
  let p := notifyPropFirm now p safePnL in
  releaseExposure p symbol side quantity price.

Definition ReconcileFillWithoutPropFirm (p : RiskPipeline) (strategyID symbol side : string)
    (pnl quantity price : float64) : RiskPipeline :=
  let '(safePnL, _) := SanitizeTradePnL pnl quantity price (capitalBalance p) in
  let p := bookFill p strategyID symbol side safePnL quantity in
  releaseExposure p symbol side quantity price.
End Pipeline.
Arguments RiskPipeline : clear implicits.

(** ** Sizing laws *)
Section SizingLaws.
Local Open Scope Z_scope.

(** The price of a signal: finite and positive. *)
Definition price_ok (p : float64) : Prop := ffin p = true /\ 0 < fv p.

Lemma abs_pos0 x : ffin x = true -> pos0 (math.Abs x).
Proof. apply pos0_abs. Qed.

(** A product with a smaller size is smaller, and as finite. *)
Lemma mul_price_mono base s p :
  pos0 base -> attenuated base s -> price_ok p -> ffin (base * p)%float = true ->
  pos0 (s * p)%float /\ fv (s * p)%float <= fv (base * p)%float.
Proof.
  intros Pb [Ps Ls] [Fp Hp] Fb. assert (Pp : pos0 p) by (split; [done|lia]).
  pose proof (mul_mono_l s base p (pos0_fin _ Ps) (pos0_fin _ Pb) Pp Ls) as L.
  destruct (mul_pos0 s p Ps Pp) as [N H].
  split; [|done]. split; [|done].
  apply (ffin_between 0%float _ (base * p)%float); [done|done|done|rewrite fv_zero_lit; lia].
Qed.

Lemma fv_abs_nn x : 0 <= fv x -> fv (math.Abs x) = fv x.
Proof. intros H. unfold math.Abs. rewrite fv_abs. lia. Qed.

Lemma div_price_mono a b p :
  pos0 a -> pos0 b -> fv a <= fv b -> price_ok p -> ffin (b / p)%float = true ->
  pos0 (a / p)%float /\ fv (a / p)%float <= fv (b / p)%float.
Proof.
  intros Pa Pb L [Fp Hp] Fb.
  pose proof (div_mono_l a b p (pos0_fin _ Pa) (pos0_fin _ Pb) Fp Hp L) as M.
  destruct (div_sign a p (pos0_fin _ Pa) Fp Hp) as (N & G & _). specialize (G (proj2 Pa)).
  split; [|done]. split; [|done].
  apply (ffin_between 0%float _ (b / p)%float); [done|done|done|rewrite fv_zero_lit; lia].
Qed.

(** Step 4c never raises a size. *)
Lemma capNotional_attenuated r s :
  pos0 s -> price_ok (PSPrice r) -> ffin (s * PSPrice r)%float = true ->
  attenuated s (capNotional r s) /\
  ((0 <? PSRunningCapital r * maxPositionPct)%float = true ->
     (capNotional r s * PSPrice r <=? PSRunningCapital r * maxPositionPct)%float = true \/
     capNotional r s = (PSRunningCapital r * maxPositionPct / PSPrice r)%float).
Proof.
  intros Ps [Fp Hp] Fsp. unfold capNotional. set (m := (PSRunningCapital r * maxPositionPct)%float).
  destruct (m <? s * PSPrice r)%float eqn:E; cbn [andb].
  - destruct (0 <? m)%float eqn:Em; [|split; [by apply attenuated_refl|done]].
    split; [|by right].
    apply ltb_true in E as (Nm & _ & E). apply ltb_true in Em as (_ & _ & Em). rewrite fv_zero_lit in Em.
    assert (Fm : ffin m = true)
      by (apply (ffin_between 0%float _ (s * PSPrice r)%float); [done|done|done|rewrite fv_zero_lit; lia]).
    pose proof (mul_nearest s (PSPrice r) (pos0_fin _ Ps) Fp) as N. fold onev in N.
    assert (G : fv m * onev < fv s * fv (PSPrice r)).
    { destruct (Z.lt_ge_cases (fv m * onev) (fv s * fv (PSPrice r))) as [|G]; [done|].
      pose proof (nearest_le _ _ _ m onev_pos N (ffin_nan _ Fm) ltac:(lia)). lia. }
    pose proof (div_nearest m (PSPrice r) Fm Fp ltac:(lia)) as D.
    rewrite Z.sgn_pos, Z.mul_1_r, Z.abs_eq in D by lia. fold onev in D.
    assert (U : fv (m / PSPrice r)%float <= fv s)
      by (apply (nearest_le _ _ _ s Hp D (pos0_nan _ Ps)); lia).
    destruct (div_sign m (PSPrice r) Fm Fp Hp) as (Nd & Gd & _). specialize (Gd ltac:(lia)).
    split; [|done]. split; [|done].
    apply (ffin_between 0%float _ s); [done|apply Ps|done|rewrite fv_zero_lit; lia].
  - split; [by apply attenuated_refl|]. intros (_ & Nm & _)%ltb_true. left.
    rewrite leb_fv_nn by (done || by apply ffin_nan). apply Z.leb_le.
    by apply ltb_false in E; [|done|by apply ffin_nan].
Qed.

(** Step 4d: at most one multiplication and division by the price away. *)
Lemma capAggregate_bounded r existing s s' :
  pos0 s -> price_ok (PSPrice r) -> ffin (s * PSPrice r)%float = true ->
  ffin (s * PSPrice r / PSPrice r)%float = true ->
  capAggregate r existing s = Some s' ->
  pos0 s' /\ (s' = s \/ fv s' <= fv (s * PSPrice r / PSPrice r)%float).
Proof.
  intros Ps Hpr Fsp Fd. unfold capAggregate.
  set (m := (PSRunningCapital r * maxTotalNotionalPct)%float).
  destruct (m <? existing + math.Abs (s * PSPrice r))%float eqn:E; cbn [andb];
    [|intros [= <-]; split; [done|by left]].
  destruct (0 <? m)%float eqn:Em; [|intros [= <-]; split; [done|by left]].
  destruct (m - existing <=? 0)%float eqn:Ea; [done|]. intros [= <-].
  assert (Psp : pos0 (s * PSPrice r)%float).
  { split; [done|]. destruct Hpr as [Fp Hp].
    apply (mul_pos0 s (PSPrice r) Ps). split; [done|lia]. }
  assert (Fm : ffin m = true).
  { apply ltb_true in Em as (_ & Nm & Hm). rewrite fv_zero_lit in Hm.
    destruct (ffin m) eqn:F; [done|]. rewrite (nonfin_pos m Nm F) in E by lia.
    apply ltb_true in E as (_ & _ & E). pose proof (fv_range (existing + math.Abs (s * PSPrice r))%float).
    replace (fv infinity) with fmaxv in E by (vm_compute; reflexivity). lia. }
  assert (Pabs : pos0 (math.Abs (s * PSPrice r))) by (by apply pos0_abs).
  pose proof (headroom_le m existing _ Fm Pabs E) as A.
  assert (Hd : (m - existing <? 0)%float = false).
  { destruct (m - existing <? 0)%float eqn:X; [|done].
    apply ltb_true in X as (N1 & N2 & X). exfalso.
    assert (m - existing <=? 0 = true)%float by (apply leb_true; split; [exact N1|split; [reflexivity|lia]]). congruence. }
  rewrite Hd in A. destruct A as [Pa La]. rewrite fv_abs_nn in La by apply Psp.
  destruct (div_price_mono _ _ _ Pa Psp La Hpr Fd) as [Pq Lq]. split; [done|by right].
Qed.
End SizingLaws.

Lemma mul_mono_r x a b :
  pos0 x -> ffin a = true -> ffin b = true -> (fv a < fv b)%Z ->
  (fv (x * a)%float <= fv (x * b)%float)%Z.
Proof.
  intros [Fx Hx] Fa Fb H. pose proof (mul_nearest x a Fx Fa) as Na.
  pose proof (mul_nearest x b Fx Fb) as Nb. fold onev in Na, Nb. pose proof onev_pos as O.
  destruct (Z.eq_dec (fv x) 0%Z) as [Ex|Ex].
  - rewrite Ex, Z.mul_0_l in Na, Nb. rewrite (nearest_zero _ _ O Na), (nearest_zero _ _ O Nb). lia.
  - apply (nearest_mono _ _ _ _ _ O Na Nb). nia.
Qed.

Lemma mul_half_nan x : fnan x = false -> fnan (x * 0.50) = false.
Proof.
  intros N. destruct (ffin x) eqn:F; [by destruct (mul_nearest x 0.50 F eq_refl)|].
  unfold ffin, finf, fnan in *. rewrite mul_spec.
  destruct (Prim2SF x) as [s|s| |s m e]; [discriminate F| |discriminate N|discriminate F].
  vm_compute. reflexivity.
Qed.

(** The largest PnL that is booked is at most 10% of the reference capital. *)
Lemma maxTradePnL_le q price ref :
  pos0 ref -> fnan (q * price) = false ->
  fnan (maxTradePnL q price ref) = false /\ (fv (maxTradePnL q price ref) <= fv (ref * 0.10))%Z.
Proof.
  intros Pr Nq. unfold maxTradePnL. pose proof (mul_half_nan _ Nq) as Nh.
  set (n := q * price * 0.50) in *.
  assert (L : (fv (ref * 0.02) <= fv (ref * 0.10))%Z)
    by (apply mul_mono_r; [done|done|done|apply Z.ltb_lt; vm_compute; reflexivity]).
  destruct (mul_nearest ref 0.02 (pos0_fin _ Pr) eq_refl) as [N2 _].
  destruct (mul_nearest ref 0.10 (pos0_fin _ Pr) eq_refl) as [N10 _].
  destruct (ref * 0.10 <? n) eqn:E; [destruct (ref * 0.10 <? ref * 0.02); split; (done || lia)|].
  apply ltb_false in E; [|done..]. destruct (n <? ref * 0.02); split; (done || lia).
Qed.

Lemma sanitize_outsized pnl q price ref :
  pos0 ref -> fnan (q * price) = false ->
  (ref * 0.10 <? math.Abs pnl) = true \/ math.IsNaN pnl = true ->
  (SanitizeTradePnL pnl q price ref).1 = 0.
Proof.
  intros Pr Nq H. destruct (maxTradePnL_le q price ref Pr Nq) as [N L]. unfold SanitizeTradePnL.
  destruct (math.IsNaN pnl); [done|]. destruct (math.IsInf pnl 0%Z); [done|]. cbn [orb].
  destruct H as [(_ & Na & H)%ltb_true|H]; [|discriminate].
  destruct (maxTradePnL q price ref <? math.Abs pnl) eqn:E; [done|].
  apply ltb_false in E; [lia|done|done].
Qed.

Section PipelineLaws.
Context {S C P : Type} `{SignalGateLaws S} `{CapitalGateLaws C} `{PropFirmGateLaws P}.
#[local] Abbreviation pipeline := (RiskPipeline S C P).

(** Lawful gates, a well-formed regime matrix and a base Kelly factor in [0,1]. *)
Definition pipeline_wf (p : pipeline) : Prop :=
  (forall s, SignalG p = Some s -> sg_wf s) /\ (forall c, Capital p = Some c -> cap_wf c) /\
  (forall f, PropFirmG p = Some f -> pf_wf f) /\
  (forall m, RegimeMatrix p = Some m -> wf_matrix m) /\ unit0 (KellyMult p).

Lemma regimeWeight_unit (p : pipeline) r w : pipeline_wf p -> regimeWeight p r = Some w -> unit0 w.
Proof.
  intros (_ & _ & _ & W & _). unfold regimeWeight.
  assert (U1 : unit0 1) by (apply unit0_lit; vm_compute; reflexivity).
  destruct (RegimeMatrix p) as [m|]; [|by intros [= <-]].
  destruct (PSDisableRegimeGate r); [by intros [= <-]|].
  destruct (_ <=? 0); [done|]. intros [= <-]. apply participation_unit. by apply W.
Qed.

Lemma kellyOf_unit (p : pipeline) r : pipeline_wf p -> unit0 (kellyOf p r).
Proof.
  intros (_ & _ & _ & _ & U). unfold kellyOf. destruct (RegimeMatrix p) as [m|]; [|exact U].
  destruct (PSDisableRegimeGate r); [exact U|]. set (k := KellyForRegime _ _ _).
  destruct (0 <? k) eqn:E1; [|exact U]. destruct (k <? KellyMult p) eqn:E2; [|exact U]. cbn.
  apply ltb_true in E1 as (_ & Nk & L). apply ltb_true in E2 as (_ & _ & G). rewrite fv_zero_lit in L.
  destruct U as [Fk Bk]. split; [|lia].
  apply (ffin_between 0 _ (KellyMult p)); [done|done|done|rewrite fv_zero_lit; lia].
Qed.

Lemma sizeSignal_attenuated (p : pipeline) r w :
  pipeline_wf p -> unit0 w -> pos0 (PSBaseSize r) -> (0 <=? PSConfidence r) = true ->
  attenuated (PSBaseSize r) (sizeSignal p r w).
Proof.
  intros W Uw Pb Hc. pose proof (kellyOf_unit p r W) as Uk. unfold sizeSignal.
  set (z := match SignalG p with
            | Some s => ApplySizing s (PSBaseSize r) (PSRunningCapital r) (PSConfidence r)
            | None => PSBaseSize r end).
  assert (A0 : attenuated (PSBaseSize r) z).
  { unfold z. destruct (SignalG p) as [s|] eqn:E; [|by apply attenuated_refl].
    apply sg_sizing_bounded; [by apply W|done|done]. }
  clearbody z.
  pose proof (attenuated_mul _ _ _ Uk (attenuated_mul _ _ _ Uw A0)) as A1.
  destruct (PropFirmG p) as [f|]; [|exact A1].
  destruct (SoftHalt (P := P)) as [[isSoft mult]|] eqn:ES; [|exact A1].
  destruct (isSoft f); [|exact A1]. apply attenuated_mul; [|exact A1]. by apply (pf_soft_unit isSoft).
Qed.

Lemma authorise_attenuated (p : pipeline) r s p' s' :
  pipeline_wf p -> pos0 s -> (0 <=? PSConfidence r) = true ->
  authorise p r s = (p', inl s') ->
  attenuated s s' /\ SignalG p' = SignalG p /\ PropFirmG p' = PropFirmG p.
Proof.
  intros W Ps Hc. unfold authorise. destruct (Capital p) as [c|] eqn:Ec;
    [|intros [= <- <-]; split; [by apply attenuated_refl|done]].
  set (s1 := match HasOpenPosition with Some _ => _ | None => s end).
  assert (A1 : attenuated s s1).
  { unfold s1. destruct HasOpenPosition as [has|]; [|by apply attenuated_refl].
    destruct (has c _ _); [by apply attenuated_half|by apply attenuated_refl]. }
  set (rq := mkRequest _ _ _ _ s1).
  pose proof (cap_approved_bounded c rq (proj1 (proj2 W) c Ec) (proj1 A1) Hc) as A2.
  destruct (RequestCapital c rq) as [c' res]. cbn [snd ReqBaseSize rq] in A2.
  destruct (ApprovedSize res <=? 0); [done|].
  assert (A3 : attenuated s (ApprovedSize res)) by (by apply (attenuated_trans _ s1)).
  destruct (ApplyCorrelationReduction) as [f|] eqn:Ef.
  - pose proof (cap_correlation_bounded f c' (PSSide r) (PSSymbol r) _ Ef (proj1 A3)) as A4.
    destruct (negb (negb _)); [done|].
    assert (A5 : attenuated s (f c' (PSSide r) (PSSymbol r) (ApprovedSize res)))
      by (by apply (attenuated_trans _ (ApprovedSize res))).
    destruct PerStrategyDrawdown as [dd|]; [destruct (_ <? dd _ _); [done|]|];
      intros [= <- <-]; split; done.
  - cbn [negb]. destruct PerStrategyDrawdown as [dd|]; [destruct (_ <? dd _ _); [done|]|];
      intros [= <- <-]; split; done.
Qed.

Lemma finish_attenuated (p : pipeline) r s p' res :
  pipeline_wf p -> pos0 s -> (0 <=? PSConfidence r) = true ->
  finish p r s = (p', res) -> PSApproved res = true -> attenuated s (PSSize res).
Proof.
  intros W Ps Hc. unfold finish.
  destruct (negb _); [intros [= <- <-]; done|].
  destruct (authorise p r s) as [p1 [s1|res1]] eqn:EA.
  - destruct (authorise_attenuated p r s p1 s1 W Ps Hc EA) as (A1 & _ & EF).
    intros [= <- <-] _. cbn [PSSize].
    destruct (PropFirmG p1) as [f|] eqn:Ef; [|done].
    apply (attenuated_trans _ s1); [done|]. apply pf_size_bounded; [|apply A1].
    apply W. by rewrite <- EF.
  - intros [= <- <-]. unfold authorise in EA. destruct (Capital p) as [c|]; [|done].
    destruct (RequestCapital _ _) as [c' rs]. destruct (_ <=? 0); [by simplify_eq|].
    destruct (match ApplyCorrelationReduction with Some f => _ | None => _ end) as [z b].
    destruct (negb b); [by simplify_eq|].
    destruct PerStrategyDrawdown; [|done]. destruct (_ <? _); by simplify_eq.
Qed.

Lemma withSignal_wf (p : pipeline) s : pipeline_wf p -> sg_wf s -> pipeline_wf (withSignal p (Some s)).
Proof. intros (W1 & W2 & W3 & W4 & W5) Ws. split; [by intros ? [= <-]|]. done. Qed.

Lemma withNotional_wf (p : pipeline) m : pipeline_wf p -> pipeline_wf (withNotional p m).
Proof. done. Qed.

(** The pipeline after [ValidateSignal], and its verdict. *)
Definition validated (now : Z) (p : pipeline) (r : ProcessSignalRequest) : pipeline * (bool * string) :=
  match SignalG p with
  | Some s => let '(s, v) := ValidateSignal now s (PSRunningCapital r) in (withSignal p (Some s), v)
  | None => (p, (true, ""%string)) end.

Lemma validated_wf now p r : pipeline_wf p -> pipeline_wf (validated now p r).1.
Proof.
  intros W. unfold validated. destruct (SignalG p) as [s|] eqn:E; [|done].
  pose proof (sg_wf_validate now s (PSRunningCapital r) (proj1 W s E)) as Ws.
  destruct (ValidateSignal now s _) as [s' v]. by apply withSignal_wf.
Qed.

Lemma validated_others now p r :
  Capital (validated now p r).1 = Capital p /\ PropFirmG (validated now p r).1 = PropFirmG p /\
  symbolNotional (validated now p r).1 = symbolNotional p /\
  RegimeMatrix (validated now p r).1 = RegimeMatrix p.
Proof.
  unfold validated. destruct (SignalG p); [|done]. by destruct (ValidateSignal _ _ _).
Qed.
End PipelineLaws.

(** ** Claims, for all lawful gates *)
Section PipelineClaims.
Context {S C P : Type} `{SignalGateLaws S} `{CapitalGateLaws C} `{PropFirmGateLaws P}.
#[local] Abbreviation pipeline := (RiskPipeline S C P).

(** [ProcessSignal] on an entry, step by step. *)
Lemma ProcessSignal_entry now (p : pipeline) r :
  PSIsExit r = false ->
  ProcessSignal now p r =
    let '(p, verdict) := validated now p r in
    if negb verdict.1 then (p, psReject ("signal:" +:+ verdict.2))
    else if match Capital p with Some c => CapHalted c | None => false end
    then (p, psReject ("pool_halted:" +:+ match Capital p with Some c => CapHaltReason c | None => ""%string end))
    else if match PropFirmG p with Some f => IsHalted f | None => false end
    then (p, psReject ("propfirm_halted:" +:+ match PropFirmG p with Some f => PFHaltReason f | None => ""%string end))
    else match regimeWeight p r with
    | None => (p, psReject "regime_blocked")
    | Some weight =>
        if PSBaseSize r <=? 0 then (p, psReject "size_zero")
        else
          let size := sizeSignal p r weight in
          if size <=? 0 then (p, psReject "size_zero_after_sizing")
          else
            let size := capNotional r size in
            let existing := mget 0 (symbolNotional p) (PSSymbol r) in
            match capAggregate r existing size with
            | None => (p, psReject "aggregate_notional_cap:max_reached")
            | Some size =>
                finish (withNotional p
                  (<[PSSymbol r := existing + math.Abs (size * PSPrice r)]> (symbolNotional p))) r size
            end
    end.
Proof. intros E. unfold ProcessSignal, validated. by rewrite E. Qed.

Lemma withCapital_wf (p : pipeline) c : pipeline_wf p -> cap_wf c -> pipeline_wf (withCapital p (Some c)).
Proof. intros (W1 & W2 & W3 & W4 & W5) Wc. split; [done|]. split; [by intros ? [= <-]|]. done. Qed.

Lemma authorise_wf (p : pipeline) r s : pipeline_wf p -> pipeline_wf (authorise p r s).1.
Proof.
  intros W. unfold authorise. destruct (Capital p) as [c|] eqn:Ec; [|done]. cbv zeta.
  match goal with |- context [RequestCapital c ?q] =>
    pose proof (cap_wf_request c q (proj1 (proj2 W) c Ec)) as Wc; destruct (RequestCapital c q) as [c' res] end.
  cbn [fst] in Wc. pose proof (withCapital_wf p c' W Wc) as W'. by repeat case_match.
Qed.

Lemma finish_wf (p : pipeline) r s : pipeline_wf p -> pipeline_wf (finish p r s).1.
Proof.
  intros W. unfold finish. destruct (negb _); [done|]. pose proof (authorise_wf p r s W) as W'.
  destruct (authorise p r s) as [q [z|res]]; [|done]. cbn [fst] in *.
  destruct (SignalG q) as [g|] eqn:E; [|done]. destruct (_ <? _); [|done].
  apply withSignal_wf; [done|]. apply sg_wf_record. by apply W'.
Qed.

(** Lawful gates stay lawful. *)
Lemma ProcessSignal_wf now (p : pipeline) r : pipeline_wf p -> pipeline_wf (ProcessSignal now p r).1.
Proof.
  intros W. destruct (PSIsExit r) eqn:Ex; [unfold ProcessSignal; by rewrite Ex|].
  rewrite ProcessSignal_entry by done. pose proof (validated_wf now p r W) as Wv.
  destruct (validated now p r) as [q [ok why]]. cbn [fst] in Wv.
  destruct (negb _); [done|]. destruct (match Capital q with Some c => _ | None => _ end); [done|].
  destruct (match PropFirmG q with Some f => _ | None => _ end); [done|].
  destruct (regimeWeight q r); [|done]. destruct (_ <=? _); [done|]. cbv zeta. destruct (_ <=? _); [done|].
  destruct (capAggregate _ _ _); [|done]. by apply finish_wf.
Qed.

(** The sizing bound of an approved entry. *)
Definition size_bounded (r : ProcessSignalRequest) (q : float64) : Prop :=
  pos0 q /\
  exists x, attenuated (PSBaseSize r) x /\
    ((PSRunningCapital r * maxPositionPct >? 0) = true ->
       (x * PSPrice r <=? PSRunningCapital r * maxPositionPct) = true \/
       x = PSRunningCapital r * maxPositionPct / PSPrice r) /\
    ((q <=? x) = true \/ (q <=? x * PSPrice r / PSPrice r) = true).

(** A request whose notional is representable. *)
Record request_ok (r : ProcessSignalRequest) : Prop := {
  rq_base : pos0 (PSBaseSize r);
  rq_conf : (0 <=? PSConfidence r) = true;
  rq_price : price_ok (PSPrice r);
  rq_notional : ffin (PSBaseSize r * PSPrice r) = true /\ ffin (PSBaseSize r * PSPrice r / PSPrice r) = true;
  rq_entry : PSIsExit r = false
}.

Lemma ProcessSignal_bounded now (p : pipeline) r p' res :
  pipeline_wf p -> request_ok r -> ProcessSignal now p r = (p', res) -> PSApproved res = true ->
  size_bounded r (PSSize res).
Proof.
  intros W [Pb Hc Hp [Fbp Fbpp] Hx] HPS HA. rewrite ProcessSignal_entry in HPS by done.
  pose proof (validated_wf now p r W) as Wv. destruct (validated now p r) as [q [ok why]]. cbn [fst] in Wv.
  destruct (negb _); [by simplify_eq|]. destruct (match Capital q with Some c => _ | None => false end); [by simplify_eq|].
  destruct (match PropFirmG q with Some f => _ | None => false end); [by simplify_eq|].
  destruct (regimeWeight q r) as [w|] eqn:Ew; [|by simplify_eq].
  destruct (PSBaseSize r <=? 0); [by simplify_eq|].
  pose proof (sizeSignal_attenuated q r w Wv (regimeWeight_unit q r w Wv Ew) Pb Hc) as A0.
  cbv zeta in HPS. set (s0 := sizeSignal q r w) in *. destruct (s0 <=? 0); [by simplify_eq|].
  destruct (mul_price_mono _ _ _ Pb A0 Hp Fbp) as [P0 _].
  destruct (capNotional_attenuated r s0 (proj1 A0) Hp (pos0_fin _ P0)) as [A1 N1].
  pose proof (attenuated_trans _ _ _ A0 A1) as A2. set (x := capNotional r s0) in *.
  destruct (mul_price_mono _ _ _ Pb A2 Hp Fbp) as [P1 L1].
  assert (Pbp : pos0 (PSBaseSize r * PSPrice r)).
  { apply (mul_price_mono _ _ _ Pb (attenuated_refl _ Pb) Hp Fbp). }
  destruct (div_price_mono _ _ _ P1 Pbp L1 Hp Fbpp) as [P2 _].
  destruct (capAggregate r _ x) as [s2|] eqn:E2; [|by simplify_eq].
  destruct (capAggregate_bounded _ _ _ _ (proj1 A2) Hp (pos0_fin _ P1) (pos0_fin _ P2) E2) as [Ps2 B2].
  pose proof (finish_attenuated _ r s2 p' res (withNotional_wf q _ Wv) Ps2 Hc HPS HA) as [Pr Lr].
  split; [done|]. exists x. split; [done|]. split; [done|].
  destruct B2 as [->|B2]; [left|right]; rewrite leb_fv_nn by (by apply pos0_nan); apply Z.leb_le; lia.
Qed.

(** C1: for all lawful gates the pipeline never amplifies an order: an approved
    entry is at most some size [x] not above the strategy's base size, or [x]
    put through one multiplication and division by the price; and [x] respects
    the 2% single-position notional cap (or is the quotient that enforces it). *)
Theorem approved_size_bounded now (p : pipeline) r p' res :
  pipeline_wf p -> pos0 (PSBaseSize r) -> (0 <=? PSConfidence r) = true -> price_ok (PSPrice r) ->
  ffin (PSBaseSize r * PSPrice r) = true -> ffin (PSBaseSize r * PSPrice r / PSPrice r) = true ->
  PSIsExit r = false -> ProcessSignal now p r = (p', res) -> PSApproved res = true ->
  pos0 (PSSize res) /\
  exists x, attenuated (PSBaseSize r) x /\
    ((PSRunningCapital r * maxPositionPct >? 0) = true ->
       (x * PSPrice r <=? PSRunningCapital r * maxPositionPct) = true \/
       x = PSRunningCapital r * maxPositionPct / PSPrice r) /\
    ((PSSize res <=? x) = true \/ (PSSize res <=? x * PSPrice r / PSPrice r) = true).
Proof. intros W Pb Hc Hp Fbp Fbpp Hx. by apply ProcessSignal_bounded. Qed.

(** A halted pool or a halted prop-firm gate stops every entry: nothing is
    approved, and neither gate nor the notional books change; an exit is always
    approved at the open quantity and changes nothing. *)
Theorem halted_gates_stop_entries now (p : pipeline) r :
  (PSIsExit r = true -> ProcessSignal now p r = (p, mkPSRes true (PSExistingPosition r) "exit")) /\
  (PSIsExit r = false ->
   (exists c, Capital p = Some c /\ CapHalted c = true) \/
   (exists f, PropFirmG p = Some f /\ IsHalted f = true) ->
   let '(p', res) := ProcessSignal now p r in
   PSApproved res = false /\ Capital p' = Capital p /\ PropFirmG p' = PropFirmG p /\
   symbolNotional p' = symbolNotional p).
Proof.
  split; [intros E; unfold ProcessSignal; by rewrite E|].
  intros Hx Hh. rewrite ProcessSignal_entry by done.
  destruct (validated_others now p r) as (Ec & Ef & En & _).
  destruct (validated now p r) as [q [ok why]]. cbn [fst] in *.
  destruct (negb _); [done|]. rewrite Ec, Ef. destruct Hh as [(c & E1 & E2)|(f & E1 & E2)].
  - rewrite E1, E2. split; [done|]. rewrite <- E1. done.
  - destruct (match Capital p with Some c => CapHalted c | None => false end); [done|].
    rewrite E1, E2. split; [done|]. rewrite <- E1. done.
Qed.

(** The aggregate notional cap counts rejected orders: once a signal passes
    the caps its notional is booked against the symbol, and no later verdict
    (exposure, capital, correlation, drawdown) takes it back. *)
Theorem rejected_orders_consume_notional now (p : pipeline) r q w s :
  PSIsExit r = false -> validated now p r = (q, (true, ""%string)) ->
  (forall c, Capital p = Some c -> CapHalted c = false) ->
  (forall f, PropFirmG p = Some f -> IsHalted f = false) ->
  regimeWeight q r = Some w -> (PSBaseSize r <=? 0) = false -> (sizeSignal q r w <=? 0) = false ->
  capAggregate r (mget 0 (symbolNotional p) (PSSymbol r)) (capNotional r (sizeSignal q r w)) = Some s ->
  mget 0 (symbolNotional (ProcessSignal now p r).1) (PSSymbol r) =
    mget 0 (symbolNotional p) (PSSymbol r) + math.Abs (s * PSPrice r).
Proof.
  intros Hx Hv Hc Hf Hw Hb Hs Ha. rewrite ProcessSignal_entry by done.
  destruct (validated_others now p r) as (Ec & Ef & En & _). rewrite Hv in *. cbn [fst snd negb] in *.
  assert (E1 : match Capital q with Some c => CapHalted c | None => false end = false).
  { destruct (Capital q) as [c|] eqn:E; [|done]. apply Hc. congruence. }
  assert (E2 : match PropFirmG q with Some f => IsHalted f | None => false end = false).
  { destruct (PropFirmG q) as [f|] eqn:E; [|done]. apply Hf. congruence. }
  rewrite E1, E2, Hw, Hb. cbv zeta. rewrite Hs, En, Ha.
  set (q1 := withNotional q _).
  assert (A : forall (k : pipeline) z, symbolNotional (authorise k r z).1 = symbolNotional k).
  { intros k z. unfold authorise. destruct (Capital k); [|done]. destruct (RequestCapital _ _) as [c' rs].
    destruct (ApprovedSize rs <=? 0); [done|].
    destruct (match ApplyCorrelationReduction with Some f => _ | None => _ end) as [y b].
    destruct (negb b); [done|]. destruct PerStrategyDrawdown as [dd|]; [|done].
    by destruct (_ <? dd _ _). }
  assert (F : symbolNotional (finish q1 r s).1 = symbolNotional q1).
  { unfold finish. destruct (negb _); [done|]. pose proof (A q1 s) as Aq.
    destruct (authorise q1 r s) as [k [z|y]]; cbn [fst] in Aq; [|done].
    rewrite <- Aq. cbn [fst]. destruct (SignalG k); [|done]. by destruct (0 <? _). }
  rewrite F. cbn. apply mget_insert_eq.
Qed.

(** An outsized loss is booked as no loss: a PnL larger than 10% of the
    balance (and a NaN) leaves the pool, the prop-firm gate and the
    exposure books exactly as a break-even fill would, with or without the
    prop-firm step. *)
Theorem outsized_loss_booked_as_zero now (p : pipeline) id sym side pnl q price :
  pos0 (capitalBalance p) -> fnan (q * price) = false ->
  (capitalBalance p * 0.10 <? math.Abs pnl) = true \/ math.IsNaN pnl = true ->
  ReconcileFill now p id sym side pnl q price = ReconcileFill now p id sym side 0 q price /\
  ReconcileFillWithoutPropFirm p id sym side pnl q price =
    ReconcileFillWithoutPropFirm p id sym side 0 q price.
Proof.
  intros Pb Nq Hb. pose proof (sanitize_outsized pnl q price _ Pb Nq Hb) as E.
  assert (Z0 : (SanitizeTradePnL 0 q price (capitalBalance p)).1 = 0).
  { unfold SanitizeTradePnL. cbn [orb math.IsNaN]. by destruct (maxTradePnL _ _ _ <? _). }
  unfold ReconcileFill, ReconcileFillWithoutPropFirm.
  destruct (SanitizeTradePnL pnl q price (capitalBalance p)) as [x b].
  destruct (SanitizeTradePnL 0 q price (capitalBalance p)) as [y b']. cbn in E, Z0. by subst.
Qed.
End PipelineClaims.

(** Wired to the backtest enforcer, the fill pipeline ends the account on its
    first healthy fill: with the inverted [CheckDailyLimits], a fill after which
    the hard daily limit is not exceeded marks the account violated, and every
    later entry is refused. *)
Theorem enforcer_violated_by_healthy_fill {S C} `{SignalGate S} `{CapitalGate C}
    now (p : RiskPipeline S C PropFirmEnforcer.t) id sym side pnl q price f c :
  PropFirmG p = Some f -> Capital p = Some c ->
  let safe := (SanitizeTradePnL pnl q price (TotalBalance c)).1 in
  let f1 := PropFirmEnforcer.OnFill now f safe (TotalBalance (RecordFill c id sym side safe q)) in
  (PropFirmEnforcer.dayStart f1 <=? 0) = false ->
  DailyLossExceeded (PropFirmEnforcer.dayStart f1) (PropFirmEnforcer.CurrentBalance f1)
    (PropFirmEnforcer.hardLimit f1) = false ->
  exists f2, PropFirmG (ReconcileFill now p id sym side pnl q price) = Some f2 /\
    PropFirmEnforcer.halted f2 = true /\ PropFirmEnforcer.haltReason f2 = "daily_loss"%string /\
    forall now' r, PSIsExit r = false ->
      PSApproved (ProcessSignal now' (ReconcileFill now p id sym side pnl q price) r).2 = false.
Proof.
  intros Hf Hc safe f1 Hd Hl.
  assert (E : exists f2, PropFirmG (ReconcileFill now p id sym side pnl q price) = Some f2 /\
    PropFirmEnforcer.halted f2 = true /\ PropFirmEnforcer.haltReason f2 = "daily_loss"%string).
  { unfold ReconcileFill, capitalBalance. rewrite Hc. fold safe.
    assert (Es : exists b, SanitizeTradePnL pnl q price (TotalBalance c) = (safe, b)).
    { unfold safe. destruct (SanitizeTradePnL _ _ _ _) as [x b]. by exists b. }
    destruct Es as [b ->]. unfold bookFill, notifyPropFirm. rewrite Hc. cbn [withCapital PropFirmG Capital].
    rewrite Hf. cbn [OnFill enforcer_gate CheckDailyLimits MarkViolated]. fold f1.
    unfold PropFirmEnforcer.CheckDailyLimits, PropFirmEnforcer.CheckDailyLoss. rewrite Hd, Hl.
    destruct (DailyLossExceeded _ _ (PropFirmEnforcer.softLimit f1)); cbv zeta; unfold releaseExposure;
      cbn [withNotional withPropFirm withCapital SignalG]; destruct (SignalG p); eexists;
      cbn [withSignal withNotional withPropFirm PropFirmG]; repeat split; reflexivity. }
  destruct E as (f2 & E1 & E2 & E3). exists f2. split; [done|]. split; [done|]. split; [done|].
  intros now' r Hx. unfold ProcessSignal. rewrite Hx.
  set (k := ReconcileFill now p id sym side pnl q price) in *.
  destruct (SignalG k) as [s|].
  - destruct (ValidateSignal now' s _) as [s' [ok why]]. cbn [fst snd].
    destruct (negb ok); [done|]. cbn [withSignal Capital PropFirmG]. rewrite E1.
    destruct (match Capital k with Some _ => _ | None => _ end); [done|].
    change (IsHalted f2) with (PropFirmEnforcer.halted f2). by rewrite E2.
  - cbn [fst negb]. rewrite E1. destruct (match Capital k with Some _ => _ | None => _ end); [done|].
    change (IsHalted f2) with (PropFirmEnforcer.halted f2). by rewrite E2.
Qed.

(** ** Witnesses: the live gates around a 100000 account *)
Definition live_pipeline : RiskPipeline SignalGateImpl.t CapitalPoolManager.t Manager.t :=
  mkPipeline (Some defaultGate)
    (Some (CapitalPoolManager.NewCapitalPoolManager (Some DefaultFTMOProfile)
             (Some (Manager.state ftmo_manager))))
    (Some ftmo_manager) 0.25 None 0%Z ∅.

Lemma ftmo_manager_wf : manager_wf ftmo_manager.
Proof.
  split; [|split].
  - split; [reflexivity|]. apply Z.leb_le. vm_compute. reflexivity.
  - split; [reflexivity|]. apply Z.leb_le. vm_compute. reflexivity.
  - intros i p H.
    change (({["ftmo"%string := DefaultFTMOProfile]} : gmap string Profile) !! i = Some p) in H.
    apply lookup_singleton_Some in H as [_ <-].
    split; [|reflexivity]. split; [reflexivity|]. apply Z.leb_le. vm_compute. reflexivity.
Qed.

Lemma live_pipeline_wf : pipeline_wf live_pipeline.
Proof.
  split; [intros s [= <-]; exact defaultGate_wf|].
  split; [intros c [= <-]; exact (new_sizer_wf (Some DefaultFTMOProfile))|].
  split; [intros f [= <-]; exact ftmo_manager_wf|].
  split; [discriminate|]. apply unit0_lit; vm_compute; reflexivity.
Qed.

(** A buy of 1000 at 150, 15 times the size the 2% cap allows. *)
Definition buy_order : ProcessSignalRequest :=
  mkPSReq "s1" "SPY" "BUY" 150 1 1000 0 100000 false false false.

Lemma approved_size_bounded_witness :
  PSSize (ProcessSignal 7 live_pipeline buy_order).2 = 4 /\
  pos0 (PSSize (ProcessSignal 7 live_pipeline buy_order).2).
Proof.
  split; [vm_compute; reflexivity|].
  destruct (ProcessSignal 7 live_pipeline buy_order) as [p' res] eqn:E.
  assert (A : PSApproved res = true)
    by (change res with (p', res).2; rewrite <- E; vm_compute; reflexivity).
  destruct (approved_size_bounded 7 live_pipeline buy_order p' res live_pipeline_wf) as [P _];
    [split; [reflexivity|apply Z.leb_le; vm_compute; reflexivity]|reflexivity
    |split; [reflexivity|apply Z.ltb_lt; vm_compute; reflexivity]|reflexivity|reflexivity
    |reflexivity|exact E|exact A|exact P].
Defined.

(** The prop-firm gate is violated: entries are refused. *)
Definition violated_pipeline : RiskPipeline SignalGateImpl.t CapitalPoolManager.t Manager.t :=
  withPropFirm live_pipeline (Some (Manager.MarkViolated ftmo_manager "kill")).

Lemma halted_gates_stop_entries_witness :
  PSApproved (ProcessSignal 7 violated_pipeline buy_order).2 = false.
Proof.
  destruct (halted_gates_stop_entries 7 violated_pipeline buy_order) as [_ H].
  specialize (H eq_refl (or_intror (ex_intro _ _ (conj eq_refl eq_refl)))).
  revert H. destruct (ProcessSignal 7 violated_pipeline buy_order) as [p' res]. by intros [? _].
Defined.

(** A gate with room for 100 of notional rejects the order, whose 2000 stay booked. *)
Definition tight_pipeline : RiskPipeline SignalGateImpl.t CapitalPoolManager.t Manager.t :=
  mkPipeline
    (Some (SignalGateImpl.NewSignalGateImpl None None
       (Some (ExposureTracker.SetEquity (ExposureTracker.NewExposureTracker 0.001 1) 100000)) None))
    None None 0.25 None 0%Z ∅.

Lemma rejected_orders_consume_notional_witness :
  PSReason (ProcessSignal 7 tight_pipeline buy_order).2 = "exposure:max_leverage"%string /\
  mget 0 (symbolNotional (ProcessSignal 7 tight_pipeline buy_order).1) "SPY" = 2000.
Proof.
  split; [vm_compute; reflexivity|].
  rewrite (rejected_orders_consume_notional 7 tight_pipeline buy_order
             (validated 7 tight_pipeline buy_order).1 1
             (capNotional buy_order (sizeSignal (validated 7 tight_pipeline buy_order).1 buy_order 1)));
    [vm_compute; reflexivity|reflexivity|vm_compute; reflexivity|discriminate|discriminate
    |reflexivity|reflexivity|vm_compute; reflexivity|vm_compute; reflexivity].
Defined.

(** A 15000 loss on a 100000 account is booked as nothing. *)
Lemma outsized_loss_booked_as_zero_witness :
  ReconcileFill 7 live_pipeline "s1" "SPY" "BUY" (-15000) 500 150 =
    ReconcileFill 7 live_pipeline "s1" "SPY" "BUY" 0 500 150.
Proof.
  apply (outsized_loss_booked_as_zero 7 live_pipeline "s1" "SPY" "BUY" (-15000) 500 150).
  - split; [reflexivity|]. apply Z.leb_le. vm_compute. reflexivity.
  - vm_compute. reflexivity.
  - left. vm_compute. reflexivity.
Defined.

Definition enforced_pipeline : RiskPipeline SignalGateImpl.t CapitalPoolManager.t PropFirmEnforcer.t :=
  mkPipeline None (Some (CapitalPoolManager.NewCapitalPoolManager None None))
    (Some (PropFirmEnforcer.DefaultPropFirmEnforcer 100000)) 0.25 None 0%Z ∅.

(** A gain of 50 ends the enforced account. *)
Lemma enforcer_violated_by_healthy_fill_witness :
  exists f, PropFirmG (ReconcileFill 7 enforced_pipeline "s1" "SPY" "SELL" 50 10 150) = Some f /\
    PropFirmEnforcer.halted f = true.
Proof.
  destruct (enforcer_violated_by_healthy_fill 7 enforced_pipeline "s1" "SPY" "SELL" 50 10 150
    (PropFirmEnforcer.DefaultPropFirmEnforcer 100000)
    (CapitalPoolManager.NewCapitalPoolManager None None)) as (f & E1 & E2 & _);
    [reflexivity|reflexivity|vm_compute; reflexivity|vm_compute; reflexivity|].
  by exists f.
Defined.
