(* ===== verification/RingBuffer.v ===== *)
(** * The tick ring buffer ([internal/ingest/ring_buffer.go])

    [Push] and [Pop] as the code composes them, first run to completion (they
    implement a bounded FIFO queue), then cut into their atomic loads and stores
    and interleaved by one producer and one consumer goroutine.  [None] is a Go
    panic (index out of range, division by zero).  [Pop] returns a pointer into
    the array: a slot index, read by the caller after [head] has moved on. *)
From Stdlib Require Import ZArith Lia Bool.
From S2P Require Import Prelude.
Import GoInt.
Local Open Scope Z_scope.

Definition MaxTickBuffer : Z := 16384.

Record GoMarketTick := mkTick {
  Timestamp : Z;
  PriceRaw : Z;
  BidPrice : Z;
  AskPrice : Z;
  VolumeRaw : Z;
  BidSize : Z;
  AskSize : Z;
  SymbolID : Z;
  TickSide : Z
}.

Definition zeroTick : GoMarketTick := mkTick 0 0 0 0 0 0 0 0 0.

Module RingBuffer.
Record t := mk {
  head : Z;
  tail : Z;
  capacity : Z;
  overflowCount : Z;
  ticks : list GoMarketTick
}.

(** 64-bit [int] arithmetic; the shifts smear the top bit over 32 positions. *)
Definition nextPowerOfTwo (n : Z) : Z :=
  if n <=? 0 then 1
  else
    let n := i64 (n - 1) in
    let n := Z.lor n (Z.shiftr n 1) in
    let n := Z.lor n (Z.shiftr n 2) in
    let n := Z.lor n (Z.shiftr n 4) in
    let n := Z.lor n (Z.shiftr n 8) in
    let n := Z.lor n (Z.shiftr n 16) in
    i64 (n + 1).

Definition NewRingBuffer (c : Z) : t :=
  let c := if c <=? 0 then MaxTickBuffer else c in
  let cap := nextPowerOfTwo c in
  let cap := if cap >? MaxTickBuffer then MaxTickBuffer else cap in
  mk 0 0 (i32 cap) 0 (replicate (Z.to_nat MaxTickBuffer) zeroTick).

(** [(i + 1) % capacity], [rb.ticks[i]] and [rb.ticks[i] = x]. *)
Definition advance (cap i : Z) : option Z :=
  if cap =? 0 then None else Some (Z.rem (i32 (i + 1)) cap).
Definition load (l : list GoMarketTick) (i : Z) : option GoMarketTick :=
  if 0 <=? i then l !! Z.to_nat i else None.
Definition store (l : list GoMarketTick) (i : Z) (x : GoMarketTick) : option (list GoMarketTick) :=
  if (0 <=? i) && (i <? Z.of_nat (length l)) then Some (<[Z.to_nat i := x]> l) else None.

Definition setHead (rb : t) (h : Z) : t := mk h (tail rb) (capacity rb) (overflowCount rb) (ticks rb).
Definition setTail (rb : t) (v : Z) : t := mk (head rb) v (capacity rb) (overflowCount rb) (ticks rb).
Definition setTicks (rb : t) (l : list GoMarketTick) : t :=
  mk (head rb) (tail rb) (capacity rb) (overflowCount rb) l.
Definition dropTick (rb : t) : t :=
  mk (head rb) (tail rb) (capacity rb) (i64 (overflowCount rb + 1)) (ticks rb).

Definition Push (rb : t) (tick : GoMarketTick) : option (t * bool) :=
  let h := head rb in
  let v := tail rb in
  next ← advance (capacity rb) v;
  if next =? h then Some (dropTick rb, false)
  else
    l ← store (ticks rb) v tick;
    Some (setTail (setTicks rb l) next, true).

Definition Pop (rb : t) : option (t * option Z) :=
  let h := head rb in
  let v := tail rb in
  if h =? v then Some (rb, None)
  else
    _ ← load (ticks rb) h;
    next ← advance (capacity rb) h;
    Some (setHead rb next, Some h).

Definition Capacity (rb : t) : Z := capacity rb.

Definition OverflowCount (rb : t) : Z :=
  let delta := i32 (tail rb - head rb) in
  let delta := if delta <? 0 then i32 (delta + capacity rb) else delta in
  i32 (capacity rb - delta).

(** ** The two goroutines, one atomic access per step

    A producer inside [Push] has loaded [head], then [tail], then written the
    slot; a consumer inside [Pop] has loaded [head], then [tail], and after the
    store of [head] holds a pointer it has still to read. *)
Inductive producer :=
  | PIdle
  | PHead (x : GoMarketTick) (h : Z)
  | PBoth (x : GoMarketTick) (h v : Z)
  | PStored (x : GoMarketTick) (next : Z).

Inductive consumer :=
  | CIdle
  | CHead (h : Z)
  | CBoth (h v : Z)
  | CReturned (slot : Z).

(** [accepted]: ticks whose [Push] has stored [tail]; [received]: ticks read
    through the pointers [Pop] returned. *)
Record sys := mkSys {
  rb : t;
  prod : producer;
  cons : consumer;
  accepted : list GoMarketTick;
  received : list GoMarketTick
}.

Inductive prod_step : sys -> sys -> Prop :=
  | p_load_head b c a r x :
      prod_step (mkSys b PIdle c a r) (mkSys b (PHead x (head b)) c a r)
  | p_load_tail b c a r x h :
      prod_step (mkSys b (PHead x h) c a r) (mkSys b (PBoth x h (tail b)) c a r)
  | p_full b c a r x h v :
      advance (capacity b) v = Some h ->
      prod_step (mkSys b (PBoth x h v) c a r) (mkSys (dropTick b) PIdle c a r)
  | p_write b c a r x h v next l :
      advance (capacity b) v = Some next -> next <> h -> store (ticks b) v x = Some l ->
      prod_step (mkSys b (PBoth x h v) c a r) (mkSys (setTicks b l) (PStored x next) c a r)
  | p_publish b c a r x next :
      prod_step (mkSys b (PStored x next) c a r) (mkSys (setTail b next) PIdle c (a ++ [x]) r).

Inductive cons_step : sys -> sys -> Prop :=
  | c_load_head b p a r :
      cons_step (mkSys b p CIdle a r) (mkSys b p (CHead (head b)) a r)
  | c_load_tail b p a r h :
      cons_step (mkSys b p (CHead h) a r) (mkSys b p (CBoth h (tail b)) a r)
  | c_empty b p a r h :
      cons_step (mkSys b p (CBoth h h) a r) (mkSys b p CIdle a r)
  | c_advance b p a r h v x next :
      h <> v -> load (ticks b) h = Some x -> advance (capacity b) h = Some next ->
      cons_step (mkSys b p (CBoth h v) a r) (mkSys (setHead b next) p (CReturned h) a r)
  | c_read b p a r slot x :
      load (ticks b) slot = Some x ->
      cons_step (mkSys b p (CReturned slot) a r) (mkSys b p CIdle a (r ++ [x])).

Definition spsc_step (s s' : sys) : Prop := prod_step s s' \/ cons_step s s'.

Definition start (c : Z) : sys := mkSys (NewRingBuffer c) PIdle CIdle [] [].
End RingBuffer.

Section RingLemmas.
Import RingBuffer.

Lemma mod_inj cap i j : 0 < cap -> i <= j < i + cap -> i mod cap = j mod cap -> i = j.
Proof.
  intros Hc Hij E. assert (D : (j - i) mod cap = 0) by (rewrite Zminus_mod, E, Z.sub_diag; done).
  rewrite Z.mod_small in D by lia. lia.
Qed.

Lemma mod_ne cap i j : 0 < cap -> i < j < i + cap -> i mod cap <> j mod cap.
Proof. intros Hc Hij E. apply (mod_inj cap i j) in E; lia. Qed.

(** ** Capacity *)
Lemma lor_bounds a b : 0 <= a < 2 ^ 62 -> 0 <= b < 2 ^ 62 -> a <= Z.lor a b < 2 ^ 62.
Proof.
  intros Ha Hb. split.
  - apply Z.ldiff_le; [apply Z.lor_nonneg; lia|]. apply Z.bits_inj'. intros n _.
    rewrite Z.ldiff_spec, Z.lor_spec, Z.bits_0. by destruct (Z.testbit a n).
  - destruct (Z.eq_dec (Z.lor a b) 0) as [->|N]; [lia|]. apply Z.log2_lt_pow2.
    + pose proof (proj2 (Z.lor_nonneg a b) ltac:(lia)). lia.
    + rewrite Z.log2_lor by lia.
      assert (L : forall x, 0 <= x < 2 ^ 62 -> Z.log2 x < 62).
      { intros x Hx. destruct (Z.eq_dec x 0) as [->|]; [done|]. apply Z.log2_lt_pow2; lia. }
      pose proof (L a Ha). pose proof (L b Hb). lia.
Qed.

Lemma shiftr_bounds a k : 0 <= a < 2 ^ 62 -> 0 <= k -> 0 <= Z.shiftr a k < 2 ^ 62.
Proof.
  intros Ha Hk. rewrite Z.shiftr_div_pow2 by done. pose proof (Z.pow_pos_nonneg 2 k ltac:(lia) Hk).
  split; [apply Z.div_pos; lia|]. apply (Z.le_lt_trans _ a); [|lia]. apply Z.div_le_upper_bound; nia.
Qed.

(** Never below its argument. *)
Lemma nextPowerOfTwo_ge n : 1 <= n <= 2 ^ 62 -> n <= nextPowerOfTwo n <= 2 ^ 62.
Proof.
  intros Hn. unfold nextPowerOfTwo. destruct (Z.leb_spec n 0); [lia|].
  rewrite (i64_id (n - 1)) by (unfold in_i64; lia). cbv zeta.
  set (s := fun k m => Z.lor m (Z.shiftr m k)).
  assert (S : forall k m, 0 <= k -> 0 <= m < 2 ^ 62 -> m <= s k m < 2 ^ 62).
  { intros k m Hk Hm. apply lor_bounds; [done|by apply shiftr_bounds]. }
  change (n <= i64 (s 16 (s 8 (s 4 (s 2 (s 1 (n - 1))))) + 1) <= 2 ^ 62).
  pose proof (S 1 (n - 1)). pose proof (S 2 (s 1 (n - 1))). pose proof (S 4 (s 2 (s 1 (n - 1)))).
  pose proof (S 8 (s 4 (s 2 (s 1 (n - 1))))). pose proof (S 16 (s 8 (s 4 (s 2 (s 1 (n - 1)))))).
  rewrite i64_id by (unfold in_i64; lia). lia.
Qed.

(** Bit [i] of [x] is set when one of the [w] bits of [m] from [i] up is. *)
Definition smeared (w m x : Z) : Prop :=
  forall i, 0 <= i -> Z.testbit x i = true <-> exists d, 0 <= d < w /\ Z.testbit m (i + d) = true.

Lemma smeared_double w m x : 0 <= w -> smeared w m x -> smeared (2 * w) m (Z.lor x (Z.shiftr x w)).
Proof.
  intros Hw H i Hi. rewrite Z.lor_spec, Z.shiftr_spec, orb_true_iff, (H i), (H (i + w)) by lia.
  split.
  - intros [(d & ? & B)|(d & ? & B)]; [exists d|exists (w + d)]; (split; [lia|]); [done|].
    by replace (i + (w + d)) with (i + w + d) by lia.
  - intros (d & ? & B). destruct (Z.lt_ge_cases d w); [left; exists d; split; [lia|done]|right].
    exists (d - w). split; [lia|]. by replace (i + w + (d - w)) with (i + d) by lia.
Qed.

Lemma smeared_ones m x : 0 < m < 2 ^ 32 -> 0 <= x -> smeared 32 m x -> x + 1 = 2 ^ (Z.log2 m + 1).
Proof.
  intros Hm Hx H. pose proof (Z.log2_nonneg m) as L0.
  assert (L : Z.log2 m < 32) by (apply Z.log2_lt_pow2; lia).
  assert (E : x = Z.ones (Z.log2 m + 1)).
  { apply Z.bits_inj'. intros i Hi. rewrite Z.testbit_ones_nonneg by lia.
    destruct (Z.ltb_spec i (Z.log2 m + 1)) as [U|U].
    - apply H; [done|]. exists (Z.log2 m - i). split; [lia|].
      replace (i + (Z.log2 m - i)) with (Z.log2 m) by lia. apply Z.bit_log2. lia.
    - apply not_true_iff_false. intros (d & ? & B)%H; [|done].
      rewrite Z.bits_above_log2 in B by lia. done. }
  rewrite E, Z.ones_equiv. lia.
Qed.

(** Up to 2^32 it is the least power of two not below its argument. *)
Lemma nextPowerOfTwo_least n : 1 <= n <= 2 ^ 32 -> nextPowerOfTwo n = 2 ^ Z.log2_up n.
Proof.
  intros Hn. destruct (Z.eq_dec n 1) as [->|N]; [reflexivity|].
  pose proof (nextPowerOfTwo_ge n ltac:(lia)) as G. unfold nextPowerOfTwo in *.
  destruct (Z.leb_spec n 0); [lia|]. rewrite (i64_id (n - 1)) in * by (unfold in_i64; lia). cbv zeta in *.
  set (s1 := Z.lor (n - 1) (Z.shiftr (n - 1) 1)) in *. set (s2 := Z.lor s1 (Z.shiftr s1 2)) in *.
  set (s4 := Z.lor s2 (Z.shiftr s2 4)) in *. set (s8 := Z.lor s4 (Z.shiftr s4 8)) in *.
  set (s16 := Z.lor s8 (Z.shiftr s8 16)) in *.
  assert (S0 : smeared 1 (n - 1) (n - 1)).
  { intros i Hi. split; [intros B; exists 0; by rewrite Z.add_0_r|].
    intros (d & ? & B). by replace (i + d) with i in B by lia. }
  assert (S : smeared 32 (n - 1) s16).
  { apply (smeared_double 16); [lia|]. apply (smeared_double 8); [lia|]. apply (smeared_double 4); [lia|].
    apply (smeared_double 2); [lia|]. apply (smeared_double 1); [lia|exact S0]. }
  assert (P : forall a k, 0 <= a -> 0 <= k -> 0 <= Z.lor a (Z.shiftr a k)).
  { intros a k Ha Hk. apply Z.lor_nonneg. split; [done|]. by apply Z.shiftr_nonneg. }
  assert (X : 0 <= s16) by (unfold s16, s8, s4, s2, s1; repeat apply P; lia).
  pose proof (smeared_ones (n - 1) s16 ltac:(lia) X S) as E.
  rewrite E in *. unfold Z.log2_up. destruct (Z.compare_spec 1 n); [lia| |lia].
  rewrite Z.sub_1_r in *. replace (Z.succ (Z.log2 (Z.pred n))) with (Z.log2 (Z.pred n) + 1) by lia.
  apply i64_id. assert (Z.log2 (Z.pred n) < 32) by (apply Z.log2_lt_pow2; lia).
  pose proof (Z.log2_nonneg (Z.pred n)). unfold in_i64.
  pose proof (Z.pow_le_mono_r 2 (Z.log2 (Z.pred n) + 1) 32 ltac:(lia) ltac:(lia)).
  pose proof (Z.pow_pos_nonneg 2 (Z.log2 (Z.pred n) + 1)). lia.
Qed.

(** The capacity in force for a requested one. *)
Definition effectiveCapacity (c : Z) : Z :=
  if c <=? 0 then MaxTickBuffer else Z.min MaxTickBuffer (2 ^ Z.log2_up c).

Lemma NewRingBuffer_capacity c :
  c <= 2 ^ 62 -> capacity (NewRingBuffer c) = effectiveCapacity c /\
  1 <= effectiveCapacity c <= MaxTickBuffer.
Proof.
  intros Hc. unfold NewRingBuffer, effectiveCapacity. cbn [capacity].
  destruct (Z.leb_spec c 0); [by vm_compute|].
  assert (P : 0 < 2 ^ Z.log2_up c) by (apply Z.pow_pos_nonneg; [lia|apply Z.log2_up_nonneg]).
  split; [|unfold MaxTickBuffer; lia]. rewrite Z.gtb_ltb.
  destruct (Z.ltb_spec MaxTickBuffer c) as [L|L].
  - pose proof (nextPowerOfTwo_ge c ltac:(lia)). destruct (Z.ltb_spec MaxTickBuffer (nextPowerOfTwo c)); [|lia].
    pose proof (proj2 (Z.log2_up_le_pow2 c (Z.log2_up c) ltac:(lia)) ltac:(lia)).
    rewrite Z.min_l by lia. done.
  - rewrite nextPowerOfTwo_least by (unfold MaxTickBuffer in *; lia).
    assert (U : 2 ^ Z.log2_up c <= MaxTickBuffer).
    { change MaxTickBuffer with (2 ^ 14). apply Z.pow_le_mono_r; [lia|].
      apply Z.log2_up_le_pow2; unfold MaxTickBuffer in *; lia. }
    destruct (Z.ltb_spec MaxTickBuffer (2 ^ Z.log2_up c)); [lia|].
    rewrite Z.min_r by lia. apply i32_id. unfold in_i32, MaxTickBuffer in *. lia.
Qed.

(** ** Array and index operations *)
Definition sized (b : t) : Prop :=
  1 <= capacity b <= MaxTickBuffer /\ length (ticks b) = Z.to_nat MaxTickBuffer.

Lemma sized_new c : c <= 2 ^ 62 -> sized (NewRingBuffer c).
Proof.
  intros Hc. unfold sized. destruct (NewRingBuffer_capacity c Hc) as [-> ?]. split; [done|].
  cbn [ticks NewRingBuffer].
  by rewrite length_replicate.
Qed.

Lemma advance_mod cap i :
  1 <= cap <= MaxTickBuffer -> advance cap (i mod cap) = Some ((i + 1) mod cap).
Proof.
  intros Hc. unfold advance, MaxTickBuffer in *. destruct (Z.eqb_spec cap 0); [lia|].
  pose proof (Z.mod_pos_bound i cap ltac:(lia)). rewrite i32_id by (unfold in_i32; lia).
  rewrite Z.rem_mod_nonneg by lia. by rewrite Zplus_mod_idemp_l.
Qed.

Lemma load_slot b i : sized b -> exists x, load (ticks b) (i mod capacity b) = Some x.
Proof.
  intros [Hc Hl]. pose proof (Z.mod_pos_bound i (capacity b) ltac:(lia)). unfold load.
  destruct (Z.leb_spec 0 (i mod capacity b)); [|lia]. apply lookup_lt_is_Some. lia.
Qed.

Lemma store_slot b i x :
  sized b -> exists l, store (ticks b) (i mod capacity b) x = Some l /\
    length l = Z.to_nat MaxTickBuffer /\ load l (i mod capacity b) = Some x /\
    forall j, i mod capacity b <> j mod capacity b ->
      load l (j mod capacity b) = load (ticks b) (j mod capacity b).
Proof.
  intros [Hc Hl]. pose proof (Z.mod_pos_bound i (capacity b) ltac:(lia)). unfold store.
  destruct (Z.leb_spec 0 (i mod capacity b)); [|lia].
  destruct (Z.ltb_spec (i mod capacity b) (Z.of_nat (length (ticks b)))); [|lia]. cbn [andb].
  eexists. split; [done|]. split; [by rewrite length_insert|]. unfold load. split.
  - destruct (Z.leb_spec 0 (i mod capacity b)); [|lia]. apply list_lookup_insert_eq. lia.
  - intros j N. pose proof (Z.mod_pos_bound j (capacity b) ltac:(lia)).
    destruct (Z.leb_spec 0 (j mod capacity b)); [|lia]. apply list_lookup_insert_ne. lia.
Qed.
End RingLemmas.

(** ** Specification: a bounded FIFO queue *)
Inductive ring_op := OpPush (x : GoMarketTick) | OpPop.
Inductive outcome := Pushed (ok : bool) | Popped (x : option GoMarketTick).

Fixpoint queue_run (bound : Z) (q : list GoMarketTick) (ops : list ring_op) : list outcome :=
  match ops with
  | [] => []
  | OpPush x :: ops =>
      if Z.of_nat (length q) <? bound then Pushed true :: queue_run bound (q ++ [x]) ops
      else Pushed false :: queue_run bound q ops
  | OpPop :: ops => Popped (q !! 0%nat) :: queue_run bound (drop 1 q) ops
  end.

(** The buffer, its results read through the returned pointers. *)
Fixpoint ring_run (b : RingBuffer.t) (ops : list ring_op) : option (list outcome) :=
  match ops with
  | [] => Some []
  | OpPush x :: ops =>
      '(b, ok) ← RingBuffer.Push b x;
      r ← ring_run b ops;
      Some (Pushed ok :: r)
  | OpPop :: ops =>
      '(b, slot) ← RingBuffer.Pop b;
      v ← match slot with
          | Some i => Some <$> RingBuffer.load (RingBuffer.ticks b) i
          | None => Some None end;
      r ← ring_run b ops;
      Some (Popped v :: r)
  end.

Section Sequential.
Import RingBuffer.

(** [q] is in the buffer from slot [H] up, as counted from the creation. *)
Definition contents (b : t) (H : Z) (q : list GoMarketTick) : Prop :=
  0 <= H /\ head b = H mod capacity b /\ tail b = (H + Z.of_nat (length q)) mod capacity b /\
  Z.of_nat (length q) < capacity b /\
  forall i y, q !! i = Some y -> load (ticks b) ((H + Z.of_nat i) mod capacity b) = Some y.

Definition represents (b : t) (q : list GoMarketTick) : Prop := sized b /\ exists H, contents b H q.

Lemma represents_new c : c <= 2 ^ 62 -> represents (NewRingBuffer c) [].
Proof.
  intros Hc. pose proof (sized_new c Hc) as S. split; [done|]. exists 0. destruct S as [Hcap _].
  unfold contents. cbn [length Z.of_nat]. rewrite Z.add_0_l, Z.mod_0_l by lia.
  split; [done|]. split; [done|]. split; [done|]. split; [lia|done].
Qed.

Lemma Push_represents b q x :
  represents b q ->
  exists b', capacity b' = capacity b /\
    if Z.of_nat (length q) <? capacity b - 1
    then Push b x = Some (b', true) /\ represents b' (q ++ [x])
    else Push b x = Some (b', false) /\ represents b' q.
Proof.
  intros [S (H & H0 & Hh & Ht & Hl & Hq)]. unfold Push. rewrite Ht, Hh.
  pose proof (proj1 S) as Hc. rewrite advance_mod by done. cbn [mbind option_bind].
  set (T := H + Z.of_nat (length q)) in *. destruct (Z.eqb_spec ((T + 1) mod capacity b) (H mod capacity b)) as [E|N].
  - assert (T + 1 = H + capacity b).
    { symmetry. destruct (Z.eq_dec (T + 1) (H + capacity b)) as [->|D]; [done|].
      exfalso. symmetry in E. revert E. apply mod_ne; unfold T in *; lia. }
    exists (dropTick b). split; [done|]. destruct (Z.ltb_spec (Z.of_nat (length q)) (capacity b - 1)); [unfold T in *; lia|].
    split; [done|]. split; [done|]. by exists H.
  - destruct (store_slot b T x S) as (l & -> & Ll & Lx & Lo). cbn [mbind option_bind].
    exists (setTail (setTicks b l) ((T + 1) mod capacity b)). split; [done|].
    destruct (Z.ltb_spec (Z.of_nat (length q)) (capacity b - 1)) as [L|L].
    + split; [done|]. split; [by split|]. exists H. unfold contents. cbn [head tail capacity ticks setTail setTicks].
      split; [done|]. split; [done|]. rewrite length_app. cbn [length].
      replace (H + Z.of_nat (length q + 1)) with (T + 1) by (unfold T; lia).
      split; [done|]. split; [lia|]. intros i y Hi.
      destruct (decide (i = length q)) as [->|Ni].
      * rewrite lookup_app_r, Nat.sub_diag in Hi by done. injection Hi as <-. exact Lx.
      * apply lookup_snoc_Some in Hi as [[Hi Hy]|[-> _]]; [|done]. rewrite Lo; [by apply Hq|].
        intros E. symmetry in E. revert E. apply mod_ne; unfold T; lia.
    + exfalso. apply N. replace (T + 1) with (H + 1 * capacity b) by (unfold T; lia).
      by rewrite Z.mod_add by lia.
Qed.

Lemma Pop_represents b q :
  represents b q ->
  match q with
  | [] => Pop b = Some (b, None)
  | y :: q => exists b' slot, Pop b = Some (b', Some slot) /\ load (ticks b') slot = Some y /\
                capacity b' = capacity b /\ represents b' q
  end.
Proof.
  intros [S (H & H0 & Hh & Ht & Hl & Hq)]. unfold Pop. rewrite Ht, Hh. destruct q as [|y q].
  - cbn [length]. rewrite Z.add_0_r, Z.eqb_refl. done.
  - pose proof (proj1 S) as Hc. cbn [length] in *.
    destruct (Z.eqb_spec (H mod capacity b) ((H + Z.of_nat (Datatypes.S (length q))) mod capacity b)) as [E|_].
    { exfalso. revert E. apply mod_ne; lia. }
    pose proof (Hq 0%nat y eq_refl) as Hy. rewrite Z.add_0_r in Hy. rewrite Hy, advance_mod by done.
    cbn [mbind option_bind]. eexists _, _. split; [done|]. split; [done|]. split; [done|].
    split; [done|]. exists (H + 1). unfold contents. cbn [head tail capacity ticks setHead].
    split; [lia|]. split; [done|]. rewrite Ht.
    replace (H + 1 + Z.of_nat (length q)) with (H + Z.of_nat (Datatypes.S (length q))) by lia.
    split; [done|]. split; [lia|]. intros i z Hi. rewrite <- (Hq (Datatypes.S i) z Hi). do 2 f_equal. lia.
Qed.

(** C6: run to completion, the ring buffer is a bounded FIFO queue: every
    sequence of pushes and pops on a new buffer returns what a queue of
    [capacity - 1] elements returns, without panicking, where the capacity is
    the requested one rounded up to a power of two and at most 16384. *)
Theorem ring_refines_queue c ops :
  c <= 2 ^ 62 ->
  ring_run (NewRingBuffer c) ops = Some (queue_run (effectiveCapacity c - 1) [] ops).
Proof.
  intros Hc. rewrite <- (proj1 (NewRingBuffer_capacity c Hc)).
  assert (G : forall b q, represents b q -> ring_run b ops = Some (queue_run (capacity b - 1) q ops));
    [|by apply G, represents_new].
  induction ops as [|[x|] ops IH]; intros b q R; [done| |]; cbn [ring_run queue_run].
  - destruct (Push_represents b q x R) as (b' & Ec & P).
    destruct (Z.of_nat (length q) <? capacity b - 1); destruct P as [-> R'];
      cbn [mbind option_bind]; by rewrite (IH b' _ R'), Ec.
  - pose proof (Pop_represents b q R) as P. destruct q as [|y q].
    + rewrite P. cbn [mbind option_bind lookup]. by rewrite (IH b [] R).
    + destruct P as (b' & slot & -> & Hs & Ec & R'). cbn [mbind option_bind].
      rewrite Hs. cbn. by rewrite (IH b' q R'), Ec.
Qed.
End Sequential.

(** ** One producer, one consumer, any interleaving *)
Section Concurrent.
Import RingBuffer.

(** Ticks accepted so far, and ticks whose slot [Pop] has released. *)
Definition produced (s : sys) : Z := Z.of_nat (length (accepted s)).
Definition released (s : sys) : Z :=
  Z.of_nat (length (received s)) + match cons s with CReturned _ => 1 | _ => 0 end.

(** The [i]-th accepted tick is still in its slot. *)
Definition intact (s : sys) (i : Z) : Prop :=
  forall y, accepted s !! Z.to_nat i = Some y ->
    load (ticks (rb s)) (i mod capacity (rb s)) = Some y.

(** What a producer in the middle of [Push] knows: its [head] is one the
    consumer has had, and no more than [capacity - 1] ticks were ahead of it. *)
Definition prod_ok (s : sys) : Prop :=
  let cap := capacity (rb s) in
  let seen h := exists H0, H0 <= released s /\ h = H0 mod cap /\ produced s < H0 + cap in
  match prod s with
  | PIdle => True
  | PHead _ h => seen h
  | PBoth _ h v => seen h /\ v = produced s mod cap
  | PStored x next =>
      next = (produced s + 1) mod cap /\ produced s + 1 < released s + cap /\
      load (ticks (rb s)) (produced s mod cap) = Some x
  end.

(** A consumer in [Pop] owns [head]; its [tail] is one the producer has had. *)
Definition cons_ok (s : sys) : Prop :=
  let cap := capacity (rb s) in
  match cons s with
  | CIdle => True
  | CHead h => h = released s mod cap
  | CBoth h v => h = released s mod cap /\ exists T0, released s <= T0 <= produced s /\ v = T0 mod cap
  | CReturned slot => slot = Z.of_nat (length (received s)) mod cap
  end.

Record ring_inv (s : sys) : Prop := {
  inv_sized : sized (rb s);
  inv_head : head (rb s) = released s mod capacity (rb s);
  inv_tail : tail (rb s) = produced s mod capacity (rb s);
  inv_count : released s <= produced s < released s + capacity (rb s);
  inv_intact : forall i, Z.of_nat (length (received s)) <= i < produced s -> intact s i;
  inv_prefix : received s = take (length (received s)) (accepted s);
  inv_prod : prod_ok s;
  inv_cons : cons_ok s
}.

Lemma ring_inv_start c : c <= 2 ^ 62 -> ring_inv (start c).
Proof.
  intros Hc. pose proof (sized_new c Hc) as S. pose proof (proj1 S) as Hcap.
  split; try done; unfold released, produced, start; cbn [length received accepted cons rb Z.of_nat].
  lia.
Qed.

Ltac ring_simpl :=
  unfold prod_ok, cons_ok, released, produced in *;
  cbn [rb prod cons accepted received head tail capacity ticks setHead setTail setTicks dropTick
       Z.of_nat] in *.

Lemma prod_load_inv b c a r x :
  ring_inv (mkSys b PIdle c a r) -> ring_inv (mkSys b (PHead x (head b)) c a r).
Proof.
  intros [Sz Ih It Ic Ii Ip Io Ik]. split; try assumption. ring_simpl.
  eexists. split; [reflexivity|]. split; [exact Ih|]. lia.
Qed.

(** The slot about to be written holds no tick that is still to be read. *)
Lemma prod_write_inv b c a r x h v next l :
  ring_inv (mkSys b (PBoth x h v) c a r) ->
  advance (capacity b) v = Some next -> next <> h -> store (ticks b) v x = Some l ->
  ring_inv (mkSys (setTicks b l) (PStored x next) c a r).
Proof.
  intros [Sz Ih It Ic Ii Ip Io Ik] Ea Nn Es. ring_simpl.
  destruct Io as [(H0 & L0 & -> & Lt) ->]. pose proof (proj1 Sz) as Hc.
  rewrite advance_mod in Ea by done. injection Ea as <-.
  set (T := Z.of_nat (length a)) in *. set (R := Z.of_nat (length r)) in *.
  assert (Room : T + 1 < H0 + capacity b).
  { destruct (Z.eq_dec (T + 1) (H0 + 1 * capacity b)) as [E|]; [|lia].
    exfalso. apply Nn. rewrite E. by apply Z.mod_add; lia. }
  destruct (store_slot b T x Sz) as (l' & Es' & Ll & Lx & Lo). rewrite Es in Es'. injection Es' as <-.
  assert (R1 : (R <= R + match c with CReturned _ => 1 | _ => 0 end <= R + 1)%Z) by (destruct c; lia).
  split; ring_simpl; try assumption; fold T R; try done.
  - intros i Hi y Hy. cbn [rb setTicks ticks capacity accepted] in *.
    rewrite Lo by (intros E; symmetry in E; revert E; apply mod_ne; lia). by apply (Ii i Hi).
  - split; [done|]. split; [lia|done].
Qed.

Lemma prod_publish_inv b c a r x next :
  ring_inv (mkSys b (PStored x next) c a r) ->
  ring_inv (mkSys (setTail b next) PIdle c (a ++ [x]) r).
Proof.
  intros [Sz Ih It Ic Ii Ip Io Ik]. ring_simpl. destruct Io as (-> & Lt & Lx).
  assert (El : Z.of_nat (length (a ++ [x])) = Z.of_nat (length a) + 1) by (rewrite length_app; cbn; lia).
  split; ring_simpl; rewrite ?El; try assumption; try done.
  - lia.
  - intros i Hi y Hy. cbn [rb setTail ticks capacity accepted] in *.
    destruct (Z.eq_dec i (Z.of_nat (length a))) as [->|Ne].
    + rewrite Nat2Z.id, list_lookup_middle in Hy by done. by injection Hy as <-.
    + apply (Ii i ltac:(lia)). cbn. rewrite lookup_app_l in Hy by lia. done.
  - rewrite take_app_le; [done|]. destruct c; lia.
  - destruct c; try done. destruct Ik as (-> & T0 & ? & ->). split; [done|]. exists T0. split; [lia|done].
Qed.

Lemma prod_step_inv s s' : prod_step s s' -> ring_inv s -> ring_inv s'.
Proof.
  destruct 1 as [b c a r x|b c a r x h|b c a r x h v E|b c a r x h v next l E1 E2 E3|b c a r x next].
  - apply prod_load_inv.
  - intros [Sz Ih It Ic Ii Ip Io Ik]. split; try assumption. split; [exact Io|exact It].
  - intros [Sz Ih It Ic Ii Ip Io Ik]. by split.
  - intros I. by apply (prod_write_inv b c a r x h v).
  - apply prod_publish_inv.
Qed.

Lemma cons_step_inv s s' : cons_step s s' -> ring_inv s -> ring_inv s'.
Proof.
  destruct 1 as [b p a r|b p a r h|b p a r h|b p a r h v x next N E1 E2|b p a r slot x E];
    intros [Sz Ih It Ic Ii Ip Io Ik]; pose proof (proj1 Sz) as Hc.
  - split; try assumption.
  - split; try assumption. ring_simpl. split; [exact Ik|]. eexists. split; [|exact It]. lia.
  - split; try assumption. done.
  - ring_simpl. destruct Ik as (-> & T0 & HT & ->). rewrite advance_mod in E2 by done. injection E2 as <-.
    assert (Z.of_nat (length r) + 0 <> T0) by (intros <-; by apply N). rewrite Z.add_0_r in *.
    split; ring_simpl; rewrite ?Z.add_0_r; try assumption; try done.
    + lia.
    + destruct p as [|y h|y h v|y nx]; try done.
      * destruct Io as (H0 & ? & ? & ?). exists H0. repeat split; [lia|done|done].
      * destruct Io as [(H0 & ? & ? & ?) ?]. split; [|done]. exists H0. repeat split; [lia|done|done].
      * destruct Io as (? & ? & ?). repeat split; [done|lia|done].
  - ring_simpl. subst slot.
    assert (L : (length r < length a)%nat) by lia.
    destruct (lookup_lt_is_Some_2 a (length r) L) as [y Hy].
    assert (Exy : x = y).
    { specialize (Ii (Z.of_nat (length r)) ltac:(lia)). unfold intact in Ii. cbn in Ii.
      rewrite Nat2Z.id in Ii. rewrite (Ii y Hy) in E. by injection E. }
    subst y. assert (El : length (r ++ [x]) = Datatypes.S (length r)) by (rewrite length_app; cbn; lia).
    assert (Ez : Z.of_nat (length (r ++ [x])) + 0 = Z.of_nat (length r) + 1) by lia.
    split; ring_simpl; rewrite ?Ez; try assumption; try done.
    + intros i Hi. apply Ii. lia.
    + rewrite El, (take_S_r _ _ x Hy). congruence.
Qed.

Lemma spsc_inv c s : c <= 2 ^ 62 -> rtc spsc_step (start c) s -> ring_inv s.
Proof.
  intros Hc R. pose proof (ring_inv_start c Hc) as I. induction R as [|s1 s2 s3 H R IH]; [done|].
  apply IH. destruct H; [by apply (prod_step_inv s1)|by apply (cons_step_inv s1)].
Qed.

Lemma prod_progress s x : ring_inv s -> exists s', prod_step s s' /\ (prod s = PIdle -> prod s' = PHead x (head (rb s))).
Proof.
  destruct s as [b p c a r]. intros [Sz Ih It Ic Ii Ip Io Ik]. ring_simpl.
  destruct p as [|y h|y h v|y next].
  - eexists. split; [by apply p_load_head|done].
  - eexists. split; [apply p_load_tail|done].
  - destruct Io as [_ ->]. pose proof (advance_mod _ (Z.of_nat (length a)) (proj1 Sz)) as Ea.
    destruct (Z.eq_dec ((Z.of_nat (length a) + 1) mod capacity b) h) as [E|N].
    + eexists. split; [apply p_full; by rewrite Ea, E|done].
    + destruct (store_slot b (Z.of_nat (length a)) y Sz) as (l & Es & _).
      eexists. split; [by apply (p_write _ _ _ _ _ _ _ _ l Ea N)|done].
  - eexists. split; [apply p_publish|done].
Qed.

Lemma cons_progress s : ring_inv s -> exists s', cons_step s s'.
Proof.
  destruct s as [b p c a r]. intros [Sz Ih It Ic Ii Ip Io Ik]. ring_simpl. destruct c as [|h|h v|slot].
  - eexists. apply c_load_head.
  - eexists. apply c_load_tail.
  - destruct (Z.eq_dec h v) as [->|N]; [eexists; apply c_empty|]. destruct Ik as (-> & _).
    destruct (load_slot b (Z.of_nat (length r) + 0) Sz) as [x E].
    eexists. eapply (c_advance _ _ _ _ _ _ x); [exact N|exact E|by apply advance_mod, Sz].
  - subst slot. destruct (load_slot b (Z.of_nat (length r)) Sz) as [x E]. eexists. by apply c_read.
Qed.

(** Run without interruption, the steps of the two goroutines are [Push] and [Pop]. *)
Lemma Push_steps b c a r x b' ok :
  Push b x = Some (b', ok) ->
  rtc spsc_step (mkSys b PIdle c a r) (mkSys b' PIdle c (if ok then a ++ [x] else a) r).
Proof.
  unfold Push. destruct (advance (capacity b) (tail b)) as [next|] eqn:E; [|done]. cbn [mbind option_bind].
  intros H. eapply rtc_l; [left; apply p_load_head|]. eapply rtc_l; [left; apply p_load_tail|].
  destruct (Z.eqb_spec next (head b)) as [->|N].
  - injection H as <- <-. apply rtc_once. left. by apply p_full.
  - destruct (store (ticks b) (tail b) x) as [l|] eqn:Es; [|done]. injection H as <- <-.
    eapply rtc_l; [left; by eapply p_write|]. apply rtc_once. left. apply p_publish.
Qed.

Lemma Pop_steps b p a r b' slot :
  Pop b = Some (b', slot) ->
  rtc spsc_step (mkSys b p CIdle a r)
    (mkSys b' p (match slot with Some i => CReturned i | None => CIdle end) a r).
Proof.
  unfold Pop. intros H. eapply rtc_l; [right; apply c_load_head|]. eapply rtc_l; [right; apply c_load_tail|].
  destruct (Z.eqb_spec (head b) (tail b)) as [E|N].
  - injection H as <- <-. rewrite E. apply rtc_once. right. apply c_empty.
  - destruct (load (ticks b) (head b)) as [x|] eqn:El; [|done]. cbn [mbind option_bind] in H.
    destruct (advance (capacity b) (head b)) as [next|] eqn:Ea; [|done]. injection H as <- <-.
    apply rtc_once. right. by eapply c_advance.
Qed.

(** *** Progress of one side alone *)

Lemma cons_step_functional s s1 s2 : cons_step s s1 -> cons_step s s2 -> s1 = s2.
Proof. destruct 1; inversion 1; subst; try done; simplify_eq; done. Qed.

(** A consumer between two reads takes the next tick in four steps. *)
Lemma cons_take b p a r :
  ring_inv (mkSys b p CIdle a r) -> (length r < length a)%nat ->
  exists b' x, bsteps cons_step 4 (mkSys b p CIdle a r) (mkSys b' p CIdle a (r ++ [x])) /\
    ring_inv (mkSys b' p CIdle a (r ++ [x])).
Proof.
  intros I0 L. pose proof (inv_sized _ I0) as Sz. pose proof (inv_head _ I0) as Ih. pose proof (inv_tail _ I0) as It.
  pose proof (inv_count _ I0) as Ic. ring_simpl. rewrite Z.add_0_r in Ih, Ic.
  destruct (load_slot b (Z.of_nat (length r)) Sz) as [x Ex].
  pose proof (advance_mod (capacity b) (Z.of_nat (length r)) (proj1 Sz)) as Ea. rewrite <- Ih in Ex, Ea.
  assert (N : head b <> tail b) by (rewrite Ih, It; apply mod_ne; pose proof (proj1 Sz); lia).
  pose proof (c_load_head b p a r) as S1. pose proof (c_load_tail b p a r (head b)) as S2.
  pose proof (c_advance b p a r _ _ x _ N Ex Ea) as S3.
  pose proof (c_read (setHead b ((Z.of_nat (length r) + 1) mod capacity b)) p a r (head b) x Ex) as S4.
  eexists _, x. split; [|by eapply cons_step_inv, cons_step_inv, cons_step_inv, cons_step_inv, I0].
  eapply bsteps_l; [exact S1|]. eapply bsteps_l; [exact S2|]. eapply bsteps_l; [exact S3|].
  eapply bsteps_l; [exact S4|]. apply bsteps_refl.
Qed.

Lemma cons_drain k : forall b p a r,
  ring_inv (mkSys b p CIdle a r) -> (length a = length r + k)%nat ->
  exists b', bsteps cons_step (4 * k) (mkSys b p CIdle a r) (mkSys b' p CIdle a a).
Proof.
  induction k as [|k IH]; intros b p a r I L.
  - assert (r = a) as ->; [|exists b; apply bsteps_refl]. pose proof (inv_prefix _ I) as Ep. cbn in Ep.
    rewrite take_ge in Ep by lia. done.
  - destruct (cons_take b p a r I ltac:(lia)) as (b1 & x & S1 & I1).
    destruct (IH b1 p a (r ++ [x]) I1) as (b2 & S2); [rewrite length_app; cbn; lia|]. exists b2.
    replace (4 * S k)%nat with (4 + 4 * k)%nat by lia. by eapply bsteps_trans.
Qed.

(** A consumer in the middle of [Pop] is through in three steps. *)
Lemma cons_finish s : ring_inv s ->
  exists b r, bsteps cons_step 3 s (mkSys b (prod s) CIdle (accepted s) r) /\
    ring_inv (mkSys b (prod s) CIdle (accepted s) r) /\ (length (received s) <= length r)%nat.
Proof.
  assert (G : forall b p a r slot, ring_inv (mkSys b p (CReturned slot) a r) ->
    exists b' r', bsteps cons_step 1 (mkSys b p (CReturned slot) a r) (mkSys b' p CIdle a r') /\
      ring_inv (mkSys b' p CIdle a r') /\ (length r <= length r')%nat).
  { intros b p a r slot I. pose proof (inv_cons _ I) as Ik. ring_simpl. subst slot.
    destruct (load_slot b (Z.of_nat (length r)) (inv_sized _ I)) as [x E]. pose proof (c_read b p a r _ x E) as St.
    exists b, (r ++ [x]). split; [by apply bsteps_once|]. split; [by apply (cons_step_inv _ _ St)|]. rewrite length_app. lia. }
  assert (G2 : forall b p a r h v, ring_inv (mkSys b p (CBoth h v) a r) ->
    exists b' r', bsteps cons_step 2 (mkSys b p (CBoth h v) a r) (mkSys b' p CIdle a r') /\
      ring_inv (mkSys b' p CIdle a r') /\ (length r <= length r')%nat).
  { intros b p a r h v I. destruct (Z.eq_dec h v) as [->|N].
    - pose proof (c_empty b p a r v) as St. exists b, r. split; [by apply bsteps_S, bsteps_once|].
      split; [by apply (cons_step_inv _ _ St)|done].
    - pose proof (inv_cons _ I) as Ik. ring_simpl. destruct Ik as (-> & _).
      destruct (load_slot b (Z.of_nat (length r) + 0) (inv_sized _ I)) as [x E].
      pose proof (c_advance b p a r _ v x _ N E (advance_mod _ _ (proj1 (inv_sized _ I)))) as St.
      destruct (G _ _ _ _ _ (cons_step_inv _ _ St I)) as (b' & r' & S1 & I1 & L1).
      exists b', r'. split; [by eapply bsteps_l|done]. }
  destruct s as [b p [|h|h v|slot] a r]; intros I; cbn [prod accepted received].
  - exists b, r. split; [apply bsteps_refl|done].
  - pose proof (c_load_tail b p a r h) as St. destruct (G2 _ _ _ _ _ _ (cons_step_inv _ _ St I)) as (b' & r' & S1 & I1 & L1).
    exists b', r'. split; [by eapply bsteps_l|done].
  - destruct (G2 _ _ _ _ _ _ I) as (b' & r' & S1 & ?). exists b', r'. split; [by apply bsteps_S|done].
  - destruct (G _ _ _ _ _ I) as (b' & r' & S1 & ?). exists b', r'. split; [by do 2 apply bsteps_S|done].
Qed.

(** A producer in the middle of [Push] is through in three steps. *)
Lemma prod_finish s : ring_inv s ->
  exists s', bsteps prod_step 3 s s' /\ prod s' = PIdle /\ received s' = received s /\ cons s' = cons s.
Proof.
  assert (G : forall b c a r x h v, ring_inv (mkSys b (PBoth x h v) c a r) ->
    exists s', bsteps prod_step 2 (mkSys b (PBoth x h v) c a r) s' /\ prod s' = PIdle /\ received s' = r /\ cons s' = c).
  { intros b c a r x h v I. pose proof (inv_prod _ I) as Io. ring_simpl. destruct Io as [_ ->].
    pose proof (advance_mod _ (Z.of_nat (length a)) (proj1 (inv_sized _ I))) as Ea. ring_simpl.
    destruct (Z.eq_dec ((Z.of_nat (length a) + 1) mod capacity b) h) as [E|N].
    - eexists. split; [apply bsteps_S, bsteps_once, p_full; by rewrite Ea, E|done].
    - destruct (store_slot b (Z.of_nat (length a)) x (inv_sized _ I)) as (l & Es & _).
      eexists. split; [eapply bsteps_l; [by apply (p_write _ _ _ _ _ _ _ _ l Ea N)|apply bsteps_once, p_publish]|done]. }
  destruct s as [b [|x h|x h v|x next] c a r]; intros I; cbn [received cons].
  - eexists. split; [apply bsteps_refl|done].
  - pose proof (p_load_tail b c a r x h) as St. destruct (G _ _ _ _ _ _ _ (prod_step_inv _ _ St I)) as (s' & S1 & ?).
    exists s'. split; [by eapply bsteps_l|done].
  - destruct (G _ _ _ _ _ _ _ I) as (s' & S1 & ?). exists s'. split; [by apply bsteps_S|done].
  - eexists. split; [do 2 apply bsteps_S; apply bsteps_once, p_publish|done].
Qed.

(** C7: neither goroutine waits for the other: from every state an interleaving can reach, a consumer running
    alone has read every accepted tick after at most four steps each and three more, wherever the producer
    stands still; its steps are determined; and a producer running alone ends its [Push] in three steps,
    wherever the consumer stands still. *)
Theorem ring_wait_free c s :
  c <= 2 ^ 62 -> rtc spsc_step (start c) s ->
  (exists s', bsteps cons_step (3 + 4 * (length (accepted s) - length (received s))) s s' /\
     cons s' = CIdle /\ received s' = accepted s /\ accepted s' = accepted s) /\
  (forall s0 s1 s2, cons_step s0 s1 -> cons_step s0 s2 -> s1 = s2) /\
  (exists s', bsteps prod_step 3 s s' /\ prod s' = PIdle /\ received s' = received s).
Proof.
  intros Hc R. pose proof (spsc_inv c s Hc R) as I. split; [|split; [exact cons_step_functional|]].
  - destruct (cons_finish s I) as (b & r & S1 & I1 & L1).
    assert (L2 : (length r <= length (accepted s))%nat).
    { pose proof (inv_prefix _ I1) as E. apply (f_equal length) in E. cbn in E. rewrite length_take in E. lia. }
    destruct (cons_drain (length (accepted s) - length r) b (prod s) (accepted s) r I1 ltac:(lia)) as (b' & S2).
    exists (mkSys b' (prod s) CIdle (accepted s) (accepted s)). split; [|done]. apply (bsteps_weaken (3 + 4 * (length (accepted s) - length r))); [lia|].
    by eapply bsteps_trans.
  - destruct (prod_finish s I) as (s' & S1 & E1 & E2 & _). by exists s'.
Qed.

(** C5: one producer and one consumer goroutine never lose, duplicate, reorder or
    tear a tick, under every interleaving of their atomic accesses: what the
    consumer has read is a prefix of what [Push] has accepted, at most
    [capacity] ticks behind; the pointer [Pop] returns still holds its tick when
    it is read before the next [Pop]; and neither side ever blocks or panics. *)
Theorem ring_spsc_fifo c s x :
  c <= 2 ^ 62 -> rtc spsc_step (start c) s ->
  (exists pending, accepted s = received s ++ pending /\
     Z.of_nat (length pending) <= effectiveCapacity c) /\
  (forall slot, cons s = CReturned slot ->
     exists y, load (ticks (rb s)) slot = Some y /\ accepted s !! length (received s) = Some y) /\
  (exists s', prod_step s s' /\ (prod s = PIdle -> prod s' = PHead x (head (rb s)))) /\
  (exists s', cons_step s s').
Proof.
  intros Hc R. pose proof (spsc_inv c s Hc R) as I.
  assert (Ecap : capacity (rb s) = effectiveCapacity c).
  { rewrite <- (proj1 (NewRingBuffer_capacity c Hc)). change (NewRingBuffer c) with (rb (start c)).
    clear I. induction R as [|s1 s2 s3 H R IH]; [done|]. rewrite IH. by destruct H as [[]|[]]. }
  split; [|split; [|split; [by apply prod_progress|by apply cons_progress]]].
  - destruct I as [_ _ _ Ic _ Ip _ _]. exists (drop (length (received s)) (accepted s)).
    split; [rewrite Ip at 1; by rewrite take_drop|]. rewrite length_drop.
    unfold released, produced in Ic. destruct (cons s); lia.
  - intros slot E. destruct I as [_ _ _ Ic Ii _ _ Ik].
    unfold cons_ok, released, produced, intact in *. rewrite E in *. subst slot.
    assert (L : (length (received s) < length (accepted s))%nat) by lia.
    destruct (lookup_lt_is_Some_2 _ _ L) as [y Hy]. exists y. split; [|done].
    apply (Ii (Z.of_nat (length (received s)))); [lia|]. by rewrite Nat2Z.id.
Qed.
End Concurrent.

(** A buffer asked for 3 ticks has capacity 4 and holds 3. *)
Definition tick (n : Z) : GoMarketTick := mkTick n 0 0 0 0 0 0 1 0.

Lemma ring_refines_queue_witness :
  ring_run (RingBuffer.NewRingBuffer 3)
    [OpPop; OpPush (tick 1); OpPush (tick 2); OpPush (tick 3); OpPush (tick 4); OpPop; OpPush (tick 5)] =
  Some [Popped None; Pushed true; Pushed true; Pushed true; Pushed false;
        Popped (Some (tick 1)); Pushed true].
Proof. rewrite ring_refines_queue by lia. reflexivity. Defined.

Definition one_tick : RingBuffer.t :=
  RingBuffer.setTail
    (RingBuffer.setTicks (RingBuffer.NewRingBuffer 3)
       (<[0%nat := tick 1]> (RingBuffer.ticks (RingBuffer.NewRingBuffer 3)))) 1.

Lemma ring_spsc_fifo_witness :
  exists pending, [tick 1] = pending /\ Z.of_nat (length pending) <= effectiveCapacity 3.
Proof.
  destruct (ring_spsc_fifo 3 (RingBuffer.mkSys one_tick RingBuffer.PIdle RingBuffer.CIdle [tick 1] []) (tick 2))
    as [(pending & E & L) _].
  - lia.
  - apply (Push_steps (RingBuffer.NewRingBuffer 3) RingBuffer.CIdle [] [] (tick 1) one_tick true).
    vm_compute. reflexivity.
  - exists pending. split; [exact E|exact L].
Defined.

Lemma ring_wait_free_witness :
  exists s', bsteps RingBuffer.cons_step 7
    (RingBuffer.mkSys one_tick RingBuffer.PIdle RingBuffer.CIdle [tick 1] []) s' /\ RingBuffer.received s' = [tick 1].
Proof.
  destruct (ring_wait_free 3 (RingBuffer.mkSys one_tick RingBuffer.PIdle RingBuffer.CIdle [tick 1] []))
    as [(s' & S1 & _ & E & _) _].
  - lia.
  - apply (Push_steps (RingBuffer.NewRingBuffer 3) RingBuffer.CIdle [] [] (tick 1) one_tick true).
    vm_compute. reflexivity.
  - exists s'. split; [exact S1|exact E].
Defined.
