(* ===== verification/KillSwitch.v ===== *)
(** * The kill switch ([internal/risk/kill_switch.go])

    [Trigger] and [Resume] as goroutines cut at every shared access: atomic
    loads and stores, the compare-and-swap, and the sections under [ks.mu].  A
    schedule is a list of actions; the calls to the broker, to the account
    canceller and to the callbacks are events of a log.  Broker errors are only
    logged by the code, so the broker returns nothing here; panics are not
    modelled. *)
From Stdlib Require Import ZArith Lia Bool.
From S2P Require Import Prelude.
Local Open Scope Z_scope.

Module KillSwitch.
(** The results of [Trigger]. *)
Inductive result := ROk | ErrAlreadyHalted | ErrLocked | ErrAlreadyInFlight.

Inductive event :=
  | CancelOrders (accounts : bool)
  | ClosePositions (accounts : bool)
  | Callback (fn : nat) (reason : string) (time : Z).

(** [accountCancel] is a presence flag: [true] sends both calls to all accounts. *)
Record t := mk {
  halted : Z;
  isLocked : Z;
  killSwitchReady : Z;
  lastTrigger : Z;
  reason : string;
  onTrigger : list nat;
  accountCancel : bool
}.

Definition NewKillSwitch : t := mk 0 0 1 0 "" [] false.

Definition setHalted (k : t) (v : Z) : t :=
  mk v (isLocked k) (killSwitchReady k) (lastTrigger k) (reason k) (onTrigger k) (accountCancel k).
Definition setLocked (k : t) (v : Z) : t :=
  mk (halted k) v (killSwitchReady k) (lastTrigger k) (reason k) (onTrigger k) (accountCancel k).
Definition setReady (k : t) (v : Z) : t :=
  mk (halted k) (isLocked k) v (lastTrigger k) (reason k) (onTrigger k) (accountCancel k).
Definition setReason (k : t) (r : string) (now : Z) : t :=
  mk (halted k) (isLocked k) (killSwitchReady k) now r (onTrigger k) (accountCancel k).
Definition SetAccountCanceller (k : t) : t :=
  mk (halted k) (isLocked k) (killSwitchReady k) (lastTrigger k) (reason k) (onTrigger k) true.
Definition OnTrigger (k : t) (fn : nat) : t :=
  mk (halted k) (isLocked k) (killSwitchReady k) (lastTrigger k) (reason k) (onTrigger k ++ [fn])
    (accountCancel k).

Definition IsHalted (k : t) : bool := halted k =? 1.
Definition IsInFlight (k : t) : bool := killSwitchReady k =? 0.
Definition IsFlightReady (k : t) : bool := killSwitchReady k =? 1.
Definition IsLocked (k : t) : bool := isLocked k =? 1.
Definition Status (k : t) : bool * string * Z := (IsHalted k, reason k, lastTrigger k).

(** Where a goroutine is; the constructors of [Trigger] name its next access. *)
Inductive pc :=
  | LoadHalted (r : string)
  | TryLock (r : string)
  | LoadReady (r : string)
  | StoreBusy (r : string)
  | StoreReason (r : string)
  | StoreHalted (r : string)
  | CallCancel (r : string)
  | CallClose (r : string) (accounts : bool)
  | CopyCallbacks (r : string) (accounts : bool)
  | CallCallbacks (r : string) (accounts : bool) (time : Z) (called todo : list nat)
  | StoreReady (r : string) (accounts : bool) (time : Z) (called : list nat)
  | Unlock (r : string) (res : result)
  | Returned (r : string) (res : result)
  | ResumeHalted
  | ResumeReason
  | Resumed.

(** One access of a goroutine: new shared state, next position, call made. *)
Definition Trigger_step (now : Z) (k : t) (p : pc) : option (t * pc * list event) :=
  match p with
  | LoadHalted r => Some (k, if halted k =? 1 then Returned r ErrAlreadyHalted else TryLock r, [])
  | TryLock r =>
      Some (if isLocked k =? 0 then (setLocked k 1, LoadReady r, []) else (k, Returned r ErrLocked, []))
  | LoadReady r =>
      Some (k, if killSwitchReady k =? 0 then Unlock r ErrAlreadyInFlight else StoreBusy r, [])
  | StoreBusy r => Some (setReady k 0, StoreReason r, [])
  | StoreReason r => Some (setReason k r now, StoreHalted r, [])
  | StoreHalted r => Some (setHalted k 1, CallCancel r, [])
  | CallCancel r => Some (k, CallClose r (accountCancel k), [CancelOrders (accountCancel k)])
  | CallClose r a => Some (k, CopyCallbacks r a, [ClosePositions a])
  | CopyCallbacks r a => Some (k, CallCallbacks r a (lastTrigger k) [] (onTrigger k), [])
  | CallCallbacks r a tm called (fn :: todo) =>
      Some (k, CallCallbacks r a tm (called ++ [fn]) todo, [Callback fn r tm])
  | CallCallbacks r a tm called [] => Some (k, StoreReady r a tm called, [])
  | StoreReady r a tm called => Some (setReady k 1, Unlock r ROk, [])
  | Unlock r res => Some (setLocked k 0, Returned r res, [])
  | Returned _ _ => None
  | ResumeHalted => Some (setHalted k 0, ResumeReason, [])
  | ResumeReason => Some (setReason k "" (lastTrigger k), Resumed, [])
  | Resumed => None
  end.

(** The system: the switch, its goroutines, the calls made so far by whom, and
    whether [Resume] has run. *)
Record sys := mkSys {
  ks : t;
  threads : gmap nat pc;
  calls : list (nat * event);
  resumed : bool
}.

Inductive action :=
  | StartTrigger (i : nat) (r : string)
  | StartResume (i : nat)
  | Run (i : nat) (now : Z)
  | AddCallback (fn : nat)
  | AddCanceller.

Definition idle (p : option pc) : bool :=
  match p with None | Some (Returned _ _) | Some Resumed => true | _ => false end.

Definition act (s : sys) (a : action) : option sys :=
  match a with
  | StartTrigger i r =>
      if idle (threads s !! i)
      then Some (mkSys (ks s) (<[i := LoadHalted r]> (threads s)) (calls s) (resumed s)) else None
  | StartResume i =>
      if idle (threads s !! i)
      then Some (mkSys (ks s) (<[i := ResumeHalted]> (threads s)) (calls s) (resumed s)) else None
  | Run i now =>
      p ← threads s !! i;
      '(k, p', evs) ← Trigger_step now (ks s) p;
      Some (mkSys k (<[i := p']> (threads s)) (calls s ++ map (pair i) evs)
              (resumed s || match p with ResumeHalted => true | _ => false end))
  | AddCallback fn => Some (mkSys (OnTrigger (ks s) fn) (threads s) (calls s) (resumed s))
  | AddCanceller => Some (mkSys (SetAccountCanceller (ks s)) (threads s) (calls s) (resumed s))
  end.

Fixpoint run (s : sys) (acts : list action) : option sys :=
  match acts with
  | [] => Some s
  | a :: acts => s' ← act s a; run s' acts
  end.

Definition start : sys := mkSys NewKillSwitch ∅ [] false.

(** ** [MonitorRejectRate]: one received count, one tick; [true] calls [Trigger]. *)
Record monitor := mkMonitor { rejectCount : Z; windowStart : Z }.
Definition rejectWindow : Z := 5 * 60 * 1000000000.

Definition rollWindow (now : Z) (m : monitor) : monitor :=
  if now - windowStart m >? rejectWindow then mkMonitor 0 now else m.
Definition onRejects (now count : Z) (m : monitor) : monitor * bool :=
  let m := rollWindow now m in
  let m := mkMonitor (GoInt.i64 (rejectCount m + count)) (windowStart m) in
  (m, rejectCount m >? 3).
End KillSwitch.

Section KillSwitchProps.
Import KillSwitch.

(** Between the successful compare-and-swap and the deferred unlock. *)
Definition crit (p : pc) : bool :=
  match p with
  | LoadHalted _ | TryLock _ | Returned _ _ | ResumeHalted | ResumeReason | Resumed => false
  | _ => true
  end.

(** Between the two stores of [killSwitchReady]. *)
Definition busy (p : pc) : bool :=
  match p with
  | StoreReason _ | StoreHalted _ | CallCancel _ | CallClose _ _ | CopyCallbacks _ _
  | CallCallbacks _ _ _ _ _ | StoreReady _ _ _ _ => true
  | _ => false
  end.

(** [halted] has been stored. *)
Definition fired (p : pc) : bool :=
  match p with
  | CallCancel _ | CallClose _ _ | CopyCallbacks _ _ | CallCallbacks _ _ _ _ _ | StoreReady _ _ _ _ => true
  | _ => false
  end.

(** The calls one complete [Trigger] makes, in order. *)
Definition firing (i : nat) (r : string) (a : bool) (tm : Z) (fns : list nat) : list (nat * event) :=
  (i, CancelOrders a) :: (i, ClosePositions a) :: map (fun k => (i, Callback k r tm)) fns.

(** The calls the goroutine holding the lock has made so far. *)
Definition partial (o : option (nat * pc)) : list (nat * event) :=
  match o with
  | Some (i, CallClose r a) => [(i, CancelOrders a)]
  | Some (i, CopyCallbacks r a) => [(i, CancelOrders a); (i, ClosePositions a)]
  | Some (i, CallCallbacks r a tm called _) => firing i r a tm called
  | Some (i, StoreReady r a tm called) => firing i r a tm called
  | _ => []
  end.

(** A finished firing: who, with what reason, and its calls. *)
Definition complete (b : nat * string * list (nat * event)) : Prop :=
  exists a tm fns, b.2 = firing b.1.1 b.1.2 a tm fns.

Definition finished (p : pc) : option string :=
  match p with Unlock r ROk | Returned r ROk => Some r | _ => None end.
Definition in_flight_error (p : pc) : bool :=
  match p with Unlock _ ErrAlreadyInFlight | Returned _ ErrAlreadyInFlight => true | _ => false end.

(** [o]: the goroutine holding the lock and its position; [bs]: finished firings. *)
Record ks_inv (s : sys) (o : option (nat * pc)) (bs : list (nat * string * list (nat * event))) : Prop := {
  ki_locked : isLocked (ks s) = match o with Some _ => 1 | None => 0 end;
  ki_ready : killSwitchReady (ks s) =
             match o with Some (_, p) => if busy p then 0 else 1 | None => 1 end;
  ki_owner : forall i p, o = Some (i, p) -> threads s !! i = Some p /\ crit p = true;
  ki_crit : forall i p, threads s !! i = Some p -> crit p = true -> o = Some (i, p);
  ki_flight : forall i p, threads s !! i = Some p -> in_flight_error p = false;
  ki_blocks : Forall complete bs;
  ki_calls : calls s = concat (map snd bs) ++ partial o;
  ki_done : forall i p r, threads s !! i = Some p -> finished p = Some r ->
              exists evs, (i, r, evs) ∈ bs;
  ki_halted : resumed s = false ->
              (exists i p, o = Some (i, p) /\ fired p = true) \/ bs <> [] -> halted (ks s) = 1
}.

Lemma ks_inv_start : ks_inv start None [].
Proof. split; try done. intros _ [(i & p & H & _)|H]; done. Qed.

(** Starting a call outside the critical section. *)
Lemma ks_inv_begin s o bs i p' :
  ks_inv s o bs -> idle (threads s !! i) = true -> crit p' = false ->
  in_flight_error p' = false -> finished p' = None ->
  ks_inv (mkSys (ks s) (<[i := p']> (threads s)) (calls s) (resumed s)) o bs.
Proof.
  intros [I1 I2 I3 I4 I5 I6 I7 I8 I9] Hi Hc Hf Hn. split; cbn [ks threads calls resumed]; try done.
  - intros j p Ho. destruct (I3 j p Ho) as [Hj Hp]. split; [|done].
    rewrite lookup_insert_ne; [done|]. intros <-. rewrite Hj in Hi. by destruct p.
  - intros j p [[<- <-]|[Nj Hj]]%lookup_insert_Some Hp; [congruence|by apply I4].
  - intros j p [[<- <-]|[Nj Hj]]%lookup_insert_Some; [done|by apply (I5 j)].
  - intros j p r [[<- <-]|[Nj Hj]]%lookup_insert_Some Hr; [congruence|by apply (I8 j p)].
Qed.

(** A step that neither takes nor holds the lock. *)
Lemma ks_inv_outside s o bs i p p' k b :
  ks_inv s o bs -> threads s !! i = Some p -> crit p = false -> crit p' = false ->
  in_flight_error p' = false -> finished p' = None ->
  isLocked k = isLocked (ks s) -> killSwitchReady k = killSwitchReady (ks s) ->
  (resumed s || b = false -> halted k = halted (ks s)) ->
  ks_inv (mkSys k (<[i := p']> (threads s)) (calls s) (resumed s || b)) o bs.
Proof.
  intros [I1 I2 I3 I4 I5 I6 I7 I8 I9] Hi Hp Hc Hf Hn El Er Eh.
  split; cbn [ks threads calls resumed]; try done; try congruence.
  - intros j q Ho. destruct (I3 j q Ho) as [Hj Hq]. split; [|done].
    rewrite lookup_insert_ne; [done|]. intros <-. congruence.
  - intros j q [[<- <-]|[Nj Hj]]%lookup_insert_Some Hq; [congruence|by apply I4].
  - intros j q [[<- <-]|[Nj Hj]]%lookup_insert_Some; [done|by apply (I5 j)].
  - intros j q r [[<- <-]|[Nj Hj]]%lookup_insert_Some Hr; [congruence|by apply (I8 j q)].
  - intros Hb Hx. rewrite (Eh Hb). apply orb_false_iff in Hb as [Hb _]. by apply I9.
Qed.

(** A step inside the critical section: [o'] and [bs'] say what it changes. *)
Lemma ks_inv_inside s bs i p p' k evs o' bs' :
  ks_inv s (Some (i, p)) bs ->
  o' = (if crit p' then Some (i, p') else None) ->
  isLocked k = (if crit p' then 1 else 0) -> killSwitchReady k = (if busy p' then 0 else 1) ->
  in_flight_error p' = false ->
  (exists l, bs' = bs ++ l /\ Forall complete l /\
     partial (Some (i, p)) ++ evs = concat (map snd l) ++ partial o' /\
     (forall r, finished p' = Some r -> finished p = Some r \/ exists es, (i, r, es) ∈ l)) ->
  (resumed s = false -> fired p' = true \/ bs' <> [] ->
     halted k = 1 \/ (halted k = halted (ks s) /\ (fired p = true \/ bs <> []))) ->
  ks_inv (mkSys k (<[i := p']> (threads s)) (calls s ++ evs) (resumed s || false)) o' bs'.
Proof.
  intros [I1 I2 I3 I4 I5 I6 I7 I8 I9] -> El Er Hf (l & -> & Hl & Ep & Hd) Hh.
  assert (Hn : forall j q, threads s !! j = Some q -> j <> i -> crit q = false).
  { intros j q Hj Nj. destruct (crit q) eqn:Eq; [|done]. specialize (I4 j q Hj Eq). congruence. }
  split; cbn [ks threads calls resumed].
  - by destruct (crit p').
  - destruct (crit p') eqn:Ec; [done|]. rewrite Er. by destruct p'.
  - intros j q H. destruct (crit p') eqn:Ec; [|done]. injection H as <- <-. by rewrite lookup_insert_eq.
  - intros j q [[<- <-]|[Nj Hj]]%lookup_insert_Some Hq; [by rewrite Hq|].
    rewrite (Hn j q Hj) in Hq by done. done.
  - intros j q [[<- <-]|[Nj Hj]]%lookup_insert_Some; [done|by apply (I5 j)].
  - by apply Forall_app.
  - rewrite I7, <- app_assoc, Ep, map_app, concat_app, app_assoc. done.
  - intros j q r [[<- <-]|[Nj Hj]]%lookup_insert_Some Hr.
    + destruct (Hd r Hr) as [Hp|[es Hes]].
      * destruct (I8 i p r (proj1 (I3 i p eq_refl)) Hp) as [es Hes]. exists es. set_solver.
      * exists es. set_solver.
    + destruct (I8 j q r Hj Hr) as [es Hes]. exists es. set_solver.
  - rewrite orb_false_r. intros Hr Hx.
    assert (G : fired p' = true \/ bs ++ l <> []).
    { destruct Hx as [(j & q & E & F)|N]; [left|by right]. destruct (crit p'); [|done]. by injection E as <- <-. }
    destruct (Hh Hr G) as [|[-> [F|N]]]; [done| |]; (apply I9; [done|]).
    + left. by exists i, p.
    + by right.
Qed.

(** Such a step that finishes no firing. *)
Lemma ks_inv_quiet s bs i p p' k evs :
  ks_inv s (Some (i, p)) bs ->
  isLocked k = (if crit p' then 1 else 0) -> killSwitchReady k = (if busy p' then 0 else 1) ->
  in_flight_error p' = false -> finished p' = None \/ finished p' = finished p ->
  partial (Some (i, p)) ++ evs = partial (if crit p' then Some (i, p') else None) ->
  (fired p' = fired p /\ halted k = halted (ks s)) \/ halted k = 1 ->
  ks_inv (mkSys k (<[i := p']> (threads s)) (calls s ++ evs) (resumed s || false))
    (if crit p' then Some (i, p') else None) bs.
Proof.
  intros I El Er Hf Hd Ep Hh. eapply ks_inv_inside; [exact I|done|done|done|done| |].
  - exists []. rewrite app_nil_r. split; [done|]. split; [done|]. split; [exact Ep|].
    intros r Hr. left. destruct Hd as [Hd|Hd]; congruence.
  - intros _ Hx. destruct Hh as [[Ef Eh]|Hh]; [right|by left]. by rewrite <- Ef.
Qed.

Lemma ks_inv_lock s o bs i r :
  ks_inv s o bs -> threads s !! i = Some (TryLock r) -> isLocked (ks s) = 0 ->
  ks_inv (mkSys (setLocked (ks s) 1) (<[i := LoadReady r]> (threads s)) (calls s ++ []) (resumed s || false))
    (Some (i, LoadReady r)) bs.
Proof.
  intros [I1 I2 I3 I4 I5 I6 I7 I8 I9] Hi L. destruct o as [[j q]|]; [congruence|].
  split; cbn [ks threads calls resumed setLocked isLocked killSwitchReady]; try done.
  - intros j q [= <- <-]. by rewrite lookup_insert_eq.
  - intros j q [[<- <-]|[Nj Hj]]%lookup_insert_Some Hq; [done|]. specialize (I4 j q Hj Hq). done.
  - intros j q [[<- <-]|[Nj Hj]]%lookup_insert_Some; [done|by apply (I5 j)].
  - by rewrite app_nil_r.
  - intros j q r' [[<- <-]|[Nj Hj]]%lookup_insert_Some Hr; [done|by apply (I8 j q)].
  - rewrite orb_false_r. intros Hr [(j & q & [= <- <-] & F)|N]; [done|]. apply I9; [done|by right].
Qed.

#[local] Ltac quiet :=
  eexists _, _; eapply ks_inv_quiet;
  [eassumption | done | done | try done | try (by left) | try (by rewrite app_nil_r); try done
  | first [by left | by right]].

Lemma ks_inv_run s o bs i p now k p' evs :
  ks_inv s o bs -> threads s !! i = Some p -> Trigger_step now (ks s) p = Some (k, p', evs) ->
  exists o' bs', ks_inv (mkSys k (<[i := p']> (threads s)) (calls s ++ map (pair i) evs)
    (resumed s || match p with ResumeHalted => true | _ => false end)) o' bs'.
Proof.
  intros I Hi E. destruct (crit p) eqn:Ec.
  - pose proof (ki_crit s o bs I i p Hi Ec) as ->. pose proof (ki_ready s _ bs I) as Er.
    pose proof (ki_locked s _ bs I) as El. cbn beta iota in El, Er.
    destruct p as [r|r|r|r|r|r|r|r a|r a|r a tm fns todo|r a tm fns|r res|r res| | |]; try done;
      cbn [Trigger_step busy] in *.
    + rewrite Er in E. injection E as <- <- <-. quiet.
    + injection E as <- <- <-. quiet.
    + injection E as <- <- <-. quiet.
    + injection E as <- <- <-. quiet.
    + injection E as <- <- <-. quiet.
    + injection E as <- <- <-. quiet.
    + injection E as <- <- <-. quiet.
    + destruct todo as [|fn todo]; injection E as <- <- <-; quiet.
      cbn. unfold firing. by rewrite map_app.
    + injection E as <- <- <-. exists (Some (i, Unlock r ROk)), (bs ++ [(i, r, firing i r a tm fns)]).
      apply (ks_inv_inside s bs i (StoreReady r a tm fns)); try done.
      * eexists. split; [done|]. split; [by repeat constructor; eexists _, _, _|].
        split; [cbn; by rewrite !app_nil_r|]. intros r' [= <-]. right. eexists. by apply list_elem_of_singleton.
      * intros _ _. right. split; [done|by left].
    + pose proof (ki_flight s _ bs I i _ Hi) as Hf. injection E as <- <- <-. quiet. by right.
  - destruct p as [r|r|r|r|r|r|r|r a|r a|r a tm fns todo|r a tm fns|r res|r res| | |]; try done;
      cbn [Trigger_step] in *.
    + injection E as <- <- <-. exists o, bs. rewrite app_nil_r.
      destruct (halted (ks s) =? 1); by apply (ks_inv_outside s o bs i (LoadHalted r)).
    + destruct (Z.eqb_spec (isLocked (ks s)) 0) as [L|L]; injection E as <- <- <-.
      * exists (Some (i, LoadReady r)), bs. by apply (ks_inv_lock s o).
      * exists o, bs. rewrite app_nil_r. by apply (ks_inv_outside s o bs i (TryLock r)).
    + injection E as <- <- <-. exists o, bs. rewrite app_nil_r.
      apply (ks_inv_outside s o bs i ResumeHalted); try done. by rewrite orb_true_r.
    + injection E as <- <- <-. exists o, bs. rewrite app_nil_r.
      by apply (ks_inv_outside s o bs i ResumeReason).
Qed.

Lemma ks_inv_act s o bs a s' : ks_inv s o bs -> act s a = Some s' -> exists o' bs', ks_inv s' o' bs'.
Proof.
  intros I. destruct a as [i r|i|i now|fn|]; cbn [act].
  - destruct (idle _) eqn:Hi; [|done]. intros [= <-]. exists o, bs. by apply ks_inv_begin.
  - destruct (idle _) eqn:Hi; [|done]. intros [= <-]. exists o, bs. by apply ks_inv_begin.
  - destruct (threads s !! i) as [p|] eqn:Hi; [|done]. cbn [mbind option_bind].
    destruct (Trigger_step now (ks s) p) as [[[k p'] evs]|] eqn:E; [|done]. intros [= <-].
    by apply (ks_inv_run s o bs i p now).
  - intros [= <-]. exists o, bs. by destruct I.
  - intros [= <-]. exists o, bs. by destruct I.
Qed.

Lemma ks_inv_reachable acts s : run start acts = Some s -> exists o bs, ks_inv s o bs.
Proof.
  assert (G : forall s0 o bs, ks_inv s0 o bs -> run s0 acts = Some s -> exists o bs, ks_inv s o bs);
    [|by apply (G start None []), ks_inv_start].
  induction acts as [|a acts IH]; intros s0 o bs I; cbn [run]; [intros [= <-]; by exists o, bs|].
  destruct (act s0 a) as [s1|] eqn:E; [|done]. destruct (ks_inv_act s0 o bs a s1 I E) as (o' & bs' & I').
  apply (IH s1 o' bs' I').
Qed.


(** The check of [halted] does not keep a second [Trigger] from firing: it
    is read before the lock is taken, so a goroutine that read it before the
    first firing fires again once the lock is released, with no [Resume] and
    under another reason. *)
Theorem kill_switch_fires_twice r1 r2 :
  exists acts s, run start acts = Some s /\ resumed s = false /\
    threads s !! 1%nat = Some (Returned r1 ROk) /\ threads s !! 2%nat = Some (Returned r2 ROk) /\
    calls s = firing 1 r1 false 5 [] ++ firing 2 r2 false 6 [] /\ reason (ks s) = r2.
Proof.
  exists ([StartTrigger 1 r1; StartTrigger 2 r2; Run 2 0] ++ replicate 12 (Run 1 5) ++ replicate 11 (Run 2 6)).
  eexists. split; [vm_compute; reflexivity|]. repeat split; reflexivity.
Qed.
End KillSwitchProps.

(** One [Trigger] with one callback, run to the end, and a second one refused. *)
Definition one_firing : list KillSwitch.action :=
  [KillSwitch.AddCallback 9; KillSwitch.StartTrigger 1 "drawdown"] ++
  replicate 13 (KillSwitch.Run 1 5) ++ [KillSwitch.StartTrigger 2 "late"; KillSwitch.Run 2 6].

