(* ===== verification/Bars.v ===== *)
(** * Bar aggregation ([internal/strategy/bar_aggregator.go])

    Ticks are rolled into 1, 5, 15 and 60 minute bars.  A [Frame] holds the three
    fields the aggregator keeps per timeframe ([Bars], [Count], [Current]); the
    arrays have fixed length, so shifting one drops its first bar. *)
From Stdlib Require Import ZArith Lia Bool Floats.
From S2P Require Import Prelude Float64 FloatRound FloatLaws Price StopLoss.
Import GoInt.
Local Open Scope Z_scope.

Record Bar := mkBar {
  BarTimestamp : Z;
  BarOpen : Z;
  BarHigh : Z;
  BarLow : Z;
  BarClose : Z;
  BarVolume : Z;
  BarVWAP : Z;
  BarCount : Z
}.

Definition zeroBar : Bar := mkBar 0 0 0 0 0 0 0 0.

Definition MaxBars1M : nat := 256.
Definition MaxBars5M : nat := 256.
Definition MaxBars15M : nat := 128.
Definition MaxBars1H : nat := 64.
Definition PriceScaleBar : Z := 100000.

Record Frame := mkFrame { Bars : list Bar; Count : nat; Current : Bar }.

Record BarAggregator := mkAgg {
  AggSymbolID : Z;
  Agg1M : Frame;
  Agg5M : Frame;
  Agg15M : Frame;
  Agg1H : Frame
}.

Definition newFrame (maxBars : nat) : Frame := mkFrame (replicate maxBars zeroBar) 0 zeroBar.

Definition NewBarAggregator (symbolID : Z) : BarAggregator :=
  mkAgg symbolID (newFrame MaxBars1M) (newFrame MaxBars5M) (newFrame MaxBars15M) (newFrame MaxBars1H).

(** The first bar of a period, and a further tick of it. *)
Definition openBar (periodTs price volume : Z) : Bar :=
  mkBar periodTs price price price price volume 0 1.

Definition extendBar (b : Bar) (price volume : Z) : Bar :=
  mkBar (BarTimestamp b) (BarOpen b)
    (if BarHigh b <? price then price else BarHigh b)
    (if price <? BarLow b then price else BarLow b)
    price (u64 (BarVolume b + volume)) (BarVWAP b) (i64 (BarCount b + 1)).

(** The current bar goes into the array, which is shifted when full. *)
Definition closeBar (maxBars : nat) (f : Frame) : list Bar * nat :=
  let bars :=
    if Nat.ltb (Count f) maxBars then <[Count f := Current f]> (Bars f)
    else drop 1 (Bars f) ++ [Current f] in
  let count := S (Count f) in
  (bars, if Nat.ltb maxBars count then maxBars else count).

Definition rollBar (maxBars : nat) (periodTs price volume : Z) (f : Frame) : Frame :=
  if BarTimestamp (Current f) =? periodTs
  then mkFrame (Bars f) (Count f) (extendBar (Current f) price volume)
  else
    let '(bars, count) :=
      if BarTimestamp (Current f) =? 0 then (Bars f, Count f) else closeBar maxBars f in
    mkFrame bars count (openBar periodTs price volume).

Record BarTick := mkBarTick { TickPrice : Z; TickVolume : Z; TickTime : Z }.

(** The four timeframes, in nanoseconds. *)
Definition ns1M : Z := 60000000000.
Definition ns5M : Z := 300000000000.
Definition ns15M : Z := 900000000000.
Definition ns1H : Z := 3600000000000.

Definition AddTick (agg : BarAggregator) (t : BarTick) : BarAggregator :=
  let price := i64 (TickPrice t) in
  let volume := TickVolume t in
  let ts := TickTime t in
  mkAgg (AggSymbolID agg)
    (rollBar MaxBars1M (Z.quot ts ns1M) price volume (Agg1M agg))
    (rollBar MaxBars5M (Z.quot ts ns5M) price volume (Agg5M agg))
    (rollBar MaxBars15M (Z.quot ts ns15M) price volume (Agg15M agg))
    (rollBar MaxBars1H (Z.quot ts ns1H) price volume (Agg1H agg)).

Definition frameOf (agg : BarAggregator) (timeframe : string) : option Frame :=
  if bool_decide (timeframe = "1m"%string) then Some (Agg1M agg)
  else if bool_decide (timeframe = "5m"%string) then Some (Agg5M agg)
  else if bool_decide (timeframe = "15m"%string) then Some (Agg15M agg)
  else if bool_decide (timeframe = "1h"%string) then Some (Agg1H agg)
  else None.

(** [arr[:n]]; a negative count panics ([None]). *)
Definition GetBars (agg : BarAggregator) (timeframe : string) (count : Z) : option (list Bar) :=
  match frameOf agg timeframe with
  | None => Some []
  | Some f =>
      let n := if Z.of_nat (Count f) <? count then Z.of_nat (Count f) else count in
      if n <? 0 then None else Some (take (Z.to_nat n) (Bars f))
  end.

Definition GetLatestBar (agg : BarAggregator) (timeframe : string) : Bar :=
  match frameOf agg timeframe with
  | None => zeroBar
  | Some f => if Nat.ltb 0 (Count f) then nth (Count f - 1) (Bars f) zeroBar else zeroBar
  end.

Definition BarToCandle (b : Bar) : Candle :=
  let scale := of_Z PriceScaleBar in
  mkCandle (BarTimestamp b)
    (PriceFromFloat (of_Z (BarOpen b) / scale)%float)
    (PriceFromFloat (of_Z (BarHigh b) / scale)%float)
    (PriceFromFloat (of_Z (BarLow b) / scale)%float)
    (PriceFromFloat (of_Z (BarClose b) / scale)%float)
    (of_Z (BarVolume b)) "" 0%float "" "".

Definition BarsToCandles (bars : list Bar) : list Candle := map BarToCandle bars.

(** ** Reference: maximal runs of ticks of one period *)
Definition periodOf (ns : Z) (t : BarTick) : Z := Z.quot (TickTime t) ns.
Definition priceOf (t : BarTick) : Z := i64 (TickPrice t).

(** Open, high, low, close, volume and count of a non-empty run. *)
Definition barOf (ns : Z) (g : list BarTick) : Bar :=
  match g with
  | [] => zeroBar
  | t :: _ =>
      mkBar (periodOf ns t) (priceOf t)
        (fold_left Z.max (map priceOf g) (priceOf t))
        (fold_left Z.min (map priceOf g) (priceOf t))
        (List.last (map priceOf g) 0)
        (u64 (fold_left Z.add (map TickVolume g) 0)) 0 (Z.of_nat (length g))
  end.

(** [gs] cuts [ticks] into maximal runs of one period. *)
Record runs_of (ns : Z) (gs : list (list BarTick)) (ticks : list BarTick) : Prop := {
  runs_concat : concat gs = ticks;
  runs_uniform : Forall (fun g => exists t, t ∈ g /\ forall u, u ∈ g -> periodOf ns u = periodOf ns t) gs;
  runs_maximal : forall i g g' t t', gs !! i = Some g -> gs !! S i = Some g' ->
                   t ∈ g -> t' ∈ g' -> periodOf ns t <> periodOf ns t'
}.

Section FrameProps.
Context (ns : Z) (maxBars : nat) (Hmax : (0 < maxBars)%nat).

Definition roll (f : Frame) (t : BarTick) : Frame :=
  rollBar maxBars (periodOf ns t) (priceOf t) (TickVolume t) f.

Definition tick_ok (t : BarTick) : Prop := in_u64 (TickVolume t) /\ periodOf ns t <> 0.

Lemma barOf_open t : tick_ok t -> openBar (periodOf ns t) (priceOf t) (TickVolume t) = barOf ns [t].
Proof.
  intros [Hv _]. unfold openBar, barOf. cbn [map fold_left List.last length].
  rewrite Z.max_id, Z.min_id, Z.add_0_l, u64_id by done. done.
Qed.

Lemma barOf_extend g t :
  g <> [] -> Z.of_nat (length g) + 1 < 2 ^ 63 ->
  extendBar (barOf ns g) (priceOf t) (TickVolume t) = barOf ns (g ++ [t]).
Proof.
  destruct g as [|u g]; [done|]. intros _ Hl. unfold extendBar, barOf.
  cbn [BarTimestamp BarOpen BarHigh BarLow BarClose BarVolume BarVWAP BarCount app].
  rewrite !(app_comm_cons g [t] u), !map_app, !fold_left_app. cbn [map fold_left]. rewrite List.last_last.
  set (hi := fold_left Z.max _ _). set (lo := fold_left Z.min _ _). set (vol := fold_left Z.add _ _).
  f_equal.
  - destruct (Z.ltb_spec hi (priceOf t)); lia.
  - destruct (Z.ltb_spec (priceOf t) lo); lia.
  - unfold u64, uwrap. apply Zplus_mod_idemp_l.
  - rewrite length_app. cbn [length] in *. rewrite i64_id by (unfold in_i64; lia). lia.
Qed.

(** What a frame holds after the runs [done ++ [g]]. *)
Record holds (f : Frame) (done : list (list BarTick)) (g : list BarTick) : Prop := {
  h_current : Current f = barOf ns g;
  h_count : Count f = Nat.min (length done) maxBars;
  h_length : length (Bars f) = maxBars;
  h_bars : take (Count f) (Bars f) = lastn maxBars (map (barOf ns) done)
}.

Lemma closeBar_holds f done g :
  holds f done g ->
  let '(bars, count) := closeBar maxBars f in
  length bars = maxBars /\ count = Nat.min (S (length done)) maxBars /\
  take count bars = lastn maxBars (map (barOf ns) (done ++ [g])).
Proof.
  intros [Hc Hn Hl Hb]. unfold closeBar. rewrite map_app. cbn [map]. rewrite lastn_snoc_drop, length_map by done.
  destruct (Nat.ltb_spec (Count f) maxBars) as [L|L].
  - destruct (Nat.ltb_spec maxBars (S (Count f))); [lia|].
    split; [by rewrite length_insert|]. split; [lia|].
    replace (S (length done) - maxBars - (length done - maxBars))%nat with 0%nat by lia. rewrite drop_0.
    rewrite <- Hb, Hc. erewrite take_S_r; [|by apply list_lookup_insert_eq; lia].
    by rewrite take_insert_ge.
  - destruct (Nat.ltb_spec maxBars (S (Count f))); [|lia].
    split; [rewrite length_app, length_drop; cbn; lia|]. split; [lia|].
    replace (S (length done) - maxBars - (length done - maxBars))%nat with 1%nat by lia.
    rewrite <- Hb, Hc. rewrite !take_ge by (rewrite ?length_app, ?length_drop; cbn; lia). done.
Qed.

(** *** Growing the runs *)
Lemma runs_extend done g ticks u t :
  runs_of ns (done ++ [g]) ticks -> u ∈ g -> periodOf ns u = periodOf ns t ->
  runs_of ns (done ++ [g ++ [t]]) (ticks ++ [t]).
Proof.
  intros [Rc Ru Rm] Hu E. apply Forall_app in Ru as [Rd (v & Hv & Rg)%Forall_singleton].
  assert (G : forall w, w ∈ g ++ [t] -> exists w', w' ∈ g /\ periodOf ns w = periodOf ns w').
  { intros w [Hw| ->]%elem_of_snoc; [by exists w|by exists u]. }
  split.
  - rewrite concat_app in *. cbn [concat] in *. rewrite app_nil_r in *. by rewrite app_assoc, Rc.
  - apply Forall_app. split; [done|]. apply Forall_singleton. exists v. split; [set_solver|].
    intros w (w' & Hw & ->)%G. by apply Rg.
  - intros i x y a b Hx Hy Ha Hb.
    assert (Li : (S i < length (done ++ [g ++ [t]]))%nat) by (by apply lookup_lt_is_Some; eexists).
    rewrite length_app in Li. cbn in Li. rewrite lookup_app_l in Hx by lia.
    assert (Hx' : (done ++ [g]) !! i = Some x) by (by rewrite lookup_app_l by lia).
    apply lookup_snoc_Some in Hy as [[Ly Hy]|[El <-]].
    + apply (Rm i x y); [done|by rewrite lookup_app_l by lia|done|done].
    + apply G in Hb as (b' & Hb & ->). apply (Rm i x g); [done| |done|done].
      rewrite El. by apply list_lookup_middle.
Qed.

Lemma runs_new gs g ticks t :
  runs_of ns (gs ++ [g]) ticks -> (forall u, u ∈ g -> periodOf ns u <> periodOf ns t) ->
  runs_of ns ((gs ++ [g]) ++ [[t]]) (ticks ++ [t]).
Proof.
  intros [Rc Ru Rm] N. split.
  - rewrite concat_app, Rc. done.
  - apply Forall_app. split; [done|]. apply Forall_singleton. exists t. split; [set_solver|].
    intros w Hw. apply list_elem_of_singleton in Hw. by subst.
  - intros i x y a b Hx Hy Ha Hb. apply lookup_snoc_Some in Hy as [[Ly Hy]|[El <-]].
    + rewrite lookup_app_l in Hx by lia. by apply (Rm i x y).
    + apply list_elem_of_singleton in Hb. subst b. rewrite lookup_app_l in Hx by lia.
      assert (i = length gs) as -> by (rewrite length_app in El; cbn in El; lia).
      rewrite list_lookup_middle in Hx by done. injection Hx as <-. by apply N.
Qed.

Definition frame_inv (f : Frame) (ticks : list BarTick) : Prop :=
  (ticks = [] /\ f = newFrame maxBars) \/
  (exists done t g, runs_of ns (done ++ [t :: g]) ticks /\ holds f done (t :: g)).

Lemma roll_inv f ticks t :
  frame_inv f ticks -> Forall tick_ok ticks -> tick_ok t -> Z.of_nat (length ticks) + 1 < 2 ^ 63 ->
  frame_inv (roll f t) (ticks ++ [t]).
Proof.
  intros [[-> ->]|(done & u & g & R & H)] Hok Ht Hl; right.
  - exists [], t, []. split.
    + split; [done| |].
      * apply Forall_singleton. exists t. split; [set_solver|]. intros w Hw.
        apply list_elem_of_singleton in Hw. by subst.
      * intros i x y a b _ Hy. done.
    + unfold roll, rollBar. cbn [newFrame Current zeroBar BarTimestamp].
      destruct (Z.eqb_spec 0 (periodOf ns t)) as [E|_]; [by destruct Ht|]. cbn [Z.eqb].
      split; cbn [Current Count Bars].
      * by apply barOf_open.
      * done.
      * apply length_replicate.
      * done.
  - pose proof (h_current f done (u :: g) H) as Ec.
    assert (Hu : u ∈ ticks).
    { rewrite <- (runs_concat _ _ _ R), concat_app. cbn. set_solver. }
    assert (Nu : periodOf ns u <> 0) by (rewrite list.Forall_forall in Hok; by apply Hok).
    assert (Et : BarTimestamp (Current f) = periodOf ns u) by (by rewrite Ec).
    unfold roll, rollBar. rewrite Et.
    destruct (Z.eqb_spec (periodOf ns u) (periodOf ns t)) as [E|E].
    + exists done, u, (g ++ [t]). rewrite app_comm_cons. split; [apply (runs_extend _ _ _ u); set_solver|].
      destruct H as [_ Hn Hb Ht']. split; cbn [Current Count Bars]; try assumption.
      rewrite Ec. apply barOf_extend; [done|].
      assert (length (u :: g) <= length ticks)%nat; [|lia].
      rewrite <- (runs_concat _ _ _ R), concat_app, length_app. cbn. rewrite app_nil_r. lia.
    + destruct (Z.eqb_spec (periodOf ns u) 0); [done|].
      pose proof (closeBar_holds f done (u :: g) H) as K.
      destruct (closeBar maxBars f) as [bars count]. destruct K as (Kl & Kn & Kb).
      exists (done ++ [u :: g]), t, []. split.
      * apply runs_new; [done|]. intros w Hw. pose proof (runs_uniform _ _ _ R) as Ru.
        apply Forall_app in Ru as [_ (v & Hv & Rg)%Forall_singleton].
        rewrite (Rg w Hw), <- (Rg u) by set_solver. done.
      * split; cbn [Current Count Bars]; [by apply barOf_open| |done|done].
        rewrite Kn, length_app. cbn [length]. lia.
Qed.

Lemma rolls_inv ticks :
  Forall tick_ok ticks -> Z.of_nat (length ticks) < 2 ^ 63 ->
  frame_inv (fold_left roll ticks (newFrame maxBars)) ticks.
Proof.
  induction ticks as [|t ticks IH] using rev_ind; intros Hok Hl; [by left|].
  rewrite fold_left_app. apply Forall_app in Hok as [Hok Ht]. apply Forall_cons_1 in Ht as [Ht _].
  rewrite length_app in Hl. cbn [length] in Hl. cbn [fold_left].
  apply roll_inv; [by apply IH; [|lia]|done|exact Ht|lia].
Qed.
End FrameProps.

(** ** The aggregator *)
Section AggregatorProps.

(** Timeframe, its nanoseconds and the bars kept. *)
Definition timeframes : list (string * Z * nat) :=
  [("1m"%string, ns1M, MaxBars1M); ("5m"%string, ns5M, MaxBars5M);
   ("15m"%string, ns15M, MaxBars15M); ("1h"%string, ns1H, MaxBars1H)].

Definition after (id : Z) (ticks : list BarTick) : BarAggregator :=
  fold_left AddTick ticks (NewBarAggregator id).

Lemma AddTick_frames ticks agg :
  let agg' := fold_left AddTick ticks agg in
  Agg1M agg' = fold_left (roll ns1M MaxBars1M) ticks (Agg1M agg) /\
  Agg5M agg' = fold_left (roll ns5M MaxBars5M) ticks (Agg5M agg) /\
  Agg15M agg' = fold_left (roll ns15M MaxBars15M) ticks (Agg15M agg) /\
  Agg1H agg' = fold_left (roll ns1H MaxBars1H) ticks (Agg1H agg).
Proof.
  revert agg. induction ticks as [|t ticks IH]; intros agg; [done|]. cbn [fold_left].
  destruct (IH (AddTick agg t)) as (-> & -> & -> & ->). done.
Qed.

Lemma frame_after id ticks tf ns max :
  (tf, ns, max) ∈ timeframes ->
  frameOf (after id ticks) tf = Some (fold_left (roll ns max) ticks (newFrame max)) /\
  (0 < max)%nat /\ 0 < ns <= ns1H.
Proof.
  intros H. unfold after, frameOf. destruct (AddTick_frames ticks (NewBarAggregator id)) as (-> & -> & -> & ->).
  unfold timeframes in H. repeat (apply elem_of_cons in H as [H|H]; [injection H as -> -> ->|]);
    [..|by apply elem_of_nil in H]; (split; [done|]);
    unfold MaxBars1M, MaxBars5M, MaxBars15M, MaxBars1H, ns1M, ns5M, ns15M, ns1H; lia.
Qed.

Lemma fold_max_ge l x : x <= fold_left Z.max l x /\ forall y, y ∈ l -> y <= fold_left Z.max l x.
Proof.
  revert x. induction l as [|z l IH]; intros x; cbn [fold_left].
  - split; [lia|]. intros y Hy. by apply elem_of_nil in Hy.
  - destruct (IH (Z.max x z)) as [H1 H2]. split; [lia|]. intros y [->|Hy]%elem_of_cons; [lia|by apply H2].
Qed.

Lemma fold_min_le l x : fold_left Z.min l x <= x /\ forall y, y ∈ l -> fold_left Z.min l x <= y.
Proof.
  revert x. induction l as [|z l IH]; intros x; cbn [fold_left].
  - split; [lia|]. intros y Hy. by apply elem_of_nil in Hy.
  - destruct (IH (Z.min x z)) as [H1 H2]. split; [lia|]. intros y [->|Hy]%elem_of_cons; [lia|by apply H2].
Qed.

(** Open and close lie between low and high. *)
Definition bar_shape (b : Bar) : Prop :=
  BarLow b <= BarOpen b <= BarHigh b /\ BarLow b <= BarClose b <= BarHigh b.

Lemma barOf_shape ns g : bar_shape (barOf ns g).
Proof.
  destruct g as [|t g]; [by unfold bar_shape; cbn|]. unfold bar_shape, barOf.
  cbn [BarLow BarOpen BarHigh BarClose].
  destruct (fold_max_ge (map priceOf (t :: g)) (priceOf t)) as [M1 M2].
  destruct (fold_min_le (map priceOf (t :: g)) (priceOf t)) as [N1 N2].
  assert (L : List.last (map priceOf (t :: g)) 0 ∈ map priceOf (t :: g)).
  { destruct (exists_last (l := map priceOf (t :: g)) ltac:(done)) as (l & a & ->).
    rewrite List.last_last. set_solver. }
  pose proof (M2 _ L). pose proof (N2 _ L). lia.
Qed.

Lemma nth_last_take (l : list Bar) n : (0 < n <= length l)%nat ->
  nth (n - 1) l zeroBar = List.last (take n l) zeroBar.
Proof.
  intros H. replace n with (S (n - 1)) at 2 by lia.
  destruct (lookup_lt_is_Some_2 l (n - 1)) as [x Hx]; [lia|].
  rewrite (take_S_r _ _ x Hx), List.last_last. by apply nth_lookup_Some.
Qed.

(** C10: the aggregator's bars are the open, high, low, close, volume and count
    of the maximal runs of ticks that fall into one period: the last run is the
    current bar, the last [maxBars] finished ones are the array, in order, and
    [GetLatestBar] is the last finished one; every bar's open and close lie
    between its low and high.  The volumes add up like uint64. *)
Theorem bars_are_tick_runs id ticks tf ns max :
  (tf, ns, max) ∈ timeframes -> ticks <> [] -> Z.of_nat (length ticks) < 2 ^ 63 ->
  Forall (fun t => in_u64 (TickVolume t) /\ ns1H <= TickTime t) ticks ->
  exists f closed g,
    frameOf (after id ticks) tf = Some f /\ runs_of ns (closed ++ [g]) ticks /\
    Current f = barOf ns g /\
    take (Count f) (Bars f) = lastn max (map (barOf ns) closed) /\
    GetLatestBar (after id ticks) tf = List.last (map (barOf ns) closed) zeroBar /\
    Forall bar_shape (Current f :: take (Count f) (Bars f)).
Proof.
  intros Htf Hne Hl Hok. destruct (frame_after id ticks tf ns max Htf) as (Ef & Hm & Hns).
  assert (Ok : Forall (tick_ok ns) ticks).
  { apply (list.Forall_impl _ _ _ Hok). intros t [Hv Ht]. split; [done|]. unfold periodOf.
    pose proof (Z.quot_le_mono ns (TickTime t) ns) as Q. rewrite Z.quot_same in Q by lia.
    unfold ns1H in *. lia. }
  destruct (rolls_inv ns max Hm ticks Ok Hl) as [[-> _]|(closed & u & g & R & [Hc Hn Hb Ht])]; [done|].
  set (f := fold_left (roll ns max) ticks (newFrame max)) in *.
  exists f, closed, (u :: g). split; [done|]. split; [done|]. split; [done|]. split; [done|]. split.
  - unfold GetLatestBar. rewrite Ef. destruct (Nat.ltb_spec 0 (Count f)) as [L|L].
    + rewrite nth_last_take, Ht by lia. unfold lastn. rewrite length_map.
      destruct (exists_last (l := closed)) as (l & a & ->); [intros ->; rewrite Hn in L; cbn [length Nat.min] in L; lia|].
      rewrite map_app, length_app. cbn [map length]. rewrite drop_app_le by (rewrite length_map; lia).
      by rewrite !List.last_last.
    + destruct closed as [|d closed]; [done|]. rewrite Hn in L. cbn [length] in L. lia.
  - rewrite Hc, Ht. constructor; [apply barOf_shape|]. unfold lastn. apply Forall_drop.
    apply list.Forall_forall. intros b (d & <- & _)%list_elem_of_In%List.in_map_iff. apply barOf_shape.
Qed.
End AggregatorProps.

(** ** The bars the live engine reads *)
Section Reading.

(** Until the array is full, rolling only appends to it. *)
Lemma roll_keeps_prefix ns max f t n :
  length (Bars f) = max -> (n <= Count f)%nat -> (Count (roll ns max f t) < max)%nat ->
  length (Bars (roll ns max f t)) = max /\ (Count f <= Count (roll ns max f t))%nat /\
  take n (Bars (roll ns max f t)) = take n (Bars f).
Proof.
  intros Hl Hn. unfold roll, rollBar. destruct (_ =? periodOf ns t); [done|].
  destruct (_ =? 0); [done|]. unfold closeBar. cbn [Count Bars].
  destruct (Nat.ltb_spec (Count f) max) as [L|L]; destruct (Nat.ltb_spec max (S (Count f))) as [L'|L']; try lia.
  intros _. split; [by rewrite length_insert|]. split; [lia|]. by rewrite take_insert_ge.
Qed.

Lemma rolls_keep_prefix ns max ticks f n :
  length (Bars f) = max -> (n <= Count f)%nat ->
  (Count (fold_left (roll ns max) ticks f) < max)%nat ->
  length (Bars (fold_left (roll ns max) ticks f)) = max /\
  (Count f <= Count (fold_left (roll ns max) ticks f))%nat /\
  take n (Bars (fold_left (roll ns max) ticks f)) = take n (Bars f).
Proof.
  intros Hl Hn. induction ticks as [|t ticks IH] using rev_ind; [done|]. rewrite fold_left_app. cbn [fold_left].
  set (g := fold_left (roll ns max) ticks f) in *. intros Hc.
  assert (Hg : (Count g < max)%nat).
  { destruct (Nat.lt_ge_cases (Count g) max) as [L|G]; [done|]. exfalso. revert Hc. unfold roll, rollBar.
    destruct (_ =? periodOf ns t); [cbn [Count]; lia|]. destruct (_ =? 0); [cbn [Count]; lia|].
    unfold closeBar. cbn [Count Bars]. destruct (Nat.ltb_spec max (S (Count g))); lia. }
  destruct (IH Hg) as (Lg & Cg & Tg). destruct (roll_keeps_prefix ns max g t n Lg ltac:(lia) Hc) as (L & C & T).
  split; [done|]. split; [lia|congruence].
Qed.

(** [GetBars] returns the oldest bars, not the latest: once [n] one-minute
    bars are finished, the window of [n] bars the live engine computes its
    ATR from is the same for every later tick until 256 bars are kept, so the
    ATR stays at its value for the start of the session. *)
Theorem live_atr_frozen id ticks more n period :
  (n <= Count (Agg1M (after id ticks)))%nat ->
  (Count (Agg1M (after id (ticks ++ more))) < MaxBars1M)%nat ->
  GetBars (after id (ticks ++ more)) "1m" (Z.of_nat n) = GetBars (after id ticks) "1m" (Z.of_nat n) /\
  option_map (fun bs => ComputeATR (BarsToCandles bs) period)
    (GetBars (after id (ticks ++ more)) "1m" (Z.of_nat n)) =
  option_map (fun bs => ComputeATR (BarsToCandles bs) period)
    (GetBars (after id ticks) "1m" (Z.of_nat n)).
Proof.
  intros Hn Hc. assert (E : GetBars (after id (ticks ++ more)) "1m" (Z.of_nat n) =
                             GetBars (after id ticks) "1m" (Z.of_nat n)); [|by rewrite E].
  destruct (AddTick_frames (ticks ++ more) (NewBarAggregator id)) as (E1 & _).
  destruct (AddTick_frames ticks (NewBarAggregator id)) as (E2 & _).
  unfold GetBars, frameOf. rewrite !bool_decide_true by done. unfold after in *.
  rewrite E1, E2 in *. rewrite fold_left_app in *.
  set (f := fold_left (roll ns1M MaxBars1M) ticks (Agg1M (NewBarAggregator id))) in *.
  assert (Lf : length (Bars f) = MaxBars1M).
  { unfold f. clear. induction ticks as [|t ticks IH] using rev_ind; [apply length_replicate|].
    rewrite fold_left_app. cbn [fold_left]. set (g := fold_left _ ticks _) in *.
    unfold roll, rollBar. destruct (_ =? periodOf ns1M t); [done|]. destruct (_ =? 0); [done|].
    unfold closeBar. cbn [Bars]. destruct (Nat.ltb_spec (Count g) MaxBars1M); [by rewrite length_insert|].
    rewrite length_app, length_drop, IH. done. }
  destruct (rolls_keep_prefix ns1M MaxBars1M more f n Lf Hn Hc) as (_ & C & T).
  destruct (Z.ltb_spec (Z.of_nat (Count (fold_left (roll ns1M MaxBars1M) more f))) (Z.of_nat n)); [lia|].
  destruct (Z.ltb_spec (Z.of_nat (Count f)) (Z.of_nat n)); [lia|].
  destruct (Z.ltb_spec (Z.of_nat n) 0); [lia|]. by rewrite !Nat2Z.id, T.
Qed.

(** A candle carries the bar's prices exactly, but its time is the number of the
    period taken as nanoseconds: within a sixth of a second of the epoch. *)
Lemma BarToCandle_prices b :
  sane (BarOpen b) -> sane (BarHigh b) -> sane (BarLow b) -> sane (BarClose b) ->
  let c := BarToCandle b in
  Open c = BarOpen b /\ High c = BarHigh b /\ Low c = BarLow b /\ Close c = BarClose b.
Proof. intros Ho Hh Hl Hc. cbv zeta. repeat split; by apply FromFloat64_ToFloat64. Qed.

Lemma BarToCandle_epoch t g :
  in_i64 (TickTime t) -> 0 <= TickTime t ->
  0 <= Time (BarToCandle (barOf ns1M (t :: g))) < 160000000.
Proof.
  intros [_ H] H0. cbn [BarToCandle Time barOf BarTimestamp]. unfold periodOf, ns1M.
  rewrite Z.quot_div_nonneg by lia. split; [apply Z.div_pos; lia|]. apply Z.div_lt_upper_bound; lia.
Qed.
End Reading.

(** Three ticks in minute 60, one in minute 61, one in minute 62. *)
Definition sample_ticks : list BarTick :=
  [mkBarTick 100000 10 3600000000000; mkBarTick 103000 5 3610000000000; mkBarTick 99000 1 3650000000000;
   mkBarTick 101000 2 3660000000000; mkBarTick 102000 3 3720000000000].

Lemma bars_are_tick_runs_witness :
  GetLatestBar (after 1 sample_ticks) "1m" = mkBar 61 101000 101000 101000 101000 2 0 1 /\
  exists done g, runs_of ns1M (done ++ [g]) sample_ticks.
Proof.
  split; [vm_compute; reflexivity|].
  destruct (bars_are_tick_runs 1 sample_ticks "1m" ns1M MaxBars1M) as (f & d & g & _ & R & _).
  - apply elem_of_cons. by left.
  - discriminate.
  - cbn. lia.
  - repeat constructor; unfold in_u64, ns1H; cbn; lia.
  - by exists d, g.
Defined.

Lemma live_atr_frozen_witness :
  GetBars (after 1 sample_ticks) "1m" 1 = GetBars (after 1 (take 4 sample_ticks)) "1m" 1 /\
  GetBars (after 1 sample_ticks) "1m" 1 = Some [mkBar 60 100000 103000 99000 99000 16 0 3].
Proof.
  split; [|vm_compute; reflexivity].
  apply (live_atr_frozen 1 (take 4 sample_ticks) (drop 4 sample_ticks) 1 14).
  - apply Nat.leb_le. vm_compute. reflexivity.
  - apply Nat.ltb_lt. vm_compute. reflexivity.
Defined.
