(* ===== verification/Breaker.v ===== *)
(** * The circuit breaker ([internal/breaker/circuit_breaker.go])

    Each operation is one critical section; the notification of the observer
    comes after it and is returned as a list of events.  [now] is [time.Now()]
    in nanoseconds.  The global observer registry is not modelled. *)
From Stdlib Require Import ZArith Lia Bool.
From S2P Require Import Prelude.
Import GoInt.
Local Open Scope Z_scope.

Inductive CircuitState := CircuitClosed | CircuitOpen | CircuitHalfOpen.

Record BreakerEvent := mkEvent { EvFrom : CircuitState; EvTo : CircuitState; EvWarn : bool; EvReason : string }.

Module CircuitBreaker.
Record t := mk {
  state : CircuitState;
  failureThreshold : Z;
  warnThreshold : Z;
  resetTimeout : Z;
  halfOpenMaxSuccess : Z;
  failureCount : Z;
  successCount : Z;
  lastFailureTime : Z;
  warnEmitted : bool
}.

Definition NewCircuitBreaker (threshold timeout : Z) : t :=
  mk CircuitClosed threshold 0 timeout 1 0 0 0 false.

Definition SetWarnThreshold (cb : t) (threshold : Z) : t :=
  mk (state cb) (failureThreshold cb) threshold (resetTimeout cb) (halfOpenMaxSuccess cb)
    (failureCount cb) (successCount cb) (lastFailureTime cb) (warnEmitted cb).

Definition State (cb : t) : CircuitState := state cb.

Definition Allow (now : Z) (cb : t) : t * bool * list BreakerEvent :=
  match state cb with
  | CircuitClosed => (cb, true, [])
  | CircuitOpen =>
      if resetTimeout cb <=? now - lastFailureTime cb
      then (mk CircuitHalfOpen (failureThreshold cb) (warnThreshold cb) (resetTimeout cb)
              (halfOpenMaxSuccess cb) (failureCount cb) 0 (lastFailureTime cb) (warnEmitted cb),
            true, [mkEvent CircuitOpen CircuitHalfOpen false "reset_timeout"])
      else (cb, false, [])
  | CircuitHalfOpen => (cb, successCount cb <? halfOpenMaxSuccess cb, [])
  end.

Definition RecordSuccess (cb : t) : t * list BreakerEvent :=
  match state cb with
  | CircuitHalfOpen =>
      let successes := i64 (successCount cb + 1) in
      let to := if halfOpenMaxSuccess cb <=? successes then CircuitClosed else CircuitHalfOpen in
      (mk to (failureThreshold cb) (warnThreshold cb) (resetTimeout cb) (halfOpenMaxSuccess cb)
         0 successes (lastFailureTime cb) false,
       match to with CircuitClosed => [mkEvent CircuitHalfOpen CircuitClosed false "recovered"] | _ => [] end)
  | _ =>
      (mk (state cb) (failureThreshold cb) (warnThreshold cb) (resetTimeout cb) (halfOpenMaxSuccess cb)
         0 (successCount cb) (lastFailureTime cb) false, [])
  end.

Definition isHalfOpen (s : CircuitState) : bool := match s with CircuitHalfOpen => true | _ => false end.

Definition RecordFailure (now : Z) (cb : t) : t * list BreakerEvent :=
  let from := state cb in
  let failures := i64 (failureCount cb + 1) in
  let next st warned :=
    mk st (failureThreshold cb) (warnThreshold cb) (resetTimeout cb) (halfOpenMaxSuccess cb)
      failures (successCount cb) now warned in
  if isHalfOpen from || (failureThreshold cb <=? failures)
  then (next CircuitOpen (warnEmitted cb), [mkEvent from CircuitOpen false "failure_threshold"])
  else if (warnThreshold cb >? 0) && (warnThreshold cb <=? failures) && negb (warnEmitted cb)
  then (next from true, [mkEvent from from true "warn_threshold"])
  else (next from (warnEmitted cb), []).

(** A run: the answers of [Allow] and the events, in order. *)
Inductive op := OpAllow (now : Z) | OpSuccess | OpFailure (now : Z) | OpWarnThreshold (n : Z).

Definition step (cb : t) (o : op) : t * list bool * list BreakerEvent :=
  match o with
  | OpAllow now => let '(cb, ok, es) := Allow now cb in (cb, [ok], es)
  | OpSuccess => let '(cb, es) := RecordSuccess cb in (cb, [], es)
  | OpFailure now => let '(cb, es) := RecordFailure now cb in (cb, [], es)
  | OpWarnThreshold n => (SetWarnThreshold cb n, [], [])
  end.

Fixpoint run (cb : t) (ops : list op) : t * list bool * list BreakerEvent :=
  match ops with
  | [] => (cb, [], [])
  | o :: ops =>
      let '(cb, answers, es) := step cb o in
      let '(cb, answers', es') := run cb ops in
      (cb, answers ++ answers', es ++ es')
  end.
End CircuitBreaker.

(** ** Specification

    Closed with a number of consecutive failures, open since the last failure,
    or on trial. *)
Inductive spec_state := Closed (failures : Z) | OpenSince (time : Z) | Trial.

Section BreakerSpec.
Import CircuitBreaker.
Context (threshold timeout : Z).

Definition spec_step (s : spec_state) (o : op) : spec_state * list bool :=
  match s, o with
  | _, OpWarnThreshold _ => (s, [])
  | Closed n, OpAllow _ => (s, [true])
  | Closed _, OpSuccess => (Closed 0, [])
  | Closed n, OpFailure now => (if threshold <=? n + 1 then OpenSince now else Closed (n + 1), [])
  | OpenSince t0, OpAllow now =>
      if timeout <=? now - t0 then (Trial, [true]) else (s, [false])
  | OpenSince _, OpSuccess => (s, [])
  | OpenSince _, OpFailure now => (OpenSince now, [])
  | Trial, OpAllow _ => (Trial, [true])
  | Trial, OpSuccess => (Closed 0, [])
  | Trial, OpFailure now => (OpenSince now, [])
  end.

Fixpoint spec_run (s : spec_state) (ops : list op) : spec_state * list bool :=
  match ops with
  | [] => (s, [])
  | o :: ops =>
      let '(s, answers) := spec_step s o in
      let '(s, answers') := spec_run s ops in
      (s, answers ++ answers')
  end.

Definition circuit_of (s : spec_state) : CircuitState :=
  match s with Closed _ => CircuitClosed | OpenSince _ => CircuitOpen | Trial => CircuitHalfOpen end.

(** The breaker implements the specification state. *)
Definition implements (cb : t) (s : spec_state) : Prop :=
  state cb = circuit_of s /\ failureThreshold cb = threshold /\ resetTimeout cb = timeout /\
  halfOpenMaxSuccess cb = 1 /\
  match s with
  | Closed n => failureCount cb = n /\ 0 <= n /\ (n < threshold \/ n = 0)
  | OpenSince t0 => lastFailureTime cb = t0
  | Trial => successCount cb = 0
  end.

Context (Hth : in_i64 threshold).

Lemma step_implements cb s o :
  implements cb s ->
  implements (step cb o).1.1 (spec_step s o).1 /\ (step cb o).1.2 = (spec_step s o).2.
Proof.
  destruct cb as [st th wn tmo hm fc sc lf we]. unfold implements. cbn. intros (-> & -> & -> & -> & H).
  destruct o as [now| |now|n]; destruct s as [k|t0|]; cbn in *; try tauto.
  - destruct (timeout <=? now - lf) eqn:E; rewrite <- H, E; cbn; tauto.
  - subst sc. cbn. tauto.
  - split; [|done]. repeat split; lia.
  - subst sc. cbn. repeat split; lia.
  - destruct H as (-> & Hk & Hb). unfold RecordFailure. cbn.
    rewrite i64_id by (unfold in_i64 in *; lia).
    destruct (threshold <=? k + 1) eqn:E; cbn; [tauto|]. apply Z.leb_gt in E.
    destruct (_ && _)%bool; cbn; (split; [|done]); repeat split; lia.
  - unfold RecordFailure. cbn. destruct (threshold <=? _); cbn; [tauto|].
    destruct (_ && _)%bool; cbn; tauto.
Qed.

Lemma run_implements ops : forall cb s,
  implements cb s ->
  implements (run cb ops).1.1 (spec_run s ops).1 /\ (run cb ops).1.2 = (spec_run s ops).2.
Proof.
  induction ops as [|o ops IH]; intros cb s I; [done|]. cbn [run spec_run].
  destruct (step_implements cb s o I) as [I' E].
  destruct (step cb o) as [[cb' a] es]. destruct (spec_step s o) as [s' a']. cbn [fst snd] in *. subst a'.
  destruct (IH cb' s' I') as [I'' E']. destruct (run cb' ops) as [[cb'' b] es'].
  destruct (spec_run s' ops) as [s'' b']. cbn [fst snd] in *. by subst.
Qed.
End BreakerSpec.

Section BreakerProps.
Import CircuitBreaker.

(** C9: the breaker implements its specification for every sequence of
    operations: it opens on the [threshold]-th consecutive failure, refuses
    everything until [timeout] after the last failure, then lets every request
    through until the first result, which closes or reopens it; a late success
    does not close an open circuit, and a late failure restarts its wait. *)
Theorem breaker_refines_spec threshold timeout ops :
  in_i64 threshold ->
  let '(cb, answers, _) := run (NewCircuitBreaker threshold timeout) ops in
  let '(s, allowed) := spec_run threshold timeout (Closed 0) ops in
  answers = allowed /\ State cb = circuit_of s.
Proof.
  intros H. destruct (run_implements threshold timeout H ops (NewCircuitBreaker threshold timeout) (Closed 0))
    as [I E].
  - repeat split; [lia|by right].
  - destruct (run _ ops) as [[cb a] es]. destruct (spec_run _ _ _ ops) as [s a']. cbn in *.
    split; [done|apply I].
Qed.
End BreakerProps.

(** Two failures open it; the third request after the timeout is let through. *)
Lemma breaker_refines_spec_witness :
  (CircuitBreaker.run (CircuitBreaker.NewCircuitBreaker 2 100)
     [CircuitBreaker.OpFailure 10; CircuitBreaker.OpAllow 15; CircuitBreaker.OpFailure 20;
      CircuitBreaker.OpAllow 50; CircuitBreaker.OpAllow 120; CircuitBreaker.OpAllow 121]).1.2 =
    [true; false; true; true].
Proof.
  pose proof (breaker_refines_spec 2 100
    [CircuitBreaker.OpFailure 10; CircuitBreaker.OpAllow 15; CircuitBreaker.OpFailure 20;
     CircuitBreaker.OpAllow 50; CircuitBreaker.OpAllow 120; CircuitBreaker.OpAllow 121]) as H.
  destruct (CircuitBreaker.run _ _) as [[cb a] es]. cbn [fst snd].
  destruct (H ltac:(unfold in_i64; lia)) as [-> _]. reflexivity.
Defined.
