(* ===== verification/History.v ===== *)
(** * Price history ([internal/strategy/history.go])

    The circular buffer behind the indicators, and its linearised windows.  The
    four arrays have one length, so every index below is in range. *)
From Stdlib Require Import ZArith Lia Bool Floats.
From S2P Require Import Prelude Float64 FloatRound FloatLaws Price.
Import GoInt.
Local Open Scope Z_scope.

(** [internal/strategy/indicators.go] *)
Definition finite (x : float64) : bool := negb (math.IsNaN x) && negb (math.IsInf x 0).

Definition at_ (buf : list float64) (i : Z) : float64 := nth (Z.to_nat i) buf 0%float.

(** The last [n] values of a circular buffer, oldest first. *)
Definition linearWindow (buf : list float64) (count idx size n : Z) : list float64 :=
  if (n <=? 0) || (count <=? 0) || (size <=? 0) || (Z.of_nat (length buf) =? 0) then []
  else
    let n := if n >? count then count else n in
    let start := Z.rem (i64 (idx - n)) size in
    let start := if start <? 0 then start + size else start in
    map (fun i => at_ buf (Z.rem (start + Z.of_nat i) size)) (seq 0 (Z.to_nat n)).

Module HistoryBuffer.
Record t := mk {
  prices : list float64;
  highs : list float64;
  lows : list float64;
  vols : list float64;
  size : Z;
  count : Z;
  idx : Z
}.

Definition NewHistoryBuffer (n : Z) : t :=
  let zeros := replicate (Z.to_nat n) 0%float in
  mk zeros zeros zeros zeros n 0 0.

(** [None]: division by zero in [h.idx % h.size]. *)
Definition Push (h : t) (p high low : Price) (vol : float64) : option t :=
  if negb (finite (Float64 p)) then Some h
  else if size h =? 0 then None
  else
    let i := Z.to_nat (Z.rem (idx h) (size h)) in
    Some (mk (<[i := Float64 p]> (prices h)) (<[i := Float64 high]> (highs h))
            (<[i := Float64 low]> (lows h)) (<[i := vol]> (vols h)) (size h)
            (if count h <? size h then count h + 1 else count h) (i64 (idx h + 1))).

Definition Count (h : t) : Z := count h.
Definition LastPrices (h : t) (n : Z) : list float64 := linearWindow (prices h) (count h) (idx h) (size h) n.
Definition LastHighs (h : t) (n : Z) : list float64 := linearWindow (highs h) (count h) (idx h) (size h) n.
Definition LastLows (h : t) (n : Z) : list float64 := linearWindow (lows h) (count h) (idx h) (size h) n.
Definition LastVolumes (h : t) (n : Z) : list float64 := linearWindow (vols h) (count h) (idx h) (size h) n.

Definition zeroed (l : list float64) : list float64 := map (fun _ => 0%float) l.
Definition Reset (h : t) : t :=
  mk (zeroed (prices h)) (zeroed (highs h)) (zeroed (lows h)) (zeroed (vols h)) (size h) 0 0.
End HistoryBuffer.

Section HistoryProps.
Import HistoryBuffer.

Lemma finite_ffin x : ffin x = true -> finite x = true.
Proof.
  intros F. pose proof (ffin_nan _ F) as N. pose proof (ffin_range _ F) as R.
  unfold finite, math.IsInf. rewrite IsNaN_fnan, N, !eqb_fv, N. cbn [negb andb orb].
  replace (fv infinity) with fmaxv by (vm_compute; reflexivity).
  replace (fv neg_infinity) with (- fmaxv) by (vm_compute; reflexivity).
  destruct (Z.eqb_spec (fv x) fmaxv); [lia|]. destruct (Z.eqb_spec (fv x) (- fmaxv)); [lia|].
  by rewrite !andb_false_r.
Qed.

(** A price is always finite as a float. *)
Lemma finite_price p : in_i64 p -> finite (Float64 p) = true.
Proof.
  intros Hp. apply finite_ffin. pose proof (of_Z_nearest p) as N. fold onev in N. pose proof onev_pos as O.
  set (top := 9223372036854775808%float).
  assert (Vt : fv top = 2 ^ 63 * onev) by (vm_compute; reflexivity).
  assert (Vb : fv (- top)%float = - (2 ^ 63 * onev)) by (rewrite fv_opp, Vt; lia).
  unfold in_i64 in Hp.
  assert (B : - (2 ^ 63 * onev) <= fv (of_Z p) <= 2 ^ 63 * onev).
  { rewrite <- Vb, <- Vt. split.
    - apply (nearest_ge _ _ _ _ Z.lt_0_1 N); [reflexivity|]. rewrite Vb. nia.
    - apply (nearest_le _ _ _ _ Z.lt_0_1 N); [reflexivity|]. rewrite Vt. nia. }
  assert (Fp : ffin (of_Z p) = true).
  { apply (ffin_between (- top)%float _ top); [reflexivity|reflexivity|apply N|by rewrite Vb, Vt]. }
  unfold Float64, ToFloat64. pose proof fv_scale as S.
  assert (Ps : 0 < fv PriceScaleFactorF) by lia.
  pose proof (div_nearest (of_Z p) PriceScaleFactorF Fp eq_refl ltac:(lia)) as D.
  rewrite Z.sgn_pos, Z.mul_1_r, Z.abs_eq in D by lia. fold onev in D.
  apply (ffin_between (- top)%float _ top); [reflexivity|reflexivity|apply D|]. split.
  - apply (nearest_ge _ _ _ _ Ps D); [reflexivity|]. rewrite Vb, S. nia.
  - apply (nearest_le _ _ _ _ Ps D); [reflexivity|]. rewrite Vt, S. nia.
Qed.

(** ** The window of a circular buffer

    Value [i] of all values ever written sits in slot [i mod size] until it is
    overwritten. *)
Definition slots (size : Z) (vals buf : list float64) : Prop :=
  Z.of_nat (length buf) = size /\
  forall i, Z.of_nat (length vals) - size <= i < Z.of_nat (length vals) -> 0 <= i ->
    at_ buf (i mod size) = at_ vals i.

Lemma at_insert buf i j x :
  0 <= i < Z.of_nat (length buf) -> 0 <= j ->
  at_ (<[Z.to_nat i := x]> buf) j = if i =? j then x else at_ buf j.
Proof.
  intros Hi Hj. unfold at_. rewrite !nth_lookup. destruct (Z.eqb_spec i j) as [->|N].
  - rewrite list_lookup_insert_eq by lia. done.
  - rewrite list_lookup_insert_ne by lia. done.
Qed.

Lemma at_app vals x i :
  0 <= i <= Z.of_nat (length vals) ->
  at_ (vals ++ [x]) i = if i =? Z.of_nat (length vals) then x else at_ vals i.
Proof.
  intros Hi. unfold at_. rewrite !nth_lookup. destruct (Z.eqb_spec i (Z.of_nat (length vals))) as [->|N].
  - rewrite Nat2Z.id, list_lookup_middle by done. done.
  - by rewrite lookup_app_l by lia.
Qed.

Lemma slots_push size vals buf x :
  0 < size -> slots size vals buf ->
  slots size (vals ++ [x]) (<[Z.to_nat (Z.of_nat (length vals) mod size) := x]> buf).
Proof.
  intros Hs [Hl H]. pose proof (Z.mod_pos_bound (Z.of_nat (length vals)) size Hs).
  split; [by rewrite length_insert|]. rewrite length_app. cbn [length]. intros i Hi Hi0.
  pose proof (Z.mod_pos_bound i size Hs). rewrite at_insert, at_app by lia.
  destruct (Z.eqb_spec i (Z.of_nat (length vals))) as [->|N]; [by rewrite Z.eqb_refl|].
  destruct (Z.eqb_spec (Z.of_nat (length vals) mod size) (i mod size)) as [E|_]; [|apply H; lia].
  exfalso. apply N. symmetry.
  assert (D : (Z.of_nat (length vals) - i) mod size = 0) by (rewrite Zminus_mod, E, Z.sub_diag; done).
  rewrite Z.mod_small in D by lia. lia.
Qed.

Lemma slots_new size : 0 <= size -> slots size [] (replicate (Z.to_nat size) 0%float).
Proof. intros H. split; [rewrite length_replicate; lia|]. intros i Hi. cbn in Hi. lia. Qed.

Lemma linearWindow_slots size vals buf n :
  0 < size -> Z.of_nat (length vals) < 2 ^ 63 -> slots size vals buf ->
  - 2 ^ 62 <= n -> 
  linearWindow buf (Z.min (Z.of_nat (length vals)) size) (Z.of_nat (length vals)) size n =
    lastn (Z.to_nat (Z.min n size)) vals.
Proof.
  intros Hs Hv [Hl H] Hn. unfold linearWindow. set (L := Z.of_nat (length vals)) in *.
  assert (Z0 : forall k, (k <= 0)%nat -> lastn k vals = []).
  { intros k Hk. unfold lastn. apply drop_ge. lia. }
  destruct (Z.leb_spec n 0); cbn [orb]; [rewrite Z0; [done|lia]|].
  destruct (Z.leb_spec (Z.min L size) 0) as [E|E]; cbn [orb].
  { assert (length vals = 0%nat) by lia. destruct vals; [|done]. unfold lastn. by rewrite drop_nil. }
  destruct (Z.leb_spec size 0); [lia|]. destruct (Z.eqb_spec (Z.of_nat (length buf)) 0); [lia|]. cbn [orb].
  set (k := if n >? Z.min L size then Z.min L size else n).
  assert (Ek : k = Z.min n (Z.min L size)).
  { unfold k. destruct (Z.gtb_spec n (Z.min L size)); lia. }
  rewrite i64_id by (unfold in_i64; lia). rewrite Z.rem_mod_nonneg by lia.
  pose proof (Z.mod_pos_bound (L - k) size Hs). destruct (Z.ltb_spec ((L - k) mod size) 0); [lia|].
  apply (nth_ext _ _ 0%float 0%float).
  { unfold lastn. rewrite length_map, length_seq, length_drop. lia. }
  intros j Hj. rewrite length_map, length_seq in Hj.
  rewrite (nth_indep _ _ (at_ buf (Z.rem ((L - k) mod size + Z.of_nat 0) size)))
    by (rewrite length_map, length_seq; lia).
  rewrite (List.map_nth (fun i => at_ buf (Z.rem ((L - k) mod size + Z.of_nat i) size))), List.seq_nth by lia.
  cbn [Nat.add]. rewrite Z.rem_mod_nonneg by lia. rewrite Zplus_mod_idemp_l.
  rewrite H by lia. unfold lastn, at_. rewrite !nth_lookup, lookup_drop. do 2 f_equal. lia.
Qed.

(** ** The buffer *)
Record sample := mkSample { SPrice : Price; SHigh : Price; SLow : Price; SVol : float64 }.

Fixpoint pushes (h : t) (ss : list sample) : option t :=
  match ss with
  | [] => Some h
  | s :: ss => h' ← Push h (SPrice s) (SHigh s) (SLow s) (SVol s); pushes h' ss
  end.

Record buffered (n : Z) (ss : list sample) (h : t) : Prop := {
  b_size : size h = n;
  b_count : count h = Z.min (Z.of_nat (length ss)) n;
  b_idx : idx h = Z.of_nat (length ss);
  b_prices : slots n (map (fun s => Float64 (SPrice s)) ss) (prices h);
  b_highs : slots n (map (fun s => Float64 (SHigh s)) ss) (highs h);
  b_lows : slots n (map (fun s => Float64 (SLow s)) ss) (lows h);
  b_vols : slots n (map SVol ss) (vols h)
}.

Lemma Push_buffered n ss h s :
  0 < n -> Z.of_nat (length ss) + 1 < 2 ^ 63 -> in_i64 (SPrice s) -> buffered n ss h ->
  exists h', Push h (SPrice s) (SHigh s) (SLow s) (SVol s) = Some h' /\ buffered n (ss ++ [s]) h'.
Proof.
  intros Hn Hl Hp [Es Ec Ei Bp Bh Bl Bv]. unfold Push. rewrite (finite_price _ Hp). cbn [negb].
  destruct (Z.eqb_spec (size h) 0); [lia|]. eexists. split; [done|].
  rewrite Ei, Es, Z.rem_mod_nonneg by lia.
  assert (S : forall f buf, slots n (map f ss) buf ->
    slots n (map f (ss ++ [s])) (<[Z.to_nat (Z.of_nat (length ss) mod n) := f s]> buf)).
  { intros f buf B. rewrite map_app. pose proof (slots_push n (map f ss) buf (f s) Hn B) as P.
    by rewrite length_map in P. }
  split; cbn [size count idx prices highs lows vols].
  - done.
  - rewrite length_app, Ec. cbn [length]. destruct (Z.ltb_spec (Z.min (Z.of_nat (length ss)) n) n); lia.
  - rewrite length_app, i64_id by (unfold in_i64; lia). cbn [length]. lia.
  - exact (S _ _ Bp).
  - exact (S _ _ Bh).
  - exact (S _ _ Bl).
  - exact (S _ _ Bv).
Qed.

Lemma pushes_buffered n ss' : forall ss h,
  0 < n -> Z.of_nat (length ss + length ss') < 2 ^ 63 -> Forall (fun s => in_i64 (SPrice s)) ss' ->
  buffered n ss h -> exists h', pushes h ss' = Some h' /\ buffered n (ss ++ ss') h'.
Proof.
  induction ss' as [|s ss' IH]; intros ss h Hn Hl Hf B.
  - exists h. by rewrite app_nil_r.
  - inversion Hf as [|? ? Hp Hf']; subst. cbn [length] in Hl.
    destruct (Push_buffered n ss h s Hn ltac:(lia) Hp B) as (h1 & E1 & B1).
    cbn [pushes]. rewrite E1. cbn [mbind option_bind].
    destruct (IH (ss ++ [s]) h1 Hn) as (h2 & E2 & B2); [rewrite length_app; cbn; lia|done|done|].
    exists h2. split; [done|]. by rewrite <- app_assoc in B2.
Qed.

(** The linearised windows are the last values pushed, in the order they were
    pushed: after any pushes the window of [n] is the last [min n size] prices
    (highs, lows, volumes), however often the buffer has wrapped, and no push
    panics; a price is never dropped as non-finite. *)
Theorem history_window_is_suffix size ss n :
  0 < size -> Z.of_nat (length ss) < 2 ^ 63 -> Forall (fun s => in_i64 (SPrice s)) ss ->
  - 2 ^ 62 <= n ->
  exists h, pushes (NewHistoryBuffer size) ss = Some h /\
    let k := Z.to_nat (Z.min n size) in
    LastPrices h n = lastn k (map (fun s => Float64 (SPrice s)) ss) /\
    LastHighs h n = lastn k (map (fun s => Float64 (SHigh s)) ss) /\
    LastLows h n = lastn k (map (fun s => Float64 (SLow s)) ss) /\
    LastVolumes h n = lastn k (map SVol ss) /\
    Count h = Z.min (Z.of_nat (length ss)) size.
Proof.
  intros Hs Hl Hf Hn. destruct (pushes_buffered size ss [] (NewHistoryBuffer size) Hs Hl Hf) as (h & E & B).
  { split; try done; [cbn; lia|..]; by apply slots_new; lia. }
  exists h. split; [done|]. cbn [app] in B. destruct B as [Es Ec Ei Bp Bh Bl Bv].
  assert (W : forall (f : sample -> float64) buf, slots size (map f ss) buf ->
    linearWindow buf (count h) (idx h) (HistoryBuffer.size h) n = lastn (Z.to_nat (Z.min n size)) (map f ss)).
  { intros f buf S. rewrite Es, Ec, Ei. pose proof (linearWindow_slots size (map f ss) buf n Hs) as W.
    rewrite length_map in W. by apply W. }
  cbv zeta. unfold LastPrices, LastHighs, LastLows, LastVolumes.
  rewrite (W _ _ Bp), (W _ _ Bh), (W _ _ Bl), (W SVol _ Bv). done.
Qed.
End HistoryProps.

(** Four prices through a buffer of three. *)
Definition sample_at (p : Z) : sample := mkSample (p * 100000) (p * 100000) (p * 100000) 1%float.

Lemma history_window_is_suffix_witness :
  exists h, pushes (HistoryBuffer.NewHistoryBuffer 3) (map sample_at [1; 2; 3; 4]) = Some h /\
    HistoryBuffer.LastPrices h 2 = [3%float; 4%float].
Proof.
  destruct (history_window_is_suffix 3 (map sample_at [1; 2; 3; 4]) 2) as (h & E & P & _).
  - lia.
  - cbn. lia.
  - repeat constructor; unfold in_i64; cbn; lia.
  - lia.
  - exists h. split; [exact E|]. rewrite P. vm_compute. reflexivity.
Defined.
