(* ===== verification/WalkForward.v ===== *)
(** * Walk-forward windows ([internal/backtest/walk_forward.go])

    [GenerateWalkForwardWindows]: the train and test intervals of a validation
    run.  Times are nanoseconds; a duration product is an int64, so it is wrapped
    once (wrapping commutes with the multiplications in between).  The loop is
    given fuel: [None] is a loop that has not ended. *)
From Stdlib Require Import ZArith Lia Bool.
From S2P Require Import Prelude.
Import GoInt.
Local Open Scope Z_scope.

Record WalkForwardConfig := mkWF {
  StartDate : Z;
  EndDate : Z;
  TrainWindows : Z;
  TrainYears : Z;
  TestYears : Z;
  StepMonths : Z;
  PurgeTradingDays : Z;
  EmbargoTradingDays : Z
}.

Record WalkForwardWindow := mkWindow { TrainStart : Z; TrainEnd : Z; TestStart : Z; TestEnd : Z }.

Definition day : Z := 24 * 3600000000000.

Definition trainDuration (c : WalkForwardConfig) : Z := i64 (TrainYears c * 252 * day).
Definition testDuration (c : WalkForwardConfig) : Z := i64 (TestYears c * 252 * day).
Definition stepDuration (c : WalkForwardConfig) : Z := i64 (StepMonths c * 21 * day).
Definition gapDuration (c : WalkForwardConfig) : Z :=
  i64 (- (1 + PurgeTradingDays c + EmbargoTradingDays c) * day).

Definition windowAt (c : WalkForwardConfig) (currentStart : Z) : WalkForwardWindow :=
  let testStart := currentStart + trainDuration c in
  let testEnd := testStart + testDuration c in
  let testEnd := if testEnd >? EndDate c then EndDate c else testEnd in
  mkWindow currentStart (testStart + gapDuration c) testStart testEnd.

(** The loop, [n] windows having been produced. *)
Fixpoint windowsFrom (fuel : nat) (c : WalkForwardConfig) (currentStart n : Z)
    : option (list WalkForwardWindow) :=
  match fuel with
  | O => None
  | S fuel =>
      if currentStart + trainDuration c <? EndDate c then
        let w := windowAt c currentStart in
        if (TrainWindows c <=? n + 1) && (TrainWindows c >? 0) then Some [w]
        else ws ← windowsFrom fuel c (currentStart + stepDuration c) (n + 1); Some (w :: ws)
      else Some []
  end.

Definition GenerateWalkForwardWindows (fuel : nat) (c : WalkForwardConfig) : option (list WalkForwardWindow) :=
  windowsFrom fuel c (StartDate c) 0.

Section WalkForwardProps.

(** Non-negative spans that do not overflow a duration (292 years). *)
Record config_ok (c : WalkForwardConfig) : Prop := {
  ok_train : 0 <= TrainYears c <= 400;
  ok_test : 0 <= TestYears c <= 400;
  ok_step : 0 <= StepMonths c <= 4000;
  ok_purge : 0 <= PurgeTradingDays c <= 40000;
  ok_embargo : 0 <= EmbargoTradingDays c <= 40000
}.

Lemma durations c :
  config_ok c ->
  trainDuration c = TrainYears c * 252 * day /\ testDuration c = TestYears c * 252 * day /\
  stepDuration c = StepMonths c * 21 * day /\
  gapDuration c = - (1 + PurgeTradingDays c + EmbargoTradingDays c) * day.
Proof.
  intros [H1 H2 H3 H4 H5]. unfold trainDuration, testDuration, stepDuration, gapDuration, day.
  rewrite !i64_id by (unfold in_i64; lia). done.
Qed.

(** What every window promises. *)
Definition window_ok (c : WalkForwardConfig) (w : WalkForwardWindow) : Prop :=
  StartDate c <= TrainStart w /\
  TrainEnd w + (1 + PurgeTradingDays c + EmbargoTradingDays c) * day = TestStart w /\
  TestStart w = TrainStart w + TrainYears c * 252 * day /\
  TestStart w < EndDate c /\ TestStart w <= TestEnd w <= EndDate c.

Lemma windowAt_ok c cur :
  config_ok c -> StartDate c <= cur -> cur + trainDuration c < EndDate c -> window_ok c (windowAt c cur).
Proof.
  intros Hc Hs He. destruct (durations c Hc) as (Et & Ee & _ & Eg). destruct Hc.
  unfold window_ok, windowAt. cbn [TrainStart TrainEnd TestStart TestEnd]. rewrite Et in *. rewrite Ee, Eg.
  unfold day in *. destruct (Z.gtb_spec (cur + TrainYears c * 252 * (24 * 3600000000000) +
    TestYears c * 252 * (24 * 3600000000000)) (EndDate c)); repeat split; lia.
Qed.

(** Iterations left from [cur] with [n] windows produced. *)
Definition rounds (c : WalkForwardConfig) (cur n : Z) : nat :=
  S (Z.to_nat (if TrainWindows c >? 0 then TrainWindows c - n
               else (EndDate c - cur - trainDuration c + stepDuration c) / stepDuration c)).

Lemma windowsFrom_spec fuel : forall c cur n,
  config_ok c -> StartDate c <= cur -> 0 <= n ->
  (0 < StepMonths c \/ 0 < TrainWindows c) -> (0 < TrainWindows c -> n < TrainWindows c) ->
  (rounds c cur n <= fuel)%nat ->
  exists ws, windowsFrom fuel c cur n = Some ws /\ Forall (window_ok c) ws /\
    (forall i w, ws !! i = Some w -> TrainStart w = cur + Z.of_nat i * stepDuration c) /\
    (0 < TrainWindows c -> n + Z.of_nat (length ws) <= TrainWindows c) /\
    (TrainWindows c <= 0 \/ n + Z.of_nat (length ws) < TrainWindows c ->
     EndDate c <= cur + Z.of_nat (length ws) * stepDuration c + trainDuration c).
Proof.
  induction fuel as [|fuel IH]; intros c cur n Hc Hs Hn Hp Hl Hf; [unfold rounds in Hf; lia|].
  cbn [windowsFrom]. destruct (Z.ltb_spec (cur + trainDuration c) (EndDate c)) as [L|L].
  2: { exists []. split; [done|]. split; [constructor|]. split; [done|]. split; [cbn; lia|].
       intros _. cbn. lia. }
  pose proof (windowAt_ok c cur Hc Hs L) as W.
  destruct (Z.leb_spec (TrainWindows c) (n + 1)) as [L1|L1];
    destruct (Z.gtb_spec (TrainWindows c) 0) as [L2|L2]; cbn [andb].
  { exists [windowAt c cur]. split; [done|]. split; [by constructor|].
    split; [|cbn; lia]. intros [|i] w E; [|done]. injection E as <-. cbn. lia. }
  all: destruct (durations c Hc) as (_ & _ & Ed & _); assert (Sp : 0 <= stepDuration c)
    by (destruct Hc; rewrite Ed; unfold day; lia).
  all: destruct (IH c (cur + stepDuration c) (n + 1)) as (ws & E & F & T & B & M);
    [done|lia|lia|done|lia| |].
  1, 3, 5: unfold rounds in *; destruct (Z.gtb_spec (TrainWindows c) 0); [lia|];
    (assert (0 < stepDuration c) by (destruct Hc; rewrite Ed; unfold day; lia));
    replace (EndDate c - cur - trainDuration c + stepDuration c)
      with (EndDate c - (cur + stepDuration c) - trainDuration c + stepDuration c + 1 * stepDuration c) in Hf by lia;
    rewrite Z.div_add in Hf by lia;
    pose proof (Z.div_pos (EndDate c - (cur + stepDuration c) - trainDuration c + stepDuration c) (stepDuration c)); lia.
  all: rewrite E; cbn [mbind option_bind]; eexists; (split; [done|]); (split; [by constructor|]);
    cbn [length]; (split; [|split; [lia|intros ?; specialize (M ltac:(lia)); lia]]);
    intros [|i] w Ew; [injection Ew as <-; cbn; lia|]; cbn in Ew; rewrite (T i w Ew); lia.
Qed.

Lemma windowsFrom_mono fuel : forall fuel' c cur n ws,
  windowsFrom fuel c cur n = Some ws -> (fuel <= fuel')%nat -> windowsFrom fuel' c cur n = Some ws.
Proof.
  induction fuel as [|fuel IH]; intros fuel' c cur n ws E L; [done|].
  destruct fuel' as [|fuel']; [lia|]. cbn [windowsFrom] in *.
  destruct (_ <? _); [|done]. destruct (_ && _); [done|].
  destruct (windowsFrom fuel c _ _) as [vs|] eqn:Ew; [|done].
  rewrite (IH fuel' _ _ _ _ Ew) by lia. done.
Qed.

(** With no step and no cap the loop repeats its first round. *)
Lemma windowsFrom_diverges fuel : forall c cur n,
  config_ok c -> StepMonths c = 0 -> TrainWindows c <= 0 -> cur + trainDuration c < EndDate c ->
  windowsFrom fuel c cur n = None.
Proof.
  induction fuel as [|fuel IH]; intros c cur n Hc Hz Hw L; [done|]. cbn [windowsFrom].
  destruct (Z.ltb_spec (cur + trainDuration c) (EndDate c)); [|lia].
  destruct (Z.gtb_spec (TrainWindows c) 0); [lia|]. rewrite andb_false_r.
  destruct (durations c Hc) as (_ & _ & Ed & _).
  replace (cur + stepDuration c) with cur by (rewrite Ed, Hz; lia). by rewrite IH.
Qed.

(** The window loop ends whenever windows advance or are capped, and then
    gives every window: each trains strictly before it tests, with the purge and
    embargo days and one more day in between, tests inside the data, starts one
    step after its predecessor, there are at most [TrainWindows] of them when that
    is positive, and without a cap none is left out; the list does not depend on
    the fuel.  With a zero step and no cap the loop never ends. *)
Theorem walk_forward_windows c :
  config_ok c ->
  (0 < StepMonths c \/ 0 < TrainWindows c ->
   exists ws,
     (forall fuel, (rounds c (StartDate c) 0 <= fuel)%nat -> GenerateWalkForwardWindows fuel c = Some ws) /\
     Forall (window_ok c) ws /\
     (forall i w, ws !! i = Some w -> TrainStart w = StartDate c + Z.of_nat i * stepDuration c) /\
     (0 < TrainWindows c -> Z.of_nat (length ws) <= TrainWindows c) /\
     (TrainWindows c <= 0 \/ Z.of_nat (length ws) < TrainWindows c ->
      EndDate c <= StartDate c + Z.of_nat (length ws) * stepDuration c + trainDuration c)) /\
  (StepMonths c = 0 -> TrainWindows c <= 0 -> StartDate c + trainDuration c < EndDate c ->
   forall fuel, GenerateWalkForwardWindows fuel c = None).
Proof.
  intros Hc. split; [|intros Hz Hw L fuel; by apply windowsFrom_diverges].
  intros Hp.
  destruct (windowsFrom_spec (rounds c (StartDate c) 0) c (StartDate c) 0) as (ws & E & F & T & B & M);
    [done|lia|lia|done|lia|lia|].
  exists ws. split; [intros fuel L; by eapply windowsFrom_mono|].
  split; [done|]. split; [done|]. split; [intros L; specialize (B L); lia|].
  intros L. apply M. lia.
Qed.
End WalkForwardProps.

(** Two 1-"year" windows over three 252-day years, one day of gap plus a purge of two. *)
Definition sampleConfig : WalkForwardConfig := mkWF 0 (756 * day) 0 1 1 12 2 0.

Lemma walk_forward_windows_witness :
  config_ok sampleConfig /\
  GenerateWalkForwardWindows 10 sampleConfig =
    Some [mkWindow 0 (249 * day) (252 * day) (504 * day);
          mkWindow (252 * day) (501 * day) (504 * day) (756 * day)] /\
  GenerateWalkForwardWindows 50 (mkWF 0 (756 * day) 0 1 1 0 2 0) = None.
Proof.
  assert (Hc : config_ok sampleConfig) by (constructor; cbn; lia).
  assert (Hd : config_ok (mkWF 0 (756 * day) 0 1 1 0 2 0)) by (constructor; cbn; lia).
  split; [done|].
  destruct (walk_forward_windows sampleConfig Hc) as [H _].
  destruct H as (ws & E & F & _); [left; reflexivity|].
  split; [rewrite (E 10%nat); [|vm_compute; lia]|].
  - assert (Some ws = GenerateWalkForwardWindows 10 sampleConfig) as ->
      by (symmetry; apply E; vm_compute; lia).
    vm_compute. reflexivity.
  - apply (walk_forward_windows _ Hd); [reflexivity|cbn; lia|reflexivity].
Defined.
