(* ===== verification/Timeline.v ===== *)
(** * The market state of a bar ([internal/backtest/engine.go])

    What the bar loop looks up by time: the merged candle stream, the regime,
    VIX and sentiment logs, the universe snapshots, the earnings calendar
    ([internal/market/earnings_calendar.go]) and the bars of a day.  Times are
    Unix nanoseconds in UTC.  The regime index is searched by bisection; its loop
    has fuel, and an index out of range would be a panic: both are [None], and
    [regimeAt_lookup] shows neither happens. *)
From Stdlib Require Import ZArith Lia Bool Floats.
From stdpp Require Import sorting.
From S2P Require Import Prelude Float64 FloatRound FloatLaws Price StopLoss.
Local Open Scope float_scope.
Local Open Scope go_scope.

Record RegimeLog := mkRLog { RLTime : Z; HMMState : Z; RLConfidence : float64; RLSymbol : string }.
Record VIXLog := mkVLog { VIXTime : Z; VIXValue : float64; VIXChange : float64 }.
Record SentimentLog := mkSLog { SentTime : Z; Score : Z; SentLabel : string }.
Record UniverseSnapshot := mkSnap { SnapDate : Z; SnapSymbols : list string }.

Definition dayLength : Z := 86400000000000.

(** [t.Truncate(24 * time.Hour)]: also what [Format("2006-01-02")] distinguishes. *)
Definition truncateDay (t : Z) : Z := (t - t mod dayLength)%Z.

Definition hourOf (t : Z) : Z := (t mod dayLength / 3600000000000)%Z.
Definition minuteOf (t : Z) : Z := (t mod 3600000000000 / 60000000000)%Z.

(** [time.Sunday] is 0; 1 January 1970 was a Thursday. *)
Definition weekday (t : Z) : Z := ((t / dayLength + 4) mod 7)%Z.
Definition isWeekend (t : Z) : bool := Z.eqb (weekday t) 6 || Z.eqb (weekday t) 0.

(** ** The candle stream *)
Definition mergeCandlesByTime `{SortSlice} (candlesBySymbol : list (list Candle)) : list Candle :=
  sortSlice (fun a b => Z.ltb (Time a) (Time b)) (concat candlesBySymbol).

(** ** Regime logs *)
Definition buildRegimeIndex (logs : list RegimeLog) : gmap string (list RegimeLog) :=
  fold_left (fun idx l => <[RLSymbol l := mget [] idx (RLSymbol l) ++ [l]]> idx) logs ∅.

(** The bisection of [regimeAt]: the first log after [t]. *)
Fixpoint searchAfter (fuel : nat) (logs : list RegimeLog) (t : Z) (lo hi : nat) : option nat :=
  match fuel with
  | O => None
  | S fuel =>
      if Nat.ltb lo hi then
        let mid := Nat.div (lo + hi) 2 in
        l ← logs !! mid;
        if Z.ltb t (RLTime l) then searchAfter fuel logs t lo mid
        else searchAfter fuel logs t (S mid) hi
      else Some lo
  end.

Definition regimeAt (idx : gmap string (list RegimeLog)) (symbol : string) (t : Z) : option Z :=
  let logs := mget [] idx symbol in
  if Nat.eqb (length logs) 0 then Some 0%Z
  else
    lo ← searchAfter (S (length logs)) logs t 0 (length logs);
    if Nat.eqb lo 0 then Some 0%Z
    else l ← logs !! (lo - 1)%nat; Some (HMMState l).

(** ** VIX and sentiment: the scan from the end *)
Definition getVIXAt (t : Z) (logs : list VIXLog) : float64 :=
  match List.find (fun l => Z.leb (VIXTime l) t) (rev logs) with
  | Some l => VIXValue l
  | None => 0
  end.

Definition getSentimentAt (t : Z) (logs : list SentimentLog) : Z :=
  match List.find (fun l => Z.leb (SentTime l) t) (rev logs) with
  | Some l => Score l
  | None => 50
  end.

(** ** Universe snapshots: the last snapshot of a day wins *)
Definition snapshotMap (snaps : list UniverseSnapshot) : gmap Z (list string) :=
  fold_left (fun m s => <[truncateDay (SnapDate s) := SnapSymbols s]> m) snaps ∅.

Definition inUniverse (u : option (gmap Z (list string))) (t : Z) (symbol : string) : bool :=
  match u with
  | None => true
  | Some m => match m !! truncateDay t with
              | None => true
              | Some symbols => existsb (fun s => bool_decide (s = symbol)) symbols
              end
  end.

(** ** Earnings *)
Record EarningsEvent := mkEarn { EarnSymbol : string; EarnDate : Z; TimeOfDay : string }.
Abbreviation EarningsCalendar := (gmap string (list EarningsEvent)).

Definition IsEarningsDay (ec : EarningsCalendar) (symbol : string) (date : Z) : bool :=
  let events := match ec !! symbol with Some e => Some e | None => ec !! "*"%string end in
  match events with
  | None => false
  | Some es => existsb (fun e => Z.eqb (truncateDay (EarnDate e)) (truncateDay date)) es
  end.

Definition GetEarningsWindow (ec : EarningsCalendar) (symbol : string) (date : Z) : bool * bool * bool :=
  let d := truncateDay date in
  match ec !! symbol with
  | None => (false, false, false)
  | Some es =>
      (existsb (fun e => Z.eqb d (truncateDay (EarnDate e) - dayLength)) es,
       existsb (fun e => Z.eqb (truncateDay (EarnDate e)) d) es,
       existsb (fun e => Z.eqb d (truncateDay (EarnDate e) + dayLength)) es)
  end.

(** ** Bars per day *)
Definition oneOfStr (s : string) (l : list string) : bool := existsb (String.eqb s) l.

Definition barsPerDayFromTimeframe (timeframe : string) : float64 :=
  if oneOfStr timeframe ["1m"]%string then 390.0
  else if oneOfStr timeframe ["5m"; "5min"]%string then 78.0
  else if oneOfStr timeframe ["15m"; "15min"]%string then 26.0
  else if oneOfStr timeframe ["30m"; "30min"]%string then 13.0
  else if oneOfStr timeframe ["1h"; "60m"; "hourly"]%string then 6.5
  else if oneOfStr timeframe ["4h"]%string then 1.625
  else 1.0.

Definition barsPerDay24h (timeframe : string) : float64 :=
  if oneOfStr timeframe ["5m"; "5min"]%string then 288.0
  else if oneOfStr timeframe ["15m"; "15min"]%string then 96.0
  else if oneOfStr timeframe ["30m"; "30min"]%string then 48.0
  else if oneOfStr timeframe ["1h"; "60m"; "hourly"]%string then 24.0
  else if oneOfStr timeframe ["4h"]%string then 6.0
  else if oneOfStr timeframe ["1d"; "daily"; ""]%string then 1.0
  else barsPerDayFromTimeframe timeframe.

Definition firstSymbol (symbols : list string) : string :=
  match symbols with [] => ""%string | s :: _ => s end.

(** The weekday dates of the stream, each counted once. *)
Fixpoint countTradingDays (seen : gset Z) (candles : list Candle) : Z :=
  match candles with
  | [] => 0%Z
  | c :: cs =>
      let key := truncateDay (Time c) in
      if bool_decide (key ∈ seen) then countTradingDays seen cs
      else ((if isWeekend (Time c) then 0 else 1) + countTradingDays ({[key]} ∪ seen) cs)%Z
  end.

Definition weekdayCandles (candles : list Candle) : Z :=
  Z.of_nat (length (List.filter (fun c => negb (isWeekend (Time c))) candles)).

Definition effectiveBarsPerDay (candles : list Candle) (declaredBarsPerDay : float64) : float64 :=
  let n := weekdayCandles candles in
  let tradingDays := countTradingDays ∅ candles in
  if Z.eqb n 0 || Z.eqb tradingDays 0 then declaredBarsPerDay
  else
    let effective := of_Z n / of_Z tradingDays in
    let tolerance := declaredBarsPerDay * 0.3 in
    if (declaredBarsPerDay >? 0) && (math.Abs (effective - declaredBarsPerDay) >? tolerance)
    then effective else declaredBarsPerDay.

(** ** Proofs *)
Section Lookups.
Local Open Scope Z_scope.

(** What a lookup by time must return: the last entry at or before [t]. *)
Definition latest {A} (time : A -> Z) (t : Z) (l : list A) : option A :=
  list.last (List.filter (fun x => time x <=? t) l).

Lemma find_rev_latest {A} (p : A -> bool) (l : list A) :
  List.find p (rev l) = list.last (List.filter p l).
Proof.
  induction l as [|x l IH] using rev_ind; [done|].
  rewrite rev_app_distr, List.filter_app. cbn. destruct (p x); cbn.
  - by rewrite last_snoc.
  - by rewrite app_nil_r.
Qed.

Lemma latest_future {A} (time : A -> Z) t (l future : list A) :
  (forall x, x ∈ future -> t < time x) -> latest time t (l ++ future) = latest time t l.
Proof.
  intros H. unfold latest. rewrite List.filter_app.
  replace (List.filter _ future) with (@nil A); [by rewrite app_nil_r|].
  induction future as [|x future IH]; [done|]. cbn.
  destruct (Z.leb_spec (time x) t) as [L|L].
  - specialize (H x ltac:(set_solver)). lia.
  - apply IH. intros y Hy. apply H. set_solver.
Qed.

Lemma buildRegimeIndex_lookup logs sym :
  mget [] (buildRegimeIndex logs) sym = List.filter (fun l => String.eqb (RLSymbol l) sym) logs.
Proof.
  unfold buildRegimeIndex.
  induction logs as [|l logs IH] using rev_ind; [done|].
  rewrite fold_left_app, List.filter_app. cbn [fold_left List.filter].
  destruct (String.eqb_spec (RLSymbol l) sym) as [->|N].
  - rewrite mget_insert_eq. by rewrite IH.
  - rewrite mget_insert_ne by done. by rewrite IH, app_nil_r.
Qed.

(** The bisection meets its specification on a sorted list. *)
Lemma searchAfter_spec fuel : forall logs t lo hi,
  StronglySorted (fun a b => RLTime a <= RLTime b) logs ->
  (lo <= hi <= length logs)%nat -> (hi - lo < fuel)%nat ->
  (forall i l, (i < lo)%nat -> logs !! i = Some l -> RLTime l <= t) ->
  (forall i l, (hi <= i)%nat -> logs !! i = Some l -> t < RLTime l) ->
  exists k, searchAfter fuel logs t lo hi = Some k /\ (k <= length logs)%nat /\
    (forall i l, (i < k)%nat -> logs !! i = Some l -> RLTime l <= t) /\
    (forall i l, (k <= i)%nat -> logs !! i = Some l -> t < RLTime l).
Proof.
  induction fuel as [|fuel IH]; intros logs t lo hi Hs Hr Hf Hlo Hhi; [lia|].
  cbn [searchAfter]. destruct (Nat.ltb_spec lo hi) as [L|L].
  2: { exists lo. assert (lo = hi) as <- by lia. repeat split; [lia|done..]. }
  assert (Hm : (lo <= Nat.div (lo + hi) 2 < hi)%nat).
  { split; [apply Nat.div_le_lower_bound; lia|apply Nat.Div0.div_lt_upper_bound; lia]. }
  revert Hm. generalize (Nat.div (lo + hi) 2). intros mid Hm.
  destruct (lookup_lt_is_Some_2 logs mid) as [l El]; [lia|]. rewrite El. cbn [mbind option_bind].
  assert (Hs' : forall i j a b, (i <= j)%nat -> logs !! i = Some a -> logs !! j = Some b ->
    RLTime a <= RLTime b).
  { intros i j a b Hij Ha Hb. destruct (Nat.eq_dec i j) as [->|]; [simplify_eq; lia|].
    apply (sorted_lookup _ _ i j a b Hs); [lia|done..]. }
  destruct (Z.ltb_spec t (RLTime l)) as [T|T].
  - apply IH; [done|lia|lia|done|]. intros i l' Hi El'. specialize (Hs' mid i l l' Hi El El'). lia.
  - apply IH; [done|lia|lia| |done]. intros i l' Hi El'. specialize (Hs' i mid l' l ltac:(lia) El' El). lia.
Qed.

(** Whatever the logs, the bisection ends with an index in range. *)
Lemma searchAfter_total fuel : forall logs t lo hi,
  (lo <= hi <= length logs)%nat -> (hi - lo < fuel)%nat ->
  exists k, searchAfter fuel logs t lo hi = Some k /\ (lo <= k <= hi)%nat.
Proof.
  induction fuel as [|fuel IH]; intros logs t lo hi Hr Hf; [lia|].
  cbn [searchAfter]. destruct (Nat.ltb_spec lo hi) as [L|L]; [|exists lo; split; [done|lia]].
  assert (Hm : (lo <= Nat.div (lo + hi) 2 < hi)%nat).
  { split; [apply Nat.div_le_lower_bound; lia|apply Nat.Div0.div_lt_upper_bound; lia]. }
  revert Hm. generalize (Nat.div (lo + hi) 2). intros mid Hm.
  destruct (lookup_lt_is_Some_2 logs mid) as [l El]; [lia|]. rewrite El. cbn [mbind option_bind].
  destruct (_ <? _).
  - destruct (IH logs t lo mid) as (k & Ek & Hk); [lia|lia|]. exists k. split; [done|lia].
  - destruct (IH logs t (S mid) hi) as (k & Ek & Hk); [lia|lia|]. exists k. split; [done|lia].
Qed.

Lemma regimeAt_total idx sym t : exists r, regimeAt idx sym t = Some r.
Proof.
  unfold regimeAt. generalize (mget [] idx sym). intros logs.
  destruct (Nat.eqb_spec (length logs) 0) as [E|E]; [by eexists|].
  destruct (searchAfter_total (S (length logs)) logs t 0 (length logs)) as (k & -> & Hk); [lia|lia|].
  cbn [mbind option_bind]. destruct (Nat.eqb_spec k 0) as [->|Hk0]; [by eexists|].
  destruct (lookup_lt_is_Some_2 logs (k - 1)) as [l El]; [lia|]. rewrite El. by eexists.
Qed.

Lemma filter_prefix {A} (p : A -> bool) (l : list A) : forall k,
  (forall i x, (i < k)%nat -> l !! i = Some x -> p x = true) ->
  (forall i x, (k <= i)%nat -> l !! i = Some x -> p x = false) ->
  List.filter p l = take k l.
Proof.
  induction l as [|x l IH]; intros k Ht Hf; [by rewrite take_nil|].
  assert (IH' : forall k', (forall i y, (i < k')%nat -> l !! i = Some y -> p y = true) ->
    (forall i y, (k' <= i)%nat -> l !! i = Some y -> p y = false) -> List.filter p l = take k' l) by apply IH.
  destruct k as [|k]; cbn.
  - rewrite (Hf 0%nat x) by (done || lia). rewrite (IH' 0%nat); [done|lia|].
    intros i y _ E. apply (Hf (S i)); [lia|done].
  - rewrite (Ht 0%nat x) by (done || lia). f_equal. apply IH'; intros i y Hi E.
    + apply (Ht (S i)); [lia|done].
    + apply (Hf (S i)); [lia|done].
Qed.

Lemma sorted_filter {A} (R : A -> A -> Prop) p (l : list A) :
  StronglySorted R l -> StronglySorted R (List.filter p l).
Proof.
  induction 1 as [|x l Hs IH F]; cbn; [constructor|]. destruct (p x); [|done].
  constructor; [done|]. rewrite list.Forall_forall in F |- *. intros y Hy. apply F.
  apply list_elem_of_In in Hy. apply filter_In in Hy as [Hy _]. by apply list_elem_of_In.
Qed.

(** The bisection returns the state of the symbol's latest log, 0 without one. *)
Lemma regimeAt_lookup logs sym t :
  StronglySorted (fun a b => RLTime a <= RLTime b) logs ->
  regimeAt (buildRegimeIndex logs) sym t =
  Some (match latest RLTime t (List.filter (fun l => String.eqb (RLSymbol l) sym) logs) with
        | Some l => HMMState l | None => 0 end).
Proof.
  intros Hs. unfold regimeAt. rewrite buildRegimeIndex_lookup.
  apply (sorted_filter _ (fun l => String.eqb (RLSymbol l) sym)) in Hs.
  revert Hs. generalize (List.filter (fun l => String.eqb (RLSymbol l) sym) logs). clear logs. intros logs Hs.
  destruct (Nat.eqb_spec (length logs) 0) as [E|E]; [by destruct logs|].
  destruct (searchAfter_spec (S (length logs)) logs t 0 (length logs)) as (k & -> & Hk & Hlo & Hhi);
    [done|lia|lia|intros; lia| |].
  { intros i l Hi El. apply lookup_lt_Some in El. lia. }
  cbn [mbind option_bind]. unfold latest.
  rewrite (filter_prefix _ logs k); cycle 1.
  { intros i x Hi Ex. apply Z.leb_le. by apply (Hlo i). }
  { intros i x Hi Ex. apply Z.leb_gt. by apply (Hhi i). }
  destruct (Nat.eqb_spec k 0) as [->|Hk0]; [by rewrite take_0|].
  destruct (lookup_lt_is_Some_2 logs (k - 1)) as [l El]; [lia|]. rewrite El. cbn [mbind option_bind].
  rewrite last_lookup, length_take. replace (Nat.pred (k `min` length logs)) with (k - 1)%nat by lia.
  rewrite lookup_take_lt by lia. by rewrite El.
Qed.

Lemma getVIXAt_latest t logs :
  getVIXAt t logs = match latest VIXTime t logs with Some l => VIXValue l | None => 0%float end.
Proof. unfold getVIXAt. by rewrite find_rev_latest. Qed.

Lemma getSentimentAt_latest t logs :
  getSentimentAt t logs = match latest SentTime t logs with Some l => Score l | None => 50 end.
Proof. unfold getSentimentAt. by rewrite find_rev_latest. Qed.

(** The merged stream has every candle once and never goes back in time. *)
Lemma mergeCandlesByTime_spec `{SortSlice} cs :
  mergeCandlesByTime cs ≡ₚ concat cs /\
  StronglySorted (fun a b => Time a <= Time b) (mergeCandlesByTime cs).
Proof.
  unfold mergeCandlesByTime. split; [apply sortSlice_perm|].
  pose proof (sortSlice_sorted Candle _ (concat cs) (weak_order_key Time)) as S.
  induction S as [|x l S IH F]; constructor; [done|].
  eapply list.Forall_impl; [exact F|]. intros y Hy%Z.ltb_ge. done.
Qed.

(** C37: the market state of a bar is that of its past.  For regime logs in time
    order, the indexed bisection returns the state of the symbol's own latest log
    at or before the bar, 0 when it has none; VIX and sentiment are those of the
    latest entry at or before the bar; and entries dated after the bar, however
    many, change none of the three. *)
Theorem market_state_no_lookahead logs logs' vix vix' sent sent' sym t :
  StronglySorted (fun a b => RLTime a <= RLTime b) (logs ++ logs') ->
  (forall l, l ∈ logs' -> t < RLTime l) -> (forall l, l ∈ vix' -> t < VIXTime l) ->
  (forall l, l ∈ sent' -> t < SentTime l) ->
  regimeAt (buildRegimeIndex (logs ++ logs')) sym t = regimeAt (buildRegimeIndex logs) sym t /\
  regimeAt (buildRegimeIndex logs) sym t =
    Some (match latest RLTime t (List.filter (fun l => String.eqb (RLSymbol l) sym) logs) with
          | Some l => HMMState l | None => 0 end) /\
  getVIXAt t (vix ++ vix') =
    match latest VIXTime t vix with Some l => VIXValue l | None => 0%float end /\
  getSentimentAt t (sent ++ sent') =
    match latest SentTime t sent with Some l => Score l | None => 50 end.
Proof.
  intros Hs Hr Hv Hsn.
  assert (Hs1 : StronglySorted (fun a b => RLTime a <= RLTime b) logs)
    by (by apply sorting.StronglySorted_app_1_l in Hs).
  rewrite !regimeAt_lookup by done. rewrite List.filter_app, latest_future; cycle 1.
  { intros l Hl. apply Hr. apply list_elem_of_In in Hl. apply filter_In in Hl as [Hl _].
    by apply list_elem_of_In. }
  rewrite getVIXAt_latest, getSentimentAt_latest, !latest_future by done. done.
Qed.
End Lookups.

(** Two logs of another symbol and one from the future do not count. *)
Lemma market_state_no_lookahead_witness :
  regimeAt (buildRegimeIndex
    ([mkRLog 10 1 0.9 "SPY"; mkRLog 20 3 0.9 "QQQ"; mkRLog 30 2 0.9 "SPY"] ++ [mkRLog 50 3 0.9 "SPY"]))
    "SPY" 40 = Some 2%Z /\
  getVIXAt 40 ([mkVLog 10 18.0 0] ++ [mkVLog 41 60.0 42.0]) = 18.0 /\
  getSentimentAt 40 ([] ++ [mkSLog 41 90 "greed"]) = 50%Z.
Proof.
  destruct (market_state_no_lookahead
    [mkRLog 10 1 0.9 "SPY"; mkRLog 20 3 0.9 "QQQ"; mkRLog 30 2 0.9 "SPY"] [mkRLog 50 3 0.9 "SPY"]
    [mkVLog 10 18.0 0] [mkVLog 41 60.0 42.0] [] [mkSLog 41 90 "greed"] "SPY" 40) as (E1 & E2 & E3 & E4).
  - repeat constructor; cbn; lia.
  - intros l ->%list_elem_of_singleton. cbn. lia.
  - intros l ->%list_elem_of_singleton. cbn. lia.
  - intros l ->%list_elem_of_singleton. cbn. lia.
  - rewrite E1, E2, E3, E4. split; [vm_compute; reflexivity|]. split; reflexivity.
Defined.
