(* ===== verification/Calendar.v ===== *)
(** * Calendar and seasonality ([internal/backtest/seasonality.go])

    The US holiday table and the seasonal size multiplier of the backtest.  A
    date key ["2006-01-02"] is the triple it prints; [daysFromCivil] and
    [civilFromDays] are the proleptic Gregorian calendar of Go's [time] package,
    months past December rolling over as [time.Date] normalises them. *)
From Stdlib Require Import ZArith Lia Bool Floats.
From S2P Require Import Prelude Float64 FloatRound FloatLaws Timeline.
Local Open Scope Z_scope.

Definition date : Type := Z * Z * Z.

Definition daysFromCivil (year month day : Z) : Z :=
  let y := year + (month - 1) / 12 in
  let m := (month - 1) mod 12 + 1 in
  let y := if m <=? 2 then y - 1 else y in
  let yoe := y mod 400 in
  let doy := (153 * (if m >? 2 then m - 3 else m + 9) + 2) / 5 + day - 1 in
  y / 400 * 146097 + (yoe * 365 + yoe / 4 - yoe / 100 + doy) - 719468.

Definition civilFromDays (z : Z) : date :=
  let z := z + 719468 in
  let doe := z mod 146097 in
  let yoe := (doe - doe / 1460 + doe / 36524 - doe / 146096) / 365 in
  let doy := doe - (365 * yoe + yoe / 4 - yoe / 100) in
  let mp := (5 * doy + 2) / 153 in
  let d := doy - (153 * mp + 2) / 5 + 1 in
  let m := if mp <? 10 then mp + 3 else mp - 9 in
  let y := yoe + z / 146097 * 400 in
  ((if m <=? 2 then y + 1 else y), m, d).

(** [Weekday()] of a day number; Sunday is 0. *)
Definition weekdayOfDay (days : Z) : Z := (days + 4) mod 7.

Definition dateKey (t : Z) : date := civilFromDays (t / dayLength).

(** ** Holidays *)
Definition nthWeekday (year month day n : Z) : Z :=
  let offset := (day - weekdayOfDay (daysFromCivil year month 1) + 7) mod 7 in
  1 + offset + (n - 1) * 7.

Definition lastWeekday (year month day : Z) : Z :=
  let t := daysFromCivil year (month + 1) 0 in
  let '(_, _, lastDay) := civilFromDays t in
  let offset := weekdayOfDay t - day in
  lastDay - (if offset <? 0 then offset + 7 else offset).

Definition calculateEaster (year : Z) : date :=
  let a := year mod 19 in
  let b := year / 100 in
  let c := year mod 100 in
  let d := b / 4 in
  let e := b mod 4 in
  let f := (b + 8) / 25 in
  let g := (b - f + 1) / 3 in
  let h := (19 * a + b - d - g + 15) mod 30 in
  let i := c / 4 in
  let k := c mod 4 in
  let l := (32 + 2 * e + 2 * i - h - k) mod 7 in
  let m := (a + 11 * h + 22 * l) / 451 in
  (year, (h + l - 7 * m + 114) / 31, (h + l - 7 * m + 114) mod 31 + 1).

Definition calculateGoodFriday (year : Z) : date :=
  let '(y, m, d) := calculateEaster year in civilFromDays (daysFromCivil y m d - 2).

Definition addFixedHolidays (hs : gmap date bool) (year : Z) : gmap date bool :=
  <[(year, 12, 25) := true]> (<[(year, 7, 4) := true]> (<[(year, 1, 1) := true]> hs)).

Definition addFloatingHolidays (hs : gmap date bool) (year : Z) : gmap date bool :=
  let hs := <[(year, 1, nthWeekday year 1 1 3) := true]> hs in
  let hs := <[(year, 2, nthWeekday year 2 1 3) := true]> hs in
  let hs := <[(year, 5, lastWeekday year 5 1) := true]> hs in
  let hs := <[(year, 9, nthWeekday year 9 1 1) := true]> hs in
  let hs := <[(year, 11, nthWeekday year 11 4 4) := true]> hs in
  let juneteenth := (year, 6, 19) in
  let hs := <[juneteenth := true]> hs in
  let hs := if year <? 2026 then <[juneteenth := 2021 <=? year]> hs else <[juneteenth := true]> hs in
  <[calculateGoodFriday year := true]> (<[calculateEaster year := true]> hs).

(** The package initialiser. *)
Definition usHolidays : gmap date bool :=
  fold_left (fun hs year => addFloatingHolidays (addFixedHolidays hs year) year)
    [2024; 2025; 2026; 2027; 2028; 2029; 2030] ∅.

Definition isHoliday (k : date) : bool := default false (usHolidays !! k).

(** ** The overlay *)
Record SeasonalityOverlay := mkSeason {
  TurnOfMonthBoost : float64;
  TurnOfMonthDaysBefore : Z;
  TurnOfMonthDaysAfter : Z;
  JanuaryBoost : float64;
  SeptemberReduction : float64;
  NovemberBoost : float64;
  DecemberBoost : float64;
  HolidayCalAdjust : bool
}.

Definition NewSeasonalityOverlay : SeasonalityOverlay :=
  mkSeason 1.5 2 4 2.0 0.5 1.25 1.25 true.

(** The part of [Multiplier] after the holiday tests. *)
Definition monthMultiplier (s : SeasonalityOverlay) (month day : Z) : float64 :=
  if month =? 1 then JanuaryBoost s
  else if month =? 9 then SeptemberReduction s
  else if (month =? 11) || (month =? 12) then NovemberBoost s
  else if (27 <=? day) || (day <=? 4) then TurnOfMonthBoost s
  else 1.0%float.

Definition Multiplier (s : SeasonalityOverlay) (t : Z) : float64 :=
  let days := t / dayLength in
  let '(_, month, day) := civilFromDays days in
  if HolidayCalAdjust s && isHoliday (civilFromDays days) then 1.0%float
  else if HolidayCalAdjust s && (isHoliday (civilFromDays (days - 1)) || isHoliday (civilFromDays (days + 1)))
  then 0.75%float
  else monthMultiplier s month day.

(** ** The calendar *)
Section Civil.

(** One 400-year era is checked by computation, the others by periodicity. *)
Fixpoint all_from (n : nat) (z : Z) (p : Z -> bool) : bool :=
  match n with O => true | S n => p z && all_from n (z + 1) p end.

Lemma all_from_spec n p : forall z0, all_from n z0 p = true ->
  forall z, z0 <= z < z0 + Z.of_nat n -> p z = true.
Proof.
  induction n as [|n IH]; intros z0 H z Hz; [lia|]. cbn [all_from] in H.
  apply andb_true_iff in H as [H1 H2]. destruct (Z.eq_dec z z0) as [->|]; [done|].
  apply (IH (z0 + 1) H2). lia.
Qed.

Lemma civil_shift z k :
  civilFromDays (z + 146097 * k) = let '(y, m, d) := civilFromDays z in (y + 400 * k, m, d).
Proof.
  unfold civilFromDays.
  replace (z + 146097 * k + 719468) with (z + 719468 + k * 146097) by lia.
  rewrite Z.mod_add, Z.div_add by lia.
  generalize ((z + 719468) mod 146097) ((z + 719468) / 146097). intros doe era. cbv zeta.
  set (mp := (5 * _ + 2) / 153). destruct (_ <=? 2); f_equal; f_equal; lia.
Qed.

Lemma days_shift y m d k : daysFromCivil (y + 400 * k) m d = daysFromCivil y m d + 146097 * k.
Proof.
  unfold daysFromCivil. cbv zeta.
  set (m' := (m - 1) mod 12 + 1).
  assert (E : (if m' <=? 2 then y + 400 * k + (m - 1) / 12 - 1 else y + 400 * k + (m - 1) / 12) =
              (if m' <=? 2 then y + (m - 1) / 12 - 1 else y + (m - 1) / 12) + k * 400)
    by (destruct (_ <=? 2); lia).
  rewrite E, Z.mod_add, Z.div_add by lia. lia.
Qed.

Lemma days_linear y m d : daysFromCivil y m d = daysFromCivil y m 1 + (d - 1).
Proof. unfold daysFromCivil. cbv zeta. destruct (_ <=? 2); lia. Qed.

(** The day before a month's first is the last day of the month before. *)
Definition month_end_ok (y : Z) : bool :=
  all_from 12 1 (fun m =>
    let t := daysFromCivil y (m + 1) 0 in
    let '(y', m', d) := civilFromDays t in
    (y' =? y) && (m' =? m) && (28 <=? d) && (d <=? 31) && (daysFromCivil y m 1 + (d - 1) =? t)).

Lemma era_month_ends : all_from 400 0 month_end_ok = true.
Proof. vm_compute. reflexivity. Qed.

Lemma month_end y m :
  1 <= m <= 12 -> exists d, civilFromDays (daysFromCivil y (m + 1) 0) = (y, m, d) /\ 28 <= d <= 31 /\
    daysFromCivil y m d = daysFromCivil y (m + 1) 0.
Proof.
  intros Hm. pose proof (Z.div_mod y 400 ltac:(lia)) as E.
  pose proof (Z.mod_pos_bound y 400 ltac:(lia)) as B.
  pose proof (all_from_spec _ _ _ era_month_ends (y mod 400) ltac:(lia)) as H.
  pose proof (all_from_spec _ _ _ H m ltac:(lia)) as H'. cbv zeta beta in H'.
  replace y with (y mod 400 + 400 * (y / 400)) by lia.
  rewrite days_shift, civil_shift.
  destruct (civilFromDays (daysFromCivil (y mod 400) (m + 1) 0)) as [[y' m'] d].
  repeat rewrite andb_true_iff in H'. exists d.
  rewrite !days_shift, (days_linear (y mod 400) m d). split; [repeat f_equal; lia|lia].
Qed.

(** The Easter computation over the years the code could ever be asked for. *)
Definition easter_ok (year : Z) : bool :=
  let '(y, m, d) := calculateEaster year in
  let t := daysFromCivil y m d in
  (y =? year) && (weekdayOfDay t =? 0) &&
  (daysFromCivil year 3 22 <=? t) && (t <=? daysFromCivil year 4 25) &&
  bool_decide (civilFromDays t = (y, m, d)) && bool_decide (civilFromDays (t - 2) = calculateGoodFriday year).

Lemma easter_range : all_from 717 1583 easter_ok = true.
Proof. vm_compute. reflexivity. Qed.

Lemma weekday_shift a b day :
  0 <= day < 7 -> weekdayOfDay (a + (day - weekdayOfDay a + 7) mod 7 + 7 * b) = day.
Proof.
  intros H. unfold weekdayOfDay.
  pose proof (Z.mod_pos_bound (a + 4) 7 ltac:(lia)). pose proof (Z.div_mod (a + 4) 7 ltac:(lia)).
  revert H0 H1. generalize ((a + 4) mod 7) ((a + 4) / 7). intros r q Hr Hq.
  pose proof (Z.mod_pos_bound (day - r + 7) 7 ltac:(lia)). pose proof (Z.div_mod (day - r + 7) 7 ltac:(lia)).
  revert H0 H1. generalize ((day - r + 7) mod 7) ((day - r + 7) / 7). intros r2 q2 Hr2 Hq2.
  assert (r2 = day - r + 7 - 7 * q2) by lia. assert (a + 4 = 7 * q + r) by lia.
  replace (a + r2 + 7 * b + 4) with (day + (q + b - q2 + 1) * 7) by lia.
  rewrite Z.mod_add by lia. apply Z.mod_small. lia.
Qed.

(** the holiday rules.  In every year and month, the n-th weekday falls on
    that weekday in the n-th week of the month, and the last weekday falls on it
    with no other after it in the month; from 1583 to 2299 the Easter computation
    gives a Sunday between 22 March and 25 April, and Good Friday is two days
    before; and the multiplier of a day is 1 on a holiday, three quarters next to
    one, and otherwise the month's, always between one half and two. *)
Theorem seasonal_calendar year month day n t :
  1 <= month <= 12 -> 0 <= day < 7 -> 1583 <= year < 2300 ->
  (weekdayOfDay (daysFromCivil year month (nthWeekday year month day n)) = day /\
   7 * (n - 1) + 1 <= nthWeekday year month day n <= 7 * n) /\
  (exists lastDay, daysFromCivil year month lastDay = daysFromCivil year (month + 1) 0 /\
     weekdayOfDay (daysFromCivil year month (lastWeekday year month day)) = day /\
     lastDay - 7 < lastWeekday year month day <= lastDay) /\
  easter_ok year = true /\
  (let k := civilFromDays (t / dayLength) in
   let near := isHoliday (civilFromDays (t / dayLength - 1)) || isHoliday (civilFromDays (t / dayLength + 1)) in
   let s := Multiplier NewSeasonalityOverlay t in
   (isHoliday k = true -> s = 1.0%float) /\
   (isHoliday k = false -> near = true -> s = 0.75%float) /\
   (isHoliday k = false -> near = false -> s = monthMultiplier NewSeasonalityOverlay k.1.2 k.2) /\
   (0.5 <=? s)%float = true /\ (s <=? 2.0)%float = true).
Proof.
  intros Hm Hd Hy. split; [|split; [|split]].
  - unfold nthWeekday. cbv zeta. rewrite days_linear.
    pose proof (Z.mod_pos_bound (day - weekdayOfDay (daysFromCivil year month 1) + 7) 7 ltac:(lia)).
    split; [|lia]. etransitivity; [|apply (weekday_shift (daysFromCivil year month 1) (n - 1) day); lia].
    f_equal. lia.
  - destruct (month_end year month Hm) as (d & Ec & Hr & Ed). exists d. split; [done|].
    unfold lastWeekday. cbv zeta. rewrite Ec, <- Ed.
    pose proof (Z.mod_pos_bound (daysFromCivil year month d + 4) 7 ltac:(lia)) as B.
    fold (weekdayOfDay (daysFromCivil year month d)) in B.
    assert (E : d - (if weekdayOfDay (daysFromCivil year month d) - day <? 0
                     then weekdayOfDay (daysFromCivil year month d) - day + 7
                     else weekdayOfDay (daysFromCivil year month d) - day) =
                d - (weekdayOfDay (daysFromCivil year month d) - day) mod 7).
    { destruct (Z.ltb_spec (weekdayOfDay (daysFromCivil year month d) - day) 0).
      - rewrite <- (Z.mod_unique _ 7 (-1) (weekdayOfDay (daysFromCivil year month d) - day + 7)); lia.
      - rewrite Z.mod_small; lia. }
    rewrite E. clear E.
    pose proof (Z.mod_pos_bound (weekdayOfDay (daysFromCivil year month d) - day) 7 ltac:(lia)) as B2.
    split; [|lia].
    rewrite days_linear, (days_linear year month d) in *. revert B2 B.
    generalize (daysFromCivil year month 1). intros a. unfold weekdayOfDay. intros _ _.
    rewrite (Zminus_mod_idemp_l (a + (d - 1) + 4) day 7).
    pose proof (Z.div_mod (a + (d - 1) + 4 - day) 7 ltac:(lia)).
    replace (a + (d - (a + (d - 1) + 4 - day) mod 7 - 1) + 4)
      with (day + (a + (d - 1) + 4 - day) / 7 * 7) by lia.
    rewrite Z.mod_add by lia. apply Z.mod_small. lia.
  - refine (all_from_spec 717 easter_ok 1583 easter_range year _). lia.
  - cbv zeta. unfold Multiplier. cbv zeta.
    destruct (civilFromDays (t / dayLength)) as [[y m] d] eqn:Ek. cbn [HolidayCalAdjust NewSeasonalityOverlay andb fst snd].
    generalize (isHoliday (civilFromDays (t / dayLength - 1)) || isHoliday (civilFromDays (t / dayLength + 1))).
    generalize (isHoliday (y, m, d)). intros [] near; [by repeat split; intros|].
    destruct near; [by repeat split; intros|].
    split; [done|]. split; [done|]. split; [done|].
    unfold monthMultiplier. cbn [JanuaryBoost SeptemberReduction NovemberBoost TurnOfMonthBoost NewSeasonalityOverlay].
    destruct (m =? 1); [done|]. destruct (m =? 9); [done|].
    destruct ((m =? 11) || (m =? 12)); [done|]. by destruct ((27 <=? d) || (d <=? 4)).
Qed.
End Civil.

(** Thanksgiving 2026 is 26 November; Christmas Eve 2026 trades at three quarters. *)
Lemma seasonal_calendar_witness :
  nthWeekday 2026 11 4 4 = 26 /\ calculateEaster 2026 = (2026, 4, 5) /\
  Multiplier NewSeasonalityOverlay (daysFromCivil 2026 12 24 * dayLength) = 0.75%float /\
  weekdayOfDay (daysFromCivil 2026 11 (nthWeekday 2026 11 4 4)) = 4.
Proof.
  destruct (seasonal_calendar 2026 11 4 4 (daysFromCivil 2026 12 24 * dayLength)) as ([W _] & _ & _ & M); [lia..|].
  split; [vm_compute; reflexivity|]. split; [vm_compute; reflexivity|]. split; [|exact W].
  apply M; vm_compute; reflexivity.
Defined.
