(* ===== verification/Trade.v ===== *)
(** * Trades of a backtest ([internal/backtest/engine.go], [trade_change.go])

    The run configuration and the trade record, the arithmetic both close paths
    of the engine share (commission, fees, PnL, excursions), and the two ways a
    trade is closed.  A change's [From] and [To] are the numbers the code prints
    with ["%.2f"]; [None] is the empty string. *)
From Stdlib Require Import ZArith Lia Bool Floats.
From coqutil Require Import RecordSettersUsingExistingGetters.
From S2P Require Import Prelude Float64 FloatRound FloatLaws Price StopLoss Fills Pipeline.
Local Open Scope float_scope.
Local Open Scope go_scope.

(** Go's zero [time.Time], in Unix nanoseconds. *)
Definition zeroTime : Z := (-62135596800 * 1000000000)%Z.

(** The fields of [BacktestConfig] that [Run] reads after loading its data;
    [SecondarySymbols] lists the map's pairs in the order Go visits them. *)
Record BacktestConfig := mkConfig {
  CfgStrategyID : string;
  Symbols : list string;
  InitialCapital : float64;
  RegimeFilter : option Z;
  CommissionBps : float64;
  BrokerFee : BrokerageFeeConfig;
  PropFirmEnabled : bool;
  CfgStopLoss : option StopLossConfig;
  CfgTakeProfit : option TakeProfitConfig;
  UseSeasonalityOverlay : bool;
  StrategyParams : gmap string float64;
  FixedSeed : Z;
  SizingPercent : float64;
  KellyFraction : float64;
  WarmUpBars : Z;
  SecondarySymbols : list (string * string);
  CfgEarnings : option (string -> Z -> bool);
  SkipEarningsDays : bool;
  DisableRegimeGate : bool
}.

Record TradeChange := mkChange {
  ChTimestamp : Z; ChField : string; ChFrom : option float64; ChTo : option float64; ChReason : string
}.

Record Trade := mkTrade {
  TSymbol : string;
  TSide : string;
  TQuantity : float64;
  TEntryPrice : Price;
  TExitPrice : Price;
  TEntryTime : Z;
  TExitTime : Z;
  TPnL : float64;
  TPnLPct : float64;
  THMMRegime : Z;
  TStrategyID : string;
  TStopPrice : Price;
  TTakePrice : Price;
  TExitReason : string;
  TEndOfData : bool;
  TBrokerFee : float64;
  TSlippageMidBps : float64;
  TSlippageLastBps : float64;
  TSlippageBps : float64;
  TSlippageFillCount : Z;
  TAdverseSelection : bool;
  TMAE : float64;
  TMFE : float64;
  TChanges : list TradeChange;
  lowestSinceEntry : float64;
  highestSinceEntry : float64
}.

Definition addChange (t : Trade) (ts : Z) (field : string) (from to : option float64) (reason : string)
    : Trade :=
  t <| TChanges ::= (fun l => l ++ [mkChange ts field from to reason]) |>.

(** ** Shared arithmetic *)
Definition adjFactor (af : float64) : float64 := if af <=? 0 then 1.0 else af.

Definition clampExcursionPct (v : float64) : float64 :=
  if math.IsNaN v || math.IsInf v 0 then 0
  else if v >? 10000.0 then 10000.0
  else if v <? - 10000.0 then - 10000.0
  else v.

Definition invertSide (side : string) : string :=
  if bool_decide (side = "BUY"%string) then "SELL"%string else "BUY"%string.

(** [t.Sub(u)] saturates; [Hours()] adds the whole hours and the rest. *)
Definition subTime (t u : Z) : Z := Z.max (-2^63) (Z.min (2^63 - 1) (t - u)).
Definition durationHours (d : Z) : float64 :=
  of_Z (Z.quot d 3600000000000) + of_Z (Z.rem d 3600000000000) / 3600000000000.

Section Trades.
(** [config.ExpenseRatioForTicker]: a lookup in the universe file. *)
Variable ExpenseRatioForTicker : string -> float64.

Definition holdingExpenseFee (cfg : BacktestConfig) (symbol side : string) (notional : float64)
    (entry exit : Z) : float64 :=
  if negb (bool_decide (side = "BUY"%string)) || Z.eqb entry zeroTime || negb (Z.ltb entry exit) then 0
  else
    let yearsHeld := durationHours (subTime exit entry) / 24.0 / 365.25 in
    CalculateHoldingFee (BrokerFee cfg) notional (ExpenseRatioForTicker symbol) yearsHeld.

Definition commissionFor (cfg : BacktestConfig) (entry quantity : float64) : float64 :=
  entry * quantity * CommissionBps cfg / 10000.0 * 2.

Definition brokerFeeFor (cfg : BacktestConfig) (t : Trade) (quantity exitPrice : float64) (exit : Z) : float64 :=
  CalculateFeeForSymbol (BrokerFee cfg) (TSymbol t) quantity (Float64 (TEntryPrice t)) +
  CalculateFeeForSymbol (BrokerFee cfg) (TSymbol t) quantity exitPrice +
  holdingExpenseFee cfg (TSymbol t) (TSide t) (Float64 (TEntryPrice t) * quantity) (TEntryTime t) exit.

Definition rawPnL (side : string) (entry exitPrice quantity commission fee : float64) : float64 :=
  if bool_decide (side = "BUY"%string) then (exitPrice - entry) * quantity - commission - fee
  else (entry - exitPrice) * quantity - commission - fee.

(** MAE and MFE, left alone for a non-positive entry. *)
Definition setExcursions (t : Trade) : Trade :=
  let entry := Float64 (TEntryPrice t) in
  if entry >? 0 then
    let down := clampExcursionPct ((entry - lowestSinceEntry t) / entry * 100.0) in
    let up := clampExcursionPct ((highestSinceEntry t - entry) / entry * 100.0) in
    if bool_decide (TSide t = "BUY"%string) then t <| TMAE := down |> <| TMFE := up |>
    else t <| TMAE := up |> <| TMFE := down |>
  else t.

(** What both paths set once the exit price and quantity are known. *)
Definition bookExit (cfg : BacktestConfig) (t : Trade) (time : Z) (exitPrice quantity : float64)
    (reason : string) : Trade :=
  let entry := Float64 (TEntryPrice t) in
  let commission := commissionFor cfg entry quantity in
  let fee := brokerFeeFor cfg t quantity exitPrice time in
  let pnl := rawPnL (TSide t) entry exitPrice quantity commission fee in
  let '(safe, clamped) := SanitizeTradePnL pnl quantity entry (InitialCapital cfg) in
  let reason := if clamped then "pnl_clamped"%string else reason in
  let t := t <| TPnL := safe |> <| TPnLPct := safe / InitialCapital cfg * 100 |>
             <| TExitPrice := PriceFromFloat exitPrice |> <| TExitTime := time |>
             <| TExitReason := reason |> <| TBrokerFee := fee |> in
  setExcursions (addChange t time "exit" (Some entry) (Some exitPrice) reason).

(** [capital] after a booked PnL: at most 100 times the initial capital, never negative. *)
Definition bookCapital (cfg : BacktestConfig) (capital pnl : float64) : float64 :=
  let capital := capital + pnl in
  let capital := if capital >? InitialCapital cfg * 100 then InitialCapital cfg * 100 else capital in
  if capital <=? 0 then 0 else capital.
End Trades.

(** ** Laws *)
Section TradeLaws.
Local Open Scope Z_scope.

(** A sanitised PnL is a finite number. *)
Lemma SanitizeTradePnL_fin pnl q e ref : ffin (SanitizeTradePnL pnl q e ref).1 = true.
Proof.
  unfold SanitizeTradePnL. destruct (math.IsNaN pnl || math.IsInf pnl 0) eqn:E; [done|].
  apply orb_false_iff in E as [E1 E2]. destruct (_ <? _)%float; [done|]. cbn [fst].
  unfold math.IsInf in E2. cbn [Z.leb Z.compare andb] in E2.
  apply orb_false_iff in E2 as [E2 E3]. unfold math.IsNaN in E1. rewrite negb_false_iff in E1.
  destruct (ffin pnl) eqn:F; [done|]. exfalso.
  assert (N : fnan pnl = false) by (rewrite <- IsNaN_fnan; unfold math.IsNaN; by rewrite E1).
  destruct (Z.le_gt_cases 0 (fv pnl)) as [S|S].
  - rewrite (nonfin_pos pnl N F S) in E2. done.
  - assert (O : (- pnl)%float = infinity).
    { apply nonfin_pos; rewrite ?fnan_opp, ?ffin_opp, ?fv_opp; try done. lia. }
    assert (pnl = neg_infinity) as -> by (rewrite <- (opp_opp pnl), O; done). done.
Qed.

(** The configured capital: positive, and a hundred times it is still finite. *)
Definition capital_ok (cfg : BacktestConfig) : Prop :=
  ffin (InitialCapital cfg) = true /\ 0 < fv (InitialCapital cfg) /\
  ffin (InitialCapital cfg * 100)%float = true.

Lemma capital_ok_le cfg : capital_ok cfg -> fv (InitialCapital cfg) <= fv (InitialCapital cfg * 100)%float.
Proof.
  intros (Hi & Hp & _). pose proof (mul_nearest (InitialCapital cfg) 100%float Hi eq_refl) as N.
  fold onev in N. apply (nearest_ge _ _ _ _ onev_pos N (ffin_nan _ Hi)).
  replace (fv 100) with (100 * onev) by (vm_compute; reflexivity). pose proof onev_pos. nia.
Qed.

Definition in_account (cfg : BacktestConfig) (c : float64) : Prop :=
  ffin c = true /\ 0 <= fv c <= fv (InitialCapital cfg * 100)%float.

Lemma bookCapital_bounded cfg c pnl :
  capital_ok cfg -> in_account cfg c -> ffin pnl = true -> in_account cfg (bookCapital cfg c pnl).
Proof.
  intros Hok (Hc & Hb) Hf. pose proof (capital_ok_le cfg Hok) as Hl. destruct Hok as (Hi & Hp & Hh). unfold bookCapital, in_account.
  assert (N : fnan (c + pnl)%float = false) by (by apply (add_nearest c pnl)).
  destruct (_ <? c + pnl)%float eqn:E1.
  - rewrite leb_fv_nn by (done || by apply ffin_nan). destruct (Z.leb_spec (fv (InitialCapital cfg * 100)%float) (fv 0%float)).
    + split; [done|]. rewrite fv_zero_lit in *. lia.
    + split; [done|]. rewrite fv_zero_lit in *. lia.
  - rewrite ltb_fv_nn in E1 by (done || by apply ffin_nan). apply Z.ltb_ge in E1.
    rewrite leb_fv_nn by done. destruct (Z.leb_spec (fv (c + pnl)%float) (fv 0%float)); rewrite fv_zero_lit in *.
    + split; [done|]. change (fv 0%float) with 0. lia.
    + split; [|lia]. apply ffin_of_range; [done|]. apply ffin_range in Hh. lia.
Qed.

Lemma clampExcursionPct_bounded v :
  ffin (clampExcursionPct v) = true /\
  fv (-10000)%float <= fv (clampExcursionPct v) <= fv 10000%float.
Proof.
  unfold clampExcursionPct.
  destruct (math.IsNaN v || math.IsInf v 0) eqn:E.
  { split; [done|]. vm_compute. by split. }
  apply orb_false_iff in E as [E _]. rewrite IsNaN_fnan in E.
  destruct (10000 <? v)%float eqn:E1; [split; [done|vm_compute; by split]|].
  destruct (v <? -10000)%float eqn:E2; [split; [done|vm_compute; by split]|].
  rewrite ltb_fv_nn in E1, E2 by done. apply Z.ltb_ge in E1, E2.
  split; [|split; done]. apply (ffin_between (-10000)%float v 10000%float); done.
Qed.
End TradeLaws.
