(* ===== verification/Engine.v ===== *)
(** * The backtest engine ([internal/backtest/engine.go])

    [Engine.Run]: the bar loop with its pending entries, open trades, stops,
    drawdown guard and end-of-data exits.  The strategy is an interface
    ([StrategyRunner]); the risk pipeline, prop-firm enforcer, volatility halt,
    exposure tracker, sizer, fill simulator, stops and calendar are the
    definitions of their own files.  The engine's optional ML subsystems are nil,
    as [NewEngineBuilder] leaves them: the branches their nil checks guard are not
    part of the model.  Trades live in a store and are referred to by pointer, since
    [openTrades] and [pendingAS] share them.  A panic of the strategy outside
    [generateSignal]'s recover, which [Run]'s own turns into an error, is [None]. *)
From Stdlib Require Import ZArith Lia Bool Floats.
From coqutil Require Import RecordSettersUsingExistingGetters.
From S2P Require Import Prelude Float64 FloatRound FloatLaws Price PropFirm Sizing TradingControls.
From S2P Require Import Regime StopLoss Fills Gates SignalGate Enforcer CapitalPool PoolSim Pipeline.
From S2P Require Import Timeline Calendar Trade.
Local Open Scope float_scope.
Local Open Scope go_scope.

(** [strategy.Strategy] with its optional receivers: an evaluation may panic
    ([None]), which leaves the runner in some state all the same. *)
Class StrategyRunner (R : Type) := {
  Evaluate : R -> Candle -> Z -> option (option Signal) * R;
  SetVIX : option (R -> float64 -> R);
  SetATR : option (R -> float64 -> R);
  PushSecondaryPrice : option (R -> Price -> R)
}.

Record SignalDiag := mkDiag {
  CandlesSeen : Z; SignalAttempts : Z; CapitalZero : Z; VolHalted : Z; RateLimited : Z;
  BaseSizeZero : Z; StrategyNil : Z; NilError : Z; ExitSignalZeroQty : Z; QuantityTooSmall : Z;
  ExposureBlocked : Z; PipelineRejected : Z; SignalsPassed : Z; TradesOpened : Z; FillRejected : Z;
  MLRejected : Z; RegimeRejected : Z; PipelineRejects : gmap string Z; ExitReasons : gmap string Z
}.

Definition zeroDiag : SignalDiag := mkDiag 0 0 0 0 0 0 0 0 0 0 0 0 0 0 0 0 0 ∅ ∅.

Record EquityPoint := mkPoint { EqTime : Z; EqValue : float64; EqRegime : Z }.

(** [strategy params] lookups *)
Definition positiveParam (cfg : BacktestConfig) (name : string) : option float64 :=
  v ← StrategyParams cfg !! name; if v >? 0 then Some v else None.

Definition resolveSizingPercent (cfg : BacktestConfig) : float64 :=
  match positiveParam cfg "sizing_percent" with
  | Some v => v
  | None => if SizingPercent cfg >? 0 then SizingPercent cfg else 0.02
  end.

Definition resolveKellyFraction (cfg : BacktestConfig) : float64 :=
  let k := match positiveParam cfg "kelly_fraction" with
           | Some v => v
           | None => if KellyFraction cfg >? 0 then KellyFraction cfg else 0.25
           end in
  if k >? 0.25 then 0.25 else k.

(** The market data of a run, after loading. *)
Record Feed := mkFeed {
  regimeIdx : gmap string (list RegimeLog);
  vixLogs : list VIXLog;
  sentimentLogs : list SentimentLog;
  universe : option (gmap Z (list string))
}.

Section Engine.
Context {rand : Type}.
Variable NormFloat64 : rand -> float64 * rand.
Variable RandFloat64 : rand -> float64 * rand.
(** [rand.New(rand.NewSource(seed))] *)
Variable seeded : Z -> rand.
Variable ExpenseRatioForTicker : string -> float64.
(** [time.Now()] of the breach records. *)
Variable Now : Z.
Context {R : Type} `{StrategyRunner R}.
(** The registry's runner for the configured strategy, with its parameters set. *)
Variable newRunner : R.

Abbreviation pipe := (RiskPipeline SignalGateImpl.t CapitalPoolManager.t PropFirmEnforcer.t).

(** The engine's fields, then the local variables of [Run].  At rest the wired
    pipeline holds no signal gate: its gate shares the engine's components. *)
Record State := mkState {
  fillSim : @FillSimulator rand;
  stratBySymbol : gmap string R;
  ftmo : option PropFirmEnforcer.t;
  volHalt : VolatilityHalt.t;
  exposure : ExposureTracker.t;
  positionSizer : PositionSizer;
  kellyMult : float64;
  signalDiag : SignalDiag;
  regimeMatrix : gmap string RegimeEntry;
  pipeline : option pipe;
  capital : float64;
  peakCapital : float64;
  equity : list EquityPoint;
  mtmEquity : list EquityPoint;
  trades : list Trade;
  store : list Trade;
  openTrades : gmap string nat;
  activeStops : gmap string ActiveStop;
  pendingAS : gmap string nat;
  pendingEntries : gmap string Signal;
  lastDay : option Z;
  atrWindow : list Candle;
  hasHighVIX : bool;
  hasVIXSpike : bool;
  prevVIX : float64
}.

Definition diag (f : SignalDiag -> SignalDiag) (st : State) : State := st <| signalDiag ::= f |>.

(** [WirePipeline]'s gate holds the engine's own components: the pipeline as the
    engine calls it, and the engine after the call. *)
Definition wired (st : State) (p : pipe) : pipe :=
  mkPipeline (Some (SignalGateImpl.mk (Some (volHalt st)) (Some (positionSizer st)) (Some (exposure st)) None true))
    None (PropFirmG p) (KellyMult p) (Some (regimeMatrix st)) (CurrentRegime p) (symbolNotional p).

Definition unwired (p : pipe) (st : State) : State :=
  let st := st <| pipeline := Some (withSignal p None) |> in
  match SignalG p with
  | Some g => st <| volHalt ::= (fun v => default v (SignalGateImpl.volHalt g)) |>
                 <| positionSizer ::= (fun v => default v (SignalGateImpl.sizer g)) |>
                 <| exposure ::= (fun v => default v (SignalGateImpl.exposure g)) |>
  | None => st
  end.

Definition reconcile (t : Trade) (price : float64) (st : State) : State :=
  match pipeline st with
  | Some p => unwired (ReconcileFillWithoutPropFirm (wired st p) (TStrategyID t) (TSymbol t) (TSide t)
                         (TPnL t) (TQuantity t) price) st
  | None => st
  end.

(** ** Runners *)
Definition runnerKey (cfg : BacktestConfig) (symbol : string) : string :=
  symbol +:+ ":" +:+ CfgStrategyID cfg.
Definition runnerOf (cfg : BacktestConfig) (st : State) (symbol : string) : R :=
  default newRunner (stratBySymbol st !! runnerKey cfg symbol).
Definition putRunner (cfg : BacktestConfig) (symbol : string) (r : R) (st : State) : State :=
  st <| stratBySymbol ::= insert (runnerKey cfg symbol) r |>.

Definition atrPeriodOf (cfg : BacktestConfig) : nat :=
  match CfgStopLoss cfg with
  | Some sl => if Z.ltb 0 (ATRPeriod sl) then Z.to_nat (ATRPeriod sl) else 14%nat
  | None => 14%nat
  end.

(** ** Construction ([engine_builder.go]) *)
Definition Build (sim : @FillSimulator rand) : State :=
  mkState sim ∅ None (VolatilityHalt.NewVolatilityHalt 3.0) (ExposureTracker.NewExposureTracker 5.0 0.25)
    (NewPositionSizer None) 0.25 zeroDiag NewRegimeActivationMatrix None
    0 0 [] [] [] [] ∅ ∅ ∅ ∅ None [] false false 0.

(** The pipeline built here keeps the enforcer the engine has at this point, none
    before the first [Run]. *)
Definition WirePipeline (st : State) : State :=
  st <| pipeline := Some (mkPipeline None None (ftmo st) (kellyMult st) (Some (regimeMatrix st)) 0 ∅) |>.

(** ** Opening a trade *)
Definition initialStop (cfg : BacktestConfig) (sig : Signal) (id : Z) (entryPrice atr high : float64)
    : float64 * float64 * option ActiveStop :=
  let entry := PriceFromFloat entryPrice in
  if negb (IsZero (SigStopLoss sig)) then
    (Float64 (SigStopLoss sig),
     if negb (IsZero (SigTakeProfit sig)) then Float64 (SigTakeProfit sig) else 0.0,
     Some (mkStop id entry (SigSide sig) (SigStopLoss sig) (SigTakeProfit sig) entry atr
             StopLossFixed TakeProfitFixed))
  else match CfgStopLoss cfg with
       | Some sl =>
           match SLType sl with
           | StopLossNone => (0.0, 0.0, None)
           | _ =>
               let sp := CalculateStopPrice entryPrice (SigSide sig) (Some sl) atr high in
               let tp := match CfgTakeProfit cfg with
                         | Some t => match TPType t with
                                     | TakeProfitNone => 0.0
                                     | _ => CalculateTakeProfitPrice entryPrice (SigSide sig) (Some t) sp atr
                                     end
                         | None => 0.0
                         end in
               (sp, tp, Some (mkStop id entry (SigSide sig) (PriceFromFloat sp) (PriceFromFloat tp)
                                entry atr (SLType sl)
                                (match CfgTakeProfit cfg with Some t => TPType t | None => TakeProfitNone end)))
           end
       | None => (0.0, 0.0, None)
       end.

Definition executeEntry (cfg : BacktestConfig) (candle : Candle) (sig : Signal) (refPrice : float64)
    (regime : Z) (st : State) : State :=
  let midPrice := (Float64 (High candle) + Float64 (Low candle)) / 2.0 in
  let adj := adjFactor (AdjustmentFactor candle) in
  let id := Z.of_nat (S (length (trades st))) in
  let '(fill, sim) := SimulateFillWithTCA NormFloat64 RandFloat64 (fillSim st) (GoInt.u32 id) (Symbol candle)
    (refPrice * adj) (SigQuantity sig) (SigSide sig) (refPrice * adj) midPrice (refPrice * adj)
    (Volume candle) in
  let entryPrice := if Float64 (FillPrice fill) <=? 0 then refPrice else Float64 (FillPrice fill) in
  let entryQty := if FillQuantity fill <=? 0 then SigQuantity sig else FillQuantity fill in
  let rejected := entryQty <=? 0 in
  let entryQty := if rejected then 0 else entryQty in
  let st := if rejected then diag (fun d => d <| FillRejected ::= Z.succ |>) st else st in
  let atr := ComputeATR (atrWindow st) (atrPeriodOf cfg) in
  let '(stopPrice, takePrice, stop) := initialStop cfg sig id entryPrice atr (Float64 (High candle)) in
  let t := mkTrade (Symbol candle) (SigSide sig) entryQty (PriceFromFloat entryPrice) 0 (Time candle)
    zeroTime 0 0 regime (CfgStrategyID cfg) (PriceFromFloat stopPrice) (PriceFromFloat takePrice) ""
    false 0 (SlippageMidBps fill) (SlippageLastBps fill) (SlippageBps fill) 1 false 0 0 []
    entryPrice entryPrice in
  let t := addChange t (Time candle) "entry" None (Some entryPrice) (SigSide sig) in
  let t := if stopPrice >? 0 then addChange t (Time candle) "stop" None (Some stopPrice) "initial" else t in
  let t := if takePrice >? 0 then addChange t (Time candle) "target" None (Some takePrice) "initial" else t in
  let p := length (store st) in
  st <| fillSim := sim |>
     <| activeStops ::= (fun m => match stop with Some s => <[Symbol candle := s]> m | None => m end) |>
     <| store ::= (fun s => s ++ [t]) |>
     <| openTrades ::= insert (Symbol candle) p |>
     <| pendingAS ::= insert (Symbol candle) p |>.

(** The NEXT_BAR fill of a pending entry at this bar's open. *)
Definition fillPending (cfg : BacktestConfig) (candle : Candle) (regime : Z) (st : State) : State :=
  match pendingEntries st !! Symbol candle with
  | None => st
  | Some sig =>
      let st := st <| pendingEntries ::= delete (Symbol candle) |> in
      let st := diag (fun d => d <| TradesOpened ::= Z.succ |>) st in
      executeEntry cfg candle sig (Float64 (Open candle)) regime st
  end.

(** ** The bar's market state *)
Definition rollATR (cfg : BacktestConfig) (candle : Candle) (st : State) : State :=
  st <| atrWindow ::= (fun w => lastn (atrPeriodOf cfg * 3) (w ++ [candle])) |>.

Definition newDay (candle : Candle) (st : State) : State :=
  let currentDay := truncateDay (Time candle) in
  match ftmo st with
  | Some f => if bool_decide (lastDay st = Some currentDay) then st
              else st <| ftmo := Some (PropFirmEnforcer.OnNewDay f) |> <| lastDay := Some currentDay |>
  | None => st
  end.

Definition newsBlackout (cfg : BacktestConfig) (candle : Candle) (st : State) : bool :=
  match ftmo st with
  | Some f => PropFirmEnabled cfg && PropFirmEnforcer.NewsTradingRestricted f &&
              negb (PropFirmEnforcer.CheckNewsTrading f (hourOf (Time candle)) (minuteOf (Time candle)))
  | None => false
  end.

Definition marketState (feed : Feed) (candle : Candle) (regime : Z) (st : State) : State :=
  let vix := getVIXAt (Time candle) (vixLogs feed) in
  let sentiment := getSentimentAt (Time candle) (sentimentLogs feed) in
  let spike := (prevVIX st >? 0) && (vix >? 0) && (math.Abs (vix - prevVIX st) >? 3.0) in
  st <| hasHighVIX ::= (fun b => b || (vix >? 25.0)) |>
     <| hasVIXSpike ::= (fun b => b || spike) |>
     <| prevVIX := vix |>
     <| positionSizer ::= (fun ps => UpdateMarketState ps vix sentiment regime) |>.

(** The runner's VIX and ATR; [true] when the earnings day skips the bar. *)
Definition feedRunner (cfg : BacktestConfig) (feed : Feed) (candle : Candle) (st : State) : State * bool :=
  let r := runnerOf cfg st (Symbol candle) in
  let vix := getVIXAt (Time candle) (vixLogs feed) in
  let r := match SetVIX with Some f => f r vix | None => r end in
  match SetATR with
  | None => (putRunner cfg (Symbol candle) r st, false)
  | Some f =>
      let atr := ComputeATR (atrWindow st) (atrPeriodOf cfg) in
      let earnings := match CfgEarnings cfg with
                      | Some isDay => isDay (Symbol candle) (Time candle)
                      | None => false end in
      if earnings then
        if SkipEarningsDays cfg then (putRunner cfg (Symbol candle) r st, true)
        else (putRunner cfg (Symbol candle) (f r (atr * 1.2)) st, false)
      else (putRunner cfg (Symbol candle) (f r atr) st, false)
  end.

(** The bar after an entry decides its adverse-selection mark. *)
Definition settleAdverse (candle : Candle) (st : State) : State :=
  match pendingAS st !! Symbol candle with
  | None => st
  | Some p =>
      let close := Float64 (Close candle) in
      let mark t :=
        let entry := Float64 (TEntryPrice t) in
        if (bool_decide (TSide t = "BUY"%string) && (close <? entry)) ||
           (bool_decide (TSide t = "SELL"%string) && (close >? entry))
        then t <| TAdverseSelection := true |> else t in
      st <| store ::= alter mark p |> <| pendingAS ::= delete (Symbol candle) |>
  end.

(** ** Managing the open trade of the bar's symbol *)
Definition trailStop (candle : Candle) (p : nat) (st : State) : State :=
  match activeStops st !! Symbol candle with
  | Some stop =>
      if isTrail (StopType stop) then
        let old := Float64 (StopPrice stop) in
        let stop := UpdateTrailingStop stop candle in
        let now := Float64 (StopPrice stop) in
        let st := st <| activeStops ::= insert (Symbol candle) stop |> in
        if negb (now =? old)
        then st <| store ::= alter (fun t => addChange t (Time candle) "stop" (Some old) (Some now) "trailing") p |>
        else st
      else st
  | None => st
  end.

Definition widenExtremes (candle : Candle) (t : Trade) : Trade :=
  let low := Float64 (Low candle) in
  let high := Float64 (High candle) in
  let t := if low <? lowestSinceEntry t then t <| lowestSinceEntry := low |> else t in
  if high >? highestSinceEntry t then t <| highestSinceEntry := high |> else t.

(** [generateSignalForExit]: any signal of the runner; a panic counts as none. *)
Definition generateSignalForExit (cfg : BacktestConfig) (candle : Candle) (regime : Z) (st : State)
    : State * bool :=
  let '(res, r) := Evaluate (runnerOf cfg st (Symbol candle)) candle regime in
  (putRunner cfg (Symbol candle) r st,
   match res with Some (Some _) => true | _ => false end).

(** The exit of the bar: its reason (empty for none) and its price. *)
Definition exitDecision (cfg : BacktestConfig) (candle : Candle) (regime : Z) (st : State)
    : State * (string * float64) :=
  let closePrice := Float64 (Close candle) * adjFactor (AdjustmentFactor candle) in
  let '(reason, price) := resolveStopTarget candle (activeStops st !! Symbol candle) in
  if negb (bool_decide (reason = ""%string)) then (st, (reason, price))
  else
    let '(st, reverse) := generateSignalForExit cfg candle regime st in
    if reverse then (st, ("signal_reverse"%string, closePrice)) else (st, (""%string, closePrice)).

Definition closeTrade (cfg : BacktestConfig) (candle : Candle) (regime : Z) (p : nat) (t : Trade)
    (reason : string) (exitPrice : float64) (st : State) : State :=
  let midPrice := (Float64 (High candle) + Float64 (Low candle)) / 2.0 in
  let lastPrice := Float64 (Close candle) * adjFactor (AdjustmentFactor candle) in
  let '(fill, sim) := SimulateFillWithTCA NormFloat64 RandFloat64 (fillSim st)
    (GoInt.u32 (Z.of_nat (S (length (trades st))))) (TSymbol t) (Float64 (TEntryPrice t)) (TQuantity t)
    (invertSide (TSide t)) exitPrice midPrice lastPrice (Volume candle) in
  let exitPrice := if Float64 (FillPrice fill) >? 0 then Float64 (FillPrice fill) else exitPrice in
  let fillQty := if FillQuantity fill >? 0 then FillQuantity fill else TQuantity t in
  let t := t <| TSlippageBps ::= (fun s => s + SlippageBps fill) |> <| TSlippageFillCount ::= Z.succ |> in
  let t := bookExit ExpenseRatioForTicker cfg t (Time candle) exitPrice fillQty reason in
  let t := t <| TQuantity := fillQty |> <| THMMRegime := regime |> in
  let st := st <| fillSim := sim |>
               <| store ::= insert p t |>
               <| capital ::= (fun c => bookCapital cfg c (TPnL t)) |>
               <| ftmo ::= fmap (fun f => PropFirmEnforcer.OnFill Now f (TPnL t) 0) |> in
  let st := reconcile t (Float64 (TExitPrice t)) st in
  st <| trades ::= (fun ts => ts ++ [t]) |>
     <| openTrades ::= delete (Symbol candle) |>
     <| activeStops ::= delete (Symbol candle) |>.

Definition manageOpen (cfg : BacktestConfig) (candle : Candle) (regime : Z) (st : State) : State :=
  match openTrades st !! Symbol candle with
  | None => st
  | Some p =>
      let st := trailStop candle p st in
      (* neither the stop test nor the runner reads the extremes *)
      let st := st <| store ::= alter (widenExtremes candle) p |> in
      let '(st, (reason, price)) := exitDecision cfg candle regime st in
      match store st !! p with
      | Some t => if bool_decide (reason = ""%string) then st
                  else closeTrade cfg candle regime p t reason price st
      | None => st
      end
  end.

(** ** Seeking an entry *)
Definition inlineFallback (cfg : BacktestConfig) (candle : Candle) (regime : Z) (raw : Signal)
    (confidence seasonality : float64) (st : State) : State * option Signal :=
  let c := capital st in
  if c <=? 0 then (diag (fun d => d <| CapitalZero ::= Z.succ |>) st, None)
  else if VolatilityHalt.IsHalted (volHalt st) then (diag (fun d => d <| VolHalted ::= Z.succ |>) st, None)
  else
    let st := st <| volHalt ::= (fun v => VolatilityHalt.UpdateReturn v 0) |>
                 <| exposure ::= (fun e => ExposureTracker.SetEquity e c) |> in
    let baseSize := c * resolveSizingPercent cfg * seasonality in
    let baseSize := match ftmo st with
                    | Some f => baseSize * PropFirmEnforcer.GetRegimeMultiplier f
                    | None => if Z.eqb regime 0 then baseSize * 1.5
                              else if Z.eqb regime 2 then baseSize * 0.5
                              else if Z.eqb regime 3 then 0 else baseSize
                    end in
    if baseSize <=? 0 then (diag (fun d => d <| BaseSizeZero ::= Z.succ |>) st, None)
    else
      let baseSize := baseSize * kellyMult st in
      let baseSize := baseSize * math.Min (confidence * 1.5) 1.0 in
      let positionPct := baseSize / c in
      let positionPct := if positionPct >? 0.03 then 0.03 else positionPct in
      let quantity := (c * positionPct) / Float64 (Close candle) in
      let quantity := match ftmo st with
                      | Some f => if PropFirmEnabled cfg then PropFirmEnforcer.GetPositionSize f quantity
                                  else quantity
                      | None => quantity end in
      let quantity := ComputeSizeUncapped (positionSizer st) 1.0 quantity 0 in
      if quantity <? 0.001 then (diag (fun d => d <| QuantityTooSmall ::= Z.succ |>) st, None)
      else
        let notional := quantity * Float64 (Close candle) in
        if negb (ExposureTracker.CheckOrder (exposure st) (Symbol candle) (SigSide raw) notional).1
        then (diag (fun d => d <| ExposureBlocked ::= Z.succ |>) st, None)
        else (diag (fun d => d <| SignalsPassed ::= Z.succ |>) st,
              Some (mkSignal (Symbol candle) (SigSide raw) quantity SignalNone 0 ""
                      (SigStopLoss raw) (SigTakeProfit raw))).

(** The wired pipeline's verdict on a raw signal. *)
Definition askPipeline (cfg : BacktestConfig) (candle : Candle) (regime : Z) (raw : Signal)
    (confidence baseSize : float64) (p : pipe) (st : State) : State * option Signal :=
  let p := mkPipeline (SignalG p) (Capital p) (PropFirmG p) (KellyMult p) (RegimeMatrix p) regime (symbolNotional p) in
  let st := st <| exposure ::= (fun e => ExposureTracker.SetEquity e (capital st)) |> in
  let '(p, res) := ProcessSignal Now (wired st p)
    (mkPSReq (CfgStrategyID cfg) (Symbol candle) (SigSide raw) (Float64 (Close candle)) confidence
       baseSize 0 (capital st) false false (DisableRegimeGate cfg)) in
  let st := unwired p st in
  if PSApproved res then
    (diag (fun d => d <| SignalsPassed ::= Z.succ |>) st,
     Some (mkSignal (Symbol candle) (SigSide raw) (PSSize res) SignalNone 0 ""
             (SigStopLoss raw) (SigTakeProfit raw)))
  else
    (diag (fun d => d <| PipelineRejected ::= Z.succ |>
                      <| PipelineRejects ::= (fun m => <[PSReason res := (mget 0%Z m (PSReason res) + 1)%Z]> m) |>) st,
     None).

Definition isExit (a : SignalAction) : bool := match a with SignalExit => true | _ => false end.

Definition generateSignal (cfg : BacktestConfig) (candle : Candle) (regime : Z) (st : State)
    : State * option Signal :=
  if negb (DisableRegimeGate cfg) &&
     (ParticipationForRegime (regimeMatrix st) (CfgStrategyID cfg) regime <=? 0)
  then (diag (fun d => d <| RegimeRejected ::= Z.succ |>) st, None)
  else
    let '(res, r) := Evaluate (runnerOf cfg st (Symbol candle)) candle regime in
    let st := putRunner cfg (Symbol candle) r st in
    match res with
    | None => (diag (fun d => d <| NilError ::= Z.succ |>) st, None)
    | Some None => (diag (fun d => d <| StrategyNil ::= Z.succ |>) st, None)
    | Some (Some raw) =>
        if isExit (SigAction raw) then (diag (fun d => d <| ExitSignalZeroQty ::= Z.succ |>) st, None)
        else
          let confidence := 1.0 in
          let seasonality := if UseSeasonalityOverlay cfg
                             then Multiplier NewSeasonalityOverlay (Time candle) else 1.0 in
          let baseSize := capital st * resolveSizingPercent cfg * seasonality / Float64 (Close candle) in
          match pipeline st with
          | Some p => askPipeline cfg candle regime raw confidence baseSize p st
          | None => inlineFallback cfg candle regime raw confidence seasonality st
          end
    end.

(** The part of the bar reserved to symbols without an open trade; [true] skips
    the bar's bookkeeping. *)
Definition seekEntry (cfg : BacktestConfig) (i : Z) (candle : Candle) (regime : Z) (st : State)
    : option (State * bool) :=
  match openTrades st !! Symbol candle with
  | Some _ => Some (st, false)
  | None =>
      let attempt := diag (fun d => d <| SignalAttempts ::= Z.succ |>) in
      if (peakCapital st >? 0) && ((peakCapital st - capital st) / peakCapital st >? 0.80)
      then Some (attempt st, true)
      else
        match List.find (fun pr => bool_decide (pr.2 = Symbol candle)) (SecondarySymbols cfg) with
        | Some (primary, _) =>
            let r := runnerOf cfg st primary in
            let r := match PushSecondaryPrice with Some f => f r (Close candle) | None => r end in
            Some (attempt (putRunner cfg primary r st), true)
        | None =>
            let st := attempt st in
            if Z.ltb i (WarmUpBars cfg) then
              let '(res, r) := Evaluate (runnerOf cfg st (Symbol candle)) candle regime in
              _ ← res; Some (putRunner cfg (Symbol candle) r st, true)
            else
              let '(st, sig) := generateSignal cfg candle regime st in
              Some (match sig with
                    | Some s => st <| pendingEntries ::= insert (Symbol candle) s |>
                    | None => st
                    end, false)
        end
  end.

(** ** The end of a bar *)
Definition openPnL (close : float64) (t : Trade) : float64 :=
  if bool_decide (TSide t = "BUY"%string) then (close - Float64 (TEntryPrice t)) * TQuantity t
  else (Float64 (TEntryPrice t) - close) * TQuantity t.

(** [range] over the open trades, in the order Go picks. *)
Variable rangeOpen : gmap string nat -> list (string * nat).

Definition openList (st : State) : list Trade :=
  omap (fun kp => store st !! kp.2) (rangeOpen (openTrades st)).

Definition closeBar (prev : option Candle) (candle : Candle) (regime : Z) (st : State) : State :=
  let close := Float64 (Close candle) in
  let st := match prev with
            | Some c => if Z.ltb 0 (Close c) && Z.ltb 0 (Close candle) then
                          let ret := (close - Float64 (Close c)) / Float64 (Close c) in
                          st <| volHalt ::= (fun v => VolatilityHalt.UpdateReturn v ret) |>
                        else st
            | None => st end in
  let unrealized := fold_left (fun s t => s + openPnL close t) (openList st) 0 in
  st <| equity ::= (fun l => l ++ [mkPoint (Time candle) (capital st) regime]) |>
     <| mtmEquity ::= (fun l => l ++ [mkPoint (Time candle) (capital st + unrealized) regime]) |>
     <| peakCapital ::= (fun pk => if capital st >? pk then capital st else pk) |>.

(** The part of an iteration before trading: the regime of a bar that trades, or
    [None] for a bar that one of the [continue]s skips. *)
Definition prepare (cfg : BacktestConfig) (feed : Feed) (candle : Candle) (st : State)
    : option (State * option Z) :=
  let st := diag (fun d => d <| CandlesSeen ::= Z.succ |>) st in
  if negb (inUniverse (universe feed) (Time candle) (Symbol candle)) then Some (st, None)
  else
    let st := rollATR cfg candle st in
    let st := newDay candle st in
    if newsBlackout cfg candle st then Some (st, None)
    else
      regime ← regimeAt (regimeIdx feed) (Symbol candle) (Time candle);
      let st := marketState feed candle regime st in
      let '(st, skip) := feedRunner cfg feed candle st in
      if (skip : bool) then Some (st, None)
      else
        let st := settleAdverse candle st in
        let st := st <| ftmo ::= fmap (fun f => f <| PropFirmEnforcer.CurrentRegime := regime |>) |> in
        if match RegimeFilter cfg with Some r => negb (Z.eqb regime r) | None => false end then Some (st, None)
        else if match ftmo st with Some f => PropFirmEnforcer.IsHalted f | None => false end then Some (st, None)
        else Some (st, Some regime).

(** One iteration of the loop over [allCandles]. *)
Definition step (cfg : BacktestConfig) (feed : Feed) (i : Z) (prev : option Candle) (candle : Candle)
    (st : State) : option State :=
  '(st, go) ← prepare cfg feed candle st;
  match go with
  | None => Some st
  | Some regime =>
      let st := fillPending cfg candle regime st in
      let st := manageOpen cfg candle regime st in
      '(st, skip) ← seekEntry cfg i candle regime st;
      if (skip : bool) then Some st else Some (closeBar prev candle regime st)
  end.

Fixpoint runBars (cfg : BacktestConfig) (feed : Feed) (i : Z) (prev : option Candle) (candles : list Candle)
    (st : State) : option State :=
  match candles with
  | [] => Some st
  | c :: cs => st ← step cfg feed i prev c st; runBars cfg feed (i + 1)%Z (Some c) cs st
  end.

(** ** The end of the data *)

(** [range] over the pending entries. *)
Variable rangePending : gmap string Signal -> list (string * Signal).

Definition flushCandle (last : Candle) (sym : string) : Candle :=
  mkCandle (Time last) (Open last) (High last) (Low last) (Close last) (Volume last) sym
    (AdjustmentFactor last) "" "".

(** A pending entry left by the last bar opens at its close; the map is not emptied. *)
Definition flushOne (cfg : BacktestConfig) (last : Candle) (st : State) (sym : string) (sig : Signal) : State :=
  let st := diag (fun d => d <| TradesOpened ::= Z.succ |>) st in
  executeEntry cfg (flushCandle last sym) sig (Float64 (Close last)) 0 st.

Definition flushPending (cfg : BacktestConfig) (last : Candle) (st : State) : State :=
  fold_left (fun st ks => flushOne cfg last st ks.1 ks.2) (rangePending (pendingEntries st)) st.

(** The exit of a trade still open on the last candle. *)
Definition endExit (last : Candle) (stop : option ActiveStop) : string * float64 :=
  let closePrice := Float64 (Close last) * adjFactor (AdjustmentFactor last) in
  match stop with
  | None => ("end_of_data"%string, closePrice)
  | Some _ =>
      let '(stopHit, sp) := CheckStopHit last stop in
      if stopHit then ("stop_loss"%string, sp)
      else let '(tpHit, tp) := CheckTakeProfitHit last stop in
           if tpHit then ("take_profit"%string, tp) else ("end_of_data"%string, closePrice)
  end.

Definition endTrade (cfg : BacktestConfig) (last : Candle) (st : State) (p : nat) : State :=
  match store st !! p with
  | None => st
  | Some t =>
      let '(reason, exitPrice) := endExit last (activeStops st !! TSymbol t) in
      let t := bookExit ExpenseRatioForTicker cfg t (Time last) exitPrice (TQuantity t) reason in
      let t := t <| TEndOfData := true |> in
      let st := st <| store ::= insert p t |> <| capital ::= (fun c => bookCapital cfg c (TPnL t)) |> in
      let st := reconcile t exitPrice st in
      st <| trades ::= (fun ts => ts ++ [t]) |>
  end.

Definition closeAll (cfg : BacktestConfig) (last : Candle) (st : State) : State :=
  fold_left (fun st kp => endTrade cfg last st kp.2) (rangeOpen (openTrades st)) st.

(** [Run] after the data is loaded: [e] holds the engine's fields and zero locals. *)
Definition initRun (cfg : BacktestConfig) (e : State) : State :=
  e <| stratBySymbol := ∅ |>
    <| fillSim ::= (fun s => if Z.eqb (FixedSeed cfg) 0 then s else mkSim (model s) (seeded (FixedSeed cfg))) |>
    <| ftmo := if PropFirmEnabled cfg then Some (PropFirmEnforcer.DefaultPropFirmEnforcer (InitialCapital cfg))
               else None |>
    <| kellyMult := resolveKellyFraction cfg |>
    <| pipeline ::= fmap (fun p : pipe => mkPipeline (SignalG p) (Capital p) (PropFirmG p) (resolveKellyFraction cfg)
                                     (RegimeMatrix p) (CurrentRegime p) (symbolNotional p)) |>
    <| regimeMatrix ::= (fun m => default m (ApplyRegimeParticipation (Some m) (CfgStrategyID cfg) (StrategyParams cfg))) |>
    <| capital := InitialCapital cfg |> <| peakCapital := InitialCapital cfg |>
    <| equity := [] |> <| mtmEquity := [] |> <| trades := [] |> <| store := [] |>
    <| openTrades := ∅ |> <| activeStops := ∅ |> <| pendingAS := ∅ |> <| pendingEntries := ∅ |>
    <| lastDay := None |> <| atrWindow := [] |>
    <| hasHighVIX := false |> <| hasVIXSpike := false |> <| prevVIX := 0 |>.

(** The defaults [Run] fills in before the loop. *)
Definition withDefaults (cfg : BacktestConfig) : BacktestConfig :=
  let cfg := if CommissionBps cfg <=? 0 then cfg <| CommissionBps := 5.0 |> else cfg in
  if negb (Enabled (BrokerFee cfg)) && (PerTradeFixed (BrokerFee cfg) =? 0)
  then cfg <| BrokerFee := DefaultBrokerageFee |> else cfg.

Definition Run (cfg : BacktestConfig) (feed : Feed) (allCandles : list Candle) (e : State) : option State :=
  let cfg := withDefaults cfg in
  st ← runBars cfg feed 0 None allCandles (initRun cfg e);
  match List.last (map Some allCandles) None with
  | None => Some st
  | Some last => Some (closeAll cfg last (flushPending cfg last st))
  end.
End Engine.
