(* ===== verification/EngineLaws.v ===== *)
(** * Correctness of the backtest engine

    The bookkeeping invariant of the bar loop ([books_ok]), its preservation by
    every step of [Engine.v], and the theorems about complete runs: the account
    stays bounded, every approved signal becomes exactly one closed trade, an
    entry is filled on a bar after the one that decided it and without looking at
    that bar's high, low or close, and a halted account is frozen. *)
From Stdlib Require Import ZArith Lia Bool Floats.
From stdpp Require Import sorting.
From coqutil Require Import RecordSettersUsingExistingGetters.
From S2P Require Import Prelude Float64 FloatRound FloatLaws Price PropFirm Sizing TradingControls.
From S2P Require Import Regime StopLoss Fills Gates SignalGate Enforcer CapitalPool PoolSim Pipeline.
From S2P Require Import Timeline Calendar Trade Engine.
Local Open Scope Z_scope.

Section Laws.
Context {rand : Type}.
Variable NormFloat64 : rand -> float64 * rand.
Variable RandFloat64 : rand -> float64 * rand.
Variable seeded : Z -> rand.
Variable ExpenseRatioForTicker : string -> float64.
Variable Now : Z.
Context {R : Type} `{StrategyRunner R}.
Variable newRunner : R.
Variable rangeOpen : gmap string nat -> list (string * nat).
Variable rangePending : gmap string Signal -> list (string * Signal).

Abbreviation state := (@State rand R).
Abbreviation entry := (executeEntry NormFloat64 RandFloat64).
Abbreviation fill := (fillPending NormFloat64 RandFloat64).
Abbreviation close := (closeTrade NormFloat64 RandFloat64 ExpenseRatioForTicker Now).
Abbreviation manage := (manageOpen NormFloat64 RandFloat64 ExpenseRatioForTicker Now newRunner).
Abbreviation bar := (step NormFloat64 RandFloat64 ExpenseRatioForTicker Now newRunner rangeOpen).
Abbreviation bars := (runBars NormFloat64 RandFloat64 ExpenseRatioForTicker Now newRunner rangeOpen).

Variable cfg : BacktestConfig.

Definition opened (st : state) : Z := TradesOpened (signalDiag st).
Definition passed (st : state) : Z := SignalsPassed (signalDiag st).

(** ** Frames: the steps that leave the books alone *)
Record frame (st st' : state) : Prop := {
  fr_capital : capital st' = capital st;
  fr_equity : equity st' = equity st;
  fr_trades : trades st' = trades st;
  fr_store : store st' = store st;
  fr_open : openTrades st' = openTrades st;
  fr_stops : activeStops st' = activeStops st;
  fr_as : pendingAS st' = pendingAS st;
  fr_pending : pendingEntries st' = pendingEntries st;
  fr_peak : peakCapital st' = peakCapital st;
  fr_opened : opened st' = opened st;
  fr_passed : passed st' = passed st
}.

#[local] Instance frame_preorder : PreOrder frame.
Proof.
  split.
  - intros st. by constructor.
  - intros a b c [] []. constructor; congruence.
Qed.

Ltac framed := constructor; reflexivity.

Lemma unwired_frame p (st : state) : frame st (unwired p st).
Proof. unfold unwired. destruct (SignalG p); framed. Qed.

Lemma reconcile_frame t price (st : state) : frame st (reconcile t price st).
Proof. unfold reconcile. destruct (pipeline st); [apply unwired_frame|reflexivity]. Qed.

Lemma putRunner_frame sym r (st : state) : frame st (putRunner cfg sym r st).
Proof. framed. Qed.

Lemma newDay_frame c (st : state) : frame st (newDay c st).
Proof. unfold newDay. destruct (ftmo st); [case_bool_decide|]; framed. Qed.

Lemma feedRunner_frame feed c (st : state) : frame st (feedRunner newRunner cfg feed c st).1.
Proof.
  unfold feedRunner. destruct SetATR; [|framed].
  destruct (CfgEarnings cfg) as [f|]; [destruct (f _ _)|]; try destruct (SkipEarningsDays cfg); framed.
Qed.

Lemma generateSignalForExit_frame c rg (st : state) :
  frame st (generateSignalForExit newRunner cfg c rg st).1.
Proof. unfold generateSignalForExit. destruct (Evaluate _ _ _). framed. Qed.

Lemma exitDecision_frame c rg (st : state) : frame st (exitDecision newRunner cfg c rg st).1.
Proof.
  unfold exitDecision. destruct (resolveStopTarget _ _) as [reason price].
  case_bool_decide; cbn [negb]; [|reflexivity].
  pose proof (generateSignalForExit_frame c rg st).
  destruct (generateSignalForExit newRunner cfg c rg st) as [st' []]; done.
Qed.

(** A generated signal is counted exactly when there is one. *)
Record frame_sig (n : Z) (st st' : state) : Prop := {
  fs_capital : capital st' = capital st;
  fs_equity : equity st' = equity st;
  fs_trades : trades st' = trades st;
  fs_store : store st' = store st;
  fs_open : openTrades st' = openTrades st;
  fs_stops : activeStops st' = activeStops st;
  fs_as : pendingAS st' = pendingAS st;
  fs_pending : pendingEntries st' = pendingEntries st;
  fs_peak : peakCapital st' = peakCapital st;
  fs_opened : opened st' = opened st;
  fs_passed : passed st' = passed st + n
}.

Lemma frame_sig_0 st st' : frame st st' -> frame_sig 0 st st'.
Proof. intros []. constructor; congruence || lia. Qed.

Lemma frame_sig_trans n st1 st2 st3 : frame st1 st2 -> frame_sig n st2 st3 -> frame_sig n st1 st3.
Proof. intros [] []. constructor; congruence. Qed.

Definition sigCount (o : option Signal) : Z := if o is Some _ then 1 else 0.

Ltac framed_sig :=
  constructor; try reflexivity; unfold passed; cbn -[Z.add]; lia.

Lemma askPipeline_frame c rg raw conf b p (st : state) :
  let r := askPipeline Now cfg c rg raw conf b p st in frame_sig (sigCount r.2) st r.1.
Proof.
  cbv zeta. unfold askPipeline. cbv zeta. destruct (ProcessSignal _ _ _) as [p' res].
  match goal with |- context [unwired p' ?s] => set (st1 := s) end.
  assert (F : frame st (unwired p' st1)).
  { etransitivity; [|apply unwired_frame]. framed. }
  destruct (PSApproved res); cbn [fst snd sigCount]; eapply frame_sig_trans; try apply F; framed_sig.
Qed.

Lemma inlineFallback_frame c rg raw conf s (st : state) :
  let r := inlineFallback cfg c rg raw conf s st in frame_sig (sigCount r.2) st r.1.
Proof.
  cbv zeta. unfold inlineFallback. cbv zeta.
  destruct (_ <=? _)%float; [framed_sig|].
  destruct (VolatilityHalt.IsHalted _); [framed_sig|].
  destruct (_ <=? _)%float; [framed_sig|].
  destruct (_ <? _)%float; [framed_sig|].
  destruct (negb _); framed_sig.
Qed.

Lemma generateSignal_frame c rg (st : state) :
  let r := generateSignal Now newRunner cfg c rg st in frame_sig (sigCount r.2) st r.1.
Proof.
  cbv zeta. unfold generateSignal. destruct (_ && _); [framed_sig|].
  destruct (Evaluate _ _ _) as [res r].
  destruct res as [[raw|]|]; cbn [fst snd sigCount]; [|framed_sig..].
  destruct (isExit _); [framed_sig|].
  change (pipeline (putRunner cfg (Symbol c) r st)) with (pipeline st).
  destruct (pipeline st) as [p|].
  - eapply frame_sig_trans; [apply (putRunner_frame (Symbol c) r)|apply askPipeline_frame].
  - eapply frame_sig_trans; [apply (putRunner_frame (Symbol c) r)|apply inlineFallback_frame].
Qed.

(** ** The books *)

(** Excursions of a trade: plausible percentages. *)
Definition excursions_ok (t : Trade) : Prop :=
  let lo := fv (-10000)%float in let hi := fv 10000%float in
  lo <= fv (TMAE t) <= hi /\ lo <= fv (TMFE t) <= hi.

(** A closed trade: a finite PnL, and an exit not before its entry. *)
Definition booked (T : Z) (t : Trade) : Prop :=
  ffin (TPnL t) = true /\ excursions_ok t /\ TEntryTime t <= TExitTime t <= T.

(** The counters started the run at [o0] and [s0]; [pend] are the entries still
    to be filled, [T] the time reached. *)
Record books_ok (o0 s0 T : Z) (pend : gmap string Signal) (st : state) : Prop := {
  bk_capital : in_account cfg (capital st);
  bk_equity : Forall (fun p => in_account cfg (EqValue p)) (equity st);
  bk_trades : Forall (booked T) (trades st);
  bk_store : Forall (fun t => excursions_ok t /\ TEntryTime t <= T) (store st);
  bk_open : forall sym p, openTrades st !! sym = Some p ->
    exists t, store st !! p = Some t /\ TSymbol t = sym;
  bk_disjoint : forall sym, is_Some (openTrades st !! sym) -> pend !! sym = None;
  bk_stops : forall sym, is_Some (activeStops st !! sym) -> is_Some (openTrades st !! sym);
  bk_opened : opened st = o0 + Z.of_nat (length (store st));
  bk_closed : length (store st) = (length (trades st) + size (openTrades st))%nat;
  bk_passed : passed st = s0 + Z.of_nat (length (store st) + size pend)
}.

Lemma frame_books o0 s0 T pend st st' : frame st st' -> books_ok o0 s0 T pend st -> books_ok o0 s0 T pend st'.
Proof.
  intros [] []. constructor; try congruence; rewrite ?fr_equity0, ?fr_trades0, ?fr_store0, ?fr_open0,
    ?fr_stops0; done.
Qed.

Lemma books_later o0 s0 T T' pend st : T <= T' -> books_ok o0 s0 T pend st -> books_ok o0 s0 T' pend st.
Proof.
  intros HT []. constructor; try done.
  - eapply list.Forall_impl; [exact bk_trades0|]. intros t (? & ? & ?). split; [done|]. split; [done|lia].
  - eapply list.Forall_impl; [exact bk_store0|]. intros t (? & ?). split; [done|lia].
Qed.

(** A stored trade may change in everything but its symbol and its entry time. *)
Lemma alter_books o0 s0 T pend st f p :
  (forall t, TSymbol (f t) = TSymbol t /\ TEntryTime (f t) = TEntryTime t /\ TMAE (f t) = TMAE t /\ TMFE (f t) = TMFE t) ->
  books_ok o0 s0 T pend st -> books_ok o0 s0 T pend (st <| store ::= alter f p |>).
Proof.
  intros Hf []. constructor; try done; cbn [store set]; rewrite ?length_alter; try done.
  - apply Forall_alter; [done|]. intros t _ [E1 E2]. destruct (Hf t) as (_ & Et & E3 & E4).
    unfold excursions_ok. rewrite E3, E4, Et. done.
  - intros sym q Eq. destruct (bk_open0 sym q Eq) as (t & Et & Es).
    destruct (decide (q = p)) as [->|N].
    + exists (f t). split; [by rewrite list_lookup_alter_eq, Et|]. by rewrite (proj1 (Hf t)).
    + exists t. split; [by rewrite list_lookup_alter_ne|done].
Qed.

Lemma settleAdverse_books o0 s0 T pend c st :
  books_ok o0 s0 T pend st -> books_ok o0 s0 T pend (settleAdverse c st).
Proof.
  intros B. unfold settleAdverse. destruct (pendingAS st !! Symbol c) as [p|]; [|done].
  match goal with |- context [alter ?f p] => set (mark := f) end.
  assert (B' : books_ok o0 s0 T pend (st <| store ::= alter mark p |>)).
  { apply alter_books; [|done]. intros t. unfold mark. by destruct (_ || _). }
  destruct B'. by constructor.
Qed.

Lemma trailStop_books o0 s0 T pend c p st :
  is_Some (openTrades st !! Symbol c) -> books_ok o0 s0 T pend st -> books_ok o0 s0 T pend (trailStop c p st).
Proof.
  intros Ho B. unfold trailStop. destruct (activeStops st !! Symbol c) as [stop|] eqn:Es; [|done].
  destruct (isTrail _); [|done].
  assert (B' : books_ok o0 s0 T pend (st <| activeStops ::= insert (Symbol c) (UpdateTrailingStop stop c) |>)).
  { destruct B. constructor; try done. cbn [activeStops openTrades set]. intros sym Hs.
    destruct (decide (sym = Symbol c)) as [->|N]; [done|].
    rewrite lookup_insert_ne in Hs by done. by apply bk_stops0. }
  destruct (negb _); [|done].
  refine (alter_books o0 s0 T pend _ _ p _ B'). intros t. by split.
Qed.

Lemma trailStop_open c p (st : state) : openTrades (trailStop c p st) = openTrades st.
Proof. unfold trailStop. destruct (_ !! _); [|done]. destruct (isTrail _); [|done]. by destruct (negb _). Qed.

(** *** Opening *)
Lemma addChange_keeps t ts f a b r :
  TSymbol (addChange t ts f a b r) = TSymbol t /\ TEntryTime (addChange t ts f a b r) = TEntryTime t /\
  TMAE (addChange t ts f a b r) = TMAE t /\ TMFE (addChange t ts f a b r) = TMFE t.
Proof. by repeat split. Qed.

(** An entry stores one trade of the bar's symbol, dated by the bar. *)
Record entered (c : Candle) (sig : Signal) (st st' : state) (t : Trade) : Prop := {
  en_store : store st' = store st ++ [t];
  en_open : openTrades st' = <[Symbol c := length (store st)]> (openTrades st);
  en_stops : forall sym, is_Some (activeStops st' !! sym) -> sym = Symbol c \/ is_Some (activeStops st !! sym);
  en_pending : pendingEntries st' = pendingEntries st;
  en_capital : capital st' = capital st;
  en_equity : equity st' = equity st;
  en_trades : trades st' = trades st;
  en_peak : peakCapital st' = peakCapital st;
  en_opened : opened st' = opened st;
  en_passed : passed st' = passed st;
  en_symbol : TSymbol t = Symbol c;
  en_side : TSide t = SigSide sig;
  en_time : TEntryTime t = Time c;
  en_exc : TMAE t = 0%float /\ TMFE t = 0%float;
  en_strategy : TStrategyID t = CfgStrategyID cfg
}.

Lemma executeEntry_spec c sig ref rg st : exists t, entered c sig st (entry cfg c sig ref rg st) t.
Proof.
  unfold executeEntry. cbv zeta.
  destruct (SimulateFillWithTCA _ _ _ _ _ _ _ _ _ _ _ _) as [fl sim].
  generalize (if (FillQuantity fl <=? 0)%float then SigQuantity sig else FillQuantity fl). intros q.
  generalize (if (Float64 (FillPrice fl) <=? 0)%float then ref else Float64 (FillPrice fl)). intros ep.
  set (st1 := if (q <=? 0)%float then diag _ st else st).
  assert (E1 : frame st st1) by (unfold st1; destruct (q <=? 0)%float; framed).
  destruct E1. destruct (initialStop _ _ _ _ _ _) as [[sp tp] stop].
  match goal with |- context [fun s : list Trade => s ++ [?u]] => exists u; remember u as t eqn:Et end.
  constructor; try (cbn; unfold passed, opened in *; cbn; congruence).
  { intros sym Hs. cbn [activeStops set] in Hs. rewrite fr_stops0 in Hs. destruct stop as [s|]; [|by right].
    destruct (decide (sym = Symbol c)) as [->|N]; [by left|]. right. by rewrite lookup_insert_ne in Hs. }
  all: subst t; destruct (0 <? tp)%float, (0 <? sp)%float; try reflexivity; by split.
Qed.

Lemma excursions_zero t : TMAE t = 0%float /\ TMFE t = 0%float -> excursions_ok t.
Proof. intros [E1 E2]. unfold excursions_ok. rewrite E1, E2. vm_compute. repeat split; discriminate. Qed.

(** A pending entry becomes an open trade. *)
Lemma enter_books o0 s0 T pend st c sig ref rg :
  books_ok o0 s0 T pend st -> pend !! Symbol c = Some sig -> Time c <= T ->
  books_ok o0 s0 T (delete (Symbol c) pend)
    (entry cfg c sig ref rg (diag (fun d => d <| TradesOpened ::= Z.succ |>) st)).
Proof.
  intros B Hp HT. destruct B.
  assert (No : openTrades st !! Symbol c = None).
  { destruct (openTrades st !! Symbol c) eqn:E; [|done]. rewrite bk_disjoint0 in Hp; [done|rewrite E; by eexists]. }
  set (st0 := diag _ st).
  destruct (executeEntry_spec c sig ref rg st0) as (t & []). change (store st0) with (store st) in *.
  change (openTrades st0) with (openTrades st) in *. change (activeStops st0) with (activeStops st) in *.
  assert (E0 : opened st0 = opened st + 1) by done. assert (E0' : passed st0 = passed st) by done.
  constructor.
  - by rewrite en_capital0.
  - by rewrite en_equity0.
  - by rewrite en_trades0.
  - rewrite en_store0. apply Forall_app. split; [done|]. apply list.Forall_singleton.
    split; [by apply excursions_zero|lia].
  - rewrite en_open0, en_store0. intros sym p Hs. destruct (decide (sym = Symbol c)) as [->|N].
    + rewrite lookup_insert_eq in Hs. injection Hs as <-. exists t. split; [|done].
      by rewrite list_lookup_middle.
    + rewrite lookup_insert_ne in Hs by done. destruct (bk_open0 sym p Hs) as (u & Eu & Us).
      exists u. split; [|done]. rewrite lookup_app_l; [done|]. by apply lookup_lt_Some in Eu.
  - rewrite en_open0. intros sym Hs. destruct (decide (sym = Symbol c)) as [->|N]; [apply lookup_delete_eq|].
    rewrite lookup_delete_ne by done. apply bk_disjoint0. by rewrite lookup_insert_ne in Hs.
  - rewrite en_open0. intros sym Hs. destruct (en_stops0 sym Hs) as [->|Hs'].
    + rewrite lookup_insert_eq. by eexists.
    + destruct (decide (sym = Symbol c)) as [->|N]; [rewrite lookup_insert_eq; by eexists|].
      rewrite lookup_insert_ne by done. by apply bk_stops0.
  - rewrite en_opened0, E0, en_store0, length_app. cbn [length]. lia.
  - rewrite en_open0, en_store0, en_trades0, length_app, map_size_insert_None by done. cbn [length].
    change (trades st0) with (trades st). lia.
  - rewrite en_passed0, E0', en_store0, length_app. cbn [length].
    pose proof (size_delete _ _ _ Hp). lia.
Qed.

Lemma fillPending_books o0 s0 c rg st :
  books_ok o0 s0 (Time c) (pendingEntries st) st ->
  let st' := fill cfg c rg st in books_ok o0 s0 (Time c) (pendingEntries st') st'.
Proof.
  intros B. cbv zeta. unfold fillPending. destruct (pendingEntries st !! Symbol c) as [sig|] eqn:E; [|done].
  assert (B' : books_ok o0 s0 (Time c) (pendingEntries st) (st <| pendingEntries ::= delete (Symbol c) |>)).
  { destruct B. by constructor. }
  pose proof (enter_books _ _ _ _ _ c sig (Float64 (Open c)) rg B' E ltac:(lia)) as B2.
  match type of B2 with books_ok _ _ _ _ (executeEntry _ _ _ _ _ _ _ ?s) =>
    destruct (executeEntry_spec c sig (Float64 (Open c)) rg s) as (t & F) end.
  rewrite (en_pending _ _ _ _ _ F). exact B2.
Qed.

(** *** Closing *)
Lemma setExcursions_ok t : excursions_ok t -> excursions_ok (setExcursions t).
Proof.
  intros He. unfold setExcursions. destruct (_ <? _)%float; [|done].
  case_bool_decide; unfold excursions_ok; cbn -[fv clampExcursionPct]; split; apply clampExcursionPct_bounded.
Qed.

Lemma setExcursions_keeps t :
  TSymbol (setExcursions t) = TSymbol t /\ TSide (setExcursions t) = TSide t /\
  TEntryTime (setExcursions t) = TEntryTime t /\
  TExitTime (setExcursions t) = TExitTime t /\ TPnL (setExcursions t) = TPnL t /\
  TExitReason (setExcursions t) = TExitReason t.
Proof. unfold setExcursions. destruct (_ <? _)%float; [|done]. by case_bool_decide. Qed.

Lemma bookExit_spec t time price q reason :
  let t' := bookExit ExpenseRatioForTicker cfg t time price q reason in
  TSymbol t' = TSymbol t /\ TEntryTime t' = TEntryTime t /\ TExitTime t' = time /\
  ffin (TPnL t') = true /\ (excursions_ok t -> excursions_ok t').
Proof.
  cbv zeta. unfold bookExit. cbv zeta.
  set (raw := rawPnL _ _ _ _ _ _). pose proof (SanitizeTradePnL_fin raw q (Float64 (TEntryPrice t)) (InitialCapital cfg)) as F.
  destruct (SanitizeTradePnL _ _ _ _) as [safe clamped]. cbn [fst] in F.
  match goal with |- context [setExcursions ?u] => set (t1 := u);
    destruct (setExcursions_keeps t1) as (E1 & _ & E2 & E3 & E4 & _); pose proof (setExcursions_ok t1) as E5 end.
  rewrite E1, E2, E3, E4. split; [done|]. split; [done|]. split; [done|]. split; [done|].
  intros He. by apply E5.
Qed.

Lemma close_books o0 s0 pend st c rg p t reason price :
  capital_ok cfg ->
  books_ok o0 s0 (Time c) pend st -> openTrades st !! Symbol c = Some p -> store st !! p = Some t ->
  books_ok o0 s0 (Time c) pend (close cfg c rg p t reason price st).
Proof.
  intros Hc B Ho Ht. unfold closeTrade. cbv zeta.
  destruct (SimulateFillWithTCA _ _ _ _ _ _ _ _ _ _ _ _) as [fl sim].
  match goal with |- context [bookExit _ _ ?u ?a ?b ?d ?e] =>
    destruct (bookExit_spec u a b d e) as (E1 & E2 & E3 & E4 & E5); revert E1 E2 E3 E4 E5;
    generalize (bookExit ExpenseRatioForTicker cfg u a b d e) end.
  intros t1 E1 E2 E3 E4 E5. cbn in E1, E2.
  match goal with |- context [reconcile ?u _ _] => set (t2 := u) end.
  assert (K : TSymbol t2 = Symbol c /\ TEntryTime t2 = TEntryTime t /\ TExitTime t2 = Time c /\
              TPnL t2 = TPnL t1 /\ (excursions_ok t -> excursions_ok t2)).
  { destruct B. destruct (bk_open0 _ _ Ho) as (u & Eu & Es). rewrite Ht in Eu. injection Eu as <-.
    unfold t2. cbn. repeat split; try congruence; by apply E5. }
  clearbody t2. destruct K as (K1 & K2 & K3 & K4 & K5).
  match goal with |- context [reconcile t2 ?q ?s] => pose proof (reconcile_frame t2 q s) as F;
    generalize dependent (reconcile t2 q s) end.
  intros st2 F. destruct F, B. cbn in fr_capital0, fr_equity0, fr_trades0, fr_store0, fr_open0, fr_stops0.
  assert (Hst : excursions_ok t /\ TEntryTime t <= Time c).
  { rewrite list.Forall_forall in bk_store0. apply bk_store0. by eapply list_elem_of_lookup_2. }
  destruct Hst as [Hx He].
  constructor; cbn [capital equity trades store openTrades activeStops set];
    rewrite ?fr_capital0, ?fr_equity0, ?fr_trades0, ?fr_store0, ?fr_open0, ?fr_stops0.
  - apply bookCapital_bounded; [done|done|]. by rewrite K4.
  - done.
  - apply Forall_app. split; [done|]. apply list.Forall_singleton. split; [by rewrite K4|]. split; [by apply K5|lia].
  - apply Forall_insert; [done|]. split; [by apply K5|lia].
  - intros sym q Hq. destruct (decide (sym = Symbol c)) as [->|N]; [by rewrite lookup_delete_eq in Hq|].
    rewrite lookup_delete_ne in Hq by done. destruct (bk_open0 sym q Hq) as (u & Eu & Us).
    destruct (decide (q = p)) as [->|Np]; [|exists u; by rewrite list_lookup_insert_ne].
    exfalso. apply N. destruct (bk_open0 _ _ Ho) as (v & Ev & <-). rewrite Eu in Ev. injection Ev as <-. done.
  - intros sym Hs. destruct (decide (sym = Symbol c)) as [->|N].
    + apply bk_disjoint0. rewrite Ho. by eexists.
    + apply bk_disjoint0. by rewrite lookup_delete_ne in Hs.
  - intros sym Hs. destruct (decide (sym = Symbol c)) as [->|N].
    + rewrite lookup_delete_eq in Hs. by destruct Hs.
    + rewrite lookup_delete_ne in Hs by done. rewrite lookup_delete_ne by done. by apply bk_stops0.
  - unfold opened in *. cbn in fr_opened0 |- *. rewrite length_insert. congruence.
  - rewrite length_insert, length_app. cbn [length]. rewrite (size_delete _ _ _ Ho) in bk_closed0. lia.
  - unfold passed in *. cbn in fr_passed0 |- *. rewrite length_insert. congruence.
Qed.

Lemma widenExtremes_keeps c t :
  TSymbol (widenExtremes c t) = TSymbol t /\ TEntryTime (widenExtremes c t) = TEntryTime t /\
  TMAE (widenExtremes c t) = TMAE t /\ TMFE (widenExtremes c t) = TMFE t.
Proof. unfold widenExtremes. by destruct (_ <? lowestSinceEntry t)%float, (_ <? _)%float. Qed.

Lemma manageOpen_books o0 s0 pend st c rg :
  capital_ok cfg -> books_ok o0 s0 (Time c) pend st -> books_ok o0 s0 (Time c) pend (manage cfg c rg st).
Proof.
  intros Hc B. unfold manageOpen. destruct (openTrades st !! Symbol c) as [p|] eqn:Ho; [|done].
  set (st1 := trailStop c p st).
  assert (B1 : books_ok o0 s0 (Time c) pend (st1 <| store ::= alter (widenExtremes c) p |>)).
  { apply alter_books; [apply widenExtremes_keeps|]. apply trailStop_books; [rewrite Ho; by eexists|done]. }
  match type of B1 with books_ok _ _ _ _ ?s => set (st2 := s) in * end.
  pose proof (exitDecision_frame c rg st2) as F.
  assert (Ho2 : openTrades st2 !! Symbol c = Some p) by (unfold st2, st1; cbn; by rewrite trailStop_open).
  destruct (exitDecision newRunner cfg c rg st2) as [st3 [reason price]]. cbn [fst] in F.
  pose proof (frame_books _ _ _ _ _ _ F B1) as B3.
  destruct (store st3 !! p) as [t|] eqn:Et; [|done]. case_bool_decide; [done|].
  apply close_books; try done. destruct F. by rewrite fr_open0.
Qed.

(** *** Seeking an entry and ending the bar *)
Lemma seekEntry_books o0 s0 T i c rg st st' skip :
  books_ok o0 s0 T (pendingEntries st) st -> pendingEntries st !! Symbol c = None ->
  seekEntry Now newRunner cfg i c rg st = Some (st', skip) ->
  books_ok o0 s0 T (pendingEntries st') st'.
Proof.
  intros B Hp. unfold seekEntry.
  destruct (openTrades st !! Symbol c) as [p|] eqn:Ho; [by intros [= <- <-]|].
  assert (Ba : books_ok o0 s0 T (pendingEntries st) (diag (fun d => d <| SignalAttempts ::= Z.succ |>) st)).
  { eapply frame_books; [|exact B]. framed. }
  destruct (_ && _); [by intros [= <- <-]|].
  destruct (List.find _ _) as [[primary ?]|].
  { intros [= <- <-]. eapply frame_books; [|exact B]. framed. }
  destruct (_ <? _).
  { destruct (Evaluate _ _ _) as [[res|] r]; cbn [mbind option_bind]; [|done].
    intros [= <- <-]. eapply frame_books; [|exact B]. framed. }
  set (st1 := diag _ st) in *. pose proof (generateSignal_frame c rg st1) as F. cbv zeta in F.
  destruct (generateSignal Now newRunner cfg c rg st1) as [st2 [sig|]]; intros [= <- <-]; destruct F, B;
    cbn [fst snd sigCount] in *.
  - constructor; cbn [capital equity trades store openTrades activeStops pendingEntries set];
      rewrite ?fs_capital0, ?fs_equity0, ?fs_trades0, ?fs_store0, ?fs_open0, ?fs_stops0, ?fs_pending0; try done.
    + intros sym Hs. destruct (decide (sym = Symbol c)) as [->|N].
      * change (openTrades st1) with (openTrades st) in Hs. rewrite Ho in Hs. by destruct Hs.
      * rewrite lookup_insert_ne by done. by apply bk_disjoint0.
    + change (opened (st2 <| pendingEntries ::= insert (Symbol c) sig |>)) with (opened st2).
      rewrite fs_opened0. exact bk_opened0.
    + change (passed (st2 <| pendingEntries ::= insert (Symbol c) sig |>)) with (passed st2).
      rewrite fs_passed0. change (passed st1) with (passed st). change (pendingEntries st1) with (pendingEntries st).
      change (store st1) with (store st). rewrite bk_passed0, map_size_insert_None by done. lia.
  - constructor; rewrite ?fs_capital0, ?fs_equity0, ?fs_trades0, ?fs_store0, ?fs_open0, ?fs_stops0, ?fs_pending0,
      ?fs_opened0; try done.
    rewrite fs_passed0. change (passed st1) with (passed st). change (store st1) with (store st).
    change (pendingEntries st1) with (pendingEntries st). lia.
Qed.

Lemma closeBar_books o0 s0 T prev c rg st :
  books_ok o0 s0 T (pendingEntries st) st ->
  let st' := closeBar rangeOpen prev c rg st in books_ok o0 s0 T (pendingEntries st') st'.
Proof.
  intros B. cbv zeta. unfold closeBar. cbv zeta.
  set (st1 := match prev with Some _ => _ | None => st end).
  assert (F : frame st st1) by (unfold st1; destruct prev; [destruct (_ && _)|]; framed).
  destruct F, B. constructor; cbn [capital equity trades store openTrades activeStops pendingEntries set];
    rewrite ?fr_capital0, ?fr_equity0, ?fr_trades0, ?fr_store0, ?fr_open0, ?fr_stops0, ?fr_pending0; try done.
  - apply Forall_app. split; [done|]. by apply list.Forall_singleton.
  - unfold opened in *. cbn. congruence.
  - unfold passed in *. cbn. congruence.
Qed.

(** *** A whole bar *)
Lemma manageOpen_pending c rg st : pendingEntries (manage cfg c rg st) = pendingEntries st.
Proof.
  unfold manageOpen. destruct (openTrades st !! Symbol c) as [p|]; [|done].
  assert (P1 : pendingEntries (trailStop c p st) = pendingEntries st).
  { unfold trailStop. destruct (_ !! _); [|done]. destruct (isTrail _); [|done]. by destruct (negb _). }
  set (st2 := (trailStop c p st) <| store ::= alter (widenExtremes c) p |>).
  pose proof (exitDecision_frame c rg st2) as F.
  destruct (exitDecision newRunner cfg c rg st2) as [st3 [reason price]]. destruct F. cbn [fst] in *.
  assert (P3 : pendingEntries st3 = pendingEntries st) by (rewrite fr_pending0; unfold st2; cbn; exact P1).
  destruct (store st3 !! p) as [t|]; [|done]. case_bool_decide; [done|].
  unfold closeTrade. cbv zeta. destruct (SimulateFillWithTCA _ _ _ _ _ _ _ _ _ _ _ _) as [fl sim].
  match goal with |- context [reconcile ?u ?q ?s] => pose proof (fr_pending _ _ (reconcile_frame u q s)) as E;
    revert E; generalize (reconcile u q s) end.
  intros st4 E. cbn. rewrite E. exact P3.
Qed.

Lemma fillPending_none c rg (st : state) : pendingEntries (fill cfg c rg st) !! Symbol c = None.
Proof.
  unfold fillPending. destruct (pendingEntries st !! Symbol c) as [sig|] eqn:E; [|done].
  match goal with |- context [executeEntry _ _ _ _ _ _ _ ?s] =>
    destruct (executeEntry_spec c sig (Float64 (Open c)) rg s) as (t & F) end.
  rewrite (en_pending _ _ _ _ _ F). apply lookup_delete_eq.
Qed.

(** Preparing a bar moves no money and no position. *)
Record prepared (st st' : state) : Prop := {
  pr_capital : capital st' = capital st;
  pr_peak : peakCapital st' = peakCapital st;
  pr_equity : equity st' = equity st;
  pr_trades : trades st' = trades st;
  pr_store : length (store st') = length (store st);
  pr_open : openTrades st' = openTrades st;
  pr_stops : activeStops st' = activeStops st;
  pr_pending : pendingEntries st' = pendingEntries st;
  pr_sim : fillSim st' = fillSim st;
  pr_opened : opened st' = opened st;
  pr_passed : passed st' = passed st
}.

#[local] Instance prepared_preorder : PreOrder prepared.
Proof.
  split.
  - intros st. by constructor.
  - intros a b c [] []. constructor; congruence.
Qed.

Lemma settleAdverse_prepared c st : prepared st (settleAdverse c st).
Proof.
  unfold settleAdverse. destruct (_ !! _); [|reflexivity].
  constructor; try reflexivity. cbn. by rewrite length_alter.
Qed.

Lemma newDay_prepared c st : prepared st (newDay c st).
Proof. unfold newDay. destruct (ftmo st); [case_bool_decide|]; constructor; reflexivity. Qed.

Lemma feedRunner_prepared feed c st : prepared st (feedRunner newRunner cfg feed c st).1.
Proof.
  unfold feedRunner. destruct SetATR; [|constructor; reflexivity].
  destruct (CfgEarnings cfg) as [f|]; [destruct (f _ _)|]; try destruct (SkipEarningsDays cfg);
    constructor; reflexivity.
Qed.

Lemma prepare_spec feed c st st' go :
  prepare newRunner cfg feed c st = Some (st', go) ->
  prepared st st' /\
  (forall o0 s0 T pend, books_ok o0 s0 T pend st -> books_ok o0 s0 T pend st').
Proof.
  unfold prepare. cbv zeta. set (st1 := diag _ st).
  assert (P1 : prepared st st1) by (constructor; reflexivity).
  assert (B1 : forall o0 s0 T pend, books_ok o0 s0 T pend st -> books_ok o0 s0 T pend st1)
    by (intros; eapply frame_books; [|done]; framed).
  clearbody st1. destruct (negb _); [by intros [= <- <-]|].
  set (st2 := newDay c (rollATR cfg c st1)).
  assert (P2 : prepared st st2).
  { etransitivity; [exact P1|]. etransitivity; [|apply newDay_prepared]. constructor; reflexivity. }
  assert (B2 : forall o0 s0 T pend, books_ok o0 s0 T pend st -> books_ok o0 s0 T pend st2).
  { intros. eapply frame_books; [apply newDay_frame|]. eapply frame_books; [|by apply B1]. framed. }
  clearbody st2. destruct (newsBlackout _ _ _); [by intros [= <- <-]|].
  destruct (regimeAt _ _ _) as [rg|]; cbn [mbind option_bind]; [|done].
  set (st3 := marketState feed c rg st2).
  assert (F3 : frame st2 st3) by framed. assert (Q3 : prepared st2 st3) by (constructor; reflexivity).
  clearbody st3. pose proof (feedRunner_frame feed c st3) as F. pose proof (feedRunner_prepared feed c st3) as Q.
  destruct (feedRunner newRunner cfg feed c st3) as [st4 skip]. cbn [fst] in F, Q.
  assert (P4 : prepared st st4) by (etransitivity; [exact P2|]; by etransitivity).
  assert (B4 : forall o0 s0 T pend, books_ok o0 s0 T pend st -> books_ok o0 s0 T pend st4).
  { intros. eapply frame_books; [exact F|]. eapply frame_books; [exact F3|]. by apply B2. }
  destruct skip; [by intros [= <- <-]|].
  pose proof (settleAdverse_prepared c st4) as Q5.
  assert (B5 : forall o0 s0 T pend, books_ok o0 s0 T pend st -> books_ok o0 s0 T pend (settleAdverse c st4))
    by (intros; by apply settleAdverse_books, B4).
  set (st5 := settleAdverse c st4) in *. clearbody st5.
  match goal with |- context [st5 <| ftmo ::= ?f |>] => set (st6 := st5 <| ftmo ::= f |>) end.
  assert (P6 : prepared st st6).
  { etransitivity; [exact P4|]. etransitivity; [exact Q5|]. constructor; reflexivity. }
  assert (B6 : forall o0 s0 T pend, books_ok o0 s0 T pend st -> books_ok o0 s0 T pend st6)
    by (intros; eapply frame_books; [|by apply B5]; framed).
  clearbody st6. destruct (match RegimeFilter cfg with Some _ => _ | None => _ end); [by intros [= <- <-]|].
  destruct (match ftmo st6 with Some _ => _ | None => _ end); by intros [= <- <-].
Qed.

Lemma step_books o0 s0 T feed i prev c st st' :
  capital_ok cfg -> T <= Time c -> books_ok o0 s0 T (pendingEntries st) st ->
  bar cfg feed i prev c st = Some st' -> books_ok o0 s0 (Time c) (pendingEntries st') st'.
Proof.
  intros Hc HT B%(books_later _ _ _ _ _ _ HT). unfold step.
  destruct (prepare newRunner cfg feed c st) as [[st6 go]|] eqn:E6; cbn [mbind option_bind]; [|done].
  destruct (prepare_spec _ _ _ _ _ E6) as [P6 B6]. specialize (B6 _ _ _ _ B). rewrite <- (pr_pending _ _ P6) in B6.
  destruct go as [rg|]; [|by intros [= <-]]. cbv zeta.
  pose proof (fillPending_books _ _ c rg st6 B6) as B7. pose proof (fillPending_none c rg st6) as N7.
  set (st7 := fill cfg c rg st6) in *. clearbody st7.
  pose proof (manageOpen_books _ _ _ st7 c rg Hc B7) as B8. pose proof (manageOpen_pending c rg st7) as P8.
  set (st8 := manage cfg c rg st7) in *. clearbody st8. rewrite <- P8 in B8, N7.
  destruct (seekEntry Now newRunner cfg i c rg st8) as [[st9 sk]|] eqn:E9; cbn [mbind option_bind]; [|done].
  pose proof (seekEntry_books _ _ _ _ _ _ _ _ _ B8 N7 E9) as B9.
  destruct sk; intros [= <-]; [done|]. by apply closeBar_books.
Qed.

Lemma runBars_books o0 s0 feed cs : forall T i prev st st',
  capital_ok cfg -> StronglySorted (fun a b => Time a <= Time b) cs ->
  (forall c, c ∈ cs -> T <= Time c) -> books_ok o0 s0 T (pendingEntries st) st ->
  bars cfg feed i prev cs st = Some st' ->
  books_ok o0 s0 (fold_left (fun _ c => Time c) cs T) (pendingEntries st') st'.
Proof.
  induction cs as [|c cs IH]; intros T i prev st st' Hc Hs HT B E.
  { by injection E as <-. }
  cbn [runBars] in E. destruct (bar cfg feed i prev c st) as [st1|] eqn:E1; cbn [mbind option_bind] in E; [|done].
  inversion Hs as [|? ? Hs' F]; subst.
  pose proof (step_books _ _ _ _ _ _ _ _ _ Hc (HT c ltac:(apply elem_of_cons; by left)) B E1) as B1.
  rewrite list.Forall_forall in F.
  cbn [fold_left]. by eapply IH.
Qed.

(** ** Where trades come from *)

(** A step leaves the pending entries of other symbols alone. *)
Lemma seekEntry_pending i c rg (st st' : state) skip k :
  k <> Symbol c -> seekEntry Now newRunner cfg i c rg st = Some (st', skip) ->
  pendingEntries st' !! k = pendingEntries st !! k.
Proof.
  intros Hk. unfold seekEntry. destruct (openTrades st !! Symbol c); [by intros [= <- <-]|].
  destruct (_ && _); [by intros [= <- <-]|]. destruct (List.find _ _) as [[? ?]|]; [by intros [= <- <-]|].
  destruct (_ <? _).
  { destruct (Evaluate _ _ _) as [[res|] r]; cbn [mbind option_bind]; [|done]. by intros [= <- <-]. }
  match goal with |- context [generateSignal _ _ _ _ _ ?s] => pose proof (generateSignal_frame c rg s) as F;
    cbv zeta in F; destruct (generateSignal Now newRunner cfg c rg s) as [st2 [sig|]] end;
    destruct F; intros [= <- <-]; cbn [fst] in fs_pending0.
  - cbn. rewrite fs_pending0. by apply lookup_insert_ne.
  - by rewrite fs_pending0.
Qed.

Lemma step_pending feed i prev c (st st' : state) k :
  k <> Symbol c -> bar cfg feed i prev c st = Some st' -> pendingEntries st' !! k = pendingEntries st !! k.
Proof.
  intros Hk. unfold step.
  destruct (prepare newRunner cfg feed c st) as [[s go]|] eqn:E; cbn [mbind option_bind]; [|done].
  destruct (prepare_spec _ _ _ _ _ E) as [P _]. destruct go as [rg|]; [|intros [= <-]; by rewrite (pr_pending _ _ P)].
  cbv zeta. assert (K : pendingEntries (manage cfg c rg (fill cfg c rg s)) !! k = pendingEntries st !! k).
  { rewrite manageOpen_pending. rewrite <- (pr_pending _ _ P). unfold fillPending.
    destruct (pendingEntries s !! Symbol c) as [sig|]; [|done].
    match goal with |- context [executeEntry _ _ _ _ _ _ _ ?u] =>
      destruct (executeEntry_spec c sig (Float64 (Open c)) rg u) as (t & F) end.
    rewrite (en_pending _ _ _ _ _ F). by apply lookup_delete_ne. }
  destruct (seekEntry Now newRunner cfg i c rg _) as [[st9 sk]|] eqn:E9; cbn [mbind option_bind]; [|done].
  pose proof (seekEntry_pending _ _ _ _ _ _ _ Hk E9) as K9.
  destruct sk; intros [= <-]; [by rewrite K9|]. unfold closeBar. cbv zeta.
  destruct prev as [pc|]; [destruct (_ && _)|]; cbn; by rewrite K9.
Qed.

(** On its own symbol, a step leaves the pending entry of a skipped bar, or the
    signal the bar's strategy gave. *)
Lemma step_pending_self feed i prev c (st st' : state) sig :
  bar cfg feed i prev c st = Some st' -> pendingEntries st' !! Symbol c = Some sig ->
  pendingEntries st !! Symbol c = Some sig \/
  exists rg (s s' : state), generateSignal Now newRunner cfg c rg s = (s', Some sig).
Proof.
  unfold step. destruct (prepare newRunner cfg feed c st) as [[s go]|] eqn:E; cbn [mbind option_bind]; [|done].
  destruct (prepare_spec _ _ _ _ _ E) as [P _].
  destruct go as [rg|]; [|intros [= <-]; rewrite (pr_pending _ _ P); by left].
  cbv zeta. pose proof (fillPending_none c rg s) as N. rewrite <- (manageOpen_pending c rg) in N.
  generalize dependent (manage cfg c rg (fill cfg c rg s)). intros s8 N.
  destruct (seekEntry Now newRunner cfg i c rg s8) as [[s9 sk]|] eqn:E9; cbn [mbind option_bind]; [|done].
  intros E' Hs. right. exists rg.
  assert (Hs9 : pendingEntries s9 !! Symbol c = Some sig).
  { destruct sk; injection E' as <-; [done|]. revert Hs. unfold closeBar. cbv zeta.
    by destruct prev as [pc|]; [destruct (_ && _)|]. }
  clear E' Hs. revert E9. unfold seekEntry. destruct (openTrades s8 !! Symbol c); [intros [= <- <-]; congruence|].
  destruct (_ && _); [intros [= <- <-]; cbn in Hs9; congruence|].
  destruct (List.find _ _) as [[? ?]|]; [intros [= <- <-]; cbn in Hs9; congruence|].
  destruct (_ <? _).
  { destruct (Evaluate _ _ _) as [[res|] r]; cbn [mbind option_bind]; [|done].
    intros [= <- <-]. cbn in Hs9. congruence. }
  match goal with |- context [generateSignal _ _ _ _ _ ?u] => pose proof (generateSignal_frame c rg u) as F;
    cbv zeta in F; destruct (generateSignal Now newRunner cfg c rg u) as [st2 [g|]] eqn:G;
    intros [= <- <-]; destruct F; exists u, st2 end; cbn in Hs9, fs_pending0; rewrite fs_pending0 in Hs9.
  - rewrite lookup_insert_eq in Hs9. congruence.
  - cbn in N. congruence.
Qed.

(** [sig] is what the strategy gave on the bar [d] of [cs], of the symbol [k]. *)
Definition decided (feed : Feed) (i : Z) (prev : option Candle) (cs : list Candle) (st0 : state)
    (k : string) (sig : Signal) : Prop :=
  exists cs1 d cs2 s1 rg (s s' : state), cs = cs1 ++ d :: cs2 /\ Symbol d = k /\
    bars cfg feed i prev cs1 st0 = Some s1 /\ generateSignal Now newRunner cfg d rg s = (s', Some sig).

Lemma pending_decided feed cs : forall i prev st0 st k sig,
  bars cfg feed i prev cs st0 = Some st -> pendingEntries st !! k = Some sig ->
  pendingEntries st0 !! k = Some sig \/ decided feed i prev cs st0 k sig.
Proof.
  induction cs as [|c cs IH]; intros i prev st0 st k sig E Hk; [injection E as <-; by left|].
  cbn [runBars] in E. destruct (bar cfg feed i prev c st0) as [st1|] eqn:E1; cbn [mbind option_bind] in E; [|done].
  destruct (IH _ _ _ _ _ _ E Hk) as [K|(cs1 & d & cs2 & s1 & rg & s & s' & -> & Hd & B1 & G)].
  - destruct (decide (k = Symbol c)) as [->|N]; [|left; by rewrite <- (step_pending _ _ _ _ _ _ _ N E1)].
    destruct (step_pending_self _ _ _ _ _ _ _ E1 K) as [K1|(rg & s & s' & G)]; [by left|right].
    by exists [], c, cs, st0, rg, s, s'.
  - right. exists (c :: cs1), d, cs2, s1, rg, s, s'. split; [done|]. split; [done|].
    split; [cbn [runBars]; by rewrite E1|done].
Qed.

(** Nothing after the fill of the pending entry opens a trade. *)
Lemma manageOpen_store c rg (st : state) : length (store (manage cfg c rg st)) = length (store st).
Proof.
  unfold manageOpen. destruct (openTrades st !! Symbol c) as [p|]; [|done].
  assert (P1 : length (store (trailStop c p st)) = length (store st)).
  { unfold trailStop. destruct (_ !! _); [|done]. destruct (isTrail _); [|done].
    destruct (negb _); [|done]. cbn. by rewrite length_alter. }
  set (st2 := (trailStop c p st) <| store ::= alter (widenExtremes c) p |>).
  pose proof (exitDecision_frame c rg st2) as F.
  destruct (exitDecision newRunner cfg c rg st2) as [st3 [reason price]]. destruct F. cbn [fst] in *.
  assert (P3 : length (store st3) = length (store st)) by (rewrite fr_store0; unfold st2; cbn; by rewrite length_alter).
  destruct (store st3 !! p) as [t|]; [|done]. case_bool_decide; [done|].
  unfold closeTrade. cbv zeta. destruct (SimulateFillWithTCA _ _ _ _ _ _ _ _ _ _ _ _) as [fl sim].
  match goal with |- context [reconcile ?u ?q ?s] => pose proof (fr_store _ _ (reconcile_frame u q s)) as E;
    revert E; generalize (reconcile u q s) end.
  intros st4 E. cbn. rewrite E. cbn. by rewrite length_insert.
Qed.

Lemma seekEntry_store i c rg (st st' : state) skip :
  seekEntry Now newRunner cfg i c rg st = Some (st', skip) -> store st' = store st.
Proof.
  unfold seekEntry. destruct (openTrades st !! Symbol c); [by intros [= <- <-]|].
  destruct (_ && _); [by intros [= <- <-]|]. destruct (List.find _ _) as [[? ?]|]; [by intros [= <- <-]|].
  destruct (_ <? _).
  { destruct (Evaluate _ _ _) as [[res|] r]; cbn [mbind option_bind]; [|done]. by intros [= <- <-]. }
  match goal with |- context [generateSignal _ _ _ _ _ ?s] => pose proof (generateSignal_frame c rg s) as F;
    cbv zeta in F; destruct (generateSignal Now newRunner cfg c rg s) as [st2 [sig|]] end;
    destruct F; intros [= <- <-]; exact fs_store0.
Qed.

Lemma step_store feed i prev c (st s st' : state) rg :
  prepare newRunner cfg feed c st = Some (s, Some rg) -> bar cfg feed i prev c st = Some st' ->
  length (store st') = length (store (fill cfg c rg s)).
Proof.
  intros E. unfold step. rewrite E. cbn [mbind option_bind]. cbv zeta.
  destruct (seekEntry Now newRunner cfg i c rg _) as [[st9 sk]|] eqn:E9; cbn [mbind option_bind]; [|done].
  pose proof (seekEntry_store _ _ _ _ _ _ E9) as K9. rewrite <- (manageOpen_store c rg (fill cfg c rg s)), <- K9.
  destruct sk; intros [= <-]; [done|]. unfold closeBar. cbv zeta.
  by destruct prev as [pc|]; [destruct (_ && _)|].
Qed.

(** ** What an entry fixes *)
Definition same_entry (t t' : Trade) : Prop :=
  TSymbol t' = TSymbol t /\ TSide t' = TSide t /\ TEntryTime t' = TEntryTime t /\ TEntryPrice t' = TEntryPrice t.

#[local] Instance same_entry_preorder : PreOrder same_entry.
Proof. split; unfold same_entry; [done|]. intros a b c (? & ? & ? & ?) (? & ? & ? & ?). repeat split; congruence. Qed.

(** The store only grows, and no trade in it changes its entry. *)
Definition kept (st st' : state) : Prop :=
  forall p t, store st !! p = Some t -> exists t', store st' !! p = Some t' /\ same_entry t t'.

#[local] Instance kept_preorder : PreOrder kept.
Proof.
  split; [intros st p t E; by exists t|]. intros a b c H1 H2 p t E.
  destruct (H1 p t E) as (u & Eu & S1). destruct (H2 p u Eu) as (v & Ev & S2).
  exists v. split; [done|]. by transitivity u.
Qed.

Lemma kept_eq (st st' : state) : store st' = store st -> kept st st'.
Proof. intros E p t Ep. exists t. by rewrite E. Qed.

Lemma kept_alter (st st' : state) f p :
  (forall t, same_entry t (f t)) -> store st' = alter f p (store st) -> kept st st'.
Proof.
  intros Hf E q t Eq. rewrite E. destruct (decide (q = p)) as [->|N].
  - exists (f t). split; [by rewrite list_lookup_alter_eq, Eq|done].
  - exists t. by rewrite list_lookup_alter_ne.
Qed.

Lemma bookExit_entry t time price q reason :
  same_entry t (bookExit ExpenseRatioForTicker cfg t time price q reason).
Proof.
  unfold bookExit. cbv zeta. destruct (SanitizeTradePnL _ _ _ _) as [safe clamped].
  unfold setExcursions. destruct (_ <? _)%float; [case_bool_decide|]; done.
Qed.

Lemma close_kept c rg p t reason price (st : state) :
  store st !! p = Some t -> kept st (close cfg c rg p t reason price st).
Proof.
  intros Et. unfold closeTrade. cbv zeta. destruct (SimulateFillWithTCA _ _ _ _ _ _ _ _ _ _ _ _) as [fl sim].
  match goal with |- context [bookExit _ _ ?u ?a ?b ?d ?e] =>
    pose proof (bookExit_entry u a b d e) as S; revert S;
    generalize (bookExit ExpenseRatioForTicker cfg u a b d e) end.
  intros t1 S. match goal with |- context [reconcile ?u _ _] => set (t2 := u) end.
  assert (S2 : same_entry t t2) by exact S. clearbody t2.
  match goal with |- context [reconcile ?u ?q ?s] => pose proof (fr_store _ _ (reconcile_frame u q s)) as E;
    revert E; generalize (reconcile u q s) end.
  intros st4 E. cbn in E. intros q u Eq. cbn. rewrite E.
  destruct (decide (q = p)) as [->|N].
  - rewrite Et in Eq. injection Eq as <-. exists t2. split; [|done].
    rewrite list_lookup_insert_eq; [done|]. by apply lookup_lt_Some in Et.
  - exists u. by rewrite list_lookup_insert_ne.
Qed.

Lemma manageOpen_kept c rg (st : state) : kept st (manage cfg c rg st).
Proof.
  unfold manageOpen. destruct (openTrades st !! Symbol c) as [p|]; [|reflexivity].
  assert (K1 : kept st (trailStop c p st)).
  { unfold trailStop. destruct (_ !! _); [|reflexivity]. destruct (isTrail _); [|reflexivity].
    destruct (negb _); [|by apply kept_eq].
    match goal with |- context [alter ?f _] => apply (kept_alter _ _ f p) end; done. }
  set (st2 := (trailStop c p st) <| store ::= alter (widenExtremes c) p |>).
  assert (K2 : kept st st2).
  { etransitivity; [exact K1|]. apply (kept_alter _ _ (widenExtremes c) p); [|done]. intros t. unfold widenExtremes.
    by destruct (_ <? lowestSinceEntry t)%float, (_ <? _)%float. }
  pose proof (exitDecision_frame c rg st2) as F.
  destruct (exitDecision newRunner cfg c rg st2) as [st3 [reason price]]. cbn [fst] in F.
  assert (K3 : kept st st3) by (etransitivity; [exact K2|]; by apply kept_eq, fr_store).
  destruct (store st3 !! p) as [t|] eqn:Et; [|done]. case_bool_decide; [done|].
  etransitivity; [exact K3|]. by apply close_kept.
Qed.

Lemma prepare_kept feed c (st st' : state) go :
  prepare newRunner cfg feed c st = Some (st', go) -> kept st st'.
Proof.
  unfold prepare. cbv zeta. set (st1 := diag _ st).
  destruct (negb _); [intros [= <- <-]; by apply kept_eq|].
  assert (K2 : kept st (newDay c (rollATR cfg c st1)))
    by (apply kept_eq; rewrite (fr_store _ _ (newDay_frame _ _)); done).
  destruct (newsBlackout _ _ _); [by intros [= <- <-]|].
  destruct (regimeAt _ _ _) as [rg|]; cbn [mbind option_bind]; [|done].
  match goal with |- context [feedRunner _ _ _ _ ?s] => pose proof (fr_store _ _ (feedRunner_frame feed c s)) as F;
    destruct (feedRunner newRunner cfg feed c s) as [st4 skip] end.
  cbn in F. assert (K4 : kept st st4) by (etransitivity; [exact K2|]; by apply kept_eq).
  destruct skip; [by intros [= <- <-]|].
  match goal with |- context [settleAdverse c ?s] => assert (K5 : kept st (settleAdverse c s)) end.
  { etransitivity; [exact K4|]. unfold settleAdverse. destruct (_ !! _) as [p|]; [|reflexivity].
    match goal with |- context [alter ?f _] => apply (kept_alter _ _ f p) end; [|done].
    intros t. by destruct (_ || _). }
  destruct (match RegimeFilter cfg with Some _ => _ | None => _ end);
    [|destruct (match ftmo _ with Some _ => _ | None => _ end)]; intros [= <- <-]; exact K5.
Qed.

(** Two bars that agree on what is known at their open. *)
Definition same_open (c c' : Candle) : Prop :=
  Time c' = Time c /\ Open c' = Open c /\ Volume c' = Volume c /\ Symbol c' = Symbol c /\
  AdjustmentFactor c' = AdjustmentFactor c.

(** The entry of a fill reads neither the high, the low nor the close of its bar. *)
Lemma executeEntry_blind c c' sig ref rg (st st' : state) :
  same_open c c' -> fillSim st' = fillSim st -> length (trades st') = length (trades st) ->
  exists t t', store (entry cfg c sig ref rg st) = store st ++ [t] /\
    store (entry cfg c' sig ref rg st') = store st' ++ [t'] /\ same_entry t t' /\ TQuantity t' = TQuantity t.
Proof.
  intros (E1 & E2 & E3 & E4 & E5) Es El. unfold executeEntry. cbv zeta. rewrite E1, E3, E4, E5, Es, El.
  unfold SimulateFillWithTCA. destruct (drawSlippage _ _ _ _ _ _) as [bps r].
  destruct (drawQuantity _ _ _ _) as [q r']. cbn [FillPrice FillQuantity SlippageBps SlippageLastBps SlippageMidBps].
  generalize (if (Float64 (FromFloat64 (round4 (slippedPrice (SigSide sig) (ref * adjFactor (AdjustmentFactor c))%float bps))) <=? 0)%float
              then ref else Float64 (FromFloat64 (round4 (slippedPrice (SigSide sig) (ref * adjFactor (AdjustmentFactor c))%float bps)))).
  intros ep. generalize (if (round4 q <=? 0)%float then SigQuantity sig else round4 q). intros qty.
  destruct (initialStop _ _ _ _ _ _) as [[sp tp] stop], (initialStop _ _ _ _ _ _) as [[sp' tp'] stop'].
  assert (K : forall u : state, store (if (qty <=? 0)%float then diag (fun d => d <| FillRejected ::= Z.succ |>) u else u) = store u)
    by (intros u; by destruct (_ <=? _)%float).
  cbn [store set]. rewrite !K. eexists _, _. split; [reflexivity|]. split; [reflexivity|].
  destruct (_ <? tp)%float, (_ <? sp)%float, (_ <? tp')%float, (_ <? sp')%float;
    (split; [|reflexivity]); repeat (split; [reflexivity|]); reflexivity.
Qed.

(** The account's enforcer through the preparation of a bar. *)
Lemma rollATR_ftmo c (st : state) : ftmo (rollATR cfg c st) = ftmo st /\ lastDay (rollATR cfg c st) = lastDay st.
Proof. done. Qed.

Lemma newDay_ftmo c c' (x y : state) :
  Time c' = Time c -> ftmo y = ftmo x -> lastDay y = lastDay x -> ftmo (newDay c' y) = ftmo (newDay c x).
Proof.
  intros Et Ef El. unfold newDay. rewrite Et, Ef, El. destruct (ftmo x) as [f|] eqn:E; [|congruence].
  destruct (bool_decide _); [congruence|done].
Qed.

Lemma marketState_ftmo feed c rg (st : state) : ftmo (marketState feed c rg st) = ftmo st.
Proof. done. Qed.

Lemma feedRunner_ftmo feed c (st : state) : ftmo (feedRunner newRunner cfg feed c st).1 = ftmo st.
Proof.
  unfold feedRunner. destruct SetATR; [|done].
  destruct (CfgEarnings cfg) as [isDay|]; [destruct (isDay _ _)|]; try destruct (SkipEarningsDays cfg); done.
Qed.

Lemma feedRunner_skip feed c c' (x y : state) :
  Time c' = Time c -> Symbol c' = Symbol c ->
  (feedRunner newRunner cfg feed c' y).2 = (feedRunner newRunner cfg feed c x).2.
Proof.
  intros E1 E2. unfold feedRunner. rewrite E1, E2. destruct SetATR; [|done].
  destruct (CfgEarnings cfg) as [isDay|]; [destruct (isDay _ _)|]; try destruct (SkipEarningsDays cfg); done.
Qed.

Lemma settleAdverse_ftmo c (st : state) : ftmo (settleAdverse c st) = ftmo st.
Proof. unfold settleAdverse. by destruct (_ !! _). Qed.

Lemma regime_ftmo rg (st : state) :
  ftmo (st <| ftmo ::= fmap (fun f => f <| PropFirmEnforcer.CurrentRegime := rg |>) |>) =
  (fun f => f <| PropFirmEnforcer.CurrentRegime := rg |>) <$> ftmo st.
Proof. done. Qed.

(** Whether a bar trades, and in which regime, is known at its open. *)
Lemma prepare_blind feed c c' (st s : state) go :
  same_open c c' -> prepare newRunner cfg feed c st = Some (s, go) ->
  exists s', prepare newRunner cfg feed c' st = Some (s', go).
Proof.
  intros (E1 & E2 & E3 & E4 & E5). unfold prepare. rewrite E1, E4. cbv zeta.
  generalize (diag (fun d => d <| CandlesSeen ::= Z.succ |>) st). intros st1.
  destruct (negb _); [intros [= <- <-]; by eexists|].
  assert (Ef : ftmo (newDay c' (rollATR cfg c' st1)) = ftmo (newDay c (rollATR cfg c st1))) by (by apply newDay_ftmo).
  generalize dependent (newDay c' (rollATR cfg c' st1)). generalize (newDay c (rollATR cfg c st1)). intros x y Ef.
  assert (En : newsBlackout cfg c' y = newsBlackout cfg c x) by (unfold newsBlackout; by rewrite Ef, E1).
  rewrite En. clear En. destruct (newsBlackout cfg c x); [intros [= <- <-]; by eexists|].
  destruct (regimeAt _ _ _) as [rg|]; cbn [mbind option_bind]; [|done].
  rewrite <- (marketState_ftmo feed c rg x), <- (marketState_ftmo feed c' rg y) in Ef.
  generalize dependent (marketState feed c' rg y). generalize (marketState feed c rg x). intros x1 y1 Ef.
  pose proof (feedRunner_ftmo feed c x1) as F1. pose proof (feedRunner_ftmo feed c' y1) as F2.
  pose proof (feedRunner_skip feed c c' x1 y1 E1 E4) as Sk.
  destruct (feedRunner newRunner cfg feed c' y1) as [y2 k2], (feedRunner newRunner cfg feed c x1) as [x2 k1].
  cbn [fst snd] in F1, F2, Sk. subst k2. destruct k1; [intros [= <- <-]; by eexists|].
  assert (Ey : ftmo (settleAdverse c' y2) = ftmo (settleAdverse c x2)) by (rewrite !settleAdverse_ftmo; congruence).
  generalize dependent (settleAdverse c' y2). generalize (settleAdverse c x2). intros x3 y3 Ey.
  destruct (match RegimeFilter cfg with Some _ => _ | None => _ end); [intros [= <- <-]; by eexists|].
  rewrite !regime_ftmo, Ey.
  destruct (match _ <$> ftmo x3 with Some _ => _ | None => _ end); intros [= <- <-]; by eexists.
Qed.

(** What a bar may add to the store: nothing, or the trade of its pending entry. *)
Lemma step_opens feed i prev c (st st' : state) :
  bar cfg feed i prev c st = Some st' ->
  kept st st' /\
  (length (store st') = length (store st) \/
   exists sig t, pendingEntries st !! Symbol c = Some sig /\ length (store st') = S (length (store st)) /\
     store st' !! length (store st) = Some t /\ TSymbol t = Symbol c /\ TSide t = SigSide sig /\
     TEntryTime t = Time c /\
     forall c' st2, same_open c c' -> bar cfg feed i prev c' st = Some st2 ->
       exists t2, store st2 !! length (store st) = Some t2 /\ TEntryPrice t2 = TEntryPrice t).
Proof.
  intros E. pose proof E as Eb. unfold step in E.
  destruct (prepare newRunner cfg feed c st) as [[s go]|] eqn:E6; cbn [mbind option_bind] in E; [|done].
  destruct (prepare_spec _ _ _ _ _ E6) as [P _]. pose proof (prepare_kept _ _ _ _ _ E6) as K6.
  destruct go as [rg|]; [|injection E as <-; split; [done|left; exact (pr_store _ _ P)]].
  assert (Hk : forall u su su' : state, forall d, prepare newRunner cfg feed d st = Some (su, Some rg) ->
    bar cfg feed i prev d st = Some u -> kept (fill cfg d rg su) u).
  { intros u su _ d Ed Eu. unfold step in Eu. rewrite Ed in Eu. cbn [mbind option_bind] in Eu. cbv zeta in Eu.
    destruct (seekEntry Now newRunner cfg i d rg _) as [[s9 sk]|] eqn:E9; cbn [mbind option_bind] in Eu; [|done].
    etransitivity; [apply manageOpen_kept|]. apply kept_eq. rewrite <- (seekEntry_store _ _ _ _ _ _ E9).
    destruct sk; injection Eu as <-; [done|]. unfold closeBar. cbv zeta. by destruct prev; [destruct (_ && _)|]. }
  pose proof (Hk st' s s c E6 Eb) as K. pose proof (step_store _ _ _ _ _ _ _ _ E6 Eb) as L.
  unfold fillPending in K, L. destruct (pendingEntries s !! Symbol c) as [sig|] eqn:Ep.
  2: { split; [by transitivity s|]. left. by rewrite L, (pr_store _ _ P). }
  match type of K with kept (executeEntry _ _ _ _ _ _ _ ?u) _ =>
    destruct (executeEntry_spec c sig (Float64 (Open c)) rg u) as (t & F); set (s7 := u) in * end.
  assert (S7 : store s7 = store s) by done. pose proof (en_store _ _ _ _ _ F) as Es. rewrite S7 in Es.
  assert (Kt : store (entry cfg c sig (Float64 (Open c)) rg s7) !! length (store st) = Some t)
    by (by rewrite Es, <- (pr_store _ _ P), list_lookup_middle).
  destruct (K _ _ Kt) as (t' & Et' & (T1 & T2 & T3 & T4)).
  split.
  { etransitivity; [exact K6|]. etransitivity; [|exact K]. intros p u Hu. exists u.
    split; [|reflexivity]. rewrite Es. by apply lookup_app_l_Some. }
  right. exists sig, t'. rewrite (pr_pending _ _ P) in Ep. split; [done|].
  split; [rewrite L, Es, length_app; cbn [length]; rewrite (pr_store _ _ P); lia|].
  split; [done|]. split; [by rewrite T1, (en_symbol _ _ _ _ _ F)|].
  split; [by rewrite T2, (en_side _ _ _ _ _ F)|]. split; [by rewrite T3, (en_time _ _ _ _ _ F)|].
  intros c' st2 So E2. destruct (prepare_blind _ _ _ _ _ _ So E6) as (s' & E6').
  destruct (prepare_spec _ _ _ _ _ E6') as [P' _].
  pose proof (Hk st2 s' s' c' E6' E2) as K'. unfold fillPending in K'.
  destruct So as (O1 & O2 & O3 & O4 & O5). rewrite O4, O2, (pr_pending _ _ P'), Ep in K'.
  match type of K' with kept (executeEntry _ _ _ _ _ _ _ ?u) _ => set (s7' := u) in * end.
  destruct (executeEntry_blind c c' sig (Float64 (Open c)) rg s7 s7') as (v & v' & V1 & V2 & (_ & _ & _ & V3) & _).
  { by repeat split. }
  { change (fillSim s' = fillSim s). by rewrite (pr_sim _ _ P'), (pr_sim _ _ P). }
  { change (length (trades s') = length (trades s)). by rewrite (pr_trades _ _ P'), (pr_trades _ _ P). }
  rewrite Es in V1. apply app_inv_head in V1. injection V1 as <-.
  destruct (K' (length (store st)) v') as (w & Ew & (_ & _ & _ & W)).
  { rewrite V2. change (store s7') with (store s'). by rewrite <- (pr_store _ _ P'), list_lookup_middle. }
  exists w. split; [done|]. congruence.
Qed.

(** ** A halted account *)
Definition frozen (st : state) : Prop := exists f, ftmo st = Some f /\ PropFirmEnforcer.IsHalted f = true.

Lemma prepare_frozen feed c (st : state) :
  frozen st -> exists s, prepare newRunner cfg feed c st = Some (s, None) /\ frozen s.
Proof.
  intros Hf. unfold prepare. cbv zeta. set (st1 := diag _ st).
  assert (H1 : frozen st1) by exact Hf. clearbody st1.
  destruct (negb _); [by eexists|].
  assert (H2 : frozen (newDay c (rollATR cfg c st1))).
  { destruct H1 as (f & Ef & Hh). unfold newDay. cbn. rewrite Ef. case_bool_decide; [by exists f|].
    exists (PropFirmEnforcer.OnNewDay f). split; [done|]. unfold PropFirmEnforcer.OnNewDay.
    unfold PropFirmEnforcer.CheckProfitTarget. cbv zeta. destruct (_ <=? _)%float; [done|]. by destruct (_ && _). }
  generalize dependent (newDay c (rollATR cfg c st1)). intros st2 H2.
  destruct (newsBlackout _ _ _); [by eexists|].
  destruct (regimeAt_total (regimeIdx feed) (Symbol c) (Time c)) as [rg ->]. cbn [mbind option_bind].
  set (st3 := marketState feed c rg st2). assert (H3 : frozen st3) by exact H2. clearbody st3.
  assert (H4 : frozen (feedRunner newRunner cfg feed c st3).1).
  { destruct H3 as (f & Ef & Hh). exists f. split; [|done]. rewrite <- Ef. unfold feedRunner.
    destruct SetATR; [|done]. destruct (CfgEarnings cfg) as [isDay|]; [destruct (isDay _ _)|];
      try destruct (SkipEarningsDays cfg); done. }
  destruct (feedRunner newRunner cfg feed c st3) as [st4 skip]. cbn [fst] in H4. destruct skip; [by eexists|].
  destruct H4 as (f & Ef & Hh).
  assert (Es : ftmo (settleAdverse c st4) = Some f) by (unfold settleAdverse; by destruct (_ !! _)).
  generalize dependent (settleAdverse c st4). intros st5 Es.
  assert (H6 : forall r, frozen (st5 <| ftmo ::= fmap (fun f => f <| PropFirmEnforcer.CurrentRegime := r |>) |>)).
  { intros r. unfold frozen. cbn. rewrite Es. by eexists. }
  destruct (match RegimeFilter cfg with Some _ => _ | None => _ end); [by eexists|].
  cbn [ftmo set]. rewrite Es. cbn [fmap option_fmap option_map].
  assert (E : PropFirmEnforcer.IsHalted (f <| PropFirmEnforcer.CurrentRegime := rg |>) = true) by exact Hh.
  rewrite E. by eexists.
Qed.

Lemma bars_frozen feed cs : forall i prev (st : state),
  frozen st -> exists st', bars cfg feed i prev cs st = Some st' /\ prepared st st' /\ kept st st' /\ frozen st'.
Proof.
  induction cs as [|c cs IH]; intros i prev st Hf; [by exists st|].
  destruct (prepare_frozen feed c st Hf) as (s & Ep & Hs).
  destruct (IH (i + 1) (Some c) s Hs) as (st' & E & P & K & F).
  exists st'. cbn [runBars]. unfold step at 1. rewrite Ep. cbn [mbind option_bind]. split; [done|].
  destruct (prepare_spec _ _ _ _ _ Ep) as [P1 _]. pose proof (prepare_kept _ _ _ _ _ Ep).
  split; [by transitivity s|]. split; [by transitivity s|done].
Qed.

Lemma manageOpen_equity c rg (st : state) : equity (manage cfg c rg st) = equity st.
Proof.
  unfold manageOpen. destruct (openTrades st !! Symbol c) as [p|]; [|done].
  assert (P1 : equity (trailStop c p st) = equity st).
  { unfold trailStop. destruct (_ !! _); [|done]. destruct (isTrail _); [|done]. by destruct (negb _). }
  set (st2 := (trailStop c p st) <| store ::= alter (widenExtremes c) p |>).
  pose proof (exitDecision_frame c rg st2) as F.
  destruct (exitDecision newRunner cfg c rg st2) as [st3 [reason price]]. destruct F. cbn [fst] in *.
  assert (P3 : equity st3 = equity st) by (rewrite fr_equity0; exact P1).
  destruct (store st3 !! p) as [t|]; [|done]. case_bool_decide; [done|].
  unfold closeTrade. cbv zeta. destruct (SimulateFillWithTCA _ _ _ _ _ _ _ _ _ _ _ _) as [fl sim].
  match goal with |- context [reconcile ?u ?q ?s] => pose proof (fr_equity _ _ (reconcile_frame u q s)) as E;
    revert E; generalize (reconcile u q s) end.
  intros st4 E. cbn. rewrite E. exact P3.
Qed.

(** ** A run that returns *)

(** No candle is in the warm-up, or the strategy never panics. *)
Definition no_panic : Prop := WarmUpBars cfg <= 0 \/ forall (r : R) c z, (Evaluate r c z).1 <> None.

Lemma step_returns feed i prev c (st : state) :
  no_panic -> 0 <= i -> exists st', bar cfg feed i prev c st = Some st' /\
    (length (equity st') <= S (length (equity st)))%nat.
Proof.
  intros Hn Hi. unfold step.
  destruct (prepare newRunner cfg feed c st) as [[s go]|] eqn:E6.
  2: { exfalso. revert E6. unfold prepare. cbv zeta. destruct (negb _); [done|]. destruct (newsBlackout _ _ _); [done|].
       destruct (regimeAt_total (regimeIdx feed) (Symbol c) (Time c)) as [rg ->]. cbn [mbind option_bind].
       destruct (feedRunner _ _ _ _ _) as [? []]; [done|]. destruct (match RegimeFilter cfg with Some _ => _ | None => _ end);
         [done|]. by destruct (match ftmo _ with Some _ => _ | None => _ end). }
  destruct (prepare_spec _ _ _ _ _ E6) as [P _]. pose proof (pr_equity _ _ P) as Eq. cbn [mbind option_bind].
  destruct go as [rg|]; [|exists s; rewrite Eq; split; [done|lia]]. cbv zeta.
  assert (E8 : equity (manage cfg c rg (fill cfg c rg s)) = equity st).
  { rewrite manageOpen_equity. unfold fillPending. destruct (pendingEntries s !! Symbol c) as [sig|]; [|done].
    match goal with |- context [executeEntry _ _ _ _ _ _ _ ?u] =>
      destruct (executeEntry_spec c sig (Float64 (Open c)) rg u) as (t & F) end.
    by rewrite (en_equity _ _ _ _ _ F). }
  generalize dependent (manage cfg c rg (fill cfg c rg s)). intros s8 E8.
  assert (E9 : exists s9 sk, seekEntry Now newRunner cfg i c rg s8 = Some (s9, sk) /\ equity s9 = equity s8).
  { unfold seekEntry. destruct (_ !! _); [by eexists _, _|]. destruct (_ && _); [by eexists _, _|].
    destruct (List.find _ _) as [[? ?]|]; [by eexists _, _|]. destruct (Z.ltb_spec i (WarmUpBars cfg)) as [W|W].
    - match goal with |- context [Evaluate ?r c rg] => destruct (Evaluate r c rg) as [[res|] r'] eqn:Er end.
      + by eexists _, _.
      + exfalso. destruct Hn as [Hn|Hn]; [lia|]. eapply Hn. by rewrite Er.
    - match goal with |- context [generateSignal _ _ _ _ _ ?u] => pose proof (generateSignal_frame c rg u) as F;
        cbv zeta in F; destruct (generateSignal Now newRunner cfg c rg u) as [s9 [g|]] end;
        destruct F; eexists _, _; split; try reflexivity; exact fs_equity0. }
  destruct E9 as (s9 & sk & -> & E9). cbn [mbind option_bind]. rewrite E8 in E9.
  destruct sk; eexists; (split; [reflexivity|]); [rewrite E9; lia|].
  unfold closeBar. cbv zeta. destruct prev as [pc|]; [destruct (_ && _)|]; cbn; rewrite E9, length_app; cbn; lia.
Qed.

Lemma bars_return feed cs : forall i prev (st : state),
  no_panic -> 0 <= i -> exists st', bars cfg feed i prev cs st = Some st' /\
    (length (equity st') <= length (equity st) + length cs)%nat.
Proof.
  induction cs as [|c cs IH]; intros i prev st Hn Hi; [exists st; split; [done|cbn; lia]|].
  destruct (step_returns feed i prev c st Hn Hi) as (s & Es & Hs).
  destruct (IH (i + 1) (Some c) s Hn ltac:(lia)) as (st' & E & L).
  exists st'. cbn [runBars]. rewrite Es. cbn [mbind option_bind length]. split; [done|lia].
Qed.

(** ** The end of the data *)
Lemma flush_books o0 s0 last l : forall pend st,
  l ≡ₚ map_to_list pend -> books_ok o0 s0 (Time last) pend st ->
  books_ok o0 s0 (Time last) ∅
    (fold_left (fun st ks => flushOne NormFloat64 RandFloat64 cfg last st ks.1 ks.2) l st).
Proof.
  induction l as [|[k sig] l IH]; intros pend st Hl B.
  { apply Permutation_nil, map_to_list_empty_iff in Hl. by subst. }
  assert (Hk : pend !! k = Some sig).
  { apply elem_of_map_to_list. rewrite <- Hl. apply elem_of_cons. by left. }
  cbn [fold_left fst snd]. apply (IH (delete k pend)).
  - apply (Permutation_cons_inv (a := (k, sig))). rewrite Hl. symmetry. by apply map_to_list_delete.
  - exact (enter_books o0 s0 (Time last) pend st (flushCandle last k) sig _ 0 B Hk (Z.le_refl _)).
Qed.

(** What closing the trades at the end keeps, with [n] trades left to close. *)
Record ending (o0 s0 T : Z) (n : nat) (st : state) : Prop := {
  ed_capital : in_account cfg (capital st);
  ed_equity : Forall (fun p => in_account cfg (EqValue p)) (equity st);
  ed_trades : Forall (booked T) (trades st);
  ed_store : Forall (fun t => excursions_ok t /\ TEntryTime t <= T) (store st);
  ed_closed : length (store st) = (length (trades st) + n)%nat;
  ed_opened : opened st = o0 + Z.of_nat (length (store st));
  ed_passed : passed st = s0 + Z.of_nat (length (store st))
}.

Lemma endTrade_ending o0 s0 last n st p :
  capital_ok cfg -> (p < length (store st))%nat -> ending o0 s0 (Time last) (S n) st ->
  ending o0 s0 (Time last) n (endTrade ExpenseRatioForTicker cfg last st p) /\
  length (store (endTrade ExpenseRatioForTicker cfg last st p)) = length (store st).
Proof.
  intros Hc Hp [].
  destruct (lookup_lt_is_Some_2 (store st) p Hp) as [t Et]. unfold endTrade. rewrite Et.
  destruct (endExit last _) as [reason price].
  destruct (bookExit_spec t (Time last) price (TQuantity t) reason) as (E1 & E2 & E3 & E4 & E5).
  cbv zeta. revert E1 E2 E3 E4 E5. generalize (bookExit ExpenseRatioForTicker cfg t (Time last) price (TQuantity t) reason).
  intros t1 E1 E2 E3 E4 E5.
  assert (Hst : excursions_ok t /\ TEntryTime t <= Time last).
  { rewrite list.Forall_forall in ed_store0. apply ed_store0. by eapply list_elem_of_lookup_2. }
  destruct Hst as [Hx He].
  match goal with |- context [reconcile ?u _ _] => set (t2 := u) end.
  assert (K : TEntryTime t2 = TEntryTime t /\ TExitTime t2 = Time last /\ ffin (TPnL t2) = true /\ excursions_ok t2)
    by (repeat split; try done; apply E5; done).
  clearbody t2. destruct K as (K2 & K3 & K4 & K5).
  match goal with |- context [reconcile t2 ?q ?s] => pose proof (reconcile_frame t2 q s) as F;
    generalize dependent (reconcile t2 q s) end.
  intros st2 F.
  destruct F. cbn in fr_capital0, fr_equity0, fr_trades0, fr_store0.
  split; [|cbn; by rewrite fr_store0, length_insert].
  constructor; cbn [capital equity trades store set]; rewrite ?fr_capital0, ?fr_equity0, ?fr_trades0, ?fr_store0; try done.
  - by apply bookCapital_bounded.
  - apply Forall_app. split; [done|]. apply list.Forall_singleton. split; [done|]. split; [done|lia].
  - apply Forall_insert; [done|]. split; [done|lia].
  - rewrite length_insert, length_app. cbn [length]. lia.
  - unfold opened in *. cbn in fr_opened0 |- *. rewrite length_insert. congruence.
  - unfold passed in *. cbn in fr_passed0 |- *. rewrite length_insert. congruence.
Qed.

Lemma closeAll_ending o0 s0 last (l : list (string * nat)) : forall st,
  capital_ok cfg -> Forall (fun kp => (kp.2 < length (store st))%nat) l ->
  ending o0 s0 (Time last) (length l) st ->
  ending o0 s0 (Time last) 0
    (fold_left (fun st kp => endTrade ExpenseRatioForTicker cfg last st kp.2) l st).
Proof.
  induction l as [|[k p] l IH]; intros st Hc Hl Hs; [done|].
  inversion Hl as [|? ? Hp Hl']; subst. cbn [fst snd] in Hp. cbn [fold_left snd].
  destruct (endTrade_ending _ _ _ _ _ p Hc Hp Hs) as [H1 H2].
  apply IH; [done| |exact H1]. by rewrite H2.
Qed.

Lemma initRun_books (e : state) T :
  capital_ok cfg -> books_ok (opened e) (passed e) T ∅ (initRun seeded cfg e).
Proof.
  intros Hc. pose proof (capital_ok_le cfg Hc) as Hl. destruct Hc as (Hi & Hp & Hh).
  constructor.
  - change (capital (initRun seeded cfg e)) with (InitialCapital cfg). split; [done|lia].
  - constructor.
  - constructor.
  - constructor.
  - intros sym p Hs. done.
  - done.
  - intros sym [x Hx]. done.
  - change (opened e = opened e + Z.of_nat 0). lia.
  - done.
  - change (passed e = passed e + Z.of_nat (0 + 0)). lia.
Qed.
End Laws.

(** ** Complete runs *)
Section Runs.
Context {rand : Type}.
Variable NormFloat64 : rand -> float64 * rand.
Variable RandFloat64 : rand -> float64 * rand.
Variable seeded : Z -> rand.
Variable ExpenseRatioForTicker : string -> float64.
Variable Now : Z.
Context {R : Type} `{StrategyRunner R}.
Variable newRunner : R.

(** Go's two [range]s visit every entry once, in some order. *)
Variable rangeOpen : gmap string nat -> list (string * nat).
Hypothesis rangeOpen_all : forall m, rangeOpen m ≡ₚ map_to_list m.
Variable rangePending : gmap string Signal -> list (string * Signal).
Hypothesis rangePending_all : forall m, rangePending m ≡ₚ map_to_list m.

Abbreviation state := (@State rand R).
Abbreviation run := (Run NormFloat64 RandFloat64 seeded ExpenseRatioForTicker Now newRunner rangeOpen rangePending).

Definition endTime (cs : list Candle) : Z := fold_left (fun _ c => Time c) cs 0.

Lemma in_account_defaults cfg c : in_account (withDefaults cfg) c <-> in_account cfg c.
Proof. unfold withDefaults, in_account. by destruct (_ <=? 0)%float, (_ && _). Qed.

Lemma capital_ok_defaults cfg : capital_ok (withDefaults cfg) <-> capital_ok cfg.
Proof. unfold withDefaults, capital_ok. by destruct (_ <=? 0)%float, (_ && _). Qed.

Lemma endTime_last cs c : List.last (map Some cs) None = Some c -> endTime cs = Time c.
Proof.
  unfold endTime. generalize 0. induction cs as [|d cs IH]; intros z E; [done|].
  cbn [fold_left]. destruct cs as [|d' cs]; [by injection E as ->|]. by apply IH.
Qed.

Lemma run_ending cfg feed cs (e st : state) :
  capital_ok cfg -> StronglySorted (fun a b => Time a <= Time b) cs ->
  run cfg feed cs e = Some st -> ending (withDefaults cfg) (opened e) (passed e) (endTime cs) 0 st.
Proof.
  intros Hc%capital_ok_defaults Hs. unfold Run. cbv zeta. set (cfg' := withDefaults cfg) in *.
  destruct (runBars _ _ _ _ _ _ cfg' feed 0 None cs _) as [st1|] eqn:E1; cbn [mbind option_bind]; [|done].
  destruct cs as [|c0 cs'].
  { intros [= <-]. injection E1 as <-. pose proof (initRun_books seeded cfg' e 0 Hc) as []. constructor; try done.
    all: first [rewrite bk_passed0|rewrite bk_closed0]; done. }
  assert (B1 : books_ok cfg' (opened e) (passed e) (endTime (c0 :: cs')) (pendingEntries st1) st1).
  { change (endTime (c0 :: cs')) with (fold_left (fun _ c => Time c) (c0 :: cs') (Time c0)).
    eapply runBars_books; try eassumption; [|by apply initRun_books].
    inversion Hs as [|? ? Hs' F]; subst. rewrite list.Forall_forall in F.
    intros c [->|Hin]%elem_of_cons; [lia|by apply F]. }
  clear E1. destruct (List.last _ None) as [last|] eqn:El.
  2: { exfalso. revert El. clear. generalize c0. induction cs' as [|d cs' IH]; intros z E; [done|]. by apply (IH d). }
  rewrite (endTime_last _ _ El) in *. intros [= <-].
  pose proof (flush_books NormFloat64 RandFloat64 cfg' _ _ last _ _ _ (rangePending_all _) B1) as B2.
  unfold closeAll. fold (flushPending NormFloat64 RandFloat64 rangePending cfg' last st1) in B2.
  set (st2 := flushPending _ _ _ _ _ _) in *. clearbody st2. destruct B2.
  apply closeAll_ending; [done| |].
  - apply list.Forall_forall. intros [k p] Hin. rewrite rangeOpen_all in Hin. apply elem_of_map_to_list in Hin.
    destruct (bk_open0 k p Hin) as (t & Et & _). by apply lookup_lt_Some in Et.
  - constructor; try done.
    + rewrite bk_closed0, rangeOpen_all, length_map_to_list. done.
    + rewrite bk_passed0, map_size_empty. f_equal. f_equal. lia.
Qed.

Lemma flush_equity cfg last l : forall st : state,
  equity (fold_left (fun st ks => flushOne NormFloat64 RandFloat64 cfg last st ks.1 ks.2) l st) = equity st.
Proof.
  induction l as [|[k sig] l IH]; intros st; [done|]. cbn [fold_left fst snd]. rewrite IH. unfold flushOne.
  match goal with |- context [executeEntry _ _ _ _ _ _ _ ?u] =>
    destruct (executeEntry_spec NormFloat64 RandFloat64 cfg (flushCandle last k) sig (Float64 (Close last)) 0 u)
      as (t & F) end.
  by rewrite (en_equity _ _ _ _ _ _ F).
Qed.

Lemma closeAll_equity cfg last l : forall st : state,
  equity (fold_left (fun st (kp : string * nat) => endTrade ExpenseRatioForTicker cfg last st kp.2) l st) = equity st.
Proof.
  induction l as [|[k p] l IH]; intros st; [done|]. cbn [fold_left snd]. rewrite IH. unfold endTrade.
  destruct (store st !! p) as [t|]; [|done]. destruct (endExit last _) as [reason price].
  match goal with |- context [reconcile ?t ?q ?u] => pose proof (fr_equity _ _ (reconcile_frame t q u)) as E;
    revert E; generalize (reconcile t q u) end.
  intros st2 E. exact E.
Qed.

(** C22: the account never breaks.  From a positive initial capital whose hundredfold
    is finite, and candles in time order, a run ends with a capital between 0 and a
    hundred times the initial one; so is every point of the equity curve; and every
    trade it reports has a finite PnL, excursions within +-10000 percent and an exit
    between its own entry and the end of the data. *)
Theorem engine_account_bounded cfg feed cs (e st : state) :
  capital_ok cfg -> StronglySorted (fun a b => Time a <= Time b) cs -> run cfg feed cs e = Some st ->
  in_account cfg (capital st) /\ Forall (fun p => in_account cfg (EqValue p)) (equity st) /\
  Forall (booked (endTime cs)) (trades st).
Proof.
  intros Hc Hs E. destruct (run_ending _ _ _ _ _ Hc Hs E). split; [by apply in_account_defaults|].
  split; [|done]. eapply list.Forall_impl; [exact ed_equity0|]. intros p. apply in_account_defaults.
Qed.

(** C21: no signal is lost and none is used twice.  In a complete run every signal
    that passed the gates became exactly one trade, each was counted as opened, and
    each was closed and reported exactly once, whatever the order Go ranges over the
    open trades and the pending entries. *)
Theorem engine_one_trade_per_signal cfg feed cs (e st : state) :
  capital_ok cfg -> StronglySorted (fun a b => Time a <= Time b) cs -> run cfg feed cs e = Some st ->
  length (store st) = length (trades st) /\
  passed st - passed e = Z.of_nat (length (trades st)) /\
  opened st - opened e = Z.of_nat (length (trades st)).
Proof. intros Hc Hs E. destruct (run_ending _ _ _ _ _ Hc Hs E). lia. Qed.

(** C23: a run returns.  With no warm-up, or a strategy that does not panic, [Run]
    ends for every list of candles, whatever their order and content, every regime
    log and every engine, and records at most one equity point per candle. *)
Theorem engine_run_returns cfg feed cs (e : state) :
  no_panic cfg -> exists st, run cfg feed cs e = Some st /\ (length (equity st) <= length cs)%nat.
Proof.
  intros Hn. unfold Run. cbv zeta. set (cfg' := withDefaults cfg).
  assert (Hn' : no_panic cfg').
  { unfold no_panic, cfg', withDefaults. by destruct (_ <=? 0)%float, (_ && _). }
  destruct (bars_return NormFloat64 RandFloat64 ExpenseRatioForTicker Now newRunner rangeOpen cfg' feed cs 0 None
              (initRun seeded cfg' e) Hn' (Z.le_refl _)) as (st & -> & L).
  cbn [mbind option_bind]. change (equity (initRun seeded cfg' e)) with (@nil EquityPoint) in L.
  destruct (List.last _ None) as [last|]; eexists; (split; [reflexivity|]); [|exact L].
  unfold closeAll, flushPending. rewrite closeAll_equity, flush_equity. exact L.
Qed.

(** C19: an entry never sees its own bar.  A bar either opens no trade or opens
    exactly one, of its own symbol and dated by it, on a signal that the strategy
    gave on an earlier bar of that symbol; its side is the signal's, and its entry
    price is the same whatever the high, the low and the close of the opening bar
    are.  The symbol, side, entry time and entry price of earlier trades do not change. *)
Theorem engine_next_bar_fill cfg feed cs c i prev (e st st' : state) :
  runBars NormFloat64 RandFloat64 ExpenseRatioForTicker Now newRunner rangeOpen cfg feed 0 None cs
    (initRun seeded cfg e) = Some st ->
  step NormFloat64 RandFloat64 ExpenseRatioForTicker Now newRunner rangeOpen cfg feed i prev c st = Some st' ->
  kept st st' /\
  (length (store st') = length (store st) \/
   exists sig t,
     decided NormFloat64 RandFloat64 ExpenseRatioForTicker Now newRunner rangeOpen cfg feed 0 None cs
       (initRun seeded cfg e) (Symbol c) sig /\
     length (store st') = S (length (store st)) /\ store st' !! length (store st) = Some t /\
     TSymbol t = Symbol c /\ TSide t = SigSide sig /\ TEntryTime t = Time c /\
     forall c' st2, same_open c c' ->
       step NormFloat64 RandFloat64 ExpenseRatioForTicker Now newRunner rangeOpen cfg feed i prev c' st = Some st2 ->
       exists t2, store st2 !! length (store st) = Some t2 /\ TEntryPrice t2 = TEntryPrice t).
Proof.
  intros E1 E2. destruct (step_opens _ _ _ _ _ _ _ _ _ _ _ _ _ E2) as [K [L|(sig & t & Hp & L)]].
  - split; [done|by left].
  - split; [done|]. right. exists sig, t. split; [|done].
    by destruct (pending_decided _ _ _ _ _ _ _ _ _ _ _ _ _ _ _ E1 Hp).
Qed.

(** A halted account is frozen.  From the moment the prop-firm enforcer of a run
    is halted, every further bar, whatever it holds, leaves the capital, the equity
    curve, the reported trades, the open trades and their stops, the pending entries
    and the random generator as they were, the enforcer stays halted across days, and
    the loop returns. *)
Theorem engine_halt_freezes cfg feed cs i prev (st : state) :
  frozen st -> exists st',
    runBars NormFloat64 RandFloat64 ExpenseRatioForTicker Now newRunner rangeOpen cfg feed i prev cs st = Some st' /\
    prepared st st' /\ kept st st' /\ frozen st'.
Proof. apply bars_frozen. Qed.
End Runs.

(** ** Examples *)

(** A strategy that buys on every bar with a stop a tenth below and a target a
    tenth above the close. *)
#[export] Instance buyer : StrategyRunner unit := {
  Evaluate r c _ := (Some (Some (mkSignal (Symbol c) "BUY" 0 SignalNone 0 "" (Close c * 9 / 10) (Close c * 11 / 10))), r);
  SetVIX := None; SetATR := None; PushSecondaryPrice := None
}.

Definition demoConfig : BacktestConfig :=
  mkConfig "buyer" ["X"%string] 100000 None 5.0 DefaultBrokerageFee true None None false ∅ 7 0.02 0.25 0 [] None
    false true.

Definition demoBar (day : Z) (open high low close : Z) : Candle :=
  mkCandle (day * 86400000000000) (open * 100000) (high * 100000) (low * 100000) (close * 100000) 100000 "X" 1 "" "".

(** A signal on the first bar, an entry on the second, a target on the third, and
    another round that the end of the data closes. *)
Definition demoBars : list Candle :=
  [demoBar 1 100 101 99 100; demoBar 2 100 101 99 100; demoBar 3 105 120 104 118; demoBar 4 118 119 117 118;
   demoBar 5 118 119 117 118].

Definition demoFeed : Feed := mkFeed ∅ [] [] None.
Definition demoEngine : @State unit unit := Build (mkSim DefaultEquitySlippage tt).
Abbreviation demoRun := (Run halfRand halfRand (fun _ => tt) (fun _ => 0%float) 0 tt map_to_list map_to_list
  demoConfig demoFeed demoBars demoEngine).

Lemma demo_capital : capital_ok demoConfig.
Proof. repeat split; vm_compute; reflexivity. Qed.

Lemma demo_sorted : StronglySorted (fun a b => Time a <= Time b) demoBars.
Proof. unfold demoBars. repeat constructor; apply Z.leb_le; vm_compute; reflexivity. Qed.

(** What the demonstration run reports: the engine takes the strategy's next signal,
    a buy, as a reversal of its long trade. *)
Example demo_reports :
  (fun st : State => map (fun t => (TEntryTime t / 86400000000000, TExitTime t / 86400000000000, TExitReason t))
     (trades st)) <$> demoRun =
  Some [(2, 2, "signal_reverse"); (3, 3, "take_profit"); (4, 4, "signal_reverse"); (5, 5, "signal_reverse");
        (5, 5, "end_of_data")]%string.
Proof. vm_compute. reflexivity. Qed.

Lemma demo_trades : exists st, demoRun = Some st /\ length (trades st) = 5%nat.
Proof. apply (fmap_witness (fun s : State => length (trades s))). vm_compute. reflexivity. Qed.

Lemma engine_account_bounded_witness :
  exists st, demoRun = Some st /\ length (trades st) = 5%nat /\
    (in_account demoConfig (capital st) /\ Forall (fun p => in_account demoConfig (EqValue p)) (equity st) /\
     Forall (booked (endTime demoBars)) (trades st)).
Proof.
  destruct demo_trades as (st & E & L). exists st. split; [exact E|]. split; [exact L|].
  exact (engine_account_bounded halfRand halfRand (fun _ => tt) (fun _ => 0%float) 0 tt map_to_list
    (fun _ => Permutation_refl _) map_to_list (fun _ => Permutation_refl _) demoConfig demoFeed demoBars demoEngine st
    demo_capital demo_sorted E).
Defined.

Lemma engine_one_trade_per_signal_witness :
  exists st, demoRun = Some st /\ length (trades st) = 5%nat /\
    (length (store st) = length (trades st) /\
     passed st - passed demoEngine = Z.of_nat (length (trades st)) /\
     opened st - opened demoEngine = Z.of_nat (length (trades st))).
Proof.
  destruct demo_trades as (st & E & L). exists st. split; [exact E|]. split; [exact L|].
  exact (engine_one_trade_per_signal halfRand halfRand (fun _ => tt) (fun _ => 0%float) 0 tt map_to_list
    (fun _ => Permutation_refl _) map_to_list (fun _ => Permutation_refl _) demoConfig demoFeed demoBars demoEngine st
    demo_capital demo_sorted E).
Defined.

Lemma engine_run_returns_witness :
  exists st, demoRun = Some st /\ (length (equity st) <= 5)%nat.
Proof.
  apply (engine_run_returns halfRand halfRand (fun _ => tt) (fun _ => 0%float) 0 tt map_to_list
    map_to_list demoConfig demoFeed demoBars demoEngine).
  left. apply Z.leb_le. vm_compute. reflexivity.
Defined.

(** The first two bars: the second opens the first trade. *)
Definition demoStart : @State unit unit := initRun (fun _ => tt) demoConfig demoEngine.
Abbreviation demoFirst := (runBars halfRand halfRand (fun _ => 0%float) 0 tt map_to_list demoConfig demoFeed 0 None
  (firstn 1 demoBars) (initRun (fun _ => tt) demoConfig demoEngine)).
Abbreviation demoSecond := (step halfRand halfRand (fun _ => 0%float) 0 tt map_to_list demoConfig demoFeed 1 None
  (demoBar 2 100 101 99 100)).

Lemma demo_opens : exists st st', demoFirst = Some st /\ demoSecond st = Some st' /\
  (length (store st), length (store st')) = (0, 1)%nat.
Proof.
  apply (bind_witness (fun s s' : State => (length (store s), length (store s')))). vm_compute. reflexivity.
Qed.

Lemma engine_next_bar_fill_witness :
  exists st st' sig t, demoFirst = Some st /\ demoSecond st = Some st' /\
    decided halfRand halfRand (fun _ => 0%float) 0 tt map_to_list demoConfig demoFeed 0 None (firstn 1 demoBars)
      (initRun (fun _ => tt) demoConfig demoEngine) "X" sig /\
    store st' !! length (store st) = Some t /\ TSide t = SigSide sig.
Proof.
  destruct demo_opens as (st & st' & E & E2 & [= L1 L2]).
  destruct (engine_next_bar_fill halfRand halfRand (fun _ => tt) (fun _ => 0%float) 0 tt map_to_list
    demoConfig demoFeed (firstn 1 demoBars) _ _ _ demoEngine st st' E E2) as [_ [L|(sig & t & D & _ & Et & _ & Es & _)]].
  - exfalso. rewrite L1, L2 in L. discriminate.
  - exists st, st', sig, t. by repeat (split; [eassumption|]).
Defined.

(** An enforcer halted by a loss, in the middle of a run. *)
Definition haltedStart : @State unit unit :=
  demoStart <| ftmo := Some (PropFirmEnforcer.MarkViolated (PropFirmEnforcer.DefaultPropFirmEnforcer 100000) "loss") |>.

Lemma engine_halt_freezes_witness :
  frozen haltedStart /\ exists st',
    runBars halfRand halfRand (fun _ => 0%float) 0 tt map_to_list demoConfig demoFeed 0 None demoBars haltedStart = Some st' /\
    prepared haltedStart st' /\ kept haltedStart st' /\ frozen st'.
Proof.
  assert (F : frozen haltedStart) by (by eexists). split; [exact F|].
  exact (engine_halt_freezes halfRand halfRand (fun _ => 0%float) 0 tt map_to_list demoConfig demoFeed demoBars 0 None
    haltedStart F).
Defined.
