(* ===== verification/Metrics.v ===== *)
(** * Backtest metrics ([internal/backtest/metrics.go] and the [calculate...]
    functions of engine.go)

    What a run reports about its trades and its equity curve.  A day key
    (["2006-01-02"] of a UTC time) is the instant the day starts, in the same order
    as the strings; [math.Pow] is a parameter. *)
From Stdlib Require Import ZArith Lia Bool Floats.
From stdpp Require Import sorting.
From coqutil Require Import RecordSettersUsingExistingGetters.
From S2P Require Import Prelude Float64 FloatRound FloatLaws Price Sizing StopLoss Fills PoolSim Timeline Trade Engine EngineLaws.
Local Open Scope float_scope.
Local Open Scope go_scope.

Definition minTradesForMetrics : Z := 5.
Definition minTradesForReliable : Z := 20.

(** ** Trades *)
Definition isWin (t : Trade) : bool := TPnL t >? 0.
Definition countIf {A} (p : A -> bool) (l : list A) : Z := Z.of_nat (length (List.filter p l)).

(** Breakeven trades count as losses. *)
Definition countWinsLosses (trades : list Trade) : Z * Z :=
  (countIf isWin trades, countIf (fun t => negb (isWin t)) trades).

Definition ratePct (count total : Z) : float64 := of_Z count / of_Z total * 100.

Definition calculateWinRate (trades : list Trade) : float64 :=
  match trades with [] => 0 | _ => ratePct (countIf isWin trades) (Z.of_nat (length trades)) end.

Definition calculateAdverseSelectionRate (trades : list Trade) : float64 :=
  match trades with [] => 0 | _ => ratePct (countIf TAdverseSelection trades) (Z.of_nat (length trades)) end.

(** Gross profit and gross loss. *)
Definition gross (trades : list Trade) : float64 * float64 :=
  fold_left (fun wl t => if isWin t then (wl.1 + TPnL t, wl.2) else (wl.1, wl.2 + - TPnL t)) trades (0, 0).

Definition calculateProfitFactor (trades : list Trade) : float64 :=
  match trades with
  | [] => 0
  | _ =>
      let '(grossWin, grossLoss) := gross trades in
      if grossLoss =? 0 then (if grossWin >? 0 then 999.0 else 0)
      else if math.IsNaN grossWin || math.IsNaN grossLoss || math.IsInf grossWin 0 || math.IsInf grossLoss 0 then 0
      else grossWin / grossLoss
  end.

(** The metric registry's version, with infinities. *)
Definition computeProfitFactor (trades : list Trade) : float64 :=
  let '(grossProfit, grossLoss) := gross trades in
  if grossLoss =? 0 then (if grossProfit >? 0 then infinity else 0)
  else let pf := grossProfit / grossLoss in if pf >? 100 then infinity else pf.

Definition calculateAvgWinLoss (trades : list Trade) : float64 * float64 :=
  let '(wins, losses) := gross trades in
  let '(winCount, lossCount) := countWinsLosses trades in
  (if Z.ltb 0 winCount then wins / of_Z winCount else 0,
   if Z.ltb 0 lossCount then losses / of_Z lossCount else 0).

(** *** Long and short trades *)
Record SideStats := mkSide {
  SdTrades : Z; SdWins : Z; SdGrossPnL : float64; SdLoss : float64; SdMAE : float64; SdMFE : float64
}.

Definition unusable (x : float64) : bool := math.IsNaN x || math.IsInf x 0.

Definition addSide (s : SideStats) (t : Trade) : SideStats :=
  mkSide (SdTrades s + 1) (if isWin t then SdWins s + 1 else SdWins s)%Z (SdGrossPnL s + TPnL t)
    (if isWin t then SdLoss s else SdLoss s + - TPnL t) (SdMAE s + TMAE t) (SdMFE s + TMFE t).

Definition sideStats (long : bool) (trades : list Trade) : SideStats :=
  fold_left (fun s t =>
    if unusable (TPnL t) || unusable (TMAE t) || unusable (TMFE t) then s
    else if Bool.eqb (bool_decide (TSide t = "BUY"%string)) long then addSide s t else s)
    trades (mkSide 0 0 0 0 0 0).

(** Win rate, average PnL, average excursions, profit factor. *)
Definition sideSummary (s : SideStats) : float64 * float64 * float64 * float64 * float64 :=
  let n := of_Z (SdTrades s) in
  let pf := if SdLoss s >? 0 then (SdGrossPnL s + SdLoss s) / SdLoss s
            else if SdGrossPnL s >? 0 then 999.0 else 0 in
  if Z.ltb 0 (SdTrades s)
  then (ratePct (SdWins s) (SdTrades s), SdGrossPnL s / n, SdMAE s / n, SdMFE s / n, pf)
  else (0, 0, 0, 0, pf).

Definition directionalBias (trades : list Trade) : float64 :=
  let l := SdGrossPnL (sideStats true trades) in
  let s := SdGrossPnL (sideStats false trades) in
  let total := math.Abs l + math.Abs s in
  if total >? 0 then (l - s) / total else 0.

(** *** Regimes *)
Record RegimeStat := mkRegimeStat {
  RsRegime : Z; RsLabel : string; RsNumTrades : Z; RsWinRate : float64; RsTotalReturn : float64
}.

Definition regimeLabel (r : Z) : string :=
  match r with
  | 0%Z => "Calm" | 1%Z => "Trending" | 2%Z => "High Vol" | 3%Z => "Crisis" | _ => ""
  end%string.

(** The regimes of the trades, once each; the code collects them in a map and sorts. *)
Definition regimesOf (trades : list Trade) : list Z :=
  fold_left (fun acc t => if bool_decide (THMMRegime t ∈ acc) then acc else acc ++ [THMMRegime t]) trades [].

Definition regimeStat (trades : list Trade) (r : Z) : RegimeStat :=
  let own := List.filter (fun t => Z.eqb (THMMRegime t) r) trades in
  let n := Z.of_nat (length own) in
  mkRegimeStat r (regimeLabel r) n (ratePct (countIf isWin own) n)
    (fold_left (fun s t => s + TPnL t) own 0 / of_Z n).

Definition calculateRegimeStats `{SortSlice} (trades : list Trade) : list RegimeStat :=
  sortSlice (fun a b => Z.ltb (RsRegime a) (RsRegime b)) (map (regimeStat trades) (regimesOf trades)).

(** *** Periods *)
Record PeriodStat := mkPeriod {
  NetPnL : float64; PsNumTrades : Z; PsWinRate : float64; GrossProfit : float64; GrossLoss : float64;
  PsCommission : float64; BrokerFees : float64
}.

Definition addToPeriod (ps : PeriodStat) (t : Trade) : PeriodStat :=
  let n := (PsNumTrades ps + 1)%Z in
  mkPeriod (NetPnL ps + TPnL t) n
    (if isWin t then (PsWinRate ps * of_Z (n - 1) + 100.0) / of_Z n
     else PsWinRate ps * of_Z (n - 1) / of_Z n)
    (if isWin t then GrossProfit ps + TPnL t else GrossProfit ps)
    (if TPnL t <? 0 then GrossLoss ps + - TPnL t else GrossLoss ps)
    (PsCommission ps + Float64 (TEntryPrice t) * TQuantity t * 0.005 / 10000.0 * 2)
    (BrokerFees ps + TBrokerFee t).

(** ** The equity curve *)
Definition drawdownAt (peak value : float64) : float64 := (peak - value) / peak * 100.

Definition drawdownStep (pm : float64 * float64) (p : EquityPoint) : float64 * float64 :=
  let peak := if EqValue p >? pm.1 then EqValue p else pm.1 in
  let dd := drawdownAt peak (EqValue p) in
  (peak, if dd >? pm.2 then dd else pm.2).

Definition calculateMaxDrawdown (equity : list EquityPoint) : float64 :=
  (fold_left drawdownStep equity (0, 0)).2.

(** The registry's version starts from the first point instead of 0. *)
Definition computeMaxDrawdown (equity : list EquityPoint) : float64 :=
  match equity with
  | [] => 0
  | p :: _ => (fold_left drawdownStep equity (EqValue p, 0)).2
  end.

(** Peak, current duration, longest duration, whether in a drawdown. *)
Definition durationStep (s : float64 * nat * nat * bool) (p : EquityPoint) : float64 * nat * nat * bool :=
  let '(peak, cur, mx, inDrawdown) := s in
  if EqValue p >=? peak then
    if (inDrawdown : bool) then (EqValue p, 0%nat, if Nat.ltb mx cur then cur else mx, false)
    else (EqValue p, cur, mx, false)
  else (peak, S cur, mx, true).

Definition calculateMaxDrawdownDuration (equity : list EquityPoint) : nat :=
  let '(_, cur, mx, _) := fold_left durationStep equity (0, 0%nat, 0%nat, false) in
  if Nat.ltb mx cur then cur else mx.

(** *** Daily closes: the last value of each day, days in order of appearance *)
Definition dayStep (d : list Z * gmap Z float64) (p : EquityPoint) : list Z * gmap Z float64 :=
  let key := truncateDay (EqTime p) in
  (match d.2 !! key with Some _ => d.1 | None => d.1 ++ [key] end, <[key := EqValue p]> d.2).

Definition dailyCloses (equity : list EquityPoint) : list (Z * float64) :=
  let '(order, m) := fold_left dayStep equity ([], ∅) in
  map (fun k => (k, default 0 (m !! k))) order.

Fixpoint pairwise {A B} (f : A -> A -> B) (l : list A) : list B :=
  match l with
  | x :: ((y :: _) as r) => f x y :: pairwise f r
  | _ => []
  end.

Definition simpleReturn (prev curr : float64) : float64 := (curr - prev) / prev.

(** The returns of the days whose predecessor closed positive. *)
Definition dayReturns (equity : list EquityPoint) : list float64 :=
  omap id (pairwise (fun a b => if a.2 >? 0 then Some (simpleReturn a.2 b.2) else None) (dailyCloses equity)).

Definition sumOf (l : list float64) : float64 := fold_left PrimFloat.add l 0.
Definition meanOf (l : list float64) : float64 := sumOf l / of_Z (Z.of_nat (length l)).

Definition fewPoints {A} (n : nat) (l : list A) : bool := Nat.ltb (length l) n.

Definition calculateSharpe (equity : list EquityPoint) : float64 :=
  let returns := dayReturns equity in
  if fewPoints 2 equity || fewPoints 2 (dailyCloses equity) || fewPoints 2 returns then 0
  else
    let mean := meanOf returns in
    let variance := fold_left (fun v r => v + (r - mean) * (r - mean)) returns 0 /
                    of_Z (Z.of_nat (length returns) - 1) in
    if variance =? 0 then 0
    else
      let stdDev := math.Sqrt variance in
      if stdDev <? 0.000001 then 0 else mean / stdDev * math.Sqrt 252.0.

Definition calculateSortino (equity : list EquityPoint) : float64 :=
  let returns := dayReturns equity in
  if fewPoints 2 equity || fewPoints 2 (dailyCloses equity) || fewPoints 2 returns then 0
  else
    let mean := meanOf returns in
    let neg := List.filter (fun r => r <? 0) returns in
    let sumSq := fold_left (fun s r => s + r * r) neg 0 in
    let count := Z.of_nat (length neg) in
    if Z.eqb count 0 || (sumSq =? 0) then 0
    else if unusable mean || unusable sumSq then 0
    else
      let down := math.Sqrt (sumSq / of_Z count) in
      if down <? 0.000001 then 0
      else
        let result := mean / down * math.Sqrt 252.0 in
        if unusable result then 0 else result.

(** *** The registry's own versions ([metrics.go]): a day after a non-positive close
    returns 0 instead of being left out *)
Definition equityToDailyReturns (equity : list EquityPoint) : list float64 :=
  if fewPoints 2 equity then []
  else pairwise (fun a b => if a.2 >? 0 then simpleReturn a.2 b.2 else 0) (dailyCloses equity).

Definition stdDev (values : list float64) : float64 :=
  if fewPoints 2 values then 0
  else
    let m := meanOf values in
    math.Sqrt (fold_left (fun s v => s + (v - m) * (v - m)) values 0 / of_Z (Z.of_nat (length values) - 1)).

Definition computeSharpe (equity : list EquityPoint) : float64 :=
  let returns := equityToDailyReturns equity in
  if fewPoints 2 returns then 0
  else
    let std := stdDev returns in
    if std =? 0 then 0 else meanOf returns / std * math.Sqrt 252.

(** [calculateMtmSharpe] ignores its bars per day. *)
Definition calculateMtmSharpe (equity : list EquityPoint) (barsPerDay : float64) : float64 :=
  computeSharpe equity.

Definition computeSortino (equity : list EquityPoint) : float64 :=
  let returns := equityToDailyReturns equity in
  if fewPoints 2 returns then 0
  else
    let mean := meanOf returns in
    let neg := List.filter (fun r => r <? 0) returns in
    let sumSq := fold_left (fun s r => s + r * r) neg 0 in
    if Nat.eqb (length neg) 0 || (sumSq =? 0) then 0
    else
      let downside := math.Sqrt (sumSq / of_Z (Z.of_nat (length neg))) in
      if downside <? math.Abs mean * 0.10 then 0
      else
        let sortino := mean / downside * math.Sqrt 252 in
        if sortino >? 20 then 0 else sortino.

(** The daily return series of the report: all days, in percent. *)
Definition calculateDailyReturns `{SortSlice} (equity : list EquityPoint) : list (Z * float64) :=
  if fewPoints 2 equity then []
  else
    pairwise (fun a b => (b.1, if a.2 >? 0 then simpleReturn a.2 b.2 * 100 else 0))
      (sortSlice (fun a b => Z.ltb a.1 b.1) (dailyCloses equity)).

(** [equityToReturns]: bar by bar, 0 after a non-positive value. *)
Definition equityToReturns (equity : list EquityPoint) : list float64 :=
  pairwise (fun a b => if EqValue a >? 0 then simpleReturn (EqValue a) (EqValue b) else 0) equity.

Definition computeTotalReturn (equity : list EquityPoint) : float64 :=
  match equity, list.last equity with
  | a :: _ :: _, Some b => if EqValue a =? 0 then 0 else (EqValue b - EqValue a) / EqValue a * 100.0
  | _, _ => 0
  end.

Section Growth.
(** [math.Pow] *)
Variable Pow : float64 -> float64 -> float64.

Definition computeCAGR (equity : list EquityPoint) : float64 :=
  match equity, list.last equity with
  | a :: _ :: _, Some b =>
      if (EqValue a <=? 0) || (EqValue b <=? 0) then 0
      else
        let days := durationHours (subTime (EqTime b) (EqTime a)) / 24.0 in
        if days <? 1 then 0
        else
          let years := days / 365.25 in
          (Pow (EqValue b / EqValue a) (1.0 / years) - 1.0) * 100.0
  | _, _ => 0
  end.

Definition calculateCalmar (equity : list EquityPoint) : float64 :=
  if fewPoints 2 equity then 0
  else
    let cagr := computeCAGR equity in
    let maxDD := computeMaxDrawdown equity in
    if maxDD <=? 0 then 0 else cagr / maxDD.

(** [ComputeAllMetrics]: the metrics that the package registers. *)
Definition ComputeAllMetrics (equity : list EquityPoint) (trades : list Trade) : gmap string float64 :=
  list_to_map
    [("sharpe_ratio", computeSharpe equity); ("sortino_ratio", computeSortino equity);
     ("max_drawdown_pct", computeMaxDrawdown equity); ("win_rate_pct", calculateWinRate trades);
     ("profit_factor", computeProfitFactor trades); ("total_return_pct", computeTotalReturn equity);
     ("num_trades", of_Z (Z.of_nat (length trades)));
     ("max_drawdown_duration_days", of_Z (Z.of_nat (calculateMaxDrawdownDuration equity)));
     ("cagr_pct", computeCAGR equity);
     ("trading_volume", fold_left (fun v t => v + TQuantity t) trades 0)]%string.

(** ** What [Run] puts in its result *)
Record Metrics := mkMetrics {
  WinRate : float64; MaxDrawdown : float64; MaxDrawdownDuration : nat; AvgWin : float64; AvgLoss : float64;
  NumWins : Z; NumLosses : Z; SharpeRatio : float64; SortinoRatio : float64; CalmarRatio : float64;
  MtmMaxDrawdown : float64; MtmSharpeRatio : float64; ProfitFactor : float64; AdverseSelectionRate : float64
}.

Definition zeroMetrics : Metrics := mkMetrics 0 0 0 0 0 0 0 0 0 0 0 0 0 0.

Definition report (trades : list Trade) (equity mtmEquity : list EquityPoint) : Metrics :=
  let n := Z.of_nat (length trades) in
  if Z.ltb 0 n then
    mkMetrics (calculateWinRate trades) (calculateMaxDrawdown equity) (calculateMaxDrawdownDuration equity)
      (calculateAvgWinLoss trades).1 (calculateAvgWinLoss trades).2
      (countWinsLosses trades).1 (countWinsLosses trades).2
      (if Z.leb minTradesForMetrics n then calculateSharpe equity else 0)
      (if Z.leb minTradesForReliable n then calculateSortino equity else 0)
      (if Z.leb minTradesForReliable n then calculateCalmar equity else 0)
      (if fewPoints 2 mtmEquity then 0 else calculateMaxDrawdown mtmEquity)
      (if fewPoints 2 mtmEquity || Z.ltb n minTradesForMetrics then 0 else computeSharpe mtmEquity)
      (calculateProfitFactor trades) (calculateAdverseSelectionRate trades)
  else zeroMetrics.
End Growth.

(** ** The data generation a result is linked to *)
Definition generationCounts (candles : list Candle) : gmap string Z :=
  fold_left (fun m c => if bool_decide (GenerationID c = ""%string) then m
                        else <[GenerationID c := (mget 0%Z m (GenerationID c) + 1)%Z]> m) candles ∅.

Definition pickGeneration (best : string * Z) (e : string * Z) : string * Z :=
  if Z.ltb best.2 e.2 || (Z.eqb e.2 best.2 && String.ltb e.1 best.1) then e else best.

(** [entries]: the counts in the order Go ranges over the map. *)
Definition representativeGenerationID (entries : list (string * Z)) : string :=
  (fold_left pickGeneration entries (""%string, 0%Z)).1.

(** ** Proofs *)
Section MetricLaws.
Local Open Scope Z_scope.

Lemma countIf_le {A} (p : A -> bool) l : 0 <= countIf p l <= Z.of_nat (length l).
Proof. unfold countIf. pose proof (filter_length_le p l). lia. Qed.

Lemma countIf_split {A} (p : A -> bool) l : countIf p l + countIf (fun x => negb (p x)) l = Z.of_nat (length l).
Proof.
  unfold countIf. induction l as [|x l IH]; [done|]. cbn. destruct (p x); cbn; lia.
Qed.

(** A percentage of a part of a whole. *)
Definition percentage (x : float64) : Prop := ffin x = true /\ 0 <= fv x <= fv 100%float.

Lemma unit_hundred m : unit0 m -> percentage (m * 100)%float.
Proof.
  intros (Fm & Hm). pose proof (mul_nearest m 100%float Fm eq_refl) as N. pose proof onev_pos as O.
  fold onev in N. assert (H100 : 0 < fv 100%float) by (vm_compute; reflexivity).
  assert (Hle : fv (m * 100)%float <= fv 100%float) by (apply (nearest_le _ _ _ 100%float O N eq_refl); nia).
  assert (Hge : 0 <= fv (m * 100)%float).
  { rewrite <- fv_zero_lit. apply (nearest_ge _ _ _ 0%float O N eq_refl). rewrite fv_zero_lit. nia. }
  split; [|done]. apply (nearest_fin _ _ _ 100%float O N eq_refl). rewrite Z.abs_eq; nia.
Qed.

Lemma ratePct_percentage c n : 0 <= c <= n -> 0 < n <= 2 ^ 53 -> percentage (ratePct c n).
Proof.
  intros Hc Hn. destruct (of_Z_exact c) as [F1 E1]; [lia|]. destruct (of_Z_exact n) as [F2 E2]; [lia|].
  pose proof onev_pos. apply unit_hundred, div_le_one; try done.
  - split; [done|]. rewrite E1. nia.
  - rewrite E2. nia.
  - rewrite E1, E2. nia.
Qed.

(** *** Gross profit and loss *)
Definition nonneg (x : float64) : Prop := fnan x = false /\ 0 <= fv x.

Lemma inf_add x : ffin x = true -> (infinity + x)%float = infinity.
Proof.
  intros Fx. apply Prim2SF_inj. rewrite add_spec.
  destruct (ffin_cases x Fx) as [(s & -> & _)|(s & m & e & -> & _)]; reflexivity.
Qed.

Lemma nonneg_add x y : nonneg x -> nonneg y -> nonneg (x + y)%float.
Proof.
  intros [Nx Hx] [Ny Hy]. destruct (ffin x) eqn:Fx, (ffin y) eqn:Fy.
  - destruct (add_pos0 x y) as (N & L & _); [by split..|]. split; [done|lia].
  - rewrite (nonfin_pos y Ny Fy Hy), add_inf by done. by vm_compute.
  - rewrite (nonfin_pos x Nx Fx Hx), inf_add by done. by vm_compute.
  - rewrite (nonfin_pos x Nx Fx Hx), (nonfin_pos y Ny Fy Hy). by vm_compute.
Qed.

Lemma gross_from trades : forall w l,
  Forall (fun t => ffin (TPnL t) = true) trades -> nonneg w -> nonneg l ->
  let r := fold_left (fun wl t => if isWin t then (wl.1 + TPnL t, wl.2)%float
                                  else (wl.1, wl.2 + - TPnL t)%float) trades (w, l) in
  nonneg r.1 /\ nonneg r.2.
Proof.
  induction trades as [|t trades IH]; intros w l F Hw Hl; [done|].
  inversion F as [|? ? Ht F']; subst. cbn [fold_left fst snd].
  destruct (isWin t) eqn:E; unfold isWin in E; apply IH; try done; apply nonneg_add; try done.
  - apply ltb_true in E as (_ & _ & E). rewrite fv_zero_lit in E. split; [by apply ffin_nan|lia].
  - apply ltb_false in E; [|done|by apply ffin_nan]. rewrite fv_zero_lit in E.
    split; [rewrite fnan_opp; by apply ffin_nan|]. rewrite fv_opp. lia.
Qed.

Lemma gross_nonneg trades :
  Forall (fun t => ffin (TPnL t) = true) trades -> nonneg (gross trades).1 /\ nonneg (gross trades).2.
Proof. intros F. apply gross_from; [done|by vm_compute..]. Qed.

Lemma nonneg_finite x : nonneg x -> math.IsInf x 0 = false -> pos0 x.
Proof.
  intros [Nx Hx] E. split; [|done]. destruct (ffin x) eqn:F; [done|].
  by rewrite (nonfin_pos x Nx F Hx) in E.
Qed.

Lemma profit_factor_nonneg trades :
  Forall (fun t => ffin (TPnL t) = true) trades -> nonneg (calculateProfitFactor trades).
Proof.
  intros F. unfold calculateProfitFactor. destruct trades as [|t trades]; [by vm_compute|].
  destruct (gross_nonneg _ F) as [W L]. destruct (gross (t :: trades)) as [w l]. cbn [fst snd] in W, L.
  destruct (l =? 0)%float eqn:E0; [destruct (_ <? _)%float; by vm_compute|].
  destruct (_ || _) eqn:E; [by vm_compute|].
  apply orb_false_iff in E as [E El]. apply orb_false_iff in E as [E Ew].
  pose proof (nonneg_finite w W Ew) as [Fw Hw]. pose proof (nonneg_finite l L El) as [Fl Hl].
  assert (0 < fv l).
  { rewrite eqb_fv in E0. rewrite (ffin_nan _ Fl) in E0. change (fnan 0%float) with false in E0.
    cbn [negb andb] in E0. rewrite fv_zero_lit in E0. apply Z.eqb_neq in E0. lia. }
  destruct (div_sign w l Fw Fl) as (N & P & _); [done|]. split; [done|]. by apply P.
Qed.

(** *** Drawdown *)
Definition curve_ok (equity : list EquityPoint) : Prop := Forall (fun p => pos0 (EqValue p)) equity.

Lemma zero_over_zero v : ffin v = true -> fv v = 0 -> ((0 - v) / 0)%float = nan.
Proof.
  intros Fv E. apply Prim2SF_inj. rewrite div_spec, sub_spec.
  destruct (ffin_cases v Fv) as [(s & -> & _)|(s & m & e & _ & B & V)]; [by destruct s|].
  exfalso. apply bounded_mag in B as (_ & B & _). rewrite V in E.
  assert (0 < Z.pos m * 2 ^ (e + 1074)) by (apply Z.mul_pos_pos; [lia|]; apply Z.pow_pos_nonneg; lia).
  destruct s; cbn [cond_Zopp] in E; lia.
Qed.

Definition dd_ok (pm : float64 * float64) : Prop :=
  (pm.1 = 0%float \/ (pos0 pm.1 /\ 0 < fv pm.1)) /\ percentage pm.2.

Lemma drawdownStep_ok pm p : dd_ok pm -> pos0 (EqValue p) -> dd_ok (drawdownStep pm p).
Proof.
  intros [Hp Hm] [Fv Hv]. destruct pm as [peak mx]. cbn [fst snd] in *. unfold drawdownStep. cbn [fst snd].
  assert (Fp : ffin peak = true) by (destruct Hp as [->|[[? _] _]]; done).
  set (peak' := if (peak <? EqValue p)%float then EqValue p else peak).
  assert (Hp' : (peak' = 0%float \/ (pos0 peak' /\ 0 < fv peak')) /\ fv (EqValue p) <= fv peak' /\ ffin peak' = true).
  { unfold peak'. destruct (peak <? EqValue p)%float eqn:E.
    - apply ltb_true in E as (_ & _ & E). split; [|split; [lia|done]]. right. split; [by split|].
      destruct Hp as [->|[[_ ?] ?]]; [rewrite fv_zero_lit in E|]; lia.
    - apply ltb_false in E; [|by apply ffin_nan..]. done. }
  clearbody peak'. destruct Hp' as (Hp' & Hle & Fp'). split; [done|]. cbn [snd].
  destruct (mx <? drawdownAt peak' (EqValue p))%float eqn:E; [|done].
  unfold drawdownAt in E |- *. destruct Hp' as [->|[Pp Hpos]].
  { exfalso. rewrite fv_zero_lit in Hle. rewrite zero_over_zero in E by (done || lia).
    apply ltb_true in E as (_ & E & _). done. }
  apply unit_hundred. destruct (sub_sign peak' (EqValue p) Fp' Fv) as (Ns & S1 & _).
  destruct (sub_pos0_le peak' (EqValue p) Fp' (conj Fv Hv)) as [_ Hs].
  specialize (S1 Hle). apply div_le_one; try done.
  split; [|done]. apply (ffin_between 0%float _ peak'); done.
Qed.

Lemma maxDrawdown_percentage equity : curve_ok equity -> percentage (calculateMaxDrawdown equity).
Proof.
  unfold calculateMaxDrawdown. assert (H0 : dd_ok (0, 0)%float).
  { split; [by left|]. split; [done|]. vm_compute. by split. }
  revert H0. generalize (0, 0)%float. induction equity as [|p equity IH]; intros pm H0 F; [apply H0|].
  inversion F; subst. cbn [fold_left]. apply IH; [|done]. by apply drawdownStep_ok.
Qed.

(** *** Drawdown spells *)
Definition values (equity : list EquityPoint) : list Z := map (fun p => fv (EqValue p)) equity.

(** The [i]th value is below an earlier one. *)
Definition under (l : list Z) (i : nat) : Prop :=
  exists j x y, (j < i)%nat /\ l !! j = Some x /\ l !! i = Some y /\ y < x.

(** [n] points in a row from [i] on, each below some earlier point. *)
Definition spell (l : list Z) (i n : nat) : Prop :=
  (i + n <= length l)%nat /\ forall k, (i <= k < i + n)%nat -> under l k.

Lemma under_app l v k : (k < length l)%nat -> under (l ++ [v]) k <-> under l k.
Proof.
  intros Hk. unfold under. split; intros (j & x & y & Hj & Ex & Ey & H); exists j, x, y;
    rewrite ?lookup_app_l in * by lia; done.
Qed.

Lemma under_last l v : under (l ++ [v]) (length l) <-> exists x, x ∈ l /\ v < x.
Proof.
  unfold under. split.
  - intros (j & x & y & Hj & Ex & Ey & H). rewrite lookup_app_l in Ex by done.
    rewrite list_lookup_middle in Ey by done. injection Ey as <-. exists x. split; [by eapply list_elem_of_lookup_2|done].
  - intros (x & Hx & H). apply list_elem_of_lookup_1 in Hx as [j Ej]. exists j, x, v.
    split; [by eapply lookup_lt_Some|]. split; [|by rewrite list_lookup_middle].
    rewrite lookup_app_l; [done|by eapply lookup_lt_Some].
Qed.

(** The loop's state: the peak, the spell that ends here, the longest ended one. *)
Definition duration_inv (l : list Z) (s : float64 * nat * nat * bool) : Prop :=
  let '(peak, cur, mx, inDD) := s in
  ffin peak = true /\ (forall x, x ∈ l -> x <= fv peak) /\ (l <> [] -> fv peak ∈ l) /\ (l = [] -> peak = 0%float) /\
  inDD = Nat.ltb 0 cur /\ (exists i, spell l i mx) /\ (exists i, (i + cur = length l)%nat /\ spell l i cur) /\
  (forall i n, (i + n = length l)%nat -> spell l i n -> (n <= cur)%nat) /\
  (forall i n, spell l i n -> (n <= Nat.max mx cur)%nat).

Lemma spell_snoc l v i n : (i + n <= length l)%nat -> spell (l ++ [v]) i n <-> spell l i n.
Proof.
  intros Hn. unfold spell. rewrite length_app. cbn [length]. split; intros [_ H]; (split; [lia|]);
    intros k Hk; (apply (under_app l v k); [lia|]); by apply H.
Qed.

Lemma duration_step l s p :
  pos0 (EqValue p) -> duration_inv l s -> duration_inv (l ++ [fv (EqValue p)]) (durationStep s p).
Proof.
  intros [Fv Hv] I. destruct s as [[[peak cur] mx] inDD]. destruct I as (Fp & Up & Wp & W0 & -> & [im Sm] & [ic [Ec Sc]] & Mx & Bd).
  assert (Lift : forall i n, spell l i n -> spell (l ++ [fv (EqValue p)]) i n)
    by (intros i n Sp; apply spell_snoc; [apply Sp|done]).
  unfold durationStep. rewrite leb_fv_nn by (by apply ffin_nan).
  assert (Last : fv peak <= fv (EqValue p) <-> ~ under (l ++ [fv (EqValue p)]) (length l)).
  { rewrite under_last. split.
    - intros H (x & Hx & L). specialize (Up x Hx). lia.
    - intros H. destruct (Z.le_gt_cases (fv peak) (fv (EqValue p))) as [|G]; [done|]. exfalso. apply H.
      exists (fv peak). split; [|done]. apply Wp. intros ->. rewrite (W0 eq_refl), fv_zero_lit in G. lia. }
  destruct (Z.leb_spec (fv peak) (fv (EqValue p))) as [L|G].
  - assert (Nu : ~ under (l ++ [fv (EqValue p)]) (length l)) by (by apply Last).
    assert (Old : forall i n, spell (l ++ [fv (EqValue p)]) i n -> n = 0%nat \/ spell l i n).
    { intros i n Sp. destruct (Nat.eq_dec n 0%nat) as [->|Hn]; [by left|right]. apply (spell_snoc l (fv (EqValue p))); [|done].
      destruct Sp as [S1 S2]. rewrite length_app in S1. cbn [length] in S1.
      destruct (Nat.eq_dec (i + n)%nat (S (length l))) as [E|]; [|lia]. exfalso. apply Nu, S2. lia. }
    assert (Base : forall peak' : float64, peak' = EqValue p -> ffin peak' = true /\
      (forall x, x ∈ l ++ [fv (EqValue p)] -> x <= fv peak') /\
      (l ++ [fv (EqValue p)] <> [] -> fv peak' ∈ l ++ [fv (EqValue p)]) /\
      (l ++ [fv (EqValue p)] = [] -> peak' = 0%float)).
    { intros ? ->. split; [done|]. split; [|split; [intros _; apply elem_of_app; right; by apply list_elem_of_singleton|by destruct l]].
      intros x [Hx| ->]%elem_of_snoc; [|done]. specialize (Up x Hx). lia. }
    assert (End : forall mx', (Nat.max mx cur = mx')%nat -> duration_inv (l ++ [fv (EqValue p)]) (EqValue p, 0%nat, mx', false)).
    { intros mx' <-. unfold duration_inv. destruct (Base _ eq_refl) as (B1 & B2 & B3 & B4).
      split; [done|]. split; [done|]. split; [done|]. split; [done|]. split; [done|].
      split; [destruct (Nat.max_spec mx cur) as [[_ ->]|[_ ->]]; eexists; by apply Lift|].
      split; [exists (length (l ++ [fv (EqValue p)])); split; [lia|]; split; [lia|intros k Hk; lia]|].
      split; [intros i n Hn Sp; destruct (Old i n Sp) as [->|Sp']; [lia|]; destruct Sp' as [S1 _];
              rewrite length_app in Hn; cbn [length] in Hn; lia|].
      intros i n Sp. destruct (Old i n Sp) as [->|Sp']; [lia|]. specialize (Bd i n Sp'). lia. }
    destruct (Nat.ltb_spec 0 cur) as [C|C].
    + apply End. destruct (Nat.ltb_spec mx cur); lia.
    + assert (cur = 0%nat) as -> by lia. apply End. lia.
  - assert (Nu : under (l ++ [fv (EqValue p)]) (length l)).
    { apply under_last. exists (fv peak). split; [|done]. apply Wp. intros ->. rewrite (W0 eq_refl), fv_zero_lit in G. lia. }
    assert (Ext : forall i n, (i + n = length l)%nat -> spell l i n <-> spell (l ++ [fv (EqValue p)]) i (S n)).
    { intros i n E. unfold spell. rewrite length_app. cbn [length]. split; intros [S1 S2]; (split; [lia|]); intros k Hk.
      - destruct (Nat.eq_dec k (length l)) as [->|]; [done|]. apply under_app; [lia|]. apply S2. lia.
      - apply (under_app l (fv (EqValue p))); [lia|]. apply S2. lia. }
    unfold duration_inv. split; [done|]. split.
    { intros x [Hx| ->]%elem_of_snoc; [by apply Up|lia]. }
    split; [intros _; apply elem_of_app; left; apply Wp; intros ->; rewrite (W0 eq_refl), fv_zero_lit in G; lia|].
    split; [by destruct l|]. split; [done|]. split; [eexists; by apply Lift|].
    assert (Mx' : forall i n, (i + n = S (length l))%nat -> spell (l ++ [fv (EqValue p)]) i n -> (n <= S cur)%nat).
    { intros i [|n] Hn Sp; [lia|]. apply Ext in Sp; [|lia]. specialize (Mx i n ltac:(lia) Sp). lia. }
    split; [exists ic; rewrite length_app; cbn [length]; split; [lia|]; by apply Ext|].
    split; [intros i n Hn Sp; apply (Mx' i n); [rewrite length_app in Hn; cbn [length] in Hn; lia|done]|].
    intros i n Sp. destruct (Nat.eq_dec (i + n)%nat (S (length l))) as [E|E]; [specialize (Mx' i n E Sp); lia|].
    assert (Sp' : spell l i n).
    { apply (spell_snoc l (fv (EqValue p))); [|done]. destruct Sp as [S1 _]. rewrite length_app in S1. cbn [length] in S1. lia. }
    specialize (Bd i n Sp'). lia.
Qed.

Lemma duration_fold equity : forall l s,
  curve_ok equity -> duration_inv l s -> duration_inv (l ++ values equity) (fold_left durationStep equity s).
Proof.
  induction equity as [|p equity IH]; intros l s F I; [by rewrite app_nil_r|].
  inversion F; subst. cbn [fold_left values map].
  replace (l ++ fv (EqValue p) :: map _ equity) with ((l ++ [fv (EqValue p)]) ++ values equity)
    by (by rewrite <- app_assoc).
  apply IH; [done|]. by apply duration_step.
Qed.

(** [calculateMaxDrawdownDuration] is the length of the longest spell under
    water.  For an equity curve of finite non-negative values it is the largest
    number of consecutive points each of which is below some earlier point: such a
    spell exists, and none is longer. *)
Theorem drawdown_duration_longest equity :
  curve_ok equity ->
  let d := calculateMaxDrawdownDuration equity in
  (exists i, spell (values equity) i d) /\ forall i n, spell (values equity) i n -> (n <= d)%nat.
Proof.
  intros F. cbv zeta. unfold calculateMaxDrawdownDuration.
  assert (I : duration_inv [] (0%float, 0%nat, 0%nat, false)).
  { split; [done|]. split; [intros x Hx; by apply elem_of_nil in Hx|]. split; [done|]. split; [done|]. split; [done|].
    assert (Sp : spell [] 0 0) by (split; [cbn; lia|intros k Hk; lia]).
    split; [by exists 0%nat|]. split; [by exists 0%nat|]. split; intros i n; [cbn; lia|intros [S1 _]; cbn in S1; lia]. }
  pose proof (duration_fold equity [] _ F I) as D. cbn [app] in D.
  destruct (fold_left durationStep equity _) as [[[peak cur] mx] inDD].
  destruct D as (_ & _ & _ & _ & _ & Sm & [ic [_ Sc]] & _ & Bd).
  destruct (Nat.ltb_spec mx cur); (split; [|intros i n Sp; specialize (Bd i n Sp); lia]); [by exists ic|done].
Qed.

Definition sampleCurve : list EquityPoint :=
  map (fun v => mkPoint 0 v 0) [100; 105; 103; 104; 105; 102; 101; 104.5; 106]%float.

Lemma drawdown_duration_longest_witness :
  calculateMaxDrawdownDuration sampleCurve = 3%nat /\
  (exists i, spell (values sampleCurve) i 3) /\ forall i n, spell (values sampleCurve) i n -> (n <= 3)%nat.
Proof.
  split; [vm_compute; reflexivity|]. apply (drawdown_duration_longest sampleCurve).
  unfold curve_ok, sampleCurve. repeat constructor; try (vm_compute; reflexivity); vm_compute; discriminate.
Defined.

(** *** The representative generation *)
Lemma ascii_compare_trans a b c :
  Ascii.compare a b = Lt -> Ascii.compare b c = Lt -> Ascii.compare a c = Lt.
Proof. unfold Ascii.compare. rewrite !N.compare_lt_iff. apply N.lt_trans. Qed.

Lemma string_ltb_trans a b c : String.ltb a b = true -> String.ltb b c = true -> String.ltb a c = true.
Proof.
  unfold String.ltb. enough (H : String.compare a b = Lt -> String.compare b c = Lt -> String.compare a c = Lt).
  { destruct (String.compare a b), (String.compare b c); try done. intros _ _. by rewrite H. }
  revert b c. induction a as [|x a IH]; intros [|y b] [|z c]; cbn; try done.
  destruct (Ascii.compare x y) eqn:E1; [|destruct (Ascii.compare y z) eqn:E2|done]; try done.
  - apply Ascii.compare_eq_iff in E1 as ->. destruct (Ascii.compare y z); try done. apply IH.
  - apply Ascii.compare_eq_iff in E2 as ->. by rewrite E1.
  - by rewrite (ascii_compare_trans x y z).
Qed.

Lemma string_ltb_total a b : a = b \/ String.ltb a b = true \/ String.ltb b a = true.
Proof.
  unfold String.ltb. rewrite (String.compare_antisym a b). destruct (String.compare b a) eqn:E; cbn; [|by right; right|by right; left].
  left. symmetry. by apply String.compare_eq_iff.
Qed.

Lemma string_ltb_asym a b : String.ltb a b = true -> String.ltb b a = true -> False.
Proof.
  unfold String.ltb. rewrite (String.compare_antisym a b). by destruct (String.compare b a).
Qed.

(** [x] beats [e]: a larger count, or the same count and a smaller id. *)
Definition beats (x e : string * Z) : Prop := e.2 < x.2 \/ (e.2 = x.2 /\ (e.1 = x.1 \/ String.ltb x.1 e.1 = true)).

Lemma beats_trans x y z : beats x y -> beats y z -> beats x z.
Proof.
  intros [H|[E H]] [H'|[E' H']]; [left; lia..|right; split; [lia|]].
  destruct H as [<-|H]; [by destruct H' as [H'|H']; [left|right]|].
  destruct H' as [->|H']; [by right|right]. by apply (string_ltb_trans _ y.1).
Qed.

Lemma pickGeneration_beats x e :
  let y := pickGeneration x e in (y = x \/ y = e) /\ beats y x /\ beats y e.
Proof.
  cbv zeta. unfold pickGeneration.
  assert (Hr : forall x, beats x x) by (intros u; right; split; [done|by left]).
  destruct (Z.ltb_spec x.2 e.2) as [L|L]; cbn [orb].
  { split; [by right|]. split; [by left|done]. }
  destruct (Z.eqb_spec e.2 x.2) as [E|E]; cbn [andb].
  - destruct (String.ltb e.1 x.1) eqn:El.
    + split; [by right|]. split; [right; split; [lia|by right]|done].
    + split; [by left|]. split; [done|]. right. split; [done|].
      destruct (string_ltb_total x.1 e.1) as [->|[H|H]]; [by left|by right|congruence].
  - split; [by left|]. split; [done|]. left. lia.
Qed.

Lemma pick_fold entries : forall x,
  let y := fold_left pickGeneration entries x in
  (y = x \/ y ∈ entries) /\ beats y x /\ forall e, e ∈ entries -> beats y e.
Proof.
  induction entries as [|e entries IH]; intros x; cbn [fold_left].
  { split; [by left|]. split; [right; split; [done|by left]|]. intros e He. by apply elem_of_nil in He. }
  destruct (IH (pickGeneration x e)) as (Hy & Hb & Ha). cbv zeta in *.
  destruct (pickGeneration_beats x e) as (Hp & P1 & P2). split.
  - rewrite elem_of_cons. destruct Hy as [->|?]; [|by right; right]. destruct Hp as [->| ->]; [by left|by right; left].
  - split; [by apply (beats_trans _ (pickGeneration x e))|]. intros e' [->|He]%elem_of_cons; [|by apply Ha].
    by apply (beats_trans _ (pickGeneration x e)).
Qed.

(** a result is linked to one data generation, whatever the order Go ranges over
    its counting map.  Two orders of the same counts give the same id, and it is the
    id of the largest count, the smallest in byte order among equals. *)
Theorem representative_generation_order_free entries entries' :
  entries ≡ₚ entries' -> entries <> [] -> Forall (fun e => 0 < e.2) entries ->
  representativeGenerationID entries = representativeGenerationID entries' /\
  exists n, (representativeGenerationID entries, n) ∈ entries /\
    forall id k, (id, k) ∈ entries -> k < n \/
      (k = n /\ (id = representativeGenerationID entries \/ String.ltb (representativeGenerationID entries) id = true)).
Proof.
  intros Hp Hne Hpos. unfold representativeGenerationID.
  assert (K : forall l, l ≡ₚ entries -> let y := fold_left pickGeneration l (""%string, 0) in
    y ∈ entries /\ forall e, e ∈ entries -> beats y e).
  { intros l Hl. cbv zeta. destruct (pick_fold l (""%string, 0)) as (Hy & _ & Ha). cbv zeta in *.
    split; [|intros e He; apply Ha; by rewrite Hl].
    destruct Hy as [E|Hy]; [|by rewrite <- Hl]. exfalso.
    destruct entries as [|e0 en]; [done|]. specialize (Ha e0). rewrite E, Hl in Ha.
    destruct (Ha ltac:(apply elem_of_cons; by left)) as [H|[H _]]; cbn in H;
      inversion Hpos; subst; lia. }
  destruct (K entries (Permutation_refl _)) as [Y1 B1]. destruct (K entries' (symmetry Hp)) as [Y2 B2].
  cbv zeta in *. revert Y1 B1 Y2 B2. generalize (fold_left pickGeneration entries (""%string, 0)).
  generalize (fold_left pickGeneration entries' (""%string, 0)). intros y2 y1 Y1 B1 Y2 B2. split.
  - destruct (B1 y2 Y2) as [H|[E H]], (B2 y1 Y1) as [H'|[E' H']]; [lia..|].
    destruct H as [H|H]; [done|]. destruct H' as [H'|H']; [done|]. exfalso. by apply (string_ltb_asym _ _ H).
  - exists y1.2. split; [by destruct y1|]. intros id k Hin. exact (B1 _ Hin).
Qed.

Lemma representative_generation_order_free_witness :
  let l := [("b", 2); ("a", 2); ("c", 1)]%string in
  representativeGenerationID l = "a"%string /\
  (representativeGenerationID l = representativeGenerationID (rev l) /\
   exists n, (representativeGenerationID l, n) ∈ l /\
    forall id k, (id, k) ∈ l -> k < n \/
      (k = n /\ (id = representativeGenerationID l \/ String.ltb (representativeGenerationID l) id = true))).
Proof.
  split; [vm_compute; reflexivity|]. apply representative_generation_order_free.
  - apply Permutation_rev.
  - discriminate.
  - repeat constructor.
Defined.

(** *** The report of a run *)
Section Report.
Context {rand : Type}.
Variable NormFloat64 : rand -> float64 * rand.
Variable RandFloat64 : rand -> float64 * rand.
Variable seeded : Z -> rand.
Variable ExpenseRatioForTicker : string -> float64.
Variable Now : Z.
Context {R : Type} `{StrategyRunner R}.
Variable newRunner : R.
Variable rangeOpen : gmap string nat -> list (string * nat).
Hypothesis rangeOpen_all : forall m, rangeOpen m ≡ₚ map_to_list m.
Variable rangePending : gmap string Signal -> list (string * Signal).
Hypothesis rangePending_all : forall m, rangePending m ≡ₚ map_to_list m.
Variable Pow : float64 -> float64 -> float64.

(** The report of a backtest makes sense.  For every run from a sane capital over
    candles in time order, the win rate, the adverse-selection rate and the maximum
    drawdown are percentages (finite, between 0 and 100, rounding included), wins and
    losses add up to the number of trades, and the profit factor is a number that is
    not negative. *)
Theorem run_report_sane cfg feed cs (e st : @State rand R) :
  capital_ok cfg -> StronglySorted (fun a b => Time a <= Time b) cs ->
  Run NormFloat64 RandFloat64 seeded ExpenseRatioForTicker Now newRunner rangeOpen rangePending cfg feed cs e = Some st ->
  Z.of_nat (length (trades st)) <= 2 ^ 53 ->
  let m := report Pow (trades st) (equity st) (mtmEquity st) in
  percentage (WinRate m) /\ percentage (AdverseSelectionRate m) /\ percentage (MaxDrawdown m) /\
  NumWins m + NumLosses m = Z.of_nat (length (trades st)) /\ nonneg (ProfitFactor m).
Proof.
  intros Hc Hs E Hn. destruct (run_ending _ _ _ _ _ _ _ rangeOpen_all _ rangePending_all _ _ _ _ _ Hc Hs E).
  cbv zeta. unfold report. destruct (Z.ltb_spec 0 (Z.of_nat (length (trades st)))) as [L|L].
  2: { cbn. split; [by vm_compute|]. split; [by vm_compute|]. split; [by vm_compute|]. split; [lia|by vm_compute]. }
  cbn [WinRate AdverseSelectionRate MaxDrawdown NumWins NumLosses ProfitFactor].
  unfold calculateWinRate, calculateAdverseSelectionRate, countWinsLosses. cbn [fst snd].
  split; [destruct (trades st) eqn:Et; [cbn in L; lia|rewrite <- Et in *; apply ratePct_percentage; [apply countIf_le|lia]]|].
  split; [destruct (trades st) eqn:Et; [cbn in L; lia|rewrite <- Et in *; apply ratePct_percentage; [apply countIf_le|lia]]|].
  split; [|split; [apply countIf_split|]].
  - apply maxDrawdown_percentage. eapply list.Forall_impl; [exact ed_equity|]. intros p (Fp & Hp). split; [done|lia].
  - apply profit_factor_nonneg. eapply list.Forall_impl; [exact ed_trades|]. intros t Ht. apply Ht.
Qed.
End Report.

Lemma run_report_sane_witness :
  exists st, demoRun = Some st /\ length (trades st) = 5%nat /\
    let m := report (fun x _ => x) (trades st) (equity st) (mtmEquity st) in
    percentage (WinRate m) /\ percentage (AdverseSelectionRate m) /\ percentage (MaxDrawdown m) /\
    NumWins m + NumLosses m = Z.of_nat (length (trades st)) /\ nonneg (ProfitFactor m).
Proof.
  destruct demo_trades as (st & E & L). exists st. split; [exact E|]. split; [exact L|].
  apply (run_report_sane halfRand halfRand (fun _ => tt) (fun _ => 0%float) 0 tt map_to_list
    (fun _ => Permutation_refl _) map_to_list (fun _ => Permutation_refl _) (fun x _ => x) demoConfig demoFeed demoBars
    demoEngine st demo_capital demo_sorted E).
  rewrite L. apply Z.leb_le. reflexivity.
Defined.
End MetricLaws.
