(* ===== verification/MultiRun.v ===== *)
(** * The multi-strategy backtest ([EngineMulti.RunMulti] of
    [internal/backtest/engine.go])

    Every strategy of a run shares one capital pool ([PoolSim.v]).  The bar loop
    opens the pool's signals at the bar's close and closes every open position in
    the same iteration.  Go ranges over the strategy, the signal and the position
    maps; the last order matters for the capital's rounding and is an argument, as
    the strategies' is.  Loading the data is not part of the model. *)
From Stdlib Require Import ZArith Lia Bool Floats.
From coqutil Require Import RecordSettersUsingExistingGetters.
From S2P Require Import Prelude Float64 FloatRound FloatLaws Price PropFirm Sizing StopLoss Gates PoolSim.
From S2P Require Import Timeline Trade Engine Metrics.
Local Open Scope float_scope.
Local Open Scope go_scope.

Definition blankTrade : Trade :=
  mkTrade "" "" 0 0 0 zeroTime zeroTime 0 0 0 "" 0 0 "" false 0 0 0 0 0 false 0 0 [] 0 0.

(** [runnerAdapter.Evaluate] passes on the symbol, the side and the quantity. *)
Definition adapt (s : Signal) : Signal :=
  mkSignal (SigSymbol s) (SigSide s) (SigQuantity s) SignalNone 0 "" 0 0.

Record MultiBacktestConfig := mkMultiConfig {
  StrategyIDs : list string; MultiCapital : float64; MultiCommissionBps : float64
}.

Record StrategyBacktestMetric := mkStratMetric {
  SmID : string; SmNumTrades : Z; SmWinRate : float64; SmTotalReturn : float64
}.

Record MultiBacktestResult := mkMultiResult {
  MultiTotalReturn : float64; MultiTotalReturnPct : float64; MultiSharpeRatio : float64;
  MultiMaxDrawdown : float64; MultiWinRate : float64; MultiNumTrades : Z; MultiEquityCurve : list EquityPoint;
  MultiMtmSharpeRatio : float64; MultiMtmMaxDrawdown : float64;
  StrategyMetrics : list StrategyBacktestMetric; Passed : bool; MultiHaltReason : string
}.

Section Multi.
Context {Runner : Type}.
Variable RunnerEvaluate : Runner -> Candle -> Z -> Runner * option Signal.
(** [registry.Create]: [None] for an unknown strategy. *)
Variable Create : string -> option Runner.
Variable rangeStrategies : gmap string (@PoolSimStrategy Runner) -> list string.
Variable rangePositions : gmap string Trade -> list (string * Trade).

Definition adapted (r : Runner) (c : Candle) (regime : Z) : Runner * option Signal :=
  let '(r, s) := RunnerEvaluate r c regime in (r, adapt <$> s).

(** The local variables of [RunMulti]. *)
Record MultiState := mkMulti {
  poolSim : @CapitalPoolSim Runner;
  mCapital : float64;
  mEquity : list EquityPoint;
  mtmMultiEquity : list EquityPoint;
  mTrades : list Trade;
  openPositions : gmap string Trade;
  mLastDay : option Z
}.

Definition multiExitPrice (candle : Candle) : float64 :=
  Float64 (Close candle) * adjFactor (AdjustmentFactor candle).

Definition openOne (candle : Candle) (sid : string) (sig : Signal) : Trade :=
  blankTrade <| TSymbol := SigSymbol sig |> <| TSide := SigSide sig |> <| TQuantity := SigQuantity sig |>
    <| TEntryPrice := PriceFromFloat (multiExitPrice candle) |> <| TEntryTime := Time candle |>
    <| TStrategyID := sid |>.

(** A strategy with an open position keeps it. *)
Definition openSignals (candle : Candle) (signals : gmap string Signal) (pos : gmap string Trade)
    : gmap string Trade :=
  pos ∪ map_imap (fun sid sig => Some (openOne candle sid sig)) signals.

Definition multiCommission (cfg : MultiBacktestConfig) (t : Trade) : float64 :=
  Float64 (TEntryPrice t) * TQuantity t * MultiCommissionBps cfg / 10000.0 * 2.

Definition multiPnL (cfg : MultiBacktestConfig) (t : Trade) (exitPrice : float64) : float64 :=
  if bool_decide (TSide t = "BUY"%string)
  then (exitPrice - Float64 (TEntryPrice t)) * TQuantity t - multiCommission cfg t
  else (Float64 (TEntryPrice t) - exitPrice) * TQuantity t - multiCommission cfg t.

Definition closePosition (cfg : MultiBacktestConfig) (candle : Candle) (regime : Z) (st : MultiState)
    (sid : string) (t : Trade) : MultiState :=
  let exitPrice := multiExitPrice candle in
  let pnl := multiPnL cfg t exitPrice in
  let t := t <| TPnL := pnl |>
             <| TPnLPct := if mCapital st >? 0 then pnl / mCapital st * 100 else 0.0 |>
             <| TExitPrice := PriceFromFloat exitPrice |> <| TExitTime := Time candle |>
             <| THMMRegime := regime |> in
  st <| mCapital ::= (fun c => c + pnl) |>
     <| poolSim ::= (fun p => SimRecordFill p sid (TSymbol t) (TSide t) pnl (TQuantity t)) |>
     <| mTrades ::= (fun l => l ++ [t]) |>
     <| openPositions ::= delete sid |>.

Definition closePositions (cfg : MultiBacktestConfig) (candle : Candle) (regime : Z) (st : MultiState)
    : MultiState :=
  fold_left (fun st e => closePosition cfg candle regime st e.1 e.2) (rangePositions (openPositions st)) st.

Definition multiUnrealized (candle : Candle) (pos : gmap string Trade) : float64 :=
  fold_left (fun u e => u + openPnL (Float64 (Close candle)) e.2) (rangePositions pos) 0.

Definition multiDay (candle : Candle) (st : MultiState) : MultiState :=
  let day := truncateDay (Time candle) in
  if bool_decide (mLastDay st = Some day) then st
  else st <| poolSim ::= SimResetDaily |> <| mLastDay := Some day |>.

Definition multiStep (cfg : MultiBacktestConfig) (feed : Feed) (candle : Candle) (st : MultiState)
    : option MultiState :=
  if negb (inUniverse (universe feed) (Time candle) (Symbol candle)) then Some st
  else
    let st := multiDay candle st in
    regime ← regimeAt (regimeIdx feed) (Symbol candle) (Time candle);
    if Pool.Halted (PoolState (poolSim st)) then Some st
    else
      let '(pool, signals) := EvaluateAll adapted (poolSim st) candle regime
                                (rangeStrategies (Strategies (poolSim st))) in
      let st := st <| poolSim := pool |> <| openPositions ::= openSignals candle signals |> in
      let st := closePositions cfg candle regime st in
      Some (st <| mEquity ::= (fun l => l ++ [mkPoint (Time candle) (mCapital st) regime]) |>
               <| mtmMultiEquity ::= (fun l => l ++ [mkPoint (Time candle)
                    (mCapital st + multiUnrealized candle (openPositions st)) regime]) |>).

Fixpoint multiBars (cfg : MultiBacktestConfig) (feed : Feed) (candles : list Candle) (st : MultiState)
    : option MultiState :=
  match candles with
  | [] => Some st
  | c :: cs => st ← multiStep cfg feed c st; multiBars cfg feed cs st
  end.

(** The positions left at the end close at the unadjusted last close, past the pool. *)
Definition endPosition (cfg : MultiBacktestConfig) (last : Candle) (st : MultiState) (sid : string)
    (t : Trade) : MultiState :=
  let pnl := multiPnL cfg t (Float64 (Close last)) in
  let t := t <| TPnL := pnl |> <| TExitPrice := Close last |> <| TExitTime := Time last |> in
  st <| mCapital ::= (fun c => c + pnl) |> <| mTrades ::= (fun l => l ++ [t]) |>
     <| openPositions ::= delete sid |>.

Definition startMulti (cfg : MultiBacktestConfig) : MultiState :=
  let pool := fold_left (fun p sid => match Create sid with
                                      | Some r => AddStrategy p sid (Some r)
                                      | None => p end) (StrategyIDs cfg)
                (NewCapitalPoolSim (Some DefaultFTMOProfile) (MultiCapital cfg)) in
  mkMulti pool (MultiCapital cfg) [] [] [] ∅ None.

Definition multiRun (cfg : MultiBacktestConfig) (feed : Feed) (candles : list Candle) : option MultiState :=
  st ← multiBars cfg feed candles (startMulti cfg);
  match list.last candles with
  | None => Some st
  | Some last => Some (fold_left (fun st e => endPosition cfg last st e.1 e.2)
                         (rangePositions (openPositions st)) st)
  end.

(** ** The result *)
Definition stratMetric (trades : list Trade) (sid : string) : StrategyBacktestMetric :=
  let own := List.filter (fun t => String.eqb (TStrategyID t) sid) trades in
  mkStratMetric sid (Z.of_nat (length own))
    (match own with [] => 0 | _ => calculateWinRate own end)
    (fold_left (fun s t => s + TPnL t) own 0).

(** The zero put in for a NaN or infinite capital is overwritten by the next line. *)
Definition multiResult (cfg : MultiBacktestConfig) (st : MultiState) : MultiBacktestResult :=
  let n := Z.of_nat (length (mTrades st)) in
  let ret := mCapital st - MultiCapital cfg in
  mkMultiResult ret
    (if unusable (mCapital st) then 0 else ret / MultiCapital cfg * 100)
    (if Z.ltb 0 n then calculateSharpe (mEquity st) else 0)
    (if Z.ltb 0 n then calculateMaxDrawdown (mEquity st) else 0)
    (if Z.ltb 0 n then calculateWinRate (mTrades st) else 0)
    n (mEquity st)
    (if fewPoints 2 (mtmMultiEquity st) then 0 else computeSharpe (mtmMultiEquity st))
    (if fewPoints 2 (mtmMultiEquity st) then 0 else calculateMaxDrawdown (mtmMultiEquity st))
    (map (stratMetric (mTrades st)) (StrategyIDs cfg))
    (negb (Pool.Halted (PoolState (poolSim st))))
    (if Pool.Halted (PoolState (poolSim st)) then Pool.HaltReason (PoolState (poolSim st)) else "").

Definition RunMulti (cfg : MultiBacktestConfig) (feed : Feed) (candles : list Candle)
    : option MultiBacktestResult :=
  st ← multiRun cfg feed candles; Some (multiResult cfg st).
End Multi.

(** ** Proofs *)
Section MultiLaws.
Local Open Scope Z_scope.
Context {Runner : Type}.
Variable RunnerEvaluate : Runner -> Candle -> Z -> Runner * option Signal.
Variable Create : string -> option Runner.
Variable rangeStrategies : gmap string (@PoolSimStrategy Runner) -> list string.
Variable rangePositions : gmap string Trade -> list (string * Trade).
Hypothesis rangePositions_all : forall m, rangePositions m ≡ₚ map_to_list m.
Variable cfg : MultiBacktestConfig.

Abbreviation mstate := (@MultiState Runner).

(** A trade opened and closed at the close of the bar [c]. *)
Definition round_trip (c : Candle) (t : Trade) : Prop :=
  TEntryTime t = Time c /\ TExitTime t = Time c /\ TEntryPrice t = PriceFromFloat (multiExitPrice c) /\
  TExitPrice t = TEntryPrice t /\ TPnL t = multiPnL cfg t (multiExitPrice c).

(** The books between bars: nothing open, every trade a round trip, the capital the
    initial one plus the trades' PnL. *)
Record multi_ok (cs : list Candle) (st : mstate) : Prop := {
  mk_flat : openPositions st = ∅;
  mk_trades : Forall (fun t => exists c, c ∈ cs /\ round_trip c t) (mTrades st);
  mk_capital : mCapital st = fold_left (fun c t => c + TPnL t)%float (mTrades st) (MultiCapital cfg);
  mk_mtm : Forall2 (fun a b => EqTime b = EqTime a /\ EqValue b = (EqValue a + 0)%float) (mEquity st) (mtmMultiEquity st)
}.

Lemma openSignals_fresh c signals sid t :
  openSignals c signals ∅ !! sid = Some t -> TEntryTime t = Time c /\ TEntryPrice t = PriceFromFloat (multiExitPrice c).
Proof.
  unfold openSignals. rewrite (left_id_L ∅ (∪)), map_lookup_imap.
  destruct (signals !! sid) as [g|]; [|done]. intros [= <-]. done.
Qed.

(** Closing the listed positions empties them from the map. *)
Lemma close_fold (cs : list Candle) c rg l : forall st : mstate,
  c ∈ cs -> (forall e, e ∈ l -> TEntryTime e.2 = Time c /\ TEntryPrice e.2 = PriceFromFloat (multiExitPrice c)) ->
  Forall (fun t => exists c, c ∈ cs /\ round_trip c t) (mTrades st) ->
  mCapital st = fold_left (fun c t => c + TPnL t)%float (mTrades st) (MultiCapital cfg) ->
  let st' := fold_left (fun st e => closePosition cfg c rg st e.1 e.2) l st in
  openPositions st' = foldr delete (openPositions st) (rev (map fst l)) /\
  Forall (fun t => exists c, c ∈ cs /\ round_trip c t) (mTrades st') /\
  mCapital st' = fold_left (fun c t => c + TPnL t)%float (mTrades st') (MultiCapital cfg) /\
  mEquity st' = mEquity st /\ mtmMultiEquity st' = mtmMultiEquity st.
Proof.
  induction l as [|[sid t] l IH]; intros st Hc Hl Ht Hk; [done|]. cbn [fold_left map rev fst snd].
  destruct (Hl (sid, t)) as [E1 E2]; [apply elem_of_cons; by left|]. cbn [snd] in E1, E2.
  destruct (IH (closePosition cfg c rg st sid t) Hc) as (H1 & H2 & H3 & H4 & H5).
  - intros e He. apply Hl, elem_of_cons. by right.
  - cbn. apply Forall_app. split; [done|]. apply list.Forall_singleton. exists c. split; [done|].
    repeat split; try done.
  - cbn. rewrite fold_left_app. cbn. by rewrite Hk.
  - cbv zeta in *. rewrite H1. split; [|done]. rewrite foldr_app. done.
Qed.

Lemma delete_all (m : gmap string Trade) l :
  (forall k, is_Some (m !! k) -> k ∈ l) -> foldr delete m l = ∅.
Proof.
  intros H. apply map_eq. intros k. rewrite lookup_empty. destruct (decide (k ∈ l)) as [Hk|Hk].
  - clear H. induction l as [|x l IH]; [by apply elem_of_nil in Hk|]. cbn.
    destruct (decide (x = k)) as [->|N]; [apply lookup_delete_eq|]. rewrite lookup_delete_ne by done.
    apply IH. apply elem_of_cons in Hk as [->|Hk]; done.
  - destruct (m !! k) as [t|] eqn:E; [exfalso; apply Hk, H; by rewrite E|]. clear H.
    induction l as [|x l IH]; [done|]. cbn. rewrite elem_of_cons in Hk.
    rewrite lookup_delete_ne by (intros ->; apply Hk; by left). apply IH. tauto.
Qed.

Lemma closePositions_ok cs c rg (st : mstate) signals :
  c ∈ cs -> multi_ok cs st ->
  let st1 := st <| openPositions ::= openSignals c signals |> in
  let st' := closePositions rangePositions cfg c rg st1 in
  openPositions st' = ∅ /\ Forall (fun t => exists c, c ∈ cs /\ round_trip c t) (mTrades st') /\
  mCapital st' = fold_left (fun c t => c + TPnL t)%float (mTrades st') (MultiCapital cfg) /\
  mEquity st' = mEquity st /\ mtmMultiEquity st' = mtmMultiEquity st.
Proof.
  intros Hc []. cbv zeta. unfold closePositions.
  change (openPositions (st <| openPositions ::= openSignals c signals |>)) with (openSignals c signals (openPositions st)).
  rewrite mk_flat0. set (m := openSignals c signals ∅).
  destruct (close_fold cs c rg (rangePositions m) (st <| openPositions ::= openSignals c signals |>) Hc) as (H1 & H2 & H3 & H4 & H5); try done.
  { intros [sid t] Hin. rewrite rangePositions_all in Hin. apply elem_of_map_to_list in Hin. cbn [snd].
    by apply (openSignals_fresh c signals sid). }
  cbv zeta in *. split; [|done]. rewrite H1. apply delete_all. intros k [t Hk].
  change (openPositions (st <| openPositions ::= openSignals c signals |>)) with (openSignals c signals (openPositions st)) in Hk.
  rewrite mk_flat0 in Hk. rewrite <- Permutation_rev, rangePositions_all. apply list_elem_of_fmap.
  exists (k, t). split; [done|]. by apply elem_of_map_to_list.
Qed.

Lemma multiDay_ok cs c (st : mstate) : multi_ok cs st -> multi_ok cs (multiDay c st).
Proof. intros []. unfold multiDay. case_bool_decide; by constructor. Qed.

Lemma multiStep_ok cs feed c (st : mstate) :
  c ∈ cs -> multi_ok cs st ->
  exists st', multiStep RunnerEvaluate rangeStrategies rangePositions cfg feed c st = Some st' /\ multi_ok cs st'.
Proof.
  intros Hc B. unfold multiStep. destruct (negb _); [by exists st|]. cbv zeta.
  pose proof (multiDay_ok cs c st B) as B1. generalize dependent (multiDay c st). clear B st. intros st B.
  destruct (regimeAt_total (regimeIdx feed) (Symbol c) (Time c)) as [rg ->]. cbn [mbind option_bind].
  destruct (Pool.Halted _); [by exists st|].
  destruct (EvaluateAll _ _ _ _ _) as [pool signals].
  assert (B2 : multi_ok cs (st <| poolSim := pool |>)) by (destruct B; by constructor).
  destruct (closePositions_ok cs c rg _ signals Hc B2) as (H1 & H2 & H3 & H4 & H5). cbv zeta in *.
  generalize dependent (closePositions rangePositions cfg c rg (st <| poolSim := pool |> <| openPositions ::= openSignals c signals |>)).
  intros st' H1 H2 H3 H4 H5. eexists. split; [reflexivity|]. destruct B.
  constructor; try done. cbn. rewrite H4, H5. apply Forall2_app; [done|]. constructor; [|constructor].
  split; [done|]. cbn. rewrite H1. unfold multiUnrealized.
  assert (E : rangePositions ∅ = []) by (apply Permutation_nil; by rewrite rangePositions_all, map_to_list_empty).
  by rewrite E.
Qed.

Lemma multiBars_ok cs feed l : forall st : mstate,
  (forall c, c ∈ l -> c ∈ cs) -> multi_ok cs st ->
  exists st', multiBars RunnerEvaluate rangeStrategies rangePositions cfg feed l st = Some st' /\ multi_ok cs st'.
Proof.
  induction l as [|c l IH]; intros st Hl B; [by exists st|].
  destruct (multiStep_ok cs feed c st) as (st1 & E & B1); [apply Hl, elem_of_cons; by left|done|].
  cbn [multiBars]. rewrite E. cbn [mbind option_bind]. apply IH; [|done]. intros d Hd. apply Hl, elem_of_cons. by right.
Qed.

Lemma multiRun_ok feed cs : exists st,
  multiRun RunnerEvaluate Create rangeStrategies rangePositions cfg feed cs = Some st /\ multi_ok cs st.
Proof.
  unfold multiRun. destruct (multiBars_ok cs feed cs (startMulti Create cfg)) as (st & -> & B); [done| |].
  { by constructor. }
  cbn [mbind option_bind]. destruct (list.last cs) as [last|]; [|by exists st].
  assert (E : rangePositions (openPositions st) = []).
  { rewrite (mk_flat _ _ B). apply Permutation_nil. by rewrite rangePositions_all, map_to_list_empty. }
  rewrite E. by exists st.
Qed.

(** ** A round trip earns nothing *)

(** A bar whose prices are not adjusted and of ordinary size. *)
Definition plain (c : Candle) : Prop := sane (Close c) /\ adjFactor (AdjustmentFactor c) = 1%float.

Lemma mul_one_fv x : ffin x = true -> ffin (x * 1)%float = true /\ fv (x * 1)%float = fv x.
Proof.
  intros Fx. pose proof (mul_nearest x 1%float Fx eq_refl) as N. pose proof onev_pos as O. fold onev in N.
  assert (E : fv (x * 1)%float = fv x) by (apply (nearest_exact _ _ _ x O N (ffin_nan _ Fx)); by rewrite fv_one).
  split; [|done]. apply (ffin_between x _ x); [done|done|apply N|lia].
Qed.

Lemma plain_exit c : plain c -> multiExitPrice c = Float64 (Close c).
Proof.
  intros [Hs Ha]. unfold multiExitPrice. rewrite Ha. pose proof (ToFloat64_fin _ Hs) as F.
  destruct (mul_one_fv _ F) as [F1 E1]. destruct (same_or_zero _ _ F1 F E1) as [E|[_ Z0]]; [exact E|].
  assert (Close c = 0) as ->; [|vm_compute; reflexivity].
  pose proof (ToFloat64_le_iff (Close c) 0 Hs) as H1. pose proof (ToFloat64_le_iff 0 (Close c)) as H2.
  assert (Hz : sane 0) by (unfold sane; lia). specialize (H1 Hz). specialize (H2 Hz Hs).
  change (fv (ToFloat64 0)) with 0 in *. lia.
Qed.

Lemma sub_self_fv x : ffin x = true -> fv (x - x)%float = 0 /\ ffin (x - x)%float = true.
Proof.
  intros F. destruct (sub_sign x x F F) as (N & _ & _ & E). specialize (E eq_refl). split; [done|].
  apply (ffin_between 0%float _ 0%float); [done|done|done|]. rewrite E, fv_zero_lit. lia.
Qed.

Lemma nothing_minus z q k :
  fv z = 0 -> ffin z = true -> ffin q = true -> ffin k = true -> fv (z * q - k)%float = - fv k.
Proof.
  intros Ez Fz Fq Fk. pose proof (mul_nearest z q Fz Fq) as N. rewrite Ez, Z.mul_0_l in N. pose proof onev_pos as O. fold onev in N.
  pose proof (nearest_zero _ _ O N) as E0.
  assert (F0 : ffin (z * q)%float = true).
  { apply (ffin_between 0%float _ 0%float); [done|done|apply N|]. rewrite E0, fv_zero_lit. lia. }
  pose proof (sub_nearest (z * q)%float k F0 Fk) as M. rewrite <- fv_opp.
  apply (nearest_exact _ _ _ (- k)%float Z.lt_0_1 M); [rewrite fnan_opp; by apply ffin_nan|]. rewrite fv_opp, E0. lia.
Qed.

Lemma round_trip_pnl c t :
  plain c -> round_trip c t -> ffin (TQuantity t) = true -> ffin (multiCommission cfg t) = true ->
  fv (TPnL t) = - fv (multiCommission cfg t).
Proof.
  intros Hp (_ & _ & E & _ & ->) Fq Fk. unfold multiPnL. rewrite (plain_exit c Hp) in E |- *.
  assert (Ee : TEntryPrice t = Close c) by (rewrite E; apply FromFloat64_ToFloat64, Hp).
  rewrite Ee. destruct (sub_self_fv (Float64 (Close c))) as [Z0 F0]; [apply ToFloat64_fin, Hp|].
  case_bool_decide; by apply nothing_minus.
Qed.

(** A multi-strategy backtest only ever pays commission.  [RunMulti]'s loop
    returns for all candles, strategies and map orders; it ends with no position
    open, every trade is entered and left on the same bar at the same price, the
    capital is the initial one plus the trades' PnL in order, the mark-to-market
    curve is the equity curve, and on unadjusted prices of ordinary size the PnL of
    every trade is exactly minus its commission. *)
Theorem multi_run_only_pays_commission feed cs :
  exists st, multiRun RunnerEvaluate Create rangeStrategies rangePositions cfg feed cs = Some st /\
    openPositions st = ∅ /\
    Forall (fun t => TExitTime t = TEntryTime t /\ TExitPrice t = TEntryPrice t /\
      (Forall plain cs -> ffin (TQuantity t) = true -> ffin (multiCommission cfg t) = true ->
       fv (TPnL t) = - fv (multiCommission cfg t))) (mTrades st) /\
    mCapital st = fold_left (fun c t => c + TPnL t)%float (mTrades st) (MultiCapital cfg) /\
    Forall2 (fun a b => EqTime b = EqTime a /\ EqValue b = (EqValue a + 0)%float) (mEquity st) (mtmMultiEquity st).
Proof.
  destruct (multiRun_ok feed cs) as (st & E & []). exists st. split; [done|]. split; [done|].
  split; [|done]. eapply list.Forall_impl; [exact mk_trades0|]. intros t (c & Hc & T).
  pose proof T as (T1 & T2 & T3 & T4 & T5). split; [congruence|]. split; [done|].
  intros Hp. rewrite list.Forall_forall in Hp. by apply (round_trip_pnl c), T; auto.
Qed.
End MultiLaws.

(** Two strategies that trade on every bar of a rising market. *)
Definition bothWays (r : string) (c : Candle) (_ : Z) : string * option Signal :=
  (r, Some (mkSignal (Symbol c) r 10 SignalNone 0 "" 0 0)).
Definition risingBars : list Candle :=
  map (fun d : Z => mkCandle (d * 86400000000000) (10000000 + d * 100000) (10100000 + d * 100000) (9900000 + d * 100000)
    (10000000 + d * 100000) 1000 "X" 0 "" "") [1; 2; 3]%Z.
Definition bothConfig : MultiBacktestConfig := mkMultiConfig ["long"; "short"]%string 100000 10.
Definition bothCreate (sid : string) : option string :=
  Some (if String.eqb sid "long" then "BUY" else "SELL")%string.

Lemma multi_run_only_pays_commission_witness :
  exists st, multiRun bothWays bothCreate (fun m => map fst (map_to_list m)) map_to_list bothConfig
      (mkFeed ∅ [] [] None) risingBars = Some st /\
    openPositions st = ∅ /\
    Forall (fun t => TExitTime t = TEntryTime t /\ TExitPrice t = TEntryPrice t /\
      (Forall plain risingBars -> ffin (TQuantity t) = true -> ffin (multiCommission bothConfig t) = true ->
       fv (TPnL t) = (- fv (multiCommission bothConfig t))%Z)) (mTrades st) /\
    mCapital st = fold_left (fun c t => c + TPnL t) (mTrades st) (MultiCapital bothConfig) /\
    Forall2 (fun a b => EqTime b = EqTime a /\ EqValue b = EqValue a + 0) (mEquity st) (mtmMultiEquity st).
Proof.
  apply (multi_run_only_pays_commission bothWays bothCreate (fun m => map fst (map_to_list m)) map_to_list
    (fun _ => Permutation_refl _) bothConfig (mkFeed ∅ [] [] None) risingBars).
Defined.

(** Six losing trades in a market that only rises. *)
Example both_ways_lose :
  (fun st => map TPnL (mTrades st)) <$> multiRun bothWays bothCreate (fun m => map fst (map_to_list m)) map_to_list
    bothConfig (mkFeed ∅ [] [] None) risingBars =
  Some [-2.0159599999999998; -2.0159599999999998; -2.03592; -2.03592; -2.0558800000000002; -2.0558800000000002].
Proof. vm_compute. reflexivity. Qed.
