(* ===== verification/Adversarial.v ===== *)
(** * The adversarial guard of the live engine ([internal/risk/adversarial.go])

    Sizes, symbols and hours of the orders a strategy asks for.  The three arrays
    are lists of their length; [now] is a timestamp in nanoseconds. *)
From Stdlib Require Import ZArith Lia Bool.
From S2P Require Import Prelude Timeline Calendar.
Import GoInt.
Local Open Scope Z_scope.

Definition RejectThreshold : Z := 3.
Definition FiveMinNS : Z := 300000000000.

Record AdversarialState := mkAdv {
  RejectCount : Z;
  RejectWindowStart : Z;
  AvgTradeSize : Z;
  Last10Sizes : list Z;
  SizeIdx : Z;
  Last10Symbols : list Z;
  SymbolIdx : Z;
  Watchlist : list Z;
  WatchlistCount : Z;
  AfterHoursActivity : bool
}.

(** The zero value. *)
Definition zeroAdversarial : AdversarialState :=
  mkAdv 0 0 0 (replicate 10 0) 0 (replicate 10 0) 0 (replicate 32 0) 0 false.

Record AdversarialResult := mkAdvRes { Approve : bool; TriggerKill : bool; Reject : bool; AdvReason : string }.

Definition advKill (reason : string) : AdversarialResult := mkAdvRes false true false reason.
Definition advReject (reason : string) : AdversarialResult := mkAdvRes false false true reason.

(** The non-zero sizes of the window. *)
Definition heldSizes (l : list Z) : list Z := List.filter (fun s => 0 <? s) l.

Definition sumSizes (l : list Z) : Z := fold_left (fun s x => u64 (s + x)) l 0.

Definition updateAvgSize (s : AdversarialState) : AdversarialState :=
  let held := heldSizes (Last10Sizes s) in
  mkAdv (RejectCount s) (RejectWindowStart s)
    (if 0 <? Z.of_nat (length held) then sumSizes held / Z.of_nat (length held) else AvgTradeSize s)
    (Last10Sizes s) (SizeIdx s) (Last10Symbols s) (SymbolIdx s) (Watchlist s) (WatchlistCount s)
    (AfterHoursActivity s).

Definition isWatchlisted (s : AdversarialState) (symbol : Z) : bool :=
  existsb (Z.eqb symbol) (take (Z.to_nat (WatchlistCount s)) (Watchlist s)).

Definition isAfterHours (timestampNS : Z) : bool :=
  let sec := Z.quot timestampNS 1000000000 in
  let hour := Z.rem (Z.quot sec 3600) 24 in
  let weekday := Z.rem (Z.quot sec 86400 + 4) 7 in
  if 5 <=? weekday then true
  else if (hour <? 9) || (16 <=? hour) then true else false.

(** The order enters both windows. *)
Definition recordOrder (s : AdversarialState) (quantity symbol : Z) : AdversarialState :=
  let i := Z.rem (SizeIdx s + 1) 10 in
  let j := Z.rem (SymbolIdx s + 1) 10 in
  updateAvgSize
    (mkAdv (RejectCount s) (RejectWindowStart s) (AvgTradeSize s) (<[Z.to_nat i := quantity]> (Last10Sizes s)) i
       (<[Z.to_nat j := symbol]> (Last10Symbols s)) j (Watchlist s) (WatchlistCount s) (AfterHoursActivity s)).

Definition CheckAdversarial (s : AdversarialState) (quantity symbol now : Z)
    : AdversarialState * AdversarialResult :=
  if (i64 (now - RejectWindowStart s) <? FiveMinNS) && (RejectThreshold <? RejectCount s)
  then (s, advKill "reject_spike")
  else if (0 <? AvgTradeSize s) && (u64 (2 * AvgTradeSize s) <? quantity) then (s, advReject "unusual_size")
  else if (0 <? WatchlistCount s) && negb (isWatchlisted s symbol) then (s, advReject "unusual_symbol")
  else if isAfterHours now then (s, advReject "after_hours")
  else (recordOrder s quantity symbol, mkAdvRes true false false "").

Definition RecordReject (s : AdversarialState) (now : Z) : AdversarialState :=
  let fresh := FiveMinNS <? i64 (now - RejectWindowStart s) in
  mkAdv (i64 ((if fresh then 0 else RejectCount s) + 1)) (if fresh then now else RejectWindowStart s)
    (AvgTradeSize s) (Last10Sizes s) (SizeIdx s) (Last10Symbols s) (SymbolIdx s) (Watchlist s)
    (WatchlistCount s) (AfterHoursActivity s).

(** ** Proofs *)

(** The day of the week, Sunday being 0, and the hour of a time, in UTC. *)
Definition dayOf (t : Z) : Z := weekdayOfDay (t / dayLength).
Definition hourUTC (t : Z) : Z := t mod dayLength / 3600000000000.

Lemma isAfterHours_spec t :
  0 <= t -> isAfterHours t = (5 <=? dayOf t) || (hourUTC t <? 9) || (16 <=? hourUTC t).
Proof.
  intros Ht. unfold isAfterHours, dayOf, hourUTC, weekdayOfDay, dayLength.
  assert (0 <= t / 1000000000) by (apply Z.div_pos; lia).
  assert (0 <= t / 1000000000 / 3600) by (apply Z.div_pos; lia).
  assert (0 <= t / 1000000000 / 86400) by (apply Z.div_pos; lia).
  rewrite (Z.quot_div_nonneg t) by lia. rewrite !Z.quot_div_nonneg by lia. rewrite !Z.rem_mod_nonneg by lia.
  replace (t / 1000000000 / 86400) with (t / 86400000000000) by (rewrite Z.div_div by lia; done).
  replace ((t / 1000000000 / 3600) mod 24) with (t mod 86400000000000 / 3600000000000)
    by (rewrite Z.div_div by lia; Z.div_mod_to_equations; lia).
  by destruct (5 <=? _), (_ <? 9), (16 <=? _).
Qed.

(** Indices in their arrays, arrays of their length, sizes in uint64. *)
Record adv_ok (s : AdversarialState) : Prop := {
  av_sizes : length (Last10Sizes s) = 10%nat;
  av_symbols : length (Last10Symbols s) = 10%nat;
  av_idx : 0 <= SizeIdx s < 10 /\ 0 <= SymbolIdx s < 10;
  av_pos : Forall (fun q => 0 <= q) (Last10Sizes s);
  av_avg : 0 <= AvgTradeSize s
}.

Lemma sumSizes_exact l : forall s, 0 <= s -> Forall (fun q => 0 <= q) l ->
  s + fold_right Z.add 0 l < 2 ^ 64 -> fold_left (fun s x => u64 (s + x)) l s = s + fold_right Z.add 0 l.
Proof.
  induction l as [|x l IH]; intros s Hs F Hb; cbn in *; [lia|]. inversion F as [|? ? Hx F']; subst.
  assert (0 <= fold_right Z.add 0 l) by (clear -F'; induction F'; cbn; lia).
  rewrite u64_id by (unfold in_u64; lia). rewrite IH by (done || lia). lia.
Qed.

Lemma sumSizes_nonneg l : 0 <= sumSizes l.
Proof.
  unfold sumSizes.
  assert (H : forall x, 0 <= x -> 0 <= fold_left (fun s x => u64 (s + x)) l x); [|by apply H].
  induction l as [|y l IH]; intros x Hx; [done|]. cbn. apply IH. apply u64_range.
Qed.

Lemma recordOrder_ok s q sym : adv_ok s -> 0 <= q -> adv_ok (recordOrder s q sym).
Proof.
  intros [] Hq. destruct av_idx0 as [Hi Hj].
  assert (R : forall i, 0 <= i < 10 -> 0 <= Z.rem (i + 1) 10 < 10) by (intros i H; apply Z.rem_bound_pos; lia).
  unfold recordOrder, updateAvgSize. constructor; cbn -[sumSizes heldSizes]; rewrite ?length_insert; try done.
  - by split; apply R.
  - by apply Forall_insert.
  - destruct (Z.ltb_spec 0 (Z.of_nat (length (heldSizes (<[Z.to_nat (Z.rem (SizeIdx s + 1) 10) := q]> (Last10Sizes s))))))
      as [H|H]; [|done]. apply Z.div_pos; [apply sumSizes_nonneg|done].
Qed.

(** The size of an approved order is the newest of the window and enters the mean. *)
Lemma recordOrder_mean s q sym :
  adv_ok s -> 0 < q -> 
  let s' := recordOrder s q sym in
  (Last10Sizes s' !! Z.to_nat (SizeIdx s') = Some q) /\
  (Last10Symbols s' !! Z.to_nat (SymbolIdx s') = Some sym) /\
  heldSizes (Last10Sizes s') <> nil /\
  AvgTradeSize s' = sumSizes (heldSizes (Last10Sizes s')) / Z.of_nat (length (heldSizes (Last10Sizes s'))).
Proof.
  intros H Hq s'. destruct (recordOrder_ok s q sym H ltac:(lia)) as [L1 L2 [I1 I2] _ _]. fold s' in L1, L2, I1, I2.
  destruct H as [K1 K2 _ _ _].
  assert (E1 : Last10Sizes s' !! Z.to_nat (SizeIdx s') = Some q).
  { apply list_lookup_insert_eq. rewrite K1. unfold s', recordOrder in I1. cbn in I1. lia. }
  assert (E2 : Last10Symbols s' !! Z.to_nat (SymbolIdx s') = Some sym).
  { apply list_lookup_insert_eq. rewrite K2. unfold s', recordOrder in I2. cbn in I2. lia. }
  assert (N : heldSizes (Last10Sizes s') <> []).
  { intros N. assert (Hin : In q (heldSizes (Last10Sizes s'))); [|by rewrite N in Hin].
    apply filter_In. split; [|lia]. by apply list_elem_of_In, list_elem_of_lookup_2 with (1 := E1). }
  repeat split; try done. unfold s', recordOrder, updateAvgSize in *. cbn -[sumSizes heldSizes] in *.
  by destruct (heldSizes _); [|].
Qed.

(** [RecordReject] over a burst of refusals. *)
Definition rejects (ts : list Z) (s : AdversarialState) : AdversarialState := fold_left RecordReject ts s.

(** [t] lies in the five minutes from [t0]. *)
Definition within5 (t0 t : Z) : Prop := t0 <= t <= t0 + FiveMinNS.

Lemma rejects_count ts : forall s t0,
  RejectWindowStart s = t0 -> 0 <= t0 -> Forall (within5 t0) ts -> t0 + FiveMinNS < 2 ^ 63 -> 0 <= RejectCount s ->
  RejectCount s + Z.of_nat (length ts) < 2 ^ 63 ->
  RejectCount (rejects ts s) = RejectCount s + Z.of_nat (length ts) /\ RejectWindowStart (rejects ts s) = t0.
Proof.
  induction ts as [|t ts IH]; intros s t0 E H0 F Hb Hc Hl; cbn in *; [split; [lia|done]|].
  inversion F as [|? ? [L U] F']; subst.
  assert (Hw : (FiveMinNS <? i64 (t - RejectWindowStart s)) = false).
  { rewrite i64_id by (unfold in_i64, FiveMinNS in *; lia). lia. }
  assert (E1 : RejectCount (RecordReject s t) = RejectCount s + 1).
  { unfold RecordReject. rewrite Hw. cbn. apply i64_id. unfold in_i64; lia. }
  assert (E2 : RejectWindowStart (RecordReject s t) = RejectWindowStart s) by (unfold RecordReject; by rewrite Hw).
  destruct (IH (RecordReject s t) (RejectWindowStart s)) as [G1 G2]; try done; [lia..|].
  split; [|done]. unfold rejects in *. rewrite G1. lia.
Qed.

(** ** Claims *)

(** The guards under which an order passes. *)
Definition passes (s : AdversarialState) (quantity symbol now : Z) : Prop :=
  (RejectCount s <= RejectThreshold \/ FiveMinNS <= now - RejectWindowStart s) /\
  (AvgTradeSize s = 0 \/ quantity <= 2 * AvgTradeSize s) /\
  (WatchlistCount s = 0 \/ symbol ∈ take (Z.to_nat (WatchlistCount s)) (Watchlist s)) /\
  (9 <= hourUTC now < 16) /\
  (0 <= dayOf now <= 4).

Lemma isWatchlisted_spec s sym :
  isWatchlisted s sym = true <-> sym ∈ take (Z.to_nat (WatchlistCount s)) (Watchlist s).
Proof.
  unfold isWatchlisted. rewrite existsb_exists, list_elem_of_In. split.
  - intros (x & Hx & ->%Z.eqb_eq). done.
  - intros H. exists sym. split; [done|]. apply Z.eqb_refl.
Qed.

Lemma dayOf_range t : 0 <= dayOf t < 7.
Proof. unfold dayOf, weekdayOfDay. apply Z.mod_pos_bound. lia. Qed.

(** A refusal: the state is kept, and a guard fails. *)
Ltac adv_refused :=
  solve [cbn; split_and!; [split; [done|intros (? & ? & ? & ? & ?); exfalso; intuition (lia || congruence)]
    | split; [first [done | intros _; lia]|first [done | lia]] | done | done | done]].

(** The adversarial guard approves exactly the orders which pass it: no spike of refusals in the last five
    minutes, at most twice the mean size, a listed symbol when there is a watchlist, between 9h and 16h UTC, from
    Sunday to Thursday.  An approved order is the newest of the window, whose mean it enters, and keeps the
    state well formed; any other leaves the state alone, and pulls the kill switch exactly in a spike. *)
Theorem adversarial_gate (s : AdversarialState) (q sym now : Z) :
  adv_ok s -> 0 < q -> 0 <= now < 2 ^ 63 -> 0 <= RejectWindowStart s < 2 ^ 63 ->
  2 * AvgTradeSize s < 2 ^ 64 -> 0 <= WatchlistCount s ->
  let '(s', r) := CheckAdversarial s q sym now in
  (Approve r = true <-> passes s q sym now) /\
  (TriggerKill r = true <-> RejectThreshold < RejectCount s /\ now - RejectWindowStart s < FiveMinNS) /\
  adv_ok s' /\
  (Approve r = false -> s' = s) /\
  (Approve r = true ->
     Last10Sizes s' !! Z.to_nat (SizeIdx s') = Some q /\
     AvgTradeSize s' = sumSizes (heldSizes (Last10Sizes s')) / Z.of_nat (length (heldSizes (Last10Sizes s')))).
Proof.
  intros Ok Hq Hn Hw Ha Hc. unfold CheckAdversarial, passes.
  rewrite (i64_id (now - _)) by (unfold in_i64; lia).
  pose proof (av_avg _ Ok). rewrite (u64_id (2 * _)) by (unfold in_u64; lia).
  pose proof (dayOf_range now). rewrite isAfterHours_spec by lia.
  pose proof (isWatchlisted_spec s sym) as EW. unfold RejectThreshold.
  destruct (Z.ltb_spec (now - RejectWindowStart s) FiveMinNS), (Z.ltb_spec 3 (RejectCount s)); cbn [andb];
    [adv_refused | | |].
  all: destruct (Z.ltb_spec 0 (AvgTradeSize s)), (Z.ltb_spec (2 * AvgTradeSize s) q); cbn [andb]; try adv_refused.
  all: destruct (Z.ltb_spec 0 (WatchlistCount s)), (isWatchlisted s sym); cbn [andb negb]; try adv_refused.
  all: destruct (Z.leb_spec 5 (dayOf now)), (Z.ltb_spec (hourUTC now) 9), (Z.leb_spec 16 (hourUTC now)); cbn [orb];
    try adv_refused.
  all: split_and!; [cbn; split; [intros _; split_and!; intuition lia|done] | cbn; split; [done|lia]
    | by apply recordOrder_ok; [|lia] | done | ].
  all: intros _; destruct (recordOrder_mean s q sym Ok Hq) as (E1 & _ & _ & E2); done.
Qed.

Lemma zero_ok : adv_ok zeroAdversarial.
Proof. constructor; cbn; try done. by repeat constructor. Qed.

(** A Monday at ten, and the Friday and the Sunday of that week at the same hour. *)
Definition mondayTen : Z := (4 * 24 + 10) * 3600000000000.
Definition fridayTen : Z := (8 * 24 + 10) * 3600000000000.
Definition sundayTen : Z := (10 * 24 + 10) * 3600000000000.

Lemma adversarial_gate_witness :
  passes zeroAdversarial 100 7 mondayTen /\
  (Approve (snd (CheckAdversarial zeroAdversarial 100 7 mondayTen)) = true <-> passes zeroAdversarial 100 7 mondayTen).
Proof.
  split.
  - unfold passes. split_and!; try (left; done); vm_compute; intuition discriminate.
  - pose proof (adversarial_gate zeroAdversarial 100 7 mondayTen zero_ok) as H.
    destruct (CheckAdversarial zeroAdversarial 100 7 mondayTen) as [s r]. apply H; cbn; unfold mondayTen; lia.
Defined.

Example friday_refused : AdvReason (snd (CheckAdversarial zeroAdversarial 100 7 fridayTen)) = "after_hours"%string.
Proof. reflexivity. Qed.

Example sunday_approved : Approve (snd (CheckAdversarial zeroAdversarial 100 7 sundayTen)) = true.
Proof. reflexivity. Qed.

(** A burst of refusals opened by one later than the window: the guard pulls the kill switch on the next
    check exactly when more than three of them fell within its five minutes. *)
Theorem reject_burst_kills (s : AdversarialState) (t0 : Z) (ts : list Z) (q sym now : Z) :
  0 <= RejectWindowStart s -> RejectWindowStart s + FiveMinNS < t0 -> t0 + FiveMinNS < 2 ^ 63 ->
  Forall (within5 t0) ts -> Z.of_nat (length ts) < 2 ^ 62 -> t0 <= now < t0 + FiveMinNS ->
  TriggerKill (snd (CheckAdversarial (rejects (t0 :: ts) s) q sym now)) = (RejectThreshold <? Z.of_nat (length (t0 :: ts))).
Proof.
  intros H0 Hl Hb F Hts Hn. unfold rejects. cbn [fold_left]. set (s1 := RecordReject s t0).
  assert (E : RejectWindowStart s1 = t0 /\ RejectCount s1 = 1).
  { unfold s1, RecordReject. rewrite (i64_id (t0 - _)) by (unfold in_i64, FiveMinNS in *; lia).
    destruct (Z.ltb_spec FiveMinNS (t0 - RejectWindowStart s)); [|lia]. split; [done|]. cbn. apply i64_id. unfold in_i64; lia. }
  destruct E as [E1 E2]. destruct (rejects_count ts s1 t0 E1) as [G1 G2]; try done; [unfold FiveMinNS in *; lia..|].
  unfold rejects in G1, G2. unfold CheckAdversarial. rewrite G1, G2, E2. unfold FiveMinNS in *.
  rewrite i64_id by (unfold in_i64; lia). rewrite (proj2 (Z.ltb_lt _ _)) by lia. cbn [andb].
  replace (Z.of_nat (length (t0 :: ts))) with (1 + Z.of_nat (length ts)) by (rewrite length_cons; lia).
  destruct (RejectThreshold <? _); [done|]. repeat case_match; done.
Qed.
