(* ===== verification/Hmm.v ===== *)
(** * The hidden Markov regime tracker ([internal/risk/hmm.go])

    A forward filter over four states, fed by price changes.  [math.Exp] is the
    argument [Exp]; arrays are lists of their length, indices are in range by the
    loops.  A sum runs from zero in the order of the code, without fused
    multiply-add. *)
From Stdlib Require Import ZArith Lia Bool Floats.
From S2P Require Import Prelude Float64 FloatRound FloatLaws Gates.
Import GoInt.
Local Open Scope float_scope.
Local Open Scope go_scope.

Definition HMMCalm : Z := 0.
Definition HMMTrending : Z := 1.
Definition HMMHighVol : Z := 2.
Definition HMMCrisis : Z := 3.

Record HMMModel := mkHMM {
  Transition : list (list float64);
  InitialProbs : list float64;
  EmissionMeans : list float64;
  EmissionSDs : list float64;
  Loaded : bool
}.

Record HMMTracker := mkTracker {
  Model : HMMModel;
  CurrentState : Z;
  Confidence : float64;
  Alpha : list float64;
  LastReturns : list float64;
  ReturnCount : Z;
  ReturnIdx : Z
}.

Definition DefaultHMM : HMMModel :=
  mkHMM [[0.85; 0.10; 0.04; 0.01]; [0.08; 0.80; 0.10; 0.02]; [0.03; 0.10; 0.80; 0.07]; [0.01; 0.02; 0.10; 0.87]]
    [0.70; 0.20; 0.08; 0.02] [0.0002; 0.0005; -0.0003; -0.0015] [0.005; 0.012; 0.025; 0.060] true.

Definition NewHMMTracker (model : HMMModel) : HMMTracker :=
  mkTracker model HMMCalm 0 (InitialProbs model) (replicate 256 0) 0 0.

Definition sumFrom0 (l : list float64) : float64 := fold_left PrimFloat.add l 0.

Definition computeVolatility (returns : list float64) (count : Z) : float64 :=
  if (count <? 2)%Z then 0.01
  else
    let l := take (Z.to_nat count) returns in
    let mean := sumFrom0 l / of_Z count in
    let variance := sumFrom0 (map (fun r => (r - mean) * (r - mean)) l) / of_Z (count - 1) in
    math.Sqrt variance.

(** The standard deviation a return is scored with: the model's, or the larger
    volatility observed. *)
Definition effectiveSD (sd vol : float64) : float64 :=
  let sd := if sd <? vol then vol else sd in
  if sd =? 0 then 0.001 else sd.

Section Tracker.
Context (Exp : float64 -> float64).

Definition emissionProb (state : nat) (ret vol : float64) (means sds : list float64) : float64 :=
  let sd := effectiveSD (nth state sds 0) vol in
  let z := (ret - nth state means 0) / sd in
  Exp (-0.5 * z * z) / (sd * 2.50662827463).

(** The mass of state [j] before normalisation. *)
Definition predict (alpha : list float64) (transition : list (list float64)) (j : nat) : float64 :=
  sumFrom0 (map (fun i => nth i alpha 0 * nth j (nth i transition []) 0) (seq 0 4)).

Definition forwardAlpha (m : HMMModel) (alpha : list float64) (ret vol : float64) : list float64 :=
  map (fun j => predict alpha (Transition m) j * emissionProb j ret vol (EmissionMeans m) (EmissionSDs m)) (seq 0 4).

(** The new belief: the normalised mass, or the old belief when there is none. *)
Definition normalise (alpha new : list float64) : list float64 :=
  let total := sumFrom0 new in
  if total >? 0 then map (fun a => a / total) new else alpha.

(** The first state of largest belief, 0 with confidence 0 when no belief is positive. *)
Definition bestState (alpha : list float64) : Z * float64 :=
  fold_left (fun b j => if nth j alpha 0 >? snd b then (Z.of_nat j, nth j alpha 0) else b) (seq 0 4) (0%Z, 0).

Definition returnOf (priceRaw prevPrice : Z) : float64 := of_Z (i64 (priceRaw - prevPrice)) / of_Z prevPrice.

(** The return enters the ring of the last 256. *)
Definition pushReturn (t : HMMTracker) (ret : float64) : HMMTracker :=
  mkTracker (Model t) (CurrentState t) (Confidence t) (Alpha t)
    (<[Z.to_nat (ReturnIdx t) := ret]> (LastReturns t))
    (if ReturnCount t <? 256 then ReturnCount t + 1 else ReturnCount t)%Z (Z.rem (ReturnIdx t + 1) 256).

Definition Update (t : HMMTracker) (priceRaw prevPrice : Z) : HMMTracker :=
  if (prevPrice <=? 0)%Z || negb (Loaded (Model t)) then t
  else
    let ret := returnOf priceRaw prevPrice in
    let t := pushReturn t ret in
    if (ReturnCount t <? 10)%Z then t
    else
      let vol := computeVolatility (LastReturns t) (ReturnCount t) in
      let alpha := normalise (Alpha t) (forwardAlpha (Model t) (Alpha t) ret vol) in
      let '(state, conf) := bestState alpha in
      mkTracker (Model t) state conf alpha (LastReturns t) (ReturnCount t) (ReturnIdx t).
End Tracker.

Definition GetRegime (t : HMMTracker) : Z * float64 := (CurrentState t, Confidence t).

Definition LoadCalibratedParams (t : HMMTracker) (transition : list (list float64))
    (initialProbs means sds : list float64) : HMMTracker :=
  mkTracker (mkHMM transition initialProbs means sds true) (CurrentState t) (Confidence t) initialProbs
    (LastReturns t) (ReturnCount t) (ReturnIdx t).

Definition VIXModulateSDs (sds : list float64) (vixValue : float64) : list float64 :=
  if vixValue >? 30 then map (fun s => s * 1.5) sds
  else if vixValue >? 25 then <[3%nat := nth 3 sds 0 * 1.3]> sds
  else if vixValue <? 12 then map (fun s => s * 0.75) sds
  else sds.

(** ** The emission probability *)
Section Laws.
Local Open Scope Z_scope.

(** [-0.5 * z * z] is not a NaN and not positive, infinities included. *)
Lemma neg_half_square z : fnan z = false -> fnan (-0.5 * z * z)%float = false /\ fv (-0.5 * z * z)%float <= 0.
Proof.
  intros N. destruct (ffin z) eqn:F.
  - pose proof onev_pos as O. pose proof (mul_nearest (-0.5)%float z eq_refl F) as H1. fold onev in H1.
    assert (E : fv (-0.5)%float = - 2 ^ 1073) by (vm_compute; reflexivity).
    rewrite E in H1. assert (Eo : onev = 2 * 2 ^ 1073) by (vm_compute; reflexivity).
    set (w := (-0.5 * z)%float) in *.
    assert (Fw : ffin w = true).
    { destruct (Z.le_ge_cases 0 (fv z)) as [Hz|Hz].
      - apply (nearest_fin _ _ _ z O H1 F). nia.
      - apply (nearest_fin _ _ _ (- z)%float O H1); [by rewrite ffin_opp|]. rewrite fv_opp. nia. }
    pose proof (mul_nearest w z Fw F) as H2. fold onev in H2. split; [apply H2|].
    rewrite <- fv_zero_lit. apply (nearest_le _ _ _ 0%float O H2 eq_refl). rewrite fv_zero_lit, Z.mul_0_l.
    destruct (Z.le_ge_cases 0 (fv z)) as [Hz|Hz].
    + assert (fv w <= fv 0%float); [|rewrite fv_zero_lit in *; nia].
      apply (nearest_le _ _ _ 0%float O H1 eq_refl). rewrite fv_zero_lit. nia.
    + assert (fv 0%float <= fv w); [|rewrite fv_zero_lit in *; nia].
      apply (nearest_ge _ _ _ 0%float O H1 eq_refl). rewrite fv_zero_lit. nia.
  - destruct (Z.le_ge_cases 0 (fv z)) as [Hz|Hz].
    + rewrite (nonfin_pos z N F Hz). split; [reflexivity|vm_compute; discriminate].
    + assert (Ez : (- z)%float = infinity)
        by (apply nonfin_pos; [by rewrite fnan_opp|by rewrite ffin_opp|rewrite fv_opp; lia]).
      assert (z = neg_infinity) as -> by (rewrite <- (opp_opp z), Ez; reflexivity).
      split; [reflexivity|vm_compute; discriminate].
Qed.

(** Division by infinity. *)
Lemma div_inf x : ffin x = true -> fnan (x / infinity)%float = false /\ fv (x / infinity)%float = 0.
Proof.
  intros F. unfold fnan, fv. rewrite div_spec.
  destruct (ffin_cases x F) as [(s & -> & _)|(s & m & e & -> & _)]; by destruct s.
Qed.

(** The smallest deviation the model may score with. *)
Definition sd_ok (sd : float64) : Prop := ffin sd = true /\ fv 0.001%float <= fv sd.

Lemma effectiveSD_ok sd vol :
  sd_ok sd -> fnan (effectiveSD sd vol) = false /\ fv 0.001%float <= fv (effectiveSD sd vol).
Proof.
  intros [F L]. unfold effectiveSD.
  assert (H : fnan (if (sd <? vol)%float then vol else sd) = false /\
              fv 0.001%float <= fv (if (sd <? vol)%float then vol else sd)).
  { destruct (sd <? vol)%float eqn:E; [|split; [by apply ffin_nan|done]].
    apply ltb_true in E as (_ & N & H). split; [done|lia]. }
  destruct (_ =? _)%float; [|done]. split; [reflexivity|lia].
Qed.

(** A value in [0, b]. *)
Definition upto (b : Z) (x : float64) : Prop := pos0 x /\ fv x <= b * onev.

Lemma unit_upto x : unit0 x <-> upto 1 x.
Proof. unfold unit0, upto, pos0. rewrite Z.mul_1_l. tauto. Qed.

Lemma upto_le b c x : b <= c -> upto b x -> upto c x.
Proof. intros H [P L]. split; [done|]. pose proof onev_pos. nia. Qed.

Lemma upto_mul a b x y : 0 <= a -> 0 <= b -> a * b <= 2 ^ 53 -> upto a x -> upto b y -> upto (a * b) (x * y)%float.
Proof.
  intros Ha Hb Hab [Px Lx] [Py Ly]. destruct (mul_pos0 x y Px Py) as [N H].
  destruct (repr_int (a * b)) as (w & Fw & Ew); [lia|]. pose proof onev_pos as O.
  pose proof (mul_nearest x y (pos0_fin _ Px) (pos0_fin _ Py)) as M. fold onev in M.
  destruct Px as [Fx Hx], Py as [Fy Hy].
  assert (U : fv x * fv y <= fv w * onev).
  { rewrite Ew. replace (a * b * onev * onev) with ((a * onev) * (b * onev)) by lia.
    apply Z.mul_le_mono_nonneg; lia. }
  pose proof (nearest_le _ _ _ w O M (ffin_nan _ Fw) U) as L. rewrite Ew in L.
  split; [|done]. split; [|done]. apply (nearest_fin _ _ _ w O M Fw). rewrite Z.abs_eq; [done|]. by apply Z.mul_nonneg_nonneg.
Qed.

Lemma upto_add b x y : 0 <= b -> 2 * b <= 2 ^ 53 -> upto b x -> upto b y -> upto (2 * b) (x + y)%float.
Proof.
  intros Hb H2 [Px Lx] [Py Ly]. destruct (add_pos0 x y Px Py) as (N & H & _).
  destruct (repr_int (2 * b)) as (w & Fw & Ew); [lia|].
  pose proof (add_nearest x y (pos0_fin _ Px) (pos0_fin _ Py)) as M. destruct Px as [Fx Hx], Py as [Fy Hy].
  assert (U : fv x + fv y <= fv w * 1) by (rewrite Ew; lia).
  pose proof (nearest_le _ _ _ w Z.lt_0_1 M (ffin_nan _ Fw) U) as L. rewrite Ew in L.
  split; [|lia]. split; [|lia]. apply (nearest_fin _ _ _ w Z.lt_0_1 M Fw). lia.
Qed.

(** A short sum of bounded terms is finite and above each term. *)
Lemma sum_upto l : forall b s, 0 <= b -> 2 ^ Z.of_nat (length l) * b <= 2 ^ 53 -> upto b s -> Forall (upto b) l ->
  let r := fold_left PrimFloat.add l s in
  upto (2 ^ Z.of_nat (length l) * b) r /\ fv s <= fv r /\ Forall (fun x => fv x <= fv r) l.
Proof.
  induction l as [|x l IH]; intros b s Hb Hl Us F r; [cbn in r; subst r; rewrite Z.mul_1_l; done|].
  inversion F as [|? ? Ux F']; subst. cbn [length] in *. rewrite Nat2Z.inj_succ, Z.pow_succ_r in * by lia.
  assert (P1 : 1 <= 2 ^ Z.of_nat (length l)) by (pose proof (Z.pow_pos_nonneg 2 (Z.of_nat (length l))); lia).
  pose proof (upto_add b s x Hb ltac:(nia) Us Ux) as U.
  destruct (IH (2 * b) (s + x)%float) as (G1 & G2 & G3); [lia|nia|done| |].
  { eapply List.Forall_impl; [|exact F']. intros y. apply upto_le. lia. }
  destruct (add_pos0 s x (proj1 Us) (proj1 Ux)) as (_ & L1 & L2).
  cbn in r. fold r in G1, G2, G3. split; [|split; [lia|constructor; [lia|done]]].
  by replace (2 * 2 ^ Z.of_nat (length l) * b) with (2 ^ Z.of_nat (length l) * (2 * b)) by lia.
Qed.

Lemma upto_zero b : 0 <= b -> upto b 0%float.
Proof. intros H. split; [apply pos0_zero|]. rewrite fv_zero_lit. pose proof onev_pos. nia. Qed.
End Laws.

(** ** The belief *)

(** A calibrated model: probabilities, and deviations not below 0.001. *)
Record model_ok (m : HMMModel) : Prop := {
  mo_trans : length (Transition m) = 4%nat /\ Forall (Forall unit0) (Transition m);
  mo_init : length (InitialProbs m) = 4%nat /\ Forall unit0 (InitialProbs m);
  mo_means : length (EmissionMeans m) = 4%nat /\ Forall money (EmissionMeans m);
  mo_sds : length (EmissionSDs m) = 4%nat /\ Forall sd_ok (EmissionSDs m)
}.

(** The highest belief is the confidence, and it is that of the current state. *)
Definition best_of (alpha : list float64) (state : Z) (conf : float64) : Prop :=
  (0 <= state < 4)%Z /\ unit0 conf /\ Forall (fun a => fv a <= fv conf)%Z alpha /\
  ((0 <? conf) = true -> nth (Z.to_nat state) alpha 0 = conf).

Record tracker_ok (t : HMMTracker) : Prop := {
  tk_model : model_ok (Model t);
  tk_alpha : length (Alpha t) = 4%nat /\ Forall unit0 (Alpha t);
  tk_ring : length (LastReturns t) = 256%nat;
  tk_idx : (0 <= ReturnIdx t < 256 /\ 0 <= ReturnCount t <= 256)%Z;
  tk_state : (0 <= CurrentState t < 4)%Z /\ unit0 (Confidence t)
}.

Section Belief.
Local Open Scope Z_scope.
Context (Exp : float64 -> float64).
(** [math.Exp] of a number that is not positive lies in [0, 1]; it is 0 at -Inf. *)
Hypothesis Exp_nonpos : forall x, fnan x = false -> fv x <= 0 -> unit0 (Exp x).

(** The largest emission density, in units. *)
Definition densityCap : Z := 1001.

Lemma emissionProb_upto j ret vol means sds :
  money ret -> money (nth j means 0%float) -> sd_ok (nth j sds 0%float) ->
  upto densityCap (emissionProb Exp j ret vol means sds).
Proof.
  intros Hr Hm Hs. unfold emissionProb. cbv zeta. pose proof onev_pos as O.
  destruct (effectiveSD_ok (nth j sds 0%float) vol Hs) as [Nd Ld]. set (d := effectiveSD _ _) in *.
  destruct (sub_money _ _ Hr Hm) as [Fs _].
  assert (P0 : 0 < fv 0.001%float) by (vm_compute; reflexivity).
  set (z := ((ret - nth j means 0) / d)%float).
  assert (Nz : fnan z = false /\ (ffin d = false -> d = infinity)).
  { destruct (ffin d) eqn:Fd; [split; [apply (div_sign _ _ Fs Fd); lia|done]|].
    pose proof (nonfin_pos d Nd Fd ltac:(lia)) as Ed. split; [|done]. unfold z. rewrite Ed. by apply div_inf. }
  destruct Nz as [Nz Di]. destruct (neg_half_square z Nz) as [Na La]. 
  pose proof (Exp_nonpos _ Na La) as Ue. set (e := Exp _) in *.
  assert (D : fnan (d * 2.50662827463)%float = false /\ fv 0.001%float <= fv (d * 2.50662827463)%float).
  { destruct (ffin d) eqn:Fd; [|rewrite (Di eq_refl); split; [reflexivity|vm_compute; discriminate]].
    pose proof (mul_nearest d 2.50662827463%float Fd eq_refl) as M. fold onev in M. split; [apply M|].
    apply (nearest_ge _ _ _ 0.001%float O M eq_refl).
    assert (onev <= fv 2.50662827463%float) by (vm_compute; discriminate). nia. }
  set (k := (d * 2.50662827463)%float) in *. destruct D as [Nk Lk]. destruct Ue as [Fe [He1 He2]].
  destruct (ffin k) eqn:Fk.
  - pose proof (div_nearest e k Fe Fk ltac:(lia)) as Q. rewrite Z.sgn_pos, Z.mul_1_r, Z.abs_eq in Q by lia. fold onev in Q.
    destruct (repr_int densityCap) as (w & Fw & Ew); [vm_compute; discriminate|].
    assert (U : fv e * onev <= fv w * fv k).
    { assert (onev * onev <= fv w * fv 0.001%float) by (rewrite Ew; vm_compute; discriminate).
      assert (0 <= fv w) by (rewrite Ew; unfold densityCap; lia).
      transitivity (onev * onev); [apply Z.mul_le_mono_nonneg; lia|].
      transitivity (fv w * fv 0.001%float); [done|]. apply Z.mul_le_mono_nonneg_l; lia. }
    assert (Hk : 0 < fv k) by lia. destruct (div_sign e k Fe Fk Hk) as (_ & G & _).
    pose proof (nearest_le _ _ _ w Hk Q (ffin_nan _ Fw) U). rewrite Ew in *.
    split; [|lia]. split; [|by apply G]. apply (nearest_fin _ _ _ w Hk Q Fw). rewrite Z.abs_eq, Ew by lia. done.
  - rewrite (nonfin_pos k Nk Fk ltac:(lia)). destruct (div_inf e Fe) as [N0 E0].
    unfold upto, pos0. rewrite E0. split; [split; [|done]|unfold densityCap; lia].
    apply ffin_of_range; [done|]. rewrite E0. pose proof fmaxv_pos. lia.
Qed.

Lemma Forall_nth_4 {A} (P : A -> Prop) (l : list A) d j : length l = 4%nat -> Forall P l -> (j < 4)%nat -> P (nth j l d).
Proof. intros L F H. rewrite List.Forall_nth in F. apply F. by rewrite L. Qed.

Lemma predict_upto alpha tr j :
  length alpha = 4%nat -> Forall unit0 alpha -> length tr = 4%nat -> Forall (Forall unit0) tr ->
  upto 16 (predict alpha tr j).
Proof.
  intros La Fa Lt Ft. unfold predict, sumFrom0.
  set (l := map _ _). change 16 with (2 ^ Z.of_nat (length l) * 1).
  apply sum_upto; [done|vm_compute; discriminate|by apply upto_zero|].
  apply List.Forall_map, List.Forall_forall. intros i Hi%in_seq.
  change 1 with (1 * 1). apply upto_mul; [done..| |]; apply unit_upto.
  - apply Forall_nth_4; [done|done|lia].
  - pose proof (Forall_nth_4 _ tr [] i Lt Ft ltac:(lia)) as F.
    destruct (Nat.lt_ge_cases j (length (nth i tr []))) as [H|H].
    + rewrite List.Forall_nth in F. by apply F.
    + rewrite nth_overflow by done. split; [done|]. rewrite fv_zero_lit. pose proof onev_pos. lia.
Qed.

Lemma forwardAlpha_ok m alpha ret vol :
  model_ok m -> length alpha = 4%nat -> Forall unit0 alpha -> money ret ->
  length (forwardAlpha Exp m alpha ret vol) = 4%nat /\
  Forall (upto (16 * densityCap)) (forwardAlpha Exp m alpha ret vol).
Proof.
  intros [[T1 T2] _ [M1 M2] [S1 S2]] La Fa Hr. split; [done|]. unfold forwardAlpha.
  apply List.Forall_map, List.Forall_forall. intros j Hj%in_seq.
  apply upto_mul; [done|done|vm_compute; discriminate|by apply predict_upto|].
  apply emissionProb_upto; [done|..]; apply Forall_nth_4; (done || lia).
Qed.

(** Normalisation gives a belief again. *)
Lemma normalise_ok alpha new :
  length alpha = 4%nat -> Forall unit0 alpha -> length new = 4%nat -> Forall (upto (16 * densityCap)) new ->
  length (normalise alpha new) = 4%nat /\ Forall unit0 (normalise alpha new).
Proof.
  intros La Fa Ln Fn. unfold normalise.
  destruct (sum_upto new (16 * densityCap) 0%float) as (U & _ & G); [done| |by apply upto_zero|done|].
  { rewrite Ln. vm_compute. discriminate. }
  destruct (0 <? sumFrom0 new)%float eqn:E; [|done].
  apply ltb_true in E as (_ & _ & E). rewrite fv_zero_lit in E.
  split; [by rewrite length_map|]. apply List.Forall_map. apply List.Forall_forall. intros a Ha.
  rewrite List.Forall_forall in Fn, G. apply div_le_one; [apply Fn, Ha|apply U|done|by apply G].
Qed.

Lemma bestState_ok alpha :
  length alpha = 4%nat -> Forall unit0 alpha -> best_of alpha (bestState alpha).1 (bestState alpha).2.
Proof.
  intros L F. destruct alpha as [|a [|b [|c [|d [|]]]]]; try done.
  inversion F as [|? ? Ha F1]; subst. inversion F1 as [|? ? Hb F2]; subst.
  inversion F2 as [|? ? Hc F3]; subst. inversion F3 as [|? ? Hd _]; subst.
  assert (U0 : unit0 0%float) by (split; [done|]; rewrite fv_zero_lit; pose proof onev_pos; lia).
  assert (N : forall x, unit0 x -> fnan x = false) by (intros x [Hx _]; by apply ffin_nan).
  assert (S : forall x y, unit0 x -> unit0 y -> (x <? y)%float = (fv x <? fv y))
    by (intros; apply ltb_fv_nn; by apply N).
  unfold bestState. cbn [seq fold_left nth snd].
  destruct (0 <? a)%float eqn:E1; cbn [snd];
  match goal with |- context [(?x <? b)%float] => destruct (x <? b)%float eqn:E2; cbn [snd] end;
  match goal with |- context [(?x <? c)%float] => destruct (x <? c)%float eqn:E3; cbn [snd] end;
  match goal with |- context [(?x <? d)%float] => destruct (x <? d)%float eqn:E4; cbn [snd] end;
  rewrite ?S in E1, E2, E3, E4 by done; rewrite fv_zero_lit in *;
  pose proof (proj2 Ha); pose proof (proj2 Hb); pose proof (proj2 Hc); pose proof (proj2 Hd);
  (split; [cbn; lia|]); (split; [done|]); 
  (split; [repeat constructor; cbn [snd]; rewrite ?fv_zero_lit; lia|]); cbn [fst snd]; try reflexivity;
  rewrite ltb_irrefl; discriminate.
Qed.
End Belief.

Section Returns.
Local Open Scope Z_scope.

(** A price change over a positive price. *)
Lemma returnOf_money p q : 0 < q < 2 ^ 63 -> money (returnOf p q).
Proof.
  intros Hq. unfold returnOf. pose proof onev_pos as O.
  assert (B : forall z, Z.abs z <= 2 ^ 63 -> ffin (of_Z z) = true /\ Z.abs (fv (of_Z z)) <= 2 ^ 63 * onev).
  { intros z Hz. pose proof (of_Z_nearest z) as N. fold onev in N.
    assert (E : fv 9223372036854775808%float = 2 ^ 63 * onev) by (vm_compute; reflexivity).
    assert (L : Z.abs (z * onev) <= fv 9223372036854775808%float * 1) by (rewrite E, Z.abs_mul; nia).
    split; [by apply (nearest_fin _ _ _ 9223372036854775808%float Z.lt_0_1 N eq_refl)|].
    pose proof (nearest_le _ _ _ 9223372036854775808%float Z.lt_0_1 N eq_refl ltac:(lia)) as U.
    pose proof (nearest_ge _ _ _ (-9223372036854775808)%float Z.lt_0_1 N eq_refl) as L2.
    assert (E2 : fv (-9223372036854775808)%float = - (2 ^ 63 * onev)) by (vm_compute; reflexivity).
    rewrite E, E2 in *. specialize (L2 ltac:(lia)). lia. }
  destruct (B (i64 (p - q))) as [Fx Hx]; [pose proof (i64_range (p - q)); unfold in_i64 in *; lia|].
  destruct (B q) as [Fy _]; [lia|].
  assert (Ly : onev <= fv (of_Z q)).
  { pose proof (of_Z_nearest q) as N. fold onev in N. rewrite <- fv_one.
    apply (nearest_ge _ _ _ 1%float Z.lt_0_1 N eq_refl). rewrite fv_one. nia. }
  pose proof (div_nearest _ _ Fx Fy ltac:(lia)) as N. rewrite Z.sgn_pos, Z.mul_1_r in N by lia. fold onev in N.
  assert (HA : 0 < Z.abs (fv (of_Z q))) by lia.
  assert (E : fv 9223372036854775808%float = 2 ^ 63 * onev) by (vm_compute; reflexivity).
  assert (E2 : fv (-9223372036854775808)%float = - (2 ^ 63 * onev)) by (vm_compute; reflexivity).
  assert (U : Z.abs (fv (of_Z (i64 (p - q))) * onev) <= 2 ^ 63 * onev * Z.abs (fv (of_Z q))).
  { rewrite Z.abs_mul, (Z.abs_eq onev) by lia. apply Z.mul_le_mono_nonneg; lia. }
  split; [apply (nearest_fin _ _ _ 9223372036854775808%float HA N eq_refl); by rewrite E|].
  pose proof (nearest_le _ _ _ 9223372036854775808%float HA N eq_refl) as V1.
  pose proof (nearest_ge _ _ _ (-9223372036854775808)%float HA N eq_refl) as V2. rewrite E in V1. rewrite E2 in V2.
  assert (2 ^ 63 * onev <= moneyv) by (vm_compute; discriminate). lia.
Qed.
End Returns.

(** The operations on a tracker. *)
Inductive HmmOp :=
  | HUpdate (priceRaw prevPrice : Z)
  | HLoad (transition : list (list float64)) (initialProbs means sds : list float64).

Definition runHmm (Exp : float64 -> float64) (t : HMMTracker) (op : HmmOp) : HMMTracker :=
  match op with
  | HUpdate p q => Update Exp t p q
  | HLoad tr init means sds => LoadCalibratedParams t tr init means sds
  end.

(** Prices are [int64]s, calibrated parameters are a model. *)
Definition op_ok (op : HmmOp) : Prop :=
  match op with
  | HUpdate _ q => (q < 2 ^ 63)%Z
  | HLoad tr init means sds => model_ok (mkHMM tr init means sds true)
  end.

Lemma pushReturn_ok t ret : tracker_ok t -> tracker_ok (pushReturn t ret).
Proof.
  intros [M A R [I C] S]. constructor; cbn; try done; [by rewrite length_insert|].
  split; [apply Z.rem_bound_pos; lia|]. destruct (Z.ltb_spec (ReturnCount t) 256); lia.
Qed.

Lemma Update_ok Exp (H : forall x, fnan x = false -> (fv x <= 0)%Z -> unit0 (Exp x)) t p q :
  tracker_ok t -> (q < 2 ^ 63)%Z -> tracker_ok (Update Exp t p q).
Proof.
  intros Ok Hq. unfold Update. destruct (Z.leb_spec q 0); [done|]. cbn [orb].
  destruct (negb _); [done|]. pose proof (pushReturn_ok t (returnOf p q) Ok) as Ok1.
  set (t1 := pushReturn _ _) in *. destruct (_ <? _)%Z; [done|].
  destruct Ok1 as [M [A1 A2] R I S].
  destruct (forwardAlpha_ok Exp H (Model t1) (Alpha t1) (returnOf p q)
    (computeVolatility (LastReturns t1) (ReturnCount t1)) M A1 A2) as [F1 F2]; [by apply returnOf_money|].
  destruct (normalise_ok (Alpha t1) _ A1 A2 F1 F2) as [N1 N2].
  destruct (bestState_ok _ N1 N2) as (B1 & B2 & _). destruct (bestState _) as [st conf]. by constructor.
Qed.

Lemma new_tracker_ok m : model_ok m -> tracker_ok (NewHMMTracker m).
Proof.
  intros M. constructor; [done|by apply M|reflexivity|done|].
  split; [done|]. apply unit_upto, upto_zero. done.
Qed.

(** C40: On every run of price updates and calibrations the tracker stays a belief: four probabilities, a state of
    the enumeration, a confidence in [0, 1], ring indices in the ring; and an update that filters leaves the
    current state the most believed one, with that belief as its confidence. *)
Theorem hmm_belief_wellformed (Exp : float64 -> float64) (m : HMMModel) (ops : list HmmOp) (p q : Z) :
  (forall x, fnan x = false -> (fv x <= 0)%Z -> unit0 (Exp x)) ->
  model_ok m -> Forall op_ok ops -> (0 < q < 2 ^ 63)%Z ->
  let t := fold_left (runHmm Exp) ops (NewHMMTracker m) in
  let t' := Update Exp t p q in
  tracker_ok t /\
  (Loaded (Model t) = true -> (9 <= ReturnCount t)%Z -> best_of (Alpha t') (CurrentState t') (Confidence t')).
Proof.
  intros H M F Hq t t'.
  assert (Ok : tracker_ok t).
  { unfold t. pose proof (new_tracker_ok m M) as Ok. revert Ok. generalize (NewHMMTracker m). clear -H F.
    induction F as [|op ops Hop _ IH]; intros t Ok; [done|]. cbn. apply IH. destruct op as [p q|tr init means sds]; cbn in *.
    - by apply Update_ok.
    - destruct Ok as [_ _ R I S]. constructor; cbn; try done. apply Hop. }
  split; [done|]. intros L C. unfold t', Update. destruct (Z.leb_spec q 0); [lia|]. rewrite L. cbn [orb negb].
  pose proof (pushReturn_ok t (returnOf p q) Ok) as Ok1.
  destruct (Z.ltb_spec (ReturnCount (pushReturn t (returnOf p q))) 10) as [Hc|Hc].
  { cbn in Hc. destruct (Z.ltb_spec (ReturnCount t) 256); lia. }
  set (t1 := pushReturn _ _) in *. destruct Ok1 as [M1 [A1 A2] R I S].
  destruct (forwardAlpha_ok Exp H (Model t1) (Alpha t1) (returnOf p q)
    (computeVolatility (LastReturns t1) (ReturnCount t1)) M1 A1 A2) as [F1 F2]; [by apply returnOf_money|].
  destruct (normalise_ok (Alpha t1) _ A1 A2 F1 F2) as [N1 N2].
  pose proof (bestState_ok _ N1 N2) as B. by destruct (bestState _) as [st conf].
Qed.

(** A rational stand-in for the exponential of a number that is not positive. *)
Definition demoExp (x : float64) : float64 := if x <? -700 then 0 else 1 / (1 - x).

Lemma demoExp_unit x : fnan x = false -> (fv x <= 0)%Z -> unit0 (demoExp x).
Proof.
  intros N L. unfold demoExp. pose proof onev_pos as O.
  destruct (x <? -700)%float eqn:E; [apply unit_upto, upto_zero; done|].
  apply ltb_false in E; [|done..].
  assert (F : ffin x = true) by (apply (ffin_between (-700)%float _ 0%float); rewrite ?fv_zero_lit; done).
  pose proof (sub_nearest 1%float x eq_refl F) as S. rewrite fv_one in S.
  assert (G : (onev <= fv (1 - x)%float)%Z).
  { rewrite <- fv_one at 1. apply (nearest_ge _ _ _ 1%float Z.lt_0_1 S eq_refl). rewrite fv_one. lia. }
  apply div_le_one; [apply pos0_one| |lia|by rewrite fv_one].
  assert (E1 : fv (-700)%float = (-700 * onev)%Z) by (vm_compute; reflexivity).
  assert (E2 : fv 701%float = (701 * onev)%Z) by (vm_compute; reflexivity).
  apply (nearest_fin _ _ _ 701%float Z.lt_0_1 S eq_refl). rewrite E2. lia.
Qed.

Lemma defaultHMM_ok : model_ok DefaultHMM.
Proof.
  assert (U : forall x, (ffin x && (0 <=? x) && (x <=? 1))%float%bool = true -> unit0 x).
  { intros x [[F L1]%andb_true_iff L2]%andb_true_iff. apply leb_true in L1 as (_ & _ & L1), L2 as (_ & _ & L2).
    rewrite fv_zero_lit in L1. rewrite fv_one in L2. done. }
  constructor; (split; [reflexivity|]); repeat (apply List.Forall_cons); try apply List.Forall_nil;
    try (apply U; vm_compute; reflexivity); (split; [reflexivity|]); apply Z.leb_le; vm_compute; reflexivity.
Qed.

(** Ten prices of a falling market. *)
Definition demoUpdates : list HmmOp :=
  map (fun i => HUpdate (100000000 - 1000000 * (Z.of_nat i + 1)) (100000000 - 1000000 * Z.of_nat i)) (seq 0 9).

Lemma hmm_belief_wellformed_witness :
  let t' := Update demoExp (fold_left (runHmm demoExp) demoUpdates (NewHMMTracker DefaultHMM)) 90000000 91000000 in
  best_of (Alpha t') (CurrentState t') (Confidence t').
Proof.
  apply (hmm_belief_wellformed demoExp DefaultHMM demoUpdates 90000000 91000000 demoExp_unit defaultHMM_ok).
  - repeat (apply List.Forall_cons); try apply List.Forall_nil; reflexivity.
  - lia.
  - vm_compute. reflexivity.
  - vm_compute. discriminate.
Defined.

(** A belief that scores no return at all is kept. *)
Example belief_kept : normalise [1; 0; 0; 0] [0; 0; 0; 0] = [1; 0; 0; 0].
Proof. reflexivity. Qed.
