(* ===== verification/Live.v ===== *)
(** * The live engine ([internal/engine/live_engine.go], runner.go; [internal/strategy/registry.go])

    [LiveEngine.ProcessTickForAccount] turns ticks into orders: it feeds the
    regime tracker and the bar aggregator, evaluates the account's strategies on the
    last closed bar, screens their signals with the adversarial guard, sizes them
    with the risk pipeline and watches the stops of the positions it tracks.

    The optional ML parts are nil, as [NewLiveEngine] leaves them, and their branches
    are not part of the model; neither is the order book of a symbol, which no code of
    the engine reads.  A registry is a map from names to runners; the order in which a
    tick visits its maps is an argument ([TickOrders]), and so are the times of the
    calls of [time.Now()].  A panic is [None]. *)
From Stdlib Require Import ZArith Lia Bool Floats.
From coqutil Require Import RecordSettersUsingExistingGetters.
From S2P Require Import Prelude Float64 FloatRound FloatLaws Price PropFirm Sizing TradingControls.
From S2P Require Import Regime Engine StopLoss Fills Gates SignalGate CapitalPool PoolSim Pipeline.
From S2P Require Import Bars Calendar Trade Adversarial Hmm.
Import GoInt.
Local Open Scope float_scope.
Local Open Scope go_scope.

(** Go's [uint64(x)]: truncation; out of range the result is
    implementation-defined, and this is the amd64 one. *)
Definition uint64 (x : float64) : Z :=
  if x <? 9223372036854775808 then u64 (math.int64 x)
  else u64 (math.int64 (x - 9223372036854775808) + 2 ^ 63).

(** What the engine asks of a strategy besides [StrategyRunner]. *)
Class LiveRunner (R : Type) `{StrategyRunner R} := {
  Name : R -> string;
  SetParams : R -> gmap string float64 -> R;
  SetRegimeExitParams : option (R -> gmap string float64 -> R)
}.

(** ** Strategy registries *)
Module Registry.
Section Registry.
Context {R : Type} `{LiveRunner R}.

(** A factory is the fresh runner it returns, [None] when that is nil. *)
Record t := mk { entries : gmap string R; factories : gmap string (option R) }.

Definition NewRegistry : t := mk ∅ ∅.
Definition Register (g : t) (s : R) : t := mk (<[Name s := s]> (entries g)) (factories g).
Definition RegisterFactory (g : t) (name : string) (fn : option R) : t :=
  mk (entries g) (<[name := fn]> (factories g)).
Definition Get (g : t) (name : string) : option R := entries g !! name.
Definition Create (g : t) (name : string) : option R :=
  match factories g !! name with Some r => r | None => entries g !! name end.

(** [All], in the map order [names]. *)
Definition All (g : t) (names : list string) : list R := omap (fun n => entries g !! n) names.

Definition put (g : t) (name : string) (r : R) : t := mk (<[name := r]> (entries g)) (factories g).

(** The signal of a strategy carries its name. *)
Definition named (name : string) (s : Signal) : Signal :=
  mkSignal (SigSymbol s) (SigSide s) (SigQuantity s) (SigAction s) (SigPWin s) name (SigStopLoss s) (SigTakeProfit s).

(** The loop body of [EvaluateAll]; [None] when a strategy panics. *)
Definition evaluateNext (candle : Candle) (regime : Z) (acc : option (t * list Signal)) (name : string)
    : option (t * list Signal) :=
  '(g, signals) ← acc;
  match entries g !! name with
  | None => Some (g, signals)
  | Some r =>
      let '(res, r) := Evaluate r candle regime in
      sig ← res;
      Some (put g name r, match sig with Some s => signals ++ [named name s] | None => signals end)
  end.

Definition EvaluateAll (names : list string) (g : t) (candle : Candle) (regime : Z) : option (t * list Signal) :=
  fold_left (evaluateNext candle regime) names (Some (g, [])).

Definition SetActiveStrategyParams (g : t) (id : string) (params : gmap string float64) : t :=
  mk (alter (fun r => SetParams r params) id (entries g)) (factories g).
Definition SetAllStrategyParams (g : t) (params : gmap string float64) : t :=
  mk ((fun r => SetParams r params) <$> entries g) (factories g).

(** The volatility index reaches the runners that receive it. *)
Definition broadcastVIX (g : t) (vix : float64) : t :=
  match SetVIX with Some f => mk ((fun r => f r vix) <$> entries g) (factories g) | None => g end.

(** A registry filled with the fresh runners of [global]'s factories, in the map order [names]. *)
Definition instantiate (prepare : string -> R -> R) (global : t) (names : list string) : t :=
  fold_left (fun g name => match factories global !! name with
                           | Some (Some r) => Register g (prepare name r)
                           | _ => g end) names NewRegistry.
End Registry.
Arguments t : clear implicits.
End Registry.

Record SymbolState := mkSym { SymbolID : Z; Aggregator : BarAggregator; PrevPrice : Z }.

Record GlobalRiskState := mkRisk {
  Tracker : HMMTracker; Adv : AdversarialState; RiskHalted : bool; RiskHaltReason : string }.

Definition NewGlobalRiskState : GlobalRiskState := mkRisk (NewHMMTracker DefaultHMM) zeroAdversarial false "".

Section Live.
Context {R C P : Type} `{LiveRunner R} `{CapitalGate C} `{PropFirmGate P}.
Context (Exp : float64 -> float64).
#[local] Abbreviation pipe := (RiskPipeline SignalGateImpl.t C P).

Record LiveEngine := mkLive {
  Symbols : gmap Z SymbolState;
  RiskState : GlobalRiskState;
  Running : bool;
  Halted : bool;
  PrevTickNS : Z;
  TickCount : Z;
  SignalCount : Z;
  openPositions : gmap string ActiveStop;
  lastVIX : float64;
  lastSentiment : float64;
  lastCVD : float64;
  lastVolStructure : float64;
  lastDay : option date;
  StrategyHash : string;
  KellyFraction : float64;
  runningCapital : float64;
  pipeline : option pipe;
  multiPool : option MultiAccount.t;
  accountRegistries : gmap string (Registry.t R);
  defaultRegistry : option (Registry.t R);
  slippageModel : SlippageModel;
  slippageSampleCount : Z;
  warmUpCount : Z;
  warmUpTicks : gmap Z Z;
  stopLossCfg : option StopLossConfig
}.

Definition NewLiveEngine : LiveEngine :=
  mkLive ∅ NewGlobalRiskState false false 0 0 0 ∅ 0 0 0 0 None "" 0.25 100000.0 None None ∅ None
    (mkSlip "" 0 0 0 0 0) 0 20 ∅ (Some (mkSL StopLossATR 0 0 14 2.0 0 0)).

(** The orders of a tick: the factories of the default registry, the strategies, the
    open positions; and the times of its calls of [time.Now()]. *)
Record TickOrders := mkOrders {
  defaultOrder : list string;
  evalOrder : list string;
  stopOrder : list string;
  clock : nat -> Z
}.
(** The process-wide registry of [GlobalRegistry]. *)
Variable global : Registry.t R.

Definition GetOrCreateSymbol (e : LiveEngine) (id : Z) : LiveEngine * SymbolState :=
  match Symbols e !! id with
  | Some s => (e, s)
  | None => let s := mkSym id (NewBarAggregator id) 0 in (e <| Symbols ::= insert id s |>, s)
  end.

Definition withTracker (r : GlobalRiskState) (t : HMMTracker) : GlobalRiskState :=
  mkRisk t (Adv r) (RiskHalted r) (RiskHaltReason r).
Definition withAdv (r : GlobalRiskState) (a : AdversarialState) : GlobalRiskState :=
  mkRisk (Tracker r) a (RiskHalted r) (RiskHaltReason r).

(** The tick reaches the regime tracker and the bars of its symbol. *)
Definition feedTick (e : LiveEngine) (id priceRaw volumeRaw timestampNS : Z) : LiveEngine * SymbolState :=
  let '(e, s) := GetOrCreateSymbol e id in
  let price := i64 priceRaw in
  let e := if (0 <? PrevPrice s)%Z
           then e <| RiskState ::= (fun r => withTracker r (Hmm.Update Exp (Tracker r) price (PrevPrice s))) |>
           else e in
  let s := mkSym (SymbolID s) (AddTick (Aggregator s) (mkBarTick priceRaw volumeRaw timestampNS)) price in
  (e <| Symbols ::= insert id s |>, s).

(** The daily reset of the pools when the UTC date of the ticks changes. *)
Definition rollDay (e : LiveEngine) (timestampNS : Z) : LiveEngine :=
  let currentDay := dateKey timestampNS in
  let e := match lastDay e with
           | Some d =>
               if bool_decide (currentDay = d) then e
               else e <| pipeline ::= fmap (fun p => withCapital p (Gates.ResetDaily <$> Capital p)) |>
                      <| multiPool ::= fmap MultiAccount.ResetAllDaily |>
           | None => e end in
  e <| lastDay := Some currentDay |>.

(** VIX and regime reach the signal gate; its setters panic without a sizer. *)
Definition pushMarket (e : LiveEngine) (regime : Z) : option LiveEngine :=
  match pipeline e with
  | None => Some e
  | Some p =>
      match SignalG p with
      | None => Some e
      | Some g =>
          g ← SignalGateImpl.SetVIX g (lastVIX e);
          g ← SignalGateImpl.SetRegime g regime;
          Some (e <| pipeline := Some (withSignal p (Some g)) |>)
      end
  end.

Definition getRegistryForAccount (names : list string) (e : LiveEngine) (accountID : string)
    : LiveEngine * Registry.t R :=
  match accountRegistries e !! accountID with
  | Some reg => (e, reg)
  | None =>
      match defaultRegistry e with
      | Some reg => (e, reg)
      | None =>
          let reg := Registry.instantiate (fun _ r => r) global names in (e <| defaultRegistry := Some reg |>, reg)
      end
  end.

(** The runners of the account are the ones the registry points to. *)
Definition putRegistry (e : LiveEngine) (accountID : string) (reg : Registry.t R) : LiveEngine :=
  match accountRegistries e !! accountID with
  | Some _ => e <| accountRegistries ::= insert accountID reg |>
  | None => e <| defaultRegistry := Some reg |>
  end.

Definition kill (e : LiveEngine) (reason : string) : LiveEngine :=
  e <| Halted := true |> <| RiskState ::= (fun r => mkRisk (Tracker r) (Adv r) true reason) |>.

(** The adversarial screen of the signals of a tick; [None] when it pulls the kill switch. *)
Fixpoint screen (e : LiveEngine) (id timestampNS : Z) (signals : list Signal) : LiveEngine * option (list Signal) :=
  match signals with
  | [] => (e, Some [])
  | s :: rest =>
      let '(adv, res) := CheckAdversarial (Adv (RiskState e)) (uint64 (SigQuantity s)) id timestampNS in
      let e := e <| RiskState ::= (fun r => withAdv r adv) |> in
      if TriggerKill res then (kill e (AdvReason res), None)
      else
        let '(e, kept) := screen e id timestampNS rest in
        (e, if Reject res then kept else cons s <$> kept)
  end.

Definition winOf (s : Signal) : float64 := if SigPWin s <=? 0 then 0.5 else SigPWin s.

Definition requestOf (close capital : float64) (s : Signal) : ProcessSignalRequest :=
  mkPSReq (if bool_decide (SigStrategyID s = ""%string) then "live" else SigStrategyID s)
    (SigSymbol s) (SigSide s) close (winOf s) (SigQuantity s) 0 capital false false false.

Definition withRegime (p : pipe) (regime : Z) : pipe :=
  mkPipeline (SignalG p) (Capital p) (PropFirmG p) (KellyMult p) (RegimeMatrix p) regime (symbolNotional p).

(** The approved signals go through the pipeline one by one. *)
Fixpoint sizeAll (clock : nat -> Z) (close capital : float64) (p : pipe) (signals : list Signal) : pipe * list Signal :=
  match signals with
  | [] => (p, [])
  | s :: rest =>
      let '(p, res) := ProcessSignal (clock 0%nat) p (requestOf close capital s) in
      let '(p, out) := sizeAll (fun n => clock (S n)) close capital p rest in
      (p, if PSApproved res then withQuantity s (PSSize res) :: out else out)
  end.

(** Without a pipeline: the probability of winning and the Kelly fraction. *)
Definition sizeAlone (kellyFraction : float64) (s : Signal) : Signal :=
  let kelly := if kellyFraction <=? 0 then 0.25 else kellyFraction in
  withQuantity s (SigQuantity s * math.Min (winOf s * 1.5) 1.0 * kelly).

Definition sizeSignals (o : TickOrders) (e : LiveEngine) (close : float64) (regime : Z) (signals : list Signal)
    : LiveEngine * list Signal :=
  match pipeline e with
  | Some p =>
      let '(p, out) := sizeAll (clock o) close (runningCapital e) (withRegime p regime) signals in
      (e <| pipeline := Some p |>, out)
  | None => (e, map (sizeAlone (KellyFraction e)) signals)
  end.

(** *** Stops *)

Definition liveATR (cfg : option StopLossConfig) (agg : BarAggregator) : option float64 :=
  match cfg with
  | Some c =>
      match SLType c with
      | StopLossATR =>
          if (0 <? ATRPeriod c)%Z then
            let n := i64 (ATRPeriod c + 1) in
            bars ← GetBars agg "1m" n;
            Some (if (n <=? Z.of_nat (length bars))%Z
                  then ComputeATR (BarsToCandles bars) (Z.to_nat (ATRPeriod c)) else 0)
          else Some 0
      | _ => Some 0
      end
  | None => Some 0
  end.

Definition newStop (cfg : option StopLossConfig) (price atr high : float64) (side : string) : ActiveStop :=
  let stopPrice := CalculateStopPrice price side cfg atr high in
  let fallback := stopPrice <=? 0 in
  mkStop 0 (PriceFromFloat price) side
    (PriceFromFloat (if fallback then (if bool_decide (side = "SELL"%string) then price * 1.02 else price * 0.98)
                     else stopPrice)) 0
    (PriceFromFloat price) 0
    (if fallback then StopLossFixed else match cfg with Some c => SLType c | None => StopLossNone end) TakeProfitNone.

Definition isEntrySide (side : string) : bool :=
  bool_decide (side = "BUY"%string) || bool_decide (side = "SELL"%string).

(** A signal to buy or sell becomes the tracked position of its symbol. *)
Definition track (cfg : option StopLossConfig) (price atr high : float64)
    (positions : gmap string ActiveStop) (s : Signal) : gmap string ActiveStop :=
  if isEntrySide (SigSide s) then <[SigSymbol s := newStop cfg price atr high (SigSide s)]> positions else positions.

Definition flipSide (side : string) : string := if bool_decide (side = "SELL"%string) then "BUY" else "SELL".

Definition stopExit (symbol side : string) : Signal := mkSignal symbol (flipSide side) 0 SignalNone 0 "" 0 0.

Definition bareCandle (c : Candle) : Candle :=
  mkCandle zeroTime (Open c) (High c) (Low c) (Close c) 0 "" 0 "" "".

(** One position of the loop over the open ones. *)
Definition checkStop (candle : Candle) (acc : gmap string ActiveStop * list Signal) (symbol : string)
    : gmap string ActiveStop * list Signal :=
  let '(positions, signals) := acc in
  match positions !! symbol with
  | None => acc
  | Some stop =>
      if fst (CheckStopHit (bareCandle candle) (Some stop))
      then (delete symbol positions, signals ++ [stopExit symbol (Side stop)])
      else acc
  end.

Definition CheckOpenStops (o : TickOrders) (e : LiveEngine) (s : SymbolState) (candle : Candle) (approved : list Signal)
    : option (LiveEngine * list Signal) :=
  let price := Float64 (Close candle) in
  if price <=? 0 then Some (e, approved)
  else
    atr ← liveATR (stopLossCfg e) (Aggregator s);
    let positions := fold_left (track (stopLossCfg e) price atr (Float64 (High candle))) approved (openPositions e) in
    let '(positions, out) := fold_left (checkStop candle) (stopOrder o) (positions, approved) in
    Some (e <| openPositions := positions |>, out).

(** *** Ticks *)

(** The tick after the warm-up. *)
Definition evaluateTick (o : TickOrders) (e : LiveEngine) (accountID : string) (id timestampNS : Z)
    (s : SymbolState) (candle : Candle) (regime : Z) : option (LiveEngine * list Signal) :=
  let '(e, reg) := getRegistryForAccount (defaultOrder o) e accountID in
  '(reg, signals) ← Registry.EvaluateAll (evalOrder o) reg candle regime;
  let e := putRegistry e accountID reg in
  match screen e id timestampNS signals with
  | (e, None) => Some (e, [])
  | (e, Some approved) =>
      let '(e, sized) := sizeSignals o e (Float64 (Close candle)) regime approved in
      '(e, out) ← CheckOpenStops o e s candle sized;
      Some (e <| TickCount ::= (fun n => u64 (n + 1)) |>
              <| SignalCount ::= (fun n => u64 (n + Z.of_nat (length out))) |>
              <| PrevTickNS := timestampNS |>, out)
  end.

(** The tick of the warm-up of its symbol: the strategies see it, nothing is emitted. *)
Definition warmTick (o : TickOrders) (e : LiveEngine) (accountID : string) (candle : Candle) (regime : Z)
    : option (LiveEngine * list Signal) :=
  let '(e, reg) := getRegistryForAccount (defaultOrder o) e accountID in
  '(reg, _) ← Registry.EvaluateAll (evalOrder o) reg candle regime;
  Some (putRegistry e accountID reg, []).

(** Everything before the strategies: the symbol, and how many ticks it has had. *)
Definition prepareTick (o : TickOrders) (e : LiveEngine) (accountID : string)
    (id priceRaw volumeRaw timestampNS : Z) : option (LiveEngine * SymbolState * Z) :=
  let '(e, s) := feedTick e id priceRaw volumeRaw timestampNS in
  let regime := CurrentState (Tracker (RiskState e)) in
  let e := rollDay e timestampNS in
  e ← pushMarket e regime;
  let '(e, reg) := getRegistryForAccount (defaultOrder o) e accountID in
  let e := putRegistry e accountID (Registry.broadcastVIX reg (lastVIX e)) in
  let n := i64 (default 0%Z (warmUpTicks e !! id) + 1)%Z in
  Some (e <| warmUpTicks ::= insert id n |>, s, n).

(** The candle the strategies see: the last closed minute of the symbol. *)
Definition candleOf (s : SymbolState) : Candle := BarToCandle (GetLatestBar (Aggregator s) "1m").

Definition ProcessTickForAccount (o : TickOrders) (e : LiveEngine) (accountID : string)
    (id priceRaw volumeRaw timestampNS : Z) : option (LiveEngine * list Signal) :=
  if Halted e then Some (e, [])
  else
    '(e, s, n) ← prepareTick o e accountID id priceRaw volumeRaw timestampNS;
    let regime := CurrentState (Tracker (RiskState e)) in
    if (n <? warmUpCount e)%Z then warmTick o e accountID (candleOf s) regime
    else evaluateTick o e accountID id timestampNS s (candleOf s) regime.

Definition ProcessTick (o : TickOrders) (e : LiveEngine) (id priceRaw volumeRaw timestampNS : Z) :=
  ProcessTickForAccount o e "default" id priceRaw volumeRaw timestampNS.

(** *** Control *)

Definition Halt (e : LiveEngine) (reason : string) : LiveEngine := (kill e reason) <| openPositions := ∅ |>.

Definition Resume (e : LiveEngine) : LiveEngine :=
  e <| Halted := false |> <| RiskState ::= (fun r => mkRisk (Tracker r) (Adv r) false "") |>.

(** [None] is the error of a running engine. *)
Definition Start (e : LiveEngine) : option LiveEngine :=
  if Running e then None else Some (e <| Running := true |> <| Halted := false |>).

Definition Pause (e : LiveEngine) : LiveEngine := e <| Halted := true |>.
Definition Stop (e : LiveEngine) : LiveEngine := e <| Running := false |>.
Definition IsRunning (e : LiveEngine) : bool := Running e && negb (Halted e).

(** The error of an unhealthy engine. *)
Definition Health (e : LiveEngine) : option string :=
  if negb (Running e) then Some "live engine: not running"%string
  else if Halted e then Some "live engine: halted"%string else None.

Definition SetRunningCapital (e : LiveEngine) (c : float64) : LiveEngine := e <| runningCapital := c |>.
Definition SetWarmUpBars (e : LiveEngine) (n : Z) : LiveEngine := e <| warmUpCount := n |>.
Definition SetStopLossConfig (e : LiveEngine) (cfg : option StopLossConfig) : LiveEngine := e <| stopLossCfg := cfg |>.
Definition SetRiskPipeline (e : LiveEngine) (p : option pipe) : LiveEngine := e <| pipeline := p |>.
Definition SetMultiAccountPool (e : LiveEngine) (mp : option MultiAccount.t) : LiveEngine := e <| multiPool := mp |>.
Definition SetSlippageModel (e : LiveEngine) (m : SlippageModel) : LiveEngine :=
  e <| slippageModel := m |> <| slippageSampleCount := 0%Z |>.

Definition UpdateRegimeInputs (e : LiveEngine) (vix sentiment cvd volStructure : float64) : LiveEngine :=
  e <| lastVIX := vix |> <| lastSentiment := sentiment |> <| lastCVD := cvd |> <| lastVolStructure := volStructure |>.

(** The engine accepts the deployment, or says why not; [computed] is the result
    of [hash.ComputeInstanceHash]. *)
Definition VerifyStrategyHash (e : LiveEngine) (computed : option string) (expected : string)
    : LiveEngine + string :=
  if bool_decide (expected = ""%string) then inr "strategy hash is empty"%string
  else if negb (bool_decide (StrategyHash e = ""%string)) && negb (bool_decide (StrategyHash e = expected))
  then inr "strategy hash mismatch: deployed"%string
  else match computed with
       | None => inr "hash verification failed"%string
       | Some actual => if bool_decide (actual = expected) then inl (e <| StrategyHash := actual |>)
                        else inr "strategy hash mismatch: computed"%string
       end.

(** *** Accounts *)

Definition tune (params : gmap string (gmap string float64)) (name : string) (r : R) : R :=
  match params !! name with
  | Some ps => let r := SetParams r ps in match SetRegimeExitParams with Some f => f r ps | None => r end
  | None => r
  end.

(** The participation weights of the parameters reach the shared matrix. *)
Definition tuneMatrix (params : gmap string (gmap string float64)) (m : option RegimeActivationMatrix) (name : string)
    : option RegimeActivationMatrix :=
  match Registry.factories global !! name with
  | Some (Some _) => match params !! name with Some ps => ApplyRegimeParticipation m name ps | None => m end
  | _ => m
  end.

Definition withMatrix (p : pipe) (m : option RegimeActivationMatrix) : pipe :=
  mkPipeline (SignalG p) (Capital p) (PropFirmG p) (KellyMult p) m (CurrentRegime p) (symbolNotional p).

Definition RegisterAccountStrategies (names : list string) (e : LiveEngine) (accountID : string)
    (params : gmap string (gmap string float64)) : LiveEngine :=
  e <| pipeline ::= fmap (fun p => withMatrix p (fold_left (tuneMatrix params) names (RegimeMatrix p))) |>
    <| accountRegistries ::= insert accountID (Registry.instantiate (tune params) global names) |>.

(** *** Fills *)

Definition RecordSlippageObservation (e : LiveEngine) (expectedPrice actualPrice : float64) : LiveEngine :=
  if (expectedPrice <=? 0) || (actualPrice <=? 0) then e
  else
    let bps := (actualPrice - expectedPrice) / expectedPrice * 10000.0 in
    let bps := if bps <? 0 then - bps else bps in
    let n := i64 (slippageSampleCount e + 1)%Z in
    e <| slippageSampleCount := n |> <| slippageModel := CalibrateSlippageModel (slippageModel e) bps n |>.

Definition SignalOutcome (now : Z) (e : LiveEngine) (symbol side : string) (pnl : float64) : LiveEngine * Z :=
  let price := match openPositions e !! symbol with Some s => Float64 (EntryPrice s) | None => 0 end in
  (e <| pipeline ::= fmap (fun p => ReconcileFill now p "global" symbol side pnl 1.0 price) |>,
   if pnl >? 0 then 1%Z else 0%Z).

(** The fill is booked in every account, in the map order [ids]. *)
Definition bookAccounts (ids : list string) (strategyID symbol side : string) (pnl quantity : float64)
    (m : MultiAccount.t) : MultiAccount.t :=
  fold_left (fun m aid => default m (MultiAccount.RecordFill m aid strategyID symbol side pnl quantity)) ids m.

Definition ReconcileLiveFill (now : Z) (ids : list string) (e : LiveEngine) (strategyID symbol side : string)
    (pnl quantity price : float64) : LiveEngine :=
  match pipeline e with
  | None => e
  | Some p =>
      let e := e <| pipeline := Some (ReconcileFill now p strategyID symbol side pnl quantity price) |> in
      let e := match openPositions e !! symbol with
               | Some s => RecordSlippageObservation e (Float64 (EntryPrice s)) price
               | None => e end in
      e <| multiPool ::= fmap (bookAccounts ids strategyID symbol side pnl quantity) |>
  end.

(** *** The wiring of the API server ([internal/api/router.go], [SetLiveEngine]) *)

Definition serverGate : SignalGateImpl.t :=
  SignalGateImpl.SetBacktestMode
    (SignalGateImpl.NewSignalGateImpl (Some (VolatilityHalt.NewVolatilityHalt DefaultVolatilityHalt))
       (Some (NewPositionSizer None)) (Some (ExposureTracker.NewExposureTracker 5.0 0.25))
       (Some (OrderRateLimiter.NewOrderRateLimiter DefaultOrderRateLimit))) false.

Definition serverPipeline (propFirm : P) : pipe :=
  mkPipeline (Some serverGate) None (Some propFirm) 0.25 (Some NewRegimeActivationMatrix) 0 ∅.

Definition SetLiveEngine (multiCapitalPool : option MultiAccount.t) (propFirm : P) (e : LiveEngine) : LiveEngine :=
  match multiCapitalPool with
  | Some mp => SetRiskPipeline (SetMultiAccountPool e (Some mp)) (Some (serverPipeline propFirm))
  | None => e
  end.

(** The callback the server hangs on the kill switch. *)
Definition onKillSwitch (e : LiveEngine) (reason : string) : LiveEngine :=
  e <| multiPool ::= fmap (fun m => MultiAccount.MarkAllViolated m reason) |>.

(** *** Runs *)

Inductive LiveOp :=
  | OTick (o : TickOrders) (accountID : string) (id priceRaw volumeRaw timestampNS : Z)
  | OHalt (reason : string) | OPause | OStop | OResume | OStart
  | OCapital (c : float64) | OWarmUp (n : Z) | OStopLoss (cfg : option StopLossConfig)
  | OInputs (vix sentiment cvd volStructure : float64) | OSlippage (m : SlippageModel)
  | OAccount (names : list string) (accountID : string) (params : gmap string (gmap string float64))
  | OOutcome (now : Z) (symbol side : string) (pnl : float64)
  | OFill (now : Z) (ids : list string) (strategyID symbol side : string) (pnl quantity price : float64)
  | OKillSwitch (reason : string).

(** An operation and the orders it emits; [None] when a tick panics. *)
Definition runOp (e : LiveEngine) (op : LiveOp) : option (LiveEngine * list Signal) :=
  match op with
  | OTick o acct id p v ts => ProcessTickForAccount o e acct id p v ts
  | OHalt r => Some (Halt e r, [])
  | OPause => Some (Pause e, [])
  | OStop => Some (Stop e, [])
  | OResume => Some (Resume e, [])
  | OStart => Some (default e (Start e), [])
  | OCapital c => Some (SetRunningCapital e c, [])
  | OWarmUp n => Some (SetWarmUpBars e n, [])
  | OStopLoss cfg => Some (SetStopLossConfig e cfg, [])
  | OInputs a b c d => Some (UpdateRegimeInputs e a b c d, [])
  | OSlippage m => Some (SetSlippageModel e m, [])
  | OAccount names acct params => Some (RegisterAccountStrategies names e acct params, [])
  | OOutcome now sym side pnl => Some (fst (SignalOutcome now e sym side pnl), [])
  | OFill now ids sid sym side pnl q price => Some (ReconcileLiveFill now ids e sid sym side pnl q price, [])
  | OKillSwitch r => Some (onKillSwitch e r, [])
  end.

(** A run and all the orders it emits. *)
Fixpoint runLive (e : LiveEngine) (ops : list LiveOp) : option (LiveEngine * list Signal) :=
  match ops with
  | [] => Some (e, [])
  | op :: ops => '(e, out) ← runOp e op; '(e, rest) ← runLive e ops; Some (e, out ++ rest)
  end.
End Live.
