(* ===== verification/LiveLaws.v ===== *)
(** * The live engine: theorems

    What a tick may emit and when, over the operations of Live.v: the halt, the size
    of the orders, the kill switch, and the engine as the API server wires it. *)
From Stdlib Require Import ZArith Lia Bool Floats.
From coqutil Require Import RecordSettersUsingExistingGetters.
From S2P Require Import Prelude Float64 FloatRound FloatLaws Price PropFirm Sizing TradingControls.
From S2P Require Import Regime Engine StopLoss Fills Gates SignalGate Enforcer CapitalPool PoolSim Pipeline.
From S2P Require Import Bars Calendar Trade Adversarial Hmm Live.
Local Open Scope float_scope.
Local Open Scope go_scope.

Section LiveLaws.
Context {R C P : Type} `{LiveRunner R} `{CapitalGate C} `{PropFirmGate P}.
Context (Exp : float64 -> float64) (global : Registry.t R).
#[local] Abbreviation engine := (@LiveEngine R C P).

(** ** What the parts of a tick leave alone *)

(** Only the regime tracker, the pipeline, the pools and the registries change before
    the strategies are evaluated. *)
Record front (e e' : engine) : Prop := {
  fr_halted : Halted e' = Halted e;
  fr_running : Running e' = Running e;
  fr_adv : Adv (RiskState e') = Adv (RiskState e);
  fr_positions : openPositions e' = openPositions e;
  fr_capital : runningCapital e' = runningCapital e;
  fr_kelly : KellyFraction e' = KellyFraction e;
  fr_stops : stopLossCfg e' = stopLossCfg e;
  fr_warm : warmUpCount e' = warmUpCount e;
  fr_pipe : pipeline e' = None <-> pipeline e = None
}.

#[local] Instance front_preorder : PreOrder front.
Proof.
  split; [by constructor|]. intros x y z [] []. constructor; try congruence. tauto.
Qed.

Ltac fronted :=
  constructor; try reflexivity; cbn;
  match goal with
  | E : pipeline ?e = Some _ |- _ => by rewrite E
  | |- context [pipeline ?e] => by destruct (pipeline e)
  end.

Lemma feedTick_front e id p v ts : front e (feedTick Exp e id p v ts).1.
Proof.
  unfold feedTick, GetOrCreateSymbol. destruct (Symbols e !! id); cbv zeta; destruct (0 <? _)%Z; fronted.
Qed.

Lemma rollDay_front (e : engine) ts : front e (rollDay e ts).
Proof. unfold rollDay. destruct (lastDay e); [destruct (bool_decide _)|]; fronted. Qed.

Lemma pushMarket_front (e e' : engine) rg : pushMarket e rg = Some e' -> front e e'.
Proof.
  unfold pushMarket. destruct (pipeline e) as [p|] eqn:E; [|by intros [= <-]].
  destruct (SignalG p) as [g|]; [|by intros [= <-]]. cbn [mbind option_bind].
  destruct (SignalGateImpl.SetVIX g (lastVIX e)) as [g1|]; cbn [mbind option_bind]; [|done].
  destruct (SignalGateImpl.SetRegime g1 rg) as [g2|]; cbn [mbind option_bind]; [|done]. intros [= <-]. fronted.
Qed.

Lemma getRegistry_front names (e : engine) acct : front e (getRegistryForAccount global names e acct).1.
Proof.
  unfold getRegistryForAccount. destruct (accountRegistries e !! acct); [done|].
  destruct (defaultRegistry e); [done|]. fronted.
Qed.

Lemma putRegistry_front (e : engine) acct reg : front e (putRegistry e acct reg).
Proof. unfold putRegistry. destruct (accountRegistries e !! acct); fronted. Qed.

Lemma prepareTick_front o (e : engine) acct id p v ts e' s n :
  prepareTick Exp global o e acct id p v ts = Some (e', s, n) -> front e e'.
Proof.
  unfold prepareTick. pose proof (feedTick_front e id p v ts) as F1.
  destruct (feedTick Exp e id p v ts) as [e1 s1]. cbn [fst] in F1. cbv zeta.
  destruct (pushMarket (rollDay e1 ts) _) as [e2|] eqn:E2; cbn [mbind option_bind]; [|done].
  apply pushMarket_front in E2. pose proof (getRegistry_front (defaultOrder o) e2 acct) as F3.
  destruct (getRegistryForAccount global (defaultOrder o) e2 acct) as [e3 reg]. cbn [fst] in F3.
  intros [= <- <- <-]. etransitivity; [exact F1|]. etransitivity; [apply rollDay_front|].
  etransitivity; [exact E2|]. etransitivity; [exact F3|].
  etransitivity; [apply putRegistry_front|]. fronted.
Qed.

(** *** The adversarial screen *)

(** A spike of refusals in the last five minutes. *)
Definition spike (a : AdversarialState) (now : Z) : Prop :=
  (RejectThreshold < RejectCount a)%Z /\ (GoInt.i64 (now - RejectWindowStart a) < FiveMinNS)%Z.

Definition same_rejects (a b : AdversarialState) : Prop :=
  RejectCount b = RejectCount a /\ RejectWindowStart b = RejectWindowStart a.

Lemma CheckAdversarial_rejects a q sym now :
  same_rejects a (CheckAdversarial a q sym now).1 /\
  (TriggerKill (CheckAdversarial a q sym now).2 = true -> spike a now).
Proof.
  unfold CheckAdversarial, spike.
  destruct (Z.ltb_spec (GoInt.i64 (now - RejectWindowStart a)) FiveMinNS), (Z.ltb_spec RejectThreshold (RejectCount a));
    cbn [andb]; [by repeat split|..]; repeat case_match; by split.
Qed.

(** What the screen leaves alone, the halt apart. *)
Record screened (e e' : engine) : Prop := {
  sc_pipeline : pipeline e' = pipeline e;
  sc_positions : openPositions e' = openPositions e;
  sc_capital : runningCapital e' = runningCapital e;
  sc_kelly : KellyFraction e' = KellyFraction e;
  sc_stops : stopLossCfg e' = stopLossCfg e;
  sc_adv : same_rejects (Adv (RiskState e)) (Adv (RiskState e'))
}.

Lemma screen_spec id ts sigs : forall e e' r, screen e id ts sigs = (e', r) ->
  screened e e' /\
  match r with
  | Some kept => Halted e' = Halted e /\ kept ⊆ sigs
  | None => Halted e' = true /\ spike (Adv (RiskState e)) ts
  end.
Proof.
  induction sigs as [|s sigs IH]; intros e e' r; cbn [screen]; [by intros [= <- <-]|].
  destruct (CheckAdversarial_rejects (Adv (RiskState e)) (uint64 (SigQuantity s)) id ts) as [Hr Hk].
  destruct (CheckAdversarial _ _ id ts) as [adv res]. cbn [fst snd] in Hr, Hk.
  destruct (TriggerKill res).
  { intros [= <- <-]. split; [|by auto]. by constructor. }
  destruct (screen _ id ts sigs) as [e1 r1] eqn:E. intros [= <- <-].
  destruct (IH _ _ _ E) as [[] B]. cbn in *.
  assert (Hs : same_rejects (Adv (RiskState e)) (Adv (RiskState e1))).
  { destruct Hr, sc_adv0. split; congruence. }
  split; [by constructor|]. destruct r1 as [kept|].
  - destruct B as [B1 B2]. destruct (Reject res); cbn; (split; [done|]); set_solver.
  - destruct B as [B1 [S1 S2]]. destruct Hr as [R1 R2]. rewrite R1 in S1. rewrite R2 in S2. by destruct (Reject res).
Qed.

(** *** Stops *)

Lemma checkStop_out candle positions out sym :
  exists extra, (checkStop candle (positions, out) sym).2 = out ++ extra /\
    (forall x, x ∈ extra -> exists st, positions !! sym = Some st /\ x = stopExit sym (Side st)).
Proof.
  unfold checkStop. destruct (positions !! sym) as [st|]; [|by exists []; rewrite app_nil_r; split; [|set_solver]].
  destruct (CheckStopHit _ _).1.
  - exists [stopExit sym (Side st)]. split; [done|]. intros x ->%list_elem_of_singleton. by exists st.
  - exists []. rewrite app_nil_r. split; [done|set_solver].
Qed.

Lemma checkStops_out candle syms : forall positions out,
  exists extra, (fold_left (checkStop candle) syms (positions, out)).2 = out ++ extra /\
    (forall x, x ∈ extra -> exists sym side, x = stopExit sym side) /\
    (positions = ∅ -> extra = [] /\ (fold_left (checkStop candle) syms (positions, out)).1 = ∅).
Proof.
  induction syms as [|sym syms IH]; intros positions out; cbn [fold_left].
  { exists []. rewrite app_nil_r. split; [done|]. split; [set_solver|by intros ->]. }
  destruct (checkStop_out candle positions out sym) as (x1 & E1 & F1).
  destruct (checkStop candle (positions, out) sym) as [p1 o1] eqn:E. cbn in E1. subst o1.
  destruct (IH p1 (out ++ x1)) as (x2 & E2 & F2 & G2). exists (x1 ++ x2).
  rewrite E2, app_assoc. split; [done|]. split.
  - intros x [Hx|Hx]%elem_of_app; [|by apply F2]. destruct (F1 x Hx) as (st & _ & ->). by eexists _, _.
  - intros ->. unfold checkStop in E. rewrite lookup_empty in E. injection E as <- E.
    rewrite <- (app_nil_r out) in E at 1. apply app_inv_head in E as <-. by apply G2.
Qed.

Lemma CheckOpenStops_spec o (e : engine) s candle sized e' out :
  CheckOpenStops o e s candle sized = Some (e', out) ->
  exists extra, out = sized ++ extra /\ (forall x, x ∈ extra -> exists sym side, x = stopExit sym side) /\
    Halted e' = Halted e /\
    (openPositions e = ∅ -> sized = [] -> extra = [] /\ openPositions e' = ∅).
Proof.
  unfold CheckOpenStops. cbv zeta.
  destruct (_ <=? 0); [intros [= <- <-]; exists []; rewrite app_nil_r; split_and!; set_solver|].
  destruct (liveATR _ _) as [atr|]; cbn [mbind option_bind]; [|done].
  set (positions := fold_left _ sized _).
  destruct (checkStops_out candle (stopOrder o) positions sized) as (extra & E1 & E2 & E3).
  destruct (fold_left (checkStop candle) _ _) as [ps out1]. cbn in E1. intros [= <- <-]. exists extra.
  split; [done|]. split; [done|]. split; [done|]. intros He ->. cbn in positions. unfold positions in *.
  rewrite He in *. by apply E3.
Qed.

Lemma CheckOpenStops_keeps o (e : engine) s candle sized e' out :
  CheckOpenStops o e s candle sized = Some (e', out) -> pipeline e' = pipeline e /\ stopLossCfg e' = stopLossCfg e.
Proof.
  unfold CheckOpenStops. cbv zeta. destruct (_ <=? 0); [by intros [= <- <-]|].
  destruct (liveATR _ _) as [atr|]; cbn [mbind option_bind]; [|done].
  destruct (fold_left (checkStop candle) _ _) as [ps o1]. by intros [= <- <-].
Qed.

Lemma sizeSignals_front o (e : engine) close rg sigs :
  Halted (sizeSignals o e close rg sigs).1 = Halted e /\
  openPositions (sizeSignals o e close rg sigs).1 = openPositions e /\
  stopLossCfg (sizeSignals o e close rg sigs).1 = stopLossCfg e.
Proof. unfold sizeSignals. destruct (pipeline e) as [p|]; [|done]. by destruct (sizeAll _ _ _ _ _). Qed.

(** ** Halting *)

(** Operations other than the two that lift a halt. *)
Definition keeps_halt (op : LiveOp) : Prop := match op with OResume | OStart => False | _ => True end.

(** A halted engine and its market state stay as they are. *)
Record frozen (e e' : engine) : Prop := {
  fz_halted : Halted e' = true;
  fz_symbols : Symbols e' = Symbols e;
  fz_tracker : Tracker (RiskState e') = Tracker (RiskState e);
  fz_adv : Adv (RiskState e') = Adv (RiskState e);
  fz_ticks : TickCount e' = TickCount e;
  fz_signals : SignalCount e' = SignalCount e
}.

Lemma runOp_frozen (e : engine) op :
  Halted e = true -> keeps_halt op -> exists e', runOp Exp global e op = Some (e', []) /\ frozen e e'.
Proof.
  intros Hh Hk. destruct op; cbn in Hk; try done; cbn [runOp].
  1: { unfold ProcessTickForAccount. rewrite Hh. exists e. split; [done|]. by constructor. }
  all: eexists; split; [reflexivity|]; try (constructor; cbn; congruence || done).
  unfold ReconcileLiveFill. destruct (pipeline e); [|by constructor]. cbn.
  destruct (openPositions e !! symbol); [|constructor; cbn; congruence || done].
  unfold RecordSlippageObservation. destruct (_ || _)%bool; constructor; cbn; congruence || done.
Qed.

Lemma evaluateTick_halts o (e : engine) acct id ts s candle rg e' out :
  Halted e = false -> evaluateTick global o e acct id ts s candle rg = Some (e', out) -> Halted e' = true ->
  out = [] /\ spike (Adv (RiskState e)) ts.
Proof.
  intros Hh. unfold evaluateTick. pose proof (getRegistry_front (defaultOrder o) e acct) as F.
  destruct (getRegistryForAccount global (defaultOrder o) e acct) as [e1 reg]. cbn [fst] in F.
  destruct (Registry.EvaluateAll _ _ _ _) as [[reg' sigs]|]; cbn [mbind option_bind]; [|done].
  pose proof (putRegistry_front e1 acct reg') as F2. set (e2 := putRegistry e1 acct reg') in *.
  destruct (screen e2 id ts sigs) as [e3 r] eqn:E3. destruct (screen_spec _ _ _ _ _ _ E3) as [Sc B].
  destruct r as [kept|].
  - destruct (sizeSignals_front o e3 (Float64 (Close candle)) rg kept) as (Hz & _ & _).
    destruct (sizeSignals o e3 _ rg kept) as [e4 sized]. cbn [fst] in Hz.
    destruct (CheckOpenStops o e4 s candle sized) as [[e5 out5]|] eqn:E5; cbn [mbind option_bind]; [|done].
    destruct (CheckOpenStops_spec _ _ _ _ _ _ _ E5) as (_ & _ & _ & H5 & _).
    intros [= <- <-]. cbn. rewrite H5, Hz, (proj1 B), (fr_halted _ _ F2), (fr_halted _ _ F), Hh. done.
  - intros [= <- <-] _. split; [done|]. rewrite <- (fr_adv _ _ F), <- (fr_adv _ _ F2). apply B.
Qed.

(** C26: A halted engine stays halted, emits nothing, and freezes its market state and counters through every
    sequence of ticks, fills and settings that holds no [Resume] and no [Start]; and a tick
    halts a running engine only when the adversarial guard sees a spike of refusals, emitting nothing. *)
Theorem live_halt_latched (e : engine) (ops : list LiveOp) :
  (Halted e = true -> Forall keeps_halt ops ->
     exists e', runLive Exp global e ops = Some (e', []) /\ frozen e e') /\
  (forall o acct id p v ts e' out, Halted e = false ->
     ProcessTickForAccount Exp global o e acct id p v ts = Some (e', out) -> Halted e' = true ->
     out = [] /\ spike (Adv (RiskState e)) ts).
Proof.
  split.
  - revert e. induction ops as [|op ops IH]; intros e Hh F; cbn [runLive].
    { exists e. split; [done|]. by constructor. }
    inversion F as [|? ? K F']; subst. destruct (runOp_frozen e op Hh K) as (e1 & -> & Z1).
    destruct (IH e1 (fz_halted _ _ Z1) F') as (e2 & E2 & Z2). cbn [mbind option_bind]. rewrite E2.
    exists e2. split; [done|]. destruct Z1, Z2. constructor; congruence.
  - intros o acct id p v ts e' out Hh. unfold ProcessTickForAccount. rewrite Hh.
    destruct (prepareTick Exp global o e acct id p v ts) as [[[e1 s] n]|] eqn:E1; cbn [mbind option_bind]; [|done].
    apply prepareTick_front in E1. cbv zeta. pose proof (fr_halted _ _ E1) as Hh1. rewrite Hh in Hh1.
    destruct (n <? warmUpCount e1)%Z.
    + unfold warmTick. pose proof (getRegistry_front (defaultOrder o) e1 acct) as F.
      destruct (getRegistryForAccount global (defaultOrder o) e1 acct) as [e2 reg]. cbn [fst] in F.
      destruct (Registry.EvaluateAll _ _ _ _) as [[reg' sigs]|]; cbn [mbind option_bind]; [|done].
      intros [= <- <-]. rewrite (fr_halted _ _ (putRegistry_front e2 acct reg')), (fr_halted _ _ F). congruence.
    + intros E Hh'. destruct (evaluateTick_halts _ _ _ _ _ _ _ _ _ _ Hh1 E Hh') as [-> Sp].
      split; [done|]. by rewrite <- (fr_adv _ _ E1).
Qed.
End LiveLaws.

(** ** The size of the orders *)

(** The market state of the gate keeps its laws. *)
Lemma market_gate_wf g v rg g1 g2 :
  SignalGateImpl.wf g -> SignalGateImpl.SetVIX g v = Some g1 -> SignalGateImpl.SetRegime g1 rg = Some g2 ->
  SignalGateImpl.wf g2.
Proof.
  unfold SignalGateImpl.SetVIX, SignalGateImpl.SetRegime, SignalGateImpl.wf. intros W.
  destruct (SignalGateImpl.sizer g) as [z|] eqn:E; cbn [mbind option_bind]; [|done].
  intros [= <-]. cbn [SignalGateImpl.sizer SignalGateImpl.withSizer mbind option_bind]. intros [= <-] z' [= <-].
  destruct (W z eq_refl) as [L A]. by split.
Qed.

Section Orders.
Context {R C P : Type} `{LiveRunner R} `{CapitalGateLaws C} `{PropFirmGateLaws P}.
Context (Exp : float64 -> float64) (global : Registry.t R).
#[local] Abbreviation engine := (@LiveEngine R C P).

Definition engine_wf (e : engine) : Prop := forall p, pipeline e = Some p -> pipeline_wf p.

Lemma rollDay_wf (e : engine) ts : engine_wf e -> engine_wf (rollDay e ts).
Proof.
  intros W. unfold rollDay. destruct (lastDay e); [|done]. destruct (bool_decide _); [done|].
  intros p. cbn. destruct (pipeline e) as [q|] eqn:E; [|done]. intros [= <-].
  destruct (W q E) as (W1 & W2 & W3). split; [done|]. split; [|done]. cbn. intros c.
  destruct (Capital q) as [c0|] eqn:Ec; [|done]. intros [= <-]. by apply cap_wf_reset, W2.
Qed.

Lemma pushMarket_wf (e e' : engine) rg : engine_wf e -> pushMarket e rg = Some e' -> engine_wf e'.
Proof.
  intros W. unfold pushMarket. destruct (pipeline e) as [p|] eqn:E; [|by intros [= <-]].
  destruct (SignalG p) as [g|] eqn:Eg; [|by intros [= <-]]. cbn [mbind option_bind].
  destruct (SignalGateImpl.SetVIX g (lastVIX e)) as [g1|] eqn:E1; cbn [mbind option_bind]; [|done].
  destruct (SignalGateImpl.SetRegime g1 rg) as [g2|] eqn:E2; cbn [mbind option_bind]; [|done].
  intros [= <-] q [= <-]. apply withSignal_wf; [by apply W|].
  apply (market_gate_wf g (lastVIX e) rg g1 g2); [|done|done]. by apply (W p E).
Qed.

Lemma prepareTick_wf o (e : engine) acct id p v ts e' s n :
  engine_wf e -> prepareTick Exp global o e acct id p v ts = Some (e', s, n) -> engine_wf e'.
Proof.
  intros W. unfold prepareTick.
  assert (W1 : engine_wf (feedTick Exp e id p v ts).1).
  { unfold feedTick, GetOrCreateSymbol. destruct (Symbols e !! id); cbv zeta; destruct (0 <? _)%Z; done. }
  destruct (feedTick Exp e id p v ts) as [e1 s1]. cbn [fst] in W1. cbv zeta.
  destruct (pushMarket (rollDay e1 ts) _) as [e2|] eqn:E2; cbn [mbind option_bind]; [|done].
  apply pushMarket_wf in E2; [|by apply rollDay_wf].
  assert (W3 : engine_wf (getRegistryForAccount global (defaultOrder o) e2 acct).1).
  { unfold getRegistryForAccount. destruct (accountRegistries e2 !! acct); [done|]. by destruct (defaultRegistry e2). }
  destruct (getRegistryForAccount global (defaultOrder o) e2 acct) as [e3 reg]. cbn [fst] in W3.
  intros [= <- <- <-]. unfold putRegistry. by destruct (accountRegistries e3 !! acct).
Qed.

(** A signal with a size, a probability of winning and a representable notional. *)
Definition signal_ok (close capital : float64) (s : Signal) : Prop := request_ok (requestOf close capital s).

(** [x] is the signal [s] with the size the pipeline, or the Kelly fraction, left. *)
Definition order_of (e : engine) (close : float64) (s x : Signal) : Prop :=
  x = withQuantity s (SigQuantity x) /\
  match pipeline e with
  | Some _ => size_bounded (requestOf close (runningCapital e) s) (SigQuantity x)
  | None => attenuated (SigQuantity s) (SigQuantity x)
  end.

Lemma sizeAll_bounded close capital sigs : forall clock (p : RiskPipeline SignalGateImpl.t C P),
  pipeline_wf p -> Forall (signal_ok close capital) sigs ->
  forall x, x ∈ (sizeAll clock close capital p sigs).2 ->
    exists s, s ∈ sigs /\ x = withQuantity s (SigQuantity x) /\ size_bounded (requestOf close capital s) (SigQuantity x).
Proof.
  induction sigs as [|s sigs IH]; intros clock p W F x; cbn [sizeAll]; [set_solver|].
  inversion F as [|? ? Hs F']; subst. pose proof (ProcessSignal_wf (clock 0%nat) p (requestOf close capital s) W) as W'.
  destruct (ProcessSignal (clock 0%nat) p _) as [p' res] eqn:E. cbn [fst] in W'.
  specialize (IH (fun n => clock (S n)) p' W' F' x). destruct (sizeAll _ close capital p' sigs) as [p2 out]. cbn [snd] in *.
  destruct (PSApproved res) eqn:A.
  - intros [->|Hx]%elem_of_cons; [|destruct (IH Hx) as (s' & ? & ?); exists s'; split; [set_solver|done]].
    exists s. split; [set_solver|]. split; [done|]. by apply (ProcessSignal_bounded _ _ _ _ _ W Hs E).
  - intros Hx. destruct (IH Hx) as (s' & ? & ?). exists s'. split; [set_solver|done].
Qed.

Lemma sizeAlone_attenuated k close capital s :
  unit0 k -> signal_ok close capital s -> attenuated (SigQuantity s) (SigQuantity (sizeAlone k s)).
Proof.
  intros Hk [Pq Hw _ _ _]. cbn in Pq, Hw. unfold sizeAlone. cbn [SigQuantity withQuantity].
  apply attenuated_mul; [destruct (k <=? 0); [apply unit0_lit; vm_compute; reflexivity|done]|].
  apply attenuated_mul; [|by apply attenuated_refl]. apply min_confidence_unit.
  apply leb_true in Hw as (_ & N & L). rewrite fv_zero_lit in L.
  assert (P15 : pos0 1.5) by (split; [reflexivity|apply Z.leb_le; vm_compute; reflexivity]).
  assert (N15 : fnan (winOf s * 1.5) = false).
  { destruct (ffin (winOf s)) eqn:F; [by apply (mul_pos0 _ _ (conj F L) P15)|].
    rewrite (nonfin_pos _ N F L). reflexivity. }
  apply leb_true. rewrite fv_zero_lit. split; [done|]. split; [done|]. by apply mul_nneg.
Qed.

Lemma sizeSignals_bounded o (e : engine) close rg sigs :
  engine_wf e -> unit0 (KellyFraction e) -> Forall (signal_ok close (runningCapital e)) sigs ->
  forall x, x ∈ (sizeSignals o e close rg sigs).2 -> exists s, s ∈ sigs /\ order_of e close s x.
Proof.
  intros W K F x. unfold sizeSignals, order_of. destruct (pipeline e) as [p|] eqn:E.
  - pose proof (sizeAll_bounded close (runningCapital e) sigs (clock o) (withRegime p rg) (W p E) F x) as B.
    destruct (sizeAll _ _ _ _ _) as [p' out]. done.
  - cbn [snd]. intros (s & -> & Hs)%list_elem_of_fmap. exists s. split; [done|]. split; [done|].
    rewrite List.Forall_forall in F. apply list_elem_of_In in Hs. by eapply sizeAlone_attenuated; [|apply F].
Qed.

Lemma sizeAll_wf close capital sigs : forall clock (p : RiskPipeline SignalGateImpl.t C P),
  pipeline_wf p -> pipeline_wf (sizeAll clock close capital p sigs).1.
Proof.
  induction sigs as [|s sigs IH]; intros clock p W; [done|]. cbn [sizeAll].
  pose proof (ProcessSignal_wf (clock 0%nat) p (requestOf close capital s) W) as W'.
  destruct (ProcessSignal (clock 0%nat) p _) as [p' res]. cbn [fst] in W'.
  specialize (IH (fun n => clock (S n)) p' W'). by destruct (sizeAll _ close capital p' sigs).
Qed.

Lemma sizeSignals_wf o (e : engine) close rg sigs : engine_wf e -> engine_wf (sizeSignals o e close rg sigs).1.
Proof.
  intros W. unfold sizeSignals. destruct (pipeline e) as [p|] eqn:E; [|done].
  pose proof (sizeAll_wf close (runningCapital e) sigs (clock o) (withRegime p rg) (W p E)) as Wz.
  destruct (sizeAll _ _ _ _ _) as [p' out]. by intros q [= <-].
Qed.

(** What the strategies of some registry say of a candle. *)
Definition proposed (o : TickOrders) (candle : Candle) (s : Signal) : Prop :=
  exists reg rg reg' sigs, Registry.EvaluateAll (R := R) (evalOrder o) reg candle rg = Some (reg', sigs) /\ s ∈ sigs.

(** The symbol and the count a tick is prepared with. *)
Lemma prepareTick_count o (e : engine) acct id p v ts e' s n :
  prepareTick Exp global o e acct id p v ts = Some (e', s, n) ->
  s = (feedTick Exp e id p v ts).2 /\ n = GoInt.i64 (default 0%Z (warmUpTicks e !! id) + 1)%Z.
Proof.
  unfold prepareTick.
  assert (T1 : warmUpTicks (feedTick Exp e id p v ts).1 = warmUpTicks e).
  { unfold feedTick, GetOrCreateSymbol. destruct (Symbols e !! id); cbv zeta; by destruct (0 <? _)%Z. }
  destruct (feedTick Exp e id p v ts) as [e1 s1]. cbn [fst snd] in *. cbv zeta.
  assert (T2 : warmUpTicks (rollDay e1 ts) = warmUpTicks e).
  { rewrite <- T1. unfold rollDay. destruct (lastDay e1); [|done]. by destruct (bool_decide _). }
  destruct (pushMarket (rollDay e1 ts) _) as [e2|] eqn:E2; cbn [mbind option_bind]; [|done].
  assert (T3 : warmUpTicks e2 = warmUpTicks e).
  { rewrite <- T2. revert E2. unfold pushMarket. destruct (pipeline _) as [q|]; [|by intros [= <-]].
    destruct (SignalG q) as [g|]; [|by intros [= <-]]. cbn [mbind option_bind].
    destruct (SignalGateImpl.SetVIX g _) as [g1|]; cbn [mbind option_bind]; [|done].
    destruct (SignalGateImpl.SetRegime g1 _) as [g2|]; cbn [mbind option_bind]; [|done]. by intros [= <-]. }
  assert (T4 : warmUpTicks (getRegistryForAccount global (defaultOrder o) e2 acct).1 = warmUpTicks e).
  { rewrite <- T3. unfold getRegistryForAccount. destruct (accountRegistries e2 !! acct); [done|]. by destruct (defaultRegistry e2). }
  destruct (getRegistryForAccount global (defaultOrder o) e2 acct) as [e3 reg]. cbn [fst] in T4.
  intros [= <- <- <-]. split; [done|]. unfold putRegistry. destruct (accountRegistries e3 !! acct); cbn; by rewrite T4.
Qed.

Lemma evaluateTick_bounded o (e : engine) acct id ts s candle rg e' out :
  engine_wf e -> evaluateTick global o e acct id ts s candle rg = Some (e', out) ->
  engine_wf e' /\
  (unit0 (KellyFraction e) ->
   (forall x, proposed o candle x -> signal_ok (Float64 (Close candle)) (runningCapital e) x) ->
   forall x, x ∈ out -> (exists sym side, x = stopExit sym side) \/
    (exists s, proposed o candle s /\ order_of e (Float64 (Close candle)) s x)).
Proof.
  intros W. unfold evaluateTick. pose proof (getRegistry_front global (defaultOrder o) e acct) as F1.
  assert (P1 : pipeline (getRegistryForAccount global (defaultOrder o) e acct).1 = pipeline e).
  { unfold getRegistryForAccount. destruct (accountRegistries e !! acct); [done|]. by destruct (defaultRegistry e). }
  destruct (getRegistryForAccount global (defaultOrder o) e acct) as [e1 reg]. cbn [fst] in F1, P1.
  destruct (Registry.EvaluateAll _ _ _ _) as [[reg' sigs]|] eqn:Ev; cbn [mbind option_bind]; [|done].
  pose proof (putRegistry_front e1 acct reg') as F2.
  assert (P2 : pipeline (putRegistry e1 acct reg') = pipeline e1)
    by (unfold putRegistry; by destruct (accountRegistries e1 !! acct)).
  set (e2 := putRegistry e1 acct reg') in *. destruct (screen e2 id ts sigs) as [e3 r] eqn:E3.
  destruct (screen_spec _ _ _ _ _ _ E3) as [Sc B]. assert (P3 : pipeline e3 = pipeline e) by (rewrite (sc_pipeline _ _ Sc); congruence).
  assert (W3 : engine_wf e3) by (unfold engine_wf; by rewrite P3).
  destruct r as [kept|]; [|intros [= <- <-]; split; [done|set_solver]].
  assert (C3 : runningCapital e3 = runningCapital e)
    by (rewrite (sc_capital _ _ Sc), (fr_capital _ _ F2); apply F1).
  assert (K3 : KellyFraction e3 = KellyFraction e) by (rewrite (sc_kelly _ _ Sc), (fr_kelly _ _ F2); apply F1).
  destruct B as [_ B]. pose proof (sizeSignals_bounded o e3 (Float64 (Close candle)) rg kept) as Sz.
  pose proof (sizeSignals_wf o e3 (Float64 (Close candle)) rg kept W3) as W4.
  destruct (sizeSignals o e3 _ rg kept) as [e4 sized]. cbn [fst snd] in Sz, W4.
  destruct (CheckOpenStops o e4 s candle sized) as [[e5 out5]|] eqn:E5; cbn [mbind option_bind]; [|done].
  destruct (CheckOpenStops_spec _ _ _ _ _ _ _ E5) as (extra & -> & Hx & _).
  destruct (CheckOpenStops_keeps _ _ _ _ _ _ _ E5) as [Kp _].
  intros [= <- <-]. split; [intros q; cbn; rewrite Kp; apply W4|].
  intros K Hp x [Hs|Hs]%elem_of_app; [right|left; by apply Hx].
  destruct (Sz W3 ltac:(by rewrite K3)) with (x := x) as (y & Hy & Oy); [|done|].
  - apply List.Forall_forall. intros y Hy%list_elem_of_In. rewrite C3. apply Hp.
    exists reg, rg, reg', sigs. split; [done|by apply B].
  - exists y. split; [exists reg, rg, reg', sigs; split; [done|by apply B]|].
    unfold order_of in *. by rewrite P3, C3 in Oy.
Qed.

Lemma tick_wf o (e : engine) acct id p v ts e' out :
  engine_wf e -> ProcessTickForAccount Exp global o e acct id p v ts = Some (e', out) -> engine_wf e'.
Proof.
  intros W. unfold ProcessTickForAccount. destruct (Halted e); [by intros [= <- <-]|].
  destruct (prepareTick Exp global o e acct id p v ts) as [[[e1 s] n]|] eqn:E1; cbn [mbind option_bind]; [|done].
  pose proof (prepareTick_wf _ _ _ _ _ _ _ _ _ _ W E1) as W1. cbv zeta. destruct (_ <? _)%Z.
  - unfold warmTick, getRegistryForAccount, putRegistry.
    destruct (accountRegistries e1 !! acct) as [reg|] eqn:Ea; [|destruct (defaultRegistry e1) as [reg|]];
      (destruct (Registry.EvaluateAll _ _ _ _) as [[reg' sigs]|]; cbn [mbind option_bind]; [|done]);
      intros [= <- <-]; cbn; by rewrite Ea.
  - intros E. by apply (evaluateTick_bounded _ _ _ _ _ _ _ _ _ _ W1 E).
Qed.

(** C25: For all lawful gates every order of a tick is a strategy's signal of that tick whose size the
    pipeline (or, without one, the probability of winning and the Kelly fraction) has never
    amplified, or the empty exit of a tracked position; before the warm-up count of a symbol
    is reached a tick emits nothing; and the gates of the engine stay lawful. *)
Theorem live_orders_bounded o (e : engine) acct id p v ts e' out :
  let candle := candleOf (feedTick Exp e id p v ts).2 in
  let close := Float64 (Close candle) in
  engine_wf e -> unit0 (KellyFraction e) ->
  (forall s, proposed o candle s -> signal_ok close (runningCapital e) s) ->
  ProcessTickForAccount Exp global o e acct id p v ts = Some (e', out) ->
  Forall (fun x => (exists sym side, x = stopExit sym side) \/
                   (exists s, proposed o candle s /\ order_of e close s x)) out /\
  ((GoInt.i64 (default 0 (warmUpTicks e !! id) + 1) < warmUpCount e)%Z -> out = []) /\ engine_wf e'.
Proof.
  intros candle close W K Hp E0. pose proof (tick_wf _ _ _ _ _ _ _ _ _ W E0) as W'.
  apply and_assoc. split; [|exact W']. revert E0. unfold ProcessTickForAccount.
  destruct (Halted e); [by intros [= <- <-]|].
  destruct (prepareTick Exp global o e acct id p v ts) as [[[e1 s] n]|] eqn:E1; cbn [mbind option_bind]; [|done].
  destruct (prepareTick_count _ _ _ _ _ _ _ _ _ _ E1) as [-> ->].
  pose proof (prepareTick_wf _ _ _ _ _ _ _ _ _ _ W E1) as W1. apply prepareTick_front in E1 as F1.
  fold candle. cbv zeta. rewrite (fr_warm _ _ F1).
  destruct (Z.ltb_spec (GoInt.i64 (default 0%Z (warmUpTicks e !! id) + 1)%Z) (warmUpCount e)) as [Hn|Hn].
  - unfold warmTick. destruct (getRegistryForAccount _ _ _ _) as [e2 reg].
    destruct (Registry.EvaluateAll _ _ _ _) as [[reg' sigs]|]; cbn [mbind option_bind]; [|done]. by intros [= <- <-].
  - intros E. split; [|lia]. destruct (evaluateTick_bounded _ _ _ _ _ _ _ _ _ _ W1 E) as [_ B].
    specialize (B ltac:(by rewrite (fr_kelly _ _ F1)) ltac:(by rewrite (fr_capital _ _ F1))).
    apply List.Forall_forall. intros x Hx%list_elem_of_In. destruct (B x Hx) as [G|(y & Py & [O1 O2])]; [by left|right].
    exists y. split; [done|]. split; [done|]. rewrite (fr_capital _ _ F1) in O2.
    pose proof (fr_pipe _ _ F1) as Fp. fold close in O2.
    revert O2 Fp. destruct (pipeline e1), (pipeline e); [done| | |done]; intros _ [G1 G2];
      [discriminate (G2 eq_refl)|discriminate (G1 eq_refl)].
Qed.
End Orders.

(** ** The kill switch and the accounts' pools *)
Section Pools.
Context {R C P : Type} `{LiveRunner R} `{CapitalGate C} `{PropFirmGate P}.
Context (Exp : float64 -> float64) (global : Registry.t R).
#[local] Abbreviation engine := (@LiveEngine R C P).

Definition setPool (m : option MultiAccount.t) (e : engine) : engine := e <| multiPool := m |>.
Definition onEngine {A} (f : engine -> engine) (x : engine * A) : engine * A := (f (fst x), snd x).

Lemma feedTick_pool m (e : engine) id p v ts :
  feedTick Exp (setPool m e) id p v ts = onEngine (setPool m) (feedTick Exp e id p v ts).
Proof.
  unfold feedTick, GetOrCreateSymbol. cbn. destruct (Symbols e !! id) as [s|]; cbn; [|done].
  by destruct (0 <? PrevPrice s)%Z.
Qed.

Lemma rollDay_pool m (e : engine) ts : exists m', rollDay (setPool m e) ts = setPool m' (rollDay e ts).
Proof.
  unfold rollDay. cbn. destruct (lastDay e) as [d|]; [|by exists m].
  destruct (bool_decide _); [by exists m|]. by exists (MultiAccount.ResetAllDaily <$> m).
Qed.

Lemma pushMarket_pool m (e : engine) rg : pushMarket (setPool m e) rg = setPool m <$> pushMarket e rg.
Proof.
  unfold pushMarket. cbn. destruct (pipeline e) as [p|]; [|done]. destruct (SignalG p) as [g|]; [|done].
  cbn [mbind option_bind]. destruct (SignalGateImpl.SetVIX g _) as [g1|]; [|done].
  cbn [mbind option_bind]. by destruct (SignalGateImpl.SetRegime g1 rg).
Qed.

Lemma getRegistry_pool m names (e : engine) acct :
  getRegistryForAccount global names (setPool m e) acct = onEngine (setPool m) (getRegistryForAccount global names e acct).
Proof.
  unfold getRegistryForAccount. cbn. destruct (accountRegistries e !! acct); [done|]. by destruct (defaultRegistry e).
Qed.

Lemma putRegistry_pool m (e : engine) acct reg : putRegistry (setPool m e) acct reg = setPool m (putRegistry e acct reg).
Proof. unfold putRegistry. cbn. by destruct (accountRegistries e !! acct). Qed.

Lemma screen_pool m id ts sigs : forall e : engine,
  screen (setPool m e) id ts sigs = onEngine (setPool m) (screen e id ts sigs).
Proof.
  induction sigs as [|s sigs IH]; intros e; [done|]. cbn [screen].
  change (RiskState (setPool m e)) with (RiskState e).
  destruct (CheckAdversarial (Adv (RiskState e)) _ id ts) as [adv res]. destruct (TriggerKill res); [done|].
  change ((setPool m e) <| RiskState ::= (fun r => withAdv r adv) |>) with (setPool m (e <| RiskState ::= (fun r => withAdv r adv) |>)).
  rewrite IH. by destruct (screen _ id ts sigs).
Qed.

Lemma sizeSignals_pool m o (e : engine) close rg sigs :
  sizeSignals o (setPool m e) close rg sigs = onEngine (setPool m) (sizeSignals o e close rg sigs).
Proof. unfold sizeSignals. cbn. destruct (pipeline e); [|done]. by destruct (sizeAll _ _ _ _ _). Qed.

Lemma CheckOpenStops_pool m o (e : engine) s candle sigs :
  CheckOpenStops o (setPool m e) s candle sigs = onEngine (setPool m) <$> CheckOpenStops o e s candle sigs.
Proof.
  unfold CheckOpenStops. cbn. destruct (_ <=? 0); [done|]. destruct (liveATR _ _); [|done]. cbn.
  by destruct (fold_left _ _ _).
Qed.

Lemma prepareTick_pool m o (e : engine) acct id p v ts :
  exists m', prepareTick Exp global o (setPool m e) acct id p v ts =
    (fun x => (setPool m' x.1.1, x.1.2, x.2)) <$> prepareTick Exp global o e acct id p v ts.
Proof.
  unfold prepareTick. rewrite feedTick_pool. destruct (feedTick Exp e id p v ts) as [e1 s]. cbn [onEngine fst snd].
  cbv zeta. destruct (rollDay_pool m e1 ts) as [m' ->]. exists m'.
  change (RiskState (setPool m e1)) with (RiskState e1). rewrite pushMarket_pool.
  destruct (pushMarket (rollDay e1 ts) _) as [e2|]; [|done]. cbn [fmap option_fmap option_map mbind option_bind].
  rewrite getRegistry_pool. destruct (getRegistryForAccount _ _ e2 acct) as [e3 reg]. cbn [onEngine fst snd].
  change (lastVIX (setPool m' e3)) with (lastVIX e3). by rewrite putRegistry_pool.
Qed.

Lemma tick_pool m o (e : engine) acct id p v ts :
  exists m', ProcessTickForAccount Exp global o (setPool m e) acct id p v ts =
    onEngine (setPool m') <$> ProcessTickForAccount Exp global o e acct id p v ts.
Proof.
  unfold ProcessTickForAccount. change (Halted (setPool m e)) with (Halted e).
  destruct (Halted e); [by exists m|]. destruct (prepareTick_pool m o e acct id p v ts) as [m' ->]. exists m'.
  destruct (prepareTick Exp global o e acct id p v ts) as [[[e1 s] n]|]; [|done].
  cbn [fmap option_fmap option_map mbind option_bind fst snd]. cbv zeta.
  change (warmUpCount (setPool m' e1)) with (warmUpCount e1). change (RiskState (setPool m' e1)) with (RiskState e1).
  destruct (n <? warmUpCount e1)%Z.
  - unfold warmTick. rewrite getRegistry_pool. destruct (getRegistryForAccount _ _ e1 acct) as [e2 reg].
    cbn [onEngine fst snd]. destruct (Registry.EvaluateAll _ _ _ _) as [[reg' sigs]|]; [|done].
    cbn. by rewrite putRegistry_pool.
  - unfold evaluateTick. rewrite getRegistry_pool. destruct (getRegistryForAccount _ _ e1 acct) as [e2 reg].
    cbn [onEngine fst snd]. destruct (Registry.EvaluateAll _ _ _ _) as [[reg' sigs]|]; [|done].
    cbn [mbind option_bind]. rewrite putRegistry_pool, screen_pool.
    destruct (screen (putRegistry e2 acct reg') id ts sigs) as [e3 [kept|]]; [|done]. cbn [onEngine fst snd].
    rewrite sizeSignals_pool. destruct (sizeSignals o e3 _ _ kept) as [e4 sized]. cbn [onEngine fst snd].
    rewrite CheckOpenStops_pool. by destruct (CheckOpenStops o e4 s _ sized) as [[e5 out]|].
Qed.

Lemma runOp_pool m (e : engine) op :
  exists m', runOp Exp global (setPool m e) op = onEngine (setPool m') <$> runOp Exp global e op.
Proof.
  destruct op; cbn [runOp]; try (by exists m); [apply tick_pool| | |].
  - unfold Start. change (Running (setPool m e)) with (Running e). destruct (Running e); by exists m.
  - unfold ReconcileLiveFill. change (pipeline (setPool m e)) with (pipeline e).
    destruct (pipeline e); [|by exists m]. eexists. cbn.
    destruct (openPositions e !! symbol); [|reflexivity].
    unfold RecordSlippageObservation. destruct (_ || _)%bool; reflexivity.
  - by exists ((fun k => MultiAccount.MarkAllViolated k reason) <$> m).
Qed.

Definition is_kill (op : LiveOp) : Prop := match op with OKillSwitch _ => True | _ => False end.
#[local] Instance is_kill_dec op : Decision (is_kill op).
Proof. destruct op; cbn; apply _. Defined.

(** The kill switch of the server does not reach the orders: pulling it at any points of a run, as often
    as one likes, changes nothing in what the engine emits, since the pools it marks as
    violated are not consulted by a tick. *)
Theorem live_orders_ignore_kill_switch (e : engine) (ops : list LiveOp) :
  snd <$> runLive Exp global e ops =
  snd <$> runLive Exp global e (base.filter (fun op => ~ is_kill op) ops).
Proof.
  assert (G : forall m, snd <$> runLive Exp global (setPool m e) ops =
    snd <$> runLive Exp global e (base.filter (fun op => ~ is_kill op) ops)).
  { revert e. induction ops as [|op ops IH]; intros e m; [done|]. rewrite filter_cons. destruct (decide _) as [Hk|Hk].
    - cbn [runLive]. destruct (runOp_pool m e op) as [m' ->]. destruct (runOp Exp global e op) as [[e' out]|]; [|done].
      cbn [fmap option_fmap option_map mbind option_bind onEngine fst snd]. specialize (IH e' m').
      destruct (runLive Exp global (setPool m' e') ops) as [[? r1]|], (runLive Exp global e' _) as [[? r2]|];
        cbn in *; by simplify_eq.
    - destruct op; cbn in Hk; try tauto. cbn [runLive runOp mbind option_bind].
      rewrite <- (IH e ((fun k => MultiAccount.MarkAllViolated k reason) <$> m)).
      change (onKillSwitch (setPool m e) reason) with (setPool ((fun k => MultiAccount.MarkAllViolated k reason) <$> m) e).
      by destruct (runLive _ _ _ ops) as [[? ?]|]. }
  rewrite <- (G (multiPool e)). by destruct e.
Qed.
End Pools.

(** ** The engine as the API server wires it *)
Section Server.
Context {R C P : Type} `{LiveRunner R} `{CapitalGate C} `{PropFirmGate P}.
Context (Exp : float64 -> float64) (global : Registry.t R).
#[local] Abbreviation engine := (@LiveEngine R C P).
#[local] Abbreviation pipe := (RiskPipeline SignalGateImpl.t C P).

(** A signal gate that can size but whose exposure tracker has no equity. *)
Definition unfunded_gate (g : SignalGateImpl.t) : Prop :=
  is_Some (SignalGateImpl.sizer g) /\
  exists x, SignalGateImpl.exposure g = Some x /\ (ExposureTracker.equity x <=? 0) = true.

Definition unfunded_pipe (p : pipe) : Prop := exists g, SignalG p = Some g /\ unfunded_gate g.

Lemma validate_unfunded now g c : unfunded_gate g -> unfunded_gate (SignalGateImpl.ValidateSignal now g c).1.
Proof.
  intros U. unfold SignalGateImpl.ValidateSignal. destruct (c <=? 0); [done|].
  destruct (match SignalGateImpl.volHalt g with Some v => _ | None => _ end); [done|].
  destruct (SignalGateImpl.backtestSkipRateLimit g); [done|].
  destruct (SignalGateImpl.rateLimit g) as [l|]; [|done].
  destruct (OrderRateLimiter.Allow now l "signal") as [l' ok]. by destruct ok.
Qed.

Lemma ProcessSignal_unfunded now (p : pipe) r :
  unfunded_pipe p -> PSIsExit r = false ->
  PSApproved (ProcessSignal now p r).2 = false /\ unfunded_pipe (ProcessSignal now p r).1.
Proof.
  intros (g & E & U) Ex. rewrite ProcessSignal_entry by done. unfold validated. rewrite E. cbn [ValidateSignal signal_gate_impl].
  pose proof (validate_unfunded now g (PSRunningCapital r) U) as U1.
  destruct (SignalGateImpl.ValidateSignal now g (PSRunningCapital r)) as [g1 v]. cbn [fst] in U1.
  assert (U2 : unfunded_pipe (withSignal p (Some g1))) by (exists g1; done).
  destruct (negb _); [done|]. destruct (match Capital _ with Some c => _ | None => _ end); [done|].
  destruct (match PropFirmG _ with Some f => _ | None => _ end); [done|].
  destruct (regimeWeight _ r); [|done]. destruct (_ <=? _); [done|]. cbv zeta. destruct (_ <=? _); [done|].
  destruct (capAggregate _ _ _) as [z|]; [|done]. destruct U1 as [S1 (x & Ex1 & Eq1)].
  unfold finish. cbn [withNotional withSignal SignalG CheckExposure signal_gate_impl].
  unfold SignalGateImpl.CheckExposure. rewrite Ex1. unfold ExposureTracker.CheckOrder. rewrite Eq1. cbn.
  split; [done|]. exists g1. split; [done|]. split; [done|]. by exists x.
Qed.

Lemma sizeAll_unfunded close capital sigs : forall clock (p : pipe),
  unfunded_pipe p -> (sizeAll clock close capital p sigs).2 = [] /\ unfunded_pipe (sizeAll clock close capital p sigs).1.
Proof.
  induction sigs as [|s sigs IH]; intros clock p U; [done|]. cbn [sizeAll].
  destruct (ProcessSignal_unfunded (clock 0%nat) p (requestOf close capital s) U eq_refl) as [A U1].
  destruct (ProcessSignal (clock 0%nat) p _) as [p1 res]. cbn [fst snd] in *. rewrite A.
  destruct (IH (fun n => clock (S n)) p1 U1) as [E U2]. by destruct (sizeAll _ close capital p1 sigs).
Qed.

Lemma ReconcileFill_unfunded now (p : pipe) id sym side pnl q price :
  unfunded_pipe p -> unfunded_pipe (ReconcileFill now p id sym side pnl q price).
Proof.
  intros (g & E & [S (x & Ex & Eq)]). unfold ReconcileFill. destruct (SanitizeTradePnL _ _ _ _) as [safe b].
  set (q1 := bookFill p id sym side safe q). assert (E1 : SignalG q1 = Some g) by (unfold q1, bookFill; by destruct (Capital p)).
  set (q2 := notifyPropFirm now q1 safe).
  assert (E2 : SignalG q2 = Some g).
  { unfold q2, notifyPropFirm. destruct (PropFirmG q1); [|done]. destruct (Capital q1); [|done].
    by destruct (CheckDailyLimits now _) as [f [ok why]]. }
  unfold releaseExposure. cbn [SignalG withNotional]. rewrite E2. eexists. split; [reflexivity|].
  unfold unfunded_gate. cbn. unfold SignalGateImpl.RemoveExposure. rewrite Ex. cbn. split; [done|]. eexists. split; [done|].
  unfold ExposureTracker.RemovePosition. by repeat case_match.
Qed.

(** A period whose successor is an [int]. *)
Definition atr_ok (cfg : option StopLossConfig) : Prop :=
  match cfg with Some c => (ATRPeriod c < 2 ^ 63 - 1)%Z | None => True end.

Lemma liveATR_total cfg agg : atr_ok cfg -> is_Some (liveATR cfg agg).
Proof.
  intros Ha. unfold liveATR. destruct cfg as [c|]; [|by eexists]. destruct (SLType c); try by eexists.
  destruct (Z.ltb_spec 0 (ATRPeriod c)) as [Hp|]; [|by eexists]. cbv zeta. cbn in Ha.
  rewrite GoInt.i64_id by (unfold GoInt.in_i64; lia). unfold GetBars.
  destruct (frameOf agg "1m") as [f|]; cbn [mbind option_bind]; [|by eexists].
  destruct (Z.ltb_spec (if (Z.of_nat (Count f) <? ATRPeriod c + 1)%Z then Z.of_nat (Count f) else ATRPeriod c + 1)%Z 0) as [Hn|];
    [|by eexists]. destruct (_ <? _)%Z in Hn; lia.
Qed.

Record unfunded (e : engine) : Prop := {
  uf_pipe : exists p, pipeline e = Some p /\ unfunded_pipe p;
  uf_positions : openPositions e = ∅;
  uf_stops : atr_ok (stopLossCfg e)
}.

Lemma unfunded_front (e e' : engine) : unfunded e -> front e e' -> pipeline e' = pipeline e -> unfunded e'.
Proof.
  intros [U1 U2 U3] F E. constructor; [by rewrite E|by rewrite (fr_positions _ _ F)|by rewrite (fr_stops _ _ F)].
Qed.

(** No strategy panics. *)
Hypothesis calm : forall (r : R) c z, (Evaluate r c z).1 <> None.

Lemma EvaluateAll_total names candle rg : forall (g : Registry.t R) sigs,
  is_Some (fold_left (Registry.evaluateNext candle rg) names (Some (g, sigs))).
Proof.
  induction names as [|name names IH]; intros g sigs; cbn [fold_left]; [by eexists|].
  unfold Registry.evaluateNext at 2. cbn [mbind option_bind].
  destruct (Registry.entries g !! name) as [r|]; [|apply IH].
  pose proof (calm r candle rg) as Hc. destruct (Evaluate r candle rg) as [[res|] r']; [|done].
  cbn [mbind option_bind]. apply IH.
Qed.

Lemma pushMarket_unfunded (e : engine) rg : unfunded e -> exists e', pushMarket e rg = Some e' /\ unfunded e'.
Proof.
  intros [(p & Ep & g & Eg & Z & x & Ex & Eq) U2 U3]. unfold pushMarket. rewrite Ep, Eg. cbn [mbind option_bind].
  destruct Z as [z Ez]. unfold SignalGateImpl.SetVIX. rewrite Ez. cbn [mbind option_bind].
  unfold SignalGateImpl.SetRegime. cbn. eexists. split; [reflexivity|]. constructor; [|done|done].
  eexists. split; [reflexivity|]. eexists. split; [reflexivity|]. split; [by eexists|]. by exists x.
Qed.

Lemma prepareTick_unfunded o (e : engine) acct id p v ts :
  unfunded e -> exists e' s n, prepareTick Exp global o e acct id p v ts = Some (e', s, n) /\ unfunded e'.
Proof.
  intros U. unfold prepareTick.
  assert (U1 : unfunded (feedTick Exp e id p v ts).1).
  { apply (unfunded_front e); [done|apply feedTick_front|]. unfold feedTick, GetOrCreateSymbol.
    destruct (Symbols e !! id); cbv zeta; by destruct (0 <? _)%Z. }
  destruct (feedTick Exp e id p v ts) as [e1 s1]. cbn [fst] in U1. cbv zeta.
  assert (U2 : unfunded (rollDay e1 ts)).
  { pose proof (rollDay_front e1 ts) as F. destruct U1 as [(q & Eq & Uq) V2 V3].
    constructor; [|by rewrite (fr_positions _ _ F)|by rewrite (fr_stops _ _ F)].
    unfold rollDay. destruct (lastDay e1); [destruct (bool_decide _)|]; cbn; rewrite Eq; by eexists. }
  destruct (pushMarket_unfunded (rollDay e1 ts) (CurrentState (Tracker (RiskState e1))) U2) as (e2 & -> & U3).
  cbn [mbind option_bind]. pose proof (getRegistry_front global (defaultOrder o) e2 acct) as F.
  assert (P1 : pipeline (getRegistryForAccount global (defaultOrder o) e2 acct).1 = pipeline e2).
  { unfold getRegistryForAccount. destruct (accountRegistries e2 !! acct); [done|]. by destruct (defaultRegistry e2). }
  destruct (getRegistryForAccount global (defaultOrder o) e2 acct) as [e3 reg]. cbn [fst] in F, P1.
  eexists _, _, _. split; [reflexivity|]. pose proof (unfunded_front _ _ U3 F P1) as [V1 V2 V3].
  unfold putRegistry. by destruct (accountRegistries e3 !! acct).
Qed.

Lemma tick_unfunded o (e : engine) acct id p v ts :
  unfunded e -> exists e', ProcessTickForAccount Exp global o e acct id p v ts = Some (e', []) /\ unfunded e'.
Proof.
  intros U. unfold ProcessTickForAccount. destruct (Halted e); [by exists e|].
  destruct (prepareTick_unfunded o e acct id p v ts U) as (e1 & s & n & -> & U1). cbn [mbind option_bind]. cbv zeta.
  unfold warmTick, evaluateTick. pose proof (getRegistry_front global (defaultOrder o) e1 acct) as F.
  assert (P1 : pipeline (getRegistryForAccount global (defaultOrder o) e1 acct).1 = pipeline e1).
  { unfold getRegistryForAccount. destruct (accountRegistries e1 !! acct); [done|]. by destruct (defaultRegistry e1). }
  destruct (getRegistryForAccount global (defaultOrder o) e1 acct) as [e2 reg]. cbn [fst] in F, P1.
  pose proof (unfunded_front _ _ U1 F P1) as U2.
  destruct (EvaluateAll_total (evalOrder o) (candleOf s) (CurrentState (Tracker (RiskState e1))) reg []) as [[reg' sigs] Ev].
  unfold Registry.EvaluateAll. rewrite Ev. cbn [mbind option_bind].
  assert (U3 : unfunded (putRegistry e2 acct reg')).
  { destruct U2. unfold putRegistry. by destruct (accountRegistries e2 !! acct). }
  set (e3 := putRegistry e2 acct reg') in *. destruct (n <? warmUpCount e1)%Z; [by exists e3|].
  destruct (screen e3 id ts sigs) as [e4 r] eqn:E4. destruct (screen_spec _ _ _ _ _ _ E4) as [Sc _].
  assert (U4 : unfunded e4).
  { destruct U3 as [V1 V2 V3], Sc. constructor; [by rewrite sc_pipeline0|by rewrite sc_positions0|by rewrite sc_stops0]. }
  destruct r as [kept|]; [|by exists e4]. destruct U4 as [(q & Eq & Uq) V2 V3].
  unfold sizeSignals. rewrite Eq. destruct (sizeAll_unfunded (Float64 (Close (candleOf s))) (runningCapital e4) kept (clock o)
    (withRegime q (CurrentState (Tracker (RiskState e1)))) Uq) as [Ez Uz].
  destruct (sizeAll _ _ _ _ kept) as [q' out]. cbn [fst snd] in Ez, Uz. subst out.
  set (e5 := e4 <| pipeline := Some q' |>).
  destruct (CheckOpenStops o e5 s (candleOf s) []) as [[e6 out]|] eqn:E6.
  - destruct (CheckOpenStops_spec _ _ _ _ _ _ _ E6) as (extra & -> & _ & _ & G). destruct (G V2 eq_refl) as [-> Gp].
    destruct (CheckOpenStops_keeps _ _ _ _ _ _ _ E6) as [Kp Ks].
    eexists. split; [reflexivity|]. constructor; [|done|].
    + exists q'. split; [|done]. cbn. rewrite Kp. reflexivity.
    + cbn. rewrite Ks. done.
  - exfalso. revert E6. unfold CheckOpenStops. cbv zeta. destruct (_ <=? 0); [done|].
    destruct (liveATR_total (stopLossCfg e5) (Aggregator s) V3) as [a ->]. cbn [mbind option_bind].
    by destruct (fold_left (checkStop _) _ _).
Qed.

(** The settings of a run: stop periods are [int]s with a successor. *)
Definition op_sane (op : LiveOp) : Prop := match op with OStopLoss cfg => atr_ok cfg | _ => True end.

Lemma runOp_unfunded (e : engine) op :
  unfunded e -> op_sane op -> exists e', runOp Exp global e op = Some (e', []) /\ unfunded e'.
Proof.
  intros U Hs. destruct op; cbn [runOp]; [by apply tick_unfunded|..];
    (eexists; split; [reflexivity|]); destruct U as [(q & Eq & Uq) V2 V3]; try (constructor; [by exists q|done|done]).
  - unfold Start. destruct (Running e); (constructor; [by exists q|done|done]).
  - constructor; cbn; [rewrite Eq; by eexists|done|done].
  - constructor; cbn; [|done|done]. rewrite Eq. eexists. split; [reflexivity|]. by apply ReconcileFill_unfunded.
  - unfold ReconcileLiveFill. rewrite Eq. cbn. rewrite V2. cbn. constructor; cbn; [|done|done]. eexists. split; [reflexivity|].
    by apply ReconcileFill_unfunded.
Qed.

(** C36: Wired as the API server wires it, the live engine never emits an order: on every run of ticks,
    fills and settings, whatever the strategies, accounts, pools and prop-firm gate, since no code gives
    the exposure tracker of the server's signal gate an equity.  No run panics unless a strategy does. *)
Theorem live_server_never_trades (mp : MultiAccount.t) (propFirm : P) (ops : list LiveOp) :
  Forall op_sane ops ->
  exists e', runLive Exp global (SetLiveEngine (Some mp) propFirm NewLiveEngine) ops = Some (e', []).
Proof.
  assert (U : unfunded (SetLiveEngine (R := R) (C := C) (Some mp) propFirm NewLiveEngine)).
  { constructor; [|done|cbn; lia]. eexists. split; [reflexivity|]. eexists. split; [reflexivity|].
    split; [by eexists|]. eexists. split; [reflexivity|]. reflexivity. }
  intros F. revert U. generalize (SetLiveEngine (R := R) (C := C) (Some mp) propFirm NewLiveEngine). 
  induction F as [|op ops Hop _ IH]; intros e U; [by exists e|]. cbn [runLive].
  destruct (runOp_unfunded e op U Hop) as (e1 & -> & U1). destruct (IH e1 U1) as (e2 & E2).
  cbn [mbind option_bind]. rewrite E2. by exists e2.
Qed.
End Server.

(** ** Examples *)

(** A strategy that buys a thousand units on every evaluation. *)
Inductive pulse := Pulse.

#[export] Instance pulse_runner : StrategyRunner pulse := {
  Evaluate r c _ := (Some (Some (mkSignal (Symbol c) "BUY" 1000 SignalEntry 0.6 "" 0 0)), r);
  SetVIX := None; SetATR := None; PushSecondaryPrice := None
}.

#[export] Instance pulse_live : LiveRunner pulse := {
  Name _ := "pulse"%string; SetParams r _ := r; SetRegimeExitParams := None
}.

Definition demoGlobal : Registry.t pulse := Registry.RegisterFactory Registry.NewRegistry "pulse" (Some Pulse).
Definition demoOrders : TickOrders := mkOrders ["pulse"%string] ["pulse"%string] [""%string] (fun _ => 7%Z).

(** The account of Pipeline.v, a warm-up of two ticks; both at 150, a minute apart. *)
Definition demoLive : @LiveEngine pulse CapitalPoolManager.t Manager.t :=
  SetWarmUpBars (SetRiskPipeline NewLiveEngine (Some live_pipeline)) 2.

Abbreviation liveTick e t := (ProcessTickForAccount demoExp demoGlobal demoOrders e "default" 1 15000000 100 t).
Abbreviation secondTick := ('(e, _) ← liveTick demoLive mondayTen; liveTick e (mondayTen + 60000000000)%Z).

Lemma demoLive_wf : engine_wf demoLive.
Proof. intros p [= <-]. exact live_pipeline_wf. Qed.

(** The second tick buys 4 of the thousand units. *)
Example demo_order : (fun x => map SigQuantity x.2) <$> secondTick = Some [4].
Proof. vm_compute. reflexivity. Qed.

Lemma pulse_proposed o c s : proposed (R := pulse) o c s -> SigQuantity s = 1000 /\ SigPWin s = 0.6.
Proof.
  intros (reg & rg & reg' & sigs & E & Hs).
  assert (G : forall names (g : Registry.t pulse) l g' l',
    fold_left (Registry.evaluateNext c rg) names (Some (g, l)) = Some (g', l') ->
    (forall x, x ∈ l -> SigQuantity x = 1000 /\ SigPWin x = 0.6) -> forall x, x ∈ l' -> SigQuantity x = 1000 /\ SigPWin x = 0.6).
  { induction names as [|n names IH]; intros g l g' l'; cbn [fold_left]; [by intros [= _ <-]|].
    unfold Registry.evaluateNext at 2. cbn [mbind option_bind]. destruct (Registry.entries g !! n) as [r|]; cbn.
    - intros E' Hl. apply (IH _ _ _ _ E'). intros x [Hx| ->%list_elem_of_singleton]%elem_of_app; [by apply Hl|done].
    - apply IH. }
  apply (G _ _ _ _ _ E); [set_solver|done].
Qed.

Lemma live_orders_bounded_witness :
  exists e e' out, liveTick demoLive mondayTen = Some (e, []) /\ liveTick e (mondayTen + 60000000000)%Z = Some (e', out) /\
    map SigQuantity out = [4] /\
    Forall (fun x => (exists sym side, x = stopExit sym side) \/
      exists s, proposed (R := pulse) demoOrders (candleOf (feedTick demoExp e 1 15000000 100 (mondayTen + 60000000000)).2) s /\
        order_of e (Float64 (Close (candleOf (feedTick demoExp e 1 15000000 100 (mondayTen + 60000000000)).2))) s x) out.
Proof.
  destruct (bind_witness (fun a b => (bool_decide (a.2 = []), map SigQuantity b.2,
      Float64 (Close (candleOf (feedTick demoExp a.1 1 15000000 100 (mondayTen + 60000000000)).2)),
      (runningCapital a.1, KellyFraction a.1)))
    (liveTick demoLive mondayTen) (fun a => liveTick a.1 (mondayTen + 60000000000)%Z)
    (true, [4], 150, (100000, 0.25))) as ([e l] & [e' out] & E1 & E2 & E3); [vm_compute; reflexivity|].
  cbn [fst snd] in *. pose proof (f_equal fst E3) as Q1. pose proof (f_equal snd E3) as Q2. cbn [fst snd] in Q1, Q2.
  pose proof (f_equal fst Q1) as Q3. pose proof (f_equal snd Q1) as Q4. cbn [fst snd] in Q3, Q4.
  pose proof (f_equal fst Q3) as Q5. pose proof (f_equal snd Q3) as Q6. cbn [fst snd] in Q5, Q6.
  apply bool_decide_eq_true in Q5. subst l. exists e, e', out. split; [exact E1|]. split; [exact E2|]. split; [exact Q6|].
  pose proof (f_equal fst Q2) as Q7. pose proof (f_equal snd Q2) as Q8. cbn [fst snd] in Q7, Q8.
  apply (live_orders_bounded demoExp demoGlobal demoOrders e "default" 1 15000000 100 (mondayTen + 60000000000) e' out).
  - apply (tick_wf demoExp demoGlobal demoOrders demoLive "default" 1 15000000 100 mondayTen e [] demoLive_wf E1).
  - rewrite Q8. apply unit0_lit. vm_compute. reflexivity.
  - intros s Hs. destruct (pulse_proposed _ _ _ Hs) as [H1 H2]. rewrite Q4, Q7.
    constructor; cbn; unfold winOf; rewrite ?H1, ?H2; try reflexivity;
      [split; [reflexivity|apply Z.leb_le; vm_compute; reflexivity]|split; [reflexivity|apply Z.ltb_lt; vm_compute; reflexivity]|by split].
  - exact E2.
Defined.

(** A run while halted: a tick, a fill, a new capital, the kill switch. *)
Definition haltedRun : list LiveOp :=
  [OTick demoOrders "default" 1 15000000 100 mondayTen; OFill 7 [] "pulse" "" "SELL" 10 4 151; OCapital 5;
   OKillSwitch "margin"].

(** Five refusals since ten o'clock. *)
Definition spiked : @LiveEngine pulse CapitalPoolManager.t Manager.t :=
  (SetWarmUpBars demoLive 0) <| RiskState ::= (fun r => withAdv r (rejects (replicate 5 mondayTen) (Adv r))) |>.

Lemma live_halt_latched_witness :
  (exists e', runLive demoExp demoGlobal (Halt demoLive "risk") haltedRun = Some (e', []) /\ frozen (Halt demoLive "risk") e') /\
  (exists e', liveTick spiked (mondayTen + 1)%Z = Some (e', []) /\ Halted e' = true).
Proof.
  split.
  - apply (live_halt_latched demoExp demoGlobal (Halt demoLive "risk") haltedRun); [reflexivity|]. repeat constructor.
  - destruct (fmap_witness (fun x => Halted x.1) (liveTick spiked (mondayTen + 1)%Z) true) as ([e' out] & E & Hh);
      [vm_compute; reflexivity|]. exists e'. rewrite E.
    destruct (live_halt_latched demoExp demoGlobal spiked []) as [_ G].
    destruct (G _ _ _ _ _ _ _ _ eq_refl E Hh) as [-> _]. split; [reflexivity|exact Hh].
Defined.

(** The same two ticks on the engine of the server: nothing is bought. *)
Definition serverRun : list LiveOp :=
  [OWarmUp 2; OAccount ["pulse"%string] "acct" ∅; OTick demoOrders "acct" 1 15000000 100 mondayTen;
   OTick demoOrders "acct" 1 15000000 100 (mondayTen + 60000000000)].

Lemma live_server_never_trades_witness :
  exists e', runLive demoExp demoGlobal
    (SetLiveEngine (C := CapitalPoolManager.t) (Some MultiAccount.NewMultiAccountCapitalPool) ftmo_manager NewLiveEngine) serverRun
    = Some (e', []).
Proof.
  apply (live_server_never_trades demoExp demoGlobal).
  - intros r c z. discriminate.
  - repeat constructor.
Defined.
