(* ===== verification/BrokerAdapter.v ===== *)
(** * What a broker adapter is ([internal/broker/adapter.go], preflight.go)

    The data exchanged with a broker, and the interfaces [Adapter] and
    [CapableAdapter] as classes: an adapter is a value of [A] (a Go pointer), and its
    calls read and change the world [W], which holds the adapters' own states and
    whatever is behind them.  [Preflight] is the check an order passes before it is
    dispatched; it uses nothing but the interface. *)
From Stdlib Require Import ZArith Lia Bool Floats.
From S2P Require Import Prelude Float64 FloatRound FloatLaws Price.
Local Open Scope float_scope.
Local Open Scope go_scope.

(** The string types of orders. *)
Definition OrderSide := string.
Definition OrderType := string.
Definition OrderStatus := string.
Definition TimeInForce := string.
Definition Capability := string.

Definition Buy : OrderSide := "BUY".
Definition Sell : OrderSide := "SELL".
Definition Market : OrderType := "MARKET".
Definition Limit : OrderType := "LIMIT".
Definition Stop : OrderType := "STOP".
Definition New : OrderStatus := "NEW".
Definition PartiallyFilled : OrderStatus := "PARTIALLY_FILLED".
Definition Filled : OrderStatus := "FILLED".
Definition Canceled : OrderStatus := "CANCELED".
Definition Rejected : OrderStatus := "REJECTED".
Definition Day : TimeInForce := "DAY".
Definition GTC : TimeInForce := "GTC".
Definition IOC : TimeInForce := "IOC".

Definition CapPlaceOrder : Capability := "PLACE_ORDER".
Definition CapCancelOrder : Capability := "CANCEL_ORDER".
Definition CapCancelAllOrders : Capability := "CANCEL_ALL_ORDERS".
Definition CapCloseAllPositions : Capability := "CLOSE_ALL_POSITIONS".
Definition CapGetPositions : Capability := "GET_POSITIONS".
Definition CapGetAccount : Capability := "GET_ACCOUNT".
Definition CapValidateCredentials : Capability := "VALIDATE_CREDENTIALS".

Record OrderRequest := mkOrderRequest {
  ReqAccountID : string;
  ReqSymbol : string;
  ReqSide : OrderSide;
  ReqType : OrderType;
  ReqQuantity : float64;
  ReqLimitPrice : Price;
  ReqStopPrice : Price;
  ReqTimeInForce : TimeInForce;
  ReqStrategyID : string;
  ReqTxID : string;
  ReqStopLoss : Price;
  ReqTakeProfit : Price
}.

Record OrderResponse := mkOrderResponse {
  BrokerOrderID : string;
  Status : OrderStatus;
  FilledQty : float64;
  AvgFillPrice : Price;
  TxID : string
}.

Record Position := mkPosition {
  PosSymbol : string;
  PosQuantity : float64;
  PosAvgEntryPrice : Price;
  PosMarketValue : Price;
  PosUnrealizedPL : float64
}.

Record Account := mkAccount {
  AcctID : string;
  AcctBalance : Price;
  AcctEquity : Price;
  AcctBuyingPower : Price;
  AcctDailyPL : float64;
  AcctStatus : string
}.

Record AdapterManifest := mkManifest {
  ManifestID : string;
  ManifestBrokerType : string;
  Priority : Z;
  Capabilities : list Capability
}.

Definition error := string.

(** [GetAccount] returns a pointer, which may be nil without an error. *)
Class Adapter (A W : Type) := {
  PlaceOrder : A -> OrderRequest -> W -> W * (OrderResponse + error);
  CancelOrder : A -> string -> W -> W * option error;
  CancelAllOrders : A -> W -> W * option error;
  CloseAllPositions : A -> W -> W * option error;
  GetPositions : A -> W -> W * (list Position + error);
  GetAccount : A -> W -> W * (option Account + error);
  ValidateCredentials : A -> W -> W * option error
}.

(** [isCapable] is the outcome of the type assertion to [CapableAdapter]. *)
Class CapableAdapter (A W : Type) `{Adapter A W} := {
  Manifest : A -> AdapterManifest;
  HealthCheck : A -> W -> W * option error;
  isCapable : A -> bool
}.

(** [time.Now()], a reading of the world. *)
Class Clock (W : Type) := Now : W -> Z.

(** ** The dispatch check *)
Record PreflightResult := mkPreflight { Skip : bool; Reason : string }.

Definition pass : PreflightResult := mkPreflight false "".

(** The quantity of the first position of the symbol. *)
Fixpoint heldQuantity (symbol : string) (ps : list Position) : float64 :=
  match ps with
  | [] => 0
  | p :: ps => if bool_decide (PosSymbol p = symbol) then PosQuantity p else heldQuantity symbol ps
  end.

Section Preflight.
Context {A W : Type} {AD : Adapter A W}.

(** The buying-power check of a limit order. *)
Definition checkPower (adapter : A) (req : OrderRequest) (w : W) : W * PreflightResult :=
  if 0 <? Float64 (ReqLimitPrice req) then
    let '(w, r) := GetAccount adapter w in
    match r with
    | inl (Some acct) =>
        if 0 <? Float64 (AcctBuyingPower acct) then
          let notional := ReqQuantity req * Float64 (ReqLimitPrice req) in
          if Float64 (AcctBuyingPower acct) <? notional then
            (w, mkPreflight true "insufficient buying power")
          else (w, pass)
        else (w, pass)
    | _ => (w, pass)
    end
  else (w, pass).

(** A nil adapter is [None]; the handler's request is never nil. *)
Definition Preflight (adapter : option A) (req : OrderRequest) (w : W) : W * PreflightResult :=
  match adapter with
  | None => (w, pass)
  | Some adapter =>
      let '(w, r) := GetPositions adapter w in
      match r with
      | inr _ => (w, pass)
      | inl positions =>
          let held := heldQuantity (ReqSymbol req) positions in
          if bool_decide (ReqSide req = Buy) then
            if 0 <? held then (w, mkPreflight true "position already open")
            else checkPower adapter req w
          else if bool_decide (ReqSide req = Sell) then
            if held <=? 0 then (w, mkPreflight true "no position to close") else (w, pass)
          else (w, pass)
      end
  end.
End Preflight.
