(* ===== verification/Driver.v ===== *)
(** * The broker driver registry ([internal/broker/broker_driver.go])

    Adapters by priority: a request goes to the first healthy adapter that supports
    its capability.  The registry holds pointers to its entries, shared by a list and
    a map, so the model keeps a store of entries; a removed entry stays in the store.
    Calls hold the registry's lock for each access and are modelled as run one after
    the other. *)
From Stdlib Require Import ZArith Lia Bool.
From coqutil Require Import RecordSettersUsingExistingGetters.
From stdpp Require Import sorting pretty.
From S2P Require Import Prelude BrokerAdapter.
Local Open Scope Z_scope.

Section adapterEntry.
Context {A : Type}.

Record adapterEntry := mkEntry {
  adapter : A;
  manifest : AdapterManifest;
  healthy : bool;
  lastErr : option error;
  lastSeen : Z
}.

Definition supports (e : adapterEntry) (cap : Capability) : bool :=
  existsb (fun c => bool_decide (c = cap)) (Capabilities (manifest e)).

Record AdapterStatus := mkStatus {
  StBrokerType : string;
  StPriority : Z;
  StHealthy : bool;
  StLastError : option error;
  StLastSeen : Z
}.
End adapterEntry.
Arguments adapterEntry : clear implicits.

(** ** The registry *)
Module BrokerDriverRegistry.
Section BrokerDriverRegistry.
Context {A W : Type} {AD : Adapter A W} {CA : CapableAdapter A W} {CW : Clock W}.

(** [heap] and [next]: the entries allocated so far. *)
Record t := mk {
  heap : gmap nat (adapterEntry A);
  next : nat;
  entries : list nat;
  byID : gmap string nat
}.

Definition NewBrokerDriverRegistry : t := mk ∅ 0 [] ∅.

(** The first occurrence of a pointer. *)
Fixpoint removeEntry (entry : nat) (l : list nat) : list nat :=
  match l with
  | [] => []
  | e :: l => if Nat.eqb e entry then l else e :: removeEntry entry l
  end.

Definition priority (h : gmap nat (adapterEntry A)) (l : nat) : Z :=
  match h !! l with Some e => Priority (manifest e) | None => 0 end.

Definition sortByPriority (h : gmap nat (adapterEntry A)) (l : list nat) : list nat :=
  sliceStable (fun i j => priority h i <? priority h j) l.

Definition Register (a : A) (r : t) (w : W) : t * option error :=
  let m := Manifest a in
  if bool_decide (ManifestID m = "") then (r, Some "adapter manifest missing ID")
  else
    let entry := next r in
    let h := <[entry := mkEntry a m false None (Now w)]> (heap r) in
    let es := match byID r !! ManifestID m with
              | Some old => removeEntry old (entries r)
              | None => entries r
              end in
    (mk h (S entry) (sortByPriority h (es ++ [entry])) (<[ManifestID m := entry]> (byID r)), None).

Definition Unregister (id : string) (r : t) : t :=
  match byID r !! id with
  | Some entry => mk (heap r) (next r) (removeEntry entry (entries r)) (delete id (byID r))
  | None => r
  end.

Definition candidates (cap : Capability) (r : t) : list nat :=
  List.filter (fun l => match heap r !! l with Some e => supports e cap | None => false end) (entries r).

Definition isHealthy (r : t) (l : nat) : bool :=
  match heap r !! l with Some e => healthy e | None => false end.

(** The adapter an entry points to. *)
Definition adapterAt (r : t) (l : nat) : option A := adapter <$> heap r !! l.

Definition Resolve (cap : Capability) (r : t) : option A + error :=
  let cands := candidates cap r in
  if bool_decide (cands = []) then inr ("no adapter registered for capability " ++ cap)%string
  else match List.find (isHealthy r) cands with
       | Some l => inl (adapterAt r l)
       | None => inr ("all " ++ pretty (length cands) ++ " adapter(s) for capability " ++ cap ++ " are unhealthy")%string
       end.

Definition setEntry (l : nat) (f : adapterEntry A -> adapterEntry A) (r : t) : t :=
  mk (alter f l (heap r)) (next r) (entries r) (byID r).

Definition markUnhealthy (err : error) (e : adapterEntry A) : adapterEntry A :=
  mkEntry (adapter e) (manifest e) false (Some err) (lastSeen e).

(** One pass over the candidates: the first healthy one is tried, and the pass ends
    there.  [None]: no healthy candidate. *)
Fixpoint tryCandidates (fn : A -> W -> W * option error) (cands : list nat) (r : t) (w : W) :
    t * W * option (option error) :=
  match cands with
  | [] => (r, w, None)
  | l :: cands =>
      match heap r !! l with
      | None => tryCandidates fn cands r w
      | Some e =>
          if healthy e then
            let '(w, err) := fn (adapter e) w in
            match err with
            | Some err => (setEntry l (markUnhealthy err) r, w, Some (Some err))
            | None => (r, w, Some None)
            end
          else tryCandidates fn cands r w
      end
  end.

Definition checked (now : Z) (err : option error) (e : adapterEntry A) : adapterEntry A :=
  mkEntry (adapter e) (manifest e) (match err with Some _ => false | None => true end) err now.

Definition checkEntry (l : nat) (rw : t * W) : t * W :=
  let '(r, w) := rw in
  match adapterAt r l with
  | Some a => let '(w, err) := HealthCheck a w in (setEntry l (checked (Now w) err) r, w)
  | None => (r, w)
  end.

Definition RunHealthChecks (r : t) (w : W) : t * W :=
  fold_left (fun rw l => checkEntry l rw) (entries r) (r, w).

(** [n] attempts are left. *)
Fixpoint attempts (cap : Capability) (fn : A -> W -> W * option error) (n : nat) (r : t) (w : W) :
    t * W * option error :=
  match n with
  | O => (r, w, Some ("all adapters for capability " ++ cap ++ " failed after retries")%string)
  | S n =>
      let '(r, w, o) := tryCandidates fn (candidates cap r) r w in
      match o with
      | Some None => (r, w, None)
      | _ => let '(r, w) := match n with O => (r, w) | S _ => RunHealthChecks r w end in
             attempts cap fn n r w
      end
  end.

Definition ResolveWithFallback (cap : Capability) (fn : A -> W -> W * option error) (r : t) (w : W) :
    t * W * option error :=
  attempts cap fn 3 r w.

Definition Get (id : string) (r : t) : option A := byID r !! id ≫= adapterAt r.

Definition List (r : t) : gmap string AdapterStatus :=
  fold_left (fun out l => match heap r !! l with
                          | Some e => <[ManifestID (manifest e) := mkStatus (ManifestBrokerType (manifest e))
                                          (Priority (manifest e)) (healthy e) (lastErr e) (lastSeen e)]> out
                          | None => out end) (entries r) ∅.

(** Errors are logged. *)
Definition onEach (op : A -> W -> W * option error) (r : t) (w : W) : W :=
  fold_left (fun w l => match adapterAt r l with Some a => (op a w).1 | None => w end) (entries r) w.

Definition CancelAllOrders (r : t) (w : W) : W := onEach BrokerAdapter.CancelAllOrders r w.
Definition CloseAllPositions (r : t) (w : W) : W := onEach BrokerAdapter.CloseAllPositions r w.
End BrokerDriverRegistry.
Arguments t : clear implicits.

(** ** Well-formed registries *)
Section Laws.
Context {A W : Type} {AD : Adapter A W} {CA : CapableAdapter A W} {CW : Clock W}.
Implicit Types (r : t A) (w : W) (fn : A -> W -> W * option error).

(** [i] is served before [j]: by priority, then by the order of registration. *)
Definition before (h : gmap nat (adapterEntry A)) (i j : nat) : Prop :=
  priority h i < priority h j \/ priority h i = priority h j /\ (i < j)%nat.

Record wf (r : t A) : Prop := {
  wf_sorted : StronglySorted (before (heap r)) (entries r);
  wf_entry : forall l, l ∈ entries r -> exists e, heap r !! l = Some e /\
    manifest e = Manifest (adapter e) /\ byID r !! ManifestID (manifest e) = Some l;
  wf_next : forall l, is_Some (heap r !! l) -> (l < next r)%nat;
  wf_byID : forall id l, byID r !! id = Some l ->
    l ∈ entries r /\ exists e, heap r !! l = Some e /\ ManifestID (manifest e) = id
}.

(** Two registries that route alike: they differ in health at most. *)
Record same (r r' : t A) : Prop := {
  same_entries : entries r' = entries r;
  same_byID : byID r' = byID r;
  same_next : next r' = next r;
  same_heap : forall l, (fun e => (adapter e, manifest e)) <$> heap r' !! l
                      = (fun e => (adapter e, manifest e)) <$> heap r !! l
}.

#[global] Instance same_preorder : PreOrder same.
Proof.
  split; [by intros r; split|]. intros r1 r2 r3 [? ? ? S1] [? ? ? S2]. split; [congruence..|].
  intros l. by rewrite S2.
Qed.

Lemma same_lookup r r' l e : same r r' -> heap r !! l = Some e ->
  exists e', heap r' !! l = Some e' /\ adapter e' = adapter e /\ manifest e' = manifest e.
Proof.
  intros S E. pose proof (same_heap _ _ S l) as M. rewrite E in M.
  destruct (heap r' !! l) as [e'|]; [|done]. injection M as M1 M2. by exists e'.
Qed.

Lemma same_lookup_back r r' l e' : same r r' -> heap r' !! l = Some e' ->
  exists e, heap r !! l = Some e /\ adapter e' = adapter e /\ manifest e' = manifest e.
Proof.
  intros S E. pose proof (same_heap _ _ S l) as M. rewrite E in M.
  destruct (heap r !! l) as [e|]; [|done]. injection M as M1 M2. by exists e.
Qed.

Lemma same_priority r r' l : same r r' -> priority (heap r') l = priority (heap r) l.
Proof.
  intros S. unfold priority. pose proof (same_heap _ _ S l) as M.
  destruct (heap r' !! l), (heap r !! l); cbn in M; congruence.
Qed.

Lemma same_candidates cap r r' : same r r' -> candidates cap r' = candidates cap r.
Proof.
  intros S. unfold candidates. rewrite (same_entries _ _ S). apply filter_ext. intros l.
  pose proof (same_heap _ _ S l) as M. unfold supports.
  destruct (heap r' !! l), (heap r !! l); cbn in M; congruence.
Qed.

Lemma sorted_impl {B} (P Q : B -> B -> Prop) l :
  (forall x y, P x y -> Q x y) -> StronglySorted P l -> StronglySorted Q l.
Proof.
  intros HI. induction 1 as [|x l S IH F]; constructor; [done|].
  eapply list.Forall_impl; [exact F|]. intros y. apply HI.
Qed.

Lemma same_wf r r' : same r r' -> wf r -> wf r'.
Proof.
  intros S [Ws We Wn Wb]. split.
  - rewrite (same_entries _ _ S). refine (sorted_impl _ _ _ _ Ws).
    intros i j. unfold before. by rewrite !(same_priority r r').
  - rewrite (same_entries _ _ S), (same_byID _ _ S). intros l Hl. destruct (We l Hl) as (e & E & M & B).
    destruct (same_lookup _ _ _ _ S E) as (e' & E' & A' & M'). exists e'. by rewrite A', M'.
  - rewrite (same_next _ _ S). intros l [e' E']. destruct (same_lookup_back _ _ _ _ S E') as (e & E & _).
    apply Wn. by exists e.
  - rewrite (same_byID _ _ S), (same_entries _ _ S). intros id l B. destruct (Wb id l B) as (Hl & e & E & M).
    split; [done|]. destruct (same_lookup _ _ _ _ S E) as (e' & E' & _ & M'). exists e'. by rewrite M'.
Qed.

Lemma setEntry_same l (f : adapterEntry A -> adapterEntry A) r :
  (forall e, adapter (f e) = adapter e /\ manifest (f e) = manifest e) -> same r (setEntry l f r).
Proof.
  intros Hf. split; [done..|]. intros k. cbn. destruct (decide (l = k)) as [->|N].
  - rewrite lookup_alter_eq. destruct (heap r !! k) as [e|]; [|done]. cbn. by destruct (Hf e) as [-> ->].
  - by rewrite lookup_alter_ne.
Qed.

(** *** Removing a pointer *)
Lemma sorted_nodup h l : StronglySorted (before h) l -> NoDup l.
Proof.
  induction 1 as [|x l S IH F]; constructor; [|done]. intros Hx.
  rewrite list.Forall_forall in F. destruct (F x Hx); lia.
Qed.

Lemma elem_of_removeEntry x l k : NoDup l -> k ∈ removeEntry x l <-> k ∈ l /\ k <> x.
Proof.
  induction 1 as [|y l Hy N IH]; cbn; [rewrite elem_of_nil; tauto|].
  destruct (Nat.eqb_spec y x) as [->|D]; rewrite ?elem_of_cons, ?IH; [|naive_solver].
  split; [intros Hk; split; [by right|]; by intros ->|]. intros [[->|Hk] ?]; done.
Qed.

Lemma removeEntry_Forall (P : nat -> Prop) x l : Forall P l -> Forall P (removeEntry x l).
Proof. induction 1 as [|y l]; cbn; [constructor|]. destruct (Nat.eqb y x); [done|by constructor]. Qed.

Lemma removeEntry_sorted (R : nat -> nat -> Prop) x l :
  StronglySorted R l -> StronglySorted R (removeEntry x l).
Proof.
  induction 1 as [|y l S IH F]; cbn; [constructor|]. destruct (Nat.eqb y x); [done|].
  constructor; [done|]. by apply removeEntry_Forall.
Qed.

Lemma New_wf : wf NewBrokerDriverRegistry.
Proof.
  split; cbn; [constructor|intros l Hl; by apply elem_of_nil in Hl|intros l [? E]; by rewrite lookup_empty in E|].
  intros id l E. by rewrite lookup_empty in E.
Qed.

Lemma Unregister_wf id r : wf r -> wf (Unregister id r).
Proof.
  intros [Ws We Wn Wb]. unfold Unregister. destruct (byID r !! id) as [x|] eqn:E; [|by split].
  pose proof (sorted_nodup _ _ Ws) as N. split; cbn.
  - by apply removeEntry_sorted.
  - intros l. rewrite elem_of_removeEntry by done. intros [Hl D]. destruct (We l Hl) as (e & L & M & B).
    exists e. split; [done|]. split; [done|]. rewrite lookup_delete_ne; [done|]. intros ->. congruence.
  - done.
  - intros id' l [D B]%lookup_delete_Some. destruct (Wb id' l B) as (Hl & e & L & M).
    split; [|by exists e]. rewrite elem_of_removeEntry by done. split; [done|]. intros ->.
    destruct (Wb id x E) as (_ & e' & L' & M'). congruence.
Qed.

(** The entries that stay when an adapter of that identifier is registered. *)
Definition others (id : string) r : list nat :=
  match byID r !! id with Some old => removeEntry old (entries r) | None => entries r end.

Lemma elem_of_others id r l : wf r -> l ∈ others id r <-> l ∈ entries r /\ byID r !! id <> Some l.
Proof.
  intros I. unfold others. destruct (byID r !! id) as [x|] eqn:E; [|naive_solver].
  rewrite elem_of_removeEntry by (eapply sorted_nodup, wf_sorted, I). naive_solver.
Qed.

Lemma priority_insert (h : gmap nat (adapterEntry A)) k e l : l <> k -> priority (<[k := e]> h) l = priority h l.
Proof. intros D. unfold priority. by rewrite lookup_insert_ne. Qed.

Lemma Register_sorted r (h : gmap nat (adapterEntry A)) es :
  StronglySorted (before (heap r)) es -> Forall (fun l => (l < next r)%nat) es ->
  (forall l, (l < next r)%nat -> priority h l = priority (heap r) l) ->
  StronglySorted (before h) (sortByPriority h (es ++ [next r])).
Proof.
  intros S F P. unfold sortByPriority.
  eapply sorted_impl, (sliceStable_sorted _ lt); [| |].
  - intros i j [L Q]. apply Z.ltb_ge in L. unfold before.
    destruct (Z.ltb_spec (priority h i) (priority h j)); [by left|]. right. split; [lia|]. by apply Q.
  - apply weak_order_key.
  - apply StronglySorted_app_2; [| |by repeat constructor].
    { intros x y Hx ->%list_elem_of_singleton _ _. rewrite list.Forall_forall in F. by apply F. }
    revert F. induction S as [|x l S IH G]; intros F; [constructor|].
    apply list.Forall_cons in F as [Fx F]. constructor; [by apply IH|].
    rewrite list.Forall_forall in F, G |- *. intros y Hy L1 L2. apply Z.ltb_ge in L1, L2.
    rewrite !P in L1, L2 by auto. destruct (G y Hy); lia.
Qed.

Lemma Register_wf a r w : wf r -> wf (Register a r w).1.
Proof.
  intros I. unfold Register. case_bool_decide; [done|]. cbn. fold (others (ManifestID (Manifest a)) r).
  set (e := mkEntry a (Manifest a) false None (Now w)). pose proof (elem_of_others (ManifestID (Manifest a)) r) as O.
  assert (F : forall l, l ∈ others (ManifestID (Manifest a)) r -> (l < next r)%nat).
  { intros l Hl. apply O in Hl as [Hl _]; [|done]. destruct (wf_entry r I l Hl) as (e' & E & _).
    apply (wf_next r I). by exists e'. }
  split; cbn.
  - apply Register_sorted; [|by apply list.Forall_forall|].
    + pose proof (wf_sorted r I) as Ws. unfold others. destruct (byID r !! _); [by apply removeEntry_sorted|done].
    + intros l Hl. apply priority_insert. lia.
  - intros l. unfold sortByPriority. rewrite sliceStable_perm. intros [Hl| ->]%elem_of_snoc.
    + pose proof (F l Hl). apply O in Hl as [Hl D]; [|done]. destruct (wf_entry r I l Hl) as (e' & E & M & B).
      exists e'. rewrite lookup_insert_ne by lia. split; [done|]. split; [done|].
      rewrite lookup_insert_ne; [done|]. intros X. by rewrite X in D.
    + exists e. by rewrite !lookup_insert_eq.
  - intros l [e' E]. destruct (decide (l = next r)) as [->|D]; [lia|]. rewrite lookup_insert_ne in E by done.
    pose proof (wf_next r I l ltac:(by exists e')). lia.
  - intros id l. unfold sortByPriority. rewrite sliceStable_perm, elem_of_app, list_elem_of_singleton.
    destruct (decide (ManifestID (Manifest a) = id)) as [<-|D].
    + rewrite lookup_insert_eq. intros [= <-]. split; [by right|]. exists e. by rewrite lookup_insert_eq.
    + rewrite lookup_insert_ne by done. intros B. destruct (wf_byID r I id l B) as (Hl & e' & E & M).
      pose proof (wf_next r I l ltac:(by exists e')). split.
      * left. apply O; [done|]. split; [done|]. intros B'. destruct (wf_byID r I _ l B') as (_ & e2 & E2 & M2). congruence.
      * exists e'. by rewrite lookup_insert_ne by lia.
Qed.

(** *** Calls and health checks leave the routing alone *)
Lemma tryCandidates_same fn cands r w : same r (tryCandidates fn cands r w).1.1.
Proof.
  induction cands as [|l cands IH]; cbn; [done|]. destruct (heap r !! l) as [e|]; [|done].
  destruct (healthy e); [|done]. destruct (fn (adapter e) w) as [w1 [err|]]; [|done].
  by apply setEntry_same.
Qed.

Lemma checkEntry_same l r w : same r (checkEntry l (r, w)).1.
Proof.
  unfold checkEntry. destruct (adapterAt r l) as [a|]; [|done]. destruct (HealthCheck a w). by apply setEntry_same.
Qed.

Lemma checks_same ls r w : same r (fold_left (fun rw l => checkEntry l rw) ls (r, w)).1.
Proof.
  revert r w. induction ls as [|l ls IH]; intros r w; [done|].
  change (fold_left (fun rw l => checkEntry l rw) (l :: ls) (r, w))
    with (fold_left (fun rw l => checkEntry l rw) ls (checkEntry l (r, w))).
  pose proof (checkEntry_same l r w) as S. destruct (checkEntry l (r, w)) as [r1 w1]. by rewrite S.
Qed.

Lemma RunHealthChecks_same r w : same r (RunHealthChecks r w).1.
Proof. apply checks_same. Qed.

Lemma attempts_same cap fn n r w : same r (attempts cap fn n r w).1.1.
Proof.
  revert r w. induction n as [|n IH]; intros r w; [done|]. cbn.
  pose proof (tryCandidates_same fn (candidates cap r) r w) as S1.
  destruct (tryCandidates fn (candidates cap r) r w) as [[r1 w1] o]. cbn in S1. rewrite S1.
  assert (IH' : same r1 (let '(r2, w2) := match n with O => (r1, w1) | S _ => RunHealthChecks r1 w1 end in
                         attempts cap fn n r2 w2).1.1).
  { destruct n as [|n]; [done|]. pose proof (RunHealthChecks_same r1 w1) as S2.
    destruct (RunHealthChecks r1 w1) as [r2 w2]. by rewrite S2. }
  by destruct o as [[err|]|].
Qed.

(** The registries the operations lead to. *)
Inductive reachable : t A -> Prop :=
  | reachable_new : reachable NewBrokerDriverRegistry
  | reachable_register a r w : reachable r -> reachable (Register a r w).1
  | reachable_unregister id r : reachable r -> reachable (Unregister id r)
  | reachable_check r w : reachable r -> reachable (RunHealthChecks r w).1
  | reachable_call cap fn r w : reachable r -> reachable (ResolveWithFallback cap fn r w).1.1.

Lemma reachable_wf r : reachable r -> wf r.
Proof.
  induction 1 as [|a r w _ IH|id r _ IH|r w _ IH|cap fn r w _ IH].
  - apply New_wf.
  - by apply Register_wf.
  - by apply Unregister_wf.
  - by apply (same_wf r); [apply RunHealthChecks_same|].
  - by apply (same_wf r); [apply attempts_same|].
Qed.

(** *** The candidates of a capability *)
Lemma elem_of_candidates cap r l : wf r ->
  l ∈ candidates cap r <-> l ∈ entries r /\ exists e, heap r !! l = Some e /\ supports e cap = true.
Proof.
  intros I. unfold candidates. rewrite !list_elem_of_In, filter_In, <- !list_elem_of_In.
  destruct (heap r !! l) as [e|]; naive_solver.
Qed.

Lemma filter_sorted {B} (R : B -> B -> Prop) f l : StronglySorted R l -> StronglySorted R (List.filter f l).
Proof.
  induction 1 as [|x l S IH F]; cbn; [constructor|]. destruct (f x); [|done]. constructor; [done|].
  rewrite list.Forall_forall in F |- *. intros y. rewrite list_elem_of_In, filter_In, <- list_elem_of_In. naive_solver.
Qed.

Lemma find_sorted {B} (R : B -> B -> Prop) f l : StronglySorted R l ->
  match List.find f l with
  | Some x => x ∈ l /\ f x = true /\ forall y, y ∈ l -> f y = true -> y = x \/ R x y
  | None => forall y, y ∈ l -> f y = false
  end.
Proof.
  induction 1 as [|x l S IH F]; cbn; [intros y Hy; by apply elem_of_nil in Hy|]. destruct (f x) eqn:E.
  - split; [by left|]. split; [done|]. intros y [->|Hy]%elem_of_cons _; [by left|]. right.
    rewrite list.Forall_forall in F. by apply F.
  - destruct (List.find f l) as [z|].
    + destruct IH as (Hz & Fz & G). split; [by right|]. split; [done|]. intros y [->|Hy]%elem_of_cons Fy; [congruence|].
      by apply G.
    + intros y [->|Hy]%elem_of_cons; [done|]. by apply IH.
Qed.

(** Where a healthy candidate is found, it is the best one. *)
Lemma first_healthy cap r : wf r ->
  match List.find (isHealthy r) (candidates cap r) with
  | Some l => exists e, l ∈ entries r /\ heap r !! l = Some e /\ healthy e = true /\ supports e cap = true /\
      forall l' e', l' ∈ entries r -> heap r !! l' = Some e' -> healthy e' = true -> supports e' cap = true ->
        l' = l \/ before (heap r) l l'
  | None => forall l e, l ∈ entries r -> heap r !! l = Some e -> supports e cap = true -> healthy e = false
  end.
Proof.
  intros I. pose proof (find_sorted (before (heap r)) (isHealthy r) (candidates cap r) (filter_sorted _ _ _ (wf_sorted r I))) as F.
  destruct (List.find (isHealthy r) (candidates cap r)) as [l|].
  - destruct F as (Hl & Hh & G). apply elem_of_candidates in Hl as (Hl & e & E & Hs); [|done].
    exists e. unfold isHealthy in Hh. rewrite E in Hh. repeat (split; [done|]). intros l' e' Hl' E' Hh' Hs'.
    apply G; [|unfold isHealthy; by rewrite E']. apply elem_of_candidates; [done|]. eauto.
  - intros l e Hl E Hs. specialize (F l). unfold isHealthy in F. rewrite E in F. apply F.
    apply elem_of_candidates; [done|]. eauto.
Qed.

(** A pass tries the first healthy candidate, if there is one. *)
Lemma tryCandidates_find fn cands r w :
  tryCandidates fn cands r w =
  match List.find (isHealthy r) cands ≫= fun l => (l,.) <$> heap r !! l with
  | Some (l, e) =>
      let '(w1, err) := fn (adapter e) w in
      match err with
      | Some err => (setEntry l (markUnhealthy err) r, w1, Some (Some err))
      | None => (r, w1, Some None)
      end
  | None => (r, w, None)
  end.
Proof.
  induction cands as [|l cands IH]; cbn; [done|]. unfold isHealthy at 1.
  destruct (heap r !! l) as [e|] eqn:E; [|done]. destruct (healthy e); [|done]. cbn. by rewrite E.
Qed.

(** What an entry that supports [cap] points to. *)
Definition serves (cap : Capability) r (a : A) : Prop :=
  exists l e, l ∈ entries r /\ heap r !! l = Some e /\ adapter e = a /\ supports e cap = true.

Lemma same_serves cap r r' a : same r r' -> serves cap r' a -> serves cap r a.
Proof.
  intros S (l & e' & Hl & E' & <- & Hs). rewrite (same_entries _ _ S) in Hl.
  destruct (same_lookup_back _ _ _ _ S E') as (e & E & -> & M). exists l, e. unfold supports in Hs. by rewrite M in Hs.
Qed.

Lemma tried_serves cap r l e :
  wf r -> (List.find (isHealthy r) (candidates cap r) ≫= fun l => (l,.) <$> heap r !! l) = Some (l, e) ->
  heap r !! l = Some e /\ healthy e = true /\ serves cap r (adapter e).
Proof.
  intros I. pose proof (first_healthy cap r I) as F. destruct (List.find _ _) as [k|]; [|done].
  destruct F as (e' & Hl & E & Hh & Hs & _). cbn. rewrite E. intros [= -> ->]. split; [done|]. split; [done|].
  by exists l, e.
Qed.

(** Health checks of registered entries record their outcome. *)
Lemma checkEntry_ne l k r w : k <> l -> heap (checkEntry l (r, w)).1 !! k = heap r !! k.
Proof.
  intros D. unfold checkEntry. destruct (adapterAt r l) as [a|]; [|done]. destruct (HealthCheck a w). cbn.
  by rewrite lookup_alter_ne.
Qed.

Lemma checks_ne ls k r w :
  k ∉ ls -> heap (fold_left (fun rw l => checkEntry l rw) ls (r, w)).1 !! k = heap r !! k.
Proof.
  revert r w. induction ls as [|l ls IH]; intros r w Hk; [done|]. apply not_elem_of_cons in Hk as [D Hk].
  change (fold_left (fun rw l => checkEntry l rw) (l :: ls) (r, w))
    with (fold_left (fun rw l => checkEntry l rw) ls (checkEntry l (r, w))).
  pose proof (checkEntry_ne l k r w D) as E. destruct (checkEntry l (r, w)) as [r1 w1]. by rewrite IH.
Qed.

Lemma checks_outcome ls l e r w : NoDup ls -> l ∈ ls -> heap r !! l = Some e ->
  exists w0 e', heap (fold_left (fun rw l => checkEntry l rw) ls (r, w)).1 !! l = Some e' /\
    adapter e' = adapter e /\ healthy e' = match (HealthCheck (adapter e) w0).2 with Some _ => false | None => true end.
Proof.
  intros N. revert r w. induction N as [|k ls Hk N IH]; intros r w Hl E; [by apply elem_of_nil in Hl|].
  change (fold_left (fun rw l => checkEntry l rw) (k :: ls) (r, w))
    with (fold_left (fun rw l => checkEntry l rw) ls (checkEntry k (r, w))).
  apply elem_of_cons in Hl as [->|Hl].
  - unfold checkEntry, adapterAt. rewrite E. cbn. destruct (HealthCheck (adapter e) w) as [w1 err] eqn:HC.
    rewrite checks_ne by done. cbn. rewrite lookup_alter_eq, E. cbn. exists w. rewrite HC. by eexists.
  - assert (D : l <> k) by (by intros ->). pose proof (checkEntry_ne k l r w D) as E1.
    destruct (checkEntry k (r, w)) as [r1 w1]. cbn in E1. apply IH; [done|]. by rewrite E1.
Qed.

(** *** The calls of an operation

    [log]: the calls and their outcomes, as far as the world has seen them. *)
Section Calls.
Context (log : W -> list (A * option error)) (fn : A -> W -> W * option error).
Hypothesis fn_logs : forall a w, log (fn a w).1 = log w ++ [(a, (fn a w).2)].
Hypothesis check_logs : forall a w, log (HealthCheck a w).1 = log w.

Definition failed (c : A * option error) : Prop := c.2 <> None.

Lemma RunHealthChecks_log r w : log (RunHealthChecks r w).2 = log w.
Proof.
  unfold RunHealthChecks. generalize (entries r) as ls. intros ls. revert r w.
  induction ls as [|l ls IH]; intros r w; [done|].
  change (fold_left (fun rw l => checkEntry l rw) (l :: ls) (r, w))
    with (fold_left (fun rw l => checkEntry l rw) ls (checkEntry l (r, w))).
  assert (E : log (checkEntry l (r, w)).2 = log w).
  { unfold checkEntry. destruct (adapterAt r l) as [a|]; [|done]. pose proof (check_logs a w).
    by destruct (HealthCheck a w). }
  destruct (checkEntry l (r, w)) as [r1 w1]. by rewrite IH.
Qed.

(** The calls of [n] attempts from [r] and what they return. *)
Definition calls_ok cap r (n : nat) (calls : list (A * option error)) (res : option error) : Prop :=
  (length calls <= n)%nat /\ Forall (fun c => serves cap r c.1) calls /\
  match res with
  | None => exists pre a, calls = pre ++ [(a, None)] /\ Forall failed pre
  | Some _ => Forall failed calls
  end.

Lemma calls_ok_cons cap r r' n calls res a err :
  same r r' -> serves cap r a -> calls_ok cap r' n calls res -> calls_ok cap r (S n) ((a, Some err) :: calls) res.
Proof.
  intros S Sa (L & F & R). split; [cbn; lia|]. split.
  - constructor; [done|]. eapply list.Forall_impl; [exact F|]. intros c. by apply same_serves.
  - destruct res; [by constructor|]. destruct R as (pre & b & -> & Fp). exists ((a, Some err) :: pre), b.
    split; [done|]. by constructor.
Qed.

Lemma attempts_calls cap n r w : wf r ->
  exists calls, log (attempts cap fn n r w).1.2 = log w ++ calls /\
    calls_ok cap r n calls (attempts cap fn n r w).2.
Proof.
  revert r w. induction n as [|n IH]; intros r w I.
  { exists []. cbn. rewrite app_nil_r. split; [done|]. split; [done|]. by split. }
  cbn. rewrite tryCandidates_find.
  assert (Next : forall r1 w1, wf r1 -> same r r1 ->
    let '(r2, w2) := match n with O => (r1, w1) | S _ => RunHealthChecks r1 w1 end in
    wf r2 /\ same r r2 /\ log w2 = log w1).
  { intros r1 w1 I1 S1. destruct n; [done|]. pose proof (RunHealthChecks_same r1 w1) as S2.
    pose proof (RunHealthChecks_log r1 w1) as L. destruct (RunHealthChecks r1 w1) as [r2 w2].
    split; [by apply (same_wf r1)|]. split; [by rewrite S1|done]. }
  destruct (List.find _ _ ≫= _) as [[l e]|] eqn:E.
  - apply tried_serves in E as (E & _ & Sv); [|done]. pose proof (fn_logs (adapter e) w) as L.
    destruct (fn (adapter e) w) as [w1 [err|]]; cbn in L.
    + pose proof (setEntry_same l (markUnhealthy err) r ltac:(by split)) as S1.
      specialize (Next _ w1 (same_wf _ _ S1 I) S1). destruct (match n with O => _ | S _ => _ end) as [r2 w2].
      destruct Next as (I2 & S2 & L2). destruct (IH r2 w2 I2) as (calls & Lc & Oc).
      exists ((adapter e, Some err) :: calls). split; [|by apply (calls_ok_cons _ _ r2)].
      rewrite Lc, L2, L, <- app_assoc. done.
    + exists [(adapter e, None)]. split; [done|]. split; [cbn; lia|]. split; [by repeat constructor|].
      exists [], (adapter e). split; [done|constructor].
  - specialize (Next r w I ltac:(done)). destruct (match n with O => _ | S _ => _ end) as [r2 w2].
    destruct Next as (I2 & S2 & L2). destruct (IH r2 w2 I2) as (calls & Lc & Len & F & R). rewrite L2 in Lc.
    exists calls. split; [done|]. split; [lia|]. split; [|done]. eapply list.Forall_impl; [exact F|].
    intros c. by apply same_serves.
Qed.
End Calls.

(** A first choice that fails its operation but passes its health check is healthy
    again at every attempt. *)
Lemma stuck_attempts (log : W -> list (A * option error)) fn cap n r w l ls e :
  (forall a w, log (fn a w).1 = log w ++ [(a, (fn a w).2)]) ->
  (forall a w, log (HealthCheck a w).1 = log w) ->
  wf r -> candidates cap r = l :: ls -> heap r !! l = Some e -> healthy e = true ->
  (forall w, (HealthCheck (adapter e) w).2 = None) -> (forall w, (fn (adapter e) w).2 <> None) ->
  exists calls, log (attempts cap fn n r w).1.2 = log w ++ calls /\
    calls.*1 = replicate n (adapter e) /\ (attempts cap fn n r w).2 <> None.
Proof.
  intros Lf Lc. revert r w e. induction n as [|n IH]; intros r w e I C E He Hc Hf.
  { exists []. cbn. by rewrite app_nil_r. }
  cbn [attempts]. rewrite tryCandidates_find, C. cbn [List.find]. unfold isHealthy. rewrite E, He. cbn. rewrite E. cbn.
  pose proof (Lf (adapter e) w) as L. pose proof (Hf w) as Hfw.
  destruct (fn (adapter e) w) as [w1 [err|]]; [|done]. cbn in L.
  pose proof (setEntry_same l (markUnhealthy err) r ltac:(by split)) as S1.
  set (r1 := setEntry l (markUnhealthy err) r) in *.
  destruct n as [|n].
  { exists [(adapter e, Some err)]. cbn. split; [done|]. by split. }
  assert (I1 : wf r1) by (by apply (same_wf r)).
  assert (Hl : l ∈ entries r1).
  { apply (elem_of_candidates cap r1 l I1). rewrite (same_candidates cap r r1 S1), C. by left. }
  assert (E1 : heap r1 !! l = Some (markUnhealthy err e)) by (cbn; by rewrite lookup_alter_eq, E).
  pose proof (checks_outcome (entries r1) l _ r1 w1 (sorted_nodup _ _ (wf_sorted r1 I1)) Hl E1) as (w0 & e2 & E2 & A2 & H2).
  fold (RunHealthChecks r1 w1) in E2. cbn in A2, H2. rewrite (Hc w0) in H2.
  pose proof (RunHealthChecks_same r1 w1) as S2. pose proof (RunHealthChecks_log log Lc r1 w1) as L2.
  destruct (RunHealthChecks r1 w1) as [r2 w2]. cbn in E2, S2, L2.
  destruct (IH r2 w2 e2) as (calls & Lg & M & R); [by apply (same_wf r1)| |done..| | |].
  - by rewrite (same_candidates cap r1 r2 S2), (same_candidates cap r r1 S1).
  - by rewrite A2.
  - by rewrite A2.
  - exists ((adapter e, Some err) :: calls). split; [by rewrite Lg, L2, L, <- app_assoc|].
    split; [|done]. cbn. by rewrite M, A2.
Qed.

(** The first call goes to the adapter [Resolve] names. *)
Lemma attempts_first (log : W -> list (A * option error)) fn cap n r w l e :
  (forall a w, log (fn a w).1 = log w ++ [(a, (fn a w).2)]) ->
  (forall a w, log (HealthCheck a w).1 = log w) -> wf r ->
  (List.find (isHealthy r) (candidates cap r) ≫= fun l => (l,.) <$> heap r !! l) = Some (l, e) ->
  exists o rest, log (attempts cap fn (S n) r w).1.2 = log w ++ (adapter e, o) :: rest.
Proof.
  intros Lf Lc I E. cbn [attempts]. rewrite tryCandidates_find, E.
  pose proof (Lf (adapter e) w) as L. destruct (fn (adapter e) w) as [w1 [err|]]; cbn in L; [|by exists None, []].
  pose proof (setEntry_same l (markUnhealthy err) r ltac:(by split)) as S1.
  set (r1 := setEntry l _ r) in *. assert (I1 : wf r1) by (by apply (same_wf r)).
  assert (Next : let '(r2, w2) := match n with O => (r1, w1) | S _ => RunHealthChecks r1 w1 end in
                 wf r2 /\ log w2 = log w1).
  { destruct n; [done|]. pose proof (RunHealthChecks_same r1 w1). pose proof (RunHealthChecks_log log Lc r1 w1).
    destruct (RunHealthChecks r1 w1) as [r2 w2]. split; [by apply (same_wf r1)|done]. }
  destruct (match n with O => _ | S _ => _ end) as [r2 w2]. destruct Next as [I2 L2].
  destruct (attempts_calls log fn Lf Lc cap n r2 w2 I2) as (calls & Lg & _).
  exists (Some err), calls. by rewrite Lg, L2, L, <- app_assoc.
Qed.

Lemma Resolve_find cap r : wf r ->
  match Resolve cap r with
  | inl oa => exists l e, (List.find (isHealthy r) (candidates cap r) ≫= fun l => (l,.) <$> heap r !! l) = Some (l, e)
                 /\ oa = Some (adapter e)
  | inr _ => List.find (isHealthy r) (candidates cap r) = None
  end.
Proof.
  intros I. unfold Resolve. case_bool_decide as C; [by rewrite C|]. pose proof (first_healthy cap r I) as F.
  destruct (List.find _ _) as [l|]; [|done]. destruct F as (e & _ & E & _). exists l, e.
  cbn. unfold adapterAt. by rewrite E.
Qed.

(** An entry is found under its adapter's identifier. *)
Lemma Get_entry r l e : wf r -> l ∈ entries r -> heap r !! l = Some e ->
  Get (ManifestID (Manifest (adapter e))) r = Some (adapter e).
Proof.
  intros I Hl E. destruct (wf_entry r I l Hl) as (e' & E' & M & B). rewrite E in E'. injection E' as <-.
  unfold Get. rewrite <- M, B. cbn. unfold adapterAt. by rewrite E.
Qed.

Lemma Get_Register a r w : ManifestID (Manifest a) <> ""%string ->
  (Register a r w).2 = None /\ Get (ManifestID (Manifest a)) (Register a r w).1 = Some a.
Proof.
  intros N. unfold Register. rewrite bool_decide_eq_false_2 by done. split; [done|]. unfold Get, adapterAt. cbn.
  rewrite lookup_insert_eq. cbn. by rewrite lookup_insert_eq.
Qed.

Lemma Unregister_absent id r : byID r !! id = None -> Unregister id r = r.
Proof. intros E. unfold Unregister. by rewrite E. Qed.

(** ** Claims *)

(** C12: however adapters were registered, replaced, unregistered, checked and called,
    [Resolve] returns a healthy adapter that supports the capability and that no other
    such adapter precedes, by priority and then by the order of registration; it fails
    only if no registered adapter that supports the capability is healthy; and no two
    registered entries carry one identifier. *)
Theorem driver_resolves_best cap r :
  reachable r ->
  match Resolve cap r with
  | inl oa => exists l e, oa = Some (adapter e) /\ l ∈ entries r /\ heap r !! l = Some e /\
      healthy e = true /\ supports e cap = true /\
      forall l' e', l' ∈ entries r -> heap r !! l' = Some e' -> healthy e' = true -> supports e' cap = true ->
        l' = l \/ Priority (manifest e) < Priority (manifest e')
        \/ Priority (manifest e) = Priority (manifest e') /\ (l < l')%nat
  | inr _ => forall l e, l ∈ entries r -> heap r !! l = Some e -> supports e cap = true -> healthy e = false
  end /\
  (forall i j e e', i ∈ entries r -> j ∈ entries r -> heap r !! i = Some e -> heap r !! j = Some e' ->
     ManifestID (manifest e) = ManifestID (manifest e') -> i = j).
Proof.
  intros I%reachable_wf. split.
  - pose proof (Resolve_find cap r I) as R. pose proof (first_healthy cap r I) as F.
    destruct (Resolve cap r) as [oa|err].
    + destruct R as (l & e & E & ->). destruct (List.find _ _) as [k|]; [|done].
      destruct F as (e0 & Hl & E0 & Hh & Hs & B). cbn in E. rewrite E0 in E. injection E as -> ->.
      exists l, e. repeat (split; [done|]). intros l' e' Hl' E' Hh' Hs'.
      destruct (B l' e' Hl' E' Hh' Hs') as [->|D]; [by left|right]. unfold before, priority in D.
      by rewrite E0, E' in D.
    + rewrite R in F. exact F.
  - intros i j e e' Hi Hj Ei Ej M. destruct (wf_entry r I i Hi) as (e1 & E1 & _ & B1).
    destruct (wf_entry r I j Hj) as (e2 & E2 & _ & B2). congruence.
Qed.

(** [ResolveWithFallback] calls the operation at most three times, first on the
    adapter [Resolve] names and only on registered adapters that support the
    capability; it returns nil exactly after a call that succeeded, every earlier one
    having failed, and an error only if every call failed. *)
Theorem driver_fallback_calls (log : W -> list (A * option error)) fn cap r w :
  (forall a w, log (fn a w).1 = log w ++ [(a, (fn a w).2)]) ->
  (forall a w, log (HealthCheck a w).1 = log w) ->
  reachable r ->
  exists calls, log (ResolveWithFallback cap fn r w).1.2 = log w ++ calls /\
    (length calls <= 3)%nat /\ Forall (fun c => serves cap r c.1) calls /\
    (forall a, Resolve cap r = inl (Some a) -> exists o rest, calls = (a, o) :: rest) /\
    match (ResolveWithFallback cap fn r w).2 with
    | None => exists pre a, calls = pre ++ [(a, None)] /\ Forall failed pre
    | Some _ => Forall failed calls
    end.
Proof.
  intros Lf Lc I%reachable_wf. destruct (attempts_calls log fn Lf Lc cap 3 r w I) as (calls & Lg & Len & F & R).
  exists calls. repeat (split; [done|]). split; [|exact R]. intros a Ra.
  pose proof (Resolve_find cap r I) as RF. rewrite Ra in RF. destruct RF as (l & e & E & [= ->]).
  destruct (attempts_first log fn cap 2 r w l e Lf Lc I E) as (o & rest & Lg2).
  unfold ResolveWithFallback in Lg. rewrite Lg in Lg2. apply app_inv_head in Lg2. by exists o, rest.
Qed.

(** the fallback is not reached while the first choice passes its health check: if
    its operation fails every time, all three attempts go to it and the call fails,
    whatever the other adapters could do; the health checks between the attempts mark
    it healthy again. *)
Theorem driver_fallback_stuck (log : W -> list (A * option error)) fn cap r w l ls e :
  (forall a w, log (fn a w).1 = log w ++ [(a, (fn a w).2)]) ->
  (forall a w, log (HealthCheck a w).1 = log w) ->
  reachable r -> candidates cap r = l :: ls -> heap r !! l = Some e -> healthy e = true ->
  (forall w, (HealthCheck (adapter e) w).2 = None) -> (forall w, (fn (adapter e) w).2 <> None) ->
  exists calls, log (ResolveWithFallback cap fn r w).1.2 = log w ++ calls /\
    calls.*1 = [adapter e; adapter e; adapter e] /\ (ResolveWithFallback cap fn r w).2 <> None.
Proof. intros Lf Lc I%reachable_wf C E He Hc Hf. by apply (stuck_attempts log fn cap 3 r w l ls e). Qed.
End Laws.

(** ** An instance

    An adapter is its manifest; the world is the log of the calls. *)
Definition demo_world : Type := list (AdapterManifest * option error).

#[local] Instance demo_adapter : Adapter AdapterManifest demo_world := {|
  PlaceOrder _ _ w := (w, inr "refused");
  CancelOrder _ _ w := (w, None);
  BrokerAdapter.CancelAllOrders _ w := (w, None);
  BrokerAdapter.CloseAllPositions _ w := (w, None);
  GetPositions _ w := (w, inl []);
  GetAccount _ w := (w, inl None);
  ValidateCredentials _ w := (w, None)
|}.

#[local] Instance demo_capable : CapableAdapter AdapterManifest demo_world := {|
  Manifest a := a; HealthCheck _ w := (w, None); isCapable _ := true
|}.

#[local] Instance demo_clock : Clock demo_world := fun _ => 0.

Definition alpaca : AdapterManifest := mkManifest "alpaca" "alpaca" 0 [CapPlaceOrder].
Definition paper : AdapterManifest := mkManifest "paper" "paper" 1 [CapPlaceOrder].

(** [PlaceOrder] fails on the primary and succeeds on the paper broker. *)
Definition demo_op (a : AdapterManifest) (w : demo_world) : demo_world * option error :=
  let err := if bool_decide (ManifestID a = "alpaca"%string) then Some "down"%string else None in
  (w ++ [(a, err)], err).

Definition demo_registry : t AdapterManifest :=
  (RunHealthChecks (Register alpaca (Register paper NewBrokerDriverRegistry ([] : demo_world)).1 ([] : demo_world)).1
     ([] : demo_world)).1.

Lemma demo_reachable : reachable (W := demo_world) demo_registry.
Proof. apply reachable_check, reachable_register, reachable_register, reachable_new. Defined.

Lemma driver_resolves_best_witness :
  Resolve CapPlaceOrder demo_registry = inl (Some alpaca) /\ exists e, adapter e = alpaca /\ healthy e = true.
Proof.
  destruct (driver_resolves_best (W := demo_world) CapPlaceOrder demo_registry demo_reachable) as [R _].
  replace (Resolve CapPlaceOrder demo_registry) with (inl (Some alpaca) : option AdapterManifest + error) in *
    by (vm_compute; reflexivity).
  split; [reflexivity|]. destruct R as (_ & e & E & _ & _ & Hh & _). exists e. by injection E as ->.
Defined.

Lemma driver_fallback_calls_witness :
  exists calls, (ResolveWithFallback CapPlaceOrder demo_op demo_registry ([] : demo_world)).1.2 = calls /\
    (length calls <= 3)%nat.
Proof.
  destruct (driver_fallback_calls (W := demo_world) id demo_op CapPlaceOrder demo_registry [])
    as (calls & E & L & _); [done|done|exact demo_reachable|]. by exists calls.
Defined.

Lemma driver_fallback_stuck_witness :
  exists calls, (ResolveWithFallback CapPlaceOrder demo_op demo_registry ([] : demo_world)).1.2 = calls /\
    calls.*1 = [alpaca; alpaca; alpaca].
Proof.
  destruct (driver_fallback_stuck (W := demo_world) id demo_op CapPlaceOrder demo_registry [] 1%nat [0%nat]
    (mkEntry alpaca alpaca true None 0)) as (calls & E & M & _);
    [done|done|exact demo_reachable|reflexivity|reflexivity|done|done|done|]. by exists calls.
Defined.
End BrokerDriverRegistry.
