(* ===== verification/Accounts.v ===== *)
(** * The account manager ([internal/broker/account_manager.go])

    Accounts by identifier, each with its adapter, beside the driver registry the
    adapters are entered in.  Broker and database calls go through the interfaces
    [CapableAdapter] and [Repository]; Go ranges over the map of accounts in an order
    that is an argument ([order]: its keys).  A panic is [None].

    The map holds pointers; the model keeps the accounts themselves, since a pointer is
    registered under one identifier only. *)
From Stdlib Require Import ZArith Lia Bool Floats.
From coqutil Require Import RecordSettersUsingExistingGetters.
From S2P Require Import Prelude Float64 FloatRound FloatLaws Price BrokerAdapter Driver.
Local Open Scope float_scope.
Local Open Scope go_scope.

Module BDR := BrokerDriverRegistry.

(** ** Rows of the database ([internal/db/account_repository.go]) *)
Module db.
Record Account := mkAccount {
  ID : string;
  BrokerType : string;
  Name : string;
  Environment : string;
  VaultPath : string;
  MaskedKey : string;
  PropFirmProfileID : string;
  Balance : float64;
  Equity : float64;
  DailyPnL : float64;
  HighWaterMark : float64;
  IsDefault : bool
}.

Record AccountPosition := mkAccountPosition {
  AccountID : string;
  Symbol : string;
  Quantity : float64;
  AvgEntryPrice : float64;
  MarketValue : float64;
  UnrealizedPL : float64
}.
End db.

(** What the manager asks of the database. *)
Class Repository (W : Type) := {
  db_ListAccountsByUser : string -> W -> W * (list db.Account + error);
  db_UpsertAccountBalance : string -> float64 -> float64 -> float64 -> float64 -> W -> W * option error;
  db_UpsertAccountPosition : db.AccountPosition -> W -> W * option error;
  db_SetDefaultAccount : string -> W -> W * option error
}.

(** ** Accounts *)
Section ManagedAccount.
Context {A : Type}.

Record ManagedAccount := mkManaged {
  ID : string;
  BrokerType : string;
  Name : string;
  Environment : string;
  VaultPath : string;
  MaskedKey : string;
  PropFirmProfileID : string;
  Balance : Price;
  Equity : Price;
  DailyPnL : float64;
  HighWaterMark : float64;
  IsDefault : bool;
  Adapter_ : A
}.

Definition NewManagedAccount (id brokerType name : string) (adapter : A) : ManagedAccount :=
  mkManaged id brokerType name "" "" "" "" 0%Z 0%Z 0 0 false adapter.

Definition SetBalance (ma : ManagedAccount) (balance equity : Price) (dailyPnL highWaterMark : float64) :
    ManagedAccount :=
  mkManaged (ID ma) (BrokerType ma) (Name ma) (Environment ma) (VaultPath ma) (MaskedKey ma)
    (PropFirmProfileID ma) balance equity dailyPnL highWaterMark (IsDefault ma) (Adapter_ ma).

Definition setDefault (b : bool) (ma : ManagedAccount) : ManagedAccount :=
  mkManaged (ID ma) (BrokerType ma) (Name ma) (Environment ma) (VaultPath ma) (MaskedKey ma)
    (PropFirmProfileID ma) (Balance ma) (Equity ma) (DailyPnL ma) (HighWaterMark ma) b (Adapter_ ma).

Definition ToDBAccount (ma : ManagedAccount) : db.Account :=
  db.mkAccount (ID ma) (BrokerType ma) (Name ma) (Environment ma) (VaultPath ma) (MaskedKey ma)
    (PropFirmProfileID ma) (Float64 (Balance ma)) (Float64 (Equity ma)) (DailyPnL ma) (HighWaterMark ma)
    (IsDefault ma).

Definition ApplyFromDBAccount (a : db.Account) (ma : ManagedAccount) : ManagedAccount :=
  mkManaged (db.ID a) (db.BrokerType a) (db.Name a) (db.Environment a) (db.VaultPath a) (db.MaskedKey a)
    (db.PropFirmProfileID a) (FromFloat64 (db.Balance a)) (FromFloat64 (db.Equity a)) (db.DailyPnL a)
    (db.HighWaterMark a) (db.IsDefault a) (Adapter_ ma).

(** The fields [SyncAccountState] takes from the broker. *)
Definition syncFrom (b : Account) (ma : ManagedAccount) : ManagedAccount :=
  SetBalance ma (AcctBalance b) (AcctEquity b) (AcctDailyPL b)
    (if HighWaterMark ma <? Float64 (AcctEquity b) then Float64 (AcctEquity b) else HighWaterMark ma).
End ManagedAccount.
Arguments ManagedAccount : clear implicits.

(** ** The manager *)
Module AccountManager.
Section AccountManager.
Context {A W : Type} {AD : Adapter A W} {CA : CapableAdapter A W} {CW : Clock W} {RE : Repository W}.

(** [repo]: whether there is a database. *)
Record t := mk {
  accounts : gmap string (ManagedAccount A);
  repo : bool;
  registry : BDR.t A
}.

Definition NewAccountManager (repo : bool) (registry : BDR.t A) : t := mk ∅ repo registry.

Definition setAccounts (m : gmap string (ManagedAccount A)) (am : t) : t := mk m (repo am) (registry am).

Definition notFound (id : string) : error := ("account " ++ id ++ " not found")%string.

(** The identifier that is put together for the manifest stays in a local copy of
    it; [Register] asks the adapter again. *)
Definition RegisterAccount (acct : ManagedAccount A) (am : t) (w : W) : t * option error :=
  match accounts am !! ID acct with
  | Some _ => (am, Some ("account " ++ ID acct ++ " already registered")%string)
  | None =>
      if isCapable (Adapter_ acct) then
        let '(r, err) := BDR.Register (Adapter_ acct) (registry am) w in
        match err with
        | Some err => (am, Some ("register adapter for account " ++ ID acct ++ ": " ++ err)%string)
        | None => (mk (<[ID acct := acct]> (accounts am)) (repo am) r, None)
        end
      else (setAccounts (<[ID acct := acct]> (accounts am)) am, None)
  end.

Definition UnregisterAccount (id : string) (am : t) : t :=
  match accounts am !! id with
  | None => am
  | Some acct =>
      let registryKey := (BrokerType acct ++ ":" ++ id)%string in
      mk (delete id (accounts am)) (repo am) (BDR.Unregister registryKey (registry am))
  end.

Definition GetAccount (id : string) (am : t) : ManagedAccount A + error :=
  match accounts am !! id with Some acct => inl acct | None => inr (notFound id) end.

Definition isDefault (am : t) (id : string) : bool :=
  match accounts am !! id with Some acct => IsDefault acct | None => false end.

(** The key of the default account: the first one flagged, or the only one. *)
Definition defaultKey (order : list string) (am : t) : option string :=
  match List.find (isDefault am) order with
  | Some id => Some id
  | None => if Nat.eqb (size (accounts am)) 1 then head order else None
  end.

Definition GetDefaultAccount (order : list string) (am : t) : ManagedAccount A + error :=
  match defaultKey order am ≫= fun id => accounts am !! id with
  | Some acct => inl acct
  | None => inr "no default account found"
  end.

Definition GetDefaultAccountID (order : list string) (am : t) : string := default "" (defaultKey order am).

(** Every account, in the map order. *)
Definition listAll (order : list string) (am : t) : list (ManagedAccount A) :=
  omap (fun id => accounts am !! id) order.

(** The rows of the user whose accounts are in memory, which take over the row. *)
Definition applyRow (mr : gmap string (ManagedAccount A) * list (ManagedAccount A)) (dba : db.Account) :
    gmap string (ManagedAccount A) * list (ManagedAccount A) :=
  let '(m, result) := mr in
  match m !! db.ID dba with
  | Some acct => let acct := ApplyFromDBAccount dba acct in (<[db.ID dba := acct]> m, result ++ [acct])
  | None => (m, result)
  end.

Definition ListAccountsByUser (order : list string) (userID : string) (am : t) (w : W) :
    t * W * list (ManagedAccount A) :=
  if bool_decide (userID = "") then (am, w, listAll order am)
  else if repo am then
    let '(w, r) := db_ListAccountsByUser userID w in
    match r with
    | inl dbAccounts =>
        let '(m, result) := fold_left applyRow dbAccounts (accounts am, []) in
        (setAccounts m am, w, result)
    | inr _ => (am, w, listAll order am)
    end
  else (am, w, listAll order am).

Definition GetAdapter (accountID : string) (am : t) : A + error :=
  match GetAccount accountID am with inl acct => inl (Adapter_ acct) | inr e => inr e end.

Definition GetDefaultAdapter (order : list string) (am : t) : A + error :=
  match GetDefaultAccount order am with inl acct => inl (Adapter_ acct) | inr e => inr e end.

(** The calls that are passed on to the adapter of an account. *)
Definition PlaceOrder (accountID : string) (req : OrderRequest) (am : t) (w : W) : W * (OrderResponse + error) :=
  match GetAccount accountID am with
  | inl acct => BrokerAdapter.PlaceOrder (Adapter_ acct) req w
  | inr err => (w, inr err)
  end.

Definition CancelOrder (accountID orderID : string) (am : t) (w : W) : W * option error :=
  match GetAccount accountID am with
  | inl acct => BrokerAdapter.CancelOrder (Adapter_ acct) orderID w
  | inr err => (w, Some err)
  end.

Definition CancelAllOrders (accountID : string) (am : t) (w : W) : W * option error :=
  match GetAccount accountID am with
  | inl acct => BrokerAdapter.CancelAllOrders (Adapter_ acct) w
  | inr err => (w, Some err)
  end.

Definition CloseAllPositions (accountID : string) (am : t) (w : W) : W * option error :=
  match GetAccount accountID am with
  | inl acct => BrokerAdapter.CloseAllPositions (Adapter_ acct) w
  | inr err => (w, Some err)
  end.

Definition GetPositions (accountID : string) (am : t) (w : W) : W * (list Position + error) :=
  match GetAccount accountID am with
  | inl acct => BrokerAdapter.GetPositions (Adapter_ acct) w
  | inr err => (w, inr err)
  end.

Definition GetAccountInfo (accountID : string) (am : t) (w : W) : W * (option Account + error) :=
  match GetAccount accountID am with
  | inl acct => BrokerAdapter.GetAccount (Adapter_ acct) w
  | inr err => (w, inr err)
  end.

Definition positionRow (accountID : string) (pos : Position) : db.AccountPosition :=
  db.mkAccountPosition accountID (PosSymbol pos) (PosQuantity pos) (Float64 (PosAvgEntryPrice pos))
    (Float64 (PosMarketValue pos)) (PosUnrealizedPL pos).

(** The database errors are logged; a nil account of the broker panics. *)
Definition SyncAccountState (accountID : string) (am : t) (w : W) : option (t * W * option error) :=
  match GetAccount accountID am with
  | inr err => Some (am, w, Some err)
  | inl acct =>
      let '(w, b) := BrokerAdapter.GetAccount (Adapter_ acct) w in
      match b with
      | inr err => Some (am, w, Some ("sync account " ++ accountID ++ ": " ++ err)%string)
      | inl None => None
      | inl (Some brokerAcct) =>
          let acct := syncFrom brokerAcct acct in
          let am := setAccounts (<[accountID := acct]> (accounts am)) am in
          let w := if repo am then
                     (db_UpsertAccountBalance accountID (Float64 (Balance acct)) (Float64 (Equity acct))
                        (DailyPnL acct) (HighWaterMark acct) w).1
                   else w in
          let '(w, ps) := BrokerAdapter.GetPositions (Adapter_ acct) w in
          match ps with
          | inr err => Some (am, w, Some ("sync positions for account " ++ accountID ++ ": " ++ err)%string)
          | inl positions =>
              let w := if repo am then
                         fold_left (fun w pos => (db_UpsertAccountPosition (positionRow accountID pos) w).1) positions w
                       else w in
              Some (am, w, None)
          end
      end
  end.

(** The accounts listed at the start, one after the other; errors are logged. *)
Definition syncOne (acc : option (t * W)) (acct : ManagedAccount A) : option (t * W) :=
  '(am, w) ← acc; fst <$> SyncAccountState (ID acct) am w.

Definition SyncAll (order : list string) (am : t) (w : W) : option (t * W) :=
  let '(am, w, accts) := ListAccountsByUser order "" am w in
  fold_left syncOne accts (Some (am, w)).

Definition CloseAllPositionsAcrossAll (order : list string) (am : t) (w : W) : W :=
  let '(am, w, accts) := ListAccountsByUser order "" am w in
  fold_left (fun w acct => (BrokerAdapter.CloseAllPositions (Adapter_ acct) w).1) accts w.

Definition CancelAllOrdersAcrossAll (order : list string) (am : t) (w : W) : W :=
  let '(am, w, accts) := ListAccountsByUser order "" am w in
  fold_left (fun w acct => (BrokerAdapter.CancelAllOrders (Adapter_ acct) w).1) accts w.

Definition AccountCount (am : t) : nat := size (accounts am).

Definition SetDefaultAccount (id : string) (am : t) (w : W) : t * W * option error :=
  match accounts am !! id with
  | None => (am, w, Some (notFound id))
  | Some acct =>
      let m := <[id := setDefault true acct]> (setDefault false <$> accounts am) in
      let am := setAccounts m am in
      if repo am then let '(w, err) := db_SetDefaultAccount id w in (am, w, err) else (am, w, None)
  end.
End AccountManager.
Arguments t : clear implicits.

(** ** Laws *)
Section Laws.
Context {A W : Type} {AD : Adapter A W} {CA : CapableAdapter A W} {CW : Clock W} {RE : Repository W}.
Implicit Types (am : t A) (w : W).

(** The keys Go ranges over, in some order. *)
Definition keys am : list string := (map_to_list (accounts am)).*1.

Lemma elem_of_keys am id : id ∈ keys am <-> is_Some (accounts am !! id).
Proof.
  unfold keys. rewrite list_elem_of_fmap. split.
  - intros ([k x] & -> & E%elem_of_map_to_list). by exists x.
  - intros [x E]. exists (id, x). split; [done|]. by apply elem_of_map_to_list.
Qed.

Lemma keys_length am : length (keys am) = size (accounts am).
Proof. unfold keys. by rewrite length_fmap, length_map_to_list. Qed.

(** At most one account is flagged. *)
Definition one_default am : Prop := forall i j, isDefault am i = true -> isDefault am j = true -> i = j.

Lemma isDefault_key am id : isDefault am id = true -> id ∈ keys am.
Proof. unfold isDefault. rewrite elem_of_keys. by destruct (accounts am !! id). Qed.

Lemma find_flagged am order id :
  order ≡ₚ keys am -> one_default am -> isDefault am id = true -> List.find (isDefault am) order = Some id.
Proof.
  intros P O D. destruct (List.find (isDefault am) order) as [k|] eqn:E.
  - apply List.find_some in E as [_ E]. f_equal. by apply O.
  - exfalso. assert (Hin : id ∈ order) by (rewrite P; by apply isDefault_key).
    apply list_elem_of_In in Hin. pose proof (List.find_none _ _ E id Hin). congruence.
Qed.

Lemma defaultKey_flagged am order id :
  order ≡ₚ keys am -> one_default am -> isDefault am id = true -> defaultKey order am = Some id.
Proof. intros P O D. unfold defaultKey. by rewrite (find_flagged am order id). Qed.

Lemma defaultKey_order am o1 o2 :
  o1 ≡ₚ keys am -> o2 ≡ₚ keys am -> one_default am -> defaultKey o1 am = defaultKey o2 am.
Proof.
  intros P1 P2 O. destruct (List.find (isDefault am) o1) as [k|] eqn:E.
  - apply List.find_some in E as [_ E]. by rewrite !(defaultKey_flagged am _ k).
  - unfold defaultKey. rewrite E. destruct (List.find (isDefault am) o2) as [k|] eqn:E2.
    + apply List.find_some in E2 as [_ E2]. by rewrite (find_flagged am o1 k) in E.
    + destruct (Nat.eqb_spec (size (accounts am)) 1) as [S|]; [|done]. rewrite <- keys_length in S.
      destruct (keys am) as [|k [|]]; [done| |done].
      apply Permutation_singleton_r in P1, P2. by rewrite P1, P2.
Qed.

(** *** Steps of the manager

    What the handlers do with accounts that are not flagged when they are registered. *)
Inductive step : t A -> t A -> Prop :=
  | step_register acct am w : IsDefault acct = false -> step am (RegisterAccount acct am w).1
  | step_unregister id am : step am (UnregisterAccount id am)
  | step_sync id am w am' w' err : SyncAccountState id am w = Some (am', w', err) -> step am am'
  | step_default id am w : step am (SetDefaultAccount id am w).1.1.

(** Steps but the choice of a default, and the removal of the account [id]. *)
Inductive step_keeping (id : string) : t A -> t A -> Prop :=
  | keep_register acct am w : IsDefault acct = false -> step_keeping id am (RegisterAccount acct am w).1
  | keep_unregister id' am : id' <> id -> step_keeping id am (UnregisterAccount id' am)
  | keep_sync id' am w am' w' err : SyncAccountState id' am w = Some (am', w', err) -> step_keeping id am am'.

Lemma Register_default acct am w id :
  IsDefault acct = false -> isDefault (RegisterAccount acct am w).1 id = isDefault am id.
Proof.
  intros F. unfold RegisterAccount. destruct (accounts am !! ID acct) eqn:E; [done|].
  assert (D : match <[ID acct := acct]> (accounts am) !! id with Some a => IsDefault a | None => false end
              = isDefault am id).
  { unfold isDefault. destruct (decide (ID acct = id)) as [<-|N]; [|by rewrite lookup_insert_ne].
    by rewrite lookup_insert_eq, E. }
  destruct (isCapable _); [|exact D]. destruct (BDR.Register _ _ _) as [r [err|]]; [done|exact D].
Qed.

Lemma Unregister_default id' am id :
  isDefault (UnregisterAccount id' am) id = isDefault am id && negb (bool_decide (id' = id)).
Proof.
  unfold UnregisterAccount, isDefault. destruct (accounts am !! id') eqn:E; cbn.
  - case_bool_decide as D; [subst; by rewrite lookup_delete_eq, andb_false_r|].
    by rewrite lookup_delete_ne, andb_true_r.
  - case_bool_decide as D; [subst; by rewrite E|]. by rewrite andb_true_r.
Qed.

Lemma Sync_default id' am w am' w' err id :
  SyncAccountState id' am w = Some (am', w', err) -> isDefault am' id = isDefault am id.
Proof.
  unfold SyncAccountState, GetAccount. destruct (accounts am !! id') as [acct|] eqn:E; [|by intros [= <-]].
  destruct (BrokerAdapter.GetAccount _ _) as [w1 [[b|]|]]; [|done|by intros [= <-]].
  destruct (BrokerAdapter.GetPositions _ _) as [w2 [ps|]]; intros [= <- _ _]; unfold isDefault; cbn;
    (destruct (decide (id' = id)) as [<-|N]; [by rewrite lookup_insert_eq, E|by rewrite lookup_insert_ne]).
Qed.

Lemma SetDefault_default id' am w id : is_Some (accounts am !! id') ->
  isDefault (SetDefaultAccount id' am w).1.1 id = bool_decide (id' = id).
Proof.
  intros [acct E]. unfold SetDefaultAccount. rewrite E.
  assert (D : isDefault (setAccounts (<[id':=setDefault true acct]> (setDefault false <$> accounts am)) am) id
              = bool_decide (id' = id)).
  { unfold isDefault. cbn. case_bool_decide as D; [subst; by rewrite lookup_insert_eq|].
    rewrite lookup_insert_ne, lookup_fmap by done. by destruct (accounts am !! id). }
  destruct (repo (setAccounts _ am)); [|exact D]. destruct (db_SetDefaultAccount id' w). exact D.
Qed.

Lemma step_one_default am am' : step am am' -> one_default am -> one_default am'.
Proof.
  intros S O i j. destruct S as [acct am w F|id am|id am w am' w' err S|id am w].
  - rewrite !Register_default by done. apply O.
  - rewrite !Unregister_default, !andb_true_iff. intros [Di _] [Dj _]. by apply O.
  - rewrite !(Sync_default _ _ _ _ _ _ _ S). apply O.
  - destruct (accounts am !! id) as [acct|] eqn:E.
    + rewrite !SetDefault_default, !bool_decide_eq_true by (by exists acct). congruence.
    + unfold SetDefaultAccount. rewrite E. apply O.
Qed.

Lemma step_keeping_step id am am' : step_keeping id am am' -> step am am'.
Proof. intros []; [by constructor..|]. by eapply step_sync. Qed.

Lemma step_keeping_default id am am' : step_keeping id am am' -> isDefault am id = true -> isDefault am' id = true.
Proof.
  intros [acct am1 w F|id' am1 N|id' am1 w am2 w' err S].
  - by rewrite Register_default.
  - rewrite Unregister_default. by rewrite bool_decide_eq_false_2, andb_true_r.
  - by rewrite (Sync_default _ _ _ _ _ _ _ S).
Qed.

Lemma New_one_default b r : one_default (NewAccountManager b r).
Proof. intros i j. unfold isDefault. cbn. by rewrite lookup_empty. Qed.

Lemma steps_one_default am am' : rtc step am am' -> one_default am -> one_default am'.
Proof. induction 1; [done|]. intros O. by eauto using step_one_default. Qed.

Lemma keeping_default id am am' : rtc (step_keeping id) am am' ->
  one_default am -> isDefault am id = true -> one_default am' /\ isDefault am' id = true.
Proof.
  induction 1 as [|am1 am2 am3 S _ IH]; [done|]. intros O D. apply IH.
  - eapply step_one_default; [by eapply step_keeping_step|done].
  - by eapply step_keeping_default.
Qed.

(** *** Every account is reached *)
Lemma listAll_keys order am : order ≡ₚ keys am -> listAll order am ≡ₚ (map_to_list (accounts am)).*2.
Proof.
  intros P. unfold listAll. rewrite P. unfold keys.
  assert (L : forall kx, kx ∈ map_to_list (accounts am) -> accounts am !! kx.1 = Some kx.2).
  { intros [k x] E. by apply elem_of_map_to_list in E. }
  revert L. generalize (map_to_list (accounts am)) as l. intros l L. induction l as [|[k x] l IH]; [done|].
  change (omap (fun id => accounts am !! id) (k :: l.*1) ≡ₚ x :: l.*2). cbn.
  pose proof (L (k, x) ltac:(by left)) as E. cbn in E. rewrite E. constructor. apply IH. intros kx H. apply L. by right.
Qed.

Lemma calls_log {B} (log : W -> list A) (op : A -> W -> W * B) (accts : list (ManagedAccount A)) w :
  (forall a w, log (op a w).1 = log w ++ [a]) ->
  log (fold_left (fun w acct => (op (Adapter_ acct) w).1) accts w) = log w ++ (Adapter_ <$> accts).
Proof.
  intros L. revert w. induction accts as [|x accts IH]; intros w; cbn; [by rewrite app_nil_r|].
  by rewrite IH, L, <- app_assoc.
Qed.

(** ** Claims *)

(** As long as accounts are registered unflagged, at most one account is the
    default and [GetDefaultAccount] does not depend on the order of the map; an account
    made the default stays it until it is removed or another is chosen.  Two flagged
    accounts make the answer depend on the order. *)
Theorem default_account_stable b r :
  (forall am o1 o2, rtc step (NewAccountManager b r) am -> o1 ≡ₚ keys am -> o2 ≡ₚ keys am ->
     GetDefaultAccount o1 am = GetDefaultAccount o2 am /\ GetDefaultAccountID o1 am = GetDefaultAccountID o2 am) /\
  (forall am id w am' order, rtc step (NewAccountManager b r) am -> is_Some (accounts am !! id) ->
     rtc (step_keeping id) (SetDefaultAccount id am w).1.1 am' -> order ≡ₚ keys am' ->
     GetDefaultAccountID order am' = id) /\
  (forall am i j, i <> j -> isDefault am i = true -> isDefault am j = true ->
     exists o1 o2, o1 ≡ₚ keys am /\ o2 ≡ₚ keys am /\ GetDefaultAccountID o1 am = i /\ GetDefaultAccountID o2 am = j).
Proof.
  split; [|split].
  - intros am o1 o2 R P1 P2. pose proof (steps_one_default _ _ R (New_one_default b r)) as O.
    unfold GetDefaultAccount, GetDefaultAccountID. by rewrite (defaultKey_order am o1 o2).
  - intros am id w am' order R E K P. pose proof (steps_one_default _ _ R (New_one_default b r)) as O.
    destruct (keeping_default id _ am' K) as [O' D].
    + eapply step_one_default; [apply (step_default id am w)|done].
    + rewrite SetDefault_default by done. by apply bool_decide_eq_true.
    + unfold GetDefaultAccountID. by rewrite (defaultKey_flagged am' order id).
  - intros am i j _ Di Dj.
    assert (F : forall k, isDefault am k = true -> exists o, o ≡ₚ keys am /\ GetDefaultAccountID o am = k).
    { intros k D. destruct (proj1 (elem_of_Permutation _ _) (isDefault_key am k D)) as [o P].
      exists (k :: o). split; [done|]. unfold GetDefaultAccountID, defaultKey. cbn. by rewrite D. }
    destruct (F i Di) as (o1 & ? & ?), (F j Dj) as (o2 & ? & ?). by exists o1, o2.
Qed.

(** C11: the emergency calls reach every account: whatever the map order and however
    many adapters fail, [CancelAllOrdersAcrossAll] and [CloseAllPositionsAcrossAll]
    call the adapter of each registered account once. *)
Theorem emergency_reaches_every_account (log : W -> list A) order am w :
  order ≡ₚ keys am ->
  ((forall a w, log (BrokerAdapter.CloseAllPositions a w).1 = log w ++ [a]) ->
   exists calls, log (CloseAllPositionsAcrossAll order am w) = log w ++ calls /\
     calls ≡ₚ Adapter_ <$> (map_to_list (accounts am)).*2 /\
     forall id acct, accounts am !! id = Some acct -> Adapter_ acct ∈ calls) /\
  ((forall a w, log (BrokerAdapter.CancelAllOrders a w).1 = log w ++ [a]) ->
   exists calls, log (CancelAllOrdersAcrossAll order am w) = log w ++ calls /\
     calls ≡ₚ Adapter_ <$> (map_to_list (accounts am)).*2 /\
     forall id acct, accounts am !! id = Some acct -> Adapter_ acct ∈ calls).
Proof.
  intros P.
  assert (F : (Adapter_ <$> listAll order am) ≡ₚ Adapter_ <$> (map_to_list (accounts am)).*2 /\
    forall id acct, accounts am !! id = Some acct -> Adapter_ acct ∈ Adapter_ <$> listAll order am).
  { pose proof (listAll_keys order am P) as L. split; [by rewrite L|]. intros id acct E. rewrite L.
    apply list_elem_of_fmap. exists acct. split; [done|]. apply list_elem_of_fmap. exists (id, acct).
    split; [done|]. by apply elem_of_map_to_list. }
  split; intros Lg; exists (Adapter_ <$> listAll order am);
    (split; [|exact F]); [unfold CloseAllPositionsAcrossAll|unfold CancelAllOrdersAcrossAll]; cbn;
    by apply (calls_log log).
Qed.

(** adapters are filed under their manifest's identifier, not the account's: of two
    accounts whose adapters share it, the driver registry keeps the second alone, so
    the first is out of its routing and of its [CancelAllOrders]; and removing the
    second account leaves its adapter in the registry. *)
Theorem account_adapters_shadow am a1 a2 w1 w2 :
  BDR.wf (registry am) -> accounts am !! ID a1 = None -> accounts am !! ID a2 = None -> ID a1 <> ID a2 ->
  isCapable (Adapter_ a1) = true -> isCapable (Adapter_ a2) = true -> Adapter_ a1 <> Adapter_ a2 ->
  ManifestID (Manifest (Adapter_ a1)) = ManifestID (Manifest (Adapter_ a2)) ->
  ManifestID (Manifest (Adapter_ a2)) <> ""%string ->
  let am2 := (RegisterAccount a2 (RegisterAccount a1 am w1).1 w2).1 in
  accounts am2 !! ID a1 = Some a1 /\ accounts am2 !! ID a2 = Some a2 /\
  (forall l e, l ∈ BDR.entries (registry am2) -> BDR.heap (registry am2) !! l = Some e -> adapter e <> Adapter_ a1) /\
  (BDR.byID (registry am2) !! (BrokerType a2 ++ ":" ++ ID a2)%string = None ->
   BDR.Get (ManifestID (Manifest (Adapter_ a2))) (registry (UnregisterAccount (ID a2) am2)) = Some (Adapter_ a2)).
Proof.
  intros I N1 N2 D C1 C2 DA M NE. unfold RegisterAccount at 2. rewrite N1, C1.
  destruct (BDR.Get_Register (Adapter_ a1) (registry am) w1 ltac:(by rewrite M)) as [R1 _].
  pose proof (BDR.Register_wf (Adapter_ a1) (registry am) w1 I) as I1.
  destruct (BDR.Register (Adapter_ a1) (registry am) w1) as [r1 err1]. cbn in R1, I1. subst err1. cbn.
  unfold RegisterAccount. cbn. rewrite lookup_insert_ne, N2, C2 by done.
  destruct (BDR.Get_Register (Adapter_ a2) r1 w2 NE) as [R2 G2].
  pose proof (BDR.Register_wf (Adapter_ a2) r1 w2 I1) as I2.
  destruct (BDR.Register (Adapter_ a2) r1 w2) as [r2 err2]. cbn in R2, G2, I2. subst err2. cbn.
  split; [by rewrite lookup_insert_ne, lookup_insert_eq|]. split; [by rewrite lookup_insert_eq|]. split.
  - intros l e Hl E EA. pose proof (BDR.Get_entry r2 l e I2 Hl E) as G. rewrite EA, M in G. congruence.
  - intros B. unfold UnregisterAccount. cbn. rewrite lookup_insert_eq. cbn. by rewrite BDR.Unregister_absent.
Qed.

(** [ListAccountsByUser] of a user returns only accounts the database lists for that
    user when the query succeeds, and every account in memory, of all users, when it
    fails or when there is no database. *)
Theorem accounts_listed_for_user order user am w :
  user <> ""%string ->
  match (db_ListAccountsByUser user w).2 with
  | inl rows => repo am = true -> forall acct, acct ∈ (ListAccountsByUser order user am w).2 ->
                  ID acct ∈ db.ID <$> rows /\ is_Some (accounts am !! ID acct)
  | inr _ => repo am = true -> (ListAccountsByUser order user am w).2 = listAll order am
  end /\
  (repo am = false -> (ListAccountsByUser order user am w).2 = listAll order am).
Proof.
  intros N. unfold ListAccountsByUser. rewrite bool_decide_eq_false_2 by done.
  destruct (db_ListAccountsByUser user w) as [w1 [rows|err]]; (split; [|by intros ->]); intros ->; [|done].
  cbn. assert (G : forall rows mr, (forall a : ManagedAccount A, a ∈ mr.2 -> is_Some (accounts am !! ID a)) ->
      (forall k, is_Some (mr.1 !! k) <-> is_Some (accounts am !! k)) ->
      forall acct, acct ∈ (fold_left applyRow rows mr).2 ->
        is_Some (accounts am !! ID acct) /\ (acct ∈ mr.2 \/ ID acct ∈ db.ID <$> rows)).
  { clear. induction rows as [|row rows IH]; intros [m res] Hr Hm acct Hin; [by eauto|]. cbn in Hin.
    cbn in Hr, Hm. destruct (m !! db.ID row) as [x|] eqn:E.
    - apply IH in Hin; cbn.
      + destruct Hin as [? [Hin|?]]; (split; [done|]); [|right; by right].
        apply elem_of_snoc in Hin as [?| ->]; [by left|]. right. by left.
      + intros a [Ha| ->]%elem_of_snoc; [by apply Hr|]. cbn. apply Hm. by exists x.
      + intros k. rewrite <- Hm. destruct (decide (db.ID row = k)) as [<-|D]; [|by rewrite lookup_insert_ne].
        rewrite lookup_insert_eq, E. split; intros; by eexists.
    - apply IH in Hin; [|done..]. destruct Hin as [? [?|?]]; (split; [done|]); [by left|right; by right]. }
  specialize (G rows (accounts am, [])). destruct (fold_left applyRow rows (accounts am, [])) as [m res].
  intros acct Hin. destruct (G ltac:(intros a Ha; by apply elem_of_nil in Ha) ltac:(done) acct Hin) as [S [Hn|?]]; [|done].
  by apply elem_of_nil in Hn.
Qed.
End Laws.

(** ** An instance

    An adapter is its manifest; the world logs the emergency calls; the database holds
    one account of one user and fails for the others. *)
Definition demo_world : Type := list AdapterManifest.

#[local] Instance demo_adapter : Adapter AdapterManifest demo_world := {|
  BrokerAdapter.PlaceOrder _ _ w := (w, inr "refused");
  BrokerAdapter.CancelOrder _ _ w := (w, None);
  BrokerAdapter.CancelAllOrders a w := (w ++ [a], Some "down");
  BrokerAdapter.CloseAllPositions a w := (w ++ [a], Some "down");
  BrokerAdapter.GetPositions _ w := (w, inl []);
  BrokerAdapter.GetAccount _ w := (w, inl (Some (mkAccount "" 0 0 0 0 "")));
  ValidateCredentials _ w := (w, None)
|}.

#[local] Instance demo_capable : CapableAdapter AdapterManifest demo_world := {|
  Manifest a := a; HealthCheck _ w := (w, None); isCapable _ := true
|}.

#[local] Instance demo_clock : Clock demo_world := fun _ => 0%Z.

Definition demo_row : db.Account := db.mkAccount "a" "alpaca" "A" "paper" "" "" "" 1 1 0 1 false.

#[local] Instance demo_repo : Repository demo_world := {|
  db_ListAccountsByUser u w := (w, if bool_decide (u = "ann"%string) then inl [demo_row] else inr "timeout");
  db_UpsertAccountBalance _ _ _ _ _ w := (w, None);
  db_UpsertAccountPosition _ w := (w, None);
  db_SetDefaultAccount _ w := (w, None)
|}.

Definition key1 : AdapterManifest := mkManifest "alpaca" "alpaca" 0 [CapPlaceOrder].
Definition key2 : AdapterManifest := mkManifest "alpaca" "alpaca" 1 [CapPlaceOrder].
Definition acct1 : ManagedAccount AdapterManifest := NewManagedAccount "a" "alpaca" "A" key1.
Definition acct2 : ManagedAccount AdapterManifest := NewManagedAccount "b" "alpaca" "B" key2.

Definition demo0 : t AdapterManifest := NewAccountManager true BDR.NewBrokerDriverRegistry.
Definition demo1 : t AdapterManifest := (RegisterAccount acct1 demo0 ([] : demo_world)).1.
Definition demo2 : t AdapterManifest := (RegisterAccount acct2 demo1 ([] : demo_world)).1.

Lemma default_account_stable_witness :
  GetDefaultAccountID ["b"; "a"]%string (SetDefaultAccount "a" demo2 ([] : demo_world)).1.1 = "a"%string.
Proof.
  destruct (default_account_stable (W := demo_world) true (BDR.NewBrokerDriverRegistry (A := AdapterManifest)))
    as (_ & D & _).
  apply (D demo2 "a"%string ([] : demo_world)); [|by eexists|apply rtc_refl|].
  - apply (rtc_l _ _ demo1); [by apply (step_register acct1 demo0 ([] : demo_world))|].
    apply rtc_once. by apply (step_register acct2 demo1 ([] : demo_world)).
  - vm_compute. apply Permutation_swap.
Defined.

Lemma emergency_reaches_every_account_witness :
  exists calls, CloseAllPositionsAcrossAll (keys demo2) demo2 ([] : demo_world) = calls /\ key1 ∈ calls /\ key2 ∈ calls.
Proof.
  destruct (emergency_reaches_every_account (W := demo_world) id (keys demo2) demo2 [] (Permutation_refl _)) as [C _].
  destruct C as (calls & E & _ & R); [done|]. exists calls. split; [exact E|].
  split; [apply (R "a"%string acct1)|apply (R "b"%string acct2)]; vm_compute; reflexivity.
Defined.

Lemma account_adapters_shadow_witness :
  accounts demo2 !! "a"%string = Some acct1 /\
  forall l e, l ∈ BDR.entries (registry demo2) -> BDR.heap (registry demo2) !! l = Some e -> adapter e <> key1.
Proof.
  destruct (account_adapters_shadow (W := demo_world) demo0 acct1 acct2 [] []) as (E & _ & N & _);
    [apply BDR.New_wf|done|done|done|done|done|done|done|done|]. split; [exact E|exact N].
Defined.

Lemma accounts_listed_for_user_witness :
  (ListAccountsByUser ["a"; "b"]%string "eve" demo2 ([] : demo_world)).2 = [acct1; acct2].
Proof.
  destruct (accounts_listed_for_user (W := demo_world) ["a"; "b"]%string "eve" demo2 ([] : demo_world) ltac:(done)) as [L _].
  rewrite (L eq_refl). vm_compute. reflexivity.
Defined.
End AccountManager.
