(* ===== verification/Paper.v ===== *)
(** * The paper broker ([internal/broker/paper/adapter.go])

    An in-memory broker that fills every order at once.  [PaperAdapter] is its state;
    the operations are the methods, and the instances below make it an [Adapter].  Go
    ranges over the positions in an order that is a parameter ([rangeOrder]).

    Not modelled: [GetFills], which only reads, and that the caller of [PlaceOrder]
    shares the stored response, whose status a later [CancelOrder] overwrites. *)
From Stdlib Require Import ZArith Lia Bool Floats.
From coqutil Require Import RecordSettersUsingExistingGetters.
From stdpp Require Import pretty.
From S2P Require Import Prelude Float64 FloatRound FloatLaws Price Fills BrokerAdapter.
Import GoInt.
Local Open Scope float_scope.
Local Open Scope go_scope.

Module PaperAdapter.

Record t := mk {
  balance : float64;
  equity : float64;
  startingBalance : float64;
  positions : gmap string Position;
  orders : gmap string OrderResponse;
  lastPrices : gmap string Price;
  orderCount : Z;
  feeConfig : BrokerageFeeConfig;
  fillTimes : gmap string Z
}.

Definition NewAdapter (startingBalance : float64) : t :=
  mk startingBalance startingBalance startingBalance ∅ ∅ ∅ 0%Z DefaultBrokerageFee ∅.

Definition paperManifest : AdapterManifest :=
  mkManifest "paper" "paper" 1
    [CapPlaceOrder; CapCancelOrder; CapCancelAllOrders; CapCloseAllPositions; CapGetPositions;
     CapGetAccount; CapValidateCredentials].

Section PaperAdapter.
Context (rangeOrder : gmap string Position -> list string).

(** The error shows the balance; its text is not read by the program. *)
Definition HealthCheck (p : t) : option error :=
  if balance p <? 0 then Some "paper: negative balance" else None.

(** The price an order is filled at. *)
Definition fillPrice (p : t) (req : OrderRequest) : Price :=
  if bool_decide (ReqType req = Market) then
    match lastPrices p !! ReqSymbol req with
    | Some lastPrice => lastPrice
    | None => if IsZero (ReqLimitPrice req) then FromFloat64 100.0 else ReqLimitPrice req
    end
  else ReqLimitPrice req.

Definition zeroPosition (symbol : string) : Position := mkPosition symbol 0 0%Z 0%Z 0.

(** The position after a fill of [q] at [price]. *)
Definition fillPosition (buy : bool) (q : float64) (price : Price) (pos : Position) : Position :=
  let '(qty, avg) :=
    if buy then
      let newQty := PosQuantity pos + q in
      (newQty,
       if PosQuantity pos =? 0 then price
       else FromFloat64 ((Float64 (PosAvgEntryPrice pos) * PosQuantity pos + Float64 price * q) / newQty))
    else
      let newQty := PosQuantity pos - q in
      if newQty <=? 0 then (0, 0%Z) else (newQty, PosAvgEntryPrice pos) in
  let mv := FromFloat64 (qty * Float64 price) in
  mkPosition (PosSymbol pos) qty avg mv
    (if 0 <? qty then Float64 mv - Float64 avg * qty else 0).

(** The unrealised results of the other positions, added up in the map order. *)
Definition addOthers (symbol : string) (ps : gmap string Position) (e : float64) : float64 :=
  fold_left (fun e k => match ps !! k with
                        | Some pn => if bool_decide (PosSymbol pn = symbol) then e else e + PosUnrealizedPL pn
                        | None => e
                        end) (rangeOrder ps) e.

Definition orderID (prefix : string) (n : Z) : string := (prefix ++ pretty n)%string.

Definition PlaceOrder (req : OrderRequest) (now : Z) (p : t) : t * OrderResponse :=
  let n := i64 (orderCount p + 1) in
  let oid := orderID "paper-" n in
  let price := fillPrice p req in
  let q := ReqQuantity req in
  let resp := mkOrderResponse oid Filled q price "" in
  let cost := Float64 (MulFloat price q) in
  let commission := CalculateFee (feeConfig p) q (Float64 price) in
  let pos := default (zeroPosition (ReqSymbol req)) (positions p !! ReqSymbol req) in
  let buy := bool_decide (ReqSide req = Buy) in
  let bal := if buy then balance p - (cost + commission) else balance p + (cost - commission) in
  let pos := fillPosition buy q price pos in
  let ps := <[ReqSymbol req := pos]> (positions p) in
  (mk bal (addOthers (PosSymbol pos) ps (bal + PosUnrealizedPL pos)) (startingBalance p) ps
      (<[oid := resp]> (orders p)) (<[ReqSymbol req := price]> (lastPrices p)) n (feeConfig p)
      (<[oid := now]> (fillTimes p)), resp).

Definition cancel (o : OrderResponse) : OrderResponse :=
  mkOrderResponse (BrokerOrderID o) Canceled (FilledQty o) (AvgFillPrice o) (TxID o).

Definition setOrders (os : gmap string OrderResponse) (p : t) : t :=
  mk (balance p) (equity p) (startingBalance p) (positions p) os (lastPrices p) (orderCount p) (feeConfig p)
    (fillTimes p).

(** An unknown order is no error, and a filled one is marked too. *)
Definition CancelOrder (oid : string) (p : t) : t := setOrders (alter cancel oid (orders p)) p.

Definition CancelAllOrders (p : t) : t :=
  setOrders ((fun o => if bool_decide (Status o = New) || bool_decide (Status o = PartiallyFilled)
                       then cancel o else o) <$> orders p) p.

(** One position after the other pays its unrealised result. *)
Definition CloseAllPositions (p : t) : t :=
  let pay := fun (be : float64 * float64) k =>
    match positions p !! k with
    | Some pos => (be.1 + PosUnrealizedPL pos, be.2 + PosUnrealizedPL pos)
    | None => be
    end in
  let '(b, e) := fold_left pay (rangeOrder (positions p)) (balance p, equity p) in
  mk b e (startingBalance p) ∅ (orders p) (lastPrices p) (orderCount p) (feeConfig p) (fillTimes p).

Definition GetPositions (p : t) : list Position :=
  List.filter (fun pos => negb (PosQuantity pos =? 0))
    (omap (fun k => positions p !! k) (rangeOrder (positions p))).

Definition GetAccount (now : Z) (p : t) : Account :=
  let ps := omap (fun k => positions p !! k) (rangeOrder (positions p)) in
  let unrealizedPL := fold_left (fun s pos => s + PosUnrealizedPL pos) ps 0 in
  mkAccount (orderID "paper-" (now / 1000000000)) (FromFloat64 (balance p))
    (FromFloat64 (balance p + unrealizedPL)) (FromFloat64 ((balance p + unrealizedPL) * 2))
    (balance p + unrealizedPL - startingBalance p) "ACTIVE".

(** The last prices, the order count and the fill times stay. *)
Definition Reset (p : t) : t :=
  mk (startingBalance p) (startingBalance p) (startingBalance p) ∅ ∅ (lastPrices p) (orderCount p) (feeConfig p)
    (fillTimes p).

Definition PrepareOrder (req : OrderRequest) (p : t) : t * string :=
  let n := i64 (orderCount p + 1) in
  let oid := orderID "paper-tx-" n in
  let price := if bool_decide (ReqType req = Market) then
                 default (FromFloat64 100.0) (lastPrices p !! ReqSymbol req)
               else ReqLimitPrice req in
  let resp := mkOrderResponse oid New 0 price "" in
  (mk (balance p) (equity p) (startingBalance p) (positions p) (<[oid := resp]> (orders p)) (lastPrices p) n
      (feeConfig p) (fillTimes p), oid).

Definition ConfirmOrder (brokerID : string) (p : t) : t * (OrderResponse + error) :=
  match orders p !! brokerID with
  | None => (p, inr ("paper: order " ++ brokerID ++ " not found")%string)
  | Some order =>
      let n := i64 (orderCount p + 1) in
      let oid := orderID "paper-" n in
      let qty := if FilledQty order <=? 0 then 100 else FilledQty order in
      let price := AvgFillPrice order in
      let resp := mkOrderResponse oid Filled qty price "" in
      let cost := Float64 (MulFloat price qty) in
      let commission := CalculateFee (feeConfig p) qty (Float64 price) in
      (mk (balance p - (cost + commission)) (equity p - commission) (startingBalance p) (positions p)
          (<[oid := resp]> (orders p)) (<[oid := price]> (lastPrices p)) n (feeConfig p) (fillTimes p), inl resp)
  end.

(** *** The paper broker is a broker

    The world is its state and the clock. *)
#[global] Instance paper_adapter : Adapter unit (t * Z) := {|
  BrokerAdapter.PlaceOrder _ req w :=
    let '(p, resp) := PlaceOrder req w.2 w.1 in ((p, w.2), inl resp);
  BrokerAdapter.CancelOrder _ oid w := ((CancelOrder oid w.1, w.2), None);
  BrokerAdapter.CancelAllOrders _ w := ((CancelAllOrders w.1, w.2), None);
  BrokerAdapter.CloseAllPositions _ w := ((CloseAllPositions w.1, w.2), None);
  BrokerAdapter.GetPositions _ w := (w, inl (GetPositions w.1));
  BrokerAdapter.GetAccount _ w := (w, inl (Some (GetAccount w.2 w.1)));
  ValidateCredentials _ w := (w, None)
|}.

#[global] Instance paper_capable : CapableAdapter unit (t * Z) := {|
  Manifest _ := paperManifest;
  BrokerAdapter.HealthCheck _ w := (w, HealthCheck w.1);
  isCapable _ := true
|}.

#[global] Instance paper_clock : Clock (t * Z) := snd.
End PaperAdapter.

(** ** Laws *)

(** *** Not negative, for floats that may be infinite or not a number *)
Lemma fnan_add_l x y : fnan x = true -> fnan (x + y) = true.
Proof. unfold fnan. rewrite add_spec. by destruct (Prim2SF x). Qed.

Lemma fnan_add_r x y : fnan y = true -> fnan (x + y) = true.
Proof. unfold fnan. rewrite add_spec. by destruct (Prim2SF y), (Prim2SF x). Qed.

Lemma fnan_ltb x y : fnan x = true -> (x <? y) = false.
Proof. intros Nx. by rewrite ltb_fv, Nx. Qed.

Lemma add_inf_l x : ffin x = true -> infinity + x = infinity.
Proof.
  intros Fx. apply Prim2SF_inj. rewrite add_spec.
  destruct (ffin_cases x Fx) as [(s & -> & _)|(s & m & e & -> & _)]; reflexivity.
Qed.

Lemma add_not_neg x y : (x <? 0) = false -> (y <? 0) = false -> (x + y <? 0) = false.
Proof.
  destruct (fnan x) eqn:Nx; [intros _ _; by apply fnan_ltb, fnan_add_l|].
  destruct (fnan y) eqn:Ny; [intros _ _; by apply fnan_ltb, fnan_add_r|].
  intros Hx%ltb_false Hy%ltb_false; [|done..]. rewrite fv_zero_lit in Hx, Hy.
  destruct (ffin x) eqn:Fx, (ffin y) eqn:Fy.
  - destruct (add_pos0 x y) as (N & L & _); [by split..|]. rewrite ltb_fv_nn, fv_zero_lit by done.
    apply Z.ltb_ge. lia.
  - by rewrite (nonfin_pos y), add_inf by done.
  - by rewrite (nonfin_pos x), add_inf_l by done.
  - by rewrite (nonfin_pos x), (nonfin_pos y) by done.
Qed.

Lemma leb_ltb_false x y : (x <=? y) = false -> (x <? y) = false.
Proof.
  intros L. destruct (x <? y) eqn:E; [|done]. apply ltb_true in E as (Nx & Ny & ?).
  apply leb_false in L; [|done..]. lia.
Qed.

Section Laws.
Context (rangeOrder : gmap string Position -> list string).
Hypothesis rangeOrder_keys : forall m, rangeOrder m ≡ₚ (map_to_list m).*1.

(** The calls an adapter can receive. *)
Inductive op :=
  | OPlace (req : OrderRequest) (now : Z)
  | OCancel (oid : string)
  | OCancelAll
  | OCloseAll
  | OReset
  | OPrepare (req : OrderRequest)
  | OConfirm (oid : string).

Definition apply (p : t) (o : op) : t :=
  match o with
  | OPlace req now => (PlaceOrder rangeOrder req now p).1
  | OCancel oid => CancelOrder oid p
  | OCancelAll => CancelAllOrders p
  | OCloseAll => CloseAllPositions rangeOrder p
  | OReset => Reset p
  | OPrepare req => (PrepareOrder req p).1
  | OConfirm oid => (ConfirmOrder oid p).1
  end.

Definition run (ops : list op) (p : t) : t := fold_left apply ops p.

(** Orders for a quantity that is not negative. *)
Definition op_ok (o : op) : Prop :=
  match o with OPlace req _ => (ReqQuantity req <? 0) = false | _ => True end.

Definition pos_ok (symbol : string) (pos : Position) : Prop :=
  PosSymbol pos = symbol /\ (PosQuantity pos <? 0) = false /\
  ((0 <? PosQuantity pos) = false -> PosUnrealizedPL pos = 0).

Definition wf (p : t) : Prop := map_Forall pos_ok (positions p).

Lemma fillPosition_ok buy q price symbol pos :
  (q <? 0) = false -> pos_ok symbol pos -> pos_ok symbol (fillPosition buy q price pos).
Proof.
  intros Hq (E & Hp & _). unfold fillPosition.
  destruct buy; [|destruct (PosQuantity pos - q <=? 0) eqn:L]; (split; [done|]); cbn.
  - split; [by apply add_not_neg|]. by intros ->.
  - split; [done|]. done.
  - split; [by apply leb_ltb_false|]. by intros ->.
Qed.

Lemma position_ok p symbol : wf p -> pos_ok symbol (default (zeroPosition symbol) (positions p !! symbol)).
Proof. intros I. destruct (positions p !! symbol) eqn:E; [by apply I|]. by split. Qed.

Lemma apply_wf p o : op_ok o -> wf p -> wf (apply p o).
Proof.
  intros Ho I. destruct o as [req now|oid| | | |req|oid]; cbn.
  - unfold wf. cbn. apply map_Forall_insert_2; [|done]. apply fillPosition_ok; [done|]. by apply position_ok.
  - done.
  - done.
  - unfold CloseAllPositions. destruct (fold_left _ _ _). cbn. apply map_Forall_empty.
  - apply map_Forall_empty.
  - done.
  - unfold ConfirmOrder. by destruct (orders p !! oid).
Qed.

Lemma NewAdapter_wf start : wf (NewAdapter start).
Proof. apply map_Forall_empty. Qed.

Lemma run_wf ops p : Forall op_ok ops -> wf p -> wf (run ops p).
Proof. intros F. revert p. induction F as [|o ops Ho F IH]; [done|]. intros p I. by apply IH, apply_wf. Qed.

(** *** The positions a broker reports *)
Lemma elem_of_ranged p pos :
  pos ∈ omap (fun k => positions p !! k) (rangeOrder (positions p)) <-> exists k, positions p !! k = Some pos.
Proof.
  rewrite list_elem_of_omap. split; [intros (k & _ & E); by exists k|]. intros (k & E). exists k. split; [|done].
  rewrite rangeOrder_keys. apply list_elem_of_fmap. exists (k, pos). split; [done|]. by apply elem_of_map_to_list.
Qed.

Lemma elem_of_GetPositions p pos :
  pos ∈ GetPositions rangeOrder p <-> (exists k, positions p !! k = Some pos) /\ (PosQuantity pos =? 0) = false.
Proof.
  unfold GetPositions. rewrite list_elem_of_In, filter_In, <- list_elem_of_In, elem_of_ranged, negb_true_iff. done.
Qed.

Lemma held_in symbol ps v :
  (forall pos, pos ∈ ps -> PosSymbol pos = symbol -> PosQuantity pos = v) ->
  (exists pos, pos ∈ ps /\ PosSymbol pos = symbol) -> heldQuantity symbol ps = v.
Proof.
  induction ps as [|p ps IH]; intros U (pos & Hin & E); [by apply elem_of_nil in Hin|]. cbn.
  case_bool_decide as D; [by apply U; [left|]|]. apply IH; [intros; apply U; [by right|done]|].
  apply elem_of_cons in Hin as [->|Hin]; [done|]. by exists pos.
Qed.

Lemma held_out symbol ps : (forall pos, pos ∈ ps -> PosSymbol pos <> symbol) -> heldQuantity symbol ps = 0.
Proof.
  induction ps as [|p ps IH]; intros U; [done|]. cbn. rewrite bool_decide_eq_false_2 by (apply U; by left).
  apply IH. intros. apply U. by right.
Qed.

(** What the dispatch check takes for the held quantity is the position's. *)
Lemma held_position p symbol : wf p ->
  heldQuantity symbol (GetPositions rangeOrder p) =
  (let q := PosQuantity (default (zeroPosition symbol) (positions p !! symbol)) in if q =? 0 then 0 else q).
Proof.
  intros I. cbn zeta.
  assert (U : forall pos, pos ∈ GetPositions rangeOrder p -> PosSymbol pos = symbol -> positions p !! symbol = Some pos).
  { intros pos [(k & E) _]%elem_of_GetPositions <-. by destruct (I k pos E) as [-> _]. }
  destruct (positions p !! symbol) as [pos|] eqn:E; cbn.
  - destruct (PosQuantity pos =? 0) eqn:Z.
    + apply held_out. intros pos' Hin ES. pose proof (U pos' Hin ES) as [= <-].
      apply elem_of_GetPositions in Hin as [_ ?]. congruence.
    + apply held_in.
      * intros pos' Hin ES. by pose proof (U pos' Hin ES) as [= ->].
      * exists pos. rewrite elem_of_GetPositions. destruct (I symbol pos E) as [-> _]. eauto.
  - rewrite held_out; [done|]. intros pos Hin ES. by pose proof (U pos Hin ES).
Qed.

(** ** Claims *)

(** The paper broker is long-only: whatever calls it receives, as long as no order
    is for a negative quantity, no position is negative, a position that holds nothing
    has no unrealised result, and the positions it reports are those it holds, each
    once. *)
Theorem paper_long_only start ops :
  Forall op_ok ops ->
  let p := run ops (NewAdapter start) in
  (forall symbol pos, positions p !! symbol = Some pos ->
     PosSymbol pos = symbol /\ (PosQuantity pos <? 0) = false /\
     ((0 <? PosQuantity pos) = false -> PosUnrealizedPL pos = 0)) /\
  (forall pos, pos ∈ GetPositions rangeOrder p <->
     positions p !! PosSymbol pos = Some pos /\ (PosQuantity pos =? 0) = false).
Proof.
  intros F p. pose proof (run_wf ops _ F (NewAdapter_wf start)) as I. split; [exact I|].
  intros pos. rewrite elem_of_GetPositions. split; intros [E Z]; (split; [|done]); [|by eexists].
  destruct E as [k E]. by destruct (I k pos E) as [-> _].
Qed.

(** An order that passes [Preflight] finds the paper broker's position as the check
    assumes it: a buy starts from a position that holds nothing, and a sell from one
    that holds something.  How much it holds is not checked: a sell of more than that
    empties the position and still credits the proceeds of the whole order. *)
Theorem preflight_guards_position start ops req now :
  Forall op_ok ops ->
  let p := run ops (NewAdapter start) in
  let held := PosQuantity (default (zeroPosition (ReqSymbol req)) (positions p !! ReqSymbol req)) in
  Skip (Preflight (AD := paper_adapter rangeOrder) (Some tt) req (p, now)).2 = false ->
  (ReqSide req = Buy -> (0 <? held) = false) /\
  (ReqSide req = Sell -> (held <=? 0) = false /\
     let p' := (PlaceOrder rangeOrder req now p).1 in
     let price := fillPrice p req in
     balance p' = balance p + (Float64 (MulFloat price (ReqQuantity req))
                               - CalculateFee (feeConfig p) (ReqQuantity req) (Float64 price)) /\
     ((held - ReqQuantity req <=? 0) = true -> PosQuantity <$> positions p' !! ReqSymbol req = Some 0)).
Proof.
  intros F p held. pose proof (run_wf ops _ F (NewAdapter_wf start)) as I. fold p in I.
  pose proof (held_position p (ReqSymbol req) I) as H. cbn zeta in H. fold held in H.
  cbn. rewrite H. clear H. intros S. split; intros E; rewrite E in S; cbn in S.
  - destruct (held =? 0) eqn:Z; [|by destruct (0 <? held)].
    rewrite eqb_fv, !andb_true_iff, Z.eqb_eq in Z. rewrite ltb_fv. destruct Z as [[-> _] ->]. reflexivity.
  - split; [|split].
    + destruct (held =? 0) eqn:Z; [done|]. by destruct (held <=? 0).
    + unfold PlaceOrder. rewrite E. reflexivity.
    + intros L. unfold PlaceOrder. rewrite E. cbn. rewrite lookup_insert_eq. cbn. unfold fillPosition. cbn. unfold held in L. by rewrite L.
Qed.
End Laws.

(** ** Runs *)
Definition demo_order : gmap string Position -> list string := fun m => (map_to_list m).*1.

Definition order (side : OrderSide) (q : float64) : OrderRequest :=
  mkOrderRequest "a" "AAPL" side Limit q (FromFloat64 50) 0 Day "s" "" 0 0.

(** Buying 100 shares at 50 out of 100000 shows as a loss of the whole cost, and
    closing the position does not bring it back. *)
Example demo_buy : let p := (PlaceOrder demo_order (order Buy 100) 0 (NewAdapter 100000)).1 in
  (AcctEquity (GetAccount demo_order 0 p), balance (CloseAllPositions demo_order p) <? 94999) = (9499893550%Z, true).
Proof. vm_compute. reflexivity. Qed.

(** One share held, a thousand sold. *)
Definition demo_ops : list op := [OPlace (order Buy 1) 0].

Lemma paper_long_only_witness :
  (PosQuantity <$> positions (run demo_order demo_ops (NewAdapter 100000)) !! "AAPL"%string) = Some 1 /\
  forall pos, positions (run demo_order demo_ops (NewAdapter 100000)) !! "AAPL"%string = Some pos ->
    (PosQuantity pos <? 0) = false.
Proof.
  split; [vm_compute; reflexivity|]. intros pos E.
  by destruct (paper_long_only demo_order ltac:(intros; reflexivity) 100000 demo_ops ltac:(by repeat constructor))
    as [I _]; destruct (I _ _ E) as (_ & ? & _).
Defined.

Lemma preflight_guards_position_witness :
  let p := run demo_order demo_ops (NewAdapter 100000) in
  let p' := (PlaceOrder demo_order (order Sell 1000) 0 p).1 in
  PosQuantity <$> positions p' !! "AAPL"%string = Some 0 /\ (balance p + 40000 <? balance p') = true.
Proof.
  intros p p'. split; [|vm_compute; reflexivity].
  destruct (preflight_guards_position demo_order ltac:(intros; reflexivity) 100000 demo_ops (order Sell 1000) 0)
    as [_ (_ & _ & G)]; [by repeat constructor|vm_compute; reflexivity|reflexivity|].
  apply G. vm_compute. reflexivity.
Defined.
End PaperAdapter.
