(* ===== verification/Indicators.v ===== *)
(** * Technical indicators ([internal/strategy/indicators.go])

    The indicators the strategies compute from their price buffers: those the
    repository implements, and its wrappers around the indicator library, whose
    functions are the class [Indicator].  [math.Log10] is the class [Logarithm].
    Slices have the lengths the runners give them, so every index is in range. *)
From Stdlib Require Import ZArith Lia Bool Floats.
From S2P Require Import Prelude Float64 FloatRound FloatLaws Price History.
Import GoInt.
Local Open Scope float_scope.
Local Open Scope go_scope.

(** The library [github.com/cinar/indicator]: a series per call. *)
Class Indicator := {
  lib_Ema : Z -> list float64 -> list float64;
  lib_Sma : Z -> list float64 -> list float64;
  lib_Std : Z -> list float64 -> list float64;
  lib_RsiPeriod : Z -> list float64 -> list float64;
  lib_Rsi2 : list float64 -> list float64;
  lib_Macd : list float64 -> list float64 * list float64;
  lib_BollingerBands : list float64 -> list float64 * list float64 * list float64;
  lib_DonchianChannel : Z -> list float64 -> list float64 * list float64 * list float64;
  lib_KeltnerChannel : Z -> list float64 -> list float64 -> list float64 -> list float64 * list float64 * list float64;
  lib_IchimokuCloud : list float64 -> list float64 -> list float64 ->
    list float64 * list float64 * list float64 * list float64 * list float64
}.

Class Logarithm := { Log : float64 -> float64; Log10 : float64 -> float64 }.

Definition len (l : list float64) : Z := Z.of_nat (length l).

(** The last value of a series, 0 when it is empty. *)
Definition final (l : list float64) : float64 := List.last l 0.

(** [values[:count]] when the buffer is longer than that. *)
Definition window (values : list float64) (count : Z) : list float64 :=
  if Z.ltb count (len values) then take (Z.to_nat count) values else values.

Definition sampleStd (sumSquares : float64) (count : Z) : float64 :=
  if Z.ltb count 2 || negb (finite sumSquares) || (sumSquares <? 0) then 0
  else PrimFloat.sqrt (sumSquares / of_Z (count - 1)).

(** [for i := start; i < stop; i++] as the list of its indices. *)
Definition range (start stop : Z) : list Z :=
  map (fun k => Z.add start (Z.of_nat k)) (seq 0 (Z.to_nat (stop - start))).

Definition sumOf {I} (f : I -> float64) (ix : list I) : float64 := fold_left (fun s i => s + f i) ix 0.

(** The mean absolute price change. *)
Definition ATR (prices : list float64) (count period : Z) : float64 :=
  if Z.ltb count (period + 1) || Z.leb period 0 then 0
  else
    let start := Z.max 0 (count - period - 1) in
    let ix := range start (Z.min (count - 1) (len prices - 1)) in
    if Z.eqb (Z.of_nat (length ix)) 0 then 0
    else
      sumOf (fun i => let diff := at_ prices (i + 1) - at_ prices i in if diff <? 0 then - diff else diff) ix
        / of_Z (Z.of_nat (length ix)).

(** The true range of bar [i] of the circular buffers. *)
Definition trueRange (highs lows closes : list float64) (i : Z) : float64 :=
  let size := len closes in
  let idx := Z.rem i size in
  let prevIdx := Z.rem (i - 1) size in
  let prevIdx := if Z.ltb prevIdx 0 then Z.add prevIdx size else prevIdx in
  let hl := at_ highs idx - at_ lows idx in
  let hc := math.Abs (at_ highs idx - at_ closes prevIdx) in
  let lc := math.Abs (at_ lows idx - at_ closes prevIdx) in
  let tr := hl in
  let tr := if tr <? hc then hc else tr in
  if tr <? lc then lc else tr.

Definition TrueRangeATR (highs lows closes : list float64) (count period : Z) : float64 :=
  if Z.ltb count period || Z.leb period 0 || Z.eqb (len highs) 0 || Z.eqb (len lows) 0 || Z.eqb (len closes) 0
  then 0
  else sumOf (trueRange highs lows closes) (range (count - period) count) / of_Z period.

Definition Mean (values : list float64) (count lookback : Z) : float64 :=
  if Z.leb count 0 || Z.leb lookback 0 || Z.eqb (len values) 0 then 0
  else
    let n := if Z.ltb count lookback then count else lookback in
    let start := if Z.ltb (count - n) 0 then 0%Z else Z.sub count n in
    let ix := range start count in
    let sum := sumOf (fun i => at_ values (Z.rem i (len values))) ix in
    if Z.eqb (Z.of_nat (length ix)) 0 || negb (finite sum) then 0 else sum / of_Z (Z.of_nat (length ix)).

Definition ZScore (value mean std : float64) : float64 := if std <=? 0 then 0 else (value - mean) / std.

(** Exponential smoothing of the first [S i] values. *)
Definition smoothed (a : float64) (l : list float64) (i : nat) : float64 :=
  fold_left (fun acc x => a * x + (1.0 - a) * acc) (take i (tail l)) (hd 0 l).

Definition ADX (prices highs lows : list float64) (count period : Z) : float64 :=
  if Z.ltb count (period * 2) || Z.leb period 0 then 0
  else
    let ix := range 1 count in
    let valid i := Z.ltb i (len prices) in
    let tr := map (fun i => if valid i then
                              let hl := at_ highs i - at_ lows i in
                              let hc := math.Abs (at_ highs i - at_ prices (i - 1)) in
                              let lc := math.Abs (at_ lows i - at_ prices (i - 1)) in
                              math.Max hl (math.Max hc lc)
                            else 0) ix in
    let up i := at_ highs i - at_ highs (i - 1) in
    let down i := at_ lows (i - 1) - at_ lows i in
    let upMoves := map (fun i => if valid i && (0 <? up i) && (down i <? up i) then up i else 0) ix in
    let downMoves := map (fun i => if valid i && (0 <? down i) && (up i <? down i) then down i else 0) ix in
    let n := length tr in
    let alpha := 2.0 / (of_Z period + 1.0) in
    let atr := smoothed alpha tr (n - 1) in
    if Nat.eqb n 0 || (atr <=? 0) then 0
    else
      let pdi := smoothed alpha upMoves (n - 1) / atr * 100 in
      let mdi := smoothed alpha downMoves (n - 1) / atr * 100 in
      let dxSum := if 0 <? pdi + mdi then math.Abs (pdi - mdi) / (pdi + mdi) * 100 else 0 in
      fold_left (fun emaDX i =>
          let atrI := smoothed alpha tr i in
          let pdiI := smoothed alpha upMoves i in
          let mdiI := smoothed alpha downMoves i in
          let prevDX := if (0 <? atrI) && (0 <? pdiI + mdiI)
                        then math.Abs (pdiI - mdiI) / (pdiI + mdiI) * 100 else 0 in
          alpha * prevDX + (1.0 - alpha) * emaDX)
        (seq 1 (Nat.min (Z.to_nat period) n - 1)) dxSum.

Definition boolToFloat (b : bool) : float64 := if b then 1.0 else 0.0.

(** ** Wrappers *)
Section Wrappers.
Context {IN : Indicator} {LG : Logarithm}.

Definition EMA (values : list float64) (count period : Z) : float64 :=
  if Z.ltb count period || Z.leb period 0 || Z.eqb (len values) 0 then 0
  else final (lib_Ema period (window values count)).

Definition SMA (values : list float64) (count period : Z) : float64 :=
  if Z.ltb count period || Z.leb period 0 || Z.eqb (len values) 0 then 0
  else final (lib_Sma period (window values count)).

Definition StdDev (values : list float64) (count period : Z) : float64 :=
  if Z.ltb count period || Z.leb period 1 || Z.eqb (len values) 0 then 0
  else final (lib_Std period (window values count)).

Definition RSI (values : list float64) (count period : Z) : float64 :=
  if Z.ltb count (period + 1) || Z.leb period 0 || Z.eqb (len values) 0 then 0
  else final (lib_RsiPeriod period (window values count)).

Definition RSI2 (values : list float64) (count : Z) : float64 :=
  if Z.ltb count 5 || Z.eqb (len values) 0 then 0 else final (lib_Rsi2 (window values count)).

Definition nonempty (l : list float64) : bool := negb (Z.eqb (len l) 0).

Definition MACD (closing : list float64) (count : Z) : float64 * float64 :=
  if Z.ltb count 26 || Z.eqb (len closing) 0 then (0, 0)
  else
    let '(m, s) := lib_Macd (window closing count) in
    if nonempty m && nonempty s then (final m, final s) else (0, 0).

Definition BollingerBands (closing : list float64) (count : Z) : float64 * float64 * float64 :=
  if Z.ltb count 20 || Z.eqb (len closing) 0 then (0, 0, 0)
  else
    let '(u, m, l) := lib_BollingerBands (window closing count) in
    if nonempty u && nonempty m && nonempty l then (final u, final m, final l) else (0, 0, 0).

Definition DonchianChannel (closing : list float64) (count period : Z) : float64 * float64 * float64 :=
  if Z.ltb count period || Z.leb period 0 || Z.eqb (len closing) 0 then (0, 0, 0)
  else
    let '(u, m, l) := lib_DonchianChannel period (window closing count) in
    if nonempty u then (final u, final m, final l) else (0, 0, 0).

Definition shorter (count : Z) (l : list float64) : bool := Z.ltb (len l) count.
Definition prefix (count : Z) (l : list float64) : list float64 := take (Z.to_nat count) l.

Definition KeltnerChannel (highs lows closes : list float64) (count period : Z) : float64 * float64 * float64 :=
  if Z.ltb count period || Z.leb period 0 || shorter count highs || shorter count lows || shorter count closes
  then (0, 0, 0)
  else
    let '(u, m, l) := lib_KeltnerChannel period (prefix count highs) (prefix count lows) (prefix count closes) in
    if nonempty u then (final u, final m, final l) else (0, 0, 0).

Definition IchimokuCloud (highs lows closes : list float64) (count : Z) :
    float64 * float64 * float64 * float64 * float64 :=
  if Z.ltb count 52 || shorter count highs || shorter count lows || shorter count closes then (0, 0, 0, 0, 0)
  else
    let '(t, k, a, b, c) := lib_IchimokuCloud (prefix count highs) (prefix count lows) (prefix count closes) in
    if nonempty t then (final t, final k, final a, final b, final c) else (0, 0, 0, 0, 0).

(** The true range of the loop: the full one on the first bar only, and there only
    when the window does not start the history. *)
Definition chopRange (h l p : list float64) (start : Z) (i : Z) : float64 :=
  let prevClose := if Z.ltb 0 i then at_ p (i - 1) else at_ p i in
  if Z.eqb i 0 && Z.ltb 0 start then
    math.Max (at_ h i - at_ l i) (math.Max (math.Abs (at_ h i - prevClose)) (math.Abs (at_ l i - prevClose)))
  else at_ h i - at_ l i.

Definition ChoppinessIndex (prices highs lows : list float64) (count period : Z) : float64 :=
  if Z.ltb count period || Z.ltb period 2 || Z.ltb (len prices) period then 0
  else
    let start := Z.max 0 (count - period) in
    let slice l := drop (Z.to_nat start) (take (Z.to_nat count) l) in
    let h := slice highs in let l := slice lows in let p := slice prices in
    let atrSum := sumOf (chopRange h l p start) (range 0 (len h)) in
    let maxHigh := fold_left (fun m i => if m <? at_ h i then at_ h i else m) (range 1 (len h)) (at_ h 0) in
    let minLow := fold_left (fun m i => if at_ l i <? m then at_ l i else m) (range 1 (len h)) (at_ l 0) in
    let rangeHL := maxHigh - minLow in
    if (rangeHL <=? 0) || (atrSum <=? 0) then 0
    else
      let log10N := Log10 (of_Z period) in
      if log10N =? 0 then 0 else 100.0 * Log10 (atrSum / rangeHL) / log10N.
End Wrappers.
