(* ===== verification/Runner.v ===== *)
(** * The base of the strategy runners ([internal/strategy/base_runner.go], stop_model.go,
      stop_profit.go, session.go, regime.go)

    [BaseRunner]: the circular price buffers, the position a runner believes it holds and
    the daily trade counter.  [PositionRunner] is the interface of the runners built on
    it: an evaluation, and the law that its signals follow the position.

    Times are nanoseconds in UTC; a day is its number, and the empty [tradeDay] is
    [None].  The buffers have one length, so every index is in range. *)
From Stdlib Require Import ZArith Lia Bool Floats.
From coqutil Require Import RecordSettersUsingExistingGetters.
From S2P Require Import Prelude Float64 FloatRound FloatLaws Price StopLoss PoolSim History Trade Indicators.
Import GoInt.
Local Open Scope float_scope.
Local Open Scope go_scope.

Definition RegimeCalm : Z := 0.
Definition RegimeTrending : Z := 1.
Definition RegimeHighVol : Z := 2.
Definition RegimeCrisis : Z := 3.

Definition regimeNames : list string := ["Calm"; "Trending"; "HighVol"; "Crisis"]%string.
Definition RegimeName (regime : Z) : string :=
  if Z.leb 0 regime && Z.ltb regime (Z.of_nat (length regimeNames)) then nth (Z.to_nat regime) regimeNames ""%string
  else "Unknown"%string.

(** ** Time of day *)
Definition nsPerDay : Z := (86400 * 1000000000)%Z.

(** The UTC day: what [Format("2006-01-02")] and [Date()] tell apart. *)
Definition dayOf (t : Z) : Z := (t / nsPerDay)%Z.

(** [Hour()*60 + Minute()]. *)
Definition minuteOfDay (t : Z) : Z := (t mod nsPerDay / (60 * 1000000000))%Z.

(** [d.Minutes()]. *)
Definition durationMinutes (d : Z) : float64 :=
  of_Z (Z.quot d 60000000000) + of_Z (Z.rem d 60000000000) / 60000000000.

(** ** Stops and targets *)
Definition StopPrice (entry : Price) (distance : float64) (side : string) : Price :=
  if bool_decide (side = "SELL"%string) then PriceFromFloat (Float64 entry + distance)
  else PriceFromFloat (Float64 entry - distance).

Definition TargetPrice (entry : Price) (distance : float64) (side : string) : Price :=
  if bool_decide (side = "SELL"%string) then PriceFromFloat (Float64 entry - distance)
  else PriceFromFloat (Float64 entry + distance).

Definition TrailingStop (peak : Price) (distance : float64) (side : string) : Price :=
  if bool_decide (side = "SELL"%string) then PriceFromFloat (Float64 peak + distance)
  else PriceFromFloat (Float64 peak - distance).

Definition IsStopLossHit (price stopLoss : Price) (side : string) : bool :=
  if bool_decide (side = "BUY"%string) then Z.leb (Compare price stopLoss) 0
  else Z.leb 0 (Compare price stopLoss).

Definition IsTakeProfitHit (price takeProfit : Price) (side : string) : bool :=
  if bool_decide (side = "BUY"%string) then Z.leb 0 (Compare price takeProfit)
  else Z.leb (Compare price takeProfit) 0.

(** ** Sessions *)
Module Session.
Record t := mk { StartHour : Z; StartMin : Z; EndHour : Z; EndMin : Z; TimezoneOffset : Z }.

Definition NewETSession : t := mk 9 30 16 0 (-4).

Definition localTime (s : t) (time : Z) : Z := (time + i64 (TimezoneOffset s * 3600000000000))%Z.

Definition InWindow (s : t) (time : Z) : bool :=
  let total := minuteOfDay (localTime s time) in
  Z.leb (StartHour s * 60 + StartMin s) total && Z.ltb total (EndHour s * 60 + EndMin s).

Definition DayKey (s : t) (time : Z) : Z := dayOf (localTime s time).
End Session.

(** ** The base runner *)
Module BaseRunner.
Record t := mk {
  PriceHistory : list float64;
  HighHistory : list float64;
  LowHistory : list float64;
  VolumeHistory : list float64;
  HistIdx : Z;
  HistCount : Z;
  BufferSize : Z;
  PositionOpen : bool;
  EntryPrice : Price;
  StopLoss : Price;
  TakeProfit : Price;
  CurrentSide : string;
  EntryTime : Z;
  tradeDay : option Z;
  tradesToday : Z;
  StopMultHighVol : float64;
  StopMultCrisis : float64;
  ProfitMultTrending : float64;
  irVersion : string;
  canonicalVersion : string;
  instanceHash : string
}.

Definition NewBaseRunner (bufferSize : Z) : t :=
  let zeros := replicate (Z.to_nat bufferSize) 0 in
  mk zeros zeros zeros zeros 0 0 bufferSize false 0%Z 0%Z 0%Z "" zeroTime None 0 1.0 1.0 1.0
    "qst-ir/0.4" "qst-canonical/0.4" "".

Definition SetVersion (b : t) (ir canonical : string) : t :=
  b <| irVersion := ir |> <| canonicalVersion := canonical |>.
Definition Version (b : t) : string * string := (irVersion b, canonicalVersion b).
Definition SetInstanceHash (b : t) (h : string) : t := b <| instanceHash := h |>.
Definition InstanceHash (b : t) : string := instanceHash b.

(** The slot of the next bar. *)
Definition slot (b : t) : nat := Z.to_nat (Z.rem (HistIdx b) (BufferSize b)).

Definition PushPrice (b : t) (price high low : Price) (volume : float64) : t :=
  if negb (finite (Float64 price)) then b
  else
    b <| PriceHistory ::= <[slot b := Float64 price]> |>
      <| HighHistory ::= <[slot b := Float64 high]> |>
      <| LowHistory ::= <[slot b := Float64 low]> |>
      <| VolumeHistory ::= <[slot b := volume]> |>
      <| HistIdx := i64 (HistIdx b + 1) |>
      <| HistCount := if Z.ltb (HistCount b) (BufferSize b) then (HistCount b + 1)%Z else HistCount b |>.

Definition PushPriceOnly (b : t) (price : Price) : t := PushPrice b price 0%Z 0%Z 0.

Definition LinearPrices (b : t) (n : Z) : list float64 :=
  linearWindow (PriceHistory b) (HistCount b) (HistIdx b) (BufferSize b) n.
Definition LinearHighs (b : t) (n : Z) : list float64 :=
  linearWindow (HighHistory b) (HistCount b) (HistIdx b) (BufferSize b) n.
Definition LinearLows (b : t) (n : Z) : list float64 :=
  linearWindow (LowHistory b) (HistCount b) (HistIdx b) (BufferSize b) n.
Definition LinearVolumes (b : t) (n : Z) : list float64 :=
  linearWindow (VolumeHistory b) (HistCount b) (HistIdx b) (BufferSize b) n.

Definition clearSlice (s : list float64) : list float64 := map (fun _ => 0) s.

Definition ResetPosition (b : t) : t :=
  b <| PositionOpen := false |> <| EntryPrice := 0%Z |> <| StopLoss := 0%Z |> <| TakeProfit := 0%Z |>
    <| CurrentSide := ""%string |>.

Definition Reset (b : t) : t :=
  ResetPosition b
    <| HistIdx := 0%Z |> <| HistCount := 0%Z |> <| tradeDay := None |> <| tradesToday := 0%Z |>
    <| PriceHistory ::= clearSlice |> <| HighHistory ::= clearSlice |> <| LowHistory ::= clearSlice |>
    <| VolumeHistory ::= clearSlice |>.

Definition OpenPosition (b : t) (side : string) (entryPrice stopLoss takeProfit : Price) (entryTime : Z) : t :=
  b <| PositionOpen := true |> <| CurrentSide := side |> <| EntryPrice := entryPrice |> <| StopLoss := stopLoss |>
    <| TakeProfit := takeProfit |> <| EntryTime := entryTime |>.

Definition ClosePosition (b : t) : t := b <| PositionOpen := false |>.

Definition StopLossHit (b : t) (price : Price) : bool :=
  PositionOpen b && IsStopLossHit price (StopLoss b) (CurrentSide b).
Definition TakeProfitHit (b : t) (price : Price) : bool :=
  PositionOpen b && IsTakeProfitHit price (TakeProfit b) (CurrentSide b).
Definition IsTimeExit (b : t) (maxMinutes : float64) (currentTime : Z) : bool :=
  PositionOpen b && (maxMinutes <=? durationMinutes (subTime currentTime (EntryTime b))).

(** The counter of a new day starts at 0. *)
Definition rollDay (b : t) (time : Z) : t :=
  if bool_decide (tradeDay b = Some (dayOf time)) then b
  else b <| tradeDay := Some (dayOf time) |> <| tradesToday := 0%Z |>.

Definition CanTrade (b : t) (time maxPerDay : Z) : bool * t :=
  let b := rollDay b time in
  (if Z.leb maxPerDay 0 then true else Z.ltb (tradesToday b) maxPerDay, b).

Definition RecordTrade (b : t) (time : Z) : t :=
  let b := rollDay b time in b <| tradesToday := i64 (tradesToday b + 1) |>.

Definition setParam {A} (params : gmap string float64) (name : string) (f : float64 -> A -> A) (a : A) : A :=
  match params !! name with Some v => f v a | None => a end.

Definition SetRegimeExitParams (b : t) (params : gmap string float64) : t :=
  let b := setParam params "stop_mult_highvol" (fun v b => b <| StopMultHighVol := v |>) b in
  let b := setParam params "stop_mult_crisis" (fun v b => b <| StopMultCrisis := v |>) b in
  setParam params "profit_mult_trending" (fun v b => b <| ProfitMultTrending := v |>) b.

Definition RegimeExitMults (b : t) (regime : Z) : float64 * float64 :=
  if Z.eqb regime RegimeHighVol then (StopMultHighVol b, 1.0)
  else if Z.eqb regime RegimeCrisis then (StopMultCrisis b, 1.0)
  else if Z.eqb regime RegimeTrending then (1.0, ProfitMultTrending b)
  else (1.0, 1.0).

(** The true-range average over the runner's buffers. *)
Definition trATR (b : t) (period : Z) : float64 :=
  TrueRangeATR (HighHistory b) (LowHistory b) (PriceHistory b) (HistCount b) period.
End BaseRunner.

(** ** Signals of a runner *)
Definition entrySignal (c : Candle) (side : string) : Signal :=
  mkSignal (Symbol c) side 1.0 SignalEntry 0 "" 0%Z 0%Z.
Definition exitSignal (c : Candle) (side : string) : Signal :=
  mkSignal (Symbol c) side 0 SignalExit 0 "" 0%Z 0%Z.

Definition opposite (side : string) : string := if bool_decide (side = "BUY"%string) then "SELL" else "BUY".

Section Law.
Import BaseRunner.

(** An open position has a side. *)
Definition side_ok (b : t) : Prop :=
  PositionOpen b = true -> CurrentSide b = "BUY"%string \/ CurrentSide b = "SELL"%string.

(** An entry opens a position that was not open, on the signal's side and for the
    quantity 1; an exit closes the position and is on the opposite side; without a signal
    the position stays. *)
Definition signal_ok (c : Candle) (b : t) (s : option Signal) (b' : t) : Prop :=
  match s with
  | None => PositionOpen b' = PositionOpen b /\ CurrentSide b' = CurrentSide b
  | Some s =>
      SigSymbol s = Symbol c /\ SigStrategyID s = ""%string /\
      match SigAction s with
      | SignalEntry => PositionOpen b = false /\ PositionOpen b' = true /\ CurrentSide b' = SigSide s /\
                       (SigSide s = "BUY"%string \/ SigSide s = "SELL"%string) /\ SigQuantity s = 1.0
      | SignalExit => PositionOpen b = true /\ PositionOpen b' = false /\ SigSide s = opposite (CurrentSide b)
      | SignalNone => False
      end
  end.

(** Steps that do not touch the position. *)
Definition keeps (b b' : t) : Prop := PositionOpen b' = PositionOpen b /\ CurrentSide b' = CurrentSide b.

#[global] Instance keeps_preorder : PreOrder keeps.
Proof. split; [done|]. intros b1 b2 b3 [] []. split; congruence. Qed.

Lemma keeps_signal_ok c b b1 s b' : keeps b b1 -> signal_ok c b1 s b' -> signal_ok c b s b'.
Proof. intros [E1 E2]. unfold signal_ok. by rewrite E1, E2. Qed.

Lemma keeps_side_ok b b' : keeps b b' -> side_ok b -> side_ok b'.
Proof. intros [E1 E2]. unfold side_ok. by rewrite E1, E2. Qed.

Lemma keeps_push b p h l v : keeps b (PushPrice b p h l v).
Proof. unfold PushPrice. by destruct (finite _). Qed.

Lemma keeps_roll b time : keeps b (rollDay b time).
Proof. unfold rollDay. by case_bool_decide. Qed.

(** The shapes of an evaluation's end. *)
Lemma signal_none c b b' : keeps b b' -> signal_ok c b None b'.
Proof. done. Qed.

Lemma signal_exit c b b' side :
  PositionOpen b = true -> PositionOpen b' = false -> side = opposite (CurrentSide b) ->
  signal_ok c b (Some (exitSignal c side)) b'.
Proof. by intros O C ->. Qed.

Lemma signal_entry c b side b' s :
  PositionOpen b = false -> PositionOpen b' = true -> CurrentSide b' = side ->
  side = "BUY"%string \/ side = "SELL"%string ->
  SigSymbol s = Symbol c -> SigStrategyID s = ""%string -> SigAction s = SignalEntry -> SigSide s = side ->
  SigQuantity s = 1.0 -> signal_ok c b (Some s) b'.
Proof. intros O O' E V Y I A D Q. cbn. rewrite A, D. done. Qed.

Lemma opposite_buy side : side = "BUY"%string -> "SELL"%string = opposite side.
Proof. by intros ->. Qed.

Lemma opposite_other side : side <> "BUY"%string -> "BUY"%string = opposite side.
Proof. intros H. unfold opposite. by rewrite bool_decide_eq_false_2. Qed.
End Law.

#[global] Arguments signal_ok : simpl never.

(** Follows every branch of an evaluation to its end. *)
Ltac law_eq := cbn; first [reflexivity | assumption | congruence].

Ltac law_end :=
  cbn;
  first
    [ apply signal_none; split; law_eq
    | apply signal_exit; [law_eq|law_eq|
        first [law_eq | apply opposite_buy; law_eq | apply opposite_other; law_eq]]
    | eapply signal_entry; first [law_eq | by left | by right] ].

Ltac law_cases := repeat (case_match || case_bool_decide); simplify_eq; law_end.

(** ** Runners that hold one position

    [eval] is [None] when the code panics; [position]: the side of the open position. *)
Definition side_valid (p : option string) : Prop :=
  forall d, p = Some d -> d = "BUY"%string \/ d = "SELL"%string.

Definition position_law (c : Candle) (p : option string) (s : option Signal) (p' : option string) : Prop :=
  match s with
  | None => p' = p
  | Some s =>
      SigSymbol s = Symbol c /\ SigStrategyID s = ""%string /\
      match SigAction s with
      | SignalEntry => p = None /\ p' = Some (SigSide s) /\ (SigSide s = "BUY"%string \/ SigSide s = "SELL"%string) /\
                       SigQuantity s = 1.0
      | SignalExit => exists d, p = Some d /\ p' = None /\ SigSide s = opposite d
      | SignalNone => False
      end
  end.

Class PositionRunner (R : Type) := {
  eval : R -> Candle -> Z -> option (option Signal) * R;
  position : R -> option string;
  eval_ok : forall r c regime, side_valid (position r) ->
    match (eval r c regime).1 with
    | Some s => position_law c (position r) s (position (eval r c regime).2)
    | None => True
    end
}.

Definition sideOf (b : BaseRunner.t) : option string :=
  if BaseRunner.PositionOpen b then Some (BaseRunner.CurrentSide b) else None.

Lemma sideOf_valid b : side_valid (sideOf b) <-> side_ok b.
Proof.
  unfold side_valid, sideOf, side_ok. destruct (BaseRunner.PositionOpen b); naive_solver.
Qed.

(** The law of a runner on the base is the law of its position. *)
Lemma base_law c b s b' : signal_ok c b s b' -> position_law c (sideOf b) s (sideOf b').
Proof.
  unfold signal_ok, position_law, sideOf. destruct s as [s|]; [|by intros [-> ->]].
  intros (E & I & H). split; [done|]. split; [done|]. destruct (SigAction s); [done| |].
  - destruct H as (-> & -> & -> & ? & ?). done.
  - destruct H as (-> & -> & ->). by eexists.
Qed.

Definition total {R} (f : R -> Candle -> Z -> option Signal * R) (r : R) (c : Candle) (regime : Z) :
    option (option Signal) * R :=
  let '(s, r) := f r c regime in (Some s, r).

Lemma total_ok {R} (f : R -> Candle -> Z -> option Signal * R) (B : R -> BaseRunner.t) :
  (forall r c regime, side_ok (B r) -> signal_ok c (B r) (f r c regime).1 (B (f r c regime).2)) ->
  forall r c regime, side_valid (sideOf (B r)) ->
    match (total f r c regime).1 with
    | Some s => position_law c (sideOf (B r)) s (sideOf (B (total f r c regime).2))
    | None => True
    end.
Proof.
  intros H r c regime S%sideOf_valid. specialize (H r c regime S). unfold total.
  destruct (f r c regime) as [s r']. by apply base_law.
Qed.

(** The instance of a runner on the base. *)
Definition onBase {R} f (B : R -> BaseRunner.t)
    (H : forall r c regime, side_ok (B r) -> signal_ok c (B r) (f r c regime).1 (B (f r c regime).2)) :
    PositionRunner R :=
  {| eval := total f; position r := sideOf (B r); eval_ok := total_ok f B H |}.

(** Entries and exits take turns; [side]: that of the open position. *)
Fixpoint alternating (side : option string) (signals : list Signal) : Prop :=
  match signals with
  | [] => True
  | s :: signals =>
      match side with
      | None => SigAction s = SignalEntry /\ SigQuantity s = 1.0 /\ alternating (Some (SigSide s)) signals
      | Some d => SigAction s = SignalExit /\ SigSide s = opposite d /\ alternating None signals
      end
  end.

Lemma position_law_valid c p s p' : side_valid p -> position_law c p s p' -> side_valid p'.
Proof.
  intros V. destruct s as [s|]; cbn; [|by intros ->].
  intros (_ & _ & H). destruct (SigAction s); [done| |].
  - destruct H as (_ & -> & ? & _). by intros d [= <-].
  - destruct H as (d & _ & -> & _). by intros d' [=].
Qed.

(** One evaluation more. *)
Lemma alternating_step c p s p' signals :
  position_law c p (Some s) p' -> alternating p' signals -> alternating p (s :: signals).
Proof.
  cbn. intros (_ & _ & L). destruct (SigAction s) eqn:A; [done| |].
  - by destruct L as (-> & -> & _ & Q).
  - by destruct L as (d & -> & -> & E).
Qed.

(** A parameter leaves alone what its setter does. *)
Lemma setParam_proj {A B} (p : A -> B) params name f a :
  (forall v a, p (f v a) = p a) -> p (BaseRunner.setParam params name f a) = p a.
Proof. intros H. unfold BaseRunner.setParam. case_match; [apply H|done]. Qed.
