(* ===== verification/TrendRunners.v ===== *)
(** * Trend and breakout strategies ([internal/strategy])

    The runners of trend_runner.go, ma_crossover_runner.go, donchian_breakout_runner.go,
    keltner_macd_runner.go, momentum_runner.go, ichimoku_runner.go, dragon_trend_runner.go
    and carry_runner.go: their state and [Evaluate], each with the law of
    [PositionRunner]. *)
From Stdlib Require Import ZArith Lia Bool Floats.
From coqutil Require Import RecordSettersUsingExistingGetters.
From S2P Require Import Prelude Float64 FloatRound FloatLaws Price StopLoss PoolSim History Trade Indicators Runner.
Import GoInt BaseRunner.
Local Open Scope float_scope.
Local Open Scope go_scope.

(** ** Trend following *)
Module TrendRunner.
Section TrendRunner.
Context {IN : Indicator} {LG : Logarithm}.

Record t := mk {
  Base : BaseRunner.t;
  FastPeriod : float64;
  SlowPeriod : float64;
  AtrPeriod : float64;
  AtrMultiplier : float64;
  ProfitATRMult : float64;
  AdxPeriod : float64;
  AdxThreshold : float64;
  ChopThreshold : float64;
  fastEMA : float64;
  slowEMA : float64;
  prevFastEMA : float64;
  prevSlowEMA : float64;
  peakPrice : Price;
  stopDistance : float64;
  signalPending : bool;
  pendingSide : string
}.

Definition NewTrendRunner : t :=
  mk (NewBaseRunner 128) 20 50 14 3.0 2.0 14 20.0 61.8 0 0 0 0 0%Z 0 false "".

Definition Reset (r : t) : t :=
  r <| Base ::= BaseRunner.Reset |> <| fastEMA := 0 |> <| slowEMA := 0 |> <| prevFastEMA := 0 |>
    <| prevSlowEMA := 0 |> <| signalPending := false |> <| peakPrice := 0%Z |> <| stopDistance := 0 |>.

Definition SetParams (r : t) (params : gmap string float64) : t :=
  let r := setParam params "fast_period" (fun v r => r <| FastPeriod := v |>) r in
  let r := setParam params "slow_period" (fun v r => r <| SlowPeriod := v |>) r in
  let r := setParam params "atr_period" (fun v r => r <| AtrPeriod := v |>) r in
  let r := setParam params "atr_multiplier" (fun v r => r <| AtrMultiplier := v |>) r in
  let r := setParam params "profit_atr_mult" (fun v r => r <| ProfitATRMult := v |>) r in
  let r := setParam params "adx_period" (fun v r => r <| AdxPeriod := v |>) r in
  let r := setParam params "adx_threshold" (fun v r => r <| AdxThreshold := v |>) r in
  setParam params "chop_threshold" (fun v r => r <| ChopThreshold := v |>) r.

Definition trailingStopPrice (r : t) (peak : Price) (side : string) : Price := TrailingStop peak (stopDistance r) side.

(** The averages move on, the old values are kept. *)
Definition updateEMAs (r : t) (price : Price) : t :=
  let p := Float64 price in
  let r' := r <| prevFastEMA := fastEMA r |> <| prevSlowEMA := slowEMA r |> in
  if (fastEMA r <=? 0) && (slowEMA r <=? 0) then r' <| fastEMA := p |> <| slowEMA := p |>
  else
    let fastAlpha := 2.0 / (FastPeriod r + 1.0) in
    let slowAlpha := 2.0 / (SlowPeriod r + 1.0) in
    r' <| fastEMA := p * fastAlpha + fastEMA r * (1.0 - fastAlpha) |>
       <| slowEMA := p * slowAlpha + slowEMA r * (1.0 - slowAlpha) |>.

Definition crossUp (r : t) : bool := (prevFastEMA r <=? prevSlowEMA r) && (slowEMA r <? fastEMA r).
Definition crossDown (r : t) : bool := (prevSlowEMA r <=? prevFastEMA r) && (fastEMA r <? slowEMA r).

Definition clearPending (r : t) : t := r <| signalPending := false |>.

(** An open position. *)
Definition manage (r : t) (candle : Candle) : option Signal * t :=
  let price := Close candle in
  let b := Base r in
  if bool_decide (CurrentSide b = "BUY"%string) then
    let r := if Z.ltb 0 (Compare price (peakPrice r)) then r <| peakPrice := price |> else r in
    let trailingStop := trailingStopPrice r (peakPrice r) "BUY" in
    if IsTakeProfitHit price (TakeProfit b) "BUY" || Z.leb (Compare price trailingStop) 0 || crossDown r then
      (Some (exitSignal candle "SELL"), clearPending (r <| Base ::= ClosePosition |>))
    else (None, r)
  else
    let r := if Z.ltb (Compare price (peakPrice r)) 0 then r <| peakPrice := price |> else r in
    let trailingStop := trailingStopPrice r (peakPrice r) "SELL" in
    if IsTakeProfitHit price (TakeProfit b) "SELL" || Z.leb 0 (Compare price trailingStop) || crossUp r then
      (Some (exitSignal candle "BUY"), clearPending (r <| Base ::= ClosePosition |>))
    else (None, r).

(** A pending signal is confirmed or dropped. *)
Definition confirm (r : t) (candle : Candle) (regime : Z) (adx chop : float64) : option Signal * t :=
  let price := Close candle in
  if adx <? AdxThreshold r then (None, clearPending r)
  else if (0 <? ChopThreshold r) && (ChopThreshold r <? chop) then (None, clearPending r)
  else
    let atr := trATR (Base r) (math.int64 (AtrPeriod r)) in
    if atr <=? 0 then (None, clearPending r)
    else
      let '(stopMult, profitMult) := RegimeExitMults (Base r) regime in
      let stopDist := atr * AtrMultiplier r * stopMult in
      let profitDist := atr * ProfitATRMult r * profitMult in
      let r := r <| peakPrice := price |> <| stopDistance := stopDist |> in
      let side := if bool_decide (pendingSide r = "BUY"%string) then "BUY"%string else "SELL"%string in
      (Some (entrySignal candle side),
       clearPending (r <| Base ::= fun b => OpenPosition b side price (StopPrice price stopDist side)
                                              (TargetPrice price profitDist side) (Time candle) |>)).

Definition Evaluate (r : t) (candle : Candle) (regime : Z) : option Signal * t :=
  let price := Close candle in
  if IsZero price then (None, r)
  else
    let r := updateEMAs r price in
    let r := r <| Base ::= fun b => PushPrice b price (High candle) (Low candle) 0 |> in
    let b := Base r in
    let adx := ADX (PriceHistory b) (HighHistory b) (LowHistory b) (HistCount b) (math.int64 (AdxPeriod r)) in
    let chop := ChoppinessIndex (PriceHistory b) (HighHistory b) (LowHistory b) (HistCount b)
                  (math.int64 (AtrPeriod r)) in
    if PositionOpen b then manage r candle
    else if (0 <? prevFastEMA r) && (0 <? prevSlowEMA r) then
      if negb (crossUp r) && negb (crossDown r) then (None, clearPending r)
      else if signalPending r then confirm r candle regime adx chop
      else (None, r <| signalPending := true |>
                    <| pendingSide := if crossUp r then "BUY"%string else "SELL"%string |>)
    else (None, r).
End TrendRunner.
End TrendRunner.

(** ** Moving-average crossover *)
Module MACrossoverRunner.
Section MACrossoverRunner.
Context {IN : Indicator}.

Record t := mk {
  Base : BaseRunner.t;
  FastPeriod : float64;
  SlowPeriod : float64;
  RsiPeriod : float64;
  RsiOverbought : float64;
  RsiOversold : float64;
  UseRsiFilter : bool;
  UseMacdFilter : bool;
  UseBollExit : bool;
  AtrPeriod : float64;
  AtrMultiplier : float64;
  prevFast : float64;
  prevSlow : float64
}.

Definition NewMACrossoverRunner : t :=
  mk (NewBaseRunner 256) 9 21 14 70 30 true true true 14 2.0 0 0.

Definition Reset (r : t) : t := r <| Base ::= BaseRunner.Reset |> <| prevFast := 0 |> <| prevSlow := 0 |>.

Definition SetParams (r : t) (params : gmap string float64) : t :=
  let r := setParam params "fast_period" (fun v r => r <| FastPeriod := v |>) r in
  let r := setParam params "slow_period" (fun v r => r <| SlowPeriod := v |>) r in
  let r := setParam params "rsi_period" (fun v r => r <| RsiPeriod := v |>) r in
  let r := setParam params "rsi_overbought" (fun v r => r <| RsiOverbought := v |>) r in
  let r := setParam params "rsi_oversold" (fun v r => r <| RsiOversold := v |>) r in
  let r := setParam params "atr_period" (fun v r => r <| AtrPeriod := v |>) r in
  let r := setParam params "atr_multiplier" (fun v r => r <| AtrMultiplier := v |>) r in
  let r := setParam params "use_rsi_filter" (fun v r => r <| UseRsiFilter := 0.5 <=? v |>) r in
  let r := setParam params "use_macd_filter" (fun v r => r <| UseMacdFilter := 0.5 <=? v |>) r in
  setParam params "use_boll_exit" (fun v r => r <| UseBollExit := 0.5 <=? v |>) r.

(** The average of the last [n] prices' window. *)
Definition emaOf (b : BaseRunner.t) (n period : Z) : float64 := EMA (LinearPrices b n) n period.

Definition stopDist (r : t) : float64 := trATR (Base r) (math.int64 (AtrPeriod r)) * AtrMultiplier r.

Definition close_ (r : t) : t := r <| Base ::= ClosePosition |>.

(** An open position: the stop is laid from the price itself. *)
Definition manage (r : t) (candle : Candle) (fast slow : float64) : option Signal * t :=
  let price := Close candle in
  let b := Base r in
  if bool_decide (CurrentSide b = "BUY"%string) then
    let trailingStop := PriceFromFloat (Float64 price - stopDist r) in
    let '(_, _, lowerBB) := BollingerBands (LinearPrices b (HistCount b)) (HistCount b) in
    let exhaustion := UseBollExit r && ((Float64 price <? lowerBB) && (0 <? lowerBB)) in
    let crossDown := (0 <? fast) && (0 <? slow) && (fast <? slow) in
    if IsStopLossHit price trailingStop "BUY" || crossDown || exhaustion then
      (Some (exitSignal candle "SELL"), close_ r)
    else (None, r)
  else
    let trailingStop := PriceFromFloat (Float64 price + stopDist r) in
    let '(upperBB, _, _) := BollingerBands (LinearPrices b (HistCount b)) (HistCount b) in
    let exhaustion := UseBollExit r && ((upperBB <? Float64 price) && (0 <? upperBB)) in
    let crossUp := (0 <? fast) && (0 <? slow) && (slow <? fast) in
    if IsStopLossHit price trailingStop "SELL" || crossUp || exhaustion then
      (Some (exitSignal candle "BUY"), close_ r)
    else (None, r).

(** The entry filters of a side pass. *)
Definition filtersPass (r : t) (buy : bool) : bool :=
  let b := Base r in
  let rsiVal := RSI (LinearPrices b (HistCount b)) (HistCount b) (math.int64 (RsiPeriod r)) in
  let '(macdLine, signalLine) := MACD (LinearPrices b (HistCount b)) (HistCount b) in
  if buy then negb (UseRsiFilter r && (RsiOverbought r <? rsiVal)) && negb (UseMacdFilter r && (macdLine <=? signalLine))
  else negb (UseRsiFilter r && (rsiVal <? RsiOversold r)) && negb (UseMacdFilter r && (signalLine <=? macdLine)).

Definition open_ (r : t) (candle : Candle) (side : string) : option Signal * t :=
  let price := Close candle in
  let d := stopDist r in
  let '(sl, tp) := if bool_decide (side = "BUY"%string)
                   then (PriceFromFloat (Float64 price - d), PriceFromFloat (Float64 price + d * 2))
                   else (PriceFromFloat (Float64 price + d), PriceFromFloat (Float64 price - d * 2)) in
  (Some (entrySignal candle side), r <| Base ::= fun b => OpenPosition b side price sl tp (Time candle) |>).

Definition Evaluate (r : t) (candle : Candle) (regime : Z) : option Signal * t :=
  let price := Close candle in
  if IsZero price then (None, r)
  else
    let r := r <| Base ::= fun b => PushPrice b price (High candle) (Low candle) (Volume candle) |> in
    let fastPeriod := let p := math.int64 (FastPeriod r) in if Z.leb p 0 then 9%Z else p in
    let slowPeriod := let p := math.int64 (SlowPeriod r) in if Z.leb p 0 then 21%Z else p in
    let n := HistCount (Base r) in
    let fast := emaOf (Base r) n fastPeriod in
    let slow := emaOf (Base r) n slowPeriod in
    let r := r <| prevFast := fast |> <| prevSlow := slow |> in
    if PositionOpen (Base r) then manage r candle fast slow
    else if Z.ltb n (slowPeriod + 5) then (None, r)
    else
      let prevF := emaOf (Base r) (n - 1) fastPeriod in
      let prevS := emaOf (Base r) (n - 1) slowPeriod in
      let warm := (0 <? prevF) && (0 <? prevS) in
      if warm && (prevF <=? prevS) && (slow <? fast) then
        if filtersPass r true then open_ r candle "BUY" else (None, r)
      else if warm && (prevS <=? prevF) && (fast <? slow) then
        if filtersPass r false then open_ r candle "SELL" else (None, r)
      else (None, r).
End MACrossoverRunner.
End MACrossoverRunner.

(** ** Channel breakouts

    The trailing stop of the runners that keep the peak of a position: the peak moves
    with the price, the stop is laid from it. *)
Definition movePeak (side : string) (price peak : Price) : Price :=
  if bool_decide (side = "BUY"%string) then if Z.ltb 0 (Compare price peak) then price else peak
  else if Z.ltb (Compare price peak) 0 then price else peak.

Definition trailHit (side : string) (price peak : Price) (dist : float64) : bool :=
  if bool_decide (side = "BUY"%string)
  then IsStopLossHit price (PriceFromFloat (Float64 peak - dist)) "BUY"
  else IsStopLossHit price (PriceFromFloat (Float64 peak + dist)) "SELL".

(** The stop and the target of a position opened at [price]. *)
Definition bracketAt (side : string) (price : Price) (stopDist profitDist : float64) : Price * Price :=
  if bool_decide (side = "BUY"%string)
  then (PriceFromFloat (Float64 price - stopDist), PriceFromFloat (Float64 price + profitDist))
  else (PriceFromFloat (Float64 price + stopDist), PriceFromFloat (Float64 price - profitDist)).

Definition openAt (b : BaseRunner.t) (candle : Candle) (side : string) (stopDist profitDist : float64) :
    BaseRunner.t :=
  let '(sl, tp) := bracketAt side (Close candle) stopDist profitDist in
  OpenPosition b side (Close candle) sl tp (Time candle).

Module DonchianBreakoutRunner.
Section DonchianBreakoutRunner.
Context {IN : Indicator}.

Record t := mk {
  Base : BaseRunner.t;
  ChannelPeriod : float64;
  EntryBufferPct : float64;
  AtrPeriod : float64;
  AtrMultiplier : float64;
  ProfitATRMult : float64;
  MinRangePct : float64;
  peakPrice : Price
}.

Definition NewDonchianBreakoutRunner : t := mk (NewBaseRunner 256) 20 0.05 14 2.0 2.0 0.5 0%Z.

Definition Reset (r : t) : t := r <| Base ::= BaseRunner.Reset |> <| peakPrice := 0%Z |>.

Definition SetParams (r : t) (params : gmap string float64) : t :=
  let r := setParam params "channel_period" (fun v r => r <| ChannelPeriod := v |>) r in
  let r := setParam params "entry_buffer_pct" (fun v r => r <| EntryBufferPct := v |>) r in
  let r := setParam params "atr_period" (fun v r => r <| AtrPeriod := v |>) r in
  let r := setParam params "atr_multiplier" (fun v r => r <| AtrMultiplier := v |>) r in
  let r := setParam params "profit_atr_mult" (fun v r => r <| ProfitATRMult := v |>) r in
  setParam params "min_range_pct" (fun v r => r <| MinRangePct := v |>) r.

Definition close_ (r : t) : t := r <| Base ::= ClosePosition |>.

Definition manage (r : t) (candle : Candle) (atr upperDC lowerDC : float64) : option Signal * t :=
  let price := Close candle in
  let stopDist := atr * AtrMultiplier r in
  if bool_decide (CurrentSide (Base r) = "BUY"%string) then
    let r := r <| peakPrice ::= movePeak "BUY" price |> in
    if trailHit "BUY" price (peakPrice r) stopDist || (Float64 price <? lowerDC)
    then (Some (exitSignal candle "SELL"), close_ r) else (None, r)
  else
    let r := r <| peakPrice ::= movePeak "SELL" price |> in
    if trailHit "SELL" price (peakPrice r) stopDist || (upperDC <? Float64 price)
    then (Some (exitSignal candle "BUY"), close_ r) else (None, r).

Definition Evaluate (r : t) (candle : Candle) (regime : Z) : option Signal * t :=
  let price := Close candle in
  if IsZero price then (None, r)
  else
    let r := r <| Base ::= fun b => PushPrice b price (High candle) (Low candle) (Volume candle) |> in
    let b := Base r in
    let period := math.int64 (ChannelPeriod r) in
    if Z.ltb (HistCount b) (period + 2) then (None, r)
    else
      let '(upperDC, _, lowerDC) := DonchianChannel (LinearPrices b (HistCount b)) (HistCount b) period in
      if (upperDC <=? 0) || (lowerDC <=? 0) then (None, r)
      else
        let atr := trATR b (math.int64 (AtrPeriod r)) in
        let channelRange := (upperDC - lowerDC) / upperDC * 100.0 in
        if channelRange <? MinRangePct r then (None, r)
        else if PositionOpen b then manage r candle atr upperDC lowerDC
        else
          let r := r <| peakPrice := price |> in
          let '(stopMult, profitMult) := RegimeExitMults b regime in
          let entryBuffer := EntryBufferPct r / 100.0 in
          let stopDist := atr * AtrMultiplier r * stopMult in
          let profitDist := stopDist * ProfitATRMult r * profitMult in
          if upperDC * (1.0 + entryBuffer) <=? Float64 price then
            (Some (entrySignal candle "BUY"), r <| Base ::= fun b => openAt b candle "BUY" stopDist profitDist |>)
          else if Float64 price <=? lowerDC * (1.0 - entryBuffer) then
            (Some (entrySignal candle "SELL"), r <| Base ::= fun b => openAt b candle "SELL" stopDist profitDist |>)
          else (None, r).
End DonchianBreakoutRunner.
End DonchianBreakoutRunner.

Module KeltnerMACDRunner.
Section KeltnerMACDRunner.
Context {IN : Indicator}.

Record t := mk {
  Base : BaseRunner.t;
  KeltnerPeriod : float64;
  MacdRequirement : bool;
  AtrMultiplier : float64;
  ProfitATRMult : float64;
  peakPrice : Price
}.

Definition NewKeltnerMACDRunner : t := mk (NewBaseRunner 256) 20 true 2.0 2.0 0%Z.

Definition Reset (r : t) : t := r <| Base ::= BaseRunner.Reset |> <| peakPrice := 0%Z |>.

Definition SetParams (r : t) (params : gmap string float64) : t :=
  let r := setParam params "keltner_period" (fun v r => r <| KeltnerPeriod := v |>) r in
  let r := setParam params "macd_requirement" (fun v r => r <| MacdRequirement := 0.5 <=? v |>) r in
  let r := setParam params "atr_multiplier" (fun v r => r <| AtrMultiplier := v |>) r in
  setParam params "profit_atr_mult" (fun v r => r <| ProfitATRMult := v |>) r.

Definition close_ (r : t) : t := r <| Base ::= ClosePosition |>.

Definition manage (r : t) (candle : Candle) (atr : float64) (macdBullish : bool) : option Signal * t :=
  let price := Close candle in
  let stopDist := atr * AtrMultiplier r in
  if bool_decide (CurrentSide (Base r) = "BUY"%string) then
    let r := r <| peakPrice ::= movePeak "BUY" price |> in
    if trailHit "BUY" price (peakPrice r) stopDist || (MacdRequirement r && negb macdBullish)
    then (Some (exitSignal candle "SELL"), close_ r) else (None, r)
  else
    let r := r <| peakPrice ::= movePeak "SELL" price |> in
    if trailHit "SELL" price (peakPrice r) stopDist || (MacdRequirement r && macdBullish)
    then (Some (exitSignal candle "BUY"), close_ r) else (None, r).

Definition Evaluate (r : t) (candle : Candle) (regime : Z) : option Signal * t :=
  let price := Close candle in
  if IsZero price then (None, r)
  else
    let r := r <| Base ::= fun b => PushPrice b price (High candle) (Low candle) (Volume candle) |> in
    let b := Base r in
    let n := HistCount b in
    let period := math.int64 (KeltnerPeriod r) in
    if Z.ltb n (period + 5) then (None, r)
    else
      let '(upperKC, middleKC, lowerKC) := KeltnerChannel (LinearHighs b n) (LinearLows b n) (LinearPrices b n) n period in
      if (upperKC <=? 0) || (middleKC <=? 0) || (lowerKC <=? 0) then (None, r)
      else
        let atr := trATR b (math.int64 (KeltnerPeriod r)) in
        let '(macdLine, signalLine) := MACD (LinearPrices b n) n in
        let macdBullish := signalLine <? macdLine in
        if PositionOpen b then manage r candle atr macdBullish
        else
          let r := r <| peakPrice := price |> in
          let '(stopMult, profitMult) := RegimeExitMults b regime in
          let stopDist := atr * AtrMultiplier r * stopMult in
          let profitDist := stopDist * ProfitATRMult r * profitMult in
          if upperKC <? Float64 price then
            if MacdRequirement r && negb macdBullish then (None, r)
            else (Some (entrySignal candle "BUY"), r <| Base ::= fun b => openAt b candle "BUY" stopDist profitDist |>)
          else if Float64 price <? lowerKC then
            if MacdRequirement r && macdBullish then (None, r)
            else (Some (entrySignal candle "SELL"), r <| Base ::= fun b => openAt b candle "SELL" stopDist profitDist |>)
          else (None, r).
End KeltnerMACDRunner.
End KeltnerMACDRunner.


(** ** Momentum *)
Module MomentumRunner.
Section MomentumRunner.
Context {IN : Indicator}.

Record t := mk {
  Base : BaseRunner.t;
  Lookback : float64;
  SkipRecent : float64;
  TrendPeriod : float64;
  AtrPeriod : float64;
  AtrMultiplier : float64;
  ProfitATRMult : float64;
  peakPrice : Price
}.

Definition NewMomentumRunner : t := mk (NewBaseRunner 2048) 252 21 50 20 3.0 0 0%Z.

Definition Reset (r : t) : t := r <| Base ::= BaseRunner.Reset |> <| peakPrice := 0%Z |>.

Definition SetParams (r : t) (params : gmap string float64) : t :=
  let r := setParam params "lookback" (fun v r => r <| Lookback := v |>) r in
  let r := setParam params "skip_recent" (fun v r => r <| SkipRecent := v |>) r in
  let r := setParam params "trend_period" (fun v r => r <| TrendPeriod := v |>) r in
  let r := setParam params "atr_period" (fun v r => r <| AtrPeriod := v |>) r in
  let r := setParam params "atr_multiplier" (fun v r => r <| AtrMultiplier := v |>) r in
  setParam params "profit_atr_mult" (fun v r => r <| ProfitATRMult := v |>) r.

Definition priceAt (b : BaseRunner.t) (n : Z) : float64 :=
  let idx := Z.rem (i64 (HistIdx b - 1 - n)) (BufferSize b) in
  at_ (PriceHistory b) (if Z.ltb idx 0 then Z.add idx (BufferSize b) else idx).

Definition momentum (r : t) : float64 :=
  let recent := priceAt (Base r) (math.int64 (SkipRecent r)) in
  let past := priceAt (Base r) (math.int64 (Lookback r)) in
  if past <=? 0 then 0 else (recent - past) / past.

Definition Evaluate (r : t) (candle : Candle) (regime : Z) : option Signal * t :=
  let price := Close candle in
  if IsZero price then (None, r)
  else
    let r := r <| Base ::= fun b => PushPrice b price (High candle) (Low candle) (Volume candle) |> in
    let b := Base r in
    if Z.ltb (HistCount b) (math.int64 (Lookback r) + 2) then (None, r)
    else
      let mom := momentum r in
      let sma := SMA (LinearPrices b (HistCount b)) (HistCount b) (math.int64 (TrendPeriod r)) in
      let atr := trATR b (math.int64 (AtrPeriod r)) in
      let '(stopMult, profitMult) := RegimeExitMults b regime in
      if PositionOpen b then
        if bool_decide (CurrentSide b = "BUY"%string) then
          let r := r <| peakPrice ::= movePeak "BUY" price |> in
          if trailHit "BUY" price (peakPrice r) (atr * AtrMultiplier r * stopMult) || (mom <? 0) then
            (Some (exitSignal candle "SELL"), r <| Base ::= ClosePosition |>)
          else (None, r)
        else (None, r)
      else if (0 <? mom) && (0 <? sma) && (sma <? Float64 price) then
        let stopDist := atr * AtrMultiplier r * stopMult in
        let tp := if 0 <? ProfitATRMult r
                  then PriceFromFloat (Float64 price + stopDist * ProfitATRMult r * profitMult) else 0%Z in
        (Some (entrySignal candle "BUY"),
         r <| peakPrice := price |>
           <| Base ::= fun b => OpenPosition b "BUY" price (PriceFromFloat (Float64 price - stopDist)) tp (Time candle) |>)
      else (None, r).
End MomentumRunner.
End MomentumRunner.

(** ** Ichimoku cloud *)
Module IchimokuRunner.
Section IchimokuRunner.
Context {IN : Indicator}.

Record t := mk {
  Base : BaseRunner.t;
  CloudConfirm : bool;
  UseChandelier : bool;
  AtrMultiplier : float64;
  peakPrice : Price;
  prevTenkan : float64;
  prevKijun : float64
}.

Definition NewIchimokuRunner : t := mk (NewBaseRunner 256) true true 2.0 0%Z 0 0.

Definition Reset (r : t) : t := r <| Base ::= BaseRunner.Reset |> <| prevTenkan := 0 |> <| prevKijun := 0 |>.

Definition SetParams (r : t) (params : gmap string float64) : t :=
  let r := setParam params "cloud_confirm" (fun v r => r <| CloudConfirm := 0.5 <=? v |>) r in
  let r := setParam params "use_chandelier" (fun v r => r <| UseChandelier := 0.5 <=? v |>) r in
  setParam params "atr_multiplier" (fun v r => r <| AtrMultiplier := v |>) r.

Definition cloudOf (b : BaseRunner.t) (n : Z) := IchimokuCloud (LinearHighs b n) (LinearLows b n) (LinearPrices b n) n.

Definition keepPrev (r : t) (tenkan kijun : float64) : t := r <| prevTenkan := tenkan |> <| prevKijun := kijun |>.

Definition manage (r : t) (candle : Candle) (atr tenkan kijun : float64) : option Signal * t :=
  let price := Close candle in
  let stopDist := atr * AtrMultiplier r in
  if bool_decide (CurrentSide (Base r) = "BUY"%string) then
    let r := r <| peakPrice ::= movePeak "BUY" price |> in
    if ((tenkan <? kijun) && (prevKijun r <=? prevTenkan r)) || trailHit "BUY" price (peakPrice r) stopDist
    then (Some (exitSignal candle "SELL"), r <| Base ::= ClosePosition |>)
    else (None, keepPrev r tenkan kijun)
  else
    let r := r <| peakPrice ::= movePeak "SELL" price |> in
    if ((kijun <? tenkan) && (prevTenkan r <=? prevKijun r)) || trailHit "SELL" price (peakPrice r) stopDist
    then (Some (exitSignal candle "BUY"), r <| Base ::= ClosePosition |>)
    else (None, keepPrev r tenkan kijun).

Definition Evaluate (r : t) (candle : Candle) (regime : Z) : option Signal * t :=
  let price := Close candle in
  if IsZero price then (None, r)
  else
    let r := r <| Base ::= fun b => PushPrice b price (High candle) (Low candle) (Volume candle) |> in
    let b := Base r in
    let n := HistCount b in
    if Z.ltb n 52 then (None, r)
    else
      let '(tenkan, kijun, senkouA, senkouB, _) := cloudOf b n in
      if (tenkan <=? 0) || (kijun <=? 0) || (senkouA <=? 0) || (senkouB <=? 0) then (None, r)
      else
        let atr := trATR b 14 in
        if PositionOpen b then manage r candle atr tenkan kijun
        else
          let r := (keepPrev r tenkan kijun) <| peakPrice := price |> in
          let '(prevT, prevK, _, _, _) := cloudOf b (n - 1) in
          if (prevT <=? 0) || (prevK <=? 0) then (None, r)
          else
            let '(cloudTop, cloudBottom) := if senkouA <? senkouB then (senkouB, senkouA) else (senkouA, senkouB) in
            let stopDist := atr * AtrMultiplier r in
            if (prevT <=? prevK) && (kijun <? tenkan) then
              if CloudConfirm r && (Float64 price <? cloudTop) then (None, r)
              else (Some (entrySignal candle "BUY"), r <| Base ::= fun b => openAt b candle "BUY" stopDist (stopDist * 2) |>)
            else if (prevK <=? prevT) && (tenkan <? kijun) then
              if CloudConfirm r && (cloudBottom <? Float64 price) then (None, r)
              else (Some (entrySignal candle "SELL"), r <| Base ::= fun b => openAt b candle "SELL" stopDist (stopDist * 2) |>)
            else (None, r).
End IchimokuRunner.
End IchimokuRunner.

(** ** Dragon trend: four exponential averages *)
Module DragonTrendRunner.

Record t := mk {
  Base : BaseRunner.t;
  EMAPeriods : list Z;
  MinAligned : Z;
  ADXPeriod : Z;
  ADXThreshold : float64;
  ATRPeriod : Z;
  ATRMultiplier : float64;
  ProfitATRMult : float64;
  emaValues : list float64;
  prevEMAValues : list float64;
  peakPrice : Price
}.

Definition NewDragonTrendRunner : t :=
  mk (NewBaseRunner 256) [8; 21; 50; 200]%Z 3 14 25.0 14 3.0 3.0 [0; 0; 0; 0] [0; 0; 0; 0] 0%Z.

Definition Reset (r : t) : t :=
  r <| Base ::= BaseRunner.Reset |> <| emaValues ::= map (fun _ => 0) |> <| prevEMAValues ::= map (fun _ => 0) |>
    <| peakPrice := 0%Z |>.

Definition SetParams (r : t) (params : gmap string float64) : t :=
  let r := setParam params "min_aligned" (fun v r => r <| MinAligned := math.int64 v |>) r in
  let r := setParam params "adx_period" (fun v r => r <| ADXPeriod := math.int64 v |>) r in
  let r := setParam params "adx_threshold" (fun v r => r <| ADXThreshold := v |>) r in
  let r := setParam params "atr_period" (fun v r => r <| ATRPeriod := math.int64 v |>) r in
  let r := setParam params "atr_multiplier" (fun v r => r <| ATRMultiplier := v |>) r in
  setParam params "profit_atr_mult" (fun v r => r <| ProfitATRMult := v |>) r.

Definition nextEMA (pf : float64) (period : Z) (ema : float64) : float64 :=
  let alpha := 2.0 / (of_Z period + 1.0) in pf * alpha + ema * (1.0 - alpha).

Definition updateEMAs (r : t) (pf : float64) : t :=
  r <| prevEMAValues := emaValues r |> <| emaValues := zip_with (nextEMA pf) (EMAPeriods r) (emaValues r) |>.

Definition aligned (less : float64 -> float64 -> bool) (r : t) : Z :=
  Z.of_nat (length (List.filter (fun vp => less vp.1 vp.2) (zip (emaValues r) (prevEMAValues r)))).

Definition manage (r : t) (candle : Candle) (bull bear : Z) : option Signal * t :=
  let price := Close candle in
  let pf := Float64 price in
  let b := Base r in
  let dist := trATR b (ATRPeriod r) * ATRMultiplier r in
  if bool_decide (CurrentSide b = "BUY"%string) then
    let r := if Float64 (peakPrice r) <? pf then r <| peakPrice := price |> else r in
    if (pf <=? Float64 (peakPrice r) - dist) || IsTakeProfitHit price (TakeProfit b) "BUY" || Z.leb (MinAligned r) bear
    then (Some (exitSignal candle "SELL"), r <| Base ::= ClosePosition |>)
    else (None, r)
  else
    let r := if pf <? Float64 (peakPrice r) then r <| peakPrice := price |> else r in
    if (Float64 (peakPrice r) + dist <=? pf) || IsTakeProfitHit price (TakeProfit b) "SELL" || Z.leb (MinAligned r) bull
    then (Some (exitSignal candle "BUY"), r <| Base ::= ClosePosition |>)
    else (None, r).

Definition enter (r : t) (candle : Candle) (regime : Z) (side : string) : option Signal * t :=
  let atr := trATR (Base r) (ATRPeriod r) in
  if atr <=? 0 then (None, r)
  else
    let '(stopMult, profitMult) := RegimeExitMults (Base r) regime in
    let stopDist := atr * ATRMultiplier r * stopMult in
    let profitDist := atr * ProfitATRMult r * profitMult in
    (Some (entrySignal candle side),
     r <| peakPrice := Close candle |> <| Base ::= fun b => openAt b candle side stopDist profitDist |>).

(** The part after the averages have warmed up. *)
Definition decideDragon (r : t) (candle : Candle) (regime : Z) : option Signal * t :=
  let b := Base r in
  let bull := aligned (fun v p => p <? v) r in
  let bear := aligned (fun v p => v <? p) r in
  if ADX (PriceHistory b) (HighHistory b) (LowHistory b) (HistCount b) (ADXPeriod r) <? ADXThreshold r then (None, r)
  else if PositionOpen b then manage r candle bull bear
  else if Z.leb (MinAligned r) bull then enter r candle regime "BUY"
  else if Z.leb (MinAligned r) bear then enter r candle regime "SELL"
  else (None, r).

Definition Evaluate (r : t) (candle : Candle) (regime : Z) : option Signal * t :=
  let price := Close candle in
  if IsZero price then (None, r)
  else
    let pf := Float64 price in
    let r := r <| Base ::= fun b => PushPrice b price (High candle) (Low candle) (Volume candle) |> in
    if hd 0 (emaValues r) =? 0 then
      (None, r <| emaValues ::= map (fun _ => pf) |> <| prevEMAValues ::= map (fun _ => pf) |>)
    else
      let r := updateEMAs r pf in
      if Z.ltb (HistCount (Base r)) (List.last (EMAPeriods r) 0%Z + ADXPeriod r) then (None, r)
      else decideDragon r candle regime.
End DragonTrendRunner.

(** ** Currency carry *)
Module CarryRunner.
Section CarryRunner.
Context {IN : Indicator}.

Definition fxCarryBps : gmap string float64 :=
  list_to_map [("AUDUSD", 35); ("GBPUSD", 50); ("USDJPY", 350); ("USDCAD", 100); ("EURUSD", -150)]%string.

Record t := mk {
  Base : BaseRunner.t;
  TrendPeriod : float64;
  AtrPeriod : float64;
  AtrMultiplier : float64;
  ProfitATRMult : float64;
  MinCarryBps : float64;
  peakPrice : Price
}.

Definition NewCarryRunner : t := mk (NewBaseRunner 512) 100 20 2.0 0 0 0%Z.

Definition Reset (r : t) : t := r <| Base ::= BaseRunner.Reset |> <| peakPrice := 0%Z |>.

Definition SetParams (r : t) (params : gmap string float64) : t :=
  let r := setParam params "trend_period" (fun v r => r <| TrendPeriod := v |>) r in
  let r := setParam params "atr_period" (fun v r => r <| AtrPeriod := v |>) r in
  let r := setParam params "atr_multiplier" (fun v r => r <| AtrMultiplier := v |>) r in
  let r := setParam params "profit_atr_mult" (fun v r => r <| ProfitATRMult := v |>) r in
  setParam params "min_carry_bps" (fun v r => r <| MinCarryBps := v |>) r.

Definition manage (r : t) (candle : Candle) (stopDist : float64) : option Signal * t :=
  let price := Close candle in
  if bool_decide (CurrentSide (Base r) = "BUY"%string) then
    let r := r <| peakPrice ::= movePeak "BUY" price |> in
    if trailHit "BUY" price (peakPrice r) stopDist
    then (Some (exitSignal candle "SELL"), r <| Base ::= ClosePosition |>) else (None, r)
  else if bool_decide (CurrentSide (Base r) = "SELL"%string) then
    let r := r <| peakPrice ::= movePeak "SELL" price |> in
    if trailHit "SELL" price (peakPrice r) stopDist
    then (Some (exitSignal candle "BUY"), r <| Base ::= ClosePosition |>) else (None, r)
  else (None, r).

Definition enter (r : t) (candle : Candle) (side : string) (stopDist profitMult : float64) : option Signal * t :=
  let price := Close candle in
  let profitDist := stopDist * ProfitATRMult r * profitMult in
  let '(sl, tp) := bracketAt side price stopDist profitDist in
  let tp := if 0 <? ProfitATRMult r then tp else 0%Z in
  (Some (entrySignal candle side), r <| Base ::= fun b => OpenPosition b side price sl tp (Time candle) |>).

Definition Evaluate (r : t) (candle : Candle) (regime : Z) : option Signal * t :=
  match fxCarryBps !! Symbol candle with
  | None => (None, r)
  | Some carry =>
      let price := Close candle in
      if (0 <? carry) && (carry <? MinCarryBps r) then (None, r)
      else if (carry <? 0) && (- carry <? MinCarryBps r) then (None, r)
      else if IsZero price then (None, r)
      else
        let r := r <| Base ::= fun b => PushPrice b price (High candle) (Low candle) (Volume candle) |> in
        let b := Base r in
        if Z.ltb (HistCount b) (math.int64 (TrendPeriod r) + 2) then (None, r)
        else
          let sma := SMA (LinearPrices b (HistCount b)) (HistCount b) (math.int64 (TrendPeriod r)) in
          let atr := trATR b (math.int64 (AtrPeriod r)) in
          let '(stopMult, profitMult) := RegimeExitMults b regime in
          let stopDist := atr * AtrMultiplier r * stopMult in
          if PositionOpen b then manage r candle stopDist
          else
            let r := r <| peakPrice := price |> in
            if (0 <? carry) && (0 <? sma) && (sma <? Float64 price) then enter r candle "BUY" stopDist profitMult
            else if (carry <? 0) && (0 <? sma) && (Float64 price <? sma) then enter r candle "SELL" stopDist profitMult
            else (None, r)
  end.
End CarryRunner.
End CarryRunner.
(** ** The law of the runners *)

(** The base after the bar's push stands for the base before it; [r'] is the runner
    with the pushed base. *)
Ltac after_push S B r r' :=
  let K := fresh in
  let q := fresh "q" in
  assert (K : keeps (B r) (B r')) by apply keeps_push;
  apply (keeps_signal_ok _ _ _ _ _ K); apply (keeps_side_ok _ _ K) in S; clear K;
  set (q := r') in *; change (B r') with (B q) in *; clearbody q; cbv zeta.

#[local] Abbreviation pushed r B c v := (r <| B ::= fun b => PushPrice b (Close c) (High c) (Low c) v |>) (only parsing).

Section Laws.
Context {IN : Indicator} {LG : Logarithm}.

Lemma trend_update r price : TrendRunner.Base (TrendRunner.updateEMAs r price) = TrendRunner.Base r.
Proof. unfold TrendRunner.updateEMAs. by destruct (_ && _). Qed.

Lemma trend_eval_ok r c regime :
  side_ok (TrendRunner.Base r) ->
  signal_ok c (TrendRunner.Base r) (TrendRunner.Evaluate r c regime).1
    (TrendRunner.Base (TrendRunner.Evaluate r c regime).2).
Proof.
  intros S. unfold TrendRunner.Evaluate. destruct (IsZero _); [done|].
  rewrite <- (trend_update r (Close c)) in S |- *.
  generalize dependent (TrendRunner.updateEMAs r (Close c)). intros r0 S.
  after_push S TrendRunner.Base r0 (pushed r0 TrendRunner.Base c 0).
  unfold TrendRunner.manage, TrendRunner.confirm, TrendRunner.clearPending.
  destruct (PositionOpen (TrendRunner.Base q)) eqn:O; law_cases.
Qed.

Lemma ma_crossover_eval_ok r c regime :
  side_ok (MACrossoverRunner.Base r) ->
  signal_ok c (MACrossoverRunner.Base r) (MACrossoverRunner.Evaluate r c regime).1
    (MACrossoverRunner.Base (MACrossoverRunner.Evaluate r c regime).2).
Proof.
  intros S. unfold MACrossoverRunner.Evaluate. destruct (IsZero _); [done|].
  after_push S MACrossoverRunner.Base r (pushed r MACrossoverRunner.Base c (Volume c)).
  unfold MACrossoverRunner.manage, MACrossoverRunner.open_, MACrossoverRunner.close_.
  destruct (PositionOpen (MACrossoverRunner.Base q)) eqn:O; law_cases.
Qed.

Lemma donchian_eval_ok r c regime :
  side_ok (DonchianBreakoutRunner.Base r) ->
  signal_ok c (DonchianBreakoutRunner.Base r) (DonchianBreakoutRunner.Evaluate r c regime).1
    (DonchianBreakoutRunner.Base (DonchianBreakoutRunner.Evaluate r c regime).2).
Proof.
  intros S. unfold DonchianBreakoutRunner.Evaluate. destruct (IsZero _); [done|].
  after_push S DonchianBreakoutRunner.Base r (pushed r DonchianBreakoutRunner.Base c (Volume c)).
  unfold DonchianBreakoutRunner.manage, DonchianBreakoutRunner.close_, openAt.
  destruct (PositionOpen (DonchianBreakoutRunner.Base q)) eqn:O; law_cases.
Qed.

Lemma keltner_eval_ok r c regime :
  side_ok (KeltnerMACDRunner.Base r) ->
  signal_ok c (KeltnerMACDRunner.Base r) (KeltnerMACDRunner.Evaluate r c regime).1
    (KeltnerMACDRunner.Base (KeltnerMACDRunner.Evaluate r c regime).2).
Proof.
  intros S. unfold KeltnerMACDRunner.Evaluate. destruct (IsZero _); [done|].
  after_push S KeltnerMACDRunner.Base r (pushed r KeltnerMACDRunner.Base c (Volume c)).
  unfold KeltnerMACDRunner.manage, KeltnerMACDRunner.close_, openAt.
  destruct (PositionOpen (KeltnerMACDRunner.Base q)) eqn:O; law_cases.
Qed.

Lemma momentum_eval_ok r c regime :
  side_ok (MomentumRunner.Base r) ->
  signal_ok c (MomentumRunner.Base r) (MomentumRunner.Evaluate r c regime).1
    (MomentumRunner.Base (MomentumRunner.Evaluate r c regime).2).
Proof.
  intros S. unfold MomentumRunner.Evaluate. destruct (IsZero _); [done|].
  after_push S MomentumRunner.Base r (pushed r MomentumRunner.Base c (Volume c)).
  destruct (PositionOpen (MomentumRunner.Base q)) eqn:O; law_cases.
Qed.

Lemma ichimoku_eval_ok r c regime :
  side_ok (IchimokuRunner.Base r) ->
  signal_ok c (IchimokuRunner.Base r) (IchimokuRunner.Evaluate r c regime).1
    (IchimokuRunner.Base (IchimokuRunner.Evaluate r c regime).2).
Proof.
  intros S. unfold IchimokuRunner.Evaluate. destruct (IsZero _); [done|].
  after_push S IchimokuRunner.Base r (pushed r IchimokuRunner.Base c (Volume c)).
  unfold IchimokuRunner.manage, IchimokuRunner.keepPrev, openAt.
  destruct (PositionOpen (IchimokuRunner.Base q)) eqn:O; law_cases.
Qed.

Lemma dragon_decide_ok r c regime :
  side_ok (DragonTrendRunner.Base r) ->
  signal_ok c (DragonTrendRunner.Base r) (DragonTrendRunner.decideDragon r c regime).1
    (DragonTrendRunner.Base (DragonTrendRunner.decideDragon r c regime).2).
Proof.
  intros S. unfold DragonTrendRunner.decideDragon, DragonTrendRunner.manage, DragonTrendRunner.enter, openAt.
  destruct (PositionOpen (DragonTrendRunner.Base r)) eqn:O; law_cases.
Qed.

Lemma dragon_eval_ok r c regime :
  side_ok (DragonTrendRunner.Base r) ->
  signal_ok c (DragonTrendRunner.Base r) (DragonTrendRunner.Evaluate r c regime).1
    (DragonTrendRunner.Base (DragonTrendRunner.Evaluate r c regime).2).
Proof.
  intros S. unfold DragonTrendRunner.Evaluate. destruct (IsZero _); [done|].
  after_push S DragonTrendRunner.Base r (pushed r DragonTrendRunner.Base c (Volume c)).
  destruct (_ =? 0); [done|]. destruct (Z.ltb _ _); [done|].
  change (DragonTrendRunner.Base q) with (DragonTrendRunner.Base (DragonTrendRunner.updateEMAs q (Float64 (Close c)))) at 1.
  by apply dragon_decide_ok.
Qed.

Lemma carry_eval_ok r c regime :
  side_ok (CarryRunner.Base r) ->
  signal_ok c (CarryRunner.Base r) (CarryRunner.Evaluate r c regime).1
    (CarryRunner.Base (CarryRunner.Evaluate r c regime).2).
Proof.
  intros S. unfold CarryRunner.Evaluate. destruct (_ !! _); [|done].
  do 2 (destruct (_ && _); [done|]). destruct (IsZero _); [done|].
  after_push S CarryRunner.Base r (pushed r CarryRunner.Base c (Volume c)).
  unfold CarryRunner.manage, CarryRunner.enter, bracketAt.
  destruct (PositionOpen (CarryRunner.Base q)) eqn:O; law_cases.
Qed.

#[export] Instance trend_position_runner : PositionRunner TrendRunner.t :=
  onBase TrendRunner.Evaluate TrendRunner.Base trend_eval_ok.

#[export] Instance ma_crossover_position_runner : PositionRunner MACrossoverRunner.t :=
  onBase MACrossoverRunner.Evaluate MACrossoverRunner.Base ma_crossover_eval_ok.

#[export] Instance donchian_position_runner : PositionRunner DonchianBreakoutRunner.t :=
  onBase DonchianBreakoutRunner.Evaluate DonchianBreakoutRunner.Base donchian_eval_ok.

#[export] Instance keltner_position_runner : PositionRunner KeltnerMACDRunner.t :=
  onBase KeltnerMACDRunner.Evaluate KeltnerMACDRunner.Base keltner_eval_ok.

#[export] Instance momentum_position_runner : PositionRunner MomentumRunner.t :=
  onBase MomentumRunner.Evaluate MomentumRunner.Base momentum_eval_ok.

#[export] Instance ichimoku_position_runner : PositionRunner IchimokuRunner.t :=
  onBase IchimokuRunner.Evaluate IchimokuRunner.Base ichimoku_eval_ok.

#[export] Instance dragon_position_runner : PositionRunner DragonTrendRunner.t :=
  onBase DragonTrendRunner.Evaluate DragonTrendRunner.Base dragon_eval_ok.

#[export] Instance carry_position_runner : PositionRunner CarryRunner.t :=
  onBase CarryRunner.Evaluate CarryRunner.Base carry_eval_ok.
End Laws.
