(* ===== verification/FadeRunners.v ===== *)
(** * Mean-reversion, volatility and intraday strategies ([internal/strategy])

    The runners of rsi2_reversion_runner.go, vix_futures_carry_runner.go,
    vol_harvesting_runner.go, session_scalp_runner.go, session_momentum_runner.go,
    volume_scalp_runner.go and orb_runner.go, each with the law of [PositionRunner]. *)
From Stdlib Require Import ZArith Lia Bool Floats.
From coqutil Require Import RecordSettersUsingExistingGetters.
From S2P Require Import Prelude Float64 FloatRound FloatLaws Price StopLoss PoolSim History Trade Indicators Runner.
From S2P Require Import TrendRunners.
Import GoInt BaseRunner.
Local Open Scope float_scope.
Local Open Scope go_scope.

Definition MaxFloat64 : float64 := 0x1.fffffffffffffp+1023.

(** Closes the position; the exit is on the other side. *)
Definition exitSide (side : string) : string := if bool_decide (side = "BUY"%string) then "SELL" else "BUY".

(** [exitSide] written the other way round. *)
Definition exitSide' (side : string) : string := if bool_decide (side = "SELL"%string) then "BUY" else "SELL".

(** ** Two-period RSI reversion *)
Module RSI2MeanReversionRunner.
Section RSI2MeanReversionRunner.
Context {IN : Indicator}.

Record t := mk {
  Base : BaseRunner.t;
  Oversold : float64;
  Overbought : float64;
  ExitNeutral : float64;
  AtrPeriod : float64;
  AtrMultiplier : float64;
  ProfitATRMult : float64;
  MaxHoldBars : float64;
  barsInTrade : Z
}.

Definition NewRSI2MeanReversionRunner : t := mk (NewBaseRunner 256) 5 95 50 14 1.5 2 20 0%Z.

Definition Reset (r : t) : t := r <| Base ::= BaseRunner.Reset |> <| barsInTrade := 0%Z |>.

Definition SetParams (r : t) (params : gmap string float64) : t :=
  let r := setParam params "oversold" (fun v r => r <| Oversold := v |>) r in
  let r := setParam params "overbought" (fun v r => r <| Overbought := v |>) r in
  let r := setParam params "exit_neutral" (fun v r => r <| ExitNeutral := v |>) r in
  let r := setParam params "atr_period" (fun v r => r <| AtrPeriod := v |>) r in
  let r := setParam params "atr_multiplier" (fun v r => r <| AtrMultiplier := v |>) r in
  let r := setParam params "profit_atr_mult" (fun v r => r <| ProfitATRMult := v |>) r in
  setParam params "max_hold_bars" (fun v r => r <| MaxHoldBars := v |>) r.

Definition rsiOf (b : BaseRunner.t) : float64 := RSI2 (LinearPrices b (HistCount b)) (HistCount b).

Definition manage (r : t) (candle : Candle) : option Signal * t :=
  let price := Close candle in
  let r := r <| barsInTrade := i64 (barsInTrade r + 1) |> in
  let b := Base r in
  let stopDist := trATR b (math.int64 (AtrPeriod r)) * AtrMultiplier r in
  let rsi2 := rsiOf b in
  let expired := Z.leb (math.int64 (MaxHoldBars r)) (barsInTrade r) in
  let closed := r <| Base ::= ClosePosition |> in
  if bool_decide (CurrentSide b = "BUY"%string) then
    if IsStopLossHit price (PriceFromFloat (Float64 (EntryPrice b) - stopDist)) "BUY" || expired
    then (Some (exitSignal candle "SELL"), closed)
    else if (ExitNeutral r <? rsi2) && (0 <? rsi2) then (Some (exitSignal candle "SELL"), closed)
    else (None, r)
  else
    if IsStopLossHit price (PriceFromFloat (Float64 (EntryPrice b) + stopDist)) "SELL" || expired
    then (Some (exitSignal candle "BUY"), closed)
    else if (rsi2 <? ExitNeutral r) && (0 <? rsi2) then (Some (exitSignal candle "BUY"), closed)
    else (None, r).

Definition enter (r : t) (candle : Candle) (regime : Z) (side : string) : option Signal * t :=
  let '(stopMult, profitMult) := RegimeExitMults (Base r) regime in
  let stopDist := trATR (Base r) (math.int64 (AtrPeriod r)) * AtrMultiplier r * stopMult in
  let profitDist := stopDist * ProfitATRMult r * profitMult in
  (Some (entrySignal candle side),
   r <| Base ::= fun b => openAt b candle side stopDist profitDist |> <| barsInTrade := 0%Z |>).

Definition Evaluate (r : t) (candle : Candle) (regime : Z) : option Signal * t :=
  let price := Close candle in
  if IsZero price then (None, r)
  else
    let r := r <| Base ::= fun b => PushPrice b price (High candle) (Low candle) (Volume candle) |> in
    if PositionOpen (Base r) then manage r candle
    else if Z.ltb (HistCount (Base r)) 20 then (None, r)
    else
      let rsi2 := rsiOf (Base r) in
      if rsi2 <=? 0 then (None, r)
      else if rsi2 <? Oversold r then enter r candle regime "BUY"
      else if Overbought r <? rsi2 then enter r candle regime "SELL"
      else (None, r).
End RSI2MeanReversionRunner.
End RSI2MeanReversionRunner.

(** ** Fading a volatility spike

    The statistics both runners compute: over the last [lookback] positive prices by
    slot number, with the 14-bar true range. *)
Definition fadeStats (b : BaseRunner.t) (lookback : Z) : float64 * float64 * float64 :=
  let n := HistCount b in
  if Z.ltb n lookback then (0, 0, 0)
  else
    let start := Z.max 0 (n - lookback) in
    let vals := List.filter (fun v => 0 <? v) (map (fun i => at_ (PriceHistory b) (Z.rem i (BufferSize b))) (range start n)) in
    let count := len vals in
    if Z.ltb count 2 then (0, 0, 0)
    else
      let mean := sumOf (fun v => v) vals / of_Z count in
      let variance := sumOf (fun v => let d := v - mean in d * d) vals in
      (mean, sampleStd variance count, trATR b 14).

Module VIXFuturesCarryRunner.

Record t := mk {
  Base : BaseRunner.t;
  VIXSpot : float64;
  ContangoThreshold : float64;
  FadeLookback : Z;
  FadeEntryZ : float64;
  FadeExitZ : float64;
  StopATRMult : float64;
  ProfitATRMult : float64;
  MaxHold : Z;
  barsHeld : Z
}.

Definition NewVIXFuturesCarryRunner : t := mk (NewBaseRunner 128) 0 22.0 10 1.5 0.3 2.0 3.0 30 0.

Definition Reset (r : t) : t := r <| Base ::= BaseRunner.Reset |> <| barsHeld := 0%Z |>.

Definition SetParams (r : t) (params : gmap string float64) : t :=
  let r := setParam params "contango_threshold" (fun v r => r <| ContangoThreshold := v |>) r in
  let r := setParam params "fade_lookback" (fun v r => r <| FadeLookback := math.int64 v |>) r in
  let r := setParam params "fade_entry_z" (fun v r => r <| FadeEntryZ := v |>) r in
  let r := setParam params "fade_exit_z" (fun v r => r <| FadeExitZ := v |>) r in
  let r := setParam params "stop_atr_mult" (fun v r => r <| StopATRMult := v |>) r in
  let r := setParam params "profit_atr_mult" (fun v r => r <| ProfitATRMult := v |>) r in
  setParam params "max_hold" (fun v r => r <| MaxHold := math.int64 v |>) r.

Definition SetVIX (r : t) (vix : float64) : t := r <| VIXSpot := vix |>.

Definition computeFadeStats (r : t) : float64 * float64 * float64 := fadeStats (Base r) (FadeLookback r).

Definition manage (r : t) (candle : Candle) (atr zScore : float64) : option Signal * t :=
  let price := Float64 (Close candle) in
  let r := r <| barsHeld := i64 (barsHeld r + 1) |> in
  let b := Base r in
  let closed := r <| Base ::= ClosePosition |> in
  let entry := Float64 (EntryPrice b) in
  if Z.leb (MaxHold r) (barsHeld r) then (Some (exitSignal candle (exitSide (CurrentSide b))), closed)
  else if bool_decide (CurrentSide b = "BUY"%string) then
    let stopPrice := entry - atr * StopATRMult r in
    if (price <=? stopPrice) || (FadeExitZ r <=? zScore) then (Some (exitSignal candle "SELL"), closed) else (None, r)
  else
    let stopPrice := entry + atr * StopATRMult r in
    if (stopPrice <=? price) || (zScore <=? - FadeExitZ r) then (Some (exitSignal candle "BUY"), closed) else (None, r).

Definition enter (r : t) (candle : Candle) (regime : Z) (atr : float64) (side : string) : option Signal * t :=
  let '(stopMult, profitMult) := RegimeExitMults (Base r) regime in
  (Some (entrySignal candle side),
   r <| barsHeld := 0%Z |>
     <| Base ::= fun b => openAt b candle side (atr * StopATRMult r * stopMult) (atr * ProfitATRMult r * profitMult) |>).

Definition Evaluate (r : t) (candle : Candle) (regime : Z) : option Signal * t :=
  let price := Close candle in
  if IsZero price then (None, r)
  else
    let r := r <| Base ::= fun b => PushPrice b price (High candle) (Low candle) (Volume candle) |> in
    if VIXSpot r <? ContangoThreshold r then (None, r)
    else
      let '(mean, stdDev, atr) := computeFadeStats r in
      if (stdDev <=? 0) || (atr <=? 0) then (None, r)
      else
        let zScore := (Float64 price - mean) / stdDev in
        if PositionOpen (Base r) then manage r candle atr zScore
        else if zScore <=? - FadeEntryZ r then enter r candle regime atr "BUY"
        else if FadeEntryZ r <=? zScore then enter r candle regime atr "SELL"
        else (None, r).
End VIXFuturesCarryRunner.

Module VolHarvestingRunner.

Record t := mk {
  Base : BaseRunner.t;
  VIXThreshold : float64;
  MaxVega : float64;
  StopATRMult : float64;
  ProfitATRMult : float64;
  MeanRevLookback : Z;
  MeanRevEntryZ : float64;
  MeanRevExitZ : float64;
  CurrentVIX : float64
}.

Definition NewVolHarvestingRunner : t := mk (NewBaseRunner 128) 20 0.02 2 3 10 1.5 0.5 0.

Definition Reset (r : t) : t := r <| Base ::= BaseRunner.Reset |>.

Definition SetParams (r : t) (params : gmap string float64) : t :=
  let r := setParam params "vix_threshold" (fun v r => r <| VIXThreshold := v |>) r in
  let r := setParam params "max_vega" (fun v r => r <| MaxVega := v |>) r in
  let r := setParam params "stop_atr_mult" (fun v r => r <| StopATRMult := v |>) r in
  let r := setParam params "profit_atr_mult" (fun v r => r <| ProfitATRMult := v |>) r in
  let r := setParam params "mean_rev_lookback" (fun v r => r <| MeanRevLookback := math.int64 v |>) r in
  let r := setParam params "mean_rev_entry_z" (fun v r => r <| MeanRevEntryZ := v |>) r in
  setParam params "mean_rev_exit_z" (fun v r => r <| MeanRevExitZ := v |>) r.

Definition SetVIX (r : t) (vix : float64) : t := r <| CurrentVIX := vix |>.

Definition computeStats (r : t) : float64 * float64 * float64 := fadeStats (Base r) (MeanRevLookback r).

Definition manage (r : t) (candle : Candle) (atr zScore : float64) : option Signal * t :=
  let price := Close candle in
  let b := Base r in
  let entry := Float64 (EntryPrice b) in
  let closed := r <| Base ::= ClosePosition |> in
  if bool_decide (CurrentSide b = "BUY"%string) then
    let stopPrice := entry - atr * StopATRMult r in
    if (Float64 price <=? stopPrice) || IsTakeProfitHit price (TakeProfit b) "BUY" || (MeanRevExitZ r <=? zScore)
    then (Some (exitSignal candle "SELL"), closed) else (None, r)
  else
    let stopPrice := entry + atr * StopATRMult r in
    if (stopPrice <=? Float64 price) || IsTakeProfitHit price (TakeProfit b) "SELL" || (zScore <=? - MeanRevExitZ r)
    then (Some (exitSignal candle "BUY"), closed) else (None, r).

Definition enter (r : t) (candle : Candle) (regime : Z) (atr : float64) (side : string) : option Signal * t :=
  let '(stopMult, profitMult) := RegimeExitMults (Base r) regime in
  (Some (entrySignal candle side),
   r <| Base ::= fun b => openAt b candle side (atr * StopATRMult r * stopMult) (atr * ProfitATRMult r * profitMult) |>).

Definition Evaluate (r : t) (candle : Candle) (regime : Z) : option Signal * t :=
  let price := Close candle in
  if IsZero price then (None, r)
  else
    let r := r <| Base ::= fun b => PushPrice b price (High candle) (Low candle) (Volume candle) |> in
    if CurrentVIX r <? VIXThreshold r then (None, r)
    else
      let '(mean, stdDev, atr) := computeStats r in
      if (stdDev <=? 0) || (atr <=? 0) then (None, r)
      else
        let zScore := (Float64 price - mean) / stdDev in
        if PositionOpen (Base r) then manage r candle atr zScore
        else if zScore <=? - MeanRevEntryZ r then enter r candle regime atr "BUY"
        else if MeanRevEntryZ r <=? zScore then enter r candle regime atr "SELL"
        else (None, r).
End VolHarvestingRunner.

(** ** Opening ranges

    The high and the low of the bars an opening range is made of. *)
Definition widenHigh (candle : Candle) (h : float64) : float64 :=
  if h <? Float64 (High candle) then Float64 (High candle) else h.
Definition widenLow (candle : Candle) (l : float64) : float64 :=
  if Float64 (Low candle) <? l then Float64 (Low candle) else l.

Module SessionScalpRunner.

Record t := mk {
  Base : BaseRunner.t;
  SessionStartHour : Z;
  SessionStartMin : Z;
  SessionEndHour : Z;
  SessionEndMin : Z;
  RangeMinutes : float64;
  EntryBufferPct : float64;
  VolumeMultiplier : float64;
  AtrPeriod : float64;
  TakeProfitAtrMult : float64;
  StopLossAtrMult : float64;
  TimeExitMinutes : float64;
  TimezoneOffset : Z;
  MaxTradesPerDay : Z;
  openingHigh : float64;
  openingLow : float64;
  rangeSet : bool;
  barsInRange : Z;
  volumeBuffer : list float64
}.

Definition NewSessionScalpRunner : t :=
  mk (NewBaseRunner 128) 9 30 11 0 5 0.1 1.5 14 1.5 1.0 60 (-4) 3 0 MaxFloat64 false 0%Z (replicate 128 0).

Definition Reset (r : t) : t :=
  r <| Base ::= BaseRunner.Reset |> <| openingHigh := 0 |> <| openingLow := MaxFloat64 |> <| rangeSet := false |>
    <| barsInRange := 0%Z |> <| volumeBuffer ::= map (fun _ => 0) |>.

Definition SetParams (r : t) (params : gmap string float64) : t :=
  let r := setParam params "range_minutes" (fun v r => r <| RangeMinutes := v |>) r in
  let r := setParam params "entry_buffer_pct" (fun v r => r <| EntryBufferPct := v |>) r in
  let r := setParam params "volume_multiplier" (fun v r => r <| VolumeMultiplier := v |>) r in
  let r := setParam params "atr_period" (fun v r => r <| AtrPeriod := v |>) r in
  let r := setParam params "take_profit_atr_mult" (fun v r => r <| TakeProfitAtrMult := v |>) r in
  let r := setParam params "stop_loss_atr_mult" (fun v r => r <| StopLossAtrMult := v |>) r in
  let r := setParam params "time_exit_minutes" (fun v r => r <| TimeExitMinutes := v |>) r in
  setParam params "timezone_offset" (fun v r => r <| TimezoneOffset := math.int64 v |>) r.

Definition sessionWindow (r : t) : Session.t :=
  Session.mk (SessionStartHour r) (SessionStartMin r) (SessionEndHour r) (SessionEndMin r) (TimezoneOffset r).

(** The bar goes into the buffers whatever its close. *)
Definition store (b : BaseRunner.t) (candle : Candle) : BaseRunner.t :=
  b <| PriceHistory ::= <[slot b := Float64 (Close candle)]> |>
    <| HighHistory ::= <[slot b := Float64 (High candle)]> |>
    <| LowHistory ::= <[slot b := Float64 (Low candle)]> |>
    <| HistIdx := i64 (HistIdx b + 1) |>
    <| HistCount := if Z.ltb (HistCount b) (BufferSize b) then (HistCount b + 1)%Z else HistCount b |>.

Definition push (r : t) (candle : Candle) : t :=
  r <| volumeBuffer ::= <[slot (Base r) := Volume candle]> |> <| Base ::= fun b => store b candle |>.

Definition manage (r : t) (candle : Candle) : option Signal * t :=
  let b := Base r in
  let closed := r <| Base ::= ClosePosition |> in
  if TimeExitMinutes r <=? durationMinutes (subTime (Time candle) (EntryTime b)) then
    (Some (exitSignal candle (exitSide' (CurrentSide b))), closed)
  else if bool_decide (CurrentSide b = "BUY"%string) then
    if IsStopLossHit (Low candle) (StopLoss b) "BUY" || IsTakeProfitHit (High candle) (TakeProfit b) "BUY"
    then (Some (exitSignal candle "SELL"), closed) else (None, r)
  else
    if IsStopLossHit (High candle) (StopLoss b) "SELL" || IsTakeProfitHit (Low candle) (TakeProfit b) "SELL"
    then (Some (exitSignal candle "BUY"), closed) else (None, r).

(** A bar of the opening range. *)
Definition widen (r : t) (candle : Candle) : t :=
  let r := r <| barsInRange := i64 (barsInRange r + 1) |>
             <| openingHigh ::= widenHigh candle |> <| openingLow ::= widenLow candle |> in
  if RangeMinutes r <=? of_Z (barsInRange r) then r <| rangeSet := true |> else r.

Definition enter (r : t) (candle : Candle) (regime : Z) (atr : float64) (side : string) : option Signal * t :=
  let '(stopMult, profitMult) := RegimeExitMults (Base r) regime in
  (Some (entrySignal candle side),
   r <| Base ::= fun b => RecordTrade (openAt b candle side (atr * StopLossAtrMult r * stopMult)
                                         (atr * TakeProfitAtrMult r * profitMult)) (Time candle) |>).

Definition breakout (r : t) (candle : Candle) (regime : Z) : option Signal * t :=
  let close := Float64 (Close candle) in
  let avgVol := Mean (volumeBuffer r) (HistCount (Base r)) (math.int64 (AtrPeriod r)) in
  if (0 <? avgVol) && (Volume candle <? avgVol * VolumeMultiplier r) then (None, r)
  else
    let atr := trATR (Base r) (math.int64 (AtrPeriod r)) in
    if atr <=? 0 then (None, r)
    else if openingHigh r - openingLow r <=? 0 then (None, r)
    else
      let bufferPct := EntryBufferPct r / 100.0 in
      if openingHigh r * (1.0 + bufferPct) <=? close then enter r candle regime atr "BUY"
      else if close <=? openingLow r * (1.0 - bufferPct) then enter r candle regime atr "SELL"
      else (None, r).

Definition Evaluate (r : t) (candle : Candle) (regime : Z) : option Signal * t :=
  let '(ok, b) := CanTrade (Base r) (Time candle) (MaxTradesPerDay r) in
  let r := r <| Base := b |> in
  if negb ok then (None, r)
  else if negb (Session.InWindow (sessionWindow r) (Time candle)) then (None, r)
  else
    let r := push r candle in
    if PositionOpen (Base r) then manage r candle
    else if negb (rangeSet r) then (None, widen r candle)
    else breakout r candle regime.
End SessionScalpRunner.

Module SessionMomentumRunner.

Record t := mk {
  Base : BaseRunner.t;
  SessionMinutes : float64;
  DriftThresholdPct : float64;
  VolumeMultiplier : float64;
  AtrPeriod : float64;
  AtrMultiplier : float64;
  ProfitATRMult : float64;
  TimeExitMinutes : float64;
  currentDay : option Z;
  dayOpenPrice : float64;
  sessionOpenTime : Z;
  peakPrice : Price
}.

Definition NewSessionMomentumRunner : t :=
  mk (NewBaseRunner 256) 30 0.15 1.5 14 2.0 0 120 None 0 zeroTime 0%Z.

Definition Reset (r : t) : t :=
  r <| Base ::= BaseRunner.Reset |> <| currentDay := None |> <| dayOpenPrice := 0 |> <| sessionOpenTime := zeroTime |>
    <| peakPrice := 0%Z |>.

Definition SetParams (r : t) (params : gmap string float64) : t :=
  let r := setParam params "session_minutes" (fun v r => r <| SessionMinutes := v |>) r in
  let r := setParam params "drift_threshold_pct" (fun v r => r <| DriftThresholdPct := v |>) r in
  let r := setParam params "volume_multiplier" (fun v r => r <| VolumeMultiplier := v |>) r in
  let r := setParam params "atr_period" (fun v r => r <| AtrPeriod := v |>) r in
  let r := setParam params "atr_multiplier" (fun v r => r <| AtrMultiplier := v |>) r in
  let r := setParam params "profit_atr_mult" (fun v r => r <| ProfitATRMult := v |>) r in
  setParam params "time_exit_minutes" (fun v r => r <| TimeExitMinutes := v |>) r.

Definition newDay (r : t) (candle : Candle) : t :=
  if bool_decide (currentDay r = Some (dayOf (Time candle))) then r
  else r <| currentDay := Some (dayOf (Time candle)) |> <| dayOpenPrice := Float64 (Open candle) |>
         <| sessionOpenTime := Time candle |>.

Definition manage (r : t) (candle : Candle) (regime : Z) : option Signal * t :=
  let price := Close candle in
  let b := Base r in
  if TimeExitMinutes r <=? durationMinutes (subTime (Time candle) (EntryTime b)) then
    (Some (exitSignal candle (exitSide' (CurrentSide b))), r <| Base ::= ClosePosition |>)
  else
    let '(stopMult, _) := RegimeExitMults b regime in
    let stopDist := trATR b (math.int64 (AtrPeriod r)) * AtrMultiplier r * stopMult in
    if bool_decide (CurrentSide b = "BUY"%string) then
      let r := r <| peakPrice ::= movePeak "BUY" price |> in
      if trailHit "BUY" price (peakPrice r) stopDist
      then (Some (exitSignal candle "SELL"), r <| Base ::= ClosePosition |>) else (None, r)
    else
      let r := r <| peakPrice ::= movePeak "SELL" price |> in
      if trailHit "SELL" price (peakPrice r) stopDist
      then (Some (exitSignal candle "BUY"), r <| Base ::= ClosePosition |>) else (None, r).

Definition enter (r : t) (candle : Candle) (side : string) (stopDist profitMult : float64) : option Signal * t :=
  let price := Close candle in
  let '(sl, tp) := bracketAt side price stopDist (stopDist * ProfitATRMult r * profitMult) in
  let tp := if 0 <? ProfitATRMult r then tp else 0%Z in
  (Some (entrySignal candle side), r <| Base ::= fun b => OpenPosition b side price sl tp (Time candle) |>).

Definition Evaluate (r : t) (candle : Candle) (regime : Z) : option Signal * t :=
  let price := Close candle in
  if IsZero price then (None, r)
  else
    let r := newDay r candle in
    let r := r <| Base ::= fun b => PushPrice b price (High candle) (Low candle) (Volume candle) |> in
    if PositionOpen (Base r) then manage r candle regime
    else if Z.eqb (sessionOpenTime r) zeroTime || (dayOpenPrice r <=? 0) then (None, r)
    else
      let elapsedMinutes := durationMinutes (subTime (Time candle) (sessionOpenTime r)) in
      if (elapsedMinutes <? SessionMinutes r) || (SessionMinutes r + 30 <? elapsedMinutes) then (None, r)
      else
        let drift := (Float64 price - dayOpenPrice r) / dayOpenPrice r * 100.0 in
        if (- DriftThresholdPct r <? drift) && (drift <? DriftThresholdPct r) then (None, r)
        else
          let b := Base r in
          let avgVol := Mean (VolumeHistory b) (HistCount b) (math.int64 (AtrPeriod r)) in
          if (0 <? VolumeMultiplier r) && (0 <? avgVol) && (Volume candle <? avgVol * VolumeMultiplier r) then (None, r)
          else
            let atr := trATR b (math.int64 (AtrPeriod r)) in
            if atr <=? 0 then (None, r)
            else
              let '(stopMult, profitMult) := RegimeExitMults b regime in
              let stopDist := atr * AtrMultiplier r * stopMult in
              let r := r <| peakPrice := price |> in
              enter r candle (if 0 <? drift then "BUY"%string else "SELL"%string) stopDist profitMult.
End SessionMomentumRunner.

Module VolumeScalpRunner.

Record t := mk {
  Base : BaseRunner.t;
  SessionStartHour : Z;
  SessionStartMin : Z;
  SessionEndHour : Z;
  SessionEndMin : Z;
  RangeMinutes : float64;
  EntryBufferPct : float64;
  VolumeMultiplier : float64;
  AtrPeriod : float64;
  TakeProfitAtrMult : float64;
  StopLossAtrMult : float64;
  TimeExitMinutes : float64;
  MaxTradesPerDay : Z;
  dailyTradeCount : Z;
  currentDay : option Z;
  openingHigh : float64;
  openingLow : float64;
  rangeSet : bool;
  barsInRange : Z;
  avgVolume : float64;
  volumeCount : Z;
  volumeBuffer : list float64
}.

Definition NewVolumeScalpRunner : t :=
  mk (NewBaseRunner 128) 9 30 11 0 5 0.1 1.25 14 1.5 1.0 60 10 0 None 0 MaxFloat64 false 0%Z 0 0%Z (replicate 128 0).

(** The runner has no [Reset] of its own: the base's is promoted. *)
Definition Reset (r : t) : t := r <| Base ::= BaseRunner.Reset |>.

Definition SetParams (r : t) (params : gmap string float64) : t :=
  let r := setParam params "volume_multiplier" (fun v r => r <| VolumeMultiplier := v |>) r in
  let r := setParam params "atr_period" (fun v r => r <| AtrPeriod := v |>) r in
  let r := setParam params "take_profit_atr_mult" (fun v r => r <| TakeProfitAtrMult := v |>) r in
  let r := setParam params "stop_loss_atr_mult" (fun v r => r <| StopLossAtrMult := v |>) r in
  setParam params "max_trades_per_day" (fun v r => r <| MaxTradesPerDay := math.int64 v |>) r.

Definition barsHeld (b : BaseRunner.t) (now : Z) : Z :=
  if negb (PositionOpen b) || Z.eqb (EntryTime b) zeroTime then 0
  else
    let mins := durationMinutes (subTime now (EntryTime b)) in
    if mins <? 0 then 0%Z else math.int64 mins.

Definition newDay (r : t) (time : Z) : t :=
  if bool_decide (currentDay r = Some (dayOf time)) then r
  else r <| currentDay := Some (dayOf time) |> <| dailyTradeCount := 0%Z |>.

Definition trackVolume (r : t) (volume : float64) : t :=
  let r := r <| volumeCount := i64 (volumeCount r + 1) |> in
  if avgVolume r <=? 0 then r <| avgVolume := volume |>
  else let alpha := 2.0 / 21.0 in r <| avgVolume := volume * alpha + avgVolume r * (1.0 - alpha) |>.

Definition accumulate (r : t) (candle : Candle) (totalMin sessionStartMin : Z) : t :=
  if Z.leb sessionStartMin totalMin && Z.ltb totalMin (i64 (sessionStartMin + math.int64 (RangeMinutes r))) then
    let r := r <| openingHigh ::= widenHigh candle |> <| openingLow ::= widenLow candle |>
               <| barsInRange := i64 (barsInRange r + 1) |> in
    if RangeMinutes r <=? of_Z (barsInRange r) then r <| rangeSet := true |> else r
  else r.

Definition enter (r : t) (candle : Candle) (regime : Z) (atr : float64) (side : string) : option Signal * t :=
  let '(stopMult, profitMult) := RegimeExitMults (Base r) regime in
  (Some (entrySignal candle side),
   r <| Base ::= fun b => openAt b candle side (atr * StopLossAtrMult r * stopMult) (atr * TakeProfitAtrMult r * profitMult) |>
     <| dailyTradeCount := i64 (dailyTradeCount r + 1) |>).

Definition breakout (r : t) (candle : Candle) (regime : Z) : option Signal * t :=
  let close := Float64 (Close candle) in
  let atr := trATR (Base r) (math.int64 (AtrPeriod r)) in
  if atr <=? 0 then (None, r)
  else
    let entryBuf := EntryBufferPct r / 100.0 in
    if openingHigh r * (1.0 + entryBuf) <=? close then enter r candle regime atr "BUY"
    else if close <=? openingLow r * (1.0 - entryBuf) then enter r candle regime atr "SELL"
    else (None, r).

(** After the gates and the push. *)
Definition trade (r : t) (candle : Candle) (regime : Z) : option Signal * t :=
  let totalMin := minuteOfDay (Time candle) in
  let sessionStartMin := (SessionStartHour r * 60 + SessionStartMin r)%Z in
  let sessionEndMin := (SessionEndHour r * 60 + SessionEndMin r)%Z in
  if PositionOpen (Base r) then
    if Z.leb (math.int64 (TimeExitMinutes r)) (barsHeld (Base r) (Time candle)) then
      (Some (exitSignal candle (exitSide' (CurrentSide (Base r)))), r <| Base ::= ClosePosition |>)
    else (None, r)
  else if Z.ltb totalMin sessionStartMin then (None, r)
  else if negb (rangeSet r) then (None, accumulate r candle totalMin sessionStartMin)
  else if Z.ltb sessionEndMin totalMin then (None, r)
  else breakout r candle regime.

Definition Evaluate (r : t) (candle : Candle) (regime : Z) : option Signal * t :=
  let r := newDay r (Time candle) in
  if Z.ltb 0 (MaxTradesPerDay r) && Z.leb (MaxTradesPerDay r) (dailyTradeCount r) then (None, r)
  else
    let r := trackVolume r (Volume candle) in
    if Z.ltb 5 (volumeCount r) && (0 <? avgVolume r) && (Volume candle <? avgVolume r * VolumeMultiplier r) then (None, r)
    else if IsZero (Close candle) then (None, r)
    else
      let r := r <| Base ::= fun b => PushPrice b (Close candle) (High candle) (Low candle) (Volume candle) |> in
      trade r candle regime.
End VolumeScalpRunner.

Module OrbRunner.

Record t := mk {
  Base : BaseRunner.t;
  RangeMinutes : float64;
  EntryBufferPct : float64;
  AtrPeriod : float64;
  AtrMultiplier : float64;
  TargetMultiplier : float64;
  CloseExitMinutes : float64;
  MinRangePct : float64;
  openingHigh : float64;
  openingLow : float64;
  rangeSet : bool;
  barsInRange : Z;
  skipDay : bool;
  lastDay : Z
}.

Definition NewOrbRunner : t :=
  mk (NewBaseRunner 128) 5 0.1 14 2.0 2.0 390 0.1 0 MaxFloat64 false 0%Z false zeroTime.

(** [Reset]'s part on the range. *)
Definition resetOpeningRange (r : t) : t :=
  r <| openingHigh := 0 |> <| openingLow := MaxFloat64 |> <| rangeSet := false |> <| barsInRange := 0%Z |>
    <| skipDay := false |>.

Definition Reset (r : t) : t := (resetOpeningRange (r <| Base ::= BaseRunner.Reset |>)) <| lastDay := zeroTime |>.

Definition sameDay (a b : Z) : bool := Z.eqb (dayOf a) (dayOf b).

Definition SetParams (r : t) (params : gmap string float64) : t :=
  let r := setParam params "range_minutes" (fun v r => r <| RangeMinutes := v |>) r in
  let r := setParam params "entry_buffer_pct" (fun v r => r <| EntryBufferPct := v |>) r in
  let r := setParam params "atr_period" (fun v r => r <| AtrPeriod := v |>) r in
  let r := setParam params "atr_multiplier" (fun v r => r <| AtrMultiplier := v |>) r in
  setParam params "target_multiplier" (fun v r => r <| TargetMultiplier := v |>) r.

(** A bar of the opening range; a range that is too narrow ends the day. *)
Definition widen (r : t) (candle : Candle) : t :=
  let r := r <| barsInRange := i64 (barsInRange r + 1) |>
             <| openingHigh ::= widenHigh candle |> <| openingLow ::= widenLow candle |> in
  if RangeMinutes r <=? of_Z (barsInRange r) then
    let r := r <| rangeSet := true |> in
    let rangePct := (openingHigh r - openingLow r) / Float64 (Close candle) * 100.0 in
    if (0 <? MinRangePct r) && (rangePct <? MinRangePct r) then r <| skipDay := true |> else r
  else r.

Definition manage (r : t) (candle : Candle) : option Signal * t :=
  let b := Base r in
  let price := Close candle in
  let hit side := IsTakeProfitHit price (TakeProfit b) side || IsStopLossHit price (StopLoss b) side in
  if bool_decide (CurrentSide b = "BUY"%string) then
    if hit "BUY"%string then (Some (exitSignal candle "SELL"), r <| Base ::= ClosePosition |>) else (None, r)
  else
    if hit "SELL"%string then (Some (exitSignal candle "BUY"), r <| Base ::= ClosePosition |>) else (None, r).

(** The entry carries its stop and its target. *)
Definition enter (r : t) (candle : Candle) (side : string) (stopDist profitDist : float64) : option Signal * t :=
  let '(sl, tp) := bracketAt side (Close candle) stopDist profitDist in
  (Some (mkSignal (Symbol candle) side 1.0 SignalEntry 0 "" sl tp),
   r <| Base ::= fun b => RecordTrade (OpenPosition b side (Close candle) sl tp (Time candle)) (Time candle) |>).

Definition breakout (r : t) (candle : Candle) (regime : Z) : option Signal * t :=
  let close := Float64 (Close candle) in
  let rangeHeight := openingHigh r - openingLow r in
  if rangeHeight <=? 0 then (None, r)
  else
    let bufferPct := EntryBufferPct r / 100.0 in
    let atr := trATR (Base r) (math.int64 (AtrPeriod r)) in
    let '(stopMult, profitMult) := RegimeExitMults (Base r) regime in
    let stopDist := atr * AtrMultiplier r * stopMult in
    let stopDist := if stopDist <? rangeHeight / 2 then rangeHeight / 2 else stopDist in
    let profitDist := stopDist * TargetMultiplier r * profitMult in
    let '(ok, b) := CanTrade (Base r) (Time candle) 1 in
    let r := r <| Base := b |> in
    if negb ok then (None, r)
    else if openingHigh r * (1.0 + bufferPct) <=? close then enter r candle "BUY" stopDist profitDist
    else if close <=? openingLow r * (1.0 - bufferPct) then enter r candle "SELL" stopDist profitDist
    else (None, r).

(** The day's part of [Evaluate], after [lastDay] is set. *)
Definition today (r : t) (candle : Candle) (regime : Z) : option Signal * t :=
  if negb (rangeSet r) then (None, widen r candle)
  else if skipDay r then (None, r)
  else
    let r := r <| Base ::= fun b => PushPrice b (Close candle) (High candle) (Low candle) (Volume candle) |> in
    if PositionOpen (Base r) then manage r candle else breakout r candle regime.

Definition Evaluate (r : t) (candle : Candle) (regime : Z) : option Signal * t :=
  if negb (Z.eqb (lastDay r) zeroTime) && negb (sameDay (lastDay r) (Time candle)) then
    if PositionOpen (Base r) then
      (Some (exitSignal candle (exitSide' (CurrentSide (Base r)))),
       (resetOpeningRange (r <| Base ::= ClosePosition |>)) <| lastDay := Time candle |>)
    else today ((resetOpeningRange r) <| lastDay := Time candle |>) candle regime
  else today (r <| lastDay := Time candle |>) candle regime.
End OrbRunner.

(** ** The law of the runners *)
#[local] Abbreviation pushed r B c v := (r <| B ::= fun b => PushPrice b (Close c) (High c) (Low c) v |>) (only parsing).

Lemma exitSide'_ok b : side_ok b -> PositionOpen b = true -> exitSide' (CurrentSide b) = opposite (CurrentSide b).
Proof. intros S O. by destruct (S O) as [->| ->]. Qed.

Lemma keeps_record b time b' : keeps b b' -> keeps b (RecordTrade b' time).
Proof. intros K. rewrite K. by destruct (keeps_roll b' time). Qed.

Lemma keeps_can_trade b time n : keeps b (CanTrade b time n).2.
Proof. apply keeps_roll. Qed.

Lemma record_open b time : PositionOpen (RecordTrade b time) = PositionOpen b.
Proof. by destruct (keeps_record b time b). Qed.
Lemma record_side b time : CurrentSide (RecordTrade b time) = CurrentSide b.
Proof. by destruct (keeps_record b time b). Qed.

(** An entry that is counted. *)
Ltac law_record := eapply signal_entry; rewrite ?record_open, ?record_side; first [law_eq | by left | by right].

Section Laws.
Context {IN : Indicator}.

Lemma rsi2_eval_ok r c regime :
  side_ok (RSI2MeanReversionRunner.Base r) ->
  signal_ok c (RSI2MeanReversionRunner.Base r) (RSI2MeanReversionRunner.Evaluate r c regime).1
    (RSI2MeanReversionRunner.Base (RSI2MeanReversionRunner.Evaluate r c regime).2).
Proof.
  intros S. unfold RSI2MeanReversionRunner.Evaluate. destruct (IsZero _); [done|].
  after_push S RSI2MeanReversionRunner.Base r (pushed r RSI2MeanReversionRunner.Base c (Volume c)).
  unfold RSI2MeanReversionRunner.manage, RSI2MeanReversionRunner.enter, openAt.
  destruct (PositionOpen (RSI2MeanReversionRunner.Base q)) eqn:O; law_cases.
Qed.

Lemma vix_carry_eval_ok r c regime :
  side_ok (VIXFuturesCarryRunner.Base r) ->
  signal_ok c (VIXFuturesCarryRunner.Base r) (VIXFuturesCarryRunner.Evaluate r c regime).1
    (VIXFuturesCarryRunner.Base (VIXFuturesCarryRunner.Evaluate r c regime).2).
Proof.
  intros S. unfold VIXFuturesCarryRunner.Evaluate. destruct (IsZero _); [done|].
  after_push S VIXFuturesCarryRunner.Base r (pushed r VIXFuturesCarryRunner.Base c (Volume c)).
  unfold VIXFuturesCarryRunner.manage, VIXFuturesCarryRunner.enter, openAt.
  destruct (PositionOpen (VIXFuturesCarryRunner.Base q)) eqn:O; law_cases.
Qed.

Lemma vol_harvesting_eval_ok r c regime :
  side_ok (VolHarvestingRunner.Base r) ->
  signal_ok c (VolHarvestingRunner.Base r) (VolHarvestingRunner.Evaluate r c regime).1
    (VolHarvestingRunner.Base (VolHarvestingRunner.Evaluate r c regime).2).
Proof.
  intros S. unfold VolHarvestingRunner.Evaluate. destruct (IsZero _); [done|].
  after_push S VolHarvestingRunner.Base r (pushed r VolHarvestingRunner.Base c (Volume c)).
  unfold VolHarvestingRunner.manage, VolHarvestingRunner.enter, openAt.
  destruct (PositionOpen (VolHarvestingRunner.Base q)) eqn:O; law_cases.
Qed.

Lemma session_scalp_eval_ok r c regime :
  side_ok (SessionScalpRunner.Base r) ->
  signal_ok c (SessionScalpRunner.Base r) (SessionScalpRunner.Evaluate r c regime).1
    (SessionScalpRunner.Base (SessionScalpRunner.Evaluate r c regime).2).
Proof.
  intros S. unfold SessionScalpRunner.Evaluate.
  pose proof (keeps_can_trade (SessionScalpRunner.Base r) (Time c) (SessionScalpRunner.MaxTradesPerDay r)) as K.
  destruct (CanTrade _ _ _) as [ok b]. cbn in K.
  apply (keeps_signal_ok _ _ _ _ _ K). apply (keeps_side_ok _ _ K) in S. clear K.
  set (q := r <| SessionScalpRunner.Base := b |>) in *. change b with (SessionScalpRunner.Base q) in S |- *.
  clearbody q. clear b.
  destruct ok; [|done]. cbn [negb]. destruct (Session.InWindow _ _); [|done]. cbn [negb].
  assert (K : keeps (SessionScalpRunner.Base q) (SessionScalpRunner.Base (SessionScalpRunner.push q c))) by done.
  apply (keeps_signal_ok _ _ _ _ _ K). apply (keeps_side_ok _ _ K) in S. clear K.
  set (q1 := SessionScalpRunner.push q c) in *. clearbody q1. clear q. rename q1 into q. cbv zeta.
  unfold SessionScalpRunner.manage, SessionScalpRunner.widen, SessionScalpRunner.breakout, SessionScalpRunner.enter.
  destruct (PositionOpen (SessionScalpRunner.Base q)) eqn:O.
  - rewrite (exitSide'_ok _ S O). law_cases.
  - unfold openAt. repeat (case_match || case_bool_decide); simplify_eq; cbn; try done; law_record.
Qed.

Lemma session_momentum_eval_ok r c regime :
  side_ok (SessionMomentumRunner.Base r) ->
  signal_ok c (SessionMomentumRunner.Base r) (SessionMomentumRunner.Evaluate r c regime).1
    (SessionMomentumRunner.Base (SessionMomentumRunner.Evaluate r c regime).2).
Proof.
  intros S. unfold SessionMomentumRunner.Evaluate. destruct (IsZero _); [done|].
  assert (E : SessionMomentumRunner.Base (SessionMomentumRunner.newDay r c) = SessionMomentumRunner.Base r)
    by (unfold SessionMomentumRunner.newDay; by case_bool_decide).
  rewrite <- E in S |- *. clear E. generalize dependent (SessionMomentumRunner.newDay r c). clear r. intros r S.
  after_push S SessionMomentumRunner.Base r (pushed r SessionMomentumRunner.Base c (Volume c)).
  unfold SessionMomentumRunner.manage, SessionMomentumRunner.enter, bracketAt.
  destruct (PositionOpen (SessionMomentumRunner.Base q)) eqn:O; [rewrite (exitSide'_ok _ S O)|]; law_cases.
Qed.

Lemma volume_scalp_eval_ok r c regime :
  side_ok (VolumeScalpRunner.Base r) ->
  signal_ok c (VolumeScalpRunner.Base r) (VolumeScalpRunner.Evaluate r c regime).1
    (VolumeScalpRunner.Base (VolumeScalpRunner.Evaluate r c regime).2).
Proof.
  intros S. unfold VolumeScalpRunner.Evaluate.
  assert (E : VolumeScalpRunner.Base (VolumeScalpRunner.newDay r (Time c)) = VolumeScalpRunner.Base r)
    by (unfold VolumeScalpRunner.newDay; by case_bool_decide).
  rewrite <- E in S |- *. clear E. generalize dependent (VolumeScalpRunner.newDay r (Time c)). clear r. intros r S.
  destruct (_ && _); [done|].
  assert (E : VolumeScalpRunner.Base (VolumeScalpRunner.trackVolume r (Volume c)) = VolumeScalpRunner.Base r)
    by (unfold VolumeScalpRunner.trackVolume; by case_match).
  rewrite <- E in S |- *. clear E. generalize dependent (VolumeScalpRunner.trackVolume r (Volume c)). clear r. intros r S.
  destruct (_ && _); [done|]. destruct (IsZero _); [done|].
  after_push S VolumeScalpRunner.Base r (pushed r VolumeScalpRunner.Base c (Volume c)).
  unfold VolumeScalpRunner.trade, VolumeScalpRunner.accumulate, VolumeScalpRunner.breakout, VolumeScalpRunner.enter, openAt.
  destruct (PositionOpen (VolumeScalpRunner.Base q)) eqn:O; [rewrite (exitSide'_ok _ S O)|]; law_cases.
Qed.

Lemma orb_breakout_ok r c regime :
  PositionOpen (OrbRunner.Base r) = false ->
  signal_ok c (OrbRunner.Base r) (OrbRunner.breakout r c regime).1 (OrbRunner.Base (OrbRunner.breakout r c regime).2).
Proof.
  intros O. unfold OrbRunner.breakout. destruct (_ <=? 0); [done|].
  destruct (RegimeExitMults _ _) as [m p].
  pose proof (keeps_can_trade (OrbRunner.Base r) (Time c) 1) as K.
  destruct (CanTrade _ _ _) as [ok b]. cbn in K. apply (keeps_signal_ok _ _ _ _ _ K). destruct K as [K _].
  rewrite O in K. unfold OrbRunner.enter, bracketAt.
  repeat (case_match || case_bool_decide); simplify_eq; cbn; try done; law_record.
Qed.

Lemma orb_today_ok r c regime :
  side_ok (OrbRunner.Base r) ->
  signal_ok c (OrbRunner.Base r) (OrbRunner.today r c regime).1 (OrbRunner.Base (OrbRunner.today r c regime).2).
Proof.
  intros S. unfold OrbRunner.today. destruct (negb _); [unfold OrbRunner.widen; by repeat case_match|].
  destruct (OrbRunner.skipDay r); [done|].
  after_push S OrbRunner.Base r (pushed r OrbRunner.Base c (Volume c)).
  destruct (PositionOpen (OrbRunner.Base q)) eqn:O; [|by apply orb_breakout_ok].
  unfold OrbRunner.manage. law_cases.
Qed.

Lemma orb_eval_ok r c regime :
  side_ok (OrbRunner.Base r) ->
  signal_ok c (OrbRunner.Base r) (OrbRunner.Evaluate r c regime).1 (OrbRunner.Base (OrbRunner.Evaluate r c regime).2).
Proof.
  intros S. unfold OrbRunner.Evaluate. destruct (_ && _).
  - destruct (PositionOpen (OrbRunner.Base r)) eqn:O.
    + rewrite (exitSide'_ok _ S O). by apply signal_exit.
    + set (q := (OrbRunner.resetOpeningRange r) <| OrbRunner.lastDay := Time c |>).
      change (OrbRunner.Base r) with (OrbRunner.Base q) in S |- *. by apply orb_today_ok.
  - set (q := r <| OrbRunner.lastDay := Time c |>).
    change (OrbRunner.Base r) with (OrbRunner.Base q) in S |- *. by apply orb_today_ok.
Qed.

#[export] Instance rsi2_position_runner : PositionRunner RSI2MeanReversionRunner.t :=
  onBase RSI2MeanReversionRunner.Evaluate RSI2MeanReversionRunner.Base rsi2_eval_ok.

#[export] Instance vix_carry_position_runner : PositionRunner VIXFuturesCarryRunner.t :=
  onBase VIXFuturesCarryRunner.Evaluate VIXFuturesCarryRunner.Base vix_carry_eval_ok.

#[export] Instance vol_harvesting_position_runner : PositionRunner VolHarvestingRunner.t :=
  onBase VolHarvestingRunner.Evaluate VolHarvestingRunner.Base vol_harvesting_eval_ok.

#[export] Instance session_scalp_position_runner : PositionRunner SessionScalpRunner.t :=
  onBase SessionScalpRunner.Evaluate SessionScalpRunner.Base session_scalp_eval_ok.

#[export] Instance session_momentum_position_runner : PositionRunner SessionMomentumRunner.t :=
  onBase SessionMomentumRunner.Evaluate SessionMomentumRunner.Base session_momentum_eval_ok.

#[export] Instance volume_scalp_position_runner : PositionRunner VolumeScalpRunner.t :=
  onBase VolumeScalpRunner.Evaluate VolumeScalpRunner.Base volume_scalp_eval_ok.

#[export] Instance orb_position_runner : PositionRunner OrbRunner.t :=
  onBase OrbRunner.Evaluate OrbRunner.Base orb_eval_ok.
End Laws.
