(* ===== verification/RunnerLaws.v ===== *)
(** * Laws of the strategy runners

    What the runners of [TrendRunners] and [FadeRunners] do on their bars, beyond the law
    of [PositionRunner]: the averages of the trend runner and its entries, the stop of the
    crossover runner, the daily limit of the opening-range runner, and the true-range
    average against its reference. *)
From Stdlib Require Import ZArith Lia Bool Floats.
From coqutil Require Import RecordSettersUsingExistingGetters.
From S2P Require Import Prelude Float64 FloatRound FloatLaws Price StopLoss PoolSim History Trade Indicators Runner.
From S2P Require Import TrendRunners FadeRunners.
Import GoInt BaseRunner.
Local Open Scope float_scope.
Local Open Scope go_scope.

(** ** Exponential averages stay within bounds *)
Definition between (l m x : float64) : Prop := ffin x = true /\ (fv l <= fv x <= fv m)%Z.

Lemma add_zero_l x y : ffin x = true -> ffin y = true -> fv x = 0%Z -> fv (x + y) = fv y.
Proof.
  intros Fx Fy E. apply (nearest_exact _ _ _ y Z.lt_0_1 (add_nearest x y Fx Fy)); [by apply ffin_nan|lia].
Qed.

Lemma add_zero_r x y : ffin x = true -> ffin y = true -> fv y = 0%Z -> fv (x + y) = fv x.
Proof.
  intros Fx Fy E. apply (nearest_exact _ _ _ x Z.lt_0_1 (add_nearest x y Fx Fy)); [by apply ffin_nan|lia].
Qed.

Lemma add_mono x x' y y' :
  ffin x = true -> ffin x' = true -> ffin y = true -> ffin y' = true -> (fv x <= fv x')%Z -> (fv y <= fv y')%Z ->
  (fv (x + y) <= fv (x' + y'))%Z.
Proof.
  intros Fx Fx' Fy Fy' Hx Hy.
  destruct (Z.eq_dec (fv x + fv y)%Z (fv x' + fv y')%Z) as [E|E].
  - destruct (same_or_zero x x' Fx Fx' ltac:(lia)) as [->|[Zx Zx']].
    + destruct (same_or_zero y y' Fy Fy' ltac:(lia)) as [->|[Zy Zy']]; [lia|]. rewrite !add_zero_r by done. lia.
    + rewrite !add_zero_l by done. lia.
  - apply (nearest_mono _ _ 1 _ _ Z.lt_0_1 (add_nearest x y Fx Fy) (add_nearest x' y' Fx' Fy')). lia.
Qed.

Lemma fin_below x m : fnan x = false -> ffin m = true -> (0 <= fv x <= fv m)%Z -> ffin x = true.
Proof.
  intros N F [H0 H]. destruct (ffin x) eqn:E; [done|]. rewrite (nonfin_pos x N E H0) in H.
  pose proof (ffin_range m F). assert (fv infinity = fmaxv) by (vm_compute; reflexivity). lia.
Qed.

(** What is checked of the bounds and the weights by evaluation. *)
Definition weights_ok (l m a b : float64) : bool :=
  ffin l && ffin m && ffin a && ffin b && Z.leb 0 (fv l) && Z.leb 0 (fv a) && Z.leb (fv a) onev && Z.leb 0 (fv b)
  && Z.leb (fv b) onev && Z.leb (fv l) (fv (l * a + l * b)) && Z.leb (fv (m * a + m * b)) (fv m).

Lemma smooth_between l m a b p e :
  weights_ok l m a b = true -> between l m p -> between l m e -> between l m (p * a + e * b).
Proof.
  unfold weights_ok. rewrite !andb_true_iff, !Z.leb_le.
  intros ((((((((((Fl & Fm) & Fa) & Fb) & Hl) & Ha) & Ha') & Hb) & Hb') & HL) & HM) [Fp [Lp Up]] [Fe [Le Ue]].
  assert (Pa : pos0 a) by done. assert (Pb : pos0 b) by done.
  destruct (mul_unit_le p a) as [[Fpa Ppa] _]; [split; [done|lia]|done|].
  destruct (mul_unit_le e b) as [[Feb Peb] _]; [split; [done|lia]|done|].
  assert (Hm : (0 <= fv m)%Z) by lia.
  destruct (mul_unit_le l a) as [[Fla _] Hla]; [split; [done|lia]|done|].
  destruct (mul_unit_le l b) as [[Flb _] Hlb]; [split; [done|lia]|done|].
  destruct (mul_unit_le m a) as [[Fma _] _]; [done|done|].
  destruct (mul_unit_le m b) as [[Fmb _] _]; [done|done|].
  pose proof (mul_mono_l l p a Fl Fp Pa Lp). pose proof (mul_mono_l p m a Fp Fm Pa Up).
  pose proof (mul_mono_l l e b Fl Fe Pb Le). pose proof (mul_mono_l e m b Fe Fm Pb Ue).
  assert (L : (fv (l * a + l * b) <= fv (p * a + e * b))%Z) by (apply add_mono; auto).
  assert (U : (fv (p * a + e * b) <= fv (m * a + m * b))%Z) by (apply add_mono; auto).
  split; [|lia]. apply (fin_below _ m); [apply (add_nearest _ _ Fpa Feb)|done|lia].
Qed.

(** The band of the prices: from below the smallest to above the largest sane one. *)
Definition bandLow : float64 := 0x1p-17.
Definition bandHigh : float64 := 0x1p34.
Definition in_band : float64 -> Prop := between bandLow bandHigh.

Lemma price_in_band p : (0 < p <= 2 ^ 50)%Z -> in_band (Float64 p).
Proof.
  intros Hp. assert (S : sane p) by (unfold sane; lia).
  assert (S1 : sane 1) by done. assert (S2 : sane (2 ^ 50)%Z) by done.
  split; [by apply ToFloat64_fin|].
  assert (A : (fv (Float64 1) <= fv (Float64 p))%Z) by (apply ToFloat64_le_iff; [done|done|lia]).
  assert (B : (fv (Float64 p) <= fv (Float64 (2 ^ 50)))%Z) by (apply ToFloat64_le_iff; [done|done|lia]).
  assert (A' : (fv bandLow <= fv (Float64 1))%Z) by (vm_compute; discriminate).
  assert (B' : (fv (Float64 (2 ^ 50)) <= fv bandHigh)%Z) by (vm_compute; discriminate).
  lia.
Qed.

Lemma in_band_pos x : in_band x -> (0 <? x) = true.
Proof.
  intros [F [L _]]. apply ltb_true. split; [done|]. split; [by apply ffin_nan|].
  assert (fv 0 < fv bandLow)%Z by (vm_compute; reflexivity). lia.
Qed.

(** ** Trend following *)
Section Trend.
Context {IN : Indicator} {LG : Logarithm}.
Import TrendRunner.

(** The averages of a runner with the registry's periods: not there yet, or in the band. *)
Definition averages_ok (r : t) : Prop :=
  FastPeriod r = 20 /\ SlowPeriod r = 50 /\
  ((fastEMA r = 0 /\ slowEMA r = 0 /\ signalPending r = false) \/ (in_band (fastEMA r) /\ in_band (slowEMA r))).

(** A pending signal is on the side the averages have. *)
Definition pending_ok (r : t) : Prop :=
  signalPending r = true ->
  PositionOpen (Base r) = false /\
  ((pendingSide r = "BUY"%string /\ (slowEMA r <? fastEMA r) = true) \/
   (pendingSide r = "SELL"%string /\ (fastEMA r <? slowEMA r) = true)).

Definition trend_inv (r : t) : Prop := averages_ok r /\ pending_ok r.

(** After the averages have moved: the old ones are kept beside them. *)
Definition moved (r r1 : t) : Prop :=
  prevFastEMA r1 = fastEMA r /\ prevSlowEMA r1 = slowEMA r /\ in_band (fastEMA r1) /\ in_band (slowEMA r1) /\
  FastPeriod r1 = 20 /\ SlowPeriod r1 = 50 /\ signalPending r1 = signalPending r /\ pendingSide r1 = pendingSide r.

Lemma update_moved r price : averages_ok r -> in_band (Float64 price) -> moved r (updateEMAs r price).
Proof.
  intros (F & S & A) P. unfold updateEMAs, moved. rewrite F, S.
  destruct A as [(EF & ES & _)|[BF BS]].
  - rewrite EF, ES. cbn. by rewrite ?EF, ?ES.
  - assert (N : (fastEMA r <=? 0) = false) by (apply ltb_not_leb, in_band_pos, BF). rewrite N. cbn.
    repeat (split; [done|]). split; [|split]; [..|done].
    + apply (smooth_between bandLow bandHigh); [vm_compute; reflexivity|done|done].
    + apply (smooth_between bandLow bandHigh); [vm_compute; reflexivity|done|done].
Qed.

(** The evaluation after the push of the bar. *)
Definition trendStep (r : t) (candle : Candle) (regime : Z) (adx chop : float64) : option Signal * t :=
  if PositionOpen (Base r) then manage r candle
  else if (0 <? prevFastEMA r) && (0 <? prevSlowEMA r) then
    if negb (crossUp r) && negb (crossDown r) then (None, clearPending r)
    else if signalPending r then confirm r candle regime adx chop
    else (None, r <| signalPending := true |>
                  <| pendingSide := if crossUp r then "BUY"%string else "SELL"%string |>)
  else (None, r).

Lemma evaluate_step r c regime : IsZero (Close c) = false -> exists adx chop r1,
  Evaluate r c regime = trendStep r1 c regime adx chop /\
  r1 = (updateEMAs r (Close c)) <| Base ::= fun b => PushPrice b (Close c) (High c) (Low c) 0 |>.
Proof. intros Z. unfold Evaluate. rewrite Z. do 3 eexists. split; reflexivity. Qed.

(** The averages and the pending signal after it. *)
Lemma trend_step_keeps r c regime adx chop :
  let r' := (trendStep r c regime adx chop).2 in
  fastEMA r' = fastEMA r /\ slowEMA r' = slowEMA r /\ FastPeriod r' = FastPeriod r /\ SlowPeriod r' = SlowPeriod r.
Proof. unfold trendStep, manage, confirm, clearPending. repeat (case_match || case_bool_decide); by simplify_eq. Qed.

(** A signal that is pending after the step was made by a crossing on its side. *)
Lemma trend_step_pending r c regime adx chop :
  let r' := (trendStep r c regime adx chop).2 in
  (PositionOpen (Base r) = true -> signalPending r = false) ->
  signalPending r' = true ->
  (PositionOpen (Base r') = false /\
   ((pendingSide r' = "BUY"%string /\ crossUp r = true) \/ (pendingSide r' = "SELL"%string /\ crossDown r = true))) \/
  (r' = r /\ PositionOpen (Base r) = false /\ (0 <? prevFastEMA r) && (0 <? prevSlowEMA r) = false).
Proof.
  unfold trendStep. destruct (PositionOpen (Base r)) eqn:O.
  - intros P. specialize (P eq_refl). unfold manage, clearPending.
    repeat (case_match || case_bool_decide); simplify_eq; cbn; intros Q; (discriminate Q || congruence).
  - intros _. destruct (_ && _) eqn:W; [|by right].
    destruct (crossUp r) eqn:U, (crossDown r) eqn:D; cbn [negb andb]; try (by cbn);
      (destruct (signalPending r); [unfold confirm, clearPending; by repeat (case_match || case_bool_decide)|]);
      cbn; intros _; left; auto.
Qed.

(** An entry takes the pending side at a new crossing. *)
Lemma trend_step_entry r c regime adx chop s :
  (trendStep r c regime adx chop).1 = Some s -> SigAction s = SignalEntry ->
  signalPending r = true /\ (crossUp r = true \/ crossDown r = true) /\
  SigSide s = (if bool_decide (pendingSide r = "BUY"%string) then "BUY"%string else "SELL"%string).
Proof.
  unfold trendStep, manage. destruct (PositionOpen (Base r)).
  { repeat (case_match || case_bool_decide); intros E A; cbn in E; by simplify_eq. }
  destruct (_ && _); [|done].
  destruct (crossUp r) eqn:U, (crossDown r) eqn:D; cbn [negb andb]; try done;
    (destruct (signalPending r); [|done]); unfold confirm;
    repeat (case_match || case_bool_decide); intros E A; cbn in E; simplify_eq; auto.
Qed.

Lemma trend_inv_step r c regime :
  (0 < Close c <= 2 ^ 50)%Z -> trend_inv r -> trend_inv (Evaluate r c regime).2.
Proof.
  intros Hc [A P]. destruct (evaluate_step r c regime) as (adx & chop & r1 & -> & E).
  { unfold IsZero. lia. }
  pose proof (update_moved r (Close c) A (price_in_band _ Hc)) as M.
  assert (M1 : moved r r1) by (by rewrite E). clear M.
  assert (O1 : PositionOpen (Base r1) = PositionOpen (Base r)).
  { rewrite E. cbn. rewrite trend_update.
    by destruct (keeps_push (Base r) (Close c) (High c) (Low c) 0) as [-> _]. }
  clear E. destruct M1 as (PF & PS & BF & BS & Fa & Sl & Pe & Si).
  destruct (trend_step_keeps r1 c regime adx chop) as (K1 & K2 & K3 & K4).
  split; [unfold averages_ok; rewrite K1, K2, K3, K4; by auto|].
  intros Pend. destruct (trend_step_pending r1 c regime adx chop) as [[O' S']|(E' & O' & W)].
  - intros O. rewrite Pe. rewrite O1 in O. destruct (signalPending r) eqn:Q; [|done].
    destruct (P Q) as [? _]. congruence.
  - exact Pend.
  - split; [done|]. rewrite K1, K2. destruct S' as [[-> U]|[-> D]].
    + left. split; [done|]. by apply andb_prop in U as [_ U].
    + right. split; [done|]. by apply andb_prop in D as [_ D].
  - exfalso. rewrite E', Pe in Pend. destruct A as (_ & _ & [(_ & _ & N)|[B1 B2]]); [congruence|].
    by rewrite PF, PS, (in_band_pos _ B1), (in_band_pos _ B2) in W.
Qed.

Definition runTrend (r : t) (bars : list (Candle * Z)) : t := fold_left (fun r b => (Evaluate r b.1 b.2).2) bars r.

Lemma trend_inv_run bars : forall r,
  Forall (fun b => (0 < Close b.1 <= 2 ^ 50)%Z) bars -> trend_inv r -> trend_inv (runTrend r bars).
Proof.
  induction bars as [|[c g] bars IH]; intros r F I; [done|]. inversion F; subst.
  apply IH; [done|]. by apply trend_inv_step.
Qed.
End Trend.

(** The trend runner's confirmation turns its signals round.  With the registry's
    periods, whatever the bars before: a crossing makes a pending signal, the next
    crossing confirms it, and that is a crossing the other way.  So every position is
    bought when the fast average has just fallen below the slow one, and sold when it
    has risen above it. *)
Theorem trend_enters_against_crossing {LG : Logarithm} bars c regime s r' :
  Forall (fun b => (0 < Close b.1 <= 2 ^ 50)%Z) bars -> (0 < Close c <= 2 ^ 50)%Z ->
  TrendRunner.Evaluate (runTrend TrendRunner.NewTrendRunner bars) c regime = (Some s, r') ->
  SigAction s = SignalEntry ->
  (SigSide s = "BUY"%string /\ (TrendRunner.fastEMA r' <? TrendRunner.slowEMA r') = true) \/
  (SigSide s = "SELL"%string /\ (TrendRunner.slowEMA r' <? TrendRunner.fastEMA r') = true).
Proof.
  intros F Hc E A.
  assert (I : trend_inv (runTrend TrendRunner.NewTrendRunner bars)).
  { apply trend_inv_run; [done|]. split; [|done]. split; [done|]. split; [done|]. by left. }
  revert E I. generalize (runTrend TrendRunner.NewTrendRunner bars). intros r E [Av P].
  destruct (evaluate_step r c regime) as (adx & chop & r1 & Ev & E1); [unfold IsZero; lia|].
  pose proof (update_moved r (Close c) Av (price_in_band _ Hc)) as M.
  assert (M1 : moved r r1) by (by rewrite E1). clear M E1.
  destruct M1 as (PF & PS & _ & _ & _ & _ & Pe & Si). rewrite Ev in E.
  destruct (trend_step_entry r1 c regime adx chop s) as (Q & X & Sd); [by rewrite E|done|].
  destruct (trend_step_keeps r1 c regime adx chop) as (K1 & K2 & _). rewrite E in K1, K2. cbn in K1, K2.
  rewrite K1, K2, Sd, Si. rewrite Pe in Q.
  unfold TrendRunner.crossUp, TrendRunner.crossDown in X. rewrite PF, PS in X.
  destruct (P Q) as [_ [[-> H]|[-> H]]]; cbn.
  - left. split; [done|]. rewrite (ltb_not_leb _ _ H) in X. destruct X as [X|X]; [done|].
    by apply andb_prop in X as [_ X].
  - right. split; [done|]. rewrite (ltb_not_leb _ _ H) in X. destruct X as [X|X]; [|done].
    by apply andb_prop in X as [_ X].
Qed.

(** ** A concrete library for the witnesses: empty series and zero logarithms. *)
#[local] Instance noIndicator : Indicator :=
  {| lib_Ema _ _ := []; lib_Sma _ _ := []; lib_Std _ _ := []; lib_RsiPeriod _ _ := []; lib_Rsi2 _ := [];
     lib_Macd _ := ([], []); lib_BollingerBands _ := ([], [], []); lib_DonchianChannel _ _ := ([], [], []);
     lib_KeltnerChannel _ _ _ _ := ([], [], []); lib_IchimokuCloud _ _ _ := ([], [], [], [], []) |}.
#[local] Instance noLogarithm : Logarithm := {| Log _ := 0; Log10 _ := 0 |}.

Definition dayBar (i : nat) (close : Z) : Candle :=
  mkCandle (Z.of_nat i * 86400000000000)%Z (close * 100000)%Z ((close + 1) * 100000)%Z ((close - 1) * 100000)%Z
    (close * 100000)%Z 1000 "X" 1 "" "".

(** A rise, a crash that makes the averages cross, and the recovery. *)
Definition riseAndCrash : list (Candle * Z) :=
  map (fun i => (dayBar i (1000 + 2 * Z.of_nat i)%Z, 1%Z)) (seq 0 32) ++ [(dayBar 32 300%Z, 1%Z)].
Definition recovery : Candle := dayBar 33 2500%Z.

Lemma rise_prices : Forall (fun b => (0 < Close b.1 <= 2 ^ 50)%Z) riseAndCrash.
Proof. unfold riseAndCrash. cbn. repeat (constructor; [split; [reflexivity|discriminate]|]). constructor. Qed.

Lemma trend_enters_against_crossing_witness :
  let r := runTrend TrendRunner.NewTrendRunner riseAndCrash in
  let e := TrendRunner.Evaluate r recovery 1%Z in
  e.1 = Some (entrySignal recovery "SELL") /\
  ((SigSide (entrySignal recovery "SELL") = "BUY"%string /\
    (TrendRunner.fastEMA e.2 <? TrendRunner.slowEMA e.2) = true) \/
   (SigSide (entrySignal recovery "SELL") = "SELL"%string /\
    (TrendRunner.slowEMA e.2 <? TrendRunner.fastEMA e.2) = true)).
Proof.
  intros r e. assert (E : e.1 = Some (entrySignal recovery "SELL")) by (vm_compute; reflexivity).
  split; [exact E|].
  refine (trend_enters_against_crossing riseAndCrash recovery 1%Z (entrySignal recovery "SELL") e.2 _ _ _ _).
  - exact rise_prices.
  - split; [reflexivity|discriminate].
  - rewrite <- E. apply surjective_pairing.
  - reflexivity.
Defined.

(** ** The crossover runner's stop *)
Definition twoTicks : float64 := 2e-5.
Definition far : float64 := 0x1p44.
Definition dist_ok (d : float64) : Prop := ffin d = true /\ (fv twoTicks <= fv d <= fv far)%Z.

Lemma tick_gap p : (0 < p <= 2 ^ 50)%Z ->
  (fv (Float64 p) - fv (Float64 (p - 1)) <= fv twoTicks)%Z.
Proof.
  intros Hp. destruct (ToFloat64_bound p ltac:(unfold sane; lia)) as [_ B1].
  destruct (ToFloat64_bound (p - 1) ltac:(unfold sane; lia)) as [_ B2].
  assert (T : (5 * onev <= 4 * (100000 * fv twoTicks))%Z) by (vm_compute; discriminate).
  pose proof onev_pos. unfold Float64 in *.
  assert (Z.abs p * onev <= 2 ^ 50 * onev)%Z by (apply Z.mul_le_mono_nonneg_r; lia).
  assert (Z.abs (p - 1) * onev <= 2 ^ 50 * onev)%Z by (apply Z.mul_le_mono_nonneg_r; lia). lia.
Qed.

(** A stop laid at a distance of two ticks or more from the price itself is beyond it. *)
Lemma stop_below p d : (0 < p <= 2 ^ 50)%Z -> dist_ok d -> (PriceFromFloat (Float64 p - d) < p)%Z.
Proof.
  intros Hp [Fd [Ld Ud]].
  assert (S : sane p) by (unfold sane; lia). assert (S1 : sane (p - 1)%Z) by (unfold sane; lia).
  destruct (price_in_band p Hp) as [Fp [Lp Up]].
  pose proof (sub_nearest (Float64 p) d Fp Fd) as N. pose proof (tick_gap p Hp) as G.
  assert (Lt : (0 <= fv twoTicks)%Z) by (vm_compute; discriminate).
  assert (Lb : (0 <= fv bandLow)%Z) by (vm_compute; discriminate).
  assert (Hb : (fv bandHigh <= fv far)%Z) by (vm_compute; discriminate).
  assert (H45 : (fv far <= 2 ^ 45 * onev)%Z) by (vm_compute; discriminate).
  assert (Fx : ffin (Float64 p - d) = true) by (apply (nearest_fin _ _ _ far Z.lt_0_1 N eq_refl); lia).
  assert (X : (fv (Float64 p - d) <= fv (Float64 (p - 1)))%Z)
    by (apply (nearest_le _ _ _ _ Z.lt_0_1 N); [apply ffin_nan, ToFloat64_fin, S1|lia]).
  assert (X' : (fv (- far) <= fv (Float64 p - d))%Z)
    by (apply (nearest_ge _ _ _ _ Z.lt_0_1 N); [done|]; rewrite fv_opp; lia).
  rewrite fv_opp in X'.
  assert (Y : (0 <= fv (Float64 (p - 1)) <= fv (Float64 p))%Z).
  { split; [|apply ToFloat64_le_iff; [done|done|lia]]. change 0%Z with (fv (Float64 0)).
    apply ToFloat64_le_iff; [done|done|lia]. }
  assert (M : (FromFloat64 (Float64 p - d) <= FromFloat64 (Float64 (p - 1)))%Z).
  { apply FromFloat64_mono; [done|by apply ToFloat64_fin|lia|lia|done]. }
  unfold Float64 in M at 2. rewrite FromFloat64_ToFloat64 in M by done. unfold PriceFromFloat. lia.
Qed.

Lemma stop_above p d : (0 < p < 2 ^ 50)%Z -> dist_ok d -> (p < PriceFromFloat (Float64 p + d))%Z.
Proof.
  intros Hp [Fd [Ld Ud]].
  assert (S : sane p) by (unfold sane; lia). assert (S1 : sane (p + 1)%Z) by (unfold sane; lia).
  destruct (price_in_band p ltac:(lia)) as [Fp [Lp Up]].
  pose proof (add_nearest (Float64 p) d Fp Fd) as N. pose proof (tick_gap (p + 1) ltac:(lia)) as G.
  replace (p + 1 - 1)%Z with p in G by lia.
  assert (Lt : (0 <= fv twoTicks)%Z) by (vm_compute; discriminate).
  assert (Lb : (0 <= fv bandLow)%Z) by (vm_compute; discriminate).
  assert (Hb : (fv bandHigh + fv far <= fv (far * 2))%Z) by (vm_compute; discriminate).
  assert (H45 : (fv (far * 2) <= 2 ^ 45 * onev)%Z) by (vm_compute; discriminate).
  assert (Fx : ffin (Float64 p + d) = true) by (apply (nearest_fin _ _ _ (far * 2) Z.lt_0_1 N eq_refl); lia).
  assert (X : (fv (Float64 (p + 1)) <= fv (Float64 p + d))%Z)
    by (apply (nearest_ge _ _ _ _ Z.lt_0_1 N); [apply ffin_nan, ToFloat64_fin, S1|lia]).
  assert (X' : (fv (Float64 p + d) <= fv (far * 2))%Z)
    by (apply (nearest_le _ _ _ _ Z.lt_0_1 N); [done|lia]).
  assert (Y : (fv (Float64 p) <= fv (Float64 (p + 1)))%Z) by (apply ToFloat64_le_iff; [done|done|lia]).
  assert (M : (FromFloat64 (Float64 (p + 1)) <= FromFloat64 (Float64 p + d))%Z).
  { apply FromFloat64_mono; [by apply ToFloat64_fin|done|lia|lia|done]. }
  unfold Float64 in M at 1. rewrite FromFloat64_ToFloat64 in M by done. unfold PriceFromFloat. lia.
Qed.

Lemma stop_never_hit p d :
  (0 < p < 2 ^ 50)%Z -> dist_ok d ->
  IsStopLossHit p (PriceFromFloat (Float64 p - d)) "BUY" = false /\
  IsStopLossHit p (PriceFromFloat (Float64 p + d)) "SELL" = false.
Proof.
  intros Hp D. pose proof (stop_below p d ltac:(lia) D). pose proof (stop_above p d Hp D).
  revert H H0. generalize (PriceFromFloat (Float64 p - d)), (PriceFromFloat (Float64 p + d)). intros s1 s2 H1 H2.
  unfold IsStopLossHit, Compare. rewrite bool_decide_eq_true_2, bool_decide_eq_false_2 by done.
  split; repeat case_match; lia.
Qed.

(** The crossover runner's trailing stop never fires.  It is laid from the bar's own
    close and compared with it, so at any distance of two ticks or more an open position
    is held, however far the price has run against it, until the averages cross or the
    Bollinger exit, if it is on, is reached. *)
Theorem ma_crossover_stop_never_fires {IN : Indicator} (r : MACrossoverRunner.t) c fast slow :
  (0 < Close c < 2 ^ 50)%Z -> dist_ok (MACrossoverRunner.stopDist r) -> MACrossoverRunner.UseBollExit r = false ->
  (CurrentSide (MACrossoverRunner.Base r) = "BUY"%string -> (fast <? slow) = false) ->
  (CurrentSide (MACrossoverRunner.Base r) <> "BUY"%string -> (slow <? fast) = false) ->
  MACrossoverRunner.manage r c fast slow = (None, r).
Proof.
  intros Hc D B HB HS. destruct (stop_never_hit (Close c) _ Hc D) as [NB NS].
  unfold MACrossoverRunner.manage. rewrite B. case_bool_decide as E.
  - rewrite NB, (HB E), andb_false_r. by destruct (BollingerBands _ _) as [[u m] l].
  - rewrite NS, (HS E), andb_false_r. by destruct (BollingerBands _ _) as [[u m] l].
Qed.

(** ** The opening-range runner's daily limit *)
Section Orb.
Import OrbRunner.

(** The day's counter of a base. *)
Definition counter (b : BaseRunner.t) : option Z * Z := (tradeDay b, tradesToday b).

(** Without an entry the counter stays or is rolled to the bar's day; an entry needs an
    unused day and uses it. *)
Definition counted (c : Candle) (b : BaseRunner.t) (s : option Signal) (b' : BaseRunner.t) : Prop :=
  match s with
  | Some s =>
      match SigAction s with
      | SignalEntry => (tradesToday (rollDay b (Time c)) < 1)%Z /\
                       counter b' = (Some (dayOf (Time c)), i64 (tradesToday (rollDay b (Time c)) + 1))
      | _ => counter b' = counter b
      end
  | None => counter b' = counter b \/ counter b' = counter (rollDay b (Time c))
  end.

Lemma roll_day b time : tradeDay (rollDay b time) = Some (dayOf time).
Proof. unfold rollDay. by case_bool_decide. Qed.

Lemma roll_same b time : tradeDay b = Some (dayOf time) -> rollDay b time = b.
Proof. intros E. unfold rollDay. by rewrite bool_decide_eq_true_2. Qed.

Lemma record_counter b time :
  tradeDay b = Some (dayOf time) -> counter (RecordTrade b time) = (Some (dayOf time), i64 (tradesToday b + 1)).
Proof. intros E. unfold RecordTrade, counter. rewrite (roll_same b time E). cbn. by rewrite E. Qed.

Lemma enter_counted r c side d p :
  tradeDay (Base r) = Some (dayOf (Time c)) ->
  exists s, (enter r c side d p).1 = Some s /\ SigAction s = SignalEntry /\
    counter (Base (enter r c side d p).2) = (Some (dayOf (Time c)), i64 (tradesToday (Base r) + 1)).
Proof.
  intros E. unfold enter. destruct (bracketAt side (Close c) d p) as [sl tp]. eexists. split; [done|]. split; [done|].
  cbn. by rewrite record_counter.
Qed.

Lemma breakout_counted r c regime : counted c (Base r) (breakout r c regime).1 (Base (breakout r c regime).2).
Proof.
  unfold breakout. destruct (_ <=? 0); [by left|]. destruct (RegimeExitMults _ _) as [m p]. unfold CanTrade. cbn.
  pose proof (roll_day (Base r) (Time c)) as D.
  destruct (Z.ltb_spec (tradesToday (rollDay (Base r) (Time c))) 1) as [L|L]; [|by right].
  set (q := r <| Base := rollDay (Base r) (Time c) |>). change (rollDay (Base r) (Time c)) with (Base q) in D, L.
  assert (H : forall side d t, counted c (Base r) (enter q c side d t).1 (Base (enter q c side d t).2)).
  { intros side d t. destruct (enter_counted q c side d t D) as (s & -> & A & C). unfold counted. rewrite A.
    change (rollDay (Base r) (Time c)) with (Base q). by split. }
  cbn [negb]. destruct (_ <=? _); [apply H|]. destruct (_ <=? _); [apply H|]. by right.
Qed.

Lemma push_counter b p h l v : counter (PushPrice b p h l v) = counter b.
Proof. unfold PushPrice. by destruct (finite _). Qed.

Lemma roll_counter b b' time : counter b = counter b' -> counter (rollDay b time) = counter (rollDay b' time).
Proof. intros [= E1 E2]. unfold rollDay, counter. rewrite E1. case_bool_decide; [by rewrite E1, E2|done]. Qed.

Lemma today_counted r c regime : counted c (Base r) (today r c regime).1 (Base (today r c regime).2).
Proof.
  unfold today. destruct (negb _); [left; unfold widen; by repeat case_match|]. destruct (skipDay r); [by left|].
  set (q := r <| Base ::= fun b => PushPrice b (Close c) (High c) (Low c) (Volume c) |>). cbv zeta.
  assert (E : counter (Base q) = counter (Base r)) by apply push_counter.
  pose proof (roll_counter _ _ (Time c) E) as E'.
  assert (H : forall s b', counted c (Base q) s b' -> counted c (Base r) s b').
  { assert (E2 : tradesToday (rollDay (Base q) (Time c)) = tradesToday (rollDay (Base r) (Time c)))
      by exact (f_equal snd E').
    clearbody q. intros [s|] b'; unfold counted; [by rewrite E, E2|by rewrite E, E']. }
  apply H. destruct (PositionOpen (Base q)); [|apply breakout_counted].
  unfold manage. repeat (case_match || case_bool_decide); simplify_eq; try done; by left.
Qed.

Lemma eval_counted r c regime : counted c (Base r) (Evaluate r c regime).1 (Base (Evaluate r c regime).2).
Proof.
  unfold Evaluate. destruct (_ && _); [destruct (PositionOpen (Base r)); [done|]|].
  - set (q := (resetOpeningRange r) <| lastDay := Time c |>). change (Base r) with (Base q). apply today_counted.
  - set (q := r <| lastDay := Time c |>). change (Base r) with (Base q). apply today_counted.
Qed.

Definition runOrb (r : t) (bars : list (Candle * Z)) : t := fold_left (fun r b => (Evaluate r b.1 b.2).2) bars r.

Definition isEntry (s : option Signal) : nat :=
  match s with Some s => match SigAction s with SignalEntry => 1 | _ => 0 end | None => 0 end%nat.

(** The number of entries of a run. *)
Fixpoint orbEntries (r : t) (bars : list (Candle * Z)) : nat :=
  match bars with
  | [] => 0%nat
  | (c, regime) :: bars => let '(s, r) := Evaluate r c regime in (isEntry s + orbEntries r bars)%nat
  end.

Definition limit_ok (b : BaseRunner.t) : Prop := (0 <= tradesToday b <= 1)%Z.

Lemma roll_limit b time : limit_ok b -> limit_ok (rollDay b time).
Proof. unfold rollDay, limit_ok. case_bool_decide; cbn; [done|]. unfold RecordSettersUsingExistingGetters.const. lia. Qed.

Lemma counted_limit c b s b' : limit_ok b -> counted c b s b' -> limit_ok b'.
Proof.
  intros L. pose proof (roll_limit b (Time c) L) as R. unfold limit_ok in *. destruct s as [s|]; cbn.
  - destruct (SigAction s); [by intros [= _ ->]| |by intros [= _ ->]].
    intros [U [= _ ->]]. unfold i64. rewrite swrap_id; lia.
  - intros [[= _ ->]|[= _ ->]]; done.
Qed.

Lemma orb_limit_run bars : forall r, limit_ok (Base r) -> limit_ok (Base (runOrb r bars)).
Proof.
  induction bars as [|[c g] bars IH]; intros r L; [done|].
  apply IH. exact (counted_limit c (Base r) _ _ L (eval_counted r c g)).
Qed.

(** A day that is used stays used. *)
Lemma orb_used day bars : forall r,
  Forall (fun b => dayOf (Time b.1) = day) bars -> counter (Base r) = (Some day, 1%Z) -> orbEntries r bars = 0%nat.
Proof.
  induction bars as [|[c g] bars IH]; intros r F C; [done|]. inversion F as [|? ? Hd F']; subst. cbn in *.
  injection C as Cd Ct. pose proof (eval_counted r c g) as E.
  unfold counted in E. rewrite (roll_same _ _ Cd) in E.
  destruct (Evaluate r c g) as [[s|] r']; cbn in *.
  - destruct (SigAction s); [|lia|]; cbn; (rewrite IH; [done|done|]); rewrite E; by rewrite <- Cd, <- Ct.
  - rewrite IH; [done|done|]. destruct E as [->| ->]; by rewrite <- Cd, <- Ct.
Qed.

Lemma orb_day day bars : forall r,
  Forall (fun b => dayOf (Time b.1) = day) bars -> limit_ok (Base r) -> (orbEntries r bars <= 1)%nat.
Proof.
  induction bars as [|[c g] bars IH]; intros r F L; [cbn; lia|]. inversion F as [|? ? Hd F']; subst. cbn in *.
  pose proof (eval_counted r c g) as E. pose proof (counted_limit c _ _ _ L E) as L'.
  pose proof (roll_limit (Base r) (Time c) L) as R.
  destruct (Evaluate r c g) as [s r']. cbn in *. specialize (IH r' F' L').
  destruct s as [s|]; [|done]. cbn in *. destruct (SigAction s); [done| |done].
  destruct E as [U E]. rewrite (orb_used (dayOf (Time c)) bars r'); [lia|done|].
  rewrite E. unfold limit_ok in R. replace (tradesToday (rollDay (Base r) (Time c))) with 0%Z by lia. done.
Qed.
End Orb.

(** C24: the opening-range runner enters at most once a day: after any bars, among bars of
    one day there is no second entry, stopped out or not. *)
Theorem orb_one_entry_per_day before day bars :
  Forall (fun b => dayOf (Time b.1) = day) bars ->
  (orbEntries (runOrb OrbRunner.NewOrbRunner before) bars <= 1)%nat.
Proof. intros F. apply (orb_day day); [done|]. by apply orb_limit_run. Qed.

(** ** The true-range average against its reference *)
Definition pushBar (b : BaseRunner.t) (c : Candle) : BaseRunner.t :=
  PushPrice b (Close c) (High c) (Low c) (Volume c).
Definition feed (size : Z) (bars : list Candle) : BaseRunner.t := fold_left pushBar bars (NewBaseRunner size).

(** The true range of a bar after the previous one. *)
Definition barRange (pc : Candle * Candle) : float64 :=
  let h := Float64 (High pc.2) in let l := Float64 (Low pc.2) in let prev := Float64 (Close pc.1) in
  let tr := h - l in
  let tr := if tr <? math.Abs (h - prev) then math.Abs (h - prev) else tr in
  if tr <? math.Abs (l - prev) then math.Abs (l - prev) else tr.

(** The mean true range of the last [period] bars. *)
Definition meanTrueRange (bars : list Candle) (period : Z) : float64 :=
  let m := length bars in
  let n := Z.to_nat period in
  sumOf barRange (zip (drop (m - n - 1) bars) (drop (m - n) bars)) / of_Z period.

Record fed (size : Z) (bars : list Candle) (b : BaseRunner.t) : Prop := {
  f_size : BufferSize b = size;
  f_count : HistCount b = Z.min (Z.of_nat (length bars)) size;
  f_idx : HistIdx b = Z.of_nat (length bars);
  f_prices : slots size (map (fun c => Float64 (Close c)) bars) (PriceHistory b);
  f_highs : slots size (map (fun c => Float64 (High c)) bars) (HighHistory b);
  f_lows : slots size (map (fun c => Float64 (Low c)) bars) (LowHistory b)
}.

Lemma push_fed size bars b c :
  (0 < size)%Z -> (Z.of_nat (length bars) + 1 < 2 ^ 63)%Z -> in_i64 (Close c) -> fed size bars b ->
  fed size (bars ++ [c]) (pushBar b c).
Proof.
  intros Hs Hl Hp [Es Ec Ei Bp Bh Bl]. unfold pushBar, PushPrice. rewrite (finite_price _ Hp). cbn [negb].
  assert (E : slot b = Z.to_nat (Z.of_nat (length bars) mod size)) by (unfold slot; by rewrite Ei, Es, Z.rem_mod_nonneg by lia).
  assert (S : forall f buf, slots size (map f bars) buf -> slots size (map f (bars ++ [c])) (<[slot b := f c]> buf)).
  { intros f buf B. rewrite map_app, E. pose proof (slots_push size (map f bars) buf (f c) Hs B) as P.
    by rewrite length_map in P. }
  split; cbn; unfold RecordSettersUsingExistingGetters.const.
  - done.
  - rewrite length_app, Ec, Es. cbn [length]. destruct (Z.ltb_spec (Z.min (Z.of_nat (length bars)) size) size); lia.
  - rewrite length_app, Ei, i64_id by (unfold in_i64; lia). cbn [length]. lia.
  - exact (S _ _ Bp).
  - exact (S _ _ Bh).
  - exact (S _ _ Bl).
Qed.

Lemma feed_fed size bars :
  (0 < size)%Z -> (Z.of_nat (length bars) < 2 ^ 63)%Z -> Forall (fun c => in_i64 (Close c)) bars ->
  fed size bars (feed size bars).
Proof.
  intros Hs. induction bars as [|c bars IH] using rev_ind; intros Hl F.
  - split; try done; try (cbn; lia); apply slots_new; lia.
  - rewrite length_app in Hl. cbn in Hl. apply Forall_app in F as [F Fc]. inversion Fc; subst.
    unfold feed. rewrite fold_left_app. cbn. apply push_fed; [done|lia|done|apply IH; [lia|done]].
Qed.

Lemma sumOf_map {I} (f : I -> float64) ix : sumOf f ix = fold_left PrimFloat.add (map f ix) 0.
Proof.
  unfold sumOf. generalize 0. induction ix as [|i ix IH]; intros s; [done|]. cbn. apply IH.
Qed.

(** The guards of [TrueRangeATR], and its sum as a list. *)
Lemma tr_atr_sum b size period :
  (0 < period)%Z -> (period <= HistCount b)%Z ->
  len (PriceHistory b) = size -> len (HighHistory b) = size -> len (LowHistory b) = size -> (0 < size)%Z ->
  trATR b period =
    sumOf (trueRange (HighHistory b) (LowHistory b) (PriceHistory b)) (range (HistCount b - period) (HistCount b)) / of_Z period.
Proof.
  intros Hp Hc Ep Eh El Hs. unfold trATR, TrueRangeATR. rewrite Ep, Eh, El.
  replace (Z.ltb (HistCount b) period) with false by lia. replace (Z.leb period 0) with false by lia.
  by replace (Z.eqb size 0) with false by lia.
Qed.

(** A slot read back. *)
Lemma fed_at size (f : Candle -> float64) bars buf i c :
  (0 < size)%Z -> slots size (map f bars) buf -> (Z.of_nat (length bars) <= size)%Z -> bars !! i = Some c ->
  at_ buf (Z.of_nat i) = f c.
Proof.
  intros Hs [_ H] Hl E. pose proof (lookup_lt_Some _ _ _ E) as L. specialize (H (Z.of_nat i)).
  rewrite length_map, Z.mod_small in H by lia. rewrite H by lia. unfold at_. rewrite nth_lookup, Nat2Z.id.
  by rewrite list_lookup_fmap, E.
Qed.

Lemma range_bar size bars b i p c :
  (0 < size)%Z -> fed size bars b -> (Z.of_nat (length bars) <= size)%Z ->
  bars !! i = Some p -> bars !! S i = Some c ->
  trueRange (HighHistory b) (LowHistory b) (PriceHistory b) (Z.of_nat (S i)) = barRange (p, c).
Proof.
  intros Hs F Hl Ep Ec. pose proof (lookup_lt_Some _ _ _ Ec) as L. destruct F as [_ _ _ Bp Bh Bl].
  unfold trueRange, len. rewrite (proj1 Bp).
  replace (Z.of_nat (S i) - 1)%Z with (Z.of_nat i) by lia. rewrite !Z.rem_small by lia.
  rewrite (proj2 (Z.ltb_ge _ _)) by lia.
  rewrite (fed_at size _ bars _ _ c Hs Bh Hl Ec), (fed_at size _ bars _ _ c Hs Bl Hl Ec),
    (fed_at size _ bars _ _ p Hs Bp Hl Ep). done.
Qed.

(** Until its buffers are full, the average true range of a runner is the mean of the
    true ranges of its last [period] bars, each against the close before it. *)
Theorem true_range_atr_reference size period bars :
  (0 < period < Z.of_nat (length bars))%Z -> (Z.of_nat (length bars) <= size < 2 ^ 63)%Z ->
  Forall (fun c => in_i64 (Close c)) bars ->
  trATR (feed size bars) period = meanTrueRange bars period.
Proof.
  intros Hp Hl F. pose proof (feed_fed size bars ltac:(lia) ltac:(lia) F) as B.
  pose proof B as [Es Ec _ Bp Bh Bl].
  rewrite (tr_atr_sum _ size) by (rewrite ?Ec; unfold len; first [lia | by rewrite ?(proj1 Bp), ?(proj1 Bh), ?(proj1 Bl)]).
  unfold meanTrueRange. f_equal. rewrite !sumOf_map. f_equal. rewrite Ec, Z.min_l by lia.
  apply (nth_ext _ _ 0 0).
  - unfold range. rewrite !length_map, length_seq, length_zip_with, !length_drop. lia.
  - intros k Hk. unfold range in *. rewrite !length_map, length_seq in Hk.
    set (m := length bars) in *. set (n := Z.to_nat period) in *.
    destruct (lookup_lt_is_Some_2 bars (m - n - 1 + k)) as [p Pp]; [lia|].
    destruct (lookup_lt_is_Some_2 bars (S (m - n - 1 + k))) as [c Pc]; [lia|].
    rewrite !nth_lookup, !list_lookup_fmap. rewrite lookup_seq_lt by lia. cbn [fmap option_fmap option_map default].
    rewrite lookup_zip_with, !lookup_drop. replace (m - n + k)%nat with (S (m - n - 1 + k)) by lia.
    rewrite Pp, Pc. cbn [mbind option_bind fmap option_fmap option_map default].
    replace (Z.of_nat m - period + Z.of_nat (0 + k))%Z with (Z.of_nat (S (m - n - 1 + k))) by lia.
    apply (range_bar size bars _ (m - n - 1 + k)); [lia|exact B|lia|done|done].
Qed.

(** The slots a bar leaves alone. *)
Lemma range_untouched highs lows closes j h l p i :
  len highs = len closes -> len lows = len closes ->
  (0 <= j < len closes)%Z -> (j < i - 1)%Z -> (i < len closes)%Z ->
  trueRange (<[Z.to_nat j := h]> highs) (<[Z.to_nat j := l]> lows) (<[Z.to_nat j := p]> closes) i = trueRange highs lows closes i.
Proof.
  intros Eh El Hj Hi Hs. unfold trueRange, len in *. rewrite length_insert. rewrite !Z.rem_small by lia.
  rewrite (proj2 (Z.ltb_ge _ _)) by lia. rewrite !at_insert by lia.
  by rewrite !(proj2 (Z.eqb_neq _ _)) by lia.
Qed.

Lemma sumOf_ext {I} (f g : I -> float64) ix : (forall i, i ∈ ix -> f i = g i) -> sumOf f ix = sumOf g ix.
Proof. intros H. rewrite !sumOf_map. f_equal. apply List.map_ext_in. intros i Hi. by apply H, list_elem_of_In. Qed.

(** Once the buffers are full the average goes by slots and not by age: it reads the
    last [period + 1] slots, so the bars that fall into the slots before them leave it as
    it is.  With the 128 slots and the period 14 of most runners that is 113 bars out
    of every 128. *)
Theorem true_range_atr_stale size period bars c :
  (0 < period < size)%Z -> (size <= Z.of_nat (length bars))%Z -> (Z.of_nat (length bars) + 1 < 2 ^ 63)%Z ->
  Forall (fun c => in_i64 (Close c)) bars -> in_i64 (Close c) ->
  (Z.of_nat (length bars) mod size < size - period - 1)%Z ->
  trATR (feed size (bars ++ [c])) period = trATR (feed size bars) period.
Proof.
  intros Hp Hl Hmax F Fc Hj. pose proof (feed_fed size bars ltac:(lia) ltac:(lia) F) as [Es Ec Ei Bp Bh Bl].
  pose proof (Z.mod_pos_bound (Z.of_nat (length bars)) size ltac:(lia)) as M.
  unfold feed. rewrite fold_left_app. cbn [fold_left]. fold (feed size bars). generalize dependent (feed size bars).
  intros b Es Ec Ei Bp Bh Bl. pose proof (proj1 Bp) as Lp. pose proof (proj1 Bh) as Lh. pose proof (proj1 Bl) as Ll.
  rewrite (tr_atr_sum b size) by (unfold len; lia).
  assert (E : slot b = Z.to_nat (Z.of_nat (length bars) mod size)) by (unfold slot; by rewrite Ei, Es, Z.rem_mod_nonneg by lia).
  unfold pushBar, PushPrice. rewrite (finite_price _ Fc). cbn [negb]. rewrite E.
  set (b' := b <| PriceHistory ::= _ |> <| HighHistory ::= _ |> <| LowHistory ::= _ |> <| VolumeHistory ::= _ |>
               <| HistIdx := _ |> <| HistCount := _ |>).
  assert (Ec' : HistCount b' = HistCount b)
    by (unfold b'; cbn; unfold RecordSettersUsingExistingGetters.const; rewrite Ec, Es; destruct (Z.ltb_spec (Z.min (Z.of_nat (length bars)) size) size); lia).
  rewrite (tr_atr_sum b' size); rewrite ?Ec'; try lia; try (unfold b', len; cbn; rewrite length_insert; lia).
  f_equal. apply sumOf_ext. intros i Hi. unfold range in Hi.
  apply list_elem_of_fmap in Hi as (k & -> & Hk%elem_of_seq).
  unfold b'. cbn. apply range_untouched; unfold len; lia.
Qed.

(** ** Witnesses *)
Definition someBars : list Candle := map (fun i => dayBar i (100 + 3 * Z.of_nat i)%Z) (seq 0 8).

Lemma someBars_ok : Forall (fun c => in_i64 (Close c)) someBars.
Proof. unfold someBars. cbn. repeat (constructor; [split; [discriminate|reflexivity]|]). constructor. Qed.

Lemma true_range_atr_reference_witness :
  trATR (feed 16 someBars) 3 = meanTrueRange someBars 3 /\ meanTrueRange someBars 3 = 4.
Proof.
  split; [|vm_compute; reflexivity].
  apply (true_range_atr_reference 16 3 someBars); [split; reflexivity|split; [discriminate|reflexivity]|exact someBars_ok].
Defined.

Lemma true_range_atr_stale_witness :
  trATR (feed 8 (someBars ++ [dayBar 8 5000%Z])) 3 = trATR (feed 8 someBars) 3.
Proof.
  apply (true_range_atr_stale 8 3 someBars (dayBar 8 5000%Z));
    [split; reflexivity|discriminate|reflexivity|exact someBars_ok|split; [discriminate|reflexivity]|reflexivity].
Defined.

(** A long position whose price has fallen to a tenth. *)
Definition fallen : MACrossoverRunner.t :=
  MACrossoverRunner.NewMACrossoverRunner
    <| MACrossoverRunner.Base := OpenPosition (feed 256 (map (fun i => dayBar i 1000) (seq 0 15) ++ [dayBar 15 100])%Z)
                                   "BUY" 100000000%Z 99000000%Z 102000000%Z 0%Z |>
    <| MACrossoverRunner.UseBollExit := false |>.

Lemma ma_crossover_stop_never_fires_witness :
  MACrossoverRunner.manage fallen (dayBar 15 100%Z) 0 0 = (None, fallen).
Proof.
  apply (ma_crossover_stop_never_fires fallen (dayBar 15 100%Z) 0 0).
  - split; reflexivity.
  - split; [vm_compute; reflexivity|]. split; vm_compute; discriminate.
  - reflexivity.
  - reflexivity.
  - reflexivity.
Defined.

(** A day of bars: the range of the first five, a break, a stop-out, a second break. *)
Definition minuteBar (i : nat) (close : Z) : Candle :=
  mkCandle (Z.of_nat i * 60000000000)%Z (close * 100000)%Z ((close + 1) * 100000)%Z ((close - 1) * 100000)%Z
    (close * 100000)%Z 1000 "X" 1 "" "".
Definition orbDay : list (Candle * Z) :=
  map (fun ic => (minuteBar ic.1 ic.2, 0%Z))
    (zip (seq 0 12) [1000; 1001; 1002; 1001; 1000; 1001; 1010; 900; 1010; 1015; 1020; 1025]%Z).

Lemma orb_one_entry_per_day_witness :
  orbEntries (runOrb OrbRunner.NewOrbRunner []) orbDay = 1%nat /\
  (orbEntries (runOrb OrbRunner.NewOrbRunner []) orbDay <= 1)%nat.
Proof.
  split; [vm_compute; reflexivity|]. apply (orb_one_entry_per_day [] 0%Z orbDay).
  unfold orbDay. cbn. repeat (constructor; [reflexivity|]). constructor.
Defined.
