(* ===== verification/MeanReversion.v ===== *)
(** * Mean reversion ([internal/strategy/mean_reversion.go])

    [MeanReversionRunner] keeps its own circular buffers.  Their length is fixed when the
    runner is made, their indices go round [Lookback + 200], which [SetParams] changes: an
    index out of range panics, and [Evaluate] is then [None]. *)
From Stdlib Require Import ZArith Lia Bool Floats.
From coqutil Require Import RecordSettersUsingExistingGetters.
From S2P Require Import Prelude Float64 FloatRound FloatLaws Price StopLoss PoolSim History Trade Indicators Runner.
From S2P Require Import TrendRunners FadeRunners.
Import GoInt.
Local Open Scope float_scope.
Local Open Scope go_scope.

Record position := mkPosition { PosSymbol : string; PosSide : string; PosEntryPrice : Price; PosEntryBar : Z }.

Record t := mk {
  Lookback : Z;
  EntryZ : float64;
  ExitZ : float64;
  MaxHold : Z;
  TrendPeriod : Z;
  VolMaxMult : float64;
  Mode : string;
  closeHistory : list float64;
  volumeHistory : list float64;
  histIndex : Z;
  histCount : Z;
  emaMean : Price;
  trendEMA : Price;
  openPosition : option position;
  barsHeld : Z
}.

Definition NewMeanReversionRunner (lookback : Z) (entryZ exitZ : float64) (maxHold : Z) : t :=
  mk lookback entryZ exitZ maxHold 200 2.5 "" (replicate (Z.to_nat (lookback + 200)) 0) [] 0 0 0%Z 0%Z None 0.

(** The volumes survive a reset. *)
Definition Reset (sr : t) : t :=
  sr <| histIndex := 0%Z |> <| histCount := 0%Z |> <| emaMean := 0%Z |> <| trendEMA := 0%Z |> <| openPosition := None |>
     <| barsHeld := 0%Z |> <| closeHistory ::= map (fun _ => 0) |>.

Definition setPositive {A} (params : gmap string float64) (name : string) (f : float64 -> A -> A) : A -> A :=
  BaseRunner.setParam params name (fun v a => if 0 <? v then f v a else a).

Definition SetParams (sr : t) (params : gmap string float64) : t :=
  let sr := setPositive params "lookback" (fun v sr => sr <| Lookback := math.int64 v |>) sr in
  let sr := BaseRunner.setParam params "entry_z" (fun v sr => sr <| EntryZ := v |>) sr in
  let sr := BaseRunner.setParam params "exit_z" (fun v sr => sr <| ExitZ := v |>) sr in
  let sr := setPositive params "max_hold" (fun v sr => sr <| MaxHold := math.int64 v |>) sr in
  setPositive params "trend_period" (fun v sr => sr <| TrendPeriod := math.int64 v |>) sr.

(** The runner the registry makes for "vwap_mr". *)
Definition vwapRunner : t :=
  mk 20 1.5 0.5 40 100 0 "vwap" (replicate 220 0) (replicate 220 0) 0 0 0%Z 0%Z None 0.

(** The modulus of the indices. *)
Definition size (sr : t) : Z := i64 (Lookback sr + 200).

Definition inRange (l : list float64) (i : Z) : bool := Z.leb 0 i && Z.ltb i (len l).

(** [closeHistory[i%size]] for the indices from [start] to [stop]; [None]: out of range. *)
Definition closes (sr : t) (start stop : Z) : option (list float64) :=
  let ix := map (fun i => Z.rem i (size sr)) (range start stop) in
  if forallb (inRange (closeHistory sr)) ix then Some (map (at_ (closeHistory sr)) ix) else None.

(** The volume-weighted average price of the indices [computeStats] has read. *)
Definition computeVWAP (sr : t) (start stop : Z) : float64 :=
  if Z.eqb (len (volumeHistory sr)) 0 then 0
  else
    let ix := map (fun i => Z.rem i (size sr)) (range start stop) in
    let volume i := if inRange (volumeHistory sr) i then at_ (volumeHistory sr) i else 0 in
    let used := List.filter (fun i => (0 <? at_ (closeHistory sr) i) && (0 <? volume i)) ix in
    let totalPV := sumOf (fun i => at_ (closeHistory sr) i * volume i) used in
    let totalV := sumOf volume used in
    if totalV <=? 0 then 0 else totalPV / totalV.

(** A mean that is not there yet starts at [first]. *)
Definition seed (first : float64) (mean : Price) : Price := if IsZero mean then PriceFromFloat first else mean.

Definition smooth (alpha first last_ : float64) (mean : Price) : Price :=
  PriceFromFloat (alpha * last_ + (1.0 - alpha) * Float64 (seed first mean)).

Definition computeStats (sr : t) : option (float64 * float64) * t :=
  let start := Z.max 0 (i64 (histCount sr - Lookback sr)) in
  match closes sr start (histCount sr) with
  | None => (None, sr)
  | Some lookbackPrices =>
      let nLB := len lookbackPrices in
      let simpleMean := sumOf (fun p => p) lookbackPrices / of_Z nLB in
      let vwapMean := computeVWAP sr start (histCount sr) in
      let simpleMean :=
        if bool_decide (Mode sr = "vwap"%string) && negb (Z.eqb (len (volumeHistory sr)) 0) && (0 <? vwapMean)
        then vwapMean else simpleMean in
      match List.last (map Some lookbackPrices) None with
      | None => (None, sr <| emaMean ::= seed simpleMean |>)
      | Some last_ =>
          let sr := sr <| emaMean ::= smooth (2.0 / of_Z (i64 (Lookback sr + 1))) simpleMean last_ |>
                       <| trendEMA ::= smooth (2.0 / of_Z (i64 (TrendPeriod sr + 1))) simpleMean last_ |> in
          let variance := sumOf (fun p => let diff := p - simpleMean in diff * diff) lookbackPrices in
          (Some (Float64 (emaMean sr), sampleStd variance nLB), sr)
      end
  end.

(** The standard deviation of the returns of the last [period] bars. *)
Definition returnVol (sr : t) (period : Z) : option float64 :=
  if Z.ltb period 2 || Z.ltb (histCount sr) (i64 (period + 1)) then Some 0
  else
    let start := Z.max 0 (histCount sr - period) in
    match closes sr start (histCount sr) with
    | None => None
    | Some p =>
        let pairs := List.filter (fun q => (0 <? q.1) && (0 <? q.2)) (zip p (tail p)) in
        let returns := map (fun q => q.2 / q.1 - 1.0) pairs in
        if Z.ltb (len returns) 2 then Some 0
        else
          let mean := sumOf (fun x => x) returns / of_Z (len returns) in
          let sumSq := sumOf (fun x => let diff := x - mean in diff * diff) returns in
          Some (sampleStd sumSq (len returns))
    end.

(** The high-volatility filter. *)
Definition isHighVol (sr : t) : option bool :=
  if Z.leb (i64 (Lookback sr + 2)) (histCount sr) then
    match returnVol sr (Lookback sr), returnVol sr (TrendPeriod sr) with
    | Some recent, Some baseline => Some ((0 <? recent) && (0 <? baseline) && (VolMaxMult sr * baseline <? recent))
    | _, _ => None
    end
  else Some false.

(** The bar goes into the buffers; the volumes are made when they are first missed. *)
Definition push (sr : t) (candle : Candle) (idx : Z) : t :=
  let vol := volumeHistory sr in
  let vol := if Z.leb (len vol) idx then vol ++ replicate (Z.to_nat (size sr) - length vol) 0 else vol in
  sr <| closeHistory ::= <[Z.to_nat idx := Float64 (Close candle)]> |>
     <| volumeHistory := <[Z.to_nat idx := Volume candle]> vol |>
     <| histIndex := i64 (histIndex sr + 1) |>
     <| histCount := if Z.ltb (histCount sr) (size sr) then (histCount sr + 1)%Z else histCount sr |>.

Definition manage (sr : t) (pos : position) (candle : Candle) (mean z : float64) : option Signal * t :=
  let close := Float64 (Close candle) in
  let sr := sr <| barsHeld := i64 (barsHeld sr + 1) |> in
  let meanReversionComplete :=
    (bool_decide (PosSide pos = "BUY"%string) && (mean <=? close))
    || (bool_decide (PosSide pos = "SELL"%string) && (close <=? mean)) in
  if Z.leb (MaxHold sr) (barsHeld sr) || meanReversionComplete || (math.Abs z <? ExitZ sr) then
    (Some (exitSignal candle (exitSide' (PosSide pos))), sr <| openPosition := None |> <| barsHeld := 0%Z |>)
  else (None, sr).

Definition enter (sr : t) (candle : Candle) (side : string) : option Signal * t :=
  (Some (entrySignal candle side),
   sr <| openPosition := Some (mkPosition (Symbol candle) side (Close candle) 1) |> <| barsHeld := 1%Z |>).

(** With the statistics of the bar. *)
Definition trade (sr : t) (candle : Candle) (mean std : float64) (highVol : bool) : option Signal * t :=
  let z := (Float64 (Close candle) - mean) / std in
  match openPosition sr with
  | Some pos => manage sr pos candle mean z
  | None =>
      if highVol then (None, sr)
      else if z <? - EntryZ sr then
        if Z.ltb 0 (Compare (Close candle) (trendEMA sr)) then enter sr candle "BUY" else (None, sr)
      else if EntryZ sr <? z then
        if Z.ltb (Compare (Close candle) (trendEMA sr)) 0 then enter sr candle "SELL" else (None, sr)
      else (None, sr)
  end.

Definition Evaluate (sr : t) (candle : Candle) (regime : Z) : option (option Signal) * t :=
  let idx := Z.rem (histIndex sr) (size sr) in
  if Z.eqb (size sr) 0 || negb (inRange (closeHistory sr) idx) then (None, sr)
  else
    let sr := push sr candle idx in
    if Z.ltb (histCount sr) (Lookback sr) then (Some None, sr)
    else
      match computeStats sr with
      | (None, sr) => (None, sr)
      | (Some (mean, std), sr) =>
          if std <=? 0 then (Some None, sr)
          else
            match isHighVol sr with
            | None => (None, sr)
            | Some highVol => let '(s, sr) := trade sr candle mean std highVol in (Some s, sr)
            end
      end.

(** ** The law of the runner *)
Definition sideOfPosition (sr : t) : option string := PosSide <$> openPosition sr.

Lemma push_position sr c idx : openPosition (push sr c idx) = openPosition sr.
Proof. done. Qed.

Lemma stats_position sr : openPosition (computeStats sr).2 = openPosition sr.
Proof. unfold computeStats. by repeat case_match. Qed.

Lemma exitSide'_valid d : d = "BUY"%string \/ d = "SELL"%string -> exitSide' d = opposite d.
Proof. by intros [->| ->]. Qed.

Lemma trade_ok sr c mean std h :
  side_valid (sideOfPosition sr) ->
  position_law c (sideOfPosition sr) (trade sr c mean std h).1 (sideOfPosition (trade sr c mean std h).2).
Proof.
  unfold sideOfPosition, trade, manage, enter. intros V. destruct (openPosition sr) as [pos|] eqn:O; cbn in *.
  - case_match; cbn; rewrite ?O; [|done]. rewrite (exitSide'_valid _ (V _ eq_refl)). eauto 6.
  - repeat case_match; simplify_eq; cbn; rewrite ?O; eauto 8.
Qed.

Lemma mean_reversion_eval_ok sr c regime :
  side_valid (sideOfPosition sr) ->
  match (Evaluate sr c regime).1 with
  | Some s => position_law c (sideOfPosition sr) s (sideOfPosition (Evaluate sr c regime).2)
  | None => True
  end.
Proof.
  intros V. unfold Evaluate. destruct (_ || _); [done|]. cbv zeta.
  set (q := push sr c _). change (sideOfPosition sr) with (sideOfPosition q) in V |- *. clearbody q.
  destruct (Z.ltb _ _); [done|].
  assert (E : sideOfPosition (computeStats q).2 = sideOfPosition q)
    by (unfold sideOfPosition; by rewrite stats_position).
  destruct (computeStats q) as [[[mean std]|] q']; [|done]. cbn in E. rewrite <- E in V |- *.
  destruct (std <=? 0); [done|]. destruct (isHighVol q') as [h|]; [|done].
  pose proof (trade_ok q' c mean std h V) as L. by destruct (trade q' c mean std h).
Qed.

#[global] Instance mean_reversion_position_runner : PositionRunner t :=
  {| eval := Evaluate; Runner.position := sideOfPosition; eval_ok := mean_reversion_eval_ok |}.

(** ** A lookback that grew

    [bars] evaluations. *)
Fixpoint run (sr : t) (bars : list (Candle * Z)) : t :=
  match bars with
  | [] => sr
  | (c, regime) :: bars => run (Evaluate sr c regime).2 bars
  end.

(** Stuck behind the end of the buffer. *)
Definition grown (n m : Z) (sr : t) : Prop :=
  Lookback sr = m /\ len (closeHistory sr) = (n + 200)%Z /\ (0 <= histIndex sr <= n + 200)%Z.

Lemma stats_fixed sr :
  Lookback (computeStats sr).2 = Lookback sr /\ closeHistory (computeStats sr).2 = closeHistory sr /\
  histIndex (computeStats sr).2 = histIndex sr.
Proof. unfold computeStats. by repeat case_match. Qed.

Lemma trade_fixed sr c mean std h :
  Lookback (trade sr c mean std h).2 = Lookback sr /\ closeHistory (trade sr c mean std h).2 = closeHistory sr /\
  histIndex (trade sr c mean std h).2 = histIndex sr.
Proof. unfold trade, manage, enter. repeat case_match; by simplify_eq. Qed.

Lemma eval_fixed sr c regime :
  Z.eqb (size sr) 0 || negb (inRange (closeHistory sr) (Z.rem (histIndex sr) (size sr))) = false ->
  let sr' := (Evaluate sr c regime).2 in
  Lookback sr' = Lookback sr /\ len (closeHistory sr') = len (closeHistory sr) /\
  histIndex sr' = i64 (histIndex sr + 1).
Proof.
  intros R. unfold Evaluate. rewrite R. cbv zeta.
  set (q := push sr c _).
  assert (F : Lookback q = Lookback sr /\ len (closeHistory q) = len (closeHistory sr) /\
              histIndex q = i64 (histIndex sr + 1))
    by (unfold q, push, len; cbn; by rewrite length_insert).
  clearbody q. destruct (Z.ltb _ _); [done|]. destruct (stats_fixed q) as (E1 & E2 & E3).
  destruct (computeStats q) as [[[mean std]|] q']; cbn in *; rewrite <- E1, <- E2, <- E3 in F; [|done].
  destruct (std <=? 0); [done|]. destruct (isHighVol q') as [h|]; [|done].
  destruct (trade_fixed q' c mean std h) as (T1 & T2 & T3).
  destruct (trade q' c mean std h) as [s r]. cbn in *. by rewrite T1, T2, T3.
Qed.

Section Grown.
Context (n m : Z) (Hn : (0 <= n)%Z) (Hm : (n < m)%Z) (Hmax : (m < 2 ^ 62)%Z).

Lemma grown_size sr : grown n m sr -> size sr = (m + 200)%Z.
Proof. intros (E & _). unfold size. rewrite E. apply swrap_id; lia. Qed.

Lemma grown_index sr : grown n m sr -> Z.rem (histIndex sr) (size sr) = histIndex sr.
Proof. intros G. rewrite (grown_size sr G). destruct G as (_ & _ & ?). apply Z.rem_small. lia. Qed.

(** At the end of the buffer every evaluation panics and changes nothing. *)
Lemma grown_stuck sr c regime :
  grown n m sr -> histIndex sr = (n + 200)%Z -> Evaluate sr c regime = (None, sr).
Proof.
  intros G E. unfold Evaluate. rewrite (grown_index sr G). destruct G as (_ & L & _).
  unfold inRange. rewrite L, E. replace (Z.ltb (n + 200) (n + 200)) with false by lia.
  by rewrite andb_false_r, orb_true_r.
Qed.

Lemma grown_step sr c regime :
  grown n m sr -> (histIndex sr < n + 200)%Z ->
  grown n m (Evaluate sr c regime).2 /\ histIndex (Evaluate sr c regime).2 = (histIndex sr + 1)%Z.
Proof.
  intros G H. pose proof G as (E & L & I).
  destruct (eval_fixed sr c regime) as (F1 & F2 & F3).
  { rewrite (grown_index sr G), (grown_size sr G). unfold inRange. rewrite L. lia. }
  assert (F : i64 (histIndex sr + 1) = (histIndex sr + 1)%Z) by (apply swrap_id; lia).
  rewrite F in F3. unfold grown. rewrite F1, F2, F3. split; [|done]. split; [done|]. split; [done|]. lia.
Qed.

Lemma grown_run sr bars :
  grown n m sr ->
  grown n m (run sr bars) /\ histIndex (run sr bars) = Z.min (histIndex sr + Z.of_nat (length bars)) (n + 200).
Proof.
  revert sr. induction bars as [|[c regime] bars IH]; intros sr G; cbn.
  - destruct G as (? & ? & ?). split; [done|]. lia.
  - destruct (Z.eq_dec (histIndex sr) (n + 200)%Z) as [E|N].
    + rewrite (grown_stuck sr c regime G E). cbn. destruct (IH sr G) as [? ->]. split; [done|]. lia.
    + assert (H : (histIndex sr < n + 200)%Z) by (destruct G as (? & ? & ?); lia).
      destruct (grown_step sr c regime G H) as [G' E']. destruct (IH _ G') as [? ->]. split; [done|]. lia.
Qed.
End Grown.

(** A larger "lookback" kills the runner.  [SetParams] changes the modulus of the
    indices and not the buffers, so once [n + 200] bars have been evaluated, every
    further evaluation panics and leaves the runner, and the position it holds, as they
    are: there is no exit and no entry any more. *)
Theorem mean_reversion_lookback_stuck n entryZ exitZ maxHold params v bars c regime :
  (0 <= n)%Z -> params !! "lookback" = Some v -> (0 <? v) = true -> (n < math.int64 v < 2 ^ 62)%Z ->
  (n + 200 <= Z.of_nat (length bars))%Z ->
  let sr := run (SetParams (NewMeanReversionRunner n entryZ exitZ maxHold) params) bars in
  Evaluate sr c regime = (None, sr).
Proof.
  intros Hn P V [Hm Hmax] B.
  assert (G : grown n (math.int64 v) (SetParams (NewMeanReversionRunner n entryZ exitZ maxHold) params)).
  { unfold SetParams, setPositive, BaseRunner.setParam. rewrite P, V.
    repeat case_match; cbn; (split; [done|]; split; [|cbn; lia]); unfold len; cbn; rewrite length_replicate; lia. }
  assert (I : histIndex (SetParams (NewMeanReversionRunner n entryZ exitZ maxHold) params) = 0%Z)
    by (unfold SetParams, setPositive, BaseRunner.setParam; by repeat case_match).
  destruct (grown_run n (math.int64 v) Hn Hm Hmax _ bars G) as [G' E].
  apply (grown_stuck n (math.int64 v) Hn Hm Hmax); [done|]. rewrite E, I. lia.
Qed.

(** What [trade] leaves alone is what the volatilities read. *)
Lemma trade_vol sr c mean std h period : returnVol (trade sr c mean std h).2 period = returnVol sr period.
Proof. unfold trade, manage, enter. repeat case_match; by simplify_eq. Qed.

Lemma zero_mul x : ffin x = true -> fv (0 * x) = 0%Z /\ fnan (0 * x) = false.
Proof.
  intros F. destruct (mul_nearest 0 x eq_refl F) as [N R].
  assert (Z0 : nearest 0 (2 ^ 1074) (0 * x)) by (change 0%Z with (fv 0 * fv x)%Z; by split).
  split; [|done]. by apply (nearest_zero (2 ^ 1074)).
Qed.

(** The "vwap_mr" runner is made without a volatility multiplier, so its filter
    rejects every entry once both volatilities are positive: an entry needs a recent or a
    long-term volatility that is not. *)
Theorem vwap_mr_entry_needs_zero_volatility sr c regime s sr' recent baseline :
  Evaluate sr c regime = (Some (Some s), sr') -> SigAction s = SignalEntry -> VolMaxMult sr' = 0 ->
  (i64 (Lookback sr' + 2) <= histCount sr')%Z ->
  returnVol sr' (Lookback sr') = Some recent -> returnVol sr' (TrendPeriod sr') = Some baseline ->
  ffin baseline = true ->
  (0 <? recent) = false \/ (0 <? baseline) = false.
Proof.
  unfold Evaluate. destruct (_ || _); [done|]. cbv zeta. generalize (push sr c (Z.rem (histIndex sr) (size sr))).
  intros q. destruct (Z.ltb _ _); [done|]. destruct (computeStats q) as [[[mean std]|] q']; [|done].
  destruct (std <=? 0); [done|].
  destruct (isHighVol q') as [h|] eqn:HV; [|done].
  pose proof (trade_vol q' c mean std h) as TV.
  assert (F : histCount (trade q' c mean std h).2 = histCount q' /\ Lookback (trade q' c mean std h).2 = Lookback q' /\
              TrendPeriod (trade q' c mean std h).2 = TrendPeriod q' /\
              VolMaxMult (trade q' c mean std h).2 = VolMaxMult q')
    by (unfold trade, manage, enter; repeat case_match; by simplify_eq).
  assert (E : h = true -> forall s', (trade q' c mean std h).1 = Some s' -> SigAction s' = SignalExit)
    by (intros ->; unfold trade, manage, enter; repeat case_match; intros s' E'; cbn in E'; by simplify_eq).
  destruct (trade q' c mean std h) as [o r]. intros [= -> ->] A V W R B Fin. cbn in *.
  destruct F as (F1 & F2 & F3 & F4). rewrite TV, F2 in R. rewrite TV, F3 in B. rewrite F1, F2 in W. rewrite F4 in V.
  unfold isHighVol in HV. replace (Z.leb (i64 (Lookback q' + 2)) (histCount q')) with true in HV by lia.
  rewrite R, B, V in HV. injection HV as HV. destruct (0 <? recent) eqn:PR; [|by left].
  destruct (0 <? baseline) eqn:PB; [|by right]. exfalso. cbn in HV.
  destruct (zero_mul baseline Fin) as [E0 N0].
  assert (H : (0 * baseline <? recent) = true).
  { apply ltb_true in PR as (_ & ? & ?). apply ltb_true. rewrite E0. by split. }
  rewrite HV in H. rewrite (E H s eq_refl) in A. done.
Qed.

(** ** Bars for the witnesses *)
Definition barAt (i : nat) (close : Z) : Candle * Z :=
  (mkCandle (Z.of_nat i * 60000000000)%Z (close * 100000)%Z (close * 100000)%Z (close * 100000)%Z (close * 100000)%Z
     1000 "X" 0 "" "", 0%Z).

(** Prices that rise for 10 bars, hold for 20 and fall back a little. *)
Definition rising : list (Candle * Z) :=
  map (fun i => barAt i (1000 + 10 * Z.min 10 (Z.of_nat i) + Z.of_nat i mod 2)%Z) (seq 0 30).

Definition dip : Candle := (barAt 30 1083%Z).1.
Definition afterDip : t := (Evaluate (run vwapRunner rising) dip 0%Z).2.
Definition recentVol : float64 := default 0 (returnVol afterDip 20%Z).

Lemma vwap_mr_entry_needs_zero_volatility_witness :
  SigAction (entrySignal dip "BUY") = SignalEntry /\ ((0 <? recentVol) = false \/ (0 <? 0) = false).
Proof.
  split; [reflexivity|].
  refine (vwap_mr_entry_needs_zero_volatility (run vwapRunner rising) dip 0%Z (entrySignal dip "BUY") afterDip
            recentVol 0 _ _ _ _ _ _ _); vm_compute; solve [reflexivity | discriminate].
Defined.

Lemma mean_reversion_lookback_stuck_witness :
  let sr := run (SetParams (NewMeanReversionRunner 20 1.25 0.5 200) {["lookback" := 60]})
              (replicate 220 (barAt 0 100)) in
  Evaluate sr dip 0%Z = (None, sr).
Proof.
  apply (mean_reversion_lookback_stuck 20 1.25 0.5 200 {["lookback" := 60]} 60 (replicate 220 (barAt 0 100)) dip 0%Z).
  - done.
  - reflexivity.
  - vm_compute. reflexivity.
  - vm_compute. split; reflexivity.
  - vm_compute. discriminate.
Defined.
