(* ===== verification/Grid.v ===== *)
(** * Grid trading ([internal/strategy/grid_runner.go])

    [GridRunner]: price levels around a reference, a position per level, the state that
    [Evaluate] keeps.  The map of positions is a [gmap] from levels. *)
From Stdlib Require Import ZArith Lia Bool Floats.
From stdpp Require Import sorting.
From coqutil Require Import RecordSettersUsingExistingGetters.
From S2P Require Import Prelude Float64 FloatRound FloatLaws Price StopLoss PoolSim History Trade Indicators Runner.
From S2P Require Import TrendRunners FadeRunners.
Import GoInt.
Local Open Scope float_scope.
Local Open Scope go_scope.

Record gridPosition := mkGridPosition {
  Side : string;
  Quantity : float64;
  EntryPrice : Price;
  GridLevel : Z;
  TakePrice : Price;
  StopPrice : Price
}.

Record t := mk {
  GridLevels : float64;
  GridSpacingPct : float64;
  PositionScale : float64;
  MaxOpen : float64;
  TakeProfitPct : float64;
  StopLossPct : float64;
  openCount : Z;
  openPositions : gmap Z gridPosition;
  lastPrice : Price;
  referencePrice : Price;
  priceInit : bool;
  barCount : Z;
  Disabled : bool;
  AdjustByVolatility : bool;
  CurrentVIX : float64;
  CurrentATR : float64;
  VolMaxSpacingMult : float64
}.

Definition NewGridRunner : t := mk 5 1.0 1.0 10 1.0 0.5 0 ∅ 0%Z 0%Z false 0 false false 0 0 2.0.

(** The bar counter survives a reset. *)
Definition Reset (r : t) : t :=
  r <| openCount := 0%Z |> <| lastPrice := 0%Z |> <| referencePrice := 0%Z |> <| priceInit := false |>
    <| openPositions := ∅ |>.

Definition SetVIX (r : t) (vix : float64) : t := r <| CurrentVIX := vix |>.
Definition SetATR (r : t) (atr : float64) : t := r <| CurrentATR := atr |>.

Definition SetParams (r : t) (params : gmap string float64) : t :=
  let set {A} := @BaseRunner.setParam A params in
  let r := set "grid_levels"%string (fun v r => r <| GridLevels := v |>) r in
  let r := set "grid_spacing_pct"%string (fun v r => r <| GridSpacingPct := v |>) r in
  let r := set "position_scale"%string (fun v r => r <| PositionScale := v |>) r in
  let r := set "max_open"%string (fun v r => r <| MaxOpen := v |>) r in
  let r := set "take_profit_pct"%string (fun v r => r <| TakeProfitPct := v |>) r in
  set "stop_loss_pct"%string (fun v r => r <| StopLossPct := v |>) r.

(** [1 + (x-base)/base*0.5] between 0.7 and the runner's maximum. *)
Definition spacingMult (r : t) (x base : float64) : float64 :=
  let mult := 1.0 + (x - base) / base * 0.5 in
  let mult := if mult <? 0.7 then 0.7 else mult in
  if VolMaxSpacingMult r <? mult then VolMaxSpacingMult r else mult.

Definition computeVolatilityMultiplier (r : t) : float64 :=
  if 0 <? CurrentATR r then spacingMult r (CurrentATR r) 5.0
  else if 0 <? CurrentVIX r then spacingMult r (CurrentVIX r) 15.0
  else 1.0.

(** The regime's limit on open positions and spacing. *)
Definition effective (r : t) (regime : Z) : float64 * float64 :=
  let '(maxOpen, spacing) :=
    if Z.eqb regime RegimeCalm then (MaxOpen r, GridSpacingPct r * 0.8)
    else if Z.eqb regime RegimeHighVol then (math.Max 1 (MaxOpen r * 0.5), GridSpacingPct r * 1.5)
    else (MaxOpen r, GridSpacingPct r) in
  (maxOpen, if AdjustByVolatility r then spacing * computeVolatilityMultiplier r else spacing).

Definition levelsOf (r : t) : Z :=
  let levels := math.int64 (GridLevels r) in
  let levels := if Z.ltb 20 levels then 20%Z else levels in
  if Z.ltb levels 2 then 2%Z else levels.

(** The price of level [i], from [-levels] to [levels]. *)
Definition levelPrice (reference : Price) (spacing : float64) (i : Z) : Price :=
  if Z.eqb i 0 then reference
  else if Z.ltb 0 i then MulFloat reference (1.0 + spacing * of_Z i)
  else MulFloat reference (1.0 - spacing * of_Z (- i)).

Definition gridPrices (reference : Price) (spacing : float64) (levels : Z) : list (Z * Price) :=
  map (fun i => (i, levelPrice reference spacing i)) (range (- levels) (levels + 1)).

(** The side of the exit, when the price closes the position. *)
Definition closeSide (pos : gridPosition) (price : Price) : option string :=
  let buy := bool_decide (Side pos = "BUY"%string) in
  let sell := bool_decide (Side pos = "SELL"%string) in
  if buy && Z.leb 0 (Compare price (TakePrice pos)) then Some "SELL"%string
  else if sell && Z.leb (Compare price (TakePrice pos)) 0 then Some "BUY"%string
  else if buy && Z.leb (Compare price (StopPrice pos)) 0 then Some "SELL"%string
  else if sell && Z.leb 0 (Compare price (StopPrice pos)) then Some "BUY"%string
  else None.

(** [sort.Ints] of the levels. *)
Definition closeLevels (r : t) : list Z := merge_sort Z.le (elements (dom (openPositions r))).

(** The loop over the levels: every position the price closes is removed, the exit side
    is that of the last one. *)
Definition closeLevel (price : Price) (acc : t * option string) (level : Z) : t * option string :=
  let '(r, exitSide) := acc in
  match openPositions r !! level with
  | Some pos =>
      match closeSide pos price with
      | Some side =>
          (r <| openPositions ::= delete level |> <| openCount := i64 (openCount r - 1) |>, Some side)
      | None => acc
      end
  | None => acc
  end.

Definition closeAll (r : t) (price : Price) : t * option string := fold_left (closeLevel price) (closeLevels r) (r, None).

(** The loop over the grid: the level of the nearest price above and below, [-1] when
    there is none. *)
Record nearest := mkNearest { above : Z; below : Z; minAbove : float64; minBelow : float64 }.

Definition nearestStep (priceF : float64) (n : nearest) (lp : Z * Price) : nearest :=
  let gpF := Float64 lp.2 in
  let n := if (priceF <? gpF) && (gpF - priceF <? minAbove n)
           then mkNearest lp.1 (below n) (gpF - priceF) (minBelow n) else n in
  if (gpF <? priceF) && (priceF - gpF <? minBelow n)
  then mkNearest (above n) lp.1 (minAbove n) (priceF - gpF) else n.

Definition nearestLevels (prices : list (Z * Price)) (price : Price) : nearest :=
  fold_left (nearestStep (Float64 price)) prices (mkNearest (-1) (-1) MaxFloat64 MaxFloat64).

Definition openLevel (r : t) (candle : Candle) (level : Z) (entryPrice : Price) (side : string) (takePct stopPct : float64) :
    option Signal * t :=
  let '(take_, stop) := if bool_decide (side = "BUY"%string)
                       then (MulFloat entryPrice (1.0 + takePct), MulFloat entryPrice (1.0 - stopPct))
                       else (MulFloat entryPrice (1.0 - takePct), MulFloat entryPrice (1.0 + stopPct)) in
  (Some (entrySignal candle side),
   r <| openPositions ::= <[level := mkGridPosition side (100 * PositionScale r) entryPrice level take_ stop]> |>
     <| openCount := i64 (openCount r + 1) |>).

(** A level below is bought when the price has fallen, a level above is sold when it
    has risen, unless the level is open already. *)
Definition enter (r : t) (candle : Candle) (spacing : float64) : option Signal * t :=
  let price := Close candle in
  let n := nearestLevels (gridPrices (referencePrice r) spacing (levelsOf r)) price in
  let tpPct := TakeProfitPct r / 100.0 in
  let slPct := StopLossPct r / 100.0 in
  let try_ level side :=
    openLevel r candle level (levelPrice (referencePrice r) spacing level) side tpPct slPct in
  let free level := negb (Z.eqb level (-1)) && negb (bool_decide (is_Some (openPositions r !! level))) in
  if Z.ltb 0 (Compare (lastPrice r) price) && free (below n) then try_ (below n) "BUY"%string
  else if Z.ltb (Compare (lastPrice r) price) 0 && free (above n) then try_ (above n) "SELL"%string
  else (None, r).

Definition Evaluate (r : t) (candle : Candle) (regime : Z) : option Signal * t :=
  let price := Close candle in
  if Disabled r then (None, r)
  else if IsZero price then (None, r)
  else
    let '(effectiveMaxOpen, effectiveSpacing) := effective r regime in
    if negb (priceInit r) then
      (None, r <| referencePrice := price |> <| lastPrice := price |> <| priceInit := true |>)
    else
      let r := r <| barCount := i64 (barCount r + 1) |> in
      let r := if Z.ltb 0 (barCount r) && Z.eqb (Z.rem (barCount r) 100) 0 && Z.eqb (openCount r) 0
               then r <| referencePrice := price |> else r in
      let spacing := effectiveSpacing / 100.0 in
      let spacing := if spacing <=? 0 then 0.01 else spacing in
      match closeAll r price with
      | (r, Some exitSide) => (Some (exitSignal candle exitSide), r)
      | (r, None) =>
          if Z.leb (math.int64 effectiveMaxOpen) (openCount r) then (None, r <| lastPrice := price |>)
          else
            let '(signal, r) := enter r candle spacing in
            (signal, r <| lastPrice := price |>)
      end.

(** ** The book of open levels *)
Definition level_ok (level : Z) (pos : gridPosition) : Prop :=
  (-20 <= level <= 20)%Z /\ level <> (-1)%Z /\ GridLevel pos = level /\ (Side pos = "BUY"%string \/ Side pos = "SELL"%string).

Definition grid_wf (r : t) : Prop :=
  openCount r = Z.of_nat (base.size (openPositions r)) /\ map_Forall level_ok (openPositions r).

Lemma levels_bounded r : (2 <= levelsOf r <= 20)%Z.
Proof. unfold levelsOf. repeat case_match; lia. Qed.

Lemma range_in i start stop : i ∈ range start stop -> (start <= i < stop)%Z.
Proof.
  unfold range. intros (k & -> & Hk)%list_elem_of_fmap. apply elem_of_seq in Hk. lia.
Qed.

(** At most 41 levels fit. *)
Lemma book_small (m : gmap Z gridPosition) : map_Forall level_ok m -> (base.size m <= 41)%nat.
Proof.
  intros H. rewrite <- size_dom.
  trans (base.size (list_to_set (seqZ (-20) 41) : gset Z)).
  - apply subseteq_size. intros l [pos Hl]%elem_of_dom. apply elem_of_list_to_set, elem_of_seqZ.
    destruct (H l pos Hl) as [? _]. lia.
  - by rewrite size_list_to_set by apply NoDup_seqZ.
Qed.

Lemma close_level_wf price acc level : grid_wf acc.1 -> grid_wf (closeLevel price acc level).1.
Proof.
  destruct acc as [r e]. intros [C F]. cbn in *. destruct (openPositions r !! level) as [pos|] eqn:L; [|by split].
  destruct (closeSide pos price); [|by split]. split; cbn.
  - pose proof (book_small _ F). rewrite C. rewrite map_size_delete_Some by done.
    assert (base.size (openPositions r) <> 0%nat) by (intros E%map_size_empty_inv; by rewrite E in L).
    unfold i64, RecordSettersUsingExistingGetters.const. rewrite swrap_id by lia. lia.
  - by apply map_Forall_delete.
Qed.

Lemma close_all_wf r price : grid_wf r -> grid_wf (closeAll r price).1.
Proof.
  unfold closeAll. intros W. change r with (r, None : option string).1 in W. revert W.
  generalize (r, None : option string). induction (closeLevels r) as [|l ls IH]; intros acc W; [done|].
  apply IH, close_level_wf, W.
Qed.

Definition level_in (levels : Z) (l : Z) : Prop := l = (-1)%Z \/ (- levels <= l <= levels)%Z.

Lemma nearest_levels_in reference spacing levels price :
  let n := nearestLevels (gridPrices reference spacing levels) price in
  level_in levels (above n) /\ level_in levels (below n).
Proof.
  unfold nearestLevels. cbv zeta.
  assert (H : forall l, l ∈ gridPrices reference spacing levels -> level_in levels l.1).
  { unfold gridPrices. intros l (i & -> & Hi%range_in)%list_elem_of_fmap. right. cbn. lia. }
  assert (I : level_in levels (above (mkNearest (-1) (-1) MaxFloat64 MaxFloat64)) /\
              level_in levels (below (mkNearest (-1) (-1) MaxFloat64 MaxFloat64))) by (split; by left).
  revert I. generalize (mkNearest (-1) (-1) MaxFloat64 MaxFloat64).
  induction (gridPrices reference spacing levels) as [|l ls IH]; intros n I; [done|]. cbn.
  apply IH; [intros l' Hl; apply H; by right|].
  assert (L : level_in levels l.1) by (apply H; by left). unfold nearestStep. destruct I.
  repeat case_match; by split.
Qed.

Lemma open_level_wf r candle level entryPrice side tp sl :
  grid_wf r -> (-20 <= level <= 20)%Z -> level <> (-1)%Z -> openPositions r !! level = None ->
  side = "BUY"%string \/ side = "SELL"%string ->
  grid_wf (openLevel r candle level entryPrice side tp sl).2.
Proof.
  intros [C F] L N E V. unfold openLevel. case_match. split; cbn.
  - pose proof (book_small _ F). rewrite map_size_insert_None by done. rewrite C.
    unfold i64, RecordSettersUsingExistingGetters.const. rewrite swrap_id by lia. lia.
  - by apply map_Forall_insert_2.
Qed.

Lemma enter_wf r candle spacing : grid_wf r -> grid_wf (enter r candle spacing).2.
Proof.
  intros W. unfold enter. cbv zeta. pose proof (levels_bounded r) as B.
  destruct (nearest_levels_in (referencePrice r) spacing (levelsOf r) (Close candle)) as [A L].
  set (n := nearestLevels _ _) in *. clearbody n.
  assert (Free : forall l, negb (Z.eqb l (-1)) && negb (bool_decide (is_Some (openPositions r !! l))) = true ->
                 l <> (-1)%Z /\ openPositions r !! l = None).
  { intros l. case_bool_decide as D; [by rewrite andb_false_r|]. rewrite andb_true_r. intros Hl.
    split; [lia|]. destruct (openPositions r !! l); [|done]. exfalso. by apply D. }
  destruct (_ && _) eqn:E1; [|destruct (Z.ltb (Compare (lastPrice r) (Close candle)) 0 && _) eqn:E2; [|done]].
  - apply andb_prop in E1 as [_ [? ?]%Free]. apply open_level_wf; auto. destruct L; lia.
  - apply andb_prop in E2 as [_ [? ?]%Free]. apply open_level_wf; auto. destruct A; lia.
Qed.

Lemma grid_eval_wf r candle regime : grid_wf r -> grid_wf (Evaluate r candle regime).2.
Proof.
  intros W. unfold Evaluate. destruct (Disabled r); [done|]. destruct (IsZero _); [done|].
  destruct (effective r regime) as [maxOpen spacing]. destruct (negb _); [done|]. cbv zeta.
  set (r1 := if _ : bool then _ else _).
  assert (W1 : grid_wf r1) by (unfold r1; by destruct (_ && _)). clearbody r1. clear W.
  pose proof (close_all_wf r1 (Close candle) W1) as W2.
  destruct (closeAll r1 (Close candle)) as [r2 [side|]]; [done|]. cbn in W2.
  destruct (Z.leb _ _); [done|].
  pose proof (enter_wf r2 candle (if spacing / 100.0 <=? 0 then 0.01 else spacing / 100.0) W2) as W3.
  by destruct (enter r2 candle _).
Qed.

(** The bars one after the other. *)
Fixpoint run (r : t) (bars : list (Candle * Z)) : t :=
  match bars with
  | [] => r
  | (c, regime) :: bars => run (Evaluate r c regime).2 bars
  end.

Lemma grid_run_wf r bars : grid_wf r -> grid_wf (run r bars).
Proof. revert r. induction bars as [|[c g] bars IH]; intros r W; [done|]. by apply IH, grid_eval_wf. Qed.

(** After any bars, with any parameters, the grid's count of open positions is the
    number of levels in its map, every open level lies within 20 levels of the reference
    and stores its own number and a side, and the level [-1], the code's mark for "no
    level", is never traded. *)
Theorem grid_book_consistent params bars :
  let r := run (SetParams NewGridRunner params) bars in
  openCount r = Z.of_nat (base.size (openPositions r)) /\
  (forall level pos, openPositions r !! level = Some pos ->
     (-20 <= level <= 20)%Z /\ level <> (-1)%Z /\ GridLevel pos = level /\
     (Side pos = "BUY"%string \/ Side pos = "SELL"%string)).
Proof.
  assert (W : grid_wf (SetParams NewGridRunner params)).
  { unfold SetParams, BaseRunner.setParam. repeat case_match; by split. }
  by destruct (grid_run_wf _ bars W).
Qed.
