(* ===== verification/Pairs.v ===== *)
(** * Pairs trading ([internal/strategy/pairs_runner.go])

    [PairsRunner]: the log spread of two symbols against a hedge ratio.  The secondary
    prices come through [PushSecondaryPrice]; reading them before the first is an index
    of -1, which panics, and [Evaluate] is then [None]. *)
From Stdlib Require Import ZArith Lia Bool Floats.
From coqutil Require Import RecordSettersUsingExistingGetters.
From S2P Require Import Prelude Float64 FloatRound FloatLaws Price StopLoss PoolSim History Trade Indicators Runner.
From S2P Require Import TrendRunners FadeRunners.
Import GoInt BaseRunner.
Local Open Scope float_scope.
Local Open Scope go_scope.

Record PairStatus := mkPairStatus {
  Primary : string;
  Secondary : string;
  HedgeRatio_ : float64;
  PValue : float64;
  HalfLife : float64;
  LastCheck : Z;
  Valid : bool
}.

Record t := mk {
  Base : BaseRunner.t;
  SecondarySymbol : string;
  pairStatus : PairStatus;
  EntryZ : float64;
  ExitZ : float64;
  MaxHold : Z;
  MinPairCorrelation : float64;
  SpreadLookback : Z;
  spreadHistory : list float64;
  spreadHistIdx : Z;
  spreadHistCount : Z;
  secPriceHistory : list float64;
  secHistIdx : Z;
  secHistCount : Z;
  barsHeld : Z
}.

Definition NewPairsRunner (primary secondary : string) : t :=
  mk (NewBaseRunner 256) secondary (mkPairStatus primary secondary 0 0 0 zeroTime false) 2.0 0.5 60 0.5 60
    (replicate 256 0) 0%Z 0%Z (replicate 256 0) 0%Z 0%Z 0%Z.

(** The contents of the spread and secondary buffers survive a reset. *)
Definition Reset (r : t) : t :=
  r <| Base ::= BaseRunner.Reset |> <| spreadHistIdx := 0%Z |> <| spreadHistCount := 0%Z |> <| secHistIdx := 0%Z |>
    <| secHistCount := 0%Z |> <| barsHeld := 0%Z |>.

Definition SetParams (r : t) (params : gmap string float64) : t :=
  let r := setParam params "entry_z" (fun v r => r <| EntryZ := v |>) r in
  let r := setParam params "exit_z" (fun v r => r <| ExitZ := v |>) r in
  let r := setParam params "max_hold" (fun v r => r <| MaxHold := math.int64 v |>) r in
  let r := setParam params "spread_lookback" (fun v r => r <| SpreadLookback := math.int64 v |>) r in
  setParam params "min_pair_correlation" (fun v r => r <| MinPairCorrelation := v |>) r.

Definition SetPairStatus (r : t) (status : PairStatus) : t := r <| pairStatus := status |>.

Definition bump (count : Z) : Z := if Z.ltb count 256 then Z.add count 1 else count.

Definition PushSecondaryPrice (r : t) (price : Price) : t :=
  r <| secPriceHistory ::= <[Z.to_nat (Z.rem (secHistIdx r) 256) := Float64 price]> |>
    <| secHistIdx := i64 (secHistIdx r + 1) |>
    <| secHistCount ::= bump |>.

Section PairsRunner.
Context {LG : Logarithm}.

(** The logarithms of the slots that hold two positive prices. *)
Definition logPairs (r : t) : list (float64 * float64) :=
  let minN := if Z.ltb (secHistCount r) (HistCount (Base r)) then secHistCount r else HistCount (Base r) in
  let slots := map (fun i => (at_ (secPriceHistory r) (Z.rem i 256),
                              at_ (PriceHistory (Base r)) (Z.rem i (BufferSize (Base r))))) (range 0 minN) in
  map (fun p => (Log p.1, Log p.2)) (List.filter (fun p => (0 <? p.2) && (0 <? p.1)) slots).

Definition computeSimpleHedge (r : t) : float64 :=
  if Z.ltb (HistCount (Base r)) 20 || Z.ltb (secHistCount r) 20 then 1.0
  else
    let xy := logPairs r in
    let count := Z.of_nat (length xy) in
    if Z.ltb count 5 then 1.0
    else
      let sumX := sumOf fst xy in let sumY := sumOf snd xy in
      let sumXY := sumOf (fun p => p.1 * p.2) xy in let sumX2 := sumOf (fun p => p.1 * p.1) xy in
      let denom := sumX2 * of_Z count - sumX * sumX in
      if math.Abs denom <? 1e-10 then 1.0 else (sumXY * of_Z count - sumX * sumY) / denom.

Definition HedgeRatio (r : t) : float64 :=
  if Valid (pairStatus r) && negb (HedgeRatio_ (pairStatus r) =? 0) then HedgeRatio_ (pairStatus r)
  else computeSimpleHedge r.

Definition pairLogCorrelation (r : t) : float64 :=
  if Z.ltb (HistCount (Base r)) 20 || Z.ltb (secHistCount r) 20 then 0
  else
    let xy := logPairs r in
    let count := Z.of_nat (length xy) in
    if Z.ltb count 5 then 0
    else
      let sumX := sumOf fst xy in let sumY := sumOf snd xy in
      let sumXY := sumOf (fun p => p.1 * p.2) xy in
      let sumX2 := sumOf (fun p => p.1 * p.1) xy in let sumY2 := sumOf (fun p => p.2 * p.2) xy in
      let num := sumXY * of_Z count - sumX * sumY in
      let denX := sumX2 * of_Z count - sumX * sumX in
      let denY := sumY2 * of_Z count - sumY * sumY in
      let den := PrimFloat.sqrt (denX * denY) in
      if den <=? 0 then 0 else num / den.

Definition computeSpreadStats (r : t) : float64 * float64 :=
  let n := spreadHistCount r in
  if Z.ltb n (SpreadLookback r) then (0, 0)
  else
    let start := Z.max 0 (i64 (n - SpreadLookback r)) in
    let vals := List.filter (fun v => negb (math.IsNaN v)) (map (fun i => at_ (spreadHistory r) (Z.rem i 256)) (range start n)) in
    let count := len vals in
    if Z.ltb count 2 then (0, 0)
    else
      let mean := sumOf (fun v => v) vals / of_Z count in
      (mean, sampleStd (sumOf (fun v => let diff := v - mean in diff * diff) vals) count).

Definition invertSideForClose (side : string) : string := if bool_decide (side = "BUY"%string) then "SELL" else "BUY".

Definition close_ (r : t) (candle : Candle) (side : string) : option Signal * t :=
  (Some (exitSignal candle side), r <| Base ::= ClosePosition |>).

Definition manage (r : t) (candle : Candle) (zScore : float64) : option Signal * t :=
  let r := r <| barsHeld := i64 (barsHeld r + 1) |> in
  let side := CurrentSide (Base r) in
  if Z.leb (MaxHold r) (barsHeld r) then close_ r candle (invertSideForClose side)
  else if bool_decide (side = "BUY"%string) && (ExitZ r <=? zScore) then close_ r candle "SELL"
  else if bool_decide (side = "SELL"%string) && (zScore <=? - ExitZ r) then close_ r candle "BUY"
  else (None, r).

(** An entry sets the position's fields itself: no stop, no target, no entry time. *)
Definition enter (r : t) (candle : Candle) (side : string) : option Signal * t :=
  (Some (entrySignal candle side),
   r <| barsHeld := 0%Z |>
     <| Base ::= fun b => b <| EntryPrice := Close candle |> <| PositionOpen := true |> <| CurrentSide := side |> |>).

Definition trade (r : t) (candle : Candle) (zScore : float64) : option Signal * t :=
  if PositionOpen (Base r) then manage r candle zScore
  else if (0 <? MinPairCorrelation r) && (pairLogCorrelation r <? MinPairCorrelation r) then (None, r)
  else if zScore <=? - EntryZ r then enter r candle "BUY"
  else if EntryZ r <=? zScore then enter r candle "SELL"
  else (None, r).

(** With the pair's check passed. *)
Definition followSpread (r : t) (candle : Candle) : option (option Signal) * t :=
  let beta := HedgeRatio r in
  let beta := if beta <=? 0 then 1.0 else beta in
  let i := Z.rem (i64 (secHistIdx r - 1)) 256 in
  if Z.ltb i 0 then (None, r)
  else
    let spread := Log (Float64 (Close candle)) - beta * Log (at_ (secPriceHistory r) i) in
    if math.IsNaN spread || math.IsInf spread 0 then (Some None, r)
    else
      let r := r <| spreadHistory ::= <[Z.to_nat (Z.rem (spreadHistIdx r) 256) := spread]> |>
                 <| spreadHistIdx := i64 (spreadHistIdx r + 1) |> <| spreadHistCount ::= bump |> in
      let '(spreadMean, spreadStd) := computeSpreadStats r in
      if spreadStd <=? 0 then (Some None, r)
      else let '(s, r) := trade r candle ((spread - spreadMean) / spreadStd) in (Some s, r).

Definition Evaluate (r : t) (candle : Candle) (regime : Z) : option (option Signal) * t :=
  let price := Close candle in
  if IsZero price then (Some None, r)
  else
    let r := r <| Base ::= fun b => PushPrice b price (High candle) (Low candle) (Volume candle) |> in
    if Z.ltb (HistCount (Base r)) (SpreadLookback r) || Z.ltb (secHistCount r) (SpreadLookback r) then (Some None, r)
    else if Valid (pairStatus r) && (0.05 <? PValue (pairStatus r)) then
      if PositionOpen (Base r) then
        let '(s, r) := close_ r candle (invertSideForClose (CurrentSide (Base r))) in (Some s, r)
      else (Some None, r)
    else followSpread r candle.

(** ** The law of the runner *)
Lemma pairs_trade_ok r c z :
  side_ok (Base r) -> signal_ok c (Base r) (trade r c z).1 (Base (trade r c z).2).
Proof.
  intros S. unfold trade, manage, close_, enter, invertSideForClose.
  destruct (PositionOpen (Base r)) eqn:O; law_cases.
Qed.

Lemma pairs_follow_ok r c :
  side_ok (Base r) ->
  match (followSpread r c).1 with
  | Some s => signal_ok c (Base r) s (Base (followSpread r c).2)
  | None => True
  end.
Proof.
  intros S. unfold followSpread. cbv zeta. destruct (Z.ltb _ 0); [done|]. destruct (_ || _); [done|].
  set (q := r <| spreadHistory ::= _ |> <| spreadHistIdx := _ |> <| spreadHistCount ::= _ |>).
  change (Base r) with (Base q) in S |- *. clearbody q.
  destruct (computeSpreadStats q) as [m d]. destruct (d <=? 0); [done|].
  pose proof (pairs_trade_ok q c ((Log (Float64 (Close c)) - (if HedgeRatio r <=? 0 then 1.0 else HedgeRatio r)
    * Log (at_ (secPriceHistory r) (Z.rem (i64 (secHistIdx r - 1)) 256)) - m) / d) S) as L.
  by destruct (trade q c _).
Qed.

Lemma pairs_eval_base r c regime :
  side_ok (Base r) ->
  match (Evaluate r c regime).1 with
  | Some s => signal_ok c (Base r) s (Base (Evaluate r c regime).2)
  | None => True
  end.
Proof.
  intros S. unfold Evaluate. destruct (IsZero _); [done|].
  pose proof (keeps_push (Base r) (Close c) (High c) (Low c) (Volume c)) as K.
  apply (keeps_side_ok _ _ K) in S.
  set (q := r <| Base ::= fun b => PushPrice b (Close c) (High c) (Low c) (Volume c) |>).
  change (PushPrice (Base r) (Close c) (High c) (Low c) (Volume c)) with (Base q) in *. clearbody q. cbv zeta.
  assert (H : forall e : option (option Signal) * t,
    match e.1 with Some s => signal_ok c (Base q) s (Base e.2) | None => True end ->
    match e.1 with Some s => signal_ok c (Base r) s (Base e.2) | None => True end)
    by (intros [[s|] e]; [apply (keeps_signal_ok _ _ _ _ _ K)|done]).
  apply H. destruct (_ || _); [done|]. destruct (_ && _); [|by apply pairs_follow_ok].
  destruct (PositionOpen (Base q)) eqn:O; [|done]. cbn. by apply signal_exit.
Qed.

Lemma pairs_eval_ok r c regime :
  side_valid (sideOf (Base r)) ->
  match (Evaluate r c regime).1 with
  | Some s => position_law c (sideOf (Base r)) s (sideOf (Base (Evaluate r c regime).2))
  | None => True
  end.
Proof.
  intros S%sideOf_valid. pose proof (pairs_eval_base r c regime S) as L.
  destruct (Evaluate r c regime) as [[s|] r']; [|done]. by apply base_law.
Qed.

#[global] Instance pairs_position_runner : PositionRunner t :=
  {| eval := Evaluate; position r := sideOf (Base r); eval_ok := pairs_eval_ok |}.
End PairsRunner.
