(* ===== verification/Strategies.v ===== *)
(** * The strategies and their registry ([internal/strategy/registry.go])

    [Strategy]: a runner of any kind, with the operations of the source's interface by the
    kind.  It implements [StrategyRunner] and [LiveRunner], so the engines run it.
    [factories] is the table of [GlobalRegistry]. *)
From Stdlib Require Import ZArith Lia Bool Floats.
From coqutil Require Import RecordSettersUsingExistingGetters.
From S2P Require Import MeanReversion Grid Pairs.
From S2P Require Import Prelude Float64 FloatRound FloatLaws Price StopLoss PoolSim History Trade Indicators Runner.
From S2P Require Import TrendRunners FadeRunners Engine Live.
Local Open Scope float_scope.
Local Open Scope go_scope.

Inductive Strategy :=
  | Orb (r : OrbRunner.t)
  | Grid (r : Grid.t)
  | Trend (r : TrendRunner.t)
  | SessionScalp (r : SessionScalpRunner.t)
  | MeanRev (r : MeanReversion.t)
  | MACross (r : MACrossoverRunner.t)
  | Rsi2 (r : RSI2MeanReversionRunner.t)
  | Donchian (r : DonchianBreakoutRunner.t)
  | Keltner (r : KeltnerMACDRunner.t)
  | Ichimoku (r : IchimokuRunner.t)
  | PairsT (r : Pairs.t)
  | VolHarvesting (r : VolHarvestingRunner.t)
  | Dragon (r : DragonTrendRunner.t)
  | VolumeScalp (r : VolumeScalpRunner.t)
  | VIXCarry (r : VIXFuturesCarryRunner.t)
  | Momentum (r : MomentumRunner.t)
  | Carry (r : CarryRunner.t)
  | SessionMomentum (r : SessionMomentumRunner.t).

Definition strategyName (s : Strategy) : string :=
  match s with
  | Orb _ => "opening_range_breakout"
  | Grid _ => "grid_trading"
  | Trend _ => "trend_following"
  | SessionScalp _ => "session_scalp"
  | MeanRev _ => "mean_reversion"
  | MACross _ => "ma_crossover"
  | Rsi2 _ => "rsi2_reversion"
  | Donchian _ => "donchian_breakout"
  | Keltner _ => "keltner_macd"
  | Ichimoku _ => "ichimoku_cloud"
  | PairsT _ => "pairs_trading"
  | VolHarvesting _ => "volatility_harvesting"
  | Dragon _ => "dragon_trend"
  | VolumeScalp _ => "volume_scalp"
  | VIXCarry _ => "vix_futures_carry"
  | Momentum _ => "momentum_12_1"
  | Carry _ => "fx_carry"
  | SessionMomentum _ => "session_momentum"
  end.

Section Strategies.
Context {IN : Indicator} {LG : Logarithm}.

(** An evaluation's runner back under its kind; [None]: it panics. *)
Definition as_ {A} (C : A -> Strategy) (x : option (option Signal) * A) : option (option Signal) * Strategy := (x.1, C x.2).

Definition evaluate (s : Strategy) (c : Candle) (regime : Z) : option (option Signal) * Strategy :=
  match s with
  | Orb r => as_ Orb (total OrbRunner.Evaluate r c regime)
  | Grid r => as_ Grid (total Grid.Evaluate r c regime)
  | Trend r => as_ Trend (total TrendRunner.Evaluate r c regime)
  | SessionScalp r => as_ SessionScalp (total SessionScalpRunner.Evaluate r c regime)
  | MeanRev r => as_ MeanRev (MeanReversion.Evaluate r c regime)
  | MACross r => as_ MACross (total MACrossoverRunner.Evaluate r c regime)
  | Rsi2 r => as_ Rsi2 (total RSI2MeanReversionRunner.Evaluate r c regime)
  | Donchian r => as_ Donchian (total DonchianBreakoutRunner.Evaluate r c regime)
  | Keltner r => as_ Keltner (total KeltnerMACDRunner.Evaluate r c regime)
  | Ichimoku r => as_ Ichimoku (total IchimokuRunner.Evaluate r c regime)
  | PairsT r => as_ PairsT (Pairs.Evaluate r c regime)
  | VolHarvesting r => as_ VolHarvesting (total VolHarvestingRunner.Evaluate r c regime)
  | Dragon r => as_ Dragon (total DragonTrendRunner.Evaluate r c regime)
  | VolumeScalp r => as_ VolumeScalp (total VolumeScalpRunner.Evaluate r c regime)
  | VIXCarry r => as_ VIXCarry (total VIXFuturesCarryRunner.Evaluate r c regime)
  | Momentum r => as_ Momentum (total MomentumRunner.Evaluate r c regime)
  | Carry r => as_ Carry (total CarryRunner.Evaluate r c regime)
  | SessionMomentum r => as_ SessionMomentum (total SessionMomentumRunner.Evaluate r c regime)
  end.

Definition reset (s : Strategy) : Strategy :=
  match s with
  | Orb r => Orb (OrbRunner.Reset r)
  | Grid r => Grid (Grid.Reset r)
  | Trend r => Trend (TrendRunner.Reset r)
  | SessionScalp r => SessionScalp (SessionScalpRunner.Reset r)
  | MeanRev r => MeanRev (MeanReversion.Reset r)
  | MACross r => MACross (MACrossoverRunner.Reset r)
  | Rsi2 r => Rsi2 (RSI2MeanReversionRunner.Reset r)
  | Donchian r => Donchian (DonchianBreakoutRunner.Reset r)
  | Keltner r => Keltner (KeltnerMACDRunner.Reset r)
  | Ichimoku r => Ichimoku (IchimokuRunner.Reset r)
  | PairsT r => PairsT (Pairs.Reset r)
  | VolHarvesting r => VolHarvesting (VolHarvestingRunner.Reset r)
  | Dragon r => Dragon (DragonTrendRunner.Reset r)
  | VolumeScalp r => VolumeScalp (VolumeScalpRunner.Reset r)
  | VIXCarry r => VIXCarry (VIXFuturesCarryRunner.Reset r)
  | Momentum r => Momentum (MomentumRunner.Reset r)
  | Carry r => Carry (CarryRunner.Reset r)
  | SessionMomentum r => SessionMomentum (SessionMomentumRunner.Reset r)
  end.

Definition setParams (s : Strategy) (params : gmap string float64) : Strategy :=
  match s with
  | Orb r => Orb (OrbRunner.SetParams r params)
  | Grid r => Grid (Grid.SetParams r params)
  | Trend r => Trend (TrendRunner.SetParams r params)
  | SessionScalp r => SessionScalp (SessionScalpRunner.SetParams r params)
  | MeanRev r => MeanRev (MeanReversion.SetParams r params)
  | MACross r => MACross (MACrossoverRunner.SetParams r params)
  | Rsi2 r => Rsi2 (RSI2MeanReversionRunner.SetParams r params)
  | Donchian r => Donchian (DonchianBreakoutRunner.SetParams r params)
  | Keltner r => Keltner (KeltnerMACDRunner.SetParams r params)
  | Ichimoku r => Ichimoku (IchimokuRunner.SetParams r params)
  | PairsT r => PairsT (Pairs.SetParams r params)
  | VolHarvesting r => VolHarvesting (VolHarvestingRunner.SetParams r params)
  | Dragon r => Dragon (DragonTrendRunner.SetParams r params)
  | VolumeScalp r => VolumeScalp (VolumeScalpRunner.SetParams r params)
  | VIXCarry r => VIXCarry (VIXFuturesCarryRunner.SetParams r params)
  | Momentum r => Momentum (MomentumRunner.SetParams r params)
  | Carry r => Carry (CarryRunner.SetParams r params)
  | SessionMomentum r => SessionMomentum (SessionMomentumRunner.SetParams r params)
  end.

(** The runners that embed the base have its method; the others skip the call. *)
Definition setRegimeExitParams (s : Strategy) (params : gmap string float64) : Strategy :=
  let set b := BaseRunner.SetRegimeExitParams b params in
  match s with
  | Orb r => Orb (r <| OrbRunner.Base ::= set |>)
  | Grid r => Grid r
  | Trend r => Trend (r <| TrendRunner.Base ::= set |>)
  | SessionScalp r => SessionScalp (r <| SessionScalpRunner.Base ::= set |>)
  | MeanRev r => MeanRev r
  | MACross r => MACross (r <| MACrossoverRunner.Base ::= set |>)
  | Rsi2 r => Rsi2 (r <| RSI2MeanReversionRunner.Base ::= set |>)
  | Donchian r => Donchian (r <| DonchianBreakoutRunner.Base ::= set |>)
  | Keltner r => Keltner (r <| KeltnerMACDRunner.Base ::= set |>)
  | Ichimoku r => Ichimoku (r <| IchimokuRunner.Base ::= set |>)
  | PairsT r => PairsT (r <| Pairs.Base ::= set |>)
  | VolHarvesting r => VolHarvesting (r <| VolHarvestingRunner.Base ::= set |>)
  | Dragon r => Dragon (r <| DragonTrendRunner.Base ::= set |>)
  | VolumeScalp r => VolumeScalp (r <| VolumeScalpRunner.Base ::= set |>)
  | VIXCarry r => VIXCarry (r <| VIXFuturesCarryRunner.Base ::= set |>)
  | Momentum r => Momentum (r <| MomentumRunner.Base ::= set |>)
  | Carry r => Carry (r <| CarryRunner.Base ::= set |>)
  | SessionMomentum r => SessionMomentum (r <| SessionMomentumRunner.Base ::= set |>)
  end.

Definition setVIX (s : Strategy) (vix : float64) : Strategy :=
  match s with
  | Grid r => Grid (Grid.SetVIX r vix)
  | VolHarvesting r => VolHarvesting (VolHarvestingRunner.SetVIX r vix)
  | VIXCarry r => VIXCarry (VIXFuturesCarryRunner.SetVIX r vix)
  | _ => s
  end.

Definition setATR (s : Strategy) (atr : float64) : Strategy :=
  match s with Grid r => Grid (Grid.SetATR r atr) | _ => s end.

Definition pushSecondaryPrice (s : Strategy) (price : Price) : Strategy :=
  match s with PairsT r => PairsT (Pairs.PushSecondaryPrice r price) | _ => s end.

#[export] Instance strategy_runner : StrategyRunner Strategy :=
  {| Evaluate := evaluate; SetVIX := Some setVIX; SetATR := Some setATR; PushSecondaryPrice := Some pushSecondaryPrice |}.

#[export] Instance strategy_live_runner : LiveRunner Strategy :=
  {| Name := strategyName; SetParams := setParams; SetRegimeExitParams := Some setRegimeExitParams |}.

(** ** The factory table *)
Definition disabledGrid : Strategy := Grid (Grid.NewGridRunner <| Grid.Disabled := true |>).
Definition volGrid : Strategy := Grid (Grid.NewGridRunner <| Grid.AdjustByVolatility := true |>).
Definition intradayMR : Strategy := MeanRev (MeanReversion.NewMeanReversionRunner 20 1.25 0.5 200).

Definition factoryTable : list (string * Strategy) :=
  [("opening_range_breakout", Orb OrbRunner.NewOrbRunner);
   ("orb", Orb OrbRunner.NewOrbRunner);
   ("breakout", Orb OrbRunner.NewOrbRunner);
   ("orb_15m", Orb (OrbRunner.NewOrbRunner <| OrbRunner.RangeMinutes := 15 |>));
   ("grid", disabledGrid);
   ("grid_trading", disabledGrid);
   ("vol_grid", volGrid);
   ("trend_following", Trend TrendRunner.NewTrendRunner);
   ("trend", Trend TrendRunner.NewTrendRunner);
   ("session_scalp", SessionScalp SessionScalpRunner.NewSessionScalpRunner);
   ("scalp", SessionScalp SessionScalpRunner.NewSessionScalpRunner);
   ("mean_reversion", intradayMR);
   ("intraday_mr", intradayMR);
   ("ma_crossover", MACross MACrossoverRunner.NewMACrossoverRunner);
   ("macd_rsi", MACross MACrossoverRunner.NewMACrossoverRunner);
   ("rsi2_reversion", Rsi2 RSI2MeanReversionRunner.NewRSI2MeanReversionRunner);
   ("rsi2", Rsi2 RSI2MeanReversionRunner.NewRSI2MeanReversionRunner);
   ("donchian_breakout", Donchian DonchianBreakoutRunner.NewDonchianBreakoutRunner);
   ("donchian", Donchian DonchianBreakoutRunner.NewDonchianBreakoutRunner);
   ("keltner_macd", Keltner KeltnerMACDRunner.NewKeltnerMACDRunner);
   ("keltner", Keltner KeltnerMACDRunner.NewKeltnerMACDRunner);
   ("ichimoku_cloud", Ichimoku IchimokuRunner.NewIchimokuRunner);
   ("ichimoku", Ichimoku IchimokuRunner.NewIchimokuRunner);
   ("pairs_trading", PairsT (Pairs.NewPairsRunner "" ""));
   ("stat_arb", PairsT (Pairs.NewPairsRunner "" ""));
   ("volatility_harvesting", VolHarvesting VolHarvestingRunner.NewVolHarvestingRunner);
   ("vol_arb", VolHarvesting VolHarvestingRunner.NewVolHarvestingRunner);
   ("dragon_trend", Dragon DragonTrendRunner.NewDragonTrendRunner);
   ("vwap_mr", MeanRev MeanReversion.vwapRunner);
   ("volume_scalp", VolumeScalp VolumeScalpRunner.NewVolumeScalpRunner);
   ("vix_futures_carry", VIXCarry VIXFuturesCarryRunner.NewVIXFuturesCarryRunner);
   ("momentum_12_1", Momentum MomentumRunner.NewMomentumRunner);
   ("time_series_momentum", Momentum MomentumRunner.NewMomentumRunner);
   ("fx_carry", Carry CarryRunner.NewCarryRunner);
   ("session_momentum", SessionMomentum SessionMomentumRunner.NewSessionMomentumRunner)]%string.

(** Every name has its factory and a shared runner. *)
Definition globalEntries : gmap string Strategy := list_to_map factoryTable.
Definition GlobalRegistry : Registry.t Strategy := Registry.mk globalEntries (Some <$> globalEntries).

(** [getRunnerForStrategy] of [internal/backtest/engine.go]: a fresh runner with the
    run's parameters, the mean-reversion runner for an unknown name. *)
Definition getRunnerForStrategy (strategyID : string) (params : gmap string float64) : Strategy :=
  let given := negb (bool_decide (params = ∅)) in
  match Registry.Create GlobalRegistry strategyID with
  | Some runner => if given then setRegimeExitParams (setParams runner params) params else runner
  | None =>
      let sr := MeanRev (MeanReversion.NewMeanReversionRunner 20 1.5 0.1 60) in
      if given then setParams sr params else sr
  end.

(** ** One position at a time *)
Definition sideHeld (s : Strategy) : option string :=
  match s with
  | Grid _ => None
  | MeanRev r => MeanReversion.sideOfPosition r
  | Orb r => sideOf (OrbRunner.Base r)
  | Trend r => sideOf (TrendRunner.Base r)
  | SessionScalp r => sideOf (SessionScalpRunner.Base r)
  | MACross r => sideOf (MACrossoverRunner.Base r)
  | Rsi2 r => sideOf (RSI2MeanReversionRunner.Base r)
  | Donchian r => sideOf (DonchianBreakoutRunner.Base r)
  | Keltner r => sideOf (KeltnerMACDRunner.Base r)
  | Ichimoku r => sideOf (IchimokuRunner.Base r)
  | PairsT r => sideOf (Pairs.Base r)
  | VolHarvesting r => sideOf (VolHarvestingRunner.Base r)
  | Dragon r => sideOf (DragonTrendRunner.Base r)
  | VolumeScalp r => sideOf (VolumeScalpRunner.Base r)
  | VIXCarry r => sideOf (VIXFuturesCarryRunner.Base r)
  | Momentum r => sideOf (MomentumRunner.Base r)
  | Carry r => sideOf (CarryRunner.Base r)
  | SessionMomentum r => sideOf (SessionMomentumRunner.Base r)
  end.

Definition single (s : Strategy) : Prop := match s with Grid _ => False | _ => True end.

(** What a runner is fed with. *)
Inductive input := Bar (c : Candle) (regime : Z) | Vix (vix : float64) | Atr (atr : float64) | Secondary (price : Price).

(** The signals of a run, until a panic. *)
Fixpoint signalsOf (s : Strategy) (inputs : list input) : list Signal :=
  match inputs with
  | [] => []
  | Bar c regime :: inputs =>
      match evaluate s c regime with
      | (Some (Some sig), s) => sig :: signalsOf s inputs
      | (Some None, s) => signalsOf s inputs
      | (None, _) => []
      end
  | Vix vix :: inputs => signalsOf (setVIX s vix) inputs
  | Atr atr :: inputs => signalsOf (setATR s atr) inputs
  | Secondary price :: inputs => signalsOf (pushSecondaryPrice s price) inputs
  end.

(** Every kind of runner but the grid keeps the law of [PositionRunner]. *)
Lemma evaluate_law s c regime :
  single s -> side_valid (sideHeld s) ->
  single (evaluate s c regime).2 /\
  match (evaluate s c regime).1 with
  | Some sig => position_law c (sideHeld s) sig (sideHeld (evaluate s c regime).2)
  | None => True
  end.
Proof.
  intros S V. split; [by destruct s|].
  destruct s as [r| |r|r|r|r|r|r|r|r|r|r|r|r|r|r|r|r]; try done; exact (eval_ok r c regime V).
Qed.

Lemma signals_single inputs : forall s,
  single s -> side_valid (sideHeld s) -> alternating (sideHeld s) (signalsOf s inputs).
Proof.
  induction inputs as [|[c g|v|v|p] inputs IH]; intros s S V; [done| | | |]; cbn [signalsOf].
  - destruct (evaluate_law s c g S V) as [S' L]. destruct (evaluate s c g) as [[sig|] s']; [|done]. cbn in S', L.
    specialize (IH s' S' (position_law_valid c _ _ _ V L)).
    destruct sig as [sig|]; [by eapply alternating_step|]. cbn in L. by rewrite L in IH.
  - replace (sideHeld s) with (sideHeld (setVIX s v)) in * by (by destruct s). apply IH; [by destruct s|done].
  - replace (sideHeld s) with (sideHeld (setATR s v)) in * by (by destruct s). apply IH; [by destruct s|done].
  - replace (sideHeld s) with (sideHeld (pushSecondaryPrice s p)) in * by (by destruct s). apply IH; [by destruct s|done].
Qed.

Ltac keeps_base M := first [apply (setParam_proj M); done | rewrite (setParam_proj M) by done; keeps_base M].

Lemma setParams_side s params : sideHeld (setParams s params) = sideHeld s.
Proof.
  destruct s as [r| |r|r|r|r|r|r|r|r|r|r|r|r|r|r|r|r]; cbn [sideHeld setParams]; try done.
  - unfold OrbRunner.SetParams. f_equal. cbv zeta. keeps_base OrbRunner.Base.
  - unfold TrendRunner.SetParams. f_equal. cbv zeta. keeps_base TrendRunner.Base.
  - unfold SessionScalpRunner.SetParams. f_equal. cbv zeta. keeps_base SessionScalpRunner.Base.
  - unfold MeanReversion.SetParams, MeanReversion.setPositive. cbv zeta.
    rewrite ?(setParam_proj MeanReversion.sideOfPosition); intros; by repeat case_match.
  - unfold MACrossoverRunner.SetParams. f_equal. cbv zeta. keeps_base MACrossoverRunner.Base.
  - unfold RSI2MeanReversionRunner.SetParams. f_equal. cbv zeta. keeps_base RSI2MeanReversionRunner.Base.
  - unfold DonchianBreakoutRunner.SetParams. f_equal. cbv zeta. keeps_base DonchianBreakoutRunner.Base.
  - unfold KeltnerMACDRunner.SetParams. f_equal. cbv zeta. keeps_base KeltnerMACDRunner.Base.
  - unfold IchimokuRunner.SetParams. f_equal. cbv zeta. keeps_base IchimokuRunner.Base.
  - unfold Pairs.SetParams. f_equal. cbv zeta. keeps_base Pairs.Base.
  - unfold VolHarvestingRunner.SetParams. f_equal. cbv zeta. keeps_base VolHarvestingRunner.Base.
  - unfold DragonTrendRunner.SetParams. f_equal. cbv zeta. keeps_base DragonTrendRunner.Base.
  - unfold VolumeScalpRunner.SetParams. f_equal. cbv zeta. keeps_base VolumeScalpRunner.Base.
  - unfold VIXFuturesCarryRunner.SetParams. f_equal. cbv zeta. keeps_base VIXFuturesCarryRunner.Base.
  - unfold MomentumRunner.SetParams. f_equal. cbv zeta. keeps_base MomentumRunner.Base.
  - unfold CarryRunner.SetParams. f_equal. cbv zeta. keeps_base CarryRunner.Base.
  - unfold SessionMomentumRunner.SetParams. f_equal. cbv zeta. keeps_base SessionMomentumRunner.Base.
Qed.

Lemma regime_params_side s params : sideHeld (setRegimeExitParams s params) = sideHeld s.
Proof.
  destruct s; cbn [sideHeld setRegimeExitParams]; try done;
    cbn; unfold BaseRunner.SetRegimeExitParams; cbv zeta; keeps_base sideOf.
Qed.

Lemma params_single s params : single s -> single (setParams s params) /\ single (setRegimeExitParams s params).
Proof. by destruct s. Qed.

Lemma factory_fresh name s : globalEntries !! name = Some s -> sideHeld s = None.
Proof.
  intros H%elem_of_list_to_map_2.
  assert (F : Forall (fun p => sideHeld p.2 = None) factoryTable) by (repeat constructor).
  apply list_elem_of_In in H. rewrite Forall_forall in F. exact (F _ H).
Qed.

Lemma created_side strategyID params : sideHeld (getRunnerForStrategy strategyID params) = None.
Proof.
  unfold getRunnerForStrategy, Registry.Create. cbn [Registry.factories Registry.entries GlobalRegistry].
  rewrite lookup_fmap. destruct (globalEntries !! strategyID) as [s|] eqn:F; cbn [fmap option_fmap option_map].
  - apply factory_fresh in F. case_match; [|done]. by rewrite regime_params_side, setParams_side.
  - case_match; [|done]. by rewrite setParams_side.
Qed.

(** C20: every strategy the engine can ask for, with any parameters, but for the grids:
    whatever bars, regimes, volatility readings and secondary prices it is fed, its
    signals take turns, an entry of quantity 1 and then an exit on the other side of it.
    It never enters twice, never exits what it does not hold. *)
Theorem strategies_take_turns strategyID params inputs :
  single (getRunnerForStrategy strategyID params) ->
  alternating None (signalsOf (getRunnerForStrategy strategyID params) inputs).
Proof.
  intros S. rewrite <- (created_side strategyID params). apply signals_single; [done|].
  rewrite created_side. by intros d [=].
Qed.
End Strategies.

(** ** The strategies of a live account *)
Section Account.
Context {IN : Indicator} {LG : Logarithm}.

Definition factoryNames : list string := map fst factoryTable.

(** The names the runners give themselves: aliases share one. *)
Definition ownNames : gset string := list_to_set (map (fun p => strategyName p.2) factoryTable).

Lemma tune_name params name s : strategyName (tune params name s) = strategyName s.
Proof. unfold tune. destruct (params !! name); [|done]. by destruct s. Qed.

Definition register (params : gmap string (gmap string float64)) (g : Registry.t Strategy) (name : string) :
    Registry.t Strategy :=
  match globalEntries !! name with Some r => Registry.Register g (tune params name r) | None => g end.

Lemma instantiate_register params names :
  Registry.instantiate (tune params) GlobalRegistry names = fold_left (register params) names Registry.NewRegistry.
Proof.
  unfold Registry.instantiate. generalize (@Registry.NewRegistry Strategy).
  induction names as [|n names IH]; intros g; [done|]. cbn [fold_left]. rewrite <- IH. f_equal.
  cbn [Registry.factories GlobalRegistry]. rewrite lookup_fmap. unfold register. by destruct (globalEntries !! n).
Qed.

(** A registration under another name leaves the entry alone. *)
Lemma register_other params n names : forall g,
  (forall b s, b ∈ names -> globalEntries !! b = Some s -> strategyName s <> n) ->
  Registry.entries (fold_left (register params) names g) !! n = Registry.entries g !! n.
Proof.
  induction names as [|a names IH]; intros g H; [done|]. cbn [fold_left]. rewrite IH.
  - unfold register. destruct (globalEntries !! a) as [s|] eqn:E; [|done]. cbn.
    apply lookup_insert_ne. rewrite tune_name. apply (H a); [by left|done].
  - intros b s Hb. apply H. by right.
Qed.

Lemma register_last params pre a post g s :
  globalEntries !! a = Some s ->
  (forall b s', b ∈ post -> globalEntries !! b = Some s' -> strategyName s' <> strategyName s) ->
  Registry.entries (fold_left (register params) (pre ++ a :: post) g) !! strategyName s = Some (tune params a s).
Proof.
  intros E H. rewrite fold_left_app. cbn [fold_left]. rewrite register_other by done.
  unfold register at 1. rewrite E. cbn. rewrite tune_name. apply lookup_insert_eq.
Qed.

(** The names that are registered are the runners' own. *)
Lemma register_dom params names : forall g,
  dom (Registry.entries (fold_left (register params) names g)) =
  dom (Registry.entries g) ∪ list_to_set (omap (fun n => strategyName <$> globalEntries !! n) names).
Proof.
  induction names as [|a names IH]; intros g; cbn [fold_left]; [symmetry; apply union_empty_r_L|]. rewrite IH.
  unfold register. cbn [omap list_omap]. destruct (globalEntries !! a) as [s|]; [|done].
  cbn [fmap option_fmap option_map Registry.entries Registry.Register Registry.put]. unfold Registry.Register.
  cbn [Registry.entries Name strategy_live_runner]. rewrite dom_insert_L, tune_name, list_to_set_cons.
  by rewrite (union_comm_L {[_]}), <- union_assoc_L.
Qed.

Lemma own_names_of names :
  names ≡ₚ factoryNames ->
  list_to_set (omap (fun n => strategyName <$> globalEntries !! n) names) = ownNames.
Proof.
  intros P. rewrite P. unfold ownNames.
  assert (E : omap (fun n => strategyName <$> globalEntries !! n) factoryNames = map (fun p => strategyName p.2) factoryTable)
    by (vm_compute; reflexivity).
  by rewrite E.
Qed.

(** The strategies of a live account.  The factories are visited in the map's order
    and registered under the runner's own name, so of the 35 names an account gets the
    18 runners' names, and under each of them only the alias that comes last, with that
    alias's parameters: the map's order picks between "orb" and "orb_15m", between the
    disabled "grid" and the "vol_grid", between "mean_reversion" and "vwap_mr". *)
Theorem account_strategies_are_last_aliases {C P} names (e : LiveEngine (R := Strategy) (C := C) (P := P)) acct params :
  names ≡ₚ factoryNames ->
  exists reg,
    accountRegistries (RegisterAccountStrategies GlobalRegistry names e acct params) !! acct = Some reg /\
    base.size (Registry.entries reg) = 18%nat /\
    forall pre a post s,
      names = pre ++ a :: post -> globalEntries !! a = Some s ->
      (forall b s', b ∈ post -> globalEntries !! b = Some s' -> strategyName s' <> strategyName s) ->
      Registry.entries reg !! strategyName s = Some (tune params a s).
Proof.
  intros Perm. eexists. split; [apply lookup_insert_eq|]. rewrite instantiate_register. split.
  - rewrite <- size_dom, register_dom, (own_names_of names Perm). vm_compute. reflexivity.
  - intros pre a post s -> E H. by apply register_last.
Qed.
End Account.

(** ** Gates that stand before the exits

    The readings and times at which a runner returns before it looks at its position. *)
Section Closed.
Context {IN : Indicator} {LG : Logarithm}.

Definition gateClosed (s : Strategy) (c : Candle) : bool :=
  match s with
  | VIXCarry r => VIXFuturesCarryRunner.VIXSpot r <? VIXFuturesCarryRunner.ContangoThreshold r
  | VolHarvesting r => VolHarvestingRunner.CurrentVIX r <? VolHarvestingRunner.VIXThreshold r
  | SessionScalp r => negb (Session.InWindow (SessionScalpRunner.sessionWindow r) (Time c))
  | VolumeScalp r => let r := VolumeScalpRunner.newDay r (Time c) in
                     Z.ltb 0 (VolumeScalpRunner.MaxTradesPerDay r)
                     && Z.leb (VolumeScalpRunner.MaxTradesPerDay r) (VolumeScalpRunner.dailyTradeCount r)
  | _ => false
  end.

(** The gate is closed at every bar of a run. *)
Fixpoint staysClosed (s : Strategy) (bars : list (Candle * Z)) : bool :=
  match bars with
  | [] => true
  | (c, regime) :: bars => gateClosed s c && staysClosed (evaluate s c regime).2 bars
  end.

Definition barsOf (bars : list (Candle * Z)) : list input := map (fun b => Bar b.1 b.2) bars.

Lemma keeps_sideOf b b' : keeps b b' -> sideOf b' = sideOf b.
Proof. unfold sideOf. by intros [-> ->]. Qed.

Lemma closed_step s c regime :
  gateClosed s c = true -> (evaluate s c regime).1 = Some None /\ sideHeld (evaluate s c regime).2 = sideHeld s.
Proof.
  destruct s as [r| |r|r|r|r|r|r|r|r|r|r|r|r|r|r|r|r]; try done; cbn [gateClosed evaluate]; intros G; unfold as_, total.
  - unfold SessionScalpRunner.Evaluate, BaseRunner.CanTrade. cbn. cbn in G.
    unfold SessionScalpRunner.sessionWindow in *. cbn. rewrite G.
    destruct (negb (if _ : bool then _ else _)); (split; [done|]); apply keeps_sideOf, keeps_roll.
  - unfold VolHarvestingRunner.Evaluate. destruct (IsZero _); [done|]. cbn. rewrite G. cbn. split; [done|]. apply keeps_sideOf, keeps_push.
  - unfold VolumeScalpRunner.Evaluate. rewrite G. cbn. unfold VolumeScalpRunner.newDay. by case_bool_decide.
  - unfold VIXFuturesCarryRunner.Evaluate. destruct (IsZero _); [done|]. cbn. rewrite G. cbn. split; [done|]. apply keeps_sideOf, keeps_push.
Qed.

(** The gates of four runners hold a position as well as an entry.  While the
    volatility reading is under its threshold, outside the session, or after the day's
    last trade, an open position gets no exit whatever the prices do: no stop, no target
    and no time limit is looked at. *)
Theorem closed_gates_hold_positions s bars :
  staysClosed s bars = true ->
  signalsOf s (barsOf bars) = [] /\
  sideHeld (fold_left (fun s b => (evaluate s b.1 b.2).2) bars s) = sideHeld s.
Proof.
  revert s. induction bars as [|[c g] bars IH]; intros s G; [done|]. cbn in G. apply andb_prop in G as [G Gs].
  destruct (closed_step s c g G) as [E1 E2]. destruct (IH _ Gs) as [I1 I2].
  cbn [barsOf map signalsOf fst snd fold_left]. destruct (evaluate s c g) as [o s']. cbn in *. subst o.
  split; [exact I1|]. by rewrite I2.
Qed.
End Closed.

(** ** Witnesses

    The indicator functions at simple ones: the averages follow the prices, the
    oscillators rest. *)
#[local] Instance flatIndicator : Indicator := {|
  lib_Ema _ l := l;
  lib_Sma _ l := l;
  lib_Std _ l := map (fun _ => 0) l;
  lib_RsiPeriod _ l := map (fun _ => 50) l;
  lib_Rsi2 l := map (fun _ => 50) l;
  lib_Macd l := (l, l);
  lib_BollingerBands l := (l, l, l);
  lib_DonchianChannel _ l := (l, l, l);
  lib_KeltnerChannel _ highs lows closings := (highs, closings, lows);
  lib_IchimokuCloud _ _ l := (l, l, l, l, l)
|}.
#[local] Instance flatLogarithm : Logarithm := {| Log x := x - 1; Log10 x := x - 1 |}.

(** Two orders of the same names, and the grids they leave. *)
Definition gridUnder (names : list string) (e : LiveEngine (R := Strategy) (C := unit) (P := unit)) : option Strategy :=
  accountRegistries (RegisterAccountStrategies GlobalRegistry names e "acct" ∅) !! "acct"
    ≫= fun reg => Registry.entries reg !! "grid_trading".

Lemma account_strategies_are_last_aliases_witness :
  exists reg,
    accountRegistries (RegisterAccountStrategies GlobalRegistry factoryNames
                         (NewLiveEngine (R := Strategy) (C := unit) (P := unit)) "acct" ∅) !! "acct" = Some reg /\
    base.size (Registry.entries reg) = 18%nat.
Proof.
  destruct (account_strategies_are_last_aliases factoryNames
              (NewLiveEngine (R := Strategy) (C := unit) (P := unit)) "acct" ∅ (Permutation_refl _))
    as (reg & E & S & _).
  by exists reg.
Defined.

Example alias_order_picks_the_grid :
  gridUnder factoryNames NewLiveEngine = Some volGrid /\ gridUnder (rev factoryNames) NewLiveEngine = Some disabledGrid.
Proof. split; vm_compute; reflexivity. Qed.

(** A long position bought at 1000 with a quiet volatility index, and a crash to 100. *)
Definition heldLong : Strategy :=
  VIXCarry (VIXFuturesCarryRunner.NewVIXFuturesCarryRunner
              <| VIXFuturesCarryRunner.Base ::=
                   fun b => BaseRunner.OpenPosition b "BUY" 100000000%Z 99000000%Z 102000000%Z 0%Z |>
              <| VIXFuturesCarryRunner.VIXSpot := 12 |>).

Definition crash : list (Candle * Z) :=
  map (fun i => (mkCandle (Z.of_nat i * 60000000000)%Z 10000000%Z 10000000%Z 10000000%Z 10000000%Z 1000 "X" 1 "" "", 3%Z))
    (seq 0 40).

Lemma closed_gates_hold_positions_witness :
  signalsOf heldLong (barsOf crash) = [] /\
  sideHeld (fold_left (fun s b => (evaluate s b.1 b.2).2) crash heldLong) = Some "BUY"%string.
Proof.
  assert (G : staysClosed heldLong crash = true) by (vm_compute; reflexivity).
  destruct (closed_gates_hold_positions heldLong crash G) as [E1 E2].
  split; [exact E1|]. rewrite E2. reflexivity.
Defined.

(** A day on which the opening range breaks, the stop is hit, and the price comes back. *)
Definition rangeDay : list input :=
  map (fun ic => Bar (mkCandle (Z.of_nat ic.1 * 60000000000)%Z (ic.2 * 100000)%Z ((ic.2 + 1) * 100000)%Z
                        ((ic.2 - 1) * 100000)%Z (ic.2 * 100000)%Z 1000 "X" 1 "" "") 0%Z)
    (zip (seq 0 12) [1000; 1001; 1002; 1001; 1000; 1001; 1010; 900; 1010; 1015; 1020; 1025]%Z).

Definition twoSides : list string := ["BUY"; "SELL"]%string.

Lemma strategies_take_turns_witness :
  map SigSide (signalsOf (getRunnerForStrategy "orb" {["range_minutes" := 5]}) rangeDay) = twoSides /\
  alternating None (signalsOf (getRunnerForStrategy "orb" {["range_minutes" := 5]}) rangeDay).
Proof.
  split; [vm_compute; reflexivity|].
  apply (strategies_take_turns "orb" {["range_minutes" := 5]} rangeDay). vm_compute. exact I.
Defined.
