(* ===== verification/Params.v ===== *)
(** * Parameters of the strategies ([internal/strategy], param_def.go, param_registry.go,
      param_validation.go and the [Params] and [ParamDefs] of every runner)

    What a runner reports of its parameters, what it declares about them, and the checks
    on a set of parameters.  Messages are a datatype: their text is not modelled. *)
From Stdlib Require Import ZArith Lia Bool Floats.
From coqutil Require Import RecordSettersUsingExistingGetters.
From S2P Require Import MeanReversion Grid Pairs.
From S2P Require Import Prelude Float64 FloatRound FloatLaws Price StopLoss PoolSim History Trade Indicators Runner.
From S2P Require Import TrendRunners FadeRunners Engine Live Strategies.
Import GoInt.
Local Open Scope string_scope.
Local Open Scope float_scope.
Local Open Scope go_scope.

Inductive ParamType := ParamContinuous | ParamInteger | ParamCategorical.

Record ParamDef := mkParamDef {
  PName : string;
  PType : ParamType;
  PDefault : float64;
  PMin : float64;
  PMax : float64;
  PStep : float64;
  PGroup : string;
  PDescription : string
}.

Definition Clamp (d : ParamDef) (value : float64) : float64 :=
  if value <? PMin d then PMin d else if PMax d <? value then PMax d else value.

Definition ClampParam (value min max : float64) : float64 :=
  if value <? min then min else if max <? value then max else value.

(** Only the names that are there already are updated. *)
Definition ApplyParams (target updates : gmap string float64) : gmap string float64 :=
  map_imap (fun k v => Some (default v (updates !! k))) target.

Module ParamRegistry.
Definition t : Type := gmap string (list ParamDef).
Definition NewParamRegistry : t := ∅.
Definition Register (pr : t) (name : string) (defs : list ParamDef) : t := <[name := defs]> pr.
Definition Get (pr : t) (name : string) : option (list ParamDef) := pr !! name.
Definition All (pr : t) : gmap string (list ParamDef) := pr.
End ParamRegistry.

Module OrbParams.
Definition Params (r : OrbRunner.t) : gmap string float64 :=
  list_to_map [("range_minutes", OrbRunner.RangeMinutes r);
    ("entry_buffer_pct", OrbRunner.EntryBufferPct r);
    ("atr_period", OrbRunner.AtrPeriod r);
    ("atr_multiplier", OrbRunner.AtrMultiplier r);
    ("target_multiplier", OrbRunner.TargetMultiplier r)].

Definition ParamDefs (_ : OrbRunner.t) : list ParamDef :=
  [mkParamDef "range_minutes" ParamInteger 5 1 15 1 "Entry"
      "Number of minutes to form the opening range";
   mkParamDef "entry_buffer_pct" ParamContinuous 0.1 0.01 1.0 0.05 "Entry"
      "Percentage buffer beyond range high/low to trigger entry";
   mkParamDef "atr_period" ParamInteger 14 7 28 7 "Risk"
      "ATR lookback period for stop/target placement";
   mkParamDef "atr_multiplier" ParamContinuous 2.0 1.0 4.0 0.5 "Risk"
      "ATR multiplier for stop distance";
   mkParamDef "target_multiplier" ParamContinuous 2.0 1.0 5.0 0.5 "Exit"
      "Risk:reward target multiplier (relative to stop distance)"].
End OrbParams.

Module GridParams.
Definition Params (r : Grid.t) : gmap string float64 :=
  list_to_map [("grid_levels", Grid.GridLevels r);
    ("grid_spacing_pct", Grid.GridSpacingPct r);
    ("position_scale", Grid.PositionScale r);
    ("max_open", Grid.MaxOpen r);
    ("take_profit_pct", Grid.TakeProfitPct r);
    ("stop_loss_pct", Grid.StopLossPct r)].

Definition ParamDefs (_ : Grid.t) : list ParamDef :=
  [mkParamDef "grid_levels" ParamInteger 5 2 8 1 "Grid"
      "Number of grid levels above and below reference price";
   mkParamDef "grid_spacing_pct" ParamContinuous 1.0 0.2 4.0 0.2 "Grid"
      "Percentage spacing between adjacent grid levels";
   mkParamDef "take_profit_pct" ParamContinuous 1.0 0.1 2.0 0.1 "Exit"
      "Take-profit percentage from entry level";
   mkParamDef "stop_loss_pct" ParamContinuous 0.5 0.1 5.0 0.1 "Exit"
      "Stop-loss percentage from entry level";
   mkParamDef "max_open" ParamInteger 10 1 10 1 "Risk"
      "Maximum number of simultaneously open grid positions";
   mkParamDef "position_scale" ParamContinuous 1.0 0.25 2.0 0.25 "Sizing"
      "Position size scale factor";
   mkParamDef "adjust_by_volatility" ParamInteger 0 0 1 1 "Grid"
      "Dynamically scale grid spacing based on ATR/VIX (0=off, 1=on)"].
End GridParams.

Module TrendParams.
Definition Params (r : TrendRunner.t) : gmap string float64 :=
  list_to_map [("fast_period", TrendRunner.FastPeriod r);
    ("slow_period", TrendRunner.SlowPeriod r);
    ("atr_period", TrendRunner.AtrPeriod r);
    ("atr_multiplier", TrendRunner.AtrMultiplier r);
    ("profit_atr_mult", TrendRunner.ProfitATRMult r);
    ("adx_period", TrendRunner.AdxPeriod r);
    ("adx_threshold", TrendRunner.AdxThreshold r);
    ("chop_threshold", TrendRunner.ChopThreshold r)].

Definition ParamDefs (_ : TrendRunner.t) : list ParamDef :=
  [mkParamDef "fast_period" ParamInteger 20 5 40 5 "Entry"
      "Fast EMA period for crossover detection";
   mkParamDef "slow_period" ParamInteger 50 20 120 10 "Entry"
      "Slow EMA period for crossover detection";
   mkParamDef "atr_period" ParamInteger 14 7 28 7 "Risk"
      "ATR lookback period for stop placement";
   mkParamDef "atr_multiplier" ParamContinuous 2.0 1.0 4.0 0.5 "Risk"
      "ATR multiplier for trailing stop distance";
   mkParamDef "profit_atr_mult" ParamContinuous 2.0 1.0 5.0 0.5 "Exit"
      "ATR multiplier for take-profit distance";
   mkParamDef "adx_period" ParamInteger 14 7 28 7 "Filter"
      "ADX lookback period for trend strength filter";
   mkParamDef "adx_threshold" ParamContinuous 20.0 5 35 5 "Filter"
      "Minimum ADX value to allow entry (lower = more signals)";
   mkParamDef "chop_threshold" ParamContinuous 61.8 50 70 2 "Filter"
      "Choppiness Index threshold above which entries are blocked"].
End TrendParams.

Module SessionScalpParams.
Definition Params (r : SessionScalpRunner.t) : gmap string float64 :=
  list_to_map [("range_minutes", SessionScalpRunner.RangeMinutes r);
    ("entry_buffer_pct", SessionScalpRunner.EntryBufferPct r);
    ("volume_multiplier", SessionScalpRunner.VolumeMultiplier r);
    ("atr_period", SessionScalpRunner.AtrPeriod r);
    ("take_profit_atr_mult", SessionScalpRunner.TakeProfitAtrMult r);
    ("stop_loss_atr_mult", SessionScalpRunner.StopLossAtrMult r);
    ("time_exit_minutes", SessionScalpRunner.TimeExitMinutes r);
    ("timezone_offset", of_Z (SessionScalpRunner.TimezoneOffset r))].

Definition ParamDefs (_ : SessionScalpRunner.t) : list ParamDef :=
  [mkParamDef "range_minutes" ParamInteger 5 1 15 1 "Entry"
      "Number of minutes to form the session opening range";
   mkParamDef "entry_buffer_pct" ParamContinuous 0.1 0.01 0.5 0.05 "Entry"
      "Percentage buffer beyond range to trigger breakout entry";
   mkParamDef "volume_multiplier" ParamContinuous 1.5 0.5 3.0 0.25 "Filter"
      "Volume confirmation multiplier (current vol > avg_vol * multiplier)";
   mkParamDef "atr_period" ParamInteger 14 7 28 7 "Risk"
      "ATR lookback period for stop/target calculation";
   mkParamDef "take_profit_atr_mult" ParamContinuous 1.5 1.0 4.0 0.5 "Exit"
      "Take-profit as multiple of ATR";
   mkParamDef "stop_loss_atr_mult" ParamContinuous 1.0 0.25 2.0 0.25 "Risk"
      "Stop-loss as multiple of ATR";
   mkParamDef "time_exit_minutes" ParamInteger 60 15 180 15 "Exit"
      "Minutes after entry to force-close position";
   mkParamDef "timezone_offset" ParamInteger 0 (-12) 14 1 "Session"
      "UTC offset in hours for session window (ET = -4/-5)"].
End SessionScalpParams.

Module MeanRevParams.
Definition Params (r : MeanReversion.t) : gmap string float64 :=
  list_to_map [("lookback", of_Z (MeanReversion.Lookback r));
    ("entry_z", MeanReversion.EntryZ r);
    ("exit_z", MeanReversion.ExitZ r);
    ("max_hold", of_Z (MeanReversion.MaxHold r));
    ("trend_period", of_Z (MeanReversion.TrendPeriod r))].

Definition ParamDefs (r : MeanReversion.t) : list ParamDef :=
  [mkParamDef "lookback" ParamInteger (of_Z (MeanReversion.Lookback r)) 5 60 5 "Signal"
      "Lookback period for z-score computation";
   mkParamDef "entry_z" ParamContinuous (MeanReversion.EntryZ r) 0.5 4.0 0.25 "Signal"
      "Z-score threshold for entry (lower = more signals)";
   mkParamDef "exit_z" ParamContinuous (MeanReversion.ExitZ r) 0.1 2.0 0.1 "Signal"
      "Z-score threshold for exit (must be < entry_z)";
   mkParamDef "max_hold" ParamInteger (of_Z (MeanReversion.MaxHold r)) 10 200 10 "Exit"
      "Maximum bars to hold position before forced exit";
   mkParamDef "trend_period" ParamInteger (of_Z (MeanReversion.TrendPeriod r)) 50 400 50 "Filter"
      "Long-term EMA period for trend direction filter"].
End MeanRevParams.

Module MACrossParams.
Definition Params (r : MACrossoverRunner.t) : gmap string float64 :=
  list_to_map [("fast_period", MACrossoverRunner.FastPeriod r);
    ("slow_period", MACrossoverRunner.SlowPeriod r);
    ("rsi_period", MACrossoverRunner.RsiPeriod r);
    ("rsi_overbought", MACrossoverRunner.RsiOverbought r);
    ("rsi_oversold", MACrossoverRunner.RsiOversold r);
    ("atr_period", MACrossoverRunner.AtrPeriod r);
    ("atr_multiplier", MACrossoverRunner.AtrMultiplier r);
    ("use_rsi_filter", boolToFloat (MACrossoverRunner.UseRsiFilter r));
    ("use_macd_filter", boolToFloat (MACrossoverRunner.UseMacdFilter r));
    ("use_boll_exit", boolToFloat (MACrossoverRunner.UseBollExit r))].

Definition ParamDefs (_ : MACrossoverRunner.t) : list ParamDef :=
  [mkParamDef "fast_period" ParamInteger 9 3 30 3 "Entry"
      "Fast EMA period for crossover detection";
   mkParamDef "slow_period" ParamInteger 21 10 100 5 "Entry"
      "Slow EMA period for crossover detection";
   mkParamDef "rsi_period" ParamInteger 14 5 30 1 "Filter"
      "RSI lookback period";
   mkParamDef "rsi_overbought" ParamContinuous 70 60 85 5 "Filter"
      "RSI overbought threshold — skip BUY signals above this value";
   mkParamDef "rsi_oversold" ParamContinuous 30 15 40 5 "Filter"
      "RSI oversold threshold — skip SELL signals below this value";
   mkParamDef "atr_period" ParamInteger 14 7 28 7 "Risk"
      "ATR lookback period for stop-loss placement";
   mkParamDef "atr_multiplier" ParamContinuous 2.0 1.0 4.0 0.5 "Risk"
      "ATR multiplier for stop distance";
   mkParamDef "use_rsi_filter" ParamInteger 1 0 1 1 "Filter"
      "Enable RSI entry filter (0=off, 1=on)";
   mkParamDef "use_macd_filter" ParamInteger 1 0 1 1 "Filter"
      "Enable MACD confirmation filter (0=off, 1=on)";
   mkParamDef "use_boll_exit" ParamInteger 1 0 1 1 "Exit"
      "Enable Bollinger-band reversal exit (0=off, 1=on)"].
End MACrossParams.

Module Rsi2Params.
Definition Params (r : RSI2MeanReversionRunner.t) : gmap string float64 :=
  list_to_map [("oversold", RSI2MeanReversionRunner.Oversold r);
    ("overbought", RSI2MeanReversionRunner.Overbought r);
    ("exit_neutral", RSI2MeanReversionRunner.ExitNeutral r);
    ("atr_period", RSI2MeanReversionRunner.AtrPeriod r);
    ("atr_multiplier", RSI2MeanReversionRunner.AtrMultiplier r);
    ("profit_atr_mult", RSI2MeanReversionRunner.ProfitATRMult r);
    ("max_hold_bars", RSI2MeanReversionRunner.MaxHoldBars r)].

Definition ParamDefs (_ : RSI2MeanReversionRunner.t) : list ParamDef :=
  [mkParamDef "oversold" ParamContinuous 5 1 15 1 "Entry"
      "RSI(2) buy threshold — values below trigger BUY";
   mkParamDef "overbought" ParamContinuous 95 85 99 1 "Entry"
      "RSI(2) sell threshold — values above trigger SELL";
   mkParamDef "exit_neutral" ParamContinuous 50 40 60 5 "Exit"
      "RSI(2) exit level — cross above exits BUY, below exits SELL";
   mkParamDef "atr_period" ParamInteger 14 7 28 7 "Risk"
      "ATR period for stop-loss distance";
   mkParamDef "atr_multiplier" ParamContinuous 1.5 0.5 3.0 0.25 "Risk"
      "ATR multiplier for stop-loss";
   mkParamDef "profit_atr_mult" ParamContinuous 2.0 1.0 5.0 0.5 "Exit"
      "ATR multiplier for take-profit distance";
   mkParamDef "max_hold_bars" ParamInteger 20 5 60 5 "Exit"
      "Max bars to hold before force-exiting"].
End Rsi2Params.

Module DonchianParams.
Definition Params (r : DonchianBreakoutRunner.t) : gmap string float64 :=
  list_to_map [("channel_period", DonchianBreakoutRunner.ChannelPeriod r);
    ("entry_buffer_pct", DonchianBreakoutRunner.EntryBufferPct r);
    ("atr_period", DonchianBreakoutRunner.AtrPeriod r);
    ("atr_multiplier", DonchianBreakoutRunner.AtrMultiplier r);
    ("profit_atr_mult", DonchianBreakoutRunner.ProfitATRMult r);
    ("min_range_pct", DonchianBreakoutRunner.MinRangePct r)].

Definition ParamDefs (_ : DonchianBreakoutRunner.t) : list ParamDef :=
  [mkParamDef "channel_period" ParamInteger 20 10 60 5 "Entry"
      "Donchian channel lookback period";
   mkParamDef "entry_buffer_pct" ParamContinuous 0.05 0 0.5 0.05 "Entry"
      "Buffer percentage beyond band to confirm breakout";
   mkParamDef "atr_period" ParamInteger 14 7 28 7 "Risk"
      "ATR lookback for stop/target calculation";
   mkParamDef "atr_multiplier" ParamContinuous 2.0 1.0 4.0 0.5 "Risk"
      "ATR multiplier for stop distance";
   mkParamDef "profit_atr_mult" ParamContinuous 2.0 1.0 5.0 0.5 "Exit"
      "ATR multiplier for take-profit distance";
   mkParamDef "min_range_pct" ParamContinuous 0.2 0.1 3.0 0.1 "Filter"
      "Minimum channel range as % of mid-price to trade"].
End DonchianParams.

Module KeltnerParams.
Definition Params (r : KeltnerMACDRunner.t) : gmap string float64 :=
  list_to_map [("keltner_period", KeltnerMACDRunner.KeltnerPeriod r);
    ("macd_requirement", boolToFloat (KeltnerMACDRunner.MacdRequirement r));
    ("atr_multiplier", KeltnerMACDRunner.AtrMultiplier r);
    ("profit_atr_mult", KeltnerMACDRunner.ProfitATRMult r)].

Definition ParamDefs (_ : KeltnerMACDRunner.t) : list ParamDef :=
  [mkParamDef "keltner_period" ParamInteger 20 10 50 5 "Entry"
      "Keltner Channel lookback period";
   mkParamDef "macd_requirement" ParamInteger 1 0 1 1 "Filter"
      "Require MACD confirmation (1=yes, 0=no)";
   mkParamDef "atr_multiplier" ParamContinuous 2.0 1.0 4.0 0.5 "Risk"
      "ATR multiplier for trailing stop";
   mkParamDef "profit_atr_mult" ParamContinuous 2.0 1.0 5.0 0.5 "Exit"
      "ATR multiplier for take-profit distance"].
End KeltnerParams.

Module IchimokuParams.
Definition Params (r : IchimokuRunner.t) : gmap string float64 :=
  list_to_map [("cloud_confirm", boolToFloat (IchimokuRunner.CloudConfirm r));
    ("use_chandelier", boolToFloat (IchimokuRunner.UseChandelier r));
    ("atr_multiplier", IchimokuRunner.AtrMultiplier r)].

Definition ParamDefs (_ : IchimokuRunner.t) : list ParamDef :=
  [mkParamDef "cloud_confirm" ParamInteger 1 0 1 1 "Filter"
      "Require price above cloud for BUY, below cloud for SELL";
   mkParamDef "use_chandelier" ParamInteger 1 0 1 1 "Exit"
      "Use Chandelier Exit for stop-loss instead of ATR";
   mkParamDef "atr_multiplier" ParamContinuous 2.0 1.0 4.0 0.5 "Risk"
      "ATR multiplier for trailing stop distance"].
End IchimokuParams.

Module PairsTParams.
Definition Params (r : Pairs.t) : gmap string float64 :=
  list_to_map [("entry_z", Pairs.EntryZ r);
    ("exit_z", Pairs.ExitZ r);
    ("max_hold", of_Z (Pairs.MaxHold r));
    ("spread_lookback", of_Z (Pairs.SpreadLookback r));
    ("min_pair_correlation", Pairs.MinPairCorrelation r)].

Definition ParamDefs (_ : Pairs.t) : list ParamDef :=
  [mkParamDef "entry_z" ParamContinuous 2.0 1.0 3.0 0.25 "Signal"
      "Spread z-score threshold for entry";
   mkParamDef "exit_z" ParamContinuous 0.5 0.0 1.5 0.25 "Signal"
      "Spread z-score threshold for exit";
   mkParamDef "max_hold" ParamInteger 60 10 200 10 "Risk"
      "Maximum holding period in bars";
   mkParamDef "spread_lookback" ParamInteger 60 20 120 10 "Signal"
      "Lookback window for spread mean/std";
   mkParamDef "min_pair_correlation" ParamContinuous 0.5 0.0 1.0 0.05 "Filter"
      "Minimum log-price correlation to open positions (cointegration proxy)"].
End PairsTParams.

Module VolHarvestingParams.
Definition Params (r : VolHarvestingRunner.t) : gmap string float64 :=
  list_to_map [("vix_threshold", VolHarvestingRunner.VIXThreshold r);
    ("max_vega", VolHarvestingRunner.MaxVega r);
    ("stop_atr_mult", VolHarvestingRunner.StopATRMult r);
    ("profit_atr_mult", VolHarvestingRunner.ProfitATRMult r);
    ("mean_rev_lookback", of_Z (VolHarvestingRunner.MeanRevLookback r));
    ("mean_rev_entry_z", VolHarvestingRunner.MeanRevEntryZ r);
    ("mean_rev_exit_z", VolHarvestingRunner.MeanRevExitZ r)].

Definition ParamDefs (_ : VolHarvestingRunner.t) : list ParamDef :=
  [mkParamDef "vix_threshold" ParamContinuous 20.0 15 40 1.0 "Entry"
      "Minimum VIX level to enter short-vol positions";
   mkParamDef "max_vega" ParamContinuous 0.02 0.005 0.05 0.005 "Sizing"
      "Max notional exposure per trade as fraction of capital";
   mkParamDef "stop_atr_mult" ParamContinuous 2.0 1.0 4.0 0.5 "Risk"
      "ATR multiplier for stop-loss distance";
   mkParamDef "profit_atr_mult" ParamContinuous 3.0 1.5 5.0 0.5 "Risk"
      "ATR multiplier for take-profit distance";
   mkParamDef "mean_rev_lookback" ParamInteger 10 5 30 5 "Signal"
      "Lookback bars for mean-reversion z-score";
   mkParamDef "mean_rev_entry_z" ParamContinuous 1.5 0.75 3.0 0.25 "Signal"
      "Z-score threshold for entry";
   mkParamDef "mean_rev_exit_z" ParamContinuous 0.5 0.0 1.5 0.25 "Signal"
      "Z-score threshold for exit"].
End VolHarvestingParams.

Module DragonParams.
Definition Params (r : DragonTrendRunner.t) : gmap string float64 :=
  list_to_map [("min_aligned", of_Z (DragonTrendRunner.MinAligned r));
    ("adx_period", of_Z (DragonTrendRunner.ADXPeriod r));
    ("adx_threshold", DragonTrendRunner.ADXThreshold r);
    ("atr_period", of_Z (DragonTrendRunner.ATRPeriod r));
    ("atr_multiplier", DragonTrendRunner.ATRMultiplier r);
    ("profit_atr_mult", DragonTrendRunner.ProfitATRMult r)].

Definition ParamDefs (_ : DragonTrendRunner.t) : list ParamDef :=
  [mkParamDef "min_aligned" ParamInteger 3 2 4 1 "Filter"
      "Minimum aligned EMAs for entry";
   mkParamDef "adx_period" ParamInteger 14 7 28 7 "Filter"
      "ADX lookback period";
   mkParamDef "adx_threshold" ParamContinuous 20.0 10 35 5 "Filter"
      "Minimum ADX for entry";
   mkParamDef "atr_period" ParamInteger 14 7 28 7 "Risk"
      "ATR lookback for stop placement";
   mkParamDef "atr_multiplier" ParamContinuous 2.0 1.0 4.0 0.5 "Risk"
      "ATR multiplier for stop distance";
   mkParamDef "profit_atr_mult" ParamContinuous 3.0 1.5 5.0 0.5 "Exit"
      "ATR multiplier for take-profit distance"].
End DragonParams.

Module VolumeScalpParams.
Definition Params (r : VolumeScalpRunner.t) : gmap string float64 :=
  list_to_map [("volume_multiplier", VolumeScalpRunner.VolumeMultiplier r);
    ("atr_period", VolumeScalpRunner.AtrPeriod r);
    ("take_profit_atr_mult", VolumeScalpRunner.TakeProfitAtrMult r);
    ("stop_loss_atr_mult", VolumeScalpRunner.StopLossAtrMult r);
    ("max_trades_per_day", of_Z (VolumeScalpRunner.MaxTradesPerDay r))].

Definition ParamDefs (_ : VolumeScalpRunner.t) : list ParamDef :=
  [mkParamDef "volume_multiplier" ParamContinuous 1.25 1.0 4.0 0.25 "Filter"
      "Volume must exceed avg × this for entry";
   mkParamDef "take_profit_atr_mult" ParamContinuous 1.5 0.5 3.0 0.25 "Exit"
      "ATR multiplier for take-profit";
   mkParamDef "stop_loss_atr_mult" ParamContinuous 1.0 0.25 2.0 0.25 "Exit"
      "ATR multiplier for stop-loss";
   mkParamDef "max_trades_per_day" ParamInteger 10 1 30 1 "Risk"
      "Maximum trades per session"].
End VolumeScalpParams.

Module VIXCarryParams.
Definition Params (r : VIXFuturesCarryRunner.t) : gmap string float64 :=
  list_to_map [("contango_threshold", VIXFuturesCarryRunner.ContangoThreshold r);
    ("fade_lookback", of_Z (VIXFuturesCarryRunner.FadeLookback r));
    ("fade_entry_z", VIXFuturesCarryRunner.FadeEntryZ r);
    ("fade_exit_z", VIXFuturesCarryRunner.FadeExitZ r);
    ("stop_atr_mult", VIXFuturesCarryRunner.StopATRMult r);
    ("profit_atr_mult", VIXFuturesCarryRunner.ProfitATRMult r);
    ("max_hold", of_Z (VIXFuturesCarryRunner.MaxHold r))].

Definition ParamDefs (_ : VIXFuturesCarryRunner.t) : list ParamDef :=
  [mkParamDef "contango_threshold" ParamContinuous 22.0 15 35 1.0 "Entry"
      "Minimum VIX spot for contango proxy";
   mkParamDef "fade_lookback" ParamInteger 10 5 30 5 "Signal"
      "Lookback bars for fade z-score";
   mkParamDef "fade_entry_z" ParamContinuous 1.5 1.0 3.0 0.25 "Signal"
      "Z-score for fade entry";
   mkParamDef "fade_exit_z" ParamContinuous 0.3 0.0 1.0 0.1 "Signal"
      "Z-score for fade exit";
   mkParamDef "stop_atr_mult" ParamContinuous 2.0 1.0 4.0 0.5 "Risk"
      "ATR multiplier for stop-loss";
   mkParamDef "profit_atr_mult" ParamContinuous 3.0 1.5 5.0 0.5 "Risk"
      "ATR multiplier for take-profit";
   mkParamDef "max_hold" ParamInteger 30 10 60 5 "Risk"
      "Max holding period in bars"].
End VIXCarryParams.

Module MomentumParams.
Definition Params (r : MomentumRunner.t) : gmap string float64 :=
  list_to_map [("lookback", MomentumRunner.Lookback r);
    ("skip_recent", MomentumRunner.SkipRecent r);
    ("trend_period", MomentumRunner.TrendPeriod r);
    ("atr_period", MomentumRunner.AtrPeriod r);
    ("atr_multiplier", MomentumRunner.AtrMultiplier r);
    ("profit_atr_mult", MomentumRunner.ProfitATRMult r)].

Definition ParamDefs (_ : MomentumRunner.t) : list ParamDef :=
  [mkParamDef "lookback" ParamInteger 252 63 504 21 "Entry"
      "Momentum lookback in bars (252 = ~12 months on 1d)";
   mkParamDef "skip_recent" ParamInteger 21 0 63 7 "Entry"
      "Skip most-recent bars to avoid short-term reversal (21 = ~1 month)";
   mkParamDef "trend_period" ParamInteger 50 20 200 10 "Filter"
      "SMA trend-filter period (long only above)";
   mkParamDef "atr_period" ParamInteger 20 7 60 7 "Risk"
      "ATR lookback for trailing stop";
   mkParamDef "atr_multiplier" ParamContinuous 3.0 1.0 6.0 0.5 "Risk"
      "ATR trailing-stop multiplier";
   mkParamDef "profit_atr_mult" ParamContinuous 0.0 0.0 10.0 1.0 "Exit"
      "ATR take-profit multiplier (0 = disabled)"].
End MomentumParams.

Module CarryParams.
Definition Params (r : CarryRunner.t) : gmap string float64 :=
  list_to_map [("trend_period", CarryRunner.TrendPeriod r);
    ("atr_period", CarryRunner.AtrPeriod r);
    ("atr_multiplier", CarryRunner.AtrMultiplier r);
    ("profit_atr_mult", CarryRunner.ProfitATRMult r);
    ("min_carry_bps", CarryRunner.MinCarryBps r)].

Definition ParamDefs (_ : CarryRunner.t) : list ParamDef :=
  [mkParamDef "trend_period" ParamInteger 100 40 240 20 "Filter"
      "SMA trend-filter period";
   mkParamDef "atr_period" ParamInteger 20 7 60 7 "Risk"
      "ATR lookback for trailing stop";
   mkParamDef "atr_multiplier" ParamContinuous 2.0 1.0 4.0 0.5 "Risk"
      "ATR trailing-stop multiplier";
   mkParamDef "profit_atr_mult" ParamContinuous 0.0 0.0 10.0 1.0 "Exit"
      "ATR take-profit multiplier (0 = disabled)";
   mkParamDef "min_carry_bps" ParamContinuous 0.0 0.0 200.0 25.0 "Filter"
      "Minimum absolute carry (bps) to trade"].
End CarryParams.

Module SessionMomentumParams.
Definition Params (r : SessionMomentumRunner.t) : gmap string float64 :=
  list_to_map [("session_minutes", SessionMomentumRunner.SessionMinutes r);
    ("drift_threshold_pct", SessionMomentumRunner.DriftThresholdPct r);
    ("volume_multiplier", SessionMomentumRunner.VolumeMultiplier r);
    ("atr_period", SessionMomentumRunner.AtrPeriod r);
    ("atr_multiplier", SessionMomentumRunner.AtrMultiplier r);
    ("profit_atr_mult", SessionMomentumRunner.ProfitATRMult r);
    ("time_exit_minutes", SessionMomentumRunner.TimeExitMinutes r)].

Definition ParamDefs (_ : SessionMomentumRunner.t) : list ParamDef :=
  [mkParamDef "session_minutes" ParamInteger 30 5 120 5 "Entry"
      "Bars after session open to measure drift";
   mkParamDef "drift_threshold_pct" ParamContinuous 0.10 0.02 1.0 0.02 "Entry"
      "Minimum drift from session open to enter (%)";
   mkParamDef "volume_multiplier" ParamContinuous 1.5 0.5 3.0 0.25 "Filter"
      "Volume confirmation multiplier";
   mkParamDef "atr_period" ParamInteger 14 7 28 7 "Risk"
      "ATR lookback for trailing stop";
   mkParamDef "atr_multiplier" ParamContinuous 2.0 1.0 4.0 0.5 "Risk"
      "ATR trailing-stop multiplier";
   mkParamDef "profit_atr_mult" ParamContinuous 0.0 0.0 10.0 1.0 "Exit"
      "ATR take-profit multiplier (0 = disabled)";
   mkParamDef "time_exit_minutes" ParamInteger 120 30 390 30 "Exit"
      "Minutes after entry to force-close"].
End SessionMomentumParams.

(** ** By the kind of runner *)
Definition paramsOf (s : Strategy) : gmap string float64 :=
  match s with
  | Orb r => OrbParams.Params r
  | Grid r => GridParams.Params r
  | Trend r => TrendParams.Params r
  | SessionScalp r => SessionScalpParams.Params r
  | MeanRev r => MeanRevParams.Params r
  | MACross r => MACrossParams.Params r
  | Rsi2 r => Rsi2Params.Params r
  | Donchian r => DonchianParams.Params r
  | Keltner r => KeltnerParams.Params r
  | Ichimoku r => IchimokuParams.Params r
  | PairsT r => PairsTParams.Params r
  | VolHarvesting r => VolHarvestingParams.Params r
  | Dragon r => DragonParams.Params r
  | VolumeScalp r => VolumeScalpParams.Params r
  | VIXCarry r => VIXCarryParams.Params r
  | Momentum r => MomentumParams.Params r
  | Carry r => CarryParams.Params r
  | SessionMomentum r => SessionMomentumParams.Params r
  end.

Definition paramDefs (s : Strategy) : list ParamDef :=
  match s with
  | Orb r => OrbParams.ParamDefs r
  | Grid r => GridParams.ParamDefs r
  | Trend r => TrendParams.ParamDefs r
  | SessionScalp r => SessionScalpParams.ParamDefs r
  | MeanRev r => MeanRevParams.ParamDefs r
  | MACross r => MACrossParams.ParamDefs r
  | Rsi2 r => Rsi2Params.ParamDefs r
  | Donchian r => DonchianParams.ParamDefs r
  | Keltner r => KeltnerParams.ParamDefs r
  | Ichimoku r => IchimokuParams.ParamDefs r
  | PairsT r => PairsTParams.ParamDefs r
  | VolHarvesting r => VolHarvestingParams.ParamDefs r
  | Dragon r => DragonParams.ParamDefs r
  | VolumeScalp r => VolumeScalpParams.ParamDefs r
  | VIXCarry r => VIXCarryParams.ParamDefs r
  | Momentum r => MomentumParams.ParamDefs r
  | Carry r => CarryParams.ParamDefs r
  | SessionMomentum r => SessionMomentumParams.ParamDefs r
  end.

(** [ParamDefsForStrategy] of [internal/backtest/engine.go]. *)
Definition ParamDefsForStrategy (strategyID : string) : list ParamDef :=
  match Registry.Get GlobalRegistry strategyID with
  | Some runner => paramDefs runner
  | None => MeanRevParams.ParamDefs (MeanReversion.NewMeanReversionRunner 20 1.5 0.1 60)
  end.

(** ** Validation *)
Inductive Violation :=
  | OutOfRange (name : string) (v min max : float64)
  | EntryNotAboveExit
  | KellyOutside (v : float64)
  | RegimeWeightOutside (name : string) (v : float64).

(** The definitions by name, a later one over an earlier one. *)
Definition defByName (defs : list ParamDef) : gmap string ParamDef :=
  list_to_map (rev (map (fun d => (PName d, d)) defs)).

Definition rangeViolation (defs : gmap string ParamDef) (params : gmap string float64) (name : string) : option Violation :=
  v ← params !! name; d ← defs !! name;
  if (v <? PMin d) || (PMax d <? v) then Some (OutOfRange name v (PMin d) (PMax d)) else None.

Definition regimeWeights : list string := ["regime_w_calm"; "regime_w_trending"; "regime_w_highvol"; "regime_w_crisis"].

Definition weightViolation (params : gmap string float64) (name : string) : option Violation :=
  v ← params !! name; if (v <? 0) || (1 <? v) then Some (RegimeWeightOutside name v) else None.

(** [order]: the map's order of the names. *)
Definition ValidateParams (order : list string) (strategyName : string) (params : gmap string float64) : list Violation :=
  if bool_decide (params = ∅) then []
  else
    let defs := match Registry.Get GlobalRegistry strategyName with Some s => defByName (paramDefs s) | None => ∅ end in
    let entry := match params !! "entry_z", params !! "exit_z" with
                 | Some ez, Some xz => if ez <=? xz then [EntryNotAboveExit] else []
                 | _, _ => []
                 end in
    let kelly := match params !! "kelly_fraction" with
                 | Some k => if (k <=? 0) || (1 <? k) then [KellyOutside k] else []
                 | None => []
                 end in
    omap (rangeViolation defs params) order ++ entry ++ kelly ++ omap (weightViolation params) regimeWeights.

Inductive Warning := InvertedRewardRisk.

Definition WarnParams (strategyName : string) (params : gmap string float64) : list Warning :=
  match params !! "take_profit_pct", params !! "stop_loss_pct" with
  | Some tp, Some sl => if tp <? sl then [InvertedRewardRisk] else []
  | _, _ => []
  end.

(** ** What is declared and what is there *)

(** The declared parameters of every factory whose default a fresh runner does not have. *)
Definition mismatches : list (string * string * float64 * option float64) :=
  flat_map (fun p => omap (fun d => let v := paramsOf p.2 !! PName d in
                                   if match v with Some v => v =? PDefault d | None => false end then None
                                   else Some (p.1, PName d, PDefault d, v)) (paramDefs p.2)) factoryTable.

Definition def_ok (d : ParamDef) : bool :=
  (PMin d <=? PDefault d) && (PDefault d <=? PMax d) && (0 <? PStep d).

(** Setting the parameter to its bounds is seen in the runner's parameters. *)
Definition takesEffect (s : Strategy) (d : ParamDef) : bool :=
  let seen v := match paramsOf (setParams s {[PName d := v]}) !! PName d with Some w => w =? v | None => false end in
  seen (PMin d) && seen (PMax d).

(** ** Round trip *)
Lemma int64_of_Z z : (Z.abs z <= 2 ^ 53)%Z -> math.int64 (of_Z z) = z.
Proof. intros H. destruct (of_Z_exact z H) as [F V]. apply (int64_int _ _ F V). lia. Qed.

Lemma bool_back b : (0.5 <=? boolToFloat b) = b.
Proof. by destruct b. Qed.

(** A parameter that is set to what is there. *)
Lemma set_id {A} params name (f : float64 -> A -> A) a v :
  params !! name = Some v -> f v a = a -> BaseRunner.setParam params name f a = a.
Proof. intros E F. unfold BaseRunner.setParam. by rewrite E. Qed.

Lemma set_positive_id {A} params name (f : float64 -> A -> A) a v :
  params !! name = Some v -> f v a = a -> MeanReversion.setPositive params name f a = a.
Proof. intros E F. apply (set_id _ _ _ _ v E). by destruct (0 <? v). Qed.

(** The integers among the parameters are small enough for a float64. *)
Definition small (z : Z) : Prop := (Z.abs z <= 2 ^ 53)%Z.
Definition integers_small (s : Strategy) : Prop :=
  match s with
  | MeanRev r => small (MeanReversion.Lookback r) /\ small (MeanReversion.MaxHold r) /\ small (MeanReversion.TrendPeriod r)
  | PairsT r => small (Pairs.MaxHold r) /\ small (Pairs.SpreadLookback r)
  | SessionScalp r => small (SessionScalpRunner.TimezoneOffset r)
  | VolHarvesting r => small (VolHarvestingRunner.MeanRevLookback r)
  | Dragon r => small (DragonTrendRunner.MinAligned r) /\ small (DragonTrendRunner.ADXPeriod r) /\
                small (DragonTrendRunner.ATRPeriod r)
  | VolumeScalp r => small (VolumeScalpRunner.MaxTradesPerDay r)
  | VIXCarry r => small (VIXFuturesCarryRunner.FadeLookback r) /\ small (VIXFuturesCarryRunner.MaxHold r)
  | _ => True
  end.

(** Every parameter is looked up and set to what the runner has, the first one first. *)
Ltac set_back r :=
  cbv zeta;
  repeat match goal with
    | |- context [MeanReversion.setPositive ?p ?n ?f r] =>
        erewrite (set_positive_id p n f r); [|reflexivity|cbn [snd]; rewrite ?int64_of_Z, ?bool_back by assumption; by destruct r]
    | |- context [BaseRunner.setParam ?p ?n ?f r] =>
        erewrite (set_id p n f r); [|reflexivity|cbn [snd]; rewrite ?int64_of_Z, ?bool_back by assumption; by destruct r]
    end; reflexivity.


(** A configured mean-reversion runner. *)
Definition tunedMR : Strategy :=
  MeanRev ((MeanReversion.NewMeanReversionRunner 20 1.25 0.5 200) <| MeanReversion.EntryZ := 2.5 |> <| MeanReversion.MaxHold := 45%Z |>).


(** ** What the validation accepts *)
Definition declared (name : string) : gmap string ParamDef :=
  match Registry.Get GlobalRegistry name with Some s => defByName (paramDefs s) | None => ∅ end.

Lemma clamp_id d v : Clamp d v = v <-> (v <? PMin d) || (PMax d <? v) = false.
Proof.
  unfold Clamp. destruct (v <? PMin d) eqn:L; [|destruct (PMax d <? v) eqn:H]; split; try done; cbn; intros E.
  - rewrite <- E in L. by rewrite ltb_irrefl in L.
  - rewrite <- E in H. by rewrite ltb_irrefl in H.
Qed.

Lemma omap_nil {A B} (f : A -> option B) l : omap f l = [] <-> forall x, x ∈ l -> f x = None.
Proof.
  induction l as [|a l IH]; cbn; [split; [intros _ x H; by apply not_elem_of_nil in H|done]|].
  destruct (f a) eqn:E.
  - split; [done|]. intros H. rewrite (H a) in E by (left; done). done.
  - rewrite IH. split; [|intros H x Hx; apply H; by right].
    intros H x [->|Hx]%elem_of_cons; [done|by apply H].
Qed.

Lemma guard_nil {A} (b : bool) (x : A) : (if b then [x] else []) = [] <-> b = false.
Proof. by destruct b. Qed.

Lemma some_None {A} (b : bool) (x : A) : (if b then Some x else None) = None <-> b = false.
Proof. by destruct b. Qed.

Lemma iff_and (A B C D : Prop) : (A <-> B) -> (C <-> D) -> A /\ C <-> B /\ D.
Proof. tauto. Qed.

Lemma range_clean defs params order :
  order ≡ₚ map fst (map_to_list params) ->
  omap (rangeViolation defs params) order = [] <->
  forall k v d, params !! k = Some v -> defs !! k = Some d -> Clamp d v = v.
Proof.
  intros O. rewrite omap_nil. split; intros H k.
  - intros v d V D. apply clamp_id. specialize (H k). unfold rangeViolation in H. rewrite V, D in H. cbn in H.
    apply some_None in H; [done|]. rewrite O. apply list_elem_of_fmap. exists (k, v). split; [done|].
    by apply elem_of_map_to_list.
  - intros _. unfold rangeViolation. destruct (params !! k) as [v|] eqn:V; [|done]. destruct (defs !! k) as [d|] eqn:D; [|done].
    cbn. apply some_None, clamp_id. by apply (H k).
Qed.


(** The donchian runner's own set, and one parameter out of its bounds. *)
Definition donchianSet : gmap string float64 := <["kelly_fraction" := 0.25]> (<["entry_period" := 20]> ∅).


(** ** What the registered strategies declare *)
Definition namesOf (params : gmap string float64) : list string := map fst (map_to_list params).

(** The parameters of the registered strategies.  Every declared default lies within
    its bounds with a positive step; setting a declared parameter to either of its bounds
    is seen in the runner, except for the grids' "adjust_by_volatility", which nothing
    reads; and the parameters every factory starts with pass the validation under its name. *)
Theorem declared_parameters_settable :
  Forall (fun p => Forall (fun d => def_ok d = true /\
                                    (takesEffect p.2 d = true \/ PName d = "adjust_by_volatility")) (paramDefs p.2) /\
                   ValidateParams (namesOf (paramsOf p.2)) p.1 (paramsOf p.2) = []) factoryTable.
Proof.
  assert (T : forallb (fun p => forallb (fun d => def_ok d && (takesEffect p.2 d || bool_decide (PName d = "adjust_by_volatility")))
                                  (paramDefs p.2)
                                && match ValidateParams (namesOf (paramsOf p.2)) p.1 (paramsOf p.2) with [] => true | _ => false end)
                factoryTable = true) by (vm_compute; reflexivity).
  rewrite forallb_forall in T. apply List.Forall_forall. intros p Hp. apply T, andb_prop in Hp as [D V]. split.
  - apply List.Forall_forall. intros d Hd. rewrite forallb_forall in D. apply D, andb_prop in Hd as [O E].
    split; [done|]. apply orb_prop in E as [E|E]; [by left|right]. by apply bool_decide_eq_true in E.
  - by destruct (ValidateParams _ _ _).
Qed.

(** The declared defaults that are not what a fresh runner has: nine of the declared
    parameters (thirteen with the aliases), among them the session's time zone, 0 where the
    runner has -4, and the grids' volatility switch, which the runner does not report. *)
Theorem declared_defaults_differ :
  mismatches =
    [("orb_15m", "range_minutes", 5, Some 15);
     ("grid", "adjust_by_volatility", 0, None);
     ("grid_trading", "adjust_by_volatility", 0, None);
     ("vol_grid", "adjust_by_volatility", 0, None);
     ("trend_following", "atr_multiplier", 2, Some 3);
     ("trend", "atr_multiplier", 2, Some 3);
     ("session_scalp", "timezone_offset", 0, Some (-4));
     ("scalp", "timezone_offset", 0, Some (-4));
     ("donchian_breakout", "min_range_pct", 0.2, Some 0.5);
     ("donchian", "min_range_pct", 0.2, Some 0.5);
     ("dragon_trend", "adx_threshold", 20, Some 25);
     ("dragon_trend", "atr_multiplier", 2, Some 3);
     ("session_momentum", "drift_threshold_pct", 0.1, Some 0.15)].
Proof. vm_compute. reflexivity. Qed.
