(* ===== verification/Results.v ===== *)
(** * The result of a run and the promotion standards
      ([internal/backtest/engine.go], multi_metric_gate.go)

    What [Engine.Run] makes of the closed trades, and the verdict of a standard on a run.
    The warnings of a result, its temporal breakdown and the time of a verdict are text and
    clock and are left out. *)
From Stdlib Require Import ZArith Lia Bool Floats.
From coqutil Require Import RecordSettersUsingExistingGetters.
From S2P Require Import Prelude Float64 FloatRound FloatLaws Price StopLoss Fills Pipeline Enforcer Timeline.
From S2P Require Import Runner Indicators Live Strategies Params Trade Engine EngineLaws Metrics.
Local Open Scope float_scope.
Local Open Scope go_scope.

(** ** Standards and verdicts *)
Record MultiMetricStandard := mkStandard {
  MinSharpeRatio : float64; MaxDrawdownPct : float64; MinPassProbPct : float64; MinProfitFactor : float64;
  MinNumTrades : Z; MinSortinoRatio : float64; MaxSharpeDegradation : float64; MinInformationRatio : float64
}.

Record MetricVerdict := mkVerdict { Metric : string; Required : float64; Actual : float64; MetricPassed : bool }.

Record MultiMetricVerdict := mkMulti {
  VerdictPassed : bool; Verdicts : list MetricVerdict; PassedCount : Z; TotalCount : Z
}.

Definition DefaultMultiMetricStandard : MultiMetricStandard := mkStandard 1.0 8.0 80.0 1.5 30 0.0 50.0 0.
Definition LenientMultiMetricStandard : MultiMetricStandard := mkStandard 0.5 15.0 60.0 1.2 15 0.0 70.0 0.
Definition StrictMultiMetricStandard : MultiMetricStandard := mkStandard 1.5 5.0 90.0 2.0 50 1.2 30.0 0.

Definition atLeast (metric : string) (required actual : float64) : MetricVerdict :=
  mkVerdict metric required actual (required <=? actual).
Definition atMost (metric : string) (required actual : float64) : MetricVerdict :=
  mkVerdict metric required actual (actual <=? required).
Definition enough (metric : string) (required actual : Z) : MetricVerdict :=
  mkVerdict metric (of_Z required) (of_Z actual) (Z.leb required actual).

(** The loop over the verdicts: how many pass, and whether all do. *)
Definition conclude (verdicts : list MetricVerdict) : MultiMetricVerdict :=
  let '(passedCount, allPassed) :=
    fold_left (fun acc v => if MetricPassed v then (acc.1 + 1, acc.2)%Z else (acc.1, false)) verdicts (0%Z, true) in
  mkMulti allPassed verdicts passedCount (Z.of_nat (length verdicts)).

(** The answer when there is nothing to judge. *)
Definition noData (metric : string) : MultiMetricVerdict := mkMulti false [mkVerdict metric 1 0 false] 0 0.

(** ** Results *)

(** The run's configuration with the fields that choose the data and the gate. *)
Record RunConfig := mkRun {
  Base :> BacktestConfig;
  RunStart : Z;
  RunEnd : Z;
  Timeframe : string;
  DataSource : string;
  ApplyGate : bool;
  GateProfile : string
}.

Record BacktestResult := mkResult {
  RConfig : RunConfig;
  RMetrics :> Metrics;
  RTrades : list Trade;
  REquity : list EquityPoint;
  RMtmEquity : list EquityPoint;
  RDailyReturns : list (Z * float64);
  NumTrades : Z;
  TotalReturn : float64;
  TotalReturnPct : float64;
  AvgTrade : float64;
  AvgMAE : float64;
  AvgMFE : float64;
  TotalFees : float64;
  AvgSlippageBps : float64;
  RLong : SideStats;
  RShort : SideStats;
  RCompliance : option PropFirmEnforcer.ComplianceReport;
  MetricGateStatus : option MultiMetricVerdict;
  RStrategyParams : gmap string float64;
  RSignalDiag : SignalDiag;
  CandleCount : Z;
  FirstCandleTime : Z;
  LastCandleTime : Z;
  DataGenerationID : string;
  DeclaredBarsPerDay : float64;
  EffectiveBarsPerDay : float64
}.

(** ** The verdict on a run *)
Definition runVerdicts (result : BacktestResult) (standard : MultiMetricStandard) : list MetricVerdict :=
  [atLeast "sharpe_ratio" (MinSharpeRatio standard) (SharpeRatio result);
   atMost "max_drawdown_pct" (MaxDrawdownPct standard) (MaxDrawdown result);
   atLeast "profit_factor" (MinProfitFactor standard) (ProfitFactor result);
   enough "min_trades" (MinNumTrades standard) (NumTrades result);
   mkVerdict "win_rate" 0 (WinRate result) true] ++
  (if 0 <? MinSortinoRatio standard then [atLeast "sortino_ratio" (MinSortinoRatio standard) (SortinoRatio result)] else []).

(** [None]: a nil result. *)
Definition EvaluateBacktestMultiMetric (result : option BacktestResult) (standard : MultiMetricStandard) : MultiMetricVerdict :=
  match result with
  | None => noData "backtest_result"
  | Some result => conclude (runVerdicts result standard)
  end.

Definition EvaluateBacktestMultiMetricWithBenchmark (result : option BacktestResult) (standard : MultiMetricStandard)
    (benchmarkIR : option float64) : MultiMetricVerdict :=
  let verdict := EvaluateBacktestMultiMetric result standard in
  match benchmarkIR with
  | Some ir =>
      if 0 <? MinInformationRatio standard then
        conclude (Verdicts verdict ++ [atLeast "benchmark_information_ratio" (MinInformationRatio standard) ir])
      else verdict
  | None => verdict
  end.

(** The text of [Summary] as data: the counts, and the metrics that failed with their
    values; [None] is the text of a pass. *)
Definition Summary (v : MultiMetricVerdict) : Z * Z * option (list (string * float64 * float64)) :=
  (PassedCount v, TotalCount v,
   if VerdictPassed v then None
   else Some (map (fun m => (Metric m, Actual m, Required m)) (List.filter (fun m => negb (MetricPassed m)) (Verdicts v)))).

(** The standard of a gate profile. *)
Definition standardOf (gateProfile : string) : MultiMetricStandard :=
  let named n := bool_decide (gateProfile = n) in
  if named "lenient"%string || named "research"%string then LenientMultiMetricStandard
  else if named "strict"%string || named "pretrade"%string || named "production_guarded"%string || named "production"%string
  then StrictMultiMetricStandard
  else DefaultMultiMetricStandard.

(** ** From the end of the loop to the result *)

(** Sums over the trades: excursions, fees, slippage and its fills. *)
Definition sumMAE (ts : list Trade) : float64 := fold_left (fun s t => s + TMAE t) ts 0.
Definition sumMFE (ts : list Trade) : float64 := fold_left (fun s t => s + TMFE t) ts 0.
Definition totalFees (ts : list Trade) : float64 := fold_left (fun s t => s + TBrokerFee t) ts 0.
Definition slippage (ts : list Trade) : float64 * Z :=
  fold_left (fun s t => if Z.ltb 0 (TSlippageFillCount t) then (s.1 + TSlippageBps t, (s.2 + TSlippageFillCount t)%Z) else s)
    ts (0, 0%Z).

Definition exitReasons (ts : list Trade) : gmap string Z :=
  fold_left (fun m t =>
    let reason := if bool_decide (TExitReason t = ""%string) then "unknown"%string else TExitReason t in
    <[reason := (mget 0 m reason + 1)%Z]> m) ts ∅.

Section Run.
Context {IN : Indicator} {LG : Logarithm} {SL : SortSlice}.
Variable Pow : float64 -> float64 -> float64.
(** [config.SymbolByTicker]: the asset class in the universe file. *)
Variable assetClass : string -> option string.

(** Continuously traded classes have bars around the clock. *)
Definition barsPerDayForSymbol (timeframe symbol : string) : float64 :=
  if bool_decide (symbol = ""%string) then barsPerDayFromTimeframe timeframe
  else match assetClass symbol with
       | Some class =>
           if oneOfStr class ["forex_major"; "forex_minor"; "crypto"]%string then barsPerDay24h timeframe
           else barsPerDayFromTimeframe timeframe
       | None => barsPerDayFromTimeframe timeframe
       end.

(** The runner's parameters, then the explicit ones, then the effective ones. *)
Definition reportedParams (cfg : BacktestConfig) : gmap string float64 :=
  <["sizing_percent" := resolveSizingPercent cfg]>
    (<["kelly_fraction" := resolveKellyFraction cfg]>
       (StrategyParams cfg ∪ paramsOf (getRunnerForStrategy (CfgStrategyID cfg) (StrategyParams cfg)))).

Definition noSide : SideStats := mkSide 0 0 0 0 0 0.

(** The result without its gate; [st] is the state at the end of the loop. *)
Definition ungated {rand R} (cfg : RunConfig) (allCandles : list Candle) (st : @State rand R) : BacktestResult :=
  let ts := Engine.trades st in
  let n := Z.of_nat (length ts) in
  let declared := barsPerDayForSymbol (Timeframe cfg) (firstSymbol (Symbols cfg)) in
  let '(total, fills) := slippage ts in
  let broken := math.IsNaN (capital st) || math.IsInf (capital st) 0 in
  mkResult cfg (report Pow ts (Engine.equity st) (mtmEquity st)) ts (Engine.equity st) (mtmEquity st)
    (if Z.ltb 0 n then calculateDailyReturns (Engine.equity st) else [])
    n
    (capital st - InitialCapital cfg)
    (if broken then 0 else (capital st - InitialCapital cfg) / InitialCapital cfg * 100)
    (if Z.ltb 0 n then (capital st - InitialCapital cfg) / of_Z n else 0)
    (if Z.ltb 0 n then sumMAE ts / of_Z n else 0) (if Z.ltb 0 n then sumMFE ts / of_Z n else 0)
    (if Z.ltb 0 n then totalFees ts else 0) (if Z.ltb 0 fills then total / of_Z fills else 0)
    (sideStats true ts) (sideStats false ts)
    (PropFirmEnforcer.Summary <$> ftmo st) None (reportedParams cfg)
    (if Z.ltb 0 n then (signalDiag st) <| ExitReasons := exitReasons ts |> else signalDiag st)
    (Z.of_nat (length allCandles))
    (match allCandles with c :: _ => Time c | [] => zeroTime end)
    (match List.last (map Some allCandles) None with Some c => Time c | None => zeroTime end)
    (representativeGenerationID (map_to_list (generationCounts allCandles)))
    declared (effectiveBarsPerDay allCandles declared).

(** No candles: the run ends before the metrics, the report and the gate. *)
Definition noCandles {rand R} (cfg : RunConfig) (st : @State rand R) : BacktestResult :=
  mkResult cfg zeroMetrics (Engine.trades st) (Engine.equity st) (mtmEquity st) [] 0 0 0 0 0 0 0 0 noSide noSide
    None None ∅ zeroDiag 0 zeroTime zeroTime "" 0 0.

Definition gateStandard (cfg : RunConfig) : MultiMetricStandard :=
  standardOf (if bool_decide (GateProfile cfg = ""%string) then "default"%string else GateProfile cfg).

Definition resultOf {rand R} (cfg : RunConfig) (allCandles : list Candle) (st : @State rand R) : BacktestResult :=
  match allCandles with
  | [] => noCandles cfg st
  | _ =>
      let result := ungated cfg allCandles st in
      if ApplyGate cfg
      then result <| MetricGateStatus := Some (EvaluateBacktestMultiMetric (Some result) (gateStandard cfg)) |>
      else result
  end.
End Run.

(** ** Laws of the verdict *)
Lemma conclude_spec vs :
  conclude vs = mkMulti (forallb MetricPassed vs) vs (Z.of_nat (length (List.filter MetricPassed vs))) (Z.of_nat (length vs)).
Proof.
  unfold conclude. set (f := fun (acc : Z * bool) v => _).
  assert (E : forall n b, fold_left f vs (n, b) =
    ((n + Z.of_nat (length (List.filter MetricPassed vs)))%Z, b && forallb MetricPassed vs)).
  { induction vs as [|v vs IH]; intros n b; cbn [fold_left List.filter forallb length]; [by rewrite Z.add_0_r, andb_true_r|].
    unfold f at 2. destruct (MetricPassed v); cbn [fst snd]; rewrite IH; cbn [length andb];
      [f_equal; lia|by rewrite andb_false_r]. }
  by rewrite E.
Qed.

(** What a standard asks of a run. *)
Definition meets (r : BacktestResult) (std : MultiMetricStandard) : Prop :=
  (MinSharpeRatio std <=? SharpeRatio r) = true /\ (MaxDrawdown r <=? MaxDrawdownPct std) = true /\
  (MinProfitFactor std <=? ProfitFactor r) = true /\ (MinNumTrades std <= NumTrades r)%Z /\
  ((0 <? MinSortinoRatio std) = true -> (MinSortinoRatio std <=? SortinoRatio r) = true).

Lemma verdict_meets r std : VerdictPassed (EvaluateBacktestMultiMetric (Some r) std) = true <-> meets r std.
Proof.
  cbn [EvaluateBacktestMultiMetric]. rewrite conclude_spec. cbn [VerdictPassed]. unfold runVerdicts, meets.
  rewrite forallb_app. cbn [forallb]. rewrite !andb_true_iff. cbn [MetricPassed atLeast atMost enough]. rewrite Z.leb_le.
  destruct (0 <? MinSortinoRatio std); cbn [forallb atLeast MetricPassed]; rewrite ?andb_true_iff; intuition congruence.
Qed.

(** A standard that asks at least as much of a run. *)
Record stricter (a b : MultiMetricStandard) : Prop := {
  st_sharpe : (MinSharpeRatio b <=? MinSharpeRatio a) = true;
  st_drawdown : (MaxDrawdownPct a <=? MaxDrawdownPct b) = true;
  st_factor : (MinProfitFactor b <=? MinProfitFactor a) = true;
  st_trades : (MinNumTrades b <= MinNumTrades a)%Z;
  st_sortino : (0 <? MinSortinoRatio b) = true ->
    (0 <? MinSortinoRatio a) = true /\ (MinSortinoRatio b <=? MinSortinoRatio a) = true
}.

Lemma stricter_meets a b r : stricter a b -> meets r a -> meets r b.
Proof.
  intros [S D F T So] (Ms & Md & Mf & Mt & Mo). unfold meets.
  split; [by eapply leb_trans|]. split; [by eapply leb_trans|]. split; [by eapply leb_trans|]. split; [lia|].
  intros H. destruct (So H) as [A B]. eapply leb_trans; [exact B|by apply Mo].
Qed.

Definition clears (profile : string) (r : BacktestResult) : Prop :=
  VerdictPassed (EvaluateBacktestMultiMetric (Some r) (standardOf profile)) = true.

(** The deployment profiles are nested.  What clears the gate of production clears that
    of paper trading, and what clears paper trading clears research; an unknown profile is
    the paper one.  A run clears a gate exactly when every number its standard names is
    met, a NaN meeting none, and then it passes as many metrics as were judged; a
    benchmark, where the standard has a floor for it, is one more condition. *)
Theorem gate_profiles_nested r :
  (clears "production" r -> clears "paper" r) /\ (clears "paper" r -> clears "research" r) /\
  (forall profile, profile ∉ ["lenient"; "research"; "strict"; "pretrade"; "production_guarded"; "production"]%string ->
     standardOf profile = standardOf "paper") /\
  (forall std, let v := EvaluateBacktestMultiMetric (Some r) std in
     (VerdictPassed v = true <-> meets r std) /\ (VerdictPassed v = true <-> PassedCount v = TotalCount v) /\
     (VerdictPassed v = true -> fnan (SharpeRatio r) = false /\ fnan (MaxDrawdown r) = false /\ fnan (ProfitFactor r) = false) /\
     forall ir, (0 <? MinInformationRatio std) = true ->
       (VerdictPassed (EvaluateBacktestMultiMetricWithBenchmark (Some r) std (Some ir)) = true <->
        VerdictPassed v = true /\ (MinInformationRatio std <=? ir) = true)).
Proof.
  split; [|split; [|split]].
  - unfold clears. rewrite !verdict_meets. apply stricter_meets. constructor; vm_compute; intuition congruence.
  - unfold clears. rewrite !verdict_meets. apply stricter_meets. constructor; vm_compute; intuition congruence.
  - intros p N. unfold standardOf. rewrite !not_elem_of_cons in N.
    do 6 (rewrite (bool_decide_eq_false_2 (p = _)) by tauto). reflexivity.
  - intros std. cbv zeta. split; [apply verdict_meets|]. split; [|split].
    + cbn [EvaluateBacktestMultiMetric]. rewrite conclude_spec. cbn [VerdictPassed PassedCount TotalCount].
      rewrite Nat2Z.inj_iff. generalize (runVerdicts r std) as vs. intros vs. induction vs as [|v vs IH]; [done|].
      pose proof (List.filter_length_le MetricPassed vs). cbn [forallb List.filter length].
      destruct (MetricPassed v); cbn [length andb]; [rewrite IH; lia|split; [done|lia]].
    + rewrite verdict_meets. intros (Ms & Md & Mf & _). rewrite leb_true in Ms, Md, Mf. tauto.
    + intros ir G. unfold EvaluateBacktestMultiMetricWithBenchmark. rewrite G.
      cbn [EvaluateBacktestMultiMetric]. rewrite !conclude_spec. cbn [VerdictPassed Verdicts]. rewrite forallb_app.
      cbn [forallb atLeast MetricPassed]. rewrite andb_true_r, andb_true_iff. done.
Qed.
