(* ===== verification/SearchSpace.v ===== *)
(** * Search spaces of the optimiser ([internal/backtest/optimizer.go])

    The grid of a parameter, the spaces of the strategies, the enumeration of a space with
    its odometer of indices, the random sample, the objective of a run, and the way a
    combination reaches a run's configuration.  The generator of [math/rand] is the
    class [Rand], the ["%.4f"] of [fmt.Sprintf] an argument. *)
From Stdlib Require Import ZArith Lia Bool Floats.
From coqutil Require Import RecordSettersUsingExistingGetters.
From S2P Require Import Prelude Float64 FloatRound FloatLaws Regime Live Strategies Params Trade Metrics Results.
Import GoInt.
Local Open Scope float_scope.
Local Open Scope go_scope.

Record ConditionalRule := mkRule { LeftParam : string; Operator : string; RightParam : string }.

Record ParamConstraint := mkConstraint {
  CName : string;
  CType : ParamType;
  CMin : float64;
  CMax : float64;
  CStep : float64;
  CategoricalValues : list string;
  Condition : option ConditionalRule
}.

(** ** The grid of a parameter *)

(** [math.Round(v*1e6)/1e6] *)
Definition micro (v : float64) : float64 := math.Round (v * 1e6) / 1e6.

(** [for v := min; v <= max+1e-9; v += step], [None] if it goes on for longer. *)
Fixpoint gridFrom (fuel : nat) (v max step : float64) : option (list float64) :=
  match fuel with
  | O => None
  | S fuel =>
      if v <=? max + 1e-9 then vals ← gridFrom fuel (v + step) max step; Some (micro v :: vals) else Some []
  end.

Definition gridFuel : nat := 4096.

Definition Grid (c : ParamConstraint) : option (list float64) :=
  match CType c with
  | ParamCategorical => Some (imap (fun i _ => of_Z (Z.of_nat i)) (CategoricalValues c))
  | _ => gridFrom gridFuel (CMin c) (CMax c) (if CStep c <=? 0 then 1.0 else CStep c)
  end.

(** More fuel gives the same grid. *)
Lemma grid_fuel fuel k v max step vals :
  gridFrom fuel v max step = Some vals -> gridFrom (fuel + k) v max step = Some vals.
Proof.
  revert v vals. induction fuel as [|fuel IH]; intros v vals; [done|]. cbn. destruct (v <=? _); [|done].
  destruct (gridFrom fuel _ _ _) eqn:E; [|done]. by rewrite (IH _ _ E).
Qed.

(** ** Spaces *)
Abbreviation SearchSpace := (gmap string ParamConstraint).
Abbreviation combination := (gmap string float64).

Definition sortedNames (s : SearchSpace) : list string := sliceStable String.ltb (map fst (map_to_list s)).

(** The product of the grids' sizes, as an [int]. *)
Definition TotalCombinations (s : SearchSpace) : option Z :=
  map_fold (fun _ c total => n ← Grid c; t ← total; Some (i64 (t * Z.of_nat (length n)))) (Some 1%Z) s.

Definition compareCondition (op : string) (left right : float64) : bool :=
  if bool_decide (op = "lt"%string) then left <? right
  else if bool_decide (op = "gt"%string) then right <? left
  else if bool_decide (op = "lte"%string) then left <=? right
  else if bool_decide (op = "gte"%string) then right <=? left
  else if bool_decide (op = "eq"%string) then left =? right
  else if bool_decide (op = "neq"%string) then negb (left =? right)
  else true.

Definition ruleHolds (combo : combination) (c : ConditionalRule) : bool :=
  match combo !! LeftParam c, combo !! RightParam c with
  | Some leftVal, Some rightVal => compareCondition (Operator c) leftVal rightVal
  | _, _ => true
  end.

Definition rules (s : SearchSpace) : list ConditionalRule := omap Condition (map snd (map_to_list s)).

Definition checkCondition (s : SearchSpace) (combo : combination) : bool := forallb (ruleHolds combo) (rules s).

(** ** Enumeration *)

(** A condition by the positions of its parameters; an unknown name has position 0. *)
Record cond := mkCond { left_ : nat; right_ : nat; op : string }.

Definition posByName (names : list string) : gmap string nat := list_to_map (imap (fun i n => (n, i)) names).

Definition condOf (names : list string) (r : ConditionalRule) : cond :=
  mkCond (default O (posByName names !! LeftParam r)) (default O (posByName names !! RightParam r)) (Operator r).

(** The value of a parameter in a combination: an integer one is cut to [int]. *)
Definition valueOf (c : ParamConstraint) (v : float64) : float64 :=
  match CType c with ParamInteger => of_Z (math.int64 v) | _ => v end.

(** What the loop over the names reads: a name, its constraint and its grid. *)
Abbreviation axis := (string * ParamConstraint * list float64)%type.

(** [grids[i][indices[i]]] for every name; [None]: out of range. *)
Fixpoint comboAt (axes : list axis) (indices : list nat) : option combination :=
  match axes, indices with
  | (name, c, grid) :: axes, i :: indices =>
      v ← grid !! i; combo ← comboAt axes indices; Some (<[name := valueOf c v]> combo)
  | _, _ => Some ∅
  end.

(** Whether the conditions hold, and the position the loop goes on from. *)
Definition checkConds (names : list string) (conds : list cond) (combo : combination) (last : Z) : bool * Z :=
  fold_left (fun acc c =>
    let '(valid, prunePos) := acc in
    match combo !! nth (left_ c) names ""%string, combo !! nth (right_ c) names ""%string with
    | Some leftVal, Some rightVal =>
        if compareCondition (op c) leftVal rightVal then acc
        else
          let prunePos := if Z.ltb prunePos (Z.of_nat (left_ c)) then Z.of_nat (left_ c) else prunePos in
          let prunePos := if Z.ltb prunePos (Z.of_nat (right_ c)) then Z.of_nat (right_ c) else prunePos in
          (false, prunePos)
    | _, _ => acc
    end) conds (true, last).

(** [pos] and the positions before it, [n] in all: the next indices, and whether one of
    them could be raised. *)
Fixpoint advance (axes : list axis) (indices : list nat) (n : nat) : list nat * bool :=
  match n with
  | O => (indices, false)
  | S pos =>
      let i := S (nth pos indices O) in
      if (i <? length (nth pos axes (""%string, mkConstraint "" ParamContinuous 0 0 0 [] None, [])).2)%nat
      then (<[pos := i]> indices, true)
      else advance axes (<[pos := O]> indices) pos
  end.

Definition resetAfter (indices : list nat) (pos : Z) : list nat :=
  imap (fun i x => if Z.leb (Z.of_nat i) pos then x else O) indices.

Inductive outcome := Running | Panics | Done (results : list combination).

(** One round is one combination.  [Running]: the fuel is spent. *)
Fixpoint enumerate (axes : list axis) (conds : list cond) (fuel : nat) (indices : list nat)
    (results : list combination) : outcome :=
  match fuel with
  | O => Running
  | S fuel =>
      match comboAt axes indices with
      | None => Panics
      | Some combo =>
          let '(valid, prunePos) := checkConds (map (fun a => a.1.1) axes) conds combo (Z.of_nat (length axes) - 1) in
          let results := if valid then results ++ [combo] else results in
          let indices := if valid then indices else resetAfter indices prunePos in
          let '(indices, more) := advance axes indices (Z.to_nat (prunePos + 1)) in
          if more then enumerate axes conds fuel indices results else Done results
      end
  end.

(** The names in order with their grids; [None]: a grid does not end. *)
Definition axesOf (s : SearchSpace) : option (list axis) :=
  mapM (fun name => c ← s !! name; g ← Grid c; Some (name, c, g)) (sortedNames s).

Definition GenerateAllCombinations (fuel : nat) (s : SearchSpace) : option outcome :=
  axes ← axesOf s;
  Some (enumerate axes (map (condOf (sortedNames s)) (rules s)) fuel (map (fun _ => O) axes) []).

(** The same walk without the conditions. *)
Definition generateAllRaw (fuel : nat) (s : SearchSpace) : option outcome :=
  axes ← axesOf s; Some (enumerate axes [] fuel (map (fun _ => O) axes) []).

(** ** The odometer *)
Section Odometer.
Implicit Types axes : list axis.

Definition inside axes (indices : list nat) : Prop := Forall2 (fun a i => (i < length a.2)%nat) axes indices.

(** All index vectors in lexicographic order. *)
Fixpoint vectors axes : list (list nat) :=
  match axes with
  | [] => [[]]
  | a :: axes => flat_map (fun i => map (cons i) (vectors axes)) (seq 0 (length a.2))
  end.

(** Those from [indices] on. *)
Fixpoint rest axes (indices : list nat) : list (list nat) :=
  match axes, indices with
  | a :: axes, i :: indices =>
      map (cons i) (rest axes indices) ++
      flat_map (fun j => map (cons j) (vectors axes)) (seq (S i) (length a.2 - S i))
  | _, _ => [[]]
  end.

(** The odometer from the left. *)
Fixpoint step axes (indices : list nat) : list nat * bool :=
  match axes, indices with
  | a :: axes, i :: indices =>
      let '(indices', more) := step axes indices in
      if more then (i :: indices', true)
      else if (S i <? length a.2)%nat then (S i :: indices', true) else (O :: indices', false)
  | _, _ => ([], false)
  end.

Lemma advance_cons a axes i indices n :
  advance (a :: axes) (i :: indices) (S n) =
  let '(indices', more) := advance axes indices n in
  if more then (i :: indices', true)
  else if (S i <? length a.2)%nat then (S i :: indices', true) else (O :: indices', false).
Proof.
  revert indices. induction n as [|n IH]; intros indices; [reflexivity|].
  change (advance (a :: axes) (i :: indices) (S (S n))) with
    (if (S (nth n indices O) <? length (nth n axes (""%string, mkConstraint "" ParamContinuous 0 0 0 [] None, [])).2)%nat
     then (i :: <[n := S (nth n indices O)]> indices, true)
     else advance (a :: axes) (i :: <[n := O]> indices) (S n)).
  rewrite IH. cbn [advance]. by destruct (S (nth n indices O) <? _)%nat.
Qed.

Lemma advance_step axes indices : length axes = length indices -> advance axes indices (length axes) = step axes indices.
Proof.
  revert indices. induction axes as [|a axes IH]; intros [|i indices]; try done. intros [= L].
  cbn [length]. rewrite advance_cons, (IH indices L). reflexivity.
Qed.


Definition zeros axes : list nat := map (fun _ => O) axes.

Lemma rest_zeros axes : Forall (fun a : axis => a.2 <> []) axes -> rest axes (zeros axes) = vectors axes.
Proof.
  induction 1 as [|a axes N F IH]; [done|]. cbn. fold (zeros axes). rewrite IH. destruct a as [a [|v g]]; [done|]. cbn.
  by rewrite Nat.sub_0_r.
Qed.

Lemma step_rest axes indices :
  inside axes indices ->
  match step axes indices with
  | (indices', true) => inside axes indices' /\ rest axes indices = indices :: rest axes indices'
  | (indices', false) => indices' = zeros axes /\ rest axes indices = [indices]
  end.
Proof.
  induction 1 as [|a i axes indices L F IH]; [done|]. cbn [step rest].
  assert (N : Forall (fun a : axis => a.2 <> []) axes) by
    (clear -F; induction F as [|b j axes js Lb F IH]; constructor; [destruct b as [b [|]]; cbn in *; [lia|done]|done]).
  destruct (step axes indices) as [indices' [|]].
  - destruct IH as [IN ->]. split; [by constructor|done].
  - destruct IH as [-> ->]. destruct (S i <? length a.2)%nat eqn:E.
    + apply Nat.ltb_lt in E. split; [constructor; [done|]|].
      * clear -N. induction N as [|b axes Nb N IH]; constructor; [destruct b as [b [|]]; cbn in *; [done|lia]|done].
      * cbn. replace (length a.2 - S i)%nat with (S (length a.2 - S (S i)))%nat by lia. cbn. by rewrite rest_zeros.
    + apply Nat.ltb_ge in E. replace (length a.2 - S i)%nat with O by lia. done.
Qed.
End Odometer.

(** ** What the enumeration computes *)

(** The Cartesian product of the grids, the last name varying fastest. *)
Fixpoint combinations (axes : list axis) : list combination :=
  match axes with
  | [] => [∅]
  | (name, c, grid) :: axes => flat_map (fun v => map (insert name (valueOf c v)) (combinations axes)) grid
  end.

Definition rounds (axes : list axis) : Z := foldr (fun a n => (Z.of_nat (length a.2) * n)%Z) 1%Z axes.

Definition condHolds (names : list string) (combo : combination) (c : cond) : bool :=
  match combo !! nth (left_ c) names ""%string, combo !! nth (right_ c) names ""%string with
  | Some leftVal, Some rightVal => compareCondition (op c) leftVal rightVal
  | _, _ => true
  end.

Definition in_axes (n : nat) (c : cond) : Prop := (left_ c < n)%nat /\ (right_ c < n)%nat.

Lemma checkConds_spec names conds combo n :
  Forall (in_axes n) conds ->
  checkConds names conds combo (Z.of_nat n - 1) = (forallb (condHolds names combo) conds, (Z.of_nat n - 1)%Z).
Proof.
  intros F. unfold checkConds. change (forallb (condHolds names combo) conds) with (true && forallb (condHolds names combo) conds).
  generalize true as valid. induction F as [|c conds [L R] F IH]; intros valid; [by rewrite andb_true_r|].
  cbn [fold_left forallb]. rewrite andb_assoc, <- IH. f_equal. unfold condHolds.
  destruct (combo !! _) as [l|]; [|by rewrite andb_true_r]. destruct (combo !! _) as [r|]; [|by rewrite andb_true_r].
  destruct (compareCondition _ _ _); [by rewrite andb_true_r|]. rewrite andb_false_r.
  rewrite (proj2 (Z.ltb_ge (Z.of_nat n - 1) (Z.of_nat (left_ c)))) by lia.
  by rewrite (proj2 (Z.ltb_ge (Z.of_nat n - 1) (Z.of_nat (right_ c)))) by lia.
Qed.

Lemma resetAfter_all indices n : (length indices <= n)%nat -> resetAfter indices (Z.of_nat n - 1) = indices.
Proof.
  intros L. unfold resetAfter. apply list_eq. intros i. rewrite list_lookup_imap.
  destruct (indices !! i) as [x|] eqn:E; [|done]. cbn. apply lookup_lt_Some in E.
  by rewrite (proj2 (Z.leb_le _ _)) by lia.
Qed.

Lemma comboAt_inside axes indices : inside axes indices -> is_Some (comboAt axes indices).
Proof.
  induction 1 as [|[[name c] grid] i axes indices L F [combo IH]]; [by eexists|]. cbn in *.
  destruct (lookup_lt_is_Some_2 grid i L) as [v ->]. rewrite IH. by eexists.
Qed.

Lemma rest_nonempty axes indices : inside axes indices -> rest axes indices <> [].
Proof. intros I. pose proof (step_rest axes indices I) as H. destruct (step _ _) as [? [|]]; by destruct H as [_ ->]. Qed.

Lemma enumerate_spec axes conds fuel : forall indices results,
  Forall (in_axes (length axes)) conds -> inside axes indices ->
  enumerate axes conds fuel indices results =
  if (fuel <? length (rest axes indices))%nat then Running
  else Done (results ++ List.filter (fun combo => forallb (condHolds (map (fun a => a.1.1) axes) combo) conds)
                          (omap (comboAt axes) (rest axes indices))).
Proof.
  induction fuel as [|fuel IH]; intros indices results C I.
  - pose proof (rest_nonempty _ _ I). by destruct (rest axes indices).
  - cbn [enumerate]. destruct (comboAt_inside _ _ I) as [combo E]. rewrite E, (checkConds_spec _ _ _ _ C).
    set (ok := forallb _ conds).
    replace (if ok then indices else resetAfter indices (Z.of_nat (length axes) - 1)) with indices
      by (destruct ok; [done|]; symmetry; apply resetAfter_all; by rewrite (Forall2_length I)).
    replace (Z.to_nat (Z.of_nat (length axes) - 1 + 1)) with (length axes) by lia.
    rewrite advance_step by exact (Forall2_length I).
    pose proof (step_rest axes indices I) as T. destruct (step axes indices) as [indices' [|]]; destruct T as [T ->].
    + rewrite (IH _ _ C T). cbn [length omap list_omap]. rewrite E. cbn [List.filter]. fold ok.
      change (S fuel <? S (length (rest axes indices')))%nat with (fuel <? length (rest axes indices'))%nat.
      destruct ok; [by rewrite <- app_assoc|done].
    + cbn [length omap list_omap]. rewrite E. cbn [List.filter]. fold ok. by destruct ok; [|rewrite app_nil_r].
Qed.

Lemma omap_flat_map {A B C} (f : B -> option C) (g : A -> list B) l : omap f (flat_map g l) = flat_map (fun x => omap f (g x)) l.
Proof. induction l as [|x l IH]; [done|]. cbn. by rewrite omap_app, IH. Qed.

Lemma vectors_combinations axes : omap (comboAt axes) (vectors axes) = combinations axes.
Proof.
  induction axes as [|[[name c] grid] axes IH]; [done|]. cbn [vectors combinations]. rewrite omap_flat_map.
  rewrite <- IH. clear IH. cbn [snd]. generalize (vectors axes) as vs. intros vs.
  assert (H : forall pre suf, pre ++ suf = grid ->
    flat_map (fun i => omap (comboAt ((name, c, grid) :: axes)) (map (cons i) vs)) (seq (length pre) (length suf)) =
    flat_map (fun v => map (insert name (valueOf c v)) (omap (comboAt axes) vs)) suf).
  { intros pre suf. revert pre. induction suf as [|v suf IH]; intros pre E; [done|]. cbn [length seq flat_map]. f_equal.
    - assert (L : grid !! length pre = Some v) by (rewrite <- E; apply list_lookup_middle; reflexivity).
      clear IH. induction vs as [|i vs IHv]; [done|]. cbn [map omap list_omap comboAt]. rewrite L. cbn [mbind option_bind].
      destruct (comboAt axes i); cbn [mbind option_bind map]; [|apply IHv]. f_equal. apply IHv.
    - specialize (IH (pre ++ [v])). rewrite length_app, Nat.add_1_r in IH. apply IH. by rewrite <- app_assoc. }
  by apply (H [] grid).
Qed.

Lemma rounds_vectors axes : Z.of_nat (length (vectors axes)) = rounds axes.
Proof.
  induction axes as [|a axes IH]; [done|].
  change (rounds (a :: axes)) with (Z.of_nat (length a.2) * rounds axes)%Z. rewrite <- IH. cbn [vectors].
  transitivity (Z.of_nat (length a.2 * length (vectors axes))%nat); [|lia]. f_equal.
  generalize 0%nat. induction (length a.2) as [|n IHn]; intros k; [done|]. cbn.
  by rewrite length_app, length_map, IHn.
Qed.

(** ** Conditions by position and by name *)
Definition rules_known (s : SearchSpace) : Prop :=
  Forall (fun r => is_Some (s !! LeftParam r) /\ is_Some (s !! RightParam r)) (rules s).

Lemma names_perm s : sortedNames s ≡ₚ map fst (map_to_list s).
Proof. apply sliceStable_perm. Qed.

Lemma elem_of_names s n : n ∈ sortedNames s <-> is_Some (s !! n).
Proof.
  rewrite names_perm, list_elem_of_fmap. split.
  - intros ([k c] & -> & H%elem_of_map_to_list). by eexists.
  - intros [c H]. exists (n, c). split; [done|]. by apply elem_of_map_to_list.
Qed.

Lemma posByName_nth names n i : posByName names !! n = Some i -> nth i names ""%string = n /\ (i < length names)%nat.
Proof.
  unfold posByName. intros H%elem_of_list_to_map_2. apply elem_of_lookup_imap in H as (j & m & [= -> ->] & L).
  split; [by apply nth_lookup_Some|by apply lookup_lt_Some in L].
Qed.

Lemma posByName_in names n : n ∈ names -> is_Some (posByName names !! n).
Proof.
  intros (i & H)%list_elem_of_lookup. destruct (posByName names !! n) eqn:E; [by eexists|].
  apply not_elem_of_list_to_map in E. destruct E. apply list_elem_of_fmap. exists (n, i). split; [done|].
  apply elem_of_lookup_imap. by exists i, n.
Qed.

Lemma condOf_spec names r :
  LeftParam r ∈ names -> RightParam r ∈ names ->
  in_axes (length names) (condOf names r) /\ (forall combo, condHolds names combo (condOf names r) = ruleHolds combo r).
Proof.
  intros (i & L)%posByName_in (j & R)%posByName_in. unfold condHolds, condOf, in_axes, ruleHolds. rewrite L, R. cbn.
  apply posByName_nth in L as [-> L], R as [-> R]. done.
Qed.

Lemma axesOf_names s axes : axesOf s = Some axes -> map (fun a => a.1.1) axes = sortedNames s.
Proof.
  unfold axesOf. generalize (sortedNames s) as names. intros names H. apply mapM_Some in H.
  induction H as [|n a names axes E F IH]; [done|]. cbn. rewrite IH. f_equal.
  destruct (s !! n); [|done]. cbn in E. destruct (Grid _); [|done]. by injection E as <-.
Qed.

(** ** A random sample *)
Class Rand := { rng : Type; NewSource : Z -> rng; Intn : rng -> Z -> Z * rng }.

Section Sample.
Context {RN : Rand}.
(** ["%.4f"] *)
Variable fmt4 : float64 -> string.

(** One draw per name; [None]: an empty grid panics. *)
Fixpoint draw (axes : list axis) (r : rng) : option (combination * list string * rng) :=
  match axes with
  | [] => Some (∅, [], r)
  | (name, c, grid) :: axes =>
      if bool_decide (grid = []) then None
      else
        let '(idx, r) := Intn r (Z.of_nat (length grid)) in
        val ← grid !! Z.to_nat idx;
        let v := valueOf c val in
        '(combo, keyParts, r) ← draw axes r;
        Some (<[name := v]> combo, (name +:+ "=" +:+ fmt4 v)%string :: keyParts, r)
  end.

Fixpoint sample (s : SearchSpace) (axes : list axis) (count : Z) (attempts : nat) (r : rng) (seen : gset string)
    (results : list combination) : option (list combination) :=
  match attempts with
  | O => Some results
  | S attempts =>
      if Z.leb count (Z.of_nat (length results)) then Some results
      else
        '(combo, keyParts, r) ← draw axes r;
        let key := String.concat ";" keyParts in
        if bool_decide (key ∈ seen) then sample s axes count attempts r seen results
        else if negb (checkCondition s combo) then sample s axes count attempts r seen results
        else sample s axes count attempts r ({[key]} ∪ seen) (results ++ [combo])
  end.

(** [None]: a panic, also of [make] for a negative count, or a grid that does not end. *)
Definition GenerateRandomCombinations (s : SearchSpace) (count seed : Z) : option (list combination) :=
  axes ← axesOf s;
  if Z.ltb count 0 then None
  else sample s axes count (Z.to_nat (i64 (count * 10))) (NewSource seed) ∅ [].

(** ** By method *)
Definition SearchGrid : string := "grid".
Definition SearchRandom : string := "random".
Definition SearchBayesian : string := "bayesian".

Definition GenerateCombinations (fuel : nat) (s : SearchSpace) (method : string) (budget seed : Z) : option outcome :=
  if bool_decide (method = SearchRandom) then Done <$> GenerateRandomCombinations s budget seed
  else if bool_decide (method = SearchGrid) then
    all ← GenerateAllCombinations fuel s;
    Some (match all with
          | Done l => Done (if Z.ltb 0 budget && Z.ltb budget (Z.of_nat (length l)) then take (Z.to_nat budget) l else l)
          | o => o
          end)
  else GenerateAllCombinations fuel s.
End Sample.

(** ** The objective of a run *)

Definition ObjectiveSharpe : string := "sharpe".
Definition ObjectiveSortino : string := "sortino".
Definition ObjectiveProfitFactor : string := "profit_factor".
Definition ObjectiveWinRate : string := "win_rate".
Definition ObjectiveMinDD : string := "min_drawdown".
Definition ObjectiveDDRatio : string := "sharpe_over_dd".
Definition ObjectiveComposite : string := "composite".

Definition weighted (weights : gmap string float64) (k : string) (v score : float64) : float64 :=
  match weights !! k with Some w => score + w * v | None => score end.

Definition composite (r : BacktestResult) (weights : gmap string float64) : float64 :=
  let score := weighted weights ObjectiveSharpe (SharpeRatio r / 2.0) 0 in
  let score := weighted weights ObjectiveProfitFactor (math.Min (ProfitFactor r / 2.0) 1.0) score in
  let score := weighted weights ObjectiveWinRate (WinRate r / 100.0) score in
  let ddScore := if 0 <? MaxDrawdown r then math.Max 0 (1.0 - MaxDrawdown r / 20.0) else 1.0 in
  weighted weights ObjectiveMinDD ddScore score.

Definition ComputeObjective (r : BacktestResult) (objType : string) (weights : gmap string float64) : float64 :=
  if Z.ltb (NumTrades r) 30 then - 1e6
  else if bool_decide (objType = ObjectiveSharpe) then SharpeRatio r
  else if bool_decide (objType = ObjectiveSortino) then SortinoRatio r
  else if bool_decide (objType = ObjectiveProfitFactor) then ProfitFactor r
  else if bool_decide (objType = ObjectiveWinRate) then WinRate r
  else if bool_decide (objType = ObjectiveMinDD) then - MaxDrawdown r
  else if bool_decide (objType = ObjectiveDDRatio) then
    if 0 <? MaxDrawdown r then SharpeRatio r / MaxDrawdown r * 100 else SharpeRatio r
  else if bool_decide (objType = ObjectiveComposite) then composite r weights
  else SharpeRatio r.

(** ** The spaces of the strategies *)
Definition constraintOf (d : ParamDef) : ParamConstraint := mkConstraint (PName d) (PType d) (PMin d) (PMax d) (PStep d) [] None.

(** A later definition of a name replaces an earlier one. *)
Definition SearchSpaceFromParamDefs (defs : list ParamDef) : SearchSpace :=
  fold_left (fun space d => <[PName d := constraintOf d]> space) defs ∅.

Definition UniversalParamDefs : list ParamDef :=
  [mkParamDef "sizing_percent" ParamContinuous 0.02 0.005 0.10 0.005 "Sizing" "Fraction of account capital risked per trade";
   mkParamDef "kelly_fraction" ParamContinuous 0.25 0.10 0.25 0.05 "Sizing"
     "Fractional Kelly multiplier applied to base size (capped at 0.25 per HP #6)"].

Definition regimeLabels : list (string * string) :=
  [("regime_w_calm", "Calm"); ("regime_w_trending", "Trending"); ("regime_w_highvol", "HighVol"); ("regime_w_crisis", "Crisis")]%string.

Definition RegimeParamDefs (strategyID : string) : list ParamDef :=
  let entry := Regime.Get NewRegimeActivationMatrix strategyID in
  imap (fun i nl =>
    mkParamDef nl.1 ParamContinuous (if nth i (Allowed entry) false then 1.0 else 0.0) 0 1.0 0.25 "Regime"
      ("Participation weight in " +:+ nl.2 +:+ " regime (0=block, 1=full size)")%string) regimeLabels ++
  [mkParamDef "stop_mult_highvol" ParamContinuous 1.0 0.5 3.0 0.25 "Regime" "Stop-loss width multiplier in HighVol regime";
   mkParamDef "stop_mult_crisis" ParamContinuous 1.0 0.5 3.0 0.25 "Regime" "Stop-loss width multiplier in Crisis regime";
   mkParamDef "profit_mult_trending" ParamContinuous 1.0 0.5 3.0 0.25 "Regime"
     "Take-profit distance multiplier in Trending regime"].

(** The definitions whose names are not there yet, all of them continuous. *)
Definition addDefs (space : SearchSpace) (defs : list ParamDef) : SearchSpace :=
  fold_left (fun space d =>
    match space !! PName d with
    | Some _ => space
    | None => <[PName d := mkConstraint (PName d) ParamContinuous (PMin d) (PMax d) (PStep d) [] None]> space
    end) defs space.

Definition addUniversalParams (space : SearchSpace) : SearchSpace := addDefs space UniversalParamDefs.
Definition addRegimeParams (space : SearchSpace) (strategyID : string) : SearchSpace := addDefs space (RegimeParamDefs strategyID).

Definition continuous (name : string) (min max step : float64) (c : option ConditionalRule) : ParamConstraint :=
  mkConstraint name ParamContinuous min max step [] c.
Definition integer (name : string) (min max step : float64) (c : option ConditionalRule) : ParamConstraint :=
  mkConstraint name ParamInteger min max step [] c.
Definition lt_ (l r : string) : option ConditionalRule := Some (mkRule l "lt" r).

Definition put (name : string) (c : ParamConstraint) (space : SearchSpace) : SearchSpace := <[name := c]> space.

(** [None]: the nil space of an unknown strategy. *)
Definition defaultStrategySearchSpace (strategyID : string) : option SearchSpace :=
  let declared := SearchSpaceFromParamDefs (ParamDefsForStrategy strategyID) in
  let named n := bool_decide (strategyID = n) in
  if named "trend_following" then
    Some (put "fast_period" (integer "fast_period" 5 40 5 (lt_ "fast_period" "slow_period")) declared)
  else if named "intraday_mr" || named "mean_reversion" then
    Some (put "entry_z" (continuous "entry_z" 0.75 2.5 0.25 (lt_ "exit_z" "entry_z")) declared)
  else if named "opening_range_breakout" then
    Some (put "range_minutes" (integer "range_minutes" 2 15 1 None)
            (put "atr_multiplier" (continuous "atr_multiplier" 1.0 3.0 0.5 None) declared))
  else if named "session_scalp" then
    Some (put "stop_loss_atr_mult"
            (continuous "stop_loss_atr_mult" 0.25 2.0 0.25 (lt_ "stop_loss_atr_mult" "take_profit_atr_mult")) declared)
  else if named "pairs_trading" || named "stat_arb" then
    Some (put "entry_z" (continuous "entry_z" 1.5 2.5 0.25 (lt_ "exit_z" "entry_z"))
            (SearchSpaceFromParamDefs (ParamDefsForStrategy "pairs_trading")))
  else if named "volatility_harvesting" || named "vol_arb" then
    Some (put "mean_rev_entry_z" (continuous "mean_rev_entry_z" 1.0 2.5 0.25 (lt_ "mean_rev_exit_z" "mean_rev_entry_z"))
            (put "vix_threshold" (continuous "vix_threshold" 15 35 2.0 None)
               (SearchSpaceFromParamDefs (ParamDefsForStrategy "volatility_harvesting"))))
  else if named "dragon_trend" then
    Some (put "atr_multiplier" (continuous "atr_multiplier" 1.5 3.5 0.5 None)
            (put "adx_threshold" (continuous "adx_threshold" 15 30 2.0 None) declared))
  else if named "volume_scalp" then
    Some (put "volume_multiplier" (continuous "volume_multiplier" 1.0 3.5 0.5 None) declared)
  else
    runner ← Live.Registry.Get GlobalRegistry strategyID; Some (SearchSpaceFromParamDefs (paramDefs runner)).

Definition DefaultSearchSpace (strategyID : string) : option SearchSpace :=
  space ← defaultStrategySearchSpace strategyID; Some (addRegimeParams (addUniversalParams space) strategyID).

(** ** Into the configuration *)

(** [None]: a nil map. *)
Definition ApplyOptimizationParams (cfg : BacktestConfig) (params : option combination) : BacktestConfig :=
  match params with
  | None => cfg
  | Some params =>
      let cfg := match params !! "sizing_percent"%string with Some v => cfg <| SizingPercent := v |> | None => cfg end in
      let cfg := match params !! "kelly_fraction"%string with Some v => cfg <| KellyFraction := v |> | None => cfg end in
      cfg <| StrategyParams := params |>
  end.

(** ** How long the enumeration of a default space takes *)

(** The number of values of a grid, without the values. *)
Fixpoint gridCount (fuel : nat) (v max step : float64) : option Z :=
  match fuel with
  | O => None
  | S fuel => if v <=? max + 1e-9 then n ← gridCount fuel (v + step) max step; Some (n + 1)%Z else Some 0%Z
  end.

Definition constraintCount (c : ParamConstraint) : option Z :=
  match CType c with
  | ParamCategorical => Some (Z.of_nat (length (CategoricalValues c)))
  | _ => gridCount gridFuel (CMin c) (CMax c) (if CStep c <=? 0 then 1.0 else CStep c)
  end.

Fixpoint countRounds (s : SearchSpace) (names : list string) : option Z :=
  match names with
  | [] => Some 1%Z
  | name :: names => c ← s !! name; k ← constraintCount c; n ← countRounds s names; Some (k * n)%Z
  end.

Definition knownb (s : SearchSpace) : bool :=
  forallb (fun r => bool_decide (is_Some (s !! LeftParam r)) && bool_decide (is_Some (s !! RightParam r))) (rules s).


Lemma grid_count fuel v max step n :
  gridCount fuel v max step = Some n -> exists vals, gridFrom fuel v max step = Some vals /\ Z.of_nat (length vals) = n.
Proof.
  revert v n. induction fuel as [|fuel IH]; intros v n; [done|]. cbn.
  destruct (v <=? max + 1e-9); [|intros [= <-]; by exists []].
  destruct (gridCount fuel (v + step) max step) as [k|] eqn:E; [|done]. intros [= <-].
  destruct (IH _ _ E) as (vals & -> & L). eexists. split; [done|]. cbn [length]. lia.
Qed.

Lemma constraint_count c n : constraintCount c = Some n -> exists vals, Grid c = Some vals /\ Z.of_nat (length vals) = n.
Proof.
  unfold constraintCount, Grid. destruct (CType c); [apply grid_count|apply grid_count|].
  intros [= <-]. eexists. split; [done|]. by rewrite length_imap.
Qed.

Lemma count_rounds s n : countRounds s (sortedNames s) = Some n -> exists axes, axesOf s = Some axes /\ rounds axes = n.
Proof.
  unfold axesOf. generalize (sortedNames s) as names. intros names. revert n.
  induction names as [|name names IH]; intros n; cbn; [intros [= <-]; by exists []|].
  destruct (s !! name) as [c|]; cbn; [|done]. destruct (constraintCount c) as [k|] eqn:C; cbn; [|done].
  destruct (countRounds s names) as [m|]; cbn; [|done]. intros [= <-].
  destruct (constraint_count _ _ C) as (vals & -> & <-). destruct (IH _ eq_refl) as (axes & -> & <-).
  cbn. eexists. by split.
Qed.

Lemma known_spec s : knownb s = true <-> rules_known s.
Proof.
  unfold knownb, rules_known. rewrite forallb_forall, List.Forall_forall. split; intros H r Hr; specialize (H r Hr).
  - apply andb_prop in H as [L R]. by rewrite bool_decide_eq_true in L, R.
  - destruct H. by rewrite !bool_decide_eq_true_2.
Qed.

Lemma rounds_positive axes : (0 < rounds axes)%Z -> Forall (fun a : axis => a.2 <> []) axes.
Proof.
  induction axes as [|a axes IH]; [constructor|]. change (rounds (a :: axes)) with (Z.of_nat (length a.2) * rounds axes)%Z.
  intros H. constructor; [destruct a as [a [|]]; cbn in *; [lia|done]|]. apply IH. nia.
Qed.

Lemma generate_spec s axes fuel :
  axesOf s = Some axes -> (0 < rounds axes)%Z -> rules_known s ->
  GenerateAllCombinations fuel s =
  Some (if (Z.of_nat fuel <? rounds axes)%Z then Running
        else Done (List.filter (checkCondition s) (combinations axes))).
Proof.
  intros A P K. unfold GenerateAllCombinations. rewrite A. cbn [mbind option_bind]. f_equal.
  apply rounds_positive in P. pose proof (axesOf_names _ _ A) as N.
  assert (F : forall r, r ∈ rules s -> in_axes (length axes) (condOf (sortedNames s) r) /\
                forall combo, condHolds (sortedNames s) combo (condOf (sortedNames s) r) = ruleHolds combo r).
  { intros r Hr. unfold rules_known in K. rewrite list.Forall_forall in K. destruct (K r Hr) as [L R].
    replace (length axes) with (length (sortedNames s)) by (rewrite <- N; apply length_map).
    by apply condOf_spec; apply elem_of_names. }
  fold (zeros axes). rewrite enumerate_spec.
  - rewrite rest_zeros, vectors_combinations, <- rounds_vectors by done. cbn [app].
    destruct (Nat.ltb_spec fuel (length (vectors axes))), (Z.ltb_spec (Z.of_nat fuel) (Z.of_nat (length (vectors axes)))); try lia; [done|].
    f_equal. apply List.filter_ext. intros combo. rewrite N. unfold checkCondition. clear -F.
    induction (rules s) as [|r rs IH]; [done|]. cbn. rewrite IH by (intros; apply F; by right).
    by rewrite (proj2 (F r ltac:(by left))).
  - apply list.Forall_forall. intros c (r & -> & Hr)%list_elem_of_fmap. by apply F.
  - clear -P. induction P as [|a axes Na P IH]; constructor; [destruct a as [a [|]]; cbn in *; [done|lia]|done].
Qed.

(** C18: the enumeration ends, and computes the product.  If every grid has a value and the
    conditions are about parameters of the space, it takes exactly as many rounds as there
    are combinations, the pruning its comment speaks of included, and the result is the
    Cartesian product of the grids, in lexicographic order, without the combinations that
    break a condition. *)
Theorem search_enumerates_product s axes fuel :
  axesOf s = Some axes -> (0 < rounds axes)%Z -> rules_known s ->
  GenerateAllCombinations fuel s =
  Some (if (Z.of_nat fuel <? rounds axes)%Z then Running
        else Done (List.filter (checkCondition s) (combinations axes))) /\
  (rounds axes <= Z.of_nat fuel -> generateAllRaw fuel s = Some (Done (combinations axes)))%Z.
Proof.
  intros A P K. split; [by apply generate_spec|]. intros L. unfold generateAllRaw. rewrite A. cbn [mbind option_bind].
  pose proof (rounds_positive axes P) as F. fold (zeros axes). rewrite enumerate_spec; [|constructor|].
  - rewrite rest_zeros, vectors_combinations by done. rewrite <- rounds_vectors in L.
    rewrite (proj2 (Nat.ltb_ge _ _)) by lia. cbn [app forallb]. f_equal. f_equal.
    induction (combinations axes) as [|x l IH]; [done|]. cbn. by rewrite IH.
  - clear -F. induction F as [|a axes Na F IH]; constructor; [destruct a as [a [|]]; cbn in *; [done|lia]|done].
Qed.

Definition smallSpace : SearchSpace :=
  {["fast" := integer "fast" 1 3 1 (lt_ "fast" "slow")]} ∪ {["slow" := integer "slow" 2 3 1 None]}.

Lemma search_enumerates_product_witness :
  option_map (fun o => match o with Done l => length l | _ => O end) (GenerateAllCombinations 6 smallSpace) = Some 3%nat /\
  GenerateAllCombinations 5 smallSpace = Some Running.
Proof.
  split; [vm_compute; reflexivity|].
  destruct (search_enumerates_product smallSpace (default [] (axesOf smallSpace)) 5) as [E _].
  - vm_compute. reflexivity.
  - vm_compute. reflexivity.
  - apply known_spec. vm_compute. reflexivity.
  - rewrite E. vm_compute. reflexivity.
Defined.

(** The space of every registered strategy has more than a thousand million combinations, and
    the enumeration goes through all of them: no budget shortens it. *)
Lemma default_space_large fuel :
  (Z.of_nat fuel <= 10 ^ 9)%Z ->
  Forall (fun name => exists s, DefaultSearchSpace name = Some s /\ GenerateAllCombinations fuel s = Some Running) factoryNames.
Proof.
  intros F. assert (T : forallb (fun name => match DefaultSearchSpace name with
      | Some s => knownb s && match countRounds s (sortedNames s) with Some n => Z.ltb (10 ^ 9) n | None => false end
      | None => false end) factoryNames = true) by (vm_compute; reflexivity).
  rewrite forallb_forall in T. apply List.Forall_forall. intros name Hn. specialize (T name Hn).
  destruct (DefaultSearchSpace name) as [s|]; [|done]. apply andb_prop in T as [K N]. exists s. split; [done|].
  destruct (countRounds s (sortedNames s)) as [n|] eqn:C; [|done]. apply Z.ltb_lt in N.
  destruct (count_rounds _ _ C) as (axes & A & <-).
  rewrite (generate_spec s axes fuel A) by (first [lia|by apply known_spec]).
  by rewrite (proj2 (Z.ltb_lt (Z.of_nat fuel) (rounds axes))) by lia.
Qed.

(** The grid search of [GenerateCombinations] cuts to its budget after the enumeration. *)
Lemma default_grid_search_endless {RN : Rand} fmt4 fuel budget seed :
  (Z.of_nat fuel <= 10 ^ 9)%Z ->
  Forall (fun name => exists s, DefaultSearchSpace name = Some s /\
            GenerateCombinations fmt4 fuel s SearchGrid budget seed = Some Running) factoryNames.
Proof.
  intros F. eapply list.Forall_impl; [exact (default_space_large fuel F)|]. intros name (s & E & R). exists s. split; [done|].
  unfold GenerateCombinations. change (bool_decide (SearchGrid = SearchRandom)) with false.
  change (bool_decide (SearchGrid = SearchGrid)) with true. by rewrite R.
Qed.
