(* ===== verification/Ivs.v ===== *)
(** * Parameter selection of the walk-forward optimiser
      ([internal/backtest/optimized_walk_forward.go])

    [RunIVS] looks for a plateau: a parameter set most of whose neighbours score well.
    [sort.Slice] is the class [SortSlice]. *)
From Stdlib Require Import ZArith Lia Bool Floats.
From S2P Require Import Prelude Float64 FloatRound FloatLaws Params SearchSpace.
Local Open Scope float_scope.
Local Open Scope go_scope.

Record IVSConfig := mkIVS { Enabled : bool; NeighborRadius : float64; PlateauThreshold : float64; ScoreThresholdPct : float64 }.

Definition DefaultIVSConfig : IVSConfig := mkIVS true 0.15 0.50 0.80.

Record ParamScore := mkScore { Params : combination; Score : float64 }.

(** The normalised difference of a parameter both sets have. *)
Definition coordinate (a b : combination) (space : SearchSpace) (name : string) : option float64 :=
  va ← a !! name; vb ← b !! name; constraint ← space !! name;
  let span := CMax constraint - CMin constraint in
  if span <=? 0 then None else Some ((va - vb) / span).

Definition paramDistance (a b : combination) (space : SearchSpace) (paramNames : list string) : float64 :=
  let cs := omap (coordinate a b space) paramNames in
  if bool_decide (cs = []) then 0
  else PrimFloat.sqrt (fold_left (fun s n => s + n * n) cs 0 / of_Z (Z.of_nat (length cs))).

Record ivsCandidate := mkCandidate {
  idx : nat; params : combination; score : float64; plateauRatio : float64; neighborCount : Z
}.

Section Ivs.
Context {SL : SortSlice}.
Variable scoredParams : list ParamScore.
Variable searchSpace : SearchSpace.
Variable cfg : IVSConfig.

(** The matrix of distances: the entry of [i] and [j] is computed once, for [i < j], and
    the diagonal stays 0. *)
Definition distance (i j : nat) (a b : ParamScore) : float64 :=
  let names := sortedNames searchSpace in
  if (i <? j)%nat then paramDistance (Params a) (Params b) searchSpace names
  else if (j <? i)%nat then paramDistance (Params b) (Params a) searchSpace names
  else 0.

Definition candidate (scoreThreshold : float64) (i : nat) (sp : ParamScore) : ivsCandidate :=
  let neighbours := omap (fun p => p)
    (imap (fun j q => if negb (i =? j)%nat && (distance i j sp q <=? NeighborRadius cfg) then Some q else None) scoredParams) in
  let neighborCount := Z.of_nat (length neighbours) in
  let aboveThreshold := Z.of_nat (length (List.filter (fun q => scoreThreshold <=? Score q) neighbours)) in
  let plateauRatio := if Z.ltb 0 neighborCount then of_Z aboveThreshold / of_Z neighborCount else 0 in
  mkCandidate i (Params sp) (Score sp) plateauRatio neighborCount.

(** By ratio, then by score, both falling. *)
Definition ahead (a b : ivsCandidate) : bool :=
  if negb (plateauRatio a =? plateauRatio b) then plateauRatio b <? plateauRatio a else score b <? score a.

Definition better (ok : ivsCandidate -> bool) (best c : ivsCandidate) : ivsCandidate :=
  if ok c && (score best <? score c) then c else best.

Definition robust (c : ivsCandidate) : bool := PlateauThreshold cfg <=? plateauRatio c.

Definition bestScore (first : ParamScore) : float64 :=
  if Score first <=? 0 then
    fold_left (fun best sp => if best <? Score sp then Score sp else best) scoredParams (Score first)
  else Score first.

(** [None] is the nil map. *)
Definition RunIVS : option combination * bool :=
  match scoredParams with
  | [] => (None, false)
  | first :: _ =>
      if bool_decide (sortedNames searchSpace = []) then (Some (Params first), false)
      else if bestScore first <=? 0 then (Some (Params first), false)
      else
        let scoreThreshold := bestScore first * ScoreThresholdPct cfg in
        match sortSlice ahead (imap (candidate scoreThreshold) scoredParams) with
        | [] => (None, false)
        | c0 :: cs =>
            if plateauRatio c0 <? PlateauThreshold cfg then
              (Some (params (fold_left (better (fun _ => true)) (c0 :: cs) c0)), false)
            else (Some (params (fold_left (better robust) cs c0)), true)
        end
  end.
End Ivs.

(** ** The best of a list *)
Lemma ltb_trans x y z : (x <? y) = true -> (y <? z) = true -> (x <? z) = true.
Proof. rewrite !ltb_true. intros (? & ? & ?) (? & ? & ?). repeat split; try done. lia. Qed.

Lemma better_best ok cs b :
  let r := fold_left (better ok) cs b in
  (r = b \/ (r ∈ cs /\ ok r = true)) /\ (r = b \/ (score b <? score r) = true) /\
  (forall c, c ∈ cs -> ok c = true -> (score r <? score c) = false).
Proof.
  cbv zeta. revert b. induction cs as [|c cs IH]; intros b.
  { split; [by left|]. split; [by left|]. intros c H. by apply not_elem_of_nil in H. }
  cbn [fold_left]. destruct (IH (better ok b c)) as (M & L & U). set (r := fold_left _ _ _) in *.
  unfold better in *. destruct (ok c) eqn:O; cbn [andb] in *; [destruct (score b <? score c) eqn:E|].
  - split; [right; destruct M as [->|[M R]]; [split; [by left|done]|split; [by right|done]]|].
    split; [right; destruct L as [->|L]; [done|by apply (ltb_trans _ (score c))]|].
    intros d [->|D]%elem_of_cons Od; [|by apply U]. destruct L as [->|L]; [apply ltb_irrefl|by apply ltb_asym].
  - split; [destruct M as [->|[M R]]; [by left|right; split; [by right|done]]|].
    split; [done|]. intros d [->|D]%elem_of_cons Od; [|by apply U].
    destruct L as [->|L]; [done|]. destruct (score r <? score c) eqn:F; [|done].
    by rewrite (ltb_trans _ _ _ L F) in E.
  - split; [destruct M as [->|[M R]]; [by left|right; split; [by right|done]]|].
    split; [done|]. intros d [->|D]%elem_of_cons Od; [congruence|by apply U].
Qed.

(** The plateau ratio is a number. *)
Lemma ratio_number a b : (0 <= a <= 2 ^ 53)%Z -> (0 < b <= 2 ^ 53)%Z -> fnan (of_Z a / of_Z b) = false.
Proof.
  intros A B. destruct (of_Z_exact a ltac:(lia)) as [Fa _], (of_Z_exact b ltac:(lia)) as [Fb Vb].
  apply div_sign; [done|done|]. rewrite Vb. pose proof onev_pos. nia.
Qed.

Lemma omap_length {A B} (f : A -> option B) l : (length (omap f l) <= length l)%nat.
Proof. induction l as [|a l IH]; [done|]. cbn. destruct (f a); cbn; lia. Qed.

Lemma filter_length_le {A} (f : A -> bool) l : (length (List.filter f l) <= length l)%nat.
Proof. apply List.filter_length_le. Qed.

Section Laws.
Context {SL : SortSlice}.
Variable scoredParams : list ParamScore.
Variable searchSpace : SearchSpace.
Variable cfg : IVSConfig.

Lemma candidate_ratio thr i sp :
  (Z.of_nat (length scoredParams) <= 2 ^ 53)%Z ->
  fnan (plateauRatio (candidate scoredParams searchSpace cfg thr i sp)) = false.
Proof.
  intros L. unfold candidate. cbn [plateauRatio]. destruct (Z.ltb_spec 0 (Z.of_nat (length (omap (fun p => p)
    (imap (fun j q => if negb (i =? j)%nat && (distance searchSpace i j sp q <=? NeighborRadius cfg) then Some q else None) scoredParams))))) as [P|];
    [|reflexivity].
  set (ns := omap _ _) in *. pose proof (filter_length_le (fun q => thr <=? Score q) ns).
  assert (length ns <= length scoredParams)%nat by (unfold ns; rewrite <- (length_imap (fun j q => if negb (i =? j)%nat && (distance searchSpace i j sp q <=? NeighborRadius cfg) then Some q else None) scoredParams); apply omap_length).
  apply ratio_number; lia.
Qed.

Lemma candidates_from thr c cs :
  sortSlice ahead (imap (candidate scoredParams searchSpace cfg thr) scoredParams) = cs -> c ∈ cs ->
  exists i sp, scoredParams !! i = Some sp /\ c = candidate scoredParams searchSpace cfg thr i sp.
Proof.
  intros <- H. rewrite (sortSlice_perm _ ahead) in H. apply elem_of_lookup_imap in H as (i & sp & -> & E). by exists i, sp.
Qed.

Lemma candidates_all thr i sp cs :
  sortSlice ahead (imap (candidate scoredParams searchSpace cfg thr) scoredParams) = cs -> scoredParams !! i = Some sp ->
  candidate scoredParams searchSpace cfg thr i sp ∈ cs.
Proof. intros <- E. rewrite (sortSlice_perm _ ahead). apply elem_of_lookup_imap. by exists i, sp. Qed.

End Laws.

(** Three sets on a line: the two that are close score well. *)
Definition lineSpace : SearchSpace := {["a" := mkConstraint "a" ParamContinuous 0 10 1 [] None]}.
Definition lineScores : list ParamScore := [mkScore {["a" := 9]} 2.0; mkScore {["a" := 1]} 1.9; mkScore {["a" := 2]} 1.8].

