(* ===== verification/MonteCarlo.v ===== *)
(** * Monte Carlo simulation ([internal/backtest/monte_carlo.go])

    Bootstrap paths over the daily returns of a run, their outcome, the four workers that
    share the iterations, and the summary.  The generator [rand.PCG] is the class [PCG];
    [sort.Slice] and [sort.Float64s] are the class [SortSlice].  The workers are their
    writes into the shared slice, in any order. *)
From Stdlib Require Import ZArith Lia Bool Floats.
From S2P Require Import Prelude Float64 FloatRound FloatLaws Gates Sizing Price Fills Trade Engine Metrics.
Import GoInt.
Local Open Scope float_scope.
Local Open Scope go_scope.

Class PCG := {
  pcg : Type;
  NewPCG : Z -> Z -> pcg;
  IntN : pcg -> Z -> Z * pcg;
  Float64N : pcg -> float64 * pcg
}.

Record MCConfig := mkMC { Iterations : Z; BarsPerSim : Z; Seed : Z }.
Record MCIterationResult := mkIter { PnlPct : float64; MaxDDPct : float64 }.

Record MCSummary := mkSummary {
  NumSimulations : Z; NumDays : Z; AvgPnlPct : float64; MedianPnlPct : float64; P5PnlPct : float64; P10PnlPct : float64;
  AvgMaxDDPct : float64; MedianMaxDDPct : float64; P95MaxDDPct : float64; BustProbability : float64
}.

Record MCResult := mkMCResult {
  Config : MCConfig; Iters : list MCIterationResult; Summary : MCSummary; PassProbability : float64
}.

Definition zeroIter : MCIterationResult := mkIter 0 0.

(** ** Paths *)
Definition bustValue : float64 := 0.0001.

(** The equity after a bar's return, and whether the path is bust. *)
Definition grow (s : float64 * bool) (r : float64) : float64 * bool :=
  let '(equity, busted) := s in
  let equity := equity * (1.0 + r) in
  let '(equity, busted) := if equity <=? 0 then (bustValue, true) else (equity, busted) in
  ((if busted : bool then bustValue else equity), busted).

Section Paths.
Context {G : PCG}.

Definition returnAt (returns : list float64) (i : Z) : float64 :=
  nth (Z.to_nat (Z.rem i (Z.of_nat (length returns)))) returns 0.

(** [n] bars to go, [more] of them in the block that goes on at [at_]. *)
Fixpoint blockPath (returns : list float64) (blockLen n more : nat) (from : Z) (s : float64 * bool) (rng : pcg) :
    list float64 * pcg :=
  match n with
  | O => ([], rng)
  | S n =>
      let '(more, from, rng) := match more with
                                | O => let '(start, rng) := IntN rng (Z.of_nat (length returns)) in (blockLen, start, rng)
                                | _ => (more, from, rng)
                                end in
      let s := grow s (returnAt returns from) in
      let '(path, rng) := blockPath returns blockLen n (pred more) (from + 1) s rng in
      (s.1 :: path, rng)
  end.

Definition bootstrapBlockPath (returns : list float64) (bars : Z) (rng : pcg) (blockLen : Z) : list float64 * pcg :=
  let blockLen := if Z.leb blockLen 1 || Z.ltb (Z.quot (Z.of_nat (length returns)) 4) blockLen then 1%Z else blockLen in
  blockPath returns (Z.to_nat blockLen) (Z.to_nat bars) O 0 (1.0, false) rng.

Definition bootstrapPath (returns : list float64) (bars : Z) (rng : pcg) := bootstrapBlockPath returns bars rng 7.

Fixpoint walkPath (n : nat) (equity : float64) (rng : pcg) : list float64 * pcg :=
  match n with
  | O => ([], rng)
  | S n =>
      let '(x, rng) := Float64N rng in
      let equity := equity * (1.0 + (x - 0.5) * 0.02) in
      let equity := if equity <=? 0 then bustValue else equity in
      let '(path, rng) := walkPath n equity rng in (equity :: path, rng)
  end.

Definition randomWalkPath (bars : Z) (rng : pcg) : list float64 * pcg := walkPath (Z.to_nat bars) 1.0 rng.

(** ** The outcome of a path *)
Definition pathStep (pm : float64 * float64) (e : float64) : float64 * float64 :=
  let peak := if pm.1 <? e then e else pm.1 in
  let dd := if 0 <? peak then (peak - e) / peak * 100.0 else 0 in
  (peak, if pm.2 <? dd then dd else pm.2).

Definition computePathMetrics (path : list float64) : float64 * float64 :=
  match path with
  | [] => (0, 0)
  | _ =>
      if existsb (fun e => e =? bustValue) path then (-100.0, 100.0)
      else ((List.last path 0 - 1.0) / 1.0 * 100.0, (fold_left pathStep path (1.0, 0)).2)
  end.

(** ** The workers *)
Section Workers.
Variable simulate : pcg -> list float64 * pcg.
Variable cfg : MCConfig.

Definition numWorkers : Z := 4.
Definition chunkSize : Z := Z.quot (i64 (i64 (Iterations cfg + numWorkers) - 1)) numWorkers.

Definition chunkStart (w : Z) : Z := i64 (w * chunkSize).
Definition chunkEnd (w : Z) : Z := Z.min (i64 (chunkStart w + chunkSize)) (Iterations cfg).

(** [for i := start; i < end; i++] with the worker's own generator. *)
Fixpoint runChunk (i : Z) (n : nat) (rng : pcg) : list (Z * MCIterationResult) :=
  match n with
  | O => []
  | S n =>
      let '(path, rng) := simulate rng in
      let '(pnlPct, maxDD) := computePathMetrics path in
      (i, mkIter pnlPct maxDD) :: runChunk (i + 1) n rng
  end.

(** The writes of worker [w]; an empty chunk has no worker. *)
Definition workerWrites (w : Z) : list (Z * MCIterationResult) :=
  let start := chunkStart w in
  if Z.leb (chunkEnd w) start then []
  else runChunk start (Z.to_nat (chunkEnd w - start)) (NewPCG (u64 start) (u64 (Seed cfg))).

Definition allWrites : list (Z * MCIterationResult) := flat_map workerWrites [0; 1; 2; 3]%Z.

(** The shared slice after the writes, in the order they come. *)
Definition afterWrites (writes : list (Z * MCIterationResult)) : list MCIterationResult :=
  fold_left (fun iters w => <[Z.to_nat w.1 := w.2]> iters) writes (replicate (Z.to_nat (Iterations cfg)) zeroIter).
End Workers.
End Paths.

(** ** Summary *)
Section Summary.
Context {SL : SortSlice}.

Definition lessFloat (a b : float64) : bool := (a <? b) || (math.IsNaN a && negb (math.IsNaN b)).

Definition isBust (it : MCIterationResult) : bool := (PnlPct it <? 0) || (20.0 <? MaxDDPct it).

Definition nthIter (l : list MCIterationResult) (i : Z) : float64 := PnlPct (nth (Z.to_nat i) l zeroIter).

Definition computeMCSummary (iterations : list MCIterationResult) (cfg : MCConfig) : MCSummary :=
  match iterations with
  | [] => mkSummary (Iterations cfg) (BarsPerSim cfg) 0 0 0 0 0 0 0 0
  | _ =>
      let sortedDD := List.filter (fun d => d <? 100) (map MaxDDPct iterations) in
      let sortedIterations := sortSlice (fun a b => PnlPct a <? PnlPct b) iterations in
      let sumPnl := fold_left (fun s it => s + PnlPct it) sortedIterations 0 in
      let bustCount := countIf isBust sortedIterations in
      let n := Z.of_nat (length sortedIterations) in
      let sorted := sortSlice lessFloat sortedDD in
      let nd := Z.of_nat (length sortedDD) in
      let '(avg, median, p95) := match sortedDD with
                                 | [] => (0, 0, 0)
                                 | _ => (fold_left (fun s d => s + d) sorted 0 / of_Z nd,
                                         nth (Z.to_nat (Z.quot nd 2)) sorted 0, nth (Z.to_nat (Z.quot (nd * 95) 100)) sorted 0)
                                 end in
      mkSummary (Iterations cfg) (BarsPerSim cfg) (sumPnl / of_Z n) (nthIter sortedIterations (Z.quot n 2))
        (nthIter sortedIterations (Z.max 0 (Z.quot (n * 5) 100))) (nthIter sortedIterations (Z.max 0 (Z.quot (n * 10) 100)))
        avg median p95 (of_Z bustCount / of_Z n)
  end.

Definition newMCResult (cfg : MCConfig) (iters : list MCIterationResult) : MCResult :=
  let summary := computeMCSummary iters cfg in
  let passProb := if 0 <? BustProbability summary then (1.0 - BustProbability summary) * 100.0 else 100.0 in
  mkMCResult cfg iters summary passProb.

Context {G : PCG}.

(** The defaults of a configuration. *)
Definition withDefaults (cfg : MCConfig) : MCConfig :=
  mkMC (if Z.leb (Iterations cfg) 0 then 500 else Iterations cfg) (if Z.leb (BarsPerSim cfg) 0 then 252 else BarsPerSim cfg)
    (Seed cfg).

Definition finiteOnly (l : list float64) : list float64 :=
  List.filter (fun x => negb (math.IsNaN x) && negb (math.IsInf x 0)) l.

(** [extractReturns] of the daily returns of a result. *)
Definition extractReturns (daily : list float64) : list float64 := finiteOnly daily.

(** The three simulations, with the writes in the order [schedule] puts them in.
    [None]: [ErrInsufficientReturns]. *)
Variable schedule : list (Z * MCIterationResult) -> list (Z * MCIterationResult).

Definition simulateAll (cfg : MCConfig) (simulate : pcg -> list float64 * pcg) : MCResult :=
  newMCResult cfg (afterWrites cfg (schedule (allWrites simulate cfg))).

Definition RunMonteCarlo (dailyReturns : list float64) (cfg : MCConfig) : option MCResult :=
  let cfg := withDefaults cfg in
  let returns := extractReturns dailyReturns in
  if Z.ltb (Z.of_nat (length returns)) 2 then None
  else Some (simulateAll cfg (bootstrapPath returns (BarsPerSim cfg))).

(** A trade's return in percent, from its PnL when it is missing. *)
Definition tradePct (initialCapital : float64) (t : Trade) : float64 :=
  if (TPnLPct t =? 0) && negb (TPnL t =? 0) then TPnL t / initialCapital * 100.0 else TPnLPct t.

Definition RunMonteCarloFromTrades (trades : list Trade) (simulations : Z) (initialCapital : float64) (now : Z) : option MCResult :=
  if Z.ltb (Z.of_nat (length trades)) 2 then None
  else
    let returns := map (fun p => p / 100.0) (finiteOnly (map (tradePct initialCapital) trades)) in
    if Z.ltb (Z.of_nat (length returns)) 2 then None
    else
      let cfg := mkMC (if Z.leb simulations 0 then 500 else simulations) (Z.of_nat (length returns)) now in
      Some (simulateAll cfg (bootstrapPath returns (BarsPerSim cfg))).

Definition RunMonteCarloWithContext (cfg : MCConfig) : MCResult :=
  let cfg := withDefaults cfg in simulateAll cfg (randomWalkPath (BarsPerSim cfg)).

Definition MonteCarloFromTrades (trades : list Trade) (simulations now : Z) : MCConfig :=
  mkMC (if Z.leb simulations 0 then 500 else simulations)
    (match trades with [] => 252 | _ => Z.of_nat (length trades) end)%Z now.
End Summary.

(** ** Paths stay positive *)
Definition path_ok (e : float64) : Prop := fnan e = false -> (0 < fv e)%Z.

Lemma bust_ok : path_ok bustValue.
Proof. by vm_compute. Qed.

Lemma not_leb_zero_ok e : (e <=? 0) = false -> path_ok e.
Proof. intros H N. pose proof (leb_false e 0 N eq_refl H) as L. by rewrite fv_zero_lit in L. Qed.

Lemma grow_ok s r : path_ok (grow s r).1.
Proof.
  destruct s as [e b]. cbn. destruct (e * (1.0 + r) <=? 0) eqn:E; cbn; [apply bust_ok|].
  destruct b; [apply bust_ok|by apply not_leb_zero_ok].
Qed.

Section PathLaws.
Context {G : PCG}.

Lemma block_path_ok returns blockLen n : forall more from s rng, Forall path_ok (blockPath returns blockLen n more from s rng).1.
Proof.
  induction n as [|n IH]; intros more from s rng; [constructor|]. cbn [blockPath].
  destruct (match more with O => _ | _ => _ end) as [[more' from'] rng'].
  specialize (IH (pred more') (from' + 1)%Z (grow s (returnAt returns from')) rng').
  destruct (blockPath _ _ _ _ _ _ _) as [path rng'']. constructor; [apply grow_ok|done].
Qed.

Lemma walk_path_ok n : forall e rng, Forall path_ok (walkPath n e rng).1.
Proof.
  induction n as [|n IH]; intros e rng; [constructor|]. cbn [walkPath]. destruct (Float64N rng) as [x rng'].
  set (e' := if _ <=? 0 then _ else _). specialize (IH e' rng'). destruct (walkPath _ _ _) as [path rng''].
  constructor; [|done]. cbn. unfold e'. destruct (_ <=? 0) eqn:E; [apply bust_ok|by apply not_leb_zero_ok].
Qed.
End PathLaws.

Lemma fnan_sub_r x y : fnan y = true -> fnan (x - y) = true.
Proof. unfold fnan. rewrite sub_spec. by destruct (Prim2SF y), (Prim2SF x). Qed.

Lemma fnan_ltb_r x y : fnan y = true -> (x <? y) = false.
Proof. intros N. rewrite ltb_fv, N. by rewrite andb_false_r. Qed.

Lemma infinity_drawdown e : (0 <? (infinity - e) / infinity * 100.0) = false.
Proof.
  assert (H : fnan ((infinity - e) / infinity) = true).
  { unfold fnan. rewrite div_spec, sub_spec. destruct (Prim2SF e) as [[]|[]| |[] m k]; reflexivity. }
  apply fnan_ltb_r. by apply mul_nan.
Qed.

Lemma path_step_ok pm e :
  fnan pm.1 = false -> (0 < fv pm.1)%Z -> percentage pm.2 -> path_ok e ->
  fnan (pathStep pm e).1 = false /\ (0 < fv (pathStep pm e).1)%Z /\ percentage (pathStep pm e).2.
Proof.
  destruct pm as [peak mx]. cbn [fst snd]. intros N P M O. unfold pathStep. cbn [fst snd].
  set (peak' := if peak <? e then e else peak).
  assert (H : fnan peak' = false /\ (0 < fv peak')%Z /\ (fnan e = false -> (fv e <= fv peak')%Z)).
  { unfold peak'. destruct (peak <? e) eqn:E.
    - apply ltb_true in E as (_ & Ne & L). repeat split; try done; lia.
    - repeat split; try done. intros Ne. by apply ltb_false. }
  clearbody peak'. destruct H as (N' & P' & L). split; [done|]. split; [done|].
  destruct (0 <? peak'); [|by destruct (mx <? 0) eqn:E; [split; [done|]; vm_compute; by split|]].
  destruct (mx <? (peak' - e) / peak' * 100.0) eqn:E; [|done].
  destruct (fnan e) eqn:Ne.
  { by rewrite fnan_ltb_r in E by (apply mul_nan, div_nan, fnan_sub_r; done). }
  destruct (ffin peak') eqn:Fp.
  - specialize (L eq_refl). specialize (O Ne).
    assert (Fe : ffin e = true) by (apply (ffin_between 0 _ peak'); try done; rewrite fv_zero_lit; lia).
    apply unit_hundred. destruct (sub_sign peak' e Fp Fe) as (Ns & S1 & _).
    assert (Pe : pos0 e) by (split; [done|lia]). destruct (sub_pos0_le peak' e Fp Pe) as [_ Hs]. specialize (S1 L).
    apply div_le_one; try done. split; [|done]. by apply (ffin_between 0 _ peak').
  - rewrite (nonfin_pos peak' N' Fp ltac:(lia)) in E. exfalso.
    apply ltb_true in E as (Nm & Nd & Lt).
    assert (Q : (0 <? (infinity - e) / infinity * 100.0) = true).
    { apply ltb_true. repeat split; [done|]. rewrite fv_zero_lit. destruct M as [_ M]. lia. }
    by rewrite infinity_drawdown in Q.
Qed.

Lemma hundred_percent : percentage 100.
Proof. split; [done|]. vm_compute. by split. Qed.
Lemma zero_percent : percentage 0.
Proof. split; [done|]. vm_compute. by split. Qed.

Lemma fold_path_ok path pm :
  fnan pm.1 = false -> (0 < fv pm.1)%Z -> percentage pm.2 -> Forall path_ok path ->
  percentage (fold_left pathStep path pm).2.
Proof.
  intros N P M F. revert pm N P M. induction F as [|e path O F IH]; intros pm N P M; [done|]. cbn [fold_left].
  destruct (path_step_ok pm e N P M O) as (N' & P' & M'). by apply IH.
Qed.

Lemma path_metrics_ok path : Forall path_ok path -> percentage (computePathMetrics path).2.
Proof.
  intros F. unfold computePathMetrics. destruct path as [|e0 path0]; [apply zero_percent|].
  destruct (existsb _ _); [apply hundred_percent|]. apply fold_path_ok; [done|by vm_compute|apply zero_percent|done].
Qed.

(** ** Lists *)
Lemma map_lookup {A B} (f : A -> B) (l : list A) k : map f l !! k = f <$> l !! k.
Proof. apply list_lookup_fmap. Qed.

Lemma NoDup_map_perm {A B} (f : A -> B) (l l' : list A) : l ≡ₚ l' -> NoDup (map f l') -> NoDup (map f l).
Proof. intros P. by rewrite P. Qed.

Lemma elem_of_map_inv {A B} (f : A -> B) (l : list A) y : y ∈ map f l -> exists x, x ∈ l /\ y = f x.
Proof. intros (x & -> & H)%list_elem_of_fmap. by exists x. Qed.

Lemma elem_of_flat_map_inv {A B} (f : A -> list B) (l : list A) y : y ∈ flat_map f l -> exists x, y ∈ f x.
Proof. intros (x & _ & H)%list_elem_of_In%in_flat_map. exists x. by apply list_elem_of_In. Qed.

(** ** The workers *)
Definition zrange (a : Z) (n : nat) : list Z := map (fun k => (a + Z.of_nat k)%Z) (seq 0 n).

Lemma zrange_cons a n : zrange a (S n) = a :: zrange (a + 1) n.
Proof.
  unfold zrange. cbn [seq map]. rewrite Z.add_0_r. f_equal. rewrite <- seq_shift, map_map. apply map_ext. intros k. lia.
Qed.

Lemma zrange_app a n m : zrange a n ++ zrange (a + Z.of_nat n) m = zrange a (n + m).
Proof.
  revert a. induction n as [|n IH]; intros a; [by rewrite Z.add_0_r|]. cbn [Nat.add].
  rewrite !zrange_cons. cbn [app]. f_equal. rewrite <- IH. f_equal. f_equal. lia.
Qed.

Section WorkerLaws.
Context {G : PCG}.
Variable simulate : pcg -> list float64 * pcg.
Variable cfg : MCConfig.
Hypothesis iterations_ok : (0 < Iterations cfg < 2 ^ 53)%Z.

Lemma chunk_bounds : (0 < chunkSize cfg < 2 ^ 53)%Z /\ (Iterations cfg <= 4 * chunkSize cfg)%Z.
Proof.
  unfold chunkSize, numWorkers. rewrite (i64_id (Iterations cfg + 4)) by (unfold in_i64; lia).
  rewrite i64_id by (unfold in_i64; lia). rewrite Z.quot_div_nonneg by lia. Z.div_mod_to_equations. lia.
Qed.

Lemma run_chunk_indices i n rng : map fst (runChunk simulate i n rng) = zrange i n.
Proof.
  revert i rng. induction n as [|n IH]; intros i rng; [done|]. cbn [runChunk]. destruct (simulate rng) as [path rng'].
  destruct (computePathMetrics path) as [p d]. cbn [map fst]. by rewrite zrange_cons, IH.
Qed.

Lemma worker_indices w :
  (0 <= w < 4)%Z ->
  map fst (workerWrites simulate cfg w) =
  zrange (w * chunkSize cfg) (Z.to_nat (Z.min ((w + 1) * chunkSize cfg) (Iterations cfg) - w * chunkSize cfg)).
Proof.
  intros W. destruct chunk_bounds as [C I]. unfold workerWrites, chunkEnd, chunkStart.
  rewrite (i64_id (w * chunkSize cfg)) by (unfold in_i64; nia). rewrite i64_id by (unfold in_i64; nia).
  replace (w * chunkSize cfg + chunkSize cfg)%Z with ((w + 1) * chunkSize cfg)%Z by lia.
  destruct (Z.leb_spec (Z.min ((w + 1) * chunkSize cfg) (Iterations cfg)) (w * chunkSize cfg)).
  - by replace (Z.to_nat _) with O by lia.
  - apply run_chunk_indices.
Qed.

Lemma range_step w :
  (0 <= w)%Z ->
  zrange 0 (Z.to_nat (Z.min (w * chunkSize cfg) (Iterations cfg))) ++
  zrange (w * chunkSize cfg) (Z.to_nat (Z.min ((w + 1) * chunkSize cfg) (Iterations cfg) - w * chunkSize cfg)) =
  zrange 0 (Z.to_nat (Z.min ((w + 1) * chunkSize cfg) (Iterations cfg))).
Proof.
  intros W. destruct chunk_bounds as [C I]. destruct (Z.le_gt_cases (Iterations cfg) (w * chunkSize cfg)).
  - replace (Z.to_nat (Z.min ((w + 1) * chunkSize cfg) (Iterations cfg) - w * chunkSize cfg)) with O by nia.
    rewrite app_nil_r. f_equal. nia.
  - rewrite (Z.min_l (w * chunkSize cfg)) by lia.
    set (n := Z.to_nat (w * chunkSize cfg)). replace (w * chunkSize cfg)%Z with (0 + Z.of_nat n)%Z at 1 by nia.
    rewrite zrange_app. f_equal. nia.
Qed.

Lemma all_indices : map fst (allWrites simulate cfg) = zrange 0 (Z.to_nat (Iterations cfg)).
Proof.
  unfold allWrites. cbn [flat_map]. rewrite !map_app, app_nil_r, !worker_indices by lia.
  rewrite !app_assoc. destruct chunk_bounds as [C I].
  pose proof (range_step 0 ltac:(lia)) as R0. pose proof (range_step 1 ltac:(lia)) as R1.
  pose proof (range_step 2 ltac:(lia)) as R2. pose proof (range_step 3 ltac:(lia)) as R3.
  replace (Z.to_nat (Z.min (0 * chunkSize cfg) (Iterations cfg))) with O in R0 by lia. cbn [zrange seq map app] in R0.
  change (0 + 1)%Z with 1%Z in *. change (1 + 1)%Z with 2%Z in *. change (2 + 1)%Z with 3%Z in *. change (3 + 1)%Z with 4%Z in *.
  rewrite R0, R1, R2, R3. f_equal. lia.
Qed.
End WorkerLaws.

(** The slice after writes to distinct places. *)
Lemma fold_insert_ne {A} (writes : list (Z * A)) (i : nat) (l : list A) :
  Forall (fun w => Z.to_nat w.1 <> i) writes ->
  fold_left (fun iters w => <[Z.to_nat w.1 := w.2]> iters) writes l !! i = l !! i.
Proof.
  intros F. revert l. induction F as [|w writes N F IH]; intros l; [done|]. cbn [fold_left]. rewrite IH.
  by rewrite list_lookup_insert_ne.
Qed.

Lemma fold_insert_length {A} (writes : list (Z * A)) (l : list A) :
  length (fold_left (fun iters w => <[Z.to_nat w.1 := w.2]> iters) writes l) = length l.
Proof. revert l. induction writes as [|w writes IH]; intros l; [done|]. cbn [fold_left]. by rewrite IH, length_insert. Qed.

Lemma fold_insert_eq {A} (writes : list (Z * A)) (i : Z) (r : A) (l : list A) :
  NoDup (map (fun w => Z.to_nat w.1) writes) -> (i, r) ∈ writes -> (Z.to_nat i < length l)%nat ->
  fold_left (fun iters w => <[Z.to_nat w.1 := w.2]> iters) writes l !! Z.to_nat i = Some r.
Proof.
  intros N. revert l. induction writes as [|w writes IH]; intros l H L; [by apply not_elem_of_nil in H|].
  cbn [map] in N. inversion N as [|? ? N1 N2]; subst. cbn [fold_left]. apply elem_of_cons in H as [<-|H].
  - rewrite fold_insert_ne; [by apply list_lookup_insert_eq|]. apply list.Forall_forall. intros w Hw E.
    destruct N1. apply list_elem_of_fmap. by exists w.
  - apply IH; [done|done|]. by rewrite length_insert.
Qed.

Section Schedules.
Context {G : PCG}.
Variable simulate : pcg -> list float64 * pcg.
Variable cfg : MCConfig.

Lemma range_nats n : map Z.to_nat (zrange 0 n) = seq 0 n.
Proof.
  unfold zrange. rewrite map_map. rewrite <- (map_id (seq 0 n)) at 2. apply map_ext. intros k. lia.
Qed.

Lemma writes_distinct writes :
  (0 < Iterations cfg < 2 ^ 53)%Z -> writes ≡ₚ allWrites simulate cfg -> NoDup (map (fun w => Z.to_nat w.1) writes).
Proof.
  intros I P. apply (NoDup_map_perm _ _ _ P).
  rewrite <- (map_map fst Z.to_nat), (all_indices simulate cfg I), range_nats. apply NoDup_ListNoDup, seq_NoDup.
Qed.

Lemma writes_length : (0 < Iterations cfg < 2 ^ 53)%Z -> length (allWrites simulate cfg) = Z.to_nat (Iterations cfg).
Proof.
  intros I. rewrite <- (length_map fst), (all_indices simulate cfg I). unfold zrange. by rewrite length_map, length_seq.
Qed.

(** The [k]th write of the workers in turn is the one at [k]. *)
Lemma nth_write k w : (0 < Iterations cfg < 2 ^ 53)%Z -> allWrites simulate cfg !! k = Some w -> w.1 = Z.of_nat k.
Proof.
  intros I W. pose proof (lookup_lt_Some _ _ _ W) as K. rewrite (writes_length I) in K.
  assert (Q : (map fst (allWrites simulate cfg)) !! k = Some w.1) by (by rewrite map_lookup, W).
  rewrite (all_indices simulate cfg I) in Q. unfold zrange in Q. rewrite map_lookup in Q.
  rewrite (lookup_seq_lt 0 _ k) in Q by done. by injection Q as <-.
Qed.

Lemma after_length writes : length (afterWrites cfg writes) = Z.to_nat (Iterations cfg).
Proof. unfold afterWrites. by rewrite fold_insert_length, length_replicate. Qed.

Lemma after_lookup writes k w :
  (0 < Iterations cfg < 2 ^ 53)%Z -> writes ≡ₚ allWrites simulate cfg -> allWrites simulate cfg !! k = Some w ->
  afterWrites cfg writes !! k = Some w.2.
Proof.
  intros I P W. pose proof (nth_write k w I W) as E. destruct w as [i r]. cbn [fst] in E. subst i.
  pose proof (lookup_lt_Some _ _ _ W) as K. rewrite (writes_length I) in K.
  unfold afterWrites. rewrite <- (Nat2Z.id k) at 1. apply fold_insert_eq.
  - by apply writes_distinct.
  - rewrite P. by eapply list_elem_of_lookup_2.
  - by rewrite length_replicate, Nat2Z.id.
Qed.

Lemma after_writes_serial writes :
  (0 < Iterations cfg < 2 ^ 53)%Z -> writes ≡ₚ allWrites simulate cfg ->
  afterWrites cfg writes = map snd (allWrites simulate cfg) /\
  length (afterWrites cfg writes) = Z.to_nat (Iterations cfg).
Proof.
  intros I P. split; [|apply after_length].
  apply list_eq_same_length with (n := Z.to_nat (Iterations cfg)); [by rewrite length_map, writes_length|apply after_length|].
  intros k x y _ Hx Hy. rewrite map_lookup in Hy. destruct (allWrites simulate cfg !! k) as [w|] eqn:W; [|done].
  rewrite (after_lookup writes k w I P W) in Hx. cbn in Hy. congruence.
Qed.

(** The schedule of the four workers does not matter.  Their chunks partition the
    iterations, so in whatever order their writes reach the shared slice, it ends up as
    the results of the four workers one after the other, one for every iteration: the
    result is a function of the seed. *)
Theorem monte_carlo_schedule_free writes :
  (0 < Iterations cfg < 2 ^ 53)%Z -> writes ≡ₚ allWrites simulate cfg ->
  afterWrites cfg writes = map snd (allWrites simulate cfg) /\
  length (afterWrites cfg writes) = Z.to_nat (Iterations cfg).
Proof. apply after_writes_serial. Qed.
End Schedules.

(** ** The report *)
Section Report.
Context {SL : SortSlice} {G : PCG}.

Lemma unit_ratio c n : (0 <= c <= n)%Z -> (0 < n <= 2 ^ 53)%Z -> unit0 (of_Z c / of_Z n).
Proof.
  intros Hc Hn. destruct (of_Z_exact c) as [F1 E1]; [lia|]. destruct (of_Z_exact n) as [F2 E2]; [lia|].
  pose proof onev_pos. apply div_le_one; try done.
  - split; [done|]. rewrite E1. nia.
  - rewrite E2. nia.
  - rewrite E1, E2. nia.
Qed.

Lemma bust_unit iters cfg : (Z.of_nat (length iters) <= 2 ^ 53)%Z -> unit0 (BustProbability (computeMCSummary iters cfg)).
Proof.
  intros L. unfold computeMCSummary. destruct iters as [|it its] eqn:E; [split; [done|]; vm_compute; split; discriminate|].
  rewrite <- E in *. destruct (match List.filter _ _ with [] => _ | _ => _ end) as [[? ?] ?]. cbn [BustProbability].
  assert (Ln : length (sortSlice (fun a b => PnlPct a <? PnlPct b) iters) = length iters)
    by apply Permutation_length, sortSlice_perm.
  apply unit_ratio; [apply countIf_le|]. rewrite Ln. assert (0 < length iters)%nat by (rewrite E; cbn; lia). lia.
Qed.

Lemma pass_percentage cfg iters :
  (Z.of_nat (length iters) <= 2 ^ 53)%Z -> percentage (PassProbability (newMCResult cfg iters)).
Proof.
  intros L. unfold newMCResult. cbn [PassProbability]. destruct (0 <? _); [|apply hundred_percent].
  apply unit_hundred, one_minus_unit, bust_unit, L.
Qed.

Lemma simulated_ok (simulate : pcg -> list float64 * pcg) cfg writes :
  (0 < Iterations cfg < 2 ^ 53)%Z -> writes ≡ₚ allWrites simulate cfg ->
  (forall rng, Forall path_ok (simulate rng).1) ->
  Forall (fun it => percentage (MaxDDPct it)) (afterWrites cfg writes).
Proof.
  intros I P S. rewrite (proj1 (after_writes_serial simulate cfg writes I P)).
  apply list.Forall_forall. intros it (w & Hw & ->)%elem_of_map_inv.
  assert (C : forall n i rng, Forall (fun w => percentage (MaxDDPct w.2)) (runChunk simulate i n rng)).
  { induction n as [|n IH]; intros i rng; [constructor|]. cbn [runChunk]. specialize (S rng).
    destruct (simulate rng) as [path rng']. pose proof (path_metrics_ok path S) as M.
    destruct (computePathMetrics path) as [p d]. constructor; [done|apply IH]. }
  unfold allWrites in Hw. apply elem_of_flat_map_inv in Hw as (k & Hw).
  unfold workerWrites in Hw. destruct (Z.leb _ _) in Hw; [by apply not_elem_of_nil in Hw|].
  pose proof (C (Z.to_nat (chunkEnd cfg k - chunkStart cfg k)) (chunkStart cfg k) (NewPCG (u64 (chunkStart cfg k)) (u64 (Seed cfg)))) as F.
  rewrite list.Forall_forall in F. by apply F.
Qed.

Lemma result_ok (simulate : pcg -> list float64 * pcg) (schedule : list (Z * MCIterationResult) -> list (Z * MCIterationResult)) cfg :
  (0 < Iterations cfg < 2 ^ 53)%Z -> (forall writes, schedule writes ≡ₚ writes) ->
  (forall rng, Forall path_ok (simulate rng).1) ->
  let r := simulateAll schedule cfg simulate in
  percentage (PassProbability r) /\ unit0 (BustProbability (Summary r)) /\
  length (Iters r) = Z.to_nat (Iterations cfg) /\ Forall (fun it => percentage (MaxDDPct it)) (Iters r).
Proof.
  intros I P S. unfold simulateAll. set (iters := afterWrites _ _).
  assert (L : length iters = Z.to_nat (Iterations cfg)) by (by apply (after_writes_serial simulate)).
  split; [apply pass_percentage; lia|]. split; [apply bust_unit; lia|]. split; [exact L|].
  by apply (simulated_ok simulate).
Qed.

Lemma defaults_ok cfg : (Iterations cfg < 2 ^ 53)%Z -> (0 < Iterations (withDefaults cfg) < 2 ^ 53)%Z.
Proof. intros I. unfold withDefaults. cbn. destruct (Z.leb_spec (Iterations cfg) 0); lia. Qed.

Lemma bootstrap_ok returns bars rng : Forall path_ok (bootstrapPath returns bars rng).1.
Proof. apply block_path_ok. Qed.

(** C29: the simulation's report makes sense.  For any generator, any schedule of the
    workers, any daily returns and fewer than 2^53 iterations: there is a result for every
    iteration, every drawdown is a percentage, also on paths that overflow, the
    probability of ruin is between 0 and 1 and the pass probability a percentage. *)
Theorem monte_carlo_sane schedule daily cfg r :
  (Iterations cfg < 2 ^ 53)%Z -> (forall writes, schedule writes ≡ₚ writes) ->
  RunMonteCarlo schedule daily cfg = Some r ->
  percentage (PassProbability r) /\ unit0 (BustProbability (Summary r)) /\
  length (Iters r) = Z.to_nat (Iterations (withDefaults cfg)) /\ Forall (fun it => percentage (MaxDDPct it)) (Iters r).
Proof.
  intros I P. unfold RunMonteCarlo. destruct (Z.ltb _ _); [done|]. intros [= <-].
  apply result_ok; [by apply defaults_ok|done|apply bootstrap_ok].
Qed.
End Report.

(** ** Witnesses *)

(** A linear congruential generator. *)
Definition lcg : PCG := {|
  pcg := Z;
  NewPCG a b := Z.modulo (a * 7919 + b) 65536;
  IntN s n := (Z.modulo s n, Z.modulo (s * 25173 + 13849) 65536);
  Float64N s := (of_Z s / 65536, Z.modulo (s * 25173 + 13849) 65536)
|}.

Definition someReturns : list float64 := [0.01; -0.02; nan; -1.5].
Definition smallRun : MCConfig := mkMC 3 2 42.

Lemma monte_carlo_schedule_free_witness :
  afterWrites smallRun (rev (allWrites (G := lcg) (bootstrapPath (G := lcg) [0.01; -0.02] 2) smallRun)) =
  map snd (allWrites (G := lcg) (bootstrapPath (G := lcg) [0.01; -0.02] 2) smallRun).
Proof.
  apply (monte_carlo_schedule_free (G := lcg) (bootstrapPath (G := lcg) [0.01; -0.02] 2) smallRun).
  - split; reflexivity.
  - symmetry. apply Permutation_rev.
Defined.

Definition smallResult : MCResult := default (newMCResult smallRun []) (RunMonteCarlo (G := lcg) (fun w => w) someReturns smallRun).

Lemma monte_carlo_sane_witness :
  Z.of_nat (length (Iters smallResult)) = 3%Z /\ percentage (PassProbability smallResult).
Proof.
  split; [vm_compute; reflexivity|].
  apply (monte_carlo_sane (G := lcg) (fun w => w) someReturns smallRun smallResult).
  - reflexivity.
  - reflexivity.
  - vm_compute. reflexivity.
Defined.
