(* ===== verification/OptimizedWalk.v ===== *)
(** * Walk-forward runs ([internal/backtest/walk_forward.go], optimized_walk_forward.go)

    The runs of the engine over the windows of WalkForward.v: [RunWalkForward] with fixed
    parameters, and [RunOptimizedWalkForward], which searches the parameters in each train
    window and judges them in the test window.  The engine, its database included, is the
    class [Backtests].  Goroutines are the order in which they finish. *)
From Stdlib Require Import ZArith Lia Bool Floats.
From coqutil Require Import RecordSettersUsingExistingGetters.
From S2P Require Import Prelude Float64 FloatRound FloatLaws WalkForward Live Strategies Params Trade Engine Metrics Enforcer.
From S2P Require Import Indicators Runner Results SearchSpace Ivs.
From S2P Require MonteCarlo.
Local Open Scope float_scope.
Local Open Scope go_scope.

(** [Engine] as its callers see it.  [Run] returns an error ([None]) or a result;
    [NewEngine k] is the [k]th engine of a batch over the same database. *)
Class Backtests := {
  engine : Type;
  hasDB : engine -> bool;
  NewEngine : engine -> nat -> engine;
  runEngine : engine -> RunConfig -> option BacktestResult * engine
}.

(** ** Results *)
Record WindowResult := mkWindowResult {
  WindowNo : nat; WTrainStart : Z; WTestStart : Z; WTestEnd : Z; InSampleSharpe : float64; OutSampleSharpe : float64;
  OutSampleSortino : float64; OOSWinRate : float64; OOSReturnPct : float64; OOSMaxDD : float64; OOSProfitFactor : float64;
  OOSTrades : Z; PassedCompliance : bool; MultiplicityWarning : bool; AnchorOOSSharpe : float64; AnchorPassedCompliance : bool
}.

Record WalkForwardResult := mkWalkResult {
  Windows : list WindowResult; OverallSharpe : float64; OverallWinRate : float64; WfProfitFactor : float64;
  WfTotalReturnPct : float64; PassedWindows : Z; TotalWindows : Z; AvgOOSSharpe : float64; SharpeDegradation : float64;
  AvgAnchorOOSSharpe : float64
}.

Record OptimizedWalkForwardResult := mkOptimized {
  Walk :> WalkForwardResult;
  BestParamsPerWindow : list (option combination);
  IVSRobustParamsPerWindow : list (option combination);
  IVSActive : bool
}.

(** [Config] is the embedded configuration of a run, whose dates the windows use. *)
Record WalkConfig := mkWalk { Config : RunConfig; Rolling : WalkForwardConfig }.

Definition windowing (c : WalkConfig) : WalkForwardConfig :=
  let w := Rolling c in
  mkWF (RunStart (Config c)) (RunEnd (Config c)) (TrainWindows w) (TrainYears w) (TestYears w) (StepMonths w)
    (PurgeTradingDays w) (EmbargoTradingDays w).

Record OptimizedWalkForwardConfig := mkOWF {
  OwfWalk :> WalkConfig;
  OwfStrategyID : string;
  OwfSpace : option SearchSpace;
  ObjectiveType : string;
  ObjectiveWeights : gmap string float64;
  MaxCombinations : Z;
  OwfIVS : IVSConfig
}.

Definition between (cfg : RunConfig) (from to : Z) : RunConfig :=
  mkRun (Base cfg) from to (Timeframe cfg) (DataSource cfg) (ApplyGate cfg) (GateProfile cfg).

Definition withParams (cfg : RunConfig) (params : option combination) : RunConfig :=
  mkRun (ApplyOptimizationParams (Base cfg) params) (RunStart cfg) (RunEnd cfg) (Timeframe cfg) (DataSource cfg)
    (ApplyGate cfg) (GateProfile cfg).

Definition onTrain (cfg : RunConfig) (w : WalkForwardWindow) : RunConfig := between cfg (TrainStart w) (TrainEnd w).
Definition onTest (cfg : RunConfig) (w : WalkForwardWindow) : RunConfig := between cfg (TestStart w) (TestEnd w).

Definition passed (r : BacktestResult) : bool :=
  match RCompliance r with Some report => PropFirmEnforcer.Passed report | None => false end.

Definition sumBy {A} (f : A -> float64) (l : list A) : float64 := fold_left (fun s x => s + f x) l 0.
Definition countBy {A} (p : A -> bool) (l : list A) : Z := Z.of_nat (length (List.filter p l)).
Definition count {A} (l : list A) : float64 := of_Z (Z.of_nat (length l)).

Section Walk.
Context {B : Backtests} {SL : SortSlice}.

(** ** Fixed parameters *)

(** One window: its train and its test result, if both runs return one. *)
Definition walkWindow (cfg : RunConfig) (e : engine) (w : WalkForwardWindow) :
    option (BacktestResult * BacktestResult) * engine :=
  let '(train, e) := runEngine e (onTrain cfg w) in
  match train with
  | None => (None, e)
  | Some train =>
      let testCfg := onTest cfg w in
      let testCfg := if bool_decide (RStrategyParams train = ∅) then testCfg
                     else mkRun ((Base testCfg) <| StrategyParams := RStrategyParams train |>) (RunStart testCfg) (RunEnd testCfg)
                            (Timeframe testCfg) (DataSource testCfg) (ApplyGate testCfg) (GateProfile testCfg) in
      let '(test, e) := runEngine e testCfg in
      (test ← test; Some (train, test), e)
  end.

Fixpoint walkWindows (cfg : RunConfig) (e : engine) (i : nat) (ws : list WalkForwardWindow) :
    list (WindowResult * BacktestResult * BacktestResult) * engine :=
  match ws with
  | [] => ([], e)
  | w :: ws =>
      let '(r, e) := walkWindow cfg e w in
      let '(rs, e) := walkWindows cfg e (S i) ws in
      (match r with
       | None => rs
       | Some (train, test) =>
           (mkWindowResult (S i) (TrainStart w) (TestStart w) (TestEnd w) (SharpeRatio train) (SharpeRatio test)
              (SortinoRatio test) (WinRate test) (TotalReturnPct test) (MaxDrawdown test) 0 (NumTrades test)
              (passed test) false 0 false, train, test) :: rs
       end, e)
  end.

(** [None]: the windows do not end. *)
Definition RunWalkForward (fuel : nat) (e : engine) (c : WalkConfig) : option (WalkForwardResult * engine) :=
  windows ← GenerateWalkForwardWindows fuel (windowing c);
  let '(rs, e) := walkWindows (Config c) e 0 windows in
  let trains := map (fun r => r.1.2) rs in
  let tests := map (fun r => r.2) rs in
  let totalSharpe := sumBy (fun r : BacktestResult => SharpeRatio r) trains in
  let totalOOSSharpe := sumBy (fun r : BacktestResult => SharpeRatio r) tests in
  let totalWins := fold_left (fun s r => s + NumWins (RMetrics r))%Z tests 0%Z in
  let totalTrades := fold_left (fun s r => s + NumTrades r)%Z tests 0%Z in
  let base := mkWalkResult (map (fun r => r.1.1) rs) 0 0 0 0 (countBy passed tests) (Z.of_nat (length windows)) 0 0 0 in
  Some (match rs with
        | [] => base
        | _ =>
            mkWalkResult (Windows base) (totalSharpe / count rs)
              (if Z.ltb 0 totalTrades then of_Z totalWins / of_Z totalTrades * 100 else 0) 0
              (sumBy TotalReturnPct tests / count rs) (PassedWindows base) (TotalWindows base) (totalOOSSharpe / count rs)
              (if 0 <? totalSharpe then (totalSharpe - totalOOSSharpe) / totalSharpe * 100 else 0) 0
        end, e).

(** ** The search in a train window *)
Section InSample.
Variable config : OptimizedWalkForwardConfig.
Variable w : WalkForwardWindow.

Definition objective (r : BacktestResult) : float64 := ComputeObjective r (ObjectiveType config) (ObjectiveWeights config).

Definition trainCfg (params : combination) : RunConfig := withParams (onTrain (Config config) w) (Some params).

(** On the receiver, one after the other. *)
Fixpoint evaluateSerially (e : engine) (combos : list combination) : list ParamScore * engine :=
  match combos with
  | [] => ([], e)
  | params :: combos =>
      let '(r, e) := runEngine e (trainCfg params) in
      let '(scores, e) := evaluateSerially e combos in
      (match r with Some r => mkScore params (objective r) :: scores | None => scores end, e)
  end.

(** The goroutine of combination [idx], on an engine of its own. *)
Definition scoreOf (e : engine) (combos : list combination) (idx : nat) : option ParamScore :=
  params ← combos !! idx; r ← (runEngine (NewEngine e idx) (trainCfg params)).1; Some (mkScore params (objective r)).

(** Each writes its own entry when it is done; entries without parameters are dropped. *)
Definition evaluateInParallel (e : engine) (combos : list combination) (finished : list nat) : list ParamScore :=
  omap id (fold_left (fun all idx => match scoreOf e combos idx with
                                     | Some s => <[idx := Some s]> all
                                     | None => all
                                     end) finished (replicate (length combos) None)).

Definition evaluateISCombinations (e : engine) (combos : list combination) (finished : list nat) : list ParamScore * engine :=
  if negb (hasDB e) || (length combos <? 2)%nat then evaluateSerially e combos
  else (evaluateInParallel e combos finished, e).

(** ** The choice, and its judgement in the test window *)

(** The best scores first; two standard deviations over the median. *)
Definition ranked (scores : list ParamScore) : list ParamScore := sortSlice (fun a b => Score b <? Score a) scores.

Definition scoreThreshold (scores : list ParamScore) : float64 :=
  let scoresOnly := sortSlice MonteCarlo.lessFloat (map Score scores) in
  let median := nth (Nat.div (length scoresOnly) 2) scoresOnly 0 in
  let sumSq := sumBy (fun v => (v - median) * (v - median)) scoresOnly in
  median + 2.0 * PrimFloat.sqrt (sumSq / count scoresOnly).

Definition noScore : float64 := - 1e9.

(** One candidate in the test window, against the best so far. *)
Definition tryCandidate (testCfg : RunConfig) (acc : float64 * option BacktestResult * engine) (params : option combination) :
    float64 * option BacktestResult * engine :=
  let '(best, result, e) := acc in
  match params with
  | None => acc
  | Some _ =>
      let '(r, e) := runEngine e (withParams (onTest testCfg w) params) in
      match r with
      | None => (best, result, e)
      | Some r => if best <? objective r then (objective r, Some r, e) else (best, result, e)
      end
  end.

(** The runs in the test window: the candidates, and the default parameters when none of
    them returned a result. *)
Definition outOfSample (selected best robust : option combination) (e : engine) : option BacktestResult * engine :=
  let testCfg := withParams (onTest (Config config) w) selected in
  let '(_, result, e) := fold_left (tryCandidate testCfg) [best; robust] (noScore, None, e) in
  match result with
  | Some r => (Some r, e)
  | None => runEngine e (onTest (Config config) w)
  end.
End InSample.

(** What a window leaves: its best and its robust parameters, and its result. *)
Record windowOutcome := mkWindowOutcome {
  oBest : option combination; oRobust : option combination; oResult : option WindowResult
}.

Inductive search (A : Type) := Endless | Panicked | Found (a : A).
Arguments Endless {A}.
Arguments Panicked {A}.
Arguments Found {A} _.

Definition fuelled {A} (o : option outcome) (f : list combination -> search A) : search A :=
  match o with
  | None | Some Running => Endless
  | Some Panics => Panicked
  | Some (Done l) => f l
  end.

Section Optimized.
Variable config : OptimizedWalkForwardConfig.
(** Rounds for the windows and for the enumeration of the space. *)
Variable wfuel fuel : nat.
(** The order in which the goroutines of a window's search finish. *)
Variable finished : nat -> list nat.

Definition spaceOf : option SearchSpace :=
  match OwfSpace config with Some s => Some s | None => DefaultSearchSpace (OwfStrategyID config) end.

Definition limited (combos : list combination) : list combination :=
  if Z.ltb 0 (MaxCombinations config) && Z.ltb (MaxCombinations config) (Z.of_nat (length combos))
  then take (Z.to_nat (MaxCombinations config)) combos else combos.

(** The default parameters on the test window. *)
Definition anchor (w : WalkForwardWindow) (e : engine) : float64 * bool * engine :=
  let '(r, e) := runEngine e (onTest (Config config) w) in
  match r with
  | Some r => (SharpeRatio r, passed r, e)
  | None => (noScore, false, e)
  end.

(** The result of a window: the in-sample figure is the score of the best combination. *)
Definition testedWindow (wi : nat) (w : WalkForwardWindow) (score : float64) (warning : bool) (anchorOOSSharpe : float64)
    (anchorPassed : bool) (r : BacktestResult) : WindowResult :=
  mkWindowResult (S wi) (TrainStart w) (TestStart w) (TestEnd w) score (SharpeRatio r) 0 (WinRate r) (TotalReturnPct r)
    (MaxDrawdown r) 0 (NumTrades r) (passed r) warning anchorOOSSharpe anchorPassed.

Definition optimizeWindow (e : engine) (wi : nat) (w : WalkForwardWindow) : search (windowOutcome * engine) :=
  fuelled (GenerateAllCombinations fuel (default ∅ spaceOf)) (fun combos =>
    let '(anchorOOSSharpe, anchorPassed, e) := anchor w e in
    let '(scores, e) := evaluateISCombinations config w e (limited combos) (finished wi) in
    match ranked scores with
    | [] => Found (mkWindowOutcome None None None, e)
    | (first :: _) as allScores =>
        let best := Some (Params first) in
        let robust := if Enabled (OwfIVS config)
                      then match RunIVS allScores (default ∅ spaceOf) (OwfIVS config) with
                           | (Some p, true) => Some p
                           | _ => None
                           end
                      else None in
        let selected := match robust with Some p => Some p | None => best end in
        let '(r, e) := outOfSample config w selected best robust e in
        Found (mkWindowOutcome best robust
          (testedWindow wi w (Score first) (Score first <=? scoreThreshold allScores) anchorOOSSharpe anchorPassed <$> r), e)
    end).

Fixpoint optimizeWindows (e : engine) (wi : nat) (ws : list WalkForwardWindow) : search (list windowOutcome * engine) :=
  match ws with
  | [] => Found ([], e)
  | w :: ws =>
      match optimizeWindow e wi w with
      | Found (o, e) =>
          match optimizeWindows e (S wi) ws with
          | Found (os, e) => Found (o :: os, e)
          | Endless => Endless
          | Panicked => Panicked
          end
      | Endless => Endless
      | Panicked => Panicked
      end
  end.

(** The averages over the windows that have a result. *)
Definition summarise (total : nat) (windows : list WindowResult) : WalkForwardResult :=
  let passedWindows := countBy PassedCompliance windows in
  let totalIS := sumBy InSampleSharpe windows in
  let totalOOS := sumBy OutSampleSharpe windows in
  let totalAnchor := fold_left (fun s w => if - 1e8 <? AnchorOOSSharpe w then s + AnchorOOSSharpe w else s) windows 0 in
  match windows with
  | [] => mkWalkResult [] 0 0 0 0 passedWindows (Z.of_nat total) 0 0 0
  | _ =>
      let overall := totalIS / count windows in
      let avgOOS := totalOOS / count windows in
      mkWalkResult windows overall 0 0 0 passedWindows (Z.of_nat total) avgOOS
        (if 0 <? overall then (overall - avgOOS) / overall * 100 else 0) (totalAnchor / count windows)
  end.

Definition RunOptimizedWalkForward (e : engine) : search (OptimizedWalkForwardResult * engine) :=
  match GenerateWalkForwardWindows wfuel (windowing config) with
  | None => Endless
  | Some [] => Found (mkOptimized (mkWalkResult [] 0 0 0 0 0 0 0 0 0) [] [] false, e)
  | Some windows =>
      match optimizeWindows e 0 windows with
      | Found (os, e) =>
          Found (mkOptimized (summarise (length windows) (omap oResult os)) (map oBest os) (map oRobust os)
                   (Enabled (OwfIVS config)), e)
      | Endless => Endless
      | Panicked => Panicked
      end
  end.
End Optimized.
End Walk.
Arguments Endless {A}.
Arguments Panicked {A}.
Arguments Found {A} _.

(** ** What is promoted *)
Definition hasMultiplicityWarning (r : OptimizedWalkForwardResult) : bool := existsb MultiplicityWarning (Windows r).

(** The index of the result with the highest out-of-sample Sharpe ratio. *)
Definition bestIndex (ws : list WindowResult) : nat :=
  fold_left (fun best i =>
    match ws !! i, ws !! best with
    | Some a, Some b => if OutSampleSharpe b <? OutSampleSharpe a then i else best
    | _, _ => best
    end) (seq 1 (pred (length ws))) O.

(** [encodeWfBestParams] and [persistWalkForwardParams], before the encoding. *)
Definition promotedParams (r : option OptimizedWalkForwardResult) : option combination :=
  r ← r;
  match Windows (Walk r) with
  | [] => None
  | ws =>
      let bestIdx := bestIndex ws in
      match IVSRobustParamsPerWindow r !! bestIdx with
      | Some (Some p) => Some p
      | _ => default None (BestParamsPerWindow r !! bestIdx)
      end
  end.

(** ** The callers' configurations *)
Definition NewOptimizedWalkForwardConfig (base : RunConfig) (strategyID : string) :
    OptimizedWalkForwardConfig :=
  mkOWF (mkWalk base (mkWF 0 0 3 1 1 6 5 2)) strategyID (DefaultSearchSpace strategyID) ObjectiveComposite
    (<[ObjectiveSharpe := 0.5]> (<[ObjectiveMinDD := 0.3]> (<[ObjectiveProfitFactor := 0.2]> ∅))) 200 DefaultIVSConfig.

(** ** The parallel search *)
Section ParallelLaws.
Context {B : Backtests}.
Variable config : OptimizedWalkForwardConfig.
Variable w : WalkForwardWindow.

Lemma imap_seq {A C} (f : nat -> C) (l : list A) : imap (fun i _ => f i) l = map f (seq 0 (length l)).
Proof.
  revert f. induction l as [|x l IH]; intros f; [done|]. cbn [length seq map]. rewrite imap_cons. f_equal.
  rewrite <- seq_shift, map_map. apply (IH (f ∘ S)).
Qed.

Lemma omap_id_map {A C} (f : A -> option C) (p : A -> bool) (l : list A) :
  omap id (map (fun i => if p i then f i else None) l) = omap f (List.filter p l).
Proof.
  induction l as [|x l IH]; [done|]. cbn. destruct (p x); cbn; [|done]. destruct (f x); cbn; [by f_equal|done].
Qed.

(** The entries once the goroutines in [finished] are done. *)
Lemma entries_after e combos finished (all : list (option ParamScore)) :
  Forall (fun i => (i < length all)%nat) finished ->
  fold_left (fun all idx => match scoreOf config w e combos idx with
                            | Some s => <[idx := Some s]> all
                            | None => all
                            end) finished all =
  imap (fun i old => if bool_decide (i ∈ finished) then
                       match scoreOf config w e combos i with Some s => Some s | None => old end else old) all.
Proof.
  revert all. induction finished as [|k finished IH]; intros all F.
  - cbn [fold_left]. apply list_eq. intros i. rewrite list_lookup_imap. destruct (all !! i) as [x|]; [|done]. cbn.
    by rewrite bool_decide_eq_false_2 by apply not_elem_of_nil.
  - inversion F as [|? ? L F']; subst. cbn [fold_left]. rewrite IH.
    2: { destruct (scoreOf _ _ _ _ k); [|done]. by rewrite length_insert. }
    apply list_eq. intros i. rewrite !list_lookup_imap. destruct (decide (i = k)) as [->|N].
    + rewrite (bool_decide_eq_true_2 (k ∈ k :: finished)) by left. destruct (scoreOf _ _ _ _ k) as [s|] eqn:E.
      * rewrite list_lookup_insert_eq by done. destruct (lookup_lt_is_Some_2 all k L) as [x ->]. cbn.
        by destruct (bool_decide _).
      * destruct (all !! k); cbn; [|done]. by destruct (bool_decide _).
    + assert (X : bool_decide (i ∈ k :: finished) = bool_decide (i ∈ finished))
        by (apply bool_decide_ext; rewrite elem_of_cons; tauto).
      rewrite X. destruct (scoreOf _ _ _ _ k) as [s|]; [|done]. by rewrite list_lookup_insert_ne.
Qed.

(** C27: the parallel search does not depend on the scheduler.  Whatever combinations'
    goroutines get to run and in whatever order they finish, the scores are those of the
    combinations that ran, in the order of the enumeration; each is the objective of a run
    of a fresh engine on the train window with the combination's parameters. *)
Theorem parallel_search_schedule_free e combos finished :
  Forall (fun i => (i < length combos)%nat) finished ->
  evaluateInParallel config w e combos finished =
    omap (scoreOf config w e combos) (List.filter (fun i => bool_decide (i ∈ finished)) (seq 0 (length combos))) /\
  forall s, s ∈ evaluateInParallel config w e combos finished ->
    exists idx r, idx ∈ finished /\ combos !! idx = Some (Params s) /\
      (runEngine (NewEngine e idx) (trainCfg config w (Params s))).1 = Some r /\ Score s = objective config r.
Proof.
  intros F. assert (E : evaluateInParallel config w e combos finished =
    omap (scoreOf config w e combos) (List.filter (fun i => bool_decide (i ∈ finished)) (seq 0 (length combos)))).
  { unfold evaluateInParallel. rewrite entries_after by by rewrite length_replicate.
    rewrite <- omap_id_map. f_equal. transitivity (imap (fun i _ => if bool_decide (i ∈ finished) then scoreOf config w e combos i else None)
      (replicate (length combos) (@None ParamScore))).
    - apply list_eq. intros i. rewrite !list_lookup_imap.
      destruct (replicate (length combos) None !! i) as [x|] eqn:R; [|done]. apply lookup_replicate in R as [-> _]. cbn.
      destruct (bool_decide _); [by destruct (scoreOf _ _ _ _ i)|done].
    - rewrite (imap_seq (fun i => if bool_decide (i ∈ finished) then scoreOf config w e combos i else None)).
      by rewrite length_replicate. }
  split; [done|]. rewrite E. intros s (idx & Hi & Hs)%list_elem_of_omap.
  apply list_elem_of_In, filter_In in Hi as [_ Hi%bool_decide_eq_true].
  unfold scoreOf in Hs. destruct (combos !! idx) as [p|] eqn:C; [|done]. cbn in Hs.
  destruct (runEngine _ _).1 as [r|] eqn:R; [|done]. injection Hs as <-. by exists idx, r.
Qed.
End ParallelLaws.

(** ** The windows of a result *)
Lemma bestIndex_spec ws :
  ws <> [] ->
  exists b, ws !! bestIndex ws = Some b /\ forall w, w ∈ ws -> (OutSampleSharpe b <? OutSampleSharpe w) = false.
Proof.
  intros N. unfold bestIndex. set (f := fun best i => _).
  assert (H : forall n, (0 < n <= length ws)%nat ->
    exists b, ws !! fold_left f (seq 1 (pred n)) O = Some b /\
      forall j w, (j < n)%nat -> ws !! j = Some w -> (OutSampleSharpe b <? OutSampleSharpe w) = false).
  { induction n as [|n IH]; intros L; [lia|]. cbn [pred]. destruct n as [|n].
    - destruct (lookup_lt_is_Some_2 ws 0) as [b E]; [lia|]. exists b. split; [done|]. intros [|j] w J W; [|lia].
      rewrite E in W. injection W as <-. apply ltb_irrefl.
    - destruct IH as (b & E & U); [lia|]. cbn [pred] in E.
      rewrite seq_S, fold_left_app. cbn [fold_left Nat.add]. set (k := fold_left f (seq 1 n) O) in *. unfold f.
      destruct (lookup_lt_is_Some_2 ws (S n)) as [a A]; [lia|]. rewrite A, E. destruct (_ <? _) eqn:C.
      + exists a. split; [done|]. intros j w J W. destruct (decide (j = S n)) as [->|Nj].
        * rewrite A in W. injection W as <-. apply ltb_irrefl.
        * destruct (OutSampleSharpe a <? OutSampleSharpe w) eqn:D; [|done].
          pose proof (ltb_trans _ _ _ C D) as X. by rewrite (U j w ltac:(lia) W) in X.
      + exists b. split; [done|]. intros j w J W. destruct (decide (j = S n)) as [->|Nj].
        * congruence.
        * apply (U j w); [lia|done]. }
  destruct (H (length ws)) as (b & E & U); [destruct ws; [done|cbn; lia]|]. exists b. split; [done|].
  intros w (j & J)%list_elem_of_lookup. apply (U j w); [by apply lookup_lt_Some in J|done].
Qed.

Section RunLaws.
Context {B : Backtests} {SL : SortSlice}.
Variable config : OptimizedWalkForwardConfig.
Variable wfuel fuel : nat.
Variable finished : nat -> list nat.

(** A window's result carries its number and its dates, and it was searched. *)
Definition window_from (wi : nat) (w : WalkForwardWindow) (o : windowOutcome) : Prop :=
  match oResult o with
  | Some r => WindowNo r = S wi /\ WTestStart r = TestStart w /\ WTestEnd r = TestEnd w /\ WTrainStart r = TrainStart w /\
              is_Some (oBest o) /\ OutSampleSortino r = 0
  | None => True
  end.

Lemma optimize_window e wi w o e' :
  optimizeWindow config fuel finished e wi w = Found (o, e') -> window_from wi w o.
Proof.
  unfold optimizeWindow, fuelled. destruct (GenerateAllCombinations _ _) as [[| |combos]|]; try done.
  destruct (anchor config w e) as [[sh pa] e1]. destruct (evaluateISCombinations _ _ _ _ _) as [scores e2].
  destruct (ranked scores) as [|first l]; [by intros [= <- _]|].
  destruct (outOfSample _ _ _ _ _ _) as [r e3]. intros [= <- _]. unfold window_from. cbn [oResult oBest].
  destruct r as [r|]; [|done]. cbn. by split_and!.
Qed.

Lemma optimize_windows ws : forall e wi os e',
  optimizeWindows config fuel finished e wi ws = Found (os, e') ->
  length os = length ws /\ forall i w o, ws !! i = Some w -> os !! i = Some o -> window_from (wi + i) w o.
Proof.
  induction ws as [|w ws IH]; intros e wi os e'; cbn [optimizeWindows]; [by intros [= <- _]|].
  destruct (optimizeWindow _ _ _ e wi w) as [| |[o e1]] eqn:O; try done.
  destruct (optimizeWindows _ _ _ e1 (S wi) ws) as [| |[os1 e2]] eqn:E; try done. intros [= <- <-].
  destruct (IH _ _ _ _ E) as [L H]. split; [cbn; by rewrite L|]. intros [|i] w' o' W' O'; cbn in W', O'.
  - injection W' as <-. injection O' as <-. rewrite Nat.add_0_r. by eapply optimize_window.
  - rewrite Nat.add_succ_r. by apply (H i).
Qed.

(** The parts of a result. *)
Definition composed (r : OptimizedWalkForwardResult) (windows : list WalkForwardWindow) (os : list windowOutcome) : Prop :=
  Windows r = omap oResult os /\ BestParamsPerWindow r = map oBest os /\ IVSRobustParamsPerWindow r = map oRobust os /\
  TotalWindows r = Z.of_nat (length windows) /\ length os = length windows /\
  (forall i w o, windows !! i = Some w -> os !! i = Some o -> window_from i w o) /\
  WfProfitFactor r = 0 /\ PassedWindows r = countBy PassedCompliance (Windows r).

Lemma summarise_parts n ws :
  Windows (summarise n ws) = ws /\ TotalWindows (summarise n ws) = Z.of_nat n /\ WfProfitFactor (summarise n ws) = 0 /\
  PassedWindows (summarise n ws) = countBy PassedCompliance ws.
Proof. by destruct ws. Qed.

Lemma run_composed e r e' :
  RunOptimizedWalkForward config wfuel fuel finished e = Found (r, e') ->
  exists windows os, GenerateWalkForwardWindows wfuel (windowing config) = Some windows /\ composed r windows os.
Proof.
  unfold RunOptimizedWalkForward. destruct (GenerateWalkForwardWindows _ _) as [[|w ws]|]; try done.
  - intros [= <- _]. exists [], []. split; [done|]. by repeat split.
  - destruct (optimizeWindows _ _ _ _ _ _) as [| |[os e1]] eqn:O; try done. intros [= <- _].
    apply optimize_windows in O as [L H]. exists (w :: ws), os. split; [done|].
    destruct (summarise_parts (length (w :: ws)) (omap oResult os)) as (A & T & P & C).
    unfold composed. cbn [Walk BestParamsPerWindow IVSRobustParamsPerWindow]. change (S (length ws)) with (length (w :: ws)).
    by rewrite C, A, T, P.
Qed.

Lemma omap_all_some {A C} (f : A -> option C) l : length (omap f l) = length l -> forall i x, l !! i = Some x ->
  exists y, f x = Some y /\ omap f l !! i = Some y.
Proof.
  induction l as [|a l IH]; intros L i x H; [done|]. cbn in L. pose proof (omap_length f l) as U.
  destruct (f a) as [c|] eqn:E; cbn in L; [|lia]. destruct i as [|i]; cbn in H.
  - injection H as <-. exists c. split; [done|]. cbn. by rewrite E.
  - destruct (IH ltac:(lia) i x H) as (y & Y & Z). exists y. split; [done|]. cbn. by rewrite E.
Qed.

Lemma promoted_at r :
  Windows (Walk r) <> [] ->
  promotedParams (Some r) = match IVSRobustParamsPerWindow r !! bestIndex (Windows r) with
                            | Some (Some p) => Some p
                            | _ => default None (BestParamsPerWindow r !! bestIndex (Windows r))
                            end.
Proof. unfold promotedParams. cbn [mbind option_bind]. by destruct (Windows r). Qed.

(** What is promoted.  A result's windows are windows of the configuration, in their
    order, with their dates; there are no more of them than windows.  If every window has a
    result, the promoted parameters are those of the window whose out-of-sample Sharpe
    ratio no other exceeds: its plateau's if the search found one, its best otherwise. *)
Theorem promoted_params_of_best_window e r e' :
  RunOptimizedWalkForward config wfuel fuel finished e = Found (r, e') ->
  Windows r <> [] -> Z.of_nat (length (Windows r)) = TotalWindows r ->
  exists i w p, Windows r !! i = Some w /\ WindowNo w = S i /\ promotedParams (Some r) = Some p /\
    (IVSRobustParamsPerWindow r !! i = Some (Some p) \/
     IVSRobustParamsPerWindow r !! i = Some None /\ BestParamsPerWindow r !! i = Some (Some p)) /\
    forall w', w' ∈ Windows r -> (OutSampleSharpe w <? OutSampleSharpe w') = false.
Proof.
  intros R N L. destruct (run_composed _ _ _ R) as (windows & os & _ & W & Be & Ro & T & Lo & F & _).
  destruct (bestIndex_spec (Windows r) N) as (w & Hw & U). set (i := bestIndex (Windows r)) in *.
  rewrite T in L. assert (Len : length (omap oResult os) = length os) by (rewrite <- W; lia).
  assert (I : (i < length os)%nat) by (apply lookup_lt_Some in Hw; rewrite W in Hw; lia).
  destruct (lookup_lt_is_Some_2 os i I) as [o Ho]. destruct (omap_all_some _ _ Len i o Ho) as (y & Y & Hy).
  rewrite <- W, Hw in Hy. injection Hy as <-. destruct (lookup_lt_is_Some_2 windows i ltac:(lia)) as [v Hv].
  pose proof (F i v o Hv Ho) as P. unfold window_from in P. rewrite Y in P. destruct P as (No & _ & _ & _ & [p Bp] & _).
  exists i, w. rewrite (promoted_at r N). fold i. clearbody i. rewrite Ro, Be, !MonteCarlo.map_lookup, Ho. cbn [fmap option_fmap option_map].
  destruct (oRobust o) as [q|] eqn:Q; [exists q|exists p]; (split; [done|split; [done|]]).
  - split; [done|]. split; [by left|done].
  - rewrite Bp. split; [done|]. split; [by right|done].
Qed.
End RunLaws.

(** ** Examples *)

(** A result with thirty trades and a Sharpe ratio. *)
Definition sharpeResult (cfg : RunConfig) (sharpe : float64) : BacktestResult :=
  mkResult cfg (zeroMetrics <| SharpeRatio := sharpe |>) [] [] [] [] 30 0 0 0 0 0 0 0 noSide noSide None None ∅ zeroDiag
    0 zeroTime zeroTime "" 0 0.

(** Nothing in the first period; in the second [a = 1] does better, in the third [a = 2]. *)
Definition periods : Backtests := {|
  engine := unit;
  hasDB _ := false;
  NewEngine e _ := e;
  runEngine e cfg :=
    let a := mget 0 (StrategyParams cfg) "a" in
    (if Z.eqb (RunStart cfg) 0 then None
     else Some (sharpeResult cfg (if Z.eqb (RunStart cfg) (252 * day) then (if a =? 1 then 2 else 1)
                                  else if Z.eqb (RunStart cfg) (504 * day) then (if a =? 2 then 2 else 1) else 3)), e)
|}.

Definition emptyConfig : BacktestConfig :=
  mkConfig "demo" ["X"%string] 100000 None 5.0 Fills.DefaultBrokerageFee false None None false ∅ 7 0.02 0.25 0 [] None
    false true.

Definition periodConfig (from : Z) : OptimizedWalkForwardConfig :=
  mkOWF (mkWalk (mkRun emptyConfig from (1008 * day) "1d" "" false "") (mkWF 0 0 0 1 1 12 0 0)) "demo"
    (Some {["a" := continuous "a" 1 2 1 None]}) ObjectiveSharpe ∅ 200 DefaultIVSConfig.

Definition periodRun (from : Z) :=
  RunOptimizedWalkForward (B := periods) (periodConfig from) 10 10 (fun _ => []) tt.

Definition periodResult (from : Z) : OptimizedWalkForwardResult :=
  match periodRun from with
  | Found (r, _) => r
  | _ => mkOptimized (mkWalkResult [] 0 0 0 0 0 0 0 0 0) [] [] false
  end.

(** Three combinations over the second period, finished in another order. *)
Definition secondPeriod : WalkForwardWindow := mkWindow (252 * day) (504 * day) (504 * day) (756 * day).
Definition threeCombos : list combination := [{["a" := 1]}; {["a" := 2]}; {["a" := 3]}].

Lemma parallel_search_schedule_free_witness :
  evaluateInParallel (B := periods) (periodConfig 0) secondPeriod tt threeCombos [2; 0]%nat =
  evaluateInParallel (B := periods) (periodConfig 0) secondPeriod tt threeCombos [0; 2]%nat.
Proof.
  destruct (parallel_search_schedule_free (B := periods) (periodConfig 0) secondPeriod tt threeCombos [2; 0]%nat) as [E _];
    [repeat constructor|].
  destruct (parallel_search_schedule_free (B := periods) (periodConfig 0) secondPeriod tt threeCombos [0; 2]%nat) as [E' _];
    [repeat constructor|].
  rewrite E, E'. vm_compute. reflexivity.
Defined.

(** Over the second and third period the parameters of the better one are promoted. *)
Lemma promoted_params_of_best_window_witness :
  promotedParams (Some (periodResult (252 * day))) = Some {["a" := 2]} /\
  exists i w p, Windows (periodResult (252 * day)) !! i = Some w /\ WindowNo w = S i /\
    promotedParams (Some (periodResult (252 * day))) = Some p.
Proof.
  split; [vm_compute; reflexivity|].
  destruct (promoted_params_of_best_window (B := periods)
    (periodConfig (252 * day)) 10 10 (fun _ => []) tt (periodResult (252 * day)) tt) as (i & w & p & A & C & D & _).
  - vm_compute. reflexivity.
  - vm_compute. discriminate.
  - vm_compute. reflexivity.
  - exists i, w, p. exact (conj A (conj C D)).
Defined.

(** With the first period the windows are one ahead of their parameters: the second result is
    the best, it is that of window 3, and the parameters of window 2 are promoted. *)
Lemma promoted_params_of_another_window :
  map WindowNo (Windows (periodResult 0)) = [2; 3]%nat /\ bestIndex (Windows (periodResult 0)) = 1%nat /\
  BestParamsPerWindow (periodResult 0) = [None; Some {["a" := 1]}; Some {["a" := 2]}] /\
  promotedParams (Some (periodResult 0)) = Some {["a" := 1]}.
Proof. split_and!; vm_compute; reflexivity. Qed.

(** The optimiser does not start.  With the configuration every caller but the API
    builds, for every registered strategy, any engine and any run configuration that has a
    window, the walk-forward is still enumerating parameters after a thousand million
    combinations, before it has run anything: its budget of 200 is a cut of the finished
    enumeration. *)
Theorem default_optimizer_never_starts {B : Backtests} {SL : SortSlice} base wfuel fuel finished e :
  (Z.of_nat fuel <= 10 ^ 9)%Z ->
  Forall (fun name =>
    forall w ws, GenerateWalkForwardWindows wfuel (windowing (NewOptimizedWalkForwardConfig base name)) = Some (w :: ws) ->
      RunOptimizedWalkForward (NewOptimizedWalkForwardConfig base name) wfuel fuel finished e = Endless) factoryNames.
Proof.
  intros F. eapply list.Forall_impl; [exact (default_space_large fuel F)|]. intros name (s & E & R) w ws W.
  unfold RunOptimizedWalkForward. rewrite W. cbn [optimizeWindows]. unfold optimizeWindow.
  replace (default ∅ (spaceOf (NewOptimizedWalkForwardConfig base name))) with s
    by (unfold spaceOf, NewOptimizedWalkForwardConfig; cbn [OwfSpace]; by rewrite E).
  by rewrite R.
Qed.

Lemma default_optimizer_never_starts_witness :
  Forall (fun name =>
    forall w ws, GenerateWalkForwardWindows 10 (windowing (NewOptimizedWalkForwardConfig (Config (periodConfig 0)) name)) = Some (w :: ws) ->
      RunOptimizedWalkForward (B := periods) (NewOptimizedWalkForwardConfig (Config (periodConfig 0)) name) 10 1000 (fun _ => []) tt = Endless)
    factoryNames.
Proof. apply (default_optimizer_never_starts (B := periods)). vm_compute. discriminate. Defined.
