(* ===== verification/Jobs.v ===== *)
(** * Validation jobs ([internal/backtest/job_runner.go], multi_metric_gate.go,
      [internal/api/router.go], backtest_metrics_handler.go)

    A job runs, for each strategy, the optimised walk-forward, the Monte Carlo simulation
    over its windows and the promotion verdict.  The worker is the list of its writes to
    the job; [CancelJob] is one more write, at any point between them. *)
From Stdlib Require Import ZArith Lia Bool Floats Sorted.
From coqutil Require Import RecordSettersUsingExistingGetters.
From S2P Require Import Prelude Float64 FloatRound FloatLaws WalkForward Live Strategies Params Trade Engine Metrics Enforcer.
From S2P Require Import Indicators Runner Results SearchSpace Ivs OptimizedWalk.
From S2P Require MonteCarlo.
Local Open Scope float_scope.
Local Open Scope go_scope.

(** ** The verdict on a walk-forward ([EvaluateOOSMultiMetric]) *)
Definition worstDrawdown (ws : list WindowResult) : float64 :=
  fold_left (fun worst w => if worst <? OOSMaxDD w then OOSMaxDD w else worst) ws 0.

Definition oosTrades (ws : list WindowResult) : Z := fold_left (fun n w => n + OOSTrades w)%Z ws 0%Z.

(** [owr] is nil or a result, of which only the embedded walk-forward is read. *)
Definition EvaluateOOSMultiMetric (owr : option WalkForwardResult) (mcResult : option MonteCarlo.MCResult)
    (standard : MultiMetricStandard) : MultiMetricVerdict :=
  match owr with
  | None => noData "walk_forward_data"
  | Some owr =>
      match Windows owr with
      | [] => noData "walk_forward_data"
      | ws =>
          conclude
            ([atLeast "oos_sharpe_ratio" (MinSharpeRatio standard) (sumBy OutSampleSharpe ws / count ws);
              atMost "max_drawdown_pct" (MaxDrawdownPct standard) (worstDrawdown ws);
              atLeast "pass_probability_pct" (MinPassProbPct standard)
                (match mcResult with Some r => MonteCarlo.PassProbability r | None => 0 end);
              atLeast "profit_factor" (MinProfitFactor standard) (WfProfitFactor owr);
              enough "min_trades" (MinNumTrades standard) (oosTrades ws)] ++
             (if 0 <? MinSortinoRatio standard
              then [atLeast "sortino_ratio" (MinSortinoRatio standard) (sumBy OutSampleSortino ws / count ws)] else []) ++
             (if (0 <? MaxSharpeDegradation standard) && (0 <? SharpeDegradation owr)
              then [atMost "sharpe_degradation_pct" (MaxSharpeDegradation standard) (SharpeDegradation owr)] else []))
      end
  end.

(** ** The walk-forward request of the API *)

(** The result the handler rebuilds for its verdict. *)
Definition rebuilt (result : OptimizedWalkForwardResult) : WalkForwardResult :=
  mkWalkResult (Windows result) (OverallSharpe result) 0 0 0 (PassedWindows result) (TotalWindows result)
    (AvgOOSSharpe result) (SharpeDegradation result) 0.

Definition noTrade : Trade := mkTrade "" "" 0 0 0 zeroTime zeroTime 0 0 0 "" 0 0 "" false 0 0 0 0 0 false 0 0 [] 0 0.

Definition emptyVerdict : MultiMetricVerdict := mkMulti false [] 0 0.

Section Api.
Context {SL : SortSlice} {G : MonteCarlo.PCG}.
Variable schedule : list (Z * MonteCarlo.MCIterationResult) -> list (Z * MonteCarlo.MCIterationResult).

Definition walkForwardVerdict (result : OptimizedWalkForwardResult) (capital : float64) (now : Z) :
    option MonteCarlo.MCResult * MultiMetricVerdict :=
  if AvgOOSSharpe result =? 0 then (None, emptyVerdict)
  else
    let trades := map (fun w => noTrade <| TPnLPct := OOSReturnPct w |>) (Windows result) in
    let mcResult := if (1 <? length trades)%nat then MonteCarlo.RunMonteCarloFromTrades schedule trades 1000 capital now else None in
    (mcResult, EvaluateOOSMultiMetric (Some (rebuilt result)) mcResult DefaultMultiMetricStandard).
End Api.

(** ** Jobs *)
Record ValidationJobConfig := mkJobConfig {
  JobID : string; StrategyIDs : list string; JobSymbols : list string; JobStart : Z; JobEnd : Z;
  JobCapital : float64; IVSEnabled : bool; Simulations : Z
}.

Inductive ValidationStage := StagePreflight | StageBacktest | StageMonteCarlo | StageVerdict | StageComplete.

(** The errors of a strategy's pipeline and of the preflight check. *)
Inductive jobError := NoMonteCarlo | NotConnected | NoEngine | NoCandles | Synthetic (n : Z) | PreflightFailed.

Record JobProgress := mkProgress { Progress : Z; Stage : ValidationStage; Status : string; JobErrors : list jobError }.

Record StrategyPipelineResult := mkPipelineResult {
  SprStrategyID : string; SprWalkForward : option WalkForwardResult; SprMonteCarlo : option MonteCarlo.MCResult;
  SprMultiMetric : option MultiMetricVerdict; SprBestParams : option combination; SprError : option jobError
}.

Record PipelineSummary := mkPipelineSummary { SumPassed : Z; SumFailed : Z; SumTotal : Z }.

Record PipelineResult := mkPipeline { PrStrategies : list StrategyPipelineResult; PrSummary : PipelineSummary }.

Record RunningJob := mkJob { JConfig : ValidationJobConfig; JProgress : JobProgress; JResult : option PipelineResult }.

(** [StartJob], before its goroutine. *)
Definition StartJob (config : ValidationJobConfig) : RunningJob :=
  mkJob config (mkProgress 0 StagePreflight "running" []) None.

Definition CancelJob (job : RunningJob) : RunningJob :=
  mkJob (JConfig job) ((JProgress job) <| Status := "cancelled"%string |> <| Stage := StageComplete |>) (JResult job).

(** A write of the worker; [Callback] sends the progress as it is. *)
Inductive write :=
  | SetProgress (n : Z) | SetStage (s : ValidationStage) | SetStatus (s : string) | SetErrors (l : list jobError)
  | SetResult (r : PipelineResult) | Callback.

Definition apply (job : RunningJob) (w : write) : RunningJob :=
  let '(mkJob cfg p r) := job in
  match w with
  | SetProgress n => mkJob cfg (p <| Progress := n |>) r
  | SetStage s => mkJob cfg (p <| Stage := s |>) r
  | SetStatus s => mkJob cfg (p <| Status := s |>) r
  | SetErrors l => mkJob cfg (p <| JobErrors := l |>) r
  | SetResult x => mkJob cfg p (Some x)
  | Callback => job
  end.

Definition run (job : RunningJob) (ws : list write) : RunningJob := fold_left apply ws job.

(** What the callbacks send. *)
Fixpoint sent (job : RunningJob) (ws : list write) : list JobProgress :=
  match ws with
  | [] => []
  | Callback :: ws => JProgress job :: sent job ws
  | w :: ws => sent (apply job w) ws
  end.

(** The database as the preflight sees it: the candles ([None]: an error), the synthetic
    ones; the regime logs are counted and not used. *)
Record Database := mkDatabase { CountCandles : option Z; CountSyntheticCandles : option Z }.

(** [None]: a nil engine; [Some None]: an engine without a database.  [inl]: the errors. *)
Definition preflight (db : option (option Database)) : list jobError + unit :=
  let '(connected, candles, synthetic, errors) :=
    match db with
    | Some (Some d) =>
        (bool_decide (is_Some (CountCandles d)), default 0%Z (CountCandles d), default 0%Z (CountSyntheticCandles d),
         match CountCandles d with Some _ => [] | None => [NotConnected] end)
    | _ => (false, 0%Z, 0%Z, [])
    end in
  let ready := match db with Some _ => true | None => false end in
  let errors := errors ++ (if ready then [] else [NoEngine]) ++
                (if connected && Z.eqb candles 0 then [NoCandles] else []) ++
                (if Z.ltb 0 synthetic then [Synthetic synthetic] else []) in
  if connected && ready && Z.ltb 0 candles && Z.eqb synthetic 0 then inr ()
  else inl (match errors with [] => [PreflightFailed] | _ => errors end).

Definition DefaultOptimizedWalkForwardConfig (strategyID : string) (symbols : list string) (startDate endDate : Z)
    (initialCapital : float64) : OptimizedWalkForwardConfig :=
  let base := mkConfig strategyID symbols initialCapital None 0 (Fills.mkFee 0 0 0 0 0 0 false) false None None false ∅ 0 0 0 0 []
                None false false in
  let cfg := NewOptimizedWalkForwardConfig (mkRun base startDate endDate "" "" false "") strategyID in
  mkOWF (mkWalk (Config cfg) (mkWF 0 0 5 1 1 3 5 2)) (OwfStrategyID cfg) (OwfSpace cfg) (ObjectiveType cfg)
    (ObjectiveWeights cfg) (MaxCombinations cfg) (OwfIVS cfg).

Section Worker.
Context {B : Backtests} {SL : SortSlice} {G : MonteCarlo.PCG}.
Variable schedule : list (Z * MonteCarlo.MCIterationResult) -> list (Z * MonteCarlo.MCIterationResult).
Variable finished : nat -> list nat.
Variable wfuel fuel : nat.
(** [time.Now()], the seed of the simulation. *)
Variable now : Z.

Definition walkConfig (config : ValidationJobConfig) (strategyID : string) : OptimizedWalkForwardConfig :=
  let c := DefaultOptimizedWalkForwardConfig strategyID (JobSymbols config) (JobStart config) (JobEnd config) (JobCapital config) in
  mkOWF (OwfWalk c) (OwfStrategyID c) (OwfSpace c) (ObjectiveType c) (ObjectiveWeights c) (MaxCombinations c)
    (mkIVS (IVSEnabled config) (NeighborRadius DefaultIVSConfig) (PlateauThreshold DefaultIVSConfig) (ScoreThresholdPct DefaultIVSConfig)).

(** The last window's entry; the second list is read when the first is empty. *)
Definition lastParams (r : OptimizedWalkForwardResult) : option combination :=
  match IVSRobustParamsPerWindow r with
  | [] => List.last (BestParamsPerWindow r) None
  | l => List.last l None
  end.

(** The result of a strategy, and the progress its callbacks report. *)
Definition executeStrategyPipeline (config : ValidationJobConfig) (e : engine) (strategyID : string) :
    search (StrategyPipelineResult * list (Z * ValidationStage) * engine) :=
  match RunOptimizedWalkForward (walkConfig config strategyID) wfuel fuel finished e with
  | Endless => Endless
  | Panicked => Panicked
  | Found (owf, e) =>
      let trades := map (fun w => noTrade <| TPnL := OOSReturnPct w |>) (Windows owf) in
      Found
        match MonteCarlo.RunMonteCarloFromTrades schedule trades (Simulations config) (JobCapital config) now with
        | None =>
            (mkPipelineResult strategyID (Some (Walk owf)) None None (lastParams owf) (Some NoMonteCarlo),
             [(25, StageBacktest); (50, StageMonteCarlo)]%Z, e)
        | Some mc =>
            (mkPipelineResult strategyID (Some (Walk owf)) (Some mc)
               (Some (EvaluateOOSMultiMetric (Some (Walk owf)) (Some mc) DefaultMultiMetricStandard)) (lastParams owf) None,
             [(25, StageBacktest); (50, StageMonteCarlo); (75, StageVerdict); (100, StageComplete)]%Z, e)
        end
  end.

Definition reportStage (stratProgress perStrat : Z) (c : Z * ValidationStage) : list write :=
  let p := (stratProgress + Z.quot (c.1 * perStrat) 400)%Z in
  let p := if Z.ltb (stratProgress + perStrat) p then (stratProgress + perStrat - 1)%Z else p in
  [SetProgress p; SetStage c.2; Callback].

Fixpoint executeStrategies (config : ValidationJobConfig) (perStrat : Z) (i : Z) (e : engine) (ids : list string) :
    search (list StrategyPipelineResult * list write * engine) :=
  match ids with
  | [] => Found ([], [], e)
  | id :: ids =>
      let stratProgress := (10 + i * perStrat)%Z in
      match executeStrategyPipeline config e id with
      | Endless => Endless
      | Panicked => Panicked
      | Found (r, callbacks, e) =>
          match executeStrategies config perStrat (i + 1) e ids with
          | Endless => Endless
          | Panicked => Panicked
          | Found (rs, ws, e) =>
              Found (r :: rs, [SetProgress stratProgress; SetStage StageBacktest; Callback] ++
                              flat_map (reportStage stratProgress perStrat) callbacks ++ ws, e)
          end
      end
  end.

Definition strategyPassed (r : StrategyPipelineResult) : bool :=
  match SprMultiMetric r with Some v => VerdictPassed v | None => false end.

Definition summary (rs : list StrategyPipelineResult) : PipelineSummary :=
  mkPipelineSummary (countBy strategyPassed rs) (countBy (fun r => negb (strategyPassed r)) rs) (Z.of_nat (length rs)).

(** The writes of a job's worker. *)
Definition executeJob (config : ValidationJobConfig) (db : option (option Database)) (e : engine) : search (list write) :=
  let start := [SetProgress 2; SetStage StagePreflight; Callback] in
  match preflight db with
  | inl errors =>
      Found (start ++ [SetStatus "failed"; SetStage StagePreflight; SetErrors errors; SetProgress 100; Callback])
  | inr _ =>
      let ready := start ++ [SetProgress 10; SetStage StagePreflight; Callback] in
      match StrategyIDs config with
      | [] => Found (ready ++ [SetStatus "completed"; SetStage StageComplete; SetProgress 100; Callback])
      | ids =>
          match executeStrategies config (Z.quot 80 (Z.of_nat (length ids))) 0 e ids with
          | Endless => Endless
          | Panicked => Panicked
          | Found (rs, ws, _) =>
              Found (ready ++ ws ++ [SetResult (mkPipeline rs (summary rs)); SetProgress 100; SetStage StageComplete;
                                     SetStatus "completed"; Callback])
          end
      end
  end.
End Worker.

(** The goroutine that follows a job in the API: it polls every two seconds, [seen] being
    what the job shows each time. *)
Inductive runStatus := RunCompleted | RunFailed (reason : string).

Fixpoint follow (polls : nat) (seen : list RunningJob) : option runStatus :=
  match polls with
  | O => Some (RunFailed "timeout after 4 minutes")
  | S polls =>
      match seen with
      | [] => None
      | job :: seen =>
          match JResult job with
          | Some _ => Some RunCompleted
          | None => if bool_decide (Status (JProgress job) = "cancelled"%string) then Some (RunFailed "cancelled") else follow polls seen
          end
      end
  end.

(** ** The verdict never passes *)
Lemma no_profit_factor owr mc std :
  WfProfitFactor owr = 0 -> (0 <? MinProfitFactor std) = true ->
  VerdictPassed (EvaluateOOSMultiMetric (Some owr) mc std) = false.
Proof.
  intros P M. cbn [EvaluateOOSMultiMetric]. destruct (Windows owr) as [|w ws]; [done|]. rewrite conclude_spec.
  cbn [VerdictPassed]. rewrite forallb_app, P. cbn [forallb MetricPassed atLeast atMost enough].
  rewrite (ltb_not_leb _ _ M). by rewrite !andb_false_r.
Qed.

(** Nothing is ever promoted by the API.  Whatever an optimised walk-forward found, the
    verdict its handler returns is a failure: the profit factor of a walk-forward result is
    never assigned, and every standard asks for one. *)
Theorem api_verdict_never_passes {SL : SortSlice} {G : MonteCarlo.PCG} schedule result capital now :
  VerdictPassed (walkForwardVerdict schedule result capital now).2 = false /\
  forall std, std ∈ [DefaultMultiMetricStandard; LenientMultiMetricStandard; StrictMultiMetricStandard] ->
    forall mc, VerdictPassed (EvaluateOOSMultiMetric (Some (rebuilt result)) mc std) = false.
Proof.
  split.
  - unfold walkForwardVerdict. destruct (AvgOOSSharpe result =? 0); [done|]. by apply no_profit_factor.
  - intros std S mc. apply no_profit_factor; [done|].
    rewrite !elem_of_cons in S. destruct S as [-> |[-> |[-> |S]]]; [reflexivity..|by apply not_elem_of_nil in S].
Qed.

Section JobLaws.
Context {B : Backtests} {SL : SortSlice} {G : MonteCarlo.PCG}.
Variable schedule : list (Z * MonteCarlo.MCIterationResult) -> list (Z * MonteCarlo.MCIterationResult).
Variable finished : nat -> list nat.
Variable wfuel fuel : nat.
Variable now : Z.

Abbreviation pipeline := (executeStrategyPipeline schedule finished wfuel fuel now).
Abbreviation strategies := (executeStrategies schedule finished wfuel fuel now).
Abbreviation job := (executeJob schedule finished wfuel fuel now).

(** The stages a strategy reports, in percent and rising. *)
Definition stages_ok (callbacks : list (Z * ValidationStage)) : Prop :=
  StronglySorted Z.le (map fst callbacks) /\ Forall (fun n => 0 <= n <= 100)%Z (map fst callbacks).

Lemma pipeline_fails config e id r cs e' : pipeline config e id = Found (r, cs, e') -> strategyPassed r = false /\ stages_ok cs.
Proof.
  unfold executeStrategyPipeline. destruct (RunOptimizedWalkForward _ _ _ _ _) as [| |[owf e1]] eqn:R; [done..|].
  destruct (MonteCarlo.RunMonteCarloFromTrades _ _ _ _ _) as [mc|]; intros [= <- <- _].
  - split; [|split; repeat constructor; cbn; lia]. unfold strategyPassed. cbn [SprMultiMetric].
    apply (no_profit_factor (Walk owf) (Some mc) DefaultMultiMetricStandard); [|done].
    destruct (run_composed _ _ _ _ _ _ _ R) as (ws & os & _ & C). apply C.
  - split; [done|split; repeat constructor; cbn; lia].
Qed.

Lemma strategies_fail config perStrat i e ids rs ws e' :
  strategies config perStrat i e ids = Found (rs, ws, e') ->
  length rs = length ids /\ Forall (fun r => strategyPassed r = false) rs.
Proof.
  revert i e rs ws e'. induction ids as [|id ids IH]; intros i e rs ws e'; cbn [executeStrategies]; [by intros [= <- _ _]|].
  destruct (executeStrategyPipeline _ _ _ _ _ config e id) as [| |[[r cs] e1]] eqn:R; [done..|].
  destruct (executeStrategies _ _ _ _ _ config perStrat (i + 1) e1 ids) as [| |[[rs1 ws1] e2]] eqn:E; [done..|].
  intros [= <- _ _]. destruct (IH _ _ _ _ _ E) as [L F]. split; [cbn; by rewrite L|]. constructor; [by eapply pipeline_fails|done].
Qed.

Lemma summary_failed rs :
  Forall (fun r => strategyPassed r = false) rs -> summary rs = mkPipelineSummary 0 (Z.of_nat (length rs)) (Z.of_nat (length rs)).
Proof.
  intros F. unfold summary, countBy. assert (H : List.filter strategyPassed rs = [] /\ List.filter (fun r => negb (strategyPassed r)) rs = rs).
  { induction F as [|r rs E F [IH1 IH2]]; [done|]. cbn. rewrite E. cbn. by rewrite IH1, IH2. }
  by destruct H as [-> ->].
Qed.

(** ** The writes and what they leave *)
Lemma run_app j ws ws' : run j (ws ++ ws') = run (run j ws) ws'.
Proof. apply fold_left_app. Qed.

(** The last write of a field decides. *)
Definition lastStatus (s : string) (w : write) : string := match w with SetStatus s => s | _ => s end.
Definition lastResult (r : option PipelineResult) (w : write) : option PipelineResult :=
  match w with SetResult r => Some r | _ => r end.
Definition lastProgress (n : Z) (w : write) : Z := match w with SetProgress n => n | _ => n end.

Lemma run_fields j ws :
  Status (JProgress (run j ws)) = fold_left lastStatus ws (Status (JProgress j)) /\
  JResult (run j ws) = fold_left lastResult ws (JResult j) /\
  Progress (JProgress (run j ws)) = fold_left lastProgress ws (Progress (JProgress j)).
Proof.
  revert j. induction ws as [|w ws IH]; intros j; [done|]. cbn [run fold_left]. fold (run (apply j w) ws).
  destruct (IH (apply j w)) as (-> & -> & ->). by destruct j as [c p r], w.
Qed.

(** A job passes no strategy.  For every engine, schedule, seed and configuration: a job
    that ends has failed its preflight, or had no strategies, or reports, with status
    "completed" and progress 100, all of its strategies as failed. *)
Theorem job_passes_nothing config db e ws :
  job config db e = Found ws ->
  let final := run (StartJob config) ws in
  Progress (JProgress final) = 100%Z /\
  match JResult final with
  | Some r => Status (JProgress final) = "completed"%string /\ length (PrStrategies r) = length (StrategyIDs config) /\
              PrSummary r = mkPipelineSummary 0 (Z.of_nat (length (StrategyIDs config))) (Z.of_nat (length (StrategyIDs config)))
  | None => Status (JProgress final) = "failed"%string \/ StrategyIDs config = []
  end.
Proof.
  intros J. cbv zeta. destruct (run_fields (StartJob config) ws) as (S & R & P). rewrite S, R, P. clear S R P.
  revert J. unfold executeJob. destruct (preflight db) as [errors|].
  { intros [= <-]. split; [done|]. by left. }
  destruct (StrategyIDs config) as [|id ids] eqn:I; [intros [= <-]; split; [done|by right]|]. rewrite <- I in *.
  destruct (executeStrategies _ _ _ _ _ _ _ _ _ _) as [| |[[rs w1] e1]] eqn:E; [done..|].
  intros [= <-]. apply strategies_fail in E as [L F]. cbn [app]. rewrite !app_comm_cons, !fold_left_app.
  cbn [fold_left lastStatus lastResult lastProgress]. split; [done|]. split; [done|]. cbn [PrStrategies PrSummary].
  split; [done|]. by rewrite (summary_failed rs F), L.
Qed.

(** ** Progress and cancellation *)
Fixpoint reported (n : Z) (ws : list write) : list Z :=
  match ws with
  | [] => []
  | Callback :: ws => n :: reported n ws
  | w :: ws => reported (lastProgress n w) ws
  end.

Lemma sent_reported j ws : map Progress (sent j ws) = reported (Progress (JProgress j)) ws.
Proof.
  revert j. induction ws as [|w ws IH]; intros j; [done|]. destruct w; cbn [sent reported map]; rewrite ?IH; by destruct j.
Qed.

Definition rising (lo hi : Z) (l : list Z) : Prop := StronglySorted Z.le l /\ Forall (fun n => lo <= n <= hi)%Z l.

Lemma rising_app lo mid hi l l' : (lo <= mid <= hi)%Z -> rising lo mid l -> rising mid hi l' -> rising lo hi (l ++ l').
Proof.
  intros M [S F] [S' F']. split.
  - induction S as [|x l S IH H]; [done|]. inversion F as [|? ? Hx Fl]; subst. cbn. constructor; [by apply IH|].
    apply list.Forall_app. split; [done|]. eapply list.Forall_impl; [exact F'|]. cbn. intros n Hn. lia.
  - apply list.Forall_app. split; [eapply list.Forall_impl; [exact F|]|eapply list.Forall_impl; [exact F'|]]; cbn; intros n Hn; lia.
Qed.

Lemma rising_cons lo hi n l : (lo <= n <= hi)%Z -> rising n hi l -> rising lo hi (n :: l).
Proof. intros H R. apply (rising_app lo n hi [n] l H); [split; repeat constructor; lia|done]. Qed.

Lemma rising_nil lo hi : rising lo hi [].
Proof. split; constructor. Qed.

Lemma reported_stages sp per cs lo ws :
  (0 <= per)%Z -> (lo <= 100)%Z -> StronglySorted Z.le (map fst cs) -> Forall (fun n => lo <= n <= 100)%Z (map fst cs) ->
  (0 <= lo)%Z -> (forall n, rising (sp + per) 100 (reported n ws)) -> (sp + per <= 100)%Z ->
  forall n, rising (sp + Z.quot (lo * per) 400) 100 (reported n (flat_map (reportStage sp per) cs ++ ws)).
Proof.
  intros P L S F L0 R H. revert lo L L0 F.
  assert (Q : forall c, (0 <= c <= 100)%Z -> (0 <= Z.quot (c * per) 400 <= per)%Z).
  { intros c C. rewrite Z.quot_div_nonneg by nia. split; [apply Z.div_pos; nia|apply Z.div_le_upper_bound; nia]. }
  assert (Mono : forall a b, (0 <= a <= b)%Z -> (Z.quot (a * per) 400 <= Z.quot (b * per) 400)%Z).
  { intros a b Hab. rewrite !Z.quot_div_nonneg by nia. apply Z.div_le_mono; nia. }
  induction cs as [|[c st] cs IH]; intros lo L L0 F n; cbn [flat_map app].
  - specialize (Q lo ltac:(lia)). destruct (R n) as [Rs Rf]. split; [done|].
    eapply list.Forall_impl; [exact Rf|]. cbn. intros m Hm. lia.
  - cbn [map fst] in S, F. inversion S as [|? ? S1 S2]; subst. inversion F as [|? ? F1 F2]; subst.
    unfold reportStage at 1. cbn [fst snd app reported lastProgress].
    pose proof (Q c ltac:(lia)). pose proof (Q lo ltac:(lia)). pose proof (Mono lo c ltac:(lia)).
    rewrite (proj2 (Z.ltb_ge (sp + per) (sp + Z.quot (c * per) 400))) by lia.
    apply rising_cons; [lia|]. apply (IH S1 c); [lia|lia|].
    apply list.Forall_forall. intros m Hm. rewrite list.Forall_forall in F2. specialize (F2 m Hm).
    rewrite list.Forall_forall in S2. specialize (S2 m Hm). lia.
Qed.

Lemma reported_strategies config per i e ids rs ws e' tail :
  strategies config per i e ids = Found (rs, ws, e') ->
  (0 <= per)%Z -> (0 <= i)%Z -> (10 + (i + Z.of_nat (length ids)) * per <= 100)%Z ->
  (forall n, rising (10 + (i + Z.of_nat (length ids)) * per) 100 (reported n tail)) ->
  forall n, rising (10 + i * per) 100 (reported n (ws ++ tail)).
Proof.
  revert i e rs ws e'. induction ids as [|id ids IH]; intros i e rs ws e'; cbn [executeStrategies length].
  { intros [= <- <- _] P I H T n. specialize (T n). by rewrite Z.add_0_r in T. }
  destruct (executeStrategyPipeline _ _ _ _ _ config e id) as [| |[[r cs] e1]] eqn:R; [done..|].
  destruct (executeStrategies _ _ _ _ _ config per (i + 1) e1 ids) as [| |[[rs1 ws1] e2]] eqn:E; [done..|].
  intros [= _ <- _] P I H T n. cbn [app reported lastProgress]. apply rising_cons; [nia|].
  destruct (pipeline_fails _ _ _ _ _ _ R) as [_ [St F]]. rewrite <- app_assoc.
  replace (10 + i * per)%Z with (10 + i * per + Z.quot (0 * per) 400)%Z at 1 by (rewrite Z.mul_0_l, Z.quot_0_l; lia).
  apply reported_stages; [done|lia|done|done|lia| |nia].
  intros m. replace (10 + i * per + per)%Z with (10 + (i + 1) * per)%Z by lia.
  apply (IH _ _ _ _ _ E); [done|lia|nia|]. intros k. replace (i + 1 + Z.of_nat (length ids))%Z with (i + Z.of_nat (S (length ids)))%Z by lia.
  apply T.
Qed.

(** The progress a job reports never falls.  The percentages its callbacks send rise
    from 2 to 100, whatever the number of strategies and however they end. *)
Theorem job_progress_rises config db e ws :
  job config db e = Found ws ->
  rising 2 100 (map Progress (sent (StartJob config) ws)) /\ List.last (map Progress (sent (StartJob config) ws)) 0%Z = 100%Z.
Proof.
  rewrite sent_reported. generalize (Progress (JProgress (StartJob config))) as n. intros n. unfold executeJob.
  destruct (preflight db) as [errors|].
  { intros [= <-]. split; [|done]. cbn. repeat apply rising_cons; try lia. apply rising_nil. }
  destruct (StrategyIDs config) as [|id ids] eqn:I; [intros [= <-]; split; [|done]; cbn; repeat apply rising_cons; try lia; apply rising_nil|].
  rewrite <- I in *. assert (L : (0 < Z.of_nat (length (StrategyIDs config)))%Z) by (rewrite I; cbn; lia).
  destruct (executeStrategies _ _ _ _ _ _ _ _ _ _) as [| |[[rs w1] e1]] eqn:E; [done..|].
  intros [= <-]. set (end_ := [SetResult _; _; _; _; _]). set (per := Z.quot 80 _) in *.
  assert (P : (0 <= per)%Z /\ (Z.of_nat (length (StrategyIDs config)) * per <= 80)%Z).
  { unfold per. rewrite Z.quot_div_nonneg by lia. split; [apply Z.div_pos; lia|apply Z.mul_div_le; lia]. }
  assert (X : forall m, reported m end_ = [100%Z]) by (intros m; reflexivity).
  cbn [app reported lastProgress]. split.
  - apply rising_cons; [lia|]. apply rising_cons; [lia|].
    apply (reported_strategies _ _ _ _ _ _ _ _ end_ E); [lia|lia|lia|]. intros m. rewrite X. apply rising_cons; [nia|apply rising_nil].
  - assert (Y : forall m l, List.last (reported m (l ++ end_)) 0%Z = 100%Z).
    { intros m l. revert m. induction l as [|w l IH]; intros m; [by cbn [app]; rewrite X|].
      destruct w; cbn [app reported lastProgress]; try apply IH.
      specialize (IH m). by destruct (reported m (l ++ end_)) eqn:Q. }
    specialize (Y 10%Z w1). by destruct (reported 10 (w1 ++ end_)) eqn:Q.
Qed.

Lemma job_end config db e ws :
  job config db e = Found ws -> JResult (run (StartJob config) ws) <> None ->
  exists ws0, ws = ws0 ++ [SetStatus "completed"; Callback].
Proof.
  destruct (run_fields (StartJob config) ws) as (_ & -> & _). unfold executeJob. destruct (preflight db) as [errors|].
  { by intros [= <-]. }
  destruct (StrategyIDs config) as [|id ids] eqn:I; [by intros [= <-]|]. rewrite <- I in *.
  destruct (executeStrategies _ _ _ _ _ _ _ _ _ _) as [| |[[rs w1] e1]] eqn:E; [done..|].
  intros [= <-] _. eexists (_ :: _ :: _ :: _ :: _ :: _ :: w1 ++ [_; _; _]). cbn. by rewrite <- app_assoc.
Qed.

Lemma status_overwritten (ws : list write) x y :
  (exists s, SetStatus s ∈ ws) -> fold_left lastStatus ws x = fold_left lastStatus ws y.
Proof.
  intros [s H]. revert x y. induction ws as [|w ws IH]; intros x y; [by apply not_elem_of_nil in H|]. cbn [fold_left].
  apply elem_of_cons in H as [<-|H]; [done|]. destruct w; cbn; try (by apply IH); done.
Qed.

(** Cancelling does not stop a job.  Wherever [CancelJob] comes between the writes of the
    worker, the job ends with the result and the progress it would have had; and if it ends
    with a result, then, unless the cancellation comes after the status is set, with the
    status "completed". *)
Theorem cancel_does_not_stop config db e before after :
  job config db e = Found (before ++ after) ->
  let finished := run (StartJob config) (before ++ after) in
  let cancelled := run (CancelJob (run (StartJob config) before)) after in
  JResult cancelled = JResult finished /\ Progress (JProgress cancelled) = Progress (JProgress finished) /\
  (JResult finished <> None -> (2 <= length after)%nat -> Status (JProgress cancelled) = "completed"%string).
Proof.
  intros J. cbv zeta. pose proof (job_end _ _ _ _ J) as X. rewrite !run_app in *. set (j := run (StartJob config) before) in *.
  destruct (run_fields j after) as (S & R & P). destruct (run_fields (CancelJob j) after) as (S' & R' & P').
  split; [rewrite R, R'; by destruct j as [c p r]|]. split; [rewrite P, P'; by destruct j as [c p r]|].
  intros N L. destruct (X N) as (ws0 & E). clear X.
  assert (A : exists ws1, after = ws1 ++ [SetStatus "completed"; Callback]).
  { exists (take (length after - 2) after). rewrite <- (take_drop (length after - 2) after) at 1. f_equal.
    assert (D : drop (length before + (length after - 2)) (before ++ after) = drop (length after - 2) after)
      by (rewrite drop_app_ge by lia; f_equal; lia).
    rewrite <- D, E. rewrite drop_app_ge by (pose proof (f_equal length E) as Q; rewrite !length_app in Q; cbn in Q; lia).
    replace (length before + (length after - 2) - length ws0)%nat with O; [done|].
    pose proof (f_equal length E) as Q. rewrite !length_app in Q. cbn in Q. lia. }
  destruct A as (ws1 & ->). rewrite S', fold_left_app. done.
Qed.
End JobLaws.

(** ** Examples *)

(** An engine that always returns the same result. *)
Definition steady : Backtests := {|
  engine := unit;
  hasDB _ := false;
  NewEngine e _ := e;
  runEngine e cfg := (Some (sharpeResult cfg 2), e)
|}.

(** A strategy the registry does not know has an empty search space. *)
Definition demoJob : ValidationJobConfig := mkJobConfig "j" ["demo"%string] ["X"%string] 0 (630 * day) 100000 true 1.
Definition demoDatabase : option (option Database) := Some (Some (mkDatabase (Some 10%Z) (Some 0%Z))).

Abbreviation demoRun := (executeJob (B := steady) (G := MonteCarlo.lcg) (fun w => w) (fun _ => []) 10 10 0 demoJob demoDatabase tt).
Definition demoWrites : list write := match demoRun with Found ws => ws | _ => [] end.

Lemma demo_found : demoRun = Found demoWrites.
Proof. vm_compute. reflexivity. Qed.

Lemma job_passes_nothing_witness :
  length demoWrites = 26%nat /\
  Progress (JProgress (run (StartJob demoJob) demoWrites)) = 100%Z.
Proof.
  split; [vm_compute; reflexivity|].
  destruct (job_passes_nothing (B := steady) (G := MonteCarlo.lcg) (fun w => w) (fun _ => []) 10 10 0 demoJob demoDatabase tt
    demoWrites demo_found) as [P _]. exact P.
Defined.

Lemma job_progress_rises_witness :
  map Progress (sent (StartJob demoJob) demoWrites) = [2; 10; 10; 15; 20; 25; 30; 100]%Z /\
  rising 2 100 (map Progress (sent (StartJob demoJob) demoWrites)).
Proof.
  split; [vm_compute; reflexivity|].
  destruct (job_progress_rises (B := steady) (G := MonteCarlo.lcg) (fun w => w) (fun _ => []) 10 10 0 demoJob demoDatabase tt
    demoWrites demo_found) as [P _]. exact P.
Defined.

Lemma cancel_does_not_stop_witness :
  Status (JProgress (run (CancelJob (run (StartJob demoJob) (take 9 demoWrites))) (drop 9 demoWrites))) = "completed"%string.
Proof.
  destruct (cancel_does_not_stop (B := steady) (G := MonteCarlo.lcg) (fun w => w) (fun _ => []) 10 10 0 demoJob demoDatabase tt
    (take 9 demoWrites) (drop 9 demoWrites)) as (_ & _ & S).
  - rewrite take_drop. exact demo_found.
  - apply S; [rewrite take_drop; vm_compute; discriminate|vm_compute; lia].
Defined.
