(* ===== verification/Correlation.v ===== *)
(** * The correlation brake ([internal/backtest/correlation_tracker.go])

    [CorrelationTracker] keeps the equity of every strategy over a window, correlates the
    returns of every pair and puts a brake on a pair that moves together, or whose
    correlation jumps.  Go ranges over the map of histories in an unspecified order: the ids
    are an argument.  A method is one critical section. *)
From Stdlib Require Import ZArith Lia Bool Floats Ascii String.
From coqutil Require Import RecordSettersUsingExistingGetters.
From S2P Require Import Prelude Float64 FloatRound FloatLaws Fills.
Local Open Scope float_scope.
Local Open Scope go_scope.

Record CorrelationTracker := mkTracker {
  equityHistories : gmap string (list float64);
  window : Z;
  threshold : float64;
  brakeDuration : Z;
  brakes : gmap string Z;
  velocityThreshold : float64;
  cooldown : Z;
  velocityCooldown : gmap string Z;
  rhoHistory : gmap string float64
}.

Definition NewCorrelationTracker (window : Z) (threshold : float64) : CorrelationTracker :=
  mkTracker ∅ window threshold 10 ∅ 0.3 3 ∅ ∅.

Definition SetVelocityBrakeParams (ct : CorrelationTracker) (dailyThreshold : float64) (cooldownBars : Z) : CorrelationTracker :=
  ct <| velocityThreshold := dailyThreshold |> <| cooldown := cooldownBars |>.

(** [None]: a negative window cuts out of range. *)
Definition RecordEquity (ct : CorrelationTracker) (strategyID : string) (equity : float64) : option CorrelationTracker :=
  let history := mget [] (equityHistories ct) strategyID ++ [equity] in
  if Z.ltb (window ct) (Z.of_nat (length history)) then
    if Z.ltb (window ct) 0 then None
    else Some (ct <| equityHistories ::= insert strategyID (lastn (Z.to_nat (window ct)) history) |>)
  else Some (ct <| equityHistories ::= insert strategyID history |>).

(** ** Correlation *)
Fixpoint returnsFromEquity (equity : list float64) : list float64 :=
  match equity with
  | prev :: ((curr :: _) as rest) => (if 0 <? prev then (curr - prev) / prev else 0) :: returnsFromEquity rest
  | _ => []
  end.

Record sums := mkSums { sumA : float64; sumB : float64; sumAB : float64; sumA2 : float64; sumB2 : float64 }.

Definition addPair (s : sums) (ab : float64 * float64) : sums :=
  let '(a, b) := ab in
  mkSums (sumA s + a) (sumB s + b) (sumAB s + a * b) (sumA2 s + a * a) (sumB2 s + b * b).

Definition computePearson (ct : CorrelationTracker) (a b : string) : float64 :=
  let eqA := mget [] (equityHistories ct) a in
  let eqB := mget [] (equityHistories ct) b in
  if (length eqA <? 2)%nat || (length eqB <? 2)%nat then 0
  else
    let returnsA := returnsFromEquity eqA in
    let returnsB := returnsFromEquity eqB in
    let n := Nat.min (length returnsA) (length returnsB) in
    if (n <? 2)%nat then 0
    else
      let s := fold_left addPair (zip (lastn n returnsA) (lastn n returnsB)) (mkSums 0 0 0 0 0) in
      let n := of_Z (Z.of_nat n) in
      let num := n * sumAB s - sumA s * sumB s in
      let den := PrimFloat.sqrt ((n * sumA2 s - sumA s * sumA s) * (n * sumB2 s - sumB s * sumB s)) in
      if den <? 1e-12 then 0
      else
        let rho := num / den in
        if math.IsNaN rho || math.IsInf rho 0 then 0 else rho.

Definition pairKey (a b : string) : string :=
  if String.ltb a b then (a +:+ ":" +:+ b)%string else (b +:+ ":" +:+ a)%string.

(** ** The check of a pair *)
Record PairCorrelation := mkPair { PcA : string; PcB : string; PcCorrelation : float64; BrakeActive : bool }.

Inductive brakeAction := BrakeApplied | BrakeReleased | BrakeAppliedVelocity.
Record BreachEvent := mkBreach { BeA : string; BeB : string; BeCorrelation : float64; BeAction : brakeAction }.

(** On a threshold breach the brake is set; otherwise it counts down. *)
Definition thresholdBrake (ct : CorrelationTracker) (key : string) (rho : float64) :
    CorrelationTracker * bool * list brakeAction :=
  if threshold ct <? rho then (ct <| brakes ::= insert key (brakeDuration ct) |>, true, [BrakeApplied])
  else if Z.ltb 0 (mget 0%Z (brakes ct) key) then
    let left_ := (mget 0 (brakes ct) key - 1)%Z in
    (ct <| brakes ::= insert key left_ |>, true, if Z.eqb left_ 0 then [BrakeReleased] else [])
  else (ct, false, []).

Definition velocityTriggered (ct : CorrelationTracker) (key : string) (rho : float64) : bool :=
  let prevRho := mget 0 (rhoHistory ct) key in
  Z.eqb (mget 0%Z (velocityCooldown ct) key) 0 && negb (prevRho =? 0) &&
  (velocityThreshold ct <? math.Abs (rho - prevRho)).

Definition velocityBrake (ct : CorrelationTracker) (key : string) (rho : float64) : CorrelationTracker * bool * list brakeAction :=
  if velocityTriggered ct key rho
  then (ct <| brakes ::= insert key (brakeDuration ct) |> <| velocityCooldown ::= insert key (cooldown ct) |>, true,
        [BrakeAppliedVelocity])
  else (ct, false, []).

Definition coolDown (ct : CorrelationTracker) (key : string) : CorrelationTracker :=
  let c := mget 0%Z (velocityCooldown ct) key in
  if Z.ltb 0 c then ct <| velocityCooldown ::= insert key (c - 1)%Z |> else ct.

Definition storeRho (ct : CorrelationTracker) (key : string) (rho : float64) : CorrelationTracker :=
  ct <| rhoHistory ::= insert key rho |>.

Definition checkPair (ct : CorrelationTracker) (a b : string) : CorrelationTracker * PairCorrelation * list BreachEvent :=
  let rho := computePearson ct a b in
  let key := pairKey a b in
  let '(ct, braked, actions) := thresholdBrake ct key rho in
  let '(ct, jumped, actions') := velocityBrake ct key rho in
  let ct := storeRho (coolDown ct key) key rho in
  (ct, mkPair a b rho (braked || jumped), map (mkBreach a b rho) (actions ++ actions')).

(** The ids with at least two points, and the pairs [i < j] of a list. *)
Definition activeIDs (ct : CorrelationTracker) (ids : list string) : list string :=
  List.filter (fun id => (2 <=? length (mget [] (equityHistories ct) id))%nat) ids.

Fixpoint pairsOf (ids : list string) : list (string * string) :=
  match ids with
  | [] => []
  | a :: ids => map (pair a) ids ++ pairsOf ids
  end.

Definition checkStep (acc : CorrelationTracker * list PairCorrelation * list BreachEvent) (p : string * string) :
    CorrelationTracker * list PairCorrelation * list BreachEvent :=
  let '(ct, correlations, breaches) := acc in
  let '(ct, pc, events) := checkPair ct p.1 p.2 in
  (ct, correlations ++ [pc], breaches ++ events).

(** [ids]: the keys of the histories in the order of the range. *)
Definition CheckCorrelations (ct : CorrelationTracker) (ids : list string) :
    CorrelationTracker * list PairCorrelation * list BreachEvent :=
  fold_left checkStep (pairsOf (activeIDs ct ids)) (ct, [], []).

Definition IsBrakeActive (ct : CorrelationTracker) (a b : string) : bool := Z.ltb 0 (mget 0%Z (brakes ct) (pairKey a b)).

Definition BrakeDiscount (ct : CorrelationTracker) (a b : string) : float64 := if IsBrakeActive ct a b then 0.70 else 1.0.

Definition putCell (a b : string) (rho : float64) (m : gmap string (gmap string float64)) : gmap string (gmap string float64) :=
  <[a := <[b := rho]> (mget ∅ m a)]> m.

Definition PairMatrix (ct : CorrelationTracker) (ids : list string) : gmap string (gmap string float64) :=
  fold_left (fun m p =>
    let rho := computePearson ct p.1 p.2 in putCell p.2 p.1 rho (putCell p.1 p.2 rho m))
    (pairsOf (activeIDs ct ids)) ∅.

(** ** A pair's key *)

(** The separator does not occur in the name. *)
Fixpoint plain (s : string) : Prop :=
  match s with
  | EmptyString => True
  | String c s => c <> ":"%char /\ plain s
  end.

Lemma plain_split a b c d : plain a -> plain c -> (a +:+ ":" +:+ b)%string = (c +:+ ":" +:+ d)%string -> a = c /\ b = d.
Proof.
  revert c. induction a as [|x a IH]; intros [|y c] Pa Pc E; cbn in E; [by injection E| | |].
  - injection E as <- _. by destruct Pc.
  - injection E as -> _. by destruct Pa.
  - injection E as <- E. destruct (IH c) as [-> ->]; [apply Pa|apply Pc|done|done].
Qed.

Lemma ltb_neither_eq a b : String.ltb a b = false -> String.ltb b a = false -> a = b.
Proof.
  unfold String.ltb. rewrite (String.compare_antisym b a). destruct (String.compare a b) eqn:E; try done.
  intros _ _. by apply String.compare_eq_iff.
Qed.

Lemma ltb_swap a b : String.ltb a b = true -> String.ltb b a = false.
Proof. unfold String.ltb. rewrite (String.compare_antisym b a). by destruct (String.compare a b). Qed.

Lemma pairKey_sym a b : pairKey a b = pairKey b a.
Proof.
  unfold pairKey. destruct (String.ltb a b) eqn:E; [by rewrite (ltb_swap a b E)|].
  destruct (String.ltb b a) eqn:F; [done|]. by rewrite (ltb_neither_eq a b E F).
Qed.

Lemma pairKey_inj a b c d :
  plain a -> plain b -> plain c -> plain d -> pairKey a b = pairKey c d -> (a = c /\ b = d) \/ (a = d /\ b = c).
Proof.
  intros Pa Pb Pc Pd. unfold pairKey.
  destruct (String.ltb a b), (String.ltb c d); intros E; apply plain_split in E; try done; tauto.
Qed.

Lemma elem_of_pairsOf ids a b : (a, b) ∈ pairsOf ids -> a ∈ ids /\ b ∈ ids.
Proof.
  induction ids as [|x ids IH]; cbn; [by intros H%not_elem_of_nil|]. rewrite elem_of_app, list_elem_of_fmap.
  intros [(y & [= -> ->] & Y)|H]; [split; [by left|by right]|]. destruct (IH H). split; by right.
Qed.

Lemma keys_distinct ids : NoDup ids -> Forall plain ids -> NoDup (map (fun p => pairKey p.1 p.2) (pairsOf ids)).
Proof.
  induction ids as [|x ids IH]; cbn; [intros _ _; constructor|].
  intros D P. inversion D as [|? ? N D']; subst. inversion P as [|? ? Px P']; subst. rewrite map_app. apply list.NoDup_app.
  rewrite list.Forall_forall in P'. split; [|split].
  - rewrite map_map. cbn [fst snd]. clear IH D P. revert N P'. induction D' as [|y ids Ny D' IH]; intros N F; [constructor|].
    cbn. constructor; [|apply IH; [intros X; apply N; by right|intros z Z; apply F; by right]].
    rewrite list_elem_of_fmap. intros (z & E & Z). apply pairKey_inj in E; [|done|apply F; by left|done|apply F; by right].
    destruct E as [[_ ->]|[-> _]]; [done|]. apply N. by right.
  - intros k (p & -> & (y & -> & Y)%list_elem_of_fmap)%list_elem_of_fmap (q & E & Q)%list_elem_of_fmap.
    destruct q as [c d]. cbn [fst snd] in E. destruct (elem_of_pairsOf _ _ _ Q) as [C Dd].
    apply pairKey_inj in E; [|done|by apply P'..]. destruct E as [[-> _]|[-> _]]; done.
  - apply IH; [done|]. by apply list.Forall_forall.
Qed.

Lemma symmetric_pairs {A} (f : string * string -> A) ids ids' :
  (forall a b, f (a, b) = f (b, a)) -> ids ≡ₚ ids' -> map f (pairsOf ids) ≡ₚ map f (pairsOf ids').
Proof.
  intros S P. induction P as [|x l l' P IH|x y l|l1 l2 l3 P1 IH1 P2 IH2]; cbn; [done| | |by rewrite IH1].
  - rewrite !map_app, !map_map. by rewrite IH, P.
  - rewrite !map_app. rewrite (S x y). apply perm_skip. rewrite !app_assoc. apply Permutation_app_tail, Permutation_app_comm.
Qed.

(** ** The correlation is symmetric *)
Definition swapSums (s : sums) : sums := mkSums (sumB s) (sumA s) (sumAB s) (sumB2 s) (sumA2 s).

Lemma zip_swap (l l' : list float64) s :
  fold_left addPair (zip l l') s = swapSums (fold_left addPair (zip l' l) (swapSums s)).
Proof.
  revert l' s. induction l as [|x l IH]; intros [|y l'] s; try by destruct s. cbn [zip zip_with fold_left].
  rewrite (IH l'). f_equal. f_equal. unfold swapSums, addPair. cbn. by rewrite (fmul_comm x y).
Qed.

Lemma pearson_sym ct a b : computePearson ct a b = computePearson ct b a.
Proof.
  unfold computePearson. rewrite orb_comm. destruct (_ || _); [done|]. rewrite Nat.min_comm. destruct (_ <? 2)%nat; [done|].
  rewrite zip_swap. change (swapSums (mkSums 0 0 0 0 0)) with (mkSums 0 0 0 0 0).
  set (s := fold_left _ _ _). cbn [swapSums sumA sumB sumAB sumA2 sumB2].
  rewrite (fmul_comm (sumB s) (sumA s)).
  by rewrite (fmul_comm (of_Z _ * sumB2 s - sumB s * sumB s)).
Qed.

(** ** A check touches the pair's own entries *)
Abbreviation cell := (option Z * option Z * option float64)%type.

Definition cellOf (ct : CorrelationTracker) (k : string) : cell := (brakes ct !! k, velocityCooldown ct !! k, rhoHistory ct !! k).

(** What no check changes. *)
Definition sameSettings (ct ct' : CorrelationTracker) : Prop :=
  equityHistories ct = equityHistories ct' /\ window ct = window ct' /\ threshold ct = threshold ct' /\
  brakeDuration ct = brakeDuration ct' /\ velocityThreshold ct = velocityThreshold ct' /\ cooldown ct = cooldown ct'.

Definition brakeStep (ct : CorrelationTracker) (rho : float64) (b : option Z) : option Z * list brakeAction :=
  if threshold ct <? rho then (Some (brakeDuration ct), [BrakeApplied])
  else if Z.ltb 0 (default 0%Z b) then
    (Some (default 0 b - 1)%Z, if Z.eqb (default 0 b - 1)%Z 0 then [BrakeReleased] else [])
  else (b, []).

Definition jumps (ct : CorrelationTracker) (rho : float64) (c : cell) : bool :=
  Z.eqb (default 0%Z c.1.2) 0 && negb (default 0 c.2 =? 0) && (velocityThreshold ct <? math.Abs (rho - default 0 c.2)).

Definition cool (v : option Z) : option Z := if Z.ltb 0 (default 0%Z v) then Some (default 0 v - 1)%Z else v.

(** The check of a pair on its entries alone. *)
Definition cellStep (ct : CorrelationTracker) (rho : float64) (c : cell) : cell * list brakeAction :=
  let '(b, acts) := brakeStep ct rho c.1.1 in
  if jumps ct rho c then (Some (brakeDuration ct), cool (Some (cooldown ct)), Some rho, acts ++ [BrakeAppliedVelocity])
  else (b, cool c.1.2, Some rho, acts).

Lemma tracker_eq ct ct' : sameSettings ct ct' -> (forall k, cellOf ct k = cellOf ct' k) -> ct = ct'.
Proof.
  destruct ct, ct'. unfold sameSettings, cellOf. cbn. intros (-> & -> & -> & -> & -> & ->) C.
  f_equal; apply map_eq; intros k; by specialize (C k) as [= ? ? ?].
Qed.

Lemma settings_trans a b c : sameSettings a b -> sameSettings b c -> sameSettings a c.
Proof. unfold sameSettings. intuition congruence. Qed.

Lemma settings_sym a b : sameSettings a b -> sameSettings b a.
Proof. unfold sameSettings. intuition congruence. Qed.

Lemma pearson_settings ct ct' a b : sameSettings ct ct' -> computePearson ct a b = computePearson ct' a b.
Proof. intros (E & _). unfold computePearson. by rewrite E. Qed.

Lemma step_settings ct ct' rho c : sameSettings ct ct' -> cellStep ct rho c = cellStep ct' rho c.
Proof. intros (_ & _ & T & B & V & C). unfold cellStep, brakeStep, jumps. by rewrite T, B, V, C. Qed.

Lemma checkPair_cells ct a b :
  let rho := computePearson ct a b in
  let k := pairKey a b in
  let '(ct', pc, events) := checkPair ct a b in
  sameSettings ct ct' /\ cellOf ct' k = (cellStep ct rho (cellOf ct k)).1 /\
  (forall k', k' <> k -> cellOf ct' k' = cellOf ct k') /\
  events = map (mkBreach a b rho) (cellStep ct rho (cellOf ct k)).2.
Proof.
  cbv zeta. unfold checkPair. generalize (computePearson ct a b) as rho. intros rho. generalize (pairKey a b) as k. intros k.
  destruct ct as [eh w th bd br vt cd vc rh].
  unfold cellStep, brakeStep, jumps, cool, cellOf, sameSettings, thresholdBrake, velocityBrake, velocityTriggered, coolDown, storeRho, mget.
  cbn. destruct (th <? rho); cbn; [|destruct (Z.ltb 0 (default 0%Z (br !! k))); cbn];
    (match goal with |- context [if ?x && ?y && ?z then _ else _] => destruct (x && y && z) end; cbn;
     rewrite ?lookup_insert_eq; cbn;
     match goal with |- context [Z.ltb 0 ?c] => destruct (Z.ltb 0 c) end; cbn;
     (split; [done|]); rewrite ?insert_insert_eq, ?lookup_insert_eq, ?app_nil_r;
     (split; [done|]); (split; [|done]); intros k' N; by rewrite !lookup_insert_ne by congruence).
Qed.

(** ** A whole check *)

(** The key and the correlation of a pair. *)
Definition keyed (ct : CorrelationTracker) (p : string * string) : string * float64 := (pairKey p.1 p.2, computePearson ct p.1 p.2).

(** The events of a check by their key, as the entries before it decide them. *)
Definition keyedEvents (ct : CorrelationTracker) (kr : string * float64) : list (string * float64 * brakeAction) :=
  map (pair kr) (cellStep ct kr.2 (cellOf ct kr.1)).2.

Definition byKey (e : BreachEvent) : string * float64 * brakeAction := (pairKey (BeA e) (BeB e), BeCorrelation e, BeAction e).

Lemma fold_check ps : forall ct pcs evs ct' pcs' evs',
  NoDup (map (fun p => pairKey p.1 p.2) ps) ->
  fold_left checkStep ps (ct, pcs, evs) = (ct', pcs', evs') ->
  sameSettings ct ct' /\
  (forall k, (exists r, (k, r) ∈ map (keyed ct) ps /\ cellOf ct' k = (cellStep ct r (cellOf ct k)).1) \/
             k ∉ map (fun p => pairKey p.1 p.2) ps /\ cellOf ct' k = cellOf ct k) /\
  map byKey evs' = map byKey evs ++ flat_map (keyedEvents ct) (map (keyed ct) ps).
Proof.
  induction ps as [|[a b] ps IH]; intros ct pcs evs ct' pcs' evs' D; cbn [fold_left map flat_map].
  { intros [= <- <- <-]. split; [done|]. split; [|by rewrite app_nil_r]. intros k. right. split; [|done].
    by intros H%not_elem_of_nil. }
  cbn [map fst snd] in D. inversion D as [|? ? N D']; subst. unfold checkStep at 2; cbn [fst snd].
  pose proof (checkPair_cells ct a b) as C. cbv zeta in C. destruct (checkPair ct a b) as [[ct1 pc] events].
  destruct C as (S & Ck & Co & Ev). intros E. destruct (IH _ _ _ _ _ _ D' E) as (S' & Cs & Es). clear IH E.
  assert (KE : map (keyed ct1) ps = map (keyed ct) ps).
  { apply map_ext. intros p. unfold keyed. by rewrite (pearson_settings ct ct1). }
  assert (Cell : forall k, k <> pairKey a b -> cellOf ct1 k = cellOf ct k) by done.
  split; [by eapply settings_trans|]. split.
  - intros k. destruct (Cs k) as [(r & Hr & Hc)|[Nk Hc]].
    + left. exists r. rewrite KE in Hr. split; [by right|]. rewrite Hc.
      rewrite <- (step_settings ct ct1) by done. rewrite Cell; [done|].
      intros ->. apply N. apply list_elem_of_fmap in Hr as (p & [= Hp _] & Hin). apply list_elem_of_fmap. by exists p.
    + destruct (decide (k = pairKey a b)) as [->|Nk'].
      * left. exists (computePearson ct a b). split; [by left|]. by rewrite Hc, Ck.
      * right. split; [by apply not_elem_of_cons|]. by rewrite Hc, Cell.
  - rewrite Es, map_app, <- app_assoc. f_equal. f_equal.
    + rewrite Ev, map_map. unfold keyedEvents, keyed. cbn [fst snd]. by apply map_ext.
    + rewrite KE. rewrite !flat_map_concat_map. f_equal. apply map_ext_in. intros [k r] Hk%list_elem_of_In.
      apply list_elem_of_fmap in Hk as (p & [= -> ->] & Hin). unfold keyedEvents. cbn [fst snd].
      rewrite <- (step_settings ct ct1) by done. rewrite Cell; [done|]. intros E. apply N. rewrite <- E.
      apply list_elem_of_fmap. by exists p.
Qed.

Lemma filter_perm {A} (f : A -> bool) l l' : l ≡ₚ l' -> List.filter f l ≡ₚ List.filter f l'.
Proof.
  induction 1 as [|x l l' P IH|x y l|l1 l2 l3 P1 IH1 P2 IH2]; cbn; [done| | |by rewrite IH1].
  - destruct (f x); [by rewrite IH|done].
  - destruct (f x), (f y); [apply perm_swap|done..].
Qed.

Lemma active_ok ct ids : NoDup ids -> Forall plain ids -> NoDup (activeIDs ct ids) /\ Forall plain (activeIDs ct ids).
Proof.
  unfold activeIDs. induction ids as [|x ids IH]; cbn; [by split|]. intros D F. inversion D; inversion F; subst.
  destruct IH as [D' F']; [done..|]. match goal with |- context [if ?c then _ else _] => destruct c end; [|done].
  split; constructor; try done. intros Hin%list_elem_of_In. apply filter_In in Hin as [Hin _].
  by apply list_elem_of_In in Hin.
Qed.

Lemma pair_active ct ids a b :
  a <> b -> a ∈ activeIDs ct ids -> b ∈ activeIDs ct ids ->
  (pairKey a b, computePearson ct a b) ∈ map (keyed ct) (pairsOf (activeIDs ct ids)).
Proof.
  generalize (activeIDs ct ids) as l. clear ids. induction l as [|x l IH]; intros N A B; [by apply not_elem_of_nil in A|].
  cbn. rewrite map_app, map_map. apply elem_of_app. apply elem_of_cons in A as [->|A], B as [->|B].
  - done.
  - left. apply list_elem_of_fmap. by exists b.
  - left. apply list_elem_of_fmap. exists a. unfold keyed. cbn [fst snd]. by rewrite pairKey_sym, pearson_sym.
  - right. by apply IH.
Qed.

(** Two entries of a list with distinct keys. *)
Lemma NoDup_fst_unique {A} (l : list (string * A)) k x y : NoDup (map fst l) -> (k, x) ∈ l -> (k, y) ∈ l -> x = y.
Proof.
  induction l as [|[j z] l IH]; cbn; [by intros _ H%not_elem_of_nil|]. intros D X Y. inversion D as [|? ? N D']; subst.
  apply elem_of_cons in X as [EX|X], Y as [EY|Y]; simplify_eq; [done| | |by apply IH].
  - destruct N. apply list_elem_of_fmap. by exists (j, y).
  - destruct N. apply list_elem_of_fmap. by exists (j, x).
Qed.

(** A check does not depend on the order of the map.  For names without a colon: in
    whatever order Go ranges over the strategies, the brakes, the cool-downs and the stored
    correlations come out the same, and the same events are raised for the same pairs with
    the same correlation, which does not depend on the order of its two strategies. *)
Theorem correlation_check_order_free ct ids ids' :
  NoDup ids -> Forall plain ids -> ids ≡ₚ ids' ->
  (CheckCorrelations ct ids).1.1 = (CheckCorrelations ct ids').1.1 /\
  map byKey (CheckCorrelations ct ids).2 ≡ₚ map byKey (CheckCorrelations ct ids').2 /\
  forall a b, computePearson ct a b = computePearson ct b a /\ IsBrakeActive ct a b = IsBrakeActive ct b a.
Proof.
  intros D F P. assert (D' : NoDup ids') by by rewrite <- P. assert (F' : Forall plain ids') by by rewrite <- P.
  assert (Q : map (keyed ct) (pairsOf (activeIDs ct ids)) ≡ₚ map (keyed ct) (pairsOf (activeIDs ct ids'))).
  { apply symmetric_pairs; [|by apply filter_perm]. intros a b. unfold keyed. cbn [fst snd]. by rewrite pairKey_sym, pearson_sym. }
  assert (K : forall l, map (fun p => pairKey p.1 p.2) l = map fst (map (keyed ct) l)) by (intros l; by rewrite map_map).
  destruct (active_ok ct ids D F) as [Da Fa], (active_ok ct ids' D' F') as [Da' Fa'].
  pose proof (keys_distinct _ Da Fa) as N. pose proof (keys_distinct _ Da' Fa') as N'.
  unfold CheckCorrelations.
  destruct (fold_left checkStep (pairsOf (activeIDs ct ids)) _) as [[c1 p1] e1] eqn:E1.
  destruct (fold_left checkStep (pairsOf (activeIDs ct ids')) _) as [[c2 p2] e2] eqn:E2. cbn [fst snd].
  destruct (fold_check _ _ _ _ _ _ _ N E1) as (S1 & C1 & V1), (fold_check _ _ _ _ _ _ _ N' E2) as (S2 & C2 & V2).
  split; [|split].
  - apply tracker_eq; [eapply settings_trans; [by apply settings_sym|done]|]. intros k.
    rewrite K in N'. destruct (C1 k) as [(r & R & ->)|[O ->]], (C2 k) as [(r' & R' & ->)|[O' ->]]; [|exfalso..|done].
    + rewrite Q in R. by rewrite (NoDup_fst_unique _ k r r' N' R R').
    + apply O'. rewrite K, <- Q. apply list_elem_of_fmap. by exists (k, r).
    + apply O. rewrite K, Q. apply list_elem_of_fmap. by exists (k, r').
  - rewrite V1, V2. cbn [map app]. apply (Permutation_flat_map (keyedEvents ct)), Q.
  - intros a b. split; [apply pearson_sym|]. unfold IsBrakeActive. by rewrite pairKey_sym.
Qed.

(** A check of the pair on histories that neither breach the threshold nor jump. *)
Inductive quietly (a b : string) : nat -> CorrelationTracker -> CorrelationTracker -> Prop :=
  | quiet_none ct : quietly a b 0 ct ct
  | quiet_more n ct ct1 histories :
      quietly a b n ct ct1 ->
      let ct2 := ct1 <| equityHistories := histories |> in
      (threshold ct2 <? computePearson ct2 a b) = false ->
      velocityTriggered ct2 (pairKey a b) (computePearson ct2 a b) = false ->
      quietly a b (S n) ct (checkPair ct2 a b).1.1.

Definition brakeOf (ct : CorrelationTracker) (a b : string) : Z := mget 0%Z (brakes ct) (pairKey a b).

Lemma breach_brakes ct a b :
  (threshold ct <? computePearson ct a b) = true ->
  brakeOf (checkPair ct a b).1.1 a b = brakeDuration ct /\ brakeDuration (checkPair ct a b).1.1 = brakeDuration ct.
Proof.
  intros B. pose proof (checkPair_cells ct a b) as C. cbv zeta in C. destruct (checkPair ct a b) as [[ct1 pc] evs].
  destruct C as ((_ & _ & _ & D & _) & C & _). cbn [fst]. split; [|done]. unfold cellStep, brakeStep in C. rewrite B in C.
  unfold brakeOf, mget. by destruct (jumps _ _ _); injection C as -> _ _.
Qed.

Lemma quiet_check ct a b :
  (threshold ct <? computePearson ct a b) = false ->
  velocityTriggered ct (pairKey a b) (computePearson ct a b) = false ->
  brakeOf (checkPair ct a b).1.1 a b = Z.max 0 (brakeOf ct a b - 1) \/ (brakeOf ct a b < 0)%Z.
Proof.
  intros B J. pose proof (checkPair_cells ct a b) as C. cbv zeta in C. destruct (checkPair ct a b) as [[ct1 pc] evs].
  destruct C as (_ & C & _). cbn [fst]. unfold cellStep, brakeStep in C. rewrite B in C.
  change (jumps ct (computePearson ct a b) (cellOf ct (pairKey a b))) with (velocityTriggered ct (pairKey a b) (computePearson ct a b)) in C.
  rewrite J in C. unfold brakeOf. cbn [cellOf fst] in C. change (default 0%Z (brakes ct !! pairKey a b)) with (mget 0%Z (brakes ct) (pairKey a b)) in C.
  destruct (Z.ltb_spec 0 (mget 0%Z (brakes ct) (pairKey a b))); injection C as E _ _; unfold mget in *; rewrite E; cbn in *; lia.
Qed.

(** C31: how long a brake lasts.  A breach of the threshold sets the brake of the pair; however
    the equity histories move in between, as long as the pair neither breaches nor jumps the
    brake counts the checks, and discounts the pair for exactly [brakeDuration] of them. *)
Theorem correlation_brake_lifetime ct a b n ct' :
  (threshold ct <? computePearson ct a b) = true -> (0 <= brakeDuration ct)%Z ->
  quietly a b n (checkPair ct a b).1.1 ct' ->
  brakeOf ct' a b = Z.max 0 (brakeDuration ct - Z.of_nat n) /\
  BrakeDiscount ct' a b = (if Z.ltb (Z.of_nat n) (brakeDuration ct) then 0.70 else 1.0) /\
  IsBrakeActive ct' b a = Z.ltb (Z.of_nat n) (brakeDuration ct).
Proof.
  intros B D Q. assert (E : brakeOf ct' a b = Z.max 0 (brakeDuration ct - Z.of_nat n)).
  { destruct (breach_brakes ct a b B) as [S _]. remember (checkPair ct a b).1.1 as ct0 eqn:E0. clear E0 B.
    induction Q as [ct0|n ct0 ct1 h Q IH ct2 B J]; [lia|]. specialize (IH S).
    destruct (quiet_check ct2 a b B J) as [Q'|Q']; change (brakeOf ct2 a b) with (brakeOf ct1 a b) in Q'; lia. }
  assert (A : IsBrakeActive ct' a b = Z.ltb (Z.of_nat n) (brakeDuration ct)).
  { change (Z.ltb 0 (brakeOf ct' a b) = Z.ltb (Z.of_nat n) (brakeDuration ct)). rewrite E. lia. }
  split; [done|]. split; [by unfold BrakeDiscount; rewrite A|]. unfold IsBrakeActive in *. by rewrite (pairKey_sym b a).
Qed.

(** Two strategies that move together, a third that does not, and a window of four. *)
Definition tracked (names : list string) (equities : list (list float64)) : CorrelationTracker :=
  fold_left (fun ct se => default ct (RecordEquity ct se.1 se.2))
    (flat_map (fun row => zip names row) equities) (NewCorrelationTracker 4 0.6).

Definition together : CorrelationTracker :=
  tracked ["a"; "b"; "c"]%string [[100; 50; 80]; [110; 55; 88]; [105; 52; 84]; [120; 60; 80]].

Lemma correlation_check_order_free_witness :
  (CheckCorrelations together ["a"; "b"; "c"]%string).1.1 = (CheckCorrelations together ["c"; "a"; "b"]%string).1.1 /\
  map BeAction (CheckCorrelations together ["a"; "b"; "c"]%string).2 = [BrakeApplied].
Proof.
  split; [|by vm_compute].
  destruct (correlation_check_order_free together ["a"; "b"; "c"]%string ["c"; "a"; "b"]%string) as [P _]; [| | |exact P].
  - by apply (bool_decide_unpack _).
  - repeat constructor; by intros E.
  - apply (Permutation_app_comm ["a"; "b"]%string ["c"]%string).
Defined.

(** Strategy b then moves like c did. *)
Definition apart : gmap string (list float64) := <["b"%string := [80; 88; 84; 80]]> (equityHistories together).

Lemma correlation_brake_lifetime_witness :
  let ct0 := SetVelocityBrakeParams together 2 3 in
  let check ct := (checkPair (ct <| equityHistories := apart |>) "a" "b").1.1 in
  BrakeDiscount (check (check (checkPair ct0 "a" "b").1.1)) "a" "b" = 0.70.
Proof.
  cbv zeta. destruct (correlation_brake_lifetime (SetVelocityBrakeParams together 2 3) "a" "b" 2
    (checkPair ((checkPair ((checkPair (SetVelocityBrakeParams together 2 3) "a" "b").1.1 <| equityHistories := apart |>) "a" "b").1.1
       <| equityHistories := apart |>) "a" "b").1.1) as (_ & P & _); [by vm_compute|by vm_compute| |exact P].
  apply quiet_more; [|by vm_compute|by vm_compute]. apply quiet_more; [|by vm_compute|by vm_compute]. apply quiet_none.
Defined.
