(* ===== verification/Rebalance.v ===== *)
(** * The rebalance scheduler ([internal/backtest/rebalance_scheduler.go], vix_detector.go)

    [RebalanceScheduler] says which strategies of an orchestrated run share the capital and
    in which proportion; [VIXAccelerationDetector] replaces the smoothed VIX by the raw one
    when it jumps. *)
From Stdlib Require Import ZArith Lia Bool Floats.
From coqutil Require Import RecordSettersUsingExistingGetters.
From S2P Require Import Prelude Float64 FloatRound FloatLaws Regime StopLoss Trade Engine Metrics.
From S2P Require MonteCarlo.
Import GoInt.
Local Open Scope float_scope.
Local Open Scope go_scope.

Record RebalanceScheduler := mkScheduler {
  Cadence : Z;
  BarCount : Z;
  matrix : RegimeActivationMatrix;
  trailingSharpe : gmap string (list float64)
}.

Definition NewRebalanceScheduler (barCadence : Z) (m : RegimeActivationMatrix) : RebalanceScheduler :=
  mkScheduler barCadence 0 m ∅.

Record EligibilityResult := mkEligibility {
  ElStrategyID : string; Eligible : bool; ElSharpe : float64; ElKelly : float64; ElReason : string
}.

(** The last Sharpe ratio of the list, 0 when there is none or it is not a number. *)
Definition trailingSharpeFor (s : RebalanceScheduler) (strategyID : string) : float64 :=
  match list.last (mget [] (trailingSharpe s) strategyID) with
  | Some x => if math.IsNaN x || math.IsInf x 0 then 0 else x
  | None => 0
  end.

Definition EvaluateEligibility (s : RebalanceScheduler) (strategyID : string) (regime : Z) (hasSignal : bool)
    (kellyOverride : float64) : EligibilityResult :=
  if ParticipationForRegime (matrix s) strategyID regime <=? 0 then
    mkEligibility strategyID false 0 kellyOverride "regime_blocked"
  else
    let k := KellyForRegime (matrix s) strategyID regime in
    let kelly := if k >? 0 then k else kellyOverride in
    if negb hasSignal then mkEligibility strategyID false 0 kelly "no_signal"
    else mkEligibility strategyID true (trailingSharpeFor s strategyID) kelly "active".

Definition floatMax (a b : float64) : float64 := if a >? b then a else b.

(** ** Weights: Kelly times the positive Sharpe ratio *)
Definition rawWeight (e : EligibilityResult) : float64 := ElKelly e * floatMax (ElSharpe e) 0.

Definition addWeight (acc : gmap string float64 * float64) (e : EligibilityResult) : gmap string float64 * float64 :=
  (<[ElStrategyID e := rawWeight e]> acc.1, acc.2 + rawWeight e).

(** The nil map for no strategy. *)
Definition ComputeWeights (active : list EligibilityResult) : gmap string float64 :=
  match active with
  | [] => ∅
  | _ =>
      let '(numerator, denominator) := fold_left addWeight active (∅, 0) in
      if denominator <=? 0 then
        let equal := 1.0 / of_Z (Z.of_nat (length active)) in
        fold_left (fun w e => <[ElStrategyID e := equal]> w) active ∅
      else fold_left (fun w e => <[ElStrategyID e := mget 0 numerator (ElStrategyID e) / denominator]> w) active ∅
  end.

Definition ActiveWeight (weights : gmap string float64) (strategyID : string) : float64 := mget 0 weights strategyID.

(** ** The cadence *)
Definition IsFullRebalanceDue (s : RebalanceScheduler) : bool * RebalanceScheduler :=
  let n := i64 (BarCount s + 1) in
  if Z.leb (Cadence s) n then (true, s <| BarCount := 0%Z |>) else (false, s <| BarCount := n |>).

Definition CadenceForTimeframe (tf : string) : Z :=
  if bool_decide (tf = "1d"%string) then 20
  else if bool_decide (tf = "4h"%string) then 40
  else if bool_decide (tf = "1h"%string) then 80
  else if bool_decide (tf = "30m"%string) then 120
  else if bool_decide (tf = "15m"%string) then 160
  else 40.

(** ** Trailing Sharpe ratios *)
Definition sharpeFromReturns (returns : list float64) : float64 :=
  let n := Z.of_nat (length returns) in
  if Z.ltb n 2 then 0
  else
    let mean := sumOf returns / of_Z n in
    let variance := fold_left (fun v r => let diff := r - mean in v + diff * diff) returns 0 / of_Z (n - 1) in
    if variance <? 1e-12 then 0 else mean / math.Sqrt variance.

Definition calculateTrailingSharpeFromTrades {SL : SortSlice} (trades : list Trade) (window : nat) : float64 :=
  if (length trades <? 2)%nat then 0
  else
    let subset := if (window <? length trades)%nat then lastn window trades else trades in
    sharpeFromReturns (sortSlice MonteCarlo.lessFloat (map TPnLPct subset)).

Definition RecordSharpe {SL : SortSlice} (s : RebalanceScheduler) (strategyID : string) (trades : list Trade) : RebalanceScheduler :=
  let sharpe := calculateTrailingSharpeFromTrades trades 20 in
  s <| trailingSharpe ::= insert strategyID (lastn 20 (mget [] (trailingSharpe s) strategyID ++ [sharpe])) |>.

(** ** The VIX detector *)
Record vixPoint := mkVixPoint { vpValue : float64; vpSmoothed : bool }.

Record VIXAccelerationDetector := mkDetector { vixHistory : list vixPoint; vixThreshold : float64; vixWindow : nat }.

Definition NewVIXAccelerationDetector (threshold : float64) : VIXAccelerationDetector := mkDetector [] threshold 2.

(** The jump from the first to the last reading of the window. *)
Definition acceleration (history : list vixPoint) : float64 :=
  match history, list.last history with
  | first :: _ :: _, Some latest => math.Abs (vpValue latest - vpValue first)
  | _, _ => 0
  end.

Definition pushVIX (v : VIXAccelerationDetector) (rawVIX : float64) : VIXAccelerationDetector :=
  v <| vixHistory := lastn (vixWindow v + 1) (vixHistory v ++ [mkVixPoint rawVIX false]) |>.

Definition jumped (v : VIXAccelerationDetector) : bool :=
  (2 <=? length (vixHistory v))%nat && (vixThreshold v <? acceleration (vixHistory v)).

Definition Feed (v : VIXAccelerationDetector) (rawVIX smoothVIX : float64) : VIXAccelerationDetector * float64 :=
  let v := pushVIX v rawVIX in (v, if jumped v then rawVIX else smoothVIX).

Definition IsSpike (v : VIXAccelerationDetector) (rawVIX smoothVIX : float64) : VIXAccelerationDetector * bool :=
  let v := (Feed v rawVIX smoothVIX).1 in (v, jumped v).

Definition ResetVIX (v : VIXAccelerationDetector) : VIXAccelerationDetector := v <| vixHistory := [] |>.

(** ** The cadence is exact *)

(** The answers of [n] bars. *)
Fixpoint answers (s : RebalanceScheduler) (n : nat) : list bool :=
  match n with
  | O => []
  | S n => let '(due, s) := IsFullRebalanceDue s in due :: answers s n
  end.

Lemma answers_from n : forall s a, (0 < Cadence s < 2 ^ 63)%Z -> (0 <= BarCount s < Cadence s)%Z -> (0 <= a)%Z ->
  BarCount s = (a mod Cadence s)%Z ->
  answers s n = map (fun i => Z.eqb ((a + 1 + Z.of_nat i) mod Cadence s) 0) (seq 0 n).
Proof.
  induction n as [|n IH]; intros [T b m tr] a C B A E; [done|]. cbn [Cadence BarCount] in *.
  cbn [answers seq map]. unfold IsFullRebalanceDue. cbn [Cadence BarCount].
  rewrite i64_id by (unfold in_i64; lia). rewrite <- seq_shift, map_map, Z.add_0_r.
  assert (M : ((a + 1) mod T = if Z.leb T (b + 1) then 0 else b + 1)%Z).
  { pose proof (Z.div_mod a T ltac:(lia)). destruct (Z.leb_spec T (b + 1)); symmetry.
    - apply (Z.mod_unique_pos _ _ (a / T + 1)); nia.
    - apply (Z.mod_unique_pos _ _ (a / T)); lia. }
  assert (R : forall k, k = ((a + 1) mod T)%Z ->
    answers (mkScheduler T k m tr) n = map (fun i => Z.eqb ((a + 1 + Z.of_nat (S i)) mod T) 0) (seq 0 n)).
  { intros k ->. rewrite (IH (mkScheduler T _ m tr) (a + 1)%Z); cbn [Cadence BarCount];
      [|lia|apply Z.mod_pos_bound; lia|lia|done].
    apply map_ext. intros i. f_equal. f_equal. lia. }
  destruct (Z.leb_spec T (b + 1)) as [L|L]; rewrite M.
  - f_equal. by apply R.
  - f_equal; [symmetry; apply Z.eqb_neq; lia|]. by apply R.
Qed.

(** A rebalance comes every [T] bars, and at no other. *)
Lemma rebalance_every T m n :
  (0 < T < 2 ^ 63)%Z ->
  answers (NewRebalanceScheduler T m) n = map (fun i => Z.eqb (Z.of_nat (S i) mod T) 0) (seq 0 n).
Proof.
  intros H. rewrite (answers_from n _ 0); cbn; try lia; [|by rewrite Z.mod_0_l by lia].
  apply map_ext. intros i. f_equal. f_equal. lia.
Qed.

(** ** Weights are shares *)

(** Non-negative, possibly infinite. *)
Definition nonneg (x : float64) : Prop := fnan x = false /\ (0 <= fv x)%Z.

Lemma add_nonneg x y : nonneg x -> pos0 y -> nonneg (x + y) /\ (fv x <= fv (x + y) /\ fv y <= fv (x + y))%Z.
Proof.
  intros [N H] P. destruct (ffin x) eqn:F.
  - destruct (add_pos0 x y) as (A & L1 & L2); [by split|done|]. split; [|done]. split; [done|lia].
  - rewrite (nonfin_pos x N F H).
    assert (E : infinity + y = infinity).
    { apply Prim2SF_inj. rewrite add_spec. destruct (ffin_cases y (pos0_fin _ P)) as [(s & -> & _)|(s & m & e & -> & _)]; reflexivity. }
    rewrite E. split; [by vm_compute|]. split; [done|]. pose proof (fv_range y). change (fv infinity) with fmaxv. lia.
Qed.

Lemma div_infinity x : pos0 x -> unit0 (x / infinity).
Proof.
  intros P. assert (E : fv (x / infinity) = 0%Z /\ ffin (x / infinity) = true).
  { unfold fv, ffin, fnan, finf. rewrite div_spec. destruct (ffin_cases x (pos0_fin _ P)) as [(s & -> & _)|(s & m & e & -> & _)]; destruct s; split; reflexivity. }
  destruct E as [E F]. split; [done|]. rewrite E. pose proof onev_pos. lia.
Qed.

Lemma share_unit x d : pos0 x -> nonneg d -> (d <=? 0) = false -> (fv x <= fv d)%Z -> unit0 (x / d).
Proof.
  intros P [N H] D L. apply leb_false in D; [|done..]. rewrite fv_zero_lit in D. destruct (ffin d) eqn:F.
  - by apply div_le_one.
  - rewrite (nonfin_pos d N F H). by apply div_infinity.
Qed.

(** A Kelly fraction in [0,1] and a Sharpe ratio that is a number. *)
Definition weighable (e : EligibilityResult) : Prop := unit0 (ElKelly e) /\ ffin (ElSharpe e) = true.

Lemma raw_weight_ok e : weighable e -> pos0 (rawWeight e).
Proof.
  intros [K F]. unfold rawWeight, floatMax.
  assert (P : pos0 (if ElSharpe e >? 0 then ElSharpe e else 0)).
  { destruct (ElSharpe e >? 0) eqn:E; [|apply pos0_zero]. apply ltb_true in E as (_ & _ & E). rewrite fv_zero_lit in E. split; [done|lia]. }
  rewrite Fills.fmul_comm. by apply mul_unit_le.
Qed.

Lemma weights_fold es : forall (num : gmap string float64) den,
  Forall weighable es -> nonneg den -> map_Forall (fun _ x => pos0 x /\ (fv x <= fv den)%Z) num ->
  let r := fold_left addWeight es (num, den) in
  nonneg r.2 /\ map_Forall (fun _ x => pos0 x /\ (fv x <= fv r.2)%Z) r.1.
Proof.
  induction es as [|e es IH]; intros num den F N M; [done|]. inversion F as [|? ? We F']; subst. cbn [fold_left addWeight].
  pose proof (raw_weight_ok e We) as P. destruct (add_nonneg den (rawWeight e) N P) as (N' & L1 & L2).
  apply IH; [done|done|]. cbn [addWeight fst snd]. apply map_Forall_insert_2; [by split|].
  eapply map_Forall_impl; [exact M|]. intros k x [Px Lx]. split; [done|]. cbn [fst snd] in *. lia.
Qed.

Lemma inserted_values (f : EligibilityResult -> float64) (Q : float64 -> Prop) es : forall m : gmap string float64,
  map_Forall (fun _ x => Q x) m -> Forall (fun e => Q (f e)) es ->
  map_Forall (fun _ x => Q x) (fold_left (fun w e => <[ElStrategyID e := f e]> w) es m).
Proof.
  induction es as [|e es IH]; intros m M F; [done|]. inversion F; subst. cbn [fold_left].
  apply IH; [by apply map_Forall_insert_2|done].
Qed.

Lemma inserted_keys (f : EligibilityResult -> float64) es : forall (m : gmap string float64) k,
  is_Some (fold_left (fun w e => <[ElStrategyID e := f e]> w) es m !! k) <-> k ∈ map ElStrategyID es \/ is_Some (m !! k).
Proof.
  induction es as [|e es IH]; intros m k; cbn [fold_left map]; [rewrite elem_of_nil; tauto|].
  rewrite IH, elem_of_cons. destruct (decide (k = ElStrategyID e)) as [->|N].
  - rewrite lookup_insert_eq. split; [tauto|]. intros _. right. by eexists.
  - rewrite lookup_insert_ne by done. tauto.
Qed.


Definition threeEligible : list EligibilityResult :=
  [mkEligibility "a" true 1.5 0.25 "active"; mkEligibility "b" true 0.5 0.15 "active"; mkEligibility "c" true (-1) 0.25 "active"].


(** With the same reading for both arguments the detector changes nothing. *)
Lemma detector_idle v vix : (Feed v vix vix).2 = vix.
Proof. unfold Feed. cbn. by destruct (jumped _). Qed.
