(* ===== verification/Orchestrator.v ===== *)
(** * The orchestrator ([internal/backtest/orchestrator.go])

    Several strategies over several symbols share one capital: the scheduler weighs them,
    the correlation tracker watches them, each has a risk pipeline of its own over the one
    capital pool.  An engine is referred to by its index, the pointer the source shares; the
    pool, shared by the pipelines, is lent to the pipeline of a call and taken back.  The
    signal gate's components are those of the engine.  Go ranges over the maps in an
    unspecified order: those orders are arguments.  The context is never cancelled. *)
From Stdlib Require Import ZArith Lia Bool Floats String.
From coqutil Require Import RecordSettersUsingExistingGetters.
From S2P Require Import Prelude Float64 FloatRound FloatLaws Price PropFirm Sizing TradingControls.
From S2P Require Import Regime StopLoss Fills Gates SignalGate Enforcer PoolSim Pipeline.
From S2P Require Import Timeline Trade Engine Metrics MultiRun Correlation Rebalance.
From S2P Require MonteCarlo.
Import GoInt.
Local Open Scope float_scope.
Local Open Scope go_scope.

Record OrchestratorStrategy := mkOrchStrategy { OsStrategyID : string; OsSymbol : string; OsTimeframe : string }.

(** [EnableCorrelationBrake] only decides whether breaches are kept. *)
Record OrchestratorConfig := mkOrchConfig {
  OcStrategies : list OrchestratorStrategy;
  OcStart : Z;
  OcEnd : Z;
  OcCapital : float64;
  RebalanceBars : Z;
  OcKellyFraction : float64;
  OcMaxPositionPct : float64;
  AllowFractional : bool;
  EnableCorrelationBrake : bool;
  CorrelationThreshold : float64;
  FrictionModel : string;
  OcCommissionBps : float64
}.

Record OrchAllocationPoint := mkAllocation {
  AlTime : Z; AlStrategyID : string; AlWeight : float64; AlCapital : float64; IsActive : bool
}.

Record OrchestrationRunResult := mkOrchResult {
  PoolEquity : list EquityPoint; PoolSharpe : float64; PoolSortino : float64; PoolMaxDD : float64; PoolReturnPct : float64;
  OrTrades : list Trade; OrStrategyPnL : gmap string float64; ActiveCount : list Z;
  AllocationHistory : list OrchAllocationPoint; CorrelationBreaches : list BreachEvent
}.

(** The database; [None] is an error. *)
Record Database := mkDatabase {
  LoadRegimeLogs : option (list RegimeLog);
  LoadVIXLogs : option (list VIXLog);
  LoadCandlesTF : string -> string -> option (list (list Candle))
}.

Section Orchestrator.
Context {rand : Type}.
Variable NormFloat64 : rand -> float64 * rand.
Variable RandFloat64 : rand -> float64 * rand.
Context {R : Type} `{StrategyRunner R} {SL : SortSlice}.
(** [registry.Create]: [None] for an unknown strategy. *)
Variable Create : string -> option R.
(** [time.Now()] of the pipeline. *)
Variable Now : Z.
Variable rangePositions : gmap string Trade -> list (string * Trade).
Variable rangeWeights : gmap string float64 -> list (string * float64).
Variable rangeHistories : gmap string (list float64) -> list string.

Abbreviation pipe := (RiskPipeline SignalGateImpl.t (CapitalPoolSim R) PropFirmEnforcer.t).

Record orchestratorEngine := mkOrchEngine {
  eStrategyID : string;
  eSymbol : string;
  eTimeframe : string;
  eRunner : R;
  ePipeline : pipe;
  eKellyMult : float64;
  currentPosition : float64;
  entryPrice : float64;
  eSide : string
}.

Record Orchestrator := mkOrchestrator {
  engines : list orchestratorEngine;
  enginesByID : gmap string nat;
  enginesBySymbolTF : gmap string (list nat);
  pool : CapitalPoolSim R;
  orchMatrix : RegimeActivationMatrix;
  scheduler : RebalanceScheduler;
  correlation : CorrelationTracker;
  vixDetector : VIXAccelerationDetector;
  orchFillSim : @FillSimulator rand;
  config : OrchestratorConfig;
  orderIDSeq : Z
}.

(** ** Construction *)
Definition withDefaults (cfg : OrchestratorConfig) : OrchestratorConfig :=
  mkOrchConfig (OcStrategies cfg) (OcStart cfg) (OcEnd cfg) (OcCapital cfg)
    (if Z.leb (RebalanceBars cfg) 0 then 20 else RebalanceBars cfg)
    (if OcKellyFraction cfg <=? 0 then 0.25 else OcKellyFraction cfg)
    (if (OcMaxPositionPct cfg <=? 0.001) || (OcMaxPositionPct cfg >? 0.20) then 0.02 else OcMaxPositionPct cfg)
    (AllowFractional cfg) (EnableCorrelationBrake cfg)
    (if CorrelationThreshold cfg <=? 0 then 0.6 else CorrelationThreshold cfg)
    (FrictionModel cfg)
    (if OcCommissionBps cfg <=? 0 then 2.0 else OcCommissionBps cfg).

(** [rng] is the fill simulator's generator. *)
Definition NewOrchestrator (cfg : OrchestratorConfig) (rng : rand) : Orchestrator :=
  let slippage := if bool_decide (FrictionModel cfg = "realistic"%string) then RealisticEquitySlippage else DefaultEquitySlippage in
  let cfg := withDefaults cfg in
  mkOrchestrator [] ∅ ∅ (NewCapitalPoolSim None 0) NewRegimeActivationMatrix
    (NewRebalanceScheduler (RebalanceBars cfg) NewRegimeActivationMatrix)
    (NewCorrelationTracker 30 (CorrelationThreshold cfg)) (NewVIXAccelerationDetector 5.0)
    (mkSim slippage rng) cfg 0.

Definition engineID (sym tf sid : string) : string := (sym +:+ ":" +:+ tf +:+ ":" +:+ sid)%string.
Definition idOf (e : orchestratorEngine) : string := engineID (eSymbol e) (eTimeframe e) (eStrategyID e).

Inductive addError := DuplicateEngine (key : string) | UnknownStrategy (sid : string).

Definition newSignalGate : SignalGateImpl.t :=
  SignalGateImpl.SetBacktestMode
    (SignalGateImpl.NewSignalGateImpl (Some (VolatilityHalt.NewVolatilityHalt 3.0)) (Some (NewPositionSizer None))
       (Some (ExposureTracker.NewExposureTracker 5.0 0.25)) None) true.

Definition AddStrategy (o : Orchestrator) (sym tf sid : string) : addError + Orchestrator :=
  let key := engineID sym tf sid in
  match enginesByID o !! key with
  | Some _ => inl (DuplicateEngine key)
  | None =>
      match Create sid with
      | None => inl (UnknownStrategy sid)
      | Some runner =>
          let pipeline := mkPipeline (Some newSignalGate) None None (OcKellyFraction (config o)) (Some (orchMatrix o)) 0 ∅ in
          let eng := mkOrchEngine sid sym tf runner pipeline (OcKellyFraction (config o)) 0 0 "" in
          let i := length (engines o) in
          let symTF := (sym +:+ ":" +:+ tf)%string in
          inr (o <| engines ::= (fun l => l ++ [eng]) |> <| enginesByID ::= insert key i |>
                 <| enginesBySymbolTF ::= (fun m => <[symTF := mget [] m symTF ++ [i]]> m) |>)
      end
  end.

(** ** The local variables of [Run]: the trade of an open position carries its strategy *)
Record RunState := mkRunState {
  orch : Orchestrator;
  rCapital : float64;
  rPeakCapital : float64;
  rEquity : list EquityPoint;
  rTrades : list Trade;
  rAllocation : list OrchAllocationPoint;
  rBreaches : list BreachEvent;
  rStrategyPnL : gmap string float64;
  rActiveCounts : list Z;
  openPositions : gmap string Trade;
  currentWeights : gmap string float64;
  strategyTrades : gmap string (list Trade);
  rLastDay : option Z
}.

(** [time.Time.Unix] *)
Definition unix (t : Z) : Z := (t / 1000000000)%Z.

Definition regimeTimeIndex (logs : list RegimeLog) : gmap Z Z :=
  fold_left (fun m l => <[unix (RLTime l) := HMMState l]> m) logs ∅.

(** The symbols and timeframes of the engines, each once. *)
Definition dataPairs (engs : list orchestratorEngine) : list (string * string) :=
  fold_left (fun pairs e => let p := (eSymbol e, eTimeframe e) in
                            if bool_decide (p ∈ pairs) then pairs else pairs ++ [p]) engs [].

Definition candleSets (db : Database) (engs : list orchestratorEngine) : list (list Candle) :=
  omap (fun p => candles ← LoadCandlesTF db p.1 p.2; head candles) (dataPairs engs).

Definition startRun (o : Orchestrator) : RunState :=
  let capital := OcCapital (config o) in
  let o := o <| pool := NewCapitalPoolSim (Some DefaultFTMOProfile) capital |> in
  mkRunState o capital capital [] [] [] [] ∅ [] ∅ ∅ ∅ None.

(** ** A bar *)
Definition onOrch (f : Orchestrator -> Orchestrator) (st : RunState) : RunState := st <| orch ::= f |>.
Definition putEngine (i : nat) (e : orchestratorEngine) (st : RunState) : RunState := onOrch (set engines (<[i := e]>)) st.

Definition newDay (candle : Candle) (st : RunState) : RunState :=
  let day := truncateDay (Time candle) in
  if bool_decide (rLastDay st = Some day) then st
  else onOrch (set pool SimResetDaily) st <| rLastDay := Some day |>.

(** The cost of moving every weighted engine to its target. *)
Definition rebalanceStep (o : Orchestrator) (capital : float64) (totalCost : float64) (e : string * float64) : float64 :=
  match (i ← enginesByID o !! e.1; engines o !! i) with
  | None => totalCost
  | Some eng =>
      let targetCapital := e.2 * capital in
      if (currentPosition eng >? 0) && (entryPrice eng >? 0) then
        let delta := targetCapital - currentPosition eng * entryPrice eng in
        if math.Abs delta <? 1.0 then totalCost else totalCost + math.Abs delta * 0.0002
      else totalCost
  end.

Definition executeRebalance (o : Orchestrator) (weights : gmap string float64) (capital : float64) : float64 :=
  let totalCost := fold_left (rebalanceStep o capital) (rangeWeights weights) 0 in
  if math.IsNaN totalCost || math.IsInf totalCost 0 then 0 else totalCost.

(** A strategy without an open position has a signal. *)
Definition eligibleEngines (regime : Z) (st : RunState) : list EligibilityResult :=
  List.filter Eligible
    (map (fun eng => EvaluateEligibility (scheduler (orch st)) (eStrategyID eng) regime
                       (negb (bool_decide (is_Some (openPositions st !! idOf eng)))) (eKellyMult eng)) (engines (orch st))).

Definition rebalance (candle : Candle) (regime : Z) (st : RunState) : RunState :=
  let '(due, s) := IsFullRebalanceDue (scheduler (orch st)) in
  let st := onOrch (fun o => o <| scheduler := s |>) st in
  if due then
    let weights := ComputeWeights (eligibleEngines regime st) in
    let capital := rCapital st - executeRebalance (orch st) weights (rCapital st) in
    st <| currentWeights := weights |> <| rCapital := capital |>
       <| rAllocation ::= (fun h => h ++ map (fun eng => let w := ActiveWeight weights (eStrategyID eng) in
            mkAllocation (Time candle) (eStrategyID eng) w (w * capital) (w >? 0)) (engines (orch st))) |>
  else st.

Definition watchCorrelations (st : RunState) : RunState :=
  let ct := correlation (orch st) in
  let '(ct', _, breaches) := CheckCorrelations ct (rangeHistories (equityHistories ct)) in
  let st := onOrch (fun o => o <| correlation := ct' |>) st in
  if EnableCorrelationBrake (config (orch st)) then st <| rBreaches ::= (fun l => l ++ breaches) |> else st.

(** [o.orderIDSeq++] and a fill at the bar's close. *)
Definition fillAtClose (candle : Candle) (symbol side : string) (quantity : float64) (o : Orchestrator) : SimulatedFill * Orchestrator :=
  let price := Float64 (Close candle) in
  let id := u32 (orderIDSeq o + 1) in
  let '(fill, sim) := SimulateFillWithTCA NormFloat64 RandFloat64 (orchFillSim o) id symbol price quantity side price price price
    (Volume candle) in
  (fill, o <| orderIDSeq := id |> <| orchFillSim := sim |>).

(** The size a signal asks for. *)
Definition baseSizeOf (candle : Candle) (regime : Z) (eng : orchestratorEngine) (st : RunState) : float64 :=
  let w := ActiveWeight (currentWeights st) (eStrategyID eng) in
  let k := ElKelly (EvaluateEligibility (scheduler (orch st)) (eStrategyID eng) regime true (eKellyMult eng)) in
  let kelly := if k <=? 0 then eKellyMult eng else k in
  let sizingPct := OcMaxPositionPct (config (orch st)) * kelly in
  let sizingPct := if w >? 0 then sizingPct * w else sizingPct * 0.5 in
  rCapital st * sizingPct / Float64 (Close candle).

(** The pipeline's answer; the call leaves its state in the engine and in the pool. *)
Definition askPipeline (candle : Candle) (regime : Z) (i : nat) (eng : orchestratorEngine) (raw : Signal) (baseSize : float64)
    (st : RunState) : ProcessSignalResult * RunState :=
  let p := ePipeline eng in
  let p := mkPipeline (SignalG p) (Some (pool (orch st))) (PropFirmG p) (KellyMult p) (RegimeMatrix p) regime (symbolNotional p) in
  let '(p, res) := ProcessSignal Now p
    (mkPSReq (eStrategyID eng) (Symbol candle) (SigSide raw) (Float64 (Close candle)) (SigPWin raw) baseSize
       (currentPosition eng) (rCapital st) false false false) in
  (res, onOrch (fun o => o <| pool := default (pool o) (Capital p) |>) (putEngine i (eng <| ePipeline := withCapital p None |>) st)).

(** What is filled: an answer that is not an approval leaves the size asked for. *)
Definition fillQtyOf (res : ProcessSignalResult) (baseSize : float64) : float64 :=
  if PSApproved res && (PSSize res >? 0) then PSSize res else baseSize.

Definition minQty (st : RunState) : float64 := if AllowFractional (config (orch st)) then 0.01 else 1.0.

Definition openPosition (candle : Candle) (i : nat) (side : string) (fillQty : float64) (st : RunState) : RunState :=
  match engines (orch st) !! i with
  | None => st
  | Some eng =>
      let '(fill, o) := fillAtClose candle (Symbol candle) side fillQty (orch st) in
      let fp := if Float64 (FillPrice fill) <=? 0 then Float64 (Close candle) else Float64 (FillPrice fill) in
      let fq := if FillQuantity fill <=? 0 then fillQty else FillQuantity fill in
      let t := blankTrade <| TSymbol := Symbol candle |> <| TSide := side |> <| TQuantity := fq |>
                 <| TEntryPrice := PriceFromFloat fp |> <| TEntryTime := Time candle |> <| TStrategyID := eStrategyID eng |> in
      putEngine i (eng <| currentPosition := fq |> <| entryPrice := fp |> <| eSide := side |>)
        (st <| orch := o |> <| openPositions ::= insert (idOf eng) t |>)
  end.

(** The signal of engine [i] with its size; [None]: the runner panics. *)
Definition seekSignal (candle : Candle) (regime : Z) (effectiveVIX : float64) (i : nat) (st : RunState) : option RunState :=
  match engines (orch st) !! i with
  | None => Some st
  | Some eng =>
      if negb (bool_decide (Symbol candle = eSymbol eng)) then Some st
      else if bool_decide (is_Some (openPositions st !! idOf eng)) then Some st
      else if ParticipationForRegime (orchMatrix (orch st)) (eStrategyID eng) regime <=? 0 then Some st
      else
        let r := match SetVIX with Some f => f (eRunner eng) effectiveVIX | None => eRunner eng end in
        let '(raw, r) := Evaluate r candle regime in
        let eng := eng <| eRunner := r |> in
        let st := putEngine i eng st in
        raw ← raw;
        match raw with
        | None => Some st
        | Some raw =>
            if SigQuantity raw =? 0 then Some st
            else
              let baseSize := baseSizeOf candle regime eng st in
              let '(res, st) := askPipeline candle regime i eng raw baseSize st in
              let fillQty := fillQtyOf res baseSize in
              if fillQty <? minQty st then Some st
              else Some (openPosition candle i (SigSide raw) fillQty st)
        end
  end.

Fixpoint seekSignals (candle : Candle) (regime : Z) (effectiveVIX : float64) (idxs : list nat) (st : RunState) : option RunState :=
  match idxs with
  | [] => Some st
  | i :: idxs => st ← seekSignal candle regime effectiveVIX i st; seekSignals candle regime effectiveVIX idxs st
  end.

(** ** Closing at the bar's close *)
Definition sidePnL (t : Trade) (exit : float64) : float64 :=
  if bool_decide (TSide t = "BUY"%string) then (exit - Float64 (TEntryPrice t)) * TQuantity t
  else (Float64 (TEntryPrice t) - exit) * TQuantity t.

Definition tradePnL (cfg : OrchestratorConfig) (t : Trade) (exit : float64) : float64 :=
  sidePnL t exit - Float64 (TEntryPrice t) * TQuantity t * (OcCommissionBps cfg / 10000.0).

(** [risk.SanitizeTradePnL(pnl, capital, quantity, entryPrice)]: the source passes the
    capital where the quantity goes, the quantity as the price and the price as the capital. *)
Definition bookedPnL (pnl capital : float64) (t : Trade) : float64 :=
  (SanitizeTradePnL pnl capital (TQuantity t) (Float64 (TEntryPrice t))).1.

Definition closePosition (candle : Candle) (regime : Z) (st : RunState) (e : string * Trade) : RunState :=
  let '(eid, t) := e in
  match (i ← enginesByID (orch st) !! eid; eng ← engines (orch st) !! i; Some (i, eng)) with
  | None => st <| openPositions ::= delete eid |>
  | Some (i, eng) =>
      let '(fill, o) := fillAtClose candle (TSymbol t) (TSide t) (TQuantity t) (orch st) in
      let st := st <| orch := o |> in
      let fp := if Float64 (FillPrice fill) <=? 0 then Float64 (Close candle) else Float64 (FillPrice fill) in
      let capital := rCapital st in
      let pnl := tradePnL (config (orch st)) t fp in
      let safePnl := bookedPnL pnl capital t in
      let t := t <| TPnL := safePnl |> <| TPnLPct := if capital >? 0 then pnl / capital * 100 else 0.0 |>
                 <| TExitPrice := PriceFromFloat fp |> <| TExitTime := Time candle |> <| THMMRegime := regime |>
                 <| TSlippageMidBps := SlippageMidBps fill |> <| TSlippageLastBps := SlippageLastBps fill |> in
      let sid := eStrategyID eng in
      let own := mget [] (strategyTrades st) sid ++ [t] in
      let st := onOrch (fun o => o <| pool ::= (fun p => SimRecordFill p eid (TSymbol t) (TSide t) safePnl (TQuantity t)) |>
                                   <| scheduler ::= (fun s => RecordSharpe s sid own) |>) st in
      let st := st <| rCapital := capital + safePnl |> <| rTrades ::= (fun l => l ++ [t]) |>
                   <| rStrategyPnL ::= (fun m => <[sid := mget 0 m sid + safePnl]> m) |>
                   <| strategyTrades ::= insert sid own |> <| openPositions ::= delete eid |> in
      putEngine i (eng <| currentPosition := 0 |> <| entryPrice := 0 |> <| eSide := ""%string |>) st
  end.

Definition closePositions (candle : Candle) (regime : Z) (st : RunState) : RunState :=
  fold_left (closePosition candle regime) (rangePositions (openPositions st)) st.

(** ** The end of a bar: equity, histories, active strategies *)
Fixpoint recordEquities (engs : list orchestratorEngine) (st : RunState) (ct : CorrelationTracker) : option CorrelationTracker :=
  match engs with
  | [] => Some ct
  | e :: engs =>
      ct ← RecordEquity ct (eStrategyID e) (rCapital st + mget 0 (rStrategyPnL st) (eStrategyID e));
      recordEquities engs st ct
  end.

Definition endBar (candle : Candle) (regime : Z) (st : RunState) : option RunState :=
  let capital := rCapital st in
  let active := List.filter (fun e => ActiveWeight (currentWeights st) (eStrategyID e) >? 0) (engines (orch st)) in
  ct ← recordEquities (engines (orch st)) st (correlation (orch st));
  Some (onOrch (fun o => o <| correlation := ct |>) st
          <| rEquity ::= (fun l => l ++ [mkPoint (Time candle) capital regime]) |>
          <| rPeakCapital := if capital >? rPeakCapital st then capital else rPeakCapital st |>
          <| rActiveCounts ::= (fun l => l ++ [Z.of_nat (length active)]) |>).

(** ** The run *)
Definition barStep (regimes : gmap Z Z) (vixLogs : list VIXLog) (candle : Candle) (st : RunState) : option RunState :=
  let st := newDay candle st in
  let regime := default 0%Z (regimes !! unix (Time candle)) in
  let currentVIX := getVIXAt (Time candle) vixLogs in
  let '(detector, effectiveVIX) := Feed (vixDetector (orch st)) currentVIX currentVIX in
  let st := onOrch (fun o => o <| vixDetector := detector |>) st in
  if SimHalted (pool (orch st)) then Some st
  else
    let st := watchCorrelations (rebalance candle regime st) in
    st ← seekSignals candle regime effectiveVIX (seq 0 (length (engines (orch st)))) st;
    endBar candle regime (closePositions candle regime st).

Fixpoint runBars (regimes : gmap Z Z) (vixLogs : list VIXLog) (candles : list Candle) (st : RunState) : option RunState :=
  match candles with
  | [] => Some st
  | c :: cs => st ← barStep regimes vixLogs c st; runBars regimes vixLogs cs st
  end.

(** The positions left at the end close at the last close, without commission and past the pool. *)
Definition endPosition (last : Candle) (st : RunState) (e : string * Trade) : RunState :=
  let '(eid, t) := e in
  let sid := match (i ← enginesByID (orch st) !! eid; engines (orch st) !! i) with Some eng => eStrategyID eng | None => eid end in
  let fp := Float64 (Close last) in
  let safePnl := bookedPnL (sidePnL t fp) (rCapital st) t in
  let t := t <| TPnL := safePnl |> <| TExitPrice := PriceFromFloat fp |> <| TExitTime := Time last |> in
  st <| rCapital ::= (fun c => c + safePnl) |> <| rStrategyPnL ::= (fun m => <[sid := mget 0 m sid + safePnl]> m) |>
     <| rTrades ::= (fun l => l ++ [t]) |> <| openPositions ::= delete eid |>.

Definition runCandles (db : Database) (o : Orchestrator) : list Candle := mergeCandlesByTime (candleSets db (engines o)).

Definition runLoop (db : Database) (o : Orchestrator) : option RunState :=
  let candles := runCandles db o in
  st ← runBars (regimeTimeIndex (default [] (LoadRegimeLogs db))) (default [] (LoadVIXLogs db)) candles (startRun o);
  match list.last candles with
  | None => Some st
  | Some last => Some (fold_left (endPosition last) (rangePositions (openPositions st)) st)
  end.

Definition runResult (o : Orchestrator) (st : RunState) : OrchestrationRunResult :=
  let equity := rEquity st in
  let many := (1 <? length equity)%nat in
  let initial := OcCapital (config o) in
  mkOrchResult equity (if many then calculateSharpe equity else 0) (if many then calculateSortino equity else 0)
    (if many then calculateMaxDrawdown equity else 0) ((rCapital st - initial) / initial * 100) (rTrades st) (rStrategyPnL st)
    (rActiveCounts st) (rAllocation st) (rBreaches st).

Definition Run (db : Database) (o : Orchestrator) : option (OrchestrationRunResult * Orchestrator) :=
  st ← runLoop db o; Some (runResult o st, orch st).
End Orchestrator.

(** ** Proofs *)

(** The index of the engines is exact. *)
Definition indexed {rand R} (o : @Orchestrator rand R) : Prop :=
  forall eid i, enginesByID o !! eid = Some i <-> exists e, engines o !! i = Some e /\ idOf e = eid.

(** The pool no strategy was added to. *)
Definition idle {R} (cap : float64) (p : CapitalPoolSim R) : Prop :=
  PoolSim.Strategies p = ∅ /\ SimHalted p = false /\ SimTotalBalance p = cap.

Lemma idle_reset {R} cap (p : CapitalPoolSim R) : idle cap p -> idle cap (SimResetDaily p).
Proof.
  intros (S & H & B). unfold idle, SimResetDaily, SimHalted, SimTotalBalance in *. cbn. rewrite S.
  split; [apply fmap_empty|]. by split.
Qed.

Lemma idle_fill {R} cap (p : CapitalPoolSim R) sid sym side pnl q : idle cap p -> SimRecordFill p sid sym side pnl q = p.
Proof. intros (S & _). unfold SimRecordFill. by rewrite S, lookup_empty. Qed.

(** A gate whose answer leaves it unchanged stays in the pipeline. *)
Lemma pipeline_keeps_pool {S C P : Type} `{SignalGate S} `{CapitalGate C} `{PropFirmGate P} now
    (p : RiskPipeline S C P) r (c : C) :
  (forall r, (RequestCapital c r).1 = c) -> Capital p = Some c -> Capital (ProcessSignal now p r).1 = Some c.
Proof.
  intros K E.
  assert (A : forall p : RiskPipeline S C P, forall size, Capital p = Some c -> Capital (authorise p r size).1 = Some c).
  { intros q size Q. unfold authorise. rewrite Q. match goal with |- context [RequestCapital c ?x] => pose proof (K x) as K'; destruct (RequestCapital c x) as [c' res] end.
    cbn in K'. subst c'. cbn. repeat (case_match; try done). }
  assert (F : forall p : RiskPipeline S C P, forall size, Capital p = Some c -> Capital (finish p r size).1 = Some c).
  { intros q size Q. unfold finish. destruct (negb _); [done|]. specialize (A q size Q). destruct (authorise q r size) as [q' [s|res]]; cbn in *; [|done].
    destruct (SignalG q'); [|done]. by case_match. }
  unfold ProcessSignal. destruct (PSIsExit r); [done|].
  assert (V : forall q v, (match SignalG p with
      | Some s => let '(s, v) := ValidateSignal now s (PSRunningCapital r) in (withSignal p (Some s), v)
      | None => (p, (true, ""%string)) end) = (q, v) -> Capital q = Some c).
  { intros q v. destruct (SignalG p); [|by intros [= <- _]]. destruct (ValidateSignal _ _ _). by intros [= <- _]. }
  destruct (match SignalG p with Some s => _ | None => _ end) as [q v]. specialize (V q v eq_refl).
  do 3 (match goal with |- context [if ?b then _ else _] => destruct b end; [done|]).
  destruct (regimeWeight q r); [|done]. destruct (PSBaseSize r <=? 0); [done|]. cbv zeta.
  destruct (sizeSignal _ _ _ <=? 0); [done|]. destruct (capAggregate _ _ _); [|done]. by apply F.
Qed.

Section OrchestratorLaws.
Context {rand : Type}.
Variable NormFloat64 : rand -> float64 * rand.
Variable RandFloat64 : rand -> float64 * rand.
Context {R : Type} `{StrategyRunner R} {SL : SortSlice}.
Variable Now : Z.
Variable rangePositions : gmap string Trade -> list (string * Trade).
Variable rangeWeights : gmap string float64 -> list (string * float64).
Variable rangeHistories : gmap string (list float64) -> list string.
Hypothesis rangePositions_all : forall m, rangePositions m ≡ₚ map_to_list m.

Abbreviation state := (@RunState rand R).

(** A trade entered and left in one of the bars [cs]. *)
Definition in_one_bar (cs : list Candle) (t : Trade) : Prop :=
  exists c, c ∈ cs /\ TEntryTime t = Time c /\ TExitTime t = Time c /\ TSymbol t = Symbol c.

Definition bars (done : list Candle) (now : option Candle) : list Candle := done ++ option_list now.

(** The books after the bars [done], [now] being the bar in progress. *)
Record books (cap : float64) (done : list Candle) (now : option Candle) (st : state) : Prop := {
  bk_ids : indexed (orch st);
  bk_pool : idle cap (pool (orch st));
  bk_window : (0 <= window (correlation (orch st)))%Z;
  bk_open : forall eid t, openPositions st !! eid = Some t -> exists c i e, now = Some c /\
    engines (orch st) !! i = Some e /\ idOf e = eid /\ TEntryTime t = Time c /\ TSymbol t = Symbol c;
  bk_flat : forall i e, engines (orch st) !! i = Some e -> openPositions st !! idOf e = None -> currentPosition e = 0;
  bk_trades : Forall (in_one_bar (bars done now)) (rTrades st);
  bk_capital : rCapital st = fold_left (fun c t => c + TPnL t) (rTrades st) cap;
  bk_equity : map EqTime (rEquity st) = map Time done
}.

(** Changes of the orchestrator that leave engines, index, pool and window alone. *)
Lemma books_orch cap done now st (f : Orchestrator -> Orchestrator) :
  engines (f (orch st)) = engines (orch st) -> enginesByID (f (orch st)) = enginesByID (orch st) ->
  idle cap (pool (f (orch st))) -> (0 <= window (correlation (f (orch st))))%Z ->
  books cap done now st -> books cap done now (onOrch f st).
Proof.
  intros E I P W []. constructor; cbn; try done.
  - unfold indexed. by rewrite E, I.
  - by rewrite E.
  - by rewrite E.
Qed.

Lemma newDay_books cap done now c st : books cap done now st -> books cap done now (newDay c st).
Proof.
  intros B. unfold newDay. case_bool_decide; [done|].
  assert (B1 : books cap done now (onOrch (set pool SimResetDaily) st)).
  { apply books_orch; try done; [apply idle_reset, B|apply B]. }
  destruct B1. by constructor.
Qed.

(** ** The rebalance is free *)
Lemma sub_zero x : x - 0 = x.
Proof. apply Prim2SF_inj. rewrite sub_spec. by destruct (Prim2SF x) as [[]|[]| |[] m e]. Qed.

Lemma rebalance_free (o : @Orchestrator rand R) weights capital :
  Forall (fun e => currentPosition e = 0) (engines o) -> executeRebalance rangeWeights o weights capital = 0.
Proof.
  intros F. unfold executeRebalance.
  assert (E : forall l, fold_left (rebalanceStep o capital) l 0 = 0).
  { induction l as [|[sid w] l IH]; [done|]. cbn [fold_left]. replace (rebalanceStep o capital 0 (sid, w)) with 0; [done|].
    unfold rebalanceStep. cbn [fst snd]. destruct (enginesByID o !! sid) as [i|]; [|done]. cbn [mbind option_bind].
    destruct (engines o !! i) as [e|] eqn:E; [|done]. rewrite list.Forall_lookup in F. by rewrite (F i e E). }
  by rewrite E.
Qed.

Lemma rebalance_books cap done now c regime st :
  openPositions st = ∅ -> books cap done now st ->
  books cap done now (rebalance rangeWeights c regime st) /\ openPositions (rebalance rangeWeights c regime st) = ∅.
Proof.
  intros O B. unfold rebalance. destruct (IsFullRebalanceDue _) as [due s]. cbv zeta.
  set (st1 := onOrch _ st). assert (B1 : books cap done now st1) by (apply books_orch; try done; apply B).
  destruct due; [|done]. cbn. split; [|done]. destruct B1. constructor; try done. cbn.
  rewrite rebalance_free, sub_zero; [done|]. apply list.Forall_lookup. intros i e E.
  apply (bk_flat0 i e E). cbn. by rewrite O, lookup_empty.
Qed.

Lemma check_window ct ids : window (CheckCorrelations ct ids).1.1 = window ct.
Proof.
  unfold CheckCorrelations. generalize (pairsOf (activeIDs ct ids)) as ps.
  assert (G : forall ps ct pcs evs, window (fold_left checkStep ps (ct, pcs, evs)).1.1 = window ct).
  { induction ps as [|[a b] ps IH]; intros ct0 pcs evs; [done|]. cbn [fold_left checkStep fst snd].
    pose proof (checkPair_cells ct0 a b) as C. destruct (checkPair ct0 a b) as [[ct1 pc] evs1].
    destruct C as ((_ & W & _) & _). by rewrite IH, <- W. }
  intros ps. apply G.
Qed.

Lemma watch_books cap done now st :
  openPositions st = ∅ -> books cap done now st ->
  books cap done now (watchCorrelations rangeHistories st) /\ openPositions (watchCorrelations rangeHistories st) = ∅.
Proof.
  intros O B. unfold watchCorrelations. pose proof (check_window (correlation (orch st)) (rangeHistories (equityHistories (correlation (orch st))))) as W.
  destruct (CheckCorrelations _ _) as [[ct' pcs] breaches]. cbn [fst] in W.
  assert (B1 : books cap done now (onOrch (fun o => o <| correlation := ct' |>) st)).
  { apply books_orch; try done; [apply B|]. change (0 <= window ct')%Z. rewrite W. apply B. }
  cbv zeta. destruct (EnableCorrelationBrake _); [|done]. split; [|done]. destruct B1. by constructor.
Qed.

(** ** Signals *)

(** An engine changed in place: its names stay. *)
Definition same_names (e e' : @orchestratorEngine R) : Prop :=
  eStrategyID e' = eStrategyID e /\ eSymbol e' = eSymbol e /\ eTimeframe e' = eTimeframe e.

Lemma same_id e e' : same_names e e' -> idOf e' = idOf e.
Proof. intros (A & B & C). unfold idOf. by rewrite A, B, C. Qed.

Lemma indexed_put (o : @Orchestrator rand R) i e e' :
  engines o !! i = Some e -> same_names e e' -> indexed o -> indexed (set engines (<[i := e']>) o).
Proof.
  intros E S I eid j. cbn. rewrite (I eid j). destruct (decide (j = i)) as [->|N].
  - rewrite list_lookup_insert_eq by (by eapply lookup_lt_Some). split.
    + intros (x & X & <-). assert (x = e) as -> by congruence. exists e'. split; [done|]. by apply same_id.
    + intros (x & [= <-] & <-). exists e. split; [done|]. symmetry. by apply same_id.
  - by rewrite list_lookup_insert_ne.
Qed.

Lemma put_books cap done now i e e' st :
  engines (orch st) !! i = Some e -> same_names e e' ->
  (openPositions st !! idOf e = None -> currentPosition e' = 0) ->
  books cap done now st -> books cap done now (putEngine i e' st).
Proof.
  intros E S Z []. constructor; try done.
  - by apply (indexed_put _ i e).
  - intros eid t T. destruct (bk_open0 eid t T) as (c & j & x & ? & X & <- & ? & ?). exists c, j.
    cbn. destruct (decide (j = i)) as [->|N].
    + rewrite list_lookup_insert_eq by (by eapply lookup_lt_Some). exists e'. assert (x = e) as -> by congruence.
      split; [done|]. split; [done|]. split; [by apply same_id|done].
    + rewrite list_lookup_insert_ne by done. by exists x.
  - intros j x X O. cbn in X, O. destruct (decide (j = i)) as [->|N].
    + rewrite list_lookup_insert_eq in X by (by eapply lookup_lt_Some). injection X as <-. apply Z. by rewrite <- (same_id e e').
    + rewrite list_lookup_insert_ne in X by done. by apply (bk_flat0 j x).
Qed.

Lemma ask_books cap done now c regime i e raw q st :
  engines (orch st) !! i = Some e -> books cap done now st ->
  books cap done now (askPipeline Now c regime i e raw q st).2 /\
  openPositions (askPipeline Now c regime i e raw q st).2 = openPositions st.
Proof.
  intros E B. unfold askPipeline. set (p := mkPipeline _ _ _ _ _ _ _). set (r := mkPSReq _ _ _ _ _ _ _ _ _ _ _).
  pose proof (pipeline_keeps_pool Now p r (pool (orch st)) (fun _ => eq_refl) eq_refl) as K.
  destruct (ProcessSignal Now p r) as [p' res]. cbn [fst] in K. cbn [snd]. split; [|done].
  set (st1 := putEngine _ _ _). assert (B1 : books cap done now st1).
  { apply (put_books _ _ _ i e); [done|done| |done]. intros O. cbn. by apply (bk_flat _ _ _ _ B i e). }
  apply books_orch; try done; cbn; [|apply B]. rewrite K. apply B.
Qed.

Lemma open_books cap done c i side q st :
  (forall e, engines (orch st) !! i = Some e -> eSymbol e = Symbol c) ->
  books cap done (Some c) st -> books cap done (Some c) (openPosition NormFloat64 RandFloat64 c i side q st).
Proof.
  intros Sy B. unfold openPosition. destruct (engines (orch st) !! i) as [e|] eqn:E; [|done].
  unfold fillAtClose. destruct (SimulateFillWithTCA _ _ _ _ _ _ _ _ _ _ _ _) as [fill sim]. cbv zeta.
  destruct B. constructor; try done.
  - apply (indexed_put _ i e); [done|done|]. exact bk_ids0.
  - intros eid t. cbn. destruct (decide (eid = idOf e)) as [->|N].
    + rewrite lookup_insert_eq. intros [= <-]. eexists c, i, _. split; [done|].
      rewrite list_lookup_insert_eq by (by eapply lookup_lt_Some). by split.
    + rewrite lookup_insert_ne by done. intros T. destruct (bk_open0 eid t T) as (c' & j & x & ? & X & <- & ? & ?).
      exists c', j. destruct (decide (j = i)) as [->|Nj]; [assert (x = e) by congruence; by subst x|].
      rewrite list_lookup_insert_ne by done. by exists x.
  - intros j x X O. cbn in X, O. destruct (decide (j = i)) as [->|N].
    + rewrite list_lookup_insert_eq in X by (by eapply lookup_lt_Some). injection X as <-.
      change (idOf _) with (idOf e) in O. by rewrite lookup_insert_eq in O.
    + rewrite list_lookup_insert_ne in X by done. apply (bk_flat0 j x); [done|].
      destruct (decide (idOf x = idOf e)) as [Ei|Ne]; [by rewrite Ei, lookup_insert_eq in O|]. by rewrite lookup_insert_ne in O by done.
Qed.

(** Engines keep their names and their number. *)
Definition names (st : state) : list (string * string * string) :=
  map (fun e => (eStrategyID e, eSymbol e, eTimeframe e)) (engines (orch st)).

Lemma put_names i e e' st : engines (orch st) !! i = Some e -> same_names e e' -> names (putEngine i e' st) = names st.
Proof.
  intros E (A & B & C). unfold names. cbn. apply list_eq. intros j. rewrite !MonteCarlo.map_lookup.
  destruct (decide (j = i)) as [->|N].
  - rewrite list_lookup_insert_eq by (by eapply lookup_lt_Some). rewrite E. cbn. by rewrite A, B, C.
  - by rewrite list_lookup_insert_ne.
Qed.

Lemma ask_names c regime i e raw q st :
  engines (orch st) !! i = Some e -> names (askPipeline Now c regime i e raw q st).2 = names st.
Proof.
  intros E. unfold askPipeline. destruct (ProcessSignal _ _ _) as [p' res]. cbn [snd].
  by apply (put_names i e (e <| ePipeline := withCapital p' None |>)).
Qed.

Lemma open_names c i side q st : names (openPosition NormFloat64 RandFloat64 c i side q st) = names st.
Proof.
  unfold openPosition. destruct (engines (orch st) !! i) as [e|] eqn:E; [|done].
  unfold fillAtClose. destruct (SimulateFillWithTCA _ _ _ _ _ _ _ _ _ _ _ _) as [fill sim]. cbv zeta.
  by rewrite (put_names i e) by done.
Qed.

Lemma symbol_of i e st (l : list (string * string * string)) :
  names st = l -> engines (orch st) !! i = Some e -> (fun n => n.1.2) <$> l !! i = Some (eSymbol e).
Proof. intros <- E. unfold names. rewrite MonteCarlo.map_lookup, E. done. Qed.

Lemma seek_books cap done c regime vix i st st' :
  books cap done (Some c) st -> seekSignal NormFloat64 RandFloat64 Now c regime vix i st = Some st' ->
  books cap done (Some c) st' /\ names st' = names st.
Proof.
  intros B. unfold seekSignal. destruct (engines (orch st) !! i) as [e|] eqn:E; [|by intros [= <-]].
  case_bool_decide as Sy; cbn [negb]; [|by intros [= <-]]. case_bool_decide as O; [by intros [= <-]|].
  destruct (ParticipationForRegime _ _ _ <=? 0); [by intros [= <-]|].
  destruct (Evaluate _ c regime) as [raw r]. set (e1 := e <| eRunner := r |>).
  assert (B1 : books cap done (Some c) (putEngine i e1 st)).
  { apply (put_books _ _ _ i e); [done|done| |done]. intros O'. by apply (bk_flat _ _ _ _ B i e). }
  pose proof (put_names i e e1 st E) as N1. specialize (N1 ltac:(done)).
  assert (E1 : engines (orch (putEngine i e1 st)) !! i = Some e1).
  { cbn. apply list_lookup_insert_eq. by eapply lookup_lt_Some. }
  generalize dependent (putEngine i e1 st). intros st1 B1 N1 E1.
  destruct raw as [[raw|]|]; cbn [mbind option_bind]; [|by intros [= <-]|done].
  destruct (SigQuantity raw =? 0); [by intros [= <-]|]. cbv zeta. set (q := baseSizeOf _ _ _ _). clearbody q.
  destruct (ask_books cap done (Some c) c regime i e1 raw q st1 E1 B1) as [B2 _].
  pose proof (ask_names c regime i e1 raw q st1 E1) as N2.
  destruct (askPipeline Now c regime i e1 raw q st1) as [res st2]. cbn [snd] in *.
  destruct (_ <? minQty st2); intros [= <-]; [by rewrite N2, N1|]. split; [|by rewrite open_names, N2, N1].
  apply open_books; [|done]. intros x X. pose proof (symbol_of i x st2 _ eq_refl X) as Y. rewrite N2 in Y.
  rewrite (symbol_of i e1 st1 _ eq_refl E1) in Y. injection Y as Y. rewrite <- Y. done.
Qed.

Lemma seeks_books cap done c regime vix idxs : forall st st',
  books cap done (Some c) st -> seekSignals NormFloat64 RandFloat64 Now c regime vix idxs st = Some st' ->
  books cap done (Some c) st'.
Proof.
  induction idxs as [|i idxs IH]; intros st st' B; cbn [seekSignals]; [by intros [= <-]|].
  destruct (seekSignal _ _ _ _ _ _ _ _) as [st1|] eqn:E; [|done]. cbn [mbind option_bind].
  apply IH. by apply (seek_books _ _ _ _ _ _ _ _ B E).
Qed.

(** ** Closing *)
Lemma closePosition_books cap done c regime st eid t :
  openPositions st !! eid = Some t -> books cap done (Some c) st ->
  books cap done (Some c) (closePosition NormFloat64 RandFloat64 c regime st (eid, t)) /\
  openPositions (closePosition NormFloat64 RandFloat64 c regime st (eid, t)) = delete eid (openPositions st).
Proof.
  intros T B. destruct (bk_open _ _ _ _ B eid t T) as (c' & i & e & [= <-] & E & I & T1 & T2).
  assert (J : enginesByID (orch st) !! eid = Some i) by (apply (bk_ids _ _ _ _ B); by exists e).
  unfold closePosition. rewrite J. cbn [mbind option_bind]. rewrite E. cbn [mbind option_bind].
  unfold fillAtClose. destruct (SimulateFillWithTCA _ _ _ _ _ _ _ _ _ _ _ _) as [fill sim]. cbv zeta.
  set (pnl := bookedPnL _ _ _). clearbody pnl. split; [|done].
  destruct B. constructor; try done.
  - apply (indexed_put _ i e); [done|done|]. exact bk_ids0.
  - cbn. by rewrite (idle_fill cap).
  - intros eid' t'. cbn. destruct (decide (eid' = eid)) as [->|N]; [by rewrite lookup_delete_eq|].
    rewrite lookup_delete_ne by done. intros T'. destruct (bk_open0 eid' t' T') as (c' & j & x & ? & X & Ix & ? & ?).
    exists c', j. destruct (decide (j = i)) as [->|Nj]; [assert (x = e) by congruence; subst; congruence|].
    rewrite list_lookup_insert_ne by done. by exists x.
  - intros j x X O. cbn in X, O. destruct (decide (j = i)) as [->|N].
    + rewrite list_lookup_insert_eq in X by (by eapply lookup_lt_Some). by injection X as <-.
    + rewrite list_lookup_insert_ne in X by done. apply (bk_flat0 j x); [done|]. rewrite lookup_delete_ne in O; [done|].
      intros D. apply N. rewrite D in J. assert (Jx : enginesByID (orch st) !! idOf x = Some j) by (apply bk_ids0; by exists x). congruence.
  - cbn. apply Forall_app. split; [done|]. apply list.Forall_singleton. exists c.
    split; [unfold bars; apply elem_of_app; right; by left|]. by split.
  - cbn. by rewrite fold_left_app, bk_capital0.
Qed.

Lemma closes_books cap done c regime l : forall st,
  NoDup (map fst l) -> (forall e, e ∈ l -> openPositions st !! e.1 = Some e.2) -> books cap done (Some c) st ->
  let st' := fold_left (closePosition NormFloat64 RandFloat64 c regime) l st in
  books cap done (Some c) st' /\ openPositions st' = foldr delete (openPositions st) (rev (map fst l)).
Proof.
  induction l as [|[eid t] l IH]; intros st D A B; [done|]. cbn [fold_left map rev fst] in *. inversion D as [|? ? N D']; subst.
  destruct (closePosition_books cap done c regime st eid t) as [B1 O1]; [by apply (A (eid, t)); left|done|].
  destruct (IH (closePosition NormFloat64 RandFloat64 c regime st (eid, t)) D') as [B2 O2]; try done.
  - intros x X. rewrite O1. rewrite lookup_delete_ne; [apply A; by right|]. intros Ex. apply N. rewrite Ex.
    apply list_elem_of_fmap. by exists x.
  - split; [done|]. rewrite O2, O1, foldr_app. done.
Qed.

Lemma closing_books cap done c regime st :
  books cap done (Some c) st ->
  books cap done (Some c) (closePositions NormFloat64 RandFloat64 rangePositions c regime st) /\
  openPositions (closePositions NormFloat64 RandFloat64 rangePositions c regime st) = ∅.
Proof.
  intros B. unfold closePositions. pose proof (rangePositions_all (openPositions st)) as P.
  destruct (closes_books cap done c regime (rangePositions (openPositions st)) st) as [B1 O1]; [| |done|split; [done|]].
  - rewrite P. apply NoDup_fst_map_to_list.
  - intros [eid t] X. rewrite P in X. by apply elem_of_map_to_list in X.
  - rewrite O1. apply (delete_all (fun _ => @None unit)). intros k [t K]. rewrite <- Permutation_rev, P. apply list_elem_of_fmap.
    exists (k, t). split; [done|]. by apply elem_of_map_to_list.
Qed.

(** ** The bars *)
Lemma record_total engs (st : state) ct :
  (0 <= window ct)%Z -> exists ct', recordEquities engs st ct = Some ct' /\ window ct' = window ct.
Proof.
  revert ct. induction engs as [|e engs IH]; intros ct W; [by exists ct|]. cbn [recordEquities]. unfold RecordEquity.
  destruct (Z.ltb (window ct) (Z.of_nat _)); [destruct (Z.ltb_spec (window ct) 0); [lia|]|]; cbn [mbind option_bind];
    match goal with |- context [recordEquities engs st ?c] => destruct (IH c) as (ct' & -> & Wc); [exact W|by exists ct'] end.
Qed.

(** The runner answers: it does not panic. *)
Definition never_panics : Prop := forall (r : R) c regime, is_Some (Evaluate r c regime).1.

Lemma seeks_return c regime vix idxs : never_panics -> forall st : state,
  is_Some (seekSignals NormFloat64 RandFloat64 Now c regime vix idxs st).
Proof.
  intros NP. induction idxs as [|i idxs IH]; intros st; [by eexists|]. cbn [seekSignals].
  assert (S : is_Some (seekSignal NormFloat64 RandFloat64 Now c regime vix i st)).
  { unfold seekSignal. destruct (engines (orch st) !! i) as [e|]; [|by eexists].
    case_bool_decide; cbn [negb]; [|by eexists]. case_bool_decide; [by eexists|].
    destruct (ParticipationForRegime _ _ _ <=? 0); [by eexists|].
    match goal with |- context [Evaluate ?r c regime] => pose proof (NP r c regime) as P; destruct (Evaluate r c regime) as [raw r'] end.
    destruct P as [raw' P]. cbn in P. subst raw. cbn [mbind option_bind]. destruct raw' as [raw|]; [|by eexists].
    destruct (SigQuantity raw =? 0); [by eexists|]. cbv zeta. destruct (askPipeline _ _ _ _ _ _ _ _).
    destruct (_ <? _); by eexists. }
  destruct S as [st1 ->]. apply IH.
Qed.

Abbreviation stepBar := (barStep NormFloat64 RandFloat64 Now rangePositions rangeWeights rangeHistories).
Abbreviation runThrough := (runBars NormFloat64 RandFloat64 Now rangePositions rangeWeights rangeHistories).
Abbreviation loop := (runLoop NormFloat64 RandFloat64 Now rangePositions rangeWeights rangeHistories).

Lemma books_start cap done c st : openPositions st = ∅ -> books cap done None st -> books cap done (Some c) st.
Proof.
  intros O []. constructor; try done.
  - intros eid t. by rewrite O, lookup_empty.
  - eapply list.Forall_impl; [exact bk_trades0|]. intros t (d & D & T). exists d. split; [|done].
    unfold bars in *. cbn in *. rewrite app_nil_r in D. apply elem_of_app. by left.
Qed.

Lemma barStep_books cap done regimes vix c st :
  books cap done None st ->
  match stepBar regimes vix c st with
  | Some st' => books cap (done ++ [c]) None st'
  | None => ~ never_panics
  end.
Proof.
  intros B. assert (O : openPositions st = ∅).
  { apply map_eq. intros k. rewrite lookup_empty. destruct (openPositions st !! k) as [t|] eqn:T; [|done].
    by destruct (bk_open _ _ _ _ B k t T) as (? & ? & ? & ? & _). }
  pose proof (books_start cap done c st O B) as B1. clear B. unfold barStep.
  assert (O2 : openPositions (newDay c st) = ∅) by (unfold newDay; by case_bool_decide).
  pose proof (newDay_books _ _ _ c _ B1) as B2. clear B1 O. generalize dependent (newDay c st). clear st. intros st O B.
  cbv zeta. destruct (Feed _ _ _) as [detector effective]. set (st1 := onOrch _ st).
  assert (B1 : books cap done (Some c) st1) by (apply books_orch; try done; apply B).
  assert (O1 : openPositions st1 = ∅) by done. clearbody st1. clear B O st.
  destruct (bk_pool _ _ _ _ B1) as (_ & H1 & _). rewrite H1.
  set (regime := default 0%Z _). destruct (rebalance_books cap done (Some c) c regime st1 O1 B1) as [B2 O2].
  destruct (watch_books cap done (Some c) _ O2 B2) as [B3 _].
  destruct (seekSignals _ _ _ _ _ _ _ _) as [st2|] eqn:E; cbn [mbind option_bind].
  2: { intros NP. match type of E with ?l = None => assert (X : is_Some l) by by apply seeks_return end.
       rewrite E in X. by destruct X. }
  pose proof (seeks_books cap done c regime effective _ _ _ B3 E) as B4.
  destruct (closing_books cap done c regime st2 B4) as [B5 O5].
  generalize dependent (closePositions NormFloat64 RandFloat64 rangePositions c regime st2). intros st3 B5 O5.
  unfold endBar. destruct (record_total (engines (orch st3)) st3 (correlation (orch st3))) as (ct & -> & W); [apply B5|].
  cbn [mbind option_bind]. destruct B5. constructor; try done.
  - change (0 <= window ct)%Z. by rewrite W.
  - cbn. intros eid t. by rewrite O5, lookup_empty.
  - cbn. unfold bars in *. cbn in *. by rewrite app_nil_r.
  - cbn. by rewrite !map_app, bk_equity0.
Qed.


Lemma runBars_keeps_books cap regimes vix cs : forall done st,
  books cap done None st ->
  match runThrough regimes vix cs st with
  | Some st' => books cap (done ++ cs) None st'
  | None => ~ never_panics
  end.
Proof.
  induction cs as [|c cs IH]; intros done st B; cbn [runBars]; [by rewrite app_nil_r|].
  pose proof (barStep_books cap done regimes vix c st B) as B1. destruct (barStep _ _ _ _ _ _ _ _ _ _) as [st1|]; [|done].
  cbn [mbind option_bind]. specialize (IH _ _ B1). by rewrite <- app_assoc in IH.
Qed.

(** An orchestrator between two runs, or before the first. *)
Record wired (o : @Orchestrator rand R) : Prop := {
  wr_ids : indexed o;
  wr_window : (0 <= window (correlation o))%Z;
  wr_flat : Forall (fun e => currentPosition e = 0) (engines o)
}.

Lemma new_wired cfg rng : wired (NewOrchestrator cfg rng).
Proof. constructor; cbn; [|lia|constructor]. intros eid i. cbn. rewrite lookup_empty. split; [done|]. by intros (e & ? & _). Qed.

Lemma add_wired Create (o o' : @Orchestrator rand R) sym tf sid : AddStrategy Create o sym tf sid = inr o' -> wired o -> wired o'.
Proof.
  unfold AddStrategy. destruct (enginesByID o !! engineID sym tf sid) as [j|] eqn:K; [done|]. destruct (Create sid) as [r|]; [|done].
  intros [= <-] []. constructor; [|done|apply Forall_app; split; [done|by repeat constructor]].
  intros eid i. cbn. assert (F : forall i e, engines o !! i = Some e -> idOf e <> engineID sym tf sid).
  { intros i' e E X. assert (enginesByID o !! engineID sym tf sid = Some i') by (apply wr_ids0; by exists e). congruence. }
  destruct (decide (eid = engineID sym tf sid)) as [->|N].
  - rewrite lookup_insert_eq. split.
    + intros [= <-]. eexists. split; [by apply list_lookup_middle|done].
    + intros (e & E & X). apply lookup_app_Some in E as [E|[L E]]; [by destruct (F i e E)|].
      f_equal. destruct (i - length (engines o))%nat eqn:D; [lia|done].
  - rewrite lookup_insert_ne by done. rewrite (wr_ids0 eid i). split.
    + intros (e & E & X). exists e. split; [by apply lookup_app_l_Some|done].
    + intros (e & E & X). apply lookup_app_Some in E as [E|[L E]]; [by exists e|].
      destruct (i - length (engines o))%nat; [|done]. injection E as <-. by destruct N.
Qed.

(** C17: the books of an orchestrated run.  The run returns unless a runner panics; there is one equity point per candle, so that the capital pool, which no strategy is ever added
    to, never halts it and keeps its initial balance; every trade is entered and left in the
    same bar, no position outlives its bar, and the capital is the initial one plus the PnL of
    the trades: the rebalances are free and the correlation brake is never asked. *)
Theorem orchestrated_run_books (db : Database) (o : @Orchestrator rand R) :
  wired o ->
  (never_panics -> is_Some (loop db o)) /\
  forall st, loop db o = Some st ->
    openPositions st = ∅ /\ wired (orch st) /\
    map EqTime (rEquity st) = map Time (runCandles db o) /\
    SimHalted (pool (orch st)) = false /\ SimTotalBalance (pool (orch st)) = OcCapital (config o) /\
    Forall (in_one_bar (runCandles db o)) (rTrades st) /\
    rCapital st = fold_left (fun c t => c + TPnL t) (rTrades st) (OcCapital (config o)).
Proof.
  intros [I W F]. assert (B : books (OcCapital (config o)) [] None (startRun o)).
  { constructor; try done. intros i e E _. rewrite list.Forall_lookup in F. by apply (F i e). }
  pose proof (runBars_keeps_books _ (regimeTimeIndex (default [] (LoadRegimeLogs db))) (default [] (LoadVIXLogs db)) (runCandles db o) [] _ B) as L.
  unfold runLoop. destruct (runBars _ _ _ _ _ _ _ _ _ _) as [st|]; cbn [mbind option_bind].
  2: { split; [by intros NP|done]. }
  cbn [app] in L. assert (O : openPositions st = ∅).
  { apply map_eq. intros k. rewrite lookup_empty. destruct (openPositions st !! k) as [t|] eqn:T; [|done].
    by destruct (bk_open _ _ _ _ L k t T) as (? & ? & ? & ? & _). }
  assert (E : rangePositions (openPositions st) = []).
  { rewrite O. apply Permutation_nil. by rewrite rangePositions_all, map_to_list_empty. }
  assert (Q : exists l, match list.last (runCandles db o) with
      | Some last => Some (fold_left (endPosition last) (rangePositions (openPositions st)) st) | None => Some st end = l /\ l = Some st).
  { eexists. split; [done|]. rewrite E. by destruct (list.last _). }
  destruct Q as (l & -> & ->). split; [by eexists|]. intros st' [= <-]. destruct L. destruct bk_pool0 as (_ & P1 & P2).
  split; [done|]. split.
  - constructor; [done|done|]. apply list.Forall_lookup. intros i e Ei. apply (bk_flat0 i e Ei). by rewrite O, lookup_empty.
  - unfold bars in bk_trades0. cbn [option_list] in bk_trades0. by rewrite app_nil_r in bk_trades0.
Qed.
End OrchestratorLaws.

(** ** What the sanitiser leaves of a trade *)
Lemma booked_capped pnl capital t :
  fnan (capital * TQuantity t * 0.50) = false -> pos0 (Float64 (TEntryPrice t)) ->
  bookedPnL pnl capital t = 0 \/
  (bookedPnL pnl capital t = pnl /\ (math.Abs pnl <=? Float64 (TEntryPrice t) * 0.10) = true).
Proof.
  intros N P. unfold bookedPnL, SanitizeTradePnL. destruct (math.IsNaN pnl) eqn:Np; cbn [orb]; [by left|].
  destruct (math.IsInf pnl 0); [by left|]. set (m := maxTradePnL _ _ _).
  destruct (math.Abs pnl >? m) eqn:G; [by left|]. right. split; [done|].
  rewrite IsNaN_fnan in Np. set (e := Float64 (TEntryPrice t)) in *.
  assert (U : unit0 0.02 /\ unit0 0.10) by (split; (split; [reflexivity|split; vm_compute; discriminate])). destruct U as [U2 U10].
  destruct (mul_unit_le e 0.02 P U2) as [P2 _], (mul_unit_le e 0.10 P U10) as [P10 _].
  assert (L : (fv (e * 0.02) <= fv (e * 0.10))%Z).
  { rewrite !(Fills.fmul_comm e). apply mul_mono_l; [reflexivity|reflexivity|exact P|vm_compute; discriminate]. }
  assert (M : fnan m = false /\ (fv m <= fv (e * 0.10))%Z).
  { unfold m, maxTradePnL. cbv zeta. destruct (e * 0.10 <? capital * TQuantity t * 0.50) eqn:C.
    - destruct (_ <? e * 0.02); split; try (by apply pos0_nan); lia.
    - apply ltb_false in C; [|by apply pos0_nan|done]. destruct (_ <? e * 0.02); [split; [by apply pos0_nan|lia]|split; [done|lia]]. }
  destruct M as [Nm Lm]. assert (Na : fnan (math.Abs pnl) = false) by (unfold math.Abs; by rewrite fnan_abs).
  apply leb_true. split; [done|]. split; [by apply pos0_nan|]. apply ltb_false in G; [lia|done..].
Qed.

Section Findings.
Context {rand : Type}.
Variable NormFloat64 : rand -> float64 * rand.
Variable RandFloat64 : rand -> float64 * rand.
Context {R : Type} `{StrategyRunner R} {SL : SortSlice}.
Variable Now : Z.

(** What a trade can earn or lose.  The sanitiser is called with its arguments in the
    wrong places: whatever the quantity, a closed position changes the capital by nothing, or
    by at most a tenth of the price of one share; a larger profit or loss is booked as zero. *)
Theorem orchestrator_pnl_capped_by_share_price c regime (st : @RunState rand R) eid t i e :
  enginesByID (orch st) !! eid = Some i -> engines (orch st) !! i = Some e ->
  fnan (rCapital st * TQuantity t * 0.50) = false -> pos0 (Float64 (TEntryPrice t)) ->
  let st' := closePosition NormFloat64 RandFloat64 c regime st (eid, t) in
  exists p t', rCapital st' = rCapital st + p /\ rTrades st' = rTrades st ++ [t'] /\ TPnL t' = p /\
    (p = 0 \/ (math.Abs p <=? Float64 (TEntryPrice t) * 0.10) = true).
Proof.
  intros I E N P. cbv zeta. unfold closePosition. rewrite I. cbn [mbind option_bind]. rewrite E. cbn [mbind option_bind].
  unfold fillAtClose. destruct (SimulateFillWithTCA _ _ _ _ _ _ _ _ _ _ _ _) as [fill sim]. cbv zeta.
  set (pnl := tradePnL _ _ _). clearbody pnl. eexists _, _. split; [reflexivity|]. split; [reflexivity|]. split; [reflexivity|].
  cbn. destruct (booked_capped pnl (rCapital st) t N P) as [Z0|[Q L]]; [by left|right]. by rewrite Q.
Qed.

(** The pipeline's refusal does not stop an entry.  When an engine's runner asks for a
    trade and its risk pipeline rejects it, for whatever reason, the position is opened all the
    same, at the size before any of the pipeline's reductions. *)
Theorem orchestrator_fills_rejected c regime vix i e raw r (st : @RunState rand R) :
  engines (orch st) !! i = Some e -> Symbol c = eSymbol e -> openPositions st !! idOf e = None ->
  (ParticipationForRegime (orchMatrix (orch st)) (eStrategyID e) regime <=? 0) = false ->
  Evaluate (match SetVIX with Some f => f (eRunner e) vix | None => eRunner e end) c regime = (Some (Some raw), r) ->
  (SigQuantity raw =? 0) = false ->
  let e1 := e <| eRunner := r |> in
  let st1 := putEngine i e1 st in
  let q := baseSizeOf c regime e1 st1 in
  PSApproved (askPipeline Now c regime i e1 raw q st1).1 = false -> (q <? minQty st) = false ->
  exists st' t, seekSignal NormFloat64 RandFloat64 Now c regime vix i st = Some st' /\
    openPositions st' !! idOf e = Some t /\ TSide t = SigSide raw /\
    exists fill, TQuantity t = (if FillQuantity fill <=? 0 then q else FillQuantity fill) /\
      fill = (fillAtClose NormFloat64 RandFloat64 c (Symbol c) (SigSide raw) q (orch st)).1.
Proof.
  intros E Sy O P V Q. cbv zeta. intros A M. unfold seekSignal. rewrite E.
  rewrite bool_decide_eq_true_2 by done. cbn [negb]. rewrite bool_decide_eq_false_2 by (rewrite O; by intros []).
  rewrite P, V. cbn [mbind option_bind]. rewrite Q. cbv zeta.
  set (e1 := e <| eRunner := r |>) in *. set (q := baseSizeOf _ _ _ _) in *. clearbody q.
  unfold askPipeline in *. destruct (ProcessSignal _ _ _) as [p' res]. cbn [fst] in A. unfold fillQtyOf. rewrite A. cbn [andb].
  match goal with |- context [q <? minQty ?s] => change (minQty s) with (minQty st) end. rewrite M.
  set (st2 := onOrch _ _). assert (E2 : engines (orch st2) !! i = Some (e1 <| ePipeline := withCapital p' None |>)).
  { cbn. rewrite list_insert_insert_eq. apply list_lookup_insert_eq. by eapply lookup_lt_Some. }
  unfold openPosition. rewrite E2. unfold fillAtClose.
  change (orchFillSim (orch st2)) with (orchFillSim (orch st)). change (orderIDSeq (orch st2)) with (orderIDSeq (orch st)).
  destruct (SimulateFillWithTCA _ _ _ _ _ _ _ _ _ _ _ _) as [fill sim]. cbv zeta.
  eexists _, _. split; [reflexivity|]. cbn. change (idOf _) with (idOf e). rewrite lookup_insert_eq. split; [reflexivity|].
  split; [done|]. by exists fill.
Qed.
End Findings.

(** ** A run: one strategy that buys on every bar *)
#[local] Instance eager : StrategyRunner unit :=
  {| Evaluate r c _ := (Some (Some (mkSignal (Symbol c) "BUY" 1 SignalEntry 0.6 "" 0 0)), r);
     SetVIX := None; SetATR := None; PushSecondaryPrice := None |}.

Definition eagerConfig : OrchestratorConfig := mkOrchConfig [] 0 0 100000 2 0.25 0.10 true false 0.6 "" 2.0.

Definition eagerStart : @Orchestrator unit unit :=
  let o := NewOrchestrator eagerConfig tt in
  match AddStrategy (fun _ => Some tt) o "X" "1d" "demo" with inr o => o | inl _ => o end.

Definition eagerBar (d : Z) : Candle :=
  mkCandle (d * 86400000000000) 1000000 1010000 990000 1000000 1000000 "X" 0 "" "".

Definition eagerDatabase : Database := mkDatabase None None (fun _ _ => Some [map eagerBar [1; 2]%Z]).

Abbreviation eagerLoop := (runLoop halfRand halfRand 0 map_to_list map_to_list (fun m => map fst (map_to_list m)) eagerDatabase eagerStart).

Lemma eager_wired : wired eagerStart.
Proof.
  unfold eagerStart. destruct (AddStrategy _ _ _ _ _) as [err|o] eqn:A.
  - apply new_wired.
  - by apply (add_wired _ _ _ _ _ _ A), new_wired.
Qed.

Lemma orchestrated_run_books_witness :
  exists st, eagerLoop = Some st /\ openPositions st = ∅ /\ SimHalted (pool (orch st)) = false /\
    map EqTime (rEquity st) = map Time (runCandles eagerDatabase eagerStart).
Proof.
  destruct (orchestrated_run_books halfRand halfRand 0 map_to_list map_to_list (fun m => map fst (map_to_list m))
    (fun m => reflexivity _) eagerDatabase eagerStart eager_wired) as [T B].
  destruct T as [st E]; [intros r c regime; by eexists|]. exists st. destruct (B st E) as (O & _ & Q & P & _).
  exact (conj E (conj O (conj P Q))).
Defined.

(** A hundred shares bought at 10 and sold a percent higher: nothing is booked. *)
Definition heldTrade : Trade :=
  blankTrade <| TSymbol := "X"%string |> <| TSide := "BUY"%string |> <| TQuantity := 1000 |> <| TEntryPrice := 1000000%Z |>
    <| TEntryTime := 86400000000000%Z |>.
Definition higherBar : Candle := mkCandle 86400000000000 1010000 1010000 990000 1010000 1000000 "X" 0 "" "".
Definition eagerKey : string := engineID "X" "1d" "demo".

Lemma orchestrator_pnl_capped_by_share_price_witness :
  exists p t', rCapital (closePosition halfRand halfRand higherBar 0 (startRun eagerStart) (eagerKey, heldTrade)) = 100000 + p /\
    TPnL t' = p /\ (p = 0 \/ (math.Abs p <=? 10 * 0.10) = true).
Proof.
  destruct (nth_error (engines eagerStart) 0) as [e|] eqn:E; [|by vm_compute in E].
  destruct (orchestrator_pnl_capped_by_share_price halfRand halfRand higherBar 0 (startRun eagerStart) eagerKey heldTrade 0 e)
    as (p & t' & A & _ & B & C); [by vm_compute|by vm_compute in E |- *|by vm_compute|by split; vm_compute|].
  exists p, t'. exact (conj A (conj B C)).
Defined.

(** The tenth of the capital its symbol may hold has been used up: the pipeline refuses. *)
Definition usedUp : @RunState unit unit :=
  onOrch (set engines (map (fun e => e <| ePipeline := withNotional (ePipeline e) {["X" := 10000]} |>))) (startRun eagerStart).

Definition usedUpEngine : @orchestratorEngine unit :=
  default (mkOrchEngine "" "" "" tt (mkPipeline None None None 0 None 0 ∅) 0 0 0 "") (engines (orch usedUp) !! 0%nat).

Lemma orchestrator_fills_rejected_witness :
  (askPipeline 0 (eagerBar 1) 0 0 usedUpEngine (mkSignal "X" "BUY" 1 SignalEntry 0.6 "" 0 0) 125 usedUp).1
    = psReject "aggregate_notional_cap:max_reached" /\
  exists st' t, seekSignal halfRand halfRand 0 (eagerBar 1) 0 0 0 usedUp = Some st' /\
    openPositions st' !! eagerKey = Some t /\ TSide t = "BUY"%string.
Proof.
  split; [by vm_compute|].
  destruct (orchestrator_fills_rejected halfRand halfRand 0 (eagerBar 1) 0 0 0 usedUpEngine
    (mkSignal "X" "BUY" 1 SignalEntry 0.6 "" 0 0) tt usedUp) as (st' & t & A & B & C & _);
    [by vm_compute..|]. exists st', t. exact (conj A (conj B C)).
Defined.
