(* ===== verification/Retention.v ===== *)
(** * Results of a matrix run ([ComboResult] of internal/backtest/engine.go, retention.go,
      plausibility.go)

    What is kept of a large set of results and which of them look wrong.  A combo leaves out
    the warnings, the curves and the version texts of its run, its signal counters are the
    run's record of them, and its parameters are not encoded; the texts of the flags are
    left out. *)
From Stdlib Require Import ZArith Lia Bool Floats.
From coqutil Require Import RecordSettersUsingExistingGetters.
From S2P Require Import Prelude Float64 FloatRound FloatLaws Timeline.
From S2P Require Import Engine.
Local Open Scope float_scope.
Local Open Scope go_scope.

Record ComboResult := mkCombo {
  CrRunID : string; CrSymbol : string; CrStrategyID : string; CrTimeframe : string;
  CrSharpe : float64; CrSortino : float64; CrMaxDrawdown : float64; CrMaxDrawdownDur : nat; CrTotalReturn : float64;
  CrWinRate : float64; CrProfitFactor : float64; CrAvgTrade : float64; CrAvgWin : float64; CrAvgLoss : float64;
  CrNumTrades : Z; CrNumWins : Z; CrNumLosses : Z; CrAvgMAE : float64; CrAvgMFE : float64;
  CrError : string; CrGatePassed : option bool; CrImplausible : bool; CrAdverseRate : float64;
  CrOptimized : bool; CrParams : gmap string float64;
  CrLongTrades : Z; CrShortTrades : Z; CrLongWinRate : float64; CrShortWinRate : float64;
  CrLongGrossPnL : float64; CrShortGrossPnL : float64; CrLongPF : float64; CrShortPF : float64;
  CrZeroPnLTrades : Z; CrExpectedPF : float64; CrRewardRisk : float64; CrDailyVolatility : float64;
  CrMtmSharpe : float64; CrMtmMaxDrawdown : float64; CrTotalFees : float64; CrAvgSlippageBps : float64; CrCalmar : float64;
  CrCandleCount : Z; CrGrossReturnPct : float64; CrDataSource : string; CrGenerationID : string;
  CrWfISSharpe : float64; CrWfOOSSharpe : float64; CrWfAnchorOOSSharpe : float64;
  CrWfBestParams : option (gmap string float64); CrWfMultiplicityWarn : bool;
  CrFirstCandle : Z; CrLastCandle : Z; CrDeclaredBars : float64; CrEffectiveBars : float64; CrFunnel : SignalDiag
}.

(** The zero value but for the names. *)
Definition namedCombo (strategyID symbol timeframe : string) : ComboResult :=
  mkCombo "" symbol strategyID timeframe 0 0 0 0 0 0 0 0 0 0 0 0 0 0 0 "" None false 0 false ∅ 0 0 0 0 0 0 0 0 0 0 0 0 0 0 0 0 0 0 0
    "" "" 0 0 0 None false 0 0 0 0 zeroDiag.

(** ** Tiers *)
Definition RetentionT0 : Z := 0.
Definition RetentionT1 : Z := 1.
Definition RetentionT2 : Z := 2.
Definition RetentionT3 : Z := 3.

Record RetentionConfig := mkRetention {
  TopK : Z; PlateauBand : float64; T2SampleCap : Z; MinTradesViable : Z; T1RetentionDays : Z; T2RetentionDays : Z
}.

(** Without overrides in the environment. *)
Definition DefaultRetentionConfig : RetentionConfig := mkRetention 25 0.5 200 1 365 90.

Definition ComboKey (r : ComboResult) : string :=
  (CrStrategyID r +:+ "|" +:+ CrSymbol r +:+ "|" +:+ CrTimeframe r)%string.

Definition isViable (cfg : RetentionConfig) (r : ComboResult) : bool :=
  bool_decide (CrError r = ""%string) && Z.leb (MinTradesViable cfg) (CrNumTrades r).

Definition dominates (a b : ComboResult) : bool :=
  ((CrSharpe a >=? CrSharpe b) && (CrMaxDrawdown a <=? CrMaxDrawdown b) && (CrProfitFactor a >=? CrProfitFactor b)) &&
  ((CrSharpe a >? CrSharpe b) || (CrMaxDrawdown a <? CrMaxDrawdown b) || (CrProfitFactor a >? CrProfitFactor b)).

Definition dominatedAt (viable : list ComboResult) (i : nat) (r : ComboResult) : bool :=
  existsb (fun b => b) (imap (fun j q => negb (i =? j)%nat && dominates q r) viable).

(** The combos no other dominates. *)
Definition paretoFront (viable : list ComboResult) : list ComboResult :=
  omap (fun o => o) (imap (fun i r => if dominatedAt viable i r then None else Some r) viable).

Definition bySharpe (viable : list ComboResult) : list ComboResult := sliceStable (fun a b => CrSharpe a >? CrSharpe b) viable.

(** The front and the best by Sharpe ratio. *)
Definition islanders (cfg : RetentionConfig) (viable : list ComboResult) : list ComboResult :=
  paretoFront viable ++ take (Z.to_nat (TopK cfg)) (bySharpe viable).

Definition onIsland (cfg : RetentionConfig) (viable : list ComboResult) (r : ComboResult) : bool :=
  bool_decide (ComboKey r ∈ map ComboKey (islanders cfg viable)).

Definition islandMinSharpe (cfg : RetentionConfig) (viable : list ComboResult) : float64 :=
  fold_left (fun m r => if onIsland cfg viable r && (CrSharpe r <? m) then CrSharpe r else m) viable infinity.

Definition plateauThreshold (cfg : RetentionConfig) (viable : list ComboResult) : float64 :=
  islandMinSharpe cfg viable - PlateauBand cfg.

(** Off the island and off the plateau. *)
Definition inTail (cfg : RetentionConfig) (viable : list ComboResult) (r : ComboResult) : bool :=
  negb (onIsland cfg viable r) && negb (CrSharpe r >=? plateauThreshold cfg viable).

Definition tail (cfg : RetentionConfig) (viable : list ComboResult) : list ComboResult :=
  List.filter (inTail cfg viable) viable.

(** The positions of the tail that the stride keeps. *)
Definition keptPositions (cap : Z) (n : nat) : list Z :=
  let stride := of_Z (Z.of_nat n) / of_Z cap in
  map (fun i => math.int64 (of_Z (Z.of_nat i) * stride)) (seq 0 (Z.to_nat cap)).

(** The assignments [class[k] = t], in the order the code makes them. *)
Definition sampleTail (cfg : RetentionConfig) (t2 : list ComboResult) : list (string * Z) :=
  if Z.leb (Z.of_nat (length t2)) (T2SampleCap cfg) || Z.leb (T2SampleCap cfg) 0 then
    map (fun r => (ComboKey r, RetentionT2)) t2
  else
    let kept := keptPositions (T2SampleCap cfg) (length t2) in
    imap (fun i r => (ComboKey r, if bool_decide (Z.of_nat i ∈ kept) then RetentionT2 else RetentionT3)) t2.

Definition assignments (cfg : RetentionConfig) (results : list ComboResult) : list (string * Z) :=
  let viable := List.filter (isViable cfg) results in
  map (fun r => (ComboKey r, RetentionT3)) (List.filter (fun r => negb (isViable cfg r)) results) ++
  map (fun r => (ComboKey r, if onIsland cfg viable r then RetentionT0 else RetentionT1))
    (List.filter (fun r => negb (inTail cfg viable r)) viable) ++
  sampleTail cfg (tail cfg viable).

Definition ClassifyResults (cfg : RetentionConfig) (results : list ComboResult) : gmap string Z :=
  fold_left (fun class kc => <[kc.1 := kc.2]> class) (assignments cfg results) ∅.

(** ** The permanent summary *)
Record RunSummary := mkRunSummary {
  TotalCombos : Z; TradedCombos : Z; ZeroTrade : Z; Errored : Z; EffectiveTrials : Z;
  ScoreHistogram : gmap string Z; Viability : gmap string Z; FailureReasons : gmap string Z;
  ParetoFront : list string; BestSharpe : float64; BestCombo : string
}.

Definition sharpeBucket (s : float64) : string :=
  if math.IsNaN s || math.IsInf s 0 then "nan"
  else if s <? - 2 then "<-2"
  else if s <? - 1 then "-2..-1"
  else if s <? 0 then "-1..0"
  else if s <? 0.5 then "0..0.5"
  else if s <? 1 then "0.5..1"
  else if s <? 1.5 then "1..1.5"
  else if s <? 2 then "1.5..2"
  else ">=2".

Definition bump (k : string) (m : gmap string Z) : gmap string Z := <[k := (mget 0 m k + 1)%Z]> m.

(** [strings.ToLower] of an ASCII text. *)
Definition lowerByte (c : Ascii.ascii) : Ascii.ascii :=
  let n := Ascii.nat_of_ascii c in if (65 <=? n)%nat && (n <=? 90)%nat then Ascii.ascii_of_nat (n + 32) else c.
Fixpoint toLower (s : string) : string :=
  match s with EmptyString => EmptyString | String.String c s => String.String (lowerByte c) (toLower s) end.

Definition containsAny (s : string) (subs : list string) : bool :=
  existsb (fun sub => negb (bool_decide (sub = ""%string)) &&
                      match String.index 0 (toLower sub) (toLower s) with Some _ => true | None => false end) subs.

Definition normalizeReason (err : string) : string :=
  if bool_decide (err = ""%string) then "none"
  else if containsAny err ["no candle data"; "no data"]%string then "no_data"
  else if containsAny err ["context"; "deadline"; "timeout"]%string then "timeout"
  else if containsAny err ["hash"]%string then "hash_mismatch"
  else "other".

(** One round of the loop, on the summary and the viable combos so far. *)
Definition summarise (cfg : RetentionConfig) (acc : RunSummary * list ComboResult) (r : ComboResult) : RunSummary * list ComboResult :=
  let '(s, viable) := acc in
  let hist := bump (sharpeBucket (CrSharpe r)) (ScoreHistogram s) in
  if negb (bool_decide (CrError r = ""%string)) then
    (mkRunSummary (TotalCombos s) (TradedCombos s) (ZeroTrade s) (Errored s + 1) (EffectiveTrials s) hist
       (bump "errored" (Viability s)) (bump (normalizeReason (CrError r)) (FailureReasons s)) (ParetoFront s)
       (BestSharpe s) (BestCombo s), viable)
  else if Z.ltb (CrNumTrades r) (MinTradesViable cfg) then
    (mkRunSummary (TotalCombos s) (TradedCombos s) (ZeroTrade s + 1) (Errored s) (EffectiveTrials s) hist
       (bump "zero_trade" (Viability s)) (bump "zero_trades" (FailureReasons s)) (ParetoFront s)
       (BestSharpe s) (BestCombo s), viable)
  else
    let better := CrSharpe r >? BestSharpe s in
    (mkRunSummary (TotalCombos s) (TradedCombos s + 1) (ZeroTrade s) (Errored s) (EffectiveTrials s) hist
       (bump "traded" (Viability s)) (FailureReasons s) (ParetoFront s)
       (if better then CrSharpe r else BestSharpe s) (if better then ComboKey r else BestCombo s), viable ++ [r]).

Definition BuildRunSummary {SL : SortSlice} (results : list ComboResult) (cfg : RetentionConfig) : RunSummary :=
  let empty := mkRunSummary (Z.of_nat (length results)) 0 0 0 0 ∅ ∅ ∅ [] neg_infinity "" in
  let '(s, viable) := fold_left (summarise cfg) results (empty, []) in
  mkRunSummary (TotalCombos s) (TradedCombos s) (ZeroTrade s) (Errored s) (TradedCombos s) (ScoreHistogram s) (Viability s)
    (FailureReasons s) (sortSlice String.ltb (map ComboKey (paretoFront viable)))
    (if math.IsInf (BestSharpe s) (-1) then 0 else BestSharpe s) (BestCombo s).

(** ** Plausibility *)
Record PlausibilityFlag := mkFlag { Code : string; FlStrategyID : string; FlSymbol : string; FlTimeframe : string }.

Definition plausibleSharpeCeiling : float64 := 3.0.
Definition plausibleSharpeFloor : float64 := - 3.0.
Definition plausibleProfitFactorMax : float64 := 10.0.
Definition plausibleWinRateMax : float64 := 90.0.
Definition plausibleWinRateMin : float64 := 5.0.
Definition plausibleReturnMaxPct : float64 := 1000.0.
Definition plausibleReturnMinPct : float64 := - 100.0.

Definition comboPlausibilityFlags (r : ComboResult) : list PlausibilityFlag :=
  let flag (b : bool) code := if b then [mkFlag code (CrStrategyID r) (CrSymbol r) (CrTimeframe r)] else [] in
  if Z.eqb (CrNumTrades r) 0 then []
  else
    flag (CrSharpe r >? plausibleSharpeCeiling) "sharpe_implausible"%string ++
    flag (CrSharpe r <? plausibleSharpeFloor) "sharpe_implausible"%string ++
    flag (CrProfitFactor r >? plausibleProfitFactorMax) "profit_factor_implausible"%string ++
    flag ((CrWinRate r >? plausibleWinRateMax) || (CrWinRate r <? plausibleWinRateMin)) "win_rate_implausible"%string ++
    flag (Z.ltb 0 (CrLongTrades r) && (CrLongWinRate r <=? 0)) "directional_asymmetry"%string ++
    flag (CrShortPF r >=? 999) "sentinel_pf"%string ++
    flag ((CrTotalReturn r >? plausibleReturnMaxPct) || (CrTotalReturn r <? plausibleReturnMinPct)) "return_implausible"%string.

Definition IsComboImplausible (r : ComboResult) : bool := (0 <? length (comboPlausibilityFlags r))%nat.

Definition pairOf (r : ComboResult) : string * string := (CrStrategyID r, CrSymbol r).
Definition pairLess (a b : string * string) : bool :=
  if bool_decide (a.1 = b.1) then String.ltb a.2 b.2 else String.ltb a.1 b.1.

(** The keys of a map, each once, and the trade counts of a pair, each once. *)
Definition once {A} `{EqDecision A} (l : list A) : list A :=
  fold_left (fun seen x => if bool_decide (x ∈ seen) then seen else seen ++ [x]) l [].
Definition countsOf (results : list ComboResult) (k : string * string) : list Z :=
  map CrNumTrades (List.filter (fun r => bool_decide (pairOf r = k)) results).

Definition dedupFlags (results : list ComboResult) (k : string * string) : list PlausibilityFlag :=
  let counts := countsOf results k in
  if (length counts <? 2)%nat || (1 <? length (once counts))%nat then []
  else omap (fun tc => if Z.eqb tc 0 then None else Some (mkFlag "timeframe_dedup" k.1 k.2 "")) (once counts).

Definition FlagImplausibleCombos {SL : SortSlice} (results : list ComboResult) : list PlausibilityFlag :=
  flat_map comboPlausibilityFlags results ++
  flat_map (dedupFlags results) (sortSlice pairLess (once (map pairOf results))).

(** ** Dominance is a strict order *)
Lemma dominates_irrefl r : dominates r r = false.
Proof. unfold dominates. rewrite !ltb_irrefl. apply andb_false_r. Qed.

Lemma dominates_trans a b c : dominates a b = true -> dominates b c = true -> dominates a c = true.
Proof.
  unfold dominates. rewrite !andb_true_iff, !orb_true_iff.
  intros [[[S1 D1] F1] G1] [[[S2 D2] F2] G2].
  split; [split; [split|]; by eapply leb_trans|].
  destruct G1 as [[G|G]|G]; eauto using ltb_leb_trans, leb_ltb_trans.
Qed.

Definition nondominated (l : list ComboResult) (r : ComboResult) : bool := negb (existsb (fun q => dominates q r) l).

Lemma dominatedAt_spec l i r : l !! i = Some r -> dominatedAt l i r = existsb (fun q => dominates q r) l.
Proof.
  intros L. unfold dominatedAt. rewrite eq_iff_eq_true, !existsb_exists. split.
  - intros (b & Hb & ->). apply list_elem_of_In in Hb. apply list_elem_of_lookup in Hb as [j Hj]. rewrite list_lookup_imap in Hj.
    destruct (l !! j) as [q|] eqn:Q; [|done]. injection Hj as Hj. apply andb_prop in Hj as [_ D]. exists q. split; [|done].
    apply list_elem_of_In. by eapply list_elem_of_lookup_2.
  - intros (q & Hq & D). apply list_elem_of_In, list_elem_of_lookup in Hq as [j Hj]. exists true. split; [|done].
    apply list_elem_of_In. apply list_elem_of_lookup. exists j. rewrite list_lookup_imap, Hj. cbn. rewrite D.
    destruct (Nat.eqb_spec i j) as [->|]; [|done]. rewrite L in Hj. injection Hj as ->. by rewrite dominates_irrefl in D.
Qed.

Lemma omap_filter {A} (p : A -> bool) l :
  omap (fun o => o) (map (fun r => if p r then None else Some r) l) = List.filter (fun r => negb (p r)) l.
Proof. induction l as [|x l IH]; [done|]. cbn. destruct (p x); cbn; [done|by f_equal]. Qed.

Lemma imap_map {A B} (f : A -> B) l : imap (fun _ => f) l = map f l.
Proof. induction l as [|x l IH]; [done|]. cbn. f_equal. exact IH. Qed.

Lemma front_filter l : paretoFront l = List.filter (nondominated l) l.
Proof.
  unfold paretoFront, nondominated. rewrite <- (omap_filter (fun r => existsb (fun q => dominates q r) l)). f_equal.
  rewrite <- imap_map. apply imap_ext. intros i r L. cbn. by rewrite (dominatedAt_spec l i r L).
Qed.

Lemma elem_of_filter_b {A} (p : A -> bool) l x : x ∈ List.filter p l <-> x ∈ l /\ p x = true.
Proof. rewrite !list_elem_of_In. apply filter_In. Qed.

Lemma filter_split {A} (p : A -> bool) l : List.filter p l ++ List.filter (fun x => negb (p x)) l ≡ₚ l.
Proof.
  induction l as [|x l IH]; [done|]. cbn. destruct (p x); cbn; [by rewrite IH|].
  rewrite <- Permutation_middle. by rewrite IH.
Qed.

(** A predicate that misses one of the elements another one has. *)
Lemma filter_shorter {A} (p q : A -> bool) l x :
  (forall y, p y = true -> q y = true) -> x ∈ l -> q x = true -> p x = false ->
  (length (List.filter p l) < length (List.filter q l))%nat.
Proof.
  intros I. induction l as [|y l IH]; intros X Q P; [by apply not_elem_of_nil in X|].
  assert (W : (length (List.filter p l) <= length (List.filter q l))%nat).
  { clear -I. induction l as [|z l IH]; [done|]. cbn. destruct (p z) eqn:E; [rewrite (I z E); cbn; lia|]. destruct (q z); cbn; lia. }
  apply elem_of_cons in X as [<-|X].
  - cbn. rewrite Q, P. cbn. lia.
  - specialize (IH X Q P). cbn. destruct (p y) eqn:E; [rewrite (I y E); cbn; lia|]. destruct (q y); cbn; lia.
Qed.

(** Every combo off the front is dominated by one on it. *)
Lemma front_covers l r : r ∈ l -> nondominated l r = false -> exists q, q ∈ paretoFront l /\ dominates q r = true.
Proof.
  rewrite front_filter.
  remember (length (List.filter (fun q => dominates q r) l)) as n eqn:N. revert r N.
  induction (lt_wf n) as [n _ IH]. intros r -> R D.
  unfold nondominated in D. apply negb_false_iff, existsb_exists in D as (q & Hq & D). apply list_elem_of_In in Hq.
  destruct (nondominated l q) eqn:E.
  - exists q. split; [|done]. by apply elem_of_filter_b.
  - destruct (IH _ (filter_shorter (fun y => dominates y q) (fun y => dominates y r) l q
                      (fun y G => dominates_trans y q r G D) Hq D (dominates_irrefl q)) q eq_refl Hq E) as (f & F & G).
    exists f. split; [done|by eapply dominates_trans].
Qed.

(** ** The tiers *)
Lemma writes_absent {B} (ws : list (string * B)) (m : gmap string B) k : k ∉ map fst ws ->
  fold_left (fun class kc => <[kc.1 := kc.2]> class) ws m !! k = m !! k.
Proof.
  revert m. induction ws as [|[k' v] ws IH]; intros m N; [done|]. cbn [map fst] in N. rewrite not_elem_of_cons in N.
  cbn [fold_left fst snd]. rewrite IH by tauto. apply lookup_insert_ne. intros ->. tauto.
Qed.

Lemma writes_lookup {B} (ws : list (string * B)) (m : gmap string B) k v : NoDup (map fst ws) -> (k, v) ∈ ws ->
  fold_left (fun class kc => <[kc.1 := kc.2]> class) ws m !! k = Some v.
Proof.
  revert m. induction ws as [|[k' v'] ws IH]; intros m N E; [by apply not_elem_of_nil in E|]. cbn [map fst] in N.
  apply list.NoDup_cons in N as [N1 N2]. cbn [fold_left fst snd]. apply elem_of_cons in E as [[= <- <-]|E]; [|by apply IH].
  rewrite writes_absent by done. apply lookup_insert_eq.
Qed.

Section Tiers.
Variable cfg : RetentionConfig.
Variable results : list ComboResult.
Let viable := List.filter (isViable cfg) results.

Lemma sample_keys t2 : map fst (sampleTail cfg t2) = map ComboKey t2.
Proof.
  unfold sampleTail. case_match; [by rewrite map_map|]. generalize (keptPositions (T2SampleCap cfg) (length t2)) as kept. intros kept.
  apply list_eq. intros i. change (map fst) with (fmap (M := list) (@fst string Z)). change (map ComboKey) with (fmap (M := list) ComboKey).
  rewrite !list_lookup_fmap, list_lookup_imap. by destruct (t2 !! i).
Qed.

(** Every result is assigned once. *)
Lemma assigned_keys : map fst (assignments cfg results) ≡ₚ map ComboKey results.
Proof.
  unfold assignments. rewrite !map_app, !map_map, sample_keys. cbn [fst]. rewrite <- !map_app. apply Permutation_map.
  fold viable. unfold tail.
  assert (E : List.filter (fun r => negb (inTail cfg viable r)) viable ++ List.filter (inTail cfg viable) viable ≡ₚ viable).
  { rewrite Permutation_app_comm. apply filter_split. }
  rewrite E. rewrite Permutation_app_comm. apply filter_split.
Qed.

Lemma sample_member t2 r : r ∈ t2 -> exists c, (ComboKey r, c) ∈ sampleTail cfg t2 /\ (c = RetentionT2 \/ c = RetentionT3).
Proof.
  intros R. unfold sampleTail. case_match.
  - exists RetentionT2. split; [|by left]. apply list_elem_of_fmap. by exists r.
  - set (kept := keptPositions _ _). apply list_elem_of_lookup in R as [i Hi].
    exists (if bool_decide (Z.of_nat i ∈ kept) then RetentionT2 else RetentionT3). split; [|by case_match; [left|right]].
    apply list_elem_of_lookup. exists i. by rewrite list_lookup_imap, Hi.
Qed.

Hypothesis distinct : NoDup (map ComboKey results).

Lemma assigned r c : (ComboKey r, c) ∈ assignments cfg results -> ClassifyResults cfg results !! ComboKey r = Some c.
Proof. intros H. apply writes_lookup; [|done]. by rewrite assigned_keys. Qed.

Lemma key_inj r q : r ∈ results -> q ∈ results -> ComboKey r = ComboKey q -> r = q.
Proof.
  intros R Q E. apply list_elem_of_lookup in R as [i Hi], Q as [j Hj].
  assert (i = j) as ->.
  { apply (NoDup_lookup (map ComboKey results) i j (ComboKey r)); [done|..];
      change (map ComboKey) with (fmap (M := list) ComboKey); rewrite list_lookup_fmap; [by rewrite Hi|by rewrite Hj, E]. }
  congruence.
Qed.

Lemma viable_in r : r ∈ viable -> r ∈ results.
Proof. intros H. by apply elem_of_filter_b in H as [H _]. Qed.

Lemma islander_viable r : r ∈ islanders cfg viable -> r ∈ viable.
Proof.
  unfold islanders. rewrite elem_of_app. intros [H|H].
  - rewrite front_filter in H. by apply elem_of_filter_b in H as [H _].
  - apply (list_elem_of_In) in H. apply firstn_In in H || (apply list_elem_of_In in H; apply elem_of_take in H as (i & H & _); apply list_elem_of_lookup_2 in H).
    by rewrite <- (sliceStable_perm (fun a b => CrSharpe a >? CrSharpe b) viable).
Qed.

Lemma island_iff r : r ∈ viable -> onIsland cfg viable r = true <-> r ∈ islanders cfg viable.
Proof.
  intros R. unfold onIsland. rewrite bool_decide_eq_true. change (map ComboKey) with (fmap (M := list) ComboKey).
  rewrite list_elem_of_fmap. split; [|by exists r].
  intros (q & E & Q). by rewrite (key_inj r q (viable_in r R) (viable_in q (islander_viable q Q)) E).
Qed.

Lemma class_of r : r ∈ results ->
  (isViable cfg r = false -> ClassifyResults cfg results !! ComboKey r = Some RetentionT3) /\
  (isViable cfg r = true -> onIsland cfg viable r = true -> ClassifyResults cfg results !! ComboKey r = Some RetentionT0) /\
  (isViable cfg r = true -> onIsland cfg viable r = false -> (CrSharpe r >=? plateauThreshold cfg viable) = true ->
     ClassifyResults cfg results !! ComboKey r = Some RetentionT1) /\
  (isViable cfg r = true -> onIsland cfg viable r = false -> (CrSharpe r >=? plateauThreshold cfg viable) = false ->
     exists c, ClassifyResults cfg results !! ComboKey r = Some c /\ (c = RetentionT2 \/ c = RetentionT3)).
Proof.
  intros R. unfold assignments in *.
  assert (M : isViable cfg r = true -> inTail cfg viable r = false -> forall c, c = (if onIsland cfg viable r then RetentionT0 else RetentionT1) ->
              ClassifyResults cfg results !! ComboKey r = Some c).
  { intros V T c ->. apply assigned. unfold assignments. fold viable. rewrite !elem_of_app. right. left.
    apply list_elem_of_fmap. exists r. split; [done|]. apply elem_of_filter_b. rewrite T. split; [|done]. by apply elem_of_filter_b. }
  split; [|split; [|split]].
  - intros V. apply assigned. unfold assignments. rewrite elem_of_app. left. apply list_elem_of_fmap. exists r. split; [done|].
    apply elem_of_filter_b. by rewrite V.
  - intros V I. apply M; [done|unfold inTail; by rewrite I|by rewrite I].
  - intros V I P. apply M; [done|unfold inTail; by rewrite I, P|by rewrite I].
  - intros V I P. destruct (sample_member (tail cfg viable) r) as (c & H & C).
    { unfold tail. apply elem_of_filter_b. split; [by apply elem_of_filter_b|]. unfold inTail. by rewrite I, P. }
    exists c. split; [|done]. apply assigned. unfold assignments. fold viable. rewrite !elem_of_app. by right; right.
Qed.

(** *** The sample stays within its cap *)
Definition second (kc : string * Z) : bool := Z.eqb kc.2 RetentionT2.

Lemma sampled_positions (kept : list Z) (t2 : list ComboResult) k :
  length (List.filter second (imap (fun i r => (ComboKey r, if bool_decide (Z.of_nat (k + i) ∈ kept) then RetentionT2 else RetentionT3)) t2)) =
  length (List.filter (fun i => bool_decide (Z.of_nat i ∈ kept)) (seq k (length t2))).
Proof.
  revert k. induction t2 as [|r t2 IH]; intros k; [done|]. cbn [imap length seq List.filter]. rewrite Nat.add_0_r.
  assert (E : imap ((fun i r0 => (ComboKey r0, if bool_decide (Z.of_nat (k + i) ∈ kept) then RetentionT2 else RetentionT3)) ∘ S) t2 =
              imap (fun i r0 => (ComboKey r0, if bool_decide (Z.of_nat (S k + i) ∈ kept) then RetentionT2 else RetentionT3)) t2).
  { apply imap_ext. intros i x _. cbn. by rewrite Nat.add_succ_r. }
  rewrite E. unfold second at 1. cbn [snd]. case_bool_decide; cbn [Z.eqb RetentionT2 RetentionT3 Pos.eqb length]; by rewrite IH.
Qed.

Lemma sample_capped t2 : (0 < T2SampleCap cfg)%Z ->
  (Z.of_nat (length (List.filter second (sampleTail cfg t2))) <= T2SampleCap cfg)%Z.
Proof.
  intros C. unfold sampleTail. destruct (Z.leb_spec (Z.of_nat (length t2)) (T2SampleCap cfg)) as [L|L]; cbn [orb].
  - pose proof (List.filter_length_le second (map (fun r => (ComboKey r, RetentionT2)) t2)) as F. rewrite length_map in F. lia.
  - replace (Z.leb (T2SampleCap cfg) 0) with false by (symmetry; apply Z.leb_gt; lia).
    set (kept := keptPositions _ _). pose proof (sampled_positions kept t2 0) as E. cbn [Nat.add] in E. rewrite E. clear E.
    assert (I : (length (map Z.of_nat (List.filter (fun i => bool_decide (Z.of_nat i ∈ kept)) (seq 0 (length t2)))) <= length kept)%nat).
    { apply List.NoDup_incl_length.
      - apply NoDup_ListNoDup. apply NoDup_fmap_2; [intros ?? ?; lia|]. apply NoDup_ListNoDup, List.NoDup_filter, NoDup_ListNoDup, NoDup_seq.
      - intros z Hz. apply in_map_iff in Hz as (i & <- & Hi). apply filter_In in Hi as [_ Hi].
        apply bool_decide_eq_true in Hi. by apply list_elem_of_In. }
    rewrite length_map in I. assert (K : length kept = Z.to_nat (T2SampleCap cfg)) by (unfold kept, keptPositions; by rewrite length_map, length_seq).
    lia.
Qed.

Definition isT2 (r : ComboResult) : bool := bool_decide (ClassifyResults cfg results !! ComboKey r = Some RetentionT2).

Lemma sampled_capped : (0 < T2SampleCap cfg)%Z -> (Z.of_nat (length (List.filter isT2 results)) <= T2SampleCap cfg)%Z.
Proof.
  intros C. etrans; [|exact (sample_capped (tail cfg viable) C)]. apply inj_le.
  transitivity (length (map fst (List.filter second (assignments cfg results)))).
  - rewrite <- (length_map ComboKey (List.filter isT2 results)). apply List.NoDup_incl_length.
    + apply NoDup_ListNoDup. change (map ComboKey) with (fmap (M := list) ComboKey). apply NoDup_fmap_2_strong.
      * intros x y Hx Hy E. apply elem_of_filter_b in Hx as [Hx _], Hy as [Hy _]. by apply key_inj.
      * apply NoDup_ListNoDup, List.NoDup_filter, NoDup_ListNoDup. by eapply NoDup_fmap_1.
    + intros k Hk. apply in_map_iff in Hk as (r & <- & Hr). apply filter_In in Hr as [Hr T]. apply bool_decide_eq_true in T.
      apply in_map_iff. exists (ComboKey r, RetentionT2). split; [done|]. apply filter_In. split; [|done]. apply list_elem_of_In.
      assert (K : ComboKey r ∈ map fst (assignments cfg results)).
      { rewrite assigned_keys. apply list_elem_of_fmap. exists r. split; [done|by apply list_elem_of_In]. }
      apply list_elem_of_fmap in K as ([k c] & E & K). cbn in E. subst k. rewrite (assigned r c K) in T. congruence.
  - rewrite length_map. unfold assignments. fold viable. rewrite !List.filter_app, !length_app.
    assert (N : forall (f : ComboResult -> Z) l, (forall r, f r <> RetentionT2) -> List.filter second (map (fun r => (ComboKey r, f r)) l) = []).
    { intros f l H. induction l as [|x l IH]; [done|]. cbn. unfold second at 1. cbn [snd]. destruct (Z.eqb_spec (f x) RetentionT2) as [e|]; [by apply H in e|done]. }
    rewrite (N (fun _ => RetentionT3)) by done.
    rewrite (N (fun r => if onIsland cfg viable r then RetentionT0 else RetentionT1)) by (intros r; by case_match). done.
Qed.
End Tiers.


(** A combo with a number that is not one is on the front. *)
Lemma nan_never_dominated q r : fnan (CrSharpe r) || fnan (CrMaxDrawdown r) || fnan (CrProfitFactor r) = true -> dominates q r = false.
Proof.
  intros N. destruct (dominates q r) eqn:E; [|done]. unfold dominates in E. rewrite !andb_true_iff, !leb_true in E.
  rewrite !orb_true_iff in N. destruct E as [[[E1 E2] E3] _]. destruct N as [[N|N]|N]; [destruct E1 as (A & _)|destruct E2 as (_ & A & _)|destruct E3 as (A & _)]; congruence.
Qed.

(** ** The summary counts every result once *)
Definition mapTotal (m : gmap string Z) : Z := map_fold (fun _ x n => (x + n)%Z) 0%Z m.

Lemma bump_total k m : mapTotal (bump k m) = (mapTotal m + 1)%Z.
Proof.
  unfold bump, mget.
  assert (I : forall (m : gmap string Z) k x, m !! k = None ->
    mapTotal (<[k := x]> m) = (x + mapTotal m)%Z).
  { intros m' k' x' H. unfold mapTotal. by rewrite map_fold_insert_L by (lia || done). }
  destruct (m !! k) as [x|] eqn:E; cbn [default].
  - rewrite <- (insert_delete_id m k x E) at 2. rewrite <- (insert_delete_eq m k (x + 1)%Z).
    rewrite !I by apply lookup_delete_eq. lia.
  - rewrite I by done. lia.
Qed.

Lemma summarised cfg results : forall s viable,
  let '(s', viable') := fold_left (summarise cfg) results (s, viable) in
  viable' = viable ++ List.filter (isViable cfg) results /\ TotalCombos s' = TotalCombos s /\
  (TradedCombos s' + ZeroTrade s' + Errored s' = TradedCombos s + ZeroTrade s + Errored s + Z.of_nat (length results))%Z /\
  TradedCombos s' = (TradedCombos s + Z.of_nat (length (List.filter (isViable cfg) results)))%Z /\
  (mapTotal (ScoreHistogram s') =
   mapTotal (ScoreHistogram s) + Z.of_nat (length results))%Z.
Proof.
  induction results as [|r results IH]; intros s viable.
  { cbn. rewrite app_nil_r. split_and!; [done|done|lia..]. }
  cbn [fold_left]. destruct (summarise cfg (s, viable) r) as [s1 v1] eqn:E. specialize (IH s1 v1).
  destruct (fold_left _ _ _) as [s' viable'] eqn:F. destruct IH as (V & T & C & W & H).
  unfold summarise in E. cbn [List.filter length]. rewrite Nat2Z.inj_succ.
  rewrite (eq_refl : isViable cfg r = bool_decide (CrError r = ""%string) && Z.leb (MinTradesViable cfg) (CrNumTrades r)).
  destruct (bool_decide_reflect (CrError r = ""%string)) as [e|e]; cbn [negb andb] in E |- *.
  - destruct (Z.ltb_spec (CrNumTrades r) (MinTradesViable cfg)) as [L|L]; injection E as <- <-;
      cbn [TradedCombos ZeroTrade Errored TotalCombos ScoreHistogram] in *; rewrite bump_total in H.
    + replace (Z.leb (MinTradesViable cfg) (CrNumTrades r)) with false by (symmetry; apply Z.leb_gt; lia). cbn [length].
      split_and!; [done|done|lia..].
    + replace (Z.leb (MinTradesViable cfg) (CrNumTrades r)) with true by (symmetry; apply Z.leb_le; lia). cbn [length].
      rewrite V, <- app_assoc. split_and!; [done|done|lia..].
  - injection E as <- <-. cbn [TradedCombos ZeroTrade Errored TotalCombos ScoreHistogram] in *. rewrite bump_total in H. split_and!; [done|done|lia..].
Qed.

(** The summary that outlives the rows loses none.  Every combo is counted once as
    traded, without trades or failed, and once in the histogram; the effective trials are
    the viable combos, and the front it names is the front the tiers keep. *)
Theorem summary_accounts_for_all {SL : SortSlice} results cfg :
  let s := BuildRunSummary results cfg in
  let viable := List.filter (isViable cfg) results in
  TotalCombos s = Z.of_nat (length results) /\ (TradedCombos s + ZeroTrade s + Errored s = TotalCombos s)%Z /\
  mapTotal (ScoreHistogram s) = TotalCombos s /\
  EffectiveTrials s = Z.of_nat (length viable) /\ ParetoFront s ≡ₚ map ComboKey (paretoFront viable).
Proof.
  cbv zeta. unfold BuildRunSummary.
  pose proof (summarised cfg results (mkRunSummary (Z.of_nat (length results)) 0 0 0 0 ∅ ∅ ∅ [] neg_infinity "") []) as H.
  destruct (fold_left _ _ _) as [s viable]. destruct H as (-> & T & C & W & H).
  cbn [TotalCombos TradedCombos ZeroTrade Errored ScoreHistogram EffectiveTrials ParetoFront app] in *.
  change (mapTotal ∅) with 0%Z in H. split_and!; [done|lia|lia|lia|apply sortSlice_perm].
Qed.

(** ** Duplicate timeframes *)
Lemma once_spec {A} `{EqDecision A} (l : list A) : NoDup (once l) /\ forall x, x ∈ once l <-> x ∈ l.
Proof.
  unfold once. assert (G : forall seen : list A, NoDup seen ->
    NoDup (fold_left (fun seen x => if bool_decide (x ∈ seen) then seen else seen ++ [x]) l seen) /\
    forall x, x ∈ fold_left (fun seen x => if bool_decide (x ∈ seen) then seen else seen ++ [x]) l seen <-> x ∈ seen \/ x ∈ l).
  { induction l as [|y l IH]; intros seen N; cbn [fold_left]; [split; [done|]; intros x; rewrite elem_of_nil; tauto|].
    case_bool_decide as D.
    - destruct (IH seen N) as [I1 I2]. split; [done|]. intros x. rewrite I2, elem_of_cons. split; [tauto|]. intros [|[->|]]; tauto.
    - destruct (IH (seen ++ [y])) as [I1 I2].
      { apply list.NoDup_app. split; [done|]. split; [|apply NoDup_singleton]. intros x X Y. apply list_elem_of_singleton in Y. by subst x. }
      split; [done|]. intros x. rewrite I2, elem_of_app, !elem_of_cons, elem_of_nil. tauto. }
  destruct (G [] (NoDup_nil_2)) as [A1 A2]. split; [done|]. intros x. rewrite A2, elem_of_nil. tauto.
Qed.

Lemma in_map_elem {A B} (f : A -> B) l y : y ∈ map f l <-> exists x, y = f x /\ x ∈ l.
Proof. change (map f l) with (f <$> l). apply list_elem_of_fmap. Qed.

Lemma elem_of_flat_map {A B} (f : A -> list B) l y : y ∈ flat_map f l <-> exists x, x ∈ l /\ y ∈ f x.
Proof. rewrite list_elem_of_In, in_flat_map. setoid_rewrite list_elem_of_In. done. Qed.

Lemma combo_flag_code r f : f ∈ comboPlausibilityFlags r -> Code f <> "timeframe_dedup"%string.
Proof.
  unfold comboPlausibilityFlags. destruct (Z.eqb (CrNumTrades r) 0); [by intros ?%not_elem_of_nil|].
  rewrite !elem_of_app. intros H. destruct H as [H|[H|[H|[H|[H|[H|H]]]]]]; case_match; try (by apply not_elem_of_nil in H);
    apply list_elem_of_singleton in H as ->; done.
Qed.

(** A strategy and symbol are flagged for a timeframe that is not applied exactly when
    they have at least two results, all with the same number of trades, not zero. *)
Theorem dedup_flag_exact {SL : SortSlice} results sid sym :
  mkFlag "timeframe_dedup" sid sym "" ∈ FlagImplausibleCombos results <->
  (2 <= length (countsOf results (sid, sym)))%nat /\
  exists n, n <> 0%Z /\ Forall (fun c => c = n) (countsOf results (sid, sym)).
Proof.
  unfold FlagImplausibleCombos. rewrite elem_of_app, !elem_of_flat_map. split.
  - intros [(r & _ & F)|(k & _ & F)]; [by apply combo_flag_code in F|]. unfold dedupFlags in F.
    destruct (Nat.ltb_spec (length (countsOf results k)) 2) as [|L]; [by apply not_elem_of_nil in F|].
    destruct (Nat.ltb_spec 1 (length (once (countsOf results k)))) as [|U]; [by apply not_elem_of_nil in F|]. cbn [orb] in F.
    apply list_elem_of_omap in F as (n & N & E). destruct (Z.eqb_spec n 0) as [|Z]; [done|]. injection E as E1 E2.
    destruct k as [s y]. cbn in E1, E2. subst s y. split; [done|]. exists n. split; [done|]. apply list.Forall_forall. intros c C.
    destruct (once_spec (countsOf results (sid, sym))) as [_ O]. apply O in C.
    destruct (once (countsOf results (sid, sym))) as [|a [|b l]]; [by apply not_elem_of_nil in C| |cbn in U; lia].
    apply list_elem_of_singleton in C as ->, N as ->. done.
  - intros (L & n & Z & F). right. exists (sid, sym). split.
    + rewrite (sortSlice_perm _ pairLess). apply once_spec, in_map_elem. unfold countsOf in L. rewrite length_map in L.
      destruct (List.filter (fun r => bool_decide (pairOf r = (sid, sym))) results) as [|r l] eqn:E; [cbn in L; lia|]. exists r.
      assert (R : r ∈ List.filter (fun r => bool_decide (pairOf r = (sid, sym))) results) by (rewrite E; left).
      apply elem_of_filter_b in R as [R B]. apply bool_decide_eq_true in B. done.
    + unfold dedupFlags. destruct (once_spec (countsOf results (sid, sym))) as [O1 O2].
      assert (U : once (countsOf results (sid, sym)) = [n]).
      { rewrite list.Forall_forall in F. destruct (once (countsOf results (sid, sym))) as [|a [|b l]].
        - destruct (countsOf results (sid, sym)) as [|c l]; [cbn in L; lia|]. exfalso. apply (not_elem_of_nil c), O2. left.
        - f_equal. apply F, O2. left.
        - exfalso. assert (a = n) as -> by (apply F, O2; left). assert (b = n) as -> by (apply F, O2; right; left).
          apply list.NoDup_cons in O1 as [O1 _]. apply O1. left. }
      destruct (Nat.ltb_spec (length (countsOf results (sid, sym))) 2); [lia|]. rewrite U. cbn.
      destruct (Z.eqb_spec n 0); [done|]. left.
Qed.

(** Six combos: two on the front, one on the plateau, three in the tail of which two are kept. *)
Definition sampleCombo (name : string) (sharpe dd pf : float64) : ComboResult :=
  (namedCombo name "SPY" "1d") <| CrSharpe := sharpe |> <| CrMaxDrawdown := dd |> <| CrWinRate := 50 |> <| CrProfitFactor := pf |>
    <| CrNumTrades := 10%Z |>.
Definition sampleCombos : list ComboResult :=
  [sampleCombo "a" 2 5 2; sampleCombo "b" 1.5 3 2; sampleCombo "c" 1.2 9 1; sampleCombo "d" 0.1 9 1; sampleCombo "e" 0.2 9 1;
   sampleCombo "f" 0.3 9 1].
Definition sampleRetention : RetentionConfig := mkRetention 1 0.5 2 1 365 90.

