(* ===== verification/Dates.v ===== *)
(** * Dates of the Go [time] package

    [AddDate] on the calendar of Calendar.v, whose two halves are inverse; times are UTC
    nanoseconds. *)
From Stdlib Require Import ZArith Lia.
From S2P Require Import Prelude Timeline Calendar.
Local Open Scope Z_scope.

(** [t.AddDate(years, months, days)] *)
Definition AddDate (t years months days : Z) : Z :=
  let '(y, m, d) := dateKey t in daysFromCivil (y + years) (m + months) (d + days) * dayLength + t mod dayLength.

(** ** The calendar and the day numbers are inverse *)
Ltac zdiv := Z.to_euclidean_division_equations; lia.

Lemma doy_range doe : 0 <= doe < 146097 ->
  let yoe := (doe - doe / 1460 + doe / 36524 - doe / 146096) / 365 in
  0 <= yoe < 400 /\ 0 <= doe - (365 * yoe + yoe / 4 - yoe / 100) <= 365.
Proof.
  intros H yoe.
  assert (B : 0 <= doe / 36524 <= 4) by zdiv.
  assert (C : 0 <= doe / 146096 <= 1) by zdiv.
  assert (A : 0 <= doe / 1460 <= 100) by zdiv.
  assert (Y : 0 <= yoe < 400) by (unfold yoe; zdiv). split; [done|].
  unfold yoe in *; zdiv.
Qed.

Lemma civil_days z : let '(y, m, d) := civilFromDays z in daysFromCivil y m d = z /\ 1 <= m <= 12.
Proof.
  unfold civilFromDays, daysFromCivil. set (era := (z + 719468) / 146097). set (doe := (z + 719468) mod 146097).
  assert (D : 0 <= doe < 146097) by (apply Z.mod_pos_bound; lia).
  assert (E : z + 719468 = 146097 * era + doe) by (apply Z.div_mod; lia).
  pose proof (doy_range doe D) as R. cbv zeta in R |- *. set (yoe := (doe - doe / 1460 + doe / 36524 - doe / 146096) / 365) in *.
  set (doy := doe - (365 * yoe + yoe / 4 - yoe / 100)) in *. destruct R as [Y R].
  set (mp := (5 * doy + 2) / 153). assert (M : 0 <= mp <= 11) by (unfold mp; zdiv).
  set (m := if mp <? 10 then mp + 3 else mp - 9).
  assert (Em : 1 <= m <= 12 /\ (if m >? 2 then m - 3 else m + 9) = mp /\ (m <=? 2) = negb (mp <? 10)).
  { unfold m. destruct (Z.ltb_spec mp 10); [replace (mp + 3 >? 2) with true by lia|replace (mp - 9 >? 2) with false by lia];
      (split; [lia|]); (split; [lia|]); cbn [negb]; lia. }
  destruct Em as (Em & Eb & El).
  replace ((m - 1) / 12) with 0 by (symmetry; apply Z.div_small; lia).
  replace ((m - 1) mod 12 + 1) with m by (rewrite Z.mod_small; lia). rewrite Eb, Z.add_0_r.
  assert (Ey : (if m <=? 2 then (if m <=? 2 then yoe + era * 400 + 1 else yoe + era * 400) - 1
                else if m <=? 2 then yoe + era * 400 + 1 else yoe + era * 400) = yoe + era * 400) by (destruct (m <=? 2); lia).
  rewrite Ey. rewrite Z.div_add, Z.mod_add, Z.div_small, Z.mod_small by lia. split; [|done]. unfold doy in *. lia.
Qed.

Lemma year_back y m d : daysFromCivil y m d - 366 <= daysFromCivil (y - 1) m d <= daysFromCivil y m d - 365.
Proof.
  unfold daysFromCivil. set (q := (m - 1) / 12). set (m' := (m - 1) mod 12 + 1).
  replace (if m' <=? 2 then y - 1 + q - 1 else y - 1 + q) with ((if m' <=? 2 then y + q - 1 else y + q) - 1) by (destruct (m' <=? 2); lia).
  cbv zeta. generalize (if m' <=? 2 then y + q - 1 else y + q) as Y. intros Y.
  generalize ((153 * (if m' >? 2 then m' - 3 else m' + 9) + 2) / 5) as k. intros k.
  pose proof (Z.div_mod Y 400 ltac:(done)) as DM. pose proof (Z.mod_pos_bound Y 400 ltac:(done)) as MB.
  revert DM MB. generalize (Y / 400) as e, (Y mod 400) as r. intros e r DM MB. subst Y.
  destruct (Z.eq_dec r 0) as [->|R].
  - replace (400 * e + 0 - 1) with (399 + (e - 1) * 400) by lia. rewrite Z.div_add, Z.mod_add by done.
    change (399 / 400) with 0. change (399 mod 400) with 399. change (399 / 4) with 99. change (399 / 100) with 3.
    change (0 / 4) with 0. change (0 / 100) with 0. lia.
  - replace (400 * e + r - 1) with (r - 1 + e * 400) by lia. rewrite Z.div_add, Z.mod_add by done.
    rewrite (Z.div_small (r - 1) 400), (Z.mod_small (r - 1) 400) by lia. zdiv.
Qed.

(** A year back is 365 or 366 days. *)
Lemma AddDate_year t : 365 * dayLength <= t - AddDate t (-1) 0 0 <= 366 * dayLength.
Proof.
  unfold AddDate, dateKey. pose proof (civil_days (t / dayLength)) as C. destruct (civilFromDays (t / dayLength)) as [[y m] d].
  destruct C as [C _]. rewrite !Z.add_0_r. replace (y + -1) with (y - 1) by lia. pose proof (year_back y m d) as Y.
  pose proof (Z.div_mod t dayLength ltac:(done)) as DM. rewrite C in Y. revert Y DM. unfold dayLength. lia.
Qed.

(** Adding nothing changes nothing. *)
Lemma AddDate_zero t : AddDate t 0 0 0 = t.
Proof.
  unfold AddDate, dateKey. pose proof (civil_days (t / dayLength)) as C. destruct (civilFromDays (t / dayLength)) as [[y m] d].
  destruct C as [C _]. rewrite !Z.add_0_r, C. pose proof (Z.div_mod t dayLength ltac:(done)) as DM. lia.
Qed.

Example AddDate_leap : dateKey (AddDate (daysFromCivil 2024 2 29 * dayLength + 5) (-1) 0 0) = (2023, 3, 1).
Proof. vm_compute. reflexivity. Qed.
