(* ===== verification/LightOpt.v ===== *)
(** * The light optimiser ([internal/backtest/light_optimizer.go])

    A bounded sweep of a strategy's parameters over a train window, judged against the
    defaults in the test window, and the sensitivity of a strategy to its parameters.  The
    engine is the class [Backtests] of OptimizedWalk.v, a fresh one per evaluation; the
    environment overrides nothing and no deadline is met.  The cache is keyed by what the
    source hashes. *)
From Stdlib Require Import ZArith Lia Bool Floats.
From coqutil Require Import RecordSettersUsingExistingGetters.
From S2P Require Import Prelude Float64 FloatRound FloatLaws StopLoss Fills Timeline Calendar Dates Live Strategies Params.
From S2P Require Import Trade Engine Metrics Enforcer Results SearchSpace OptimizedWalk.
Import GoInt.
Local Open Scope float_scope.
Local Open Scope go_scope.

Record LightOptimizeConfig := mkLight {
  LoStrategyID : string;
  LoSymbols : list string;
  ValidationSymbols : list string;
  LoTimeframe : string;
  LoStart : Z;
  LoEnd : Z;
  TrainFraction : float64;
  LoCapital : float64;
  LoDataSource : string;
  MaxCombos : Z;
  LoPropFirm : bool;
  LoGateProfile : string;
  LoSizing : float64;
  LoWeights : float64 * float64 * float64;
  PlateauPatience : Z;
  EnableCache : bool;
  CacheTTL : Z;
  RandomSeed : Z
}.

(** ** Defaults *)
Definition LightOptBudget : Z := 24.
Definition LightOptSymbolCount : Z := 4.
Definition LightOptPlateauPatience : Z := 5.
Definition LightOptTrainFraction : float64 := 0.80.
Definition LightOptCacheTTL : Z := (168 * 3600000000000)%Z.
Definition LightOptWeights : float64 * float64 * float64 := (0.5, 0.3, 0.2).

Definition applyLightOptDefaults (cfg : LightOptimizeConfig) : LightOptimizeConfig :=
  let '(a, b, c) := LoWeights cfg in
  cfg <| MaxCombos := if Z.leb (MaxCombos cfg) 0 then LightOptBudget else MaxCombos cfg |>
      <| PlateauPatience := if Z.eqb (PlateauPatience cfg) 0 then LightOptPlateauPatience else PlateauPatience cfg |>
      <| TrainFraction := if (TrainFraction cfg <=? 0) || (1 <=? TrainFraction cfg) then LightOptTrainFraction else TrainFraction cfg |>
      <| LoWeights := if (a =? 0) && (b =? 0) && (c =? 0) then LightOptWeights else LoWeights cfg |>
      <| CacheTTL := if Z.leb (CacheTTL cfg) 0 then LightOptCacheTTL else CacheTTL cfg |>
      <| RandomSeed := if Z.eqb (RandomSeed cfg) 0 then 1%Z else RandomSeed cfg |>
      <| LoCapital := if LoCapital cfg <=? 0 then 100000.0 else LoCapital cfg |>.

(** ** The space and its candidates *)
Definition optimisable (c : ParamConstraint) : bool :=
  match CType c with
  | ParamCategorical => (1 <? length (CategoricalValues c))%nat
  | _ => (CMin c <? CMax c) && (CStep c >? 0)
  end.

(** At least two dimensions; [None] is the nil space. *)
Definition validSearchSpace (space : option SearchSpace) : bool :=
  match space with
  | None => false
  | Some space => (2 <=? length (List.filter optimisable (map snd (map_to_list space))))%nat
  end.

(** ** The windows *)

(** The saturating [int64] duration of a share of the window, truncated. *)
Definition splitWindow (start finish : Z) (trainFraction : float64) : Z * Z * Z * Z :=
  let total := subTime finish start in
  if Z.leb total 0 then (start, finish, start, finish)
  else
    let trainEnd := (start + math.int64 (of_Z total * trainFraction))%Z in
    if negb (Z.ltb start trainEnd) || negb (Z.ltb trainEnd finish) then (start, finish, start, finish)
    else (start, trainEnd, trainEnd, finish).

Definition estimateBarCount (timeframe : string) (start finish : Z) : Z :=
  let days := durationHours (subTime finish start) / 24 in
  if days <=? 0 then 0 else math.int64 (days * barsPerDayFromTimeframe timeframe).

Definition weightMap (w : float64 * float64 * float64) : gmap string float64 :=
  let '(sharpe, dd, pf) := w in
  <[ObjectiveSharpe := sharpe]> (<[ObjectiveMinDD := dd]> (<[ObjectiveProfitFactor := pf]> ∅)).

(** ** The cache *)
Record cacheKey := mkKey { KStrategy : string; KSymbols : list string; KStart : Z; KEnd : Z; KTimeframe : string }.
#[export] Instance cacheKey_eq : EqDecision cacheKey.
Proof. solve_decision. Defined.

(** The texts of the two times stop at the second. *)
Definition lightOptCacheKey {SL : SortSlice} (cfg : LightOptimizeConfig) : cacheKey :=
  mkKey (LoStrategyID cfg) (sortSlice String.ltb (LoSymbols cfg)) (LoStart cfg / 1000000000)%Z (LoEnd cfg / 1000000000)%Z
    (LoTimeframe cfg).

Record optCacheEntry := mkEntry { CeParams : combination; CeExpires : Z }.
Abbreviation optCache := (list (cacheKey * optCacheEntry)).

Fixpoint cacheFind (key : cacheKey) (c : optCache) : option optCacheEntry :=
  match c with
  | [] => None
  | (k, e) :: c => if decide (k = key) then Some e else cacheFind key c
  end.
Definition cacheRemove (key : cacheKey) (c : optCache) : optCache :=
  List.filter (fun ke => negb (bool_decide (ke.1 = key))) c.

Definition lightOptCacheGet (now : Z) (key : cacheKey) (c : optCache) : option combination * optCache :=
  match cacheFind key c with
  | None => (None, c)
  | Some e => if Z.ltb (CeExpires e) now then (None, cacheRemove key c) else (Some (CeParams e), c)
  end.

Definition lightOptCachePut (now : Z) (key : cacheKey) (params : combination) (ttl : Z) (c : optCache) : optCache :=
  let ttl := if Z.leb ttl 0 then LightOptCacheTTL else ttl in
  (key, mkEntry params (now + ttl)) :: cacheRemove key c.

(** The parameters of the registered runner. *)
Definition registryDefaultParams (strategyID : string) : combination :=
  match Live.Registry.Get GlobalRegistry strategyID with Some runner => paramsOf runner | None => ∅ end.

Section Light.
Context {B : Backtests} {SL : SortSlice} {RN : Rand}.
Variable fmt4 : float64 -> string.
(** [strconv.ParseFloat] *)
Variable ParseFloat : string -> option float64.

(** [None]: a panic or an enumeration that takes more than [fuel] rounds. *)
Definition generateCandidates (fuel : nat) (space : SearchSpace) (budget seed : Z) : option (list combination) :=
  let budget := if Z.leb budget 0 then 24%Z else budget in
  total ← TotalCombinations space;
  if Z.leb total budget then
    all ← GenerateAllCombinations fuel space;
    match all with Done l => Some l | _ => None end
  else GenerateRandomCombinations fmt4 space budget seed.

(** ** One evaluation: the [k]th fresh engine *)
Definition lightRun (cfg : LightOptimizeConfig) (params : option combination) (symbols : list string) (start finish : Z) : RunConfig :=
  let base := mkConfig (LoStrategyID cfg) symbols (LoCapital cfg) None 0 (mkFee 0 0 0 0 0 0 false) (LoPropFirm cfg)
    (Some (mkSL StopLossATR 0%Z 0 14 2.0 0 0%Z)) (Some (mkTP TakeProfitRR 0%Z 0 0 2.0)) false ∅ 0 (LoSizing cfg) 0 0 [] None false false in
  mkRun (ApplyOptimizationParams base params) start finish (LoTimeframe cfg) (LoDataSource cfg)
    (negb (bool_decide (LoGateProfile cfg = ""%string)) && negb (bool_decide (LoGateProfile cfg = "none"%string))) (LoGateProfile cfg).

Definition penalised (cfg : LightOptimizeConfig) (res : BacktestResult) (score : float64) : float64 :=
  if LoPropFirm cfg && match RCompliance res with Some report => Z.ltb 0 (PropFirmEnforcer.NumBreaches report) | None => false end
  then (if score >? 0 then score * 0.1 else score - 1.0)
  else score.

Definition evalLightParams (e : engine) (cfg : LightOptimizeConfig) (k : nat) (params : combination) (symbols : list string)
    (start finish : Z) (weights : gmap string float64) : option float64 :=
  if bool_decide (symbols = []) || negb (Z.ltb start finish) then None
  else
    res ← (runEngine (NewEngine e k) (lightRun cfg (Some params) symbols start finish)).1;
    Some (penalised cfg res (ComputeObjective res ObjectiveComposite weights)).

(** ** The sweep

    The best score and parameters so far, how many candidates in a row did not improve on
    them, and the number of the next engine. *)
Fixpoint sweep (eval : nat -> combination -> option float64) (patience : Z) (cands : list combination) (k : nat)
    (best : float64) (params : option combination) (stale : Z) : option combination * nat :=
  match cands with
  | [] => (params, k)
  | c :: cands =>
      match eval k c with
      | None => sweep eval patience cands (S k) best params stale
      | Some score =>
          if score >? best + 1e-9 then sweep eval patience cands (S k) score (Some c) 0
          else
            let stale := (stale + 1)%Z in
            if Z.ltb 0 patience && Z.leb patience stale then (params, S k)
            else sweep eval patience cands (S k) best params stale
      end
  end.

(** From the candidates on. *)
Definition lightSweep (e : engine) (cfg : LightOptimizeConfig) (candidates : list combination) : option combination * nat :=
  let '(trainStart, trainEnd, _, _) := splitWindow (LoStart cfg) (LoEnd cfg) (TrainFraction cfg) in
  sweep (fun k c => evalLightParams e cfg k c (LoSymbols cfg) trainStart trainEnd (weightMap (LoWeights cfg))) (PlateauPatience cfg)
    candidates 0 neg_infinity None 0.

(** The winner and the defaults in the test window; [None] keeps the defaults. *)
Definition validated (e : engine) (cfg : LightOptimizeConfig) (k : nat) (best : combination) : option combination :=
  let '(_, _, testStart, testEnd) := splitWindow (LoStart cfg) (LoEnd cfg) (TrainFraction cfg) in
  let valSyms := match ValidationSymbols cfg with [] => LoSymbols cfg | l => l end in
  let eval k p := evalLightParams e cfg k p valSyms testStart testEnd (weightMap (LoWeights cfg)) in
  bestTest ← eval k best;
  match eval (S k) (registryDefaultParams (LoStrategyID cfg)) with
  | Some defTest => if bestTest <? defTest then None else Some best
  | None => Some best
  end.

(** The sweep past the cache; the outer option is that of [generateCandidates]. *)
Definition freshOptimize (fuel : nat) (e : engine) (cfg : LightOptimizeConfig) (space : SearchSpace) : option (option combination) :=
  candidates ← generateCandidates fuel space (MaxCombos cfg) (RandomSeed cfg);
  let '(trainStart, trainEnd, _, _) := splitWindow (LoStart cfg) (LoEnd cfg) (TrainFraction cfg) in
  Some (match candidates with
        | [] => None
        | _ =>
            if Z.ltb (estimateBarCount (LoTimeframe cfg) trainStart trainEnd) 500 then None
            else let '(best, k) := lightSweep e cfg candidates in best ← best; validated e cfg k best
        end).

Definition RunLightOptimize (fuel : nat) (e : engine) (now : Z) (cfg : LightOptimizeConfig) (cache : optCache) :
    option (option combination * optCache) :=
  let cfg := applyLightOptDefaults cfg in
  let space := DefaultSearchSpace (LoStrategyID cfg) in
  if negb (validSearchSpace space) then Some (None, cache)
  else
    let key := lightOptCacheKey cfg in
    let '(hit, cache) := if EnableCache cfg then lightOptCacheGet now key cache else (None, cache) in
    match hit with
    | Some params => Some (Some params, cache)
    | None =>
        best ← freshOptimize fuel e cfg (default ∅ space);
        Some (best, match best with
                    | Some best => if EnableCache cfg then lightOptCachePut now key best (CacheTTL cfg) cache else cache
                    | None => cache
                    end)
    end.

(** ** Sensitivity *)
Definition floatIn (v : float64) (vals : list float64) : bool := existsb (fun x => math.Abs (x - v) <? 1e-9) vals.

Definition testValues (c : ParamConstraint) (known : option float64) : list float64 :=
  match CType c with
  | ParamCategorical => map (fun v => default 0 (ParseFloat v)) (CategoricalValues c)
  | _ =>
      let base := default (CMin c) known in
      let mid := CMin c + (CMax c - CMin c) * 0.5 in
      fold_left (fun vals v => if (v >=? CMin c) && (v <=? CMax c) && negb (floatIn v vals) then vals ++ [v] else vals)
        [CMin c; base - CStep c * 2; base; base + CStep c * 2; CMax c; mid] []
  end.

(** The largest relative distance to the baseline. *)
Definition worse (baseline deg s : float64) : float64 :=
  let d := math.Abs (s - baseline) / math.Max (math.Abs baseline) 1e-9 in if d >? deg then d else deg.

Definition degradation (baseline : float64) (scores : list float64) : float64 :=
  if negb (baseline =? 0) then
    fold_left (worse baseline) scores 0
  else
    let minS := fold_left (fun m s => if s <? m then s else m) scores infinity in
    let maxS := fold_left (fun m s => if s >? m then s else m) scores neg_infinity in
    if math.Abs baseline >? 1e-9 then (maxS - minS) / math.Abs baseline else maxS - minS.

Definition stability (deg : float64) : string :=
  if deg <? 0.10 then "robust" else if deg <? 0.30 then "moderate" else "sensitive".

Record ParamSensitivityResult := mkSensitivity {
  SnStrategyID : string; Scores : gmap string float64; Stability : gmap string string; BestKnown : combination;
  Evaluations : nat; Errors : list string
}.

(** One parameter: a failed evaluation scores 0. *)
Definition sensitivityOf (eval : nat -> combination -> option float64) (baseline : float64) (space : SearchSpace)
    (r : ParamSensitivityResult) (name : string) : ParamSensitivityResult :=
  match space !! name with
  | None => r
  | Some c =>
      let vals := testValues c (BestKnown r !! name) in
      let scores := imap (fun i v => default 0 (eval (Evaluations r + i)%nat (<[name := v]> (BestKnown r)))) vals in
      let r := r <| Evaluations ::= (fun n => (n + length vals)%nat) |> in
      if (length scores <? 2)%nat then r
      else
        let deg := degradation baseline scores in
        r <| Scores ::= insert name (math.Min 1.0 deg) |> <| Stability ::= insert name (stability deg) |>
  end.

(** The engines of the sensitivity are numbered apart from those of the sweep. *)
Definition RunParameterSensitivity (fuel : nat) (e e' : engine) (now : Z) (cfg : LightOptimizeConfig) (cache : optCache) :
    option (ParamSensitivityResult * optCache) :=
  let cfg := applyLightOptDefaults cfg in
  let sid := LoStrategyID cfg in
  let space := DefaultSearchSpace sid in
  if negb (validSearchSpace space) then Some (mkSensitivity sid ∅ ∅ ∅ 0 ["search space invalid or too small"%string], cache)
  else
    '(best, cache) ← RunLightOptimize fuel e now cfg cache;
    let best := default (registryDefaultParams sid) best in
    let space := default ∅ space in
    let '(start, finish) := if Z.eqb (LoStart cfg) zeroTime || Z.eqb (LoEnd cfg) zeroTime then (AddDate now 0 (-3) 0, now)
                            else (LoStart cfg, LoEnd cfg) in
    let eval k p := evalLightParams e' cfg k p (LoSymbols cfg) start finish (weightMap (LoWeights cfg)) in
    let r := mkSensitivity sid ∅ ∅ best 0 [] in
    match sortedNames space with
    | [] => Some (r, cache)
    | names =>
        match eval O best with
        | None => Some (r <| Errors := ["baseline evaluation failed"%string] |>, cache)
        | Some baseline => Some (fold_left (sensitivityOf eval baseline space) names (r <| Evaluations := 1%nat |>), cache)
        end
    end.
End Light.

(** ** A short window has too few daily bars *)
Section Bars.
Local Open Scope Z_scope.

Lemma hours_below d h : 0 <= d <= h * 3600000000000 -> h <= 2 ^ 50 ->
  ffin (durationHours d) = true /\ 0 <= fv (durationHours d) <= (h + 1) * onev.
Proof.
  intros D H. unfold durationHours.
  assert (Q : 0 <= Z.quot d 3600000000000 <= h) by (rewrite Z.quot_div_nonneg by lia; pose proof (Z.div_le_upper_bound d 3600000000000 h); pose proof (Z.div_pos d 3600000000000); lia).
  assert (R : 0 <= Z.rem d 3600000000000 < 3600000000000) by (rewrite Z.rem_mod_nonneg by lia; apply Z.mod_pos_bound; lia).
  destruct (of_Z_exact (Z.quot d 3600000000000)) as [Fq Vq]; [lia|]. destruct (of_Z_exact (Z.rem d 3600000000000)) as [Fr Vr]; [lia|].
  destruct (of_Z_exact (h + 1)) as [Fw Vw]; [lia|]. pose proof onev_pos as O.
  assert (Vc : fv 3600000000000%float = 3600000000000 * onev) by (vm_compute; reflexivity).
  assert (Pr : pos0 (of_Z (Z.rem d 3600000000000))) by (split; [done|]; rewrite Vr; nia).
  assert (U : unit0 (of_Z (Z.rem d 3600000000000) / 3600000000000)%float) by (apply div_le_one; [done|done|rewrite Vc; lia|rewrite Vr, Vc; nia]).
  destruct (add_pos0 (of_Z (Z.quot d 3600000000000)) _ ltac:(split; [done|rewrite Vq; nia]) (unit0_pos0 _ U)) as (N & L1 & L2).
  destruct U as [Fu [U1 U2]].
  assert (L : fv (of_Z (Z.quot d 3600000000000) + of_Z (Z.rem d 3600000000000) / 3600000000000)%float <= fv (of_Z (h + 1))).
  { apply (nearest_le _ _ _ _ Z.lt_0_1 (add_nearest _ _ Fq Fu) (ffin_nan _ Fw)). rewrite Vq, Vw. nia. }
  rewrite Vw in L. split; [|lia]. apply (ffin_between 0%float _ (of_Z (h + 1))); [done|done|done|]. rewrite fv_zero_lit, Vw. lia.
Qed.

(** Four hundred and ninety-eight days and one bar a day. *)
Lemma few_bars timeframe start finish :
  barsPerDayFromTimeframe timeframe = 1%float -> 0 <= finish - start <= 498 * dayLength ->
  estimateBarCount timeframe start finish < 500.
Proof.
  intros T W. unfold estimateBarCount. rewrite T.
  assert (Dl : 498 * dayLength = 11952 * 3600000000000) by reflexivity.
  assert (D : 0 <= subTime finish start <= 11952 * 3600000000000) by (unfold subTime in *; lia).
  destruct (hours_below _ _ D ltac:(lia)) as [Fh [H0 Hh]].
  destruct (durationHours (subTime finish start) / 24 <=? 0)%float eqn:E; [lia|].
  destruct (of_Z_exact 11953) as [Fw Vw]; [lia|].
  assert (P24 : pos0 (durationHours (subTime finish start) / 24)%float /\ fv (durationHours (subTime finish start) / 24)%float <= fv (of_Z 11953 / 24)%float).
  { split; [apply div_ge1_le; [by split|done|vm_compute; discriminate]|].
    apply div_mono_l; [done|done|done|vm_compute; reflexivity|]. rewrite Vw. lia. }
  destruct P24 as [Pd Ld]. destruct (mul_unit_le _ 1%float Pd ltac:(split; [done|]; rewrite fv_one; pose proof onev_pos; lia)) as [[Fm Pm] Lm].
  assert (C : fv (of_Z 11953 / 24)%float < 499 * onev) by (vm_compute; reflexivity).
  unfold math.int64. assert (Z.quot (fv (durationHours (subTime finish start) / 24 * 1)%float) onev < 500); [|case_match; lia].
  pose proof onev_pos. rewrite Z.quot_div_nonneg by lia. apply Z.div_lt_upper_bound; lia.
Qed.
End Bars.

Section Laws.
Context {B : Backtests} {SL : SortSlice} {RN : Rand}.
Variable fmt4 : float64 -> string.

Lemma train_within start finish fraction a b c d :
  splitWindow start finish fraction = (a, b, c, d) -> a = start /\ (start <= finish -> start <= b <= finish)%Z.
Proof.
  unfold splitWindow. case_match; [intros [= <- <- <- <-]; lia|].
  destruct (Z.ltb_spec start (start + math.int64 (of_Z (subTime finish start) * fraction))); cbn [negb orb]; [|intros [= <- <- <- <-]; lia].
  destruct (Z.ltb_spec (start + math.int64 (of_Z (subTime finish start) * fraction)) finish); cbn [negb]; intros [= <- <- <- <-]; lia.
Qed.

(** A sweep of daily bars over less than five hundred days finds nothing. *)
Lemma short_sweep fuel e cfg space r :
  barsPerDayFromTimeframe (LoTimeframe cfg) = 1 -> (0 <= LoEnd cfg - LoStart cfg <= 498 * dayLength)%Z ->
  freshOptimize fmt4 fuel e cfg space = Some r -> r = None.
Proof.
  intros T W. unfold freshOptimize. destruct (generateCandidates _ _ _ _ _) as [cands|]; [|done]. cbn [mbind option_bind].
  destruct (splitWindow _ _ _) as [[[a b] c] d] eqn:E. apply train_within in E as [-> E]. intros [= <-].
  destruct cands; [done|]. pose proof (few_bars (LoTimeframe cfg) (LoStart cfg) b T) as F.
  replace (Z.ltb (estimateBarCount (LoTimeframe cfg) (LoStart cfg) b) 500) with true; [done|].
  symmetry. apply Z.ltb_lt, F. unfold dayLength in *. lia.
Qed.

Lemma defaults_keep cfg :
  LoStrategyID (applyLightOptDefaults cfg) = LoStrategyID cfg /\ LoTimeframe (applyLightOptDefaults cfg) = LoTimeframe cfg /\
  LoStart (applyLightOptDefaults cfg) = LoStart cfg /\ LoEnd (applyLightOptDefaults cfg) = LoEnd cfg /\
  EnableCache (applyLightOptDefaults cfg) = EnableCache cfg /\ LoSymbols (applyLightOptDefaults cfg) = LoSymbols cfg.
Proof. unfold applyLightOptDefaults. by destruct (LoWeights cfg) as [[? ?] ?]. Qed.

Lemma short_light_optimize fuel e now cfg cache r cache' :
  barsPerDayFromTimeframe (LoTimeframe cfg) = 1 -> (0 <= LoEnd cfg - LoStart cfg <= 498 * dayLength)%Z -> EnableCache cfg = false ->
  RunLightOptimize fmt4 fuel e now cfg cache = Some (r, cache') -> r = None.
Proof.
  intros T W C. unfold RunLightOptimize. destruct (defaults_keep cfg) as (_ & Et & Es & Ee & Ec & _).
  destruct (negb _); [by intros [= <- _]|]. rewrite Ec, C.
  destruct (freshOptimize _ _ _ _ _) as [best|] eqn:F; [|done]. cbn [mbind option_bind]. intros [= <- _].
  apply short_sweep in F; [done|by rewrite Et|by rewrite Es, Ee].
Qed.
End Laws.

(** ** What a sweep returns *)
Lemma le_plus_eps s : fnan s = false -> (s <=? s + 1e-9) = true.
Proof.
  intros N. destruct (ffin s) eqn:F.
  - pose proof (add_nearest s 1e-9 F eq_refl) as A. apply leb_true. split; [done|]. split; [apply A|].
    apply (nearest_ge _ _ _ s Z.lt_0_1 A N). assert (0 <= fv 1e-9)%Z by (vm_compute; discriminate). lia.
  - destruct (Z.le_gt_cases 0 (fv s)).
    + rewrite (nonfin_pos s N F) by done. vm_compute. reflexivity.
    + assert (s = neg_infinity) as ->; [|vm_compute; reflexivity].
      assert (E : (- s)%float = infinity).
      { apply nonfin_pos; [by rewrite fnan_opp|by rewrite ffin_opp|]. rewrite fv_opp. lia. }
      rewrite <- (opp_opp s), E. reflexivity.
Qed.

(** What holds of the scores of the first [n] candidates. *)
Definition tried (eval : nat -> combination -> option float64) (cands : list combination) (k n : nat) (P : float64 -> Prop) : Prop :=
  forall j c s, (j < n)%nat -> cands !! j = Some c -> eval (k + j)%nat c = Some s -> P s.

Lemma tried_cons eval c cands k n (P : float64 -> Prop) :
  (forall s, eval k c = Some s -> P s) -> tried eval cands (S k) n P -> tried eval (c :: cands) k (S n) P.
Proof.
  intros H T [|j] c' s J L E; cbn in L.
  - injection L as <-. rewrite Nat.add_0_r in E. by apply H.
  - apply (T j c' s); [lia|done|]. by rewrite Nat.add_succ_comm.
Qed.

Lemma tried_none eval cands k P : tried eval cands k 0 P.
Proof. intros j c s J. lia. Qed.

Definition notBetter (b s : float64) : Prop := (b + 1e-9 <? s) = false.

(** The winner is tried, beats the start, and no tried candidate beats it by the margin. *)
Definition winner (eval : nat -> combination -> option float64) (cands : list combination) (k n : nat) (b0 : float64)
    (res : option combination) : Prop :=
  exists i c s, (i < n)%nat /\ cands !! i = Some c /\ res = Some c /\ eval (k + i)%nat c = Some s /\ (b0 + 1e-9 <? s) = true /\
    tried eval cands k n (notBetter s).

Lemma not_better_trans b s s1 : notBetter b s1 -> (b + 1e-9 <? s) = true -> notBetter s s1.
Proof.
  unfold notBetter. intros H G. destruct (s + 1e-9 <? s1) eqn:X; [|done]. rewrite <- H. symmetry.
  assert (N : fnan s = false) by (apply ltb_true in G; tauto).
  pose proof (le_plus_eps s N) as L. apply ltb_true in G, X. apply leb_true in L. apply ltb_true. intuition lia.
Qed.

Lemma not_better_self s : fnan s = false -> notBetter s s.
Proof. intros N. apply leb_not_ltb. by apply le_plus_eps. Qed.

Lemma winner_cons eval c cands k n b b0 res :
  winner eval cands (S k) n b res -> (b0 + 1e-9 <? b) = true \/ b = b0 ->
  (forall s s', eval k c = Some s' -> (b + 1e-9 <? s) = true -> notBetter s s') ->
  winner eval (c :: cands) k (S n) b0 res.
Proof.
  intros (i & c1 & s & I & L & -> & E & G & T) Bb H. exists (S i), c1, s. rewrite <- Nat.add_succ_comm.
  split; [lia|]. split; [done|]. split; [done|]. split; [done|]. split.
  - destruct Bb as [Bb|<-]; [|done]. assert (N : fnan b = false) by (apply ltb_true in Bb; tauto).
    pose proof (le_plus_eps b N) as Le. apply ltb_true in Bb, G. apply leb_true in Le. apply ltb_true. intuition lia.
  - apply tried_cons; [|done]. intros s' E'. by apply (H s s').
Qed.

Lemma sweep_best eval patience cands : forall k b0 p0 stale res k',
  sweep eval patience cands k b0 p0 stale = (res, k') ->
  exists n, k' = (k + n)%nat /\ (n <= length cands)%nat /\
    ((res = p0 /\ tried eval cands k n (notBetter b0)) \/ winner eval cands k n b0 res).
Proof.
  induction cands as [|c cands IH]; intros k b0 p0 stale res k' H; cbn [sweep] in H.
  { injection H as <- <-. exists 0%nat. split; [lia|]. split; [lia|]. left. split; [done|apply tried_none]. }
  destruct (eval k c) as [s|] eqn:E; [destruct (b0 + 1e-9 <? s) eqn:G|].
  - assert (N : fnan s = false) by (apply ltb_true in G; tauto).
    apply IH in H as (n & -> & Ln & W). exists (S n). split; [lia|]. split; [cbn; lia|]. right. destruct W as [[-> T]|W].
    + exists 0%nat, c, s. rewrite Nat.add_0_r. split; [lia|]. split; [done|]. split; [done|]. split; [done|]. split; [done|].
      apply tried_cons; [|done]. rewrite E. intros s' [= <-]. by apply not_better_self.
    + apply (winner_cons _ _ _ _ _ s _ _ W); [by left|]. rewrite E. intros s1 s' [= <-] G1.
      by apply (not_better_trans s); [apply not_better_self|].
  - destruct (_ && _).
    + injection H as <- <-. exists 1%nat. split; [lia|]. split; [cbn; lia|]. left. split; [done|].
      apply tried_cons; [|apply tried_none]. rewrite E. by intros s' [= <-].
    + apply IH in H as (n & -> & Ln & W). exists (S n). split; [lia|]. split; [cbn; lia|]. destruct W as [[-> T]|W].
      * left. split; [done|]. apply tried_cons; [|done]. rewrite E. by intros s' [= <-].
      * right. apply (winner_cons _ _ _ _ _ b0 _ _ W); [by right|]. rewrite E. intros s1 s' [= <-] G1. by apply (not_better_trans b0).
  - apply IH in H as (n & -> & Ln & W). exists (S n). split; [lia|]. split; [cbn; lia|]. destruct W as [[-> T]|W].
    + left. split; [done|]. apply tried_cons; [|done]. by rewrite E.
    + right. apply (winner_cons _ _ _ _ _ b0 _ _ W); [by right|]. by rewrite E.
Qed.

Section Theorems.
Context {B : Backtests} {SL : SortSlice} {RN : Rand}.
Variable fmt4 : float64 -> string.
Variable ParseFloat : string -> option float64.

Lemma cache_key_defaults c : lightOptCacheKey (applyLightOptDefaults c) = lightOptCacheKey c.
Proof. unfold lightOptCacheKey. destruct (defaults_keep c) as (-> & -> & -> & -> & _ & ->). done. Qed.


(** The cache answers for another objective.  It is keyed by the strategy, the symbols,
    the dates and the timeframe: until the entry expires, a sweep with other weights,
    another gate, capital, data source, prop-firm rules or budget, on any engine, returns
    the parameters found for the first one without an evaluation. *)
Theorem light_cache_ignores_objective fuel e now cfg cache best cache1 fuel2 e2 now2 cfg2 :
  EnableCache cfg = true -> EnableCache cfg2 = true -> lightOptCacheKey cfg = lightOptCacheKey cfg2 ->
  cacheFind (lightOptCacheKey cfg) cache = None ->
  RunLightOptimize fmt4 fuel e now cfg cache = Some (Some best, cache1) ->
  (now2 <= now + CacheTTL (applyLightOptDefaults cfg))%Z ->
  RunLightOptimize fmt4 fuel2 e2 now2 cfg2 cache1 = Some (Some best, cache1).
Proof.
  intros C C2 K N H T.
  destruct (defaults_keep cfg) as (Ei & _ & _ & _ & Ec & _). destruct (defaults_keep cfg2) as (Ei2 & _ & _ & _ & Ec2 & _).
  assert (Si : LoStrategyID cfg = LoStrategyID cfg2) by (by injection K).
  unfold RunLightOptimize in H |- *. rewrite cache_key_defaults, Ec, C, Ei in H. rewrite cache_key_defaults, Ec2, C2, Ei2, <- Si, <- K.
  destruct (negb _); [done|]. unfold lightOptCacheGet at 1 in H. rewrite N in H.
  destruct (freshOptimize _ _ _ _ _) as [r|]; [|done]. cbn [mbind option_bind] in H. injection H as -> <-.
  unfold lightOptCacheGet, lightOptCachePut. cbn [cacheFind]. rewrite decide_True by done. cbn [CeExpires CeParams].
  assert (P : (0 < CacheTTL (applyLightOptDefaults cfg))%Z).
  { unfold applyLightOptDefaults. destruct (LoWeights cfg) as [[? ?] ?]. cbn.
    unfold RecordSettersUsingExistingGetters.const. destruct (Z.leb_spec (CacheTTL cfg) 0); [done|lia]. }
  destruct (Z.leb_spec (CacheTTL (applyLightOptDefaults cfg)) 0) as [|_]; [lia|].
  replace (Z.ltb (now + CacheTTL (applyLightOptDefaults cfg)) now2) with false by (symmetry; apply Z.ltb_ge; lia). done.
Qed.

(** ** Sensitivities are fractions *)
Lemma degradation_pos baseline scores : (baseline =? 0) = false -> fnan (degradation baseline scores) = false /\ (0 <= fv (degradation baseline scores))%Z.
Proof.
  intros H. unfold degradation. rewrite H. cbn [negb].
  assert (G : forall deg, fnan deg = false -> (0 <= fv deg)%Z ->
    fnan (fold_left (worse baseline) scores deg) = false /\ (0 <= fv (fold_left (worse baseline) scores deg))%Z).
  { induction scores as [|s scores IH]; intros deg N P; [done|]. cbn [fold_left]. unfold worse at 2 4. destruct (deg <? _) eqn:E; [|by apply IH].
    apply ltb_true in E as (_ & N' & L). apply IH; [done|lia]. }
  by apply G.
Qed.

Lemma sensitivity_unit eval baseline space r name :
  (baseline =? 0) = false -> map_Forall (fun _ s => unit0 s) (Scores r) ->
  map_Forall (fun _ s => unit0 s) (Scores (sensitivityOf ParseFloat eval baseline space r name)).
Proof.
  intros Bn F. unfold sensitivityOf. destruct (space !! name) as [c|]; [|done]. destruct (_ <? 2)%nat; [done|].
  cbn [Scores]. apply map_Forall_insert_2; [|done]. destruct (degradation_pos baseline (imap (fun i v =>
    default 0 (eval (Evaluations r + i)%nat (<[name := v]> (BestKnown r)))) (testValues ParseFloat c (BestKnown r !! name))) Bn) as [N P].
  destruct (Min_fv 1.0 _ eq_refl N) as [Nm Vm]. cbn in Vm |- *. split; [|rewrite Vm, fv_one; pose proof onev_pos; lia].
  apply (ffin_between 0 _ 1); [done|done|exact Nm|]. rewrite Vm, fv_one, fv_zero_lit. pose proof onev_pos. lia.
Qed.
End Theorems.

(** An engine whose runs all have thirty trades and the same score. *)
Definition flat : Backtests := {|
  engine := unit;
  hasDB _ := true;
  NewEngine e _ := e;
  runEngine e cfg := (Some (sharpeResult cfg 1), e)
|}.

Definition counting : Rand := {| rng := Z; NewSource s := s; Intn r n := ((r mod n)%Z, (r + 1)%Z) |}.

Definition flatConfig (gate : string) (weights : float64 * float64 * float64) : LightOptimizeConfig :=
  mkLight "ichimoku_cloud" ["SPY"%string] [] "1d" 0 (700 * dayLength) 0 0 "" 1 false gate 0 weights 0 true 0 0.

Abbreviation flatRun gate weights now cache :=
  (RunLightOptimize (B := flat) (RN := counting) (fun _ => ""%string) 10 tt now (flatConfig gate weights) cache).

Definition flatBest : combination :=
  list_to_map [("kelly_fraction", 0.25); ("sizing_percent", 0.05); ("stop_mult_crisis", 3); ("stop_mult_highvol", 0.5);
    ("cloud_confirm", 0); ("use_chandelier", 0); ("atr_multiplier", 1.5); ("regime_w_calm", 0); ("regime_w_crisis", 0.25);
    ("regime_w_trending", 0.75); ("regime_w_highvol", 0.5); ("profit_mult_trending", 1.5)]%string.

Definition flatCache : optCache := [(lightOptCacheKey (flatConfig "" (0, 0, 0)), mkEntry flatBest LightOptCacheTTL)].

Lemma flat_finds : flatRun "" (0, 0, 0) 0 [] = Some (Some flatBest, flatCache).
Proof. vm_compute. reflexivity. Qed.


(** An hour later another objective behind another gate. *)
Lemma light_cache_ignores_objective_witness :
  flatRun "strict" (0, 0, 1) 3600000000000 flatCache = Some (Some flatBest, flatCache).
Proof.
  apply (light_cache_ignores_objective (B := flat) (RN := counting) (fun _ => ""%string) 10 tt 0 (flatConfig "" (0, 0, 0)) [] flatBest flatCache
    10 tt 3600000000000 (flatConfig "strict" (0, 0, 1))); [done|done|reflexivity|done|exact flat_finds|vm_compute; discriminate].
Defined.
