(* ===== verification/Reoptimize.v ===== *)
(** * Scheduled re-optimisation ([internal/scheduler/reoptimization.go],
      internal/db/parameter_version_repo.go)

    The table of parameter versions with its statements, the job that decides whether a
    strategy's active parameters are still good, sweeps for new ones and stores them, and
    the walk-forward of an orchestration.  A statement may fail: [fails n] says whether the
    [n]th does.  The clock is read once per strategy; its text is an argument. *)
From Stdlib Require Import ZArith Lia Bool Floats.
From coqutil Require Import RecordSettersUsingExistingGetters.
From S2P Require Import Prelude Float64 FloatRound FloatLaws Fills Timeline Dates.
From S2P Require Import Trade Engine Metrics Results SearchSpace OptimizedWalk LightOpt.
From S2P Require Orchestrator.
Import GoInt.
Local Open Scope float_scope.
Local Open Scope go_scope.

(** ** Versions *)
Record ParamVersion := mkVersion {
  PvStrategyID : string; VersionTag : string; PvParams : combination; InSampleStart : option Z; InSampleEnd : option Z;
  OOSSharpe : option float64; OOSMaxDD : option float64; OOSReturnPct : option float64; ObjectiveScore : option float64;
  IsActive : bool; CreatedAt : Z
}.

Definition ofStrategy (sid : string) (v : ParamVersion) : bool := bool_decide (PvStrategyID v = sid).
Definition named (sid tag : string) (v : ParamVersion) : bool := ofStrategy sid v && bool_decide (VersionTag v = tag).

(** [INSERT ... ON CONFLICT (strategy_id, version_tag) DO UPDATE]: a row keeps its date. *)
Definition saveRow (now : Z) (pv : ParamVersion) (rows : list ParamVersion) : list ParamVersion :=
  if existsb (named (PvStrategyID pv) (VersionTag pv)) rows
  then map (fun v => if named (PvStrategyID pv) (VersionTag pv) v then pv <| CreatedAt := CreatedAt v |> else v) rows
  else rows ++ [pv <| CreatedAt := now |>].

(** [WHERE strategy_id = $1 AND is_active ORDER BY created_at DESC LIMIT 1] *)
Definition activeRow {SL : SortSlice} (sid : string) (rows : list ParamVersion) : option ParamVersion :=
  head (sortSlice (fun a b => Z.ltb (CreatedAt b) (CreatedAt a)) (List.filter (fun v => ofStrategy sid v && IsActive v) rows)).

(** The two updates of the transaction; no tag deactivates all. *)
Definition activateRows (sid tag : string) (rows : list ParamVersion) : list ParamVersion :=
  let rows := map (fun v => if ofStrategy sid v && IsActive v then v <| IsActive := false |> else v) rows in
  if bool_decide (tag = ""%string) then rows
  else map (fun v => if named sid tag v then v <| IsActive := true |> else v) rows.

Record Repo := mkRepo { rows : list ParamVersion; statements : nat }.

(** The repository's calls: the answer is [None] when the statement fails. *)
Section Repo.
Context {SL : SortSlice}.
Variable fails : nat -> bool.

Definition statement {A} (answer : A) (after : list ParamVersion) (r : Repo) : option A * Repo :=
  if fails (statements r) then (None, mkRepo (rows r) (S (statements r))) else (Some answer, mkRepo after (S (statements r))).

Definition SaveParamVersion (now : Z) (pv : ParamVersion) (r : Repo) : option unit * Repo := statement tt (saveRow now pv (rows r)) r.
Definition GetActiveParams (sid : string) (r : Repo) : option (option ParamVersion) * Repo :=
  statement (activeRow sid (rows r)) (rows r) r.
Definition GetParamVersion (sid tag : string) (r : Repo) : option (option ParamVersion) * Repo :=
  statement (List.find (named sid tag) (rows r)) (rows r) r.
Definition ListParamVersions (sid : string) (limit : Z) (r : Repo) : option (list ParamVersion) * Repo :=
  let limit := if Z.leb limit 0 then 20%Z else limit in
  statement (take (Z.to_nat limit) (sortSlice (fun a b => Z.ltb (CreatedAt b) (CreatedAt a)) (List.filter (ofStrategy sid) (rows r))))
    (rows r) r.
Definition ActivateParams (sid tag : string) (r : Repo) : option unit * Repo := statement tt (activateRows sid tag (rows r)) r.
Definition DeactivateAllParams (sid : string) (r : Repo) : option unit * Repo := ActivateParams sid "" r.
End Repo.

(** ** The job *)
Record ReoptimizationConfig := mkReopt {
  DegradationThreshold : float64; MaxAgeDays : Z; Strategies : list string; RoSymbols : list string;
  RoValidation : list string; EnableAutoActivate : bool
}.

Definition DefaultReoptimizationConfig : ReoptimizationConfig := mkReopt 20.0 90 [] [] [] false.

(** What [reoptimize] returns. *)
Inductive reoptError := NoViableParams | SaveFailed | ActivateFailed.

Definition without (sid : string) : BacktestConfig :=
  mkConfig sid [] 100000 None 0 (mkFee 0 0 0 0 0 0 false) false None None false ∅ 0 0.02 0 0 [] None false false.

(** The relative loss of Sharpe ratio in percent. *)
Definition sharpeDrop (before after : float64) : float64 := (before - after) / before * 100.0.

(** [symbols] and [valSymbols]; without validation symbols the last symbol is one. *)
Definition splitSymbols (symbols valSymbols : list string) : list string * list string :=
  match valSymbols with
  | _ :: _ => (symbols, valSymbols)
  | [] => if (1 <? length symbols)%nat
          then (take (length symbols - 1) symbols, drop (length symbols - 1) symbols)
          else (symbols, [])
  end.

Section Job.
Context {B : Backtests} {SL : SortSlice} {RN : Rand}.
Variable fmt4 : float64 -> string.
Variable fails : nat -> bool.
(** ["reopt-"] and the time. *)
Variable tagOf : Z -> string.
(** [config.Tickers] and [config.Load]; [None] is an error. *)
Variable Tickers : option (list string).
Variable universeStrategies : option (list string).
Variable c : ReoptimizationConfig.

Definition defaultSymbols : list string := match Tickers with Some (_ :: _ as l) => l | _ => ["SPY"%string] end.

Definition runQuickBacktest (e : engine) (now : Z) (sid : string) (params : combination) : float64 * engine :=
  let cfg := mkRun ((without sid) <| Symbols := RoValidation c |> <| StrategyParams := params |>) (AddDate now 0 (-3) 0) now "1d" "stooq" false "" in
  let '(result, e) := runEngine e cfg in
  (match result with Some r => SharpeRatio r | None => 0 end, e).

(** [params] older than [MaxAgeDays] days. *)
Definition tooOld (now : Z) (v : ParamVersion) : bool :=
  Z.ltb 0 (MaxAgeDays c) && (durationHours (subTime now (CreatedAt v)) >? of_Z (MaxAgeDays c * 24)).

Definition shouldReoptimize (e : engine) (now : Z) (sid : string) (r : Repo) : bool * engine * Repo :=
  let '(active, r) := GetActiveParams fails sid r in
  match active with
  | None => (true, e, r)
  | Some None => (true, e, r)
  | Some (Some v) =>
      if tooOld now v then (true, e, r)
      else
        match OOSSharpe v with
        | Some oos =>
            if (DegradationThreshold c >? 0) && (oos >? 0) then
              let '(current, e) := runQuickBacktest e now sid (PvParams v) in
              ((current >? 0) && (sharpeDrop oos current >? DegradationThreshold c), e, r)
            else (false, e, r)
        | None => (false, e, r)
        end
  end.

Definition saveVersion (now : Z) (sid : string) (params : combination) (isStart isEnd : Z) (oos : float64) (activate : bool) (r : Repo) :
    option reoptError * Repo :=
  let tag := tagOf now in
  let '(saved, r) := SaveParamVersion fails now (mkVersion sid tag params (Some isStart) (Some isEnd) (Some oos) None None None activate 0) r in
  match saved with
  | None => (Some SaveFailed, r)
  | Some _ =>
      if activate then
        let '(done, r) := ActivateParams fails sid tag r in
        (match done with None => Some ActivateFailed | Some _ => None end, r)
      else (None, r)
  end.

(** The sweep's configuration: a year, and no timeframe. *)
Definition reoptSweep (now : Z) (sid : string) (symbols valSymbols : list string) : LightOptimizeConfig :=
  mkLight sid symbols valSymbols "" (AddDate now (-1) 0 0) now 0 100000 "stooq" 48 false "" 0 (0, 0, 0) 0 false 0 0.

(** The outer option is that of the sweep, as in LightOpt.v. *)
Definition reoptimize (fuel : nat) (e : engine) (now : Z) (sid : string) (cache : optCache) (r : Repo) :
    option (option reoptError * engine * optCache * Repo) :=
  let '(symbols, valSymbols) := splitSymbols (match RoSymbols c with [] => defaultSymbols | l => l end) (RoValidation c) in
  '(params, cache) ← RunLightOptimize fmt4 fuel e now (reoptSweep now sid symbols valSymbols) cache;
  match params with
  | None => Some (Some NoViableParams, e, cache, r)
  | Some params =>
      let '(oosSharpe, e) := runQuickBacktest e now sid params in
      let '(active, r) := GetActiveParams fails sid r in
      let active := default None active in
      let degraded := match active with
                      | Some v => match OOSSharpe v with
                                  | Some oos => (oosSharpe >? 0) && (oos >? 0) && (sharpeDrop oos oosSharpe >? DegradationThreshold c)
                                  | None => false
                                  end
                      | None => false
                      end in
      if degraded then
        let '(_, r) := saveVersion now sid params (AddDate now (-1) 0 0) now oosSharpe false r in Some (None, e, cache, r)
      else
        let activate := match active with None => true | Some _ => EnableAutoActivate c end in
        let '(err, r) := saveVersion now sid params (AddDate now (-1) 0 0) now oosSharpe activate r in
        Some (err, e, cache, r)
  end.

Fixpoint checkStrategies (fuel : nat) (now : Z) (sids : list string) (e : engine) (cache : optCache) (r : Repo) :
    option (engine * optCache * Repo) :=
  match sids with
  | [] => Some (e, cache, r)
  | sid :: sids =>
      let '(should, e, r) := shouldReoptimize e now sid r in
      if should then
        '(_, e, cache, r) ← reoptimize fuel e now sid cache r; checkStrategies fuel now sids e cache r
      else checkStrategies fuel now sids e cache r
  end.

Definition CheckAndOptimize (fuel : nat) (now : Z) (e : engine) (cache : optCache) (r : Repo) : option (engine * optCache * Repo) :=
  let sids := match Strategies c with [] => default [] universeStrategies | l => l end in
  checkStrategies fuel now sids e cache r.
End Job.

(** ** The walk-forward of an orchestration *)
Record OrchestrationWalkForwardResult := mkOrchWalk {
  OwStart : Z; OwEnd : Z; ISSharpe : float64; OwOOSSharpe : float64; OOSReturn : float64; OOSDrawdown : float64;
  DegradationPct : float64
}.

(** Where the first four fifths end, in whole hours. *)
Definition inSampleEnd (startDate endDate : Z) : Z :=
  let totalDays := durationHours (subTime endDate startDate) / 24 in
  let splitDays := totalDays * 0.80 in
  (startDate + i64 (math.int64 (splitDays * 24) * 3600000000000))%Z.

Section OrchestrationWalk.
Context {rand : Type}.
Variable NormFloat64 : rand -> float64 * rand.
Variable RandFloat64 : rand -> float64 * rand.
Context {R : Type} `{Engine.StrategyRunner R} {SL : SortSlice}.
Variable Create : string -> option R.
Variable Now : Z.
Variable rangePositions : gmap string Trade -> list (string * Trade).
Variable rangeWeights : gmap string float64 -> list (string * float64).
Variable rangeHistories : gmap string (list float64) -> list string.
(** The database between two dates. *)
Variable dbBetween : Z -> Z -> Orchestrator.Database.

Inductive orchWalkError := AddFailed (e : Orchestrator.addError).

Definition withDates (cfg : Orchestrator.OrchestratorConfig) (start finish : Z) : Orchestrator.OrchestratorConfig :=
  cfg <| Orchestrator.OcStart := start |> <| Orchestrator.OcEnd := finish |>.

Fixpoint addAll (o : Orchestrator.Orchestrator (rand := rand)) (l : list Orchestrator.OrchestratorStrategy) :
    orchWalkError + Orchestrator.Orchestrator (R := R) :=
  match l with
  | [] => inr o
  | s :: l =>
      match Orchestrator.AddStrategy Create o (Orchestrator.OsSymbol s) (Orchestrator.OsTimeframe s) (Orchestrator.OsStrategyID s) with
      | inl err => inl (AddFailed err)
      | inr o => addAll o l
      end
  end.

(** One orchestrated run between two dates; [None] is a panic. *)
Definition orchRun (cfg : Orchestrator.OrchestratorConfig) (rng : rand) (start finish : Z) :
    option (orchWalkError + Orchestrator.OrchestrationRunResult) :=
  match addAll (Orchestrator.NewOrchestrator (withDates cfg start finish) rng) (Orchestrator.OcStrategies cfg) with
  | inl err => Some (inl err)
  | inr o =>
      '(result, _) ← Orchestrator.Run NormFloat64 RandFloat64 Now rangePositions rangeWeights rangeHistories (dbBetween start finish) o;
      Some (inr result)
  end.

Definition RunOrchestrationWalkForward (cfg : Orchestrator.OrchestratorConfig) (rngIS rngOOS : rand) (startDate endDate : Z) :
    option (orchWalkError + OrchestrationWalkForwardResult) :=
  let isEndDate := inSampleEnd startDate endDate in
  isResult ← orchRun cfg rngIS startDate isEndDate;
  match isResult with
  | inl err => Some (inl err)
  | inr isResult =>
      oosResult ← orchRun cfg rngOOS (isEndDate + 3600000000000)%Z endDate;
      match oosResult with
      | inl err => Some (inl err)
      | inr oosResult =>
          let before := Orchestrator.PoolSharpe isResult in
          let after := Orchestrator.PoolSharpe oosResult in
          Some (inr (mkOrchWalk startDate endDate before after (Orchestrator.PoolReturnPct oosResult) (Orchestrator.PoolMaxDD oosResult)
            (if before >? 0 then sharpeDrop before after else 0)))
      end
  end.
End OrchestrationWalk.

(** ** The job never stores anything *)
Section NeverSaves.
Context {B : Backtests} {SL : SortSlice} {RN : Rand}.
Variable fmt4 : float64 -> string.
Variable fails : nat -> bool.
Variable tagOf : Z -> string.
Variable Tickers : option (list string).
Variable universeStrategies : option (list string).
Variable c : ReoptimizationConfig.

Lemma sweep_finds_nothing fuel e now sid symbols valSymbols cache params cache' :
  RunLightOptimize fmt4 fuel e now (reoptSweep now sid symbols valSymbols) cache = Some (params, cache') -> params = None.
Proof.
  pose proof (AddDate_year now) as Y. apply short_light_optimize; [reflexivity| |reflexivity].
  cbn [LoEnd LoStart reoptSweep]. unfold dayLength in *. lia.
Qed.

Lemma should_reads_only e now sid r : rows (shouldReoptimize fails c e now sid r).2 = rows r.
Proof.
  unfold shouldReoptimize, GetActiveParams, statement. destruct (fails (statements r)); [done|].
  destruct (activeRow sid (rows r)) as [v|]; [|done]. destruct (tooOld c now v); [done|]. destruct (OOSSharpe v) as [oos|]; [|done].
  destruct (_ && _); [|done]. by destruct (runQuickBacktest c e now sid (PvParams v)).
Qed.

Lemma reoptimize_fails fuel e now sid cache r :
  reoptimize fmt4 fails tagOf Tickers c fuel e now sid cache r =
  (let '(symbols, valSymbols) := splitSymbols (match RoSymbols c with [] => defaultSymbols Tickers | l => l end) (RoValidation c) in
   '(_, cache) ← RunLightOptimize fmt4 fuel e now (reoptSweep now sid symbols valSymbols) cache;
   Some (Some NoViableParams, e, cache, r)).
Proof.
  unfold reoptimize. destruct (splitSymbols _ _) as [symbols valSymbols].
  destruct (RunLightOptimize _ _ _ _ _ _) as [[params cache']|] eqn:E; [|done]. apply sweep_finds_nothing in E as ->. done.
Qed.

Lemma check_keeps_rows fuel now sids : forall e cache r rs, rows r = rs ->
  (fun after => rows after.2) <$> checkStrategies fmt4 fails tagOf Tickers c fuel now sids e cache r =
  (fun _ => rs) <$> checkStrategies fmt4 fails tagOf Tickers c fuel now sids e cache r.
Proof.
  induction sids as [|sid sids IH]; intros e cache r rs E; cbn [checkStrategies]; [cbn; by rewrite E|].
  pose proof (should_reads_only e now sid r) as R0. destruct (shouldReoptimize fails c e now sid r) as [[should e1] r1]. cbn [snd] in R0.
  destruct should; [|apply IH; congruence]. rewrite reoptimize_fails. destruct (splitSymbols _ _) as [symbols valSymbols].
  destruct (RunLightOptimize _ _ _ _ _ _) as [[params cache']|]; [|done]. cbn. apply IH. congruence.
Qed.

(** The scheduled re-optimisation has never stored a parameter.  Its sweep gives no
    timeframe, so it counts one bar a day over a year, and the optimiser wants five hundred
    bars: whatever the strategy, the engine, the symbols and the repository, a
    re-optimisation that the age or the degradation of the parameters asks for ends with the
    error of no viable parameters, and a whole check leaves the table of versions as it was. *)
Theorem reoptimization_never_saves fuel now e cache r :
  (forall sid,
     reoptimize fmt4 fails tagOf Tickers c fuel e now sid cache r =
     (let '(symbols, valSymbols) := splitSymbols (match RoSymbols c with [] => defaultSymbols Tickers | l => l end) (RoValidation c) in
      '(_, cache) ← RunLightOptimize fmt4 fuel e now (reoptSweep now sid symbols valSymbols) cache;
      Some (Some NoViableParams, e, cache, r))) /\
  (let check := CheckAndOptimize (SL := SL) fmt4 fails tagOf Tickers universeStrategies c fuel now e cache r in
   (fun after => rows after.2) <$> check = (fun _ => rows r) <$> check).
Proof.
  split; [intros sid; apply reoptimize_fails|]. unfold CheckAndOptimize. cbv zeta. exact (check_keeps_rows fuel now _ e cache r (rows r) eq_refl).
Qed.
End NeverSaves.

(** ** Activation *)
Lemma named_spec sid tag v : named sid tag v = true <-> PvStrategyID v = sid /\ VersionTag v = tag.
Proof. unfold named, ofStrategy. by rewrite andb_true_iff, !bool_decide_eq_true. Qed.

Lemma activate_spec sid tag rs v : tag <> ""%string -> v ∈ activateRows sid tag rs -> ofStrategy sid v = true ->
  IsActive v = bool_decide (VersionTag v = tag).
Proof.
  intros T. unfold activateRows. rewrite bool_decide_eq_false_2 by done.
  rewrite list_elem_of_In, in_map_iff. intros (x & <- & X). apply in_map_iff in X as (y & <- & Y).
  set (x := if ofStrategy sid y && IsActive y then _ else _). assert (Ex : PvStrategyID x = PvStrategyID y /\ VersionTag x = VersionTag y) by (unfold x; by case_match).
  assert (Ax : ofStrategy sid y = true -> IsActive x = false) by (intros H; unfold x; rewrite H; cbn; by destruct (IsActive y) eqn:A).
  unfold named, ofStrategy in *. destruct Ex as [E1 E2]. rewrite E1.
  destruct (bool_decide_reflect (PvStrategyID y = sid)) as [e|e]; cbn [andb].
  - intros _. destruct (bool_decide_reflect (VersionTag x = tag)) as [D|D].
    + change (true = bool_decide (VersionTag x = tag)). by rewrite bool_decide_eq_true_2.
    + rewrite Ax by reflexivity. by rewrite bool_decide_eq_false_2.
  - by rewrite E1, bool_decide_eq_false_2.
Qed.

Lemma others_map sid (f : ParamVersion -> ParamVersion) rs :
  (forall v, ofStrategy sid v = true -> ofStrategy sid (f v) = true) -> (forall v, ofStrategy sid v = false -> f v = v) ->
  List.filter (fun v => negb (ofStrategy sid v)) (map f rs) = List.filter (fun v => negb (ofStrategy sid v)) rs.
Proof.
  intros A N. induction rs as [|v rs IH]; [done|]. cbn [map List.filter]. destruct (ofStrategy sid v) eqn:E.
  - rewrite (A v E). exact IH.
  - rewrite (N v E), E. cbn. by rewrite IH.
Qed.

Lemma save_others now pv rs :
  List.filter (fun v => negb (ofStrategy (PvStrategyID pv) v)) (saveRow now pv rs) =
  List.filter (fun v => negb (ofStrategy (PvStrategyID pv) v)) rs.
Proof.
  unfold saveRow. case_match.
  - apply others_map; intros v E.
    + case_match; [|done]. cbn. unfold ofStrategy. cbn. by apply bool_decide_eq_true_2.
    + unfold named. by rewrite E.
  - rewrite List.filter_app. cbn. unfold ofStrategy at 2. cbn. rewrite bool_decide_eq_true_2 by done. cbn. apply app_nil_r.
Qed.

Lemma activate_others sid tag rs :
  List.filter (fun v => negb (ofStrategy sid v)) (activateRows sid tag rs) = List.filter (fun v => negb (ofStrategy sid v)) rs.
Proof.
  assert (D : List.filter (fun v => negb (ofStrategy sid v)) (map (fun v => if ofStrategy sid v && IsActive v then v <| IsActive := false |> else v) rs) =
              List.filter (fun v => negb (ofStrategy sid v)) rs).
  { apply others_map; intros v E; [by case_match|by rewrite E]. }
  unfold activateRows. case_bool_decide; [exact D|]. rewrite <- D. apply others_map; intros v E; [by case_match|].
  unfold named. by rewrite E.
Qed.

Lemma save_present now pv rs : exists v, v ∈ saveRow now pv rs /\ named (PvStrategyID pv) (VersionTag pv) v = true /\
  PvParams v = PvParams pv /\ IsActive v = IsActive pv.
Proof.
  unfold saveRow. destruct (existsb (named (PvStrategyID pv) (VersionTag pv)) rs) eqn:E.
  - apply existsb_exists in E as (x & X & N). exists (pv <| CreatedAt := CreatedAt x |>). split.
    + apply list_elem_of_In, in_map_iff. exists x. by rewrite N.
    + split; [|done]. by apply named_spec.
  - exists (pv <| CreatedAt := now |>). split; [apply elem_of_app; right; left|]. split; [|done]. by apply named_spec.
Qed.

(** C34: a version that is saved as active is the strategy's only active one.  When both
    statements succeed, of the strategy's rows exactly those of the new tag are active, one
    is there with the new parameters, and the other strategies' rows are untouched.  The
    row is written as active before the others are deactivated: when the second statement
    fails, it is active and every version that was active before, under another tag, still is. *)
Theorem save_activates_one fails tagOf now sid params isStart isEnd oos r :
  let tag := tagOf now in
  let '(err, r') := saveVersion fails tagOf now sid params isStart isEnd oos true r in
  tag <> ""%string -> fails (statements r) = false ->
  exists v, v ∈ rows r' /\ named sid tag v = true /\ PvParams v = params /\ IsActive v = true /\
    if fails (S (statements r)) then
      err = Some ActivateFailed /\
      forall old, old ∈ rows r -> ofStrategy sid old = true -> IsActive old = true -> VersionTag old <> tag -> old ∈ rows r'
    else
      err = None /\ (forall v, v ∈ rows r' -> ofStrategy sid v = true -> IsActive v = bool_decide (VersionTag v = tag)) /\
      List.filter (fun v => negb (ofStrategy sid v)) (rows r') = List.filter (fun v => negb (ofStrategy sid v)) (rows r).
Proof.
  intros tag. unfold saveVersion, SaveParamVersion, ActivateParams, statement. fold tag.
  set (pv := mkVersion sid tag params (Some isStart) (Some isEnd) (Some oos) None None None true 0).
  destruct (fails (statements r)) eqn:F; [done|]. cbn [rows statements].
  destruct (save_present now pv (rows r)) as (v & V & N & P & A). cbn [PvStrategyID VersionTag PvParams IsActive pv] in N, P, A.
  destruct (fails (S (statements r))); intros T _.
  - exists v. split; [done|]. split; [done|]. split; [done|]. split; [done|]. split; [done|].
    intros old O S Ac Nt. unfold saveRow. cbn [PvStrategyID VersionTag pv].
    case_match; [|by apply elem_of_app; left]. apply list_elem_of_In, in_map_iff. exists old. split; [|by apply list_elem_of_In].
    destruct (named sid tag old) eqn:E; [|done]. apply named_spec in E as [_ E]. done.
  - cbn [rows]. assert (W : exists w, w ∈ activateRows sid tag (saveRow now pv (rows r)) /\ named sid tag w = true /\ PvParams w = params /\ IsActive w = true).
    { exists (v <| IsActive := true |>). split; [|by apply named_spec in N; split; [apply named_spec|]].
      unfold activateRows. rewrite bool_decide_eq_false_2 by done. apply list_elem_of_In, in_map_iff.
      apply named_spec in N as [N1 N2].
      exists (v <| IsActive := false |>). split.
      - assert (E : named sid tag (v <| IsActive := false |>) = true) by (by apply named_spec). by rewrite E.
      - apply in_map_iff. exists v. split; [|by apply list_elem_of_In]. unfold ofStrategy. rewrite (bool_decide_eq_true_2 _ N1), A. done. }
    destruct W as (w & W & Nw & Pw & Aw). exists w. split; [done|]. split; [done|]. split; [done|]. split; [done|]. split; [done|].
    split; [intros x X; by apply (activate_spec sid tag (saveRow now pv (rows r)))|].
    rewrite activate_others. exact (save_others now pv (rows r)).
Qed.

Lemma save_activates_one_witness :
  let old := mkVersion "trend" "reopt-1" ∅ None None None None None None true 5 in
  "reopt-2"%string <> ""%string /\
  exists v, v ∈ rows (saveVersion (fun _ => false) (fun _ => "reopt-2"%string) 9 "trend" ({["n"%string := 3]}) 0 9 1 true (mkRepo [old] 0)).2 /\
    named "trend" "reopt-2" v = true.
Proof.
  cbv zeta. split; [done|].
  pose proof (save_activates_one (fun _ => false) (fun _ => "reopt-2"%string) 9 "trend" ({["n"%string := 3]}) 0 9 1
    (mkRepo [mkVersion "trend" "reopt-1" ∅ None None None None None None true 5] 0)) as H.
  destruct (saveVersion _ _ _ _ _ _ _ _ _ _) as [err r']. destruct H as (v & V & N & _); [done|reflexivity|]. by exists v.
Defined.
