(* ===== verification/Progress.v ===== *)
(** * Progress of a matrix run ([internal/api/progress_store.go], the matrix handlers of
      [internal/api/router.go])

    The store the API answers the questions about a running batch from, and the calls the
    handlers make on it: one per event of the run, one per stored result, one per
    cancellation.  Every method holds the mutex.  Nothing is modelled of the persistence
    but what [RecoverFromDB] reads back. *)
From Stdlib Require Import ZArith Lia Bool Floats.
From coqutil Require Import RecordSettersUsingExistingGetters.
From stdpp Require Import pretty.
From S2P Require Import Prelude Float64 FloatRound FloatLaws Timeline Trade Retention.
Local Open Scope float_scope.
Local Open Scope go_scope.

Record ComboProgress := mkComboProgress {
  CpSymbol : string; CpStrategyID : string; CpTimeframe : string; CpStatus : string; CpError : string
}.

Record MatrixProgress := mkProgress {
  MpBatchID : string; MpTotal : Z; MpCompleted : Z; MpFailed : Z; MpRunning : Z; MpPassed : Z;
  MpStartTime : Z; MpUpdatedAt : Z; MpCombos : list ComboProgress; MpResults : list ComboResult; MpStatus : string;
  MpNextSeq : Z; MpBestSharpe : float64; MpBestStrategy : string; MpBestSymbol : string; MpTotalTrades : Z
}.

Abbreviation ProgressStore := (gmap string MatrixProgress).

Definition Create (now : Z) (batchID : string) (total : Z) (combos : list ComboProgress) (ps : ProgressStore) : ProgressStore :=
  <[batchID := mkProgress batchID total 0 0 0 0 now now combos [] "running" 0 0 "" "" 0]> ps.

(** ** Updates *)
Definition finished (status : string) : bool := bool_decide (status = "completed"%string) || bool_decide (status = "failed"%string).

Definition sameCombo (a b : ComboResult) : bool :=
  bool_decide (CrSymbol a = CrSymbol b) && bool_decide (CrStrategyID a = CrStrategyID b) && bool_decide (CrTimeframe a = CrTimeframe b).

(** The first result of the same combo is replaced. *)
Fixpoint replaceFirst (r : ComboResult) (l : list ComboResult) : list ComboResult :=
  match l with
  | [] => []
  | q :: l => if sameCombo q r then r :: l else q :: replaceFirst r l
  end.

Definition overdue (mp : MatrixProgress) : bool := Z.leb (MpTotal mp) (MpCompleted mp + MpFailed mp).

Definition addResult (r : ComboResult) (mp : MatrixProgress) : MatrixProgress :=
  let r := if bool_decide (CrRunID r = ""%string) then r <| CrRunID := (MpBatchID mp +:+ "-" +:+ pretty (MpNextSeq mp))%string |> else r in
  let mp := mp <| MpResults := MpResults mp ++ [r] |> <| MpNextSeq := (MpNextSeq mp + 1)%Z |>
               <| MpPassed := match CrGatePassed r with Some true => (MpPassed mp + 1)%Z | _ => MpPassed mp end |>
               <| MpTotalTrades := (MpTotalTrades mp + CrNumTrades r)%Z |> in
  if CrSharpe r >? MpBestSharpe mp
  then mp <| MpBestSharpe := CrSharpe r |> <| MpBestStrategy := CrStrategyID r |> <| MpBestSymbol := CrSymbol r |>
  else mp.

(** The end of [UpdateCombo]. *)
Definition settle (now : Z) (mp : MatrixProgress) : MatrixProgress :=
  let mp := mp <| MpUpdatedAt := now |> in
  if overdue mp then mp <| MpStatus := "completed"%string |> <| MpRunning := 0%Z |> else mp.

(** A combo ends that had not ended before: the counters and the result. *)
Definition countEnd (prevStatus : string) (result : option ComboResult) (mp : MatrixProgress) : MatrixProgress :=
  let mp := mp <| MpRunning := if bool_decide (prevStatus = "running"%string) then (MpRunning mp - 1)%Z else MpRunning mp |>
               <| MpCompleted := (MpCompleted mp + 1)%Z |> in
  match result with Some r => addResult r mp | None => mp end.

Definition complete (prevStatus : string) (result : option ComboResult) (mp : MatrixProgress) : MatrixProgress :=
  let mp := countEnd prevStatus result mp in
  if Z.eqb (MpRunning mp) 0 && overdue mp then mp <| MpStatus := "completed"%string |> else mp.

Definition updateBatch (now : Z) (index : nat) (status err : string) (result : option ComboResult) (mp : MatrixProgress) : MatrixProgress :=
  match MpCombos mp !! index with
  | None => mp
  | Some c =>
      let prevStatus := CpStatus c in
      let ok := bool_decide (err = ""%string) in
      let mp := mp <| MpCombos := <[index := mkComboProgress (CpSymbol c) (CpStrategyID c) (CpTimeframe c) status
                                               (if ok then CpError c else err)]> (MpCombos mp) |>
                   <| MpFailed := if ok then MpFailed mp else (MpFailed mp + 1)%Z |> in
      if finished status then
        if finished prevStatus then
          match result with Some r => mp <| MpResults := replaceFirst r (MpResults mp) |> | None => mp end <| MpUpdatedAt := now |>
        else settle now (complete prevStatus result mp)
      else
        settle now (if bool_decide (status = "running"%string) && bool_decide (prevStatus = "pending"%string)
                    then mp <| MpRunning := (MpRunning mp + 1)%Z |> else mp)
  end.

Definition onBatch (f : MatrixProgress -> MatrixProgress) (batchID : string) (ps : ProgressStore) : ProgressStore :=
  match ps !! batchID with Some mp => <[batchID := f mp]> ps | None => ps end.

Definition UpdateCombo (now : Z) (batchID : string) (index : nat) (status err : string) (result : option ComboResult) :
    ProgressStore -> ProgressStore := onBatch (updateBatch now index status err result) batchID.

Definition cancelled (c : ComboProgress) : ComboProgress :=
  if bool_decide (CpStatus c = "pending"%string) || bool_decide (CpStatus c = "running"%string)
  then mkComboProgress (CpSymbol c) (CpStrategyID c) (CpTimeframe c) "cancelled" (CpError c) else c.

Definition cancelBatch (now : Z) (mp : MatrixProgress) : MatrixProgress :=
  mp <| MpCombos := map cancelled (MpCombos mp) |> <| MpStatus := "cancelled"%string |> <| MpUpdatedAt := now |>.

Definition Cancel (now : Z) : string -> ProgressStore -> ProgressStore := onBatch (cancelBatch now).

(** ** Queries *)
Definition Get (batchID : string) (ps : ProgressStore) : option MatrixProgress := ps !! batchID.

(** [None]: a negative sequence number panics. *)
Definition sinceOf (mp : MatrixProgress) (sinceSeq : Z) : option (list ComboResult * Z * bool) :=
  let ended := negb (bool_decide (MpStatus mp = "running"%string)) in
  if Z.leb (Z.of_nat (length (MpResults mp))) sinceSeq then Some ([], MpNextSeq mp, ended)
  else if Z.ltb sinceSeq 0 then None
  else Some (drop (Z.to_nat sinceSeq) (MpResults mp), MpNextSeq mp, ended).

Definition GetSince (batchID : string) (sinceSeq : Z) (ps : ProgressStore) : option (list ComboResult * Z * bool) :=
  match ps !! batchID with
  | None => Some ([], 0%Z, false)
  | Some mp => sinceOf mp sinceSeq
  end.

(** [Duration.Seconds] *)
Definition durationSeconds (d : Z) : float64 := of_Z (Z.quot d 1000000000) + of_Z (Z.rem d 1000000000) / 1e9.

Record Summary := mkSummary { SuOf : MatrixProgress; SuPercent : float64; SuThroughput : float64; SuEta : float64 }.

Definition summaryOf (now : Z) (mp : MatrixProgress) : Summary :=
  let elapsed := durationSeconds (subTime now (MpStartTime mp)) in
  let throughputPerMin := if (elapsed >? 0) && Z.ltb 0 (MpCompleted mp) then of_Z (MpCompleted mp) / elapsed * 60 else 0 in
  let etaSeconds := if (throughputPerMin >? 0) && Z.ltb (MpCompleted mp) (MpTotal mp)
                    then of_Z (MpTotal mp - MpCompleted mp) / throughputPerMin * 60 else 0 in
  mkSummary mp (if Z.ltb 0 (MpTotal mp) then of_Z (MpCompleted mp) / of_Z (MpTotal mp) * 100 else 0) throughputPerMin etaSeconds.

Definition GetSummary (now : Z) (batchID : string) (ps : ProgressStore) : option Summary := summaryOf now <$> ps !! batchID.

(** [recs]: the active rows of the database. *)
Definition RecoverFromDB (recs : option (list MatrixProgress)) (ps : ProgressStore) : ProgressStore :=
  fold_left (fun ps rec => match ps !! MpBatchID rec with
                           | Some _ => ps
                           | None => <[MpBatchID rec := rec <| MpNextSeq := Z.of_nat (length (MpResults rec)) |>]> ps
                           end) (default [] recs) ps.

(** ** The handlers' calls *)

(** The callback of a run; [name] is the run identifier the handler gives a result. *)
Definition onProgress (now : Z) (name : ComboResult -> nat -> string) (batchID : string) (index : nat) (status errMsg : string)
    (result : option ComboResult) (ps : ProgressStore) : ProgressStore :=
  if bool_decide (status = "running"%string) then UpdateCombo now batchID index "running" "" None ps
  else if bool_decide (status = "failed"%string) then UpdateCombo now batchID index "failed" errMsg None ps
  else if bool_decide (status = "completed"%string) then
    match result with
    | None => ps
    | Some r => UpdateCombo now batchID index "completed" "" (Some (r <| CrRunID := name r index |>)) ps
    end
  else ps.

(** A result has its row in the database. *)
Definition stored (now : Z) (batchID : string) (index : nat) (id : string) (r : ComboResult) : ProgressStore -> ProgressStore :=
  UpdateCombo now batchID index "completed" "" (Some (r <| CrRunID := id |>)).

(** The deferred [recover] of the goroutine of a batch. *)
Definition failOpen (now : Z) (message : string) (mp : MatrixProgress) (i : nat) : MatrixProgress :=
  match MpCombos mp !! i with
  | Some c => if bool_decide (CpStatus c = "pending"%string) || bool_decide (CpStatus c = "running"%string)
              then updateBatch now i "failed" message None mp else mp
  | None => mp
  end.

Definition panicked (now : Z) (message : string) (mp : MatrixProgress) : MatrixProgress :=
  fold_left (failOpen now message) (seq 0 (length (MpCombos mp))) (mp <| MpStatus := "failed"%string |>).

Definition onPanic (now : Z) (message : string) : string -> ProgressStore -> ProgressStore := onBatch (panicked now message).

(** ** The events of a batch

    What the run of a batch reports of a combo, in the order the runner keeps: it starts,
    it ends with a result or an error, its result is stored, perhaps more than once. *)
Inductive phase := Waiting | Busy | Ended | Broken.

Inductive event :=
| Started (i : nat)
| Completed (i : nat) (r : ComboResult)
| Failed (i : nat) (err : string)
| Stored (i : nat) (r : ComboResult)
| Cancelled.

Definition follow (ps : list phase) (e : event) : option (list phase) :=
  match e with
  | Started i => match ps !! i with Some Waiting => Some (<[i := Busy]> ps) | _ => None end
  | Completed i _ => match ps !! i with Some Busy => Some (<[i := Ended]> ps) | _ => None end
  | Failed i err => match ps !! i with Some Busy => if bool_decide (err = ""%string) then None else Some (<[i := Broken]> ps) | _ => None end
  | Stored i _ => match ps !! i with Some Ended => Some ps | _ => None end
  | Cancelled => Some ps
  end.

Definition report (now : Z) (e : event) (mp : MatrixProgress) : MatrixProgress :=
  match e with
  | Started i => updateBatch now i "running" "" None mp
  | Completed i r => updateBatch now i "completed" "" (Some r) mp
  | Failed i err => updateBatch now i "failed" err None mp
  | Stored i r => updateBatch now i "completed" "" (Some r) mp
  | Cancelled => cancelBatch now mp
  end.

Definition isCancel (e : event) : bool := match e with Cancelled => true | _ => false end.

(** A batch as [Create] makes it, with [names] for its combos. *)
Definition fresh (now : Z) (batchID : string) (total : Z) (names : list (string * string * string)) : MatrixProgress :=
  mkProgress batchID total 0 0 0 0 now now
    (map (fun n => mkComboProgress n.1.1 n.1.2 n.2 "pending" "") names) [] "running" 0 0 "" "" 0.

Section Batch.
Variable start : Z.
Variable batchID : string.
Variable total : Z.
Variable names : list (string * string * string).

(** The events so far, where each combo is, and the batch of the store. *)
Inductive reached : list event -> list phase -> MatrixProgress -> Prop :=
| reached_start : reached [] (map (fun _ => Waiting) names) (fresh start batchID total names)
| reached_event es ps mp e ps' now : reached es ps mp -> follow ps e = Some ps' -> reached (es ++ [e]) ps' (report now e mp).
End Batch.

(** *** Counting phases *)
Definition tally (p : phase -> bool) (ps : list phase) : Z := Z.of_nat (length (List.filter p ps)).
Definition over (ph : phase) : bool := match ph with Ended | Broken => true | _ => false end.
Definition broken (ph : phase) : bool := match ph with Broken => true | _ => false end.
Definition ended (ph : phase) : bool := match ph with Ended => true | _ => false end.
Definition busy (ph : phase) : bool := match ph with Busy => true | _ => false end.

Lemma tally_insert p ps i x y : ps !! i = Some x ->
  tally p (<[i := y]> ps) = (tally p ps - (if p x then 1 else 0) + (if p y then 1 else 0))%Z.
Proof.
  unfold tally. revert i. induction ps as [|z ps IH]; intros [|i] E; cbn in E; try done.
  - injection E as ->. change (<[O := y]> (x :: ps)) with (y :: ps). cbn [List.filter]. destruct (p x), (p y); cbn [length]; lia.
  - specialize (IH i E). change (<[S i := y]> (z :: ps)) with (z :: <[i := y]> ps). cbn [List.filter]. destruct (p z); cbn [length]; lia.
Qed.

Lemma tally_waiting p {A} (l : list A) : p Waiting = false -> tally p (map (fun _ => Waiting) l) = 0%Z.
Proof. intros W. unfold tally. induction l as [|x l IH]; [done|]. cbn. by rewrite W. Qed.

Lemma tally_nonneg p ps : (0 <= tally p ps)%Z.
Proof. unfold tally. lia. Qed.

(** *** The invariant *)
Definition showsEnd (ph : phase) (c : ComboProgress) : Prop :=
  match ph with
  | Ended => CpStatus c = "completed"%string
  | Broken => CpStatus c = "failed"%string
  | _ => finished (CpStatus c) = false
  end.

Definition shows (ph : phase) (c : ComboProgress) : Prop :=
  match ph with
  | Waiting => CpStatus c = "pending"%string
  | Busy => CpStatus c = "running"%string
  | _ => True
  end.

Record tracks (total : Z) (ps : list phase) (mp : MatrixProgress) : Prop := {
  tr_total : MpTotal mp = total;
  tr_shows : Forall2 showsEnd ps (MpCombos mp);
  tr_completed : MpCompleted mp = tally over ps;
  tr_failed : MpFailed mp = tally broken ps;
  tr_results : Z.of_nat (length (MpResults mp)) = tally ended ps;
  tr_seq : MpNextSeq mp = Z.of_nat (length (MpResults mp))
}.

Lemma replaceFirst_length r l : length (replaceFirst r l) = length l.
Proof. induction l as [|q l IH]; [done|]. cbn. case_match; cbn; by f_equal. Qed.

Lemma snoc_length {A} (l : list A) x : length (l ++ [x]) = S (length l).
Proof. rewrite length_app. cbn. lia. Qed.

Lemma addResult_fields r mp : MpTotal (addResult r mp) = MpTotal mp /\ MpCombos (addResult r mp) = MpCombos mp /\
  MpCompleted (addResult r mp) = MpCompleted mp /\ MpFailed (addResult r mp) = MpFailed mp /\
  length (MpResults (addResult r mp)) = S (length (MpResults mp)) /\ MpNextSeq (addResult r mp) = (MpNextSeq mp + 1)%Z /\
  MpRunning (addResult r mp) = MpRunning mp /\ MpStatus (addResult r mp) = MpStatus mp.
Proof. unfold addResult. destruct (_ >? _); repeat split; exact (snoc_length _ _). Qed.

Lemma settle_tracks total ps now mp : tracks total ps mp -> tracks total ps (settle now mp).
Proof. intros [A B C D E F]. unfold settle. destruct (overdue _); by split. Qed.

Lemma countEnd_fields prev result mp : let mp' := countEnd prev result mp in
  MpTotal mp' = MpTotal mp /\ MpCombos mp' = MpCombos mp /\ MpCompleted mp' = (MpCompleted mp + 1)%Z /\ MpFailed mp' = MpFailed mp /\
  length (MpResults mp') = (length (MpResults mp) + match result with Some _ => 1 | None => 0 end)%nat /\
  MpNextSeq mp' = (MpNextSeq mp + match result with Some _ => 1 | None => 0 end)%Z /\
  MpRunning mp' = (if bool_decide (prev = "running"%string) then MpRunning mp - 1 else MpRunning mp)%Z /\ MpStatus mp' = MpStatus mp.
Proof.
  unfold countEnd. destruct result as [r|]; cbv zeta; [|repeat split; cbn; lia].
  match goal with |- context [addResult r ?m] => destruct (addResult_fields r m) as (-> & -> & -> & -> & -> & -> & -> & ->) end.
  repeat split; cbn; lia.
Qed.

Lemma countEnd_tracks total ps prev result mp x y i :
  tracks total ps mp -> ps !! i = Some x -> over x = false -> over y = true ->
  (match result with Some _ => ended y = true | None => broken y = true end) ->
  forall combos, Forall2 showsEnd (<[i := y]> ps) combos ->
  tracks total (<[i := y]> ps) (countEnd prev result (mp <| MpCombos := combos |>
    <| MpFailed := if broken y then (MpFailed mp + 1)%Z else MpFailed mp |>)).
Proof.
  intros [A B C D E F] L Ox Oy R combos S2.
  destruct (countEnd_fields prev result (mp <| MpCombos := combos |> <| MpFailed := if broken y then (MpFailed mp + 1)%Z else MpFailed mp |>))
    as (F1 & F2 & F3 & F4 & F5 & F6 & _).
  assert (Bx : broken x = false) by (by destruct x). assert (Ex : ended x = false) by (by destruct x).
  split; rewrite ?F1, ?F2, ?F3, ?F4, ?F5, ?F6, ?(tally_insert _ ps i x y L), ?Ox, ?Oy, ?Bx, ?Ex; cbn; try done; try lia.
  - unfold RecordSettersUsingExistingGetters.const. destruct (broken y); lia.
  - destruct result; [rewrite R; lia|]. assert (ended y = false) as -> by (by destruct y). lia.
  - destruct result; lia.
Qed.

Lemma complete_tracks total ps prev result mp : tracks total ps (countEnd prev result mp) -> tracks total ps (complete prev result mp).
Proof. unfold complete. destruct (_ && _); [|done]. intros [A B C D E F]. by split. Qed.

Lemma showsEnd_finished ph c : showsEnd ph c -> finished (CpStatus c) = over ph.
Proof. destruct ph; cbn; intros H; rewrite ?H; by try vm_compute. Qed.

Lemma shows_insert {P : phase -> ComboProgress -> Prop} ps combos i y c' : Forall2 P ps combos -> P y c' ->
  Forall2 P (<[i := y]> ps) (<[i := c']> combos).
Proof. intros F H. by apply Forall2_insert. Qed.

(** What one reported event does to a combo that has not ended. *)
Lemma report_end total ps mp i x y c status err result now :
  tracks total ps mp -> ps !! i = Some x -> MpCombos mp !! i = Some c -> over x = false -> over y = true ->
  finished status = true -> showsEnd y (mkComboProgress (CpSymbol c) (CpStrategyID c) (CpTimeframe c) status
     (if bool_decide (err = ""%string) then CpError c else err)) ->
  broken y = negb (bool_decide (err = ""%string)) ->
  (match result with Some _ => ended y = true | None => broken y = true end) ->
  tracks total (<[i := y]> ps) (updateBatch now i status err result mp).
Proof.
  intros T L C Ox Oy Fs Sh By R. unfold updateBatch. rewrite C, Fs.
  assert (P : showsEnd x c) by (by eapply Forall2_lookup_lr in C; [|apply T|done]).
  rewrite (showsEnd_finished _ _ P), Ox. apply settle_tracks, complete_tracks.
  pose proof (countEnd_tracks total ps (CpStatus c) result mp x y i T L Ox Oy R _ (shows_insert _ _ i y _ (tr_shows _ _ _ T) Sh)) as G.
  rewrite By in G. by destruct (bool_decide (err = ""%string)).
Qed.

Lemma report_tracks total ps mp e ps' now : tracks total ps mp -> follow ps e = Some ps' -> tracks total ps' (report now e mp).
Proof.
  intros T F. destruct e as [i|i r|i err|i r|]; cbn [follow report] in *.
  - destruct (ps !! i) as [[]|] eqn:L; try done. injection F as <-.
    destruct (Forall2_lookup_l _ _ _ _ _ (tr_shows _ _ _ T) L) as (c & C & P). unfold updateBatch. rewrite C.
    change (finished "running") with false. cbn match. apply settle_tracks.
    destruct T as [A B D E G H].
    assert (T' : forall p, p Waiting = p Busy -> tally p (<[i := Busy]> ps) = tally p ps) by (intros p Q; rewrite (tally_insert p ps i _ Busy L), Q; lia).
    destruct (_ && _); split; rewrite ?T' by done; try done; try (apply shows_insert; done).
  - destruct (ps !! i) as [[]|] eqn:L; try done. injection F as <-.
    destruct (Forall2_lookup_l _ _ _ _ _ (tr_shows _ _ _ T) L) as (c & C & P). by eapply report_end.
  - destruct (ps !! i) as [[]|] eqn:L; try done. case_bool_decide as N; [done|]. injection F as <-.
    destruct (Forall2_lookup_l _ _ _ _ _ (tr_shows _ _ _ T) L) as (c & C & P). eapply report_end; try done.
    by rewrite bool_decide_eq_false_2.
  - destruct (ps !! i) as [[]|] eqn:L; try done. injection F as <-.
    destruct (Forall2_lookup_l _ _ _ _ _ (tr_shows _ _ _ T) L) as (c & C & P). unfold updateBatch. rewrite C, (showsEnd_finished _ _ P).
    change (finished "completed") with true. change (bool_decide (""%string = ""%string)) with true. cbn [over].
    destruct T as [A B D E G H]. cbn in P. split; try done; cbn; rewrite ?replaceFirst_length; try done.
    rewrite <- (list_insert_id ps i Ended L). by apply shows_insert.
  - injection F as <-. destruct T as [A B D E G H]. split; try done. cbn.
    clear -B. induction B as [|ph c ps cs P B IH]; constructor; [|exact IH].
    unfold cancelled. destruct ph; cbn in *; try (rewrite P); case_match; try done; try (by rewrite P in *).
Qed.

Lemma fresh_tracks start batchID total names : tracks total (map (fun _ => Waiting) names) (fresh start batchID total names).
Proof.
  split; cbn; rewrite ?tally_waiting by done; try done.
  induction names as [|n names IH]; constructor; [done|exact IH].
Qed.

Lemma reached_tracks start batchID total names es ps mp : reached start batchID total names es ps mp -> tracks total ps mp.
Proof. induction 1 as [|es ps mp e ps' now _ IH F]; [apply fresh_tracks|by eapply report_tracks]. Qed.

(** *** The status and the count of running combos *)
Definition due (total : Z) (ps : list phase) : bool := Z.leb total (tally over ps + tally broken ps).

Record uncancelled (total : Z) (ps : list phase) (mp : MatrixProgress) : Prop := {
  un_tracks : tracks total ps mp;
  un_shows : Forall2 shows ps (MpCombos mp);
  un_status : MpStatus mp = if due total ps then "completed"%string else "running"%string;
  un_running : MpRunning mp = if due total ps then 0%Z else tally busy ps
}.

Lemma overdue_due total ps mp : tracks total ps mp -> overdue mp = due total ps.
Proof. intros T. unfold overdue, due. by rewrite (tr_total _ _ _ T), (tr_completed _ _ _ T), (tr_failed _ _ _ T). Qed.

(** The last word of an update. *)
Lemma settle_status now mp : MpCombos (settle now mp) = MpCombos mp /\
  MpStatus (settle now mp) = (if overdue mp then "completed"%string else MpStatus mp) /\
  MpRunning (settle now mp) = (if overdue mp then 0%Z else MpRunning mp).
Proof. unfold settle. change (overdue (mp <| MpUpdatedAt := now |>)) with (overdue mp). by destruct (overdue mp). Qed.

Lemma complete_status prev result mp : let mp' := complete prev result mp in
  MpCombos mp' = MpCombos mp /\ MpRunning mp' = (if bool_decide (prev = "running"%string) then MpRunning mp - 1 else MpRunning mp)%Z /\
  (overdue mp' = false -> MpStatus mp' = MpStatus mp).
Proof.
  destruct (countEnd_fields prev result mp) as (_ & C & _ & _ & _ & _ & R & S). unfold complete.
  destruct (Z.eqb _ 0); cbn [andb]; [|done]. destruct (overdue (countEnd prev result mp)) eqn:O; [|done].
  split; [exact C|]. split; [exact R|]. intros O'. exfalso.
  change (overdue (countEnd prev result mp) = false) in O'. congruence.
Qed.

Lemma due_insert total ps i x y : ps !! i = Some x -> over x = false -> (due total ps = true -> due total (<[i := y]> ps) = true).
Proof.
  intros L O. unfold due. rewrite !Z.leb_le, !(tally_insert _ ps i x y L), O.
  assert (broken x = false) as -> by (by destruct x). destruct (over y), (broken y); lia.
Qed.

Lemma tally_busy_end ps i y : ps !! i = Some Busy -> over y = true -> tally busy (<[i := y]> ps) = (tally busy ps - 1)%Z.
Proof. intros L O. rewrite (tally_insert busy ps i Busy y L). destruct y; try done; cbn; lia. Qed.

Lemma end_uncancelled total ps mp i y c status err result now :
  uncancelled total ps mp -> ps !! i = Some Busy -> MpCombos mp !! i = Some c -> over y = true -> finished status = true ->
  tracks total (<[i := y]> ps) (updateBatch now i status err result mp) ->
  uncancelled total (<[i := y]> ps) (updateBatch now i status err result mp).
Proof.
  intros [T S U R] L C O Fs. assert (P : CpStatus c = "running"%string) by (by eapply Forall2_lookup_lr in C; [|exact S|exact L]).
  unfold updateBatch. rewrite C, Fs, P. change (finished "running") with false. cbv iota.
  match goal with |- context [complete _ _ ?m] => set (m0 := m) end. intros T'. pose proof (overdue_due _ _ _ T') as Od.
  destruct (settle_status now (complete "running" result m0)) as (E1 & E2 & E3).
  destruct (complete_status "running" result m0) as (G1 & G2 & G3).
  assert (Ov : overdue (complete "running" result m0) = due total (<[i := y]> ps)).
  { rewrite <- Od. unfold settle. set (m1 := complete "running" result m0).
    change (overdue (m1 <| MpUpdatedAt := now |>)) with (overdue m1). destruct (overdue m1) eqn:Q; symmetry; exact Q. }
  split; [exact T'|..].
  - rewrite E1, G1. apply shows_insert; [exact S|by destruct y].
  - rewrite E2, Ov. destruct (due total (<[i := y]> ps)) eqn:D; [done|]. rewrite G3 by (by rewrite Ov). change (MpStatus m0) with (MpStatus mp).
    rewrite U. destruct (due total ps) eqn:D0; [|done]. apply (due_insert total ps i Busy y L eq_refl) in D0. congruence.
  - rewrite E3, Ov. destruct (due total (<[i := y]> ps)) eqn:D; [done|]. rewrite G2. change (MpRunning m0) with (MpRunning mp).
    rewrite bool_decide_eq_true_2 by done. rewrite (tally_busy_end ps i y L O), R.
    destruct (due total ps) eqn:D0; [|done]. apply (due_insert total ps i Busy y L eq_refl) in D0. congruence.
Qed.

Lemma report_uncancelled total ps mp e ps' now :
  uncancelled total ps mp -> follow ps e = Some ps' -> isCancel e = false -> uncancelled total ps' (report now e mp).
Proof.
  intros V F N. destruct V as [T S U R]. pose proof (report_tracks _ _ _ _ _ now T F) as T'. revert T'.
  destruct e as [i|i r|i err|i r|]; cbn [follow report] in *; try done.
  - destruct (ps !! i) as [[]|] eqn:L; try done. injection F as <-.
    destruct (Forall2_lookup_l _ _ _ _ _ S L) as (c & C & P). cbn in P. unfold updateBatch. rewrite C, P. intros T'.
    change (finished "running") with false in *. cbv iota in *.
    change (bool_decide ("running"%string = "running"%string) && bool_decide ("pending"%string = "pending"%string)) with true in *. cbv iota in *.
    match goal with |- context [settle now ?m] => set (m0 := m) in * end. destruct (settle_status now m0) as (E1 & E2 & E3).
    assert (Ov : overdue m0 = due total ps) by exact (overdue_due _ _ _ T).
    assert (Du : due total (<[i := Busy]> ps) = due total ps) by (unfold due; rewrite !(tally_insert _ ps i Waiting Busy L); cbn; f_equal; lia).
    split; [exact T'|..]; rewrite ?E1, ?E2, ?E3, ?Ov, ?Du.
    + apply shows_insert; done.
    + change (MpStatus m0) with (MpStatus mp). rewrite U. by destruct (due total ps).
    + change (MpRunning m0) with (MpRunning mp + 1)%Z. rewrite R, (tally_insert _ ps i Waiting Busy L). cbn. destruct (due total ps); lia.
  - destruct (ps !! i) as [[]|] eqn:L; try done. injection F as <-.
    destruct (Forall2_lookup_l _ _ _ _ _ S L) as (c & C & P). by apply (end_uncancelled total ps mp i Ended c).
  - destruct (ps !! i) as [[]|] eqn:L; try done. case_bool_decide as E; [done|]. injection F as <-.
    destruct (Forall2_lookup_l _ _ _ _ _ S L) as (c & C & P). by apply (end_uncancelled total ps mp i Broken c).
  - destruct (ps !! i) as [[]|] eqn:L; try done. injection F as <-.
    destruct (Forall2_lookup_l _ _ _ _ _ (tr_shows _ _ _ T) L) as (c & C & P). unfold updateBatch. rewrite C, (showsEnd_finished _ _ P).
    change (finished "completed") with true. cbn [over]. cbv iota. intros T'. split; [exact T'| |exact U|exact R].
    cbn. rewrite <- (list_insert_id ps i Ended L). by apply shows_insert.
Qed.

Lemma report_shows total ps mp e ps' now :
  tracks total ps mp -> Forall2 shows ps (MpCombos mp) -> follow ps e = Some ps' -> isCancel e = false ->
  Forall2 shows ps' (MpCombos (report now e mp)).
Proof.
  intros T S F N.
  assert (X : forall i y c status err result, over y = true -> MpCombos mp !! i = Some c ->
    Forall2 shows (<[i := y]> ps) (MpCombos (updateBatch now i status err result mp))).
  { intros i y c status err result O C. unfold updateBatch. rewrite C.
    destruct (finished status); [destruct (finished (CpStatus c))|].
    - destruct result; cbn; by apply shows_insert; [|destruct y].
    - match goal with |- context [settle now ?m] => destruct (settle_status now m) as (-> & _ & _) end.
      match goal with |- context [complete ?p ?r ?m] => destruct (complete_status p r m) as (-> & _ & _) end. by apply shows_insert; [|destruct y].
    - match goal with |- context [settle now ?m] => destruct (settle_status now m) as (-> & _ & _) end.
      destruct (_ && _); by apply shows_insert; [|destruct y]. }
  destruct e as [i|i r|i err|i r|]; cbn [follow report] in *; try done; destruct (ps !! i) as [[]|] eqn:L; try done;
    destruct (Forall2_lookup_l _ _ _ _ _ S L) as (c & C & P).
  - injection F as <-. unfold updateBatch. rewrite C. change (finished "running") with false. cbv iota.
    match goal with |- context [settle now ?m] => destruct (settle_status now m) as (-> & _ & _) end.
    destruct (_ && _); by apply shows_insert.
  - injection F as <-. by eapply X.
  - case_bool_decide; [done|]. injection F as <-. by eapply X.
  - injection F as <-. rewrite <- (list_insert_id ps i Ended L). by eapply X.
Qed.

Lemma reached_uncancelled start batchID total names es ps mp :
  (0 < total)%Z -> reached start batchID total names es ps mp -> Forall (fun e => isCancel e = false) es -> uncancelled total ps mp.
Proof.
  intros Pos H N. induction H as [|es ps mp e ps' now H IH F].
  - split; [apply fresh_tracks| | |]; unfold due; rewrite ?tally_waiting by done.
    + cbn. clear. induction names as [|n names IH]; constructor; [done|exact IH].
    + destruct (Z.leb_spec total (0 + 0)); [lia|done].
    + by destruct (Z.leb_spec total (0 + 0)); [lia|].
  - apply Forall_app in N as [N N']. apply list.Forall_cons in N' as [N' _]. exact (report_uncancelled _ _ _ _ _ now (IH N) F N').
Qed.

(** The phases follow from the events. *)
Lemma reached_phases start batchID total names es ps mp : reached start batchID total names es ps mp ->
  forall ps' mp', reached start batchID total names es ps' mp' -> ps' = ps.
Proof.
  induction 1 as [|es ps mp e ps1 now _ IH F]; intros ps' mp' H; inversion H as [Q|es2 ps2 mp2 e2 ps2' now2 R2 F2 Q]; subst; try done.
  - by apply (f_equal length) in Q; rewrite length_app in Q; cbn in Q; lia.
  - by apply (f_equal length) in Q; rewrite length_app in Q; cbn in Q; lia.
  - apply app_inj_tail in Q as [-> ->]. rewrite (IH _ _ R2) in F2. congruence.
Qed.

(** C13: what the progress of a batch says.  In every order of the runner's reports that does
    not cancel it, a combo counts as completed when it ended, with a result or an error, and
    as failed besides when it was an error; there is one result per combo that ended well.
    The batch reads running until completed and failed reach its total, so that a failure
    counts twice and a batch with failures reads completed, with no combo running, while
    combos still run; without failures it reads completed once all have ended, and until
    then the running count is the number of combos that run. *)
Theorem progress_of_batch start batchID total names es ps mp :
  (0 < total)%Z -> reached start batchID total names es ps mp -> Forall (fun e => isCancel e = false) es ->
  MpCompleted mp = tally over ps /\ MpFailed mp = tally broken ps /\ Z.of_nat (length (MpResults mp)) = tally ended ps /\
  MpStatus mp = (if Z.leb total (tally over ps + tally broken ps) then "completed" else "running")%string /\
  MpRunning mp = (if Z.leb total (tally over ps + tally broken ps) then 0 else tally busy ps)%Z.
Proof. intros Pos H N. destruct (reached_uncancelled _ _ _ _ _ _ _ Pos H N) as [[A B C D E F] S U R]. done. Qed.

(** Two combos of three fail: the batch reads completed while the third still runs. *)
Definition threeCombos : list (string * string * string) := [("SPY", "grid", "1d"); ("QQQ", "grid", "1d"); ("IWM", "grid", "1d")]%string.
Definition failedTwice : list event := [Started 0; Started 1; Started 2; Failed 0 "no data"; Failed 1 "no data"].

Fixpoint play (es : list event) (ps : list phase) (mp : MatrixProgress) : option (list phase * MatrixProgress) :=
  match es with
  | [] => Some (ps, mp)
  | e :: es => ps' ← follow ps e; play es ps' (report 0 e mp)
  end.

Lemma play_reached start batchID total names es : forall es0 ps mp ps' mp', reached start batchID total names es0 ps mp ->
  play es ps mp = Some (ps', mp') -> reached start batchID total names (es0 ++ es) ps' mp'.
Proof.
  induction es as [|e es IH]; intros es0 ps mp ps' mp' R P; cbn in P; [injection P as <- <-; by rewrite app_nil_r|].
  destruct (follow ps e) as [ps1|] eqn:F; [|done]. rewrite cons_middle, app_assoc. eapply IH; [|exact P]. by eapply reached_event.
Qed.

Definition afterFailures : MatrixProgress :=
  default (fresh 0 "b" 3 []) (snd <$> play failedTwice (map (fun _ => Waiting) threeCombos) (fresh 0 "b" 3 threeCombos)).

Lemma progress_of_batch_witness :
  exists ps, reached 0 "b" 3 threeCombos failedTwice ps afterFailures /\ tally busy ps = 1%Z /\
    MpCompleted afterFailures = 2%Z /\ MpStatus afterFailures = "completed"%string /\ MpRunning afterFailures = 0%Z.
Proof.
  assert (R : reached 0 "b" 3 threeCombos failedTwice [Broken; Broken; Busy] afterFailures).
  { exact (play_reached 0 "b" 3 threeCombos failedTwice [] _ _ _ _ (reached_start _ _ _ _) eq_refl). }
  exists [Broken; Broken; Busy]. split; [exact R|]. split; [reflexivity|].
  destruct (progress_of_batch 0 "b" 3 threeCombos failedTwice _ _ ltac:(lia) R) as (C & _ & _ & S & Ru).
  { repeat constructor. }
  split; [exact C|]. split; [exact S|exact Ru].
Defined.

(** ** Cancellation *)

(** A reported start or end settles the batch. *)
Lemma report_settles now e mp ps ps' total : tracks total ps mp -> follow ps e = Some ps' ->
  match e with Started _ | Completed _ _ | Failed _ _ => True | _ => False end ->
  due total ps' = true -> MpStatus (report now e mp) = "completed"%string /\ MpRunning (report now e mp) = 0%Z.
Proof.
  intros T F K D. pose proof (report_tracks _ _ _ _ _ now T F) as T'. pose proof (overdue_due _ _ _ T') as O. rewrite D in O. revert O.
  assert (Q : forall m, overdue (settle now m) = true -> MpStatus (settle now m) = "completed"%string /\ MpRunning (settle now m) = 0%Z).
  { intros m. unfold settle. change (overdue (m <| MpUpdatedAt := now |>)) with (overdue m). destruct (overdue m) eqn:E; [done|].
    change (overdue (m <| MpUpdatedAt := now |>)) with (overdue m). by rewrite E. }
  assert (X : forall i x status err result, ps !! i = Some x -> over x = false ->
    overdue (updateBatch now i status err result mp) = true ->
    MpStatus (updateBatch now i status err result mp) = "completed"%string /\ MpRunning (updateBatch now i status err result mp) = 0%Z).
  { intros i x status err result L Ox. destruct (Forall2_lookup_l _ _ _ _ _ (tr_shows _ _ _ T) L) as (c & C & P).
    unfold updateBatch. rewrite C, (showsEnd_finished _ _ P), Ox. destruct (finished status); apply Q. }
  destruct e as [i|i r|i err|i r|]; cbn [follow report] in *; try done; destruct (ps !! i) as [[]|] eqn:L; try done; by eapply X.
Qed.

(** A cancellation does not hold.  The runner goes on after [Cancel], and whenever a
    combo that it still starts or ends makes completed and failed reach the total, the
    batch reads completed again; so it does once the last combo ends. *)
Theorem cancellation_forgotten start batchID total names es ps mp e ps' now :
  reached start batchID total names es ps mp -> Cancelled ∈ es -> follow ps e = Some ps' ->
  match e with Completed _ _ | Failed _ _ => True | _ => False end ->
  (total <= Z.of_nat (length names))%Z -> Forall (fun ph => over ph = true) ps' ->
  MpStatus (report now e mp) = "completed"%string /\ MpRunning (report now e mp) = 0%Z.
Proof.
  intros R _ F K L A. pose proof (reached_tracks _ _ _ _ _ _ _ R) as T.
  apply (report_settles now e mp ps ps' total T F); [by destruct e|].
  assert (Len : length ps' = length names).
  { assert (E : length ps' = length ps) by (destruct e; cbn in F, K; try done; repeat case_match; try done; injection F as <-; apply length_insert).
    rewrite E. clear -R. induction R as [|es ps mp e ps' now _ IH F]; [by rewrite length_map|]. rewrite <- IH.
    destruct e; cbn in F; repeat case_match; try done; injection F as <-; rewrite ?length_insert; done. }
  unfold due. apply Z.leb_le. pose proof (tally_nonneg broken ps'). enough (tally over ps' = Z.of_nat (length ps')) by lia.
  clear -A. unfold tally. f_equal. induction A as [|ph ps O A IH]; [done|]. cbn. rewrite O. cbn. by f_equal.
Qed.

Definition cancelledThenRun : list event := [Started 0; Cancelled; Started 1].
Definition afterCancel : MatrixProgress :=
  default (fresh 0 "b" 2 []) (snd <$> play (cancelledThenRun ++ [Completed 0 (namedCombo "grid" "SPY" "1d")])
    (map (fun _ => Waiting) (take 2 threeCombos)) (fresh 0 "b" 2 (take 2 threeCombos))).

Lemma cancellation_forgotten_witness :
  MpStatus afterCancel = "cancelled"%string /\ MpRunning afterCancel = 1%Z /\
  MpStatus (report 0 (Failed 1 "no data") afterCancel) = "completed"%string.
Proof.
  split; [reflexivity|]. split; [reflexivity|].
  refine (proj1 (cancellation_forgotten 0 "b" 2 (take 2 threeCombos) (cancelledThenRun ++ [Completed 0 (namedCombo "grid" "SPY" "1d")])
    [Ended; Busy] afterCancel (Failed 1 "no data") [Ended; Broken] 0 _ _ eq_refl I _ _)).
  - exact (play_reached 0 "b" 2 (take 2 threeCombos) (cancelledThenRun ++ [Completed 0 (namedCombo "grid" "SPY" "1d")]) [] _ _ _ _
      (reached_start _ _ _ _) eq_refl).
  - right; left.
  - cbn. lia.
  - repeat constructor.
Defined.

(** ** A client that polls

    It asks with the sequence number of the last answer and appends what it gets. *)
Definition keyOf (r : ComboResult) : string * string * string := (CrSymbol r, CrStrategyID r, CrTimeframe r).

Inductive watched (mp0 : MatrixProgress) : MatrixProgress -> Z -> list ComboResult -> Prop :=
| watched_start : watched mp0 mp0 0 []
| watched_update mp cursor got now i status err result :
    watched mp0 mp cursor got -> watched mp0 (updateBatch now i status err result mp) cursor got
| watched_cancel mp cursor got now : watched mp0 mp cursor got -> watched mp0 (cancelBatch now mp) cursor got
| watched_poll mp cursor got new next ended :
    watched mp0 mp cursor got -> sinceOf mp cursor = Some (new, next, ended) -> watched mp0 mp next (got ++ new).

Lemma replaceFirst_keys r l : map keyOf (replaceFirst r l) = map keyOf l.
Proof.
  induction l as [|q l IH]; [done|]. cbn. destruct (sameCombo q r) eqn:E; cbn; [|by f_equal]. f_equal.
  unfold sameCombo in E. rewrite !andb_true_iff, !bool_decide_eq_true in E. destruct E as [[E1 E2] E3]. unfold keyOf. congruence.
Qed.

(** An update only appends, or replaces a result by one of the same combo. *)
Lemma update_results now i status err result mp : let mp' := updateBatch now i status err result mp in
  MpNextSeq mp = Z.of_nat (length (MpResults mp)) ->
  MpNextSeq mp' = Z.of_nat (length (MpResults mp')) /\ exists l, map keyOf (MpResults mp') = map keyOf (MpResults mp) ++ l.
Proof.
  intros mp' N. unfold mp', updateBatch. destruct (MpCombos mp !! i) as [c|]; [|by split; [|exists []; rewrite app_nil_r]].
  assert (St : forall m, MpNextSeq (settle now m) = MpNextSeq m /\ MpResults (settle now m) = MpResults m)
    by (intros m; unfold settle; by destruct (overdue _)).
  assert (Co : forall m, MpNextSeq m = MpNextSeq mp -> MpResults m = MpResults mp ->
    let m' := complete (CpStatus c) result m in
    MpNextSeq m' = Z.of_nat (length (MpResults m')) /\ exists l, map keyOf (MpResults m') = map keyOf (MpResults mp) ++ l).
  { intros m E1 E2. unfold complete. set (m1 := countEnd _ _ m).
    assert (G : MpNextSeq m1 = Z.of_nat (length (MpResults m1)) /\ exists l, map keyOf (MpResults m1) = map keyOf (MpResults mp) ++ l).
    { destruct (countEnd_fields (CpStatus c) result m) as (_ & _ & _ & _ & L & S & _). fold m1 in L, S. rewrite L, S, E1, E2. split; [destruct result; lia|].
      unfold m1, countEnd. destruct result as [r|]; [|exists []; rewrite app_nil_r; cbn; by rewrite E2].
      unfold addResult. match goal with |- context [_ >? ?z] => destruct (_ >? z) end; cbn; rewrite E2, map_app; by eexists. }
    destruct (_ && _); exact G. }
  destruct (finished status).
  - destruct (finished (CpStatus c)).
    + destruct result as [r|]; cbn; rewrite ?replaceFirst_length, ?replaceFirst_keys; (split; [exact N|exists []; by rewrite app_nil_r]).
    + match goal with |- context [settle now ?m] => destruct (St m) as [-> ->] end. apply Co; done.
  - match goal with |- context [settle now ?m] => destruct (St m) as [-> ->] end.
    destruct (_ && _); (split; [exact N|exists []; by rewrite app_nil_r]).
Qed.

(** C16: a polling client sees every result once.  However updates, cancellations and polls
    interleave, a poll never panics, the sequence number is how many results the client
    has, what it has are the combos of the first results in order, and the next poll
    completes them to all the results there are. *)
Theorem poll_sees_each_result start batchID total names mp cursor got :
  watched (fresh start batchID total names) mp cursor got ->
  cursor = Z.of_nat (length got) /\ map keyOf got = take (length got) (map keyOf (MpResults mp)) /\
  exists new next ended, sinceOf mp cursor = Some (new, next, ended) /\ map keyOf (got ++ new) = map keyOf (MpResults mp) /\
    next = Z.of_nat (length (MpResults mp)).
Proof.
  intros W.
  assert (I : MpNextSeq mp = Z.of_nat (length (MpResults mp)) /\ cursor = Z.of_nat (length got) /\
              exists rest, map keyOf (MpResults mp) = map keyOf got ++ rest).
  { induction W as [|mp cursor got now i status err result _ IH|mp cursor got now _ IH|mp cursor got new next en _ IH Q].
    - split; [done|]. split; [done|]. by exists [].
    - destruct IH as (N & C & rest & E). destruct (update_results now i status err result mp N) as (N' & l & E').
      split; [exact N'|]. split; [exact C|]. exists (rest ++ l). by rewrite E', E, app_assoc.
    - exact IH.
    - destruct IH as (N & C & rest & E). split; [exact N|]. unfold sinceOf in Q. rewrite C in Q.
      assert (L : length (MpResults mp) = (length got + length rest)%nat) by (rewrite <- (length_map keyOf), E, length_app, length_map; done).
      destruct (Z.leb_spec (Z.of_nat (length (MpResults mp))) (Z.of_nat (length got))).
      + injection Q as <- <- _. rewrite app_nil_r. split; [lia|]. by exists rest.
      + destruct (Z.ltb_spec (Z.of_nat (length got)) 0); [lia|]. injection Q as <- <- _. rewrite N, Nat2Z.id. split; [rewrite length_app, length_drop; lia|].
        exists []. rewrite app_nil_r, map_app, E. f_equal. rewrite <- List.skipn_map, E. rewrite drop_app_length'; [done|by rewrite length_map]. }
  destruct I as (N & C & rest & E). split; [exact C|]. split.
  { rewrite E. rewrite take_app_length'; [done|by rewrite length_map]. }
  assert (L : length (MpResults mp) = (length got + length rest)%nat) by (rewrite <- (length_map keyOf), E, length_app, length_map; done).
  unfold sinceOf. rewrite C. destruct (Z.leb_spec (Z.of_nat (length (MpResults mp))) (Z.of_nat (length got))).
  - do 3 eexists. split; [done|]. split; [|exact N]. rewrite app_nil_r, E. destruct rest; [by rewrite app_nil_r|cbn in L; lia].
  - destruct (Z.ltb_spec (Z.of_nat (length got)) 0); [lia|]. do 3 eexists. split; [done|]. split; [|exact N].
    rewrite map_app, E. f_equal. rewrite Nat2Z.id, <- List.skipn_map, E, drop_app_length'; [done|by rewrite length_map].
Qed.

Lemma poll_sees_each_result_witness :
  exists new next ended, sinceOf afterCancel 0 = Some (new, next, ended) /\ map keyOf new = [("SPY", "grid", "1d")]%string.
Proof.
  assert (W : watched (fresh 0 "b" 2 (take 2 threeCombos)) afterCancel 0 []).
  { change afterCancel with (updateBatch 0 0 "completed" "" (Some (namedCombo "grid" "SPY" "1d"))
      (updateBatch 0 1 "running" "" None (cancelBatch 0 (updateBatch 0 0 "running" "" None (fresh 0 "b" 2 (take 2 threeCombos)))))).
    apply watched_update, watched_update, watched_cancel, watched_update, watched_start. }
  destruct (poll_sees_each_result 0 "b" 2 (take 2 threeCombos) afterCancel 0 [] W) as (_ & _ & new & next & en & S & K & _).
  exists new, next, en. split; [exact S|exact K].
Defined.

(** ** A panic *)
Lemma settle_completes now m : overdue (settle now m) = true -> MpStatus (settle now m) = "completed"%string.
Proof.
  unfold settle. change (overdue (m <| MpUpdatedAt := now |>)) with (overdue m). destruct (overdue m) eqn:E; [done|].
  change (overdue (m <| MpUpdatedAt := now |>)) with (overdue m). by rewrite E.
Qed.

(** One combo in the deferred function. *)
Lemma fail_open_step total now message ps mp i x :
  message <> ""%string -> tracks total ps mp -> Forall2 shows ps (MpCombos mp) -> ps !! i = Some x ->
  (over x = true /\ failOpen now message mp i = mp) \/
  (over x = false /\ tracks total (<[i := Broken]> ps) (failOpen now message mp i) /\
   Forall2 shows (<[i := Broken]> ps) (MpCombos (failOpen now message mp i)) /\
   (overdue (failOpen now message mp i) = true -> MpStatus (failOpen now message mp i) = "completed"%string)).
Proof.
  intros M T S L. destruct (Forall2_lookup_l _ _ _ _ _ (tr_shows _ _ _ T) L) as (c & C & P).
  assert (Q : shows x c) by (by eapply Forall2_lookup_lr in C; [|exact S|exact L]).
  unfold failOpen. rewrite C. destruct (over x) eqn:O; [left|right]; (split; [done|]).
  - destruct x; try done; cbn in P; rewrite P; done.
  - assert (Open : bool_decide (CpStatus c = "pending"%string) || bool_decide (CpStatus c = "running"%string) = true)
      by (destruct x; try done; cbn in Q; by rewrite Q). rewrite Open.
    assert (Fc : finished (CpStatus c) = false) by (rewrite (showsEnd_finished _ _ P); done). split; [|split].
    + eapply report_end; try done. by rewrite bool_decide_eq_false_2.
    + unfold updateBatch. rewrite C, Fc. change (finished "failed") with true. cbv iota.
      match goal with |- context [settle now ?m] => destruct (settle_status now m) as (-> & _ & _) end.
      match goal with |- context [complete ?p ?r ?m] => destruct (complete_status p r m) as (-> & _ & _) end. by apply shows_insert.
    + unfold updateBatch. rewrite C, Fc. change (finished "failed") with true. cbv iota. apply settle_completes.
Qed.

Lemma fail_open_all total now message m : message <> ""%string -> forall k ps mp,
  tracks total ps mp -> Forall2 shows ps (MpCombos mp) -> length ps = (k + m)%nat -> Forall (fun ph => over ph = true) (take k ps) ->
  (exists i x, ps !! i = Some x /\ over x = false) \/ (overdue mp = true -> MpStatus mp = "completed"%string) ->
  exists ps', tracks total ps' (fold_left (failOpen now message) (seq k m) mp) /\ Forall (fun ph => over ph = true) ps' /\
    length ps' = length ps /\ (overdue (fold_left (failOpen now message) (seq k m) mp) = true ->
                               MpStatus (fold_left (failOpen now message) (seq k m) mp) = "completed"%string).
Proof.
  intros M. induction m as [|m IH]; intros k ps mp T S L A D; cbn [seq fold_left].
  - rewrite take_ge in A by lia. exists ps. split; [done|]. split; [done|]. split; [done|].
    destruct D as [(i & x & E & O)|D]; [|done]. rewrite list.Forall_forall in A. rewrite A in O; [done|]. by eapply list_elem_of_lookup_2.
  - destruct (lookup_lt_is_Some_2 ps k) as [x Lk]; [lia|].
    destruct (fail_open_step total now message ps mp k x M T S Lk) as [[O ->]|(O & T' & S' & D')].
    + apply IH; try done; [lia|]. rewrite (take_S_r _ _ _ Lk). apply Forall_app. split; [done|]. by repeat constructor.
    + destruct (IH (Datatypes.S k) (<[k := Broken]> ps) _ T' S') as (ps' & R1 & R2 & R3 & R4).
      * rewrite length_insert. lia.
      * erewrite take_S_r by (rewrite list_lookup_insert_eq by lia; done). rewrite take_insert_ge by lia.
        apply Forall_app. split; [done|]. by repeat constructor.
      * by right.
      * exists ps'. rewrite length_insert in R3. done.
Qed.

(** A batch whose goroutine panics reads completed.  The deferred function writes failed
    into the batch and then fails every open combo; each counts as completed and as failed,
    so the batch, if any combo was open, ends with the status completed. *)
Theorem panicked_batch_reads_completed start batchID total names es ps mp now message :
  (total <= Z.of_nat (length names))%Z -> reached start batchID total names es ps mp -> Forall (fun e => isCancel e = false) es ->
  message <> ""%string -> (exists i x, ps !! i = Some x /\ over x = false) ->
  MpStatus (panicked now message mp) = "completed"%string /\ MpCompleted (panicked now message mp) = Z.of_nat (length names).
Proof.
  intros Le R N M Open.
  assert (V : tracks total ps mp /\ Forall2 shows ps (MpCombos mp) /\ length ps = length names).
  { clear Open. induction R as [|es ps mp e ps' t R IH F].
    - split; [apply fresh_tracks|]. split; [|by rewrite length_map]. cbn. clear. induction names as [|n names IH]; constructor; [done|exact IH].
    - apply Forall_app in N as [N N']. apply list.Forall_cons in N' as [N' _]. destruct (IH N) as (T & S & L).
      split; [by eapply report_tracks|]. split; [by eapply report_shows|].
      rewrite <- L. destruct e; cbn in F; repeat case_match; try done; injection F as <-; rewrite ?length_insert; done. }
  destruct V as (T & S & L). unfold panicked.
  assert (Lc : length (MpCombos mp) = length ps) by (symmetry; by eapply Forall2_length).
  destruct (fail_open_all total now message (length (MpCombos mp)) M 0 ps (mp <| MpStatus := "failed"%string |>)) as (ps' & T' & A & L' & D).
  - destruct T as [A B C D E G]. by split.
  - exact S.
  - lia.
  - constructor.
  - by left.
  - assert (C : tally over ps' = Z.of_nat (length ps')).
    { clear -A. unfold tally. f_equal. induction A as [|ph l O A IH]; [done|]. cbn. rewrite O. cbn. by f_equal. }
    split; [apply D|].
    + rewrite (overdue_due _ _ _ T'). unfold due. apply Z.leb_le. pose proof (tally_nonneg broken ps'). lia.
    + rewrite (tr_completed _ _ _ T'), C. lia.
Qed.

Lemma panicked_batch_reads_completed_witness :
  MpStatus (panicked 0 "server panic: boom" (fresh 0 "b" 3 threeCombos)) = "completed"%string.
Proof.
  refine (proj1 (panicked_batch_reads_completed 0 "b" 3 threeCombos [] _ _ 0 "server panic: boom" _ (reached_start _ _ _ _) _ _ _)).
  - cbn. lia.
  - constructor.
  - discriminate.
  - exists 0%nat, Waiting. done.
Defined.
