(* ===== verification/Matrix.v ===== *)
(** * Matrix runs ([internal/backtest/batch_runner.go], execution_config.go)

    Every permitted pair of strategy, symbol and timeframe is backtested, after a bounded
    optimisation of each strategy, by a pool of workers.  The engine is the class
    [Backtests]; goroutines are the order in which they finish, and the dispatcher that
    starts them a step relation.  The environment overrides nothing.  [errText] is the text
    of an engine's error; the pauses of the heap admission and the run's name are left out. *)
From Stdlib Require Import ZArith Lia Bool Floats.
From coqutil Require Import RecordSettersUsingExistingGetters.
From S2P Require Import Prelude Float64 FloatRound FloatLaws StopLoss Fills Timeline Calendar Dates Live Strategies Params.
From S2P Require Import Trade Engine Metrics Enforcer Results WalkForward SearchSpace OptimizedWalk LightOpt Retention.
From S2P Require Progress.
Import GoInt.
Local Open Scope float_scope.
Local Open Scope go_scope.

(** ** The combos *)
Record BatchTuple := mkTuple { BtStrategy : string; BtSymbol : string; BtTimeframe : string }.

Definition intradayStrategyTimeframes : list string := ["5m"; "15m"; "30m"; "1h"]%string.
Definition dailyStrategyTimeframes : list string := ["1h"; "4h"; "1d"]%string.
Definition intradayOnlyStrategies : list string :=
  ["opening_range_breakout"; "orb_15m"; "session_scalp"; "volume_scalp"; "intraday_mr"; "vwap_mr"; "session_momentum"]%string.
Definition dailyOnlyStrategies : list string :=
  ["trend_following"; "ma_crossover"; "donchian_breakout"; "ichimoku_cloud"; "keltner_macd"; "dragon_trend";
   "volatility_harvesting"; "vix_futures_carry"; "pairs_trading"; "momentum_12_1"; "fx_carry"]%string.

Definition strategyTimeframeAllowed (strategyID timeframe : string) : bool :=
  if bool_decide (strategyID ∈ intradayOnlyStrategies) then bool_decide (timeframe ∈ intradayStrategyTimeframes)
  else if bool_decide (strategyID ∈ dailyOnlyStrategies) then bool_decide (timeframe ∈ dailyStrategyTimeframes)
  else true.

Definition orElse {A} (l default : list A) : list A := match l with [] => default | _ => l end.

Definition cartesianProduct (strategies symbols timeframes : list string) : list BatchTuple :=
  flat_map (fun s => flat_map (fun sym => flat_map (fun tf =>
    if strategyTimeframeAllowed s tf then [mkTuple s sym tf] else []) (orElse timeframes ["1d"%string])) symbols)
    (orElse strategies ["intraday_mr"%string]).

(** ** Numbers *)
Definition grossReturnPct (netReturnPct totalFees initialCapital : float64) : float64 :=
  if initialCapital <=? 0 then netReturnPct else netReturnPct + totalFees / initialCapital * 100.0.

Definition clampAbs (val limit : float64) : float64 :=
  if math.IsNaN val || math.IsInf val 0 then 0
  else if val >? limit then limit else if val <? - limit then - limit else val.

Definition computeExpectedPF (winRate avgWin avgLoss : float64) : float64 :=
  if (winRate <=? 0) || (winRate >=? 100) || (avgWin <=? 0) || (avgLoss <=? 0) then 0
  else
    let wr := winRate / 100.0 in
    let expected := wr * avgWin / ((1 - wr) * avgLoss) in
    if math.IsNaN expected || math.IsInf expected 0 then 0 else expected.

Definition computeRewardRisk (avgWin avgLoss : float64) : float64 :=
  if avgLoss <=? 0 then 0
  else let rr := avgWin / avgLoss in if math.IsNaN rr || math.IsInf rr 0 then 0 else rr.

Definition computeDailyVolatility (returns : list (Z * float64)) : float64 :=
  match returns with
  | [] | [_] => 0
  | _ =>
      let mean := sumBy snd returns / count returns in
      math.Sqrt (sumBy (fun dr => (dr.2 - mean) * (dr.2 - mean)) returns / of_Z (Z.of_nat (length returns) - 1))
  end.

Definition gateBool (v : option MultiMetricVerdict) : option bool := VerdictPassed <$> v.

(** [int(math.Ceil(x))] where the result fits *)
Definition ceilInt (x : float64) : Z := let n := math.int64 x in if of_Z n <? x then (n + 1)%Z else n.

Definition lightOptWindowMonths (timeframe : string) : Z :=
  let bpd := barsPerDayFromTimeframe timeframe in
  let bpd := if bpd <? 1 then 1 else bpd in
  Z.max 1 (ceilInt (500.0 / (bpd * 21.0))).

Definition SelectRepresentativeSymbols (symbols : list string) (n : Z) : list string :=
  if Z.leb (Z.of_nat (length symbols)) n then symbols else take (Z.to_nat n) symbols.

Definition DiffStrings (a b : list string) : list string := List.filter (fun s => negb (bool_decide (s ∈ b))) a.

Definition pickDominantTimeframe (timeframes : list string) : string :=
  match timeframes with
  | [] => "1d"
  | tf :: _ => if existsb (fun t => bool_decide (t = "1d"%string) || bool_decide (t = "daily"%string)) timeframes then "1d" else tf
  end.

(** ** Resources *)
Definition clampInt (v lo hi : Z) : Z := if Z.ltb v lo then lo else if Z.ltb hi v then hi else v.

Definition maxWorkersHardCap : Z := 16.
Definition DefaultDBPoolMax : Z := 40.

(** On a machine of [cpus] processors. *)
Definition MatrixWorkers (cpus dbPoolMax : Z) : Z :=
  let cpu := Z.max 1 (cpus - 1) in
  let memWorkers := Z.max 1 (Z.quot 2048 128) in
  let dbWorkers := Z.max 1 (dbPoolMax - 4) in
  let w := if Z.ltb memWorkers cpu then memWorkers else cpu in
  let w := if Z.ltb dbWorkers w then dbWorkers else w in
  clampInt w 1 maxWorkersHardCap.

(** The positions of a curve that is thinned. *)
Definition sampleIndices (n maxPoints : Z) : list Z :=
  let stride := of_Z (n - 1) / of_Z (maxPoints - 1) in
  map (fun i => let idx := math.int64 (of_Z (Z.of_nat i) * stride) in if Z.leb n idx then n - 1 else idx)%Z
    (seq 0 (Z.to_nat (maxPoints - 1))) ++ [n - 1]%Z.

(** [None]: an index out of range. *)
Definition DownsampleEquity {A} (points : list A) (maxPoints : Z) : option (list A) :=
  let n := Z.of_nat (length points) in
  if Z.leb maxPoints 2 || Z.leb n maxPoints then Some points
  else mapM (fun i => if Z.ltb i 0 then None else points !! Z.to_nat i) (sampleIndices n maxPoints).

(** ** A matrix *)
Record MatrixBacktestConfig := mkMatrix {
  McStrategyIDs : list string; McSymbols : list string; McTimeframes : list string; McStart : Z; McEnd : Z;
  McCapital : float64; McDataSource : string; McGateProfile : string; McPropFirm : bool; McSizing : float64; McKelly : float64;
  McSkipLight : bool; McWalkForward : bool
}.

Definition tuplesOf (config : MatrixBacktestConfig) : list BatchTuple :=
  cartesianProduct (McStrategyIDs config) (McSymbols config) (McTimeframes config).

Record MatrixResult := mkMatrixResult { MrCombos : Z; MrResults : list ComboResult; MrPlausibility : list PlausibilityFlag }.

Definition noFee : BrokerageFeeConfig := mkFee 0 0 0 0 0 0 false.

(** Strategies that synthetic data cannot judge. *)
Definition skippedOnSynthetic (config : MatrixBacktestConfig) (combo : BatchTuple) : bool :=
  bool_decide (McDataSource config = "synthetic"%string) &&
  bool_decide (BtStrategy combo ∈ ["breakout"; "opening_range_breakout"; "scalp"; "session_scalp"]%string).

Definition comboNamed (combo : BatchTuple) : ComboResult := namedCombo (BtStrategy combo) (BtSymbol combo) (BtTimeframe combo).

Definition skipText : string := "skipped: strategy requires real intraday data — not evaluated on synthetic data".
Definition skippedResult (combo : BatchTuple) : ComboResult := (comboNamed combo) <| CrError := skipText |>.
Definition failedResult (errText : string) (combo : BatchTuple) : ComboResult := (comboNamed combo) <| CrError := errText |>.

(** The share of the figures that both runners copy from a result. *)
Definition ofResult (combo : BatchTuple) (capital : float64) (r : BacktestResult) : ComboResult :=
  mkCombo "" (BtSymbol combo) (BtStrategy combo) (BtTimeframe combo) (SharpeRatio r) (SortinoRatio r) (MaxDrawdown r)
    (MaxDrawdownDuration r) (TotalReturnPct r) (WinRate r) (ProfitFactor r) (AvgTrade r) (AvgWin r) (AvgLoss r)
    (NumTrades r) (NumWins r) (NumLosses r) (AvgMAE r) (AvgMFE r) "" None false (AdverseSelectionRate r) false (RStrategyParams r)
    0 0 0 0 0 0 0 0 0 0 0 0 (MtmSharpeRatio r) (MtmMaxDrawdown r) (TotalFees r) (AvgSlippageBps r) (CalmarRatio r)
    (CandleCount r) (grossReturnPct (TotalReturnPct r) (TotalFees r) capital) "" (DataGenerationID r) 0 0 0 None false
    (FirstCandleTime r) (LastCandleTime r) (DeclaredBarsPerDay r) (EffectiveBarsPerDay r) (RSignalDiag r).

(** What an embedded walk-forward adds. *)
Definition withWalk (wf : option OptimizedWalkForwardResult) (cr : ComboResult) : ComboResult :=
  match wf with
  | Some res =>
      if Z.ltb 0 (TotalWindows res) then
        cr <| CrWfISSharpe := OverallSharpe res |> <| CrWfOOSSharpe := AvgOOSSharpe res |>
           <| CrWfAnchorOOSSharpe := AvgAnchorOOSSharpe res |> <| CrWfBestParams := promotedParams (Some res) |>
           <| CrWfMultiplicityWarn := hasMultiplicityWarning res |>
      else cr
  | None => cr
  end.

Definition matrixResult (config : MatrixBacktestConfig) (combo : BatchTuple) (cfg : RunConfig) (r : BacktestResult)
    (wf : option OptimizedWalkForwardResult) : ComboResult :=
  let '(longWR, _, _, _, longPF) := sideSummary (RLong r) in
  let '(shortWR, _, _, _, shortPF) := sideSummary (RShort r) in
  let cr := (ofResult combo (McCapital config) r)
    <| CrGatePassed := gateBool (MetricGateStatus r) |>
    <| CrOptimized := negb (bool_decide (StrategyParams (Base cfg) = ∅)) |>
    <| CrLongTrades := SdTrades (RLong r) |> <| CrShortTrades := SdTrades (RShort r) |>
    <| CrLongWinRate := longWR |> <| CrShortWinRate := shortWR |>
    <| CrLongGrossPnL := clampAbs (SdGrossPnL (RLong r)) (McCapital config * 100) |>
    <| CrShortGrossPnL := clampAbs (SdGrossPnL (RShort r)) (McCapital config * 100) |>
    <| CrLongPF := clampAbs longPF 1000 |> <| CrShortPF := clampAbs shortPF 1000 |>
    <| CrProfitFactor := clampAbs (ProfitFactor r) 1000 |> <| CrTotalReturn := clampAbs (TotalReturnPct r) 10000 |>
    <| CrZeroPnLTrades := (NumTrades r - NumWins r - NumLosses r)%Z |>
    <| CrExpectedPF := computeExpectedPF (WinRate r) (AvgWin r) (AvgLoss r) |>
    <| CrRewardRisk := computeRewardRisk (AvgWin r) (AvgLoss r) |>
    <| CrDailyVolatility := computeDailyVolatility (RDailyReturns r) |>
    <| CrDataSource := McDataSource config |> in
  let cr := withWalk wf cr in
  cr <| CrImplausible := IsComboImplausible cr |>.

(** [None] of [searchAll]'s entries is the first panic or endless search. *)
Fixpoint searchAll {A} (l : list (search A)) : search (list A) :=
  match l with
  | [] => Found []
  | Found a :: l =>
      match searchAll l with Found r => Found (a :: r) | Endless => Endless | Panicked => Panicked end
  | Endless :: _ => Endless
  | Panicked :: _ => Panicked
  end.

(** Entries written one by one, in [order], over the zero value. *)
Definition fill {A} (zero : A) (outcomes : list A) (order : list nat) : list A :=
  fold_left (fun all i => match outcomes !! i with Some r => <[i := r]> all | None => all end) order
    (map (fun _ => zero) outcomes).

Section Matrix.
Context {B : Backtests} {SL : SortSlice} {RN : Rand}.
Variable fmt4 : float64 -> string.
Variable errText : string.
(** [config.SecondaryTicker]: the empty string is none. *)
Variable SecondaryTicker : string -> string.
(** Rounds for the windows and for the enumeration of a space. *)
Variable wfuel fuel : nat.
(** How the goroutines of the walk-forward of a combo finish, window by window. *)
Variable finishedIn : nat -> nat -> list nat.
Variable config : MatrixBacktestConfig.

Definition lightCfgOf (strategyID : string) : LightOptimizeConfig :=
  let repSymbols := SelectRepresentativeSymbols (McSymbols config) LightOptSymbolCount in
  let dominantTF := pickDominantTimeframe (McTimeframes config) in
  mkLight strategyID repSymbols (DiffStrings (McSymbols config) repSymbols) dominantTF (McStart config)
    (Z.min (AddDate (McStart config) 0 (lightOptWindowMonths dominantTF) 0) (McEnd config)) LightOptTrainFraction (McCapital config) ""
    LightOptBudget (McPropFirm config) (McGateProfile config) 0 LightOptWeights LightOptPlateauPatience true LightOptCacheTTL 0.

(** Each strategy once, in the order of the combos. *)
Fixpoint lightEach (e : engine) (now : Z) (seen : list string) (combos : list BatchTuple) (params : gmap string combination)
    (cache : optCache) : option (gmap string combination * optCache) :=
  match combos with
  | [] => Some (params, cache)
  | c :: combos =>
      if bool_decide (BtStrategy c ∈ seen) then lightEach e now seen combos params cache
      else
        '(found, cache) ← RunLightOptimize fmt4 fuel e now (lightCfgOf (BtStrategy c)) cache;
        lightEach e now (BtStrategy c :: seen) combos
          (match found with Some p => <[BtStrategy c := p]> params | None => params end) cache
  end.

(** The configuration of a combo; a pair strategy also loads the counterpart of its symbol. *)
Definition secondaryOf (combo : BatchTuple) : string :=
  if bool_decide (BtStrategy combo = "pairs_trading"%string) || bool_decide (BtStrategy combo = "stat_arb"%string)
  then SecondaryTicker (BtSymbol combo) else ""%string.

Definition comboConfig (optimizedParams : gmap string combination) (combo : BatchTuple) : RunConfig :=
  let sec := secondaryOf combo in
  let noSec := bool_decide (sec = ""%string) in
  mkRun (mkConfig (BtStrategy combo) (if noSec then [BtSymbol combo] else [BtSymbol combo; sec]) (McCapital config) None 0 noFee
           (McPropFirm config) None None false (default ∅ (optimizedParams !! BtStrategy combo)) 0
           (if McSizing config <=? 0 then 0.02 else McSizing config) (if McKelly config <=? 0 then 0.25 else McKelly config) 0
           (if noSec then [] else [(BtSymbol combo, sec)]) None false false)
    (McStart config) (McEnd config) (BtTimeframe combo) (McDataSource config)
    (negb (bool_decide (McGateProfile config = ""%string)) && negb (bool_decide (McGateProfile config = "none"%string)))
    (McGateProfile config).

(** The goroutine of the [i]th combo, on an engine of its own. *)
Definition runCombo (e : engine) (optimizedParams : gmap string combination) (i : nat) (combo : BatchTuple) : search ComboResult :=
  let cfg := comboConfig optimizedParams combo in
  let '(result, e) := runEngine (NewEngine e i) cfg in
  match result with
  | None => Found (failedResult errText combo)
  | Some r =>
      if McWalkForward config && Z.leb 20 (NumTrades r) then
        let owfCfg := NewOptimizedWalkForwardConfig cfg (BtStrategy combo) in
        let owfCfg := mkOWF (OwfWalk owfCfg) (OwfStrategyID owfCfg) (OwfSpace owfCfg) (ObjectiveType owfCfg) (ObjectiveWeights owfCfg)
                        LightOptBudget (OwfIVS owfCfg) in
        match RunOptimizedWalkForward owfCfg wfuel fuel (finishedIn i) e with
        | Found (res, _) => Found (matrixResult config combo cfg r (Some res))
        | Endless => Endless
        | Panicked => Panicked
        end
      else Found (matrixResult config combo cfg r None)
  end.

Definition comboOutcome (e : engine) (optimizedParams : gmap string combination) (i : nat) (combo : BatchTuple) : search ComboResult :=
  if skippedOnSynthetic config combo then Found (skippedResult combo) else runCombo e optimizedParams i combo.

(** The outer option is that of the light optimiser; [order] is the order in which the
    entries of the results are written. *)
Definition RunMatrixConcurrent (now : Z) (e : engine) (cache : optCache) (order : list nat) : option (search MatrixResult * optCache) :=
  match tuplesOf config with
  | [] => Some (Found (mkMatrixResult 0 [] []), cache)
  | combos =>
      '(optimizedParams, cache) ← (if McSkipLight config then Some (∅, cache) else lightEach e now [] combos ∅ cache);
      Some (match searchAll (imap (comboOutcome e optimizedParams) combos) with
            | Found outcomes =>
                let results := fill (namedCombo "" "" "") outcomes order in
                Found (mkMatrixResult (Z.of_nat (length combos)) results (FlagImplausibleCombos results))
            | Endless => Endless
            | Panicked => Panicked
            end, cache)
  end.

(** ** The best combos again, with the full budget *)
Definition topCombos (results : list ComboResult) (topN : Z) : list ComboResult :=
  let topN := if Z.leb topN 0 then 4%Z else topN in
  take (Z.to_nat topN) (sortSlice (fun a b => CrSharpe a >? CrSharpe b)
    (List.filter (fun r => bool_decide (CrError r = ""%string) && Z.leb 20 (CrNumTrades r)) results)).

Definition walkOnTop (base : RunConfig) (e : engine) (i : nat) (c : ComboResult) : search WalkForwardResult :=
  let cfg := mkRun (mkConfig (CrStrategyID c) [CrSymbol c] (InitialCapital base) None 0 noFee false None None false ∅ 0
                      (SizingPercent base) (KellyFraction base) 0 [] None false false)
               (RunStart base) (RunEnd base) (CrTimeframe c) (DataSource base) false (GateProfile base) in
  match RunOptimizedWalkForward (NewOptimizedWalkForwardConfig cfg (CrStrategyID c)) wfuel fuel (finishedIn i) (NewEngine e i) with
  | Found (res, _) => Found (Walk res)
  | Endless => Endless
  | Panicked => Panicked
  end.

Definition RunWalkForwardOnTopCombos (results : list ComboResult) (topN : Z) (e : engine) (base : RunConfig) :
    search (list WalkForwardResult) :=
  searchAll (imap (walkOnTop base e) (topCombos results topN)).
End Matrix.

(** ** Many parameters of one strategy *)
Record BatchOptimizeConfig := mkBatch {
  BoStrategyID : string; BoSymbols : list string; BoStart : Z; BoEnd : Z; BoCapital : float64; BoParams : list combination;
  BoChunkLen : Z; BoGateProfile : string; BoPropFirm : bool; BoSeed : Z; BoTimeframe : string
}.

Section Batch.
Context {B : Backtests}.
Variable errText : string.
(** [NewEngineWithFixedSeed] *)
Variable seeded : engine.
Variable config : BatchOptimizeConfig.

Definition batchConfig (params : combination) (sym : string) : RunConfig :=
  mkRun (mkConfig (BoStrategyID config) [sym] (BoCapital config) None 0 noFee (BoPropFirm config) None None false params (BoSeed config)
           0 0 0 [] None false false) (BoStart config) (BoEnd config) (BoTimeframe config) "" false (BoGateProfile config).

Definition batchEntry (params : combination) (sym : string) : ComboResult :=
  let combo := mkTuple (BoStrategyID config) sym (BoTimeframe config) in
  match (runEngine seeded (batchConfig params sym)).1 with
  | None => failedResult errText combo
  | Some r => ofResult combo (BoCapital config) r
  end.

(** A chunk: [order] lists the pairs of a position and a symbol as their goroutines finish. *)
Definition batchChunk (chunk : list combination) (order : list (nat * string)) : list ComboResult :=
  fold_left (fun all p => match chunk !! p.1 with Some params => <[p.1 := batchEntry params p.2]> all | None => all end) order
    (map (fun _ => namedCombo "" "" "") chunk).

Fixpoint batchChunks (fuel chunkLen : nat) (params : list combination) (orders : nat -> list (nat * string)) (k : nat) : list ComboResult :=
  match fuel, params with
  | S fuel, _ :: _ =>
      batchChunk (take chunkLen params) (orders k) ++ batchChunks fuel chunkLen (drop chunkLen params) orders (S k)
  | _, _ => []
  end.

Definition RunBatchOptimize (orders : nat -> list (nat * string)) : list ComboResult :=
  let chunkLen := Z.to_nat (if Z.leb (BoChunkLen config) 0 then 1 else BoChunkLen config) in
  batchChunks (length (BoParams config)) chunkLen (BoParams config) orders 0.
End Batch.

(** ** The dispatcher

    It goes through the combos in order; a combo to skip is written at once, the others
    wait for a free worker.  [ok i] says whether the [i]th combo returns a result. *)
Record dispatcher := mkDispatcher { dNext : nat; dFlying : list nat; dWritten : list nat }.

Inductive dispatch (workers n : nat) (skip ok : nat -> bool) (results : nat -> ComboResult) (errText : string) :
    dispatcher -> option Progress.event -> dispatcher -> Prop :=
| dispatch_skip i fl w : (i < n)%nat -> skip i = true ->
    dispatch workers n skip ok results errText (mkDispatcher i fl w) None (mkDispatcher (S i) fl (w ++ [i]))
| dispatch_start i fl w : (i < n)%nat -> skip i = false -> (length fl < workers)%nat ->
    dispatch workers n skip ok results errText (mkDispatcher i fl w) (Some (Progress.Started i)) (mkDispatcher (S i) (fl ++ [i]) w)
| dispatch_end i next f1 f2 w :
    dispatch workers n skip ok results errText (mkDispatcher next (f1 ++ i :: f2) w)
      (Some (if ok i then Progress.Completed i (results i) else Progress.Failed i errText)) (mkDispatcher next (f1 ++ f2) (w ++ [i])).

Inductive dispatched (workers n : nat) (skip ok : nat -> bool) (results : nat -> ComboResult) (errText : string) :
    list Progress.event -> dispatcher -> Prop :=
| dispatched_start : dispatched workers n skip ok results errText [] (mkDispatcher 0 [] [])
| dispatched_step es d o d' : dispatched workers n skip ok results errText es d ->
    dispatch workers n skip ok results errText d o d' ->
    dispatched workers n skip ok results errText (es ++ match o with Some e => [e] | None => [] end) d'.

(** ** The combos of a matrix *)
Lemma flat_map_member {A C} (f : A -> list C) l y : y ∈ flat_map f l <-> exists x, x ∈ l /\ y ∈ f x.
Proof. rewrite list_elem_of_In, in_flat_map. setoid_rewrite list_elem_of_In. done. Qed.

Lemma cartesian_spec strategies symbols timeframes c :
  c ∈ cartesianProduct strategies symbols timeframes <->
  BtStrategy c ∈ orElse strategies ["intraday_mr"%string] /\ BtSymbol c ∈ symbols /\ BtTimeframe c ∈ orElse timeframes ["1d"%string] /\
  strategyTimeframeAllowed (BtStrategy c) (BtTimeframe c) = true.
Proof.
  unfold cartesianProduct. rewrite flat_map_member. split.
  - intros (s & Hs & (sym & Hy & (tf & Ht & H)%flat_map_member)%flat_map_member).
    destruct (strategyTimeframeAllowed s tf) eqn:E; [|by apply not_elem_of_nil in H]. by apply list_elem_of_singleton in H as ->.
  - intros (Hs & Hy & Ht & A). exists (BtStrategy c). split; [done|]. apply flat_map_member. exists (BtSymbol c). split; [done|].
    apply flat_map_member. exists (BtTimeframe c). split; [done|]. rewrite A. destruct c; left.
Qed.

Lemma NoDup_flat_map {A C} (f : A -> list C) l :
  NoDup l -> (forall x, x ∈ l -> NoDup (f x)) -> (forall x y z, x ∈ l -> y ∈ l -> z ∈ f x -> z ∈ f y -> x = y) -> NoDup (flat_map f l).
Proof.
  intros N. induction N as [|x l X N IH]; intros F D; [constructor|]. cbn. apply list.NoDup_app. split; [apply F; left|]. split.
  - intros z Z (y & Hy & Zy)%flat_map_member. assert (x = y) as -> by (eapply D; [left|by right|done..]). done.
  - apply IH; [intros; apply F; by right|]. intros a b z Ha Hb. apply D; by right.
Qed.

Lemma cartesian_NoDup strategies symbols timeframes :
  NoDup strategies -> NoDup symbols -> NoDup timeframes -> NoDup (cartesianProduct strategies symbols timeframes).
Proof.
  intros N1 N2 N3. unfold cartesianProduct.
  assert (O : forall l d : list string, NoDup l -> NoDup d -> NoDup (orElse l d)) by (intros [|x l] d H1 H2; done).
  assert (S1 : forall x : string, NoDup [x]) by (intros; apply NoDup_singleton).
  apply NoDup_flat_map; [by apply O| |].
  - intros s _. apply NoDup_flat_map; [done| |].
    + intros sym _. apply NoDup_flat_map; [by apply O| |].
      * intros tf _. destruct (strategyTimeframeAllowed s tf); [apply NoDup_singleton|constructor].
      * intros t1 t2 z _ _ H1 H2. destruct (strategyTimeframeAllowed s t1), (strategyTimeframeAllowed s t2);
          try (by apply not_elem_of_nil in H1); try (by apply not_elem_of_nil in H2).
        apply list_elem_of_singleton in H1, H2. congruence.
    + intros y1 y2 z _ _ (t1 & _ & H1)%flat_map_member (t2 & _ & H2)%flat_map_member.
      destruct (strategyTimeframeAllowed s t1), (strategyTimeframeAllowed s t2);
        try (by apply not_elem_of_nil in H1); try (by apply not_elem_of_nil in H2).
      apply list_elem_of_singleton in H1, H2. congruence.
  - intros s1 s2 z _ _ (y1 & _ & (t1 & _ & H1)%flat_map_member)%flat_map_member (y2 & _ & (t2 & _ & H2)%flat_map_member)%flat_map_member.
    destruct (strategyTimeframeAllowed s1 t1), (strategyTimeframeAllowed s2 t2);
      try (by apply not_elem_of_nil in H1); try (by apply not_elem_of_nil in H2).
    apply list_elem_of_singleton in H1, H2. congruence.
Qed.

(** Nothing is left of the defaults: the default strategy does not run on the default timeframe. *)
Lemma default_matrix_empty symbols : cartesianProduct [] symbols [] = [].
Proof. unfold cartesianProduct. cbn [orElse flat_map]. rewrite app_nil_r. induction symbols as [|s l IH]; [done|]. cbn [flat_map]. rewrite IH. reflexivity. Qed.

(** ** Results do not depend on the scheduler *)
Lemma fill_lookup {A} (outcomes : list A) order : forall all, length all = length outcomes ->
  forall i, fold_left (fun all i => match outcomes !! i with Some r => <[i := r]> all | None => all end) order all !! i =
    if bool_decide (i ∈ order) then outcomes !! i else all !! i.
Proof.
  induction order as [|k order IH]; intros all L i; cbn [fold_left]; [done|].
  destruct (outcomes !! k) as [r|] eqn:E.
  - rewrite IH by by rewrite length_insert. destruct (decide (i = k)) as [->|N].
    + rewrite (bool_decide_eq_true_2 (k ∈ k :: order)) by left. rewrite list_lookup_insert_eq by (rewrite L; by eapply lookup_lt_Some).
      rewrite E. by destruct (bool_decide _).
    + rewrite list_lookup_insert_ne by done.
      by rewrite (bool_decide_ext (i ∈ k :: order) (i ∈ order)) by (rewrite elem_of_cons; tauto).
  - rewrite IH by done. destruct (decide (i = k)) as [->|N].
    + rewrite (bool_decide_eq_true_2 (k ∈ k :: order)) by left. rewrite E.
      assert (all !! k = None) as -> by (apply lookup_ge_None; rewrite L; by apply lookup_ge_None). by destruct (bool_decide _).
    + by rewrite (bool_decide_ext (i ∈ k :: order) (i ∈ order)) by (rewrite elem_of_cons; tauto).
Qed.

Lemma fill_all {A} (zero : A) outcomes order : order ≡ₚ seq 0 (length outcomes) -> fill zero outcomes order = outcomes.
Proof.
  intros P. apply list_eq. intros i. unfold fill. rewrite fill_lookup by by rewrite length_map.
  destruct (decide (i < length outcomes)%nat) as [H|H].
  - rewrite bool_decide_eq_true_2; [done|]. rewrite P. apply elem_of_seq. lia.
  - assert (outcomes !! i = None) as -> by (apply lookup_ge_None; lia). assert (map (fun _ => zero) outcomes !! i = None) as -> by (apply lookup_ge_None; rewrite length_map; lia).
    by destruct (bool_decide _).
Qed.

Lemma searchAll_found {A} (l : list (search A)) r : searchAll l = Found r -> Forall2 (fun s a => s = Found a) l r.
Proof.
  revert r. induction l as [|s l IH]; intros r E; cbn in E; [injection E as <-; constructor|].
  destruct s as [| |a]; try done. destruct (searchAll l) as [| |r']; try done. injection E as <-. constructor; [done|by apply IH].
Qed.

Definition named (combo : BatchTuple) (cr : ComboResult) : Prop :=
  CrStrategyID cr = BtStrategy combo /\ CrSymbol cr = BtSymbol combo /\ CrTimeframe cr = BtTimeframe combo.

Section Laws.
Context {B : Backtests} {SL : SortSlice} {RN : Rand}.
Variable fmt4 : float64 -> string.
Variable errText : string.
Variable SecondaryTicker : string -> string.
Variable wfuel fuel : nat.
Variable finishedIn : nat -> nat -> list nat.
Variable config : MatrixBacktestConfig.

Lemma matrixResult_named combo cfg r wf : named combo (matrixResult config combo cfg r wf).
Proof.
  unfold matrixResult. destruct (sideSummary (RLong r)) as [[[[a1 a2] a3] a4] a5], (sideSummary (RShort r)) as [[[[b1 b2] b3] b4] b5].
  unfold withWalk. destruct wf as [res|]; [|done]. by destruct (Z.ltb 0 (TotalWindows res)).
Qed.

Lemma comboOutcome_named e params i combo cr :
  comboOutcome errText SecondaryTicker wfuel fuel finishedIn config e params i combo = Found cr -> named combo cr.
Proof.
  unfold comboOutcome, runCombo. destruct (skippedOnSynthetic config combo); [by intros [= <-]|].
  destruct (runEngine _ _) as [[r|] e']; [|by intros [= <-]].
  destruct (_ && _); [|intros [= <-]; apply matrixResult_named].
  destruct (RunOptimizedWalkForward _ _ _ _ _) as [| |[res e2]]; try done. intros [= <-]. apply matrixResult_named.
Qed.

End Laws.

(** ** Figures *)
Lemma usable_fin x : math.IsNaN x || math.IsInf x 0 = false -> ffin x = true.
Proof.
  rewrite IsNaN_fnan. intros [N I]%orb_false_iff. destruct (ffin x) eqn:F; [done|]. exfalso.
  destruct (Z.leb_spec 0 (fv x)) as [P|P].
  - rewrite (nonfin_pos x N F P) in I. vm_compute in I. discriminate.
  - assert (E : (- x)%float = infinity) by (apply nonfin_pos; rewrite ?fnan_opp, ?ffin_opp, ?fv_opp; try done; lia).
    rewrite <- (opp_opp x), E in I. vm_compute in I. discriminate.
Qed.

Lemma clampAbs_spec val limit : pos0 limit -> ffin (clampAbs val limit) = true /\ (Z.abs (fv (clampAbs val limit)) <= fv limit)%Z.
Proof.
  intros [Fl Pl]. unfold clampAbs. destruct (math.IsNaN val || math.IsInf val 0) eqn:U; [cbn; change (fv 0) with 0%Z; split; [done|lia]|].
  apply usable_fin in U. destruct (limit <? val) eqn:E1; [split; [done|lia]|]. destruct (val <? - limit) eqn:E2.
  - rewrite ffin_opp, fv_opp. split; [done|lia].
  - split; [done|]. apply ltb_false in E1; [|by apply ffin_nan..].
    apply ltb_false in E2; [|by apply ffin_nan|rewrite fnan_opp; by apply ffin_nan]. rewrite fv_opp in E2. lia.
Qed.

Definition within (x : float64) (limit : Z) : Prop := ffin x = true /\ (Z.abs (fv x) <= limit * onev)%Z.

Lemma clamped val limit z : ffin limit = true -> fv limit = (z * onev)%Z -> (0 <= z)%Z -> within (clampAbs val limit) z.
Proof.
  intros F E P. destruct (clampAbs_spec val limit) as [A C]; [split; [done|]; rewrite E; pose proof onev_pos; nia|].
  split; [done|]. by rewrite <- E.
Qed.

Lemma expectedPF_fin w a l : ffin (computeExpectedPF w a l) = true.
Proof. unfold computeExpectedPF. destruct (_ || _ || _ || _); [done|]. case_match eqn:E; [done|by apply usable_fin]. Qed.

Lemma rewardRisk_fin a l : ffin (computeRewardRisk a l) = true.
Proof. unfold computeRewardRisk. destruct (_ <=? _); [done|]. case_match eqn:E; [done|by apply usable_fin]. Qed.

(** The figures of a combo are usable.  Whatever the engine reports, infinities and NaN
    included, the profit factors of a combo are finite and within 1000, its return within
    10000 percent, and its expected profit factor and reward-to-risk ratio are finite. *)
Theorem matrix_figures_bounded config combo cfg r wf :
  let cr := matrixResult config combo cfg r wf in
  within (CrProfitFactor cr) 1000 /\ within (CrLongPF cr) 1000 /\ within (CrShortPF cr) 1000 /\ within (CrTotalReturn cr) 10000 /\
  ffin (CrExpectedPF cr) = true /\ ffin (CrRewardRisk cr) = true.
Proof.
  cbv zeta. unfold matrixResult.
  destruct (sideSummary (RLong r)) as [[[[a1 a2] a3] a4] a5], (sideSummary (RShort r)) as [[[[b1 b2] b3] b4] b5].
  assert (K : ffin 1000 = true /\ fv 1000 = (1000 * onev)%Z) by (split; vm_compute; reflexivity).
  assert (T : ffin 10000 = true /\ fv 10000 = (10000 * onev)%Z) by (split; vm_compute; reflexivity).
  assert (Z1 : (0 <= 1000)%Z) by lia. assert (Z2 : (0 <= 10000)%Z) by lia.
  pose proof (clamped (ProfitFactor r) 1000 1000 (proj1 K) (proj2 K) Z1) as G1.
  pose proof (clamped a5 1000 1000 (proj1 K) (proj2 K) Z1) as G2.
  pose proof (clamped b5 1000 1000 (proj1 K) (proj2 K) Z1) as G3.
  pose proof (clamped (TotalReturnPct r) 10000 10000 (proj1 T) (proj2 T) Z2) as G4.
  pose proof (expectedPF_fin (WinRate r) (AvgWin r) (AvgLoss r)) as G5. pose proof (rewardRisk_fin (AvgWin r) (AvgLoss r)) as G6.
  unfold withWalk. destruct wf as [res|]; [destruct (Z.ltb 0 (TotalWindows res))|];
    (split; [exact G1|]; split; [exact G2|]; split; [exact G3|]; split; [exact G4|]; split; [exact G5|exact G6]).
Qed.

(** ** The dispatcher *)
Section Dispatch.
Variable workers n : nat.
Variable skip ok : nat -> bool.
Variable results : nat -> ComboResult.
Variable errText : string.

Abbreviation step := (dispatch workers n skip ok results errText).
Abbreviation runs := (dispatched workers n skip ok results errText).

Record dispatch_ok (d : dispatcher) : Prop := {
  dk_next : (dNext d <= n)%nat;
  dk_flying : (length (dFlying d) <= workers)%nat;
  dk_perm : dFlying d ++ dWritten d ≡ₚ seq 0 (dNext d)
}.

Lemma runs_ok es d : runs es d -> dispatch_ok d.
Proof.
  induction 1 as [|es d o d' _ IH S]; [split; cbn; [lia|lia|done]|].
  destruct IH as [A C P]. destruct S as [i fl w H _|i fl w H _ W|i next f1 f2 w]; cbn [dNext dFlying dWritten] in *.
  - split; cbn [dNext dFlying dWritten]; [lia|lia|]. rewrite app_assoc, P. by rewrite seq_S.
  - split; cbn [dNext dFlying dWritten]; [lia|rewrite length_app; cbn; lia|]. rewrite seq_S, <- P. cbn [Nat.add]. rewrite <- !app_assoc. apply Permutation_app_head, Permutation_app_comm.
  - split; cbn [dNext dFlying dWritten]; [lia|rewrite length_app in *; cbn in *; lia|]. rewrite <- P, <- !app_assoc. cbn.
    apply Permutation_app_head. rewrite (Permutation_app_comm w [i]), app_assoc, (Permutation_app_comm f2 [i]). done.
Qed.

(** C15: the dispatcher bounds the runs in flight and always finishes.  At every moment no
    more combos run than there are workers; while a combo is neither written nor running, or
    one runs, some step is possible; every step brings the end nearer, so that no run has
    more than two steps per combo; and at the end every combo's entry is written exactly once. *)
Theorem dispatch_bounded_live es d :
  (0 < workers)%nat -> runs es d ->
  (length (dFlying d) <= workers)%nat /\
  ((dNext d = n /\ dFlying d = []) \/ exists o d', step d o d') /\
  (forall o d', step d o d' -> 2 * (n - dNext d') + length (dFlying d') < 2 * (n - dNext d) + length (dFlying d))%nat /\
  (dNext d = n -> dFlying d = [] -> dWritten d ≡ₚ seq 0 n).
Proof.
  intros W R. destruct (runs_ok _ _ R) as [A C P]. split; [done|]. split; [|split].
  - destruct d as [next fl w]; cbn in *. destruct fl as [|i fl].
    + destruct (decide (next = n)) as [->|N]; [by left|]. right. destruct (skip next) eqn:K.
      * do 2 eexists. apply dispatch_skip; [lia|done].
      * do 2 eexists. apply dispatch_start; [lia|done|cbn; lia].
    + right. do 2 eexists. apply (dispatch_end _ _ _ _ _ _ i next [] fl).
  - intros o d' S. destruct S as [i fl w H _|i fl w H _ H'|i next f1 f2 w]; cbn; rewrite ?length_app; cbn; lia.
  - intros E F. by rewrite E, F in P.
Qed.

(** The reports are those a batch's progress expects. *)
Definition phaseOf (d : dispatcher) (i : nat) : Progress.phase :=
  if bool_decide (i ∈ dFlying d) then Progress.Busy
  else if bool_decide (i ∈ dWritten d) then if skip i then Progress.Waiting else if ok i then Progress.Ended else Progress.Broken
  else Progress.Waiting.

Definition phasesOf (d : dispatcher) (m : nat) : list Progress.phase := map (phaseOf d) (seq 0 m).

Lemma phasesOf_lookup d m i : (i < m)%nat -> phasesOf d m !! i = Some (phaseOf d i).
Proof. intros H. unfold phasesOf. change (map (phaseOf d) (seq 0 m)) with (phaseOf d <$> seq 0 m). by rewrite list_lookup_fmap, lookup_seq_lt. Qed.

Lemma phasesOf_change d d' m i ph : (i < m)%nat -> (forall j, j <> i -> phaseOf d' j = phaseOf d j) -> phaseOf d' i = ph ->
  phasesOf d' m = <[i := ph]> (phasesOf d m).
Proof.
  intros H N E. apply list_eq. intros j. destruct (decide (j < m)%nat) as [L|L].
  - rewrite phasesOf_lookup by done. destruct (decide (j = i)) as [->|J].
    + by rewrite list_lookup_insert_eq, E by (unfold phasesOf; by rewrite length_map, length_seq).
    + rewrite list_lookup_insert_ne, phasesOf_lookup, N by done. done.
  - rewrite !lookup_ge_None_2; [done|rewrite length_insert|]; unfold phasesOf; rewrite length_map, length_seq; lia.
Qed.

Lemma phaseOf_eq next next' f f' w w' j : (j ∈ f <-> j ∈ f') -> (j ∈ w <-> j ∈ w') ->
  phaseOf (mkDispatcher next f w) j = phaseOf (mkDispatcher next' f' w') j.
Proof. intros F W. unfold phaseOf. cbn. by rewrite (bool_decide_ext _ _ F), (bool_decide_ext _ _ W). Qed.

Lemma flying_fresh es d : runs es d -> forall i, i ∈ dFlying d -> skip i = false /\ (i ∉ dWritten d) /\ (i < dNext d)%nat.
Proof.
  intros R i F. pose proof (dk_perm _ (runs_ok _ _ R)) as P.
  assert (N : NoDup (dFlying d ++ dWritten d)) by (rewrite P; apply NoDup_seq).
  apply list.NoDup_app in N as (_ & D & _). split; [|split; [by apply D|]].
  - clear -R F. induction R as [|es d o d' R IH S]; [by apply not_elem_of_nil in F|].
    destruct S as [k fl w H K|k fl w H K W|k next f1 f2 w]; cbn [dFlying] in *; [by apply IH| |].
    + apply elem_of_snoc in F as [F| ->]; [by apply IH|done].
    + apply IH. rewrite elem_of_app, elem_of_cons in *. tauto.
  - assert (M : i ∈ seq 0 (dNext d)) by (rewrite <- P; apply elem_of_app; by left). apply elem_of_seq in M. lia.
Qed.

Lemma phaseOf_start i : phaseOf (mkDispatcher 0 [] []) i = Progress.Waiting.
Proof. done. Qed.

Lemma runs_reached start batchID total names es d :
  (n <= length names)%nat -> errText <> ""%string -> runs es d ->
  exists mp, Progress.reached start batchID total names es (phasesOf d (length names)) mp.
Proof.
  intros L E R. induction R as [|es d o d' R [mp IH] S].
  { exists (Progress.fresh start batchID total names). replace (phasesOf _ _) with (map (fun _ => Progress.Waiting) names); [constructor|].
    unfold phasesOf. clear. generalize (phaseOf_start : forall i, phaseOf (mkDispatcher 0 [] []) i = Progress.Waiting) as Ph. intros Ph.
    rewrite (map_ext _ (fun _ => Progress.Waiting) Ph). clear. generalize 0%nat as k. induction names as [|x l IHl]; intros k; [done|].
    cbn [map length seq]. f_equal. apply IHl. }
  pose proof (runs_ok _ _ R) as [A C P]. pose proof (flying_fresh _ _ R) as FF.
  assert (Fresh : dNext d ∉ dFlying d ++ dWritten d) by (rewrite P, elem_of_seq; lia). rewrite not_elem_of_app in Fresh.
  destruct S as [i fl w H K|i fl w H K W|i next f1 f2 w]; cbn [dNext dFlying dWritten] in *.
  - rewrite app_nil_r. exists mp. replace (phasesOf (mkDispatcher (S i) fl (w ++ [i])) (length names)) with (phasesOf (mkDispatcher i fl w) (length names)); [done|].
    unfold phasesOf. apply map_ext. intros j. unfold phaseOf. cbn [dFlying dWritten]. destruct (bool_decide (j ∈ fl)); [done|].
    destruct (decide (j = i)) as [->|N].
    + rewrite bool_decide_eq_false_2 by tauto. rewrite bool_decide_eq_true_2 by (apply elem_of_app; right; left). by rewrite K.
    + by rewrite (bool_decide_ext (j ∈ w ++ [i]) (j ∈ w)) by (rewrite elem_of_app, list_elem_of_singleton; tauto).
  - eexists. eapply (Progress.reached_event _ _ _ _ _ _ _ _ _ 0%Z); [exact IH|]. cbn [Progress.follow]. rewrite phasesOf_lookup by lia.
    assert (Q : phaseOf (mkDispatcher i fl w) i = Progress.Waiting)
      by (unfold phaseOf; cbn [dFlying dWritten]; by rewrite !bool_decide_eq_false_2 by tauto). rewrite Q. f_equal. symmetry.
    apply phasesOf_change; [lia| |].
    + intros j N. apply phaseOf_eq; [|done]. rewrite elem_of_app, list_elem_of_singleton. tauto.
    + unfold phaseOf. cbn [dFlying]. by rewrite bool_decide_eq_true_2 by (apply elem_of_app; right; left).
  - assert (Fi : i ∈ f1 ++ i :: f2) by (apply elem_of_app; right; left).
    destruct (FF i Fi) as (K & Nw & Lt).
    assert (Nf : i ∉ f1 ++ f2).
    { assert (N : NoDup ((f1 ++ i :: f2) ++ w)) by (rewrite P; apply NoDup_seq). apply list.NoDup_app in N as (N & _ & _).
      rewrite <- Permutation_middle in N. by apply list.NoDup_cons in N as [N _]. }
    eexists. eapply (Progress.reached_event _ _ _ _ _ _ _ _ _ 0%Z); [exact IH|].
    assert (Q : phasesOf (mkDispatcher next (f1 ++ i :: f2) w) (length names) !! i = Some Progress.Busy)
      by (rewrite phasesOf_lookup by lia; unfold phaseOf; cbn [dFlying]; by rewrite bool_decide_eq_true_2).
    assert (V : phasesOf (mkDispatcher next (f1 ++ f2) (w ++ [i])) (length names) =
                <[i := if ok i then Progress.Ended else Progress.Broken]> (phasesOf (mkDispatcher next (f1 ++ i :: f2) w) (length names))).
    { apply phasesOf_change; [lia| |].
      - intros j N. apply phaseOf_eq; [rewrite !elem_of_app, elem_of_cons|rewrite elem_of_app, list_elem_of_singleton]; tauto.
      - unfold phaseOf. cbn [dFlying dWritten]. rewrite bool_decide_eq_false_2 by done.
        rewrite bool_decide_eq_true_2 by (apply elem_of_app; right; left). by rewrite K. }
    rewrite V. destruct (ok i); cbn [Progress.follow]; rewrite Q; [done|]. by rewrite bool_decide_eq_false_2.
Qed.

Lemma runs_uncancelled es d : runs es d -> Forall (fun e => Progress.isCancel e = false) es.
Proof.
  induction 1 as [|es d o d' _ IH S]; [constructor|]. apply Forall_app. split; [done|].
  destruct S; [constructor|repeat constructor|]. constructor; [by destruct (ok i)|constructor].
Qed.

Definition launched : Z := Z.of_nat (length (List.filter (fun i => negb (skip i)) (seq 0 n))).
Definition erred : Z := Z.of_nat (length (List.filter (fun i => negb (skip i) && negb (ok i)) (seq 0 n))).

Lemma filter_none {A} (p : A -> bool) l : (forall x, x ∈ l -> p x = false) -> List.filter p l = [].
Proof. induction l as [|x l IH]; intros H; [done|]. cbn. rewrite (H x) by left. apply IH. intros. apply H. by right. Qed.

Lemma tally_final p d m : (n <= m)%nat -> dFlying d = [] -> dWritten d ≡ₚ seq 0 n -> p Progress.Waiting = false ->
  Progress.tally p (phasesOf d m) =
  Z.of_nat (length (List.filter (fun i => negb (skip i) && p (if ok i then Progress.Ended else Progress.Broken)) (seq 0 n))).
Proof.
  intros L F W Pw. unfold Progress.tally, phasesOf. f_equal.
  replace m with (n + (m - n))%nat by lia. rewrite seq_app, map_app, List.filter_app, length_app.
  assert (Z0 : List.filter p (map (phaseOf d) (seq (0 + n) (m - n))) = []).
  { apply filter_none. intros x. rewrite list_elem_of_In, in_map_iff. intros (i & <- & I). apply list_elem_of_In, elem_of_seq in I.
    unfold phaseOf. rewrite F, bool_decide_eq_false_2 by apply not_elem_of_nil.
    rewrite bool_decide_eq_false_2; [exact Pw|]. rewrite W, elem_of_seq. lia. }
  rewrite Z0. cbn [length]. rewrite Nat.add_0_r.
  assert (G : forall l, (forall i, i ∈ l -> (i < n)%nat) -> length (List.filter p (map (phaseOf d) l)) =
    length (List.filter (fun i => negb (skip i) && p (if ok i then Progress.Ended else Progress.Broken)) l)).
  { induction l as [|i l IH]; intros H; [done|]. cbn [map List.filter].
    assert (E : p (phaseOf d i) = negb (skip i) && p (if ok i then Progress.Ended else Progress.Broken)).
    { unfold phaseOf. rewrite F, bool_decide_eq_false_2 by apply not_elem_of_nil.
      rewrite bool_decide_eq_true_2 by (rewrite W, elem_of_seq; pose proof (H i ltac:(left)); lia). by destruct (skip i). }
    rewrite E. destruct (negb (skip i) && _); cbn; by rewrite IH by (intros; apply H; by right). }
  apply G. intros i. rewrite elem_of_seq. lia.
Qed.

(** How a batch stands when the run is over. *)
Lemma batch_status start batchID total names es d ps mp :
  (0 < total)%Z -> (n <= length names)%nat -> errText <> ""%string -> runs es d -> dNext d = n -> dFlying d = [] ->
  Progress.reached start batchID total names es ps mp ->
  Progress.MpCompleted mp = launched /\ Progress.MpFailed mp = erred /\
  Progress.MpStatus mp = (if Z.leb total (launched + erred) then "completed" else "running")%string.
Proof.
  intros T L E R N F H. pose proof (dk_perm _ (runs_ok _ _ R)) as P. rewrite F, N in P. cbn in P.
  destruct (runs_reached start batchID total names es d L E R) as [mp0 H0].
  rewrite (Progress.reached_phases _ _ _ _ _ _ _ H0 _ _ H) in H.
  destruct (Progress.reached_uncancelled _ _ _ _ _ _ _ T H (runs_uncancelled _ _ R)) as [[A1 A2 A3 A4 A5 A6] S U V].
  assert (O : Progress.tally Progress.over (phasesOf d (length names)) = launched).
  { rewrite tally_final by done. unfold launched. do 2 f_equal. apply List.filter_ext. intros i. destruct (ok i); by destruct (skip i). }
  assert (Br : Progress.tally Progress.broken (phasesOf d (length names)) = erred).
  { rewrite tally_final by done. unfold erred. do 2 f_equal. apply List.filter_ext. intros i. by destruct (ok i). }
  rewrite A3, A4, U. unfold Progress.due. by rewrite O, Br.
Qed.
End Dispatch.

(** ** What the handler asks for

    [submitMatrixRun] fills the progress of a batch with every requested combo, permitted or
    not, in the order of the product. *)
Definition requested (config : MatrixBacktestConfig) : list BatchTuple :=
  flat_map (fun s => flat_map (fun sym => map (mkTuple s sym) (McTimeframes config)) (McSymbols config)) (McStrategyIDs config).

Definition progressNames (config : MatrixBacktestConfig) : list (string * string * string) :=
  map (fun c => (BtSymbol c, BtStrategy c, BtTimeframe c)) (requested config).

Definition permitted (c : BatchTuple) : bool := strategyTimeframeAllowed (BtStrategy c) (BtTimeframe c).

Lemma tuplesOf_requested config : McStrategyIDs config <> [] -> McTimeframes config <> [] ->
  tuplesOf config = List.filter permitted (requested config).
Proof.
  intros S T. unfold tuplesOf, cartesianProduct, requested.
  replace (orElse (McStrategyIDs config) ["intraday_mr"%string]) with (McStrategyIDs config) by (by destruct (McStrategyIDs config)).
  replace (orElse (McTimeframes config) ["1d"%string]) with (McTimeframes config) by (by destruct (McTimeframes config)). clear S T.
  induction (McStrategyIDs config) as [|s ss IH]; [done|]. cbn [flat_map]. rewrite List.filter_app, IH. f_equal. clear IH.
  induction (McSymbols config) as [|y ys IH]; [done|]. cbn [flat_map]. rewrite List.filter_app, IH. f_equal. clear IH.
  induction (McTimeframes config) as [|t ts IH]; [done|]. cbn [flat_map map List.filter]. rewrite IH. unfold permitted at 2. cbn [BtStrategy BtTimeframe].
  by destruct (strategyTimeframeAllowed s t).
Qed.

Lemma filter_length_lt {A} (p : A -> bool) l x : x ∈ l -> p x = false -> (length (List.filter p l) < length l)%nat.
Proof.
  intros X P. induction l as [|y l IH]; [by apply not_elem_of_nil in X|]. apply elem_of_cons in X as [<-|X]; cbn.
  - rewrite P. pose proof (List.filter_length_le p l). lia.
  - destruct (p y); cbn; [apply IH in X; lia|]. pose proof (List.filter_length_le p l). lia.
Qed.

Lemma filter_positions {A} (p : A -> bool) (l : list A) k :
  length (List.filter (fun i => match l !! (i - k)%nat with Some x => p x | None => false end) (seq k (length l))) = length (List.filter p l).
Proof.
  revert k. induction l as [|x l IH]; intros k; [done|]. cbn [length seq List.filter]. rewrite Nat.sub_diag. cbn [lookup list_lookup].
  rewrite (filter_ext_in _ (fun i => match l !! (i - S k)%nat with Some x => p x | None => false end)).
  - destruct (p x); cbn [length]; by rewrite IH.
  - intros i I%in_seq. replace (i - k)%nat with (S (i - S k)) by lia. done.
Qed.

(** Whether the run skips its [i]th combo. *)
Definition skipsAt (config : MatrixBacktestConfig) (i : nat) : bool :=
  match tuplesOf config !! i with Some c => skippedOnSynthetic config c | None => false end.

(** C35: one combo that the run leaves out keeps the batch running for ever.  The handler
    counts every requested combo; when one of them may not run on its timeframe, or is
    skipped on synthetic data, and no combo returns an error, the batch still reads running
    after the last of the run's reports. *)
Theorem left_out_combo_never_completes config workers results errText start batchID es d ps mp c :
  McStrategyIDs config <> [] -> McTimeframes config <> [] -> errText <> ""%string ->
  c ∈ requested config -> permitted c = false \/ skippedOnSynthetic config c = true ->
  let n := length (tuplesOf config) in
  dispatched workers n (skipsAt config) (fun _ => true) results errText es d -> dNext d = n -> dFlying d = [] ->
  Progress.reached start batchID (Z.of_nat (length (requested config))) (progressNames config) es ps mp ->
  Progress.MpStatus mp = "running"%string.
Proof.
  intros S T E C X n R N F H.
  assert (Pos : (0 < Z.of_nat (length (requested config)))%Z) by (destruct (requested config); [by apply not_elem_of_nil in C|cbn; lia]).
  assert (Lt : (launched n (skipsAt config) + erred n (skipsAt config) (fun _ => true) < Z.of_nat (length (requested config)))%Z).
  { unfold launched, erred. rewrite (List.filter_ext (fun i => negb (skipsAt config i) && negb true) (fun _ => false))
      by (intros; apply andb_false_r). rewrite (filter_none (fun _ => false)) by done.
    rewrite (filter_ext_in _ (fun i => match tuplesOf config !! (i - 0)%nat with Some c => negb (skippedOnSynthetic config c) | None => false end)).
    2: { intros i I%in_seq. rewrite Nat.sub_0_r. unfold skipsAt. destruct (tuplesOf config !! i) eqn:Q; [done|].
         apply lookup_ge_None in Q. unfold n in I. lia. }
    unfold n. rewrite filter_positions, tuplesOf_requested by done.
    assert (Fl : List.filter (fun c => negb (skippedOnSynthetic config c)) (List.filter permitted (requested config)) =
                 List.filter (fun c => permitted c && negb (skippedOnSynthetic config c)) (requested config)).
    { clear. induction (requested config) as [|x l IH]; [done|]. cbn [List.filter]. destruct (permitted x); cbn [List.filter andb]; [|exact IH].
      destruct (negb (skippedOnSynthetic config x)); by rewrite IH. }
    rewrite Fl. cbn [length]. enough (length (List.filter (fun c => permitted c && negb (skippedOnSynthetic config c)) (requested config)) <
      length (requested config))%nat by lia. apply (filter_length_lt _ _ c C). destruct X as [-> | ->]; [done|apply andb_false_r]. }
  destruct (batch_status workers n (skipsAt config) (fun _ => true) results errText start batchID _ (progressNames config) es d ps mp Pos) as (_ & _ & U); try done.
  - unfold progressNames, n. rewrite length_map, tuplesOf_requested by done. apply List.filter_length_le.
  - rewrite U. destruct (Z.leb_spec (Z.of_nat (length (requested config))) (launched n (skipsAt config) + erred n (skipsAt config) (fun _ => true))); [lia|done].
Qed.

(** Moving averages on five-minute and daily bars: one of the two combos runs. *)
Definition twoFrames : MatrixBacktestConfig :=
  mkMatrix ["ma_crossover"%string] ["SPY"%string] ["5m"; "1d"]%string 0 (900 * dayLength) 100000 "stooq" "" true 0 0 true false.

Definition oneRun (cr : ComboResult) : list Progress.event := [Progress.Started 0; Progress.Completed 0 cr].
Definition afterRun (cr : ComboResult) : Progress.MatrixProgress :=
  Progress.report 0 (Progress.Completed 0 cr) (Progress.report 0 (Progress.Started 0) (Progress.fresh 0 "b" 2 (progressNames twoFrames))).

Lemma left_out_combo_never_completes_witness :
  let cr := namedCombo "ma_crossover" "SPY" "1d" in
  tuplesOf twoFrames = [mkTuple "ma_crossover" "SPY" "1d"] /\ Progress.MpCompleted (afterRun cr) = 1%Z /\
  Progress.MpStatus (afterRun cr) = "running"%string.
Proof.
  cbv zeta. split; [reflexivity|]. split; [reflexivity|].
  apply (left_out_combo_never_completes twoFrames 1 (fun _ => namedCombo "ma_crossover" "SPY" "1d") "error" 0 "b"
    (oneRun (namedCombo "ma_crossover" "SPY" "1d")) (mkDispatcher 1 [] [0%nat]) [Progress.Ended; Progress.Waiting] _
    (mkTuple "ma_crossover" "SPY" "5m")); try done.
  - left.
  - by left.
  - change (oneRun (namedCombo "ma_crossover" "SPY" "1d")) with (([] ++ [Progress.Started 0]) ++ [Progress.Completed 0 (namedCombo "ma_crossover" "SPY" "1d")]).
    eapply (dispatched_step _ _ _ _ _ _ _ (mkDispatcher 1 [0%nat] []) (Some _)).
    + eapply (dispatched_step _ _ _ _ _ _ _ (mkDispatcher 0 [] []) (Some _)); [constructor|].
      apply (dispatch_start 1 1 _ _ _ _ 0 [] []); [cbn; lia|reflexivity|cbn; lia].
    + apply (dispatch_end 1 1 (skipsAt twoFrames) (fun _ => true) (fun _ => namedCombo "ma_crossover" "SPY" "1d") "error" 0 1 [] [] []).
  - change (oneRun (namedCombo "ma_crossover" "SPY" "1d")) with (([] ++ [Progress.Started 0]) ++ [Progress.Completed 0 (namedCombo "ma_crossover" "SPY" "1d")]).
    eapply Progress.reached_event; [eapply Progress.reached_event; [apply Progress.reached_start|reflexivity]|reflexivity].
Defined.

Lemma dispatch_bounded_live_witness :
  (length (dFlying (mkDispatcher 1 [0%nat] [])) <= 1)%nat /\
  exists o d', dispatch 1 2 (fun _ => false) (fun _ => true) (fun _ => namedCombo "" "" "") "error" (mkDispatcher 1 [0%nat] []) o d'.
Proof.
  assert (R : dispatched 1 2 (fun _ => false) (fun _ => true) (fun _ => namedCombo "" "" "") "error" ([] ++ [Progress.Started 0]) (mkDispatcher 1 [0%nat] [])).
  { eapply (dispatched_step _ _ _ _ _ _ _ (mkDispatcher 0 [] []) (Some _)); [constructor|].
    apply (dispatch_start 1 2 _ _ _ _ 0 [] []); [lia|reflexivity|cbn; lia]. }
  destruct (dispatch_bounded_live 1 2 (fun _ => false) (fun _ => true) (fun _ => namedCombo "" "" "") "error" _ _ ltac:(lia) R)
    as (L & [[N _]|P] & _); [split; [exact L|discriminate N]|by split].
Defined.

(** An engine that always returns the same result. *)
Definition steadyEngine : Backtests := {|
  engine := unit; hasDB _ := true; NewEngine e _ := e; runEngine e cfg := (Some (sharpeResult cfg 2), e)
|}.
Definition noRand : Rand := {| rng := unit; NewSource _ := tt; Intn r _ := (0%Z, r) |}.

Definition twoSymbols : MatrixBacktestConfig :=
  mkMatrix ["ma_crossover"%string] ["SPY"; "QQQ"]%string ["1d"%string] 0 (900 * dayLength) 100000 "stooq" "" true 0 0 true false.

Abbreviation steadyMatrix order := (RunMatrixConcurrent (B := steadyEngine) (RN := noRand) (fun _ => ""%string) "error" (fun _ => ""%string)
  10 10 (fun _ _ => []) twoSymbols 0 tt [] order).

Definition steadyResult : MatrixResult :=
  match steadyMatrix [0; 1]%nat with Some (Found r, _) => r | _ => mkMatrixResult 0 [] [] end.


(** ** One strategy, many parameters *)
Lemma batchChunk_lookup {B : Backtests} errText seeded config chunk order : forall all, length all = length chunk ->
  forall i l1 s l2 params, order = l1 ++ (i, s) :: l2 -> (forall p, p ∈ l2 -> p.1 <> i) -> chunk !! i = Some params ->
  fold_left (fun all p => match chunk !! p.1 with Some params => <[p.1 := batchEntry errText seeded config params p.2]> all | None => all end) order all !! i =
    Some (batchEntry errText seeded config params s).
Proof.
  intros all L i l1 s l2 params -> N C. rewrite fold_left_app.
  set (all1 := fold_left _ l1 all). assert (L1 : length all1 = length chunk).
  { unfold all1. clear -L. revert all L. induction l1 as [|p l1 IH]; intros all L; [done|]. cbn [fold_left]. apply IH.
    destruct (chunk !! p.1); by rewrite ?length_insert. }
  cbn [fold_left fst snd]. rewrite C.
  assert (G : forall l (all : list ComboResult), (forall p, p ∈ l -> p.1 <> i) ->
    fold_left (fun all p => match chunk !! p.1 with Some params => <[p.1 := batchEntry errText seeded config params p.2]> all | None => all end) l all !! i = all !! i).
  { clear. induction l as [|p l IH]; intros all H; [done|]. cbn [fold_left]. rewrite IH by (intros; apply H; by right).
    destruct (chunk !! p.1); [|done]. apply list_lookup_insert_ne. apply H. left. }
  rewrite G by done. apply list_lookup_insert_eq. rewrite L1. by eapply lookup_lt_Some.
Qed.

(** Of a batch over several symbols one symbol's figures are kept.  A parameter set has
    one result; every symbol's goroutine writes it, so that it is that of the symbol that
    finishes last, and the figures of all the others are lost. *)
Theorem batch_keeps_last_symbol {B : Backtests} errText seeded config chunk l1 i s l2 params :
  chunk !! i = Some params -> (forall p, p ∈ l2 -> p.1 <> i) ->
  batchChunk errText seeded config chunk (l1 ++ (i, s) :: l2) !! i = Some (batchEntry errText seeded config params s) /\
  CrSymbol (batchEntry errText seeded config params s) = s.
Proof.
  intros C N. split.
  - unfold batchChunk. by apply (batchChunk_lookup errText seeded config chunk _ _ (length_map _ _) i l1 s l2 params).
  - unfold batchEntry. by destruct (runEngine _ _).1.
Qed.

Lemma batch_keeps_last_symbol_witness :
  CrSymbol <$> batchChunk (B := steadyEngine) "error" tt (mkBatch "grid" ["SPY"; "QQQ"]%string 0 0 100000 [∅] 1 "" true 7 "1d") [∅]
    [(0%nat, "QQQ"%string); (0%nat, "SPY"%string)] !! 0%nat = Some "SPY"%string.
Proof.
  destruct (batch_keeps_last_symbol (B := steadyEngine) "error" tt (mkBatch "grid" ["SPY"; "QQQ"]%string 0 0 100000 [∅] 1 "" true 7 "1d") [∅]
    [(0%nat, "QQQ"%string)] 0 "SPY" [] ∅ eq_refl) as [E S]; [by intros p Hp%not_elem_of_nil|].
  cbn [app] in E. rewrite E. cbn [fmap option_fmap option_map]. by rewrite S.
Defined.

(** ** Resources *)
Lemma MatrixWorkers_range cpus pool : (1 <= MatrixWorkers cpus pool <= maxWorkersHardCap)%Z.
Proof. unfold MatrixWorkers, clampInt, maxWorkersHardCap. change (Z.quot 2048 128) with 16%Z. cbv zeta. repeat case_match; rewrite ?Z.ltb_lt, ?Z.ltb_ge in *; lia. Qed.
