(* ===== verification/RateLimiter.v ===== *)
(** * The distributed rate limiter ([internal/risk/rate_limiter.go])

    It counts the requests of a minute in a sorted set of Redis and gives up on Redis after
    repeated errors.  Redis is a parameter: the class [Redis] states what the limiter relies
    on, the documented behaviour of the commands of its pipeline on one sorted set. *)
From Stdlib Require Import ZArith Lia Bool.
From stdpp Require Import pretty.
From coqutil Require Import RecordSettersUsingExistingGetters.
From S2P Require Import Prelude.
Local Open Scope Z_scope.

(** A sorted set has one score per member.  [exec] runs the pipeline of the limiter:
    members with a score up to a bound are removed, the rest is counted, and a member is
    added, or its score replaced. *)
Class Redis := {
  redis : Type;
  zset : redis -> string -> gmap string Z;
  exec : redis -> string -> Z -> string -> Z -> option Z * redis;
  exec_card : forall r key bound m score n r', exec r key bound m score = (Some n, r') ->
    n = Z.of_nat (size (filter (fun kv : string * Z => bound < kv.2) (zset r key)));
  exec_set : forall r key bound m score n r', exec r key bound m score = (Some n, r') ->
    zset r' key = <[m := score]> (filter (fun kv : string * Z => bound < kv.2) (zset r key));
  exec_other : forall r key bound m score o r' key', exec r key bound m score = (o, r') -> key' <> key -> zset r' key' = zset r key';
  exec_failed : forall r key bound m score r', exec r key bound m score = (None, r') -> zset r' key = zset r key \/
    zset r' key = filter (fun kv : string * Z => bound < kv.2) (zset r key) \/
    zset r' key = <[m := score]> (filter (fun kv : string * Z => bound < kv.2) (zset r key))
}.

Section Limiter.
Context {RS : Redis}.

Record DynamicRateLimiter := mkLimiter { client : redis; failCount : Z; lastSuccess : Z; circuitOpen : bool }.

Definition NewDynamicRateLimiter (c : redis) : DynamicRateLimiter := mkLimiter c 0 0 false.

Definition limitOf (regime : Z) : Z := if 3 <=? regime then 5 else if regime =? 2 then 20 else 100.

Inductive allowError := CircuitOpen | RedisFailed.

(** [now] is in seconds. *)
Definition Allow (now regime : Z) (key : string) (l : DynamicRateLimiter) : (bool * option allowError) * DynamicRateLimiter :=
  if circuitOpen l then ((false, Some CircuitOpen), l)
  else
    let '(card, c) := exec (client l) key (now - 60) (pretty now) now in
    match card with
    | None =>
        let fails := failCount l + 1 in
        ((false, Some RedisFailed), mkLimiter c fails (lastSuccess l) ((5 <? fails) || circuitOpen l))
    | Some n => ((n <? limitOf regime, None), mkLimiter c 0 now false)
    end.

Definition IsCircuitOpen (now : Z) (l : DynamicRateLimiter) : bool * DynamicRateLimiter :=
  if circuitOpen l then
    if 60 <? now - lastSuccess l then (false, mkLimiter (client l) 0 (lastSuccess l) false) else (true, l)
  else (false, l).

Definition ResetCircuit (l : DynamicRateLimiter) : DynamicRateLimiter := mkLimiter (client l) 0 (lastSuccess l) false.

(** ** Runs *)
Inductive op := OpAllow (now regime : Z) (key : string) | OpIsOpen (now : Z) | OpReset.

Definition apply (o : op) (l : DynamicRateLimiter) : DynamicRateLimiter :=
  match o with
  | OpAllow now regime key => (Allow now regime key l).2
  | OpIsOpen now => (IsCircuitOpen now l).2
  | OpReset => ResetCircuit l
  end.

(** Calls up to the second [t], of a limiter on an empty database. *)
Inductive ran : Z -> DynamicRateLimiter -> Prop :=
| ran_start t c : (forall key, zset c key = ∅) -> ran t (NewDynamicRateLimiter c)
| ran_op t t' l o : ran t l -> t <= t' -> match o with OpAllow now _ _ | OpIsOpen now => now = t' | OpReset => True end -> ran t' (apply o l).

(** Every member is the second it was added in, and none is later than now. *)
Definition seconds (t : Z) (m : gmap string Z) : Prop := forall k s, m !! k = Some s -> k = pretty s /\ s <= t.

Lemma seconds_filter t m bound : seconds t m -> seconds t (filter (fun kv : string * Z => bound < kv.2) m).
Proof. intros H k s K. apply map_lookup_filter_Some in K as [K _]. by apply H. Qed.

Lemma seconds_insert t m : seconds t m -> seconds t (<[pretty t := t]> m).
Proof. intros H k s K. apply lookup_insert_Some in K as [[<- <-]|[_ K]]; [split; [done|lia]|by apply H]. Qed.

Lemma ran_seconds t l : ran t l -> forall key, seconds t (zset (client l) key).
Proof.
  induction 1 as [t c E|t t' l o _ IH Le O]; intros key; [intros k s K; cbn in K; rewrite E in K; by rewrite lookup_empty in K|].
  assert (IH' : forall key, seconds t' (zset (client l) key)) by (intros key' k s K; apply IH in K as [-> ?]; split; [done|lia]).
  destruct o as [now regime key'|now|]; cbn [apply].
  - subst now. unfold Allow. destruct (circuitOpen l); [apply IH'|].
    destruct (exec (client l) key' (t' - 60) (pretty t') t') as [card c] eqn:E.
    assert (G : seconds t' (zset c key)).
    { destruct (decide (key = key')) as [->|N]; [|rewrite (exec_other _ _ _ _ _ _ _ _ E N); apply IH'].
      destruct card as [n|].
      - rewrite (exec_set _ _ _ _ _ _ _ E). apply seconds_insert, seconds_filter, IH'.
      - destruct (exec_failed _ _ _ _ _ _ E) as [-> | [-> | ->]]; [apply IH'|apply seconds_filter, IH'|apply seconds_insert, seconds_filter, IH']. }
    by destruct card.
  - unfold IsCircuitOpen. destruct (circuitOpen l); [|apply IH']. destruct (60 <? _); apply IH'.
  - apply IH'.
Qed.

Lemma size_list_to_set_le (l : list string) : (size (list_to_set l : gset string) <= length l)%nat.
Proof. induction l as [|x l IH]; [done|]. cbn. rewrite size_union_alt, size_singleton. pose proof (subseteq_size (list_to_set l ∖ {[x]} : gset string) (list_to_set l) ltac:(set_solver)). lia. Qed.

(** Members of one minute. *)
Lemma window_size t m : seconds t m -> (size (filter (fun kv : string * Z => t - 60 < kv.2)%Z m) <= 60)%nat.
Proof.
  intros H. set (w := filter _ m).
  assert (S : dom w ⊆ (list_to_set (map (fun i => pretty (t - Z.of_nat i)) (seq 0 60)) : gset string)).
  { intros k K. apply elem_of_dom in K as [s K]. apply map_lookup_filter_Some in K as [K B]. apply H in K as [-> L]. cbn in B.
    apply elem_of_list_to_set. rewrite list_elem_of_In. apply in_map_iff. exists (Z.to_nat (t - s)). split; [f_equal; lia|].
    apply in_seq. lia. }
  apply subseteq_size in S. rewrite size_dom in S. etransitivity; [exact S|].
  etransitivity; [apply size_list_to_set_le|]. by rewrite length_map, length_seq.
Qed.

(** The limiter never refuses a request outside the volatile regimes.  The member it
    adds is the second of the request, so that a minute has at most sixty members however
    many requests it has, and the limit of a hundred is out of reach: whatever was called
    before, with the circuit closed and Redis up, every request is let through. *)
Theorem normal_regime_unlimited t l now regime key n c :
  ran t l -> t <= now -> regime < 2 -> circuitOpen l = false ->
  exec (client l) key (now - 60) (pretty now) now = (Some n, c) ->
  n <= 60 /\ Allow now regime key l = ((true, None), mkLimiter c 0 now false).
Proof.
  intros R Le Rg Cl E. unfold Allow. rewrite Cl, E.
  assert (N : n <= 60).
  { rewrite (exec_card _ _ _ _ _ _ _ E). enough (size (filter (fun kv : string * Z => now - 60 < kv.2)%Z (zset (client l) key)) <= 60)%nat by lia.
    apply window_size. intros k s K. apply (ran_seconds _ _ R) in K as [-> ?]. split; [done|lia]. }
  split; [done|]. unfold limitOf. destruct (Z.leb_spec 3 regime), (Z.eqb_spec regime 2); try lia. by destruct (Z.ltb_spec n 100); [|lia].
Qed.

(** An open circuit stays open for the requests.  [Allow] only refuses while it is open
    and changes nothing; six failures in a row open it, and it is [IsCircuitOpen], more
    than a minute after the last success, or a reset that closes it. *)
Theorem circuit_latches l : circuitOpen l = true ->
  (forall calls, fold_left (fun l c => (Allow c.1.1 c.1.2 c.2 l).2) calls l = l) /\
  (forall now regime key, (Allow now regime key l).1 = (false, Some CircuitOpen)) /\
  (forall now, (IsCircuitOpen now l).1 = true <-> now <= lastSuccess l + 60) /\ circuitOpen (ResetCircuit l) = false.
Proof.
  intros O. split; [|split; [|split]]; [| | |done].
  - intros calls. induction calls as [|c calls IH]; [done|]. cbn [fold_left]. unfold Allow at 2. rewrite O. exact IH.
  - intros. unfold Allow. by rewrite O.
  - intros now. unfold IsCircuitOpen. rewrite O. destruct (Z.ltb_spec 60 (now - lastSuccess l)); cbn; split; try done; lia.
Qed.
End Limiter.

(** A Redis that answers, and forgets every key but one. *)
#[local] Program Instance memory : Redis := {|
  redis := gmap string (gmap string Z);
  zset r key := default ∅ (r !! key);
  exec r key bound m score :=
    let live := filter (fun kv : string * Z => bound < kv.2) (default ∅ (r !! key)) in
    (Some (Z.of_nat (size live)), <[key := <[m := score]> live]> r)
|}.
Next Obligation. by intros * [= <- <-]. Qed.
Next Obligation. intros * [= <- <-]. cbn. by rewrite lookup_insert_eq. Qed.
Next Obligation. intros * [= <- <-] N. cbn. by rewrite lookup_insert_ne. Qed.
Next Obligation. done. Qed.

(** A hundred and fifty requests of one second are all let through. *)
Definition burst : list (Z * Z * string) := replicate 150 (7, 0, "orders"%string).
Definition afterBurst : DynamicRateLimiter (RS := memory) := fold_left (fun l c => apply (OpAllow c.1.1 c.1.2 c.2) l) burst (NewDynamicRateLimiter (∅ : redis)).

Lemma normal_regime_unlimited_witness : (Allow 7 0 "orders" afterBurst).1 = (true, None).
Proof.
  assert (R : ran 7 afterBurst).
  { unfold afterBurst, burst. assert (R0 : ran 7 (NewDynamicRateLimiter (∅ : redis))) by (apply ran_start; intros key; cbn; by rewrite lookup_empty).
    revert R0. generalize (NewDynamicRateLimiter (∅ : redis)) as l. generalize 150%nat as k. induction k as [|k IH]; intros l R0; [exact R0|].
    cbn [replicate fold_left]. apply IH. by apply (ran_op 7 7 l (OpAllow 7 0 "orders")). }
  destruct (exec (client afterBurst) "orders" (7 - 60) (pretty 7) 7) as [[n|] c] eqn:E; [|discriminate E].
  assert (C : circuitOpen afterBurst = false) by (vm_compute; reflexivity).
  destruct (normal_regime_unlimited 7 afterBurst 7 0 "orders" n c R ltac:(lia) ltac:(lia) C E) as [_ ->]. reflexivity.
Defined.

Lemma circuit_latches_witness : (Allow 9 0 "orders" (mkLimiter (∅ : redis) 6 0 true)).1 = (false, Some CircuitOpen).
Proof. exact (proj1 (proj2 (circuit_latches (mkLimiter (∅ : redis) 6 0 true) eq_refl)) 9 0 "orders"%string). Defined.
