(* ===== verification/Universe.v ===== *)
(** * The trading universe ([internal/universe], the symbol and snapshot statements of
      [internal/db/repository_strategies.go])

    Which symbols are traded: a filter per asset class over the active rows of the database,
    behind a cache with a time to live, with daily snapshots.  The database is a state of
    rows and snapshots; a statement may fail: [fails n] says whether the [n]th does.
    [ORDER BY ticker] is byte order.  Hashes, broadcasts and logs are left out, and the
    hourly timer is whoever calls [Refresh]. *)
From Stdlib Require Import ZArith Lia Bool Floats.
From coqutil Require Import RecordSettersUsingExistingGetters.
From S2P Require Import Prelude Float64 FloatRound FloatLaws.
From stdpp Require sorting.
From S2P Require Price Metrics.
Local Open Scope float_scope.
Local Open Scope go_scope.

Record Symbol := mkSymbol {
  SyID : Z; Ticker : string; SyExchange : string; AssetType : string; IsActive : bool; LastPrice : Price.Price;
  MarketCap : Z; LastVolume : Z; LastATRPct : float64; LastRSI : float64
}.

(** ** Filters *)
Record AssetClassFilter := mkFilter {
  MinNotionalVolume : Z; MinPrice : float64; MaxPrice : float64; MinMarketCap : Z; MinATRPercent : float64;
  MaxATRPercent : float64; MinRSI : float64; MaxRSI : float64
}.

Record UniverseConfigFilters := mkFilters {
  Equity : AssetClassFilter; Forex : AssetClassFilter; Crypto : AssetClassFilter; Index : AssetClassFilter; Commodity : AssetClassFilter
}.

Record DynamicTriggerThresholds := mkTriggers {
  VolumeSpikeMultiplier : float64; VolatilityMultiplier : float64; NewsSentimentAbsMin : float64; MinLookbackDays : Z;
  CooldownHoursAfterAdd : Z; CooldownHoursAfterRemove : Z
}.

Definition DefaultFilters : UniverseConfigFilters := mkFilters
  (mkFilter 50000000 5.0 5000.0 500000000000 0.5 5.0 25 75)
  (mkFilter 100000000 0 0 0 0.3 3.0 20 80)
  (mkFilter 10000000 1.0 100000.0 0 1.0 8.0 20 80)
  (mkFilter 1000000000 100.0 0 0 0.3 4.0 25 75)
  (mkFilter 50000000 10.0 0 0 0.5 5.0 20 80).

Definition DefaultTriggers : DynamicTriggerThresholds := mkTriggers 2.5 2.0 0.7 20 48 24.

Definition filterForClass (f : AssetClassFilter) (assetType : string) : AssetClassFilter :=
  if bool_decide (assetType = "forex"%string) || bool_decide (assetType = "index"%string)
  then f <| MinMarketCap := 0%Z |> <| MinPrice := 0 |> <| MaxPrice := 0 |>
  else if bool_decide (assetType = "crypto"%string) || bool_decide (assetType = "commodity"%string)
  then f <| MinMarketCap := 0%Z |>
  else f.

Definition Apply (f : AssetClassFilter) (s : Symbol) : bool :=
  let eff := filterForClass f (AssetType s) in
  let price := Price.Float64 (LastPrice s) in
  if Z.ltb 0 (MinNotionalVolume eff) && Z.ltb 0 (LastVolume s) && Z.ltb (LastVolume s) (MinNotionalVolume eff) then false
  else if Z.ltb 0 (MinMarketCap eff) && Z.ltb 0 (MarketCap s) && Z.ltb (MarketCap s) (MinMarketCap eff) then false
  else if (MinPrice eff >? 0) && negb (Price.IsZero (LastPrice s)) && (price <? MinPrice eff) then false
  else if (MaxPrice eff >? 0) && (price >? MaxPrice eff) then false
  else if (MinATRPercent eff >? 0) && (LastATRPct s >? 0) && (LastATRPct s <? MinATRPercent eff) then false
  else if (MaxATRPercent eff >? 0) && (LastATRPct s >? MaxATRPercent eff) then false
  else if (MinRSI eff >? 0) && (LastRSI s >? 0) && (LastRSI s <? MinRSI eff) then false
  else if (MaxRSI eff >? 0) && (LastRSI s >? MaxRSI eff) then false
  else true.

(** The filter of an asset class. *)
Definition classFilter (filters : UniverseConfigFilters) (assetType : string) : AssetClassFilter :=
  if bool_decide (assetType = "equity"%string) then Equity filters
  else if bool_decide (assetType = "forex"%string) then Forex filters
  else if bool_decide (assetType = "crypto"%string) then Crypto filters
  else if bool_decide (assetType = "index"%string) then Index filters
  else if bool_decide (assetType = "commodity"%string) then Commodity filters
  else Equity filters.

Definition RunCoarseFilter (symbols : list Symbol) : list Symbol :=
  List.filter (fun s => Apply (classFilter DefaultFilters (AssetType s)) s) symbols.
Definition RunFineFilter (symbols : list Symbol) : list Symbol :=
  List.filter (fun s => Apply (classFilter DefaultFilters (AssetType s)) s) symbols.

(** ** The database *)
Record Snapshot := mkSnapshot { SnDate : Z; SnSymbolIDs : list Z }.
Record Repository := mkRepository { rows : list Symbol; snapshots : list Snapshot; statements : nat }.

(** No statement reads or writes a price. *)
Definition scanned (s : Symbol) : Symbol := s <| LastPrice := 0%Z |>.

Definition tickerLess (a b : Symbol) : bool := String.ltb (Ticker a) (Ticker b).

Section Repo.
Context {SL : SortSlice}.
Variable fails : nat -> bool.

Definition ask {A} (answer : Repository -> A) (r : Repository) : option A * Repository :=
  ((if fails (statements r) then None else Some (answer r)), r <| statements := S (statements r) |>).

Definition activeSymbols (r : Repository) : list Symbol := sortSlice tickerLess (map scanned (List.filter IsActive (rows r))).
Definition LoadActiveSymbols : Repository -> option (list Symbol) * Repository := ask activeSymbols.

(** [None] also when there is no row: the driver's error. *)
Definition GetSymbolByTicker (ticker : string) (r : Repository) : option Symbol * Repository :=
  let '(found, r) := ask (fun r => scanned <$> List.find (fun s => bool_decide (Ticker s = ticker)) (rows r)) r in (mjoin found, r).

Definition InsertUniverseSnapshot (snap : Snapshot) (r : Repository) : option unit * Repository :=
  if fails (statements r) then (None, r <| statements := S (statements r) |>)
  else (Some tt, r <| statements := S (statements r) |>
                   <| snapshots := snap :: List.filter (fun s => negb (Z.eqb (SnDate s) (SnDate snap))) (snapshots r) |>).

Definition GetUniverseSnapshot (date : Z) (r : Repository) : option Snapshot * Repository :=
  let '(found, r) := ask (fun r => List.find (fun s => Z.eqb (SnDate s) date) (snapshots r)) r in (mjoin found, r).

Definition ResolveSnapshotSymbols (ids : list Z) : Repository -> option (list string) * Repository :=
  ask (fun r => sortSlice String.ltb (map Ticker (List.filter (fun s => bool_decide (SyID s ∈ ids)) (rows r)))).

Definition UpdateSymbolMetrics (id marketCap lastVolume : Z) (lastATRPct lastRSI : float64) (r : Repository) : option unit * Repository :=
  if fails (statements r) then (None, r <| statements := S (statements r) |>)
  else (Some tt, r <| statements := S (statements r) |>
                   <| rows := map (fun s => if Z.eqb (SyID s) id
                        then s <| MarketCap := marketCap |> <| LastVolume := lastVolume |> <| LastATRPct := lastATRPct |> <| LastRSI := lastRSI |>
                        else s) (rows r) |>).

(** [newID]: the next key. *)
Definition UpsertSymbolFromAsset (newID : Z) (ticker exchange assetType : string) (r : Repository) : option bool * Repository :=
  if fails (statements r) then (None, r <| statements := S (statements r) |>)
  else
    let known := existsb (fun s => bool_decide (Ticker s = ticker) && bool_decide (SyExchange s = exchange)) (rows r) in
    (Some (negb known), r <| statements := S (statements r) |>
       <| rows := if known then rows r else rows r ++ [mkSymbol newID ticker exchange assetType false 0%Z 0 0 0 0] |>).

(** ** The manager *)
Record UniverseCache := mkCache { cached : option (list Symbol); expiresAt : Z; ttl : Z }.
Definition NewUniverseCache (ttl : Z) : UniverseCache := mkCache None 0 ttl.

Definition CacheGet (now : Z) (c : UniverseCache) : option (list Symbol) :=
  match cached c with Some l => if Z.ltb (expiresAt c) now then None else Some l | None => None end.
Definition CacheSet (now : Z) (symbols : list Symbol) (c : UniverseCache) : UniverseCache := mkCache (Some symbols) (now + ttl c) (ttl c).
Definition Invalidate (c : UniverseCache) : UniverseCache := mkCache None 0 (ttl c).

Record UniverseManager := mkManager { cache : UniverseCache; symbols : list Symbol; repo : Repository }.

Definition cacheTTL : Z := 300000000000.
Definition NewUniverseManager (r : Repository) : UniverseManager := mkManager (NewUniverseCache cacheTTL) [] r.

Definition remember (now : Z) (l : list Symbol) (m : UniverseManager) : UniverseManager :=
  m <| symbols := l |> <| cache := CacheSet now l (cache m) |>.

(** After the configuration's statement, whose answer is not used. *)
Definition LoadInitialUniverse (now : Z) (m : UniverseManager) : bool * UniverseManager :=
  let '(loaded, r) := LoadActiveSymbols ((repo m) <| statements := S (statements (repo m)) |>) in
  let m := m <| repo := r |> in
  match loaded with None => (false, m) | Some l => (true, remember now (RunCoarseFilter l) m) end.

Definition GetCurrentUniverse (now : Z) (m : UniverseManager) : option (list Symbol) * UniverseManager :=
  match CacheGet now (cache m) with
  | Some l => (Some l, m)
  | None =>
      let '(loaded, r) := LoadActiveSymbols (repo m) in
      let m := m <| repo := r |> in
      match loaded with None => (None, m) | Some l => (Some l, remember now l m) end
  end.

Definition GetCurrentTickers (now : Z) (m : UniverseManager) : option (list string) * UniverseManager :=
  let '(l, m) := GetCurrentUniverse now m in (map Ticker <$> l, m).

Definition SaveSnapshot (date : Z) (m : UniverseManager) : bool * UniverseManager :=
  let '(done, r) := InsertUniverseSnapshot (mkSnapshot date (map SyID (symbols m))) (repo m) in
  (match done with Some _ => true | None => false end, m <| repo := r |>).

(** The two differences that are broadcast. *)
Record universeChange := mkUniverseChange { added : gset string; removed : gset string }.
Definition tickerSet (l : list Symbol) : gset string := list_to_set (map Ticker l).

(** [today]: the date of the clock. *)
Definition Refresh (now today : Z) (m : UniverseManager) : option universeChange * UniverseManager :=
  let '(loaded, r) := LoadActiveSymbols (repo m) in
  let prev := tickerSet (symbols m) in
  let m := m <| repo := r |> in
  match loaded with
  | None => (None, m)
  | Some l =>
      let fineFiltered := RunFineFilter (RunCoarseFilter l) in
      let new := tickerSet fineFiltered in
      (Some (mkUniverseChange (new ∖ prev) (prev ∖ new)), (SaveSnapshot today (remember now fineFiltered m)).2)
  end.

(** The tickers come back in their own order, the identifiers in that of the snapshot;
    [None] is an error, a panic when there are more tickers than identifiers. *)
Definition LoadSnapshot (date : Z) (m : UniverseManager) : option (list (string * Z)) * UniverseManager :=
  let '(snap, r) := GetUniverseSnapshot date (repo m) in
  match snap with
  | None => (None, m <| repo := r |>)
  | Some snap =>
      let '(tickers, r) := ResolveSnapshotSymbols (SnSymbolIDs snap) r in
      (tickers ← tickers; mapM (fun it : nat * string => id ← SnSymbolIDs snap !! it.1; Some (it.2, id)) (imap pair tickers), m <| repo := r |>)
  end.

Definition AddManualOverride (ticker : string) (m : UniverseManager) : bool * UniverseManager :=
  let '(sym, r) := GetSymbolByTicker ticker (repo m) in
  let m := m <| repo := r |> in
  match sym with
  | None => (false, m)
  | Some s => (true, m <| symbols := symbols m ++ [s] |> <| cache := Invalidate (cache m) |>)
  end.

Definition RemoveManualOverride (ticker : string) (m : UniverseManager) : UniverseManager :=
  m <| symbols := List.filter (fun s => negb (bool_decide (Ticker s = ticker))) (symbols m) |> <| cache := Invalidate (cache m) |>.

(** ** Triggers *)
Record SymbolSnapshotMetric := mkMetric {
  AvgVolume20D : float64; CurrentVolume : float64; ATR14 : float64; ATR14Pct : float64; RSI14 : float64; MetricPrice : Price.Price;
  MetricCap : Z; NewsSentiment : float64
}.

Definition volumeSpike (metric : SymbolSnapshotMetric) : bool :=
  (VolumeSpikeMultiplier DefaultTriggers >? 0) && (CurrentVolume metric >? AvgVolume20D metric * VolumeSpikeMultiplier DefaultTriggers).
Definition volatilityBreakout (metric : SymbolSnapshotMetric) : bool :=
  (VolatilityMultiplier DefaultTriggers >? 0) && (ATR14Pct metric >? ATR14Pct metric * VolatilityMultiplier DefaultTriggers).

(** What one metric adds. *)
Definition triggered (current : list Symbol) (acc : list Symbol * Repository) (e : string * SymbolSnapshotMetric) : list Symbol * Repository :=
  let once (hit : bool) (acc : list Symbol * Repository) :=
    if hit && negb (bool_decide (e.1 ∈ map Ticker current)) then
      let '(sym, r) := GetSymbolByTicker e.1 acc.2 in
      (match sym with Some s => acc.1 ++ [s] | None => acc.1 end, r)
    else acc in
  once (volatilityBreakout e.2) (once (volumeSpike e.2) acc).

(** [metrics]: the entries of the map in the order Go ranges over them.  There are never removals. *)
Definition DetectDynamicTriggers (current : list Symbol) (metrics : list (string * SymbolSnapshotMetric)) (m : UniverseManager) :
    list Symbol * UniverseManager :=
  let '(additions, r) := fold_left (triggered current) metrics ([], repo m) in (additions, m <| repo := r |>).

(** ** Assets of a broker *)
Definition mapAssetClass (class : string) : string := if bool_decide (class = "crypto"%string) then "crypto" else "equity".

Record Asset := mkAsset { AsSymbol : string; AsExchange : string; AsClass : string; AsTradable : bool }.

(** How many rows are new, and whether it went through. *)
Fixpoint syncAssets (newID : Z) (assets : list Asset) (count : Z) (r : Repository) : Z * bool * Repository :=
  match assets with
  | [] => (count, true, r)
  | a :: assets =>
      if bool_decide (AsSymbol a = ""%string) || negb (AsTradable a) then syncAssets newID assets count r
      else
        let '(inserted, r) := UpsertSymbolFromAsset newID (AsSymbol a) (AsExchange a) (mapAssetClass (AsClass a)) r in
        match inserted with
        | None => (count, false, r)
        | Some b => syncAssets (newID + 1)%Z assets (if b then count + 1 else count)%Z r
        end
  end.

Definition SyncFromBrokerAssets (newID : Z) (assets : list Asset) (m : UniverseManager) : Z * bool * UniverseManager :=
  let '(count, ok, r) := syncAssets newID assets 0 (repo m) in
  (count, ok, let m := m <| repo := r |> in if ok then m <| cache := Invalidate (cache m) |> else m).
End Repo.

(** ** Orders *)
Lemma string_weak_order : weak_order String.ltb.
Proof.
  split.
  - intros x y H. destruct (String.ltb y x) eqn:E; [|done]. by destruct (Metrics.string_ltb_asym x y).
  - intros x y z H1 H2. destruct (String.ltb z x) eqn:E; [|done].
    destruct (Metrics.string_ltb_total x y) as [->|[L|L]]; [congruence| |congruence].
    rewrite (Metrics.string_ltb_trans z x y E L) in H2. discriminate.
Qed.

Lemma ticker_weak_order : weak_order tickerLess.
Proof. destruct string_weak_order as [A T]. split; unfold tickerLess; intros *; [apply A|apply T]. Qed.

Lemma sorted_by_filter {A} (less : A -> A -> bool) p l : sorted_by less l -> sorted_by less (List.filter p l).
Proof.
  unfold sorted_by. induction 1 as [|x l S IH F]; [constructor|]. cbn. destruct (p x); [|done]. constructor; [done|].
  rewrite list.Forall_forall in *. intros y Y. apply F. apply list_elem_of_In, filter_In in Y as [Y _]. by apply list_elem_of_In.
Qed.

Lemma sorted_tickers l : sorted_by tickerLess l -> sorted_by String.ltb (map Ticker l).
Proof.
  unfold sorted_by. induction 1 as [|x l S IH F]; [constructor|]. cbn. constructor; [done|].
  apply list.Forall_forall. intros t T. apply list_elem_of_In, in_map_iff in T as (y & <- & Y).
  exact (proj1 (list.Forall_forall _ _) F y (proj2 (list_elem_of_In _ _) Y)).
Qed.

Lemma sorted_strings_unique (l1 l2 : list string) : sorted_by String.ltb l1 -> sorted_by String.ltb l2 -> l1 ≡ₚ l2 -> l1 = l2.
Proof.
  intros S1 S2 P. eapply sorting.StronglySorted_unique; [|exact S1|exact S2|exact P].
  intros x y H1 H2. destruct (Metrics.string_ltb_total x y) as [->|[L|L]]; congruence.
Qed.

(** ** Filters *)
Lemma filter_idem {A} (p : A -> bool) l : List.filter p (List.filter p l) = List.filter p l.
Proof. induction l as [|x l IH]; [done|]. cbn. destruct (p x) eqn:E; cbn; [rewrite E; by f_equal|done]. Qed.

Lemma fine_coarse l : RunFineFilter (RunCoarseFilter l) = RunCoarseFilter l.
Proof. apply filter_idem. Qed.

(** The price limits of the universe are never applied.  No statement reads a price, so
    that every symbol the manager filters has price zero, and on such a symbol every filter
    answers the same whatever its lowest and its highest price. *)
Theorem price_limits_dead {SL : SortSlice} r s f lo hi :
  s ∈ activeSymbols r -> Apply (f <| MinPrice := lo |> <| MaxPrice := hi |>) s = Apply f s.
Proof.
  unfold activeSymbols. rewrite sortSlice_perm, list_elem_of_In. intros (s0 & <- & _)%in_map_iff.
  assert (X : forall eff, (MinPrice eff >? 0) && negb (Price.IsZero (LastPrice (scanned s0))) && (Price.Float64 (LastPrice (scanned s0)) <? MinPrice eff) = false /\
    (MaxPrice eff >? 0) && (Price.Float64 (LastPrice (scanned s0)) >? MaxPrice eff) = false).
  { intros eff. change (Price.IsZero (LastPrice (scanned s0))) with true. change (Price.Float64 (LastPrice (scanned s0))) with 0.
    cbn [negb]. rewrite andb_false_r. split; [done|]. destruct (0 <? MaxPrice eff) eqn:E; [|done]. cbn. by apply ltb_asym. }
  unfold Apply. destruct (X (filterForClass f (AssetType (scanned s0)))) as [-> ->].
  destruct (X (filterForClass (f <| MinPrice := lo |> <| MaxPrice := hi |>) (AssetType (scanned s0)))) as [-> ->].
  unfold filterForClass. destruct (_ || _); [done|]. by destruct (_ || _).
Qed.

(** The volatility trigger never fires.  It compares a symbol's range with twice itself,
    so that it is silent for every range that is not negative. *)
Theorem volatility_trigger_dead metric : (0 <=? ATR14Pct metric) = true -> volatilityBreakout metric = false.
Proof.
  intros H. unfold volatilityBreakout. set (x := ATR14Pct metric) in *. change (VolatilityMultiplier DefaultTriggers) with 2.
  change (2 >? 0) with true. cbn [andb]. destruct (x * 2 <? x) eqn:E; [|done]. exfalso.
  apply leb_true in H as (_ & Nx & Px). change (fv 0) with 0%Z in Px. destruct (ffin x) eqn:F.
  - pose proof (mul_nearest x 2 F eq_refl) as M. apply ltb_true in E as (_ & _ & L).
    assert (G : (fv x <= fv (x * 2)%float)%Z).
    { eapply (nearest_ge _ _ _ x); [|exact M|exact Nx|]; [done|]. change (fv 2) with (2 * onev)%Z. unfold onev. nia. }
    lia.
  - rewrite (nonfin_pos x Nx F Px) in E. vm_compute in E. discriminate.
Qed.

(** ** What is served *)
Section Serving.
Context {SL : SortSlice}.
Variable fails : nat -> bool.

Lemma refresh_done now today m : fails (statements (repo m)) = false ->
  let '(change, m') := Refresh fails now today m in
  let fresh := RunCoarseFilter (activeSymbols (repo m)) in
  change = Some (mkUniverseChange (tickerSet fresh ∖ tickerSet (symbols m)) (tickerSet (symbols m) ∖ tickerSet fresh)) /\
  symbols m' = fresh /\ cache m' = CacheSet now fresh (cache m) /\ rows (repo m') = rows (repo m) /\
  statements (repo m') = S (S (statements (repo m))).
Proof.
  intros F. unfold Refresh, LoadActiveSymbols, ask. rewrite F. cbv zeta. rewrite fine_coarse.
  unfold SaveSnapshot, InsertUniverseSnapshot, remember.
  change (symbols (m <| repo := ?r |>)) with (symbols m).
  match goal with |- context [if fails ?k then _ else _] => destruct (fails k) end; done.
Qed.

Lemma active_rows r r' : rows r' = rows r -> activeSymbols r' = activeSymbols r.
Proof. intros E. unfold activeSymbols. by rewrite E. Qed.

Lemma miss_loads t m : CacheGet t (cache m) = None -> fails (statements (repo m)) = false ->
  (GetCurrentUniverse fails t m).1 = Some (activeSymbols (repo m)).
Proof. intros C F. unfold GetCurrentUniverse, LoadActiveSymbols, ask. by rewrite C, F. Qed.

(** The filters hold only as long as the cache.  A refresh filters the active rows and
    says what came and went, and for the time to live the universe is that filter's result;
    the first request after it loads every active row unfiltered, and so does the first one
    after a symbol is added or removed by hand, so that the change by hand has no effect. *)
Theorem universe_filtered_while_cached now today m :
  fails (statements (repo m)) = false ->
  let act := activeSymbols (repo m) in
  let '(change, m') := Refresh fails now today m in
  change = Some (mkUniverseChange (tickerSet (RunCoarseFilter act) ∖ tickerSet (symbols m)) (tickerSet (symbols m) ∖ tickerSet (RunCoarseFilter act))) /\
  (forall t, (t <= now + ttl (cache m))%Z -> (GetCurrentUniverse fails t m').1 = Some (RunCoarseFilter act)) /\
  (forall t, (now + ttl (cache m) < t)%Z -> fails (statements (repo m')) = false -> (GetCurrentUniverse fails t m').1 = Some act) /\
  (forall t ticker, fails (statements (repo m')) = false -> (GetCurrentUniverse fails t (RemoveManualOverride ticker m')).1 = Some act) /\
  (forall t ticker m2, AddManualOverride fails ticker m' = (true, m2) -> fails (statements (repo m2)) = false ->
     (GetCurrentUniverse fails t m2).1 = Some act).
Proof.
  intros F. cbv zeta. pose proof (refresh_done now today m F) as R. destruct (Refresh fails now today m) as [change m'].
  destruct R as (-> & Sy & Ca & Ro & St). split; [done|]. split; [|split; [|split]].
  - intros t L. unfold GetCurrentUniverse. rewrite Ca. unfold CacheGet, CacheSet. cbn [cached expiresAt]. by destruct (Z.ltb_spec (now + ttl (cache m)) t); [lia|].
  - intros t L F'. rewrite miss_loads; [by rewrite (active_rows _ _ Ro)| |done]. rewrite Ca. unfold CacheGet, CacheSet. cbn [cached expiresAt].
    by destruct (Z.ltb_spec (now + ttl (cache m)) t); [|lia].
  - intros t ticker F'. rewrite miss_loads; [|done..]. by rewrite <- (active_rows _ _ Ro).
  - intros t ticker m2 A F'. unfold AddManualOverride, GetSymbolByTicker, ask in A.
    destruct (mjoin _) as [s|] eqn:J; [|done]. injection A as <-. rewrite miss_loads; [|done..].
    f_equal. apply active_rows. exact Ro.
Qed.
End Serving.

(** ** Snapshots *)
Section Snapshots.
Context {SL : SortSlice}.

Lemma mapM_pairs (l : list Symbol) k (ids : list Z) : (forall i, (i < length l)%nat -> ids !! (k + i)%nat = SyID <$> l !! i) ->
  mapM (fun it : nat * string => id ← ids !! it.1; Some (it.2, id)) (imap (fun i t => ((k + i)%nat, t)) (map Ticker l)) =
  Some (map (fun s => (Ticker s, SyID s)) l).
Proof.
  revert k. induction l as [|s l IH]; intros k H; [done|]. cbn [map]. rewrite imap_cons. cbn [mapM fst snd].
  rewrite (H 0%nat) by (cbn; lia). cbn [lookup list_lookup fmap option_fmap option_map mbind option_bind].
  rewrite (imap_ext _ (fun i t => ((S k + i)%nat, t))) by (intros i x _; cbn; f_equal; lia).
  rewrite IH; [done|]. intros i L. transitivity (ids !! (k + S i)%nat); [f_equal; lia|]. apply (H (S i)). cbn. lia.
Qed.

Lemma coarse_scanned rws : List.filter (fun s => Apply (classFilter DefaultFilters (AssetType s)) s) (map scanned (List.filter IsActive rws)) =
  map scanned (List.filter (fun s => IsActive s && Apply (classFilter DefaultFilters (AssetType s)) (scanned s)) rws).
Proof.
  induction rws as [|s rws IH]; [done|]. cbn [List.filter]. destruct (IsActive s); [|exact IH]. cbn [map List.filter andb].
  change (AssetType (scanned s)) with (AssetType s). destruct (Apply _ (scanned s)); cbn [map]; by rewrite IH.
Qed.

(** The rows named by the identifiers of some of the rows are those rows. *)
Lemma filter_by_ids (p : Symbol -> bool) rws : NoDup (map SyID rws) ->
  List.filter (fun s => bool_decide (SyID s ∈ map SyID (List.filter p rws))) rws = List.filter p rws.
Proof.
  intros N. apply filter_ext_in. intros s S. destruct (p s) eqn:P.
  - apply bool_decide_eq_true_2, list_elem_of_In, in_map_iff. exists s. split; [done|]. by apply filter_In.
  - apply bool_decide_eq_false_2. rewrite list_elem_of_In, in_map_iff. intros (s' & E & S'). apply filter_In in S' as [S' P'].
    assert (s' = s) as ->; [|congruence]. clear -N E S S'. induction rws as [|x rws IH]; [done|]. cbn in N. apply list.NoDup_cons in N as [N1 N2].
    assert (X : forall y, In y rws -> SyID x <> SyID y) by (intros y Y Q; apply N1; rewrite Q; apply list_elem_of_In, in_map_iff; by exists y).
    destruct S as [<-|S], S' as [<-|S']; [done| | |by apply IH]; exfalso; by eapply X.
Qed.

Variable fails : nat -> bool.

(** A snapshot that a refresh writes reads back as it was.  When identifiers and tickers
    are unique and no statement fails, loading the snapshot of the day gives the symbols of
    the universe, each ticker with its own identifier. *)
Theorem snapshot_roundtrip now today m :
  NoDup (map SyID (rows (repo m))) -> (forall k, fails k = false) ->
  let m' := (Refresh fails now today m).2 in
  (LoadSnapshot fails today m').1 = Some (map (fun s => (Ticker s, SyID s)) (symbols m')).
Proof.
  intros N F m'. pose proof (refresh_done fails now today m (F _)) as R.
  assert (Sn : List.find (fun s => Z.eqb (SnDate s) today) (snapshots (repo m')) = Some (mkSnapshot today (map SyID (symbols m')))).
  { unfold m', Refresh, LoadActiveSymbols, ask, SaveSnapshot, InsertUniverseSnapshot, remember. rewrite !F. cbn. by rewrite Z.eqb_refl. }
  unfold m' in *. destruct (Refresh fails now today m) as [change m1]. cbn [snd] in *. destruct R as (_ & Sy & _ & Ro & _).
  unfold LoadSnapshot, GetUniverseSnapshot, ResolveSnapshotSymbols, ask. rewrite F. cbn [mjoin option_join]. rewrite Sn.
  rewrite F. cbn [SnSymbolIDs fst mbind option_bind].
  match goal with |- context [rows ?r] => change (rows r) with (rows (repo m1)) end. rewrite Ro.
  set (keep := fun s => IsActive s && Apply (classFilter DefaultFilters (AssetType s)) (scanned s)).
  assert (P : symbols m1 ≡ₚ map scanned (List.filter keep (rows (repo m)))).
  { rewrite Sy. unfold RunCoarseFilter, keep. rewrite <- coarse_scanned.
    assert (G : forall (q : Symbol -> bool) l l', l ≡ₚ l' -> List.filter q l ≡ₚ List.filter q l').
    { intros q. induction 1 as [|x l l' _ IH|x y l|l1 l2 l3 _ IH1 _ IH2]; cbn; [done|by destruct (q x); [constructor|]|destruct (q x), (q y); try done; constructor|by rewrite IH1]. }
    apply G. unfold activeSymbols. apply sortSlice_perm. }
  assert (I : map SyID (symbols m1) ≡ₚ map SyID (List.filter keep (rows (repo m)))) by (rewrite P, map_map; done).
  assert (T : sortSlice String.ltb (map Ticker (List.filter (fun s => bool_decide (SyID s ∈ map SyID (symbols m1))) (rows (repo m)))) = map Ticker (symbols m1)).
  { apply sorted_strings_unique; [apply sortSlice_sorted, string_weak_order| |].
    - apply sorted_tickers. rewrite Sy. unfold RunCoarseFilter. apply sorted_by_filter. unfold activeSymbols. apply sortSlice_sorted, ticker_weak_order.
    - rewrite sortSlice_perm, P, map_map.
      rewrite (filter_ext_in _ (fun s => bool_decide (SyID s ∈ map SyID (List.filter keep (rows (repo m)))))) by (intros s _; apply bool_decide_ext; by rewrite I).
      by rewrite filter_by_ids. }
  cbn [rows] in *. rewrite T. rewrite <- (mapM_pairs (symbols m1) 0 (map SyID (symbols m1))); [done|].
  intros i _. change (map SyID (symbols m1)) with (SyID <$> symbols m1). by rewrite list_lookup_fmap.
Qed.
End Snapshots.

(** ** Examples *)
Definition equityRow (id : Z) (ticker : string) (active : bool) : Symbol := mkSymbol id ticker "NYSE" "equity" active 0%Z 0 90000000 1.0 50.
Definition demoRepo : Repository := mkRepository [equityRow 1 "SPY" true; equityRow 2 "QQQ" true; equityRow 3 "AAPL" false] [] 0.
Definition refreshed : UniverseManager := (Refresh (fun _ => false) 0 5 (NewUniverseManager demoRepo)).2.

Lemma snapshot_roundtrip_witness : (LoadSnapshot (fun _ => false) 5 refreshed).1 = Some [("QQQ", 2); ("SPY", 1)]%string%Z.
Proof.
  refine (snapshot_roundtrip (fun _ => false) 0 5 (NewUniverseManager demoRepo) _ _); [|done].
  vm_compute. by apply (bool_decide_unpack _).
Defined.

(** After a symbol is added by hand the snapshot is not in the order of the tickers, and its
    tickers come back with each other's identifiers. *)
Lemma snapshot_mispairs_override :
  let m := (SaveSnapshot (fun _ => false) 6 (AddManualOverride (fun _ => false) "AAPL" refreshed).2).2 in
  map (fun s => (Ticker s, SyID s)) (symbols m) = [("QQQ", 2); ("SPY", 1); ("AAPL", 3)]%string%Z /\
  (LoadSnapshot (fun _ => false) 6 m).1 = Some [("AAPL", 2); ("QQQ", 1); ("SPY", 3)]%string%Z.
Proof. split; vm_compute; reflexivity. Qed.

Lemma universe_filtered_while_cached_witness :
  map Ticker <$> (GetCurrentUniverse (fun _ => false) (cacheTTL + 1) (RemoveManualOverride "SPY" refreshed)).1 = Some ["QQQ"; "SPY"]%string.
Proof.
  pose proof (universe_filtered_while_cached (fun _ => false) 0 5 (NewUniverseManager demoRepo) eq_refl) as H. cbv zeta in H.
  unfold refreshed. destruct (Refresh _ _ _ _) as [change m'] eqn:E. destruct H as (_ & _ & _ & H & _).
  cbn [snd]. rewrite (H _ _ eq_refl). vm_compute. reflexivity.
Defined.

Lemma price_limits_dead_witness :
  Apply ((Equity DefaultFilters) <| MinPrice := 1000 |> <| MaxPrice := 1001 |>) (scanned (equityRow 1 "SPY" true)) = true.
Proof.
  rewrite (price_limits_dead demoRepo (scanned (equityRow 1 "SPY" true)) (Equity DefaultFilters) 1000 1001); [vm_compute; reflexivity|].
  vm_compute. right; left.
Defined.

Lemma volatility_trigger_dead_witness : volatilityBreakout (mkMetric 0 0 1.25 12.5 50 1000000%Z 0%Z 0) = false.
Proof. apply (volatility_trigger_dead (mkMetric 0 0 1.25 12.5 50 1000000%Z 0%Z 0)). reflexivity. Defined.
