(* ===== verification/CandleCache.v ===== *)
(** * The candle cache ([internal/api/candle_cache.go])

    A bounded cache of candle loads in front of the database: the least recently used entry
    goes first.  The list and the map of the source are kept apart; the database is a
    function of the request.  [fmtDay] writes the date of a day number. *)
From Stdlib Require Import ZArith Lia Bool.
From S2P Require Import Prelude Timeline.
Local Open Scope nat_scope.

(** What a load asks for. *)
Record request := mkRequest { rqSymbols : list string; rqStart : Z; rqEnd : Z; rqTimeframe : string; rqSource : string }.

Section Cache.
Context {V : Type}.
Variable fmtDay : Z -> string.

(** [items] has the keys of [ll]; the most recently used entry is the first. *)
Record cachingRepoAdapter := mkAdapter { cap : nat; ll : list (string * V); items : gset string }.

Definition newCachingRepoAdapter (cap : nat) : cachingRepoAdapter := mkAdapter cap [] ∅.

Definition candleKey (r : request) : string :=
  fold_left (fun key s => key +:+ s +:+ ",")%string (rqSymbols r)
    (rqTimeframe r +:+ "|" +:+ rqSource r +:+ "|" +:+ fmtDay (rqStart r / dayLength)%Z +:+ "|" +:+ fmtDay (rqEnd r / dayLength)%Z +:+ "|")%string.

Definition entryOf (key : string) (l : list (string * V)) : option V := snd <$> List.find (fun e => bool_decide (e.1 = key)) l.
Definition others (key : string) (l : list (string * V)) : list (string * V) := List.filter (fun e => negb (bool_decide (e.1 = key))) l.

Definition get (key : string) (a : cachingRepoAdapter) : option V * cachingRepoAdapter :=
  if bool_decide (key ∈ items a) then
    match entryOf key (ll a) with
    | Some v => (Some v, mkAdapter (cap a) ((key, v) :: others key (ll a)) (items a))
    | None => (None, a)
    end
  else (None, a).

(** The loop that drops from the back. *)
Fixpoint evict (fuel cap : nat) (l : list (string * V)) (items : gset string) : list (string * V) * gset string :=
  match fuel with
  | 0 => (l, items)
  | S fuel =>
      if cap <? length l then
        match list.last l with
        | Some e => evict fuel cap (take (length l - 1) l) (items ∖ {[e.1]})
        | None => (l, items)
        end
      else (l, items)
  end.

Definition put (key : string) (v : V) (a : cachingRepoAdapter) : cachingRepoAdapter :=
  if bool_decide (key ∈ items a) then mkAdapter (cap a) ((key, v) :: others key (ll a)) (items a)
  else
    let l := (key, v) :: ll a in
    let '(l, items) := evict (length l) (cap a) l ({[key]} ∪ items a) in mkAdapter (cap a) l items.

(** The database's answer; [None] is an error. *)
Variable db : request -> option V.

Definition load (r : request) (a : cachingRepoAdapter) : option V * cachingRepoAdapter :=
  let key := candleKey r in
  let '(hit, a) := get key a in
  match hit with
  | Some v => (Some v, a)
  | None => match db r with None => (None, a) | Some v => (Some v, put key v a) end
  end.

Definition LoadCandlesTFFiltered : request -> cachingRepoAdapter -> option V * cachingRepoAdapter := load.
Definition LoadCandlesFiltered (r : request) : cachingRepoAdapter -> option V * cachingRepoAdapter :=
  load (mkRequest (rqSymbols r) (rqStart r) (rqEnd r) "" (rqSource r)).

(** ** The invariant *)
Record cache_ok (a : cachingRepoAdapter) : Prop := {
  ck_nodup : NoDup (map fst (ll a));
  ck_items : items a = list_to_set (map fst (ll a));
  ck_bound : length (ll a) <= cap a
}.

Lemma others_keys key l : map fst (others key l) = List.filter (fun k => negb (bool_decide (k = key))) (map fst l).
Proof.
  unfold others. induction l as [|e l IH]; [done|]. cbn [List.filter map]. destruct (negb (bool_decide (e.1 = key))); cbn [map]; by rewrite IH.
Qed.

Lemma others_id key l : (key ∉ map fst l) -> others key l = l.
Proof.
  unfold others. induction l as [|e l IH]; intros N; [done|]. cbn [List.filter map] in *. rewrite not_elem_of_cons in N.
  rewrite bool_decide_eq_false_2 by naive_solver. cbn [negb]. f_equal. apply IH. tauto.
Qed.

Lemma others_length key l : NoDup (map fst l) -> key ∈ map fst l -> S (length (others key l)) = length l.
Proof.
  induction l as [|e l IH]; intros N K; [by apply not_elem_of_nil in K|]. cbn [map] in *. apply list.NoDup_cons in N as [N1 N2].
  unfold others. cbn [List.filter]. fold (others key l). destruct (decide (e.1 = key)) as [E|E].
  - rewrite bool_decide_eq_true_2 by done. cbn [negb length]. rewrite others_id; [done|]. by rewrite <- E.
  - rewrite bool_decide_eq_false_2 by done. cbn [negb length]. f_equal. apply IH; [done|]. apply elem_of_cons in K as [->|K]; done.
Qed.

Lemma front_ok key (v : V) a : cache_ok a -> key ∈ items a -> cache_ok (mkAdapter (cap a) ((key, v) :: others key (ll a)) (items a)).
Proof.
  intros [N I B] K. assert (K' : key ∈ map fst (ll a)) by (rewrite I in K; set_solver). split; cbn [ll items cap map fst].
  - constructor.
    + rewrite others_keys, list_elem_of_In, filter_In, bool_decide_eq_true_2 by done. intros [_ H]. discriminate.
    + rewrite others_keys. clear -N. induction N as [|x l X N IH]; [constructor|]. cbn. destruct (negb _); [|done]. constructor; [|done].
      rewrite list_elem_of_In, filter_In, <- list_elem_of_In. tauto.
  - rewrite I. apply set_eq. intros x. rewrite elem_of_list_to_set, elem_of_list_to_set, elem_of_cons, others_keys.
    rewrite (list_elem_of_In (List.filter _ _) x), filter_In, negb_true_iff, bool_decide_eq_false, <- list_elem_of_In.
    destruct (decide (x = key)) as [->|]; tauto.
  - cbn [length]. rewrite others_length by done. exact B.
Qed.

Lemma evict_spec cap l : forall fuel s, NoDup (map fst l) -> s = list_to_set (map fst l) -> (length l - cap <= fuel) ->
  evict fuel cap l s = (take cap l, list_to_set (map fst (take cap l))).
Proof.
  induction l as [|e l IH] using rev_ind; intros fuel s N E F.
  - destruct fuel; cbn; rewrite take_nil; [by subst|]. destruct (cap <? 0) eqn:L; [apply Nat.ltb_lt in L; lia|]. by subst.
  - rewrite length_app in F. cbn in F. destruct (Nat.ltb_spec cap (length (l ++ [e]))) as [L|L].
    + rewrite length_app in L. cbn in L. destruct fuel as [|fuel]; [lia|]. cbn [evict].
      destruct (Nat.ltb_spec cap (length (l ++ [e]))) as [_|H]; [|rewrite length_app in H; cbn in H; lia].
      rewrite last_snoc, length_app. cbn [length]. replace (length l + 1 - 1) with (length l) by lia. rewrite take_app_length.
      rewrite map_app in N. cbn [map] in N. apply list.NoDup_app in N as (N & D & _).
      rewrite (IH fuel); [|done| |lia].
      * by rewrite !take_app_le by lia.
      * subst s. rewrite map_app, list_to_set_app_L. cbn [map list_to_set]. assert (e.1 ∉ (list_to_set (map fst l) : gset string)).
        { rewrite elem_of_list_to_set. intros K. apply (D _ K). left. }
        set_solver.
    + rewrite take_ge by done. destruct fuel; cbn [evict]; [by subst|]. destruct (Nat.ltb_spec cap (length (l ++ [e]))); [lia|]. by subst.
Qed.

Lemma put_ok key v a : cache_ok a -> cache_ok (put key v a).
Proof.
  intros A. unfold put. destruct (bool_decide_reflect (key ∈ items a)) as [K|K]; [by apply front_ok|]. destruct A as [N I B].
  rewrite evict_spec; cbn [map fst]; [split; cbn [ll items cap]| | |lia].
  - rewrite <- firstn_map. clear -N I K. assert (H : NoDup (key :: map fst (ll a))) by (constructor; [rewrite I in K; set_solver|done]).
    revert H. generalize (cap a) as n. change (map fst ((key, v) :: ll a)) with (key :: map fst (ll a)).
    intros n H. rewrite <- (take_drop n) in H. by apply list.NoDup_app in H as [H _].
  - done.
  - rewrite length_take. lia.
  - constructor; [rewrite I in K; set_solver|done].
  - rewrite I. cbn. set_solver.
Qed.

Lemma get_ok key a : cache_ok a -> cache_ok (get key a).2.
Proof.
  intros A. unfold get. destruct (bool_decide_reflect (key ∈ items a)) as [K|K]; [|done]. destruct (entryOf key (ll a)); [by apply front_ok|done].
Qed.

Lemma load_ok r a : cache_ok a -> cache_ok (load r a).2.
Proof.
  intros A. unfold load. pose proof (get_ok (candleKey r) a A) as G. destruct (get (candleKey r) a) as [[v|] a1]; [done|].
  destruct (db r); [by apply put_ok|done].
Qed.

(** ** Transparency *)

(** Every entry is what the database says to some request of its key. *)
Definition honest (a : cachingRepoAdapter) : Prop := forall key v, (key, v) ∈ ll a -> exists r, candleKey r = key /\ db r = Some v.

Lemma entryOf_in key l v : entryOf key l = Some v -> (key, v) ∈ l.
Proof.
  unfold entryOf. destruct (List.find _ l) as [e|] eqn:F; [|done]. cbn. intros [= <-]. apply find_some in F as [F E%bool_decide_eq_true].
  apply list_elem_of_In. by rewrite <- E, <- surjective_pairing.
Qed.

Lemma front_honest key v a : honest a -> (exists r, candleKey r = key /\ db r = Some v) -> honest (mkAdapter (cap a) ((key, v) :: others key (ll a)) (items a)).
Proof.
  intros H R k w K. cbn in K. apply elem_of_cons in K as [[= -> ->]|K]; [done|]. apply H.
  unfold others in K. rewrite list_elem_of_In, filter_In, <- list_elem_of_In in K. tauto.
Qed.

Lemma load_honest r a : cache_ok a -> honest a ->
  honest (load r a).2 /\ forall v, (load r a).1 = Some v -> exists r', candleKey r' = candleKey r /\ db r' = Some v.
Proof.
  intros A H. unfold load, get. destruct (bool_decide_reflect (candleKey r ∈ items a)) as [K|K].
  - destruct (entryOf (candleKey r) (ll a)) as [v|] eqn:E.
    + pose proof (H _ _ (entryOf_in _ _ _ E)) as R. split; [by apply front_honest|]. by intros ? [= <-].
    + destruct (db r) as [v|] eqn:D; [|done]. split; [|intros ? [= <-]; by exists r]. unfold put. rewrite bool_decide_eq_true_2 by done.
      cbn [snd]. apply front_honest; [done|by exists r].
  - destruct (db r) as [v|] eqn:D; [|done]. split; [|intros ? [= <-]; by exists r]. cbn [snd]. unfold put. rewrite bool_decide_eq_false_2 by done.
    destruct A as [N I B]. rewrite evict_spec; [..|lia].
    + intros k w Q. cbn [ll] in Q. apply elem_of_take in Q as (i & Q & _). apply list_elem_of_lookup_2, elem_of_cons in Q as [[= -> ->]|Q]; [by exists r|by apply H].
    + cbn. constructor; [rewrite I in K; set_solver|done].
    + rewrite I. cbn. set_solver.
Qed.

Definition loads (rs : list request) (a : cachingRepoAdapter) : cachingRepoAdapter := fold_left (fun a r => (load r a).2) rs a.

Lemma load_cap r a : cap (load r a).2 = cap a.
Proof.
  unfold load, get, put. destruct (bool_decide _) eqn:K; [destruct (entryOf _ _)|]; try destruct (db r); cbn [cap snd]; rewrite ?K; try done.
  by destruct (evict _ _ _ _).
Qed.

Lemma loads_cap rs a : cap (loads rs a) = cap a.
Proof. revert a. induction rs as [|r rs IH]; intros a; [done|]. cbn. rewrite IH. apply load_cap. Qed.

Lemma loads_ok rs n : cache_ok (loads rs (newCachingRepoAdapter n)) /\ honest (loads rs (newCachingRepoAdapter n)).
Proof.
  unfold loads. assert (G : cache_ok (newCachingRepoAdapter n) /\ honest (newCachingRepoAdapter n)).
  { split; [split; cbn; [constructor|done|lia]|]. intros k v K. by apply not_elem_of_nil in K. }
  revert G. generalize (newCachingRepoAdapter n) as a. induction rs as [|r rs IH]; intros a G; [done|]. cbn [fold_left]. apply IH.
  destruct G. split; [by apply load_ok|by apply load_honest].
Qed.

(** The cache is bounded and answers for the database, as far as its keys tell requests
    apart.  After any loads it holds at most its capacity, each key once; when the database
    gives requests of one key one answer, a load returns what the database returns, whatever
    was loaded before. *)
Theorem candle_cache_transparent n rs r :
  (forall r', candleKey r' = candleKey r -> db r' = db r) ->
  let a := loads rs (newCachingRepoAdapter n) in
  length (ll a) <= n /\ NoDup (map fst (ll a)) /\ (load r a).1 = db r.
Proof.
  intros E a. destruct (loads_ok rs n) as [[N I B] H]. split; [by rewrite loads_cap in B|]. split; [exact N|].
  destruct (load_honest r a (Build_cache_ok _ N I B) H) as [_ L]. destruct (load r a).1 as [v|] eqn:Q.
  - destruct (L v eq_refl) as (r' & K & D). by rewrite <- (E r' K).
  - unfold load in Q. destruct (get (candleKey r) a) as [[v|] a1]; [done|]. by destruct (db r).
Qed.
End Cache.

(** Two requests of one day, the morning and the whole day, have one key. *)
Definition hoursOf (r : request) : option Z := Some ((rqEnd r - rqStart r) / 3600000000000)%Z.
Definition morning : request := mkRequest ["SPY"%string] 0 (dayLength + 43200000000000) "1h" "stooq".
Definition wholeDay : request := mkRequest ["SPY"%string] 0 (dayLength + 82800000000000) "1h" "stooq".
Definition noText (d : Z) : string := "".

Lemma cache_serves_other_hours :
  hoursOf wholeDay = Some 47%Z /\
  (load noText hoursOf wholeDay (loads noText hoursOf [morning] (newCachingRepoAdapter 6))).1 = Some 36%Z.
Proof. split; vm_compute; reflexivity. Qed.

Lemma candle_cache_transparent_witness :
  (load noText (fun _ => Some 7%Z) wholeDay (loads noText (fun _ => Some 7%Z) [morning] (newCachingRepoAdapter 6))).1 = Some 7%Z.
Proof. exact (proj2 (proj2 (candle_cache_transparent noText (fun _ => Some 7%Z) 6 [morning] wholeDay (fun _ _ => eq_refl)))). Defined.
