(* ===== verification/Performance.v ===== *)
(** * Performance statistics ([internal/metrics/calculator.go], types.go)

    The figures the API reports of an equity curve and of the trades, live or simulated.
    [Pow] is [math.Pow]; the logarithm is the class [Logarithm].  The clock of a snapshot and
    of a rolling figure is left out. *)
From Stdlib Require Import ZArith Lia Bool Floats.
From coqutil Require Import RecordSettersUsingExistingGetters.
From S2P Require Import Prelude Float64 FloatRound FloatLaws Price Timeline Trade Calendar Indicators Metrics.
From stdpp Require Import sorting.
From S2P Require MonteCarlo.
Local Open Scope float_scope.
Local Open Scope go_scope.

(** ** Data *)
Record MetricEquityPoint := mkPoint { MepTime : Z; MepEquity : float64; MepBalance : float64; MepDrawdown : float64 }.

Record TradeSummary := mkTradeSummary {
  TsID : string; TsSymbol : string; TsSide : string; TsQuantity : float64; TsEntryPrice : Price; TsExitPrice : Price;
  TsPnL : float64; TsPnLPct : float64; TsEntryTime : Z; TsExitTime : Z; TsHoldDuration : float64; TsMAE : float64; TsMFE : float64;
  TsStrategyID : string; TsExitReason : string; TsCommission : float64; TsHMMRegime : Z; TsStopPrice : Price; TsTakePrice : Price;
  TsSlippageMidBps : float64; TsSlippageLastBps : float64; TsAdverseSelection : bool
}.

Record PerformanceSnapshot := mkSnap {
  PsEquity : float64; PsBalance : float64; PsDailyPnL : float64; PsDailyPnLPct : float64; PsDrawdownPct : float64;
  PsMaxDrawdownPct : float64; PsCAGR : float64; PsSharpe : float64; PsSortino : float64; PsCalmar : float64; PsWinRate : float64;
  PsProfitFactor : float64; PsVaR95 : float64; PsCVaR95 : float64; PsUlcerIndex : float64; PsNumTrades : Z
}.

Record TradeDistribution := mkDistribution {
  TotalTrades : Z; WinningTrades : Z; LosingTrades : Z; WinRatePct : float64; AvgTradePnL : float64; MedianTradePnL : float64;
  AvgTradePnlPct : float64; MedianTradePnlPct : float64; BestTrade : float64; WorstTrade : float64; AvgTradeDurationHours : float64;
  MedianTradeDurationHrs : float64; AvgWinningPnL : float64; AvgLosingPnL : float64; UniqueTickers : Z
}.

Record DailyReturn := mkDaily { DrDate : Z; DrReturnPct : float64; DrPnL : float64 }.
Record MonthlyReturn := mkMonthly { MrYear : Z; MrMonth : Z; MrReturnPct : float64 }.
Record RollingMetric := mkRolling { RmValue : float64; RmWindow : Z }.

(** ** Numbers *)
Definition average (values : list float64) : float64 :=
  match values with [] => 0 | _ => fold_left PrimFloat.add values 0 / of_Z (Z.of_nat (length values)) end.

Definition stddev (values : list float64) (mean : float64) : float64 :=
  if fewPoints 2 values then 0
  else math.Sqrt (fold_left (fun s v => s + (v - mean) * (v - mean)) values 0 / of_Z (Z.of_nat (length values) - 1)).

Definition usable (v : float64) : bool := negb (math.IsNaN v) && negb (math.IsInf v 0).

Definition median `{SortSlice} (values : list float64) : float64 :=
  let filtered := sortSlice MonteCarlo.lessFloat (List.filter usable values) in
  let mid := (length filtered / 2)%nat in
  match filtered with
  | [] => 0
  | _ => if Nat.even (length filtered) then (nth (mid - 1) filtered 0 + nth mid filtered 0) / 2.0 else nth mid filtered 0
  end.

Definition maxValue (values : list float64) : float64 :=
  match values with [] => 0 | v :: l => fold_left (fun m v => if v >? m then v else m) l v end.
Definition minValue (values : list float64) : float64 :=
  match values with [] => 0 | v :: l => fold_left (fun m v => if v <? m then v else m) l v end.

(** The inverse of the normal distribution function. *)
Section Normal.
Context `{Logarithm}.
Let c0 := -7.784894002430293e-03.
Let c1 := -3.223964580411365e-01.
Let c2 := -2.400758277161838.
Let c3 := -2.549732539343734.
Let c4 := 4.374664141464968.
Let c5 := 2.938163982698783.
Let d0 := 7.784695709041462e-03.
Let d1 := 3.224671290700398e-01.
Let d2 := 2.445134137142996.
Let d3 := 3.754408661907416.

Definition tailPoly (q : float64) : float64 := ((((c0 * q + c1) * q + c2) * q + c3) * q + c4) * q + c5.
Definition tailDiv (q : float64) : float64 := (((d0 * q + d1) * q + d2) * q + d3) * q + 1.

Definition centre (q r : float64) : float64 :=
  (((((-3.969683028665376e+01 * r + 2.209460984245205e+02) * r + -2.759285104469687e+02) * r + 1.383577518672690e+02) * r
     + -3.066479806614716e+01) * r + 2.506628277459239) * q /
  (((((-5.447609879822406e+01 * r + 1.615858368580409e+02) * r + -1.556989798598866e+02) * r + 6.680131188771972e+01) * r
     + -1.328068155288572e+01) * r + 1).

Definition normInv (p : float64) : float64 :=
  if (p <=? 0) || (p >=? 1) then 0
  else
    let plow := 0.02425 in
    let phigh := 1 - plow in
    if p <? plow then let q := math.Sqrt (-2 * Log p) in tailPoly q / tailDiv q
    else if p <=? phigh then let q := p - 0.5 in centre q (q * q)
    else let q := math.Sqrt (-2 * Log (1 - p)) in - tailPoly q / tailDiv q.
End Normal.

(** ** The calculator *)
Record Calculator := mkCalculator { riskFreeRate : float64; tradingDays : Z }.

Definition NewCalculator (rate : float64) : Calculator := mkCalculator (if rate <? 0 then 0 else rate) 252.
Definition SetTradingDays (days : Z) (c : Calculator) : Calculator := if Z.ltb 0 days then c <| tradingDays := days |> else c.

Definition annualised (c : Calculator) (mean spread : float64) : float64 :=
  let days := of_Z (tradingDays c) in
  let rfDaily := riskFreeRate c / days in
  (mean * days - rfDaily * days) / (spread * math.Sqrt days).

Definition Sharpe (c : Calculator) (returns : list float64) : float64 :=
  if fewPoints 2 returns then 0
  else
    let mean := average returns in
    let std := stddev returns mean in
    if std =? 0 then 0 else annualised c mean std.

Definition Sortino (c : Calculator) (returns : list float64) (mar : float64) : float64 :=
  if fewPoints 2 returns then 0
  else
    let down := List.filter (fun d => d <? 0) (map (fun r => r - mar) returns) in
    match down with
    | [] => 1e9
    | _ =>
        let downStd := math.Sqrt (fold_left (fun s d => s + d * d) down 0 / of_Z (Z.of_nat (length returns))) in
        if downStd =? 0 then 1e9 else annualised c (average returns) downStd
    end.

Definition Calmar (cagr maxDD : float64) : float64 := if maxDD >=? 0 then 0 else cagr / - maxDD.

Definition VaR `{Logarithm} (returns : list float64) (confidence : float64) : float64 :=
  if fewPoints 2 returns then 0
  else let mean := average returns in - (mean + normInv (1 - confidence) * stddev returns mean) * 100.

Definition CVaR `{Logarithm} (returns : list float64) (confidence : float64) : float64 :=
  if fewPoints 2 returns then 0
  else
    let varValue := VaR returns confidence in
    match List.filter (fun r => r * 100 <=? - varValue) returns with
    | [] => varValue
    | tailReturns => - average tailReturns * 100
    end.

Definition CAGR (Pow : float64 -> float64 -> float64) (c : Calculator) (startEquity endEquity : float64) (days : Z) : float64 :=
  if Z.leb days 0 || (startEquity <=? 0) then 0
  else
    let years := of_Z days / of_Z (tradingDays c) in
    (Pow (endEquity / startEquity) (1.0 / years) - 1.0) * 100.0.

Definition addGross (g : float64 * float64) (t : TradeSummary) : float64 * float64 :=
  if TsPnL t >? 0 then (g.1 + TsPnL t, g.2) else (g.1, g.2 + - TsPnL t).

Definition ProfitFactor (trades : list TradeSummary) : float64 :=
  let '(grossProfit, grossLoss) := fold_left addGross trades (0, 0) in
  if grossLoss =? 0 then if grossProfit >? 0 then 1e9 else 1.0 else grossProfit / grossLoss.

Definition ComputeTradeDistribution `{SortSlice} (trades : list TradeSummary) : TradeDistribution :=
  match trades with
  | [] => mkDistribution 0 0 0 0 0 0 0 0 0 0 0 0 0 0 0
  | _ =>
      let pnls := map TsPnL trades in
      let pnlPcts := map TsPnLPct trades in
      let durations := map (fun t => TsHoldDuration t / 60.0) (List.filter (fun t => TsHoldDuration t >? 0) trades) in
      let wins := List.filter (fun p => p >? 0) pnls in
      let losses := List.filter (fun p => negb (p >? 0) && (p <? 0)) pnls in
      mkDistribution (Z.of_nat (length trades)) (Z.of_nat (length wins)) (Z.of_nat (length losses))
        (ratePct (Z.of_nat (length wins)) (Z.of_nat (length trades))) (average pnls) (median pnls) (average pnlPcts) (median pnlPcts)
        (maxValue pnls) (minValue pnls) (average durations) (median durations) (average wins) (average losses)
        (Z.of_nat (size (list_to_set (map TsSymbol trades) : gset string)))
  end.

Definition winRateOf {A} (value : A -> float64) (l : list A) : float64 :=
  match l with [] => 0 | _ => ratePct (countIf (fun x => value x >? 0) l) (Z.of_nat (length l)) end.

Definition TradeWinRate : list TradeSummary -> float64 := winRateOf TsPnL.
Definition winRateFromReturns : list float64 -> float64 := winRateOf id.

(** The running peak and the sum of the squares. *)
Definition ulcerStep (s : float64 * float64) (e : float64) : float64 * float64 :=
  let peak := if e >? s.1 then e else s.1 in
  (peak, if peak >? 0 then let dd := drawdownAt peak e in s.2 + dd * dd else s.2).

Definition UlcerIndex (equity : list float64) : float64 :=
  match equity with
  | e :: _ :: _ => math.Sqrt ((fold_left ulcerStep equity (e, 0)).2 / of_Z (Z.of_nat (length equity)))
  | _ => 0
  end.

Record ddState := mkDD { ddPeak : float64; ddPeakIdx : Z; ddMax : float64; ddTroughIdx : Z; ddNext : Z }.

Definition ddStep (s : ddState) (e : float64) : ddState :=
  let '(peakVal, peakIdx) := if e >? ddPeak s then (e, ddNext s) else (ddPeak s, ddPeakIdx s) in
  let dd := drawdownAt peakVal e in
  let '(maxDD, troughIdx) := if dd >? ddMax s then (dd, ddNext s) else (ddMax s, ddTroughIdx s) in
  mkDD peakVal peakIdx maxDD troughIdx (ddNext s + 1).

Definition MaxDrawdown (equity : list float64) : float64 * Z * Z :=
  match equity with
  | e :: _ :: _ => let s := fold_left ddStep equity (mkDD e 0 0 0 0) in (- ddMax s, ddPeakIdx s, ddTroughIdx s)
  | _ => (0, 0%Z, 0%Z)
  end.

Definition currentDrawdownPct (equity : list float64) : float64 :=
  match equity, list.last equity with
  | e :: _, Some current =>
      let peak := fold_left (fun peak e => if e >? peak then e else peak) equity e in
      if peak =? 0 then 0 else - (peak - current) / peak * 100.0
  | _, _ => 0
  end.

Definition dailyReturn (prev curr : MetricEquityPoint) : option DailyReturn :=
  if MepEquity prev >? 0
  then Some (mkDaily (MepTime curr) ((MepEquity curr - MepEquity prev) / MepEquity prev * 100.0) (MepEquity curr - MepEquity prev))
  else None.

Definition DailyReturnsFromEquity (equity : list MetricEquityPoint) : list DailyReturn := omap id (pairwise dailyReturn equity).

(** ** Months *)
Definition monthOf (t : Z) : Z * Z := let '(y, m, _) := dateKey t in (y, m).

Definition monthMap (daily : list DailyReturn) : gmap (Z * Z) float64 :=
  fold_left (fun m dr => <[monthOf (DrDate dr) := default 0 (m !! monthOf (DrDate dr)) + DrReturnPct dr]> m) daily ∅.

Definition monthLess (a b : MonthlyReturn) : bool :=
  if Z.eqb (MrYear a) (MrYear b) then Z.ltb (MrMonth a) (MrMonth b) else Z.ltb (MrYear a) (MrYear b).

(** [entries]: the entries of the map in the order Go ranges over them. *)
Definition MonthlyReturns `{SortSlice} (entries : list (Z * Z * float64)) : list MonthlyReturn :=
  sortSlice monthLess (map (fun e => mkMonthly e.1.1 e.1.2 e.2) entries).

Definition RollingSharpe (c : Calculator) (returns : list float64) (window : nat) : list RollingMetric :=
  if (length returns <? window)%nat || (window <? 2)%nat then []
  else map (fun i => mkRolling (Sharpe c (take window (drop i returns))) (Z.of_nat window)) (seq 0 (length returns - window + 1)).

(** ** The snapshot *)
Section Snapshot.
Context `{Logarithm}.
Variable Pow : float64 -> float64 -> float64.

Definition emptySnap (n : Z) : PerformanceSnapshot := mkSnap 0 0 0 0 0 0 0 0 0 0 0 0 0 0 0 n.

Definition withReturns (c : Calculator) (equity : list MetricEquityPoint) (returns : list float64) (snap : PerformanceSnapshot) :
    PerformanceSnapshot :=
  match equity, list.last equity with
  | first :: _, Some last_ =>
      let eqValues := map MepEquity equity in
      let days := durationHours (subTime (MepTime last_) (MepTime first)) / 24 in
      let cagr := if (days >? 0) && (MepEquity first >? 0)
                  then CAGR Pow c (MepEquity first) (MepEquity last_) (math.int64 days) else 0 in
      let yesterdayEq := nth (length equity - 2) eqValues 0 in
      let known := (2 <=? length equity)%nat && (yesterdayEq >? 0) in
      let '(ddPct, _, _) := MaxDrawdown eqValues in
      snap <| PsWinRate := winRateFromReturns returns |> <| PsSharpe := Sharpe c returns |> <| PsSortino := Sortino c returns 0 |>
           <| PsVaR95 := VaR returns 0.95 |> <| PsCVaR95 := CVaR returns 0.95 |> <| PsCAGR := cagr |>
           <| PsDailyPnL := if known then MepEquity last_ - yesterdayEq else 0 |>
           <| PsDailyPnLPct := if known then (MepEquity last_ - yesterdayEq) / yesterdayEq * 100.0 else 0 |>
           <| PsMaxDrawdownPct := ddPct |> <| PsDrawdownPct := currentDrawdownPct eqValues |>
           <| PsCalmar := if ddPct =? 0 then 0 else cagr / - ddPct |> <| PsUlcerIndex := UlcerIndex eqValues |>
  | _, _ => snap
  end.

Definition ComputeSnapshot (c : Calculator) (equity : list MetricEquityPoint) (trades : list TradeSummary) : PerformanceSnapshot :=
  match list.last equity with
  | None => emptySnap 0
  | Some last_ =>
      let snap := (emptySnap (Z.of_nat (length trades))) <| PsEquity := MepEquity last_ |> <| PsBalance := MepBalance last_ |> in
      let snap := match DailyReturnsFromEquity equity with
                  | [] => snap
                  | dailyReturns => withReturns c equity (map (fun dr => DrReturnPct dr / 100.0) dailyReturns) snap
                  end in
      snap <| PsProfitFactor := ProfitFactor trades |>
  end.
End Snapshot.

(** ** Drawdowns *)
Section DrawdownLaws.
Local Open Scope Z_scope.

Lemma drawdownAt_percentage peak e : pos0 peak -> 0 < fv peak -> pos0 e -> fv e <= fv peak -> percentage (drawdownAt peak e).
Proof.
  intros [Fp Hp] P [Fe He] L. unfold drawdownAt. apply unit_hundred. destruct (sub_sign peak e Fp Fe) as (Ns & S1 & _).
  destruct (sub_pos0_le peak e Fp (conj Fe He)) as [_ Hs]. specialize (S1 L). apply div_le_one; try done.
  split; [|done]. by apply (ffin_between 0%float _ peak).
Qed.

(** Division and multiplication commute with the sign. *)
Lemma round_aux_opp s m e l : SFopp (binary_round_aux prec emax s m e l) = binary_round_aux prec emax (negb s) m e l.
Proof.
  unfold binary_round_aux. destruct (shr_fexp prec emax m e l) as [mrs e1].
  destruct (shr_fexp prec emax _ e1 loc_Exact) as [mrs2 e2]. destruct (shr_m mrs2); cbn [SFopp]; try done. by destruct (Z.leb e2 _).
Qed.

Lemma div_opp x y : ffin x = true -> ffin y = true -> 0 < fv y -> (- x / y)%float = (- (x / y))%float.
Proof.
  intros Fx Fy Y. apply Prim2SF_inj. rewrite div_spec, !opp_spec, div_spec.
  destruct (ffin_cases y Fy) as [(sy & E & V)|(sy & my & ey & -> & _)].
  { unfold fv in Y. rewrite E in Y. cbn in Y. lia. }
  destruct (ffin_cases x Fx) as [(sx & -> & _)|(sx & mx & ex & -> & _)]; [by destruct sx, sy|].
  unfold SF64div. cbn [SFopp SFdiv]. destruct (SFdiv_core_binary prec emax (Z.pos mx) ex (Z.pos my) ey) as [[mz ez] lz].
  rewrite round_aux_opp. f_equal. by destruct sx, sy.
Qed.

Lemma mul_opp x y : ffin x = true -> ffin y = true -> 0 < fv y -> (- x * y)%float = (- (x * y))%float.
Proof.
  intros Fx Fy Y. apply Prim2SF_inj. rewrite mul_spec, !opp_spec, mul_spec.
  destruct (ffin_cases y Fy) as [(sy & E & V)|(sy & my & ey & -> & _)].
  { unfold fv in Y. rewrite E in Y. cbn in Y. lia. }
  destruct (ffin_cases x Fx) as [(sx & -> & _)|(sx & mx & ex & -> & _)]; [by destruct sx, sy|].
  unfold SF64mul. cbn [SFopp SFmul]. rewrite round_aux_opp. f_equal. by destruct sx, sy.
Qed.

(** The highest value so far. *)
Definition runPeak (e : float64) (l : list float64) : float64 := fold_left (fun peak e => if (peak <? e)%float then e else peak) l e.

Lemma runPeak_snoc e l x : runPeak e (l ++ [x]) = (let p := runPeak e l in if (p <? x)%float then x else p).
Proof. unfold runPeak. by rewrite fold_left_app. Qed.

Lemma runPeak_ok e l : pos0 e -> 0 < fv e -> Forall pos0 l ->
  pos0 (runPeak e l) /\ 0 < fv (runPeak e l) /\ Forall (fun x => fv x <= fv (runPeak e l)) l.
Proof.
  intros P E. induction l as [|x l IH] using rev_ind; intros F; [done|]. apply Forall_app in F as [F Fx].
  rewrite Forall_singleton in Fx. destruct (IH F) as (P1 & E1 & A). rewrite runPeak_snoc. cbv zeta.
  destruct (runPeak e l <? x)%float eqn:C.
  - apply ltb_true in C as (_ & _ & C). split; [done|]. split; [lia|]. apply Forall_app. split; [|apply Forall_singleton; lia].
    eapply list.Forall_impl; [exact A|]. intros y H. cbn in H |- *. lia.
  - apply ltb_false in C; [|apply ffin_nan, P1|apply ffin_nan, Fx]. split; [done|]. split; [done|]. apply Forall_app. split; [done|by apply Forall_singleton].
Qed.

(** The drop at the [i]th point from the highest point up to it. *)
Definition dropAt (equity : list float64) (i : nat) : float64 :=
  drawdownAt (runPeak (nth 0 equity 0%float) (take (S i) equity)) (nth i equity 0%float).

Record dd_tracks (equity : list float64) (n : nat) (s : ddState) : Prop := {
  dt_next : ddNext s = Z.of_nat n;
  dt_peak : ddPeak s = runPeak (nth 0 equity 0%float) (take n equity);
  dt_peakIdx : (n = 0%nat /\ ddPeakIdx s = 0) \/
    (0 <= ddPeakIdx s < Z.of_nat n /\ nth (Z.to_nat (ddPeakIdx s)) equity 0%float = ddPeak s);
  dt_max : percentage (ddMax s);
  dt_bound : forall i, (i < n)%nat -> fv (dropAt equity i) <= fv (ddMax s);
  dt_trough : (ddMax s = 0%float /\ ddTroughIdx s = 0) \/
    (0 <= ddTroughIdx s < Z.of_nat n /\ ddMax s = dropAt equity (Z.to_nat (ddTroughIdx s)))
}.

Lemma take_snoc_nth {A} (l : list A) n d : (n < length l)%nat -> take (S n) l = take n l ++ [nth n l d].
Proof.
  intros L. destruct (lookup_lt_is_Some_2 l n L) as [x E]. rewrite (take_S_r l n x E). f_equal. f_equal.
  apply nth_lookup_Some with (d := d) in E. done.
Qed.

Lemma ddStep_tracks equity n s : Forall pos0 equity -> 0 < fv (nth 0 equity 0%float) -> (n < length equity)%nat ->
  dd_tracks equity n s -> dd_tracks equity (S n) (ddStep s (nth n equity 0%float)).
Proof.
  intros F P L [N PK PI MX B T]. set (e := nth n equity 0%float). set (e0 := nth 0 equity 0%float) in *.
  assert (He0 : pos0 e0).
  { unfold e0. destruct equity as [|x l]; [cbn in L; lia|]. by inversion F. }
  assert (TK : take (S n) equity = take n equity ++ [e]) by (by apply take_snoc_nth).
  assert (He : pos0 e).
  { pose proof (Forall_take _ (S n) _ F) as G. rewrite TK in G. apply Forall_app in G as [_ G]. by rewrite Forall_singleton in G. }
  set (pk := runPeak e0 (take (S n) equity)).
  destruct (runPeak_ok e0 (take (S n) equity) He0 P (Forall_take _ (S n) _ F)) as (Pp & Pp' & Pl). fold pk in Pp, Pp', Pl.
  assert (Le : fv e <= fv pk) by (rewrite TK in Pl; apply Forall_app in Pl as [_ Pl]; by rewrite Forall_singleton in Pl).
  assert (PE : pk = if (ddPeak s <? e)%float then e else ddPeak s) by (unfold pk; rewrite TK, runPeak_snoc, <- PK; done).
  assert (D : dropAt equity n = drawdownAt pk e) by done.
  pose proof (drawdownAt_percentage pk e Pp Pp' He Le) as DP.
  unfold ddStep. rewrite N.
  assert (S1 : (if (ddPeak s <? e)%float then (e, Z.of_nat n) else (ddPeak s, ddPeakIdx s)) =
               (pk, if (ddPeak s <? e)%float then Z.of_nat n else ddPeakIdx s)) by (rewrite PE; by destruct (_ <? _)%float).
  rewrite S1. destruct (ddMax s <? drawdownAt pk e)%float eqn:C.
  - apply ltb_true in C as (_ & _ & C). split; cbn [ddNext ddPeak ddPeakIdx ddMax ddTroughIdx]; try done; [lia| | |].
    + right. destruct (ddPeak s <? e)%float; [split; [lia|]; rewrite Nat2Z.id; by rewrite PE|].
      rewrite PE. destruct PI as [[-> PI]|[PI1 PI2]]; [|split; [lia|done]].
      split; [lia|]. rewrite PI. rewrite PK. done.
    + intros i Hi. destruct (decide (i = n)) as [->|]; [by rewrite D|]. specialize (B i ltac:(lia)). lia.
    + right. split; [lia|]. by rewrite Nat2Z.id.
  - apply ltb_false in C; [|apply ffin_nan, MX|apply ffin_nan, DP]. split; cbn [ddNext ddPeak ddPeakIdx ddMax ddTroughIdx]; try done; [lia| | |].
    + right. destruct (ddPeak s <? e)%float; [split; [lia|]; rewrite Nat2Z.id; by rewrite PE|].
      rewrite PE. destruct PI as [[-> PI]|[PI1 PI2]]; [|split; [lia|done]].
      split; [lia|]. rewrite PI. rewrite PK. done.
    + intros i Hi. destruct (decide (i = n)) as [->|]; [by rewrite D|]. apply B. lia.
    + destruct T as [T|[T1 T2]]; [by left|right]. split; [lia|done].
Qed.

Lemma dd_fold equity : Forall pos0 equity -> 0 < fv (nth 0 equity 0%float) ->
  dd_tracks equity (length equity) (fold_left ddStep equity (mkDD (nth 0 equity 0%float) 0 0 0 0)).
Proof.
  intros F P. set (s0 := mkDD _ _ _ _ _).
  assert (G : forall n, (n <= length equity)%nat -> dd_tracks equity n (fold_left ddStep (take n equity) s0)).
  { induction n as [|n IH]; intros L.
    - split; cbn; try done; [by left|lia|by left].
    - rewrite (take_snoc_nth equity n 0%float) by lia. rewrite fold_left_app. cbn [fold_left]. apply ddStep_tracks; [done|done|lia|].
      apply IH. lia. }
  specialize (G (length equity) (Nat.le_refl _)). by rewrite firstn_all in G.
Qed.

(** What the drawdowns of a snapshot are.  On a curve of finite values that starts above
    zero, the maximal one is the largest drop from the running peak, reached at the trough it
    names, and the current one is the drop of the last point; both lie between -100 and 0,
    and the current one is no deeper.  The peak it names is the highest point of the whole
    curve, which may come after the trough. *)
Theorem drawdowns_of_snapshot equity : (2 <= length equity)%nat -> Forall pos0 equity -> 0 < fv (nth 0 equity 0%float) ->
  let '(dd, peakIdx, troughIdx) := MaxDrawdown equity in
  percentage (- dd)%float /\ percentage (- currentDrawdownPct equity)%float /\ fv dd <= fv (currentDrawdownPct equity) /\
  (forall i, (i < length equity)%nat -> fv (dropAt equity i) <= fv (- dd)%float) /\
  (fv dd = 0 \/ dropAt equity (Z.to_nat troughIdx) = (- dd)%float) /\
  Forall (fun x => fv x <= fv (nth (Z.to_nat peakIdx) equity 0%float)) equity.
Proof.
  intros L F P. pose proof (dd_fold equity F P) as T. unfold MaxDrawdown, currentDrawdownPct.
  destruct equity as [|e [|e' l]]; [cbn in L; lia..|]. set (q := e :: e' :: l) in *. change (nth 0 q 0%float) with e in *.
  set (s := fold_left ddStep q _) in *. destruct T as [N PK PI MX B TR].
  assert (TA : take (length q) q = q) by apply firstn_all.
  assert (E : exists c, list.last q = Some c /\ nth (length q - 1) q 0%float = c).
  { destruct (list.last q) as [c|] eqn:E; [|by apply last_None in E]. exists c. split; [done|].
    rewrite last_lookup in E. apply nth_lookup_Some with (d := 0%float) in E. by rewrite <- E; f_equal; lia. }
  destruct E as (c & -> & C). fold (runPeak e q). rewrite TA in PK. change (runPeak (nth 0 q 0%float) q) with (runPeak e q) in PK.
  assert (Pe : pos0 e) by (by inversion F).
  destruct (runPeak_ok e q Pe P F) as (Pk & Pk' & A). set (pk := runPeak e q) in *.
  assert (Hc : pos0 c /\ fv c <= fv pk).
  { assert (I : c ∈ q) by (rewrite <- C; apply list_elem_of_In, nth_In; cbn; lia). rewrite list.Forall_forall in F, A. by split; [apply F|apply A]. }
  destruct Hc as [Hc Lc]. pose proof (drawdownAt_percentage pk c Pk Pk' Hc Lc) as DP.
  assert (Z0 : (pk =? 0)%float = false).
  { rewrite eqb_fv. apply andb_false_intro2, Z.eqb_neq. rewrite fv_zero_lit. lia. }
  rewrite Z0. assert (CD : (- (pk - c) / pk * 100.0)%float = (- drawdownAt pk c)%float).
  { destruct (sub_pos0_le pk c (pos0_fin _ Pk) Hc) as [_ Hs]. destruct (sub_sign pk c (pos0_fin _ Pk) (pos0_fin _ Hc)) as (Ns & S1 & _).
    specialize (S1 Lc). assert (Fs : ffin (pk - c)%float = true) by (apply (ffin_between 0%float _ pk); [done|apply Pk|done|done]).
    rewrite div_opp by (done || apply Pk). rewrite mul_opp; [done| |done|by vm_compute].
    apply (div_le_one (pk - c) pk); [by split|apply Pk|done|lia]. }
  rewrite CD, !opp_opp, !fv_opp. cbn [fst snd].
  assert (LA : fv (drawdownAt pk c) <= fv (ddMax s)).
  { pose proof (B (length q - 1)%nat ltac:(cbn; lia)) as H. unfold dropAt in H. rewrite C in H.
    replace (S (length q - 1)) with (length q) in H by (cbn; lia). by rewrite TA in H. }
  repeat split; try apply MX; try apply DP; try lia.
  - intros i Hi. by apply B.
  - destruct TR as [[-> _]|[_ ->]]; [by left|by right].
  - destruct PI as [[H _]|[_ ->]]; [cbn in H; lia|]. by rewrite PK.
Qed.
End DrawdownLaws.

Definition lateHigh : list float64 := [100; 50; 200; 180].

Lemma drawdowns_of_snapshot_witness :
  let '(dd, peakIdx, troughIdx) := MaxDrawdown lateHigh in
  (fv (dropAt lateHigh 1) <= fv (- dd) /\ troughIdx < peakIdx)%Z.
Proof.
  pose proof (drawdowns_of_snapshot lateHigh) as H.
  assert (F : Forall pos0 lateHigh) by (repeat constructor; vm_compute; discriminate).
  specialize (H ltac:(cbn; lia) F ltac:(vm_compute; reflexivity)). destruct (MaxDrawdown lateHigh) as [[dd p] t] eqn:E.
  split; [apply H; cbn; lia|]. vm_compute in E. injection E as E1 E2 E3. subst p t. reflexivity.
Defined.

(** ** Months *)
Definition inMonth (k : Z * Z) (daily : list DailyReturn) : list DailyReturn :=
  List.filter (fun dr => bool_decide (monthOf (DrDate dr) = k)) daily.

Definition sumReturns (l : list DailyReturn) : float64 := fold_left (fun s dr => s + DrReturnPct dr) l 0.

Lemma monthMap_lookup daily k :
  monthMap daily !! k = match inMonth k daily with [] => None | l => Some (sumReturns l) end.
Proof.
  unfold monthMap, inMonth, sumReturns. induction daily as [|dr daily IH] using rev_ind; [apply lookup_empty|].
  rewrite fold_left_app, List.filter_app. cbn [fold_left List.filter]. destruct (decide (monthOf (DrDate dr) = k)) as [E|E].
  - rewrite bool_decide_eq_true_2 by done. rewrite E, lookup_insert_eq, IH.
    destruct (List.filter _ daily) as [|x l]; [reflexivity|]. cbn [app fold_left default]. by rewrite fold_left_app.
  - rewrite bool_decide_eq_false_2, app_nil_r by done. by rewrite lookup_insert_ne.
Qed.

Lemma month_weak_order : weak_order monthLess.
Proof.
  split; unfold monthLess; intros *;
    repeat match goal with |- context [Z.eqb ?a ?b] => destruct (Z.eqb_spec a b) end; rewrite ?Z.ltb_lt, ?Z.ltb_ge; try lia; done.
Qed.

Lemma monthly_sorted `{SortSlice} entries : NoDup (map fst entries) ->
  StronglySorted (fun a b => monthLess a b = true) (MonthlyReturns entries).
Proof.
  intros N. unfold MonthlyReturns. set (l := map _ entries).
  assert (D : NoDup (map (fun r => (MrYear r, MrMonth r)) (sortSlice monthLess l))).
  { rewrite (Permutation_map _ (sortSlice_perm _ monthLess l)). unfold l. rewrite map_map. cbn.
    by rewrite (map_ext _ fst) by (by intros [[y m] r]). }
  pose proof (sortSlice_sorted _ monthLess l month_weak_order) as S1. revert D S1. generalize (sortSlice monthLess l) as s.
  induction s as [|x s IH]; intros D S1; [constructor|]. cbn in D. apply list.NoDup_cons in D as [D1 D]. inversion S1 as [|? ? S2 F]; subst.
  constructor; [by apply IH|]. rewrite list.Forall_forall in *. intros y Y. specialize (F y Y). cbn in F.
  assert (NE : (MrYear x, MrMonth x) <> (MrYear y, MrMonth y)).
  { intros E. apply D1. rewrite E. apply list_elem_of_fmap. by exists y. }
  clear -F NE. unfold monthLess in *. destruct (Z.eqb_spec (MrYear y) (MrYear x)) as [E|E].
  - rewrite E, Z.eqb_refl. apply Z.ltb_ge in F. apply Z.ltb_lt. destruct (Z.eq_dec (MrMonth x) (MrMonth y)) as [M|]; [|lia]. exfalso. apply NE. congruence.
  - destruct (Z.eqb_spec (MrYear x) (MrYear y)); [lia|]. apply Z.ltb_ge in F. apply Z.ltb_lt. lia.
Qed.

(** The monthly table does not depend on the order of the map: in whatever order Go ranges
    over the months, it lists every month with a return once, in the order of time, each with
    the sum of its returns in the order they came. *)
Theorem monthly_returns_order_free `{SortSlice} daily entries : entries ≡ₚ map_to_list (monthMap daily) ->
  MonthlyReturns entries = MonthlyReturns (map_to_list (monthMap daily)) /\
  StronglySorted (fun a b => monthLess a b = true) (MonthlyReturns entries) /\
  forall y m r, mkMonthly y m r ∈ MonthlyReturns entries <-> inMonth (y, m) daily <> [] /\ r = sumReturns (inMonth (y, m) daily).
Proof.
  intros P. assert (N : NoDup (map fst entries)) by (rewrite (Permutation_map fst P); apply NoDup_fst_map_to_list).
  split; [|split; [by apply monthly_sorted|]].
  - apply (sorting.StronglySorted_unique_strong (fun a b => monthLess a b = true)).
    + intros a b _ _ A B. pose proof (wo_asym _ month_weak_order _ _ A). congruence.
    + by apply monthly_sorted.
    + apply monthly_sorted, NoDup_fst_map_to_list.
    + unfold MonthlyReturns. rewrite !sortSlice_perm. by apply Permutation_map.
  - intros y m r. unfold MonthlyReturns. rewrite sortSlice_perm. rewrite list_elem_of_fmap. split.
    + intros ([[y' m'] r'] & [= -> -> ->] & E). rewrite P in E. apply elem_of_map_to_list in E. rewrite monthMap_lookup in E.
      destruct (inMonth (y', m') daily); [done|]. by injection E as <-.
    + intros [D ->]. exists (y, m, sumReturns (inMonth (y, m) daily)). split; [done|]. rewrite P. apply elem_of_map_to_list.
      rewrite monthMap_lookup. by destruct (inMonth (y, m) daily).
Qed.

Lemma monthly_returns_order_free_witness :
  let daily := [mkDaily 0 1.5 150; mkDaily 3000000000000000 2 200; mkDaily dayLength (-0.5) (-50)] in
  MonthlyReturns (rev (map_to_list (monthMap daily))) = [mkMonthly 1970 1 1.0; mkMonthly 1970 2 2].
Proof.
  intros daily. pose proof (monthly_returns_order_free daily (rev (map_to_list (monthMap daily))) (symmetry (Permutation_rev _))) as [-> _].
  vm_compute. reflexivity.
Defined.

(** ** Trades *)
Lemma maxValue_spec l : l <> [] -> Forall (fun x => fnan x = false) l ->
  maxValue l ∈ l /\ Forall (fun x => (fv x <= fv (maxValue l))%Z) l.
Proof.
  destruct l as [|v l]; [done|]. intros _ F. inversion F as [|? ? Nv F']; subst. cbn [maxValue]. clear F.
  revert v Nv. induction F' as [|x l Nx F' IH]; intros v Nv; [split; [left|by repeat constructor]|]. cbn [fold_left].
  destruct (v <? x) eqn:C.
  - destruct (IH x Nx) as [I A]. apply ltb_true in C as (_ & _ & C). split; [by right|]. inversion A; subst. repeat constructor; [lia|done..].
  - destruct (IH v Nv) as [I A]. apply ltb_false in C; [|done..]. inversion A; subst. split.
    + apply elem_of_cons in I as [I|I]; [rewrite I; left|by do 2 right].
    + repeat constructor; [lia|lia|done].
Qed.

Lemma minValue_spec l : l <> [] -> Forall (fun x => fnan x = false) l ->
  minValue l ∈ l /\ Forall (fun x => (fv (minValue l) <= fv x)%Z) l.
Proof.
  destruct l as [|v l]; [done|]. intros _ F. inversion F as [|? ? Nv F']; subst. cbn [minValue]. clear F.
  revert v Nv. induction F' as [|x l Nx F' IH]; intros v Nv; [split; [left|by repeat constructor]|]. cbn [fold_left].
  destruct (x <? v) eqn:C.
  - destruct (IH x Nx) as [I A]. apply ltb_true in C as (_ & _ & C). split; [by right|]. inversion A; subst. repeat constructor; [lia|done..].
  - destruct (IH v Nv) as [I A]. apply ltb_false in C; [|done..]. inversion A; subst. split.
    + apply elem_of_cons in I as [I|I]; [rewrite I; left|by do 2 right].
    + repeat constructor; [lia|lia|done].
Qed.

(** The distribution accounts for every trade: those that won, lost or came out even; the
    win rate is a percentage, the best and the worst are trades that bound all others. *)
Theorem trade_distribution_accounts `{SortSlice} trades : trades <> [] -> (Z.of_nat (length trades) <= 2 ^ 53)%Z ->
  Forall (fun t => fnan (TsPnL t) = false) trades ->
  let d := ComputeTradeDistribution trades in
  (WinningTrades d + LosingTrades d + countIf (fun t => (TsPnL t =? 0)%float) trades = TotalTrades d /\
  percentage (WinRatePct d) /\ (exists b, b ∈ trades /\ TsPnL b = BestTrade d) /\ (exists w, w ∈ trades /\ TsPnL w = WorstTrade d) /\
  Forall (fun t => fv (WorstTrade d) <= fv (TsPnL t) <= fv (BestTrade d)) trades)%Z.
Proof.
  intros NE L F d. unfold d, ComputeTradeDistribution. destruct trades as [|t0 ts]; [done|]. set (ts' := t0 :: ts) in *.
  cbn [WinningTrades LosingTrades TotalTrades WinRatePct BestTrade WorstTrade]. set (ps := map TsPnL ts').
  assert (Np : ps <> []) by done. assert (Fp : Forall (fun x => fnan x = false) ps) by (by apply Forall_map).
  assert (Cw : length (List.filter (fun p => p >? 0) ps) = length (List.filter (fun t => TsPnL t >? 0) ts')).
  { unfold ps. clear. induction ts' as [|t l IH]; [done|]. cbn. destruct (0 <? TsPnL t); cbn; by rewrite IH. }
  split; [|split; [|split; [|split]]].
  - rewrite Cw. unfold ps, countIf. clear -F. induction F as [|t l Nt F IH]; [done|]. cbn [map List.filter length].
    rewrite (eqb_fv (TsPnL t)), (ltb_fv_nn 0 (TsPnL t)), (ltb_fv_nn (TsPnL t) 0), Nt by done. rewrite fv_zero_lit.
    change (fnan 0) with false. cbn [negb andb].
    destruct (Z.ltb_spec 0 (fv (TsPnL t))), (Z.ltb_spec (fv (TsPnL t)) 0), (Z.eqb_spec (fv (TsPnL t)) 0); cbn [negb andb length]; lia.
  - apply ratePct_percentage; [|cbn in L |- *; lia]. rewrite Cw. apply (countIf_le (fun t => TsPnL t >? 0) ts').
  - destruct (maxValue_spec ps Np Fp) as [I _]. apply list_elem_of_fmap in I as (b & -> & I). by exists b.
  - destruct (minValue_spec ps Np Fp) as [I _]. apply list_elem_of_fmap in I as (b & -> & I). by exists b.
  - destruct (maxValue_spec ps Np Fp) as [_ A]. destruct (minValue_spec ps Np Fp) as [_ B]. unfold ps in A, B.
    rewrite Forall_map in A, B. rewrite list.Forall_forall in *. intros t I. split; [by apply B|by apply A].
Qed.
