(* ===== verification/Analytics.v ===== *)
(** * Order flow ([internal/analytics/cvd.go], volume_profile.go)

    The side of a tick, the bars of bought and sold volume, their cumulative sum, the
    divergences between it and the price, and the volume profile.  Times are in nanoseconds;
    every method holds its mutex. *)
From Stdlib Require Import ZArith Lia Bool Floats.
From coqutil Require Import RecordSettersUsingExistingGetters.
From S2P Require Import Prelude Float64 FloatRound FloatLaws Price.
From stdpp Require Import sorting.
Local Open Scope float_scope.
Local Open Scope go_scope.

(** ** Sides *)
Definition TickBuy : Z := 1.
Definition TickSell : Z := 2.

Record TickClassifier := mkClassifier { prevPrice : Price; prevSymbol : string; prevSide : Z }.
Definition NewTickClassifier : TickClassifier := mkClassifier 0%Z "" 0.

Definition Classify (price : Price) (symbol : string) (c : TickClassifier) : Z * TickClassifier :=
  let side := if Float64 price >? Float64 (prevPrice c) then TickBuy
              else if Float64 price <? Float64 (prevPrice c) then TickSell
              else prevSide c in
  (side, mkClassifier (if bool_decide (symbol = prevSymbol c) then price else prevPrice c) symbol side).

(** ** Bars *)

(** [Time.Truncate], which counts from the first instant of the year 1. *)
Definition sinceYearOne (t : Z) : Z := t + 62135596800000000000.
Definition Truncate (d t : Z) : Z := if Z.leb d 0 then t else (t - sinceYearOne t mod d)%Z.

Record DeltaBar := mkBar {
  BarTime : Z; BarOpen : float64; BarHigh : float64; BarLow : float64; BarClose : float64; BuyVolume : float64;
  SellVolume : float64; Delta : float64; NumTrades : Z
}.
Definition emptyBar (t : Z) : DeltaBar := mkBar t 0 0 0 0 0 0 0 0.

Record DeltaAccumulator := mkAccumulator { barDuration : Z; currentBar : DeltaBar; completed : list DeltaBar }.
Definition NewDeltaAccumulator (now barDuration : Z) : DeltaAccumulator :=
  mkAccumulator barDuration (emptyBar (Truncate barDuration now)) [].

(** A slice that has grown over [most] keeps its last [rest] entries. *)
Definition trim {A} (most rest : Z) (l : list A) : list A :=
  if Z.ltb most (Z.of_nat (length l)) then drop (length l - Z.to_nat rest) l else l.

Definition rollTo (barTime : Z) (a : DeltaAccumulator) : DeltaAccumulator :=
  if Z.eqb barTime (BarTime (currentBar a)) then a
  else mkAccumulator (barDuration a) (emptyBar barTime) (trim 10000 5000 (completed a ++ [currentBar a])).

Definition addToBar (price : Price) (volume : float64) (side : Z) (b : DeltaBar) : DeltaBar :=
  let p := Float64 price in
  let b := b <| BarOpen := if BarOpen b =? 0 then p else BarOpen b |> <| BarClose := p |>
             <| BarHigh := if (p >? BarHigh b) || (BarHigh b =? 0) then p else BarHigh b |>
             <| BarLow := if (p <? BarLow b) || (BarLow b =? 0) then p else BarLow b |> in
  let b := if Z.eqb side TickBuy then b <| BuyVolume := BuyVolume b + volume |> else b <| SellVolume := SellVolume b + volume |> in
  b <| Delta := BuyVolume b - SellVolume b |> <| NumTrades := (NumTrades b + 1)%Z |>.

Definition AddTick (timestamp : Z) (price : Price) (volume : float64) (side : Z) (a : DeltaAccumulator) : DeltaAccumulator :=
  let a := rollTo (Truncate (barDuration a) timestamp) a in
  a <| currentBar := addToBar price volume side (currentBar a) |>.

Definition GetCompletedBars : DeltaAccumulator -> list DeltaBar := completed.
Definition GetCurrentBar : DeltaAccumulator -> DeltaBar := currentBar.

(** ** The cumulative delta *)
Record CVDPoint := mkCVD { CvTime : Z; CvValue : float64; CvDelta : float64 }.
Abbreviation CVDTracker := (list CVDPoint).

Definition AddBar (bar : DeltaBar) (t : CVDTracker) : CVDTracker :=
  let value := match list.last t with Some p => Delta bar + CvValue p | None => Delta bar end in
  trim 50000 25000 (t ++ [mkCVD (BarTime bar) value (Delta bar)]).

(** [None]: a negative limit panics. *)
Definition GetHistory (limit : Z) (t : CVDTracker) : option CVDTracker :=
  let start := Z.max 0 (Z.of_nat (length t) - limit) in
  if Z.ltb (Z.of_nat (length t)) start then None else Some (drop (Z.to_nat start) t).

(** ** Divergences *)
Inductive DivergenceType := DivExhaustion | DivAbsorption.
Record DivergenceSignal := mkSignal { DsType : DivergenceType; DsPrice : Price; DsConfidence : float64 }.
Record DivergenceDetector := mkDetector { prices : list float64; cvdValues : list float64; windowSize : Z }.
Definition NewDivergenceDetector (windowSize : Z) : DivergenceDetector := mkDetector [] [] windowSize.

(** [l[len(l)-w:]]; [None] when it is out of range. *)
Definition lastN {A} (w : Z) (n : nat) (l : list A) : option (list A) :=
  if Z.ltb w 0 then None else Some (drop (n - Z.to_nat w) l).

Definition divergence (price : Price) (prevPrice currPrice prevCVD currCVD : float64) : option DivergenceSignal :=
  if (currPrice >? prevPrice) && (currCVD <? prevCVD)
  then Some (mkSignal DivExhaustion price ((currPrice - prevPrice) / prevPrice * 100))
  else if (currPrice <? prevPrice) && (currCVD >? prevCVD)
  then Some (mkSignal DivAbsorption price ((prevPrice - currPrice) / currPrice * 100))
  else None.

(** The outer option is a panic. *)
Definition Detect (price : Price) (cvdValue : float64) (d : DivergenceDetector) :
    option (option DivergenceSignal * DivergenceDetector) :=
  let ps := prices d ++ [Float64 price] in
  let cs := cvdValues d ++ [cvdValue] in
  let n := length ps in
  '(ps, cs) ← (if Z.ltb (windowSize d) (Z.of_nat n) then ps ← lastN (windowSize d) n ps; cs ← lastN (windowSize d) n cs; Some (ps, cs)
               else Some (ps, cs));
  let d := mkDetector ps cs (windowSize d) in
  if Z.ltb (Z.of_nat (length ps)) (windowSize d) then Some (None, d)
  else
    p0 ← ps !! O; p1 ← list.last ps; c0 ← cs !! O; c1 ← list.last cs;
    Some (divergence price p0 p1 c0 c1, d).

(** ** The volume profile *)
Record VolumeLevel := mkLevel { LvPrice : Price; LvBuy : float64; LvSell : float64; TotalVolume : float64; LvDelta : float64 }.
Record VolumeProfile := mkProfile { Levels : list VolumeLevel; POC : float64; VAH : float64; VAL : float64; VARange : float64; VpTotal : float64 }.

Definition minMax (l : list float64) (p : float64) : float64 * float64 :=
  fold_left (fun mm p => (if p <? mm.1 then p else mm.1, if p >? mm.2 then p else mm.2)) l (p, p).

Definition binOf (minPrice binSize : float64) (numBins : nat) (p : float64) : nat :=
  let bin := math.int64 ((p - minPrice) / binSize) in
  let bin := if Z.ltb bin 0 then 0%Z else bin in
  Z.to_nat (if Z.leb (Z.of_nat numBins) bin then Z.of_nat numBins - 1 else bin).

Definition withSide (v : float64) (side : Z) (l : VolumeLevel) : VolumeLevel :=
  let l := l <| TotalVolume := TotalVolume l + v |> in
  let l := if Z.eqb side 1 then l <| LvBuy := LvBuy l + v |> else l <| LvSell := LvSell l + v |> in
  l <| LvDelta := LvBuy l - LvSell l |>.

(** The trades of a profile: the price, the volume, 1 where it is missing, and the side, if
    there is one for every trade. *)
Definition profileTrades (ps volumes : list float64) (sides : list Z) : list (float64 * float64 * option Z) :=
  let sided := (length volumes =? length ps)%nat && (length sides =? length ps)%nat in
  imap (fun i p => (p, default 1.0 (volumes !! i), if sided then sides !! i else None)) ps.

Definition addTrade (minPrice binSize : float64) (numBins : nat) (levels : list VolumeLevel) (t : float64 * float64 * option Z) :
    list VolumeLevel :=
  alter (match t.2 with Some side => withSide t.1.2 side | None => fun l => l <| TotalVolume := TotalVolume l + t.1.2 |> end)
    (binOf minPrice binSize numBins t.1.1) levels.

(** The levels with their places, the fullest first, up to the share of the volume. *)
Definition byVolume `{SortSlice} (levels : list VolumeLevel) : list (nat * VolumeLevel) :=
  sortSlice (fun a b => TotalVolume a.2 >? TotalVolume b.2) (imap pair levels).

Definition spanStep (target : float64) (s : float64 * nat * nat) (e : nat * VolumeLevel) : float64 * nat * nat :=
  let '(acc, lo, hi) := s in
  if acc >=? target then s else (acc + TotalVolume e.2, Nat.min lo e.1, Nat.max hi e.1).

Definition totalOf (levels : list VolumeLevel) : float64 := fold_left (fun s l => s + TotalVolume l) levels 0.

Definition valueSpan `{SortSlice} (levels : list VolumeLevel) (areaPct : float64) : nat * nat :=
  let '(_, lo, hi) := fold_left (spanStep (totalOf levels * areaPct)) (byVolume levels) (0, length levels, 0%nat) in
  let lo := if (lo =? length levels)%nat then 0%nat else lo in (lo, Nat.max lo hi).

(** High and low; [None] is an index out of range. *)
Definition computeValueArea `{SortSlice} (levels : list VolumeLevel) (areaPct : float64) : option (float64 * float64) :=
  match levels with
  | [] => Some (0, 0)
  | _ =>
      let '(lo, hi) := valueSpan levels areaPct in
      h ← levels !! hi; l ← levels !! lo; Some (Float64 (LvPrice h), Float64 (LvPrice l))
  end.

Definition pocStep (s : float64 * float64) (l : VolumeLevel) : float64 * float64 :=
  if TotalVolume l >? s.1 then (TotalVolume l, Float64 (LvPrice l)) else s.

Definition binSizeOf (minPrice maxPrice : float64) (numBins : nat) : float64 :=
  let maxPrice := if minPrice =? maxPrice then minPrice * 1.01 else maxPrice in
  let b := (maxPrice - minPrice) / of_Z (Z.of_nat numBins) in if b =? 0 then 0.01 else b.

Definition emptyLevels (minPrice binSize : float64) (numBins : nat) : list VolumeLevel :=
  map (fun i => mkLevel (FromFloat64 (minPrice + of_Z (Z.of_nat i) * binSize + binSize / 2)) 0 0 0 0) (seq 0 numBins).

Definition levelsOf (ps volumes : list float64) (sides : list Z) (numBins : nat) : list VolumeLevel :=
  match ps with
  | [] => []
  | p :: _ =>
      let '(minPrice, maxPrice) := minMax ps p in
      let binSize := binSizeOf minPrice maxPrice numBins in
      fold_left (addTrade minPrice binSize numBins) (profileTrades ps volumes sides) (emptyLevels minPrice binSize numBins)
  end.

Definition ComputeVolumeProfile `{SortSlice} (ps volumes : list float64) (sides : list Z) (numBins : Z) : option VolumeProfile :=
  if bool_decide (ps = []) || Z.leb numBins 0 then Some (mkProfile [] 0 0 0 0 0)
  else
    let levels := levelsOf ps volumes sides (Z.to_nat numBins) in
    let '(_, poc) := fold_left pocStep levels (0, 0) in
    '(vah, val) ← computeValueArea levels 0.70;
    Some (mkProfile levels poc vah val (vah - val) (totalOf levels)).

Definition ComputePOC `{SortSlice} (ps volumes : list float64) (numBins : Z) : option float64 :=
  POC <$> ComputeVolumeProfile ps volumes [] numBins.

Record ValueAreaLevels := mkArea { ArPOC : float64; ArVAH : float64; ArVAL : float64 }.
(** The share that is asked for is not used. *)
Definition ComputeValueArea `{SortSlice} (ps volumes : list float64) (areaPct : float64) (numBins : Z) : option ValueAreaLevels :=
  (fun vp => mkArea (POC vp) (VAH vp) (VAL vp)) <$> ComputeVolumeProfile ps volumes [] numBins.

Definition CalculateVWAP (ps volumes : list float64) : float64 :=
  match ps, volumes with
  | [], _ | _, [] => 0
  | _, _ =>
      let '(value, volume) := fold_left (fun s iv => (s.1 + iv.1 * iv.2, s.2 + iv.2))
                                (imap (fun i p => (p, default 1.0 (volumes !! i))) ps) (0, 0) in
      if volume =? 0 then 0 else value / volume
  end.

Definition CalculateStandardDeviation (values : list float64) : float64 :=
  if (length values <? 2)%nat then 0
  else
    let mean := fold_left PrimFloat.add values 0 / of_Z (Z.of_nat (length values)) in
    math.Sqrt (fold_left (fun s v => let d := v - mean in s + d * d) values 0 / of_Z (Z.of_nat (length values) - 1)).

(** ** Laws *)

(** The ticks of a feed, classified one after the other. *)
Fixpoint classifyAll (ticks : list (Price * string)) (c : TickClassifier) : list Z * TickClassifier :=
  match ticks with
  | [] => ([], c)
  | t :: ticks => let '(side, c) := Classify t.1 t.2 c in let '(sides, c) := classifyAll ticks c in (side :: sides, c)
  end.

(** On a feed that changes its symbol at every tick everything is a buy: the price to
    compare with is stored only when the symbol repeats, so that it stays zero. *)
Theorem alternating_feed_only_buys ticks c : prevPrice c = 0%Z -> Forall (fun t => sane t.1 /\ (0 < t.1)%Z) ticks ->
  (forall i a b, (prevSymbol c :: map snd ticks) !! i = Some a -> (prevSymbol c :: map snd ticks) !! S i = Some b -> a <> b) ->
  (classifyAll ticks c).1 = map (fun _ => TickBuy) ticks.
Proof.
  intros P F. revert c P. induction F as [|[p s] ticks [S1 P1] F IH]; intros c P A; [done|]. cbn in S1, P1. cbn [classifyAll map fst snd].
  assert (NE : s <> prevSymbol c) by (intros ->; by apply (A 0%nat (prevSymbol c) (prevSymbol c))).
  unfold Classify. rewrite P, Float64_zero, (Float64_pos p S1), (bool_decide_eq_false_2 _ NE).
  replace (0 <? p)%Z with true by (symmetry; by apply Z.ltb_lt).
  set (c' := mkClassifier 0%Z s TickBuy). specialize (IH c' eq_refl). destruct (classifyAll ticks c') as [sides c''] eqn:E. cbn [fst] in *.
  f_equal. apply IH. intros i a b I1 I2. by apply (A (S i) a b).
Qed.

Lemma alternating_feed_only_buys_witness :
  (classifyAll [(400%Z, "SPY"); (100%Z, "QQQ"); (399%Z, "SPY"); (98%Z, "QQQ")]%string NewTickClassifier).1 = [1; 1; 1; 1]%Z.
Proof.
  refine (alternating_feed_only_buys _ NewTickClassifier eq_refl _ _).
  - repeat constructor; vm_compute; by intros.
  - intros i a b A B ->. do 4 (destruct i as [|i]; [cbn in A, B; congruence|]). by destruct i.
Defined.

(** *** Bars *)
Definition bar_ok (b : DeltaBar) : Prop :=
  (NumTrades b = 0%Z /\ b = emptyBar (BarTime b)) \/
  (0 < NumTrades b /\ 0 < fv (BarLow b) /\ fv (BarLow b) <= fv (BarOpen b) <= fv (BarHigh b) /\
   fv (BarLow b) <= fv (BarClose b) <= fv (BarHigh b) /\
   ffin (BarLow b) = true /\ ffin (BarOpen b) = true /\ ffin (BarHigh b) = true)%Z.

Lemma pos_eqb0 x : ffin x = true -> (0 < fv x)%Z -> (x =? 0) = false.
Proof. intros F P. rewrite eqb_fv. apply andb_false_intro2, Z.eqb_neq. rewrite fv_zero_lit. lia. Qed.

Lemma addToBar_ok price volume side b : sane price -> (0 < price)%Z -> bar_ok b ->
  bar_ok (addToBar price volume side b) /\ NumTrades (addToBar price volume side b) = (NumTrades b + 1)%Z /\
  BarTime (addToBar price volume side b) = BarTime b.
Proof.
  intros S1 P H. pose proof (ToFloat64_fin price S1) as Fp. pose proof (Float64_pos price S1) as Pp.
  change (ToFloat64 price) with (Float64 price) in Fp. replace (0 <? price)%Z with true in Pp by (symmetry; by apply Z.ltb_lt).
  apply ltb_true in Pp as (_ & _ & Pp). rewrite fv_zero_lit in Pp. unfold addToBar. set (p := Float64 price) in *. clearbody p.
  split; [|by destruct (Z.eqb side TickBuy)]. right. destruct H as [[N ->]|(N & L & O & C & F1 & F2 & F3)].
  - destruct (Z.eqb side TickBuy); cbn; unfold RecordSettersUsingExistingGetters.const; cbn; rewrite ?orb_true_r; repeat split; try done; lia.
  - assert (Eo : (BarOpen b =? 0) = false) by (apply pos_eqb0; [done|lia]).
    assert (Eh : (BarHigh b =? 0) = false) by (apply pos_eqb0; [done|lia]). assert (El : (BarLow b =? 0) = false) by (apply pos_eqb0; [done|lia]).
    destruct (BarHigh b <? p) eqn:E1, (p <? BarLow b) eqn:E2;
      (apply ltb_true in E1 || apply ltb_false in E1; [|by apply ffin_nan..]);
      (apply ltb_true in E2 || apply ltb_false in E2; [|by apply ffin_nan..]);
      repeat match goal with H : _ /\ _ |- _ => destruct H end;
      destruct (Z.eqb side TickBuy); cbn; unfold RecordSettersUsingExistingGetters.const; cbn; rewrite ?Eo, ?Eh, ?El, ?orb_false_r;
      repeat split; try done; lia.
Qed.

Record tickEvent := mkTickEvent { teTime : Z; tePrice : Price; teVolume : float64; teSide : Z }.
Definition addAll (ticks : list tickEvent) (a : DeltaAccumulator) : DeltaAccumulator :=
  fold_left (fun a t => AddTick (teTime t) (tePrice t) (teVolume t) (teSide t) a) ticks a.
Definition bars (a : DeltaAccumulator) : list DeltaBar := completed a ++ [currentBar a].
Fixpoint counted (l : list DeltaBar) : Z := match l with [] => 0%Z | b :: l => (NumTrades b + counted l)%Z end.

Lemma counted_app l1 l2 : counted (l1 ++ l2) = (counted l1 + counted l2)%Z.
Proof. induction l1 as [|b l1 IH]; [done|]. cbn. rewrite IH. lia. Qed.

Lemma trim_keeps {A} (P : A -> Prop) most rest l : Forall P l -> Forall P (trim most rest l).
Proof. intros F. unfold trim. destruct (Z.ltb _ _); [by apply Forall_drop|done]. Qed.

Lemma trim_bound {A} most rest (l : list A) : (0 <= rest <= most)%Z -> (Z.of_nat (length (trim most rest l)) <= most)%Z.
Proof. intros R. unfold trim. destruct (Z.ltb_spec most (Z.of_nat (length l))); [rewrite length_drop|]; lia. Qed.

Record accounts (n : Z) (a : DeltaAccumulator) : Prop := {
  ac_bars : Forall bar_ok (bars a);
  ac_kept : (Z.of_nat (length (completed a)) <= 10000)%Z;
  ac_counted : (counted (bars a) <= n)%Z;
  ac_all : (n <= 10000)%Z -> (counted (bars a) = n /\ Z.of_nat (length (completed a)) <= n)%Z
}.

Lemma counted_nonneg l : Forall bar_ok l -> (0 <= counted l)%Z.
Proof. induction 1 as [|b l Hb F IH]; [done|]. cbn. destruct Hb as [[? _]|(? & _)]; lia. Qed.

Lemma counted_trim most rest l : Forall bar_ok l -> (counted (trim most rest l) <= counted l)%Z.
Proof.
  intros F. unfold trim. destruct (Z.ltb _ _); [|lia]. set (k := (length l - Z.to_nat rest)%nat).
  pose proof (counted_nonneg _ (Forall_take _ k _ F)). rewrite <- (take_drop k l) at 2. rewrite counted_app. lia.
Qed.

Lemma rollTo_bars bt a : Forall bar_ok (bars a) ->
  Forall bar_ok (bars (rollTo bt a)) /\ (counted (bars (rollTo bt a)) <= counted (bars a))%Z /\
  ((Z.of_nat (length (completed a)) <= 10000)%Z -> (Z.of_nat (length (completed (rollTo bt a))) <= 10000)%Z) /\
  ((Z.of_nat (length (completed a)) < 10000)%Z -> counted (bars (rollTo bt a)) = counted (bars a) /\
     (length (completed (rollTo bt a)) <= S (length (completed a)))%nat).
Proof.
  intros B. unfold rollTo. destruct (Z.eqb bt _); [repeat split; try done; lia|].
  set (l := completed a ++ [currentBar a]). change (bars a) with l in *. unfold bars. cbn [completed currentBar].
  rewrite counted_app. cbn [counted NumTrades emptyBar]. pose proof (counted_trim 10000 5000 l B).
  assert (L : length l = S (length (completed a))) by (unfold l; rewrite length_app; cbn; lia).
  split; [apply Forall_app; split; [by apply trim_keeps|]; rewrite Forall_singleton; by left|]. split; [lia|].
  split; [intros _; by apply trim_bound|]. intros H1. unfold trim. destruct (Z.ltb_spec 10000 (Z.of_nat (length l))); [lia|]. split; lia.
Qed.

Lemma AddTick_accounts n t price volume side a : sane price -> (0 < price)%Z -> (0 <= n)%Z -> accounts n a ->
  accounts (n + 1) (AddTick t price volume side a).
Proof.
  intros S1 P1 N [B K C A]. unfold AddTick. destruct (rollTo_bars (Truncate (barDuration a) t) a B) as (B' & C' & K' & A').
  set (r := rollTo _ a) in *. unfold bars in B'. apply Forall_app in B' as [B1 B2]. rewrite Forall_singleton in B2.
  destruct (addToBar_ok price volume side (currentBar r) S1 P1 B2) as (G & T & _).
  assert (CT : counted (bars (r <| currentBar := addToBar price volume side (currentBar r) |>)) = (counted (bars r) + 1)%Z).
  { unfold bars. rewrite !counted_app. cbn [counted currentBar completed]. change (currentBar (_ <| currentBar := ?b |>)) with b. rewrite T. cbn. lia. }
  split; rewrite ?CT; [|by apply K'|lia|].
  - apply Forall_app. split; [done|by rewrite Forall_singleton].
  - intros H. destruct A as [A1 A2]; [lia|]. destruct A' as [A3 A4]; [lia|]. cbn [completed]. change (completed (r <| currentBar := ?b |>)) with (completed r). lia.
Qed.

(** The bars of a feed.  Every bar is empty or has its lowest price at most its opening and
    its closing one and these at most its highest; no more than ten thousand are kept; and
    while no more than ten thousand are complete every tick is counted in exactly one bar. *)
Theorem delta_bars_account now d ticks : Forall (fun t => sane (tePrice t) /\ (0 < tePrice t)%Z) ticks ->
  let a := addAll ticks (NewDeltaAccumulator now d) in
  (Forall bar_ok (bars a) /\ Z.of_nat (length (completed a)) <= 10000 /\ counted (bars a) <= Z.of_nat (length ticks) /\
  (Z.of_nat (length ticks) <= 10000 -> counted (bars a) = Z.of_nat (length ticks)))%Z.
Proof.
  intros F a. assert (G : accounts (Z.of_nat (length ticks)) a).
  { unfold a. clear a. induction ticks as [|t ticks IH] using rev_ind.
    - split; cbn; try done; try lia. repeat constructor.
    - apply Forall_app in F as [F Ft]. rewrite Forall_singleton in Ft. destruct Ft as [S1 P1]. unfold addAll. rewrite fold_left_app, length_app.
      cbn [fold_left length]. rewrite Nat2Z.inj_add. apply AddTick_accounts; [done|done|lia|by apply IH]. }
  destruct G as [B K C A]. repeat split; try done. intros H. by apply A.
Qed.

(** ** The value area *)
Lemma span_fold target l : forall acc lo hi, exists k,
  let '(acc', lo', hi') := fold_left (spanStep target) l (acc, lo, hi) in
  (k <= length l)%nat /\ (k = length l \/ (acc' >=? target) = true) /\ acc' = fold_left (fun s e => s + TotalVolume e.2) (take k l) acc /\
  (lo' <= lo)%nat /\ (hi <= hi')%nat /\ Forall (fun e => lo' <= e.1 <= hi')%nat (take k l) /\
  (hi' = hi \/ exists e, e ∈ take k l /\ e.1 = hi').
Proof.
  induction l as [|e l IH]; intros acc lo hi; [exists 0%nat; cbn; repeat split; auto; constructor|]. cbn [fold_left].
  destruct (acc >=? target) eqn:E.
  - exists 0%nat. assert (Q : fold_left (spanStep target) (e :: l) (acc, lo, hi) = (acc, lo, hi)).
    { generalize (e :: l). intros q. induction q as [|x q IHq]; [done|]. cbn. by rewrite E. }
    cbn [fold_left] in Q. rewrite Q. cbn [take]. repeat split; auto; lia.
  - unfold spanStep at 2. rewrite E. destruct (IH (acc + TotalVolume e.2) (Nat.min lo e.1) (Nat.max hi e.1)) as [k H]. exists (S k).
    destruct (fold_left (spanStep target) l _) as [[acc' lo'] hi']. destruct H as (K & T & A & L & U & F & W). cbn [length take fold_left].
    repeat split; try lia; auto.
    + destruct T as [->|T]; [by left|by right].
    + constructor; [lia|done].
    + destruct W as [W|(x & X & W)]; [|right; exists x; split; [by right|done]].
      destruct (Nat.max_spec hi e.1) as [[M1 M2]|[M1 M2]]; [right; exists e; split; [left|lia]|left; lia].
Qed.

(** What the value area covers.  Its two levels exist, the low one not above the high one;
    between them lie the first levels in the order of their volume, as many as it takes to
    reach the share, or all of them. *)
Theorem value_area_covers `{SortSlice} levels areaPct : levels <> [] ->
  let '(lo, hi) := valueSpan levels areaPct in
  (lo <= hi < length levels)%nat /\ exists k,
    Forall (fun e => lo <= e.1 <= hi)%nat (take k (byVolume levels)) /\
    (k = length levels \/ (fold_left (fun s e => s + TotalVolume e.2) (take k (byVolume levels)) 0 >=? totalOf levels * areaPct) = true).
Proof.
  intros NE. unfold valueSpan. destruct (span_fold (totalOf levels * areaPct) (byVolume levels) 0 (length levels) 0%nat) as [k S1].
  destruct (fold_left _ (byVolume levels) _) as [[acc lo] hi]. destruct S1 as (K & T & A & L & _ & F & W). subst acc.
  assert (LB : length (byVolume levels) = length levels) by (unfold byVolume; by rewrite (Permutation_length (sortSlice_perm _ _ _)), length_imap).
  assert (I : forall e, e ∈ take k (byVolume levels) -> (e.1 < length levels)%nat).
  { intros e E. apply elem_of_take in E as (i & E & _). apply list_elem_of_lookup_2 in E. unfold byVolume in E. rewrite sortSlice_perm in E.
    apply elem_of_lookup_imap in E as (j & x & -> & E). cbn. by apply lookup_lt_Some in E. }
  assert (N : (0 < length levels)%nat) by (destruct levels; [done|cbn; lia]). assert (Hi : (hi < length levels)%nat).
  { destruct W as [->|(e & E & <-)]; [done|by apply I]. }
  destruct (Nat.eqb_spec lo (length levels)) as [->|NL].
  - destruct (take k (byVolume levels)) as [|e q] eqn:Q; [|inversion F; lia]. split; [lia|]. exists k. rewrite Q. split; [constructor|].
    destruct T as [->|T]; [left; by rewrite LB|by right].
  - split; [|exists k; split; [|destruct T as [->|T]; [left; by rewrite LB|by right]]].
    + lia.
    + eapply list.Forall_impl; [exact F|]. intros e E. cbn in E. lia.
Qed.

Lemma value_area_covers_witness :
  let levels := [mkLevel 1%Z 0 0 10 0; mkLevel 2%Z 0 0 50 0; mkLevel 3%Z 0 0 30 0; mkLevel 4%Z 0 0 10 0] in
  valueSpan levels 0.70 = (1, 2)%nat /\ (1 <= 2 < 4)%nat.
Proof.
  intros levels. pose proof (value_area_covers levels 0.70 ltac:(discriminate)) as V. split; [vm_compute; reflexivity|].
  vm_compute in V. destruct V as [V _]. lia.
Defined.
