(* ===== verification/DataPipeline.v ===== *)
(** * The data pipeline ([internal/monitor/datapipeline.go])

    The consumer of the tick queue: it drains the queue every fifty milliseconds into the
    order-flow statistics and broadcasts what comes out.  The broadcasts are the results of a
    drain; the clock is an argument, read once per tick. *)
From Stdlib Require Import ZArith Lia Bool Floats.
From coqutil Require Import RecordSettersUsingExistingGetters.
From S2P Require Import Prelude Float64 FloatRound FloatLaws Price RingBuffer Analytics.
Import GoInt.
Local Open Scope float_scope.
Local Open Scope go_scope.

Record DataPipeline := mkPipeline {
  ringBuf : RingBuffer.t; classifier : TickClassifier; accumulator : DeltaAccumulator; cvdTracker : CVDTracker;
  divDetector : DivergenceDetector; tickCount : Z
}.

Definition NewDataPipeline (now : Z) (ringBuf : RingBuffer.t) : DataPipeline :=
  mkPipeline ringBuf NewTickClassifier (NewDeltaAccumulator now 5000000000) [] (NewDivergenceDetector 20) 0.

(** One tick; the outer option is a panic, the inner one a divergence to broadcast. *)
Definition drainTick (now : Z) (tick : GoMarketTick) (p : DataPipeline) : option (option DivergenceSignal * DataPipeline) :=
  let price := PriceFromInt64 (PriceRaw tick) in
  let volume := of_Z (VolumeRaw tick) in
  let '(side, c) := Classify price "" (classifier p) in
  '(div, d) ← Detect price 0 (divDetector p);
  Some (div, p <| tickCount := (tickCount p + 1)%Z |> <| classifier := c |>
               <| accumulator := AddTick now price volume side (accumulator p) |> <| divDetector := d |>).

Fixpoint drain (fuel : nat) (clock : nat -> Z) (p : DataPipeline) : option (list DivergenceSignal * DataPipeline) :=
  match fuel with
  | O => Some ([], p)
  | S fuel =>
      '(rb, slot) ← RingBuffer.Pop (ringBuf p);
      let p := p <| ringBuf := rb |> in
      match slot with
      | None => Some ([], p)
      | Some slot =>
          tick ← RingBuffer.load (RingBuffer.ticks rb) slot;
          '(div, p) ← drainTick (clock O) tick p;
          '(divs, p) ← drain fuel (fun i => clock (S i)) p;
          Some (match div with Some s => s :: divs | None => divs end, p)
      end
  end.

(** The divergences and the bars that are broadcast. *)
Definition drainAndBroadcast (clock : nat -> Z) (p : DataPipeline) : option (list DivergenceSignal * list DeltaBar * DataPipeline) :=
  '(divs, p) ← drain 1000 clock p;
  let completed := GetCompletedBars (accumulator p) in
  Some (divs, completed, p <| cvdTracker := fold_left (fun t bar => AddBar bar t) completed (cvdTracker p) |>).

Definition GetTickCount : DataPipeline -> Z := tickCount.

(** ** The detector *)

(** Fed with a constant zero for the cumulative delta, the detector finds nothing. *)
Record quiet (d : DivergenceDetector) : Prop := {
  qu_window : windowSize d = 20%Z;
  qu_length : length (prices d) = length (cvdValues d);
  qu_bound : (Z.of_nat (length (prices d)) <= 20)%Z;
  qu_zero : Forall (fun v => v = 0) (cvdValues d)
}.

Lemma Detect_quiet price d : quiet d -> exists d', Detect price 0 d = Some (None, d') /\ quiet d'.
Proof.
  intros [W L B Z0]. unfold Detect. rewrite W, length_app. cbn [length]. set (ps := prices d ++ _). set (cs := cvdValues d ++ [0]).
  assert (Lp : length ps = S (length (prices d))) by (unfold ps; rewrite length_app; cbn; lia).
  assert (Lc : length cs = length ps) by (unfold cs; rewrite length_app; change (length [0]) with 1%nat; lia).
  assert (Zc : Forall (fun v => v = 0) cs) by (apply Forall_app; split; [done|by rewrite Forall_singleton]).
  assert (K : exists k, (if Z.ltb 20 (Z.of_nat (length (prices d) + 1)) then
      ps ← lastN 20 (length (prices d) + 1) ps; cs ← lastN 20 (length (prices d) + 1) cs; Some (ps, cs) else Some (ps, cs)) =
      Some (drop k ps, drop k cs) /\ (length ps - k <= 20)%nat /\ (k < length ps)%nat).
  { destruct (Z.ltb_spec 20 (Z.of_nat (length (prices d) + 1))).
    - exists (length (prices d) + 1 - 20)%nat. split; [done|]. lia.
    - exists 0%nat. rewrite !drop_0. split; [done|]. lia. }
  destruct K as (k & -> & K1 & K2). cbn [mbind option_bind]. clearbody ps cs.
  assert (Q : quiet (mkDetector (drop k ps) (drop k cs) 20)).
  { split; cbn [windowSize prices cvdValues]; [done|rewrite !length_drop; lia|rewrite length_drop; lia|by apply Forall_drop]. }
  cbn [windowSize prices cvdValues]. match goal with |- context [Z.ltb ?a 20] => destruct (Z.ltb a 20) end; [by eexists|].
  assert (G : forall {A} (l : list A), (k < length l)%nat -> exists a b, drop k l !! O = Some a /\ list.last (drop k l) = Some b /\ a ∈ l /\ b ∈ l).
  { intros A l Hl. destruct (drop k l) as [|a q] eqn:E; [apply (f_equal length) in E; rewrite length_drop in E; cbn in E; lia|].
    destruct (list.last (a :: q)) as [b|] eqn:E2; [|by apply last_None in E2]. exists a, b. split; [done|]. split; [done|].
    assert (I : forall x, x ∈ a :: q -> x ∈ l) by (intros x X; rewrite <- E in X; by eapply elem_of_drop_elem_of in X || (apply list_elem_of_lookup in X as [i X]; rewrite lookup_drop in X; by apply list_elem_of_lookup_2 in X)).
    split; apply I; [left|]. rewrite last_lookup in E2. by apply list_elem_of_lookup_2 in E2. }
  destruct (G _ ps K2) as (p0 & p1 & -> & -> & _). destruct (G _ cs ltac:(lia)) as (c0 & c1 & -> & -> & I0 & I1). cbn [mbind option_bind].
  rewrite list.Forall_forall in Zc. rewrite (Zc c0 I0), (Zc c1 I1). eexists. split; [|exact Q]. unfold divergence.
  change (0 <? 0) with false. by rewrite !andb_false_r.
Qed.

(** ** What a drain does *)
Definition tickOf (now : Z) (tick : GoMarketTick) (s : TickClassifier * DeltaAccumulator) : TickClassifier * DeltaAccumulator :=
  let price := PriceFromInt64 (PriceRaw tick) in
  let '(side, c) := Classify price "" s.1 in (c, AddTick now price (of_Z (VolumeRaw tick)) side s.2).

Fixpoint ticksOf (clock : nat -> Z) (l : list GoMarketTick) (s : TickClassifier * DeltaAccumulator) : TickClassifier * DeltaAccumulator :=
  match l with [] => s | t :: l => ticksOf (fun i => clock (S i)) l (tickOf (clock O) t s) end.

Lemma drain_spec fuel : forall clock p q, represents (ringBuf p) q -> quiet (divDetector p) ->
  exists p', drain fuel clock p = Some ([], p') /\ represents (ringBuf p') (drop fuel q) /\ quiet (divDetector p') /\
    (classifier p', accumulator p') = ticksOf clock (take fuel q) (classifier p, accumulator p) /\
    tickCount p' = (tickCount p + Z.of_nat (Nat.min fuel (length q)))%Z /\ cvdTracker p' = cvdTracker p.
Proof.
  induction fuel as [|fuel IH]; intros clock p q R Q; [exists p; cbn [drain take ticksOf]; rewrite drop_0; split_and!; try done; cbn; lia|].
  cbn [drain]. pose proof (Pop_represents _ _ R) as P. destruct q as [|y q].
  - rewrite P. cbn [mbind option_bind]. eexists. split; [reflexivity|]. cbn [drop take ticksOf ringBuf]. split_and!; try done; cbn; lia.
  - destruct P as (rb & slot & -> & L & _ & R'). cbn [mbind option_bind]. rewrite L. cbn [mbind option_bind]. unfold drainTick.
    destruct (Classify _ _ _) as [side c] eqn:C. destruct (Detect_quiet (PriceFromInt64 (PriceRaw y)) (divDetector p) Q) as (d & D & Q').
    change (classifier (p <| ringBuf := rb |>)) with (classifier p) in C.
    change (divDetector (p <| ringBuf := rb |>)) with (divDetector p). rewrite D. cbn [mbind option_bind].
    match goal with |- context [drain fuel ?k ?p1] => destruct (IH k p1 q R' Q') as (p' & E & R2 & Q2 & T & N & V) end.
    rewrite E. cbn [mbind option_bind]. exists p'. split; [done|]. cbn [drop take ticksOf length Nat.min]. split; [done|]. split; [done|].
    split; [|split; [rewrite N; cbn -[Z.add Z.of_nat Nat.min]; unfold RecordSettersUsingExistingGetters.const; lia|by rewrite V]]. rewrite T. unfold tickOf. cbn [fst snd]. by rewrite C.
Qed.

(** One round of the consumer.  It never panics: it takes the first thousand ticks of the
    queue, or all of them, in order, counts each, and feeds each into the bars.  It never
    broadcasts a divergence, as the detector is fed zeros; and whatever bars have been
    completed since the start are broadcast, and added to the cumulative delta, again. *)
Theorem pipeline_round clock p q : represents (ringBuf p) q -> quiet (divDetector p) ->
  exists p', let done := completed (accumulator p') in
    drainAndBroadcast clock p = Some ([], done, p') /\ represents (ringBuf p') (drop 1000 q) /\ quiet (divDetector p') /\
    GetTickCount p' = (GetTickCount p + Z.of_nat (Nat.min 1000 (length q)))%Z /\
    (classifier p', accumulator p') = ticksOf clock (take 1000 q) (classifier p, accumulator p) /\
    cvdTracker p' = fold_left (fun t bar => AddBar bar t) done (cvdTracker p).
Proof.
  intros R Q. destruct (drain_spec 1000 clock p q R Q) as (p' & E & R' & Q' & T & N & V). unfold drainAndBroadcast. rewrite E.
  cbn [mbind option_bind].
  exists (p' <| cvdTracker := fold_left (fun t bar => AddBar bar t) (GetCompletedBars (accumulator p')) (cvdTracker p') |>).
  split; [reflexivity|]. unfold GetTickCount, GetCompletedBars. cbn [ringBuf divDetector tickCount classifier accumulator cvdTracker].
  rewrite <- V, <- N, <- T. split_and!; done.
Qed.

(** [n] rounds with an empty queue. *)
Fixpoint idle (n : nat) (p : DataPipeline) : option DataPipeline :=
  match n with O => Some p | S n => '(_, p) ← drainAndBroadcast (fun _ => 0%Z) p; idle n p end.

(** The cumulative delta is not cumulative: while no tick arrives, every round adds every
    completed bar to it once more. *)
Theorem idle_rounds_recount n p : represents (ringBuf p) [] -> quiet (divDetector p) ->
  exists p', idle n p = Some p' /\ accumulator p' = accumulator p /\
    cvdTracker p' = fold_left (fun t bar => AddBar bar t) (concat (replicate n (completed (accumulator p)))) (cvdTracker p).
Proof.
  revert p. induction n as [|n IH]; intros p R Q; [by exists p|]. cbn [idle replicate concat].
  destruct (pipeline_round (fun _ => 0%Z) p [] R Q) as (p1 & E & R1 & Q1 & _ & T & V). cbn [take ticksOf drop] in T, R1. injection T as _ T.
  rewrite E. cbn [mbind option_bind]. destruct (IH p1 R1 Q1) as (p' & -> & A & V'). exists p'. rewrite V', V, A, T. split; [done|].
  split; [done|]. by rewrite fold_left_app.
Qed.

Definition oneBar : DataPipeline := (NewDataPipeline 0 (RingBuffer.NewRingBuffer 4)) <| accumulator := mkAccumulator 5000000000 (emptyBar 0) [mkBar 0 1 1 1 1 10 4 6 2] |>.

Lemma idle_rounds_recount_witness :
  exists p', idle 3 oneBar = Some p' /\ map CvValue (cvdTracker p') = [6; 12; 18].
Proof.
  destruct (idle_rounds_recount 3 oneBar) as (p' & E & _ & V).
  - apply (represents_new 4). lia.
  - split; cbn; try done; lia.
  - exists p'. split; [exact E|]. rewrite V. vm_compute. reflexivity.
Defined.
