(* ===== verification/EventBus.v ===== *)
(** * The signal bus ([internal/reactive/event_bus.go])

    Signals are shared objects: the bus keeps pointers, which are references into a store
    here, and hands the same pointers out again.  Handlers are left abstract; publishing
    gives the list of those that are called. *)
From Stdlib Require Import ZArith Lia Bool Floats Ascii.
From coqutil Require Import RecordSettersUsingExistingGetters.
From S2P Require Import Prelude Price.

Inductive SignalState := StateIdle | StateScheduled | StateOpened | StateActive | StateClosed | StateRejected.

Record Signal := mkSignal {
  SgID : string; SgSymbol : string; SgStrategyID : string; SgSide : string; SgQuantity : float; SgLimitPrice : Price;
  SgStopPrice : Price; SgState : SignalState; SgEntryPrice : Price; SgExitPrice : Price; SgPnL : float; SgCreatedAt : Z;
  SgUpdatedAt : Z; SgRegime : Z; SgConfidence : float
}.

Section Bus.
Context {Handler : Type}.

(** [signals] and [signalOrder] hold references. *)
Record EventBus := mkBus {
  subscribers : gmap string (list Handler); signals : gmap string nat; signalOrder : list string; maxSignals : nat
}.

(** The objects the pointers of the bus refer to. *)
Abbreviation store := (gmap nat Signal).

Definition NewEventBus : EventBus := mkBus ∅ ∅ [] 1000.

Definition Subscribe (channel : string) (handler : Handler) (eb : EventBus) : EventBus :=
  mkBus (<[channel := default [] (subscribers eb !! channel) ++ [handler]]> (subscribers eb)) (signals eb) (signalOrder eb) (maxSignals eb).

(** The last entries of a slice that has grown over [n]. *)
Definition keepLast {A} (n : nat) (l : list A) : list A := drop (length l - n) l.

(** [None]: a nil signal.  The handlers are called after both locks are released. *)
Definition Publish (now : Z) (ref : nat) (st : store * EventBus) : option (list Handler * (store * EventBus)) :=
  let '(h, eb) := st in
  s ← h !! ref;
  let s := s <| SgUpdatedAt := now |> in
  let eb := mkBus (subscribers eb) (<[SgID s := ref]> (signals eb)) (keepLast (maxSignals eb) (signalOrder eb ++ [SgID s])) (maxSignals eb) in
  Some (default [] (subscribers eb !! "signal_lifecycle"%string), (<[ref := s]> h, eb)).

Definition GetSignals (limit : Z) (eb : EventBus) : list nat :=
  let n := Z.of_nat (length (signalOrder eb)) in
  let limit := if Z.leb limit 0 || Z.ltb n limit then n else limit in
  omap (fun id => signals eb !! id) (drop (Z.to_nat (Z.max 0 (n - limit))) (signalOrder eb)).

(** ** The adapter of the older runners *)

(** What a runner of the older kind answers to a candle whose four prices are [price]. *)
Record legacySignal := mkLegacy { LgSide : string; LgQuantity : float; LgPrice : Price; LgStopLoss : Price }.
Record legacyCandle := mkCandle { LcTime : Z; LcOpen : Price; LcHigh : Price; LcLow : Price; LcClose : Price; LcVolume : float; LcSymbol : string }.

Record LegacyAdapter := mkAdapter { runnerName : string; runner : legacyCandle -> Z -> option legacySignal; signalCount : Z }.

(** [string(rune('0' + n%10))] *)
Definition digit (n : Z) : string := String (ascii_of_nat (Z.to_nat (48 + Z.rem n 10))) "".

Definition GenerateSignal (now : Z) (symbol : string) (price : float) (la : LegacyAdapter) : option Signal * LegacyAdapter :=
  let p := PriceFromFloat price in
  match runner la (mkCandle now p p p p 0%float symbol) 0 with
  | None => (None, la)
  | Some result =>
      if bool_decide (LgSide result = ""%string) then (None, la)
      else
        let la := mkAdapter (runnerName la) (runner la) (signalCount la + 1) in
        (Some (mkSignal (symbol +:+ "-sig-" +:+ digit (signalCount la)) symbol (runnerName la) (LgSide result) (LgQuantity result)
                 (LgPrice result) (LgStopLoss result) StateScheduled 0%Z 0%Z 0%float now 0 0 0%float), la)
  end.

(** ** What the bus remembers *)

(** The bus after publishing signals of these identifiers at these references, in order. *)
Definition after (pubs : list (string * nat)) (eb : EventBus) : EventBus :=
  fold_left (fun eb p => mkBus (subscribers eb) (<[p.1 := p.2]> (signals eb)) (keepLast (maxSignals eb) (signalOrder eb ++ [p.1])) (maxSignals eb))
    pubs eb.

Lemma Publish_after now ref h eb s : h !! ref = Some s ->
  Publish now ref (h, eb) = Some (default [] (subscribers eb !! "signal_lifecycle"%string),
    (<[ref := s <| SgUpdatedAt := now |>]> h, after [(SgID s, ref)] eb)).
Proof. intros E. unfold Publish. by rewrite E. Qed.

(** The last publication under an identifier. *)
Definition latest (pubs : list (string * nat)) (id : string) : option nat :=
  snd <$> list.last (List.filter (fun p => bool_decide (p.1 = id)) pubs).

Lemma keepLast_snoc {A} n (l : list A) x : (0 < n)%nat -> keepLast n (keepLast n l ++ [x]) = keepLast n (l ++ [x]).
Proof.
  intros P. unfold keepLast. rewrite !length_app, length_drop. cbn [length].
  rewrite (drop_app_le l) by lia. destruct (decide (length l < n)%nat).
  - replace (length l - n)%nat with 0%nat by lia. rewrite drop_0, Nat.sub_0_r. by rewrite drop_app_le by lia.
  - rewrite drop_app_le by (rewrite length_drop; lia). rewrite drop_drop. f_equal. f_equal. lia.
Qed.

Lemma after_spec pubs : let eb := after pubs NewEventBus in
  signalOrder eb = keepLast 1000 (map fst pubs) /\ (forall id, signals eb !! id = latest pubs id) /\ maxSignals eb = 1000%nat.
Proof.
  induction pubs as [|[id ref] pubs IH] using rev_ind; [split; [done|]; split; [|done]; intros id; apply lookup_empty|].
  cbv zeta in *. unfold after in *. rewrite fold_left_app. cbn [fold_left]. set (eb := fold_left _ pubs _) in *. destruct IH as (O & S & M).
  cbn [signalOrder signals maxSignals fst snd]. rewrite M, O, map_app. split; [by apply keepLast_snoc; lia|]. split; [|done].
  intros k. unfold latest. rewrite List.filter_app. cbn [List.filter fst]. destruct (decide (id = k)) as [->|N].
  - rewrite lookup_insert_eq, (bool_decide_eq_true_2 (k = k)) by done. by rewrite last_snoc.
  - rewrite lookup_insert_ne, bool_decide_eq_false_2, app_nil_r by done. apply S.
Qed.

Lemma omap_total {A B C} (f : A -> option B) (g : C -> A) (h : C -> B) l : (forall x, x ∈ l -> f (g x) = Some (h x)) -> omap f (map g l) = map h l.
Proof. induction l as [|x l IH]; intros H; [done|]. cbn. rewrite (H x) by left. f_equal. apply IH. intros y Y. apply H. by right. Qed.

Lemma latest_published pubs p : p ∈ pubs -> latest pubs p.1 = Some (default 0%nat (latest pubs p.1)).
Proof.
  intros I. unfold latest. destruct (list.last _) as [q|] eqn:E; [done|]. apply last_None in E.
  assert (X : In p (List.filter (fun q => bool_decide (q.1 = p.1)) pubs)).
  { apply filter_In. split; [by apply list_elem_of_In|by apply bool_decide_eq_true_2]. }
  by rewrite E in X.
Qed.

(** What the bus answers for its history.  A query for at most a thousand signals gives one
    entry for each of the last publications, in order and none missing; but an entry is the
    newest signal of that identifier, not the one that was published there.  Nothing is ever
    removed from the map behind it. *)
Theorem recent_signals pubs limit : (0 < limit <= 1000)%Z ->
  let eb := after pubs NewEventBus in
  GetSignals limit eb = map (fun p => default 0%nat (latest pubs p.1)) (keepLast (Z.to_nat limit) pubs) /\
  dom (signals eb) = list_to_set (map fst pubs).
Proof.
  intros L. cbv zeta. destruct (after_spec pubs) as (O & S & _). set (eb := after pubs NewEventBus) in *. split.
  - unfold GetSignals. rewrite O. set (kept := keepLast 1000 (map fst pubs)).
    assert (E : drop (Z.to_nat (Z.max 0 (Z.of_nat (length kept) - (if Z.leb limit 0 || Z.ltb (Z.of_nat (length kept)) limit then Z.of_nat (length kept) else limit)))) kept =
                map fst (keepLast (Z.to_nat limit) pubs)).
    { unfold kept, keepLast. rewrite length_drop, length_map, <- !skipn_map, drop_drop. f_equal.
      destruct (Z.leb_spec limit 0); [lia|]. cbn [orb].
      destruct (Z.ltb_spec (Z.of_nat (length pubs - (length pubs - 1000))) limit); lia. }
    rewrite E. apply omap_total. intros p P. rewrite S. apply latest_published. unfold keepLast in P.
    apply list_elem_of_lookup in P as [i P]. rewrite lookup_drop in P. by apply list_elem_of_lookup_2 in P.
  - apply set_eq. intros id. rewrite elem_of_dom, S, elem_of_list_to_set, list_elem_of_fmap. split.
    + intros [r E]. unfold latest in E. apply fmap_Some in E as (p & E & _). apply last_Some in E as [q E].
      assert (X : In p (List.filter (fun p => bool_decide (p.1 = id)) pubs)) by (rewrite E; apply in_or_app; right; by left).
      apply filter_In in X as [X D]. apply bool_decide_eq_true in D. exists p. split; [done|]. by apply list_elem_of_In.
    + intros (p & -> & P). rewrite (latest_published _ _ P). by eexists.
Qed.
End Bus.

(** Ten signals on, the adapter gives an identifier of a symbol again. *)
Lemma adapter_reuses_identifiers now now' symbol price price' la s s' : (0 <= signalCount la)%Z ->
  (GenerateSignal now symbol price la).1 = Some s ->
  (GenerateSignal now' symbol price' (mkAdapter (runnerName la) (runner la) (signalCount la + 10))).1 = Some s' -> SgID s' = SgID s.
Proof.
  intros P. unfold GenerateSignal. cbn [runner runnerName signalCount].
  destruct (runner la _ 0) as [r|]; [|done]. destruct (bool_decide (LgSide r = ""%string)); [done|]. intros [= <-].
  destruct (runner la _ 0) as [r'|]; [|done]. destruct (bool_decide (LgSide r' = ""%string)); [done|]. intros [= <-]. cbn [SgID].
  unfold digit. rewrite !Z.rem_mod_nonneg by lia. replace (signalCount la + 10 + 1)%Z with (signalCount la + 1 + 1 * 10)%Z by lia.
  by rewrite Z.mod_add.
Qed.

Lemma recent_signals_witness :
  GetSignals (Handler := unit) 3 (after [("SPY-sig-1", 1%nat); ("QQQ-sig-1", 2%nat); ("SPY-sig-1", 3%nat)]%string NewEventBus) = [3; 2; 3]%nat.
Proof. rewrite (proj1 (recent_signals (Handler := unit) _ 3 ltac:(lia))). vm_compute. reflexivity. Defined.
