(* ===== verification/Reevaluate.v ===== *)
(** * Re-evaluation of strategies ([internal/backtest/reevaluation.go])

    Which strategies of a running portfolio are demoted or promoted, from a history of Sharpe
    ratios of at most sixty entries each. *)
From Stdlib Require Import ZArith Lia Bool Floats.
From coqutil Require Import RecordSettersUsingExistingGetters.
From S2P Require Import Prelude Float64 FloatRound FloatLaws.
Local Open Scope float_scope.
Local Open Scope go_scope.

Inductive StrategyState := StrategyActive | StrategyInactive | StrategyStandby | StrategyViolated | StrategyValidated.
#[export] Instance strategy_state_eq : EqDecision StrategyState. Proof. solve_decision. Defined.

Record ReevaluationConfig := mkReeval {
  SharpeDegradationPct : float64; DegradationDays : Z; RecoveryDays : Z; MaxDDThreshold : gmap string float64; RegimeExitBars : Z;
  CorrelationBrakeDays : Z; FillDegradationBps : float64; FillDegradationCount : Z; OOSValidationDays : Z; OOSMinSharpe : float64;
  OOSMaxSharpeDropPct : float64
}.

Definition DefaultReevaluationConfig : ReevaluationConfig := mkReeval 0.30 30 10
  (list_to_map [("grid_trading", 15.0); ("rsi2_reversion", 10.0); ("trend_following", 25.0); ("volatility_harvesting", 15.0);
                ("donchian_breakout", 20.0)]%string) 5 10 2.0 20 60 0.0 0.50.

Record sharpePoint := mkSharpe { spTime : Z; spSharpe : float64 }.

Record StrategyReevaluator := mkReevaluator {
  config : ReevaluationConfig; benchmarkSharpe : gmap string float64; benchmarkPassed : gmap string bool;
  sharpeHistory : gmap string (list sharpePoint); fillSlippage : gmap string (list float64)
}.

Definition NewStrategyReevaluator (config : ReevaluationConfig) (benchmarks : gmap string float64) : StrategyReevaluator :=
  mkReevaluator config benchmarks ∅ ∅ ∅.

Definition SetBenchmarkPassed (sid : string) (passed : bool) (sr : StrategyReevaluator) : StrategyReevaluator :=
  sr <| benchmarkPassed ::= insert sid passed |>.

Inductive action := HardHalt | Deactivate | ReduceAllocation | Restore50 | Activate.
#[export] Instance action_eq : EqDecision action. Proof. solve_decision. Defined.

(** The action determines the reason. *)
Record ReevaluationResult := mkReevaluation { ReStrategyID : string; ReAction : action; ReNewState : StrategyState; ReNewWeight : float64 }.

Definition ReReason (r : ReevaluationResult) : string :=
  match ReAction r with
  | HardHalt => "maxdd_breach" | Deactivate | ReduceAllocation => "sharpe_degradation" | Restore50 => "sharpe_recovery"
  | Activate => "regime_reentry"
  end.

Definition keepLast {A} (n : nat) (l : list A) : list A := drop (length l - n) l.

Definition recordSharpe (sid : string) (sharpe : float64) (t : Z) (sr : StrategyReevaluator) : StrategyReevaluator :=
  sr <| sharpeHistory ::= insert sid (keepLast 60 (mget [] (sharpeHistory sr) sid ++ [mkSharpe t sharpe])) |>.

(** Days among the last [window] of a history. *)
Definition countDays (p : float64 -> bool) (window : Z) (history : list sharpePoint) : Z :=
  let start := Z.max 0 (Z.of_nat (length history) - window) in
  Z.of_nat (length (List.filter (fun x => p (spSharpe x)) (drop (Z.to_nat start) history))).

Definition countDaysBelow (sr : StrategyReevaluator) (sid : string) (threshold : float64) (window : Z) : Z :=
  countDays (fun s => s <? threshold) window (mget [] (sharpeHistory sr) sid).
Definition countDaysAbove (sr : StrategyReevaluator) (sid : string) (threshold : float64) (window : Z) : Z :=
  countDays (fun s => s >? threshold) window (mget [] (sharpeHistory sr) sid).

Definition evaluateDemotion (sr : StrategyReevaluator) (sid : string) (state : StrategyState) (dd weight : float64)
    (benchmark : option float64) : option ReevaluationResult :=
  if bool_decide (state = StrategyViolated) then None
  else if dd >? default 15.0 (MaxDDThreshold (config sr) !! sid) then Some (mkReevaluation sid HardHalt StrategyViolated 0)
  else
    match benchmark with
    | Some benchmark =>
        let daysBelow := countDaysBelow sr sid (benchmark * SharpeDegradationPct (config sr)) (DegradationDays (config sr)) in
        if Z.leb (DegradationDays (config sr)) daysBelow then
          if bool_decide (state = StrategyActive) && Z.leb 60 daysBelow then Some (mkReevaluation sid Deactivate StrategyInactive 0)
          else Some (mkReevaluation sid ReduceAllocation StrategyActive (weight * 0.25))
        else None
    | None => None
    end.

Definition evaluatePromotion (sr : StrategyReevaluator) (sid : string) (state : StrategyState) (weight : float64)
    (benchmark : option float64) : option ReevaluationResult :=
  if bool_decide (state = StrategyActive) || bool_decide (state = StrategyViolated) then None
  else if bool_decide (benchmarkPassed sr !! sid = Some false) then None
  else
    let recovered := match benchmark with
                     | Some benchmark => bool_decide (state = StrategyInactive) &&
                         Z.leb (RecoveryDays (config sr)) (countDaysAbove sr sid (benchmark * 0.50) (RecoveryDays (config sr)))
                     | None => false
                     end in
    if recovered then Some (mkReevaluation sid Restore50 StrategyActive (weight * 0.5 * 2))
    else if bool_decide (state = StrategyStandby) then Some (mkReevaluation sid Activate StrategyActive 0.10)
    else None.

(** What one strategy gets. *)
Definition verdict (sr : StrategyReevaluator) (dd weight : gmap string float64) (sid : string) (state : StrategyState) :
    option ReevaluationResult :=
  let benchmark := benchmarkSharpe sr !! sid in
  match evaluateDemotion sr sid state (mget 0 dd sid) (mget 0 weight sid) benchmark with
  | Some r => Some r
  | None => evaluatePromotion sr sid state (mget 0 weight sid) benchmark
  end.

Definition evaluateOne (sharpe dd weight : gmap string float64) (now : Z) (acc : list ReevaluationResult * StrategyReevaluator)
    (e : string * StrategyState) : list ReevaluationResult * StrategyReevaluator :=
  let sr := recordSharpe e.1 (mget 0 sharpe e.1) now acc.2 in
  (acc.1 ++ match verdict sr dd weight e.1 e.2 with Some r => [r] | None => [] end, sr).

(** [states]: the entries of [currentState] in the order Go ranges over them. *)
Definition Evaluate (sharpe dd : gmap string float64) (states : list (string * StrategyState)) (weight : gmap string float64) (now : Z)
    (sr : StrategyReevaluator) : list ReevaluationResult * StrategyReevaluator :=
  fold_left (evaluateOne sharpe dd weight now) states ([], sr).

Definition RecordFillSlippage (sid : string) (slippageBps : float64) (sr : StrategyReevaluator) : StrategyReevaluator :=
  sr <| fillSlippage ::= insert sid (keepLast 40 (mget [] (fillSlippage sr) sid ++ [slippageBps])) |>.

Definition AverageFillSlippage (sid : string) (sr : StrategyReevaluator) : float64 :=
  match mget [] (fillSlippage sr) sid with
  | [] => 0
  | l => fold_left PrimFloat.add l 0 / of_Z (Z.of_nat (length l))
  end.

Definition GetState (current : gmap string StrategyState) (sid : string) : StrategyState := default StrategyInactive (current !! sid).

(** ** Order *)

(** A verdict looks at the strategy's own history only. *)
Lemma verdict_own sr sr' dd weight sid state : config sr = config sr' -> benchmarkSharpe sr = benchmarkSharpe sr' ->
  benchmarkPassed sr = benchmarkPassed sr' -> mget [] (sharpeHistory sr) sid = mget [] (sharpeHistory sr') sid ->
  verdict sr dd weight sid state = verdict sr' dd weight sid state.
Proof.
  intros C S P H. unfold verdict, evaluateDemotion, evaluatePromotion, countDaysBelow, countDaysAbove. by rewrite C, S, P, H.
Qed.

(** What an evaluation answers for one strategy, from the state before it. *)
Definition answer (sharpe dd weight : gmap string float64) (now : Z) (sr : StrategyReevaluator) (e : string * StrategyState) :
    list ReevaluationResult :=
  match verdict (recordSharpe e.1 (mget 0 sharpe e.1) now sr) dd weight e.1 e.2 with Some r => [r] | None => [] end.

Lemma evaluate_spec sharpe dd weight now states : forall acc sr, NoDup (map fst states) ->
  let r := fold_left (evaluateOne sharpe dd weight now) states (acc, sr) in
  r.1 = acc ++ flat_map (answer sharpe dd weight now sr) states /\
  config r.2 = config sr /\ benchmarkSharpe r.2 = benchmarkSharpe sr /\ benchmarkPassed r.2 = benchmarkPassed sr /\
  fillSlippage r.2 = fillSlippage sr /\
  forall sid, sharpeHistory r.2 !! sid = if bool_decide (sid ∈ map fst states)
    then Some (keepLast 60 (mget [] (sharpeHistory sr) sid ++ [mkSharpe now (mget 0 sharpe sid)])) else sharpeHistory sr !! sid.
Proof.
  induction states as [|[sid state] states IH]; intros acc sr N; [cbn; rewrite app_nil_r; repeat split; done|].
  cbn [map fst] in N. apply list.NoDup_cons in N as [N1 N]. cbn [fold_left]. unfold evaluateOne at 2. cbn [fst snd].
  set (sr1 := recordSharpe sid _ now sr). specialize (IH (acc ++ answer sharpe dd weight now sr (sid, state)) sr1 N). cbv zeta in IH.
  unfold answer at 1 in IH. cbn [fst snd] in IH. fold sr1 in IH. destruct IH as (R & C & B & P & F & H).
  split; [|repeat split; try done].
  - rewrite R. cbn [flat_map]. rewrite app_assoc. f_equal.
    clear R C B P F H. induction states as [|[s' st'] states IHs]; [done|]. cbn [flat_map map fst] in *. rewrite not_elem_of_cons in N1.
    apply list.NoDup_cons in N as [_ N]. destruct N1 as [N1 N2]. rewrite (IHs N2 N). f_equal. unfold answer. cbn [fst snd].
    rewrite (verdict_own (recordSharpe s' _ now sr1) (recordSharpe s' (mget 0 sharpe s') now sr)); try done.
    unfold recordSharpe, mget. cbn. by rewrite !lookup_insert_eq, (lookup_insert_ne _ sid s') by done.
  - intros k. rewrite H. cbn [map fst]. unfold sr1, recordSharpe. cbn. destruct (decide (k = sid)) as [->|NE].
    + rewrite (bool_decide_eq_false_2 _ N1), (bool_decide_eq_true_2 (sid ∈ sid :: _)) by left. by rewrite lookup_insert_eq.
    + rewrite (lookup_insert_ne _ sid k) by done. unfold mget. rewrite (lookup_insert_ne _ sid k) by done.
      replace (bool_decide (k ∈ sid :: map fst states)) with (bool_decide (k ∈ map fst states)); [done|].
      apply bool_decide_ext. rewrite elem_of_cons. naive_solver.
Qed.

(** An evaluation does not depend on the order of the map: in whatever order Go ranges over
    the strategies, each gets the same verdict, and the histories come out the same. *)
Theorem evaluation_order_free sharpe dd weight now sr l1 l2 : NoDup (map fst l1) -> l1 ≡ₚ l2 ->
  (Evaluate sharpe dd l1 weight now sr).1 ≡ₚ (Evaluate sharpe dd l2 weight now sr).1 /\
  sharpeHistory (Evaluate sharpe dd l1 weight now sr).2 = sharpeHistory (Evaluate sharpe dd l2 weight now sr).2.
Proof.
  intros N P. assert (N2 : NoDup (map fst l2)) by (by rewrite <- P). unfold Evaluate.
  destruct (evaluate_spec sharpe dd weight now l1 [] sr N) as (R1 & _ & _ & _ & _ & H1).
  destruct (evaluate_spec sharpe dd weight now l2 [] sr N2) as (R2 & _ & _ & _ & _ & H2). split.
  - rewrite R1, R2. cbn [app]. by apply Permutation_flat_map.
  - apply map_eq. intros sid. rewrite H1, H2.
    replace (bool_decide (sid ∈ map fst l1)) with (bool_decide (sid ∈ map fst l2)); [done|]. apply bool_decide_ext. by rewrite P.
Qed.

(** ** Verdicts *)
Lemma countDays_bound p window history : (0 <= window)%Z -> (countDays p window history <= window)%Z.
Proof.
  intros W. unfold countDays. pose proof (filter_length_le (fun x => p (spSharpe x)) (drop (Z.to_nat (Z.max 0 (Z.of_nat (length history) - window))) history)) as L.
  rewrite length_drop in L. lia.
Qed.

(** No strategy is ever deactivated for a degraded Sharpe ratio: with a window of fewer than
    sixty days, as the default's, sixty bad days are never counted.  A degraded strategy
    keeps being reduced instead, and made active, whatever its state was and whether or not
    it passed its benchmark filter. *)
Theorem degraded_is_never_deactivated sr dd weight sid state : (0 <= DegradationDays (config sr) < 60)%Z ->
  (forall r, verdict sr dd weight sid state = Some r -> ReAction r <> Deactivate) /\
  forall benchmark, state <> StrategyViolated -> (mget 0 dd sid >? default 15.0 (MaxDDThreshold (config sr) !! sid)) = false ->
    benchmarkSharpe sr !! sid = Some benchmark ->
    (DegradationDays (config sr) <= countDaysBelow sr sid (benchmark * SharpeDegradationPct (config sr)) (DegradationDays (config sr)))%Z ->
    verdict sr dd weight sid state = Some (mkReevaluation sid ReduceAllocation StrategyActive (mget 0 weight sid * 0.25)).
Proof.
  intros W.
  assert (D : forall t, Z.leb 60 (countDaysBelow sr sid t (DegradationDays (config sr))) = false).
  { intros t. apply Z.leb_gt. unfold countDaysBelow. pose proof (countDays_bound (fun s => s <? t) (DegradationDays (config sr)) (mget [] (sharpeHistory sr) sid) ltac:(lia)). lia. }
  split.
  - intros r. unfold verdict, evaluateDemotion, evaluatePromotion.
    repeat (case_match; try done; intros; simplify_eq/=; rewrite ?D, ?andb_false_r in *; try done).
  - intros benchmark V M B C. unfold verdict, evaluateDemotion. rewrite (bool_decide_eq_false_2 _ V), M, B.
    replace (Z.leb _ _) with true by (symmetry; by apply Z.leb_le). by rewrite D, andb_false_r.
Qed.
