(* ===== verification/Studies.v ===== *)
(** * Studies around a backtest ([internal/backtest]: start_timing.go, stage_screen.go,
    parallel_runner.go, live_comparison.go, regime_filter.go)

    The start-date sweep, the daily screen before a matrix, one engine per configuration, and
    the comparison of simulated with live fills.  Engines are the class [Backtests]. *)
From Stdlib Require Import ZArith Lia Bool Floats.
From coqutil Require Import RecordSettersUsingExistingGetters.
From S2P Require Import Prelude Float64 FloatRound FloatLaws Price StopLoss Fills Trade Engine Metrics Results OptimizedWalk Matrix.
From S2P Require WalkForward Performance Retention.
Import GoInt.
Local Open Scope float_scope.
Local Open Scope go_scope.

(** ** Start dates *)
Record StartTimingConfig := mkTiming {
  StStrategyID : string; StSymbols : list string; StStart : Z; StEnd : Z; HorizonMonths : Z; StepWeeks : Z; StCapital : float64;
  StDataSource : string; StTimeframe : string
}.
Record StartTimingWindow := mkTimingWindow { SwStart : Z; SwEnd : Z }.
Record StartTimingSample := mkSample {
  SsStart : Z; SsEnd : Z; SsTotalReturnPct : float64; SsSharpe : float64; SsMaxDrawdown : float64; SsWinRate : float64; SsNumTrades : Z
}.

Definition week : Z := (7 * WalkForward.day)%Z.
(** Products of durations wrap. *)
Definition stepOf (stepWeeks : Z) : Z := let step := i64 (stepWeeks * week) in if Z.leb step 0 then week else step.
Definition horizonOf (horizonMonths : Z) : Z := i64 (horizonMonths * 30 * WalkForward.day).

Definition sampleAt (end_ horizon s : Z) : list StartTimingWindow :=
  let e := if Z.ltb end_ (s + horizon) then end_ else (s + horizon)%Z in if Z.ltb s e then [mkTimingWindow s e] else [].

Fixpoint samplesFrom (fuel : nat) (end_ horizon step s : Z) : option (list StartTimingWindow) :=
  match fuel with
  | O => None
  | S fuel =>
      if Z.ltb s end_ then ws ← samplesFrom fuel end_ horizon step (s + step); Some (sampleAt end_ horizon s ++ ws) else Some []
  end.

(** [None]: out of fuel. *)
Definition GenerateStartTimingWindows (fuel : nat) (start end_ horizonMonths stepWeeks : Z) : option (list StartTimingWindow) :=
  if Z.leb end_ start || Z.leb horizonMonths 0 then Some []
  else samplesFrom fuel end_ (horizonOf horizonMonths) (stepOf stepWeeks) start.

Definition withTimingDefaults (cfg : StartTimingConfig) : StartTimingConfig :=
  cfg <| StCapital := if StCapital cfg <=? 0 then 100000 else StCapital cfg |>
      <| HorizonMonths := if Z.leb (HorizonMonths cfg) 0 then 6%Z else HorizonMonths cfg |>
      <| StepWeeks := if Z.leb (StepWeeks cfg) 0 then 4%Z else StepWeeks cfg |>.

Definition timingRun (cfg : StartTimingConfig) (w : StartTimingWindow) : RunConfig :=
  mkRun (mkConfig (StStrategyID cfg) (StSymbols cfg) (StCapital cfg) None 0 noFee true (Some (mkSL StopLossATR 0 0 14 2.0 0 0))
           (Some (mkTP TakeProfitRR 0 0 0 2.0)) false ∅ 0 0 0 0 [] None false false)
    (SwStart w) (SwEnd w) (StTimeframe cfg) (StDataSource cfg) false "".

Definition sampleOf (w : StartTimingWindow) (r : BacktestResult) : StartTimingSample :=
  mkSample (SwStart w) (SwEnd w) (TotalReturnPct r) (SharpeRatio r) (MaxDrawdown r) (WinRate r) (NumTrades r).

Section Runs.
Context {B : Backtests}.

(** The first error ends the sweep without a result. *)
Fixpoint runSamples (cfg : StartTimingConfig) (e : engine) (ws : list StartTimingWindow) : option (list StartTimingSample) * engine :=
  match ws with
  | [] => (Some [], e)
  | w :: ws =>
      let '(r, e) := runEngine e (timingRun cfg w) in
      match r with
      | None => (None, e)
      | Some r => let '(l, e) := runSamples cfg e ws in (cons (sampleOf w r) <$> l, e)
      end
  end.

(** The outer option is the fuel of the windows. *)
Definition RunStartTiming (fuel : nat) (cfg : StartTimingConfig) (e : engine) : option (option (list StartTimingSample) * engine) :=
  let cfg := withTimingDefaults cfg in
  ws ← GenerateStartTimingWindows fuel (StStart cfg) (StEnd cfg) (HorizonMonths cfg) (StepWeeks cfg);
  Some (runSamples cfg e ws).

(** ** The daily screen *)
Record StageOneResult := mkStage { SgStrategy : string; SgSymbol : string; SgNumTrades : Z; SgSharpe : float64; SgViable : bool }.

Definition pairKey (strategy symbol : string) : string := strategy +:+ "|" +:+ symbol.

(** The pairs whose key has not been seen, in order. *)
Fixpoint unseen (seen : gset string) (pairs : list (string * string)) : list (string * string) :=
  match pairs with
  | [] => []
  | p :: pairs =>
      let k := pairKey p.1 p.2 in
      if bool_decide (k ∈ seen) then unseen seen pairs else p :: unseen ({[k]} ∪ seen) pairs
  end.

Definition allPairs (config : MatrixBacktestConfig) : list (string * string) :=
  flat_map (fun s => map (pair s) (McSymbols config)) (McStrategyIDs config).

Definition screenConfig (config : MatrixBacktestConfig) (p : string * string) : RunConfig :=
  mkRun (mkConfig p.1 [p.2] (McCapital config) None 0 noFee false None None false ∅ 0 0 0 0 [] None false false)
    (McStart config) (McEnd config) "1d" (McDataSource config) false "".

(** The [k]th pair, on an engine of its own. *)
Definition screenPair (config : MatrixBacktestConfig) (e : engine) (k : nat) (p : string * string) : StageOneResult :=
  match (runEngine (NewEngine e k) (screenConfig config p)).1 with
  | Some r => if Z.eqb (NumTrades r) 0 then mkStage p.1 p.2 0 0 false else mkStage p.1 p.2 (NumTrades r) (SharpeRatio r) true
  | None => mkStage p.1 p.2 0 0 false
  end.

(** Viable and skipped. *)
Definition ScreenStageOne (config : MatrixBacktestConfig) (e : engine) : list StageOneResult * list StageOneResult :=
  let rs := imap (screenPair config e) (unseen ∅ (allPairs config)) in
  (List.filter SgViable rs, List.filter (fun r => negb (SgViable r)) rs).

Definition FilterIntradayCombos (combos : list BatchTuple) (viable : list StageOneResult) : list BatchTuple :=
  let v : gset string := list_to_set (map (fun r => pairKey (SgStrategy r) (SgSymbol r)) viable) in
  List.filter (fun c => bool_decide (pairKey (BtStrategy c) (BtSymbol c) ∈ v)) combos.

(** ** One engine per configuration *)

(** The results of one configuration, under each of its symbols. *)
Definition addRun (m : gmap string BacktestResult) (c : RunConfig * option BacktestResult) : gmap string BacktestResult :=
  match c.2 with Some r => fold_left (fun m sym => <[sym := r]> m) (Symbols c.1) m | None => m end.

(** [order]: the order in which the goroutines take the lock. *)
Definition RunParallel (e : engine) (configs : list RunConfig) (order : list nat) : gmap string BacktestResult :=
  if hasDB e then
    fold_left addRun
      (omap (fun i => (fun cfg => (cfg, (runEngine (NewEngine e i) cfg).1)) <$> configs !! i) order) ∅
  else ∅.
End Runs.

(** ** One regime of a run *)

(** The trades and the curve of one regime; and, of these, the share of wins, the Sharpe
    ratio and the drawdown. *)
Definition FilterByRegime (result : BacktestResult) (regime : Z) : list Trade * list EquityPoint * (float64 * float64 * float64) :=
  let trades := List.filter (fun t => Z.eqb (THMMRegime t) regime) (RTrades result) in
  let equity := List.filter (fun p => Z.eqb (EqRegime p) regime) (REquity result) in
  (trades, equity,
   match trades with [] => (0, 0, 0) | _ => (calculateWinRate trades, calculateSharpe equity, calculateMaxDrawdown equity) end).

(** ** Simulated against live fills *)
Record MatchedLiveTrade := mkMatched {
  MtSymbol : string; MtSide : string; MtDate : Z; EnginePrice : Price; LivePrice : Price; MtQuantity : float64; LimitPrice : Price;
  DayLow : Price; LiveExpense : float64; EngineExpense : float64
}.

Record ImpliedComparison := mkImplied {
  MatchedCount : Z; ImpliedSlippageBps : float64; ImpliedAvgAbsBps : float64; PenetrationPct : float64; ExpenseGapBps : float64;
  EntryPriceGapBps : float64
}.

(** The running sums; the weights of slippage and expense are the same. *)
Record sums := mkSums {
  count : Z; slipNum : float64; slipAbsNum : float64; slipDen : float64; penNum : float64; penDen : float64; expNum : float64;
  expDen : float64; gapNum : float64
}.
Definition noSums : sums := mkSums 0 0 0 0 0 0 0 0 0.

Definition usable (m : MatchedLiveTrade) : bool := negb ((Float64 (EnginePrice m) <=? 0) || (MtQuantity m <=? 0)).

Definition addMatched (s : sums) (m : MatchedLiveTrade) : sums :=
  if usable m then
    let engine := Float64 (EnginePrice m) in
    let live := Float64 (LivePrice m) in
    let limit := Float64 (LimitPrice m) in
    let dayLow := Float64 (DayLow m) in
    let weight := MtQuantity m in
    let slip := (live - engine) / engine * 10000.0 in
    let through := (limit >? 0) && (dayLow >? 0) && (dayLow <? limit) in
    mkSums (count s + 1) (slipNum s + slip * weight) (slipAbsNum s + math.Abs slip * weight) (slipDen s + weight)
      (if through then penNum s + (limit - dayLow) / limit * weight else penNum s) (if through then penDen s + weight else penDen s)
      (expNum s + (LiveExpense m - EngineExpense m) * weight) (expDen s + weight) (gapNum s + (live - engine) / engine * weight)
  else s.

Definition ComputeImpliedComparison (matched : list MatchedLiveTrade) : ImpliedComparison :=
  let s := fold_left addMatched matched noSums in
  let slipped := slipDen s >? 0 in
  mkImplied (count s) (if slipped then slipNum s / slipDen s else 0) (if slipped then slipAbsNum s / slipDen s else 0)
    (if penDen s >? 0 then penNum s / penDen s * 100.0 else 0) (if expDen s >? 0 then expNum s / expDen s else 0)
    (if slipped then gapNum s / slipDen s * 10000.0 else 0).

Definition divergeStep (maxPct : float64) (p : float64 * float64) : float64 :=
  if p.1 =? 0 then maxPct
  else let pct := math.Abs (p.2 - p.1) / math.Abs p.1 * 100.0 in if pct >? maxPct then pct else maxPct.

Definition MaxEquityDivergencePct (backtest live : list float64) : float64 := fold_left divergeStep (zip backtest live) 0.

(** ** Laws of the windows *)
Section Windows.
Local Open Scope Z_scope.

Lemma stepOf_pos n : 0 < stepOf n.
Proof. unfold stepOf. destruct (Z.leb_spec (i64 (n * week)) 0); [done|lia]. Qed.

(** The start of the [i]th sample. *)
Definition startAt (start step : Z) (i : nat) : Z := start + Z.of_nat i * step.
Definition windowAt (end_ horizon s : Z) : StartTimingWindow := mkTimingWindow s (Z.min end_ (s + horizon)).
(** The number of samples. *)
Definition samples (start end_ step : Z) : nat := Z.to_nat ((end_ - start + step - 1) / step).

Lemma samples_S start end_ step : 0 < step -> start < end_ -> samples start end_ step = S (samples (start + step) end_ step).
Proof.
  intros P L. unfold samples. replace (end_ - start + step - 1) with (end_ - (start + step) + step - 1 + 1 * step) by lia.
  rewrite Z.div_add by lia. pose proof (Z.div_pos (end_ - (start + step) + step - 1) step ltac:(lia) P). lia.
Qed.

Lemma samplesFrom_spec end_ horizon step : 0 < horizon -> 0 < step -> forall fuel start,
  (samples start end_ step < fuel)%nat -> samplesFrom fuel end_ horizon step start =
  Some (map (fun i => windowAt end_ horizon (startAt start step i)) (seq 0 (samples start end_ step))).
Proof.
  intros H P. induction fuel as [|fuel IH]; intros start L; [lia|]. cbn [samplesFrom]. destruct (Z.ltb_spec start end_) as [E|E].
  - rewrite (samples_S start) in * by done. rewrite IH by lia. cbn [mbind option_bind seq map]. f_equal. unfold sampleAt.
    replace (if end_ <? start + horizon then end_ else start + horizon) with (Z.min end_ (start + horizon))
      by (destruct (Z.ltb_spec end_ (start + horizon)); lia).
    destruct (Z.ltb_spec start (Z.min end_ (start + horizon))); [|lia]. cbn [app]. f_equal.
    + unfold startAt, windowAt. cbn. by rewrite Z.add_0_r.
    + rewrite <- (seq_shift _ 0), map_map. apply map_ext. intros i. unfold startAt.
      by replace (start + step + Z.of_nat i * step) with (start + Z.of_nat (S i) * step) by lia.
  - assert ((end_ - start + step - 1) / step < 1) by (apply Z.div_lt_upper_bound; lia).
    assert (Z0 : samples start end_ step = 0%nat) by (unfold samples; lia). by rewrite Z0.
Qed.

(** The loop ends, and its windows are exactly those that open one step after the other from
    the start until the end, each running for the horizon or to the end. *)
Theorem start_windows_laid_out start end_ months weeks fuel : start < end_ -> 0 < months <= 3558 ->
  (samples start end_ (stepOf weeks) < fuel)%nat ->
  exists ws, GenerateStartTimingWindows fuel start end_ months weeks = Some ws /\
    length ws = samples start end_ (stepOf weeks) /\
    (forall i w, ws !! i = Some w -> SwStart w = startAt start (stepOf weeks) i /\
       SwEnd w = Z.min end_ (SwStart w + months * 30 * WalkForward.day) /\ start <= SwStart w < SwEnd w) /\
    end_ <= startAt start (stepOf weeks) (length ws).
Proof.
  intros L M F. unfold GenerateStartTimingWindows. destruct (Z.leb_spec end_ start); [lia|]. destruct (Z.leb_spec months 0); [lia|].
  cbn [orb]. pose proof (stepOf_pos weeks) as P.
  assert (Hz : horizonOf months = months * 30 * WalkForward.day) by (apply i64_id; unfold in_i64, WalkForward.day; lia).
  rewrite samplesFrom_spec; [|rewrite Hz; unfold WalkForward.day; lia|done|done]. eexists. split; [reflexivity|].
  rewrite length_map, length_seq. split; [done|]. assert (D := Z.div_mod (end_ - start + stepOf weeks - 1) (stepOf weeks) ltac:(lia)).
  assert (B := Z.mod_pos_bound (end_ - start + stepOf weeks - 1) (stepOf weeks) P).
  assert (Q := Z.div_pos (end_ - start + stepOf weeks - 1) (stepOf weeks) ltac:(lia) P). split.
  - intros i w E. rewrite list.list_lookup_fmap in E. apply fmap_Some in E as (j & E & ->).
    apply lookup_seq in E as [-> Hj]. cbn [Nat.add]. unfold windowAt. cbn [SwStart SwEnd]. rewrite Hz.
    assert (startAt start (stepOf weeks) i < end_) by (unfold startAt, samples in *; nia).
    split; [done|]. split; [done|]. unfold startAt in *. unfold WalkForward.day. nia.
  - unfold startAt, samples. nia.
Qed.

(** Beyond 3558 months the product of the horizon wraps: the sweep of a long horizon has no window. *)
Example long_horizon_has_no_window : GenerateStartTimingWindows 200 0 (1000 * WalkForward.day) 4000 4 = Some [].
Proof. vm_compute. reflexivity. Qed.
End Windows.

(** ** Laws of the runs *)
Section RunLaws.
Context {B : Backtests}.

Lemma runSamples_spec cfg : forall ws e l e', runSamples cfg e ws = (Some l, e') ->
  map (fun s => mkTimingWindow (SsStart s) (SsEnd s)) l = ws.
Proof.
  induction ws as [|w ws IH]; intros e l e' E; cbn [runSamples] in E; [by injection E as <- <-|].
  destruct (runEngine e (timingRun cfg w)) as [[r|] e1]; [|done]. destruct (runSamples cfg e1 ws) as [[l1|] e2] eqn:E2; [|done].
  injection E as <- <-. cbn [map]. rewrite (IH _ _ _ E2). by destruct w.
Qed.

(** A sweep returns either one sample for every window, those without trades included, in
    their order, or an error; it always returns. *)
Theorem start_timing_samples_every_window fuel cfg e : let c := withTimingDefaults cfg in
  (samples (StStart c) (StEnd c) (stepOf (StepWeeks c)) < fuel)%nat -> (HorizonMonths c <= 3558)%Z ->
  exists ws r e', GenerateStartTimingWindows fuel (StStart c) (StEnd c) (HorizonMonths c) (StepWeeks c) = Some ws /\
    RunStartTiming fuel cfg e = Some (r, e') /\
    match r with Some l => map (fun s => mkTimingWindow (SsStart s) (SsEnd s)) l = ws | None => True end.
Proof.
  intros c F M. assert (G : exists ws, GenerateStartTimingWindows fuel (StStart c) (StEnd c) (HorizonMonths c) (StepWeeks c) = Some ws).
  { destruct (Z.leb_spec (StEnd c) (StStart c)) as [L|L].
    - unfold GenerateStartTimingWindows. replace (Z.leb (StEnd c) (StStart c)) with true by (symmetry; by apply Z.leb_le). by exists [].
    - destruct (start_windows_laid_out (StStart c) (StEnd c) (HorizonMonths c) (StepWeeks c) fuel L) as (ws & E & _); [|done|by exists ws].
      split; [|done]. unfold c, withTimingDefaults. cbn. unfold RecordSettersUsingExistingGetters.const.
      destruct (Z.leb_spec (HorizonMonths cfg) 0); lia. }
  destruct G as [ws G]. exists ws. unfold RunStartTiming. fold c. rewrite G. cbn [mbind option_bind].
  destruct (runSamples c e ws) as [r e'] eqn:E. exists r, e'. split; [done|]. split; [done|]. destruct r as [l|]; [|done].
  exact (runSamples_spec c ws e l e' E).
Qed.

Lemma unseen_keys pairs : forall seen p, p ∈ pairs ->
  pairKey p.1 p.2 ∈ seen \/ exists q, q ∈ unseen seen pairs /\ pairKey q.1 q.2 = pairKey p.1 p.2.
Proof.
  induction pairs as [|x pairs IH]; intros seen p I; [by apply list.not_elem_of_nil in I|]. cbn [unseen].
  destruct (decide (pairKey x.1 x.2 ∈ seen)) as [S|S].
  - rewrite bool_decide_eq_true_2 by done. apply list.elem_of_cons in I as [->|I]; [by left|by apply IH].
  - rewrite bool_decide_eq_false_2 by done. apply list.elem_of_cons in I as [->|I]; [right; exists x; split; [left|done]|].
    destruct (IH ({[pairKey x.1 x.2]} ∪ seen) p I) as [J|(q & Q & K)].
    + apply elem_of_union in J as [J%elem_of_singleton|J]; [right; exists x; split; [left|done]|by left].
    + right. exists q. split; [by right|done].
Qed.

Lemma unseen_fresh pairs : forall seen, Forall (fun p => pairKey p.1 p.2 ∉ seen) (unseen seen pairs) /\
  NoDup (map (fun p => pairKey p.1 p.2) (unseen seen pairs)).
Proof.
  induction pairs as [|x pairs IH]; intros seen; [split; constructor|]. cbn [unseen].
  destruct (decide (pairKey x.1 x.2 ∈ seen)) as [S|S]; [rewrite bool_decide_eq_true_2 by done; apply IH|].
  rewrite bool_decide_eq_false_2 by done. destruct (IH ({[pairKey x.1 x.2]} ∪ seen)) as [F N]. split.
  - constructor; [done|]. eapply list.Forall_impl; [exact F|]. cbn. set_solver.
  - cbn [map]. constructor; [|done]. intros (q & E & Q%list_elem_of_In)%list_elem_of_In%in_map_iff.
    rewrite list.Forall_forall in F. specialize (F q Q). cbn in F. apply F. rewrite E. apply elem_of_union_l. by apply elem_of_singleton.
Qed.

Lemma map_imap_key {A C D} (key : C -> D) (f : nat -> A -> C) (g : A -> D) l :
  (forall k x, key (f k x) = g x) -> map key (imap f l) = map g l.
Proof.
  intros H. revert f H. induction l as [|x l IH]; intros f H; [done|]. rewrite imap_cons. cbn [map].
  rewrite H. f_equal. apply IH. intros k y. apply H.
Qed.

Lemma screenPair_spec config e k p : let r := screenPair config e k p in
  pairKey (SgStrategy r) (SgSymbol r) = pairKey p.1 p.2 /\ (SgViable r = true -> SgNumTrades r <> 0%Z).
Proof. unfold screenPair. destruct (runEngine _ _).1 as [r|]; [destruct (Z.eqb_spec (NumTrades r) 0)|]; cbn; done. Qed.

(** The funnel.  Each key is screened once; each pair that is asked for is screened, and
    comes out on exactly one side; and of the combos of a matrix exactly those go on
    whose pair came out viable. *)
Theorem funnel_keeps_the_viable config e combos : let '(viable, skipped) := ScreenStageOne config e in
  let key r := pairKey (SgStrategy r) (SgSymbol r) in
  NoDup (map key (viable ++ skipped)) /\
  (forall s sym, s ∈ McStrategyIDs config -> sym ∈ McSymbols config -> exists r, r ∈ viable ++ skipped /\ key r = pairKey s sym) /\
  Forall (fun r => SgViable r = true /\ SgNumTrades r <> 0%Z) viable /\ Forall (fun r => SgViable r = false) skipped /\
  forall c, c ∈ FilterIntradayCombos combos viable <-> c ∈ combos /\ exists r, r ∈ viable /\ key r = pairKey (BtStrategy c) (BtSymbol c).
Proof.
  unfold ScreenStageOne. set (rs := imap _ _). cbv beta zeta.
  assert (K : map (fun r => pairKey (SgStrategy r) (SgSymbol r)) rs = map (fun p => pairKey p.1 p.2) (unseen ∅ (allPairs config)))
    by (apply map_imap_key; intros; apply screenPair_spec).
  split_and!.
  - rewrite (Permutation_map _ (Retention.filter_split SgViable rs)), K. apply unseen_fresh.
  - intros s sym Is Iy. destruct (unseen_keys (allPairs config) ∅ (s, sym)) as [N|(q & Q & E)].
    + apply list_elem_of_In, in_flat_map. exists s. split; [by apply list_elem_of_In|]. apply in_map. by apply list_elem_of_In.
    + by apply not_elem_of_empty in N.
    + assert (I : pairKey q.1 q.2 ∈ map (fun r => pairKey (SgStrategy r) (SgSymbol r)) rs).
      { rewrite K. apply list_elem_of_In, in_map_iff. exists q. split; [done|]. by apply list_elem_of_In. }
      apply list_elem_of_In, in_map_iff in I as (r & R & I%list_elem_of_In). exists r. split; [|by rewrite R].
      by rewrite (Retention.filter_split SgViable rs).
  - apply list.Forall_forall. intros r I. apply list_elem_of_In, filter_In in I as [I V]. split; [done|].
    apply list_elem_of_In, list.elem_of_lookup_imap in I as (k & p & -> & _). by apply screenPair_spec.
  - apply list.Forall_forall. intros r I. apply list_elem_of_In, filter_In in I as [_ V]. by apply negb_true_iff.
  - intros c. unfold FilterIntradayCombos. rewrite list_elem_of_In, filter_In, bool_decide_eq_true, elem_of_list_to_set, <- list_elem_of_In.
    rewrite (list_elem_of_In (map _ _)), in_map_iff. setoid_rewrite list_elem_of_In. naive_solver.
Qed.
End RunLaws.

(** ** Laws of the comparison *)
Section ComparisonLaws.
Local Open Scope Z_scope.

Lemma ffin_add_inv x y : ffin (x + y)%float = true -> ffin x = true /\ ffin y = true.
Proof.
  unfold ffin, fnan, finf. rewrite add_spec. destruct (Prim2SF x) as [s|s| |s m e], (Prim2SF y) as [s'|s'| |s' m' e']; try done.
  by destruct s, s'.
Qed.

Lemma ffin_mul_inv x y : ffin (x * y)%float = true -> ffin x = true /\ ffin y = true.
Proof. unfold ffin, fnan, finf. rewrite mul_spec. by destruct (Prim2SF x) as [s|s| |s m e], (Prim2SF y) as [s'|s'| |s' m' e']. Qed.

Lemma sf_val_normalize_opp m e :
  sf_val (binary_normalize prec emax (- m) e false) = sf_val (SFopp (binary_normalize prec emax m e false)).
Proof.
  unfold binary_normalize. destruct m as [|p|p]; [done| |]; [change (- Z.pos p) with (Z.neg p)|change (- Z.neg p) with (Z.pos p)]; unfold binary_round;
    destruct (shl_align _ _ _) as [mz ez]; rewrite Performance.round_aux_opp; reflexivity.
Qed.

(** The sum of the opposites is the opposite of the sum, up to the sign of a zero. *)
Lemma fv_add_opp x y : ffin x = true -> ffin y = true -> fv (- x + - y)%float = - fv (x + y)%float.
Proof.
  intros Fx Fy. rewrite <- fv_opp. unfold fv. rewrite add_spec, !opp_spec, add_spec.
  destruct (ffin_cases x Fx) as [(sx & -> & _)|(sx & mx & ex & -> & _)], (ffin_cases y Fy) as [(sy & -> & _)|(sy & my & ey & -> & _)];
    [destruct sx, sy; reflexivity|reflexivity|reflexivity|].
  unfold SF64add. cbn [SFopp SFadd]. set (mx' := fst _). set (my' := fst _).
  assert (N : forall a b, cond_Zopp (negb a) b = - cond_Zopp a b) by (intros [] b; cbn; lia). rewrite !N.
  replace (- cond_Zopp sx (Z.pos mx') + - cond_Zopp sy (Z.pos my')) with (- (cond_Zopp sx (Z.pos mx') + cond_Zopp sy (Z.pos my'))) by lia.
  apply sf_val_normalize_opp.
Qed.

(** [x] is a term of the signed sum and [y] the corresponding term of the absolute one. *)
Lemma add_dominated s a x y : ffin s = true -> ffin a = true -> ffin x = true -> ffin y = true ->
  Z.abs (fv s) <= fv a -> Z.abs (fv x) <= fv y -> ffin (a + y)%float = true ->
  ffin (s + x)%float = true /\ Z.abs (fv (s + x)%float) <= fv (a + y)%float.
Proof.
  intros Fs Fa Fx Fy S X F.
  assert (U : forall s x, ffin s = true -> ffin x = true -> fv s <= fv a -> fv x <= fv y -> fv (s + x)%float <= fv (a + y)%float).
  { intros s' x' Fs' Fx' S' X'. pose proof (add_nearest s' x' Fs' Fx') as N1. pose proof (add_nearest a y Fa Fy) as N2.
    destruct (Z.eq_dec (fv s' + fv x') (fv a + fv y)) as [E|E]; [|apply (nearest_mono _ _ _ _ _ Z.lt_0_1 N1 N2); lia].
    destruct (same_or_zero s' a Fs' Fa ltac:(lia)) as [->|[E1 E2]], (same_or_zero x' y Fx' Fy ltac:(lia)) as [->|[E3 E4]]; try lia.
    - rewrite (nearest_exact _ _ _ a Z.lt_0_1 N1 (ffin_nan a Fa)), (nearest_exact _ _ _ a Z.lt_0_1 N2 (ffin_nan a Fa)); lia.
    - rewrite (nearest_exact _ _ _ y Z.lt_0_1 N1 (ffin_nan y Fy)), (nearest_exact _ _ _ y Z.lt_0_1 N2 (ffin_nan y Fy)); lia.
    - rewrite E1, E3 in N1. rewrite E2, E4 in N2. rewrite (nearest_zero _ _ Z.lt_0_1 N1), (nearest_zero _ _ Z.lt_0_1 N2). lia. }
  pose proof (U s x Fs Fx ltac:(lia) ltac:(lia)) as U1.
  pose proof (U (- s)%float (- x)%float) as U2. rewrite !ffin_opp, !fv_opp, fv_add_opp in U2 by done. specialize (U2 Fs Fx ltac:(lia) ltac:(lia)).
  apply ffin_range in F. split; [|lia]. apply ffin_of_range; [apply (add_nearest s x Fs Fx)|lia].
Qed.

Lemma mul_abs x w : ffin x = true -> ffin w = true -> 0 < fv w -> ffin (math.Abs x * w)%float = true ->
  ffin (x * w)%float = true /\ Z.abs (fv (x * w)%float) = fv (math.Abs x * w)%float.
Proof.
  intros Fx Fw W F. assert (P : 0 <= fv (math.Abs x * w)%float) by (apply mul_pos0; [by apply pos0_abs|split; [done|lia]]).
  assert (E : math.Abs x = x \/ math.Abs x = (- x)%float).
  { unfold math.Abs. destruct (ffin_cases x Fx) as [([] & E & _)|([] & m & e & E & _)]; [right|left|right|left];
      apply Prim2SF_inj; rewrite ?opp_spec, abs_spec, E; reflexivity. }
  destruct E as [E|E]; rewrite E in *; [split; [done|lia]|]. rewrite Performance.mul_opp in * by done. rewrite ffin_opp in F. rewrite fv_opp in *.
  split; [done|lia].
Qed.

(** What the signed and the absolute slippage of a run of matched trades are to each other. *)
Definition dominated (s : sums) : Prop := ffin (slipNum s) = true /\ Z.abs (fv (slipNum s)) <= fv (slipAbsNum s).

Lemma addMatched_dominated s m : (ffin (slipAbsNum s) = true -> dominated s) -> 
  ffin (slipAbsNum (addMatched s m)) = true -> dominated (addMatched s m).
Proof.
  intros D. unfold addMatched. destruct (usable m) eqn:U; [|done]. unfold dominated. cbn [slipAbsNum slipNum]. intros F.
  destruct (ffin_add_inv _ _ F) as [Fa Fm]. destruct (ffin_mul_inv _ _ Fm) as [Fs Fw]. destruct (D Fa) as [Fn B].
  unfold math.Abs in Fs. rewrite ffin_abs in Fs.
  assert (W : 0 < fv (MtQuantity m)).
  { unfold usable in U. apply negb_true_iff, orb_false_iff in U as [_ U]. apply (leb_false _ 0%float) in U; [done|by apply ffin_nan|done]. }
  destruct (mul_abs _ _ Fs Fw W Fm) as [Fx E]. apply add_dominated; try done. lia.
Qed.

Lemma matched_dominated l : forall s, (ffin (slipAbsNum s) = true -> dominated s) ->
  ffin (slipAbsNum (fold_left addMatched l s)) = true -> dominated (fold_left addMatched l s).
Proof. induction l as [|m l IH]; intros s D; [done|]. cbn [fold_left]. apply IH. intros F. by apply addMatched_dominated. Qed.

Lemma div_dominated x a d : ffin x = true -> ffin a = true -> ffin d = true -> 0 < fv d -> Z.abs (fv x) <= fv a ->
  Z.abs (fv (x / d)%float) <= fv (a / d)%float.
Proof.
  intros Fx Fa Fd D L. pose proof (div_mono_l x a d Fx Fa Fd D ltac:(lia)) as U.
  pose proof (div_mono_l (- a)%float x d) as V. rewrite ffin_opp, fv_opp in V. specialize (V Fa Fx Fd D ltac:(lia)).
  rewrite Performance.div_opp, fv_opp in V by done. lia.
Qed.

(** The signed slippage of a comparison is never larger than the absolute one, in floating
    point too, as long as the sums stay finite. *)
Theorem signed_slippage_within_absolute matched : let s := fold_left addMatched matched noSums in
  ffin (slipAbsNum s) = true -> ffin (slipDen s) = true ->
  let c := ComputeImpliedComparison matched in Z.abs (fv (ImpliedSlippageBps c)) <= fv (ImpliedAvgAbsBps c).
Proof.
  intros s F D c. unfold c, ComputeImpliedComparison. fold s. cbn [ImpliedSlippageBps ImpliedAvgAbsBps].
  destruct (0 <? slipDen s)%float eqn:P; [|rewrite fv_zero_lit; lia]. apply ltb_true in P as (_ & _ & P). rewrite fv_zero_lit in P.
  destruct (matched_dominated matched noSums) as [Fn B]; [done|done|]. by apply div_dominated.
Qed.

(** The side of a trade does not matter: a live sale below the simulated price, which costs
    money, is the same negative number as a cheaper purchase. *)
Theorem slippage_ignores_the_side m side : forall s, addMatched s (m <| MtSide := side |>) = addMatched s m.
Proof. done. Qed.
End ComparisonLaws.
