(* ===== verification/TaskQueue.v ===== *)
(** * The queue of matrix tasks ([internal/backtest/dispatcher.go])

    An in-memory table of tasks by batch and sequence number.  A map is ranged over in an order
    that is an argument; the methods are critical sections. *)
From Stdlib Require Import ZArith Lia Bool.
From coqutil Require Import RecordSettersUsingExistingGetters.
From S2P Require Import Prelude Retention.
Local Open Scope Z_scope.

Inductive TaskStatus := TaskPending | TaskRunning | TaskCompleted | TaskFailed | TaskCancelled | TaskSkipped.
#[export] Instance task_status_eq : EqDecision TaskStatus. Proof. solve_decision. Defined.

(** The three entries of the specification map. *)
Record taskSpec := mkSpec { tsStrategy : string; tsSymbol : string; tsTimeframe : string }.

Record taskRecord := mkTask {
  BatchID : string; Seq : Z; Spec : taskSpec; Status : TaskStatus; Result : option ComboResult; Created : Z
}.

Abbreviation batch := (gmap Z taskRecord).
Abbreviation TaskQueue := (gmap string batch).

Definition NewTaskQueue : TaskQueue := ∅.

Definition pendingTask (batchID : string) (now : Z) (i : nat) (c : ComboResult) : taskRecord :=
  mkTask batchID (Z.of_nat i) (mkSpec (CrStrategyID c) (CrSymbol c) (CrTimeframe c)) TaskPending None now.

Definition Enqueue (batchID : string) (combos : list ComboResult) (now : Z) (tq : TaskQueue) : Z * TaskQueue :=
  let old := default ∅ (tq !! batchID) in
  (Z.of_nat (length combos),
   <[batchID := fold_left (fun b t => <[Seq t := t]> b) (imap (pendingTask batchID now) combos) old]> tq).

Definition open (t : taskRecord) : bool := bool_decide (Status t = TaskPending) || bool_decide (Status t = TaskRunning).

Definition CountPending (batchID : string) (tq : TaskQueue) : Z :=
  match tq !! batchID with
  | Some b => Z.of_nat (size (filter (fun e => open e.2 = true) b))
  | None => 0
  end.

(** The first pending task of the range; -1 when there is none. *)
Definition claimable (b : batch) (order : list Z) : option Z :=
  List.find (fun seq => match b !! seq with Some t => bool_decide (Status t = TaskPending) | None => false end) order.

Definition ClaimNext (batchID : string) (order : list Z) (tq : TaskQueue) : Z * option taskSpec * TaskQueue :=
  match tq !! batchID with
  | None => (-1, None, tq)
  | Some b =>
      match claimable b order with
      | Some seq =>
          (seq, Spec <$> b !! seq, <[batchID := alter (fun t => t <| Status := TaskRunning |>) seq b]> tq)
      | None => (-1, None, tq)
      end
  end.

(** [None] leaves the queue alone when the batch or the task is unknown. *)
Definition onTask (batchID : string) (seq : Z) (f : taskRecord -> taskRecord) (tq : TaskQueue) : TaskQueue :=
  alter (alter f seq) batchID tq.

Definition Complete (batchID : string) (seq : Z) (result : option ComboResult) : TaskQueue -> TaskQueue :=
  onTask batchID seq (fun t => t <| Status := TaskCompleted |> <| Result := result |>).

Definition Fail_ (batchID : string) (seq : Z) (errMsg : string) : TaskQueue -> TaskQueue :=
  onTask batchID seq (fun t => t <| Status := TaskFailed |> <| Result := Some ((namedCombo "" "" "") <| CrError := errMsg |>) |>).

Definition CancelBatch (batchID : string) (tq : TaskQueue) : Z * TaskQueue :=
  (CountPending batchID tq, alter (fmap (fun t => if open t then t <| Status := TaskCancelled |> else t)) batchID tq).

Definition reportable (sinceSeq : Z) (e : Z * taskRecord) : option ComboResult :=
  if Z.leb sinceSeq e.1 && bool_decide (Status e.2 = TaskCompleted) then Result e.2 else None.

(** The largest sequence number, or [m]. *)
Definition highest (l : list (Z * taskRecord)) (m : Z) : Z := fold_left (fun m e => if Z.ltb m e.1 then e.1 else m) l m.

(** [entries]: the entries of the batch in the order Go ranges over them. *)
Definition GetResultsSince (entries : option (list (Z * taskRecord))) (sinceSeq : Z) : list ComboResult * Z :=
  match entries with
  | None => ([], 0)
  | Some l => (omap (reportable sinceSeq) l, highest l 0 + 1)
  end.

(** ** Runs on one batch *)
Section Runs.
Variable id : string.

Inductive op :=
| DoClaim (order : list Z)
| DoComplete (seq : Z) (result : option ComboResult)
| DoFail (seq : Z) (errMsg : string)
| DoCancel.

(** The task that is claimed, if any, and the queue. *)
Definition runOp (o : op) (tq : TaskQueue) : option Z * TaskQueue :=
  match o with
  | DoClaim order => let '(seq, spec, tq) := ClaimNext id order tq in ((fun _ => seq) <$> spec, tq)
  | DoComplete seq r => (None, Complete id seq r tq)
  | DoFail seq e => (None, Fail_ id seq e tq)
  | DoCancel => (None, (CancelBatch id tq).2)
  end.

Fixpoint runOps (ops : list op) (tq : TaskQueue) : list Z * TaskQueue :=
  match ops with
  | [] => ([], tq)
  | o :: ops => let '(c, tq) := runOp o tq in let '(cs, tq) := runOps ops tq in (option_list c ++ cs, tq)
  end.

Definition task (tq : TaskQueue) (seq : Z) : option taskRecord := b ← tq !! id; b !! seq.

Definition afterOp (o : op) (claimed : option Z) (seq : Z) (t : taskRecord) : taskRecord :=
  match o with
  | DoClaim _ => if bool_decide (claimed = Some seq) then t <| Status := TaskRunning |> else t
  | DoComplete s r => if bool_decide (s = seq) then t <| Status := TaskCompleted |> <| Result := r |> else t
  | DoFail s e => if bool_decide (s = seq) then t <| Status := TaskFailed |> <| Result := Some ((namedCombo "" "" "") <| CrError := e |>) |> else t
  | DoCancel => if open t then t <| Status := TaskCancelled |> else t
  end.

Lemma task_onTask s f tq seq : task (onTask id s f tq) seq = (fun t => if bool_decide (s = seq) then f t else t) <$> task tq seq.
Proof.
  unfold task, onTask. rewrite lookup_alter_eq. destruct (tq !! id) as [b|]; [|done]. cbn -[bool_decide]. destruct (decide (s = seq)) as [->|N].
  - rewrite lookup_alter_eq, bool_decide_eq_true_2 by done. done.
  - rewrite lookup_alter_ne, bool_decide_eq_false_2 by done. by destruct (b !! seq).
Qed.

Lemma claimable_pending b order seq : claimable b order = Some seq -> exists t, b !! seq = Some t /\ Status t = TaskPending.
Proof.
  intros [_ E]%find_some. destruct (b !! seq) as [t|]; [|done]. exists t. split; [done|]. by apply bool_decide_eq_true in E.
Qed.

(** What an operation does to every task: a claim takes one pending task, and the others
    change the tasks they name. *)
Lemma runOp_task o tq : let '(c, tq') := runOp o tq in
  (forall seq, task tq' seq = afterOp o c seq <$> task tq seq) /\
  (forall seq, c = Some seq -> exists t, task tq seq = Some t /\ Status t = TaskPending).
Proof.
  destruct o as [order|s r|s e|]; cbn [runOp afterOp].
  - unfold ClaimNext. destruct (tq !! id) as [b|] eqn:Eb; [|split; [|done]; intros seq; unfold task; rewrite Eb; done].
    destruct (claimable b order) as [s|] eqn:C; cbn [fmap option_fmap option_map].
    + destruct (claimable_pending b order s C) as (t & Et & P). rewrite Et. cbn -[bool_decide]. split.
      * intros seq. unfold task. rewrite lookup_insert_eq, Eb. cbn -[bool_decide]. destruct (decide (s = seq)) as [->|N].
        -- rewrite lookup_alter_eq, Et. cbn -[bool_decide]. rewrite bool_decide_eq_true_2 by done. done.
        -- rewrite lookup_alter_ne by done. destruct (b !! seq); [|done]. cbn -[bool_decide]. rewrite bool_decide_eq_false_2 by congruence. done.
      * intros seq [= <-]. exists t. unfold task. by rewrite Eb.
    + split; [|done]. intros seq. unfold task. rewrite Eb. cbn -[bool_decide]. by destruct (b !! seq).
  - split; [apply task_onTask|done].
  - split; [apply task_onTask|done].
  - split; [|done]. intros seq. unfold CancelBatch, task. cbn -[bool_decide]. rewrite lookup_alter_eq. destruct (tq !! id) as [b|]; [|done]. cbn.
    by rewrite lookup_fmap.
Qed.

Definition waiting (tq : TaskQueue) (seq : Z) : Prop := exists t, task tq seq = Some t /\ Status t = TaskPending.

Lemma runOp_waiting o tq : let '(c, tq') := runOp o tq in
  (forall seq, waiting tq' seq -> waiting tq seq /\ c <> Some seq) /\ (forall seq, c = Some seq -> waiting tq seq) /\
  (forall seq, is_Some (task tq' seq) <-> is_Some (task tq seq)).
Proof.
  pose proof (runOp_task o tq) as R. destruct (runOp o tq) as [c tq'] eqn:E. destruct R as [T C]. split; [|split; [done|]].
  - intros seq (t' & Et & P). rewrite T in Et. apply fmap_Some in Et as (t & Et & ->). destruct o; cbn [afterOp] in P; cbn [runOp] in E.
    1: destruct (decide (c = Some seq)) as [->|N]; [by rewrite bool_decide_eq_true_2 in P by done|];
      rewrite bool_decide_eq_false_2 in P by done; split; [by exists t|done].
    1, 2: injection E as <- _; split; [|done]; exists t; split; [done|]; by destruct (bool_decide _).
    injection E as <- _. split; [|done]. exists t. split; [done|]. by destruct (open t).
  - intros seq. rewrite T. by rewrite fmap_is_Some.
Qed.

Lemma runOps_claims ops : forall tq, let '(cs, tq') := runOps ops tq in
  NoDup cs /\ Forall (waiting tq) cs /\ (forall seq, is_Some (task tq' seq) <-> is_Some (task tq seq)).
Proof.
  induction ops as [|o ops IH]; intros tq; [cbn; split; [constructor|]; split; [constructor|done]|]. cbn [runOps].
  pose proof (runOp_waiting o tq) as W. destruct (runOp o tq) as [c tq1]. destruct W as (W1 & W2 & W3).
  specialize (IH tq1). destruct (runOps ops tq1) as [cs tq2]. destruct IH as (N & F & D). split; [|split].
  - destruct c as [seq|]; [|done]. cbn. constructor; [|done]. intros I. rewrite list.Forall_forall in F.
    by destruct (W1 seq (F seq I)) as [_ ?].
  - apply list.Forall_app. split; [destruct c as [seq|]; [|constructor]; constructor; [by apply W2|constructor]|].
    eapply list.Forall_impl; [exact F|]. intros seq H. by apply W1.
  - intros seq. rewrite D. apply W3.
Qed.

(** However the workers interleave, no task is handed out twice, and only tasks that were
    pending are handed out. *)
Theorem no_task_claimed_twice ops tq : let '(cs, _) := runOps ops tq in NoDup cs /\ Forall (waiting tq) cs.
Proof. pose proof (runOps_claims ops tq) as H. destruct (runOps ops tq) as [cs tq']. tauto. Qed.
End Runs.

(** ** Polling *)
Lemma highest_ge l : forall m, m <= highest l m /\ Forall (fun e => e.1 <= highest l m) l.
Proof.
  unfold highest. induction l as [|e l IH]; intros m; [split; [cbn; lia|constructor]|]. cbn [fold_left].
  destruct (IH (if Z.ltb m e.1 then e.1 else m)) as [L F]. destruct (Z.ltb_spec m e.1); split; try lia; constructor; (done || lia).
Qed.

Lemma highest_least l M : forall m, m <= M -> Forall (fun e => e.1 <= M) l -> highest l m <= M.
Proof.
  unfold highest. induction l as [|e l IH]; intros m L F; [done|]. cbn [fold_left]. apply list.Forall_cons in F as [Fe F].
  apply IH; [|done]. destruct (Z.ltb_spec m e.1); lia.
Qed.

(** A client that asks again with the cursor of its last answer gets nothing, ever: the
    cursor is past every task of the batch, finished or not.  What was still running at the
    first poll is never reported. *)
Theorem second_poll_is_empty id ops tq b entries since b' entries' : tq !! id = Some b -> entries ≡ₚ map_to_list b ->
  (runOps id ops tq).2 !! id = Some b' -> entries' ≡ₚ map_to_list b' ->
  let cursor := (GetResultsSince (Some entries) since).2 in GetResultsSince (Some entries') cursor = ([], cursor).
Proof.
  intros Eb P Eb' P' cursor. pose proof (runOps_claims id ops tq) as R.
  assert (D : forall seq, is_Some (b' !! seq) <-> is_Some (b !! seq)).
  { intros seq. destruct (runOps id ops tq) as [cs tq2]. destruct R as (_ & _ & R). specialize (R seq).
    unfold task in R. cbn in Eb'. by rewrite Eb, Eb' in R. }
  assert (I : forall l (m : batch), l ≡ₚ map_to_list m -> forall seq, (exists t, (seq, t) ∈ l) <-> is_Some (m !! seq)).
  { intros l m E seq. split; [intros [t H]; rewrite E in H; apply elem_of_map_to_list in H; by exists t|].
    intros [t H]. exists t. rewrite E. by apply elem_of_map_to_list. }
  assert (B : forall l l' : list (Z * taskRecord), (forall seq, (exists t, (seq, t) ∈ l) -> exists t, (seq, t) ∈ l') -> Forall (fun e => e.1 <= highest l' 0) l).
  { intros l l' S. apply list.Forall_forall. intros [seq t] H. destruct (S seq) as [t' H']; [by exists t|].
    destruct (highest_ge l' 0) as [_ F]. rewrite list.Forall_forall in F. exact (F _ H'). }
  assert (S1 := B entries' entries ltac:(intros seq; rewrite (I _ _ P), (I _ _ P'); apply D)).
  assert (S2 := B entries entries' ltac:(intros seq; rewrite (I _ _ P), (I _ _ P'); apply D)).
  assert (E : highest entries' 0 = highest entries 0).
  { apply Z.le_antisymm; apply highest_least; try done; apply highest_ge. }
  unfold cursor, GetResultsSince. cbn [snd]. rewrite E. f_equal.
  clear - S1. induction entries' as [|e l IH]; [done|]. apply list.Forall_cons in S1 as [S1 S2]. cbn [omap list_omap].
  unfold reportable at 1. destruct (Z.leb_spec (highest entries 0 + 1) e.1); [lia|]. cbn [andb]. by apply IH.
Qed.

(** A batch that was cancelled can still complete. *)
Example cancelled_task_completes : let tq := (Enqueue "b" [namedCombo "s" "AAA" "1d"] 0 NewTaskQueue).2 in
  Status <$> task "b" (Complete "b" 0 None (CancelBatch "b" tq).2) 0 = Some TaskCompleted.
Proof. vm_compute. reflexivity. Qed.
