(* ===== verification/EnhancedHmm.v ===== *)
(** * The five-dimensional regime filter and the validation of its parameters
    ([internal/risk]: hmm_enhanced.go, hmm_validation.go)

    [UpdateEnhanced] moves the tracker of Hmm.v on a vector of five observations.  [math.Exp]
    and [math.Log] are arguments. *)
From Stdlib Require Import ZArith Lia Bool Floats.
From S2P Require Import Prelude Float64 FloatRound FloatLaws Indicators Hmm.
Local Open Scope float_scope.
Local Open Scope go_scope.

Record EnhancedHMMParams := mkEnhanced {
  ETransition : list (list float64); EInitialProbs : list float64; EEmissionMeans : list (list float64);
  EEmissionCovars : list (list (list float64)); EEmissionDiagSDs : list (list float64); ELoaded : bool
}.

Section Enhanced.
Context `{Logarithm} (Exp : float64 -> float64).

(** The term of one dimension. *)
Definition logDensity (o mu sd : float64) : float64 :=
  let sd := if sd <? 1e-4 then 1e-4 else sd in
  let z := (o - mu) / sd in
  -0.5 * z * z - Log sd - 0.5 * Log (2.0 * 3.141592653589793).

Definition emissionProbMultiDim (state : nat) (obs : list float64) (params : EnhancedHMMParams) : float64 :=
  if (4 <=? state)%nat then 0
  else
    let means := nth state (EEmissionMeans params) [] in
    let sds := nth state (EEmissionDiagSDs params) [] in
    Exp (fold_left (fun s d => s + logDensity (nth d obs 0) (nth d means 0) (nth d sds 0)) (seq 0 5) 0).

Definition enhancedAlpha (params : EnhancedHMMParams) (alpha obs : list float64) : list float64 :=
  map (fun j => predict alpha (ETransition params) j * emissionProbMultiDim j obs params) (seq 0 4).

(** The belief, the state and its confidence.  Without mass the masses are kept. *)
Definition settle (new : list float64) : list float64 * Z * float64 :=
  let total := sumFrom0 new in
  if total >? 0 then
    let alpha := map (fun a => a / total) new in
    let '(state, conf) := bestState alpha in (alpha, state, conf)
  else (new, 0%Z, 0).

Definition UpdateEnhanced (priceRaw prevPrice : Z) (obs : list float64) (params : EnhancedHMMParams) (t : HMMTracker) : HMMTracker :=
  if Z.leb prevPrice 0 || negb (ELoaded params) then t
  else
    let t := pushReturn t (returnOf priceRaw prevPrice) in
    if Z.ltb (ReturnCount t) 10 then t
    else
      let '(alpha, state, conf) := settle (enhancedAlpha params (Alpha t) obs) in
      mkTracker (Model t) state conf alpha (LastReturns t) (ReturnCount t) (ReturnIdx t).
End Enhanced.

(** ** The validation *)
Record HMMCheck := mkCheck { CkName : string; CkPassed : bool; CkMessage : string }.
Record HMMValidationResult := mkValidation { Checks : list HMMCheck; VPassed : bool }.

Definition check (name bad good : string) (failed : bool) : HMMCheck := mkCheck name (negb failed) (if failed then bad else good).

Definition rowUnbalanced (row : list float64) : bool := math.Abs (sumFrom0 row - 1.0) >? 0.01.

Definition ValidateHMMParams (transition : list (list float64)) (means sds : list float64) : HMMValidationResult :=
  let sd i := nth i sds 0 in
  let tr i j := nth j (nth i transition []) 0 in
  let checks :=
    [check "emission_sd_ordering" "HIGH_VOL emission SD should not be the smallest — states may be mislabeled" "SD ordering looks sensible"
       ((sd 2%nat <? sd 0%nat) || (sd 2%nat <? sd 1%nat));
     check "transition_highvol_to_crisis"
       "HIVOL→CRISIS transition is near-zero — model cannot detect crisis escalation from high volatility"
       "HIVOL→CRISIS transition is plausible" (tr 2%nat 3%nat <? 0.001);
     check "transition_trending_self" "TRENDING self-transition is low — trending state is transient, not persistent"
       "TRENDING self-transition is plausible" (tr 1%nat 1%nat <? 0.5)] ++
    (if existsb rowUnbalanced transition then [mkCheck "transition_row_sum" false "Transition matrix row does not sum to 1.0"] else []) ++
    (if existsb (fun s => s <=? 0) sds then [mkCheck "emission_sd_positive" false "Emission SD must be positive"] else []) in
  mkValidation checks (forallb CkPassed checks).

(** ** Laws *)

(** No mass: zero, or not a number. *)
Definition massless (x : float64) : Prop := match Prim2SF x with S754_zero _ | S754_nan => True | _ => False end.

Lemma massless_mul x y : massless x -> massless (x * y).
Proof. unfold massless. rewrite mul_spec. by destruct (Prim2SF x), (Prim2SF y). Qed.

Lemma massless_add x y : massless x -> massless y -> massless (x + y).
Proof. unfold massless. rewrite add_spec. destruct (Prim2SF x) as [[]|?| |???], (Prim2SF y) as [[]|?| |???]; done. Qed.

Lemma massless_sum l : Forall massless l -> massless (sumFrom0 l).
Proof.
  unfold sumFrom0. assert (Z0 : massless 0) by done. revert Z0. generalize 0 as s.
  induction l as [|x l IH]; intros s S F; [done|]. apply list.Forall_cons in F as [Fx F]. cbn. apply IH; [by apply massless_add|done].
Qed.

Lemma massless_no_total x : massless x -> (0 <? x) = false.
Proof. unfold massless. rewrite ltb_spec. by destruct (Prim2SF x). Qed.

Lemma massless_nth alpha i : Forall massless alpha -> massless (nth i alpha 0).
Proof. intros F. revert i. induction F as [|x l Fx F IH]; intros [|i]; try done. apply IH. Qed.

Section Underflow.
Context `{Logarithm} (Exp : float64 -> float64) (params : EnhancedHMMParams).

Lemma enhancedAlpha_massless alpha obs : Forall massless alpha -> Forall massless (enhancedAlpha Exp params alpha obs).
Proof.
  intros F. apply list.Forall_forall. intros x (j & <- & _)%list_elem_of_In%in_map_iff. apply massless_mul.
  unfold predict. apply massless_sum, list.Forall_forall. intros y (i & <- & _)%list_elem_of_In%in_map_iff.
  by apply massless_mul, massless_nth.
Qed.

Lemma settle_massless new : Forall massless new -> settle new = (new, 0%Z, 0).
Proof. intros F. unfold settle. by rewrite massless_no_total by (by apply massless_sum). Qed.

Definition lost (t : HMMTracker) : Prop := Forall massless (Alpha t) /\ CurrentState t = HMMCalm /\ Confidence t = 0.

(** Price, previous price and observations. *)
Definition feed (ticks : list (Z * Z * list float64)) (t : HMMTracker) : HMMTracker :=
  fold_left (fun t x => UpdateEnhanced Exp x.1.1 x.1.2 x.2 params t) ticks t.

Lemma lost_step t x : lost t -> lost (UpdateEnhanced Exp x.1.1 x.1.2 x.2 params t).
Proof.
  intros (F & S & C). unfold UpdateEnhanced. destruct (_ || _); [done|]. destruct (Z.ltb _ 10); [done|].
  rewrite settle_massless by (by apply enhancedAlpha_massless). split; [|done]. by apply enhancedAlpha_massless.
Qed.

(** An observation so far out that every state's mass underflows loses the belief for good:
    whatever is observed afterwards, the regime stays calm with confidence zero.  [Update]
    of Hmm.v keeps the old belief instead. *)
Theorem enhanced_underflow_is_forever t price prev obs ticks : (0 < prev)%Z -> ELoaded params = true -> (10 <= ReturnCount (pushReturn t (returnOf price prev)))%Z ->
  Forall massless (enhancedAlpha Exp params (Alpha t) obs) ->
  GetRegime (feed ticks (UpdateEnhanced Exp price prev obs params t)) = (HMMCalm, 0).
Proof.
  intros P L N F. assert (S : lost (UpdateEnhanced Exp price prev obs params t)).
  { unfold UpdateEnhanced. rewrite L. destruct (Z.leb_spec prev 0); [lia|]. cbn [orb negb].
    destruct (Z.ltb_spec (ReturnCount (pushReturn t (returnOf price prev))) 10); [lia|].
    change (Alpha (pushReturn t (returnOf price prev))) with (Alpha t). by rewrite settle_massless. }
  clear - S. revert S. generalize (UpdateEnhanced Exp price prev obs params t) as s.
  induction ticks as [|x ticks IH]; intros s S; [destruct S as (_ & S & C); unfold GetRegime; cbn; by rewrite S, C|].
  cbn [feed fold_left]. apply IH. by apply lost_step.
Qed.
End Underflow.

(** ** The validation decides *)

(** A set of parameters passes exactly when the states are ordered by their deviations, a
    crisis can follow a high volatility, a trend lasts, the rows sum to one up to a percent,
    and the deviations are positive. *)
Theorem validation_decides transition means sds : let sd i := nth i sds 0 in let tr i j := nth j (nth i transition []) 0 in
  VPassed (ValidateHMMParams transition means sds) = true <->
  ((sd 2%nat <? sd 0%nat) = false /\ (sd 2%nat <? sd 1%nat) = false) /\ (tr 2%nat 3%nat <? 0.001) = false /\ (tr 1%nat 1%nat <? 0.5) = false /\
  Forall (fun row => rowUnbalanced row = false) transition /\ Forall (fun s => (s <=? 0) = false) sds.
Proof.
  intros sd tr. unfold ValidateHMMParams. cbn [VPassed]. fold sd. change (nth 3 (nth 2 transition []) 0) with (tr 2%nat 3%nat).
  change (nth 1 (nth 1 transition []) 0) with (tr 1%nat 1%nat). fold (sd 0%nat) (sd 1%nat) (sd 2%nat).
  rewrite !forallb_app. cbn [forallb CkPassed check]. rewrite !andb_true_iff, !negb_true_iff, orb_false_iff.
  assert (X : forall A (p : A -> bool) l nm msg,
    forallb CkPassed (if existsb p l then [mkCheck nm false msg] else []) = true <-> Forall (fun x => p x = false) l).
  { intros A p l nm msg. rewrite list.Forall_forall. destruct (existsb p l) eqn:E; cbn.
    - split; [done|]. intros H. apply existsb_exists in E as (x & I%list_elem_of_In & E). by rewrite (H x I) in E.
    - split; [|done]. intros _ x I. destruct (p x) eqn:Ex; [|done]. assert (existsb p l = true); [|congruence].
      apply existsb_exists. exists x. split; [by apply list_elem_of_In|done]. }
  rewrite !X. tauto.
Qed.

Example default_model_passes : VPassed (ValidateHMMParams (Transition DefaultHMM) (EmissionMeans DefaultHMM) (EmissionSDs DefaultHMM)) = true.
Proof. vm_compute. reflexivity. Qed.
