(* ===== verification/Book.v ===== *)
(** * The order book, the fill and fee models, and the life cycle of a strategy
    ([internal/market/orderbook.go]; [internal/model]: fill.go, fee.go, latency.go, lifecycle.go)

    A book has 32 levels a side; prices and quantities are [uint64] and wrap. *)
From Stdlib Require Import ZArith Lia Bool Floats.
From coqutil Require Import RecordSettersUsingExistingGetters.
From S2P Require Import Prelude Float64 FloatRound FloatLaws.
From S2P Require Fills.
Import GoInt.
Local Open Scope Z_scope.

(** ** The book *)
Definition MaxLevels : Z := 32.

Record PriceLevel := mkLevel { LvPrice : Z; LvQuantity : Z; LvOrders : Z }.
Definition noLevel : PriceLevel := mkLevel 0 0 0.

Record OrderBook := mkBook {
  SymbolID : Z; Bids : list PriceLevel; Asks : list PriceLevel; BidCount : Z; AskCount : Z; VWAP : float64; TotalVol : Z
}.

Definition noLevels : list PriceLevel := replicate (Z.to_nat MaxLevels) noLevel.
Definition NewOrderBook (symbolID : Z) : OrderBook := mkBook symbolID noLevels noLevels 0 0 0 0.

Definition UpdateBid (index price quantity : Z) (ob : OrderBook) : OrderBook :=
  if (0 <=? index) && (index <? MaxLevels) then
    ob <| Bids := <[Z.to_nat index := mkLevel price quantity 1]> (Bids ob) |> <| BidCount := Z.max (BidCount ob) (index + 1) |>
  else ob.

Definition UpdateAsk (index price quantity : Z) (ob : OrderBook) : OrderBook :=
  if (0 <=? index) && (index <? MaxLevels) then
    ob <| Asks := <[Z.to_nat index := mkLevel price quantity 1]> (Asks ob) |> <| AskCount := Z.max (AskCount ob) (index + 1) |>
  else ob.

Definition best (count : Z) (levels : list PriceLevel) : Z * Z :=
  if count =? 0 then (0, 0) else let l := nth 0 levels noLevel in (LvPrice l, LvQuantity l).
Definition BestBid (ob : OrderBook) : Z * Z := best (BidCount ob) (Bids ob).
Definition BestAsk (ob : OrderBook) : Z * Z := best (AskCount ob) (Asks ob).

Definition MidPrice (ob : OrderBook) : Z :=
  let bidPrice := (BestBid ob).1 in
  let askPrice := (BestAsk ob).1 in
  if (bidPrice =? 0) || (askPrice =? 0) then 0 else u64 (bidPrice + askPrice) / 2.

Definition Spread (ob : OrderBook) : Z :=
  let bid := (BestBid ob).1 in
  let ask := (BestAsk ob).1 in
  if (bid =? 0) || (ask =? 0) then 0 else u64 (ask - bid).

Definition quantityOf (count : Z) (levels : list PriceLevel) : Z :=
  fold_left (fun s l => u64 (s + LvQuantity l)) (take (Z.to_nat count) levels) 0.

Definition ImbalanceRatio (ob : OrderBook) : float64 :=
  let bidTotal := quantityOf (BidCount ob) (Bids ob) in
  let total := u64 (bidTotal + quantityOf (AskCount ob) (Asks ob)) in
  if total =? 0 then 0.5%float else (of_Z bidTotal / of_Z total)%float.

Definition Reset_ (ob : OrderBook) : OrderBook := NewOrderBook (SymbolID ob).

(** ** Fills *)

(** The conversion of a float to [uint64] on amd64. *)
Definition uint64 (x : float64) : Z :=
  let z := Z.quot (fv x) onev in
  if fnan x then 2 ^ 63 else if z <? 0 then u64 (math.int64 x) else if z <? 2 ^ 64 then z else 0.

Section Fills.
Local Open Scope float_scope.
Local Open Scope go_scope.
Context (Exp : float64 -> float64).

Record ProbabilisticFill := mkProbabilistic { BaseFillRate : float64; SpreadSensitivity : float64; VolumeScale : float64 }.
Definition NewProbabilisticFill (baseFillRate spreadSensitivity volumeScale : float64) : ProbabilisticFill :=
  mkProbabilistic baseFillRate spreadSensitivity volumeScale.

Definition sigmoid (x : float64) : float64 := 1.0 / (1.0 + Exp (- x)).

Definition capped (lo hi x : float64) : float64 := let x := if x >? hi then hi else x in if x <? lo then lo else x.

Definition FillProbability (p : ProbabilisticFill) (limitPrice midPrice spread volume : Z) (atr : float64) : float64 :=
  if Z.eqb spread 0 then BaseFillRate p
  else
    let halfSpread := of_Z spread / 2.0 in
    let distanceFromMid := math.Abs (of_Z limitPrice - of_Z midPrice) in
    let volAdjust := if atr >? 0 then capped 0.1 2.0 (of_Z volume / (atr * VolumeScale p)) else 1.0 in
    let alpha := SpreadSensitivity p * (halfSpread - distanceFromMid) / halfSpread in
    capped 0.0 1.0 (BaseFillRate p * volAdjust * sigmoid alpha).

Definition FillPrice (limitPrice midPrice : Z) (side : string) (atr : float64) : Z :=
  let slip := if atr >? 0 then atr * 0.15 else 0 in
  let lo := of_Z midPrice * 0.99 in
  let hi := of_Z midPrice * 1.01 in
  if bool_decide (side = "BUY"%string) then uint64 (capped lo hi (of_Z limitPrice + slip))
  else
    let fp := of_Z limitPrice - slip in
    let fp := if fp <? lo then lo else fp in
    uint64 (if fp >? hi then hi else fp).

(** The model that fills at the middle. *)
Definition MidPriceFillProbability : float64 := 1.0.
Definition MidPriceFillPrice (limitPrice midPrice : Z) (side : string) (atr : float64) : Z := midPrice.

(** ** Fees and latencies *)
Record FixedFee := mkFixed { MakerBps : float64; TakerBps : float64 }.
Definition MakerFee (f : FixedFee) (notional : float64) : float64 := notional * MakerBps f / 10000.0.
Definition TakerFee (f : FixedFee) (notional : float64) : float64 := notional * TakerBps f / 10000.0.

Record ConstantLatency := mkLatency { Entry : Z; Response : Z }.
Definition EntryLatency : ConstantLatency -> Z := Entry.
Definition ResponseLatency : ConstantLatency -> Z := Response.
End Fills.

(** ** The life cycle *)
Inductive LifecycleStatus := LifecycleDraft | LifecycleBacktested | LifecycleReady | LifecycleLive | LifecycleHalted | LifecycleArchived.
#[export] Instance lifecycle_eq : EqDecision LifecycleStatus. Proof. solve_decision. Defined.

Definition ValidTransitions (s : LifecycleStatus) : list LifecycleStatus :=
  match s with
  | LifecycleDraft => [LifecycleBacktested; LifecycleArchived]
  | LifecycleBacktested => [LifecycleReady; LifecycleDraft; LifecycleArchived]
  | LifecycleReady => [LifecycleLive; LifecycleDraft; LifecycleArchived]
  | LifecycleLive => [LifecycleHalted; LifecycleReady; LifecycleArchived]
  | LifecycleHalted => [LifecycleLive; LifecycleArchived]
  | LifecycleArchived => []
  end.

Definition CanTransitionTo (s target : LifecycleStatus) : bool := existsb (fun a => bool_decide (a = target)) (ValidTransitions s).

Definition Color (s : LifecycleStatus) : string :=
  match s with
  | LifecycleDraft => "#8b949e" | LifecycleBacktested => "#58a6ff" | LifecycleReady => "#d29922" | LifecycleLive => "#3fb950"
  | LifecycleHalted => "#da3633" | LifecycleArchived => "#484f58"
  end.

Definition Label (s : LifecycleStatus) : string :=
  match s with
  | LifecycleDraft => "Draft" | LifecycleBacktested => "Backtested" | LifecycleReady => "Ready for Live" | LifecycleLive => "Live"
  | LifecycleHalted => "Halted" | LifecycleArchived => "Archived"
  end.

(** ** Laws of the book *)
Definition side_ok (count : Z) (levels : list PriceLevel) : Prop :=
  0 <= count <= MaxLevels /\ length levels = Z.to_nat MaxLevels /\
  (forall i l, levels !! i = Some l -> in_u64 (LvPrice l) /\ in_u64 (LvQuantity l)) /\
  forall i, (count <= Z.of_nat i)%Z -> (i < Z.to_nat MaxLevels)%nat -> levels !! i = Some noLevel.

Definition book_ok (ob : OrderBook) : Prop := side_ok (BidCount ob) (Bids ob) /\ side_ok (AskCount ob) (Asks ob).

Lemma side_ok_empty : side_ok 0 noLevels.
Proof.
  split; [done|]. split; [done|]. split.
  - intros i l [-> _]%lookup_replicate. done.
  - intros i _ L. by apply lookup_replicate.
Qed.

Lemma side_ok_update count levels index price quantity : side_ok count levels -> 0 <= index < MaxLevels -> in_u64 price -> in_u64 quantity ->
  side_ok (Z.max count (index + 1)) (<[Z.to_nat index := mkLevel price quantity 1]> levels).
Proof.
  intros (C & L & R & E) I P Q. unfold side_ok, MaxLevels in *. split; [lia|]. split; [by rewrite list.length_insert|]. split.
  - intros i l Hl. destruct (decide (i = Z.to_nat index)) as [->|N]; [|rewrite list.list_lookup_insert_ne in Hl by done; by apply (R i)].
    rewrite list.list_lookup_insert_eq in Hl by lia. by injection Hl as <-.
  - intros i Hi Hn. rewrite list.list_lookup_insert_ne by lia. apply E; lia.
Qed.

Inductive bookOp := OpBid (index price quantity : Z) | OpAsk (index price quantity : Z) | OpReset.
Definition bookStep (ob : OrderBook) (o : bookOp) : OrderBook :=
  match o with OpBid i p q => UpdateBid i p q ob | OpAsk i p q => UpdateAsk i p q ob | OpReset => Reset_ ob end.
Definition opOk (o : bookOp) : Prop := match o with OpBid _ p q | OpAsk _ p q => in_u64 p /\ in_u64 q | OpReset => True end.

(** Whatever the feed writes, at whatever index, the book keeps its 32 levels a side, never
    writes outside them, and has nothing beyond its counts. *)
Theorem book_stays_in_bounds id ops : Forall opOk ops -> book_ok (fold_left bookStep ops (NewOrderBook id)).
Proof.
  assert (B : book_ok (NewOrderBook id)) by (split; apply side_ok_empty). revert B. generalize (NewOrderBook id) as ob.
  induction ops as [|o ops IH]; intros ob B F; [done|]. apply list.Forall_cons in F as [Fo F]. cbn [fold_left]. apply IH; [|done].
  destruct o as [i p q|i p q|]; cbn [bookStep]; [| |split; apply side_ok_empty]; destruct B as [B1 B2], Fo as [P Q];
    unfold UpdateBid, UpdateAsk; destruct (Z.leb_spec 0 i), (Z.ltb_spec i MaxLevels); cbn [andb]; try (split; done);
    first [split; [by apply side_ok_update|done]|split; [done|by apply side_ok_update]].
Qed.

Lemma best_in_u64 count levels : side_ok count levels -> in_u64 (best count levels).1.
Proof.
  intros (C & L & R & _). unfold best. destruct (count =? 0); [done|]. destruct levels as [|l ls]; [done|]. by apply (R 0%nat l).
Qed.

(** The middle lies between the sides and the spread is their distance, for a book that is
    not crossed and whose prices do not overflow when they are added. *)
Theorem mid_between_sides ob : let bid := (BestBid ob).1 in let ask := (BestAsk ob).1 in
  book_ok ob -> 0 < bid <= ask -> bid + ask < 2 ^ 64 -> bid <= MidPrice ob <= ask /\ bid + Spread ob = ask.
Proof.
  intros bid ask [B A] L S. pose proof (best_in_u64 _ _ A) as U. fold (BestAsk ob) in U. fold ask in U. unfold in_u64 in U.
  unfold MidPrice, Spread. fold bid ask. destruct (Z.eqb_spec bid 0); [lia|]. destruct (Z.eqb_spec ask 0); [lia|]. cbn [orb].
  rewrite !u64_id by (unfold in_u64; lia). split; [|lia]. split; [apply Z.div_le_lower_bound|apply Z.div_le_upper_bound]; lia.
Qed.

(** A crossed book has a spread of almost 2^64. *)
Example crossed_book_spread : Spread (UpdateAsk 0 99 1 (UpdateBid 0 100 1 (NewOrderBook 1))) = 2 ^ 64 - 1.
Proof. vm_compute. reflexivity. Qed.

Lemma quantityOf_range count levels : 0 <= quantityOf count levels < 2 ^ 64.
Proof.
  unfold quantityOf. generalize (take (Z.to_nat count) levels) as ls. intros ls.
  assert (G : forall s, 0 <= s < 2 ^ 64 -> 0 <= fold_left (fun s l => u64 (s + LvQuantity l)) ls s < 2 ^ 64); [|by apply G].
  induction ls as [|l ls IH]; intros s H; [done|]. cbn [fold_left]. apply IH, u64_range.
Qed.

Lemma of_Z_u64 z : 0 <= z < 2 ^ 64 -> pos0 (of_Z z) /\ (0 < z -> 0 < fv (of_Z z)).
Proof.
  intros H. assert (F : ffin (of_Z z) = true).
  { apply (nearest_fin _ _ _ 0x1p64%float Z.lt_0_1 (of_Z_nearest z) eq_refl).
    replace (fv 0x1p64%float) with (2 ^ 64 * 2 ^ 1074) by (vm_compute; reflexivity). lia. }
  assert (M : 0 < z -> 0 < fv (of_Z z)).
  { intros P. destruct (Z.eq_dec z 1) as [->|N]; [by vm_compute|].
    assert (fv (of_Z 1) <= fv (of_Z z)) by (apply (nearest_mono _ _ _ _ _ Z.lt_0_1 (of_Z_nearest 1) (of_Z_nearest z)); lia).
    assert (0 < fv (of_Z 1)) by (by vm_compute). lia. }
  split; [|done]. split; [done|]. destruct (Z.eq_dec z 0) as [->|N]; [by vm_compute|]. lia.
Qed.

(** The imbalance is a share, as long as the quantities of the book do not overflow. *)
Theorem imbalance_is_a_share ob : quantityOf (BidCount ob) (Bids ob) + quantityOf (AskCount ob) (Asks ob) < 2 ^ 64 -> unit0 (ImbalanceRatio ob).
Proof.
  intros T. unfold ImbalanceRatio. pose proof (quantityOf_range (BidCount ob) (Bids ob)) as B.
  pose proof (quantityOf_range (AskCount ob) (Asks ob)) as A. rewrite u64_id by (unfold in_u64; lia).
  set (b := quantityOf (BidCount ob) (Bids ob)) in *. set (a := quantityOf (AskCount ob) (Asks ob)) in *.
  destruct (Z.eqb_spec (b + a) 0); [by vm_compute|]. destruct (of_Z_u64 b B) as [Pb _]. destruct (of_Z_u64 (b + a) ltac:(lia)) as [[Ft _] Pt].
  apply div_le_one; [done|done|apply Pt; lia|]. destruct (Z.eq_dec a 0) as [->|N]; [by rewrite Z.add_0_r|].
  apply (nearest_mono _ _ _ _ _ Z.lt_0_1 (of_Z_nearest b) (of_Z_nearest (b + a))). lia.
Qed.

(** ** Laws of the fills *)
Section FillLaws.

Lemma capped_range lo hi x : fnan lo = false -> fnan hi = false -> fnan x = false -> fv lo <= fv hi ->
  fnan (capped lo hi x) = false /\ fv lo <= fv (capped lo hi x) <= fv hi.
Proof.
  intros Nl Nh Nx L. unfold capped. destruct (hi <? x)%float eqn:E1.
  - destruct (hi <? lo)%float eqn:E2; [apply ltb_true in E2; lia|]. split; [done|lia].
  - apply ltb_false in E1; [|done|done]. destruct (x <? lo)%float eqn:E2; [split; [done|lia]|]. apply ltb_false in E2; [|done|done].
    split; [done|lia].
Qed.

Lemma capped_nan lo hi x : fnan x = true -> capped lo hi x = x.
Proof.
  intros N. assert (E1 : (hi <? x)%float = false) by (by rewrite ltb_fv, N, andb_false_r).
  assert (E2 : (x <? lo)%float = false) by (by rewrite ltb_fv, N). unfold capped. by rewrite E1, E2.
Qed.

(** The probability is one, whatever the model's numbers and the market's are, unless it is
    not a number at all; where the spread is zero the base rate is returned as it is. *)
Theorem fill_probability_range Exp p limit mid spread volume atr : spread <> 0 ->
  let r := FillProbability Exp p limit mid spread volume atr in fnan r = true \/ unit0 r.
Proof.
  intros S r. unfold r, FillProbability. destruct (Z.eqb_spec spread 0); [done|]. cbv zeta.
  match goal with |- context [capped 0 1 ?x] => set (prob := x) end. destruct (fnan prob) eqn:N; [left; by rewrite capped_nan|right].
  destruct (capped_range 0%float 1%float prob eq_refl eq_refl N ltac:(by vm_compute)) as [Nr R]. rewrite fv_one, fv_zero_lit in R.
  split; [|done]. apply (ffin_between 0%float _ 1%float); [done|done|done|by rewrite fv_one].
Qed.

Lemma slipped_not_nan limit slip : 0 <= limit < 2 ^ 64 -> fnan slip = false -> 0 <= fv slip ->
  fnan (of_Z limit + slip)%float = false /\ fnan (of_Z limit - slip)%float = false.
Proof.
  intros L N S. destruct (of_Z_u64 limit L) as [[F _] _]. destruct (ffin slip) eqn:Fs.
  - split; [apply (add_nearest _ _ F Fs)|apply (sub_nearest _ _ F Fs)].
  - rewrite (nonfin_pos slip N Fs S), add_inf, sub_inf by done. done.
Qed.

Lemma slip_not_nan atr : let slip := (if 0 <? atr then atr * 0.15 else 0)%float in fnan slip = false /\ 0 <= fv slip.
Proof.
  cbv zeta. destruct (0 <? atr)%float eqn:E; [|done]. apply ltb_true in E as (_ & N & E). rewrite fv_zero_lit in E.
  destruct (ffin atr) eqn:F; [apply mul_pos0; [split; [done|lia]|by vm_compute]|].
  rewrite (nonfin_pos atr N F) by lia. split; [done|]. by vm_compute.
Qed.

Lemma uint64_between lo hi x : fnan x = false -> 0 <= fv lo -> fv lo <= fv x <= fv hi -> fv hi < 2 ^ 64 * onev ->
  Z.quot (fv lo) onev <= uint64 x <= Z.quot (fv hi) onev.
Proof.
  intros N L B H. pose proof onev_pos as O. unfold uint64. rewrite N.
  rewrite !Z.quot_div_nonneg by lia. pose proof (Z.div_pos (fv x) onev ltac:(lia) O).
  destruct (Z.ltb_spec (fv x / onev) 0); [lia|]. assert (fv x / onev < 2 ^ 64) by (apply Z.div_lt_upper_bound; lia).
  destruct (Z.ltb_spec (fv x / onev) (2 ^ 64)); [|lia]. split; apply Z.div_le_mono; lia.
Qed.

(** However far the limit and the volatility are from the market, a fill is priced within
    one per cent of the middle. *)
Theorem fill_near_middle limit mid side atr : 0 <= limit < 2 ^ 64 -> 0 <= mid < 2 ^ 62 ->
  Z.quot (fv (of_Z mid * 0.99)%float) onev <= FillPrice limit mid side atr <= Z.quot (fv (of_Z mid * 1.01)%float) onev.
Proof.
  intros L M. destruct (of_Z_u64 mid ltac:(lia)) as [[F P] _]. destruct (slip_not_nan atr) as [Ns Ps].
  destruct (slipped_not_nan limit _ L Ns Ps) as [Nb Nd].
  set (lo := (of_Z mid * 0.99)%float). set (hi := (of_Z mid * 1.01)%float).
  assert (Nlo : fnan lo = false) by (by apply mul_pos0). assert (Nhi : fnan hi = false) by (by apply mul_pos0).
  assert (Plo : 0 <= fv lo) by (by apply mul_pos0).
  assert (LH : fv lo <= fv hi).
  { unfold lo, hi. rewrite !(Fills.fmul_comm (of_Z mid)). apply mul_mono_l; [done|done|done|by vm_compute]. }
  assert (H : fv hi < 2 ^ 64 * onev).
  { apply (Z.le_lt_trans _ (fv (0x1p62 * 1.01)%float)); [|by vm_compute]. apply mul_mono_l; [done|done|by vm_compute|].
    destruct (Z.eq_dec (fv (of_Z mid)) (fv 0x1p62%float)); [lia|].
    assert (E : nearest (2 ^ 62 * 2 ^ 1074) 1 0x1p62%float).
    { replace 0x1p62%float with (of_Z (2 ^ 62)) by (vm_compute; reflexivity). apply of_Z_nearest. }
    apply (nearest_mono _ _ _ _ _ Z.lt_0_1 (of_Z_nearest mid) E). lia. }
  unfold FillPrice. fold lo hi. destruct (bool_decide _).
  - destruct (capped_range lo hi _ Nlo Nhi Nb LH) as [N B]. by apply uint64_between.
  - set (fp := (of_Z limit - _)%float). fold fp in Nd.
    assert (B : fnan (let fp := if (fp <? lo)%float then lo else fp in if (hi <? fp)%float then hi else fp) = false /\
      fv lo <= fv (let fp := if (fp <? lo)%float then lo else fp in if (hi <? fp)%float then hi else fp) <= fv hi).
    { cbv zeta. destruct (fp <? lo)%float eqn:E1.
      - destruct (hi <? lo)%float eqn:E2; [split; [done|lia]|]. split; [done|lia].
      - apply ltb_false in E1; [|done|done]. destruct (hi <? fp)%float eqn:E2; [split; [done|lia]|].
        apply ltb_false in E2; [|done|done]. split; [done|lia]. }
    destruct B as [N B]. by apply uint64_between.
Qed.
End FillLaws.

(** ** Laws of the life cycle *)

(** The states a strategy goes through, the newest first. *)
Inductive lived : list LifecycleStatus -> Prop :=
| lived_draft : lived [LifecycleDraft]
| lived_step s s' l : lived (s :: l) -> CanTransitionTo s s' = true -> lived (s' :: s :: l).

(** A strategy that is live has been backtested and made ready on the way, and an archived
    one goes nowhere. *)
Theorem live_was_backtested s l : lived (s :: l) ->
  (s = LifecycleLive \/ s = LifecycleHalted -> LifecycleReady ∈ l /\ LifecycleBacktested ∈ l) /\
  (LifecycleArchived ∉ l).
Proof.
  intros H. remember (s :: l) as p eqn:E. revert s l E.
  enough (G : lived p -> match p with [] => True | s :: l =>
    (s = LifecycleReady -> LifecycleBacktested ∈ l) /\
    (s = LifecycleLive \/ s = LifecycleHalted -> LifecycleReady ∈ l /\ LifecycleBacktested ∈ l) /\ LifecycleArchived ∉ l end).
  { intros s l ->. destruct (G H) as (_ & A & B). done. }
  clear H. induction 1 as [|s s' l H IH T]; [split; [done|]; split; [by intros []|by apply list.not_elem_of_nil]|].
  destruct IH as (R & V & A). destruct s, s'; try discriminate T; (split; [intros; try done; set_solver|]); 
    (split; [intros []; try done; set_solver|]); set_solver.
Qed.
