(* ===== verification/OrchMatrix.v ===== *)
(** * Orchestrations in a batch ([internal/backtest/orchestrator_matrix.go])

    One orchestrator per set of strategies, two at a time; what succeeds is saved.  Goroutines
    are the order in which they finish.  [None] of a run is a panic, which ends the process. *)
From Stdlib Require Import ZArith Lia Bool Floats.
From coqutil Require Import RecordSettersUsingExistingGetters.
From S2P Require Import Prelude Float64 FloatRound FloatLaws Trade Engine Orchestrator.
From S2P Require Matrix.
Local Open Scope float_scope.
Local Open Scope go_scope.

Record OrchMatrixConfig := mkOrchMatrix {
  Sets : list (list OrchestratorStrategy); OmStart : Z; OmEnd : Z; OmCapital : float64; OmRebalanceBars : Z; OmKelly : float64;
  OmMaxPositionPct : float64; OmFriction : string
}.

(** [OmError]: the error of an engine that could not be added. *)
Record OrchMatrixResult := mkOrchMatrixResult {
  SetIndex : nat; OmStrategies : list OrchestratorStrategy; OmSharpe : float64; OmSortino : float64; OmMaxDD : float64;
  OmReturn : float64; OmNumTrades : Z; OmStrategyPnL : gmap string float64; OmStatus : string; OmError : option addError;
  RunID : string; Completed : Z; Total : Z
}.

(** A row of orchestration_runs, and the result that is written to it. *)
Record OrchestrationRun := mkOrchRun {
  OrStart : Z; OrEnd : Z; OrCapital : float64; OrStatus : string; StrategyIDs : list string; SymbolTFPairs : list string;
  OrBatchID : string; OrResult : OrchestrationRunResult
}.

Section Batch.
Context {rand : Type}.
Variable NormFloat64 : rand -> float64 * rand.
Variable RandFloat64 : rand -> float64 * rand.
Context {R : Type} `{StrategyRunner R} {SL : SortSlice}.
Variable Create : string -> option R.
Variable Now : Z.
Variable rangePositions : gmap string Trade -> list (string * Trade).
Variable rangeWeights : gmap string float64 -> list (string * float64).
Variable rangeHistories : gmap string (list float64) -> list string.
(** The generator of the [i]th orchestrator, and the identifier its row gets; without a
    repository there is neither. *)
Variable rng : nat -> rand.
Variable rowID : option (nat -> string).

Definition emptyResult : OrchMatrixResult := mkOrchMatrixResult 0 [] 0 0 0 0 0 ∅ "" None "" 0 0.

Definition baseResult (cfg : OrchMatrixConfig) (i : nat) (set_ : list OrchestratorStrategy) (status : string) : OrchMatrixResult :=
  emptyResult <| SetIndex := i |> <| OmStrategies := set_ |> <| OmStatus := status |> <| Completed := (Z.of_nat i + 1)%Z |>
              <| Total := Z.of_nat (length (Sets cfg)) |>.

Definition orchCfg (cfg : OrchMatrixConfig) (set_ : list OrchestratorStrategy) : OrchestratorConfig :=
  mkOrchConfig set_ (OmStart cfg) (OmEnd cfg) (OmCapital cfg) (OmRebalanceBars cfg) (OmKelly cfg) (OmMaxPositionPct cfg) false false 0
    (OmFriction cfg) 0.

(** The first error ends the loop. *)
Fixpoint addAll (o : @Orchestrator rand R) (set_ : list OrchestratorStrategy) : addError + @Orchestrator rand R :=
  match set_ with
  | [] => inr o
  | s :: set_ =>
      match AddStrategy Create o (OsSymbol s) (OsTimeframe s) (OsStrategyID s) with inl e => inl e | inr o => addAll o set_ end
  end.

Definition runOf (cfg : OrchMatrixConfig) (batchID : string) (set_ : list OrchestratorStrategy) (r : OrchestrationRunResult) : OrchestrationRun :=
  mkOrchRun (OmStart cfg) (OmEnd cfg) (OmCapital cfg) "completed" (map OsStrategyID set_)
    (map (fun s => OsSymbol s +:+ ":" +:+ OsTimeframe s) set_) batchID r.

(** The goroutine of one set: its entry, and the row it saves. *)
Definition runSet (db : Database) (cfg : OrchMatrixConfig) (batchID : string) (i : nat) (set_ : list OrchestratorStrategy) :
    option (OrchMatrixResult * option OrchestrationRun) :=
  match addAll (NewOrchestrator (orchCfg cfg set_) (rng i)) set_ with
  | inl e => Some ((baseResult cfg i set_ "failed") <| OmError := Some e |>, None)
  | inr o =>
      '(result, _) ← Run NormFloat64 RandFloat64 Now rangePositions rangeWeights rangeHistories db o;
      let r := (baseResult cfg i set_ "completed") <| OmSharpe := PoolSharpe result |> <| OmSortino := PoolSortino result |>
                 <| OmMaxDD := PoolMaxDD result |> <| OmReturn := PoolReturnPct result |>
                 <| OmNumTrades := Z.of_nat (length (OrTrades result)) |> <| OmStrategyPnL := OrStrategyPnL result |> in
      Some (match rowID with
            | Some id => (r <| RunID := id i |>, Some (runOf cfg batchID set_ result))
            | None => (r, None)
            end)
  end.

Definition outcome (db : Database) (cfg : OrchMatrixConfig) (batchID : string) (i : nat) (set_ : list OrchestratorStrategy) :
    option (OrchMatrixResult * option OrchestrationRun) :=
  match set_ with
  | [] => Some (baseResult cfg i [] "skipped", None)
  | _ => runSet db cfg batchID i set_
  end.

(** The sets that are skipped while the jobs are queued. *)
Definition skipped (cfg : OrchMatrixConfig) : list nat :=
  List.filter (fun i => match Sets cfg !! i with Some [] => true | _ => false end) (seq 0 (length (Sets cfg))).

(** The entries by index, the entries in the order of arrival, and the rows; [order]: the
    order in which the goroutines finish. *)
Definition RunOrchestratorMatrix (db : Database) (cfg : OrchMatrixConfig) (batchID : string) (order : list nat) :
    option (list OrchMatrixResult * list OrchMatrixResult * list OrchestrationRun) :=
  outs ← mapM id (imap (outcome db cfg batchID) (Sets cfg));
  let arrival := skipped cfg ++ order in
  Some (Matrix.fill emptyResult (map fst outs) arrival, omap (fun i => fst <$> outs !! i) arrival,
        omap (fun i => o ← outs !! i; o.2) arrival).

(** ** Laws *)
Section Laws.
Variable db : Database.
Variable cfg : OrchMatrixConfig.
Variable batchID : string.

(** The jobs: the sets that are not empty. *)
Definition jobs : list nat :=
  List.filter (fun i => negb (match Sets cfg !! i with Some [] => true | _ => false end)) (seq 0 (length (Sets cfg))).

Lemma arrival_all order : order ≡ₚ jobs -> skipped cfg ++ order ≡ₚ seq 0 (length (Sets cfg)).
Proof. intros P. rewrite P. apply Retention.filter_split. Qed.

Lemma outcome_shape i set_ o : outcome db cfg batchID i set_ = Some o ->
  SetIndex o.1 = i /\ OmStrategies o.1 = set_ /\
  (OmStatus o.1 = "completed" /\ set_ <> [] /\ OmError o.1 = None \/
   OmStatus o.1 = "failed" /\ is_Some (OmError o.1) /\ o.2 = None \/ OmStatus o.1 = "skipped" /\ set_ = [] /\ o.2 = None)%string /\
  (is_Some o.2 <-> OmStatus o.1 = "completed"%string /\ is_Some rowID).
Proof.
  intros E. destruct set_ as [|s set_].
  - injection E as <-. cbn. do 2 (split; [done|]). split; [by right; right|]. split; [by intros []|by intros []].
  - cbn [outcome] in E. unfold runSet in E. destruct (addAll _ _) as [e|orc].
    + injection E as <-. cbn. do 2 (split; [done|]). split; [by right; left; eauto|]. split; [by intros []|by intros []].
    + destruct (Run _ _ _ _ _ _ db orc) as [[r orc']|]; [|done]. cbn [mbind option_bind] in E.
      destruct rowID as [id|]; injection E as <-; cbn; do 2 (split; [done|]); (split; [by left|]);
        split; try (by intros []); try (by intros [_ []]); eauto.
Qed.

Lemma outcomes_of outs : mapM id (imap (outcome db cfg batchID) (Sets cfg)) = Some outs ->
  length outs = length (Sets cfg) /\
  forall i o, outs !! i = Some o -> exists set_, Sets cfg !! i = Some set_ /\ outcome db cfg batchID i set_ = Some o.
Proof.
  intros E%mapM_Some. split; [by rewrite <- (list.Forall2_length _ _ _ E), list.length_imap|].
  intros i o Ho. destruct (list.Forall2_lookup_r _ _ _ _ _ E Ho) as (x & Hx & Ex). rewrite list.list_lookup_imap in Hx.
  apply fmap_Some in Hx as (set_ & Hs & ->). by exists set_.
Qed.

Lemma omap_seq {A C} (outs : list A) (f : A -> option C) h : forall k, (forall i, h (k + i)%nat = o ← outs !! i; f o) ->
  omap h (seq k (length outs)) = omap f outs.
Proof.
  induction outs as [|o outs IH]; intros k Hh; [done|]. cbn [length seq omap list_omap].
  assert (E := Hh 0%nat). rewrite Nat.add_0_r in E. cbn in E. rewrite E, (IH (S k)); [done|].
  intros i. rewrite Nat.add_succ_l, <- Nat.add_succ_r. by rewrite Hh.
Qed.

Lemma omap_entries {A C} (outs : list A) (f : A -> option C) h l : (forall i, h i = o ← outs !! i; f o) -> l ≡ₚ seq 0 (length outs) ->
  omap h l ≡ₚ omap f outs.
Proof. intros Hh P. rewrite P. by rewrite (omap_seq outs f h 0). Qed.

Lemma omap_Some_map {A C} (g : A -> C) l : omap (fun x => Some (g x)) l = map g l.
Proof. induction l as [|x l IH]; [done|]. cbn. by f_equal. Qed.

(** Whatever the order in which the goroutines finish, the entries by set are the same, one
    for every set; the rows are the same up to their order; and with a repository there is
    one row for every completed set, and none for a failed or an empty one. *)
Theorem orchestrations_order_free order order' : order ≡ₚ jobs -> order' ≡ₚ jobs ->
  match RunOrchestratorMatrix db cfg batchID order, RunOrchestratorMatrix db cfg batchID order' with
  | Some (results, arrived, rows), Some (results', arrived', rows') =>
      results' = results /\ arrived' ≡ₚ arrived /\ rows' ≡ₚ rows /\ arrived ≡ₚ results /\
      (forall i set_, Sets cfg !! i = Some set_ -> exists r, results !! i = Some r /\ SetIndex r = i /\ OmStrategies r = set_) /\
      (is_Some rowID -> length rows = length (List.filter (fun r => bool_decide (OmStatus r = "completed"%string)) results))
  | None, None => True
  | _, _ => False
  end.
Proof.
  intros P P'. unfold RunOrchestratorMatrix. destruct (mapM id _) as [outs|] eqn:E; [|done]. cbn [mbind option_bind].
  destruct (outcomes_of outs E) as [L F]. assert (A := arrival_all order P). assert (A' := arrival_all order' P'). rewrite <- L in A, A'.
  rewrite !Matrix.fill_all by (rewrite length_map; done). split; [done|].
  assert (S1 := omap_entries outs (fun o => Some o.1) (fun i => fst <$> outs !! i)).
  assert (S2 := omap_entries outs snd (fun i => o ← outs !! i; o.2)). rewrite omap_Some_map in S1.
  specialize (fun l => S1 l ltac:(intros i; destruct (outs !! i); reflexivity)) as S1'. specialize (fun l => S2 l ltac:(reflexivity)) as S2'.
  rewrite (S1' _ A), (S1' _ A'), (S2' _ A), (S2' _ A').
  do 3 (split; [done|]). split.
  - intros i set_ Hi. destruct (lookup_lt_is_Some_2 outs i) as [o Ho]; [rewrite L; by eapply lookup_lt_Some|].
    destruct (F i o Ho) as (s & Hs & Eo). rewrite Hi in Hs. injection Hs as <-. exists o.1. rewrite list.list_lookup_fmap, Ho.
    destruct (outcome_shape i set_ o Eo) as (E1 & E2 & _). done.
  - intros Hid. assert (G : Forall (fun o => is_Some o.2 <-> OmStatus o.1 = "completed"%string) outs).
    { apply list.Forall_lookup. intros i o Ho. destruct (F i o Ho) as (s & _ & Eo). destruct (outcome_shape i s o Eo) as (_ & _ & _ & X). tauto. }
    clear - G. induction G as [|[r [row|]] outs Hr G IH]; [done|..]; cbn in *.
    + rewrite bool_decide_eq_true_2 by (apply Hr; eauto). cbn. by f_equal.
    + rewrite bool_decide_eq_false_2; [done|]. intros Ec. by destruct (proj2 Hr Ec).
Qed.
End Laws.
End Batch.
